(* ===== verification/_CoqProject ===== *)
-Q . S2P
Prelude.v
Text.v
WasmBytes.v
Uffd.v
WasmMemory.v
Globals.v
Level.v
OpenMP.v
Pthreads.v
S3.v
Host.v
FileLoader.v
SharedFiles.v
Codegen.v
Natives.v
Compile.v
Wasi.v
FileDescriptor.v
FileSystem.v
WasiIo.v
Env.v
Isolation.v
BaseModules.v
NdpMessages.v
NdpSocket.v
NdpEndpoint.v
NdpWait.v
CephSocket.v
CephClass.v
NdpChannel.v
NdpCalls.v
ModuleCache.v
DynLink.v
LinkInvariant.v
Chaining.v
Lifecycle.v
Tasks.v
Guest.v
StateCalls.v
Mpi.v
Unsupported.v
Network.v
Clocks.v
Ffi.v
WamrIo.v
WamrModule.v
WamrCalls.v
EnvCalls.v
SysCalls.v
Config.v
Faaslet.v
Flush.v
Runner.v
OmpCalls.v
Upload.v
Enclave.v
Attestation.v
Dispatch.v
Startup.v
Symbols.v
