(* ===== verification/Prelude.v ===== *)
(** * Faasm: a model of the worker, with the theorems that make it correct

    Faasm runs serverless functions compiled to WebAssembly.  A worker loads a
    function's machine code from an object store, gives the module a linear
    memory, threads, OpenMP regions and a view of the file system, and executes
    it with WAVM or WAMR.  This development models the worker's own C++ code.
    What it calls (faabric, WAVM, WAMR, librados, the Linux kernel, the WASI
    headers) is a parameter of the definitions: a type class of operations with
    a second class of laws where a theorem relies on documented behaviour, and
    a concrete instance against which the witnesses run.

    ** The files

    - [Prelude] (this file): exceptions, the outcome and state monads, machine
      integers, flags, byte encodings, sums; [Text]: decimal conversions;
      [WasmBytes]: reads and writes of a module's memory.
    - [Uffd]: the userfaultfd memory arena (src/wasm/UffdMemoryArenaManager.cpp
      and its header).  A range keeps a list of permissions by address; the
      manager an ordered set of ranges; the fault handler computes the page to
      fill.
    - [WasmMemory]: the linear memory (src/wasm/WasmModule.cpp,
      src/wavm/WAVMWasmModule.cpp, src/wavm/memory.cpp): growing, shrinking,
      mapping, thread stacks and guard regions, shared state.  [Globals]: the globals of an
      instance, read and set by the low 32 bits of their values
      (src/wavm/WAVMWasmModule.cpp).
    - [Level], [OpenMP]: nesting levels and their byte encoding
      (src/threads/ThreadState.cpp); the OpenMP calls of a module: forks,
      static schedules, master, single and reductions (src/wavm/openmp.cpp);
      [OmpCalls]: the same calls on the memory that a team shares, with flushes,
      devices, atomics and the clock.
    - [Pthreads]: creation and joining of threads, mutexes, futexes
      (src/wavm/threads.cpp and the queue of src/wasm/WasmModule.cpp).
    - [S3]: the client of the object store (src/storage/S3Wrapper.cpp);
      [Host]: the host's files, system calls and configuration;
      [FileLoader]: code, hashes and files in the store with the local cache
      (src/storage/FileLoader.cpp); [SharedFiles]: the table of shared files
      (src/storage/SharedFiles.cpp); [Codegen]: which targets are compiled
      (src/codegen/MachineCodeGenerator.cpp); [Compile]: the compilers behind it
      (src/wavm/codegen.cpp, src/wamr/codegen.cpp).
    - [Wasi], [FileDescriptor], [FileSystem], [WasiIo]: the translation between
      WASI and Linux, an open file, a module's table of open files
      (src/storage/FileDescriptor.cpp, src/storage/FileSystem.cpp) and the WASI
      calls that use them on the module's memory (src/wavm/io.cpp).
    - [Env]: the variables and arguments of a module, their layout in its
      memory and the calls that read them (src/wasm/WasmEnvironment.cpp,
      src/wavm/env.cpp).
    - [Isolation]: control groups and the pool of network namespaces that
      faaslet threads claim (src/system/CGroup.cpp,
      src/system/NetworkNamespace.cpp, src/faaslet/Faaslet.cpp).  [BaseModules]:
      the intrinsic modules that a process makes once, and the module that a
      thread executes (src/wavm/WAVMWasmModule.cpp,
      src/wasm/WasmExecutionContext.cpp).
    - [NdpMessages], [NdpSocket], [NdpEndpoint]: near-data calls, seen from the
      worker on a storage node: the messages (cephclass/cephcomm.fbs), their sizes
      and bytes on a socket (include/cephclass/cephcomm.h) and the endpoint that
      takes or refuses calls and keeps a connection for each
      (src/wasm/ndp_endpoint.cpp); [NdpWait]: the waiting for answers at the grain at
      which threads and the event loop interleave; [CephSocket]: the system calls of
      a socket from its making to its end, and the accept loop.  [CephClass]: the object class of the storage
      daemon (src/cephclass/cephclass.cpp).  [NdpChannel]: the interface between a
      function and its object, implemented by endpoint and class together for one call.
      [NdpCalls]: the calls of near-data functions (src/wavm/ndp_objects.cpp).
    - [ModuleCache]: parsed and compiled modules, and instantiated functions
      (src/wavm/IRModuleCache.cpp, src/wavm/WAVMModuleCache.cpp).  [DynLink]:
      loading shared modules, the global offset table, resolution of imports
      (src/wavm/WAVMWasmModule.cpp, src/wavm/LoadedDynamicModule.cpp,
      src/wavm/dynlink.cpp); [LinkInvariant]: what holds of the loaded modules.
    - [Chaining]: chained calls, input and output, migration
      (src/wasm/chaining_util.cpp, src/wavm/chaining.cpp, src/wavm/faasm.cpp).
      [Guest]: the state of such calls, with a service they use, and when its
      memory is typed.  [StateCalls]: the calls on distributed state
      (src/wavm/faasm.cpp).  [Mpi]: the MPI calls (src/wavm/mpi.cpp).
      [Network]: socket calls (src/wavm/network.cpp).  [Clocks]: clocks and polling
      (src/wavm/timing.cpp).  [Ffi]: dlopen, dlsym and calls through libffi
      (src/wavm/dynlink.cpp).  [Unsupported]: the calls of all files of src/wavm that
      are refused or ignored.  [EnvCalls]: exits, the password entry, names, random
      bytes, statuses and directory entries of the host (src/wavm/env.cpp, io.cpp,
      memory.cpp, process.cpp, signals.cpp).  [SysCalls]: the dispatch of the numbered
      system calls to the handlers of all these files (src/wavm/syscalls.cpp), and mapping
      with the open files (src/wavm/memory.cpp).
    - [Lifecycle]: binding, cloning, resetting and executing a module
      (src/wavm/WAVMWasmModule.cpp, src/wasm/WasmModule.cpp,
      src/faaslet/Faaslet.cpp).  [Tasks]: the task of a message, snapshots of the
      memory (src/wasm/WasmModule.cpp).
    - [WamrIo], [WamrModule], [WamrCalls]: the second runtime (src/wamr): its file
      calls, through native pointers to the same memory; binding and executing a
      module; its calls on the environment, chaining, state and threads.  [Natives]:
      the tables of what modules on WAMR and in the enclave import, with their
      signatures.  [Dispatch]: which operation of a module each runtime replaces
      (src/include/wasm/WasmModule.h).
    - [Config]: the configuration of a worker and the target of its code
      (src/conf/FaasmConfig.cpp).  [Faaslet]: the executors of the worker on an
      interface of their modules (src/faaslet/Faaslet.cpp).  [Flush]: the removal of
      local copies and the clearing of caches (src/storage/FileLoader.cpp,
      src/wavm/WAVMWasmModule.cpp).  [Runner]: the code generating tools with their
      pool of threads, the runners of functions and benchmarks (src/runner).
      [Startup]: joining and leaving the store, and the main of each program
      (src/storage/S3Wrapper.cpp, src/runner).  [Symbols]: the names of the functions
      of a module and the tool that lists them (src/runner/func_sym.cpp).
    - [Upload]: the HTTP server that takes functions, Python functions, shared
      files and state (src/upload/UploadServer.cpp).
    - [Enclave]: the modules inside an SGX enclave, its calls in and out, its use
      of cryptography and the worker's side of it (src/enclave/inside,
      src/enclave/outside/EnclaveInterface.cpp, ocalls.cpp).  [Attestation]: set-up,
      tear-down and remote attestation of the enclave (src/enclave/outside).

    [WasiIo] calls [FileSystem], which calls [FileDescriptor]; that asks
    [SharedFiles] for shared paths, which loads them with [FileLoader] from
    [S3] into the cache of [Host].  [Codegen] uses [FileLoader].  [OpenMP] and
    [Pthreads] start threads on stacks that [WasmMemory] adds, and [Uffd] gives
    the pages behind that memory their permissions.  [DynLink] reaches
    [ModuleCache] through the interface [Registry], and [NdpCalls] the object
    class through the interface [NdpChannel].  The state of a module in
    [Lifecycle] is that of the linker with what linking does not touch as its
    registry; [Tasks] runs it on the stacks of [WasmMemory] with the levels of
    [Level] and the ranges of [Uffd].  [StateCalls] and [Mpi] add the store, or
    the worlds, and the linear memory to the state of [Chaining]; [SysCalls] the
    files, the environment, the sockets, the clocks and the kernel.  [WamrIo] works
    on the state of [WasiIo].  [Faaslet] runs modules, which the worker of [Lifecycle]
    implements, on the threads of [Isolation].  [Flush] empties what [FileLoader],
    [SharedFiles] and [ModuleCache] keep; [Runner] drives [Codegen] and the scheduler of
    [Chaining], and [Startup] runs what it drives between joining and leaving the store;
    [Config] gives [Codegen] its targets and [Compile] its compilers.  [CephSocket] makes
    the connections of [NdpEndpoint] and the bytes of [NdpSocket] go over them.  [Upload] stores with
    [FileLoader] and generates code with [Codegen]; [Enclave] has the arguments of
    WAMR functions of [WamrModule] and is made by [Attestation].

    ** Conventions

    An operation that keeps state is [M S A]: a function from the state to an
    outcome ([Ret] or [Throw] of an exception) and the state it leaves, also
    when it throws.  Each class with state has a record of its fields.  Integers
    are [Z] with the conversions of C++ written out ([u32], [i32], ...: reduction
    to the width); memory is a list of bytes.  [Undefined] stands for behaviour
    C++ does not define.  Logging and profiling are left out, but for an argument of a debug
    message that can throw.  Assertions hold or throw as in a build that has them; a task is
    modelled for builds without them too ([assertion]).

    A call under a lock is one step; where the code drops a lock between two
    halves (creation of mutexes) the halves are steps that interleave.  What the
    OpenMP code tells a group, and the system calls made, are recorded as lists,
    so that their order can be stated.

    Loops over data are structural.  Fuel is used for the listing of a directory
    (the number of entries left plus one is enough), for the loop that makes the
    stacks of a pool (one more than the number of the thread is enough), and for
    the reads that restore a snapshot (the bytes and the interruptions are
    enough), as their theorems state.

    ** The theorems

    - Memory: growing and shrinking are exact or leave the memory unchanged;
      stacks and guard regions are disjoint; permissions are those last set (on lists
      without repeated neighbours), and a memory that grows is accessible up to its end; faults fill a page in
      the range that holds the faulting byte.
    - Threads: static schedules give each iteration to one thread, whole
      chunks in turn, and the last to the thread that is told so; a fork starts
      one thread per number; joins return each thread's result in any order;
      racing creations yield one mutex under every interleaving; a team whose
      threads call in any order, on bounds in the memory they share, shares a loop.
    - Storage: what is uploaded is loaded back, with and without the cache;
      partial reads are slices; clean code generation stores code and hash for
      every target; a synchronised shared file is the one in the store, and the
      state found is stable; with the targets of the configuration the code that
      the host looks up is generated; after a flush a function is loaded from the
      store; a pool of code generating threads does every job once; the compiler of
      WAMR is given back every object it made, and its result depends on its input
      only; a program that ends has left the store, and a store that is left keeps
      no pool open.
    - Files: rights never grow along any sequence of opens and duplications;
      opening yields a fresh number or an error; directory pages are whole entries, with
      at most the header of the next, and the next page resumes there; reads fill the
      buffers of the module in order.
    - Environment: a module that asks for sizes and gives zeroed buffers of
      them finds each variable as a C string.
    - Isolation: in every reachable state namespaces are distinct, whether in
      the pool or held by faaslets (when they are turned on); a task runs on an isolated
      thread or not at all; intrinsic
      modules are made once however the threads that ask for them interleave; a thread
      is told the module of its innermost context.
    - Near-data calls: messages are received whole and in order whatever pieces
      the kernel makes; the endpoint's answer on every branch; a call that waits
      never finds a dangling connection or that of another call, in every
      reachable state; the object class hands requests to the object in
      order until one is refused, answers with the object's results, and never throws; every
      call that waits is served, whatever the interleaving; descriptors of sockets are not
      shared, and lost only where a socket is assigned to another, as long as fcntl works; what a
      function puts is what it maps, on the storage node as far as the node's answers are;
      where a storage call runs and what it leaves, on every response.
    - Modules: a cached module is the one parsed from the store; a function is
      bound once; loaded modules are disjoint in memory and table whatever is
      loaded, as long as the code that loads run lets memory and table only grow; binding
      copies the cached module; a reset erases what a call did to memory and to globals that
      are mutable integers, and leaves the rest; restoring a snapshot gives the memory back in both
      modes of the arena; the answer of a near-data task.
    - Calls: a chained call is handed to the scheduler once, and awaiting it gives what the
      scheduler gives; a module calls the scheduler for its own user only, and, near-data
      calls apart, for its own application, and changes the
      values of its own user only; values written are read back; ranks receive
      the messages sent to them in order and with their counts; MPI calls
      keep the memory typed; system calls change what their numbers and arguments name only; a password entry is C strings in a page
      of its own; socket calls change what they name only; polling sleeps and
      answers in order; a call through libffi passes the integers stored.
    - Two runtimes: a file call that WAVM answers, with pointers that WAMR accepts and
      buffers in the memory, WAMR answers alike and leaves the same memory and files; the exit code of a function on WAMR is the one it
      gave.
    - Uploads: a request is answered once, whatever its handler throws; what is put
      is what is got; code uploaded again generates the code of before (a flaw).
    - Enclaves: a function runs in the enclave as it was loaded and bound; a set-up that
      creates an enclave and returns has attested it, while one that finds an enclave takes
      it as it is, also one whose attestation was refused (a flaw); encryption is undone by decryption.
    - Flaws of the code are stated as theorems about the definitions that have
      them (a permission boundary lost, a failed look-up that sticks, errors
      reported as success, loop extents truncated, namespaces and execution
      slots that are not given back).

    ** Not modelled

    The execution of wasm and what WAVM and WAMR do to link, instantiate and compile
    it; the vendored headers of librados; the texts of the SGX SDK's errors; the
    replacement of the allocator, which only forwards; debugging output; options of the
    command line, which are a library's. *)

From Stdlib Require Export ZArith Lia.
From stdpp Require Export base gmap strings list list_numbers fin_maps numbers pretty.

Declare Scope prog_scope.
Delimit Scope prog_scope with prog.
#[global] Open Scope Z_scope.
#[global] Open Scope prog_scope.

(** * C++ exceptions and the two monads of the model *)

(** The exceptions the modelled code throws or lets through. *)
Inductive exn : Type :=
  | RuntimeError (what : string)
  | LogicError (what : string)
  | OutOfRange (what : string)
  | InvalidArgument (what : string)
  | SystemError (what : string)
  | SharedFileIsDirectory (path : string)
  | SharedFileNotExists (path : string)
  | WasmException (what : string)
  (** what [throw new] throws: a pointer, that no handler for exceptions catches *)
  | ThrownPointer (what : string)
  (** [storage::file_not_found_error] derives privately from the standard
      exceptions, so that no handler for those catches it *)
  | FileNotFoundError (what : string)
  | FunctionMigratedException (what : string)
  | WasmExitException (exitCode : Z)
  | AssertFailed (what : string)
  (** not exceptions: a point where C++ leaves the behaviour undefined, and a
      call that waits for ever *)
  | Undefined (what : string)
  | Blocked (what : string).

(** [e.what()] *)
Definition exn_what (e : exn) : string :=
  match e with
  | RuntimeError w | LogicError w | OutOfRange w | InvalidArgument w | SystemError w
  | SharedFileIsDirectory w | SharedFileNotExists w | WasmException w | ThrownPointer w | FileNotFoundError w
  | FunctionMigratedException w => w
  | WasmExitException _ | AssertFailed _ | Undefined _ | Blocked _ => ""
  end.

(** What [catch (std::exception&)] and [catch (const std::runtime_error&)]
    catch; WAVM throws pointers. *)
Definition is_std_exception (e : exn) : bool :=
  match e with WasmException _ | ThrownPointer _ | FileNotFoundError _ | AssertFailed _ | Undefined _ | Blocked _ => false | _ => true end.
Definition is_runtime_error (e : exn) : bool :=
  match e with RuntimeError _ | SystemError _ => true | _ => false end.

#[export] Instance exn_eq_dec : EqDecision exn.
Proof. solve_decision. Defined.

(** The result of a C++ call: it returns, or it throws. *)
Inductive outcome (A : Type) : Type :=
  | Ret (a : A)
  | Throw (e : exn).
Arguments Ret {A} a.
Arguments Throw {A} e.

#[export] Instance outcome_eq_dec `{EqDecision A} : EqDecision (outcome A).
Proof. solve_decision. Defined.

#[export] Instance Ret_inj A : Inj (=) (=) (@Ret A).
Proof. by intros x y [=]. Qed.

#[export] Instance outcome_ret : MRet outcome := @Ret.
#[export] Instance outcome_bind : MBind outcome := λ A B f o,
  match o with Ret a => f a | Throw e => Throw e end.

(** A call on a mutable state [S].  The state survives an exception, the way
    the members of a C++ object keep what was assigned before a throw. *)
Definition M (S A : Type) : Type := S → outcome A * S.

#[export] Instance M_ret {S} : MRet (M S) := λ A a s, (Ret a, s).
#[export] Instance M_bind {S} : MBind (M S) := λ A B f m s,
  match m s with
  | (Ret a, s') => f a s'
  | (Throw e, s') => (Throw e, s')
  end.

Definition throw {S A} (e : exn) : M S A := λ s, (Throw e, s).
Definition get {S} : M S S := λ s, (Ret s, s).
Definition gets {S A} (f : S → A) : M S A := λ s, (Ret (f s), s).
Definition put {S} (s : S) : M S unit := λ _, (Ret (), s).
Definition modify {S} (f : S → S) : M S unit := λ s, (Ret (), f s).
Definition lift {S A} (o : outcome A) : M S A := λ s, (o, s).
(** [assert], which a build with [NDEBUG] leaves out *)
Definition assertion {S} (ndebug : bool) (what : string) (c : bool) : M S unit := λ s,
  (if ndebug || c then Ret () else Throw (AssertFailed what), s).
(** [try { m } catch (e) { h e }] *)
Definition try_catch {S A} (m : M S A) (h : exn → M S A) : M S A := λ s,
  match m s with
  | (Ret a, s') => (Ret a, s')
  | (Throw e, s') => h e s'
  end.
(** [try { m } catch (std::exception& e) { h e }], and the same for
    [std::runtime_error]. *)
Definition try_catch_std {S A} (m : M S A) (h : exn → M S A) : M S A :=
  try_catch m (λ e, if is_std_exception e then h e else throw e).
Definition try_catch_runtime {S A} (m : M S A) (h : exn → M S A) : M S A :=
  try_catch m (λ e, if is_runtime_error e then h e else throw e).
Definition when {S} (b : bool) (m : M S unit) : M S unit :=
  if b then m else mret ().

(** Running a call on a part of a larger state. *)
Definition zoom {S T A} (getT : S → T) (setT : T → S → S) (m : M T A) : M S A :=
  λ s, let '(o, t) := m (getT s) in (o, setT t s).

(** [for (x : xs) body(x)] *)
Fixpoint for_each {S A} (xs : list A) (body : A → M S unit) : M S unit :=
  match xs with
  | [] => mret ()
  | x :: xs' => body x ;; for_each xs' body
  end.

(** Collecting the results of a call per element. *)
Fixpoint map_each {S A B} (xs : list A) (f : A → M S B) : M S (list B) :=
  match xs with
  | [] => mret []
  | x :: xs' => y ← f x; ys ← map_each xs' f; mret (y :: ys)
  end.

Section monad_laws.
Context {S A B C : Type}.

Lemma bind_ret_l (a : A) (f : A → M S B) : (mret a ≫= f) = f a.
Proof. reflexivity. Qed.

Lemma run_bind (m : M S A) (f : A → M S B) s :
  (m ≫= f) s = match m s with
               | (Ret a, s') => f a s'
               | (Throw e, s') => (Throw e, s')
               end.
Proof. reflexivity. Qed.

Lemma run_bind_ret (m : M S A) (f : A → M S B) s a s' :
  m s = (Ret a, s') → (m ≫= f) s = f a s'.
Proof. intros Hm. by rewrite run_bind, Hm. Qed.

Lemma run_bind_throw (m : M S A) (f : A → M S B) s e s' :
  m s = (Throw e, s') → (m ≫= f) s = (Throw e, s').
Proof. intros Hm. by rewrite run_bind, Hm. Qed.

Lemma run_bind_inv (m : M S A) (f : A → M S B) s b s' :
  (m ≫= f) s = (Ret b, s') → ∃ a s1, m s = (Ret a, s1) ∧ f a s1 = (Ret b, s').
Proof.
  rewrite run_bind. destruct (m s) as [[a | e] s1] eqn:Hm; [|done].
  intros Hf. by exists a, s1.
Qed.

Lemma run_bind_assoc (m : M S A) (f : A → M S B) (g : B → M S C) s :
  ((m ≫= f) ≫= g) s = (m ≫= λ a, f a ≫= g) s.
Proof. unfold mbind, M_bind. by destruct (m s) as [[a | e] s1]. Qed.
End monad_laws.

(** A run whose result is known, with the state it computes. *)
Lemma run_fst {S A} (m : M S A) s o : (m s).1 = o → m s = (o, (m s).2).
Proof. intros <-. apply surjective_pairing. Qed.

Lemma for_each_app {S A} (xs ys : list A) (body : A → M S unit) s :
  for_each (xs ++ ys) body s = (for_each xs body ;; for_each ys body) s.
Proof.
  revert s. induction xs as [|x xs IH]; intros s; [done|].
  cbn [for_each app]. rewrite !run_bind.
  destruct (body x s) as [[[] | e] s1]; [|done]. by rewrite IH, run_bind.
Qed.

(** An invariant kept by the body is kept by the loop, whether or not it
    throws. *)
Lemma for_each_ext {S A} (xs : list A) (f g : A → M S unit) s :
  (∀ x, x ∈ xs → ∀ s, f x s = g x s) → for_each xs f s = for_each xs g s.
Proof.
  revert s. induction xs as [|x xs IH]; intros s Hfg; [done|]. cbn [for_each].
  rewrite !run_bind, (Hfg x) by constructor. destruct (g x s) as [[]]; [|done].
  apply IH. intros y Hy. apply Hfg. by constructor.
Qed.
Lemma for_each_invariant {S A} (I : S → Prop) (xs : list A) (body : A → M S unit) :
  (∀ x s, x ∈ xs → I s → I (body x s).2) →
  ∀ s, I s → I (for_each xs body s).2.
Proof.
  induction xs as [|x xs IH]; intros Hbody s Hs; [done|].
  cbn [for_each]. rewrite run_bind.
  assert (I (body x s).2) as Hx by (apply Hbody; [left | done]).
  destruct (body x s) as [[[] | e] s1]; [|done].
  apply IH; [|done]. intros y s2 Hy. apply Hbody. by right.
Qed.

(** [m] keeps [R]: the state it leaves, also when it throws, is related to the one
    it found.  With a preorder, composed calls keep what their parts keep. *)
Definition keeps {S A} (R : relation S) (m : M S A) : Prop := ∀ s, R s (m s).2.

Section keeps.
Context {S : Type} (R : relation S) `{!PreOrder R}.

Lemma keeps_ret {A} (a : A) : keeps R (mret a).
Proof. intros s. cbn. reflexivity. Qed.
Lemma keeps_throw {A} e : keeps R (throw (A := A) e).
Proof. intros s. cbn. reflexivity. Qed.
Lemma keeps_lift {A} (o : outcome A) : keeps R (lift o).
Proof. intros s. cbn. reflexivity. Qed.
Lemma keeps_lift_bind {A B} (o : outcome A) (f : A → M S B) :
  (∀ a, o = Ret a → keeps R (f a)) → keeps R (lift o ≫= f).
Proof. intros Hf. destruct o as [a|e]; [exact (Hf a eq_refl)|exact (keeps_throw e)]. Qed.
Lemma keeps_gets {A} (f : S → A) : keeps R (gets f).
Proof. intros s. cbn. reflexivity. Qed.
Lemma keeps_modify (f : S → S) : (∀ s, R s (f s)) → keeps R (modify f).
Proof. intros Hf s. apply Hf. Qed.
Lemma keeps_bind {A B} (m : M S A) (f : A → M S B) :
  keeps R m → (∀ a, keeps R (f a)) → keeps R (m ≫= f).
Proof.
  intros Hm Hf s. rewrite run_bind. specialize (Hm s). destruct (m s) as [[a|e] s1]; [|done].
  transitivity s1; [done|apply Hf].
Qed.
Lemma keeps_get_bind {A} (f : S → M S A) : (∀ s, R s (f s s).2) → keeps R (get ≫= f).
Proof. intros Hf s. apply Hf. Qed.
Lemma keeps_get {A} (f : S → M S A) : (∀ s, keeps R (f s)) → keeps R (get ≫= f).
Proof. intros Hf s. exact (Hf s s). Qed.
Lemma keeps_map_each {A B} (xs : list A) (f : A → M S B) :
  (∀ x, keeps R (f x)) → keeps R (map_each xs f).
Proof.
  intros Hf. induction xs as [|x xs IH]; cbn [map_each]; [apply keeps_ret|].
  apply keeps_bind; [done|]. intros y. apply keeps_bind; [done|]. intros ys. apply keeps_ret.
Qed.
Lemma keeps_for_each {A} (xs : list A) (f : A → M S unit) :
  (∀ x, keeps R (f x)) → keeps R (for_each xs f).
Proof.
  intros Hf. induction xs as [|x xs IH]; cbn [for_each]; [apply keeps_ret|].
  by apply keeps_bind.
Qed.
End keeps.

Create HintDb keeps.
#[export] Hint Resolve keeps_ret keeps_throw keeps_lift keeps_gets keeps_modify keeps_bind
  keeps_map_each keeps_for_each : keeps.

(** [run] unfolds one layer of a handler applied to a state. *)
Ltac run_unfold :=
  repeat (unfold mbind, M_bind, mret, M_ret, outcome_bind, outcome_ret, throw,
    get, gets, put, modify, lift, when, zoom, try_catch in *; cbn in *).

(** * Machine integers

    A [w]-bit C++ integer is a [Z]; [wrapU] and [wrapS] are the conversions to
    the unsigned and the two's-complement signed type of that width. *)

Definition wrapU (w x : Z) : Z := x mod 2 ^ w.
Definition wrapS (w x : Z) : Z := (x + 2 ^ (w - 1)) mod 2 ^ w - 2 ^ (w - 1).

Abbreviation u8 := (wrapU 8).
Abbreviation u16 := (wrapU 16).
Abbreviation u32 := (wrapU 32).
Abbreviation u64 := (wrapU 64).
Abbreviation i32 := (wrapS 32).
Abbreviation i64 := (wrapS 64).

Definition UINT32_MAX : Z := 2 ^ 32 - 1.
Definition UINTPTR_MAX : Z := 2 ^ 64 - 1.
Definition INT32_MAX : Z := 2 ^ 31 - 1.

(** Linux's <sys/mman.h> *)
Definition PROT_READ : Z := 1.
Definition PROT_WRITE : Z := 2.
Definition PROT_EXEC : Z := 4.

(** Linux's <errno.h> *)
Definition EPERM : Z := 1.
Definition ENOENT : Z := 2.
Definition EINTR : Z := 4.
Definition EAGAIN : Z := 11.
Definition EINPROGRESS : Z := 115.
Definition EIO : Z := 5.
Definition EBADF : Z := 9.
Definition ENOMEM : Z := 12.
Definition EACCES : Z := 13.
Definition EEXIST : Z := 17.
Definition ENOTDIR : Z := 20.
Definition EISDIR : Z := 21.
Definition EINVAL : Z := 22.
Definition ETIMEDOUT : Z := 110.
Definition EMFILE : Z := 24.
Definition ERANGE : Z := 34.

Definition in_u (w x : Z) : Prop := 0 ≤ x < 2 ^ w.
Definition in_s (w x : Z) : Prop := - 2 ^ (w - 1) ≤ x < 2 ^ (w - 1).

Lemma wrapU_id w x : in_u w x → wrapU w x = x.
Proof. intros H. by apply Z.mod_small. Qed.

Lemma wrapU_range w x : 0 ≤ w → in_u w (wrapU w x).
Proof. intros Hw. apply Z.mod_pos_bound. by apply Z.pow_pos_nonneg. Qed.

Lemma wrapS_range w x : 0 < w → in_s w (wrapS w x).
Proof.
  intros Hw. unfold in_s, wrapS.
  assert (2 ^ w = 2 * 2 ^ (w - 1)) as Hp.
  { rewrite <- Z.pow_succ_r by lia. f_equal. lia. }
  pose proof (Z.mod_pos_bound (x + 2 ^ (w - 1)) (2 ^ w)) as Hm.
  assert (0 < 2 ^ w) by (apply Z.pow_pos_nonneg; lia). lia.
Qed.

Lemma wrapS_id w x : 0 < w → in_s w x → wrapS w x = x.
Proof.
  intros Hw [Hl Hu]. unfold wrapS.
  assert (2 ^ w = 2 * 2 ^ (w - 1)) as Hp.
  { rewrite <- Z.pow_succ_r by lia. f_equal. lia. }
  rewrite Z.mod_small; lia.
Qed.

Lemma wrapU_mod_divide w x d :
  0 ≤ w → 0 < d → (d | 2 ^ w) → wrapU w x mod d = x mod d.
Proof.
  intros Hw Hd Hdiv. unfold wrapU.
  by apply Z.mod_mod_divide.
Qed.

Create HintDb word discriminated.
Create Rewrite HintDb word.
#[export] Hint Resolve wrapU_range wrapS_range : word.
#[export] Hint Rewrite wrapU_id wrapS_id using (unfold in_u, in_s in *; lia) : word.

(** [wsimp] removes the wrap-around of an integer that [lia] sees in range. *)
Ltac wsimp := repeat first
  [ rewrite wrapU_id by (unfold in_u in *; lia)
  | rewrite wrapS_id by (first [lia | unfold in_s in *; lia]) ].

(** [lia] on goals with division and remainder. *)
Ltac dlia := Z.to_euclidean_division_equations; lia.

(** Products by a factor between [0] and a bound stay between [0] and the
    product by the bound. *)
Lemma mul_between a b c :
  0 ≤ a ≤ b → 0 ≤ c * a ≤ c * b ∨ c * b ≤ c * a ≤ 0.
Proof.
  intros [Ha Hab]. destruct (Z.le_gt_cases 0 c).
  - left. split; [by apply Z.mul_nonneg_nonneg|by apply Z.mul_le_mono_nonneg_l].
  - right. split; [apply Z.mul_le_mono_nonpos_l; lia|apply Z.mul_nonpos_nonneg; lia].
Qed.

(** * Bit masks *)

(** [flags & mask] used as a condition *)
Definition has_bits (flags mask : Z) : bool := negb (Z.land flags mask =? 0).

Lemma has_bits_lor flags m1 m2 :
  has_bits flags (Z.lor m1 m2) = has_bits flags m1 || has_bits flags m2.
Proof.
  unfold has_bits. rewrite Z.land_lor_distr_r.
  destruct (Z.eqb_spec (Z.lor (Z.land flags m1) (Z.land flags m2)) 0) as [H|H].
  - apply Z.lor_eq_0_iff in H as [-> ->]. done.
  - destruct (Z.eqb_spec (Z.land flags m1) 0) as [H1|], (Z.eqb_spec (Z.land flags m2) 0) as [H2|]; try done.
    exfalso. apply H. by rewrite H1, H2.
Qed.

(** Rounding down to a power of two: [x & ~(2^k - 1)] at width [w]. *)
Lemma land_high_bits w k x :
  0 ≤ k ≤ w → 0 ≤ x < 2 ^ w → Z.land x (2 ^ w - 2 ^ k) = x - x mod 2 ^ k.
Proof.
  intros Hk Hx.
  assert (2 ^ w - 2 ^ k = Z.shiftl (Z.ones (w - k)) k) as ->.
  { rewrite Z.shiftl_mul_pow2, Z.ones_equiv by lia.
    replace (2 ^ w) with (2 ^ (w - k) * 2 ^ k) by (rewrite <- Z.pow_add_r by lia; f_equal; lia).
    lia. }
  rewrite Zmod_eq by (apply Z.lt_gt, Z.pow_pos_nonneg; lia).
  replace (x - (x - x / 2 ^ k * 2 ^ k)) with (x / 2 ^ k * 2 ^ k) by lia.
  rewrite <- Z.shiftl_mul_pow2, <- Z.shiftr_div_pow2 by lia.
  apply Z.bits_inj'. intros n Hn. rewrite Z.land_spec, !Z.shiftl_spec by done.
  destruct (Z.ltb_spec n k) as [Hnk|Hnk].
  - rewrite !(Z.testbit_neg_r _ (n - k)) by lia. by rewrite andb_false_r.
  - rewrite Z.shiftr_spec by lia. replace (n - k + k) with n by lia.
    destruct (Z.ltb_spec n w) as [Hnw|Hnw].
    + rewrite Z.ones_spec_low by lia. by rewrite andb_true_r.
    + destruct (decide (x = 0)) as [->|Hx0]; [by rewrite Z.bits_0|].
      rewrite (Z.bits_above_log2 x n); [done|lia|].
      apply Z.log2_lt_pow2; [lia|]. eapply Z.lt_le_trans; [apply Hx|].
      apply Z.pow_le_mono_r; lia.
Qed.

(** [a] holds no bit that [b] does not hold. *)
Definition bits_sub (a b : Z) : Prop := Z.land a b = a.

Lemma bits_sub_refl a : bits_sub a a.
Proof. apply Z.land_diag. Qed.

Lemma bits_sub_trans a b c : bits_sub a b → bits_sub b c → bits_sub a c.
Proof.
  unfold bits_sub. intros Hab Hbc. rewrite <- Hab at 1.
  by rewrite <- Z.land_assoc, Hbc.
Qed.

Lemma bits_sub_land_l a b : bits_sub (Z.land a b) a.
Proof.
  unfold bits_sub. rewrite <- Z.land_assoc, (Z.land_comm b a), Z.land_assoc.
  by rewrite Z.land_diag.
Qed.

Lemma bits_sub_land_r a b : bits_sub (Z.land a b) b.
Proof. unfold bits_sub. by rewrite <- Z.land_assoc, Z.land_diag. Qed.

#[export] Instance bits_sub_preorder : PreOrder bits_sub.
Proof. split; [exact bits_sub_refl | exact bits_sub_trans]. Qed.

Create HintDb bits discriminated.
#[export] Hint Resolve bits_sub_refl bits_sub_land_l bits_sub_land_r : bits.

(** * Strings *)

(** [std::to_string] of an integer, [std::string::size] *)
Definition to_string (z : Z) : string := pretty z.
Definition str_size (s : string) : Z := Z.of_nat (String.length s).

Lemma str_size_app s t : str_size (s +:+ t) = str_size s + str_size t.
Proof.
  unfold str_size. enough (String.length (s +:+ t) = (String.length s + String.length t)%nat) by lia.
  induction s as [|a s IH]; [done|]. change (S (String.length (s +:+ t)) = S (String.length s + String.length t)). by f_equal.
Qed.

Lemma str_app_assoc (s t u : string) : (s +:+ t) +:+ u = s +:+ (t +:+ u).
Proof.
  induction s as [|a s IH]; [done|].
  change (String a ((s +:+ t) +:+ u) = String a (s +:+ (t +:+ u))). by f_equal.
Qed.

Lemma str_size_nonneg s : 0 ≤ str_size s.
Proof. unfold str_size. lia. Qed.

(** * Lists *)

(** A sum over a list with one element replaced. *)
Lemma sum_list_insert {A} (f : A → nat) (i : nat) x y l :
  l !! i = Some x → (sum_list_with f (<[i := y]> l) + f x = sum_list_with f l + f y)%nat.
Proof.
  revert i. induction l as [|z l IH]; intros [|i] Hi; [done..| |].
  - injection Hi as ->. cbn [insert list_insert sum_list_with]. lia.
  - pose proof (IH i Hi) as IH'. change (<[S i := y]> (z :: l)) with (z :: <[i := y]> l).
    cbn [sum_list_with]. lia.
Qed.

(** The sum of [f] over a list. *)
Definition sumZ {A} (f : A → Z) (l : list A) : Z := foldr (λ x n, f x + n) 0 l.

Lemma sumZ_app {A} (f : A → Z) l k : sumZ f (l ++ k) = sumZ f l + sumZ f k.
Proof. induction l as [|x l IH]; cbn; [done|]. fold (sumZ f) in *. unfold sumZ in *. lia. Qed.

Lemma sumZ_nonneg {A} (f : A → Z) l : (∀ x, 0 ≤ f x) → 0 ≤ sumZ f l.
Proof. intros Hf. induction l as [|x l IH]; cbn; [done|]. specialize (Hf x). unfold sumZ in IH. lia. Qed.

Lemma sumZ_ext {A} (f g : A → Z) l : (∀ x, f x = g x) → sumZ f l = sumZ g l.
Proof. intros Hf. induction l as [|x l IH]; cbn; [done|]. unfold sumZ in *. by rewrite Hf, IH. Qed.


(** * Bytes

    Memory is a list of bytes, each a [Z] below 256; integers are little
    endian, as on the x86-64 hosts and in wasm. *)

Definition le32 (x : Z) : list Z := Z_to_little_endian 4 8 x.

(** Reading a byte string as consecutive 32-bit words. *)
Fixpoint words32 (bs : list Z) : list Z :=
  match bs with
  | b0 :: b1 :: b2 :: b3 :: rest => little_endian_to_Z 8 [b0; b1; b2; b3] :: words32 rest
  | _ => []
  end.

Lemma length_le32 x : length (le32 x) = 4%nat.
Proof. pose proof (length_Z_to_little_endian 4 8 x). unfold le32. lia. Qed.

Lemma le32_u32 x : le32 (wrapU 32 x) = le32 x.
Proof.
  unfold le32 at 2.
  rewrite <- (Z_to_little_endian_to_Z 4 8 (Z_to_little_endian 4 8 x));
    [|by rewrite length_Z_to_little_endian|lia|by apply Z_to_little_endian_bound].
  by rewrite little_endian_to_Z_to_little_endian by lia.
Qed.

Lemma words32_le32 x bs : words32 (le32 x ++ bs) = wrapU 32 x :: words32 bs.
Proof.
  pose proof (little_endian_to_Z_to_little_endian 4 8 x ltac:(lia) ltac:(lia)) as H.
  pose proof (length_le32 x) as Hl. fold (le32 x) in H.
  destruct (le32 x) as [|b0 [|b1 [|b2 [|b3 [|]]]]]; try done.
  cbn [app words32]. by rewrite H.
Qed.

Lemma words32_flat_map xs : words32 (flat_map le32 xs) = map (wrapU 32) xs.
Proof.
  induction xs as [|x xs IH]; [done|].
  cbn [flat_map map]. by rewrite words32_le32, IH.
Qed.

Lemma length_flat_map_le32 xs : length (flat_map le32 xs) = (4 * length xs)%nat.
Proof.
  induction xs as [|x xs IH]; [done|]. cbn [flat_map length].
  rewrite length_app, length_le32, IH. lia.
Qed.

Lemma wrapS_wrapU w x : 0 < w → wrapS w (wrapU w x) = wrapS w x.
Proof.
  intros Hw. unfold wrapS, wrapU. f_equal.
  by rewrite Zplus_mod_idemp_l.
Qed.

Lemma wrapS_add_l w x y : 0 < w → wrapS w (wrapS w x + y) = wrapS w (x + y).
Proof.
  intros Hw. unfold wrapS. f_equal.
  replace ((x + 2 ^ (w - 1)) mod 2 ^ w - 2 ^ (w - 1) + y + 2 ^ (w - 1))
    with ((x + 2 ^ (w - 1)) mod 2 ^ w + y) by lia.
  rewrite Zplus_mod_idemp_l. f_equal. lia.
Qed.
