(* ===== verification/Text.v ===== *)
(** The text conversions of the C++ library that the code relies on to carry
    integers in messages: [std::stoi] reads what [std::to_string] prints. *)

From Stdlib Require Import Ascii.
From S2P Require Import Prelude.

Definition digit_val (a : ascii) : Z := Z.of_nat (nat_of_ascii a) - 48.
Definition is_digit (a : ascii) : bool := (0 <=? digit_val a) && (digit_val a <=? 9).
Definition is_space (a : ascii) : bool :=
  let n := nat_of_ascii a in (n =? 32)%nat || ((9 <=? n)%nat && (n <=? 13)%nat).

Fixpoint skip_spaces (s : string) : string :=
  match s with
  | String a s' => if is_space a then skip_spaces s' else s
  | EmptyString => s
  end.

(** The number at the head of [s], in base ten, after [acc]. *)
Fixpoint parse_digits (acc : Z) (s : string) : Z :=
  match s with
  | String a s' => if is_digit a then parse_digits (10 * acc + digit_val a) s' else acc
  | EmptyString => acc
  end.

Definition starts_with_digit (s : string) : bool :=
  match s with String a _ => is_digit a | EmptyString => false end.

(** [std::stoi] in base ten. *)
Definition stoi (s : string) : outcome Z :=
  let s := skip_spaces s in
  let '(neg, s) :=
    match s with
    | String a s' =>
        if Ascii.eqb a "-"%char then (true, s')
        else if Ascii.eqb a "+"%char then (false, s') else (false, s)
    | EmptyString => (false, s)
    end in
  if negb (starts_with_digit s) then Throw (InvalidArgument "stoi")
  else
    let v := if neg : bool then - parse_digits 0 s else parse_digits 0 s in
    if (- 2 ^ 31 <=? v) && (v <? 2 ^ 31) then Ret v else Throw (OutOfRange "stoi").

Lemma pretty_N_char_digit x :
  (x < 10)%N → is_digit (pretty_N_char x) = true ∧ digit_val (pretty_N_char x) = Z.of_N x.
Proof.
  intros H. assert (x = 0 ∨ x = 1 ∨ x = 2 ∨ x = 3 ∨ x = 4 ∨ x = 5 ∨ x = 6 ∨ x = 7 ∨ x = 8
    ∨ x = 9)%N as Hx by lia.
  destruct_or! Hx; subst x; done.
Qed.

Lemma pretty_N_go_digits x s :
  parse_digits 0 (pretty_N_go x s) = parse_digits (Z.of_N x) s ∧
  ((0 < x)%N → starts_with_digit (pretty_N_go x s) = true) ∧
  (starts_with_digit s = true → starts_with_digit (pretty_N_go x s) = true).
Proof.
  revert s. induction (N.lt_wf_0 x) as [x _ IH]; intros s.
  assert (x = 0 ∨ 0 < x)%N as [->|Hx] by lia; [by rewrite pretty_N_go_0|].
  rewrite pretty_N_go_step by done.
  destruct (pretty_N_char_digit (x mod 10)) as [Hd Hv]; [by apply N.mod_lt|].
  destruct (IH (x / 10)%N ltac:(by apply N.div_lt) (String (pretty_N_char (x mod 10)) s))
    as (Hp & _ & Hs).
  assert (starts_with_digit (pretty_N_go (x / 10) (String (pretty_N_char (x mod 10)) s)) = true)
    as Hstart by (apply Hs, Hd).
  repeat split; try done.
  rewrite Hp. cbn [parse_digits]. rewrite Hd, Hv. f_equal.
  pose proof (N.div_mod x 10). lia.
Qed.

Lemma pretty_N_digits x :
  parse_digits 0 (pretty x) = Z.of_N x ∧ starts_with_digit (pretty x) = true.
Proof.
  unfold pretty, pretty_N. destruct (decide (x = 0%N)) as [->|Hx]; [done|].
  destruct (pretty_N_go_digits x "") as (Hp & Hs & _). split; [done|apply Hs; lia].
Qed.

Lemma digit_not_special a : is_digit a = true →
  is_space a = false ∧ Ascii.eqb a "-"%char = false ∧ Ascii.eqb a "+"%char = false.
Proof.
  unfold is_digit, is_space, digit_val. intros H.
  apply andb_prop in H as [H1%Z.leb_le H2%Z.leb_le].
  split.
  - destruct (Nat.eqb_spec (nat_of_ascii a) 32); [lia|].
    destruct (Nat.leb_spec 9 (nat_of_ascii a)), (Nat.leb_spec (nat_of_ascii a) 13); lia || done.
  - split.
    + destruct (Ascii.eqb_spec a "-"%char) as [->|]; [by revert H1; vm_compute; congruence|done].
    + destruct (Ascii.eqb_spec a "+"%char) as [->|]; [by revert H1; vm_compute; congruence|done].
Qed.

(** An integer printed by [std::to_string] is read back by [std::stoi]. *)
Lemma stoi_to_string z : in_s 32 z → stoi (to_string z) = Ret z.
Proof.
  intros Hz. unfold in_s in Hz. change (32 - 1) with 31 in Hz.
  assert ((- 2 ^ 31 <=? z) && (z <? 2 ^ 31) = true) as Hr
    by (apply andb_true_intro; split; [apply Z.leb_le|apply Z.ltb_lt]; lia).
  assert (∀ p, pretty (Npos p) ≠ "" ∧ parse_digits 0 (pretty (Npos p)) = Z.pos p ∧
    starts_with_digit (pretty (Npos p)) = true) as Hpos.
  { intros p. destruct (pretty_N_digits (Npos p)) as [? Hs]. split; [by intros He; rewrite He in Hs|done]. }
  destruct z as [|p|p]; [done|..]; unfold to_string, pretty, pretty_Z.
  - destruct (Hpos p) as (_ & Hp & Hs). unfold stoi.
    change (pretty p) with (pretty (Npos p)).
    destruct (pretty (Npos p)) as [|a s]; [done|].
    destruct (digit_not_special a Hs) as (Hsp & Hm & Hpl).
    cbn [skip_spaces]. rewrite Hsp, Hm, Hpl, Hs. cbn [negb]. by rewrite Hp, Hr.
  - destruct (Hpos p) as (_ & Hp & Hs). unfold stoi.
    change (pretty p) with (pretty (Npos p)).
    change ("-" +:+ pretty (Npos p)) with (String "-"%char (pretty (Npos p))).
    cbn [skip_spaces]. change (is_space "-"%char) with false. cbn iota.
    change (Ascii.eqb "-"%char "-"%char) with true. cbn iota.
    rewrite Hs. cbn [negb]. rewrite Hp. change (- Z.pos p) with (Z.neg p). by rewrite Hr.
Qed.
