(* ===== verification/WasmBytes.v ===== *)
(** The bytes of a wasm memory as the system calls see them: reads and writes
    of ranges, 32-bit words and C strings at an offset.  A range outside the
    memory is WAVM's out-of-bounds exception. *)

From Stdlib Require Import Ascii.
From S2P Require Import Prelude.

Abbreviation Mem := (list Z).

Definition oob : exn := WasmException "outOfBoundsMemoryAccess".
(** [throwException(Runtime::ExceptionTypes::calledUnimplementedIntrinsic)] *)
Definition unimplemented {S A} : M S A := throw (WasmException "calledUnimplementedIntrinsic").

Definition mem_size (m : Mem) : Z := Z.of_nat (length m).
Definition in_mem (m : Mem) (a n : Z) : bool := (0 <=? a) && (a + n <=? mem_size m).

Definition mem_read (m : Mem) (a n : Z) : outcome (list Z) :=
  if in_mem m a n then Ret (take (Z.to_nat n) (drop (Z.to_nat a) m)) else Throw oob.

Definition mem_write (m : Mem) (a : Z) (bs : list Z) : outcome Mem :=
  if in_mem m a (Z.of_nat (length bs))
  then Ret (take (Z.to_nat a) m ++ bs ++ drop (Z.to_nat a + length bs) m)
  else Throw oob.

(** [memoryRef<I32>(memory, a)], read as a signed integer and written. *)
Definition load_i32 (m : Mem) (a : Z) : outcome Z :=
  bs ← mem_read m a 4; Ret (wrapS 32 (little_endian_to_Z 8 bs)).
Definition load_u32 (m : Mem) (a : Z) : outcome Z :=
  bs ← mem_read m a 4; Ret (little_endian_to_Z 8 bs).
Definition store_i32 (m : Mem) (a v : Z) : outcome Mem := mem_write m a (le32 v).

Lemma in_mem_true m a n : in_mem m a n = true ↔ 0 ≤ a ∧ a + n ≤ mem_size m.
Proof. unfold in_mem. rewrite andb_true_iff, !Z.leb_le. done. Qed.

Lemma mem_write_ret m a bs :
  0 ≤ a → a + Z.of_nat (length bs) ≤ mem_size m →
  mem_write m a bs = Ret (take (Z.to_nat a) m ++ bs ++ drop (Z.to_nat a + length bs) m).
Proof.
  intros Ha Hb. unfold mem_write.
  by rewrite (proj2 (in_mem_true m a (Z.of_nat (length bs))) (conj Ha Hb)).
Qed.

Lemma mem_write_inv m a bs m' :
  mem_write m a bs = Ret m' →
  0 ≤ a ∧ a + Z.of_nat (length bs) ≤ mem_size m ∧
  m' = take (Z.to_nat a) m ++ bs ++ drop (Z.to_nat a + length bs) m.
Proof.
  unfold mem_write. destruct (in_mem _ _ _) eqn:Hin; [|done].
  apply in_mem_true in Hin as [Ha Hb]. by intros [= <-].
Qed.

(** A write keeps the size of the memory and every byte outside its range. *)
Lemma mem_write_size m a bs m' : mem_write m a bs = Ret m' → mem_size m' = mem_size m.
Proof.
  intros (Ha & Hb & ->)%mem_write_inv. unfold mem_size in *.
  rewrite !length_app, length_take, length_drop. lia.
Qed.

Lemma mem_write_lookup_out m a bs m' (i : nat) :
  mem_write m a bs = Ret m' →
  Z.of_nat i < a ∨ a + Z.of_nat (length bs) ≤ Z.of_nat i → m' !! i = m !! i.
Proof.
  intros (Ha & Hb & ->)%mem_write_inv Hi. unfold mem_size in Hb.
  destruct Hi as [Hi|Hi].
  - rewrite lookup_app_l by (rewrite length_take; lia). apply lookup_take_lt. lia.
  - rewrite lookup_app_r by (rewrite length_take; lia).
    rewrite length_take, lookup_app_r by lia. rewrite lookup_drop. f_equal. lia.
Qed.

Lemma mem_write_lookup_in m a bs m' (i : nat) :
  mem_write m a bs = Ret m' → (i < length bs)%nat → m' !! (Z.to_nat a + i)%nat = bs !! i.
Proof.
  intros (Ha & Hb & ->)%mem_write_inv Hi. unfold mem_size in Hb.
  rewrite lookup_app_r by (rewrite length_take; lia).
  rewrite length_take, lookup_app_l by lia. f_equal. lia.
Qed.

(** What was written is read back. *)
Lemma mem_read_write m a bs m' :
  mem_write m a bs = Ret m' → mem_read m' a (Z.of_nat (length bs)) = Ret bs.
Proof.
  intros Hw. pose proof (mem_write_size _ _ _ _ Hw) as Hsz.
  apply mem_write_inv in Hw as (Ha & Hb & ->). unfold mem_read.
  rewrite (proj2 (in_mem_true _ a (Z.of_nat (length bs)))) by (rewrite Hsz; done).
  unfold mem_size in *. f_equal.
  rewrite drop_app_length' by (rewrite length_take; lia).
  apply take_app_length'. lia.
Qed.

(** A read does not see a write to a disjoint range. *)
Lemma mem_read_write_disjoint m a bs m' b n :
  mem_write m a bs = Ret m' → 0 ≤ n →
  b + n ≤ a ∨ a + Z.of_nat (length bs) ≤ b →
  mem_read m' b n = mem_read m b n.
Proof.
  intros Hw Hn Hd. pose proof (mem_write_size _ _ _ _ Hw) as Hsz.
  unfold mem_read, in_mem. rewrite Hsz.
  destruct (Z.leb_spec 0 b), (Z.leb_spec (b + n) (mem_size m)); try done. cbn.
  f_equal. apply list_eq. intros i.
  destruct (decide (i < Z.to_nat n)%nat) as [Hi|Hi].
  - rewrite !lookup_take_lt, !lookup_drop by done.
    apply (mem_write_lookup_out _ _ _ _ _ Hw). lia.
  - by rewrite !lookup_take_ge by lia.
Qed.

Lemma load_store_i32 m a v m' :
  store_i32 m a v = Ret m' → load_i32 m' a = Ret (wrapS 32 v).
Proof.
  intros Hs. apply mem_read_write in Hs as Hr. rewrite length_le32 in Hr.
  unfold load_i32. change 4 with (Z.of_nat 4). rewrite Hr. cbn.
  unfold le32. rewrite little_endian_to_Z_to_little_endian by lia.
  by rewrite <- (wrapS_wrapU 32 v).
Qed.

Lemma load_store_i32_disjoint m a v m' b :
  store_i32 m a v = Ret m' → b + 4 ≤ a ∨ a + 4 ≤ b → load_i32 m' b = load_i32 m b.
Proof.
  intros Hs Hd. unfold load_i32.
  by rewrite (mem_read_write_disjoint m a (le32 v) m' b 4 Hs) by (rewrite ?length_le32; lia).
Qed.

Lemma load_store_u32 m a v m' : store_i32 m a v = Ret m' → load_u32 m' a = Ret (u32 v).
Proof.
  intros Hs. apply mem_read_write in Hs as Hr. rewrite length_le32 in Hr.
  unfold load_u32. change 4 with (Z.of_nat 4). rewrite Hr. cbn [mbind outcome_bind].
  unfold le32. by rewrite little_endian_to_Z_to_little_endian by lia.
Qed.

(** Ranges of addresses, as address and length. *)
Definition iov_disjoint (x y : Z * Z) : Prop := x.1 + x.2 ≤ y.1 ∨ y.1 + y.2 ≤ x.1.

(** A write below a longer range is a prefix of what is read there. *)
Lemma mem_read_prefix m a bs m' n r :
  mem_write m a bs = Ret m' → (length bs ≤ n)%nat → mem_read m' a (Z.of_nat n) = Ret r →
  take (length bs) r = bs ∧ length r = n.
Proof.
  intros Hw Hle Hr. unfold mem_read in Hr.
  destruct (in_mem m' a (Z.of_nat n)) eqn:Hin; [|done]. injection Hr as <-.
  apply in_mem_true in Hin as [Ha Hb]. unfold mem_size in Hb. rewrite Nat2Z.id.
  split; [|rewrite length_take, length_drop; lia].
  rewrite take_take, Nat.min_l by done.
  apply mem_write_inv in Hw as (_ & Hb' & ->). unfold mem_size in Hb'.
  rewrite drop_app_length' by (rewrite length_take; lia). by apply take_app_length'.
Qed.

Lemma in_mem_write m a bs m' b n : mem_write m a bs = Ret m' → in_mem m' b n = in_mem m b n.
Proof. intros Hw. unfold in_mem. by rewrite (mem_write_size _ _ _ _ Hw). Qed.

(** [untouched rs]: nothing changes outside the ranges [rs]. *)
Definition outside (i : nat) (r : Z * Z) : Prop := Z.of_nat i < r.1 ∨ r.1 + r.2 ≤ Z.of_nat i.
Definition untouched (rs : list (Z * Z)) (m m' : Mem) : Prop :=
  ∀ i : nat, Forall (outside i) rs → m' !! i = m !! i.

#[export] Instance untouched_preorder rs : PreOrder (untouched rs).
Proof.
  split; [by intros m i|]. intros a b c Hab Hbc i Hi. by rewrite (Hbc i Hi), (Hab i Hi).
Qed.
Lemma untouched_write rs m a bs m' n :
  (a, n) ∈ rs → Z.of_nat (length bs) ≤ n → mem_write m a bs = Ret m' → untouched rs m m'.
Proof.
  intros Hin Hn Hw i Hi. rewrite Forall_forall in Hi. specialize (Hi _ Hin). unfold outside in Hi. cbn in Hi.
  apply (mem_write_lookup_out _ _ _ _ _ Hw). lia.
Qed.

(** A read apart from what changed. *)
Lemma mem_read_untouched m m' rs a n :
  untouched rs m m' → mem_size m' = mem_size m → Forall (iov_disjoint (a, n)) rs →
  mem_read m a n = mem_read m' a n.
Proof.
  intros Hun Hsz Hd. unfold mem_read, in_mem. rewrite Hsz.
  destruct (Z.leb_spec 0 a), (Z.leb_spec (a + n) (mem_size m)); try done. cbn.
  f_equal. apply list_eq. intros i. destruct (decide (i < Z.to_nat n)%nat) as [Hi|Hi].
  - rewrite !lookup_take_lt, !lookup_drop by done. symmetry. apply Hun.
    eapply Forall_impl; [exact Hd|]. intros [b k] Hbk. unfold iov_disjoint, outside in *. cbn in *. lia.
  - by rewrite !lookup_take_ge by lia.
Qed.

Lemma mem_write_exists m a bs :
  in_mem m a (Z.of_nat (length bs)) = true → ∃ m', mem_write m a bs = Ret m'.
Proof. intros Hin. unfold mem_write. rewrite Hin. by eexists. Qed.

Lemma in_mem_prefix m a n k : 0 ≤ k ≤ n → in_mem m a n = true → in_mem m a k = true.
Proof. intros Hk Hin. apply in_mem_true in Hin. apply in_mem_true. lia. Qed.

(** ** Strings *)

(** The bytes of a C string, when it ends. *)
Fixpoint until_nul (bs : list Z) : option (list Z) :=
  match bs with
  | [] => None
  | b :: bs' => if b =? 0 then Some [] else (b ::.) <$> until_nul bs'
  end.


Definition bytes_of_string (s : string) : list Z :=
  (λ a, Z.of_nat (nat_of_ascii a)) <$> String.list_ascii_of_string s.
Definition string_of_bytes (bs : list Z) : string :=
  String.string_of_list_ascii ((λ b, ascii_of_nat (Z.to_nat b)) <$> bs).

Lemma bytes_of_string_size s : Z.of_nat (length (bytes_of_string s)) = str_size s.
Proof.
  unfold bytes_of_string, str_size. rewrite length_fmap. f_equal.
  induction s as [|a s IH]; [done|]. cbn. by rewrite IH.
Qed.

Lemma string_of_bytes_of_string s : string_of_bytes (bytes_of_string s) = s.
Proof.
  unfold string_of_bytes, bytes_of_string. induction s as [|a s IH]; [done|].
  cbn. rewrite Nat2Z.id, ascii_nat_embedding. f_equal. exact IH.
Qed.

(** The C string at [a], when it ends in the memory. *)
Definition c_string (m : Mem) (a : Z) : option string :=
  string_of_bytes <$> until_nul (drop (Z.to_nat a) m).

(** A string without a zero byte, followed by one, is read back. *)
Lemma until_nul_app bs rest : 0 ∉ bs → until_nul (bs ++ 0 :: rest) = Some bs.
Proof.
  induction bs as [|b bs IH]; [done|]. intros Hn. cbn [app until_nul].
  rewrite not_elem_of_cons in Hn. destruct Hn as [Hb Hn].
  destruct (Z.eqb_spec b 0); [congruence|]. by rewrite IH.
Qed.
