(* ===== verification/Uffd.v ===== *)
(** The userfaultfd memory arena: [UffdMemoryRange] (permission list, touched
    bytes, alignment of the mapping), the ordered set of ranges of
    [UffdMemoryArenaManager] and the SIGBUS handler
    (include/wasm/UffdMemoryArenaManager.h, src/wasm/UffdMemoryArenaManager.cpp). *)

From Stdlib Require Import Sorting.Sorted.
From S2P Require Import Prelude.

(** * Permission lists

    A [boost::container::flat_map<uintptr_t, int>]: pairs in increasing order
    of address, the permission of an address being that of the greatest key
    below it. *)

Definition PermissionList := list (Z * Z).

(** [flat_map::emplace]: inserts in order, keeps the entry already there. *)
Fixpoint emplace (k v : Z) (l : PermissionList) : PermissionList :=
  match l with
  | [] => [(k, v)]
  | (k', v') :: l' =>
      if k <? k' then (k, v) :: l
      else if k =? k' then l
      else (k', v') :: emplace k v l'
  end.

Definition resetPermissions : PermissionList := [(0, 0); (UINTPTR_MAX, 0)].

(** [upper_bound(addr)], with the permission of the entry before it: 0 when
    it is [begin()] or [end()]. *)
Fixpoint upper_perm (prev : option Z) (l : PermissionList) (addr : Z) : Z :=
  match l with
  | [] => 0
  | (k, v) :: l' =>
      if addr <? k then default 0 prev else upper_perm (Some v) l' addr
  end.

Definition pointerPermissions (l : PermissionList) (addr : Z) : Z :=
  upper_perm None l addr.

(** The local variables of the loop of [setPermissions]. *)
Record PermLoop := mkPermLoop {
  pl_permissions : PermissionList;
  pl_lastPerm : Z;
  pl_endPerm : Z;
  pl_needsEnd : bool;
  pl_beginDone : bool }.

(** One iteration, on the old entry [(oldAddr, oldPerm)]. *)
Definition setPermissions_step (beginA endA perms : Z) (s : PermLoop)
    (old : Z * Z) : PermLoop :=
  let '(oldAddr, oldPerm) := old in
  let atBegin := negb (pl_beginDone s) && (beginA <=? oldAddr) in
  let permissions1 :=
    if atBegin && negb (pl_lastPerm s =? perms)
    then emplace beginA perms (pl_permissions s) else pl_permissions s in
  let outside := (oldAddr <? beginA) || (endA <=? oldAddr) in
  {| pl_permissions :=
       if outside && (negb (oldPerm =? pl_lastPerm s) || (oldAddr =? UINTPTR_MAX))
       then emplace oldAddr oldPerm permissions1 else permissions1;
     pl_lastPerm := oldPerm;
     pl_endPerm := if outside then pl_endPerm s else oldPerm;
     pl_needsEnd := if outside && (oldAddr =? endA) then false else pl_needsEnd s;
     pl_beginDone := pl_beginDone s || atBegin |}.

Definition setPermissions_init (oldPerms : PermissionList) : PermLoop :=
  {| pl_permissions := []; pl_lastPerm := -1;
     pl_endPerm := match oldPerms with (_, p) :: _ => p | [] => 0 end;
     pl_needsEnd := true; pl_beginDone := false |}.

Definition setPermissionList (beginA endA perms : Z) (oldPerms : PermissionList)
    : PermissionList :=
  let s := foldl (setPermissions_step beginA endA perms)
             (setPermissions_init oldPerms) oldPerms in
  if pl_needsEnd s then emplace endA (pl_endPerm s) (pl_permissions s)
  else pl_permissions s.

(** * Ranges *)

Record UffdMemoryRange := mkRange {
  mapStart : Z;
  mapBytes : Z;
  maxUsedBytes : Z;
  permissions : PermissionList;
  initSource : Z * Z (* data pointer and size of the span *) }.

#[export] Instance UffdMemoryRange_eq_dec : EqDecision UffdMemoryRange.
Proof. solve_decision. Defined.

Definition set_permissions (l : PermissionList) (r : UffdMemoryRange) : UffdMemoryRange :=
  {| mapStart := mapStart r; mapBytes := mapBytes r; maxUsedBytes := maxUsedBytes r;
     permissions := l; initSource := initSource r |}.
Definition set_maxUsedBytes (n : Z) (r : UffdMemoryRange) : UffdMemoryRange :=
  {| mapStart := mapStart r; mapBytes := mapBytes r; maxUsedBytes := n;
     permissions := permissions r; initSource := initSource r |}.

Definition pointerInRange (r : UffdMemoryRange) (addr : Z) : bool :=
  (mapStart r <=? addr) && (addr <? mapStart r + mapBytes r).

Definition touch (offset : Z) (r : UffdMemoryRange) : UffdMemoryRange :=
  if maxUsedBytes r <? offset then set_maxUsedBytes offset r else r.

Definition setPermissions (beginA endA perms : Z) (r : UffdMemoryRange) : UffdMemoryRange :=
  let lastTouchedByte := u64 (endA - mapStart r) in
  let r1 := if maxUsedBytes r <? lastTouchedByte
            then set_maxUsedBytes lastTouchedByte r else r in
  set_permissions (setPermissionList beginA endA perms (permissions r)) r1.

(** ** Kernel calls

    The kernel is an oracle: the result of a call is any function of the calls
    made before it and of its arguments. *)
Inductive kcall : Type :=
  | Kmmap (len : Z)
  | Kmunmap (addr len : Z)
  | KmadviseHuge (addr len : Z)
  | KmadviseDontneed (addr len : Z)
  | Kregister (addr len : Z)
  | Kunregister (addr len : Z)
  | KcopyPages (dst len src : Z)
  | KzeroPages (dst len : Z)
  | Kmprotect (addr len prot : Z)
  | KkillSelf (sig : Z)
  | Kexit (code : Z).

#[export] Instance kcall_eq_dec : EqDecision kcall.
Proof. solve_decision. Defined.

(** WAVM's [Platform::MemoryAccess]. *)
Inductive MemoryAccess : Type :=
  | MA_none | MA_readOnly | MA_readWrite | MA_readExecute | MA_readWriteExecute.

#[export] Instance MemoryAccess_eq_dec : EqDecision MemoryAccess.
Proof. solve_decision. Defined.

Definition SIGBUS : Z := 7.
Definition SIGSEGV : Z := 11.
Definition FAULT_PAGE_SIZE : Z := 65536.
Definition MAP_FAILED : Z := UINTPTR_MAX.

Section arena.
Context (kernel : list kcall → kcall → Z).

(** [faabric::util::checkErrno], on the result of a call. *)
Context (checkErrno : Z → string → outcome unit).

(** The state: the ranges of the arena and the kernel calls made. *)
Record Arena := mkArena { ranges : list UffdMemoryRange; klog : list kcall }.

Definition set_ranges (rs : list UffdMemoryRange) (a : Arena) : Arena :=
  {| ranges := rs; klog := klog a |}.

Definition syscall (c : kcall) : M Arena Z := λ a,
  (Ret (kernel (klog a) c), {| ranges := ranges a; klog := klog a ++ [c] |}).

Definition checked (c : kcall) (msg : string) : M Arena unit :=
  r ← syscall c; lift (checkErrno r msg).

(** [UffdMemoryRange::UffdMemoryRange(pages, alignmentLog2)] *)
Definition UffdMemoryRange_new (pages alignmentLog2 : Z) : M Arena UffdMemoryRange :=
  let numBytes := u64 (pages * 4096) in
  let alignmentBytes := u64 (2 ^ alignmentLog2) in
  address ← syscall (Kmmap (u64 (numBytes + alignmentBytes)));
  if address =? MAP_FAILED
  then throw (SystemError "Can't mmap uffd memory range")
  else
    let alignedAddress :=
      Z.land (u64 (address + alignmentBytes - 1)) (UINTPTR_MAX - (alignmentBytes - 1)) in
    let numHeadPaddingBytes := u64 (alignedAddress - address) in
    when (0 <? numHeadPaddingBytes)
      (checked (Kmunmap address numHeadPaddingBytes)
         "Can't munmap unaligned uffd memory range") ;;
    let numTailPaddingBytes := u64 (alignmentBytes - (alignedAddress - address)) in
    when (0 <? numTailPaddingBytes)
      (checked (Kmunmap (u64 (alignedAddress + numBytes)) numTailPaddingBytes)
         "Can't munmap unaligned uffd memory range") ;;
    checked (KmadviseHuge alignedAddress numBytes) "MADV_HUGEPAGE" ;;
    mret {| mapStart := alignedAddress; mapBytes := numBytes; maxUsedBytes := 0;
            permissions := resetPermissions; initSource := (0, 0) |}.

(** A range together with the kernel log: the state an action on a range
    sees.  The members of a [UffdMemoryRange] are operations on it. *)
Definition RangeSt : Type := UffdMemoryRange * list kcall.

Definition range_syscall (c : kcall) : M RangeSt Z := λ s,
  (Ret (kernel s.2 c), (s.1, s.2 ++ [c])).
Definition range_modify (f : UffdMemoryRange → UffdMemoryRange) : M RangeSt unit :=
  modify (λ s, (f s.1, s.2)).

(** [discardContent]: the result of [madvise] is ignored. *)
Definition discardContent (begin end_ : Z) : M RangeSt unit :=
  r ← gets fst;
  if begin =? end_ then mret ()
  else if (end_ <? begin) || (begin <=? mapStart r) || (mapStart r + mapBytes r <? end_)
  then throw (OutOfRange "Discard UFFD range out of bounds")
  else range_syscall (KmadviseDontneed begin (end_ - begin)) ;; mret ().

Definition discardAll : M RangeSt unit :=
  r ← gets fst;
  range_syscall (KmadviseDontneed (mapStart r) (maxUsedBytes r)) ;;
  range_modify (set_maxUsedBytes 0).

(** ** The ordered set of ranges *)

(** [operator<=>(range, ptr)] and [operator<=>(ptr, range)], the second
    delegating to the first as written. *)
Definition range_cmp_ptr (r : UffdMemoryRange) (ptr : Z) : comparison :=
  if pointerInRange r ptr then Eq else (mapStart r ?= ptr).
Definition ptr_cmp_range (ptr : Z) (r : UffdMemoryRange) : comparison :=
  range_cmp_ptr r ptr.
Definition range_cmp (r1 r2 : UffdMemoryRange) : comparison :=
  mapStart r1 ?= mapStart r2.

Definition is_lt (c : comparison) : bool :=
  match c with Lt => true | _ => false end.

(** [UffdMemoryRangeLess] *)
Definition less_rp (r : UffdMemoryRange) (ptr : Z) : bool := is_lt (range_cmp_ptr r ptr).
Definition less_pr (ptr : Z) (r : UffdMemoryRange) : bool := is_lt (ptr_cmp_range ptr r).
Definition less_rr (r1 r2 : UffdMemoryRange) : bool := is_lt (range_cmp r1 r2).

(** [find(ptr)] of an ordered set: the lower bound of [ptr], if [ptr] is not
    below it. *)
Fixpoint lower_bound (rs : list UffdMemoryRange) (ptr : Z) : option UffdMemoryRange :=
  match rs with
  | [] => None
  | r :: rs' => if less_rp r ptr then lower_bound rs' ptr else Some r
  end.
Definition set_find (rs : list UffdMemoryRange) (ptr : Z) : option UffdMemoryRange :=
  match lower_bound rs ptr with
  | Some r => if less_pr ptr r then None else Some r
  | None => None
  end.
(** [insert]: an equivalent element already there is kept. *)
Fixpoint set_insert (x : UffdMemoryRange) (rs : list UffdMemoryRange) : list UffdMemoryRange :=
  match rs with
  | [] => [x]
  | r :: rs' =>
      if less_rr r x then r :: set_insert x rs'
      else if less_rr x r then x :: rs
      else rs
  end.
(** [erase(it)], [it] pointing at the element that starts where [x] does. *)
Definition set_erase (x : UffdMemoryRange) (rs : list UffdMemoryRange) : list UffdMemoryRange :=
  filter (λ r, mapStart r ≠ mapStart x) rs.
(** Writing back the range object a set element points to. *)
Definition set_update (x : UffdMemoryRange) (rs : list UffdMemoryRange) : list UffdMemoryRange :=
  map (λ r, if mapStart r =? mapStart x then x else r) rs.

(** ** [UffdMemoryArenaManager] *)

Definition allocateRange (pages alignmentLog2 : Z) : M Arena Z :=
  range ← UffdMemoryRange_new pages alignmentLog2;
  syscall (Kregister (mapStart range) (mapBytes range)) ;;
  modify (λ a, set_ranges (set_insert range (ranges a)) a) ;;
  mret (mapStart range).

(** The action works on the shared range object: what it changed stays
    changed when it throws. *)
Definition modifyRange (start : Z) (action : M RangeSt unit) : M Arena unit :=
  a ← get;
  match set_find (ranges a) start with
  | None => throw (RuntimeError "Invalid pointer for UFFD range action")
  | Some range =>
      if negb (pointerInRange range start)
      then throw (RuntimeError "Invalid pointer found for UFFD range action")
      else
        zoom (λ a, (range, klog a))
          (λ st a, {| ranges := set_update st.1 (ranges a); klog := st.2 |})
          action
  end.

(** The range leaves the set; its [munmap] happens in the destructor, once
    the last reader has dropped the old set. *)
Definition freeRange (start : Z) : M Arena unit :=
  a ← get;
  match set_find (ranges a) start with
  | None => throw (RuntimeError "Invalid pointer for UFFD range removal")
  | Some range =>
      syscall (Kunregister (mapStart range) (mapBytes range)) ;;
      modify (λ a, set_ranges (set_erase range (ranges a)) a) ;;
      checked (Kmunmap (mapStart range) (mapBytes range))
        "Warning: error unmapping UffdMemoryRange"
  end.

(** ** WAVM's virtual memory hooks (src/wavm/WAVMWasmModule.cpp) *)

Definition commitVirtualPages (base numPages : Z) (access : MemoryAccess) : M Arena bool :=
  modifyRange base
    (range_modify (setPermissions base (base + numPages * 4096)
       (if decide (access = MA_none) then 0 else 1))) ;;
  mret true.

Definition access_prot (access : MemoryAccess) : Z :=
  match access with
  | MA_none => 0
  | MA_readOnly => PROT_READ
  | MA_readWrite => Z.lor PROT_READ PROT_WRITE
  | MA_readExecute => Z.lor PROT_READ PROT_EXEC
  | MA_readWriteExecute => Z.lor (Z.lor PROT_READ PROT_WRITE) PROT_EXEC
  end.

Definition setVirtualPageAccess (base numPages : Z) (access : MemoryAccess) : M Arena bool :=
  let protFlags := access_prot access in
  modifyRange base
    (range_modify (setPermissions base (base + numPages * 4096) protFlags)) ;;
  r ← syscall (Kmprotect base (numPages * 4096) protFlags);
  if r <? 0 then throw (RuntimeError "Mprotect call failed") else mret true.

Definition decommitVirtualPages (base numPages : Z) : M Arena unit :=
  modifyRange base
    (range_modify (setPermissions base (base + numPages * 4096) 0) ;;
     discardContent base (base + numPages * 4096)).

Definition freeVirtualPages (base : Z) : M Arena unit := freeRange base.

(** The range part of [WasmModule::restore] in userfaultfd mode
    (src/wasm/WasmModule.cpp). *)
Definition restoreRange (dataSize : Z) : M RangeSt unit :=
  range_modify (set_permissions resetPermissions) ;;
  discardAll ;;
  r ← gets fst;
  range_modify 
    (setPermissions (mapStart r) (mapStart r + dataSize) (Z.lor PROT_READ PROT_WRITE)).

(** ** The SIGBUS handler

    [rangeCache] is the thread's weak pointer to the last range it faulted
    in, by the address that range starts at; a range that has left the set
    has expired.  [Throw] is [std::terminate] or [exit]. *)
Definition cache_lock (rs : list UffdMemoryRange) (rangeCache : option Z)
    : option UffdMemoryRange :=
  s ← rangeCache; snd <$> list_find (λ r, mapStart r = s) rs.

Definition faultRange (rangeCache : option Z) (faultAddr : Z) : M Arena UffdMemoryRange :=
  a ← get;
  let lookup :=
    match set_find (ranges a) faultAddr with
    | Some r => mret r
    | None => syscall (Kexit 1) ;; throw (SystemError "exit")
    end in
  match cache_lock (ranges a) rangeCache with
  | Some r => if pointerInRange r faultAddr then mret r else lookup
  | None => lookup
  end.

(** The page that is filled: its offset in the range and its size. *)
Definition faultPage (range : UffdMemoryRange) (faultAddr : Z) : Z * Z :=
  let faultPageOffset :=
    Z.land (u64 (faultAddr - mapStart range)) (UINTPTR_MAX - (FAULT_PAGE_SIZE - 1)) in
  let faultEnd := Z.min (faultPageOffset + FAULT_PAGE_SIZE) (mapBytes range) in
  (faultPageOffset, faultEnd - faultPageOffset).

Definition sigbusHandler (code faultAddr : Z) (rangeCache : option Z)
    : M Arena (option Z) :=
  if negb (code =? SIGBUS) then throw (SystemError "std::terminate")
  else
    range ← faultRange rangeCache faultAddr;
    if pointerPermissions (permissions range) faultAddr =? 0
    then syscall (KkillSelf SIGSEGV) ;; mret (Some (mapStart range))
    else
      let '(faultPageOffset, faultSize) := faultPage range faultAddr in
      modify (λ a, set_ranges
        (set_update (touch (faultPageOffset + faultSize) range) (ranges a)) a) ;;
      (if faultPageOffset <? (initSource range).2
       then syscall (KcopyPages (mapStart range + faultPageOffset) faultSize
                       ((initSource range).1 + faultPageOffset))
       else syscall (KzeroPages (mapStart range + faultPageOffset) faultSize)) ;;
      mret (Some (mapStart range)).
End arena.

(** * Permission lists: lemmas *)

Definition keys_lt (x : Z) (l : PermissionList) : Prop := Forall (λ e, e.1 < x) l.
Definition keys_ge (x : Z) (l : PermissionList) : Prop := Forall (λ e, x ≤ e.1) l.

(** The permission of the last entry of [l], [d] when there is none. *)
Definition last_perm (d : Z) (l : PermissionList) : Z :=
  foldl (λ _ e, e.2) d l.

Definition head_above (addr : Z) (l : PermissionList) : Prop :=
  match l with [] => False | (k, _) :: _ => addr < k end.

Lemma emplace_last k v l : keys_lt k l → emplace k v l = l ++ [(k, v)].
Proof.
  induction 1 as [|[k' v'] l Hk _ IH]; [done|]. cbn in *.
  destruct (Z.ltb_spec k k'), (Z.eqb_spec k k'); try lia. by rewrite IH.
Qed.

Lemma emplace_mid k v l r :
  keys_lt k l → head_above k r → emplace k v (l ++ r) = l ++ (k, v) :: r.
Proof.
  intros Hl Hr. induction Hl as [|[k' v'] l Hk _ IH]; cbn in *.
  - destruct r as [|[k' v'] r]; [done|]. cbn in *.
    by destruct (Z.ltb_spec k k'); [|lia].
  - destruct (Z.ltb_spec k k'), (Z.eqb_spec k k'); try lia. by rewrite IH.
Qed.

Lemma upper_perm_app prev l r addr :
  Forall (λ e, e.1 ≤ addr) l →
  upper_perm prev (l ++ r) addr =
    upper_perm (match l with [] => prev | _ => Some (last_perm 0 l) end) r addr.
Proof.
  intros Hl. revert prev. induction Hl as [|[k v] l Hk _ IH]; intros prev; [done|].
  cbn in *. destruct (Z.ltb_spec addr k); [lia|]. rewrite IH.
  destruct l; [done|]. done.
Qed.

Lemma upper_perm_stop prev r addr :
  head_above addr r → upper_perm prev r addr = default 0 prev.
Proof.
  destruct r as [|[k v] r]; [done|]. cbn. intros H.
  by destruct (Z.ltb_spec addr k); [|lia].
Qed.

(** What lies above the first key greater than [addr] does not matter. *)
Lemma upper_perm_cut prev l r1 r2 addr :
  head_above addr r1 → head_above addr r2 →
  upper_perm prev (l ++ r1) addr = upper_perm prev (l ++ r2) addr.
Proof.
  intros H1 H2. revert prev. induction l as [|[k v] l IH]; intros prev; cbn.
  - by rewrite !upper_perm_stop.
  - by rewrite IH.
Qed.

(** ** The loop of [setPermissions], segment by segment *)

Definition key_sorted (l : PermissionList) : Prop := StronglySorted (λ x y, x.1 < y.1) l.

(** No entry repeats the permission before it; the last one may. *)
Fixpoint canonical (prev : Z) (l : PermissionList) : Prop :=
  match l with
  | [] => True
  | (k, v) :: l' => (v ≠ prev ∨ k = UINTPTR_MAX) ∧ canonical v l'
  end.

Lemma canonical_app prev l r :
  canonical prev (l ++ r) ↔ canonical prev l ∧ canonical (last_perm prev l) r.
Proof.
  revert prev. induction l as [|[k v] l IH]; intros prev; cbn; [tauto|].
  rewrite IH. unfold last_perm. cbn. tauto.
Qed.

Lemma last_perm_app d l r : last_perm d (l ++ r) = last_perm (last_perm d l) r.
Proof. unfold last_perm. apply foldl_app. Qed.

Lemma key_sorted_app l r :
  key_sorted (l ++ r) ↔ key_sorted l ∧ key_sorted r ∧ Forall (λ x, keys_lt x.1 l) r.
Proof.
  unfold key_sorted, keys_lt. induction l as [|x l IH]; cbn.
  - split; [|tauto]. intros Hr. split; [constructor|]. split; [done|].
    apply Forall_true. constructor.
  - split.
    + intros [Hs Hx]%StronglySorted_inv. apply IH in Hs as (Hl & Hr & Hlr).
      apply Forall_app in Hx as [Hxl Hxr]. split; [by constructor|]. split; [done|].
      rewrite Forall_forall in Hlr, Hxr |- *. intros y Hy. constructor; auto.
    + intros ([Hl Hxl]%StronglySorted_inv & Hr & Hlr). constructor.
      * apply IH. split; [done|]. split; [done|].
        eapply Forall_impl; [exact Hlr|]. intros y Hy. by inversion Hy.
      * apply Forall_app. split; [done|].
        eapply Forall_impl; [exact Hlr|]. intros y Hy. by inversion Hy.
Qed.

Section set_permissions_loop.
Context (b e p : Z).
Abbreviation step := (setPermissions_step b e p).

(** The loop state once the begin entry has been considered. *)
Definition begin_state (s : PermLoop) : PermLoop :=
  {| pl_permissions :=
       if pl_lastPerm s =? p then pl_permissions s else emplace b p (pl_permissions s);
     pl_lastPerm := pl_lastPerm s; pl_endPerm := pl_endPerm s;
     pl_needsEnd := pl_needsEnd s; pl_beginDone := true |}.

Lemma step_begin s x l :
  pl_beginDone s = false → b ≤ x.1 →
  foldl step s (x :: l) = foldl step (begin_state s) (x :: l).
Proof.
  intros Hd Hx. cbn. f_equal. destruct x as [k v]. cbn in *.
  unfold setPermissions_step, begin_state. cbn. rewrite Hd. cbn.
  destruct (Z.leb_spec b k); [|lia]. cbn. by destruct (pl_lastPerm s =? p).
Qed.

(** An entry that is not a repetition is appended. *)
Lemma emplace_kept acc k v last l :
  canonical last ((k, v) :: l) → key_sorted (acc ++ (k, v) :: l) →
  (if negb (v =? last) || (k =? UINTPTR_MAX) then emplace k v acc else acc)
    = acc ++ [(k, v)].
Proof.
  intros [Hc _] Hs.
  replace (negb (v =? last) || (k =? UINTPTR_MAX)) with true
    by (destruct Hc, (Z.eqb_spec v last), (Z.eqb_spec k UINTPTR_MAX); cbn; congruence).
  apply emplace_last. apply key_sorted_app in Hs as (_ & _ & Hlt). by inversion Hlt.
Qed.

Lemma segment_before s l :
  pl_beginDone s = false → b < e → keys_lt b l → key_sorted (pl_permissions s ++ l) →
  canonical (pl_lastPerm s) l →
  foldl step s l =
    {| pl_permissions := pl_permissions s ++ l;
       pl_lastPerm := last_perm (pl_lastPerm s) l; pl_endPerm := pl_endPerm s;
       pl_needsEnd := pl_needsEnd s; pl_beginDone := false |}.
Proof.
  intros Hd Hbe Hl. revert s Hd. induction Hl as [|[k v] l Hk _ IH]; intros s Hd Hs Hc.
  - destruct s; cbn in *. rewrite app_nil_r. by subst.
  - cbn in Hk. cbn [foldl].
    assert (step s (k, v) =
      {| pl_permissions := pl_permissions s ++ [(k, v)]; pl_lastPerm := v;
         pl_endPerm := pl_endPerm s; pl_needsEnd := pl_needsEnd s;
         pl_beginDone := false |}) as ->.
    { cbn. rewrite Hd. cbn.
      destruct (Z.ltb_spec k b), (Z.leb_spec b k), (Z.eqb_spec k e); try lia. cbn.
      by rewrite (emplace_kept _ _ _ _ l). }
    rewrite IH; cbn; [by rewrite <- app_assoc|done|by rewrite <- app_assoc|exact (proj2 Hc)].
Qed.

Lemma segment_inside s l :
  pl_beginDone s = true → Forall (λ x, b ≤ x.1 < e) l →
  foldl step s l =
    {| pl_permissions := pl_permissions s;
       pl_lastPerm := last_perm (pl_lastPerm s) l;
       pl_endPerm := last_perm (pl_endPerm s) l;
       pl_needsEnd := pl_needsEnd s; pl_beginDone := true |}.
Proof.
  intros Hd Hl. revert s Hd. induction Hl as [|[k v] l Hk _ IH]; intros s Hd.
  - destruct s; cbn in *. by subst.
  - cbn in Hk. cbn [foldl]. rewrite IH by (cbn; by rewrite Hd).
    cbn. rewrite Hd. cbn. destruct (Z.ltb_spec k b), (Z.leb_spec e k); try lia. done.
Qed.

Lemma segment_after s l :
  pl_beginDone s = true → b < e → keys_ge e l → key_sorted (pl_permissions s ++ l) →
  canonical (pl_lastPerm s) l →
  foldl step s l =
    {| pl_permissions := pl_permissions s ++ l;
       pl_lastPerm := last_perm (pl_lastPerm s) l;
       pl_endPerm := pl_endPerm s;
       pl_needsEnd := pl_needsEnd s && negb (existsb (λ x, x.1 =? e) l);
       pl_beginDone := true |}.
Proof.
  intros Hd Hbe Hl. revert s Hd. induction Hl as [|[k v] l Hk _ IH]; intros s Hd Hs Hc.
  - destruct s; cbn in *. rewrite app_nil_r, andb_true_r. by subst.
  - cbn in Hk. cbn [foldl].
    assert (step s (k, v) =
      {| pl_permissions := pl_permissions s ++ [(k, v)]; pl_lastPerm := v;
         pl_endPerm := pl_endPerm s;
         pl_needsEnd := if k =? e then false else pl_needsEnd s;
         pl_beginDone := true |}) as ->.
    { cbn. rewrite Hd. cbn. destruct (Z.ltb_spec k b), (Z.leb_spec e k); try lia. cbn.
      by rewrite (emplace_kept _ _ _ _ l). }
    rewrite IH; cbn; [|done| |exact (proj2 Hc)].
    + rewrite <- app_assoc. f_equal. destruct (k =? e); cbn; [by rewrite andb_false_r|done].
    + by rewrite <- app_assoc.
Qed.
End set_permissions_loop.

(** The entries [setPermissions] writes at the two ends of the interval. *)
Definition begin_entry (b p last : Z) : PermissionList :=
  if last =? p then [] else [(b, p)].
Definition end_entry (e q : Z) (l3 : PermissionList) : PermissionList :=
  if existsb (λ x, x.1 =? e) l3 then [] else [(e, q)].

Definition first_perm (l : PermissionList) : Z :=
  match l with (_, q) :: _ => q | [] => 0 end.

Section shape.
Context (b e p : Z) (l1 l2 l3 : PermissionList).
Hypothesis Hbe : b < e.
Hypothesis H1 : keys_lt b l1.
Hypothesis H2 : Forall (λ x, b ≤ x.1 < e) l2.
Hypothesis H3 : keys_ge e l3.
Hypothesis H3ne : l3 ≠ [].
Hypothesis Hsorted : key_sorted (l1 ++ l2 ++ l3).
Hypothesis Hcanonical : canonical (-1) (l1 ++ l2 ++ l3).

Let s1 := {| pl_permissions := l1; pl_lastPerm := last_perm (-1) l1;
             pl_endPerm := first_perm (l1 ++ l2 ++ l3); pl_needsEnd := true;
             pl_beginDone := false |}.

Lemma begin_state_shape :
  begin_state b p s1 =
    {| pl_permissions := l1 ++ begin_entry b p (last_perm (-1) l1);
       pl_lastPerm := last_perm (-1) l1;
       pl_endPerm := first_perm (l1 ++ l2 ++ l3); pl_needsEnd := true;
       pl_beginDone := true |}.
Proof.
  unfold begin_state, begin_entry. cbn.
  destruct (last_perm (-1) l1 =? p); [by rewrite app_nil_r|].
  by rewrite emplace_last.
Qed.

Lemma sorted_begin_l3 : key_sorted (l1 ++ begin_entry b p (last_perm (-1) l1) ++ l3).
Proof.
  apply key_sorted_app in Hsorted as (Hs1 & Hs23 & H123).
  apply key_sorted_app in Hs23 as (Hs2 & Hs3 & _).
  apply Forall_app in H123 as [_ H13].
  assert (key_sorted (begin_entry b p (last_perm (-1) l1) ++ l3)) as Hb.
  { unfold begin_entry. destruct (_ =? p); [done|]. cbn. constructor; [done|].
    eapply Forall_impl; [exact H3|]. cbn. lia. }
  apply key_sorted_app. split; [done|]. split; [done|].
  apply Forall_app. split; [|done]. unfold begin_entry.
  destruct (_ =? p); constructor; [done|constructor].
Qed.

Lemma foldl_before :
  foldl (setPermissions_step b e p) (setPermissions_init (l1 ++ l2 ++ l3)) l1 = s1.
Proof.
  apply segment_before; [done|done|done| |].
  - exact (proj1 (proj1 (key_sorted_app _ _) Hsorted)).
  - exact (proj1 (proj1 (canonical_app _ _ _) Hcanonical)).
Qed.

Lemma foldl_begin :
  foldl (setPermissions_step b e p) s1 (l2 ++ l3) =
  foldl (setPermissions_step b e p) (begin_state b p s1) (l2 ++ l3).
Proof.
  destruct l2 as [|x l2'].
  - destruct l3 as [|x l3']; [done|]. cbn [app]. apply step_begin; [done|].
    inversion H3; lia.
  - cbn [app]. apply step_begin; [done|]. inversion H2; lia.
Qed.

Lemma setPermissionList_shape :
  setPermissionList b e p (l1 ++ l2 ++ l3) =
    l1 ++ begin_entry b p (last_perm (-1) l1) ++
    end_entry e (last_perm (first_perm (l1 ++ l2 ++ l3)) l2) l3 ++ l3.
Proof.
  unfold setPermissionList. rewrite foldl_app, foldl_before.
  rewrite foldl_begin, begin_state_shape, foldl_app, (segment_inside b e p _ l2) by done.
  cbn -[app]. rewrite segment_after; cbn -[app]; try done.
  - unfold end_entry. destruct (existsb _ l3) eqn:Hex; cbn.
    + by rewrite <- app_assoc.
    + rewrite emplace_mid.
      * by rewrite <- !app_assoc.
      * apply Forall_app. split; [eapply Forall_impl; [exact H1|]; cbn; lia|].
        unfold begin_entry. destruct (_ =? p); repeat constructor. cbn. lia.
      * destruct l3 as [|[k v] l3']; [done|]. cbn in *.
        apply orb_false_iff in Hex as [Hk _]. inversion H3; subst. cbn in *. lia.
  - rewrite <- app_assoc. apply sorted_begin_l3.
  - rewrite app_assoc, canonical_app, last_perm_app in Hcanonical.
    exact (proj2 Hcanonical).
Qed.
End shape.

(** ** Correctness of [setPermissions] *)

(** A permission list as every range holds it: it starts at address 0, ends at
    [UINTPTR_MAX] and holds permissions. *)
Definition wf_permissions (l : PermissionList) : Prop :=
  (∃ q l' q', l = (0, q) :: l' ++ [(UINTPTR_MAX, q')]) ∧ key_sorted l ∧
  Forall (λ x, 0 ≤ x.2) l.

Lemma split_keys x l :
  key_sorted l → ∃ l1 l2, l = l1 ++ l2 ∧ keys_lt x l1 ∧ keys_ge x l2.
Proof.
  induction l as [|[k v] l IH]; intros Hs.
  - exists [], []. repeat constructor.
  - apply StronglySorted_inv in Hs as [Hs Hk]. destruct (decide (k < x)) as [Hlt|Hge].
    + destruct (IH Hs) as (l1 & l2 & -> & H1 & H2).
      exists ((k, v) :: l1), l2. repeat constructor; done.
    + exists [], ((k, v) :: l). split; [done|]. split; [constructor|].
      constructor; [cbn; lia|]. eapply Forall_impl; [exact Hk|]. cbn. lia.
Qed.

Lemma split_keys3 b e l :
  key_sorted l → b < e → ∃ l1 l2 l3, l = l1 ++ l2 ++ l3 ∧ keys_lt b l1 ∧
    Forall (λ x, b ≤ x.1 < e) l2 ∧ keys_ge e l3.
Proof.
  intros Hs Hbe. destruct (split_keys b l Hs) as (l1 & r & -> & H1 & Hr).
  apply key_sorted_app in Hs as (_ & Hs & _).
  destruct (split_keys e r Hs) as (l2 & l3 & -> & H2 & H3).
  exists l1, l2, l3. split_and!; try done. apply Forall_app in Hr as [Hr _].
  unfold keys_ge, keys_lt in *. rewrite Forall_forall in *. intros x Hx. split; auto.
Qed.

Lemma head_above_ge a x r : keys_ge x r → r ≠ [] → a < x → head_above a r.
Proof. intros Hr Hne Ha. destruct Hr as [|[k v] r Hk _]; [done|]. cbn in *. lia. Qed.

Lemma keys_lt_le x a l : keys_lt x l → x ≤ a → Forall (λ y, y.1 ≤ a) l.
Proof. intros Hl Ha. eapply Forall_impl; [exact Hl|]. cbn. lia. Qed.

Lemma upper_perm_head_below prev1 prev2 k v r a :
  k ≤ a → upper_perm prev1 ((k, v) :: r) a = upper_perm prev2 ((k, v) :: r) a.
Proof. intros Hk. cbn. by destruct (Z.ltb_spec a k); [lia|]. Qed.

Lemma last_perm_nonempty d1 d2 l : l ≠ [] → last_perm d1 l = last_perm d2 l.
Proof. destruct l; [done|]. done. Qed.

Lemma upper_perm_app_ne prev l r a :
  l ≠ [] → Forall (λ y, y.1 ≤ a) l →
  upper_perm prev (l ++ r) a = upper_perm (Some (last_perm 0 l)) r a.
Proof. intros Hne Hl. rewrite upper_perm_app by done. by destruct l. Qed.

Lemma keys_ge_weaken x y l : keys_ge y l → x ≤ y → keys_ge x l.
Proof. intros Hl Hxy. eapply Forall_impl; [exact Hl|]. cbn. lia. Qed.

Section correctness.
Context (b e p : Z) (l1 l2 l3 : PermissionList).
Hypothesis Hbe : b < e.
Hypothesis H1 : keys_lt b l1.
Hypothesis H1ne : l1 ≠ [].
Hypothesis H2 : Forall (λ x, b ≤ x.1 < e) l2.
Hypothesis H3 : keys_ge e l3.
Hypothesis H3ne : l3 ≠ [].

Let result q := l1 ++ begin_entry b p (last_perm (-1) l1) ++ end_entry e q l3 ++ l3.

Lemma end_entry_ge q : keys_ge e (end_entry e q l3 ++ l3).
Proof.
  apply Forall_app. split; [|done]. unfold end_entry.
  destruct (existsb _ _); repeat constructor. cbn. lia.
Qed.

Lemma result_before q a : a < b → pointerPermissions (result q) a
                                = pointerPermissions (l1 ++ l2 ++ l3) a.
Proof.
  intros Ha. apply upper_perm_cut.
  - apply (head_above_ge a b); [|by destruct (begin_entry _ _ _), (end_entry e q l3)|done].
    apply Forall_app. split.
    + unfold begin_entry. destruct (_ =? p); repeat constructor. cbn. lia.
    + apply (keys_ge_weaken b e); [apply end_entry_ge|lia].
  - apply (head_above_ge a b); [|by destruct l2|done].
    apply Forall_app. split; [eapply Forall_impl; [exact H2|]; cbn; lia|].
    apply (keys_ge_weaken b e); [done|lia].
Qed.

Lemma result_inside q a : b ≤ a < e → pointerPermissions (result q) a = p.
Proof.
  intros Ha. unfold pointerPermissions, result.
  rewrite upper_perm_app_ne by (done || by eapply keys_lt_le; [|apply Ha]).
  assert (head_above a (end_entry e q l3 ++ l3)) as Hhead.
  { apply (head_above_ge a e); [apply end_entry_ge|by destruct (end_entry e q l3)|lia]. }
  unfold begin_entry. destruct (Z.eqb_spec (last_perm (-1) l1) p) as [<-|_]; cbn [app].
  - rewrite upper_perm_stop by done. cbn. by apply last_perm_nonempty.
  - cbn. destruct (Z.ltb_spec a b); [lia|]. by rewrite upper_perm_stop.
Qed.

Lemma result_after q a :
  key_sorted l3 → e ≤ a →
  (existsb (λ x, x.1 =? e) l3 = false → q = last_perm 0 (l1 ++ l2)) →
  pointerPermissions (result q) a = pointerPermissions (l1 ++ l2 ++ l3) a.
Proof.
  intros Hs Ha Hq. unfold pointerPermissions, result.
  rewrite (app_assoc l1 l2 l3), (upper_perm_app_ne _ (l1 ++ l2)); first last.
  { apply Forall_app. split; [eapply keys_lt_le; [exact H1|lia]|].
    eapply Forall_impl; [exact H2|]. cbn. lia. }
  { by destruct l1. }
  rewrite (app_assoc l1), (upper_perm_app_ne _ (l1 ++ begin_entry _ _ _)); first last.
  { apply Forall_app. split; [eapply keys_lt_le; [exact H1|lia]|].
    unfold begin_entry. destruct (_ =? p); repeat constructor. cbn. lia. }
  { by destruct l1. }
  unfold end_entry. destruct (existsb (λ x, x.1 =? e) l3) eqn:Hex; cbn [app].
  - destruct l3 as [|[k v] l3']; [done|].
    assert (k = e) as ->; [|by apply upper_perm_head_below].
    apply existsb_exists in Hex as ([k' v'] & Hin%list_elem_of_In & Hk%Z.eqb_eq).
    cbn in Hk. subst k'. inversion H3 as [|? ? Hk _]; subst. cbn in Hk.
    apply elem_of_cons in Hin as [[= -> ->]|Hin]; [done|].
    apply StronglySorted_inv in Hs as [_ Hs]. rewrite Forall_forall in Hs.
    specialize (Hs _ Hin). cbn in Hs. lia.
  - rewrite Hq by done. cbn. by destruct (Z.ltb_spec a e); [lia|].
Qed.
End correctness.

(** C18: [setPermissions] on a well-formed permission list in which no two neighbours have
    the same permission gives every address of [begin, end) the new permission and leaves every
    other address with the one it had, as long as the interval touches an old boundary or starts
    in a region with the permission of address 0.  (The entry of the last address may repeat
    a permission.)  [setPermissions] itself can leave neighbours with the same permission, and
    a later one goes wrong then ([regrow_loses_end]). *)
Theorem setPermissions_spec l b e p a :
  wf_permissions l → canonical (-1) l →
  0 < b → b < e → e < UINTPTR_MAX → 0 ≤ p →
  (∃ k q, (k, q) ∈ l ∧ b ≤ k ≤ e) ∨ pointerPermissions l b = first_perm l →
  pointerPermissions (setPermissionList b e p l) a =
    if decide (b ≤ a < e) then p else pointerPermissions l a.
Proof.
  intros ((q0 & l' & q' & El) & Hs & _) Hc Hb Hbe He Hp Hbound.
  destruct (split_keys3 b e l Hs Hbe) as (l1 & l2 & l3 & Esplit & H1 & H2 & H3).
  assert (l1 ≠ []) as H1ne.
  { intros ->. cbn in Esplit. rewrite El in Esplit.
    assert (keys_ge b (l2 ++ l3)) as Hge.
    { apply Forall_app. split; [eapply Forall_impl; [exact H2|]; cbn; lia|].
      apply (keys_ge_weaken b e); [done|lia]. }
    rewrite <- Esplit in Hge. inversion Hge as [|? ? Hk _]; subst. cbn in Hk. lia. }
  assert (l3 ≠ []) as H3ne.
  { intros ->. rewrite app_nil_r in Esplit.
    assert (keys_lt e l) as Hlt.
    { rewrite Esplit. apply Forall_app. split; eapply Forall_impl; [exact H1| |exact H2|]; cbn; lia. }
    rewrite El in Hlt. inversion Hlt as [|? ? _ Hlt']; subst.
    apply Forall_app in Hlt' as [_ Hlt']. inversion Hlt'; subst. cbn in *. lia. }
  rewrite Esplit, setPermissionList_shape by (try rewrite <- Esplit; done).
  case_decide as Ha; [by apply result_inside|].
  destruct (decide (a < b)); [by apply result_before|].
  assert (key_sorted l3) as Hs3.
  { rewrite Esplit, app_assoc in Hs. by apply key_sorted_app in Hs as (_ & ? & _). }
  apply result_after; try done; [lia|]. intros Hex.
  destruct l2 as [|x l2]; [|by rewrite last_perm_app; apply last_perm_nonempty].
  rewrite app_nil_r. cbn [app] in *. change (last_perm ?d []) with d.
  assert (head_above b l3) as Hhead by (by apply (head_above_ge b e)).
  destruct Hbound as [(k & q & Hin & Hk)|Hfirst].
  - exfalso. rewrite Esplit in Hin. apply elem_of_app in Hin as [Hin|Hin].
    + unfold keys_lt in H1. rewrite Forall_forall in H1. specialize (H1 _ Hin). cbn in H1. lia.
    + unfold keys_ge in H3. rewrite Forall_forall in H3. pose proof (H3 _ Hin) as Hk'. cbn in Hk'.
      enough (existsb (λ x, x.1 =? e) l3 = true) by congruence.
      apply existsb_exists. exists (k, q). split; [by apply list_elem_of_In|]. cbn. lia.
  - rewrite <- Esplit, <- Hfirst, Esplit. unfold pointerPermissions.
    rewrite upper_perm_app_ne, upper_perm_stop by (done || by eapply keys_lt_le; [|apply Z.le_refl]).
    done.
Qed.

Lemma setPermissions_spec_witness :
  pointerPermissions
    (setPermissionList 8192 12288 1 [(0, 0); (4096, 1); (8192, 0); (UINTPTR_MAX, 0)]) 9000 = 1.
Proof.
  rewrite (setPermissions_spec _ _ _ _ 9000);
    [reflexivity | | |lia|lia|reflexivity|lia| ].
  - split; [exists 0, [(4096, 1); (8192, 0)], 0; reflexivity|].
    split; repeat constructor; cbn; done.
  - cbn. repeat split; auto; left; discriminate.
  - left. exists 8192, 0. split; [|lia]. apply elem_of_cons. right.
    apply elem_of_cons. right. apply elem_of_cons. by left.
Defined.

(** ** Growing and shrinking one range *)

(** The list of a range whose bytes from [s] to [e] have permission [p]. *)
Definition grown (s e p : Z) : PermissionList :=
  [(0, 0); (s, p); (e, 0); (UINTPTR_MAX, 0)].

(** Deciding the comparisons of concrete loops with symbolic addresses. *)
Ltac zcases :=
  repeat (cbn -[Z.ltb Z.leb Z.eqb Z.pow]; match goal with
  | |- context [?x <? ?y] => destruct (Z.ltb_spec x y); try lia
  | |- context [?x <=? ?y] => destruct (Z.leb_spec x y); try lia
  | |- context [?x =? ?y] => destruct (Z.eqb_spec x y); try lia
  end); cbn -[Z.ltb Z.leb Z.eqb Z.pow].

Lemma commit_first s e p :
  0 < s < e → e < UINTPTR_MAX → 0 < p →
  setPermissionList s e p resetPermissions = grown s e p.
Proof.
  intros Hs He Hp. unfold setPermissionList, setPermissions_init, resetPermissions, grown.
  unfold UINTPTR_MAX in *. zcases; done.
Qed.

Lemma commit_next s e e' p :
  0 < s < e → e < e' → e' < UINTPTR_MAX → 0 < p →
  setPermissionList e e' p (grown s e p) = grown s e' p.
Proof.
  intros Hs He He' Hp. unfold setPermissionList, setPermissions_init, grown.
  unfold UINTPTR_MAX in *. zcases; done.
Qed.

Lemma grown_permissions s e p a :
  0 < s < e → e < UINTPTR_MAX → 0 ≤ a < UINTPTR_MAX →
  pointerPermissions (grown s e p) a = if decide (s ≤ a < e) then p else 0.
Proof.
  intros Hs He Ha. unfold pointerPermissions, grown, UINTPTR_MAX in *.
  zcases; case_decide; lia.
Qed.

(** Committing chunks of the given sizes one after the other from [e]. *)
Fixpoint commit_chunks (e p : Z) (sizes : list Z) (l : PermissionList) : PermissionList :=
  match sizes with
  | [] => l
  | n :: sizes' => commit_chunks (e + n) p sizes' (setPermissionList e (e + n) p l)
  end.

Lemma commit_chunks_grown s e p sizes :
  0 < s < e → Forall (λ n, 0 < n) sizes → e + sumZ id sizes < UINTPTR_MAX → 0 < p →
  commit_chunks e p sizes (grown s e p) = grown s (e + sumZ id sizes) p.
Proof.
  intros Hs Hn. revert e Hs. induction Hn as [|n sizes Hn Hsz IH]; intros e Hs Hmax Hp.
  - cbn. by rewrite Z.add_0_r.
  - assert (0 ≤ sumZ id sizes) as Hpos.
    { clear -Hsz. induction Hsz as [|m l Hm _ IH]; [done|]. unfold sumZ, id in *. cbn in *. lia. }
    change (sumZ id (n :: sizes)) with (n + sumZ id sizes) in *.
    cbn [commit_chunks]. rewrite commit_next, IH by lia. f_equal. lia.
Qed.

(** After a reset, committing any sequence of adjacent chunks from [s], the
    way a linear memory grows, gives exactly the bytes below the new end the
    permission: no byte outside them is accessible. *)
Theorem growth_permissions s p n sizes a :
  0 < s → 0 < n → Forall (λ n, 0 < n) sizes → 0 < p →
  s + sumZ id (n :: sizes) < UINTPTR_MAX → 0 ≤ a < UINTPTR_MAX →
  pointerPermissions (commit_chunks s p (n :: sizes) resetPermissions) a =
    if decide (s ≤ a < s + sumZ id (n :: sizes)) then p else 0.
Proof.
  intros Hs Hn Hsz Hp Hmax Ha.
  change (sumZ id (n :: sizes)) with (n + sumZ id sizes) in *.
  assert (0 ≤ sumZ id sizes) as Hpos.
  { clear -Hsz. induction Hsz as [|m l Hm _ IH]; [done|]. unfold sumZ, id in *. cbn in *. lia. }
  cbn [commit_chunks]. rewrite commit_first, commit_chunks_grown by (done || lia).
  rewrite grown_permissions by lia. repeat case_decide; lia.
Qed.

Lemma growth_permissions_witness :
  pointerPermissions (commit_chunks 4096 1 [4096; 8192] resetPermissions) 16000 = 1.
Proof.
  rewrite growth_permissions; [reflexivity|lia|lia|repeat constructor|lia|reflexivity|].
  unfold UINTPTR_MAX; lia.
Defined.

(** Growing a range to [e], shrinking it to [m] and growing it back to [e]
    leaves every address from [s] to the end of the address space with the
    permission of the range: the entry that ends the region is dropped. *)
Theorem regrow_loses_end s m e p a :
  0 < s < m → m < e → e < UINTPTR_MAX → 0 < p → s ≤ a < UINTPTR_MAX →
  let grow1 := setPermissionList s e p resetPermissions in
  let shrunk := setPermissionList m e 0 grow1 in
  pointerPermissions (setPermissionList m e p shrunk) a = p.
Proof.
  intros Hs Hm He Hp Ha. cbn zeta. rewrite commit_first by lia.
  assert (setPermissionList m e 0 (grown s e p)
    = [(0, 0); (s, p); (m, 0); (e, 0); (UINTPTR_MAX, 0)]) as ->.
  { unfold setPermissionList, setPermissions_init, grown, UINTPTR_MAX in *. zcases; done. }
  assert (setPermissionList m e p [(0, 0); (s, p); (m, 0); (e, 0); (UINTPTR_MAX, 0)]
    = [(0, 0); (s, p); (UINTPTR_MAX, 0)]) as ->.
  { unfold setPermissionList, setPermissions_init, UINTPTR_MAX in *. zcases; done. }
  unfold pointerPermissions, UINTPTR_MAX in *. zcases; done.
Qed.

Lemma regrow_loses_end_witness :
  pointerPermissions
    (setPermissionList 8192 12288 1
       (setPermissionList 8192 12288 0 (setPermissionList 4096 12288 1 resetPermissions)))
    1000000 = 1.
Proof. apply (regrow_loses_end 4096 8192 12288 1 1000000); unfold UINTPTR_MAX; lia. Defined.

(** * Pages filled by the SIGBUS handler *)

(** C35: The page the handler fills lies inside the range, is at most one
    64 KiB fault page at a multiple of the page size from the start of the
    range, and contains the faulting byte. *)
Theorem faultPage_bounds range faultAddr off size :
  0 ≤ mapStart range → mapBytes range < 2 ^ 64 →
  pointerInRange range faultAddr = true →
  faultPage range faultAddr = (off, size) →
  0 ≤ off ∧ off mod FAULT_PAGE_SIZE = 0 ∧ 0 < size ≤ FAULT_PAGE_SIZE ∧
  off + size ≤ mapBytes range ∧
  mapStart range + off ≤ faultAddr < mapStart range + off + size.
Proof.
  intros Hs Hb [H1%Z.leb_le H2%Z.ltb_lt]%andb_true_iff Hf. unfold faultPage in Hf.
  rewrite wrapU_id in Hf by (unfold in_u; lia).
  replace (UINTPTR_MAX - (FAULT_PAGE_SIZE - 1)) with (2 ^ 64 - 2 ^ 16) in Hf by reflexivity.
  rewrite land_high_bits in Hf by lia. injection Hf as <- <-.
  change FAULT_PAGE_SIZE with (2 ^ 16).
  set (x := faultAddr - mapStart range) in *.
  pose proof (Z.mod_pos_bound x (2 ^ 16)) as Hm. assert (0 ≤ x mod 2 ^ 16 ≤ x) as Hle.
  { split; [lia|]. apply Z.mod_le; lia. }
  split; [lia|]. split.
  - rewrite Zminus_mod_idemp_r, Z.sub_diag. done.
  - destruct (Z.min_spec (x - x mod 2 ^ 16 + 2 ^ 16) (mapBytes range)) as [[? ->]|[? ->]]; lia.
Qed.

Lemma faultPage_bounds_witness :
  pointerInRange (mkRange 4096 100000 0 resetPermissions (0, 0)) 80000 = true ∧
  (65536 + 34464 ≤ 100000 ∧ 4096 + 65536 ≤ 80000 < 4096 + 65536 + 34464).
Proof.
  split; [reflexivity|].
  destruct (faultPage_bounds (mkRange 4096 100000 0 resetPermissions (0, 0)) 80000 65536 34464)
    as (_ & _ & _ & H1 & H2); [cbn; lia|cbn; lia|reflexivity|reflexivity|]. cbn in *. lia.
Defined.

(** * The mapping of a new range *)

Section new_range.
Context (kernel : list kcall → kcall → Z).
Context (checkErrno : Z → string → outcome unit).
Hypothesis checkErrno_ok : ∀ r msg, 0 ≤ r → checkErrno r msg = Ret ().

Lemma checked_ok a c msg :
  0 ≤ kernel (klog a) c →
  checked kernel checkErrno c msg a = (Ret (), mkArena (ranges a) (klog a ++ [c])).
Proof. intros Hc. unfold checked, syscall, lift, mbind, M_bind. cbn. by rewrite checkErrno_ok. Qed.

Lemma when_checked_ok a b c msg :
  (b = true → 0 ≤ kernel (klog a) c) →
  when b (checked kernel checkErrno c msg) a =
    (Ret (), mkArena (ranges a) (klog a ++ (if b then [c] else []))).
Proof.
  intros Hc. destruct b; cbn [when].
  - by rewrite checked_ok by auto.
  - rewrite app_nil_r. by destruct a.
Qed.

(** When the kernel maps [numBytes + alignment] bytes at an address and
    accepts the unmaps, the new range is aligned, has the requested size,
    lies inside the mapping, and the unmapped head and tail are exactly the
    bytes of the mapping outside it. *)
Theorem UffdMemoryRange_new_aligned a pages k address r a' :
  0 ≤ k < 48 → 0 < pages < 2 ^ 48 →
  kernel (klog a) (Kmmap (pages * 4096 + 2 ^ k)) = address →
  0 ≤ address → address + pages * 4096 + 2 ^ k < 2 ^ 64 - 1 →
  (∀ log c, c ≠ Kmmap (pages * 4096 + 2 ^ k) → 0 ≤ kernel log c) →
  UffdMemoryRange_new kernel checkErrno pages k a = (Ret r, a') →
  mapStart r mod 2 ^ k = 0 ∧ mapBytes r = pages * 4096 ∧
  permissions r = resetPermissions ∧ ranges a' = ranges a ∧
  ∃ head tail, 0 ≤ head < 2 ^ k ∧ head + tail = 2 ^ k ∧
    mapStart r = address + head ∧
    klog a' = klog a ++ [Kmmap (pages * 4096 + 2 ^ k)] ++
      (if 0 <? head then [Kmunmap address head] else []) ++
      [Kmunmap (mapStart r + mapBytes r) tail; KmadviseHuge (mapStart r) (mapBytes r)].
Proof.
  intros Hk Hpages Haddr Hpos Hend Hkern.
  assert (0 < 2 ^ k) as Hk0 by (apply Z.pow_pos_nonneg; lia).
  assert (2 ^ k < 2 ^ 48) as Hk48 by (apply Z.pow_lt_mono_r; lia).
  unfold UffdMemoryRange_new. cbv zeta.
  rewrite (wrapU_id 64 (pages * 4096)), (wrapU_id 64 (2 ^ k)) by (unfold in_u; lia).
  rewrite (wrapU_id 64 (pages * 4096 + 2 ^ k)) by (unfold in_u; lia).
  rewrite run_bind. unfold syscall at 1. rewrite Haddr.
  destruct (Z.eqb_spec address MAP_FAILED) as [->|_]; [unfold MAP_FAILED, UINTPTR_MAX in *; lia|].
  rewrite (wrapU_id 64 (address + 2 ^ k - 1)) by (unfold in_u; lia).
  replace (UINTPTR_MAX - (2 ^ k - 1)) with (2 ^ 64 - 2 ^ k) by (unfold UINTPTR_MAX; lia).
  rewrite land_high_bits by lia.
  pose proof (Z.mod_pos_bound (address + 2 ^ k - 1) (2 ^ k) Hk0) as Hm.
  set (m := (address + 2 ^ k - 1) mod 2 ^ k) in *.
  set (start := address + 2 ^ k - 1 - m).
  assert (start - address = 2 ^ k - 1 - m) as Hhead by lia.
  rewrite Hhead, (wrapU_id 64 (2 ^ k - 1 - m)) by (unfold in_u; lia).
  rewrite (wrapU_id 64 (2 ^ k - (2 ^ k - 1 - m))) by (unfold in_u; lia).
  rewrite (wrapU_id 64 (start + pages * 4096)) by (unfold in_u; lia).
  replace (0 <? 2 ^ k - (2 ^ k - 1 - m)) with true by lia.
  rewrite run_bind, when_checked_ok by (intros _; apply Hkern; discriminate).
  rewrite run_bind, when_checked_ok by (intros _; apply Hkern; discriminate).
  rewrite run_bind, checked_ok by (apply Hkern; discriminate).
  intros [= <- <-]. cbn.
  split; [unfold start, m; by rewrite Zminus_mod_idemp_r, Z.sub_diag|].
  split; [done|]. split; [done|]. split; [done|].
  exists (2 ^ k - 1 - m), (1 + m). split; [lia|]. split; [lia|]. split; [lia|].
  replace (2 ^ k - (2 ^ k - 1 - m)) with (1 + m) by lia.
  by rewrite <- !app_assoc.
Qed.
End new_range.

Lemma UffdMemoryRange_new_aligned_witness :
  let kernel (_ : list kcall) (c : kcall) := match c with Kmmap _ => 5000 | _ => 0 end in
  let chk (r : Z) (msg : string) : outcome unit :=
    if r <? 0 then Throw (SystemError msg) else Ret () in
  ∃ r a', UffdMemoryRange_new kernel chk 2 16 (mkArena [] []) = (Ret r, a') ∧
    mapStart r mod 2 ^ 16 = 0 ∧ mapBytes r = 2 * 4096.
Proof.
  intros kernel chk.
  destruct (UffdMemoryRange_new kernel chk 2 16 (mkArena [] [])) as [[r|e] a'] eqn:E;
    [|vm_compute in E; discriminate].
  exists r, a'. split; [reflexivity|].
  edestruct (UffdMemoryRange_new_aligned kernel chk) with
    (a := mkArena [] []) (pages := 2) (k := 16) (address := 5000) as (H1 & H2 & _).
  - intros z msg Hz. unfold chk. destruct (Z.ltb_spec z 0); [lia|reflexivity].
  - lia.
  - lia.
  - reflexivity.
  - lia.
  - lia.
  - intros log c Hc. destruct c; cbn; lia.
  - exact E.
  - split; [exact H1|exact H2].
Defined.

(** * The ordered set of ranges *)

(** The ranges of an arena are disjoint and in increasing order. *)
Fixpoint ordered_ranges (from : Z) (rs : list UffdMemoryRange) : Prop :=
  match rs with
  | [] => True
  | r :: rs' => from ≤ mapStart r ∧ 0 < mapBytes r ∧
                ordered_ranges (mapStart r + mapBytes r) rs'
  end.

Lemma ordered_ranges_weaken x y rs : ordered_ranges y rs → x ≤ y → ordered_ranges x rs.
Proof. destruct rs as [|r rs]; [done|]. cbn. intros (? & ? & ?) ?. split_and!; [lia|done|done]. Qed.

Lemma ordered_ranges_from x rs r : ordered_ranges x rs → r ∈ rs → x ≤ mapStart r.
Proof.
  revert x. induction rs as [|r' rs IH]; intros x Hrs Hin; [by apply elem_of_nil in Hin|].
  destruct Hrs as (H1 & H2 & H3). apply elem_of_cons in Hin as [->|Hin]; [done|].
  specialize (IH _ H3 Hin). lia.
Qed.

(** The comparison of a range with an address tells whether the range ends
    below it, whichever way it is written. *)
Lemma less_rp_spec r ptr :
  0 < mapBytes r → less_rp r ptr = (mapStart r + mapBytes r <=? ptr).
Proof.
  intros Hb. unfold less_rp, range_cmp_ptr, pointerInRange.
  destruct (Z.leb_spec (mapStart r) ptr), (Z.ltb_spec ptr (mapStart r + mapBytes r)),
    (Z.leb_spec (mapStart r + mapBytes r) ptr); cbn; try lia; try done;
    destruct (Z.compare_spec (mapStart r) ptr); cbn; done || lia.
Qed.

Lemma set_find_first rs ptr from :
  ordered_ranges from rs →
  set_find rs ptr = snd <$> list_find (λ r, ptr < mapStart r + mapBytes r) rs.
Proof.
  unfold set_find. revert from. induction rs as [|r rs IH]; intros from Hrs; [done|].
  destruct Hrs as (H1 & H2 & H3). cbn. rewrite less_rp_spec by done.
  destruct (Z.leb_spec (mapStart r + mapBytes r) ptr) as [Hle|Hlt]; case_decide; try lia.
  - rewrite (IH _ H3). by destruct (list_find _ rs) as [[? ?]|].
  - change (less_pr ptr r) with (less_rp r ptr). rewrite less_rp_spec by done.
    by destruct (Z.leb_spec (mapStart r + mapBytes r) ptr); [lia|].
Qed.

(** In an arena of disjoint ranges, looking an address of a range up finds
    that range. *)
Theorem set_find_in_range rs r ptr from :
  ordered_ranges from rs → r ∈ rs → pointerInRange r ptr = true →
  set_find rs ptr = Some r.
Proof.
  intros Hrs Hin Hptr. rewrite (set_find_first _ _ _ Hrs).
  apply andb_true_iff in Hptr as [Hs%Z.leb_le He%Z.ltb_lt].
  revert from Hrs. induction rs as [|r' rs IH]; intros from Hrs; [by apply elem_of_nil in Hin|].
  destruct Hrs as (H1 & H2 & H3). cbn. apply elem_of_cons in Hin as [->|Hin].
  - by rewrite decide_True by lia.
  - pose proof (ordered_ranges_from _ _ _ H3 Hin). rewrite decide_False by lia.
    specialize (IH Hin _ H3). by destruct (list_find _ rs) as [[? ?]|].
Qed.

Definition example_ranges : list UffdMemoryRange :=
  [mkRange 4096 4096 0 resetPermissions (0, 0); mkRange 65536 8192 0 resetPermissions (0, 0)].

Lemma set_find_in_range_witness :
  set_find example_ranges 70000 = Some (mkRange 65536 8192 0 resetPermissions (0, 0)).
Proof.
  apply (set_find_in_range example_ranges _ 70000 0).
  - cbn. lia.
  - apply elem_of_cons. right. by apply elem_of_cons; left.
  - reflexivity.
Defined.

Section free.
Context (kernel : list kcall → kcall → Z).
Context (checkErrno : Z → string → outcome unit).

(** [freeRange] does not check that the address lies in the range found:
    an address of no range frees the next range above it, where
    [modifyRange] rejects the same address. *)
Theorem freeRange_frees_next a r rs start from :
  ordered_ranges from (r :: rs) → ranges a = r :: rs → start < mapStart r →
  ranges (freeRange kernel checkErrno start a).2 = rs ∧
  (∀ action, modifyRange start action a
    = (Throw (RuntimeError "Invalid pointer found for UFFD range action"), a)).
Proof.
  intros Hrs Ha Hstart.
  assert (set_find (ranges a) start = Some r) as Hfind.
  { rewrite Ha, (set_find_first _ _ from Hrs). cbn. destruct Hrs as (? & ? & ?).
    by rewrite decide_True by lia. }
  split.
  - unfold freeRange. rewrite run_bind. cbn [get]. rewrite Hfind.
    unfold checked, syscall, modify, lift, mbind, M_bind. cbn.
    rewrite Ha. cbn. rewrite decide_False by tauto.
    destruct Hrs as (_ & H0 & Hrs). clear -Hrs H0.
    assert (∀ x, x ∈ rs → mapStart x ≠ mapStart r) as Hne.
    { intros x Hx. pose proof (ordered_ranges_from _ _ _ Hrs Hx). lia. }
    clear Hrs. induction rs as [|x rs IH]; [done|]. cbn.
    rewrite decide_True by (apply Hne; left). f_equal. apply IH. intros y Hy.
    apply Hne. by right.
  - intros action. unfold modifyRange. rewrite run_bind. cbn [get]. rewrite Hfind.
    unfold pointerInRange. by destruct (Z.leb_spec (mapStart r) start); [lia|].
Qed.
End free.

Lemma freeRange_frees_next_witness :
  ranges (freeRange (λ _ _, 0) (λ _ _, Ret ()) 100 (mkArena example_ranges [])).2
    = tail example_ranges.
Proof.
  apply (freeRange_frees_next (λ _ _, 0) (λ _ _, Ret ()) (mkArena example_ranges [])
           (mkRange 4096 4096 0 resetPermissions (0, 0)) (tail example_ranges) 100 0).
  - cbn. lia.
  - reflexivity.
  - cbn. lia.
Defined.
