(* ===== verification/WasmMemory.v ===== *)
(** The linear memory of a wasm module: page arithmetic, growing, shrinking,
    mapping and unmapping, thread stacks with their guard regions, and the
    mapping of shared state (src/wasm/WasmModule.cpp, with the memory half of
    src/wavm/WAVMWasmModule.cpp and the memory calls of src/wavm/memory.cpp). *)

From S2P Require Import Prelude.

(** * Pages (include/wasm/WasmCommon.h.in: one page is 64kB) *)

Definition WASM_BYTES_PER_PAGE : Z := 65536.
Definition GUARD_REGION_SIZE : Z := 10 * WASM_BYTES_PER_PAGE.

Definition isWasmPageAligned (offset : Z) : bool :=
  if negb (Z.land (i32 offset) (WASM_BYTES_PER_PAGE - 1) =? 0) then false else true.

Definition getNumberOfWasmPagesForBytes (nBytes : Z) : Z :=
  u64 (nBytes + WASM_BYTES_PER_PAGE - 1) / WASM_BYTES_PER_PAGE.

Definition roundUpToWasmPageAligned (nBytes : Z) : Z :=
  u32 (getNumberOfWasmPagesForBytes nBytes * WASM_BYTES_PER_PAGE).

Definition getPagesForGuardRegion : Z := getNumberOfWasmPagesForBytes GUARD_REGION_SIZE.

(** * The module's memory state *)

Inductive VirtualMemoryArenaMode : Type := ArenaDefault | ArenaUffd.

Inductive GrowResult : Type :=
  | grow_success | grow_outOfMemory | grow_outOfMaxSize | grow_outOfQuota.

#[export] Instance GrowResult_eq_dec : EqDecision GrowResult.
Proof. solve_decision. Defined.

(** [faabric::util::AlignedChunk] *)
Record AlignedChunk := mkChunk {
  nBytesLength : Z; nPagesOffset : Z; nPagesLength : Z; offsetRemainder : Z }.

(** The parts of a [StateKeyValue] the mapping uses. *)
Record StateKV := mkStateKV { kv_user : string; kv_key : string }.

Record WasmModule := mkWasmModule {
  memPages : Z;                       (** pages of WAVM's default memory *)
  threadStacks : list Z;
  threadPoolSize : Z;
  guardRegions : list (Z * Z);        (** made read-only: offset and size *)
  sharedMemWasmPtrs : gmap string Z;
  mappedState : list (StateKV * Z * Z * Z) (** value, native address, pages *) }.

Definition set_memPages (n : Z) (m : WasmModule) : WasmModule :=
  mkWasmModule n (threadStacks m) (threadPoolSize m) (guardRegions m)
    (sharedMemWasmPtrs m) (mappedState m).
Definition push_threadStack (s : Z) (m : WasmModule) : WasmModule :=
  mkWasmModule (memPages m) (threadStacks m ++ [s]) (threadPoolSize m) (guardRegions m)
    (sharedMemWasmPtrs m) (mappedState m).
Definition push_guardRegion (g : Z * Z) (m : WasmModule) : WasmModule :=
  mkWasmModule (memPages m) (threadStacks m) (threadPoolSize m) (guardRegions m ++ [g])
    (sharedMemWasmPtrs m) (mappedState m).
Definition cache_shared (k : string) (p : Z) (m : WasmModule) : WasmModule :=
  mkWasmModule (memPages m) (threadStacks m) (threadPoolSize m) (guardRegions m)
    (<[k := p]> (sharedMemWasmPtrs m)) (mappedState m).
Definition push_mappedState (x : StateKV * Z * Z * Z) (m : WasmModule) : WasmModule :=
  mkWasmModule (memPages m) (threadStacks m) (threadPoolSize m) (guardRegions m)
    (sharedMemWasmPtrs m) (mappedState m ++ [x]).

(** * What the module calls *)

(** WAVM's runtime, the kernel and faabric's page alignment: the growth and
    shrinking of a memory of [n] pages by [d] give the result, the pages after
    it and the page the call reports. *)
Class MemoryEnv := {
  THREAD_STACK_SIZE : Z;
  max_memory_pages : Z;
  vmArenaMode : VirtualMemoryArenaMode;
  runtime_growMemory : Z → Z → GrowResult * Z * Z;
  runtime_shrinkMemory : Z → Z → GrowResult * Z * Z;
  memory_ref : Z → outcome Z;         (** native address of a wasm offset *)
  sys_mprotect : Z → Z → Z → Z;
  sys_mmap_file : Z → Z → Z → Z;      (** address, length, fd; -1 on failure *)
  getPageAlignedChunk : Z → Z → AlignedChunk }.

(** The documented behaviour of WAVM's calls: a successful growth adds the
    pages at the old end, a successful shrink removes them from the end, a
    failed call leaves the memory as it was. *)
Class MemoryEnvLaws (E : MemoryEnv) : Prop := {
  grow_success_law n d n' base :
    runtime_growMemory n d = (grow_success, n', base) → n' = n + d ∧ base = n;
  grow_failure_law n d r n' base :
    runtime_growMemory n d = (r, n', base) → r ≠ grow_success → n' = n;
  shrink_success_law n d n' rep :
    runtime_shrinkMemory n d = (grow_success, n', rep) → n' = n - d ∧ rep = n - d;
  shrink_failure_law n d r n' rep :
    runtime_shrinkMemory n d = (r, n', rep) → r ≠ grow_success → n' = n;
  max_pages_law : 0 ≤ max_memory_pages ≤ 65536;
  stack_size_law : 16 ≤ THREAD_STACK_SIZE < 2 ^ 24 ∧
                   THREAD_STACK_SIZE mod WASM_BYTES_PER_PAGE = 0 }.

Section module.
Context `{E : MemoryEnv}.

Definition getMemorySizeBytes (m : WasmModule) : Z := u64 (memPages m * WASM_BYTES_PER_PAGE).
Definition getMaxMemoryPages : Z := max_memory_pages.
Definition getCurrentBrk (m : WasmModule) : Z := u32 (getMemorySizeBytes m).

(** [WAVMWasmModule::doGrowMemory] *)
Definition doGrowMemory (pageChange : Z) : M WasmModule bool :=
  m ← get;
  let oldBytes := getMemorySizeBytes m in
  let '(result, pages', newMemPageBase) := runtime_growMemory (memPages m) pageChange in
  put (set_memPages pages' m) ;;
  let newMemBase := u32 (newMemPageBase * WASM_BYTES_PER_PAGE) in
  if negb (newMemBase =? oldBytes)
  then throw (RuntimeError "WAVM memory growth discrepancy")
  else mret (bool_decide (result = grow_success)).

(** [WasmModule::growMemory] *)
Definition growMemory (nBytes : Z) : M WasmModule Z :=
  m ← get;
  if nBytes =? 0 then mret (u32 (getMemorySizeBytes m))
  else
    let oldBytes := u32 (getMemorySizeBytes m) in
    let newBrk := u32 (oldBytes + nBytes) in
    if negb (isWasmPageAligned newBrk)
    then throw (RuntimeError "Non-wasm-page-aligned memory growth")
    else
      let newBytes := u64 (oldBytes + nBytes) in
      let oldPages := u32 (getNumberOfWasmPagesForBytes oldBytes) in
      let newPages := u32 (getNumberOfWasmPagesForBytes newBytes) in
      let maxPages := getMaxMemoryPages in
      if (UINT32_MAX <? newBytes) || (maxPages <? newPages)
      then throw (RuntimeError "Memory growth exceeding max")
      else
        let pageChange := u32 (newPages - oldPages) in
        success ← doGrowMemory pageChange;
        if negb success then throw (RuntimeError "Failed to grow memory")
        else
          m' ← get;
          if negb (getMemorySizeBytes m' =? newBytes)
          then throw (RuntimeError "Memory growth discrepancy")
          else mret oldBytes.

(** [WAVMWasmModule::shrinkMemory] *)
Definition shrinkMemory (nBytes : Z) : M WasmModule Z :=
  if negb (isWasmPageAligned nBytes)
  then throw (RuntimeError "New break not page aligned")
  else
    m ← get;
    let oldBrk := u32 (getMemorySizeBytes m) in
    if oldBrk <? nBytes
    then throw (RuntimeError "Shrinking by more than current brk")
    else
      let pageChange := getNumberOfWasmPagesForBytes nBytes in
      let '(result, pages', newNumPages) := runtime_shrinkMemory (memPages m) pageChange in
      put (set_memPages pages' m) ;;
      match result with
      | grow_success => mret (u32 (newNumPages * WASM_BYTES_PER_PAGE))
      | grow_outOfMemory => throw (RuntimeError "Unable to commit virtual pages")
      | grow_outOfMaxSize => throw (RuntimeError "Run out of memory to map")
      | grow_outOfQuota => throw (RuntimeError "Memory resource quota exceeded")
      end.

(** [WasmModule::setMemorySize] *)
Definition setMemorySize (nBytes : Z) : M WasmModule unit :=
  m ← get;
  let memSize := getCurrentBrk m in
  if memSize <? nBytes then growMemory (nBytes - memSize) ;; mret ()
  else if nBytes <? memSize then shrinkMemory (memSize - nBytes) ;; mret ()
  else mret ().

(** [WasmModule::mmapMemory]: the argument is narrowed to 32 bits by the
    rounding function. *)
Definition mmapMemory (nBytes : Z) : M WasmModule Z :=
  let pageAligned := roundUpToWasmPageAligned (u32 nBytes) in
  growMemory pageAligned.

(** [WasmModule::unmapMemory] *)
Definition unmapMemory (offset nBytes : Z) : M WasmModule unit :=
  if nBytes =? 0 then mret ()
  else if negb (isWasmPageAligned offset)
  then throw (RuntimeError "Non-page aligned munmap address")
  else
    let pageAligned := roundUpToWasmPageAligned (u32 nBytes) in
    let maxSize := u64 (getMaxMemoryPages * WASM_BYTES_PER_PAGE) in
    let unmapTop := u32 (offset + pageAligned) in
    if maxSize <? unmapTop
    then throw (RuntimeError "munmapping outside memory max")
    else
      m ← get;
      if unmapTop =? getMemorySizeBytes m
      then shrinkMemory pageAligned ;; mret ()
      else mret ().

(** [WasmModule::createMemoryGuardRegion] *)
Definition createMemoryGuardRegion (wasmOffset : Z) : M WasmModule Z :=
  let regionSize := GUARD_REGION_SIZE in
  nativePtr ← lift (memory_ref wasmOffset);
  match vmArenaMode with
  | ArenaDefault =>
      if negb (sys_mprotect nativePtr regionSize PROT_READ =? 0)
      then throw (RuntimeError "Failed to create memory guard")
      else modify (push_guardRegion (wasmOffset, regionSize))
  | ArenaUffd => mret ()
  end ;;
  mret (u32 (wasmOffset + regionSize)).

(** [WasmModule::addThreadStack] *)
Definition addThreadStack : M WasmModule unit :=
  let memSize := u32 (THREAD_STACK_SIZE + 2 * GUARD_REGION_SIZE) in
  memBase ← growMemory memSize;
  let stackTop := u32 (memBase + GUARD_REGION_SIZE + THREAD_STACK_SIZE - 16) in
  modify (push_threadStack stackTop) ;;
  createMemoryGuardRegion memBase ;;
  createMemoryGuardRegion (u32 (stackTop + 16)) ;;
  mret ().

(** The loop of [WasmModule::executeTask] that provisions the stack of thread
    [threadPoolIdx]; it runs at most [threadPoolIdx + 1] times. *)
Fixpoint provisionStacks (fuel : nat) (threadPoolIdx : Z) : M WasmModule unit :=
  m ← get;
  if Z.of_nat (length (threadStacks m)) <=? threadPoolIdx
  then match fuel with
       | O => throw (AssertFailed "fuel")
       | S fuel' => addThreadStack ;; provisionStacks fuel' threadPoolIdx
       end
  else mret ().

(** The stack a threaded task runs on. *)
Definition threadStackTop (ndebug : bool) (threadPoolIdx : Z) : M WasmModule Z :=
  m ← get;
  assertion ndebug "!threadStacks.empty()" (negb (bool_decide (threadStacks m = []))) ;;
  provisionStacks (S (Z.to_nat threadPoolIdx)) threadPoolIdx ;;
  m' ← get;
  match threadStacks m' !! Z.to_nat threadPoolIdx with
  | Some s => mret s
  | None => throw (OutOfRange "vector::at")
  end.

(** The region [WasmModule::ignoreThreadStacksInSnapshot] excludes from
    snapshot diffs: offset and size. *)
Definition threadStackRegion (m : WasmModule) : outcome (Z * Z) :=
  match threadStacks m with
  | [] => Throw (OutOfRange "vector::at")
  | s0 :: _ =>
      Ret (u32 (s0 - (THREAD_STACK_SIZE - 1) - GUARD_REGION_SIZE),
           u32 (threadPoolSize m * (THREAD_STACK_SIZE + 2 * GUARD_REGION_SIZE)))
  end.

(** The key of [sharedMemWasmPtrs]. *)
Definition segmentKey (kv : StateKV) (offset length : Z) : string :=
  kv_user kv +:+ "_" +:+ kv_key kv +:+ "__" +:+ to_string offset +:+ "__" +:+
  to_string length.

(** [WasmModule::mapSharedStateMemory] *)
Definition mapSharedStateMemory (kv : StateKV) (offset length : Z) : M WasmModule Z :=
  m ← get;
  let key := segmentKey kv offset length in
  match sharedMemWasmPtrs m !! key with
  | Some _ => mret ()
  | None =>
      let chunk := getPageAlignedChunk offset length in
      let allocSize := roundUpToWasmPageAligned (u32 (nBytesLength chunk)) in
      wasmBasePtr ← growMemory allocSize;
      let wasmOffsetPtr := u32 (wasmBasePtr + offsetRemainder chunk) in
      wasmMemoryRegionPtr ← lift (memory_ref wasmBasePtr);
      modify (push_mappedState
        (kv, wasmMemoryRegionPtr, nPagesOffset chunk, nPagesLength chunk)) ;;
      modify (cache_shared key wasmOffsetPtr)
  end ;;
  m' ← get;
  mret (default 0 (sharedMemWasmPtrs m' !! key)).

(** The callback of [WasmModule::deltaRestore] that makes room for a delta of
    [newSize] bytes. *)
Definition deltaRestoreSize (newSize : Z) : M WasmModule unit :=
  m ← get;
  if getCurrentBrk m <? newSize
  then growMemory (newSize - getCurrentBrk m) ;; mret ()
  else mret ().

(** [WAVMWasmModule::mmapFile]: new memory whose pages the kernel then maps
    to the file. *)
Definition mmapFile (fd length : Z) : M WasmModule Z :=
  wasmPtr ← mmapMemory length;
  targetPtr ← lift (memory_ref wasmPtr);
  let mmappedPtr := sys_mmap_file targetPtr length fd in
  if mmappedPtr =? -1 then throw (RuntimeError "Unable to map file")
  else if negb (mmappedPtr =? targetPtr)
  then throw (RuntimeError "Unable to map file into required location")
  else mret wasmPtr.

(** [munmap] and [__sbrk] of src/wavm/memory.cpp: the arguments are 32-bit signed and
    widened to [size_t]. *)
Definition wasi_munmap (addr length : Z) : M WasmModule Z :=
  unmapMemory (u32 addr) (u64 length) ;; mret 0.
Definition sbrk (increment : Z) : M WasmModule Z :=
  r ← (if increment <? 0 then shrinkMemory (u64 (i32 (- increment)))
       else growMemory (u64 increment));
  mret (i32 r).
End module.

(** * Page arithmetic: lemmas *)

Create HintDb pages discriminated.

Lemma isWasmPageAligned_spec x : isWasmPageAligned x = (x mod WASM_BYTES_PER_PAGE =? 0).
Proof.
  unfold isWasmPageAligned. change (WASM_BYTES_PER_PAGE - 1) with (Z.ones 16).
  rewrite Z.land_ones by lia. change WASM_BYTES_PER_PAGE with (2 ^ 16).
  assert (i32 x mod 2 ^ 16 = x mod 2 ^ 16) as ->.
  { unfold wrapS. rewrite Zminus_mod, Z.mod_mod_divide by (exists (2 ^ 16); reflexivity).
    change (2 ^ (32 - 1) mod 2 ^ 16) with 0. rewrite Z.sub_0_r, Z.mod_mod by lia.
    rewrite Zplus_mod. change (2 ^ (32 - 1) mod 2 ^ 16) with 0.
    by rewrite Z.add_0_r, Z.mod_mod by lia. }
  by destruct (x mod 2 ^ 16 =? 0).
Qed.

Lemma pages_of_aligned n :
  0 ≤ n ≤ 2 ^ 32 → n mod WASM_BYTES_PER_PAGE = 0 →
  getNumberOfWasmPagesForBytes n * WASM_BYTES_PER_PAGE = n.
Proof.
  intros Hn Hm. unfold getNumberOfWasmPagesForBytes, WASM_BYTES_PER_PAGE in *.
  rewrite wrapU_id by (unfold in_u; lia). dlia.
Qed.

Lemma pages_bounds n :
  0 ≤ n ≤ 2 ^ 32 →
  n ≤ getNumberOfWasmPagesForBytes n * WASM_BYTES_PER_PAGE < n + WASM_BYTES_PER_PAGE.
Proof.
  intros Hn. unfold getNumberOfWasmPagesForBytes, WASM_BYTES_PER_PAGE.
  rewrite wrapU_id by (unfold in_u; lia). dlia.
Qed.

(** Rounding up to pages, for a size that does not round to 2^32. *)
Lemma roundUp_bounds n :
  0 ≤ n ≤ 2 ^ 32 - WASM_BYTES_PER_PAGE →
  n ≤ roundUpToWasmPageAligned n < n + WASM_BYTES_PER_PAGE ∧
  roundUpToWasmPageAligned n mod WASM_BYTES_PER_PAGE = 0.
Proof.
  intros Hn. unfold roundUpToWasmPageAligned.
  unfold getNumberOfWasmPagesForBytes, WASM_BYTES_PER_PAGE in *.
  rewrite (wrapU_id 64) by (unfold in_u; lia).
  rewrite wrapU_id by (unfold in_u; dlia). dlia.
Qed.

Lemma roundUp_overflow n :
  2 ^ 32 - WASM_BYTES_PER_PAGE < n < 2 ^ 32 → roundUpToWasmPageAligned n = 0.
Proof.
  intros Hn. unfold roundUpToWasmPageAligned, getNumberOfWasmPagesForBytes, WASM_BYTES_PER_PAGE in *.
  rewrite (wrapU_id 64) by (unfold in_u; lia).
  replace ((n + 65536 - 1) / 65536) with 65536 by dlia. reflexivity.
Qed.

(** * Growing and shrinking *)

(** The memory ends at a 32-bit address. *)
Definition wf_module (m : WasmModule) : Prop :=
  0 ≤ memPages m ∧ memPages m * WASM_BYTES_PER_PAGE ≤ UINT32_MAX.

(** The byte size, as a number. *)
Definition size_of (m : WasmModule) : Z := memPages m * WASM_BYTES_PER_PAGE.

Ltac page_lia :=
  unfold wf_module, size_of, WASM_BYTES_PER_PAGE, UINT32_MAX, in_u in *; dlia.

Section growth.
Context `{E : MemoryEnv} {L : MemoryEnvLaws E}.

Lemma size_bytes m : wf_module m → getMemorySizeBytes m = size_of m.
Proof.
  intros [H0 H1]. unfold getMemorySizeBytes, size_of, WASM_BYTES_PER_PAGE, UINT32_MAX in *.
  rewrite wrapU_id by (unfold in_u; lia). done.
Qed.

Lemma size_bytes32 m : wf_module m → u32 (getMemorySizeBytes m) = size_of m.
Proof.
  intros Hwf. rewrite size_bytes by done. destruct Hwf as [H0 H1].
  unfold size_of, WASM_BYTES_PER_PAGE, UINT32_MAX in *. apply wrapU_id. unfold in_u. lia.
Qed.

Lemma brk_size m : wf_module m → getCurrentBrk m = size_of m.
Proof. apply size_bytes32. Qed.

Lemma set_memPages_id m : set_memPages (memPages m) m = m.
Proof. by destruct m. Qed.

Lemma doGrowMemory_granted d m n' base :
  wf_module m → runtime_growMemory (memPages m) d = (grow_success, n', base) →
  doGrowMemory d m = (Ret true, set_memPages (memPages m + d) m).
Proof.
  intros Hwf Hg. unfold doGrowMemory, mbind, M_bind. cbn. rewrite Hg.
  apply grow_success_law in Hg as [-> ->]. rewrite size_bytes by done.
  rewrite wrapU_id by page_lia. unfold size_of. by rewrite Z.eqb_refl.
Qed.

(** What a call of [doGrowMemory] did. *)
Lemma doGrowMemory_cases d m o m' :
  wf_module m → doGrowMemory d m = (o, m') →
  (o = Ret true ∧ m' = set_memPages (memPages m + d) m) ∨
  (o ≠ Ret true ∧ m' = m).
Proof.
  intros Hwf Hrun. unfold doGrowMemory, mbind, M_bind in Hrun. cbn in Hrun.
  rewrite size_bytes in Hrun by done.
  destruct (runtime_growMemory (memPages m) d) as [[result pages'] base] eqn:Hg.
  destruct (decide (result = grow_success)) as [->|Hne].
  - apply grow_success_law in Hg as [-> ->]. left.
    assert (u32 (memPages m * WASM_BYTES_PER_PAGE) = size_of m) as Hs.
    { destruct Hwf. unfold size_of, WASM_BYTES_PER_PAGE, UINT32_MAX in *.
      apply wrapU_id. unfold in_u. lia. }
    rewrite Hs, Z.eqb_refl in Hrun. cbn in Hrun. by injection Hrun as <- <-.
  - apply grow_failure_law in Hg as ->; [|done]. right.
    rewrite set_memPages_id in Hrun.
    destruct (negb _); injection Hrun as <- <-; split; try done.
    intros [= Hb%bool_decide_eq_true]. done.
Qed.

(** Every outcome of [growMemory]: a return grows the memory by exactly the
    bytes asked for and gives the old size, a throw changes nothing. *)
Lemma growMemory_cases n m o m' :
  wf_module m → 0 ≤ n < 2 ^ 63 → growMemory n m = (o, m') →
  (o = Ret (size_of m) ∧ m' = set_memPages (memPages m + n / WASM_BYTES_PER_PAGE) m ∧
   n mod WASM_BYTES_PER_PAGE = 0 ∧ size_of m' = size_of m + n ∧ wf_module m' ∧
   (n = 0 ∨ memPages m' ≤ max_memory_pages)) ∨
  (∃ e, o = Throw e ∧ m' = m ∧ n ≠ 0).
Proof.
  intros Hwf Hn Hrun. unfold growMemory in Hrun. rewrite run_bind in Hrun. cbn [get] in Hrun.
  rewrite size_bytes32 in Hrun by done.
  destruct (Z.eqb_spec n 0) as [->|Hn0].
  { injection Hrun as <- <-. left. rewrite Z.add_0_r, set_memPages_id, Z.add_0_r.
    split_and!; try done. by left. }
  assert (0 ≤ size_of m ≤ 2 ^ 32 - 1) as Hsz by page_lia.
  rewrite isWasmPageAligned_spec, wrapU_mod_divide in Hrun
    by (lia || (unfold WASM_BYTES_PER_PAGE; lia) || (exists (2 ^ 16); reflexivity)).
  assert ((size_of m + n) mod WASM_BYTES_PER_PAGE = n mod WASM_BYTES_PER_PAGE) as Hmod.
  { unfold size_of. rewrite Z.add_comm. apply Z_mod_plus_full. }
  rewrite Hmod, (wrapU_id 64) in Hrun by (unfold in_u; lia).
  destruct (Z.eqb_spec (n mod WASM_BYTES_PER_PAGE) 0) as [Haln|]; cbn [negb] in Hrun;
    [|right; eexists; by injection Hrun as <- <-].
  unfold UINT32_MAX in Hrun. destruct (Z.ltb_spec (2 ^ 32 - 1) (size_of m + n)) as [|Hmax];
    cbn [orb] in Hrun; [right; eexists; by injection Hrun as <- <-|].
  assert (getNumberOfWasmPagesForBytes (size_of m) = memPages m) as Hold.
  { pose proof (pages_of_aligned (size_of m)) as H. page_lia. }
  assert (getNumberOfWasmPagesForBytes (size_of m + n) = memPages m + n / WASM_BYTES_PER_PAGE) as Hnew.
  { pose proof (pages_of_aligned (size_of m + n)) as H. page_lia. }
  rewrite Hold, Hnew in Hrun.
  assert (0 ≤ memPages m + n / WASM_BYTES_PER_PAGE < 2 ^ 32) as Hpg by page_lia.
  rewrite (wrapU_id 32 (memPages m)), (wrapU_id 32 (memPages m + _ / _)) in Hrun by page_lia.
  destruct (Z.ltb_spec getMaxMemoryPages (memPages m + n / WASM_BYTES_PER_PAGE)) as [|Hle];
    [right; eexists; by injection Hrun as <- <-|].
  replace (memPages m + n / WASM_BYTES_PER_PAGE - memPages m)
    with (n / WASM_BYTES_PER_PAGE) in Hrun by lia.
  rewrite (wrapU_id 32 (n / _)), run_bind in Hrun by page_lia.
  destruct (doGrowMemory _ m) as [og mg] eqn:Hg.
  destruct (doGrowMemory_cases _ _ _ _ Hwf Hg) as [[-> ->]|[Hne ->]].
  - cbn [negb] in Hrun. rewrite run_bind in Hrun. cbn [get] in Hrun.
    set (mg := set_memPages _ m) in *.
    assert (size_of mg = size_of m + n) as Hszg.
    { unfold mg, size_of. cbn [memPages set_memPages]. page_lia. }
    assert (wf_module mg) as Hwfg.
    { split; [cbn; lia|]. fold (size_of mg). rewrite Hszg. page_lia. }
    rewrite size_bytes, Hszg, Z.eqb_refl in Hrun by done. cbn in Hrun.
    injection Hrun as <- <-. left. split_and!; try done. by right.
  - right. destruct og as [[]|e]; [done| |]; cbn in Hrun; injection Hrun as <- <-; by eexists.
Qed.

(** Every outcome of [shrinkMemory]. *)
Lemma shrinkMemory_cases n m o m' :
  wf_module m → 0 ≤ n < 2 ^ 64 → shrinkMemory n m = (o, m') →
  (o = Ret (size_of m - n) ∧ m' = set_memPages (memPages m - n / WASM_BYTES_PER_PAGE) m ∧
   n mod WASM_BYTES_PER_PAGE = 0 ∧ size_of m' = size_of m - n ∧ wf_module m') ∨
  (∃ e, o = Throw e ∧ m' = m).
Proof.
  intros Hwf Hn Hrun. unfold shrinkMemory in Hrun. rewrite isWasmPageAligned_spec in Hrun.
  destruct (Z.eqb_spec (n mod WASM_BYTES_PER_PAGE) 0) as [Haln|]; cbn [negb] in Hrun;
    [|right; eexists; by injection Hrun as <- <-].
  rewrite run_bind in Hrun. cbn [get] in Hrun. rewrite size_bytes32 in Hrun by done.
  destruct (Z.ltb_spec (size_of m) n) as [|Hle];
    [right; eexists; by injection Hrun as <- <-|].
  assert (getNumberOfWasmPagesForBytes n = n / WASM_BYTES_PER_PAGE) as Hpg.
  { pose proof (pages_of_aligned n) as H. page_lia. }
  rewrite Hpg in Hrun.
  destruct (runtime_shrinkMemory (memPages m) _) as [[result pages'] rep] eqn:Hs.
  unfold put, mbind, M_bind in Hrun. cbn in Hrun.
  destruct (decide (result = grow_success)) as [->|Hne].
  - apply shrink_success_law in Hs as [-> ->]. cbn in Hrun. injection Hrun as <- <-. left.
    set (mg := set_memPages _ m).
    assert (size_of mg = size_of m - n) as Hsz.
    { unfold mg, size_of. cbn [memPages set_memPages]. page_lia. }
    split_and!; try done.
    + f_equal. rewrite wrapU_id by page_lia. page_lia.
    + split; [cbn [memPages mg set_memPages]|fold (size_of mg)]; page_lia.
  - apply shrink_failure_law in Hs as ->; [|done]. right. rewrite set_memPages_id in Hrun.
    destruct result; cbn in Hrun; try done; injection Hrun as <- <-; by eexists.
Qed.
(** A growth by whole pages that fits, which the runtime grants. *)
Lemma growMemory_granted n m :
  wf_module m → 0 < n → n mod WASM_BYTES_PER_PAGE = 0 →
  size_of m + n ≤ UINT32_MAX → memPages m + n / WASM_BYTES_PER_PAGE ≤ max_memory_pages →
  (∀ p d, ∃ n' base, runtime_growMemory p d = (grow_success, n', base)) →
  growMemory n m = (Ret (size_of m), set_memPages (memPages m + n / WASM_BYTES_PER_PAGE) m).
Proof.
  intros Hwf Hn Haln Hmax Hpages Hgrant.
  destruct (growMemory n m) as [o m'] eqn:Hrun. pose proof Hrun as Hrun'.
  apply growMemory_cases in Hrun as [(-> & -> & _)|(e & -> & -> & _)];
    [done| |done|page_lia].
  exfalso. unfold growMemory in Hrun'. rewrite run_bind in Hrun'. cbn [get] in Hrun'.
  rewrite size_bytes32, isWasmPageAligned_spec, wrapU_mod_divide in Hrun'
    by (done || lia || (exists (2 ^ 16); reflexivity)).
  replace ((size_of m + n) mod WASM_BYTES_PER_PAGE) with 0 in Hrun' by page_lia.
  rewrite (wrapU_id 64) in Hrun' by page_lia. cbn [negb Z.eqb] in Hrun'.
  assert (getNumberOfWasmPagesForBytes (size_of m) = memPages m) as Hold.
  { pose proof (pages_of_aligned (size_of m)) as H. page_lia. }
  assert (getNumberOfWasmPagesForBytes (size_of m + n) = memPages m + n / WASM_BYTES_PER_PAGE) as Hnew.
  { pose proof (pages_of_aligned (size_of m + n)) as H. page_lia. }
  rewrite Hold, Hnew in Hrun'.
  rewrite (wrapU_id 32 (memPages m)), (wrapU_id 32 (memPages m + _ / _)) in Hrun' by page_lia.
  replace (memPages m + n / WASM_BYTES_PER_PAGE - memPages m)
    with (n / WASM_BYTES_PER_PAGE) in Hrun' by lia.
  destruct (Z.eqb_spec n 0), (Z.ltb_spec UINT32_MAX (size_of m + n)),
    (Z.ltb_spec getMaxMemoryPages (memPages m + n / WASM_BYTES_PER_PAGE));
    try (unfold getMaxMemoryPages in *; lia). cbn [orb] in Hrun'.
  rewrite (wrapU_id 32 (n / _)), run_bind in Hrun' by page_lia.
  destruct (Hgrant (memPages m) (n / WASM_BYTES_PER_PAGE)) as (n' & base & Hg).
  rewrite (doGrowMemory_granted _ _ _ _ Hwf Hg) in Hrun'. cbn [negb] in Hrun'.
  rewrite run_bind in Hrun'. cbn [get] in Hrun'.
  assert (size_of (set_memPages (memPages m + n / WASM_BYTES_PER_PAGE) m) = size_of m + n) as Hsz.
  { unfold size_of. cbn [memPages set_memPages]. page_lia. }
  rewrite size_bytes, Hsz, Z.eqb_refl in Hrun'; [done|].
  split; [cbn [memPages set_memPages]; page_lia|]. fold (size_of (set_memPages
    (memPages m + n / WASM_BYTES_PER_PAGE) m)). rewrite Hsz. page_lia.
Qed.

(** A shrink by whole pages that there are, which the runtime grants. *)
Lemma shrinkMemory_granted n m :
  wf_module m → 0 ≤ n ≤ size_of m → n mod WASM_BYTES_PER_PAGE = 0 →
  (∀ p d, ∃ n' rep, runtime_shrinkMemory p d = (grow_success, n', rep)) →
  shrinkMemory n m = (Ret (size_of m - n), set_memPages (memPages m - n / WASM_BYTES_PER_PAGE) m).
Proof.
  intros Hwf Hn Haln Hgrant. unfold shrinkMemory.
  rewrite isWasmPageAligned_spec, Haln. cbn [negb Z.eqb]. rewrite run_bind. cbn [get].
  rewrite size_bytes32 by done. destruct (Z.ltb_spec (size_of m) n); [lia|].
  assert (getNumberOfWasmPagesForBytes n = n / WASM_BYTES_PER_PAGE) as ->.
  { pose proof (pages_of_aligned n) as Hp. page_lia. }
  destruct (Hgrant (memPages m) (n / WASM_BYTES_PER_PAGE)) as (n' & rep & Hs). rewrite Hs.
  apply shrink_success_law in Hs as [-> ->]. run_unfold. f_equal. f_equal.
  rewrite wrapU_id by page_lia. page_lia.
Qed.
End growth.

Section memory_properties.
Context `{E : MemoryEnv} {L : MemoryEnvLaws E}.

(** C1: [growMemory] either returns the old end of memory, having added
    exactly the bytes asked for without passing the maximum, or throws and
    leaves the memory as it was. *)
Theorem growMemory_exact n m :
  wf_module m → 0 < n < 2 ^ 63 →
  match growMemory n m with
  | (Ret r, m') => r = size_of m ∧ size_of m' = size_of m + n ∧ wf_module m' ∧
                   size_of m' ≤ max_memory_pages * WASM_BYTES_PER_PAGE ∧
                   n mod WASM_BYTES_PER_PAGE = 0
  | (Throw _, m') => m' = m
  end.
Proof.
  intros Hwf Hn. destruct (growMemory n m) as [o m'] eqn:Hrun.
  apply growMemory_cases in Hrun as [(-> & Hm' & Haln & Hsz & Hwf' & Hmax)|(e & -> & -> & _)];
    [|done|done|lia].
  split_and!; try done. destruct Hmax; [lia|]. page_lia.
Qed.

(** A page-aligned growth that fits in the maximum and that the runtime
    grants succeeds. *)
Theorem growMemory_succeeds n m :
  wf_module m → 0 < n → n mod WASM_BYTES_PER_PAGE = 0 →
  size_of m + n ≤ UINT32_MAX → memPages m + n / WASM_BYTES_PER_PAGE ≤ max_memory_pages →
  (∀ p d, ∃ n' base, runtime_growMemory p d = (grow_success, n', base)) →
  ∃ m', growMemory n m = (Ret (size_of m), m') ∧ size_of m' = size_of m + n.
Proof.
  intros Hwf Hn Haln Hmax Hpages Hgrant. eexists. split; [by apply growMemory_granted|].
  unfold size_of. cbn [memPages set_memPages]. page_lia.
Qed.

(** [setMemorySize], used to restore a snapshot, leaves the memory with
    exactly the requested size, or throws and leaves it as it was. *)
Theorem setMemorySize_exact n m :
  wf_module m → 0 ≤ n < 2 ^ 63 →
  match setMemorySize n m with
  | (Ret _, m') => size_of m' = n ∧ wf_module m'
  | (Throw _, m') => m' = m
  end.
Proof.
  intros Hwf Hn. unfold setMemorySize. rewrite run_bind. cbn [get].
  rewrite brk_size by done.
  assert (0 ≤ size_of m) as Hpos by page_lia.
  destruct (Z.ltb_spec (size_of m) n).
  - rewrite run_bind. destruct (growMemory _ m) as [o m'] eqn:Hrun.
    apply growMemory_cases in Hrun as [(-> & _ & _ & Hsz & Hwf' & _)|(e & -> & -> & _)];
      [|done|done|lia]. cbn. split; [lia|done].
  - destruct (Z.ltb_spec n (size_of m)).
    + rewrite run_bind. destruct (shrinkMemory _ m) as [o m'] eqn:Hrun.
      apply shrinkMemory_cases in Hrun as [(-> & _ & _ & Hsz & Hwf')|(e & -> & ->)];
        [|done|done|page_lia]. cbn. split; [lia|done].
    + cbn. split; [lia|done].
Qed.

(** Unmapping reclaims the memory only when the unmapped pages are the
    top ones, and then exactly those; every other call that returns leaves
    the memory as it was. *)
Theorem unmapMemory_top_only offset n m :
  wf_module m → 0 ≤ offset < 2 ^ 32 → 0 ≤ n ≤ 2 ^ 32 - WASM_BYTES_PER_PAGE →
  match unmapMemory offset n m with
  | (Ret _, m') =>
      (m' = m ∨ size_of m' = offset) ∧ size_of m' ≤ size_of m ∧
      (n ≠ 0 → offset + roundUpToWasmPageAligned n = size_of m → size_of m' = offset)
  | (Throw _, m') => m' = m
  end.
Proof.
  intros Hwf Hoff Hn. unfold unmapMemory.
  destruct (Z.eqb_spec n 0) as [->|Hn0].
  { cbn. split; [by left|]. split; [lia|done]. }
  destruct (negb (isWasmPageAligned offset)); [done|].
  rewrite (wrapU_id 32 n) by page_lia.
  pose proof (roundUp_bounds n Hn) as [Hr Hraln].
  destruct (_ <? u32 _) eqn:Hmax; [done|]. rewrite run_bind. cbn [get].
  rewrite size_bytes by done.
  assert (0 ≤ size_of m < 2 ^ 32) as Hsz by page_lia.
  assert (offset + roundUpToWasmPageAligned n < 2 ^ 33) as Hsum by page_lia.
  unfold wrapU in *.
  destruct (Z.eqb_spec ((offset + roundUpToWasmPageAligned n) mod 2 ^ 32) (size_of m)) as [Heq|Hne].
  - rewrite run_bind. destruct (shrinkMemory _ m) as [o m'] eqn:Hrun.
    apply shrinkMemory_cases in Hrun as [(-> & _ & _ & Hsz' & Hwf')|(e & -> & ->)];
      [|done|done|page_lia]. cbn.
    assert (size_of m' = offset) as Hm' by page_lia.
    split; [by right|]. split; [page_lia|done].
  - cbn. split; [by left|]. split; [lia|]. intros _ Htop. rewrite Htop in Hne.
    by rewrite Z.mod_small in Hne.
Qed.

(** A mapping of more than 2^32 - 65536 bytes rounds to no page: the call
    succeeds, returns the end of memory and maps nothing. *)
Theorem mmapMemory_wraps n m :
  wf_module m → 2 ^ 32 - WASM_BYTES_PER_PAGE < n < 2 ^ 32 →
  mmapMemory n m = (Ret (size_of m), m).
Proof.
  intros Hwf Hn. unfold mmapMemory. rewrite (wrapU_id 32) by page_lia.
  rewrite roundUp_overflow by done. unfold growMemory. rewrite run_bind. cbn [get].
  rewrite Z.eqb_refl. cbn. by rewrite size_bytes32.
Qed.

(** ** Thread stacks *)

Definition stack_block : Z := THREAD_STACK_SIZE + 2 * GUARD_REGION_SIZE.

(** The stacks, each with its two guard regions, follow each other from [lo]
    to [hi]; a stack of top [s] ends at [s + 16]. *)
Fixpoint stacks_from (lo : Z) (ss : list Z) (hi : Z) : Prop :=
  match ss with
  | [] => lo ≤ hi
  | s :: ss' =>
      lo ≤ s + 16 - THREAD_STACK_SIZE - GUARD_REGION_SIZE ∧ s mod 16 = 0 ∧
      stacks_from (s + 16 + GUARD_REGION_SIZE) ss' hi
  end.

Lemma stacks_from_snoc lo ss hi s hi' :
  stacks_from lo ss hi → hi ≤ s + 16 - THREAD_STACK_SIZE - GUARD_REGION_SIZE →
  s mod 16 = 0 → s + 16 + GUARD_REGION_SIZE ≤ hi' →
  stacks_from lo (ss ++ [s]) hi'.
Proof.
  revert lo. induction ss as [|s0 ss IH]; intros lo Hss Hlo Hmod Hhi.
  - cbn in *. split_and!; lia.
  - destruct Hss as (? & ? & ?). cbn. split_and!; try done. by apply IH.
Qed.

(** What a guard region does to the module. *)
Definition guarded (off : Z) (m : WasmModule) : WasmModule :=
  match vmArenaMode with
  | ArenaDefault => push_guardRegion (off, GUARD_REGION_SIZE) m
  | ArenaUffd => m
  end.

Lemma createMemoryGuardRegion_run off m r m' :
  createMemoryGuardRegion off m = (Ret r, m') →
  m' = guarded off m ∧ r = u32 (off + GUARD_REGION_SIZE).
Proof.
  unfold createMemoryGuardRegion, guarded, mbind, M_bind, lift. intros Hrun.
  destruct (memory_ref off) as [nat|e]; [|done].
  destruct vmArenaMode; [destruct (negb _); [done|]|]; cbn in Hrun; by injection Hrun as <- <-.
Qed.

Lemma createMemoryGuardRegion_stacks off m :
  threadStacks (createMemoryGuardRegion off m).2 = threadStacks m ∧
  memPages (createMemoryGuardRegion off m).2 = memPages m.
Proof.
  unfold createMemoryGuardRegion, mbind, M_bind, lift.
  destruct (memory_ref off) as [nat|e]; [|done].
  destruct vmArenaMode; [destruct (negb _)|]; done.
Qed.

Lemma stack_constants :
  0 < THREAD_STACK_SIZE < 2 ^ 24 ∧ THREAD_STACK_SIZE mod WASM_BYTES_PER_PAGE = 0 ∧
  GUARD_REGION_SIZE = 655360.
Proof. destruct stack_size_law. split_and!; try done; lia. Qed.

(** What a successful [addThreadStack] did. *)
Lemma addThreadStack_run m m' :
  wf_module m → addThreadStack m = (Ret (), m') →
  let base := size_of m in
  let stackTop := base + GUARD_REGION_SIZE + THREAD_STACK_SIZE - 16 in
  threadStacks m' = threadStacks m ++ [stackTop] ∧ stackTop mod 16 = 0 ∧
  size_of m' = base + stack_block ∧ wf_module m' ∧
  guardRegions m' =
    guardRegions (guarded (base + GUARD_REGION_SIZE + THREAD_STACK_SIZE) (guarded base m)).
Proof.
  intros Hwf Hrun base stackTop. pose proof stack_constants as (HT & HTm & HG).
  unfold addThreadStack in Hrun.
  rewrite (wrapU_id 32 (THREAD_STACK_SIZE + _)) in Hrun by page_lia.
  apply run_bind_inv in Hrun as (memBase & m1 & Hgrow & Hrun).
  apply growMemory_cases in Hgrow as [(Hb & Hm1 & Haln & Hsz & Hwf1 & _)|(e & He & _)];
    [|done|done|page_lia].
  injection Hb as ->. fold base in Hrun.
  assert (base mod WASM_BYTES_PER_PAGE = 0) as Hbase by (unfold base; page_lia).
  assert (0 ≤ base ∧ base + stack_block ≤ UINT32_MAX) as Hbnd.
  { unfold base, stack_block. destruct Hwf1. fold (size_of m1) in *. page_lia. }
  rewrite (wrapU_id 32 (base + _ + _ - _)) in Hrun by (unfold stack_block in *; page_lia).
  fold stackTop in Hrun.
  apply run_bind_inv in Hrun as ([] & m2 & Hpush & Hrun). injection Hpush as <-.
  apply run_bind_inv in Hrun as (? & m3 & [-> _]%createMemoryGuardRegion_run & Hrun).
  apply run_bind_inv in Hrun as (? & m4 & [-> _]%createMemoryGuardRegion_run & Hrun).
  injection Hrun as <-.
  replace (u32 (stackTop + 16)) with (base + GUARD_REGION_SIZE + THREAD_STACK_SIZE)
    by (unfold stackTop, stack_block in *; rewrite wrapU_id by page_lia; lia).
  assert (stackTop mod 16 = 0) as Hmod by (unfold stackTop; page_lia).
  clear -Hm1 Hsz Hwf1 Hmod. unfold guarded, size_of, wf_module, stack_block in *. subst m1.
  by destruct vmArenaMode.
Qed.

(** A new thread stack is 16-aligned, sits between two guard regions, and
    the three together are the memory the call added. *)
Theorem addThreadStack_layout m m' :
  wf_module m → vmArenaMode = ArenaDefault → addThreadStack m = (Ret (), m') →
  ∃ stackTop, threadStacks m' = threadStacks m ++ [stackTop] ∧ stackTop mod 16 = 0 ∧
    let low := stackTop + 16 - THREAD_STACK_SIZE in
    let high := stackTop + 16 in
    guardRegions m' = guardRegions m ++
      [(low - GUARD_REGION_SIZE, GUARD_REGION_SIZE); (high, GUARD_REGION_SIZE)] ∧
    low - GUARD_REGION_SIZE = size_of m ∧ high + GUARD_REGION_SIZE = size_of m'.
Proof.
  intros Hwf Hmode Hrun. apply addThreadStack_run in Hrun as (Hss & Hmod & Hsz & _ & Hg); [|done].
  eexists. split; [exact Hss|]. split; [done|]. cbn zeta. unfold stack_block in Hsz.
  split; [|lia]. rewrite Hg. unfold guarded. rewrite Hmode. cbn. rewrite <- app_assoc. cbn.
  f_equal. repeat (lia || f_equal).
Qed.

(** Successive thread stacks never overlap, nor reach past the end of
    memory: adding one preserves the layout. *)
Theorem addThreadStack_disjoint lo m m' :
  wf_module m → stacks_from lo (threadStacks m) (size_of m) →
  addThreadStack m = (Ret (), m') →
  stacks_from lo (threadStacks m') (size_of m').
Proof.
  intros Hwf Hss Hrun. apply addThreadStack_run in Hrun as (-> & Hmod & -> & _); [|done].
  apply (stacks_from_snoc _ _ (size_of m)); [done|lia|done|unfold stack_block; lia].
Qed.

(** The region excluded from snapshot diffs starts 15 bytes below the
    first guard region: whatever the stacks of a module added since, it takes
    in the last 15 bytes of the memory that precedes them. *)
Theorem threadStackRegion_shifted m m1 m' :
  wf_module m → 0 < memPages m → threadStacks m = [] → addThreadStack m = (Ret (), m1) →
  threadStacks m1 `prefix_of` threadStacks m' →
  0 ≤ threadPoolSize m' * stack_block < 2 ^ 32 →
  threadStackRegion m' = Ret (size_of m - 15, threadPoolSize m' * stack_block).
Proof.
  intros Hwf Hpos Hempty Hrun [ss Hss] Hpool. pose proof stack_constants as (HT & HTm & HG).
  apply addThreadStack_run in Hrun as (Hs1 & _ & Hsz & Hwf1 & _); [|done].
  unfold threadStackRegion. rewrite Hss, Hs1, Hempty. cbn [app].
  unfold stack_block in *. destruct Hwf1 as [_ Hmax]. fold (size_of m1) in Hmax.
  do 2 f_equal; rewrite wrapU_id; page_lia.
Qed.

(** ** Shared state *)

Lemma mapSharedStateMemory_cached kv offset len m p :
  sharedMemWasmPtrs m !! segmentKey kv offset len = Some p →
  mapSharedStateMemory kv offset len m = (Ret p, m).
Proof.
  intros Hp. unfold mapSharedStateMemory. rewrite run_bind. cbn [get].
  unfold mbind, M_bind. rewrite Hp. cbn. by rewrite Hp.
Qed.

(** What mapping a segment that is not cached did. *)
Lemma mapSharedStateMemory_new kv offset len m p m' :
  wf_module m → sharedMemWasmPtrs m !! segmentKey kv offset len = None →
  mapSharedStateMemory kv offset len m = (Ret p, m') →
  let chunk := getPageAlignedChunk offset len in
  p = u32 (size_of m + offsetRemainder chunk) ∧
  size_of m' = size_of m + roundUpToWasmPageAligned (u32 (nBytesLength chunk)) ∧
  sharedMemWasmPtrs m' !! segmentKey kv offset len = Some p.
Proof.
  intros Hwf Hnone Hrun chunk. unfold mapSharedStateMemory in Hrun.
  rewrite run_bind in Hrun. cbn [get] in Hrun. rewrite Hnone in Hrun.
  apply run_bind_inv in Hrun as ([] & m2 & Hmap & Hrun).
  apply run_bind_inv in Hmap as (base & m1 & Hgrow & Hmap).
  assert (0 ≤ roundUpToWasmPageAligned (u32 (nBytesLength (getPageAlignedChunk offset len))) < 2 ^ 63)
    as Halloc by (pose proof (wrapU_range 32 (getNumberOfWasmPagesForBytes
      (u32 (nBytesLength (getPageAlignedChunk offset len))) * WASM_BYTES_PER_PAGE));
      unfold roundUpToWasmPageAligned, in_u in *; lia).
  apply growMemory_cases in Hgrow as [(Hb & -> & _ & Hsz & _)|(e & He & _)]; [|done|done|done].
  injection Hb as ->.
  apply run_bind_inv in Hmap as (native & m3 & Href & Hmap).
  unfold lift in Href. injection Href as Href <-.
  unfold modify, mbind, M_bind in Hmap. cbn in Hmap. injection Hmap as <-.
  rewrite run_bind in Hrun. cbn [get] in Hrun. unfold mret, M_ret in Hrun.
  cbn [cache_shared sharedMemWasmPtrs] in Hrun. rewrite lookup_insert_eq in Hrun.
  injection Hrun as <- <-. split_and!; [done|exact Hsz|].
  cbn [cache_shared sharedMemWasmPtrs]. by rewrite lookup_insert_eq.
Qed.

(** Mapping the same segment twice maps it once: the second call returns
    the pointer of the first and changes nothing. *)
Theorem mapSharedStateMemory_idempotent kv offset len m p m' :
  wf_module m → mapSharedStateMemory kv offset len m = (Ret p, m') →
  mapSharedStateMemory kv offset len m' = (Ret p, m').
Proof.
  intros Hwf Hrun. apply mapSharedStateMemory_cached.
  destruct (sharedMemWasmPtrs m !! segmentKey kv offset len) as [q|] eqn:Hq.
  - rewrite (mapSharedStateMemory_cached _ _ _ _ _ Hq) in Hrun. by injection Hrun as <- <-.
  - by apply mapSharedStateMemory_new in Hrun as (_ & _ & ?).
Qed.

(** Two state values whose users and keys concatenate to the same
    segment key share one mapping: the pointer to the first is returned for
    the second, which is not mapped. *)
Theorem mapSharedStateMemory_collision kv1 kv2 offset len m p m' :
  wf_module m → kv_user kv1 +:+ "_" +:+ kv_key kv1 = kv_user kv2 +:+ "_" +:+ kv_key kv2 →
  mapSharedStateMemory kv1 offset len m = (Ret p, m') →
  mapSharedStateMemory kv2 offset len m' = (Ret p, m').
Proof.
  intros Hwf Hkey Hrun. apply mapSharedStateMemory_cached.
  assert (segmentKey kv2 offset len = segmentKey kv1 offset len) as ->.
  { unfold segmentKey. rewrite <- !str_app_assoc in *. by rewrite Hkey. }
  destruct (sharedMemWasmPtrs m !! segmentKey kv1 offset len) as [q|] eqn:Hq.
  - rewrite (mapSharedStateMemory_cached _ _ _ _ _ Hq) in Hrun. by injection Hrun as <- <-.
  - by apply mapSharedStateMemory_new in Hrun as (_ & _ & ?).
Qed.
End memory_properties.

(** * Witnesses *)

(** A runtime that grants every request within 65536 pages, with stacks of
    one megabyte. *)
Definition demo_env : MemoryEnv := {|
  THREAD_STACK_SIZE := 2 ^ 20;
  max_memory_pages := 65536;
  vmArenaMode := ArenaDefault;
  runtime_growMemory := λ n d, (grow_success, n + d, n);
  runtime_shrinkMemory := λ n d, (grow_success, n - d, n - d);
  memory_ref := λ off, Ret (2 ^ 32 + off);
  sys_mprotect := λ _ _ _, 0;
  sys_mmap_file := λ addr _ _, addr;
  getPageAlignedChunk := λ off len,
    mkChunk ((len + off mod 4096 + 4095) / 4096 * 4096) (off / 4096)
      ((len + off mod 4096 + 4095) / 4096) (off mod 4096) |}.

Lemma demo_laws : MemoryEnvLaws demo_env.
Proof.
  constructor; cbn.
  - intros n d n' base H. injection H as <- <-. split; reflexivity.
  - intros n d r n' base H Hr. injection H as <- <- <-. contradiction.
  - intros n d n' rep H. injection H as <- <-. split; reflexivity.
  - intros n d r n' rep H Hr. injection H as <- <- <-. contradiction.
  - lia.
  - split; [lia|reflexivity].
Qed.

Definition demo_module : WasmModule := mkWasmModule 10 [] 2 [] ∅ [].

Lemma demo_wf : wf_module demo_module.
Proof. unfold wf_module, WASM_BYTES_PER_PAGE, UINT32_MAX. cbn. lia. Qed.

Lemma growMemory_exact_witness :
  match @growMemory demo_env 131072 demo_module with
  | (Ret r, m') => r = 655360 ∧ size_of m' = 655360 + 131072
  | (Throw _, m') => m' = demo_module
  end.
Proof.
  pose proof (@growMemory_exact demo_env demo_laws 131072 demo_module demo_wf ltac:(lia)) as H.
  destruct (@growMemory demo_env 131072 demo_module) as [[r|e] m'].
  - destruct H as (H1 & H2 & _). split; [exact H1|exact H2].
  - exact H.
Defined.

Lemma growMemory_succeeds_witness :
  ∃ m', @growMemory demo_env 65536 demo_module = (Ret 655360, m') ∧ size_of m' = 720896.
Proof.
  apply (@growMemory_succeeds demo_env demo_laws 65536 demo_module demo_wf).
  - lia.
  - reflexivity.
  - vm_compute. discriminate.
  - vm_compute. discriminate.
  - intros p d. exists (p + d), p. reflexivity.
Defined.

Lemma setMemorySize_exact_witness :
  size_of (@setMemorySize demo_env 131072 demo_module).2 = 131072.
Proof.
  pose proof (@setMemorySize_exact demo_env demo_laws 131072 demo_module demo_wf ltac:(lia)) as H.
  destruct (@setMemorySize demo_env 131072 demo_module) as [[r|e] m'] eqn:E.
  - destruct H as [H _]. exact H.
  - vm_compute in E. discriminate.
Defined.

Lemma unmapMemory_top_only_witness :
  size_of (@unmapMemory demo_env 589824 100 demo_module).2 = 589824.
Proof.
  pose proof (@unmapMemory_top_only demo_env demo_laws 589824 100 demo_module demo_wf
    ltac:(lia) ltac:(unfold WASM_BYTES_PER_PAGE; lia)) as H.
  destruct (@unmapMemory demo_env 589824 100 demo_module) as [[r|e] m'] eqn:E.
  - destruct H as (_ & _ & H). apply H; [lia|reflexivity].
  - vm_compute in E. discriminate.
Defined.

Lemma mmapMemory_wraps_witness :
  @mmapMemory demo_env 4294967295 demo_module = (Ret 655360, demo_module).
Proof.
  apply (@mmapMemory_wraps demo_env 4294967295 demo_module demo_wf).
  unfold WASM_BYTES_PER_PAGE. lia.
Defined.

Lemma addThreadStack_layout_witness :
  ∃ m', @addThreadStack demo_env demo_module = (Ret (), m') ∧
  ∃ stackTop, threadStacks m' = [stackTop] ∧ stackTop mod 16 = 0.
Proof.
  destruct (@addThreadStack demo_env demo_module) as [[[]|e] m'] eqn:E.
  - exists m'. split; [reflexivity|].
    destruct (@addThreadStack_layout demo_env demo_laws demo_module m' demo_wf eq_refl E)
      as (stackTop & H1 & H2 & _). exists stackTop. split; [exact H1|exact H2].
  - vm_compute in E. discriminate.
Defined.

Lemma addThreadStack_disjoint_witness :
  ∃ m', @addThreadStack demo_env demo_module = (Ret (), m') ∧
  @stacks_from demo_env 655360 (threadStacks m') (size_of m').
Proof.
  destruct (@addThreadStack demo_env demo_module) as [[[]|e] m'] eqn:E.
  - exists m'. split; [reflexivity|].
    apply (@addThreadStack_disjoint demo_env demo_laws 655360 demo_module m' demo_wf); [|exact E].
    cbn. unfold size_of, WASM_BYTES_PER_PAGE. cbn. lia.
  - vm_compute in E. discriminate.
Defined.

Lemma threadStackRegion_shifted_witness :
  ∃ m', @addThreadStack demo_env demo_module = (Ret (), m') ∧
  @threadStackRegion demo_env m' = Ret (655360 - 15, 2 * (2 ^ 20 + 2 * GUARD_REGION_SIZE)).
Proof.
  destruct (@addThreadStack demo_env demo_module) as [[[]|e] m'] eqn:E.
  - exists m'. split; [reflexivity|].
    assert (threadPoolSize m' = 2) as Hp by (vm_compute in E; injection E as <-; reflexivity).
    pose proof (@threadStackRegion_shifted demo_env demo_laws demo_module m' m' demo_wf
      ltac:(cbn; lia) eq_refl E ltac:(reflexivity)) as H.
    rewrite Hp in H. apply H. vm_compute. split; [discriminate|reflexivity].
  - vm_compute in E. discriminate.
Defined.

Lemma mapSharedStateMemory_idempotent_witness :
  let kv := mkStateKV "demo" "key" in
  ∃ p m', @mapSharedStateMemory demo_env kv 5000 100 demo_module = (Ret p, m') ∧
    @mapSharedStateMemory demo_env kv 5000 100 m' = (Ret p, m').
Proof.
  intros kv.
  destruct (@mapSharedStateMemory demo_env kv 5000 100 demo_module) as [[p|e] m'] eqn:E.
  - exists p, m'. split; [reflexivity|].
    exact (@mapSharedStateMemory_idempotent demo_env demo_laws kv 5000 100 demo_module p m' demo_wf E).
  - vm_compute in E. discriminate.
Defined.

Lemma mapSharedStateMemory_collision_witness :
  let kv1 := mkStateKV "demo" "a_b" in
  let kv2 := mkStateKV "demo_a" "b" in
  ∃ p m', @mapSharedStateMemory demo_env kv1 0 100 demo_module = (Ret p, m') ∧
    @mapSharedStateMemory demo_env kv2 0 100 m' = (Ret p, m').
Proof.
  intros kv1 kv2.
  destruct (@mapSharedStateMemory demo_env kv1 0 100 demo_module) as [[p|e] m'] eqn:E.
  - exists p, m'. split; [reflexivity|].
    exact (@mapSharedStateMemory_collision demo_env demo_laws kv1 kv2 0 100 demo_module p m'
             demo_wf eq_refl E).
  - vm_compute in E. discriminate.
Defined.
