(* ===== verification/Globals.v ===== *)
(** The globals of an instance as WAVM's module reads and sets them
    (src/wavm/WAVMWasmModule.cpp): by the member [i32] of their values, whatever their types. *)

From S2P Require Import Prelude.

(** * Data *)

Inductive GlobalType : Type := G_i32 | G_i64 | G_f32 | G_f64 | G_other.
#[export] Instance GlobalType_eq_dec : EqDecision GlobalType.
Proof. solve_decision. Defined.

(** A global in the context of the module: its type, and the bits of its value, signed for
    the member that its type names. *)
Record Global := mkGlobal { gl_type : GlobalType; gl_mutable : bool; gl_bits : Z }.
#[export] Instance Global_eq_dec : EqDecision Global.
Proof. solve_decision. Defined.

(** [Runtime::getGlobalValue(context, global).i32]: the low 32 bits. *)
Definition gl_i32 (g : Global) : Z := i32 (gl_bits g).

(** [Runtime::setGlobalValue] with an [i32]. *)
Class GlobalApi := { setGlobalValue : Global → Z → outcome Global }.
(** What WAVM documents: a mutable global of the type takes the value. *)
Class GlobalLaws `{GlobalApi} : Prop := {
  set_mutable_i32 g v : gl_type g = G_i32 → gl_mutable g = true → in_s 32 v →
    setGlobalValue g v = Ret (mkGlobal G_i32 true v) }.

(** * Operations *)

Section globals.
Context `{GA : GlobalApi}.

(** A null global reads as 0. *)
Definition globalValues (gs : list (option Global)) : list Z := from_option gl_i32 0 <$> gs.

(** The value is an [int32_t]; the global is set when its low 32 bits differ. *)
Definition setGlobal (idx : nat) (value : Z) (gs : list (option Global)) : outcome (list (option Global)) :=
  match gs !! idx with
  | Some (Some g) =>
      if i32 value =? gl_i32 g then Ret gs
      else g' ← setGlobalValue g (i32 value); Ret (<[idx := Some g']> gs)
  | _ => Ret gs
  end.

(** * Restoring values *)

Definition settable (g : Global) : bool :=
  bool_decide (gl_type g = G_i32) && gl_mutable g && bool_decide (i32 (gl_bits g) = gl_bits g).
(** A mutable [i32] takes the value; another global has to have its low bits already. *)
Definition restorable (v : Z) (g : Global) : Prop := settable g = true ∨ gl_i32 g = i32 v.
Definition restored (v : Z) (g : Global) : Global := if settable g then mkGlobal G_i32 true (i32 v) else g.

Fixpoint override (vs : list Z) (gs : list (option Global)) : list (option Global) :=
  match vs, gs with
  | v :: vs, g :: gs => (restored v <$> g) :: override vs gs
  | _, _ => gs
  end.
(** What restoring the values needs of the globals. *)
Definition all_restorable (vs : list Z) (gs : list (option Global)) : Prop :=
  Forall2 (λ v g, from_option (restorable v) True g) (take (length gs) vs) (take (length vs) gs).

Lemma settable_inv g : settable g = true → g = mkGlobal G_i32 true (i32 (gl_bits g)).
Proof.
  unfold settable. intros [[Ht Hm]%andb_true_iff Hb]%andb_true_iff.
  apply bool_decide_eq_true_1 in Ht, Hb. destruct g as [t m b]. cbn in *. by subst t m; rewrite Hb.
Qed.

Lemma globalValues_i32 gs : Forall (λ v, i32 v = v) (globalValues gs).
Proof. apply Forall_fmap, Forall_true. intros [g|]; [|done]. cbn. apply wrapS_id; [lia|]. apply wrapS_range. lia. Qed.

(** The globals there are have the values afterwards. *)
Lemma override_values vs gs i g :
  all_restorable vs gs → Forall (λ v, i32 v = v) vs → (length gs ≤ length vs)%nat →
  override vs gs !! i = Some (Some g) → vs !! i = Some (gl_i32 g).
Proof.
  revert gs i. induction vs as [|v vs IH]; intros [|h gs] i Hall Hv Hl Hi; cbn in *; [done|lia|done|].
  unfold all_restorable in Hall. cbn [length take] in Hall.
  apply Forall2_cons in Hall as [Hh Hall]. apply Forall_cons in Hv as [Hv Hvs].
  destruct i as [|i]; cbn in *; [|apply (IH gs); [done|done|lia|done]].
  destruct h as [h|]; [|done]. cbn in Hi, Hh. injection Hi as <-. f_equal. unfold restored.
  destruct (settable h) eqn:Hs; [unfold gl_i32; cbn [gl_bits]; by rewrite !Hv|]. destruct Hh as [Hh|Hh]; [congruence|by rewrite Hh, Hv].
Qed.

(** A global without its value, when that can be restored. *)
Definition blank (g : Global) : Global := if settable g then mkGlobal G_i32 true 0 else g.
Definition blanks (gs : list (option Global)) : list (option Global) := option_map blank <$> gs.
Lemma settable_i32 v : settable (mkGlobal G_i32 true (i32 v)) = true.
Proof.
  unfold settable. cbn [gl_type gl_mutable gl_bits]. rewrite !bool_decide_eq_true_2; [done| |done].
  apply wrapS_id; [lia|]. apply wrapS_range. lia.
Qed.
Lemma override_blank vs gs :
  (length gs ≤ length vs)%nat → override vs (blanks gs) = override vs gs.
Proof.
  revert gs. induction vs as [|v vs IH]; intros [|g gs] Hl; cbn in *; [done|lia|done|].
  fold (blanks gs). rewrite IH by lia. f_equal. destruct g as [g|]; [|done]. cbn. f_equal. unfold restored, blank.
  destruct (settable g) eqn:Hs; [by rewrite (settable_i32 0 : settable (mkGlobal G_i32 true 0) = true)|by rewrite Hs].
Qed.
Lemma blank_override vs gs : blanks (override vs gs) = blanks gs.
Proof.
  revert gs. induction vs as [|v vs IH]; intros [|g gs]; cbn; [done..|]. fold (blanks gs) (blanks (override vs gs)). rewrite IH. f_equal.
  destruct g as [g|]; [|done]. cbn. f_equal. unfold restored, blank.
  destruct (settable g) eqn:Hs; [by rewrite settable_i32|by rewrite Hs].
Qed.

Lemma override_nil_r vs : override vs [] = [].
Proof. by destruct vs. Qed.
Lemma length_override vs gs : length (override vs gs) = length gs.
Proof. revert gs. induction vs as [|v vs IH]; intros [|g gs]; cbn; [done..|]. by rewrite IH. Qed.

Context `{GL : !GlobalLaws}.

Lemma i32_idem x : i32 (i32 x) = i32 x.
Proof. apply wrapS_id; [lia|]. apply wrapS_range. lia. Qed.

(** Setting one global in the middle. *)
Lemma setGlobal_at pre g gs v :
  from_option (restorable v) True g →
  setGlobal (length pre) v (pre ++ g :: gs) = Ret (pre ++ (restored v <$> g) :: gs).
Proof.
  intros Hg. unfold setGlobal. rewrite list_lookup_middle by done. destruct g as [g|]; [|done]. cbn in *.
  unfold restored. destruct (settable g) eqn:Hs.
  - pose proof (settable_inv g Hs) as Hi. destruct (Z.eqb_spec (i32 v) (gl_i32 g)) as [->|Hne]; [unfold gl_i32; by rewrite <- Hi|].
    rewrite set_mutable_i32; [|by rewrite Hi|by rewrite Hi|apply wrapS_range; lia].
    cbn. by rewrite insert_app_r_alt, Nat.sub_diag by done.
  - destruct Hg as [Hg|Hg]; [congruence|]. by rewrite Hg, Z.eqb_refl.
Qed.
Lemma setGlobal_past k v gs : (length gs ≤ k)%nat → setGlobal k v gs = Ret gs.
Proof. intros Hk. unfold setGlobal. by rewrite lookup_ge_None_2 by done. Qed.

(** ** In a state that has globals *)

Section state.
Context {St : Type} (get_globals : St → list (option Global)) (set_globals : list (option Global) → St → St).
Context (get_set : ∀ gs s, get_globals (set_globals gs s) = gs)
  (set_get : ∀ s, set_globals (get_globals s) s = s)
  (set_set : ∀ gs gs' s, set_globals gs (set_globals gs' s) = set_globals gs s).

(** [updateGlobal] on it. *)
Definition update_global (idx : nat) (value : Z) : M St unit :=
  s ← get; gs ← lift (setGlobal idx value (get_globals s)); put (set_globals gs s).

Lemma update_global_run idx value s gs :
  setGlobal idx value (get_globals s) = Ret gs → update_global idx value s = (Ret (), set_globals gs s).
Proof. intros Hs. unfold update_global. run_unfold. by rewrite Hs. Qed.

(** All the values, in order; those past the end are ignored. *)
Lemma update_globals_run vs pre gs s :
  get_globals s = pre ++ gs → all_restorable vs gs →
  for_each (imap (λ i v, ((length pre + i)%nat, v)) vs) (λ iv, update_global iv.1 iv.2) s =
    (Ret (), set_globals (pre ++ override vs gs) s).
Proof.
  revert pre gs s. induction vs as [|v vs IH]; intros pre gs s Hg Hall.
  { cbn. by rewrite <- Hg, set_get. }
  rewrite imap_cons. cbn [for_each fst snd]. rewrite Nat.add_0_r.
  destruct gs as [|g gs].
  - rewrite (run_bind_ret _ _ _ () s).
    2:{ rewrite (update_global_run _ _ _ (get_globals s)) by (apply setGlobal_past; rewrite Hg, app_nil_r; lia).
        by rewrite set_get. }
    rewrite override_nil_r, app_nil_r in *.
    assert (∀ k us, (length pre ≤ k)%nat →
      for_each (imap (λ i u, ((k + i)%nat, u)) us) (λ iv, update_global iv.1 iv.2) s = (Ret (), s)) as Hpast.
    { intros k us. revert k. induction us as [|u us IHu]; intros k Hk; [done|].
      rewrite imap_cons. cbn [for_each fst snd]. rewrite (run_bind_ret _ _ _ () s).
      2:{ rewrite (update_global_run _ _ _ (get_globals s)) by (apply setGlobal_past; rewrite Hg; lia). by rewrite set_get. }
      rewrite (imap_ext _ (λ i u, ((S k + i)%nat, u))) by (intros; cbn; f_equal; lia). apply IHu. lia. }
    rewrite (imap_ext _ (λ i u, ((S (length pre) + i)%nat, u))) by (intros; cbn; f_equal; lia).
    rewrite Hpast by lia. by rewrite <- Hg, set_get.
  - unfold all_restorable in Hall. cbn [length take] in Hall. apply Forall2_cons in Hall as [Hgv Hall].
    rewrite (run_bind_ret _ _ _ _ _ (update_global_run _ _ s _ ltac:(rewrite Hg; by apply setGlobal_at))).
    rewrite (imap_ext _ (λ i u, ((length (pre ++ [restored v <$> g]) + i)%nat, u)))
      by (intros; cbn; rewrite length_app; cbn; f_equal; lia).
    rewrite (IH (pre ++ [restored v <$> g]) gs); [|by rewrite get_set, <- app_assoc|done].
    rewrite set_set. cbn [override]. by rewrite <- app_assoc.
Qed.
End state.
End globals.

(** * A concrete runtime *)

Definition demo_setGlobal (g : Global) (v : Z) : outcome Global :=
  if bool_decide (gl_type g = G_i32) && gl_mutable g then Ret (mkGlobal G_i32 true v)
  else Throw (Undefined "global of another type").
#[export] Instance demo_global_laws : @GlobalLaws {| setGlobalValue := demo_setGlobal |}.
Proof. split. intros [t m b] v Ht Hm _. cbn in *. by subst. Qed.
(** A mutable [i32]. *)
Definition demo_i32 (v : Z) : option Global := Some (mkGlobal G_i32 true v).
