(* ===== verification/Level.v ===== *)
(** The OpenMP nesting level that a parallel region hands to its threads
    (src/threads/ThreadState.cpp): derivation from the parent level, thread
    counts, the local and global numbering of threads, and the byte encoding
    that carries a level in the context data of a batch request. *)

From S2P Require Import Prelude.

(** * State *)

(** [Level]; a null [sharedVarOffsets] pointer is [None]. *)
Record Level := mkLevel {
  depth : Z;
  activeLevels : Z;
  maxActiveLevels : Z;
  numThreads : Z;
  wantedThreads : Z;
  pushedThreads : Z;
  globalTidOffset : Z;
  nSharedVarOffsets : Z;
  sharedVarOffsets : option (list Z) }.

#[export] Instance Level_eq_dec : EqDecision Level.
Proof. solve_decision. Defined.

(** The constructor, with the defaults of the class. *)
Definition Level_new (numThreadsIn : Z) : Level :=
  mkLevel 0 0 1 numThreadsIn (-1) (-1) 0 0 None.

(** Field updates. *)
Definition set_maxActiveLevels (x : Z) (l : Level) : Level :=
  mkLevel (depth l) (activeLevels l) x (numThreads l) (wantedThreads l)
    (pushedThreads l) (globalTidOffset l) (nSharedVarOffsets l) (sharedVarOffsets l).
Definition set_wantedThreads (x : Z) (l : Level) : Level :=
  mkLevel (depth l) (activeLevels l) (maxActiveLevels l) (numThreads l) x
    (pushedThreads l) (globalTidOffset l) (nSharedVarOffsets l) (sharedVarOffsets l).
Definition set_pushedThreads (x : Z) (l : Level) : Level :=
  mkLevel (depth l) (activeLevels l) (maxActiveLevels l) (numThreads l)
    (wantedThreads l) x (globalTidOffset l) (nSharedVarOffsets l) (sharedVarOffsets l).

(** [setSharedVarOffsets(ptr, nVars)], [ptr] pointing to the words [vars]. *)
Definition setSharedVarOffsets (vars : list Z) (nVars : Z) (l : Level) : Level :=
  mkLevel (depth l) (activeLevels l) (maxActiveLevels l) (numThreads l)
    (wantedThreads l) (pushedThreads l) (globalTidOffset l)
    (u32 nVars) (Some (take (Z.to_nat nVars) vars)).

(** Reading through the pointer: past its end, or through null, the code has
    no defined behaviour. *)
Definition getSharedVarOffsets (l : Level) : outcome (list Z) :=
  if nSharedVarOffsets l =? 0 then Ret []
  else match sharedVarOffsets l with
       | None => Throw (Undefined "null sharedVarOffsets")
       | Some vs =>
           if Z.of_nat (length vs) <? nSharedVarOffsets l
           then Throw (Undefined "read past sharedVarOffsets")
           else Ret (take (Z.to_nat (nSharedVarOffsets l)) vs)
       end.

Definition fromParentLevel (parent l : Level) : Level :=
  mkLevel
    (i32 (depth parent + 1))
    (if numThreads l >? 1 then i32 (activeLevels parent + 1) else activeLevels parent)
    (maxActiveLevels parent)
    (numThreads l) (wantedThreads l) (pushedThreads l)
    (if depth parent =? 0 then 0
     else i32 (globalTidOffset parent + numThreads parent))
    (nSharedVarOffsets l) (sharedVarOffsets l).

(** [usableCores] is what [faabric::util::getUsableCores()] gives. *)
Definition getMaxThreadsAtNextLevel (usableCores : Z) (l : Level) : Z :=
  if activeLevels l >=? maxActiveLevels l then 1
  else if pushedThreads l >? 0 then pushedThreads l
  else if wantedThreads l >? 0 then wantedThreads l
  else i32 (usableCores - 1).

(** * Thread numbers *)

Definition getLocalThreadNum (appidx : Z) (l : Level) : outcome Z :=
  if depth l =? 0 then Ret appidx
  else
    let localThreadNum := i32 (appidx - globalTidOffset l) in
    if localThreadNum <? 0
    then Throw (RuntimeError "Error in local thread number calculation")
    else Ret localThreadNum.

Definition getGlobalThreadNum (localThreadNum : Z) (l : Level) : Z :=
  if depth l =? 0 then localThreadNum
  else i32 (localThreadNum + globalTidOffset l).

(** * Bytes *)

(** [sizeof(Level)]: eight 32-bit fields and a 64-bit pointer. *)
Definition sizeof_Level : nat := 40.

(** The object's bytes; [ptr] is the address in [sharedVarOffsets]. *)
Definition level_words (ptr : Z) (l : Level) : list Z :=
  [depth l; activeLevels l; maxActiveLevels l; numThreads l; wantedThreads l;
   pushedThreads l; globalTidOffset l; nSharedVarOffsets l;
   ptr mod 2 ^ 32; ptr / 2 ^ 32].

Definition serialise (ptr : Z) (l : Level) : outcome (list Z) :=
  vars ← getSharedVarOffsets l;
  Ret (flat_map le32 (level_words ptr l) ++ flat_map le32 vars).

Definition deserialise (bytes : list Z) : outcome Level :=
  match words32 (take sizeof_Level bytes) with
  | [d; a; m; n; w; p; g; ns; _; _] =>
      let result := mkLevel (i32 d) (i32 a) (i32 m) (i32 n) (i32 w) (i32 p) (i32 g) ns None in
      if ns >? 0 then
        let vars := words32 (take (4 * Z.to_nat ns) (drop sizeof_Level bytes)) in
        if Z.of_nat (length vars) =? ns
        then Ret (mkLevel (depth result) (activeLevels result) (maxActiveLevels result)
                    (numThreads result) (wantedThreads result) (pushedThreads result)
                    (globalTidOffset result) ns (Some vars))
        else Throw (Undefined "read past the level's bytes")
      else Ret result
  | _ => Throw (Undefined "read past the level's bytes")
  end.

(** * The thread-local current level *)

(** [levelFromBatchRequest], of the request's context data. *)
Definition levelFromBatchRequest (contextdata : list Z) : outcome Level :=
  deserialise contextdata.

(** [setCurrentOpenMPLevel(req)]; the state is [currentLevel]. *)
Definition setCurrentOpenMPLevel (contextdata : list Z) : M (option Level) unit :=
  match contextdata with
  | [] => throw (RuntimeError "Empty context for OpenMP request")
  | _ => l ← lift (levelFromBatchRequest contextdata); put (Some l)
  end.

(** [getCurrentOpenMPLevel]; [slots] are those of this host. *)
Definition getCurrentOpenMPLevel (slots : Z) : M (option Level) Level :=
  cur ← get;
  match cur with
  | Some l => mret l
  | None => put (Some (Level_new slots)) ;; mret (Level_new slots)
  end.

(** * Well-formed levels *)

(** The fields are in the range of their types and the array, when the level
    says it has entries, has that many. *)
Record Level_wf (l : Level) : Prop := {
  wf_depth : in_s 32 (depth l);
  wf_active : in_s 32 (activeLevels l);
  wf_max : in_s 32 (maxActiveLevels l);
  wf_threads : in_s 32 (numThreads l);
  wf_wanted : in_s 32 (wantedThreads l);
  wf_pushed : in_s 32 (pushedThreads l);
  wf_offset : in_s 32 (globalTidOffset l);
  wf_nshared : in_u 32 (nSharedVarOffsets l);
  wf_shared : match sharedVarOffsets l with
              | None => nSharedVarOffsets l = 0
              | Some vs => Z.of_nat (length vs) = nSharedVarOffsets l ∧ vs ≠ [] ∧
                           Forall (in_u 32) vs
              end }.

Lemma map_wrapU_id w vs : Forall (in_u w) vs → map (wrapU w) vs = vs.
Proof. induction 1 as [|v vs Hv _ IH]; [done|]. cbn. by rewrite wrapU_id, IH. Qed.

Lemma getSharedVarOffsets_wf l :
  Level_wf l → getSharedVarOffsets l = Ret (default [] (sharedVarOffsets l)).
Proof.
  intros [_ _ _ _ _ _ _ Hn Hs]. unfold getSharedVarOffsets.
  destruct (sharedVarOffsets l) as [vs|]; [|by rewrite Hs].
  destruct Hs as (Hlen & Hne & _). rewrite <- Hlen.
  destruct vs as [|v vs]; [done|].
  destruct (Z.eqb_spec (Z.of_nat (length (v :: vs))) 0); [done|].
  rewrite Z.ltb_irrefl, Nat2Z.id, firstn_all. done.
Qed.

(** A level that crosses to another host in the context data of a batch
    request arrives as it was sent, whatever address its array had. *)
Theorem serialise_deserialise ptr l :
  Level_wf l → ∃ bytes, serialise ptr l = Ret bytes ∧ deserialise bytes = Ret l.
Proof.
  intros Hwf. pose proof (getSharedVarOffsets_wf l Hwf) as Hvars.
  eexists. unfold serialise. rewrite Hvars. split; [reflexivity|].
  unfold deserialise.
  assert (length (flat_map le32 (level_words ptr l)) = sizeof_Level) as Hlen
    by (rewrite length_flat_map_le32; done).
  rewrite (take_app_length' _ _ sizeof_Level), (drop_app_length' _ _ sizeof_Level) by done.
  rewrite words32_flat_map.
  destruct Hwf as [Hd Ha Hm Hn Hw Hp Hg Hns Hs].
  cbn [map level_words].
  rewrite !wrapS_wrapU, !wrapS_id by (done || lia). rewrite (wrapU_id 32 (nSharedVarOffsets l)) by done.
  destruct l as [d a m n w p g ns vs]; cbn [depth activeLevels maxActiveLevels numThreads
    wantedThreads pushedThreads globalTidOffset nSharedVarOffsets sharedVarOffsets] in *.
  destruct vs as [vs|]; [|by subst ns].
  destruct Hs as (Hlen' & Hne & Hall). cbn [default].
  assert ((4 * Z.to_nat ns)%nat = length (flat_map le32 vs)) as ->
    by (rewrite length_flat_map_le32; lia).
  rewrite firstn_all, words32_flat_map, map_wrapU_id by done.
  destruct vs as [|v vs]; [done|].
  destruct (Z.gtb_spec ns 0); [|cbn in Hlen'; lia].
  unfold id. by rewrite Hlen', Z.eqb_refl.
Qed.

Lemma serialise_deserialise_witness :
  ∃ bytes, serialise 140737353 (mkLevel 1 1 1 4 (-1) (-1) 0 2 (Some [70000; 70008])) = Ret bytes ∧
           deserialise bytes = Ret (mkLevel 1 1 1 4 (-1) (-1) 0 2 (Some [70000; 70008])).
Proof.
  apply serialise_deserialise.
  split; cbn; try (unfold in_s, in_u; lia).
  repeat split; [done|]. repeat constructor; unfold in_u; lia.
Defined.

(** The level below a well-formed one is well formed. *)
Lemma fromParentLevel_wf parent n :
  Level_wf parent → in_s 32 n → Level_wf (fromParentLevel parent (Level_new n)).
Proof.
  intros [Hd Ha Hm _ _ _ Hg _ _] Hn. unfold fromParentLevel, Level_new.
  constructor; cbn [depth activeLevels maxActiveLevels numThreads wantedThreads pushedThreads
    globalTidOffset nSharedVarOffsets sharedVarOffsets]; try done.
  - by apply wrapS_range.
  - destruct (n >? 1); [by apply wrapS_range|done].
  - destruct (depth parent =? 0); [done|by apply wrapS_range].
Qed.

(** * Thread numbering *)

Definition tidOffset (l : Level) : Z := if depth l =? 0 then 0 else globalTidOffset l.

Lemma getGlobalThreadNum_offset t l :
  0 ≤ t → 0 ≤ tidOffset l → t + tidOffset l < 2 ^ 31 →
  getGlobalThreadNum t l = t + tidOffset l.
Proof.
  unfold getGlobalThreadNum, tidOffset. destruct (depth l =? 0); [lia|].
  intros. rewrite wrapS_id; [done|lia|unfold in_s; lia].
Qed.

Lemma getLocalThreadNum_global t l :
  0 ≤ t → 0 ≤ tidOffset l → t + tidOffset l < 2 ^ 31 →
  getLocalThreadNum (getGlobalThreadNum t l) l = Ret t.
Proof.
  intros Ht Ho Hb. rewrite getGlobalThreadNum_offset by done.
  unfold getLocalThreadNum, tidOffset in *. destruct (depth l =? 0); [f_equal; lia|].
  replace (t + globalTidOffset l - globalTidOffset l) with t by lia.
  rewrite wrapS_id by (unfold in_s; lia). by destruct (Z.ltb_spec t 0); [lia|].
Qed.

(** Local and global thread numbers translate into each other: the message of
    the [t]-th thread of a team carries a global number from which the team's
    level recovers [t], and distinct threads get distinct numbers. *)
Theorem threadNum_roundtrip l n t t' :
  0 ≤ t < n → 0 ≤ t' < n → 0 ≤ tidOffset l → n + tidOffset l ≤ 2 ^ 31 →
  getLocalThreadNum (getGlobalThreadNum t l) l = Ret t ∧
  (getGlobalThreadNum t l = getGlobalThreadNum t' l → t = t').
Proof.
  intros. split; [apply getLocalThreadNum_global; lia|].
  rewrite !getGlobalThreadNum_offset by lia. lia.
Qed.

Lemma threadNum_roundtrip_witness :
  let l := mkLevel 2 1 2 4 (-1) (-1) 4 0 None in
  getLocalThreadNum (getGlobalThreadNum 3 l) l = Ret 3 ∧
  (getGlobalThreadNum 3 l = getGlobalThreadNum 2 l → 3 = 2).
Proof. apply (threadNum_roundtrip (mkLevel 2 1 2 4 (-1) (-1) 4 0 None) 4); cbn; lia. Defined.

(** A thread count above one is only ever given to the next level below the
    limit on active levels. *)
Lemma getMaxThreadsAtNextLevel_limit cores l :
  maxActiveLevels l ≤ activeLevels l → getMaxThreadsAtNextLevel cores l = 1.
Proof.
  intros H. unfold getMaxThreadsAtNextLevel.
  by destruct (Z.geb_spec (activeLevels l) (maxActiveLevels l)); [|lia].
Qed.
