(* ===== verification/OpenMP.v ===== *)
(** The OpenMP runtime entry points a module imports (src/wavm/openmp.cpp) and
    the arguments an OpenMP thread starts with (WAVMWasmModule.cpp): level
    queries and setters, the master, single, critical and reduction
    constructs, the fork of a parallel region into a batch of messages, and the
    static work-sharing of loops. *)

From S2P Require Import Prelude Level.

(** * State and environment *)

(** The fields of [faabric::Message] these handlers read or set. *)
Record Message := mkMessage {
  m_user : string; m_function : string; m_appid : Z; m_appidx : Z;
  m_funcptr : Z; m_groupid : Z; m_groupidx : Z }.

Record BatchRequest := mkBatchRequest {
  req_messages : list Message; req_contextdata : list Z }.

(** [faabric::util::SnapshotMergeRegion]: offset, length, type, operation. *)
Definition MergeRegion : Type := Z * Z * Z * Z.

(** Calls on the [PointToPointGroup] of the message's group id. *)
Inductive group_call : Type :=
  | g_lock (group idx : Z) (recursive : bool)
  | g_unlock (group idx : Z) (recursive : bool)
  | g_localLock (group : Z)
  | g_localUnlock (group : Z)
  | g_notify (group idx : Z)
  | g_barrier (group idx : Z).

(** The executing thread: its level, its message, its module's merge regions,
    the group calls it made and the batches it had executed. *)
Record Omp := mkOmp {
  currentLevel : option Level;
  msg : Message;
  mergeRegions : list MergeRegion;
  groupCalls : list group_call;
  executed : list (BatchRequest * list MergeRegion) }.

Definition set_level (l : Level) (s : Omp) : Omp :=
  mkOmp (Some l) (msg s) (mergeRegions s) (groupCalls s) (executed s).
Definition group_do (c : group_call) (s : Omp) : Omp :=
  mkOmp (currentLevel s) (msg s) (mergeRegions s) (groupCalls s ++ [c]) (executed s).
Definition set_mergeRegions (rs : list MergeRegion) (s : Omp) : Omp :=
  mkOmp (currentLevel s) (msg s) rs (groupCalls s) (executed s).
Definition log_execution (r : BatchRequest * list MergeRegion) (s : Omp) : Omp :=
  mkOmp (currentLevel s) (msg s) (mergeRegions s) (groupCalls s) (executed s ++ [r]).

(** faabric and WAVM: the host's slots and cores, the words of a wasm array,
    the messages of a new batch, the address of an allocated array, and the
    results of executing a batch, a pair of message id and result per thread. *)
Class OmpEnv := {
  host_slots : Z;
  usable_cores : Z;
  memoryArray_u32 : Z → Z → outcome (list Z);
  batchExecFactory : string → string → Z → list Message;
  heap_address : Z;
  executeThreads : BatchRequest → list MergeRegion → list (Z * Z) }.

(** A batch has the number of messages it was asked for, and a wasm array of
    [n] words has [n] words. *)
Class OmpEnvLaws `{OmpEnv} : Prop := {
  batch_size : ∀ u f n, 0 ≤ n → Z.of_nat (length (batchExecFactory u f n)) = n;
  array_size : ∀ p n ws, memoryArray_u32 p n = Ret ws → 0 ≤ n →
    Z.of_nat (length ws) = n ∧ Forall (in_u 32) ws }.

(** [for (i = 0; i < messages_size; i++) messages[i] = f(i, messages[i])] *)
Fixpoint imapZ {A B} (f : Z → A → B) (i : Z) (l : list A) : list B :=
  match l with [] => [] | x :: l' => f i x :: imapZ f (i + 1) l' end.

Section handlers.
Context `{OmpEnv}.

(** [threads::getCurrentOpenMPLevel()] *)
Definition getLevel : M Omp Level :=
  zoom currentLevel
    (λ o s, mkOmp o (msg s) (mergeRegions s) (groupCalls s) (executed s))
    (getCurrentOpenMPLevel host_slots).

(** The OMP_FUNC macro: the level, the message, and the two thread numbers. *)
Definition OMP_FUNC : M Omp (Level * Message * Z * Z) :=
  level ← getLevel;
  m ← gets msg;
  localThreadNum ← lift (getLocalThreadNum (m_appidx m) level);
  mret (level, m, localThreadNum, m_appidx m).

Definition omp_get_thread_num : M Omp Z :=
  '(_, _, localThreadNum, _) ← OMP_FUNC; mret localThreadNum.
Definition omp_get_num_threads : M Omp Z :=
  '(level, _, _, _) ← OMP_FUNC; mret (numThreads level).
Definition omp_get_max_threads : M Omp Z :=
  '(level, _, _, _) ← OMP_FUNC; mret (getMaxThreadsAtNextLevel usable_cores level).
Definition omp_get_level : M Omp Z :=
  '(level, _, _, _) ← OMP_FUNC; mret (depth level).
Definition omp_get_max_active_levels : M Omp Z :=
  '(level, _, _, _) ← OMP_FUNC; mret (maxActiveLevels level).

Definition omp_set_max_active_levels (maxLevels : Z) : M Omp unit :=
  '(level, _, _, _) ← OMP_FUNC;
  if maxLevels <? 0 then mret ()
  else modify (set_level (set_maxActiveLevels maxLevels level)).

Definition kmpc_push_num_threads (n : Z) : M Omp unit :=
  '(level, _, _, _) ← OMP_FUNC;
  when (n >? 0) (modify (set_level (set_pushedThreads n level))).

Definition omp_set_num_threads (n : Z) : M Omp unit :=
  '(level, _, _, _) ← OMP_FUNC;
  when (n >? 0) (modify (set_level (set_wantedThreads n level))).

Definition kmpc_global_thread_num : M Omp Z :=
  '(_, _, _, globalThreadNum) ← OMP_FUNC; mret globalThreadNum.

(** ** Synchronisation constructs *)

(** [getExecutingPointToPointGroup]: the group of the executing message. *)
Definition getExecutingPointToPointGroup (m : Message) : Z := m_groupid m.

Definition kmpc_barrier : M Omp unit :=
  '(_, m, _, _) ← OMP_FUNC;
  modify (group_do (g_barrier (getExecutingPointToPointGroup m) (m_groupidx m))).

Definition kmpc_critical : M Omp unit :=
  '(level, m, _, _) ← OMP_FUNC;
  when (numThreads level >? 1)
    (modify (group_do (g_lock (getExecutingPointToPointGroup m) (m_groupidx m) true))).

Definition kmpc_end_critical : M Omp unit :=
  '(level, m, _, _) ← OMP_FUNC;
  when (numThreads level >? 1)
    (modify (group_do (g_unlock (getExecutingPointToPointGroup m) (m_groupidx m) true))).

Definition kmpc_master : M Omp Z :=
  '(_, _, localThreadNum, _) ← OMP_FUNC;
  mret (Z.b2z (localThreadNum =? 0)).

Definition kmpc_end_master : M Omp unit :=
  '(_, _, localThreadNum, _) ← OMP_FUNC;
  when (negb (localThreadNum =? 0))
    (throw (RuntimeError "Calling _kmpc_end_master from non-master")).

Definition kmpc_single : M Omp Z :=
  '(_, _, localThreadNum, _) ← OMP_FUNC;
  mret (Z.b2z (localThreadNum =? 0)).

Definition kmpc_end_single : M Omp unit :=
  '(_, _, localThreadNum, _) ← OMP_FUNC;
  when (negb (localThreadNum =? 0))
    (throw (RuntimeError "Calling _kmpc_end_single from non-master")).

Definition startReduceCritical (m : Message) : M Omp unit :=
  modify (group_do (g_localLock (m_groupid m))).

Definition endReduceCritical (m : Message) (barrier : bool) : M Omp unit :=
  level ← getLevel;
  localThreadNum ← lift (getLocalThreadNum (m_appidx m) level);
  modify (group_do (g_localUnlock (m_groupid m))) ;;
  modify (group_do (g_notify (m_groupid m) localThreadNum)) ;;
  when barrier (modify (group_do (g_barrier (m_groupid m) localThreadNum))).

(** [__kmpc_reduce] and [__kmpc_reduce_nowait] have one body. *)
Definition kmpc_reduce : M Omp Z :=
  '(_, m, _, _) ← OMP_FUNC; startReduceCritical m ;; mret 1.
Definition kmpc_reduce_nowait : M Omp Z :=
  '(_, m, _, _) ← OMP_FUNC; startReduceCritical m ;; mret 1.
Definition kmpc_end_reduce : M Omp unit :=
  '(_, m, _, _) ← OMP_FUNC; endReduceCritical m true.
Definition kmpc_end_reduce_nowait : M Omp unit :=
  '(_, m, _, _) ← OMP_FUNC; endReduceCritical m false.

(** ** Forking a parallel region *)

(** The level of the region's threads. *)
Definition next_level (level : Level) (nSharedVars sharedVarPtrs : Z) : outcome Level :=
  let nextLevel := fromParentLevel level (Level_new (getMaxThreadsAtNextLevel usable_cores level)) in
  if nSharedVars >? 0 then
    sharedVars ← memoryArray_u32 (u64 sharedVarPtrs) nSharedVars;
    Ret (setSharedVarOffsets sharedVars nSharedVars nextLevel)
  else Ret nextLevel.

(** The configuration of the [i]-th message. *)
Definition fork_message (appid microtaskPtr : Z) (nextLevel : Level) (i : Z) (m : Message) : Message :=
  mkMessage (m_user m) (m_function m) appid (getGlobalThreadNum i nextLevel)
    microtaskPtr (m_groupid m) i.

Definition kmpc_fork_call (nSharedVars microtaskPtr sharedVarPtrs : Z) : M Omp unit :=
  '(level, parentCall, _, _) ← OMP_FUNC;
  nextLevel ← lift (next_level level nSharedVars sharedVarPtrs);
  if depth nextLevel >? 1 then throw (RuntimeError "Nested OpenMP support removed")
  else
    serialisedLevel ← lift (serialise heap_address nextLevel);
    let req := mkBatchRequest
      (imapZ (fork_message (m_appid parentCall) microtaskPtr nextLevel) 0
        (batchExecFactory (m_user parentCall) (m_function parentCall) (numThreads nextLevel)))
      serialisedLevel in
    regions ← gets mergeRegions;
    modify (log_execution (req, regions)) ;;
    for_each (executeThreads req regions)
      (λ r, when (negb (r.2 =? 0)) (throw (RuntimeError "OpenMP threads failed"))) ;;
    modify (set_mergeRegions []) ;;
    modify (set_level (set_pushedThreads (-1) level)).

(** [executeOMPThread]: what the microtask is invoked with. *)
Definition ompInvokeArgs (m : Message) : M Omp (list Z) :=
  level ← getLevel;
  vars ← lift (getSharedVarOffsets level);
  mret (m_appidx m :: i32 (nSharedVarOffsets level) :: vars).

End handlers.

(** * Static work-sharing of loops *)

Definition sch_static_chunked : Z := 33.
Definition sch_static : Z := 34.

(** What the four pointers point to. *)
Record loop_bounds := mkLoop {
  lastIter : Z; lower : Z; upper : Z; stride : Z }.

(** [tripCount], of the unsigned type of [w] bits. *)
Definition tripCount (w : Z) (lo hi incr : Z) : outcome Z :=
  if incr =? 1 then Ret (wrapU w (hi - lo + 1))
  else if incr =? -1 then Ret (wrapU w (lo - hi + 1))
  else if incr >? 0 then
    Ret (wrapU w (i32 (wrapS w (hi - lo)) `quot` incr + 1))
  else if incr =? 0 then Throw (Undefined "division by zero")
  else Ret (wrapU w (i32 (wrapS w (lo - hi)) `quot` wrapS w (- incr) + 1)).

(** [for_static_init<T>] for the signed [T] of [w] bits, run by thread
    [localThreadNum] of a team of [nThreads]. *)
Definition for_static_init (w nThreads localThreadNum schedule : Z) (l : loop_bounds)
    (incr chunk : Z) : outcome loop_bounds :=
  if nThreads =? 1 then
    Ret (mkLoop 1 (lower l) (upper l)
      (if incr >? 0 then wrapS w (upper l - lower l + 1)
       else wrapS w (- (lower l - upper l + 1))))
  else
    trip ← tripCount w (lower l) (upper l) incr;
    if schedule =? sch_static_chunked then
      let chunk := if chunk <? 1 then 1 else chunk in
      let span := i32 (wrapS w (chunk * incr)) in
      let lo := wrapS w (lower l + i32 (span * localThreadNum)) in
      let uchunk := u32 chunk in
      if (uchunk =? 0) || (nThreads =? 0) then Throw (Undefined "division by zero") else
      Ret (mkLoop
        (Z.b2z (wrapU w localThreadNum =? (wrapU w (trip - 1) / uchunk) mod wrapU w nThreads))
        lo
        (wrapS w (lo + span - incr))
        (i32 (span * nThreads)))
    else if schedule =? sch_static then
      if trip <? wrapU w nThreads then
        let '(lo, hi) :=
          if wrapU w localThreadNum <? trip
          then (wrapS w (lower l + localThreadNum * incr), wrapS w (lower l + localThreadNum * incr))
          else (wrapS w (upper l + incr), upper l) in
        Ret (mkLoop (Z.b2z (wrapU w localThreadNum =? wrapU w (trip - 1))) lo hi (wrapS w trip))
      else if nThreads =? 0 then Throw (Undefined "division by zero")
      else
        let small_chunk := u32 (trip / wrapU w nThreads) in
        let extras := u32 (trip mod wrapU w nThreads) in
        let is_extra := u32 localThreadNum <? extras in
        let lo := wrapS w (lower l +
          incr * u32 (localThreadNum * small_chunk +
                      (if is_extra then localThreadNum else extras))) in
        let hi := wrapS w (lo + small_chunk * incr - (if is_extra then 0 else incr)) in
        Ret (mkLoop (Z.b2z (localThreadNum =? nThreads - 1)) lo hi (wrapS w trip))
    else Throw (RuntimeError "Unimplemented OpenMP scheduler").

(** [__kmpc_for_static_init_4] and [_8]: the thread number is the caller's. *)
Definition kmpc_for_static_init `{OmpEnv} (w schedule : Z) (l : loop_bounds) (incr chunk : Z)
    : M Omp loop_bounds :=
  '(level, _, localThreadNum, _) ← OMP_FUNC;
  lift (for_static_init w (numThreads level) localThreadNum schedule l incr chunk).

(** * The static schedule partitions the loop *)

(** The iterations of [for (i = lo; ; i += incr)] up to [hi] included. *)
Definition trips (lo hi incr : Z) : Z := (hi - lo) / incr + 1.
Definition iterations (lo hi incr : Z) : list Z :=
  (λ k, lo + k * incr) <$> seqZ 0 (trips lo hi incr).

(** What one thread iterates over after [for_static_init]. *)
Definition thread_iterations (w n schedule lo hi incr chunk t : Z) : list Z :=
  match for_static_init w n t schedule (mkLoop 0 lo hi 0) incr chunk with
  | Ret l => iterations (lower l) (upper l) incr
  | Throw _ => []
  end.

(** A loop of at least one iteration whose bounds are of the type of [w] bits,
    the step past its end too, and whose extent is below 2^31 - 1. *)
Record static_loop (w n lo hi incr : Z) : Prop := {
  sl_w : 32 ≤ w;
  sl_n : 1 ≤ n < 2 ^ 31;
  sl_lo : in_s w lo;
  sl_hi : in_s w hi;
  sl_incr : Z.abs incr < 2 ^ (w - 1);
  sl_past : in_s w (hi + incr);
  sl_dir : (0 < incr ∧ lo ≤ hi) ∨ (incr < 0 ∧ hi ≤ lo);
  sl_extent : Z.abs (hi - lo) < 2 ^ 31 - 1 }.

Lemma pow_32_le w : 32 ≤ w → 2 ^ 31 ≤ 2 ^ (w - 1) ∧ 2 ^ w = 2 * 2 ^ (w - 1).
Proof.
  intros Hw. split; [apply Z.pow_le_mono_r; lia|].
  rewrite <- Z.pow_succ_r by lia. f_equal. lia.
Qed.

Lemma trips_bounds w n lo hi incr :
  static_loop w n lo hi incr →
  1 ≤ trips lo hi incr < 2 ^ 31 ∧
  (0 ≤ (trips lo hi incr - 1) * incr ≤ hi - lo ∨ hi - lo ≤ (trips lo hi incr - 1) * incr ≤ 0) ∧
  (0 < incr → lo + trips lo hi incr * incr > hi) ∧
  (incr < 0 → lo + trips lo hi incr * incr < hi).
Proof.
  intros [_ _ _ _ _ _ Hdir Hext]. unfold trips.
  pose proof (Z.div_mod (hi - lo) incr). destruct Hdir as [[Hi Hl]|[Hi Hl]].
  - pose proof (Z.mod_pos_bound (hi - lo) incr Hi).
    assert (0 ≤ (hi - lo) / incr) by (apply Z.div_pos; lia).
    assert ((hi - lo) / incr ≤ hi - lo) by nia. repeat split; try nia.
  - pose proof (Z.mod_neg_bound (hi - lo) incr Hi).
    assert (0 ≤ (hi - lo) / incr) by nia.
    assert ((hi - lo) / incr ≤ lo - hi) by nia. repeat split; try nia.
Qed.

Lemma tripCount_trips w n lo hi incr :
  static_loop w n lo hi incr → tripCount w lo hi incr = Ret (trips lo hi incr).
Proof.
  intros Hs. pose proof (trips_bounds _ _ _ _ _ Hs) as (Ht & _).
  destruct Hs as [Hw _ Hlo Hhi Hincr _ Hdir Hext].
  pose proof (pow_32_le w Hw) as [Hp1 Hp2].
  unfold tripCount, trips in *. unfold in_s in *.
  destruct (Z.eqb_spec incr 1) as [->|H1].
  { rewrite Z.div_1_r in *. rewrite wrapU_id by (unfold in_u; lia). done. }
  destruct (Z.eqb_spec incr (-1)) as [->|H2].
  { replace (-1) with (- (1)) in * by done. replace (hi - lo) with (- (lo - hi)) in * by lia.
    rewrite Z.div_opp_opp, Z.div_1_r in * by done.
    rewrite wrapU_id by (unfold in_u; lia). done. }
  destruct Hdir as [[Hi Hl]|[Hi Hl]].
  - destruct (Z.gtb_spec incr 0); [|lia].
    rewrite (wrapS_id w (hi - lo)), (wrapS_id 32) by (unfold in_s; lia).
    rewrite Z.quot_div_nonneg by lia. rewrite wrapU_id by (unfold in_u; lia). done.
  - destruct (Z.gtb_spec incr 0); [lia|]. destruct (Z.eqb_spec incr 0); [lia|].
    assert (in_s w (- incr)) by (unfold in_s; lia).
    rewrite (wrapS_id w (lo - hi)), (wrapS_id 32), (wrapS_id w (- incr)) by (unfold in_s in *; lia).
    rewrite Z.quot_div_nonneg by lia.
    replace (lo - hi) with (- (hi - lo)) by lia. rewrite Z.div_opp_opp by lia.
    rewrite wrapU_id by (unfold in_u; lia). done.
Qed.

(** The number of iterations before thread [t], and its own. *)
Definition share_start (N n t : Z) : Z := t * (N / n) + Z.min t (N mod n).
Definition share_count (N n t : Z) : Z := N / n + (if t <? N mod n then 1 else 0).

Lemma share_start_succ N n t :
  share_start N n (t + 1) = share_start N n t + share_count N n t.
Proof. unfold share_start, share_count. destruct (Z.ltb_spec t (N mod n)); lia. Qed.

Lemma share_start_total N n : 0 < n → share_start N n n = N.
Proof.
  intros. unfold share_start. pose proof (Z.mod_pos_bound N n).
  pose proof (Z.div_mod N n). lia.
Qed.

Lemma share_bounds N n t :
  0 < n → 0 ≤ N → 0 ≤ t < n →
  0 ≤ share_start N n t ∧ 0 ≤ share_count N n t ∧
  share_start N n t + share_count N n t ≤ N.
Proof.
  intros Hn HN Ht. pose proof (Z.mod_pos_bound N n Hn).
  assert (0 ≤ N / n) by (apply Z.div_pos; lia).
  pose proof (Z.div_mod N n).
  unfold share_start, share_count.
  destruct (Z.ltb_spec t (N mod n)); repeat split; nia.
Qed.

(** The shares, in the order of the threads, are all of [0 .. N - 1]. *)
Lemma shares_concat N n (m : nat) :
  0 < n → 0 ≤ N → Z.of_nat m ≤ n →
  mjoin ((λ t, seqZ (share_start N n t) (share_count N n t)) <$> seqZ 0 (Z.of_nat m)) =
    seqZ 0 (share_start N n (Z.of_nat m)).
Proof.
  intros Hn HN. induction m as [|m IH]; intros Hm.
  { unfold share_start. rewrite Z.min_l by (apply Z.mod_pos_bound; lia). done. }
  rewrite seqZ_S, fmap_app, join_app, IH by lia. cbn [fmap list_fmap mjoin list_join].
  replace (Z.of_nat (S m)) with (Z.of_nat m + 1) by lia.
  rewrite share_start_succ. pose proof (share_bounds N n (Z.of_nat m) Hn HN ltac:(lia)).
  rewrite seqZ_app by lia. rewrite app_nil_r, !Z.add_0_l. done.
Qed.

Lemma fmap_join {A B} (f : A → B) (ls : list (list A)) :
  mjoin (fmap f <$> ls) = f <$> mjoin ls.
Proof.
  induction ls as [|l ls IH]; [done|]. cbn [fmap list_fmap mjoin list_join] in *.
  rewrite fmap_app. by f_equal.
Qed.

Lemma iterations_segment lo incr a c :
  incr ≠ 0 →
  iterations (lo + a * incr) (lo + (a + c - 1) * incr) incr =
    (λ k, lo + k * incr) <$> seqZ a c.
Proof.
  intros Hi. unfold iterations, trips.
  replace (lo + (a + c - 1) * incr - (lo + a * incr)) with ((c - 1) * incr) by lia.
  rewrite Z.div_mul by done. replace (c - 1 + 1) with c by lia.
  assert (seqZ a c = Z.add a <$> seqZ 0 c) as -> by (rewrite fmap_add_seqZ; f_equal; lia).
  rewrite <- list_fmap_compose.
  apply list_fmap_ext. intros i k _. cbn. lia.
Qed.

(** The bounds a thread of the team gets under the static schedule: first when
    there are fewer iterations than threads, then otherwise. *)
Definition static_bounds (N n t lo hi incr : Z) (l : loop_bounds) : Prop :=
  iterations (lower l) (upper l) incr =
    (λ k, lo + k * incr) <$> seqZ (share_start N n t) (share_count N n t) ∧
  (lastIter l = 1 ↔ share_count N n t ≠ 0 ∧ share_start N n t + share_count N n t = N).

Lemma static_bounds_few N n t lo hi incr st :
  incr ≠ 0 → 0 < N < n → 0 ≤ t < n →
  static_bounds N n t lo hi incr
    (mkLoop (Z.b2z (t =? N - 1))
       (if t <? N then lo + t * incr else hi + incr)
       (if t <? N then lo + t * incr else hi) st).
Proof.
  intros Hi HN Ht. unfold static_bounds, share_start, share_count. cbn [lower upper lastIter].
  rewrite (Z.div_small N n), (Z.mod_small N n) by lia.
  destruct (Z.ltb_spec t N) as [HtN|HtN].
  - split; [|destruct (Z.eqb_spec t (N - 1)); cbn; lia].
    pose proof (iterations_segment lo incr t 1 Hi) as Hseg.
    replace (t + 1 - 1) with t in Hseg by lia. rewrite Hseg. do 2 f_equal; lia.
  - split; [|destruct (Z.eqb_spec t (N - 1)); cbn; lia].
    rewrite (seqZ_nil (t * 0 + t `min` N) (0 + 0)) by lia. unfold iterations, trips.
    replace (hi - (hi + incr)) with (-1 * incr) by lia. by rewrite Z.div_mul.
Qed.

Lemma static_bounds_many N n t lo hi incr st :
  incr ≠ 0 → 0 < n ≤ N → 0 ≤ t < n →
  static_bounds N n t lo hi incr
    (mkLoop (Z.b2z (t =? n - 1)) (lo + share_start N n t * incr)
       (lo + (share_start N n t + share_count N n t - 1) * incr) st).
Proof.
  intros Hi Hn Ht. unfold static_bounds. cbn [lower upper lastIter].
  split; [by apply iterations_segment|].
  rewrite <- share_start_succ. pose proof (Z.div_mod N n ltac:(lia)) as HN.
  pose proof (Z.mod_pos_bound N n ltac:(lia)).
  assert (1 ≤ N / n) by (apply Z.div_le_lower_bound; lia).
  destruct (Z.eqb_spec t (n - 1)) as [->|Hlast]; cbn; split; try done.
  - intros _. split; [unfold share_count; destruct (_ <? _); lia|].
    replace (n - 1 + 1) with n by lia. apply share_start_total. lia.
  - unfold share_start. intros [_ HN']. nia.
Qed.

(** All the iterations are of the loop variable's type. *)
Lemma static_loop_range w n lo hi incr k :
  static_loop w n lo hi incr → 0 ≤ k < trips lo hi incr → in_s w (lo + k * incr).
Proof.
  intros Hs Hk. pose proof (trips_bounds _ _ _ _ _ Hs) as (_ & Hspan & _).
  destruct Hs. unfold in_s in *. split; nia.
Qed.

Lemma for_static_init_static w n t lo hi incr chunk :
  static_loop w n lo hi incr → 0 ≤ t < n →
  ∃ l, for_static_init w n t sch_static (mkLoop 0 lo hi 0) incr chunk = Ret l ∧
    static_bounds (trips lo hi incr) n t lo hi incr l.
Proof.
  intros Hs Ht. pose proof (tripCount_trips _ _ _ _ _ Hs) as Htrip.
  pose proof (trips_bounds _ _ _ _ _ Hs) as (HN & _).
  pose proof (λ k, static_loop_range _ _ _ _ _ k Hs) as Hin.
  pose proof (share_bounds (trips lo hi incr) n t ltac:(lia) ltac:(lia) Ht) as Hsh.
  destruct Hs as [Hw Hn Hlo Hhi Hincr Hpast Hdir Hext].
  pose proof (pow_32_le w Hw) as [Hp1 Hp2].
  assert (trips lo hi incr = (hi - lo) / incr + 1) as HNeq by done.
  set (N := trips lo hi incr) in *.
  unfold for_static_init. cbn [lower upper].
  destruct (Z.eqb_spec n 1) as [->|Hn1].
  { eexists. split; [done|]. unfold static_bounds, iterations, share_start, share_count.
    cbn [lower upper lastIter]. fold N. assert (t = 0) as -> by lia.
    rewrite Z.mod_1_r, Z.div_1_r. change (0 <? 0) with false. cbn [Z.mul Z.min Z.add].
    split; [do 2 f_equal; lia|lia]. }
  rewrite Htrip. change (sch_static =? sch_static_chunked) with false.
  change (sch_static =? sch_static) with true. cbn [mbind outcome_bind].
  rewrite (wrapU_id w n), (wrapU_id w t), (wrapU_id w (N - 1)) by (unfold in_u; lia).
  destruct (Z.ltb_spec N n) as [Hsmall|Hlarge].
  - pose proof (static_bounds_few N n t lo hi incr (wrapS w N) ltac:(lia) ltac:(lia) Ht) as Hb.
    destruct (Z.ltb_spec t N) as [HtN|HtN]; (eexists; split; [done|]);
      rewrite wrapS_id; try done; try lia. apply Hin; lia.
  - destruct (Z.eqb_spec n 0); [lia|].
    eexists. split; [done|].
    assert (N / n ≤ N) by (apply Z.div_le_upper_bound; nia).
    assert (1 ≤ N / n) by (apply Z.div_le_lower_bound; lia).
    pose proof (Z.mod_pos_bound N n ltac:(lia)).
    rewrite (wrapU_id 32 (N / n)), (wrapU_id 32 (N mod n)), (wrapU_id 32 t) by (unfold in_u; lia).
    assert (t * (N / n) + (if t <? N mod n then t else N mod n) = share_start N n t) as ->
      by (unfold share_start; destruct (Z.ltb_spec t (N mod n)); lia).
    rewrite (wrapU_id 32 (share_start N n t)), (Z.mul_comm incr) by (unfold in_u; lia).
    assert (1 ≤ share_count N n t) by (unfold share_count; destruct (_ <? _); lia).
    rewrite (wrapS_id w (lo + _)) by (lia || apply Hin; lia).
    replace (_ + N / n * incr - _)
      with (lo + (share_start N n t + share_count N n t - 1) * incr)
      by (unfold share_count; destruct (_ <? _); lia).
    rewrite wrapS_id by (lia || apply Hin; lia).
    apply static_bounds_many; lia.
Qed.

(** Under the static schedule the iterations of the threads of a team, one
    thread after the other, are exactly the iterations of the loop in order:
    none is lost and none is run twice. *)
Theorem for_static_init_partition w n lo hi incr chunk :
  static_loop w n lo hi incr →
  mjoin (thread_iterations w n sch_static lo hi incr chunk <$> seqZ 0 n) =
    iterations lo hi incr.
Proof.
  intros Hs. pose proof (trips_bounds _ _ _ _ _ Hs) as (HN & _).
  set (N := trips lo hi incr) in *.
  trans (mjoin (fmap (λ k, lo + k * incr) <$>
    ((λ t, seqZ (share_start N n t) (share_count N n t)) <$> seqZ 0 n))).
  - f_equal. rewrite <- list_fmap_compose. apply list_fmap_ext. intros i t Ht.
    apply lookup_seqZ in Ht as [-> Hi].
    destruct (for_static_init_static w n (0 + Z.of_nat i) lo hi incr chunk Hs ltac:(lia))
      as (l & Hl & Hit & _).
    unfold thread_iterations. rewrite Hl. exact Hit.
  - destruct Hs as [_ Hn _ _ _ _ _ _].
    pose proof (shares_concat N n (Z.to_nat n) ltac:(lia) ltac:(lia) ltac:(lia)) as Hc.
    rewrite Z2Nat.id, share_start_total in Hc by lia.
    by rewrite fmap_join, Hc.
Qed.

Lemma for_static_init_partition_witness :
  static_loop 32 4 (-5) 17 3 ∧
  mjoin (thread_iterations 32 4 sch_static (-5) 17 3 0 <$> seqZ 0 4) =
    [-5; -2; 1; 4; 7; 10; 13; 16].
Proof.
  assert (static_loop 32 4 (-5) 17 3) as Hs by (split; unfold in_s; lia).
  split; [exact Hs|]. by rewrite (for_static_init_partition 32 4 (-5) 17 3 0 Hs).
Defined.

(** A 64-bit loop with a step other than one loses iterations: the extent is
    cast to a 32-bit int before the trip count is computed.  Here two threads
    share [for (i = 0; i <= 2^33; i += 2)] and run one iteration in all. *)
Theorem for_static_init_8_truncates :
  trips 0 (2 ^ 33) 2 = 2 ^ 32 + 1 ∧
  mjoin (thread_iterations 64 2 sch_static 0 (2 ^ 33) 2 0 <$> seqZ 0 2) = [0].
Proof. split; vm_compute; reflexivity. Qed.

(** The flag for the last iteration is raised for exactly the thread that runs
    it. *)
Theorem for_static_init_lastIter w n t lo hi incr chunk :
  static_loop w n lo hi incr → 0 ≤ t < n →
  ∃ l, for_static_init w n t sch_static (mkLoop 0 lo hi 0) incr chunk = Ret l ∧
    (lastIter l = 1 ↔
     lo + (trips lo hi incr - 1) * incr ∈ iterations (lower l) (upper l) incr).
Proof.
  intros Hs Ht. destruct (for_static_init_static w n t lo hi incr chunk Hs Ht)
    as (l & Hl & Hit & Hlast).
  pose proof (trips_bounds _ _ _ _ _ Hs) as (HN & _).
  set (N := trips lo hi incr) in *.
  pose proof (share_bounds N n t ltac:(lia) ltac:(lia) Ht) as (Hst & Hct & Hend).
  exists l. split; [exact Hl|]. rewrite Hlast, Hit, list_elem_of_fmap.
  destruct Hs. split.
  - intros [Hc He]. exists (N - 1). split; [done|]. apply elem_of_seqZ. lia.
  - intros (k & Hk & Hin). apply elem_of_seqZ in Hin.
    assert (k = N - 1) by (apply (Z.mul_reg_r _ _ incr); lia). lia.
Qed.

Lemma for_static_init_lastIter_witness :
  static_loop 32 4 0 9 1 ∧
  ∃ l, for_static_init 32 4 3 sch_static (mkLoop 0 0 9 0) 1 0 = Ret l ∧
    (lastIter l = 1 ↔ 0 + (trips 0 9 1 - 1) * 1 ∈ iterations (lower l) (upper l) 1).
Proof.
  assert (static_loop 32 4 0 9 1) as Hs by (split; unfold in_s; lia).
  split; [exact Hs|]. apply (for_static_init_lastIter 32 4 3 0 9 1 0 Hs). lia.
Defined.

(** ** The chunked schedule *)

(** The compiled loop runs [lower .. upper] and then moves both by [stride]. *)
Definition chunk_runs (l : loop_bounds) (incr chunk x : Z) : Prop :=
  ∃ c j, 0 ≤ c ∧ 0 ≤ j < chunk ∧ x = lower l + c * stride l + j * incr.

Lemma chunk_runs_owner lo incr chunk n t k l :
  incr ≠ 0 → 0 < chunk → 0 ≤ t < n → 0 ≤ k →
  lower l = lo + t * chunk * incr → stride l = n * chunk * incr →
  chunk_runs l incr chunk (lo + k * incr) ↔ t = (k / chunk) mod n.
Proof.
  intros Hi Hc Ht Hk Hlo Hst. unfold chunk_runs. rewrite Hlo, Hst. split.
  - intros (c & j & Hc0 & Hj & Heq).
    assert (k = (t + c * n) * chunk + j) as -> by (apply (Z.mul_reg_r _ _ incr); nia).
    rewrite Z.div_add_l, (Z.div_small j), Z.add_0_r by lia.
    by rewrite Z.mod_add, Z.mod_small by lia.
  - intros ->. pose proof (Z.div_mod k chunk ltac:(lia)).
    pose proof (Z.mod_pos_bound k chunk ltac:(lia)).
    pose proof (Z.div_mod (k / chunk) n ltac:(lia)).
    exists (k / chunk / n), (k mod chunk).
    split; [apply Z.div_pos; [apply Z.div_pos|]; lia|]. split; [done|].
    set (m := k / chunk) in *. set (r := k mod chunk) in *.
    set (q := m / n) in *. set (u := m mod n) in *.
    replace k with (chunk * (n * q + u) + r) by lia. lia.
Qed.

(** None of the integers the chunked branch computes wraps around. *)
Lemma chunk_ranges w n t lo incr chunk :
  32 ≤ w → 2 ≤ n → 0 ≤ t < n → 1 ≤ chunk → incr ≠ 0 →
  n * chunk * Z.abs incr < 2 ^ 31 → in_s w lo → in_s w (lo + n * chunk * incr) →
  in_u 32 chunk ∧ in_s 32 (chunk * incr) ∧ in_s 32 (chunk * incr * n) ∧
  in_s 32 (chunk * incr * t) ∧ in_s w (lo + chunk * incr * t) ∧
  in_s w (lo + chunk * incr * t + chunk * incr - incr).
Proof.
  intros Hw Hn Ht Hc Hi Hspan Hlo Hend.
  pose proof (pow_32_le w Hw) as [Hp _].
  set (ci := chunk * incr) in *.
  replace (n * chunk * incr) with (ci * n) in * by (unfold ci; ring).
  assert (n * chunk * Z.abs incr = Z.abs (ci * n)) as Habs
    by (unfold ci; rewrite !Z.abs_mul, (Z.abs_eq n), (Z.abs_eq chunk) by lia; ring).
  assert (1 ≤ n * Z.abs incr) as Hni by (apply (Z.mul_le_mono_nonneg 1 n 1); lia).
  pose proof (Z.mul_le_mono_nonneg_l 1 (n * Z.abs incr) chunk ltac:(lia) Hni) as Hchunk.
  replace (chunk * (n * Z.abs incr)) with (n * chunk * Z.abs incr) in Hchunk by ring.
  pose proof (mul_between t n ci ltac:(lia)) as Hu.
  pose proof (mul_between (t + 1) n ci ltac:(lia)) as He.
  pose proof (mul_between 1 n ci ltac:(lia)) as H1.
  pose proof (mul_between (chunk - 1) chunk incr ltac:(lia)) as Hl.
  replace (incr * chunk) with ci in Hl by (unfold ci; ring).
  replace (ci * (t + 1)) with (ci * t + ci) in He by ring.
  replace (ci * 1) with ci in H1 by ring.
  replace (incr * (chunk - 1)) with (ci - incr) in Hl by (unfold ci; ring).
  unfold in_s, in_u in *. clearbody ci.
  set (u := ci * t) in *. set (e := ci * n) in *. clearbody u e.
  rewrite Habs in *. clear Habs. repeat split; lia.
Qed.

(** Under the chunked schedule each iteration is run by exactly one thread of
    the team, the chunks going round the threads in order, and the flag for the
    last iteration is raised for the thread that runs it. *)
Theorem for_static_init_chunked w n t lo hi incr chunk :
  static_loop w n lo hi incr → 2 ≤ n → 0 ≤ t < n → 1 ≤ chunk →
  n * chunk * Z.abs incr < 2 ^ 31 → in_s w (lo + n * chunk * incr) →
  ∃ l, for_static_init w n t sch_static_chunked (mkLoop 0 lo hi 0) incr chunk = Ret l ∧
    upper l = lower l + (chunk - 1) * incr ∧
    (∀ k, 0 ≤ k < trips lo hi incr →
       chunk_runs l incr chunk (lo + k * incr) ↔ t = (k / chunk) mod n) ∧
    (lastIter l = 1 ↔ chunk_runs l incr chunk (lo + (trips lo hi incr - 1) * incr)).
Proof.
  intros Hs Hn2 Ht Hc Hspan Hend. pose proof (tripCount_trips _ _ _ _ _ Hs) as Htrip.
  pose proof (trips_bounds _ _ _ _ _ Hs) as (HN & _).
  destruct Hs as [Hw Hn Hlo Hhi Hincr Hpast Hdir Hext].
  pose proof (pow_32_le w Hw) as [Hp1 Hp2].
  set (N := trips lo hi incr) in *. assert (incr ≠ 0) as Hi by lia.
  destruct (chunk_ranges w n t lo incr chunk) as (Hu & Hci & Hcn & Hct & Hlo' & Hhi'); try done.
  assert (in_s w (chunk * incr)) by (unfold in_s in *; lia).
  assert (in_u w n ∧ in_u w t ∧ in_u w (N - 1)) as (? & ? & ?) by (unfold in_u; lia).
  unfold for_static_init. cbn [lower upper].
  destruct (Z.eqb_spec n 1); [lia|]. rewrite Htrip. cbn [mbind outcome_bind].
  change (sch_static_chunked =? sch_static_chunked) with true. cbn iota.
  destruct (Z.ltb_spec chunk 1); [lia|].
  rewrite (wrapU_id 32 chunk), (wrapU_id w n), (wrapU_id w t), (wrapU_id w (N - 1)) by done.
  rewrite (wrapS_id w (chunk * incr)), (wrapS_id 32 (chunk * incr)) by (lia || done).
  rewrite (wrapS_id 32 (_ * t)), (wrapS_id 32 (_ * n)) by (lia || done).
  destruct (Z.eqb_spec chunk 0); [lia|]. destruct (Z.eqb_spec n 0); [lia|]. cbn [orb].
  rewrite (wrapS_id w (lo + chunk * incr * t)) by (lia || done).
  rewrite (wrapS_id w (lo + chunk * incr * t + _ - _)) by (lia || done).
  eexists. split; [done|]. cbn [lower upper lastIter].
  split; [lia|]. split.
  - intros k Hk. apply chunk_runs_owner; cbn [lower stride]; lia.
  - rewrite (chunk_runs_owner lo incr chunk n t) by (cbn [lower stride]; lia).
    destruct (Z.eqb_spec t (((N - 1) / chunk) mod n)); cbn; lia.
Qed.

Lemma for_static_init_chunked_witness :
  static_loop 64 3 10 40 2 ∧
  ∃ l, for_static_init 64 3 1 sch_static_chunked (mkLoop 0 10 40 0) 2 4 = Ret l ∧
    upper l = lower l + (4 - 1) * 2 ∧
    (∀ k, 0 ≤ k < trips 10 40 2 →
       chunk_runs l 2 4 (10 + k * 2) ↔ 1 = (k / 4) mod 3) ∧
    (lastIter l = 1 ↔ chunk_runs l 2 4 (10 + (trips 10 40 2 - 1) * 2)).
Proof.
  assert (static_loop 64 3 10 40 2) as Hs by (split; unfold in_s; lia).
  split; [exact Hs|]. apply (for_static_init_chunked 64 3 1 10 40 2 4 Hs); unfold in_s; lia.
Defined.

(** * The life of a parallel region *)

Lemma imapZ_length {A B} (f : Z → A → B) i l : length (imapZ f i l) = length l.
Proof. revert i. induction l as [|x l IH]; intros i; [done|]. cbn. by rewrite IH. Qed.

Lemma imapZ_lookup {A B} (f : Z → A → B) i l k :
  imapZ f i l !! k = f (i + Z.of_nat k) <$> l !! k.
Proof.
  revert i k. induction l as [|x l IH]; intros i k; [done|].
  destruct k as [|k]; cbn; [by rewrite Z.add_0_r|].
  rewrite IH. do 2 f_equal. lia.
Qed.

Section region.
Context `{OmpEnv} `{!OmpEnvLaws}.

Lemma OMP_FUNC_run s level t :
  currentLevel s = Some level → getLocalThreadNum (m_appidx (msg s)) level = Ret t →
  OMP_FUNC s = (Ret (level, msg s, t, m_appidx (msg s)), s).
Proof.
  intros Hl Ht. unfold OMP_FUNC, getLevel, zoom, getCurrentOpenMPLevel, get, gets, put, lift.
  unfold mbind, M_bind, mret, M_ret. rewrite Hl.
  destruct s as [cl m rs gc ex]. cbn in *. subst cl. by rewrite Ht.
Qed.

(** The shared variables a fork reads. *)
Definition fork_vars (nSharedVars sharedVarPtrs : Z) (vars : list Z) : Prop :=
  if nSharedVars >? 0 then memoryArray_u32 (u64 sharedVarPtrs) nSharedVars = Ret vars
  else vars = [].

Lemma next_level_run level nSharedVars ptrs vars :
  fork_vars nSharedVars ptrs vars → nSharedVars < 2 ^ 31 →
  Level_wf level → in_s 32 (getMaxThreadsAtNextLevel usable_cores level) →
  ∃ next, next_level level nSharedVars ptrs = Ret next ∧ Level_wf next ∧
    numThreads next = getMaxThreadsAtNextLevel usable_cores level ∧
    depth next = i32 (depth level + 1) ∧
    (depth level = 0 → globalTidOffset next = 0) ∧
    getSharedVarOffsets next = Ret vars ∧ nSharedVarOffsets next = Z.max 0 nSharedVars.
Proof.
  intros Hvars Hn Hwf Hthreads. unfold next_level, fork_vars in *.
  set (base := fromParentLevel _ _).
  assert (Level_wf base) as Hbase by (by apply fromParentLevel_wf).
  assert (depth level = 0 → globalTidOffset base = 0) as Hoff by (intros Hd; cbn; by rewrite Hd).
  destruct (Z.gtb_spec nSharedVars 0) as [Hpos|Hneg].
  - rewrite Hvars. cbn [mbind outcome_bind].
    destruct (array_size _ _ _ Hvars) as [Hlen Hall]; [lia|].
    assert (u32 nSharedVars = nSharedVars) as Hu by (apply wrapU_id; unfold in_u; lia).
    eexists. split; [done|]. assert (Level_wf (setSharedVarOffsets vars nSharedVars base)) as Hwf'.
    { destruct Hbase. unfold setSharedVarOffsets. rewrite take_ge by lia.
      split; cbn [depth activeLevels maxActiveLevels numThreads wantedThreads pushedThreads
        globalTidOffset nSharedVarOffsets sharedVarOffsets]; try done.
      - rewrite Hu. unfold in_u. lia.
      - rewrite Hu. split; [done|]. split; [by intros ->; cbn in Hlen; lia|done]. }
    split; [done|]. rewrite getSharedVarOffsets_wf by done.
    cbn [numThreads depth globalTidOffset nSharedVarOffsets sharedVarOffsets setSharedVarOffsets default].
    rewrite take_ge by lia. rewrite Hu. repeat split; try done. lia.
  - subst vars. eexists. split; [done|]. split; [done|].
    repeat split; try done. cbn. lia.
Qed.

(** The batch of a fork: the messages of the executor's threads. *)
Definition fork_request (parentCall : Message) (microtaskPtr : Z) (next : Level) (ctx : list Z)
    : BatchRequest :=
  mkBatchRequest
    (imapZ (fork_message (m_appid parentCall) microtaskPtr next) 0
      (batchExecFactory (m_user parentCall) (m_function parentCall) (numThreads next))) ctx.

Lemma for_each_no_throw {A} (l : list A) (bad : A → bool) (e : exn) (s : Omp) :
  Forall (λ x, bad x = false) l →
  for_each l (λ x, when (bad x) (throw e)) s = (Ret (), s).
Proof.
  intros Hall. induction Hall as [|x l Hx _ IH]; [done|].
  cbn [for_each]. rewrite run_bind. unfold when at 1. rewrite Hx. exact IH.
Qed.

(** What the thread of one message of a batch finds when it starts: the level
    set from the batch's context, its own number in the team, and the arguments
    of its microtask. *)
Definition thread_starts (ctx : list Z) (m : Message) (next : Level) (t : Z) (args : list Z) : Prop :=
  setCurrentOpenMPLevel ctx None = (Ret (), Some next) ∧
  getLocalThreadNum (m_appidx m) next = Ret t ∧
  ∀ s, currentLevel s = Some next → (ompInvokeArgs m s).1 = Ret args.

(** A parallel region forked from the top level starts one thread per message,
    with consecutive group indices; each decodes the level it was sent, finds
    its index as its thread number and gets the shared variables of the fork as
    arguments of the microtask.  When all threads succeed, the module's merge
    regions and the thread count pushed for this region are cleared. *)
Theorem kmpc_fork_call_starts s level t0 nSharedVars microtaskPtr ptrs vars n :
  currentLevel s = Some level → Level_wf level → depth level = 0 →
  getLocalThreadNum (m_appidx (msg s)) level = Ret t0 →
  fork_vars nSharedVars ptrs vars → nSharedVars < 2 ^ 31 →
  n = getMaxThreadsAtNextLevel usable_cores level → 0 ≤ n < 2 ^ 31 →
  (∀ req regions, Forall (λ r, r.2 = 0) (executeThreads req regions)) →
  ∃ req next,
    kmpc_fork_call nSharedVars microtaskPtr ptrs s =
      (Ret (), set_level (set_pushedThreads (-1) level)
                 (set_mergeRegions [] (log_execution (req, mergeRegions s) s))) ∧
    numThreads next = n ∧ depth next = 1 ∧
    Z.of_nat (length (req_messages req)) = n ∧
    ∀ i m, req_messages req !! i = Some m →
      m_groupidx m = Z.of_nat i ∧ m_funcptr m = microtaskPtr ∧ m_appid m = m_appid (msg s) ∧
      thread_starts (req_contextdata req) m next (Z.of_nat i)
        (Z.of_nat i :: Z.max 0 nSharedVars :: vars).
Proof.
  intros Hlev Hwf Hdepth Ht0 Hvars Hns Hneq Hn Hres. rewrite Hneq in Hn.
  destruct (next_level_run level nSharedVars ptrs vars) as
    (next & Hnext & Hnwf & Hnum & Hd & Hoff & Hsh & Hnsh); try done; [unfold in_s; lia|].
  specialize (Hoff Hdepth). rewrite Hdepth in Hd. change (i32 (0 + 1)) with 1 in Hd.
  destruct (serialise_deserialise heap_address next Hnwf) as (ctx & Hser & Hdes).
  set (req := fork_request (msg s) microtaskPtr next ctx).
  exists req, next. rewrite Hneq. split.
  { unfold kmpc_fork_call. rewrite run_bind, (OMP_FUNC_run s level t0) by done.
    rewrite run_bind. unfold lift at 1. rewrite Hnext. rewrite Hd. change (1 >? 1) with false. cbn iota.
    rewrite run_bind. unfold lift at 1. rewrite Hser. rewrite run_bind. unfold gets at 1.
    rewrite run_bind. unfold modify at 1. rewrite run_bind.
    rewrite for_each_no_throw; [done|].
    eapply Forall_impl; [apply Hres|]. cbn. by intros [? r] ->. }
  split; [done|]. split; [done|]. unfold req, fork_request. cbn [req_messages req_contextdata].
  rewrite imapZ_length. rewrite batch_size by lia. split; [done|].
  intros i m Hm. rewrite imapZ_lookup in Hm.
  destruct (_ !! i) as [m0|] eqn:Hm0; [|done]. cbn in Hm. injection Hm as <-.
  apply lookup_lt_Some in Hm0.
  pose proof (batch_size (m_user (msg s)) (m_function (msg s)) (numThreads next) ltac:(lia)) as Hb.
  assert (Z.of_nat i < 2 ^ 31) as Hi by lia.
  assert (tidOffset next = 0) as Htid by (unfold tidOffset; by rewrite Hd, Hoff).
  repeat split.
  - destruct ctx as [|b ctx]; [done|]. unfold setCurrentOpenMPLevel, levelFromBatchRequest.
    rewrite run_bind. unfold lift. by rewrite Hdes.
  - cbn [m_appidx fork_message]. rewrite Z.add_0_l. apply getLocalThreadNum_global; rewrite ?Htid; lia.
  - intros s' Hs'. unfold ompInvokeArgs, getLevel, zoom, getCurrentOpenMPLevel, get, lift.
    unfold mbind, M_bind, mret, M_ret. rewrite Hs', Hsh. cbn [fst m_appidx fork_message].
    rewrite getGlobalThreadNum_offset by (rewrite ?Htid; lia).
    rewrite Htid, Hnsh, wrapS_id by (unfold in_s; lia). do 2 f_equal. lia.
Qed.

(** A fork inside a parallel region is refused before any thread is started,
    and leaves the thread's state as it was. *)
Theorem kmpc_fork_call_nested s level t0 nSharedVars microtaskPtr ptrs vars :
  currentLevel s = Some level → Level_wf level → 1 ≤ depth level < 2 ^ 31 - 1 →
  getLocalThreadNum (m_appidx (msg s)) level = Ret t0 →
  fork_vars nSharedVars ptrs vars → nSharedVars < 2 ^ 31 →
  in_s 32 (getMaxThreadsAtNextLevel usable_cores level) →
  kmpc_fork_call nSharedVars microtaskPtr ptrs s =
    (Throw (RuntimeError "Nested OpenMP support removed"), s).
Proof.
  intros Hlev Hwf Hdepth Ht0 Hvars Hns Hn.
  destruct (next_level_run level nSharedVars ptrs vars) as
    (next & Hnext & _ & _ & Hd & _); try done.
  unfold kmpc_fork_call. rewrite run_bind, (OMP_FUNC_run s level t0) by done.
  rewrite run_bind. unfold lift at 1. rewrite Hnext, Hd, wrapS_id by (unfold in_s; lia).
  by destruct (Z.gtb_spec (depth level + 1) 1); [|lia].
Qed.

End region.

(** ** One thread runs the master and the single sections *)

Section team.
Context `{OmpEnv}.

(** The state of thread [t] of a team at level [l]. *)
Definition team_member (l : Level) (t : Z) (s : Omp) : Prop :=
  currentLevel s = Some l ∧ getLocalThreadNum (m_appidx (msg s)) l = Ret t.

Lemma run_OMP_FUNC {B} l t s (k : Level * Message * Z * Z → M Omp B) :
  team_member l t s →
  (OMP_FUNC ≫= k) s = k (l, msg s, t, m_appidx (msg s)) s.
Proof. intros [Hl Ht]. by rewrite run_bind, (OMP_FUNC_run s l t). Qed.

(** In a team only thread 0 is told to run a master or single section, and only
    it may end one: the end call of any other thread throws. *)
Theorem master_single_exclusive l t s :
  team_member l t s →
  kmpc_master s = (Ret (Z.b2z (t =? 0)), s) ∧
  kmpc_single s = (Ret (Z.b2z (t =? 0)), s) ∧
  ((kmpc_end_master s).1 = Ret () ↔ t = 0) ∧
  ((kmpc_end_single s).1 = Ret () ↔ t = 0) ∧
  (kmpc_end_master s).2 = s ∧ (kmpc_end_single s).2 = s.
Proof.
  intros Hm. unfold kmpc_master, kmpc_single, kmpc_end_master, kmpc_end_single.
  rewrite !(run_OMP_FUNC l t) by done.
  destruct (Z.eqb_spec t 0); cbn; repeat split; done.
Qed.

Definition call_group (c : list group_call) (s : Omp) : Omp :=
  fold_left (λ s c, group_do c s) c s.

Lemma getLevel_run l s : currentLevel s = Some l → getLevel s = (Ret l, s).
Proof. destruct s as [cl m rs gc ex]. cbn. by intros ->. Qed.

Lemma endReduceCritical_run l t b s :
  team_member l t s →
  endReduceCritical (msg s) b s =
    (Ret (), call_group ([g_localUnlock (m_groupid (msg s)); g_notify (m_groupid (msg s)) t] ++
                         if b then [g_barrier (m_groupid (msg s)) t] else []) s).
Proof.
  intros [Hl Ht]. unfold endReduceCritical. rewrite run_bind, (getLevel_run l) by done.
  rewrite run_bind. unfold lift at 1. rewrite Ht. by destruct b.
Qed.

(** A reduction holds the group's local lock from its start to its end; the
    lock is released before the thread notifies the master, and the barrier of
    a blocking reduction comes last. *)
Theorem reduce_protocol l t s :
  team_member l t s →
  let g := m_groupid (msg s) in
  (kmpc_reduce ;; kmpc_end_reduce) s =
    (Ret (), call_group [g_localLock g; g_localUnlock g; g_notify g t; g_barrier g t] s) ∧
  (kmpc_reduce_nowait ;; kmpc_end_reduce_nowait) s =
    (Ret (), call_group [g_localLock g; g_localUnlock g; g_notify g t] s).
Proof.
  intros Hm. assert (team_member l t (group_do (g_localLock (m_groupid (msg s))) s)) as Hm'
    by (by destruct s).
  split; rewrite run_bind; unfold kmpc_reduce, kmpc_reduce_nowait, kmpc_end_reduce,
    kmpc_end_reduce_nowait; rewrite (run_OMP_FUNC l t) by done;
    rewrite run_bind; unfold startReduceCritical, modify at 1; cbn iota;
    unfold mret, M_ret; rewrite (run_OMP_FUNC l t) by done;
    rewrite (endReduceCritical_run l t) by done; done.
Qed.

End team.

(** * A concrete environment *)

#[export] Instance demo_omp_env : OmpEnv := {
  host_slots := 4;
  usable_cores := 5;
  memoryArray_u32 p n := Ret ((λ i, wrapU 32 (p + 8 * i)) <$> seqZ 0 n);
  batchExecFactory u f n := (λ _, mkMessage u f 0 0 0 77 0) <$> seqZ 0 n;
  heap_address := 94000000000000;
  executeThreads req regions := (λ m, (m_appidx m, 0)) <$> req_messages req }.

#[export] Instance demo_omp_laws : OmpEnvLaws.
Proof.
  split.
  - intros u f n Hn. cbn. rewrite length_fmap, length_seqZ. lia.
  - intros p n ws Hws Hn. cbn in Hws. injection Hws as <-.
    rewrite length_fmap, length_seqZ. split; [lia|].
    apply Forall_fmap, Forall_forall. intros i _. by apply wrapU_range.
Qed.

Definition demo_msg (appidx : Z) : Message := mkMessage "demo" "omp" 3 appidx 0 77 0.
Definition demo_omp (l : Level) (appidx : Z) : Omp := mkOmp (Some l) (demo_msg appidx) [(0, 4, 1, 1)] [] [].

Lemma Level_new_wf n : in_s 32 n → Level_wf (Level_new n).
Proof. intros Hn. split; cbn; try done; unfold in_s, in_u; lia. Qed.

Lemma kmpc_fork_call_starts_witness :
  ∃ req next,
    kmpc_fork_call 2 11 4096 (demo_omp (Level_new 1) 0) =
      (Ret (), set_level (set_pushedThreads (-1) (Level_new 1))
                 (set_mergeRegions [] (log_execution (req, [(0, 4, 1, 1)]) (demo_omp (Level_new 1) 0)))) ∧
    numThreads next = 4 ∧ depth next = 1 ∧
    Z.of_nat (length (req_messages req)) = 4 ∧
    ∀ i m, req_messages req !! i = Some m →
      m_groupidx m = Z.of_nat i ∧ m_funcptr m = 11 ∧ m_appid m = 3 ∧
      thread_starts (req_contextdata req) m next (Z.of_nat i)
        (Z.of_nat i :: Z.max 0 2 :: [4096; 4104]).
Proof.
  apply (kmpc_fork_call_starts (demo_omp (Level_new 1) 0) (Level_new 1) 0 2 11 4096 [4096; 4104] 4);
    try done.
  intros req regions. by apply Forall_fmap, Forall_forall.
Defined.

Definition demo_inner : Level := fromParentLevel (Level_new 1) (Level_new 4).

Lemma kmpc_fork_call_nested_witness :
  kmpc_fork_call 0 11 0 (demo_omp demo_inner 2) =
    (Throw (RuntimeError "Nested OpenMP support removed"), demo_omp demo_inner 2).
Proof.
  apply (kmpc_fork_call_nested (demo_omp demo_inner 2) demo_inner 2 0 11 0 []);
    try done; try (cbn; unfold in_s; lia).
Defined.

Lemma master_single_exclusive_witness :
  team_member demo_inner 2 (demo_omp demo_inner 2) ∧
  kmpc_master (demo_omp demo_inner 2) = (Ret 0, demo_omp demo_inner 2).
Proof.
  assert (team_member demo_inner 2 (demo_omp demo_inner 2)) as Hm by done.
  split; [exact Hm|]. apply (master_single_exclusive demo_inner 2 _ Hm).
Defined.

Lemma reduce_protocol_witness :
  team_member demo_inner 2 (demo_omp demo_inner 2) ∧
  (kmpc_reduce ;; kmpc_end_reduce) (demo_omp demo_inner 2) =
    (Ret (), call_group [g_localLock 77; g_localUnlock 77; g_notify 77 2; g_barrier 77 2]
               (demo_omp demo_inner 2)).
Proof.
  assert (team_member demo_inner 2 (demo_omp demo_inner 2)) as Hm by done.
  exact (conj Hm (proj1 (reduce_protocol demo_inner 2 _ Hm))).
Defined.
