(* ===== verification/Pthreads.v ===== *)
(** Threads made with the pthread interface (src/wavm/threads.cpp with the
    queueing half of src/wasm/WasmModule.cpp): creation queues a call, the first
    join runs the queue as one batch and later joins read its results; mutexes
    are created on first use under a reader/writer lock; futex calls. *)

From S2P Require Import Prelude Text WasmBytes.

(** * Queueing and joining *)

(** [threads::PthreadCall] *)
Record PthreadCall := mkPthreadCall { pthreadPtr : Z; entryFunc : Z; argsPtr : Z }.

(** The message of one pthread in the batch. *)
Record PthreadMessage := mkPthreadMessage {
  pm_id : Z; pm_appid : Z; pm_funcptr : Z; pm_inputdata : string;
  pm_appidx : Z; pm_groupidx : Z }.

(** The pthread members of [WasmModule], and how many batches it has run. *)
Record Pthreads := mkPthreads {
  queuedPthreadCalls : list PthreadCall;
  pthreadPtrsToChainedCalls : gmap Z Z;
  lastPthreadResults : list (Z * Z);
  batches : nat }.

(** faabric: the message ids of the [b]-th batch made, and the results of
    executing a batch. *)
Class PthreadEnv := {
  message_ids : nat → nat → list Z;
  executePthreads : list PthreadMessage → list (Z * Z) }.

(** A batch of [n] messages has [n] distinct ids, and executing it gives one
    result per message. *)
Class PthreadEnvLaws `{PthreadEnv} : Prop := {
  ids_length : ∀ b n, length (message_ids b n) = n;
  ids_unique : ∀ b n, NoDup (message_ids b n);
  results_ids : ∀ ms, (executePthreads ms).*1 ≡ₚ (pm_id <$> ms) }.

Section pthreads.
Context `{PthreadEnv}.

Definition queuePthreadCall (call : PthreadCall) : M Pthreads unit :=
  modify (λ s, mkPthreads (queuedPthreadCalls s ++ [call]) (pthreadPtrsToChainedCalls s)
                 (lastPthreadResults s) (batches s)).

(** The [i]-th message of the batch. *)
Definition pthread_message (appid : Z) (i : nat) (p : PthreadCall) (id : Z) : PthreadMessage :=
  mkPthreadMessage id appid (entryFunc p) (to_string (argsPtr p))
    (Z.of_nat i + 1) (Z.of_nat i + 1).

(** The loop that fills the batch in. *)
Fixpoint pthread_messages (appid : Z) (i : nat) (ps : list PthreadCall) (ids : list Z)
    : list PthreadMessage :=
  match ps, ids with
  | p :: ps', id :: ids' => pthread_message appid i p id :: pthread_messages appid (S i) ps' ids'
  | _, _ => []
  end.

(** [unordered_map::insert] keeps the entry of a key that is already there. *)
Definition map_insert_new (k v : Z) (m : gmap Z Z) : gmap Z Z :=
  match m !! k with Some _ => m | None => <[k := v]> m end.

Fixpoint map_calls (ps : list PthreadCall) (ids : list Z) (m : gmap Z Z) : gmap Z Z :=
  match ps, ids with
  | p :: ps', id :: ids' => map_calls ps' ids' (map_insert_new (pthreadPtr p) id m)
  | _, _ => m
  end.

(** Executing the queued calls. *)
Definition run_queue (appid : Z) : M Pthreads unit :=
  s ← get;
  let q := queuedPthreadCalls s in
  match q with
  | [] => mret ()
  | _ =>
      let ids := message_ids (batches s) (length q) in
      put (mkPthreads [] (map_calls q ids (pthreadPtrsToChainedCalls s))
             (executePthreads (pthread_messages appid 0 q ids)) (S (batches s)))
  end.

(** The loop over the last results. *)
Fixpoint find_result (mid : Z) (rs : list (Z * Z)) : option Z :=
  match rs with
  | [] => None
  | (m, res) :: rs' => if mid =? m then Some res else find_result mid rs'
  end.

(** [awaitPthreadCall(msg, pthreadPtr)]; [operator[]] makes an entry 0 for an
    unknown pointer. *)
Definition awaitPthreadCall (appid ptr : Z) : M Pthreads Z :=
  run_queue appid ;;
  s ← get;
  let mid := default 0 (pthreadPtrsToChainedCalls s !! ptr) in
  put (mkPthreads (queuedPthreadCalls s) (map_insert_new ptr 0 (pthreadPtrsToChainedCalls s))
         (lastPthreadResults s) (batches s)) ;;
  match find_result mid (lastPthreadResults s) with
  | None => throw (RuntimeError "Result not found for pthread")
  | Some thisResult =>
      let m := delete ptr (pthreadPtrsToChainedCalls s) in
      put (mkPthreads (queuedPthreadCalls s) m
             (if decide (m = ∅) then [] else lastPthreadResults s) (batches s)) ;;
      mret thisResult
  end.

(** ** The system calls *)

(** [pthread_create]: the first word of the thread's struct points to itself. *)
Definition pthread_create (ptr entry args : Z) : M (Mem * Pthreads) Z :=
  s ← get;
  m ← lift (store_i32 (s.1) (u32 ptr) ptr);
  put (m, s.2) ;;
  zoom snd (λ p s, (s.1, p)) (queuePthreadCall (mkPthreadCall ptr entry args)) ;;
  mret 0.

(** [pthread_join]: the result goes where [resPtrPtr] points. *)
Definition pthread_join (appid ptr resPtrPtr : Z) : M (Mem * Pthreads) Z :=
  returnValue ← zoom snd (λ p s, (s.1, p)) (awaitPthreadCall appid ptr);
  s ← get;
  m ← lift (store_i32 (s.1) (u32 resPtrPtr) returnValue);
  put (m, s.2) ;;
  mret 0.

(** [executePthread]: the argument of the entry function. *)
Definition pthread_arg (m : PthreadMessage) : outcome Z := stoi (pm_inputdata m).

End pthreads.

(** * Joining in any order *)

Section joins.
Context `{PthreadEnv} `{!PthreadEnvLaws}.

Lemma map_calls_lookup ps ids m ptr :
  NoDup (pthreadPtr <$> ps) → length ids = length ps →
  (∀ p, p ∈ ps → m !! pthreadPtr p = None) →
  map_calls ps ids m !! ptr =
    match (list_find (λ p, pthreadPtr p = ptr) ps) with
    | Some (i, _) => ids !! i
    | None => m !! ptr
    end.
Proof.
  revert ids m. induction ps as [|p ps IH]; intros ids m Hnd Hlen Hm; [done|].
  destruct ids as [|id ids]; [done|]. cbn [fmap list_fmap] in Hnd.
  apply NoDup_cons in Hnd as [Hp Hnd]. cbn [map_calls list_find].
  unfold map_insert_new. rewrite Hm by left.
  rewrite IH; [|done|cbn in Hlen; lia|].
  2: { intros p' Hp'. rewrite lookup_insert_ne; [apply Hm; by right|].
       intros Heq. apply Hp. rewrite Heq. by apply list_elem_of_fmap_2. }
  destruct (decide (pthreadPtr p = ptr)) as [<-|Hne].
  - destruct (list_find _ ps) as [[i q]|] eqn:Hf.
    + apply list_find_Some in Hf as (Hq & Heq & _). destruct Hp.
      rewrite <- Heq. apply list_elem_of_fmap_2. by eapply list_elem_of_lookup_2.
    + cbn. by rewrite lookup_insert_eq.
  - destruct (list_find _ ps) as [[i q]|] eqn:Hf; cbn; [done|].
    by rewrite lookup_insert_ne.
Qed.
Lemma find_result_in mid rs :
  mid ∈ rs.*1 → ∃ res, find_result mid rs = Some res ∧ (mid, res) ∈ rs.
Proof.
  induction rs as [|[m res] rs IH]; cbn; intros Hin; [by apply elem_of_nil in Hin|].
  destruct (Z.eqb_spec mid m) as [->|Hne]; [exists res; split; [done|left]|].
  apply elem_of_cons in Hin as [?|Hin]; [done|].
  destruct (IH Hin) as (r & Hr & Hm). exists r. split; [done|by right].
Qed.

Lemma pthread_messages_ids appid i ps ids :
  length ids = length ps → pm_id <$> pthread_messages appid i ps ids = ids.
Proof.
  revert i ids. induction ps as [|p ps IH]; intros i [|id ids] Hlen; try done.
  cbn. by rewrite IH by (cbn in Hlen; lia).
Qed.

(** One join once the queue is empty. *)
Lemma await_joined appid ptr id res m rs b :
  m !! ptr = Some id → find_result id rs = Some res →
  awaitPthreadCall appid ptr (mkPthreads [] m rs b) =
    (Ret res, mkPthreads [] (delete ptr m) (if decide (delete ptr m = ∅) then [] else rs) b).
Proof.
  intros Hm Hr. unfold awaitPthreadCall, run_queue.
  rewrite run_bind. unfold get at 1. rewrite run_bind. cbn [queuedPthreadCalls].
  unfold mret, M_ret, get, put, mbind, M_bind. cbn [queuedPthreadCalls pthreadPtrsToChainedCalls
    lastPthreadResults batches]. rewrite Hm.
  change (default 0 (Some id)) with id. by rewrite Hr.
Qed.

Lemma await_drain appid (f : Z → Z) order m rs b :
  NoDup order → (∀ ptr, is_Some (m !! ptr) ↔ ptr ∈ order) →
  (∀ ptr id, m !! ptr = Some id → find_result id rs = Some (f ptr)) →
  map_each order (awaitPthreadCall appid) (mkPthreads [] m rs b) =
    (Ret (f <$> order), mkPthreads [] ∅ (if decide (order = []) then rs else []) b).
Proof.
  revert m rs. induction order as [|ptr order IH]; intros m rs Hnd Hdom Hf.
  { cbn. do 2 f_equal. apply map_empty. intros i. apply eq_None_not_Some.
    rewrite Hdom. apply not_elem_of_nil. }
  apply NoDup_cons in Hnd as [Hptr Hnd].
  destruct (proj2 (Hdom ptr)) as [id Hid]; [left|].
  cbn [map_each]. rewrite run_bind, (await_joined _ _ _ (f ptr)) by eauto. rewrite run_bind.
  destruct (decide (delete ptr m = ∅)) as [He|He].
  - assert (order = []) as ->.
    { destruct order as [|q order]; [done|]. exfalso.
      destruct (proj2 (Hdom q)) as [idq Hq]; [by right; left|].
      assert (q ≠ ptr) by (intros ->; apply Hptr; left).
      assert (delete ptr m !! q = Some idq) as Hq' by (by rewrite lookup_delete_ne).
      by rewrite He, lookup_empty in Hq'. }
    cbn. by rewrite He.
  - rewrite IH; [|done|..].
    + rewrite (decide_False (P := ptr :: order = [])) by done.
      destruct (decide (order = [])) as [->|Hne]; [|done]. exfalso. apply He.
      apply map_empty. intros i. destruct (decide (i = ptr)) as [->|Hi]; [apply lookup_delete_eq|].
      rewrite lookup_delete_ne by done. apply eq_None_not_Some. rewrite Hdom.
      by intros [->|?%elem_of_nil]%elem_of_cons.
    + intros q. destruct (decide (q = ptr)) as [->|Hq].
      * rewrite lookup_delete_eq. split; [by intros []|done].
      * rewrite lookup_delete_ne by done. rewrite Hdom, elem_of_cons. split; [by intros [->|?]|by right].
    + intros q idq Hq. apply lookup_delete_Some in Hq as [_ Hq]. eauto.
Qed.

(** The first join runs the whole queue before it reads its result. *)
Lemma await_runs_queue appid ptr s :
  queuedPthreadCalls s ≠ [] →
  awaitPthreadCall appid ptr s =
    awaitPthreadCall appid ptr
      (mkPthreads [] (map_calls (queuedPthreadCalls s)
           (message_ids (batches s) (length (queuedPthreadCalls s))) (pthreadPtrsToChainedCalls s))
         (executePthreads (pthread_messages appid 0 (queuedPthreadCalls s)
           (message_ids (batches s) (length (queuedPthreadCalls s))))) (S (batches s))).
Proof.
  intros Hq. unfold awaitPthreadCall at 1, run_queue at 1. destruct s as [q m rs b].
  cbn in Hq. destruct q as [|p q]; [done|]. reflexivity.
Qed.

(** The result the [i]-th thread's message got, by the thread's pointer. *)
Definition ptr_result (ps : list PthreadCall) (ids : list Z) (rs : list (Z * Z)) (ptr : Z) : Z :=
  match list_find (λ p, pthreadPtr p = ptr) ps with
  | Some (i, _) => default 0 (ids !! i ≫= λ id, find_result id rs)
  | None => 0
  end.

Lemma pthread_messages_lookup appid k ps ids i p id :
  ps !! i = Some p → ids !! i = Some id →
  pthread_messages appid k ps ids !! i = Some (pthread_message appid (k + i) p id).
Proof.
  revert k ids i. induction ps as [|p' ps IH]; intros k [|id' ids] [|i] Hp Hid; try done.
  - cbn in *. simplify_eq. by rewrite Nat.add_0_r.
  - trans (Some (pthread_message appid (S k + i) p id)); [by apply IH|].
    do 2 f_equal; lia.
Qed.

Definition thread_result (ps : list PthreadCall) (ids : list Z) (rs : list (Z * Z)) (ptr : Z) : Prop :=
  ∃ i p id res, list_find (λ p, pthreadPtr p = ptr) ps = Some (i, p) ∧
    ps !! i = Some p ∧ pthreadPtr p = ptr ∧ ids !! i = Some id ∧
    find_result id rs = Some res ∧ (id, res) ∈ rs.

Lemma thread_result_exists appid ps ids ptr :
  length ids = length ps → ptr ∈ pthreadPtr <$> ps →
  thread_result ps ids (executePthreads (pthread_messages appid 0 ps ids)) ptr.
Proof.
  intros Hlen Hptr. apply list_elem_of_fmap in Hptr as (p & -> & Hp).
  destruct (list_find_elem_of (λ p', pthreadPtr p' = pthreadPtr p) ps p Hp eq_refl) as [[i q] Hf].
  pose proof Hf as (Hi & Heq & _)%list_find_Some.
  destruct (lookup_lt_is_Some_2 ids i) as [id Hid]; [rewrite Hlen; by eapply lookup_lt_Some|].
  destruct (find_result_in id (executePthreads (pthread_messages appid 0 ps ids)))
    as (res & Hr & Hin); [|by exists i, q, id, res].
  rewrite results_ids, pthread_messages_ids by done. by eapply list_elem_of_lookup_2.
Qed.

(** Threads created with distinct pointers and then joined once each, in any
    order, give every join the result of the thread it names, and leave the
    module as before the first creation, with no pending call, mapping or
    result. *)
Theorem pthread_joins_any_order appid s order :
  queuedPthreadCalls s ≠ [] → NoDup (pthreadPtr <$> queuedPthreadCalls s) →
  pthreadPtrsToChainedCalls s = ∅ → order ≡ₚ (pthreadPtr <$> queuedPthreadCalls s) →
  let ps := queuedPthreadCalls s in
  let ms := pthread_messages appid 0 ps (message_ids (batches s) (length ps)) in
  ∃ results,
    map_each order (awaitPthreadCall appid) s =
      (Ret results, mkPthreads [] ∅ [] (S (batches s))) ∧
    Forall2 (λ ptr res, ∃ i p m, ps !! i = Some p ∧ pthreadPtr p = ptr ∧
               ms !! i = Some m ∧ (pm_id m, res) ∈ executePthreads ms) order results.
Proof.
  intros Hq Hnd Hempty Hperm ps ms. set (ids := message_ids (batches s) (length ps)) in *.
  assert (length ids = length ps) as Hlen by apply ids_length.
  set (rs := executePthreads ms). set (m := map_calls ps ids ∅).
  assert (∀ ptr, m !! ptr = list_find (λ p, pthreadPtr p = ptr) ps ≫= λ '(i, _), ids !! i) as Hm.
  { intros ptr. unfold m. rewrite map_calls_lookup by done.
    by destruct (list_find _ ps) as [[i q]|]. }
  assert (∀ ptr, ptr ∈ order → thread_result ps ids rs ptr) as Hfind
    by (intros ptr Hptr; rewrite Hperm in Hptr; by apply thread_result_exists).
  exists (ptr_result ps ids rs <$> order). split.
  - trans (map_each order (awaitPthreadCall appid) (mkPthreads [] m rs (S (batches s)))).
    { destruct order as [|ptr order].
      { apply Permutation_nil_l in Hperm. by destruct (queuedPthreadCalls s). }
      cbn [map_each]. rewrite !run_bind, await_runs_queue by done. rewrite Hempty. done. }
    rewrite (await_drain _ (ptr_result ps ids rs)).
    + rewrite decide_False; [done|]. intros ->. apply Permutation_nil_l in Hperm.
      by destruct (queuedPthreadCalls s).
    + by rewrite Hperm.
    + intros ptr. rewrite Hm. split.
      * intros [id Hid]. destruct (list_find _ ps) as [[i p]|] eqn:Hf; [|done].
        apply list_find_Some in Hf as (Hi & <- & _). rewrite Hperm.
        by eapply list_elem_of_fmap_2, list_elem_of_lookup_2.
      * intros Hptr. destruct (Hfind ptr Hptr) as (i & p & id & res & -> & _ & _ & Hid & _).
        cbn. by rewrite Hid.
    + intros ptr id. rewrite Hm. intros Hid.
      destruct (list_find _ ps) as [[i p]|] eqn:Hf; [|done]. cbn in Hid.
      pose proof Hf as (Hi & <- & _)%list_find_Some.
      destruct (Hfind (pthreadPtr p)) as (i' & p' & id' & res & Hf' & _ & _ & Hid' & Hr & _);
        [rewrite Hperm; by eapply list_elem_of_fmap_2, list_elem_of_lookup_2|].
      rewrite Hf in Hf'. simplify_eq. unfold ptr_result. rewrite Hf. cbn.
      rewrite Hid. cbn. by rewrite Hr.
  - apply Forall2_fmap_r, Forall_Forall2_diag, Forall_forall. intros ptr Hptr.
    destruct (Hfind ptr Hptr) as (i & p & id & res & Hf & Hp & Heq & Hid & Hr & Hin).
    exists i, p, (pthread_message appid i p id). split; [done|]. split; [done|].
    split; [by apply (pthread_messages_lookup appid 0)|].
    unfold ptr_result. rewrite Hf, Hid. cbn. by rewrite Hr.
Qed.
(** Each thread starts with the argument its creation was given, which crosses
    to it as text in the message's input data. *)
Lemma pthread_arg_message appid i p id :
  in_s 32 (argsPtr p) → pthread_arg (pthread_message appid i p id) = Ret (argsPtr p).
Proof. apply stoi_to_string. Qed.

End joins.

(** A concrete environment: batch [b] has the ids from [10 * b + 11] on, and a
    thread returns the text of its argument's length plus its index. *)
#[export] Instance demo_pthread_env : PthreadEnv := {
  message_ids b n := (λ i, 10 * Z.of_nat b + 11 + Z.of_nat i) <$> seq 0 n;
  executePthreads ms := (λ m, (pm_id m, str_size (pm_inputdata m) + pm_appidx m)) <$> ms }.

#[export] Instance demo_pthread_laws : PthreadEnvLaws.
Proof.
  split.
  - intros b n. cbn. by rewrite length_fmap, length_seq.
  - intros b n. cbn. apply (NoDup_fmap_2_strong _).
    + intros i j _ _ H. lia.
    + apply NoDup_seq.
  - intros ms. cbn. rewrite <- list_fmap_compose. done.
Qed.

Definition demo_queue : Pthreads :=
  mkPthreads [mkPthreadCall 100 5 64; mkPthreadCall 200 6 1024] ∅ [] 0.

Lemma pthread_joins_any_order_witness :
  [200; 100] ≡ₚ (pthreadPtr <$> queuedPthreadCalls demo_queue) ∧
  ∃ results,
    map_each [200; 100] (awaitPthreadCall 3) demo_queue = (Ret results, mkPthreads [] ∅ [] 1).
Proof.
  assert ([200; 100] ≡ₚ (pthreadPtr <$> queuedPthreadCalls demo_queue)) as Hp by (cbn; constructor).
  split; [exact Hp|].
  destruct (pthread_joins_any_order 3 demo_queue [200; 100]) as (rs & Hrs & _);
    [done|by vm_compute; repeat constructor; rewrite ?elem_of_cons, elem_of_nil; lia|done|exact Hp|].
  by exists rs.
Defined.

(** A join of a pointer no thread was created with throws, and the entry it
    makes keeps the results of the last batch from ever being cleared by the
    joins that follow. *)
Theorem pthread_join_unknown `{PthreadEnv} appid ptr m rs b :
  m !! ptr = None → find_result 0 rs = None →
  awaitPthreadCall appid ptr (mkPthreads [] m rs b) =
    (Throw (RuntimeError "Result not found for pthread"), mkPthreads [] (<[ptr := 0]> m) rs b) ∧
  ∀ q id res, q ≠ ptr → m !! q = Some id → find_result id rs = Some res →
    lastPthreadResults (awaitPthreadCall appid q (mkPthreads [] (<[ptr := 0]> m) rs b)).2 = rs.
Proof.
  intros Hm Hr. split.
  - unfold awaitPthreadCall, run_queue, get, put, throw, mret, M_ret, mbind, M_bind.
    cbn [queuedPthreadCalls pthreadPtrsToChainedCalls lastPthreadResults batches].
    rewrite Hm. change (default 0 None) with 0. unfold map_insert_new. by rewrite Hr, Hm.
  - intros q id res Hq Hmq Hrq.
    rewrite (await_joined appid q id res) by (rewrite ?lookup_insert_ne; done).
    cbn [snd lastPthreadResults]. apply decide_False. intros He.
    assert (delete q (<[ptr := 0]> m) !! ptr = Some 0) as Hk
      by (rewrite lookup_delete_ne, lookup_insert_eq; done).
    by rewrite He, lookup_empty in Hk.
Qed.

Lemma pthread_join_unknown_witness :
  let m : gmap Z Z := {[100 := 11]} in
  lastPthreadResults (@awaitPthreadCall demo_pthread_env 3 100
    (mkPthreads [] (<[200 := 0]> m) [(11, 7)] 1)).2 = [(11, 7)].
Proof.
  intros m. destruct (@pthread_join_unknown demo_pthread_env 3 200 m [(11, 7)] 1) as [_ Hj];
    [by vm_compute|done|].
  apply (Hj 100 11 7); [lia|by vm_compute|done].
Defined.

(** * Mutexes *)

(** The lock table: the [std::mutex] objects by id, the next object, and which
    thread holds each. *)
Record Locks := mkLocks {
  pthreadLocks : gmap Z nat; next_mutex : nat; holders : gmap nat Z }.

Definition EBUSY : Z := 16.

(** [getPthreadMutex] *)
Definition getPthreadMutex (id : Z) : M Locks nat :=
  s ← get;
  match pthreadLocks s !! id with
  | Some mx => mret mx
  | None => throw (RuntimeError "Non-existent pthread lock")
  end.

(** [getOrCreatePthreadMutex]: a lookup under the shared lock, and when it
    fails a second lookup and the creation under the full lock. *)
Definition find_shared (id : Z) (s : Locks) : option nat := pthreadLocks s !! id.
Definition create_full (id : Z) : M Locks nat :=
  s ← get;
  match pthreadLocks s !! id with
  | Some mx => mret mx
  | None =>
      put (mkLocks (<[id := next_mutex s]> (pthreadLocks s)) (S (next_mutex s)) (holders s)) ;;
      mret (next_mutex s)
  end.
Definition getOrCreatePthreadMutex (id : Z) : M Locks nat :=
  s ← get;
  match find_shared id s with
  | Some mx => mret mx
  | None => create_full id
  end.

(** [std::mutex]: taking a held mutex waits ([None]). *)
Definition mutex_take (t : Z) (mx : nat) (s : Locks) : option Locks :=
  match holders s !! mx with
  | Some _ => None
  | None => Some (mkLocks (pthreadLocks s) (next_mutex s) (<[mx := t]> (holders s)))
  end.

Definition pthread_mutex_lock (t id : Z) (s : Locks) : option (outcome Z * Locks) :=
  match getOrCreatePthreadMutex id s with
  | (Ret mx, s') => (λ s'', (Ret 0, s'')) <$> mutex_take t mx s'
  | (Throw e, s') => Some (Throw e, s')
  end.

Definition pthread_mutex_trylock (t id : Z) : M Locks Z :=
  mx ← getOrCreatePthreadMutex id;
  s ← get;
  match mutex_take t mx s with
  | Some s' => put s' ;; mret 0
  | None => mret EBUSY
  end.

Definition pthread_mutex_unlock (id : Z) : M Locks Z :=
  mx ← getPthreadMutex id;
  modify (λ s, mkLocks (pthreadLocks s) (next_mutex s) (delete mx (holders s))) ;;
  mret 0.

(** ** Threads racing to create a mutex

    Each call is two critical sections, between which other threads run. *)

Inductive call_phase : Type :=
  | Missed (id : Z)              (** the shared lookup found nothing *)
  | Has (id : Z) (mx : nat).     (** the call returned [mx] *)

Record RaceState := mkRace { race_locks : Locks; phases : gmap Z call_phase }.

Inductive race_step : RaceState → RaceState → Prop :=
  | race_find t id l ph :
      race_step (mkRace l ph)
        (mkRace l (<[t := match find_shared id l with
                          | Some mx => Has id mx
                          | None => Missed id
                          end]> ph))
  | race_create t id l ph mx l' :
      ph !! t = Some (Missed id) → create_full id l = (Ret mx, l') →
      race_step (mkRace l ph) (mkRace l' (<[t := Has id mx]> ph)).

Definition race_init : RaceState := mkRace (mkLocks ∅ 0 ∅) ∅.

(** A call that returned gave the table's mutex; the table's mutexes are
    distinct objects already made. *)
Record race_inv (s : RaceState) : Prop := {
  inv_has : ∀ t id mx, phases s !! t = Some (Has id mx) → pthreadLocks (race_locks s) !! id = Some mx;
  inv_made : ∀ id mx, pthreadLocks (race_locks s) !! id = Some mx → (mx < next_mutex (race_locks s))%nat;
  inv_distinct : ∀ id id' mx, pthreadLocks (race_locks s) !! id = Some mx →
    pthreadLocks (race_locks s) !! id' = Some mx → id = id' }.

Lemma race_step_inv s s' : race_step s s' → race_inv s → race_inv s'.
Proof.
  intros Hstep [Hhas Hmade Hdist]. destruct Hstep as [t id l ph|t id l ph mx l' Hph Hc];
    cbn [phases race_locks] in *.
  - split; cbn [phases race_locks]; try done.
    intros t' id' mx [[-> Heq]|[Hne Heq]]%lookup_insert_Some; [|by eapply Hhas].
    destruct (find_shared id l) eqn:Hf; [|done]. by injection Heq as <- <-.
  - unfold create_full, get, put, mret, M_ret, mbind, M_bind in Hc.
    destruct (pthreadLocks l !! id) as [mx'|] eqn:Hl.
    + injection Hc as <- <-. split; cbn [phases race_locks]; try done.
      intros t' id' mx [[-> Heq]|[Hne Heq]]%lookup_insert_Some; [|by eapply Hhas].
      by injection Heq as <- <-.
    + injection Hc as <- <-. split; cbn [phases race_locks pthreadLocks next_mutex].
      * intros t' id' mx [[-> Heq]|[Hne Heq]]%lookup_insert_Some.
        { injection Heq as <- <-. by rewrite lookup_insert_eq. }
        rewrite lookup_insert_ne; [by eapply Hhas|]. intros ->.
        by rewrite (Hhas _ _ _ Heq) in Hl.
      * intros id' mx [[-> <-]|[Hne Heq]]%lookup_insert_Some; [lia|].
        specialize (Hmade _ _ Heq). lia.
      * intros i1 i2 mx [[<- <-]|[H1 E1]]%lookup_insert_Some [[<- Heq]|[H2 E2]]%lookup_insert_Some;
          try done; try (by specialize (Hmade _ _ E2); lia).
        { subst mx. specialize (Hmade _ _ E1). lia. }
        by eapply Hdist.
Qed.

(** C40: However the threads interleave, two calls for one id return the same mutex
    object and two calls for different ids different ones: the check under the
    full lock repeats the one under the shared lock. *)
Theorem getOrCreatePthreadMutex_unique s t t' id id' mx mx' :
  rtc race_step race_init s →
  phases s !! t = Some (Has id mx) → phases s !! t' = Some (Has id' mx') →
  (id = id' ↔ mx = mx').
Proof.
  intros Hreach Ht Ht'. assert (race_inv s) as [Hhas _ Hdist].
  { assert (race_inv race_init) as Hinit by (split; done).
    revert Hinit. induction Hreach as [|s0 s1 s2 Hstep _ IH]; [done|].
    intros Hi. apply IH; [done|done|]. by eapply race_step_inv. }
  apply Hhas in Ht, Ht'. split; [|intros ->; by eapply Hdist].
  intros ->. rewrite Ht in Ht'. by injection Ht'.
Qed.

Lemma getOrCreatePthreadMutex_unique_witness :
  let s := mkRace (mkLocks {[5 := 0%nat]} 1 ∅) {[1 := Has 5 0; 2 := Has 5 0]} in
  rtc race_step race_init s ∧ (5 = 5 ↔ 0%nat = 0%nat).
Proof.
  intros s. assert (rtc race_step race_init s) as Hr.
  { eapply rtc_l; [apply (race_find 1 5)|]. eapply rtc_l; [apply (race_find 2 5)|].
    eapply rtc_l; [apply (race_create 1 5); reflexivity|].
    eapply rtc_l; [apply (race_create 2 5); reflexivity|].
    exact (eq_ind _ (λ x, rtc race_step x s) (rtc_refl _ _) _ eq_refl). }
  split; [exact Hr|]. by apply (getOrCreatePthreadMutex_unique s 1 2 5 5 0 0 Hr).
Defined.

(** * Futexes *)

Definition FUTEX_WAIT : Z := 0.
Definition FUTEX_WAKE : Z := 1.
Definition FUTEX_WAIT_PRIVATE : Z := 128.
Definition FUTEX_WAKE_PRIVATE : Z := 129.

(** [s__futex]: the copy of [newVal] runs over [sizeof(I32)] integers, so that
    [host_stack], the twelve bytes that follow the local variable on the host's
    stack, go to memory after the new value. *)
Definition s__futex (host_stack : list Z) (uaddrPtr futex_op val : Z) : M Mem Z :=
  m ← get;
  actualVal ← lift (load_i32 m (u32 uaddrPtr));
  if (futex_op =? FUTEX_WAIT) || (futex_op =? FUTEX_WAIT_PRIVATE) then
    let newVal := i32 (actualVal + 1) in
    m' ← lift (mem_write m (u32 uaddrPtr) (le32 newVal ++ host_stack));
    put m' ;; mret 0
  else if (futex_op =? FUTEX_WAKE) || (futex_op =? FUTEX_WAKE_PRIVATE) then mret val
  else throw (RuntimeError "Unuspported futex syscall").

(** A futex wait changes more than the futex: the three words that follow it
    in wasm memory are overwritten by bytes of the host's stack. *)
Theorem futex_wait_overwrites host_stack m a val :
  length host_stack = 12%nat → 0 ≤ a → a + 16 ≤ mem_size m → a < 2 ^ 32 →
  ∃ v m', load_i32 m a = Ret v ∧
    s__futex host_stack a FUTEX_WAIT val m = (Ret 0, m') ∧
    mem_read m' (a + 4) 12 = Ret host_stack ∧
    ∀ i : nat, Z.of_nat i < a ∨ a + 16 ≤ Z.of_nat i → m' !! i = m !! i.
Proof.
  intros Hh Ha Hsz Ha32.
  assert (mem_read m a 4 = Ret (take (Z.to_nat 4) (drop (Z.to_nat a) m))) as Hread
    by (unfold mem_read; by rewrite (proj2 (in_mem_true m a 4)) by lia).
  assert (∃ v, load_i32 m a = Ret v) as [v Hv] by (unfold load_i32; rewrite Hread; by eexists).
  assert (Z.of_nat (length (le32 (i32 (v + 1)) ++ host_stack)) = 16) as Hlen
    by (rewrite length_app, length_le32, Hh; done).
  pose proof (mem_write_ret m a (le32 (i32 (v + 1)) ++ host_stack) Ha ltac:(lia)) as Hw.
  set (m' := take _ _ ++ _) in Hw.
  exists v, m'. split; [done|]. split.
  { unfold s__futex, get, lift, put, mret, M_ret, mbind, M_bind.
    rewrite wrapU_id by (unfold in_u; lia). rewrite Hv. cbn [orb FUTEX_WAIT Z.eqb].
    by rewrite Hw. }
  split.
  - apply mem_read_write in Hw as Hr. rewrite Hlen in Hr.
    pose proof (mem_write_size _ _ _ _ Hw) as Hs'.
    unfold mem_read in *. rewrite (proj2 (in_mem_true m' a 16)) in Hr by lia.
    rewrite (proj2 (in_mem_true m' (a + 4) 12)) by lia. f_equal. apply (inj Ret) in Hr.
    rewrite <- (drop_app_length' (le32 (i32 (v + 1))) host_stack 4) by done.
    rewrite <- Hr, skipn_firstn_comm, drop_drop. do 2 f_equal; lia.
  - intros i Hi. apply (mem_write_lookup_out _ _ _ _ _ Hw). lia.
Qed.

Lemma futex_wait_overwrites_witness :
  let m := replicate 32 0 in
  ∃ v m', load_i32 m 8 = Ret v ∧
    s__futex (replicate 12 170) 8 FUTEX_WAIT 0 m = (Ret 0, m') ∧
    mem_read m' (8 + 4) 12 = Ret (replicate 12 170) ∧
    ∀ i : nat, Z.of_nat i < 8 ∨ 8 + 16 ≤ Z.of_nat i → m' !! i = m !! i.
Proof. apply futex_wait_overwrites; [reflexivity|lia|vm_compute; congruence|lia]. Defined.
