(* ===== verification/S3.v ===== *)
(** The object store behind files, function code and state
    (src/storage/S3Wrapper.cpp): connections to pools, and keys written,
    appended to, read whole or in part, listed and deleted.  The Rados cluster
    is a parameter. *)

From Stdlib Require Import Ascii.
From S2P Require Import Prelude WasmBytes.

Definition SIZE_MAX : Z := 2 ^ 64 - 1.

(** librados: each call gives a result, negative for an error number, on the
    state [R] of the cluster; pools and keys are named by strings. *)
Class Rados := {
  R : Type;
  rados_pool_lookup : string → R → Z;
  rados_ioctx_create : string → R → Z;
  rados_pool_create : string → R → Z * R;
  rados_pool_delete : string → R → Z * R;
  rados_pool_list : R → list string;
  rados_stat : string → string → R → Z * Z;                 (** error, size *)
  rados_read : string → string → Z → Z → R → Z * list Z;    (** length, offset *)
  rados_write_full : string → string → list Z → R → Z * R;
  rados_append : string → string → list Z → R → Z * R;
  rados_remove : string → string → R → Z * R;
  rados_list : string → R → Z * list string;
  (** what the specification of the calls talks about: an object's content *)
  rados_obj : string → string → R → option (list Z) }.

(** The documented behaviour the code relies on. *)
Class RadosLaws `{Rados} : Prop := {
  stat_obj : ∀ p k r, rados_stat p k r =
    match rados_obj p k r with
    | Some b => (0, Z.of_nat (length b))
    | None => (- ENOENT, 0)
    end;
  read_obj : ∀ p k n off r b, rados_obj p k r = Some b → 0 ≤ off → 0 ≤ n →
    rados_read p k n off r =
      (Z.of_nat (length (take (Z.to_nat n) (drop (Z.to_nat off) b))),
       take (Z.to_nat n) (drop (Z.to_nat off) b));
  write_obj : ∀ p k b r e r', rados_write_full p k b r = (e, r') → 0 ≤ e →
    rados_obj p k r' = Some b;
  write_other : ∀ p k b r e r' p' k', rados_write_full p k b r = (e, r') →
    (p, k) ≠ (p', k') → rados_obj p' k' r' = rados_obj p' k' r;
  create_other : ∀ p r e r' p' k', rados_pool_create p r = (e, r') →
    rados_obj p' k' r' = rados_obj p' k' r;
  remove_obj : ∀ p k r e r', rados_remove p k r = (e, r') → 0 ≤ e ∨ e = - ENOENT →
    rados_obj p k r' = None }.

(** [RadosState::pools]: a connected pool, or the null pointer; and the
    cluster. *)
Record S3State `{Rados} := mkS3 { pools : gmap string bool; cluster : R }.

Arguments mkS3 {_} _ _.

Section s3.
Context `{Rados}.

Definition null_pool : exn := Undefined "null pool".

(** [RadosState::getPool]: the entry is made before the pool is opened, and
    opening may throw.  The result tells whether the pointer is non-null. *)
Definition getPool (name : string) : M S3State bool :=
  s ← get;
  match pools s !! name with
  | Some open => mret open
  | None =>
      put (mkS3 (<[name := false]> (pools s)) (cluster s)) ;;
      if rados_ioctx_create name (cluster s) <? 0
      then throw (ThrownPointer "Couldn't open rados pool")
      else put (mkS3 (<[name := true]> (pools s)) (cluster s)) ;; mret true
  end.

(** [pool->ioctx] *)
Definition ioctx (name : string) : M S3State unit :=
  pool ← getPool name;
  if pool : bool then mret () else throw null_pool.

(** A call on the cluster that changes it. *)
Definition rados_do (f : R → Z * R) : M S3State Z := λ s,
  let '(e, r) := f (cluster s) in (Ret e, mkS3 (pools s) r).

Definition createBucket (bucketName : string) : M S3State unit :=
  err ← rados_do (rados_pool_create bucketName);
  when ((err <? 0) && negb (err =? - EEXIST)) (throw (RuntimeError "Bucket cannot be created.")).

Definition deleteBucket (bucketName : string) : M S3State unit :=
  err ← rados_do (rados_pool_delete bucketName);
  if err <? 0 then
    when (negb (err =? - ENOENT)) (throw (RuntimeError "Bucket cannot be destroyed."))
  else modify (λ s, mkS3 (delete bucketName (pools s)) (cluster s)).

(** [listBuckets]: the loop reads the first name of the buffer only; the name
    has been moved from when the loop's condition looks at it again, which
    leaves it empty. *)
Definition listBuckets (s : S3State) : list string :=
  match rados_pool_list (cluster s) with
  | [] => []
  | name :: _ => if decide (name = "") then [] else [name]
  end.

Definition listKeys (bucketName : string) : M S3State (list string) :=
  ioctx bucketName ;;
  s ← get;
  let '(err, keys) := rados_list bucketName (cluster s) in
  if err <? 0 then
    if err =? - ENOENT then mret [] else throw (RuntimeError "Bucket cannot be listed.")
  else mret keys.

Definition deleteKey (bucketName keyName : string) : M S3State unit :=
  ioctx bucketName ;;
  err ← rados_do (rados_remove bucketName keyName);
  when ((err <? 0) && negb (err =? - ENOENT)) (throw (RuntimeError "Key cannot be deleted.")).

(** Creating the bucket of a key that is about to be written. *)
Definition ensureBucket (bucketName : string) : M S3State unit :=
  s ← get;
  when (rados_pool_lookup bucketName (cluster s) =? - ENOENT) (createBucket bucketName).

Definition addKeyBytes (bucketName keyName : string) (data : list Z) : M S3State unit :=
  ensureBucket bucketName ;;
  ioctx bucketName ;;
  err ← rados_do (rados_write_full bucketName keyName data);
  when (err <? 0) (throw (RuntimeError "Key cannot be written.")).

Definition appendKeyBytes (bucketName keyName : string) (data : list Z) : M S3State unit :=
  ensureBucket bucketName ;;
  ioctx bucketName ;;
  err ← rados_do (rados_append bucketName keyName data);
  when (err <? 0) (throw (RuntimeError "Key cannot be appended to.")).

Definition addKeyStr (bucketName keyName data : string) : M S3State unit :=
  ioctx bucketName ;;
  err ← rados_do (rados_write_full bucketName keyName (bytes_of_string data));
  when (err <? 0) (throw (RuntimeError "Key cannot be written.")).

Definition getKeyBytes (bucketName keyName : string) (tolerateMissing : bool)
    : M S3State (list Z) :=
  ioctx bucketName ;;
  s ← get;
  let '(err, oSize) := rados_stat bucketName keyName (cluster s) in
  if err <? 0 then
    if (err =? - ENOENT) && tolerateMissing then mret []
    else throw (RuntimeError "Key cannot be statted.")
  else
    let oSize := Z.min oSize (SIZE_MAX / 2) in
    let '(n, data) := rados_read bucketName keyName oSize 0 (cluster s) in
    if n <? 0 then throw (RuntimeError "Key cannot be read.")
    else mret (take (Z.to_nat n) data).

(** The two accesses of [getKeyPartIntoBuf]: the size of the slice, and its
    bytes. *)
Definition keyPartSize (bucketName keyName : string) (offset maxLength : Z) : M S3State Z :=
  ioctx bucketName ;;
  s ← get;
  let '(err, oSize) := rados_stat bucketName keyName (cluster s) in
  if err <? 0 then throw (RuntimeError "Key cannot be statted.")
  else
    let oSize := Z.min oSize (SIZE_MAX / 2) in
    mret (Z.max 0 (Z.min (oSize - offset) maxLength)).

Definition readKeyPart (bucketName keyName : string) (oSize offset : Z) : M S3State (list Z) :=
  s ← get;
  let '(n, data) := rados_read bucketName keyName oSize offset (cluster s) in
  if n <? 0 then throw (RuntimeError "Key cannot be read.") else mret data.

(** [getKeyPartIntoBuf]: the bytes read into the caller's buffer, which is given
    the size of the slice before they are read.  The caller's state holds that of
    the client. *)
Definition getKeyPartIntoBuf {T} (getT : T → S3State) (setT : S3State → T → T)
    (setBufferLength : Z → M T unit) (bucketName keyName : string) (offset maxLength : Z)
    : M T (list Z) :=
  oSize ← zoom getT setT (keyPartSize bucketName keyName offset maxLength);
  setBufferLength oSize ;;
  if oSize >? 0 then zoom getT setT (readKeyPart bucketName keyName oSize offset) else mret [].

Definition getKeyStr (bucketName keyName : string) : M S3State string :=
  bytes ← getKeyBytes bucketName keyName false;
  mret (string_of_bytes bytes).

(** * What the operations do once a pool is open *)

Definition connected (bucket : string) (s : S3State) : Prop := pools s !! bucket = Some true.

Lemma ioctx_connected b s : connected b s → ioctx b s = (Ret (), s).
Proof.
  intros Hc. unfold ioctx, getPool, get, mbind, M_bind, mret, M_ret. by rewrite Hc.
Qed.

(** Reaching a pool changes connections only. *)
Lemma ioctx_cluster b s o s' : ioctx b s = (o, s') → cluster s' = cluster s.
Proof.
  unfold ioctx, getPool, get, put, throw, mbind, M_bind, mret, M_ret.
  destruct (pools s !! b) as [[]|]; [by intros [= <- <-]..|].
  by destruct (_ <? 0); intros [= <- <-].
Qed.

Lemma ioctx_ret b s s' : ioctx b s = (Ret (), s') → connected b s'.
Proof.
  unfold ioctx, getPool, get, put, throw, mbind, M_bind, mret, M_ret, connected.
  destruct (pools s !! b) as [[]|] eqn:Hp; [by intros [= <-]..|].
  destruct (_ <? 0); intros [= <-]. cbn. by rewrite lookup_insert_eq.
Qed.

Context `{!RadosLaws}.

Lemma getKeyBytes_run b k t s data :
  connected b s → rados_obj b k (cluster s) = Some data →
  Z.of_nat (length data) ≤ SIZE_MAX / 2 →
  getKeyBytes b k t s = (Ret data, s).
Proof.
  intros Hc Hobj Hlen. unfold getKeyBytes. rewrite run_bind, ioctx_connected by done.
  unfold get, mbind, M_bind. rewrite stat_obj, Hobj. cbn [Z.ltb Z.compare].
  rewrite Z.min_l by done.
  rewrite (read_obj b k _ 0 (cluster s) data) by (done || lia).
  change (Z.to_nat 0) with 0%nat. rewrite drop_0, Nat2Z.id, firstn_all.
  destruct (Z.ltb_spec (Z.of_nat (length data)) 0); [lia|].
  by rewrite Nat2Z.id, firstn_all.
Qed.

Lemma getKeyBytes_missing b k t s :
  connected b s → rados_obj b k (cluster s) = None →
  getKeyBytes b k t s =
    (if t : bool then Ret [] else Throw (RuntimeError "Key cannot be statted."), s).
Proof.
  intros Hc Hobj. unfold getKeyBytes. rewrite run_bind, ioctx_connected by done.
  unfold get, mbind, M_bind. rewrite stat_obj, Hobj. by destruct t.
Qed.

(** Writing a key leaves its pool connected and the bytes in its object. *)
Lemma addKeyBytes_ret b k data s s' :
  addKeyBytes b k data s = (Ret (), s') →
  connected b s' ∧ rados_obj b k (cluster s') = Some data ∧
  ∀ b' k', (b, k) ≠ (b', k') → rados_obj b' k' (cluster s') = rados_obj b' k' (cluster s).
Proof.
  unfold addKeyBytes. intros ([] & s1 & H1 & H2)%run_bind_inv.
  apply run_bind_inv in H2 as ([] & s2 & Hio & H3).
  apply run_bind_inv in H3 as (e & s3 & Hw & Hwhen).
  assert (∀ b' k', rados_obj b' k' (cluster s1) = rados_obj b' k' (cluster s)) as Hs1.
  { unfold ensureBucket in H1. apply run_bind_inv in H1 as (s0 & s0' & [= <- <-] & H1).
    unfold when in H1. destruct (_ =? _); [|by injection H1 as <-].
    unfold createBucket in H1. apply run_bind_inv in H1 as (e' & s4 & Hdo & Hwh).
    unfold rados_do in Hdo. destruct (rados_pool_create b (cluster s)) as [e1 r1] eqn:Hcr.
    injection Hdo as <- <-. unfold when in Hwh.
    destruct (_ && _); [done|]. injection Hwh as <-. intros b' k'. by eapply create_other. }
  unfold rados_do in Hw. destruct (rados_write_full b k data (cluster s2)) as [e1 r1] eqn:Hwr.
  injection Hw as <- <-. unfold when in Hwhen.
  destruct (Z.ltb_spec e1 0); [done|]. injection Hwhen as <-. cbn.
  split; [exact (ioctx_ret b s1 s2 Hio)|].
  apply ioctx_cluster in Hio. split; [by eapply write_obj|].
  intros b' k' Hne. rewrite (write_other _ _ _ _ _ _ _ _ Hwr Hne). by rewrite Hio.
Qed.

Lemma addKeyStr_ret b k data s s' :
  addKeyStr b k data s = (Ret (), s') →
  connected b s' ∧ rados_obj b k (cluster s') = Some (bytes_of_string data) ∧
  ∀ b' k', (b, k) ≠ (b', k') → rados_obj b' k' (cluster s') = rados_obj b' k' (cluster s).
Proof.
  unfold addKeyStr. intros ([] & s1 & Hio & Hd)%run_bind_inv. apply run_bind_inv in Hd as (e & s2 & Hw & Hwhen).
  unfold rados_do in Hw. destruct (rados_write_full b k _ (cluster s1)) as [e1 r1] eqn:Hwr.
  injection Hw as <- <-. unfold when in Hwhen. destruct (Z.ltb_spec e1 0); [done|]. injection Hwhen as <-. cbn.
  split; [exact (ioctx_ret b s s1 Hio)|]. apply ioctx_cluster in Hio. split; [by eapply write_obj|].
  intros b' k' Hne. rewrite (write_other _ _ _ _ _ _ _ _ Hwr Hne). by rewrite Hio.
Qed.

Lemma deleteKey_ret b k s s' :
  deleteKey b k s = (Ret (), s') → rados_obj b k (cluster s') = None.
Proof.
  unfold deleteKey. intros ([] & s1 & _ & Hd)%run_bind_inv.
  apply run_bind_inv in Hd as (e & s2 & Hr & Hw). unfold rados_do in Hr.
  destruct (rados_remove b k (cluster s1)) as [e1 r1] eqn:Hrm. injection Hr as <- <-.
  unfold when in Hw. destruct (Z.ltb_spec e1 0).
  - destruct (Z.eqb_spec e1 (- ENOENT)) as [->|]; [|done].
    injection Hw as <-. cbn. eapply remove_obj; [exact Hrm|by right].
  - injection Hw as <-. cbn. eapply remove_obj; [exact Hrm|by left].
Qed.

Lemma keyPartSize_run b k s data offset maxLength :
  connected b s → rados_obj b k (cluster s) = Some data →
  Z.of_nat (length data) ≤ SIZE_MAX / 2 → 0 ≤ offset →
  keyPartSize b k offset maxLength s =
    (Ret (Z.of_nat (length (take (Z.to_nat maxLength) (drop (Z.to_nat offset) data)))), s).
Proof.
  intros Hc Hobj Hlen Hoff. unfold keyPartSize. rewrite run_bind, ioctx_connected by done.
  unfold get, mbind, M_bind, mret, M_ret. rewrite stat_obj, Hobj. cbn [Z.ltb Z.compare].
  rewrite (Z.min_l (Z.of_nat (length data)) (SIZE_MAX / 2)) by done.
  rewrite length_take, length_drop. do 2 f_equal. lia.
Qed.

Lemma readKeyPart_run b k s data offset maxLength n :
  rados_obj b k (cluster s) = Some data → 0 ≤ offset →
  n = Z.of_nat (length (take (Z.to_nat maxLength) (drop (Z.to_nat offset) data))) →
  readKeyPart b k n offset s = (Ret (take (Z.to_nat maxLength) (drop (Z.to_nat offset) data)), s).
Proof.
  intros Hobj Hoff Hn. unfold readKeyPart, get, mbind, M_bind, mret, M_ret.
  rewrite (read_obj b k n offset (cluster s) data) by (done || lia).
  set (slice := take (Z.to_nat n) (drop (Z.to_nat offset) data)).
  destruct (Z.ltb_spec (Z.of_nat (length slice)) 0); [lia|]. unfold slice. do 2 f_equal.
  rewrite Hn, Nat2Z.id, length_take.
  destruct (decide (Z.to_nat maxLength ≤ length (drop (Z.to_nat offset) data))%nat).
  - f_equal. lia.
  - by rewrite !take_ge by lia.
Qed.

(** The buffer is set to the size of the slice, and the slice is what is
    read. *)
Lemma getKeyPartIntoBuf_run {T} (getT : T → S3State) setT setBufferLength b k (t t' : T) data offset maxLength :
  (∀ u, setT (getT u) u = u) →
  connected b (getT t) → rados_obj b k (cluster (getT t)) = Some data →
  Z.of_nat (length data) ≤ SIZE_MAX / 2 → 0 ≤ offset →
  let slice := take (Z.to_nat maxLength) (drop (Z.to_nat offset) data) in
  setBufferLength (Z.of_nat (length slice)) t = (Ret (), t') → getT t' = getT t →
  getKeyPartIntoBuf getT setT setBufferLength b k offset maxLength t = (Ret slice, t').
Proof.
  intros Hset Hc Hobj Hlen Hoff slice Hbuf Hkeep. unfold getKeyPartIntoBuf.
  assert (zoom getT setT (keyPartSize b k offset maxLength) t = (Ret (Z.of_nat (length slice)), t)) as Hsize.
  { unfold zoom. rewrite (keyPartSize_run b k (getT t) data offset maxLength) by done. by rewrite Hset. }
  rewrite (run_bind_ret _ _ _ _ _ Hsize), (run_bind_ret _ _ _ _ _ Hbuf).
  destruct (Z.gtb_spec (Z.of_nat (length slice)) 0) as [Hn|Hn].
  - unfold zoom. rewrite (readKeyPart_run b k (getT t') data offset maxLength) by (rewrite ?Hkeep; done).
    by rewrite Hset.
  - destruct slice eqn:Hs; [done|cbn in Hn; lia].
Qed.

(** A read of part of a key asks for a buffer of the size of the slice and
    reads the slice, whatever else the state of the caller holds. *)
Theorem getKeyPartIntoBuf_slice {U} b k s (sizes : list Z) (u : U) data offset maxLength :
  connected b s → rados_obj b k (cluster s) = Some data →
  Z.of_nat (length data) ≤ SIZE_MAX / 2 → 0 ≤ offset →
  let slice := take (Z.to_nat maxLength) (drop (Z.to_nat offset) data) in
  getKeyPartIntoBuf (λ t, t.1.1) (λ s' t, (s', t.1.2, t.2)) (λ n, modify (λ t, (t.1.1, t.1.2 ++ [n], t.2)))
      b k offset maxLength (s, sizes, u) =
    (Ret slice, (s, sizes ++ [Z.of_nat (length slice)], u)).
Proof.
  intros Hc Hobj Hlen Hoff slice. apply getKeyPartIntoBuf_run with (data := data); try done.
  by intros [[s0 sizes0] u0].
Qed.

(** The first use of a bucket that does not exist throws, and leaves a null
    connection behind: once the bucket is made, using it is undefined. *)
Theorem getPool_null_after_error b k t s s' :
  pools s !! b = None → rados_ioctx_create b (cluster s) < 0 → pools s' = pools (getKeyBytes b k t s).2 →
  (getKeyBytes b k t s).1 = Throw (ThrownPointer "Couldn't open rados pool") ∧
  (getKeyBytes b k t s').1 = Throw null_pool.
Proof.
  intros Hb He Hs'. assert (getKeyBytes b k t s =
    (Throw (ThrownPointer "Couldn't open rados pool"), mkS3 (<[b := false]> (pools s)) (cluster s))) as Hrun.
  { unfold getKeyBytes, ioctx, getPool, get, put, throw, mbind, M_bind. rewrite Hb.
    by destruct (Z.ltb_spec (rados_ioctx_create b (cluster s)) 0); [|lia]. }
  rewrite Hrun in *. split; [done|]. cbn in Hs'.
  unfold getKeyBytes, ioctx, getPool, get, throw, mbind, M_bind, mret, M_ret.
  by rewrite Hs', lookup_insert_eq.
Qed.

(** Of all the buckets at most one is ever listed. *)
Theorem listBuckets_first_only s : (length (listBuckets s) ≤ 1)%nat.
Proof.
  unfold listBuckets. destruct (rados_pool_list _) as [|name l]; [cbn; lia|].
  destruct (decide _); cbn; lia.
Qed.
End s3.

(** * A concrete cluster *)

#[export] Instance demo_rados : Rados := {
  R := gmap (string * string) (list Z) * gset string;
  rados_pool_lookup p r := if decide (p ∈ r.2) then 0 else - ENOENT;
  rados_ioctx_create p r := if decide (p ∈ r.2) then 0 else - ENOENT;
  rados_pool_create p r := if decide (p ∈ r.2) then (- EEXIST, r) else (0, (r.1, {[p]} ∪ r.2));
  rados_pool_delete p r := if decide (p ∈ r.2) then (0, (r.1, r.2 ∖ {[p]})) else (- ENOENT, r);
  rados_pool_list r := elements r.2;
  rados_stat p k r := match r.1 !! (p, k) with Some b => (0, Z.of_nat (length b)) | None => (- ENOENT, 0) end;
  rados_read p k n off r :=
    match r.1 !! (p, k) with
    | Some b => let d := take (Z.to_nat n) (drop (Z.to_nat off) b) in (Z.of_nat (length d), d)
    | None => (- ENOENT, [])
    end;
  rados_write_full p k b r := (0, (<[(p, k) := b]> r.1, r.2));
  rados_append p k b r := (0, (<[(p, k) := default [] (r.1 !! (p, k)) ++ b]> r.1, r.2));
  rados_remove p k r := match r.1 !! (p, k) with Some _ => (0, (delete (p, k) r.1, r.2)) | None => (- ENOENT, r) end;
  rados_list p r := (0, (filter (λ kb, kb.1.1 = p) (map_to_list r.1)).*1.*2);
  rados_obj p k r := r.1 !! (p, k) }.

#[export] Instance demo_rados_laws : RadosLaws.
Proof.
  split; cbn.
  - done.
  - intros p k n off r b Hb _ _. by rewrite Hb.
  - intros p k b r e r' [= <- <-] _. cbn. by rewrite lookup_insert_eq.
  - intros p k b r e r' p' k' [= <- <-] Hne. cbn. by rewrite lookup_insert_ne.
  - intros p r e r' p' k'. by destruct (decide _); intros [= <- <-].
  - intros p k r e r'. destruct (r.1 !! (p, k)) eqn:Hk; intros [= <- <-] _; cbn; [apply lookup_delete_eq|done].
Qed.

Definition demo_s3 : S3State := mkS3 {["faasm" := true]} ({[("faasm", "u/f/function.wasm") := [0; 97; 115; 109]]}, {["faasm"]}).

Lemma getKeyPartIntoBuf_slice_witness :
  getKeyPartIntoBuf (λ t, t.1.1) (λ s' t, (s', t.1.2, t.2)) (λ n, modify (λ t, (t.1.1, t.1.2 ++ [n], t.2)))
      "faasm" "u/f/function.wasm" 1 2 (demo_s3, [], tt) =
    (Ret [97; 115], (demo_s3, [2], tt)).
Proof.
  apply (getKeyPartIntoBuf_slice "faasm" "u/f/function.wasm" demo_s3 [] tt [0; 97; 115; 109] 1 2);
    vm_compute; congruence || done.
Defined.

Lemma getPool_null_after_error_witness :
  let s := @mkS3 demo_rados ∅ (∅, ∅) in
  let s' := @mkS3 demo_rados {["new" := false]} (∅, {["new"]}) in
  (getKeyBytes "new" "k" true s).1 = Throw (ThrownPointer "Couldn't open rados pool") ∧
  (getKeyBytes "new" "k" true s').1 = Throw null_pool.
Proof.
  intros s s'. apply (getPool_null_after_error "new" "k" true s s'); vm_compute; congruence || done.
Defined.
