(* ===== verification/Host.v ===== *)
(** The host a worker runs on: its files as std::filesystem and faabric's file
    helpers see them, the paths of std::filesystem, the system calls the file
    descriptors make, and the configuration the storage code reads.  The host's
    state is a parameter; the laws are those of a POSIX file system. *)

From Stdlib Require Import Ascii.
From S2P Require Import Prelude WasmBytes.

(** * Paths (std::filesystem::path, POSIX) *)

Definition is_absolute (p : string) : bool :=
  match p with String a _ => Ascii.eqb a "/"%char | EmptyString => false end.

Fixpoint last_char (p : string) : option ascii :=
  match p with
  | EmptyString => None
  | String a EmptyString => Some a
  | String _ p' => last_char p'
  end.

(** [p.append(q)]: an absolute [q] replaces [p]; otherwise a separator goes
    between them when [p] has a filename. *)
Definition path_append (p q : string) : string :=
  if is_absolute q then q
  else match last_char p with
       | None => q
       | Some a => if Ascii.eqb a "/"%char then p +:+ q else p +:+ "/" +:+ q
       end.

(** Everything before the last separator, and everything after it. *)
Fixpoint split_last (p : string) : option (string * string) :=
  match p with
  | EmptyString => None
  | String a p' =>
      match split_last p' with
      | Some (d, f) => Some (String a d, f)
      | None => if Ascii.eqb a "/"%char then Some (EmptyString, p') else None
      end
  end.
Definition parent_path (p : string) : string :=
  match split_last p with Some (d, _) => d | None => EmptyString end.
Definition filename (p : string) : string :=
  match split_last p with Some (_, f) => f | None => p end.

(** * Configuration *)

Record CodegenTargetSpec := mkTarget { arch : string; cpu : string }.

#[export] Instance target_eq_dec : EqDecision CodegenTargetSpec.
Proof. solve_decision. Defined.

(** The fields of [conf::FaasmConfig] that storage and code generation read. *)
Record FaasmConfig := mkConf {
  functionDir : string; objectFileDir : string; runtimeFilesDir : string;
  sharedFilesDir : string; s3Bucket : string; wasmVm : string;
  codegenTargets : list CodegenTargetSpec; captureStdout : string }.

(** * System calls *)

(** The calls the file descriptors make. *)
Inductive syscall : Type :=
  | c_open (path : string) (flags mode : Z)
  | c_mkdir (path : string) (mode : Z)
  | c_fcntl_setfl (fd flags : Z)
  (** of the buffers, the leading bytes that are in memory, and the length of all *)
  | c_writev (fd : Z) (data : list Z) (len : Z)
  | c_close (fd : Z)
  | c_unlink (path : string)
  | c_rmdir (path : string)
  | c_rename (old new : string)
  | c_fstat (fd : Z)
  | c_stat (path : string)
  | c_lseek (fd offset whence : Z)
  | c_dup (fd : Z)
  | c_readlink (path : string) (len : Z)
  (** of the buffers, how many leading bytes are in memory, and the length of all *)
  | c_readv (fd avail len : Z)
  | c_memfd_create (name : string)
  | c_read (fd len : Z)
  | c_access (path : string) (mode : Z)
  (** a mapping of the start of a file: what is read through it *)
  | c_mmap (fd len : Z).

#[export] Instance syscall_eq_dec : EqDecision syscall.
Proof. solve_decision. Defined.

(** [struct dirent] and [struct stat], as far as they are read. *)
Record NativeDirent := mkNativeDirent { nd_type : Z; nd_ino : Z; nd_name : string }.
Record NativeStat := mkNativeStat {
  n_dev : Z; n_ino : Z; n_nlink : Z; n_size : Z; n_mode : Z;
  n_atim : Z; n_mtim : Z; n_ctim : Z }.

(** The host: [sys] gives a call's result and, when the result is negative, the
    error number; [sys_data] what a reading call reads. *)
Class Host := {
  K : Type;
  fs_exists : string → K → bool;
  fs_is_directory : string → K → bool;
  readFileToBytes : string → K → list Z;
  writeBytesToFile : string → list Z → K → outcome unit * K;
  create_directories : string → K → outcome unit * K;
  fs_remove : string → K → outcome unit * K;
  boost_append : string → string → string;
  startsWith : string → string → bool;
  removeSubstr : string → string → string;
  sys : syscall → K → Z * Z * K;
  sys_data : syscall → K → list Z;
  sys_stat : syscall → K → NativeStat;
  sys_readdir : string → K → option (list NativeDirent) }.

Class HostLaws `{Host} : Prop := {
  write_ret : ∀ p b k k', writeBytesToFile p b k = (Ret (), k') →
    fs_exists p k' = true ∧ fs_is_directory p k' = false ∧ readFileToBytes p k' = b;
  write_keeps : ∀ p b k o k' q, writeBytesToFile p b k = (o, k') → q ≠ p →
    fs_exists q k' = fs_exists q k ∧ fs_is_directory q k' = fs_is_directory q k ∧
    readFileToBytes q k' = readFileToBytes q k;
  (** making directories keeps what is there and adds only directories *)
  mkdirs_keeps : ∀ p k o k' q, create_directories p k = (o, k') → fs_exists q k = true →
    fs_exists q k' = true ∧ fs_is_directory q k' = fs_is_directory q k ∧
    readFileToBytes q k' = readFileToBytes q k;
  mkdirs_adds : ∀ p k o k' q, create_directories p k = (o, k') → fs_exists q k = false →
    fs_exists q k' = true → fs_is_directory q k' = true;
  mkdirs_ret : ∀ p k k', create_directories p k = (Ret (), k') →
    fs_exists p k' = true ∧ fs_is_directory p k' = true;
  remove_ret : ∀ p k k', fs_remove p k = (Ret (), k') → fs_exists p k' = false;
  startsWith_app : ∀ p rest, startsWith (p +:+ rest) p = true;
  startsWith_true : ∀ s p, startsWith s p = true → ∃ rest, s = p +:+ rest;
  removeSubstr_app : ∀ p rest, removeSubstr (p +:+ rest) p = rest }.

(** * A concrete host

    Files by path; every system call succeeds with a result of 7. *)

Inductive demo_file : Type := DFile (b : list Z) | DDir.

Fixpoint drop_prefix (p s : string) : option string :=
  match p, s with
  | EmptyString, _ => Some s
  | String a p', String b s' => if Ascii.eqb a b then drop_prefix p' s' else None
  | _, _ => None
  end.

Lemma drop_prefix_app p rest : drop_prefix p (p +:+ rest) = Some rest.
Proof.
  induction p as [|a p IH]; [done|].
  change (drop_prefix (String a p) (String a (p +:+ rest)) = Some rest).
  cbn. by rewrite Ascii.eqb_refl.
Qed.

Lemma drop_prefix_some p s rest : drop_prefix p s = Some rest → s = p +:+ rest.
Proof.
  revert s. induction p as [|a p IH]; intros s; [by intros [= ->]|].
  destruct s as [|b s]; [done|]. cbn. destruct (Ascii.eqb_spec a b) as [->|]; [|done].
  intros Hs. by rewrite (IH s Hs).
Qed.

#[export] Instance demo_host : Host := {
  K := gmap string demo_file;
  fs_exists p k := bool_decide (is_Some (k !! p));
  fs_is_directory p k := match k !! p with Some DDir => true | _ => false end;
  readFileToBytes p k := match k !! p with Some (DFile b) => b | _ => [] end;
  writeBytesToFile p b k :=
    match k !! p with
    | Some DDir => (Throw (RuntimeError "Could not write to file"), k)
    | _ => (Ret (), <[p := DFile b]> k)
    end;
  create_directories p k :=
    match k !! p with
    | Some (DFile _) => (Throw (RuntimeError "Filesystem error creating directories"), k)
    | _ => (Ret (), <[p := DDir]> k)
    end;
  fs_remove p k := (Ret (), delete p k);
  boost_append := path_append;
  startsWith s p := bool_decide (is_Some (drop_prefix p s));
  removeSubstr s p := default s (drop_prefix p s);
  sys c k := (7, 0, k);
  sys_data c k := [];
  sys_stat c k := mkNativeStat 1 2 1 10 32768 0 0 0;
  sys_readdir p k := Some [mkNativeDirent 4 1 "."; mkNativeDirent 4 1 ".."; mkNativeDirent 8 5 "a.txt"] }.

#[export] Instance demo_host_laws : HostLaws.
Proof.
  split; cbn.
  - intros p b k k'. destruct (k !! p) as [[]|]; intros [= <-]; rewrite lookup_insert_eq; done.
  - intros p b k o k' q H Hq. destruct (k !! p) as [[]|]; injection H as <- <-;
      rewrite ?lookup_insert_ne by done; done.
  - intros p k o k' q H Hq. destruct (k !! p) as [[]|] eqn:Hp; injection H as <- <-;
      try (by rewrite Hq);
      (destruct (decide (q = p)) as [->|]; [|by rewrite lookup_insert_ne by done]).
    + rewrite lookup_insert_eq, Hp. done.
    + rewrite Hp in Hq. by apply bool_decide_eq_true in Hq as [].
  - intros p k o k' q H Hq Hq'. destruct (k !! p) as [[]|] eqn:Hp; injection H as <- <-;
      try (by rewrite Hq in Hq');
      (destruct (decide (q = p)) as [->|]; [by rewrite lookup_insert_eq|]);
      (rewrite lookup_insert_ne in Hq' by done; by rewrite Hq in Hq').
  - intros p k k'. destruct (k !! p) as [[]|]; intros [= <-]; rewrite lookup_insert_eq; done.
  - intros p k k' [= <-]. by rewrite lookup_delete_eq.
  - intros p rest. by rewrite drop_prefix_app.
  - intros s p Hs. apply bool_decide_eq_true in Hs as [rest Hr]. exists rest.
    by apply drop_prefix_some.
  - intros p rest. by rewrite drop_prefix_app.
Qed.
