(* ===== verification/FileLoader.v ===== *)
(** Function code, object files, hashes and shared files kept in the object
    store with a cache on the host's file system (src/storage/FileLoader.cpp). *)

From Stdlib Require Import Ascii.
From S2P Require Import Prelude WasmBytes S3 Host.

(** * State *)

(** What a shared path was found to be (src/storage/SharedFiles.cpp). *)
Inductive FileState : Type := NOT_CHECKED | NOT_EXISTS | EXISTS_DIR | EXISTS.

#[export] Instance FileState_eq_dec : EqDecision FileState.
Proof. solve_decision. Defined.

(** The object store, the host's state, the shared-file map of the process and
    the system calls made. *)
Record World `{Rados} `{Host} := mkWorld {
  w_s3 : S3State; w_host : K; w_shared : gmap string FileState; w_calls : list syscall }.
Arguments mkWorld {_ _} _ _ _ _.

Section world.
Context `{Rados} `{Host}.

Definition on_s3 {A} : M S3State A → M World A :=
  zoom w_s3 (λ x w, mkWorld x (w_host w) (w_shared w) (w_calls w)).
Definition on_host {A} : M K A → M World A :=
  zoom w_host (λ x w, mkWorld (w_s3 w) x (w_shared w) (w_calls w)).
End world.

(** * Names *)

Definition HASH_EXT : string := ".sha256".
Definition SHARED_OBJ_EXT : string := ".o".
Definition SHARED_FILE_PREFIX : string := "faasm://".
Definition FUNC_FILENAME : string := "function.wasm".
Definition PYTHON_FUNCTION_FILENAME : string := "function.py".
Definition FUNC_ENCRYPTED_FILENAME : string := "function.wasm.enc".
Definition SGX_WAMR_AOT_FILENAME : string := "function.aot.sgx".
Definition PYTHON_FUNC_DIR : string := "pyfuncs".

Definition target_filename (t : CodegenTargetSpec) (ext : string) : string :=
  FUNC_FILENAME +:+ "." +:+ arch t +:+ "." +:+ cpu t +:+ ext.
Definition FUNC_OBJECT_FILENAME (t : CodegenTargetSpec) : string := target_filename t SHARED_OBJ_EXT.
Definition FUNCTION_SYMBOLS_FILENAME (t : CodegenTargetSpec) : string := target_filename t ".symbols".
Definition WAMR_AOT_FILENAME (t : CodegenTargetSpec) : string := target_filename t ".aot".

Fixpoint trimLeadingSlashes (pathIn : string) : string :=
  match pathIn with
  | String a rest => if Ascii.eqb a "/"%char then trimLeadingSlashes rest else pathIn
  | EmptyString => EmptyString
  end.

Definition getHashFilePath (path : string) : string := path +:+ HASH_EXT.

(** The fields of a message that name a function and carry an upload. *)
Record FuncMsg := mkFuncMsg {
  user : string; function : string; inputdata : string;
  ispython : bool; pythonuser : string; pythonfunction : string }.

Definition getKey (msg : FuncMsg) (filename : string) : string :=
  user msg +:+ "/" +:+ function msg +:+ "/" +:+ filename.

(** * Operations *)

Section loader.
Context `{Rados} `{Host} (conf : FaasmConfig) (useLocalFsCache : bool).

Definition createDirectories (path : string) : M World unit :=
  on_host (create_directories path).

Definition getDir (baseDir : string) (msg : FuncMsg) (create : bool) : M World string :=
  let path := path_append (path_append baseDir (user msg)) (function msg) in
  when create (createDirectories path) ;;
  mret path.

Definition loadFileBytes (path localCachePath : string) (tolerateMissing : bool)
    : M World (list Z) :=
  w ← get;
  if useLocalFsCache && fs_exists localCachePath (w_host w) then
    if fs_is_directory localCachePath (w_host w)
    then throw (SharedFileIsDirectory localCachePath)
    else mret (readFileToBytes localCachePath (w_host w))
  else
    let pathCopy := trimLeadingSlashes path in
    bytes ← on_s3 (getKeyBytes (s3Bucket conf) pathCopy tolerateMissing);
    when (negb (bool_decide (bytes = [])) && useLocalFsCache)
      (on_host (writeBytesToFile localCachePath bytes)) ;;
    mret bytes.

Definition uploadFileBytes (path localCachePath : string) (bytes : list Z) : M World unit :=
  let pathCopy := trimLeadingSlashes path in
  on_s3 (addKeyBytes (s3Bucket conf) pathCopy bytes) ;;
  when (useLocalFsCache && negb (bool_decide (localCachePath = "")))
    (on_host (writeBytesToFile localCachePath bytes)).

Definition uploadFileString (path localCachePath bytes : string) : M World unit :=
  let pathCopy := trimLeadingSlashes path in
  on_s3 (addKeyStr (s3Bucket conf) pathCopy bytes) ;;
  when (useLocalFsCache && negb (bool_decide (localCachePath = "")))
    (on_host (writeBytesToFile localCachePath (bytes_of_string bytes))).

Definition loadHashFileBytes (path localCachePath : string) : M World (list Z) :=
  loadFileBytes (getHashFilePath path) (getHashFilePath localCachePath) true.

Definition uploadHashFileBytes (path localCachePath : string) (bytes : list Z) : M World unit :=
  uploadFileBytes (getHashFilePath path) (getHashFilePath localCachePath) bytes.

(** ** Function wasm *)

Definition getFunctionFile (msg : FuncMsg) : M World string :=
  path ← getDir (functionDir conf) msg true; mret (path_append path FUNC_FILENAME).

Definition loadFunctionWasm (msg : FuncMsg) : M World (list Z) :=
  localCachePath ← getFunctionFile msg;
  loadFileBytes (getKey msg FUNC_FILENAME) localCachePath false.

Definition uploadFunction (msg : FuncMsg) : M World unit :=
  localCachePath ← getFunctionFile msg;
  uploadFileString (getKey msg FUNC_FILENAME) localCachePath (inputdata msg).

(** ** Function object files *)

Definition getFunctionObjectFile (msg : FuncMsg) (target : CodegenTargetSpec) : M World string :=
  path ← getDir (objectFileDir conf) msg true; mret (path_append path (FUNC_OBJECT_FILENAME target)).

Definition loadFunctionObjectFile (msg : FuncMsg) (target : CodegenTargetSpec) : M World (list Z) :=
  localCachePath ← getFunctionObjectFile msg target;
  loadFileBytes (getKey msg (FUNC_OBJECT_FILENAME target)) localCachePath false.

Definition loadFunctionObjectHash (msg : FuncMsg) (target : CodegenTargetSpec) : M World (list Z) :=
  localCachePath ← getFunctionObjectFile msg target;
  loadHashFileBytes (getKey msg (FUNC_OBJECT_FILENAME target)) localCachePath.

Definition uploadFunctionObjectFile (msg : FuncMsg) (target : CodegenTargetSpec) (objBytes : list Z)
    : M World unit :=
  localCachePath ← getFunctionObjectFile msg target;
  uploadFileBytes (getKey msg (FUNC_OBJECT_FILENAME target)) localCachePath objBytes.

Definition uploadFunctionObjectHash (msg : FuncMsg) (target : CodegenTargetSpec) (hash : list Z)
    : M World unit :=
  localCachePath ← getFunctionObjectFile msg target;
  uploadHashFileBytes (getKey msg (FUNC_OBJECT_FILENAME target)) localCachePath hash.

(** ** WAMR ahead-of-time files *)

Definition aotFilename (target : CodegenTargetSpec) : string :=
  if decide (wasmVm conf = "sgx") then SGX_WAMR_AOT_FILENAME else WAMR_AOT_FILENAME target.
Definition getWamrAotKey (msg : FuncMsg) (target : CodegenTargetSpec) : string :=
  getKey msg (aotFilename target).

Definition getFunctionAotFile (msg : FuncMsg) (target : CodegenTargetSpec) : M World string :=
  path ← getDir (objectFileDir conf) msg true; mret (path_append path (aotFilename target)).

Definition loadFunctionWamrAotFile (msg : FuncMsg) (target : CodegenTargetSpec) : M World (list Z) :=
  localCachePath ← getFunctionAotFile msg target;
  loadFileBytes (getWamrAotKey msg target) localCachePath false.

Definition loadFunctionWamrAotHash (msg : FuncMsg) (target : CodegenTargetSpec) : M World (list Z) :=
  localCachePath ← getFunctionAotFile msg target;
  loadHashFileBytes (getWamrAotKey msg target) localCachePath.

Definition uploadFunctionWamrAotFile (msg : FuncMsg) (target : CodegenTargetSpec) (objBytes : list Z)
    : M World unit :=
  localCachePath ← getFunctionAotFile msg target;
  uploadFileBytes (getWamrAotKey msg target) localCachePath objBytes.

Definition uploadFunctionWamrAotHash (msg : FuncMsg) (target : CodegenTargetSpec) (hash : list Z)
    : M World unit :=
  localCachePath ← getFunctionAotFile msg target;
  uploadHashFileBytes (getWamrAotKey msg target) localCachePath hash.

Definition getEncryptedFunctionFile (msg : FuncMsg) : M World string :=
  path ← getDir (functionDir conf) msg true; mret (path_append path FUNC_ENCRYPTED_FILENAME).
Definition getFunctionSymbolsFile (msg : FuncMsg) (target : CodegenTargetSpec) : M World string :=
  path ← getDir (functionDir conf) msg true; mret (path_append path (FUNCTION_SYMBOLS_FILENAME target)).

(** ** Shared objects *)

Definition loadSharedObjectWasm (path : string) : M World (list Z) := loadFileBytes path path false.

Definition getSharedObjectObjectFile (realPath : string) (target : CodegenTargetSpec)
    : M World string :=
  let objPath := objectFileDir conf +:+ parent_path realPath in
  createDirectories objPath ;;
  let outputFile := path_append objPath (filename realPath) in
  mret (outputFile +:+ "." +:+ arch target +:+ "." +:+ cpu target +:+ SHARED_OBJ_EXT).

Definition loadSharedObjectObjectFile (path : string) (target : CodegenTargetSpec) : M World (list Z) :=
  localCachePath ← getSharedObjectObjectFile path target;
  loadFileBytes path localCachePath false.

Definition loadSharedObjectObjectHash (path : string) (target : CodegenTargetSpec) : M World (list Z) :=
  localCachePath ← getSharedObjectObjectFile path target;
  loadHashFileBytes path localCachePath.

Definition uploadSharedObjectObjectFile (path : string) (target : CodegenTargetSpec) (objBytes : list Z)
    : M World unit :=
  localCachePath ← getSharedObjectObjectFile path target;
  uploadFileBytes path localCachePath objBytes.

Definition uploadSharedObjectObjectHash (path : string) (target : CodegenTargetSpec) (hash : list Z)
    : M World unit :=
  localCachePath ← getSharedObjectObjectFile path target;
  uploadHashFileBytes path localCachePath hash.

(** ** Shared files *)

Definition getSharedFileFile (path : string) : M World string :=
  let p := path_append (sharedFilesDir conf) path in
  createDirectories (parent_path p) ;;
  mret p.

Definition loadSharedFile (path : string) : M World (list Z) :=
  localCachePath ← getSharedFileFile path;
  bytes ← loadFileBytes path localCachePath true;
  if decide (bytes = []) then throw (SharedFileNotExists path) else mret bytes.

(** The loader's half of deleting a shared file. *)
Definition loader_deleteSharedFile (path : string) : M World unit :=
  on_s3 (deleteKey (s3Bucket conf) (trimLeadingSlashes path)) ;;
  localCachePath ← getSharedFileFile path;
  when (useLocalFsCache && negb (bool_decide (localCachePath = "")))
    (on_host (fs_remove localCachePath)).

Definition uploadSharedFile (path : string) (fileBytes : list Z) : M World unit :=
  localCachePath ← getSharedFileFile path;
  uploadFileBytes path localCachePath fileBytes.

(** ** Python functions *)

Definition getPythonFunctionRelativePath (msg : FuncMsg) : outcome string :=
  if decide (pythonuser msg = "" ∨ pythonfunction msg = "")
  then Throw (RuntimeError "Accessing Python function without python user and function set")
  else Ret (path_append (path_append (path_append PYTHON_FUNC_DIR (pythonuser msg))
              (pythonfunction msg)) PYTHON_FUNCTION_FILENAME).

Definition getPythonFunctionSharedFilePath (msg : FuncMsg) : outcome string :=
  p ← getPythonFunctionRelativePath msg; Ret (path_append SHARED_FILE_PREFIX p).

Definition getPythonFunctionFile (msg : FuncMsg) : M World string :=
  p ← lift (getPythonFunctionRelativePath msg); getSharedFileFile p.

Definition uploadPythonFunction (msg : FuncMsg) : M World unit :=
  relativePath ← lift (getPythonFunctionRelativePath msg);
  localCachePath ← getSharedFileFile relativePath;
  uploadFileString relativePath localCachePath (inputdata msg).
End loader.

(** * What uploads and loads do *)

(** A key never starts with a slash: the path has its leading ones removed and
    nothing else. *)
Theorem trimLeadingSlashes_spec p :
  ∃ n, p = String.string_of_list_ascii (replicate n "/"%char) +:+ trimLeadingSlashes p ∧
       is_absolute (trimLeadingSlashes p) = false ∧
       trimLeadingSlashes (trimLeadingSlashes p) = trimLeadingSlashes p.
Proof.
  induction p as [|a p (n & Hp & Ha & Hi)]; [by exists 0%nat|].
  cbn [trimLeadingSlashes]. destruct (Ascii.eqb_spec a "/"%char) as [->|Hne].
  - exists (S n). split; [|done]. cbn [replicate String.string_of_list_ascii].
    change (String "/" p = String "/" (String.string_of_list_ascii (replicate n "/"%char) +:+ trimLeadingSlashes p)).
    by rewrite <- Hp.
  - exists 0%nat. split; [done|]. split; [by apply Ascii.eqb_neq|].
    cbn [trimLeadingSlashes]. by destruct (Ascii.eqb_spec a "/"%char).
Qed.

Section theorems.
Context `{Rados} `{!RadosLaws} `{Host} `{!HostLaws} (conf : FaasmConfig).

(** The bucket's object for a path. *)
Definition stored (path : string) (w : World) : option (list Z) :=
  rados_obj (s3Bucket conf) (trimLeadingSlashes path) (cluster (w_s3 w)).
(** The content of a local file. *)
Definition cached (p : string) (w : World) : option (list Z) :=
  if fs_exists p (w_host w) && negb (fs_is_directory p (w_host w))
  then Some (readFileToBytes p (w_host w)) else None.

Lemma run_on_s3 {A} (m : M S3State A) w o s :
  m (w_s3 w) = (o, s) → on_s3 m w = (o, mkWorld s (w_host w) (w_shared w) (w_calls w)).
Proof. intros Hm. unfold on_s3, zoom. by rewrite Hm. Qed.

Lemma run_on_host {A} (m : M K A) w o k :
  m (w_host w) = (o, k) → on_host m w = (o, mkWorld (w_s3 w) k (w_shared w) (w_calls w)).
Proof. intros Hm. unfold on_host, zoom. by rewrite Hm. Qed.

(** An upload stores the bytes under the path's key and in the cache. *)
Lemma uploadFileBytes_ret c path local bytes w w' :
  uploadFileBytes conf c path local bytes w = (Ret (), w') →
  connected (s3Bucket conf) (w_s3 w') ∧ stored path w' = Some bytes ∧
  (c = true → local ≠ "" → cached local w' = Some bytes).
Proof.
  unfold uploadFileBytes. intros ([] & w1 & Hup & Hwr)%run_bind_inv.
  unfold on_s3, zoom in Hup. destruct (addKeyBytes _ _ _ _) as [[[]|e] s1] eqn:Hadd; [|done].
  injection Hup as <-. apply addKeyBytes_ret in Hadd as (Hc & Hobj & _).
  unfold when in Hwr. destruct (c && _) eqn:Hb.
  - unfold on_host, zoom in Hwr. cbn in Hwr.
    destruct (writeBytesToFile local bytes (w_host w)) as [[[]|e] k1] eqn:Hw; [|done].
    injection Hwr as <-. split; [done|]. split; [done|]. intros _ _.
    apply write_ret in Hw as (He & Hd & Hr). unfold cached. cbn. by rewrite He, Hd, Hr.
  - injection Hwr as <-. split; [done|]. split; [done|]. intros -> Hne.
    cbn in Hb. by rewrite bool_decide_eq_false_2 in Hb.
Qed.

(** A load reads the cache when the file is there. *)
Lemma loadFileBytes_cached path local t w bytes :
  cached local w = Some bytes → loadFileBytes conf true path local t w = (Ret bytes, w).
Proof.
  unfold cached, loadFileBytes, get, mbind, M_bind. intros Hc. cbn [andb].
  destruct (fs_exists local (w_host w)); [|done].
  destruct (fs_is_directory local (w_host w)); [done|]. by injection Hc as <-.
Qed.

(** Otherwise it reads the object store, and fills the cache. *)
Lemma loadFileBytes_store c path local t w bytes :
  c = false ∨ fs_exists local (w_host w) = false →
  connected (s3Bucket conf) (w_s3 w) → stored path w = Some bytes →
  Z.of_nat (length bytes) ≤ SIZE_MAX / 2 →
  (c = true → ∃ k', writeBytesToFile local bytes (w_host w) = (Ret (), k')) →
  ∃ w', loadFileBytes conf c path local t w = (Ret bytes, w') ∧
    (c = true → bytes ≠ [] → cached local w' = Some bytes).
Proof.
  intros Hmiss Hcon Hobj Hlen Hwrite. unfold loadFileBytes. rewrite run_bind. unfold get.
  assert (c && fs_exists local (w_host w) = false) as ->
    by (destruct Hmiss as [->| ->]; [done|by destruct c]).
  erewrite run_bind_ret by (apply run_on_s3; by apply getKeyBytes_run).
  destruct (decide (bytes = [])) as [->|Hne].
  { eexists. split; [done|]. done. }
  rewrite bool_decide_eq_false_2 by done. cbn [negb andb]. destruct c.
  - destruct (Hwrite eq_refl) as [k' Hk]. unfold when. cbn [andb].
    erewrite run_bind_ret by (apply run_on_host; exact Hk). eexists. split; [done|].
    intros _ _. apply write_ret in Hk as (He & Hd & Hr). unfold cached. cbn. by rewrite He, Hd, Hr.
  - eexists. by split.
Qed.

(** Making the directories of a cache path keeps the store and the cached
    files. *)
Lemma createDirectories_ret p w w' :
  createDirectories p w = (Ret (), w') →
  w_s3 w' = w_s3 w ∧ ∀ q b, cached q w = Some b → cached q w' = Some b.
Proof.
  unfold createDirectories, on_host, zoom.
  destruct (create_directories p (w_host w)) as [[[]|e] k] eqn:Hm; [|done].
  intros [= <-]. split; [done|]. intros q b. unfold cached. cbn.
  destruct (fs_exists q (w_host w)) eqn:He; [|done].
  destruct (mkdirs_keeps _ _ _ _ q Hm He) as (-> & -> & ->). done.
Qed.

Lemma getSharedObjectObjectFile_ret path t w local w' :
  getSharedObjectObjectFile conf path t w = (Ret local, w') →
  w_s3 w' = w_s3 w ∧ ∀ q b, cached q w = Some b → cached q w' = Some b.
Proof.
  unfold getSharedObjectObjectFile. intros ([] & w1 & Hc & Hr)%run_bind_inv.
  injection Hr as _ <-. by apply createDirectories_ret in Hc.
Qed.

Lemma getFunctionObjectFile_ret msg t w local w' :
  getFunctionObjectFile conf msg t w = (Ret local, w') →
  (w_s3 w' = w_s3 w ∧ ∀ q b, cached q w = Some b → cached q w' = Some b) ∧
  local = path_append (path_append (path_append (objectFileDir conf) (user msg)) (function msg))
            (FUNC_OBJECT_FILENAME t).
Proof.
  unfold getFunctionObjectFile, getDir. intros (p & w1 & Hd & Hr)%run_bind_inv.
  injection Hr as <- <-. apply run_bind_inv in Hd as ([] & w2 & Hc & [= <- <-]).
  split; [|done]. unfold when in Hc. by apply createDirectories_ret in Hc.
Qed.

Lemma last_char_app p q : q ≠ "" → last_char (p +:+ q) = last_char q.
Proof.
  intros Hq. induction p as [|a p IH]; [done|].
  change (String a p +:+ q) with (String a (p +:+ q)). cbn [last_char].
  destruct (p +:+ q) as [|b r] eqn:He; [|done].
  destruct p; [by cbn in He; subst|done].
Qed.

Lemma path_append_nonempty p q : q ≠ "" → path_append p q ≠ "".
Proof.
  intros Hq. unfold path_append. destruct (is_absolute q); [done|].
  destruct (last_char p); [|done]. destruct (Ascii.eqb _ _).
  - destruct p; [done|]. discriminate.
  - destruct p; discriminate.
Qed.

(** C20: Object code uploaded for a function is what every host then loads for that
    function and target: the uploading host from its cache, another one from
    the object store, whichever way they cache; a caching host keeps a copy. *)
Theorem functionObjectFile_roundtrip c c' msg t bytes w w' w2 local w3 :
  uploadFunctionObjectFile conf c msg t bytes w = (Ret (), w') →
  Z.of_nat (length bytes) ≤ SIZE_MAX / 2 →
  w_s3 w2 = w_s3 w' →
  getFunctionObjectFile conf msg t w2 = (Ret local, w3) →
  (w_host w2 = w_host w' ∧ c = true) ∨ c' = false ∨ fs_exists local (w_host w3) = false →
  (c' = true → ∃ k, writeBytesToFile local bytes (w_host w3) = (Ret (), k)) →
  ∃ w4, loadFunctionObjectFile conf c' msg t w2 = (Ret bytes, w4) ∧
    (c' = true → bytes ≠ [] → cached local w4 = Some bytes).
Proof.
  intros Hup Hlen Hs3 Hget Hwhere Hwrite.
  unfold uploadFunctionObjectFile in Hup. apply run_bind_inv in Hup as (l & w1 & Hl & Hup).
  apply getFunctionObjectFile_ret in Hl as [[Hl1 _] ->].
  apply uploadFileBytes_ret in Hup as (Hcon & Hobj & Hcache).
  unfold loadFunctionObjectFile. erewrite run_bind_ret by exact Hget.
  apply getFunctionObjectFile_ret in Hget as [[Hs Hkeep] ->].
  assert (connected (s3Bucket conf) (w_s3 w3) ∧
    stored (getKey msg (FUNC_OBJECT_FILENAME t)) w3 = Some bytes) as [Hcon3 Hobj3]
    by (unfold stored in *; by rewrite Hs, Hs3).
  set (local := path_append _ _) in *.
  destruct (decide (cached local w3 = Some bytes ∧ c' = true)) as [[Hhit ->]|Hno].
  { exists w3. by rewrite (loadFileBytes_cached _ _ _ _ bytes). }
  apply loadFileBytes_store; try done.
  destruct Hwhere as [[Hhost ->]|[->|Hnone]]; [|by left|by right].
  left. destruct c'; [|done]. destruct Hno. split; [|done]. apply Hkeep.
  assert (local ≠ "") as Hne by (by apply path_append_nonempty).
  specialize (Hcache eq_refl Hne). unfold cached in *. by rewrite Hhost.
Qed.

(** The object files of a shared library for two targets have one key in the
    object store: once the second target's code is uploaded, a host without a
    cached copy loads it for the first target, and even as the library's
    wasm. *)
Theorem sharedObject_key_collision c path tA tB codeA codeB w w1 w2 w3 :
  uploadSharedObjectObjectFile conf c path tA codeA w = (Ret (), w1) →
  uploadSharedObjectObjectFile conf c path tB codeB w1 = (Ret (), w2) →
  Z.of_nat (length codeB) ≤ SIZE_MAX / 2 → w_s3 w3 = w_s3 w2 →
  (loadSharedObjectWasm conf false path w3).1 = Ret codeB ∧
  ∀ local w4, getSharedObjectObjectFile conf path tA w3 = (Ret local, w4) →
    (loadSharedObjectObjectFile conf false path tA w3).1 = Ret codeB.
Proof.
  intros _ Hup Hlen Hs3. unfold uploadSharedObjectObjectFile in Hup.
  apply run_bind_inv in Hup as (l & w' & _ & Hup).
  apply uploadFileBytes_ret in Hup as (Hcon & Hobj & _).
  assert (∀ w, w_s3 w = w_s3 w2 → ∀ l, (loadFileBytes conf false path l false w).1 = Ret codeB) as Hload.
  { intros w0 Hw0 l0.
    destruct (loadFileBytes_store false path l0 false w0 codeB) as (w4 & -> & _); try done; try (by left);
      unfold stored in *; by rewrite Hw0. }
  split; [by apply Hload|]. intros local w4 Hget.
  unfold loadSharedObjectObjectFile. erewrite run_bind_ret by exact Hget.
  apply getSharedObjectObjectFile_ret in Hget as [Hs _]. apply Hload. by rewrite Hs.
Qed.
End theorems.

(** * A concrete world *)

Definition demo_conf : FaasmConfig :=
  mkConf "/usr/local/faasm/wasm" "/usr/local/faasm/object" "/usr/local/faasm/runtime_root"
    "/usr/local/faasm/shared" "faasm" "wavm" [mkTarget "x86_64" "skylake"; mkTarget "aarch64" "a72"] "on".
Definition demo_world : World := mkWorld demo_s3 (∅ : @K demo_host) ∅ [].
Definition demo_func : FuncMsg := mkFuncMsg "u" "f" "" false "" "".
Definition demo_targetA : CodegenTargetSpec := mkTarget "x86_64" "skylake".
Definition demo_targetB : CodegenTargetSpec := mkTarget "aarch64" "a72".

Lemma functionObjectFile_roundtrip_witness :
  let w' := (uploadFunctionObjectFile demo_conf true demo_func demo_targetA [1; 2; 3] demo_world).2 in
  let w2 := mkWorld (w_s3 w') (∅ : @K demo_host) ∅ [] in
  ∃ local w4, loadFunctionObjectFile demo_conf true demo_func demo_targetA w2 = (Ret [1; 2; 3], w4) ∧
    (true = true → [1; 2; 3] ≠ [] → cached local w4 = Some [1; 2; 3]).
Proof.
  intros w' w2.
  exists "/usr/local/faasm/object/u/f/function.wasm.x86_64.skylake.o".
  set (p := "/usr/local/faasm/object/u/f/function.wasm.x86_64.skylake.o").
  apply (functionObjectFile_roundtrip demo_conf true true demo_func demo_targetA [1; 2; 3]
    demo_world w' w2 p (getFunctionObjectFile demo_conf demo_func demo_targetA w2).2).
  - apply run_fst. vm_compute. reflexivity.
  - vm_compute. discriminate.
  - reflexivity.
  - apply run_fst. vm_compute. reflexivity.
  - right. right. vm_compute. reflexivity.
  - intros _. eexists. apply (run_fst (writeBytesToFile p [1; 2; 3])). vm_compute. reflexivity.
Defined.

Lemma sharedObject_key_collision_witness :
  let w1 := (uploadSharedObjectObjectFile demo_conf true "/lib/libm.so" demo_targetA [1] demo_world).2 in
  let w2 := (uploadSharedObjectObjectFile demo_conf true "/lib/libm.so" demo_targetB [2] w1).2 in
  (loadSharedObjectWasm demo_conf false "/lib/libm.so" (mkWorld (w_s3 w2) (∅ : @K demo_host) ∅ [])).1 = Ret [2].
Proof.
  intros w1 w2.
  apply (sharedObject_key_collision demo_conf true "/lib/libm.so" demo_targetA demo_targetB [1] [2]
    demo_world w1 w2).
  - apply run_fst. vm_compute. reflexivity.
  - apply run_fst. vm_compute. reflexivity.
  - vm_compute. discriminate.
  - reflexivity.
Defined.
