(* ===== verification/SharedFiles.v ===== *)
(** Shared files, those whose paths start with the shared prefix: each is
    looked for once per process and the outcome remembered
    (src/storage/SharedFiles.cpp). *)

From S2P Require Import Prelude WasmBytes S3 Host FileLoader.

Section shared.
Context `{Rados} `{Host} (conf : FaasmConfig).

Definition prependSharedRoot (originalPath : string) : string :=
  boost_append (sharedFilesDir conf) originalPath.
Definition stripSharedPrefix (sharedPath : string) : string :=
  removeSubstr sharedPath SHARED_FILE_PREFIX.
Definition realPathForSharedFile (sharedPath : string) : string :=
  prependSharedRoot (stripSharedPrefix sharedPath).
Definition isPathShared (p : string) : bool := startsWith p SHARED_FILE_PREFIX.

(** Updates of the process-wide map. *)
Definition set_shared (m : gmap string FileState) (w : World) : World :=
  mkWorld (w_s3 w) (w_host w) m (w_calls w).
Definition mark (p : string) (st : FileState) : M World unit :=
  modify (λ w, set_shared (<[p := st]> (w_shared w)) w).

(** [getReturnValueForSharedFileState]; [operator[]] makes a missing entry. *)
Definition getReturnValueForSharedFileState (sharedPath : string) : M World Z :=
  w ← get;
  match w_shared w !! sharedPath with
  | Some NOT_EXISTS => mret ENOENT
  | Some EXISTS_DIR | Some EXISTS => mret 0
  | Some NOT_CHECKED => mret ENOENT
  | None => mark sharedPath NOT_CHECKED ;; mret ENOENT
  end.

Definition clearCacheForSharedFile (sharedPath : string) : M World unit :=
  modify (λ w, set_shared (delete sharedPath (w_shared w)) w).

(** [deleteSharedFile] *)
Definition deleteSharedFile (p : string) : M World unit :=
  let relativePath := stripSharedPrefix p in
  loader_deleteSharedFile conf true relativePath ;;
  clearCacheForSharedFile relativePath.

(** [updateSharedFile] *)
Definition updateSharedFile (p : string) : M World unit :=
  let relativePath := stripSharedPrefix p in
  bytes ← loadSharedFile conf true relativePath;
  uploadSharedFile conf true relativePath bytes.

(** The loader's answer for a path that is not on the file system: its bytes,
    none when the path does not exist, or that it is a directory. *)
Definition load_shared (strippedPath : string) : M World (list Z * bool) :=
  bytes ← loadSharedFile conf true strippedPath; mret (bytes, false).
Definition fetch_shared (strippedPath : string) : M World (list Z * bool) :=
  try_catch (load_shared strippedPath)
    (λ e, match e with
          | SharedFileIsDirectory _ => mret ([], true)
          | SharedFileNotExists _ => mret ([], false)
          | _ => throw e
          end).

(** [boost::filesystem::path::has_parent_path] *)
Definition has_parent_path (p : string) : bool := negb (bool_decide (parent_path p = "")).

Definition syncSharedFile (sharedPath localPath : string) : M World Z :=
  w ← get;
  match w_shared w !! sharedPath with
  | Some _ => getReturnValueForSharedFileState sharedPath
  | None =>
      let strippedPath := removeSubstr sharedPath SHARED_FILE_PREFIX in
      let realPath := if decide (localPath = "") then prependSharedRoot strippedPath else localPath in
      mark sharedPath NOT_CHECKED ;;
      (if fs_exists realPath (w_host w) then
         mark sharedPath (if fs_is_directory realPath (w_host w) then EXISTS_DIR else EXISTS)
       else
         '(bytes, isDir) ← fetch_shared strippedPath;
         if isDir : bool then
           on_host (create_directories realPath) ;; mark sharedPath EXISTS_DIR
         else if decide (bytes = []) then mark sharedPath NOT_EXISTS
         else
           when (has_parent_path realPath) (on_host (create_directories (parent_path realPath))) ;;
           on_host (writeBytesToFile realPath bytes) ;;
           mark sharedPath EXISTS) ;;
      getReturnValueForSharedFileState sharedPath
  end.

(** [syncPythonFunctionFile]: the paths are boost's. *)
Definition syncPythonFunctionFile (msg : FuncMsg) : M World Z :=
  if negb (ispython msg) then mret 0
  else
    relativePath ← lift (getPythonFunctionRelativePath msg);
    syncSharedFile (boost_append SHARED_FILE_PREFIX relativePath)
      (boost_append (runtimeFilesDir conf) relativePath).

Definition clear : M World unit := modify (set_shared ∅).

(** * Theorems *)

Context `{!RadosLaws} `{!HostLaws}.

(** What the answer for a path in the map is. *)
Definition state_result (st : FileState) : Z :=
  match st with EXISTS_DIR | EXISTS => 0 | NOT_EXISTS | NOT_CHECKED => ENOENT end.

Lemma getReturnValue_run p st w :
  w_shared w !! p = Some st →
  getReturnValueForSharedFileState p w = (Ret (state_result st), w).
Proof.
  intros Hst. unfold getReturnValueForSharedFileState, get, mbind, M_bind. rewrite Hst. by destruct st.
Qed.

Lemma sync_known p l st w :
  w_shared w !! p = Some st → syncSharedFile p l w = (Ret (state_result st), w).
Proof.
  intros Hst. unfold syncSharedFile, get, mbind, M_bind. rewrite Hst. by apply getReturnValue_run.
Qed.

Lemma mark_lookup p st w w' : mark p st w = (Ret (), w') → w_shared w' !! p = Some st.
Proof. intros [= <-]. cbn. apply lookup_insert_eq. Qed.

(** A sync that returns has recorded what it found. *)
Lemma sync_ret p l w r w' :
  syncSharedFile p l w = (Ret r, w') → ∃ st, w_shared w' !! p = Some st ∧ r = state_result st.
Proof.
  unfold syncSharedFile. intros (w0 & w0' & [= <- <-] & Hs)%run_bind_inv.
  destruct (w_shared w !! p) as [st|] eqn:Hst.
  { rewrite (getReturnValue_run p st) in Hs by done. injection Hs as <- <-. by exists st. }
  apply run_bind_inv in Hs as ([] & w1 & _ & Hs).
  apply run_bind_inv in Hs as ([] & w2 & Hmark & Hs).
  assert (∃ st, w_shared w2 !! p = Some st) as [st Hst2].
  { destruct (fs_exists _ _); [eexists; by eapply mark_lookup|].
    apply run_bind_inv in Hmark as ([bytes []] & w3 & _ & Hmark).
    - apply run_bind_inv in Hmark as ([] & w4 & _ & Hmark). eexists; by eapply mark_lookup.
    - destruct (decide (bytes = [])); [eexists; by eapply mark_lookup|].
      apply run_bind_inv in Hmark as ([] & w4 & _ & Hmark).
      apply run_bind_inv in Hmark as ([] & w5 & _ & Hmark). eexists; by eapply mark_lookup. }
  rewrite (getReturnValue_run p st) in Hs by done. injection Hs as <- <-. by exists st.
Qed.

(** The answer for a path is settled by its first sync: every later one, with
    whatever local path, gives the same result and touches nothing. *)
Theorem syncSharedFile_stable p l l' w r w' :
  syncSharedFile p l w = (Ret r, w') → syncSharedFile p l' w' = (Ret r, w').
Proof. intros (st & Hst & ->)%sync_ret. by apply sync_known. Qed.

(** ** Calls that leave the map alone *)

Definition same_shared (w w' : World) : Prop := w_shared w' = w_shared w.
#[local] Instance same_shared_preorder : PreOrder same_shared.
Proof. split; [done|]. intros w1 w2 w3 H12 H23. unfold same_shared in *. congruence. Qed.
Abbreviation keeps_shared := (keeps same_shared).

Lemma keeps_s3 {A} (m : M S3State A) : keeps_shared (on_s3 m).
Proof. intros w. unfold on_s3, zoom. by destruct (m (w_s3 w)). Qed.
Lemma keeps_host {A} (m : M K A) : keeps_shared (on_host m).
Proof. intros w. unfold on_host, zoom. by destruct (m (w_host w)). Qed.
Lemma keeps_when b (m : M World unit) : keeps_shared m → keeps_shared (when b m).
Proof. by destruct b. Qed.

Lemma keeps_loadFileBytes c path local t : keeps_shared (loadFileBytes conf c path local t).
Proof.
  unfold loadFileBytes. apply (keeps_get_bind same_shared); intros w; cbv beta zeta.
  destruct (c && _).
  - destruct (fs_is_directory _ _); [apply (keeps_throw same_shared)|apply (keeps_ret same_shared)].
  - apply (keeps_bind same_shared); [apply keeps_s3|]. intros bytes.
    apply (keeps_bind same_shared); [apply keeps_when, keeps_host|]. intros _. apply (keeps_ret same_shared).
Qed.

Lemma keeps_loadSharedFile c path : keeps_shared (loadSharedFile conf c path).
Proof.
  unfold loadSharedFile, getSharedFileFile, createDirectories.
  apply (keeps_bind same_shared); [apply (keeps_bind same_shared); [apply keeps_host|intros; apply (keeps_ret same_shared)]|]. intros local.
  apply (keeps_bind same_shared); [apply keeps_loadFileBytes|]. intros bytes.
  destruct (decide _); [apply (keeps_throw same_shared)|apply (keeps_ret same_shared)].
Qed.

Lemma keeps_fetch path : keeps_shared (fetch_shared path).
Proof.
  intros w. unfold fetch_shared, try_catch.
  assert (keeps_shared (load_shared path)) as Hk
    by (apply (keeps_bind same_shared); [apply keeps_loadSharedFile|intros; apply (keeps_ret same_shared)]).
  specialize (Hk w). destruct (load_shared path w) as [[a|e] w1]; [done|].
  cbn in *. by destruct e.
Qed.

Lemma when_inv (b : bool) (m : M World unit) w w' :
  when b m w = (Ret (), w') → (b = true ∧ m w = (Ret (), w')) ∨ (b = false ∧ w' = w).
Proof. destruct b; [by left|]. intros [= <-]. by right. Qed.

(** The path a sync writes to. *)
Definition sync_target (sharedPath localPath : string) : string :=
  if decide (localPath = "") then realPathForSharedFile sharedPath else localPath.

(** ** What a first sync finds *)

(** When the first sync of a path reports it as present, it is on the host's
    file system; when it was not there before and is a file, its content is
    what the loader gave. *)
Theorem syncSharedFile_sound p l w w' :
  w_shared w !! p = None → syncSharedFile p l w = (Ret 0, w') →
  fs_exists (sync_target p l) (w_host w') = true ∧
  (fs_exists (sync_target p l) (w_host w) = false → w_shared w' !! p = Some EXISTS →
   ∃ data, (loadSharedFile conf true (stripSharedPrefix p)
              (set_shared (<[p := NOT_CHECKED]> (w_shared w)) w)).1 = Ret data ∧
     data ≠ [] ∧ readFileToBytes (sync_target p l) (w_host w') = data).
Proof.
  intros Hnone. unfold syncSharedFile, sync_target, realPathForSharedFile, stripSharedPrefix.
  set (rel := removeSubstr p SHARED_FILE_PREFIX).
  set (real := if decide (l = "") then prependSharedRoot rel else l).
  intros (w0 & w0' & [= <- <-] & Hs)%run_bind_inv. rewrite Hnone in Hs.
  apply run_bind_inv in Hs as ([] & w1 & [= <-] & Hs). fold real in Hs.
  apply run_bind_inv in Hs as ([] & w2 & Hmark & Hs).
  assert (w_host w' = w_host w2 ∧ w_shared w2 !! p ≠ Some NOT_EXISTS ∧ (w_shared w2 !! p = None ∨ w_shared w' = w_shared w2))
    as (Hhost & Hst & Hsh).
  { unfold getReturnValueForSharedFileState, get, mbind, M_bind in Hs.
    destruct (w_shared w2 !! p) as [[]|] eqn:Hp; injection Hs as Hr; subst; try done; split_and!; try done; by right. }
  rewrite Hhost. destruct (fs_exists real (w_host w)) eqn:He.
  { injection Hmark as <-. by split. }
  apply run_bind_inv in Hmark as ([bytes isDir] & w3 & Hf & Hmark). destruct isDir.
  - apply run_bind_inv in Hmark as ([] & w4 & Hdir & Hm). injection Hm as <-. cbn in *.
    unfold on_host, zoom in Hdir. destruct (create_directories real (w_host w3)) as [[[]|] k] eqn:Hk; [|done].
    injection Hdir as <-. cbn in *. split; [by eapply mkdirs_ret|]. intros _ Hex.
    rewrite lookup_insert_eq in Hsh. destruct Hsh as [|Hsh]; [done|].
    by rewrite Hsh, lookup_insert_eq in Hex.
  - destruct (decide (bytes = [])) as [->|Hne].
    { injection Hmark as <-. cbn in Hst. by rewrite lookup_insert_eq in Hst. }
    apply run_bind_inv in Hmark as ([] & w4 & _ & Hmark).
    apply run_bind_inv in Hmark as ([] & w5 & Hw & Hm). injection Hm as <-. cbn.
    unfold on_host, zoom in Hw. destruct (writeBytesToFile real bytes (w_host w4)) as [[[]|] k] eqn:Hk; [|done].
    injection Hw as <-. cbn. apply write_ret in Hk as (Hex & _ & Hrd). split; [done|]. intros _ _.
    exists bytes. split; [|done]. unfold fetch_shared, try_catch, load_shared in Hf. fold rel in Hf.
    rewrite run_bind in Hf.
    destruct (loadSharedFile conf true rel _) as [[b|e] w6]; [by injection Hf as <-|].
    destruct e; try done; injection Hf as <- <-; done.
Qed.

(** The loader throws while a path is looked for: the path stays recorded as
    not checked, and is then reported as missing for good, even once the file
    is on the file system. *)
Theorem syncSharedFile_stuck p l w e w' :
  w_shared w !! p = None → syncSharedFile p l w = (Throw e, w') →
  w_shared w' = <[p := NOT_CHECKED]> (w_shared w) ∧
  ∀ l' w2, w_shared w2 = w_shared w' → syncSharedFile p l' w2 = (Ret ENOENT, w2).
Proof.
  intros Hnone Hs.
  assert (w_shared w' = <[p := NOT_CHECKED]> (w_shared w)) as Hsh.
  { unfold syncSharedFile in Hs. rewrite run_bind in Hs. unfold get at 1 in Hs. rewrite Hnone in Hs.
    rewrite run_bind in Hs. unfold mark at 1, modify at 1 in Hs.
    set (w1 := set_shared _ w) in Hs. change (w_shared w') with (w_shared w').
    set (real := if decide (l = "") then _ else _) in Hs.
    rewrite run_bind in Hs. destruct (fs_exists real (w_host w)).
    { unfold mark, modify in Hs. erewrite getReturnValue_run in Hs by (cbn; apply lookup_insert_eq).
      by injection Hs. }
    rewrite run_bind in Hs. pose proof (keeps_fetch (removeSubstr p SHARED_FILE_PREFIX) w1) as Hk.
    destruct (fetch_shared _ w1) as [[[bytes isDir]|e1] w2]; [|by injection Hs as <- <-].
    cbn in Hk. destruct isDir.
    - rewrite run_bind in Hs. pose proof (keeps_host (create_directories real) w2) as Hd.
      destruct (on_host _ w2) as [[[]|e2] w3]; cbn in Hd; [|injection Hs as <- <-; by rewrite Hd, Hk].
      unfold mark, modify in Hs. erewrite getReturnValue_run in Hs by (cbn; apply lookup_insert_eq).
      by injection Hs.
    - destruct (decide (bytes = [])).
      { unfold mark, modify in Hs. erewrite getReturnValue_run in Hs by (cbn; apply lookup_insert_eq).
        by injection Hs. }
      rewrite run_bind in Hs.
      pose proof (keeps_when (has_parent_path real) _ (keeps_host (create_directories (parent_path real))) w2) as Hd.
      destruct (when _ _ w2) as [[[]|e2] w3]; cbn in Hd; [|injection Hs as <- <-; by rewrite Hd, Hk].
      rewrite run_bind in Hs. pose proof (keeps_host (writeBytesToFile real bytes) w3) as Hw.
      destruct (on_host _ w3) as [[[]|e3] w4]; cbn in Hw; [|injection Hs as <- <-; by rewrite Hw, Hd, Hk].
      unfold mark, modify in Hs. erewrite getReturnValue_run in Hs by (cbn; apply lookup_insert_eq).
      by injection Hs. }
  split; [done|]. intros l' w2 Hw2. apply (sync_known p l' NOT_CHECKED).
  by rewrite Hw2, Hsh, lookup_insert_eq.
Qed.

(** Deleting a shared file clears the remembered state of the path without its
    prefix, while syncs remember the path with it: after the deletion the file
    is gone from the store, and a sync still reports it as present. *)
Theorem deleteSharedFile_stale rel l w w' :
  let p := SHARED_FILE_PREFIX +:+ rel in
  w_shared w !! p = Some EXISTS → deleteSharedFile p w = (Ret (), w') →
  stored conf rel w' = None ∧ syncSharedFile p l w' = (Ret 0, w').
Proof.
  intros p Hex Hd. unfold deleteSharedFile, stripSharedPrefix in Hd. unfold p in Hd at 1 2.
  rewrite removeSubstr_app in Hd.
  apply run_bind_inv in Hd as ([] & w1 & Hdel & [= <-]).
  assert (keeps_shared (loader_deleteSharedFile conf true rel)) as Hk.
  { unfold loader_deleteSharedFile, getSharedFileFile, createDirectories.
    apply (keeps_bind same_shared); [apply keeps_s3|]. intros _. apply (keeps_bind same_shared).
    - apply (keeps_bind same_shared); [apply keeps_host|intros; apply (keeps_ret same_shared)].
    - intros. apply keeps_when, keeps_host. }
  specialize (Hk w). rewrite Hdel in Hk. cbn in Hk. split.
  - apply run_bind_inv in Hdel as ([] & w2 & Hs3 & Hrest).
    assert (w_s3 w1 = w_s3 w2) as Heq.
    { apply run_bind_inv in Hrest as (lp & w3 & Hg & Hrm).
      apply run_bind_inv in Hg as ([] & w4 & Hc & [= _ <-]).
      apply createDirectories_ret in Hc as [Hc _].
      apply when_inv in Hrm as [[_ Hrm]|[_ ->]]; [|done].
      unfold on_host, zoom in Hrm. destruct (fs_remove lp (w_host w4)) as [o k]. by injection Hrm as _ <-. }
    unfold stored. cbn. rewrite Heq. unfold on_s3, zoom in Hs3.
    destruct (deleteKey (s3Bucket conf) (trimLeadingSlashes rel) (w_s3 w)) as [[[]|] s] eqn:Hdk; [|done].
    injection Hs3 as <-. cbn. by eapply deleteKey_ret.
  - apply (sync_known p l EXISTS). cbn. rewrite Hk. rewrite lookup_delete_ne; [done|].
    intros Heq. assert (str_size rel = str_size p) as Hsz by (by rewrite Heq at 1).
    unfold p in Hsz. rewrite str_size_app in Hsz. cbn in Hsz. unfold str_size in Hsz. cbn in Hsz. lia.
Qed.
End shared.

(** * Concrete runs *)

Definition demo_shared_path : string := "faasm://data/x.txt".
Definition demo_shared_s3 : S3State :=
  mkS3 {["faasm" := true]} ({[("faasm", "data/x.txt") := [104; 105]]}, {["faasm"]}).
Definition demo_shared_world (m : gmap string FileState) (k : @K demo_host) : World :=
  mkWorld demo_shared_s3 k m [].

Lemma syncSharedFile_stable_witness :
  let w := demo_shared_world ∅ ∅ in
  let w' := (syncSharedFile demo_conf demo_shared_path "" w).2 in
  syncSharedFile demo_conf demo_shared_path "/elsewhere" w' = (Ret 0, w').
Proof.
  intros w w'. apply (syncSharedFile_stable demo_conf demo_shared_path "" "/elsewhere" w 0 w').
  apply run_fst. vm_compute. reflexivity.
Defined.

Lemma syncSharedFile_sound_witness :
  let w := demo_shared_world ∅ ∅ in
  fs_exists (sync_target demo_conf demo_shared_path "")
    (w_host (syncSharedFile demo_conf demo_shared_path "" w).2) = true.
Proof.
  intros w. apply (syncSharedFile_sound demo_conf demo_shared_path "" w); [reflexivity|].
  apply run_fst. vm_compute. reflexivity.
Defined.

Lemma syncSharedFile_stuck_witness :
  let w := demo_shared_world ∅ {["/usr/local/faasm/shared/data" := DFile [1]]} in
  let w' := (syncSharedFile demo_conf demo_shared_path "" w).2 in
  w_shared w' = <[demo_shared_path := NOT_CHECKED]> ∅ ∧
  ∀ l' w2, w_shared w2 = w_shared w' → syncSharedFile demo_conf demo_shared_path l' w2 = (Ret ENOENT, w2).
Proof.
  intros w w'. apply (syncSharedFile_stuck demo_conf demo_shared_path "" w
    (RuntimeError "Filesystem error creating directories") w'); [reflexivity|].
  apply run_fst. vm_compute. reflexivity.
Defined.

Lemma deleteSharedFile_stale_witness :
  let w := demo_shared_world {[demo_shared_path := EXISTS]} ∅ in
  let w' := (deleteSharedFile demo_conf demo_shared_path w).2 in
  stored demo_conf "data/x.txt" w' = None ∧
  syncSharedFile demo_conf demo_shared_path "" w' = (Ret 0, w').
Proof.
  intros w w'. apply (deleteSharedFile_stale demo_conf "data/x.txt" "" w w'); [reflexivity|].
  apply run_fst. vm_compute. reflexivity.
Defined.
