(* ===== verification/Codegen.v ===== *)
(** Machine code generation: the wasm of a function or shared library is
    compiled for every configured target unless its hash says this was done
    before (src/codegen/MachineCodeGenerator.cpp).  The compilers are
    parameters. *)

From S2P Require Import Prelude WasmBytes S3 Host FileLoader.

(** SHA-256, and the code generators of WAVM and WAMR. *)
Class Compilers := {
  hashBytes : list Z → list Z;
  wavmCodegen : list Z → CodegenTargetSpec → string → outcome (list Z);
  wamrCodegen : list Z → CodegenTargetSpec → bool → outcome (list Z) }.

Section codegen.
Context `{Rados} `{Host} `{Compilers} (conf : FaasmConfig).

(** The loader is the thread's one, which caches. *)
Definition doCodegen (bytes : list Z) (target : CodegenTargetSpec) (fileName : string)
    : outcome (list Z) :=
  if decide (wasmVm conf = "wamr") then wamrCodegen bytes target false
  else if decide (wasmVm conf = "sgx") then wamrCodegen bytes target true
  else wavmCodegen bytes target fileName.

Definition is_wamr : bool := bool_decide (wasmVm conf = "wamr" ∨ wasmVm conf = "sgx").

Definition loadOldHash (msg : FuncMsg) (target : CodegenTargetSpec) : M World (list Z) :=
  if is_wamr then loadFunctionWamrAotHash conf true msg target
  else if decide (wasmVm conf = "wavm") then loadFunctionObjectHash conf true msg target
  else throw (RuntimeError "Unrecognised WASM VM").

(** What the skipping branch loads. *)
Definition syncLatest (msg : FuncMsg) (target : CodegenTargetSpec) : M World unit :=
  (if decide (wasmVm conf = "wamr") then loadFunctionWamrAotHash conf true msg target
   else loadFunctionObjectFile conf true msg target) ;;
  mret ().

Definition uploadGenerated (msg : FuncMsg) (target : CodegenTargetSpec) (objBytes newHash : list Z)
    : M World unit :=
  if is_wamr then
    uploadFunctionWamrAotFile conf true msg target objBytes ;;
    uploadFunctionWamrAotHash conf true msg target newHash
  else
    uploadFunctionObjectFile conf true msg target objBytes ;;
    uploadFunctionObjectHash conf true msg target newHash.

(** The loop over the targets; finding one up to date returns from the
    function. *)
Fixpoint codegen_targets (msg : FuncMsg) (clean : bool) (bytes : list Z)
    (targets : list CodegenTargetSpec) : M World unit :=
  match targets with
  | [] => mret ()
  | target :: rest =>
      let newHash := hashBytes bytes in
      oldHash ← loadOldHash msg target;
      if negb clean && negb (bool_decide (oldHash = [])) && bool_decide (newHash = oldHash)
      then syncLatest msg target
      else
        objBytes ← lift (doCodegen bytes target (user msg +:+ "/" +:+ function msg));
        uploadGenerated msg target objBytes newHash ;;
        codegen_targets msg clean bytes rest
  end.

Definition codegenForFunction (msg : FuncMsg) (clean : bool) : M World unit :=
  bytes ← loadFunctionWasm conf true msg;
  if decide (bytes = [])
  then throw (RuntimeError ("Loaded empty bytes for " +:+ user msg +:+ "/" +:+ function msg))
  else codegen_targets msg clean bytes (codegenTargets conf).

Fixpoint codegen_shared_targets (inputPath : string) (bytes newHash : list Z)
    (targets : list CodegenTargetSpec) : M World unit :=
  match targets with
  | [] => mret ()
  | target :: rest =>
      oldHash ← loadSharedObjectObjectHash conf true inputPath target;
      if negb (bool_decide (oldHash = [])) && bool_decide (newHash = oldHash)
      then loadSharedObjectObjectFile conf true inputPath target ;; mret ()
      else
        objBytes ← lift (doCodegen bytes target inputPath);
        if is_wamr
        then throw (RuntimeError "Codegen for shared objects not supported with WAMR")
        else
          uploadSharedObjectObjectFile conf true inputPath target objBytes ;;
          uploadSharedObjectObjectHash conf true inputPath target newHash ;;
          codegen_shared_targets inputPath bytes newHash rest
  end.

Definition codegenForSharedObject (inputPath : string) : M World unit :=
  bytes ← loadSharedObjectWasm conf true inputPath;
  codegen_shared_targets inputPath bytes (hashBytes bytes) (codegenTargets conf).

(** * Theorems *)

Context `{!RadosLaws} `{!HostLaws}.

(** The keys a function's code and hash for a target are stored under. *)
Definition code_path (msg : FuncMsg) (t : CodegenTargetSpec) : string := getKey msg (FUNC_OBJECT_FILENAME t).
Definition hash_path (msg : FuncMsg) (t : CodegenTargetSpec) : string := getHashFilePath (code_path msg t).
Definition codegen_keys (msg : FuncMsg) (targets : list CodegenTargetSpec) : list string :=
  flat_map (λ t, [trimLeadingSlashes (code_path msg t); trimLeadingSlashes (hash_path msg t)]) targets.

(** An upload changes one key of the store. *)
Definition stores (path : string) (bytes : list Z) (w w' : World) : Prop :=
  stored conf path w' = Some bytes ∧
  ∀ q, trimLeadingSlashes q ≠ trimLeadingSlashes path → stored conf q w' = stored conf q w.

Lemma uploadFileBytes_stores c path local bytes w w' :
  uploadFileBytes conf c path local bytes w = (Ret (), w') → stores path bytes w w'.
Proof.
  unfold uploadFileBytes, stores. intros ([] & w1 & Hup & Hwr)%run_bind_inv.
  unfold on_s3, zoom in Hup. destruct (addKeyBytes _ _ _ _) as [[[]|e] s1] eqn:Hadd; [|done].
  injection Hup as <-. apply addKeyBytes_ret in Hadd as (Hc & Hobj & Hother).
  assert (w_s3 w' = s1) as Hs.
  { unfold when in Hwr. destruct (c && _); [|by injection Hwr as <-].
    unfold on_host, zoom in Hwr. cbn in Hwr. destruct (writeBytesToFile _ _ _) as [[[]|] k]; [|done].
    by injection Hwr as <-. }
  unfold stored. rewrite Hs. split; [done|]. intros q Hq. apply Hother. congruence.
Qed.

Lemma getFunctionObjectFile_s3 msg t w l w' :
  getFunctionObjectFile conf msg t w = (Ret l, w') → w_s3 w' = w_s3 w.
Proof. by intros [[Hs _] _]%getFunctionObjectFile_ret. Qed.

Lemma stores_from path b w w0 w' : w_s3 w0 = w_s3 w → stores path b w0 w' → stores path b w w'.
Proof. intros Hs [Hp Hq]. split; [done|]. intros q Hne. rewrite (Hq q Hne). unfold stored. by rewrite Hs. Qed.

Lemma upload_object_stores msg t b w w' :
  uploadFunctionObjectFile conf true msg t b w = (Ret (), w') → stores (code_path msg t) b w w'.
Proof.
  unfold uploadFunctionObjectFile. intros (l & w1 & Hl%getFunctionObjectFile_s3 & Hup)%run_bind_inv.
  eapply stores_from; [exact Hl|]. by eapply uploadFileBytes_stores.
Qed.

Lemma upload_hash_stores msg t b w w' :
  uploadFunctionObjectHash conf true msg t b w = (Ret (), w') → stores (hash_path msg t) b w w'.
Proof.
  unfold uploadFunctionObjectHash. intros (l & w1 & Hl%getFunctionObjectFile_s3 & Hup)%run_bind_inv.
  eapply stores_from; [exact Hl|]. by eapply uploadFileBytes_stores.
Qed.

(** Loading never changes the objects of the store. *)
Lemma loadFileBytes_keeps c path local t w b w' :
  loadFileBytes conf c path local t w = (Ret b, w') →
  cluster (w_s3 w') = cluster (w_s3 w).
Proof.
  unfold loadFileBytes. intros (w0 & w0' & [= <- <-] & Hl)%run_bind_inv.
  destruct (c && _).
  - destruct (fs_is_directory _ _); [done|]. by injection Hl as _ <-.
  - apply run_bind_inv in Hl as (b1 & w1 & Hs & Hl). apply run_bind_inv in Hl as ([] & w2 & Hw & [= <- <-]).
    unfold on_s3, zoom in Hs. destruct (getKeyBytes _ _ _ (w_s3 w)) as [[b2|e] s] eqn:Hg; [|done].
    injection Hs as <- <-. assert (cluster s = cluster (w_s3 w)) as Hcl.
    { unfold getKeyBytes in Hg. apply run_bind_inv in Hg as ([] & s1 & Hio%ioctx_cluster & Hg).
      apply run_bind_inv in Hg as (s2 & s3 & [= <- <-] & Hg).
      destruct (rados_stat _ _ _) as [e1 n1]. destruct (e1 <? 0).
      - destruct (_ && _); [|done]. injection Hg as _ <-. done.
      - destruct (rados_read _ _ _ _ _) as [n2 d2]. destruct (n2 <? 0); [done|]. by injection Hg as _ <-. }
    unfold when in Hw. destruct (_ && _); [|by injection Hw as <-].
    unfold on_host, zoom in Hw. cbn in Hw. destruct (writeBytesToFile _ _ _) as [[[]|] k]; [|done].
    by injection Hw as <-.
Qed.

(** The generated code of a target is stored with the hash of the wasm. *)
Definition generated (msg : FuncMsg) (bytes : list Z) (w : World) (t : CodegenTargetSpec) : Prop :=
  ∃ obj, doCodegen bytes t (user msg +:+ "/" +:+ function msg) = Ret obj ∧
    stored conf (code_path msg t) w = Some obj ∧ stored conf (hash_path msg t) w = Some (hashBytes bytes).

Lemma codegen_targets_clean msg bytes targets w w' :
  wasmVm conf = "wavm" → NoDup (codegen_keys msg targets) →
  codegen_targets msg true bytes targets w = (Ret (), w') →
  Forall (generated msg bytes w') targets ∧
  ∀ q, trimLeadingSlashes q ∉ codegen_keys msg targets → stored conf q w' = stored conf q w.
Proof.
  intros Hvm. assert (is_wamr = false) as Hw by (unfold is_wamr; rewrite Hvm; by apply bool_decide_eq_false_2; intros [|]).
  revert w. induction targets as [|t ts IH]; intros w Hnd Hrun.
  { injection Hrun as <-. by split. }
  cbn [codegen_targets] in Hrun. apply run_bind_inv in Hrun as (old & w1 & Hold & Hrun).
  cbn [negb andb] in Hrun. apply run_bind_inv in Hrun as (obj & w2 & Hobj & Hrun).
  injection Hobj as Hobj <-. apply run_bind_inv in Hrun as ([] & w3 & Hup & Hrun).
  unfold uploadGenerated in Hup. rewrite Hw in Hup. apply run_bind_inv in Hup as ([] & w4 & Hu1 & Hu2).
  apply upload_object_stores in Hu1 as [Ho1 Ho2]. apply upload_hash_stores in Hu2 as [Hh1 Hh2].
  assert (∀ q, stored conf q w1 = stored conf q w) as Hsame.
  { intros q. unfold loadOldHash in Hold. rewrite Hw, decide_True in Hold by done.
    unfold loadFunctionObjectHash in Hold. apply run_bind_inv in Hold as (l & w5 & Hl%getFunctionObjectFile_s3 & Hold).
    apply loadFileBytes_keeps in Hold. unfold stored. by rewrite Hold, Hl. }
  cbn [codegen_keys flat_map app] in Hnd. apply NoDup_cons in Hnd as [Hn1 Hnd].
  apply NoDup_cons in Hnd as [Hn2 Hnd].
  destruct (IH w3 Hnd Hrun) as [Hall Hkeep]. split.
  - constructor; [|done]. exists obj. split; [done|]. split.
    + rewrite Hkeep by (intros Hin; apply Hn1; by right). rewrite Hh2; [done|].
      intros Heq. apply Hn1. rewrite Heq. by left.
    + by rewrite Hkeep.
  - intros q Hq. cbn [codegen_keys flat_map app] in Hq.
    rewrite !not_elem_of_cons in Hq. destruct Hq as (Hq1 & Hq2 & Hq3).
    by rewrite Hkeep, Hh2, Ho2, Hsame.
Qed.

(** A clean code generation that returns has, for every configured target,
    stored the code generated from the function's wasm together with the wasm's
    hash, and changed no other key. *)
Theorem codegenForFunction_clean msg w w' :
  wasmVm conf = "wavm" → NoDup (codegen_keys msg (codegenTargets conf)) →
  codegenForFunction msg true w = (Ret (), w') →
  ∃ bytes, (loadFunctionWasm conf true msg w).1 = Ret bytes ∧ bytes ≠ [] ∧
    Forall (generated msg bytes w') (codegenTargets conf).
Proof.
  intros Hvm Hnd. unfold codegenForFunction. intros (bytes & w1 & Hload & Hrun)%run_bind_inv.
  destruct (decide (bytes = [])) as [|Hne]; [done|].
  exists bytes. rewrite Hload. split; [done|]. split; [done|].
  by eapply codegen_targets_clean.
Qed.

(** Loading never changes the objects of the store, whichever file it loads. *)
Lemma load_in_dir_keeps dir msg name w path w' :
  (p ← getDir dir msg true; mret (path_append p name)) w = (Ret path, w') →
  w_s3 w' = w_s3 w.
Proof.
  intros (p & w1 & Hd & [= _ <-])%run_bind_inv.
  unfold getDir in Hd. apply run_bind_inv in Hd as ([] & w2 & Hc & [= _ <-]).
  by apply createDirectories_ret in Hc as [Hc _].
Qed.

Lemma load_keeps (getPath : M World string) (load : string → M World (list Z)) w b w' :
  (∀ p w1, getPath w = (Ret p, w1) → w_s3 w1 = w_s3 w) →
  (∀ p w1 b w2, load p w1 = (Ret b, w2) → cluster (w_s3 w2) = cluster (w_s3 w1)) →
  (getPath ≫= load) w = (Ret b, w') → cluster (w_s3 w') = cluster (w_s3 w).
Proof.
  intros Hp Hl (p & w1 & Hgp%Hp & Hld%Hl)%run_bind_inv. by rewrite Hld, Hgp.
Qed.

Lemma loadFunctionWasm_keeps msg w b w' :
  loadFunctionWasm conf true msg w = (Ret b, w') → cluster (w_s3 w') = cluster (w_s3 w).
Proof.
  apply load_keeps; [intros p w1; apply load_in_dir_keeps|intros p w1 b1 w2; apply loadFileBytes_keeps].
Qed.

Lemma loadOldHash_keeps msg t w b w' :
  loadOldHash msg t w = (Ret b, w') → cluster (w_s3 w') = cluster (w_s3 w).
Proof.
  unfold loadOldHash. destruct is_wamr; [|destruct (decide _); [|done]];
    (apply load_keeps; [intros p w1; apply load_in_dir_keeps|intros p w1 b1 w2; apply loadFileBytes_keeps]).
Qed.

Lemma syncLatest_keeps msg t w w' :
  syncLatest msg t w = (Ret (), w') → cluster (w_s3 w') = cluster (w_s3 w).
Proof.
  unfold syncLatest. intros (b & w1 & Hl & [= <-])%run_bind_inv. revert Hl.
  destruct (decide _);
    (apply load_keeps; [intros p w2; apply load_in_dir_keeps|intros p w2 b1 w3; apply loadFileBytes_keeps]).
Qed.

Lemma codegen_targets_stops msg bytes t rest w :
  hashBytes bytes ≠ [] → (loadOldHash msg t w).1 = Ret (hashBytes bytes) →
  codegen_targets msg false bytes (t :: rest) w = syncLatest msg t (loadOldHash msg t w).2.
Proof.
  intros Hne Hold. cbn [codegen_targets]. rewrite run_bind, (run_fst _ _ _ Hold).
  cbn [snd]. by rewrite bool_decide_eq_false_2, bool_decide_eq_true_2 by done.
Qed.

(** The first target that is up to date ends the generation for all: when it
    heads the list of targets, nothing is stored for the others, whatever the
    store has for them. *)
Theorem codegenForFunction_skips_rest msg t rest bytes w w1 w' :
  codegenTargets conf = t :: rest → hashBytes bytes ≠ [] → bytes ≠ [] →
  loadFunctionWasm conf true msg w = (Ret bytes, w1) →
  (loadOldHash msg t w1).1 = Ret (hashBytes bytes) →
  codegenForFunction msg false w = (Ret (), w') →
  ∀ q, stored conf q w' = stored conf q w.
Proof.
  intros Ht Hh Hb Hload Hold. unfold codegenForFunction.
  erewrite run_bind_ret by exact Hload. rewrite decide_False by done.
  rewrite Ht, codegen_targets_stops by done. intros Hs%syncLatest_keeps q.
  pose proof (loadOldHash_keeps msg t w1 _ _ (run_fst _ _ _ Hold)) as Hk.
  apply loadFunctionWasm_keeps in Hload. unfold stored. by rewrite Hs, Hk, Hload.
Qed.

(** With the SGX runtime the branch for code that is up to date loads WAVM's
    object file, which this runtime never makes: running the generation again
    throws. *)
Theorem codegenForFunction_sgx_again msg t rest bytes w w1 w2 local w3 :
  wasmVm conf = "sgx" → codegenTargets conf = t :: rest → hashBytes bytes ≠ [] → bytes ≠ [] →
  loadFunctionWasm conf true msg w = (Ret bytes, w1) →
  loadOldHash msg t w1 = (Ret (hashBytes bytes), w2) →
  getFunctionObjectFile conf msg t w2 = (Ret local, w3) →
  fs_exists local (w_host w3) = false → connected (s3Bucket conf) (w_s3 w3) →
  stored conf (code_path msg t) w3 = None →
  (codegenForFunction msg false w).1 = Throw (RuntimeError "Key cannot be statted.").
Proof.
  intros Hvm Ht Hh Hb Hload Hold Hget Hno Hcon Hnone. unfold codegenForFunction.
  erewrite run_bind_ret by exact Hload. rewrite decide_False by done.
  rewrite Ht, codegen_targets_stops by (done || by rewrite Hold). rewrite Hold. cbn [snd].
  unfold syncLatest. rewrite decide_False by (rewrite Hvm; discriminate).
  unfold loadFunctionObjectFile. rewrite run_bind. rewrite run_bind, Hget.
  unfold loadFileBytes. rewrite run_bind. unfold get. cbn [andb]. rewrite Hno.
  rewrite run_bind. erewrite run_on_s3 by (by apply getKeyBytes_missing). done.
Qed.
End codegen.

(** * Concrete runs *)

#[export] Instance demo_compilers : Compilers := {
  hashBytes bytes := [Z.of_nat (length bytes); default 0 (last bytes)];
  wavmCodegen bytes t name := Ret (rev bytes ++ bytes_of_string (arch t));
  wamrCodegen bytes t sgx := Ret (bytes ++ bytes_of_string (cpu t)) }.

Definition demo_sgx_conf : FaasmConfig :=
  mkConf "/usr/local/faasm/wasm" "/usr/local/faasm/object" "/usr/local/faasm/runtime_root"
    "/usr/local/faasm/shared" "faasm" "sgx" [demo_targetA] "off".

Lemma codegenForFunction_clean_witness :
  ∃ bytes, (loadFunctionWasm demo_conf true demo_func demo_world).1 = Ret bytes ∧ bytes ≠ [] ∧
    Forall (generated demo_conf demo_func bytes (codegenForFunction demo_conf demo_func true demo_world).2)
      (codegenTargets demo_conf).
Proof.
  apply (codegenForFunction_clean demo_conf demo_func demo_world); [reflexivity| |].
  - apply (bool_decide_unpack _). vm_compute. exact I.
  - apply run_fst. vm_compute. reflexivity.
Defined.

(** A world in which the code of the first target has been generated. *)
Definition demo_generated : World :=
  (codegen_targets demo_conf demo_func true [0; 97; 115; 109] [demo_targetA] demo_world).2.

Lemma codegenForFunction_skips_rest_witness :
  stored demo_conf (code_path demo_func demo_targetB)
    (codegenForFunction demo_conf demo_func false demo_generated).2 = None.
Proof.
  trans (stored demo_conf (code_path demo_func demo_targetB) demo_generated).
  - apply (codegenForFunction_skips_rest demo_conf demo_func demo_targetA [demo_targetB] [0; 97; 115; 109]
      demo_generated (loadFunctionWasm demo_conf true demo_func demo_generated).2).
    + reflexivity.
    + discriminate.
    + discriminate.
    + apply run_fst. vm_compute. reflexivity.
    + vm_compute. reflexivity.
    + apply run_fst. vm_compute. reflexivity.
  - vm_compute. reflexivity.
Defined.

Lemma codegenForFunction_sgx_again_witness :
  let w := (codegenForFunction demo_sgx_conf demo_func true demo_world).2 in
  (codegenForFunction demo_sgx_conf demo_func false w).1 = Throw (RuntimeError "Key cannot be statted.").
Proof.
  intros w. set (w1 := (loadFunctionWasm demo_sgx_conf true demo_func w).2).
  set (w2 := (loadOldHash demo_sgx_conf demo_func demo_targetA w1).2).
  apply (codegenForFunction_sgx_again demo_sgx_conf demo_func demo_targetA [] [0; 97; 115; 109] w w1 w2
    "/usr/local/faasm/object/u/f/function.wasm.x86_64.skylake.o"
    (getFunctionObjectFile demo_sgx_conf demo_func demo_targetA w2).2);
    first [discriminate | apply run_fst; vm_compute; reflexivity | vm_compute; reflexivity].
Defined.
