(* ===== verification/Natives.v ===== *)
(** The functions that a module on WAMR, or in the enclave, can import: their tables
    (src/wamr, src/enclave/inside), with the signatures that tell WAMR how to pass
    arguments, and their registration (native.cpp). *)

From Stdlib Require Import Ascii.
From S2P Require Import Prelude.

(** * Signatures *)

(** The types of C that matter to a call. *)
Inductive c_kind : Type := CInt32 | CInt64 | CPtr.
#[export] Instance c_kind_eq_dec : EqDecision c_kind.
Proof. solve_decision. Defined.

(** An entry of a table: the name, the signature, and the types of the parameters
    (after the environment) and of the result of the function behind it. *)
Record NativeSymbol := mkNative {
  ns_symbol : string; ns_signature : string; ns_params : list c_kind; ns_result : option c_kind }.

(** What WAMR passes for a letter: [*] and [$] are native pointers, [~] the length of
    the buffer before it. *)
Definition letter_kind (a : ascii) : option c_kind :=
  if bool_decide (a = "i"%char ∨ a = "~"%char) then Some CInt32
  else if bool_decide (a = "I"%char) then Some CInt64
  else if bool_decide (a = "*"%char ∨ a = "$"%char) then Some CPtr
  else None.

(** The letters up to the bracket, and what follows it. *)
Fixpoint split_bracket (l : list ascii) : option (list ascii * list ascii) :=
  match l with
  | [] => None
  | a :: l => if bool_decide (a = ")"%char) then Some ([], l)
              else '(x, y) ← split_bracket l; Some (a :: x, y)
  end.
Definition parse_signature (sig : string) : option (list c_kind * option c_kind) :=
  match String.list_ascii_of_string sig with
  | a :: l =>
      if bool_decide (a = "("%char) then
        '(args, res) ← split_bracket l;
        params ← mapM letter_kind args;
        match res with
        | [] => Some (params, None)
        | [r] => k ← letter_kind r; Some (params, Some k)
        | _ => None
        end
      else None
  | [] => None
  end.

(** WAMR passes what the function takes. *)
Definition well_typed (n : NativeSymbol) : bool :=
  bool_decide (parse_signature (ns_signature n) = Some (ns_params n, ns_result n)).

(** * The tables *)

(** src/wamr/chaining.cpp *)
Definition getFaasmChainingApi : list NativeSymbol := [
  mkNative "__faasm_chain_name" "($$i)i" [CPtr; CPtr; CInt32] (Some CInt32)].

(** src/wamr/dynlink.cpp *)
Definition getFaasmDynlinkApi : list NativeSymbol := [
  mkNative "dlopen" "($i)i" [CPtr; CInt32] (Some CInt32);
  mkNative "dlsym" "(*$)i" [CPtr; CPtr] (Some CInt32);
  mkNative "dlclose" "(*)i" [CPtr] (Some CInt32)].

(** src/wamr/env.cpp *)
Definition getFaasmWasiEnvApi : list NativeSymbol := [
  mkNative "args_get" "(**)i" [CPtr; CPtr] (Some CInt32);
  mkNative "args_sizes_get" "(**)i" [CPtr; CPtr] (Some CInt32);
  mkNative "environ_get" "(**)i" [CPtr; CPtr] (Some CInt32);
  mkNative "environ_sizes_get" "(**)i" [CPtr; CPtr] (Some CInt32);
  mkNative "proc_exit" "(i)" [CInt32] None].

(** src/wamr/filesystem.cpp *)
Definition getFaasmFilesystemApi : list NativeSymbol := [
  mkNative "__wasi_fd_dup" "(i*)i" [CInt32; CPtr] (Some CInt32);
  mkNative "dup" "(i)i" [CInt32] (Some CInt32);
  mkNative "tempnam" "(ii)i" [CInt32; CInt32] (Some CInt32)].

(** src/wamr/filesystem.cpp *)
Definition getFaasmWasiFilesystemApi : list NativeSymbol := [
  mkNative "fd_close" "(i)i" [CInt32] (Some CInt32);
  mkNative "fd_fdstat_get" "(i*)i" [CInt32; CPtr] (Some CInt32);
  mkNative "fd_fdstat_set_flags" "(ii)i" [CInt32; CInt32] (Some CInt32);
  mkNative "fd_filestat_get" "(i*)i" [CInt32; CPtr] (Some CInt32);
  mkNative "fd_prestat_dir_name" "(i*~)i" [CInt32; CPtr; CPtr] (Some CInt32);
  mkNative "fd_prestat_get" "(i*)i" [CInt32; CPtr] (Some CInt32);
  mkNative "fd_read" "(i*i*)i" [CInt32; CPtr; CInt32; CPtr] (Some CInt32);
  mkNative "fd_readdir" "(i*~I*)i" [CInt32; CPtr; CPtr; CInt64; CInt32] (Some CInt32);
  mkNative "fd_seek" "(iIi*)i" [CInt32; CInt64; CInt32; CPtr] (Some CInt32);
  mkNative "fd_write" "(i*i*)i" [CInt32; CPtr; CInt32; CPtr] (Some CInt32);
  mkNative "path_create_directory" "(i*~)i" [CInt32; CPtr; CPtr] (Some CInt32);
  mkNative "path_filestat_get" "(ii*~*)i" [CInt32; CInt32; CPtr; CInt32; CPtr] (Some CInt32);
  mkNative "path_link" "(ii*~i*~)i" [CInt32; CInt32; CPtr; CPtr; CInt32; CPtr; CPtr] (Some CInt32);
  mkNative "path_open" "(ii*~iIIi*)i" [CInt32; CInt32; CPtr; CInt32; CInt32; CInt64; CInt64; CInt32; CPtr] (Some CInt32);
  mkNative "path_readlink" "(i*~*~*)i" [CInt32; CPtr; CInt32; CPtr; CInt32; CPtr] (Some CInt32);
  mkNative "path_remove_directory" "(i*~)i" [CInt32; CPtr; CPtr] (Some CInt32);
  mkNative "path_rename" "(i*~i*~)i" [CInt32; CPtr; CInt32; CInt32; CPtr; CInt32] (Some CInt32);
  mkNative "path_symlink" "(*~i*~)i" [CPtr; CInt32; CInt32; CPtr; CInt32] (Some CInt32);
  mkNative "path_unlink_file" "(i*~)i" [CInt32; CPtr; CInt32] (Some CInt32)].

(** src/wamr/funcs.cpp *)
Definition getFaasmFunctionsApi : list NativeSymbol := [
  mkNative "__faasm_write_output" "($i)" [CPtr; CInt32] None;
  mkNative "__faasm_read_input" "($i)i" [CPtr; CInt32] (Some CInt32);
  mkNative "__faasm_chain_ptr" "(i$i)i" [CInt32; CPtr; CInt32] (Some CInt32);
  mkNative "__faasm_await_call" "(i)i" [CInt32] (Some CInt32)].

(** src/wamr/memory.cpp *)
Definition getFaasmMemoryApi : list NativeSymbol := [
  mkNative "__sbrk" "(i)i" [CInt32] (Some CInt32);
  mkNative "mmap" "(iiiiiI)i" [CInt32; CInt32; CInt32; CInt32; CInt32; CInt64] (Some CInt32);
  mkNative "munmap" "(ii)i" [CInt32; CInt32] (Some CInt32)].

(** src/wamr/pthread.cpp *)
Definition getFaasmPthreadApi : list NativeSymbol := [
  mkNative "pthread_create" "(iiii)i" [CInt32; CInt32; CInt32; CInt32] (Some CInt32);
  mkNative "pthread_join" "(ii)i" [CInt32; CInt32] (Some CInt32);
  mkNative "pthread_once" "(ii)i" [CInt32; CInt32] (Some CInt32);
  mkNative "pthread_mutex_init" "(ii)i" [CInt32; CInt32] (Some CInt32);
  mkNative "pthread_mutex_lock" "(i)i" [CInt32] (Some CInt32);
  mkNative "pthread_mutex_unlock" "(i)i" [CInt32] (Some CInt32);
  mkNative "pthread_mutex_destroy" "(i)i" [CInt32] (Some CInt32);
  mkNative "pthread_cond_init" "(ii)i" [CInt32; CInt32] (Some CInt32);
  mkNative "pthread_cond_signal" "(i)i" [CInt32] (Some CInt32);
  mkNative "pthread_cond_wait" "(ii)i" [CInt32; CInt32] (Some CInt32);
  mkNative "pthread_cond_broadcast" "(i)i" [CInt32] (Some CInt32);
  mkNative "pthread_cond_destroy" "(i)i" [CInt32] (Some CInt32);
  mkNative "pthread_mutexattr_init" "(i)i" [CInt32] (Some CInt32);
  mkNative "pthread_mutexattr_destroy" "(i)i" [CInt32] (Some CInt32);
  mkNative "pthread_equal" "(ii)i" [CInt32; CInt32] (Some CInt32)].

(** src/wamr/state.cpp *)
Definition getFaasmStateApi : list NativeSymbol := [
  mkNative "__faasm_read_state" "($$i)i" [CPtr; CPtr; CInt32] (Some CInt32);
  mkNative "__faasm_read_state_ptr" "($i)i" [CPtr; CInt32] (Some CInt32);
  mkNative "__faasm_write_state" "($$i)" [CPtr; CPtr; CInt32] None;
  mkNative "__faasm_push_state" "($)" [CPtr] None].

(** src/wamr/stubs.cpp *)
Definition getFaasmStubs : list NativeSymbol := [
  mkNative "__cxa_allocate_exception" "(i)i" [CInt32] (Some CInt32);
  mkNative "__cxa_throw" "(iii)" [CInt32; CInt32; CInt32] None;
  mkNative "shm_open" "($ii)i" [CPtr; CInt32; CInt32] (Some CInt32);
  mkNative "syscall" "(ii)i" [CInt32; CInt32] (Some CInt32)].

(** src/wamr/timing.cpp *)
Definition getFaasmWasiTimingApi : list NativeSymbol := [
  mkNative "clock_time_get" "(iI*)i" [CInt32; CInt64; CPtr] (Some CInt32);
  mkNative "poll_oneoff" "(**i*)i" [CPtr; CPtr; CInt32; CPtr] (Some CInt32)].

(** src/enclave/inside/env.cpp *)
Definition sgx_getFaasmWasiEnvApi : list NativeSymbol := [
  mkNative "args_get" "(**)i" [CPtr; CPtr] (Some CInt32);
  mkNative "args_sizes_get" "(**)i" [CPtr; CPtr] (Some CInt32);
  mkNative "proc_exit" "(i)" [CInt32] None].

(** src/enclave/inside/filesystem.cpp *)
Definition sgx_getFaasmWasiFilesystemApi : list NativeSymbol := [
  mkNative "fd_close" "(i)i" [CInt32] (Some CInt32);
  mkNative "fd_seek" "(iIii)i" [CInt32; CInt64; CInt32; CInt32] (Some CInt32);
  mkNative "fd_write" "(iiii)i" [CInt32; CInt32; CInt32; CInt32] (Some CInt32);
  mkNative "fd_fdstat_get" "(ii)i" [CInt32; CInt32] (Some CInt32)].

(** src/enclave/inside/funcs.cpp *)
Definition sgx_getFaasmFunctionsApi : list NativeSymbol := [
  mkNative "__faasm_read_input" "($i)i" [CPtr; CInt32] (Some CInt32);
  mkNative "__faasm_write_output" "($i)" [CPtr; CInt32] None;
  mkNative "__faasm_chain_name" "($$i)i" [CPtr; CPtr; CInt32] (Some CInt32);
  mkNative "__faasm_chain_ptr" "(*$i)i" [CInt32; CPtr; CInt32] (Some CInt32);
  mkNative "__faasm_await_call" "(i)i" [CInt32] (Some CInt32);
  mkNative "__faasm_await_call_output" "(i)i" [CInt32; CPtr; CInt32] (Some CInt32)].

(** src/enclave/inside/memory.cpp *)
Definition sgx_getFaasmMemoryApi : list NativeSymbol := [
  mkNative "__sbrk" "(i)i" [CInt32] (Some CInt32)].

(** src/enclave/inside/pthread.cpp *)
Definition sgx_getFaasmPthreadApi : list NativeSymbol := [
  mkNative "pthread_mutex_init" "(ii)i" [CInt32; CInt32] (Some CInt32);
  mkNative "pthread_mutex_lock" "(i)i" [CInt32] (Some CInt32);
  mkNative "pthread_mutex_unlock" "(i)i" [CInt32] (Some CInt32);
  mkNative "pthread_cond_broadcast" "(i)i" [CInt32] (Some CInt32);
  mkNative "pthread_mutexattr_init" "(i)i" [CInt32] (Some CInt32);
  mkNative "pthread_mutexattr_destroy" "(i)i" [CInt32] (Some CInt32);
  mkNative "pthread_equal" "(ii)i" [CInt32; CInt32] (Some CInt32)].

(** * Registration *)

(** The symbols of the process, each with the module that imports name. *)
Abbreviation Natives := (list (string * NativeSymbol)).
Definition doSymbolRegistration (f : list NativeSymbol) : M Natives unit :=
  modify (λ s, s ++ (pair "env" <$> f)).
Definition doWasiSymbolRegistration (f : list NativeSymbol) : M Natives unit :=
  modify (λ s, s ++ (pair "wasi_snapshot_preview1" <$> f)).

Definition initialiseWAMRNatives : M Natives unit :=
  doSymbolRegistration getFaasmChainingApi ;;
  doSymbolRegistration getFaasmDynlinkApi ;;
  doSymbolRegistration getFaasmFilesystemApi ;;
  doSymbolRegistration getFaasmFunctionsApi ;;
  doSymbolRegistration getFaasmMemoryApi ;;
  doSymbolRegistration getFaasmPthreadApi ;;
  doSymbolRegistration getFaasmStateApi ;;
  doSymbolRegistration getFaasmStubs ;;
  doWasiSymbolRegistration getFaasmWasiEnvApi ;;
  doWasiSymbolRegistration getFaasmWasiFilesystemApi ;;
  doWasiSymbolRegistration getFaasmWasiTimingApi.

Definition initialiseSGXWAMRNatives : M Natives unit :=
  doSymbolRegistration sgx_getFaasmFunctionsApi ;;
  doSymbolRegistration sgx_getFaasmMemoryApi ;;
  doSymbolRegistration sgx_getFaasmPthreadApi ;;
  doWasiSymbolRegistration sgx_getFaasmWasiEnvApi ;;
  doWasiSymbolRegistration sgx_getFaasmWasiFilesystemApi.

(** * The functions of the enclave that do nothing (src/enclave/inside/pthread.cpp,
    env.cpp, filesystem.cpp) *)

Section ignored.
Context {S : Type}.
Definition sgx_pthread_mutex_init_wrapper (a b : Z) : M S Z := mret 0.
Definition sgx_pthread_mutex_lock_wrapper (a : Z) : M S Z := mret 0.
Definition sgx_pthread_mutex_unlock_wrapper (a : Z) : M S Z := mret 0.
Definition sgx_pthread_cond_broadcast_wrapper (a : Z) : M S Z := mret 0.
Definition sgx_pthread_mutexattr_init_wrapper (a : Z) : M S Z := mret 0.
Definition sgx_pthread_mutexattr_destroy_wrapper (a : Z) : M S Z := mret 0.
Definition sgx_pthread_equal_wrapper (a b : Z) : M S Z := mret 0.
Definition sgx_wasi_fd_close (a : Z) : M S Z := mret 0.
Definition sgx_wasi_fd_seek (a b c d : Z) : M S Z := mret 0.
Definition sgx_wasi_fd_write (a b c d : Z) : M S Z := mret 0.
Definition sgx_wasi_fd_fdstat_get (a b : Z) : M S Z := mret 0.
Definition sgx_wasi_proc_exit (returnCode : Z) : M S unit := mret ().
End ignored.

(** * What is registered *)

Definition registered (f : M Natives unit) : Natives := (f []).2.
Definition mistyped (f : M Natives unit) : list string :=
  ns_symbol <$> filter (λ n, well_typed n = false) (snd <$> registered f).

Lemma natives_append l : initialiseWAMRNatives l = (Ret (), l ++ registered initialiseWAMRNatives).
Proof.
  unfold registered, initialiseWAMRNatives, doSymbolRegistration, doWasiSymbolRegistration, modify.
  rewrite !run_bind. cbn [app snd]. by rewrite <- !app_assoc.
Qed.

(** Every signature parses, and no module has a symbol twice. *)
Theorem natives_distinct :
  NoDup ((λ n, (n.1, ns_symbol n.2)) <$> registered initialiseWAMRNatives) ∧
  NoDup ((λ n, (n.1, ns_symbol n.2)) <$> registered initialiseSGXWAMRNatives) ∧
  Forall (λ n, is_Some (parse_signature (ns_signature n.2)))
    (registered initialiseWAMRNatives ++ registered initialiseSGXWAMRNatives).
Proof. split_and!; (apply (bool_decide_eq_true_1 _); vm_compute; reflexivity). Qed.

(** The functions that WAMR calls with arguments of other types than they take are
    those that only throw, but for the length of [fd_prestat_dir_name], which is not
    read; in the enclave, one gets a pointer for its number, and one gets a single
    argument for its three. *)
Theorem natives_mistyped :
  mistyped initialiseWAMRNatives =
    ["fd_prestat_dir_name"; "fd_readdir"; "path_create_directory"; "path_link"; "path_remove_directory"] ∧
  mistyped initialiseSGXWAMRNatives = ["__faasm_chain_ptr"; "__faasm_await_call_output"].
Proof. split; vm_compute; reflexivity. Qed.
