(* ===== verification/Compile.v ===== *)
(** The code generators behind [Codegen]: WAVM (src/wavm/codegen.cpp) and the
    ahead-of-time compiler of WAMR (src/wamr/codegen.cpp), which makes objects that
    have to be destroyed and writes a file that has to be removed. *)

From S2P Require Import Prelude WasmBytes S3 Host FileLoader Codegen Natives.

(** * WAVM *)

(** faabric's [isWasm]; the parsers of WAVM, with SIMD enabled; precompiling. *)
Class WavmTools := {
  wt_isWasm : list Z → bool;
  ModuleIR : Type;
  loadBinary : list Z → option ModuleIR;
  parseText : list Z → option ModuleIR;
  precompileModule : ModuleIR → string → string → list Z }.

(** [wavmCodegen]; the name of the file is for the log. *)
Definition wavm_parse `{WavmTools} (bytes : list Z) : outcome ModuleIR :=
  if wt_isWasm bytes then
    match loadBinary bytes with
    | Some m => Ret m
    | None => Throw (RuntimeError "Failed to parse wasm binary")
    end
  else
    match parseText bytes with
    | Some m => Ret m
    | None => Throw (RuntimeError "Failed to parse non-wasm file")
    end.
Definition wavm_codegen `{WavmTools} (bytes : list Z) (target : CodegenTargetSpec) (fileName : string)
    : outcome (list Z) :=
  match wavm_parse bytes with
  | Ret moduleIR => Ret (precompileModule moduleIR (arch target) (cpu target))
  | Throw e => Throw e
  end.

(** * WAMR *)

Record AOTCompOption := mkAOTCompOption {
  opt_level : Z; size_level : Z; output_format : string; bounds_checks : Z; is_jit_mode : bool;
  enable_simd : bool; target_arch : string; target_cpu : string; is_sgx_platform : bool }.

Definition aot_option (target : CodegenTargetSpec) (isSgx : bool) : AOTCompOption :=
  mkAOTCompOption 3 (if isSgx then 1 else 3) "AOT_FORMAT_FILE" 2 false false (arch target) (cpu target) isSgx.

(** The compiler of WAMR: its objects, whether its functions succeed, and emitting a
    file; the name of a temporary file. *)
Class AotCompiler `{Host} := {
  aot_isWasm : list Z → bool;
  runtime_init : bool;
  AotModule : Type; CompData : Type; CompContext : Type;
  wasm_runtime_load : list Z → option AotModule;
  aot_create_comp_data : AotModule → option CompData;
  aot_create_comp_context : CompData → AOTCompOption → option CompContext;
  aot_compile_wasm : CompContext → bool;
  aot_emit_aot_file : CompContext → CompData → string → K → bool * K;
  unique_path : K → string }.

(** An emitted file holds an image of the module; nothing but the file is touched, and
    its name was free. *)
Class AotCompilerLaws `{AotCompiler} := {
  aot_image : CompContext → CompData → option (list Z);
  emit_image : ∀ c d p k,
    (aot_emit_aot_file c d p k).1 = (if aot_image c d is Some _ then true else false) ∧
    (∀ b, aot_image c d = Some b → readFileToBytes p (aot_emit_aot_file c d p k).2 = b);
  emit_keeps : ∀ c d p k q, q ≠ p →
    fs_exists q (aot_emit_aot_file c d p k).2 = fs_exists q k ∧
    readFileToBytes q (aot_emit_aot_file c d p k).2 = readFileToBytes q k;
  unique_free : ∀ k, fs_exists (unique_path k) k = false;
  remove_keeps : ∀ p k q, q ≠ p →
    fs_exists q (fs_remove p k).2 = fs_exists q k ∧ readFileToBytes q (fs_remove p k).2 = readFileToBytes q k }.

Inductive aot_object : Type := OModule | OData | OContext.
#[export] Instance aot_object_eq_dec : EqDecision aot_object.
Proof. solve_decision. Defined.
Inductive aot_event : Type := Created (o : aot_object) | Destroyed (o : aot_object).

(** The runtime's flag, what happened to objects, and the host. *)
Record AotState `{Host} := mkAotState {
  as_initialised : bool; as_natives : list (string * NativeSymbol); as_events : list aot_event; as_host : K }.
Arguments mkAotState {_} _ _ _ _.

Section wamr.
Context `{AotCompiler}.
Abbreviation AotM := (M AotState).

Definition record (e : aot_event) (s : AotState) : AotState :=
  mkAotState (as_initialised s) (as_natives s) (as_events s ++ [e]) (as_host s).
Definition on_aot_host {A} : M K A → AotM A :=
  zoom as_host (λ k s, mkAotState (as_initialised s) (as_natives s) (as_events s) k).

(** A [unique_ptr] with its deleter, around the rest of the function: it throws when it
    is null, and destroys its object however the rest ends. *)
Definition with_unique {X A} (o : aot_object) (made : option X) (what : string) (rest : X → AotM A) : AotM A :=
  match made with
  | None => throw (RuntimeError what)
  | Some x => λ s, let '(r, s') := rest x (record (Created o) s) in (r, record (Destroyed o) s')
  end.

(** [initialiseWAMRGlobally]: the runtime, and faasm's own functions, once. *)
Definition initialiseGlobally : AotM unit :=
  s ← get;
  if as_initialised s then mret ()
  else if runtime_init then
    zoom as_natives (λ n s, mkAotState (as_initialised s) n (as_events s) (as_host s)) initialiseWAMRNatives ;;
    modify (λ s, mkAotState true (as_natives s) (as_events s) (as_host s))
  else throw (RuntimeError "Failed to initialise WAMR").

Definition emitToBytes (c : CompContext) (d : CompData) : AotM (list Z) :=
  s ← get;
  let temp := unique_path (as_host s) in
  aotSuccess ← on_aot_host (λ k, let '(b, k') := aot_emit_aot_file c d temp k in (Ret b, k'));
  if negb aotSuccess then throw (RuntimeError "Failed to emit AOT file")
  else
    objBytes ← on_aot_host (gets (readFileToBytes temp));
    on_aot_host (fs_remove temp) ;;
    mret objBytes.

(** [wamrCodegen] *)
Definition wamr_codegen (wasmBytes : list Z) (target : CodegenTargetSpec) (isSgx : bool) : AotM (list Z) :=
  initialiseGlobally ;;
  if negb (aot_isWasm wasmBytes) then throw (RuntimeError "File is not a wasm binary")
  else
    with_unique OModule (wasm_runtime_load wasmBytes) "Failed to load wasm module" (λ wasmModule,
    with_unique OData (aot_create_comp_data wasmModule) "Failed to create compilation data" (λ compileData,
    with_unique OContext (aot_create_comp_context compileData (aot_option target isSgx))
      "Failed to create WAMR compilation context" (λ compileContext,
    if negb (aot_compile_wasm compileContext) then throw (RuntimeError "Failed to run codegen")
    else emitToBytes compileContext compileData))).

(** * What it gives *)

Context {HL : HostLaws} {AL : AotCompilerLaws}.

(** The result as a function of the input alone, once the runtime is up. *)
Definition aot_compiled (wasmBytes : list Z) (option : AOTCompOption) : outcome (list Z) :=
  match wasm_runtime_load wasmBytes with
  | None => Throw (RuntimeError "Failed to load wasm module")
  | Some m =>
      match aot_create_comp_data m with
      | None => Throw (RuntimeError "Failed to create compilation data")
      | Some d =>
          match aot_create_comp_context d option with
          | None => Throw (RuntimeError "Failed to create WAMR compilation context")
          | Some c =>
              if negb (aot_compile_wasm c) then Throw (RuntimeError "Failed to run codegen")
              else match aot_image c d with
                   | None => Throw (RuntimeError "Failed to emit AOT file")
                   | Some b => Ret b
                   end
          end
      end
  end.
Definition aot_result (wasmBytes : list Z) (target : CodegenTargetSpec) (isSgx : bool) : outcome (list Z) :=
  if negb (aot_isWasm wasmBytes) then Throw (RuntimeError "File is not a wasm binary")
  else aot_compiled wasmBytes (aot_option target isSgx).

(** The generators as [Codegen] uses them. *)
Definition source_compilers `{WavmTools} (hash : list Z → list Z) : Compilers :=
  {| hashBytes := hash; wavmCodegen := wavm_codegen; wamrCodegen := aot_result |}.

(** What is alive after events, the last object first: each is destroyed once, before
    those made before it. *)
Fixpoint alive (l : list aot_object) (evs : list aot_event) : option (list aot_object) :=
  match evs with
  | [] => Some l
  | Created o :: evs => alive (o :: l) evs
  | Destroyed o :: evs =>
      match l with o' :: l => if decide (o = o') then alive l evs else None | [] => None end
  end.

Lemma alive_app l evs evs' : alive l (evs ++ evs') = l' ← alive l evs; alive l' evs'.
Proof.
  revert l. induction evs as [|[o|o] evs IH]; intros l; [done|apply IH|]. destruct l as [|o' l]; [done|].
  cbn. destruct (decide (o = o')); [apply IH|done].
Qed.

(** A run that cleans up after itself, and touches no file but the temporary one. *)
Definition tidy (s s' : AotState) : Prop :=
  as_initialised s' = as_initialised s ∧ as_natives s' = as_natives s ∧
  (∃ evs, as_events s' = as_events s ++ evs ∧ ∀ l, alive l evs = Some l) ∧
  ∀ q, q ≠ unique_path (as_host s) →
    fs_exists q (as_host s') = fs_exists q (as_host s) ∧ readFileToBytes q (as_host s') = readFileToBytes q (as_host s).

Lemma tidy_refl s : tidy s s.
Proof. split; [done|]. split; [done|]. split; [|done]. exists []. by rewrite app_nil_r. Qed.

Lemma with_unique_tidy {X A} o made what (rest : X → AotM A) s :
  (∀ x t, tidy t (rest x t).2) → tidy s (with_unique o made what rest s).2.
Proof.
  intros Hrest. unfold with_unique. destruct made as [x|]; [|apply tidy_refl].
  destruct (Hrest x (record (Created o) s)) as (Hi & Hn & (evs & Hevs & Hal) & Hfiles).
  destruct (rest x (record (Created o) s)) as [r s']. cbn [snd] in *.
  split; [exact Hi|]. split; [exact Hn|]. split; [|exact Hfiles]. exists (Created o :: evs ++ [Destroyed o]). split.
  - cbn. rewrite Hevs. cbn. by rewrite <- !app_assoc.
  - intros l. cbn [alive]. rewrite alive_app, Hal. cbn. by rewrite decide_True.
Qed.

Lemma emitToBytes_tidy c d s : tidy s (emitToBytes c d s).2.
Proof.
  unfold emitToBytes. rewrite run_bind. cbn [get]. cbv zeta. set (p := unique_path (as_host s)).
  rewrite run_bind. unfold on_aot_host at 1, zoom. pose proof (emit_keeps c d p (as_host s)) as Hk.
  destruct (aot_emit_aot_file c d p (as_host s)) as [b k]. cbn [snd] in Hk.
  assert (∀ k', (∀ q, q ≠ p → fs_exists q k' = fs_exists q k ∧ readFileToBytes q k' = readFileToBytes q k) →
    tidy s (mkAotState (as_initialised s) (as_natives s) (as_events s) k')) as Hend.
  { intros k' Hk'. split; [done|]. split; [done|]. split; [exists []; by rewrite app_nil_r|]. intros q Hq. cbn.
    destruct (Hk' q Hq) as [-> ->]. by apply Hk. }
  destruct b; cbn [negb]; [|by apply Hend]. rewrite run_bind. unfold on_aot_host at 1, zoom. cbn [gets as_host].
  rewrite run_bind. unfold on_aot_host, zoom. cbn [as_host]. pose proof (remove_keeps p k) as Hr.
  destruct (fs_remove p k) as [[[]|e] k']; by apply Hend.
Qed.

(** The result does not depend on the state. *)
Lemma emitToBytes_result c d s :
  (∀ p k, (fs_remove p k).1 = Ret ()) →
  (emitToBytes c d s).1 = match aot_image c d with
                          | Some b => Ret b
                          | None => Throw (RuntimeError "Failed to emit AOT file")
                          end ∧
  (is_Some (aot_image c d) → fs_exists (unique_path (as_host s)) (as_host (emitToBytes c d s).2) = false).
Proof.
  intros Hrm. unfold emitToBytes. rewrite run_bind. cbn [get]. cbv zeta. set (p := unique_path (as_host s)).
  rewrite run_bind. unfold on_aot_host at 1 4, zoom. destruct (emit_image c d p (as_host s)) as [Hok Himg].
  destruct (aot_emit_aot_file c d p (as_host s)) as [b k]. cbn [fst snd] in Hok, Himg.
  destruct (aot_image c d) as [bs|]; subst b; cbn [negb]; [|split; [done|by intros []]].
  rewrite run_bind. unfold on_aot_host at 1 3, zoom. cbn [gets as_host]. rewrite run_bind. unfold on_aot_host, zoom.
  cbn [as_host]. pose proof (Hrm p k) as Hr. pose proof (remove_ret p k) as Hgone.
  destruct (fs_remove p k) as [o k']. cbn [fst] in Hr. subst o. cbn. rewrite (Himg bs eq_refl). split; [done|].
  intros _. by apply Hgone.
Qed.

(** C31: Generating code with WAMR.  Once the runtime is up, with faasm's functions
    registered the first time only, however the generation ends, every object that it
    made is destroyed, once and before those made before it, and no file is touched but the temporary one; if files can be removed, its result
    is that of the compiler for the bytes, the target and SGX alone, whatever was
    generated before, and a temporary file that was read is gone. *)
Theorem wamr_codegen_spec wasmBytes target isSgx s :
  as_initialised s || runtime_init = true → (∀ p k, (fs_remove p k).1 = Ret ()) →
  let '(o, s') := wamr_codegen wasmBytes target isSgx s in
  as_initialised s' = true ∧
  as_natives s' = (if as_initialised s then as_natives s else as_natives s ++ registered initialiseWAMRNatives) ∧
  (∃ evs, as_events s' = as_events s ++ evs ∧ alive [] evs = Some []) ∧
  (∀ q, q ≠ unique_path (as_host s) →
     fs_exists q (as_host s') = fs_exists q (as_host s) ∧ readFileToBytes q (as_host s') = readFileToBytes q (as_host s)) ∧
  o = aot_result wasmBytes target isSgx ∧
  match o with Ret _ => fs_exists (unique_path (as_host s)) (as_host s') = false | Throw _ => True end.
Proof.
  intros Hinit Hrm. unfold wamr_codegen. rewrite run_bind.
  assert (∃ s1, initialiseGlobally s = (Ret (), s1) ∧ as_initialised s1 = true ∧
    as_natives s1 = (if as_initialised s then as_natives s else as_natives s ++ registered initialiseWAMRNatives) ∧ as_events s1 = as_events s ∧
    as_host s1 = as_host s) as (s1 & -> & Hi & Hnat & <- & <-).
  { unfold initialiseGlobally. rewrite run_bind. cbn [get]. destruct (as_initialised s) eqn:Hs; [by exists s|].
    cbn in Hinit. rewrite Hinit, run_bind. unfold zoom. rewrite natives_append. by eexists. }
  match goal with |- context [(if negb _ then _ else ?x) s1] => set (body := x) end.
  assert (tidy s1 (body s1).2) as Htidy.
  { apply with_unique_tidy. intros m t. apply with_unique_tidy. intros d t'. apply with_unique_tidy. intros c t''.
    destruct (negb _); [apply tidy_refl|apply emitToBytes_tidy]. }
  unfold aot_result. destruct (negb (aot_isWasm wasmBytes)).
  { cbn. rewrite Hnat. split_and!; try done. exists []. by rewrite app_nil_r. }
  destruct Htidy as (Hi' & Hn' & (evs & Hevs & Hal) & Hfiles).
  assert ((body s1).1 = aot_compiled wasmBytes (aot_option target isSgx) ∧
    (is_Some (match (body s1).1 with Ret b => Some b | _ => None end) →
     fs_exists (unique_path (as_host s1)) (as_host (body s1).2) = false)) as [Hres Hgone].
  { subst body. unfold with_unique, aot_compiled. destruct (wasm_runtime_load wasmBytes) as [m|]; [|split; [done|by intros []]].
    destruct (aot_create_comp_data m) as [d|]; [|split; [done|by intros []]].
    destruct (aot_create_comp_context d _) as [c|]; [|split; [done|by intros []]].
    destruct (negb (aot_compile_wasm c)); [split; [done|by intros []]|].
    match goal with |- context [emitToBytes c d ?t] => destruct (emitToBytes_result c d t Hrm) as [Hr Hg];
      destruct (emitToBytes c d t) as [o t'] end. cbn in *. subst o. destruct (aot_image c d); [|split; [done|by intros []]].
    split; [done|]. intros _. by apply Hg. }
  destruct (body s1) as [o s']. cbn [fst snd] in *. split; [congruence|]. split; [by rewrite Hn'|]. split; [by exists evs|].
  split; [done|]. split; [done|]. destruct o; [|done]. by apply Hgone.
Qed.
End wamr.

(** * A concrete compiler

    It copies the bytes, and refuses those that start with 9. *)
#[export] Instance demo_aot : AotCompiler (H := demo_host) := {
  aot_isWasm bs := bool_decide (head bs ≠ Some 7); runtime_init := true;
  AotModule := list Z; CompData := list Z; CompContext := string * Z;
  wasm_runtime_load bs := Some bs;
  aot_create_comp_data m := if bool_decide (head m = Some 9) then None else Some m;
  aot_create_comp_context d o := Some (target_cpu o, size_level o);
  aot_compile_wasm c := true;
  aot_emit_aot_file c d p k :=
    (true, <[p := DFile (d ++ bytes_of_string c.1 ++ [c.2])]> (k : gmap string demo_file)) : bool * K (Host := demo_host);
  unique_path k := fresh (dom (k : gmap string demo_file) : gset string) }.
#[export] Instance demo_aot_laws : AotCompilerLaws (H0 := demo_aot).
Proof.
  refine (Build_AotCompilerLaws demo_host demo_aot
    (λ c d, Some ((d : list Z) ++ bytes_of_string c.1 ++ [c.2])) _ _ _ _).
  - intros c d p k. cbn. split; [done|]. intros b [= <-]. by rewrite lookup_insert_eq.
  - intros c d p k q Hq. cbn. by rewrite lookup_insert_ne by done.
  - intros k. apply bool_decide_eq_false_2. intros Hin. cbn in Hin.
    by apply (is_fresh (dom (k : gmap string demo_file) : gset string)), elem_of_dom.
  - intros p k q Hq. cbn. by rewrite lookup_delete_ne by done.
Defined.

Definition demo_aot_start : AotState := mkAotState (H := demo_host) false [] [] (∅ : gmap string demo_file).
Lemma wamr_codegen_spec_witness :
  (wamr_codegen [1; 2] (mkTarget "x86_64" "a") true demo_aot_start).1 = Ret [1; 2; 97; 1] ∧
  as_events (wamr_codegen [9] (mkTarget "x86_64" "a") true demo_aot_start).2 = [Created OModule; Destroyed OModule] ∧
  (wamr_codegen [1; 2] (mkTarget "x86_64" "a") true demo_aot_start).1 = aot_result [1; 2] (mkTarget "x86_64" "a") true.
Proof.
  split; [vm_compute; reflexivity|]. split; [vm_compute; reflexivity|].
  pose proof (wamr_codegen_spec [1; 2] (mkTarget "x86_64" "a") true demo_aot_start eq_refl (λ _ _, eq_refl)) as H.
  destruct (wamr_codegen [1; 2] (mkTarget "x86_64" "a") true demo_aot_start) as [o s'].
  exact (proj1 (proj2 (proj2 (proj2 (proj2 H))))).
Defined.
