(* ===== verification/Wasi.v ===== *)
(** The constants of the WASI interface as WAVM's headers define them, those of
    Linux, and the translations between the two that the file descriptors use
    (the first part of src/storage/FileDescriptor.cpp). *)

From S2P Require Import Prelude.

(** * Linux *)

Definition O_RDONLY : Z := 0.
Definition O_WRONLY : Z := 1.
Definition O_RDWR : Z := 2.
Definition O_CREAT : Z := 64.
Definition O_EXCL : Z := 128.
Definition O_TRUNC : Z := 512.
Definition O_APPEND : Z := 1024.
Definition O_NONBLOCK : Z := 2048.
Definition O_DSYNC : Z := 4096.
Definition O_DIRECTORY : Z := 65536.
Definition O_SYNC : Z := 1052672.
Definition O_RSYNC : Z := O_SYNC.

(** S_IRWXU | S_IRGRP | S_IROTH *)
Definition CREATE_MODE : Z := 484.

(** * WASI *)

Class WasiABI := {
  WASI_O_CREAT : Z; WASI_O_DIRECTORY : Z; WASI_O_EXCL : Z; WASI_O_TRUNC : Z;
  FDFLAG_APPEND : Z; FDFLAG_DSYNC : Z; FDFLAG_NONBLOCK : Z; FDFLAG_RSYNC : Z; FDFLAG_SYNC : Z;
  RIGHT_FD_DATASYNC : Z; RIGHT_FD_READ : Z; RIGHT_FD_SEEK : Z; RIGHT_FD_FDSTAT_SET_FLAGS : Z;
  RIGHT_FD_TELL : Z; RIGHT_FD_WRITE : Z; RIGHT_FD_ALLOCATE : Z; RIGHT_PATH_CREATE_FILE : Z;
  RIGHT_PATH_OPEN : Z; RIGHT_FD_READDIR : Z; RIGHT_FD_FILESTAT_GET : Z;
  RIGHT_FD_FILESTAT_SET_SIZE : Z; RIGHT_POLL_FD_READWRITE : Z;
  (** WASIPrivate.h *)
  DIRECTORY_RIGHTS : Z; INHERITING_DIRECTORY_RIGHTS : Z;
  PREOPENTYPE_DIR : Z; DIRCOOKIE_START : Z;
  WHENCE_SET : Z; WHENCE_CUR : Z; WHENCE_END : Z;
  FILETYPE_BLOCK_DEVICE : Z; FILETYPE_CHARACTER_DEVICE : Z; FILETYPE_DIRECTORY : Z;
  FILETYPE_REGULAR_FILE : Z; FILETYPE_SYMBOLIC_LINK : Z;
  WASI_ESUCCESS : Z; WASI_EPERM : Z; WASI_ENOENT : Z; WASI_EIO : Z; WASI_EBADF : Z; WASI_ENOMEM : Z;
  WASI_EACCES : Z; WASI_EEXIST : Z; WASI_ENOTDIR : Z; WASI_EISDIR : Z; WASI_EINVAL : Z;
  WASI_EMFILE : Z }.

(** Flags and errors of the interface are told apart. *)
Class WasiLaws `{WasiABI} : Prop := {
  errno_distinct : NoDup [WASI_ESUCCESS; WASI_EPERM; WASI_ENOENT; WASI_EIO; WASI_EBADF; WASI_ENOMEM;
    WASI_EACCES; WASI_EEXIST; WASI_ENOTDIR; WASI_EISDIR; WASI_EINVAL; WASI_EMFILE];
  errno_positive : Forall (λ e, 0 < e < 2 ^ 16) [WASI_EPERM; WASI_ENOENT; WASI_EIO; WASI_EBADF;
    WASI_ENOMEM; WASI_EACCES; WASI_EEXIST; WASI_ENOTDIR; WASI_EISDIR; WASI_EINVAL; WASI_EMFILE];
  esuccess_zero : WASI_ESUCCESS = 0;
  preopentype_dir_zero : PREOPENTYPE_DIR = 0 }.

(** The values of the WASI snapshot the headers follow. *)
#[export] Instance demo_wasi : WasiABI := {
  WASI_O_CREAT := 1; WASI_O_DIRECTORY := 2; WASI_O_EXCL := 4; WASI_O_TRUNC := 8;
  FDFLAG_APPEND := 1; FDFLAG_DSYNC := 2; FDFLAG_NONBLOCK := 4; FDFLAG_RSYNC := 8; FDFLAG_SYNC := 16;
  RIGHT_FD_DATASYNC := 1; RIGHT_FD_READ := 2; RIGHT_FD_SEEK := 4; RIGHT_FD_FDSTAT_SET_FLAGS := 8;
  RIGHT_FD_TELL := 32; RIGHT_FD_WRITE := 64; RIGHT_FD_ALLOCATE := 256; RIGHT_PATH_CREATE_FILE := 1024;
  RIGHT_PATH_OPEN := 8192; RIGHT_FD_READDIR := 16384; RIGHT_FD_FILESTAT_GET := 2097152;
  RIGHT_FD_FILESTAT_SET_SIZE := 4194304; RIGHT_POLL_FD_READWRITE := 134217728;
  DIRECTORY_RIGHTS := 132120320; INHERITING_DIRECTORY_RIGHTS := 268435455;
  PREOPENTYPE_DIR := 0; DIRCOOKIE_START := 0;
  WHENCE_SET := 0; WHENCE_CUR := 1; WHENCE_END := 2;
  FILETYPE_BLOCK_DEVICE := 1; FILETYPE_CHARACTER_DEVICE := 2; FILETYPE_DIRECTORY := 3;
  FILETYPE_REGULAR_FILE := 4; FILETYPE_SYMBOLIC_LINK := 7;
  WASI_ESUCCESS := 0; WASI_EPERM := 63; WASI_ENOENT := 44; WASI_EIO := 29; WASI_EBADF := 8; WASI_ENOMEM := 48;
  WASI_EACCES := 2; WASI_EEXIST := 20; WASI_ENOTDIR := 54; WASI_EISDIR := 31; WASI_EINVAL := 28;
  WASI_EMFILE := 33 }.

#[export] Instance demo_wasi_laws : WasiLaws.
Proof.
  split; try done.
  - apply (bool_decide_unpack _). vm_compute. exact I.
  - apply (bool_decide_unpack _). vm_compute. exact I.
Qed.

Inductive OpenMode : Type := CREATE | DIRECTORY | EXCL | TRUNC | NONE.
Inductive ReadWriteType : Type := READ_ONLY | READ_WRITE | WRITE_ONLY | NO_READ_WRITE | CUSTOM.

#[export] Instance OpenMode_eq_dec : EqDecision OpenMode.
Proof. solve_decision. Defined.
#[export] Instance ReadWriteType_eq_dec : EqDecision ReadWriteType.
Proof. solve_decision. Defined.

Section translate.
Context `{WasiABI}.

Definition lors : list Z → Z := foldr Z.lor 0.

Definition WASI_RIGHTS_WRITE : Z :=
  lors [RIGHT_FD_DATASYNC; RIGHT_FD_WRITE; RIGHT_FD_ALLOCATE; RIGHT_FD_FILESTAT_SET_SIZE;
        RIGHT_PATH_CREATE_FILE].
Definition WASI_RIGHTS_READ : Z :=
  lors [RIGHT_FD_READDIR; RIGHT_FD_READ; RIGHT_FD_SEEK; RIGHT_FD_TELL; RIGHT_PATH_OPEN].
Definition WASI_FD_FLAGS : Z :=
  lors [FDFLAG_RSYNC; FDFLAG_APPEND; FDFLAG_DSYNC; FDFLAG_SYNC; FDFLAG_NONBLOCK].

Definition flag_if (b : bool) (f : Z) : Z := if b then f else 0.

Definition wasiFdFlagsToLinux (fdFlags : Z) : outcome Z :=
  if fdFlags =? 0 then Ret 0
  else if has_bits fdFlags WASI_FD_FLAGS then
    Ret (lors [flag_if (has_bits fdFlags FDFLAG_RSYNC) O_RSYNC;
               flag_if (has_bits fdFlags FDFLAG_APPEND) O_APPEND;
               flag_if (has_bits fdFlags FDFLAG_DSYNC) O_DSYNC;
               flag_if (has_bits fdFlags FDFLAG_SYNC) O_SYNC;
               flag_if (has_bits fdFlags FDFLAG_NONBLOCK) O_NONBLOCK])
  else Throw (RuntimeError "Unhandled fd flags").

Definition getOpenMode (openFlags : Z) : outcome OpenMode :=
  if has_bits openFlags WASI_O_CREAT then Ret CREATE
  else if has_bits openFlags WASI_O_DIRECTORY then Ret DIRECTORY
  else if has_bits openFlags WASI_O_TRUNC then Ret TRUNC
  else if has_bits openFlags WASI_O_EXCL then Ret EXCL
  else if openFlags =? 0 then Ret NONE
  else Throw (RuntimeError "Unable to detect open mode").

Definition getRwType (rights : Z) : ReadWriteType :=
  let rightsRead := has_bits rights WASI_RIGHTS_READ in
  let rightsWrite := has_bits rights WASI_RIGHTS_WRITE in
  if rightsRead && rightsWrite then READ_WRITE
  else if rightsRead then READ_ONLY
  else if negb rightsRead && rightsWrite then WRITE_ONLY
  else if rights =? 0 then NO_READ_WRITE
  else CUSTOM.

(** The cases of [errnoToWasi]'s switch. *)
Definition errno_table : list (Z * Z) :=
  [(EPERM, WASI_EPERM); (ENOENT, WASI_ENOENT); (EIO, WASI_EIO); (EBADF, WASI_EBADF);
   (ENOMEM, WASI_ENOMEM); (EACCES, WASI_EACCES); (EEXIST, WASI_EEXIST); (ENOTDIR, WASI_ENOTDIR);
   (EISDIR, WASI_EISDIR); (EINVAL, WASI_EINVAL); (EMFILE, WASI_EMFILE)].

Fixpoint assocZ (k : Z) (l : list (Z * Z)) : option Z :=
  match l with
  | [] => None
  | (k', v) :: l' => if k =? k' then Some v else assocZ k l'
  end.

Definition errnoToWasi (errnoIn : Z) : outcome Z :=
  match assocZ errnoIn errno_table with
  | Some e => Ret e
  | None => Throw (RuntimeError ("Unsupported WASI errno: " +:+ to_string errnoIn))
  end.

(** The access mode and the flags [pathOpen] opens a file with. *)
Definition open_access (openMode : OpenMode) (rwType : ReadWriteType) : outcome (Z * bool) :=
  if decide (openMode = DIRECTORY) then Ret (O_RDONLY, false)
  else match rwType with
       | READ_WRITE => Ret (O_RDWR, true)
       | WRITE_ONLY => Ret (O_WRONLY, true)
       | READ_ONLY => Ret (O_RDONLY, false)
       | NO_READ_WRITE => Ret (0, false)
       | CUSTOM => Throw (RuntimeError "Unrecognised access mode for file")
       end.

Definition open_flags (openMode : OpenMode) (readWrite : Z) : Z * Z :=
  match openMode with
  | CREATE => (Z.lor readWrite O_CREAT, CREATE_MODE)
  | DIRECTORY => (Z.lor readWrite O_DIRECTORY, 0)
  | TRUNC => (Z.lor readWrite O_TRUNC, 0)
  | EXCL => (Z.lor readWrite O_EXCL, 0)
  | NONE => (readWrite, 0)
  end.

(** All of them: the flags and mode of the [open] call, and whether the file is
    opened for writing. *)
Definition linux_open_args (openFlags fdFlags rights : Z) : outcome (Z * Z * bool) :=
  openMode ← getOpenMode (u16 openFlags);
  '(readWrite, isWrite) ← open_access openMode (getRwType rights);
  let '(linuxFlags, linuxMode) := open_flags openMode readWrite in
  more ← wasiFdFlagsToLinux fdFlags;
  Ret (Z.lor linuxFlags more, linuxMode, isWrite).

(** ** Theorems *)

Lemma assocZ_in k v l : assocZ k l = Some v → (k, v) ∈ l.
Proof.
  induction l as [|[k' v'] l IH]; [done|]. cbn.
  destruct (Z.eqb_spec k k') as [->|]; [intros [= ->]; left|intros Hk; right; by apply IH].
Qed.

(** Distinct Linux errors the switch knows become distinct WASI errors, none of
    which is success. *)
Theorem errnoToWasi_injective `{!WasiLaws} e1 e2 r :
  errnoToWasi e1 = Ret r → errnoToWasi e2 = Ret r → e1 = e2 ∧ r ≠ WASI_ESUCCESS.
Proof.
  unfold errnoToWasi. destruct (assocZ e1 errno_table) as [r1|] eqn:H1; [|done].
  destruct (assocZ e2 errno_table) as [r2|] eqn:H2; [|done]. intros [= ->] [= ->].
  apply assocZ_in in H1, H2. pose proof errno_distinct as Hnd.
  apply NoDup_cons in Hnd as [Hsucc Hnd].
  apply list_elem_of_lookup in H1 as [i Hi]. apply list_elem_of_lookup in H2 as [j Hj].
  assert ((errno_table.*2) !! i = Some r) as Hi2 by (by rewrite list_lookup_fmap, Hi).
  assert ((errno_table.*2) !! j = Some r) as Hj2 by (by rewrite list_lookup_fmap, Hj).
  pose proof (NoDup_lookup _ _ _ _ Hnd Hi2 Hj2) as ->.
  rewrite Hi in Hj. injection Hj as <-. split; [done|]. intros ->. apply Hsucc.
  by eapply list_elem_of_lookup_2.
Qed.

Lemma lors_flags_avoid (bs : list (bool * Z)) (m : Z) :
  Forall (λ bf, Z.land bf.2 m = 0) bs →
  Z.land (lors ((λ bf, flag_if bf.1 bf.2) <$> bs)) m = 0.
Proof.
  induction 1 as [|[b f] bs Hf _ IH]; [done|].
  change (Z.land (Z.lor (flag_if b f) (lors ((λ bf, flag_if bf.1 bf.2) <$> bs))) m = 0).
  rewrite Z.land_lor_distr_l, IH, Z.lor_0_r. destruct b; [exact Hf|apply Z.land_0_l].
Qed.

Lemma fd_flags_avoid fdFlags r m :
  wasiFdFlagsToLinux fdFlags = Ret r →
  Forall (λ f, Z.land f m = 0) [O_RSYNC; O_APPEND; O_DSYNC; O_SYNC; O_NONBLOCK] → Z.land r m = 0.
Proof.
  unfold wasiFdFlagsToLinux. destruct (fdFlags =? 0); [intros [= <-] _; apply Z.land_0_l|].
  destruct (has_bits _ _); [|done]. intros [= <-] Hall.
  apply (lors_flags_avoid [(has_bits fdFlags FDFLAG_RSYNC, O_RSYNC);
    (has_bits fdFlags FDFLAG_APPEND, O_APPEND); (has_bits fdFlags FDFLAG_DSYNC, O_DSYNC);
    (has_bits fdFlags FDFLAG_SYNC, O_SYNC); (has_bits fdFlags FDFLAG_NONBLOCK, O_NONBLOCK)] m).
  repeat (apply Forall_cons in Hall as [? Hall]). by repeat constructor.
Qed.

(** Creating a file neither truncates it nor insists that it is new: with the
    create flag the others are not looked at, so that the [open] call of a file
    opened with create and truncate, or with create and exclusive, has only the
    create flag. *)
Lemma open_create_drops_flags openFlags fdFlags rights flags mode w :
  has_bits (u16 openFlags) WASI_O_CREAT = true →
  linux_open_args openFlags fdFlags rights = Ret (flags, mode, w) →
  Z.land flags O_CREAT = O_CREAT ∧ Z.land flags O_TRUNC = 0 ∧ Z.land flags O_EXCL = 0.
Proof.
  intros Hc. unfold linux_open_args, getOpenMode. rewrite Hc. cbn [mbind outcome_bind].
  destruct (open_access CREATE (getRwType rights)) as [[rw isw]|] eqn:Ha; [|done]. cbn.
  destruct (wasiFdFlagsToLinux fdFlags) as [more|] eqn:Hm; [|done]. intros [= <- <- <-].
  assert (rw = 0 ∨ rw = 1 ∨ rw = 2) as Hrw.
  { unfold open_access in Ha. rewrite decide_False in Ha by done.
    destruct (getRwType rights); try discriminate; injection Ha as <- _; unfold O_RDWR, O_WRONLY, O_RDONLY; lia. }
  assert (Z.land more O_TRUNC = 0 ∧ Z.land more O_EXCL = 0 ∧ Z.land more O_CREAT = 0) as (Ht & He & Hcr).
  { split_and!; apply (fd_flags_avoid fdFlags); try done; repeat constructor. }
  rewrite !Z.land_lor_distr_l, Ht, He, Hcr.
  destruct Hrw as [->|[->| ->]]; done.
Qed.

(** The access a file is opened with is no more than its rights give: writing
    needs a write right, and reading a read right. *)
Lemma open_access_rights openFlags fdFlags rights flags mode w :
  linux_open_args openFlags fdFlags rights = Ret (flags, mode, w) →
  (w = true → has_bits rights WASI_RIGHTS_WRITE = true) ∧
  (w = false → Z.land flags 3 = O_RDONLY) ∧
  (Z.land flags 3 = O_RDWR → has_bits rights WASI_RIGHTS_READ = true).
Proof.
  unfold linux_open_args. destruct (getOpenMode (u16 openFlags)) as [om|]; [|done]. cbn [mbind outcome_bind].
  destruct (open_access om (getRwType rights)) as [[rw isw]|] eqn:Ha; [|done]. cbn [mbind outcome_bind].
  destruct (open_flags om rw) as [lf lm] eqn:Hf.
  destruct (wasiFdFlagsToLinux fdFlags) as [more|] eqn:Hm; [|done]. intros [= <- <- <-].
  assert (Z.land more 3 = 0) as Hmore by (apply (fd_flags_avoid fdFlags); [done|repeat constructor]).
  rewrite Z.land_lor_distr_l, Hmore, Z.lor_0_r.
  assert (Z.land lf 3 = Z.land rw 3) as ->.
  { destruct om; injection Hf as <- _; rewrite ?Z.land_lor_distr_l;
      unfold O_CREAT, O_DIRECTORY, O_TRUNC, O_EXCL; cbn [Z.land Pos.land]; rewrite ?Z.lor_0_r; done. }
  unfold open_access in Ha. destruct (decide (om = DIRECTORY)); [injection Ha as <- <-; split; [|split]; intros Hx; first [reflexivity|vm_compute in Hx; discriminate Hx]|].
  unfold getRwType in Ha.
  destruct (has_bits rights WASI_RIGHTS_READ), (has_bits rights WASI_RIGHTS_WRITE); cbn [andb negb] in Ha;
    try destruct (rights =? 0); try discriminate; injection Ha as <- <-;
    (split; [|split]); intros Hx; first [reflexivity|vm_compute in Hx; discriminate Hx].
Qed.
End translate.

Lemma errnoToWasi_injective_witness :
  errnoToWasi ENOENT = Ret WASI_ENOENT ∧ ENOENT = ENOENT ∧ WASI_ENOENT ≠ WASI_ESUCCESS.
Proof.
  split; [reflexivity|]. by apply (errnoToWasi_injective ENOENT ENOENT WASI_ENOENT).
Defined.
