(* ===== verification/FileDescriptor.v ===== *)
(** An open file of a module (src/storage/FileDescriptor.cpp): the directory
    iterator, opening, writing, renaming, seeking and the rest of the operations
    on the Linux descriptor behind it. *)

From S2P Require Import Prelude WasmBytes S3 Host FileLoader SharedFiles Wasi.

(** * State *)

Record DirEnt := mkDirEnt { d_next : Z; d_type : Z; d_ino : Z; d_path : string }.

(** [storage::Stat] *)
Record Stat := mkStat {
  failed : bool; st_wasiErrno : Z; wasiFiletype : Z; st_dev : Z; st_ino : Z; st_nlink : Z;
  st_size : Z; st_mode : Z; st_atim : Z; st_mtim : Z; st_ctim : Z }.

Record FileDescriptor := mkFD {
  path : string;
  rightsSet : bool; actualRightsBase : Z; actualRightsInheriting : Z;
  linuxFd : Z; linuxMode : Z; linuxFlags : Z; linuxErrno : Z; wasiErrno : Z;
  dirContentsLoaded : bool; dirContents : list DirEnt; dirContentsIdx : Z;
  wasiPreopenType : Z }.

(** A value-initialised descriptor, as [operator[]] of a map makes: the members
    without an initialiser are zero. *)
Definition FD_zero : FileDescriptor :=
  mkFD "" false 0 0 (-1) (-1) (-1) 0 0 false [] 0 0.

(** Field updates. *)
Definition setPath (p : string) (f : FileDescriptor) : FileDescriptor :=
  mkFD p (rightsSet f) (actualRightsBase f) (actualRightsInheriting f) (linuxFd f) (linuxMode f)
    (linuxFlags f) (linuxErrno f) (wasiErrno f) (dirContentsLoaded f) (dirContents f)
    (dirContentsIdx f) (wasiPreopenType f).
Definition setActualRights (rights inheriting : Z) (f : FileDescriptor) : FileDescriptor :=
  mkFD (path f) true rights inheriting (linuxFd f) (linuxMode f)
    (linuxFlags f) (linuxErrno f) (wasiErrno f) (dirContentsLoaded f) (dirContents f)
    (dirContentsIdx f) (wasiPreopenType f).
Definition set_linuxFd (fd : Z) (f : FileDescriptor) : FileDescriptor :=
  mkFD (path f) (rightsSet f) (actualRightsBase f) (actualRightsInheriting f) fd (linuxMode f)
    (linuxFlags f) (linuxErrno f) (wasiErrno f) (dirContentsLoaded f) (dirContents f)
    (dirContentsIdx f) (wasiPreopenType f).
Definition set_linuxOpen (flags mode : Z) (f : FileDescriptor) : FileDescriptor :=
  mkFD (path f) (rightsSet f) (actualRightsBase f) (actualRightsInheriting f) (linuxFd f) mode
    flags (linuxErrno f) (wasiErrno f) (dirContentsLoaded f) (dirContents f)
    (dirContentsIdx f) (wasiPreopenType f).
Definition set_linuxErrno (e : Z) (f : FileDescriptor) : FileDescriptor :=
  mkFD (path f) (rightsSet f) (actualRightsBase f) (actualRightsInheriting f) (linuxFd f) (linuxMode f)
    (linuxFlags f) e (wasiErrno f) (dirContentsLoaded f) (dirContents f)
    (dirContentsIdx f) (wasiPreopenType f).
Definition set_wasiErrno (e : Z) (f : FileDescriptor) : FileDescriptor :=
  mkFD (path f) (rightsSet f) (actualRightsBase f) (actualRightsInheriting f) (linuxFd f) (linuxMode f)
    (linuxFlags f) (linuxErrno f) e (dirContentsLoaded f) (dirContents f)
    (dirContentsIdx f) (wasiPreopenType f).
Definition set_dir (loaded : bool) (ents : list DirEnt) (idx : Z) (f : FileDescriptor) : FileDescriptor :=
  mkFD (path f) (rightsSet f) (actualRightsBase f) (actualRightsInheriting f) (linuxFd f) (linuxMode f)
    (linuxFlags f) (linuxErrno f) (wasiErrno f) loaded ents idx (wasiPreopenType f).
Definition set_preopen (t : Z) (f : FileDescriptor) : FileDescriptor :=
  mkFD (path f) (rightsSet f) (actualRightsBase f) (actualRightsInheriting f) (linuxFd f) (linuxMode f)
    (linuxFlags f) (linuxErrno f) (wasiErrno f) (dirContentsLoaded f) (dirContents f)
    (dirContentsIdx f) t.

(** The bytes of WASI's dirent structure. *)
Class DirentABI := { dirent_size : Z; wasi_dirent : Z → Z → Z → Z → list Z }.
Class DirentLaws `{DirentABI} : Prop := {
  dirent_size_pos : 0 < dirent_size;
  dirent_length : ∀ n i l t, Z.of_nat (length (wasi_dirent n i l t)) = dirent_size }.

(** A descriptor in its world. *)
Abbreviation FdM := (M (FileDescriptor * World)).

Section fd.
Context `{Rados} `{Host} `{WasiABI} `{DirentABI} (conf : FaasmConfig).

Definition fd_get : FdM FileDescriptor := gets fst.
Definition fd_mod (f : FileDescriptor → FileDescriptor) : FdM unit := modify (λ s, (f s.1, s.2)).
Definition in_world {A} : M World A → FdM A := zoom snd (λ w s, (s.1, w)).

(** A system call: its result, and the error number when it failed. *)
Definition do_sys (c : syscall) : M World (Z * Z) := λ w,
  let '(r, e, k) := sys c (w_host w) in
  (Ret (r, e), mkWorld (w_s3 w) k (w_shared w) (w_calls w ++ [c])).

Definition prependRuntimeRoot (originalPath : string) : string :=
  boost_append (runtimeFilesDir conf) originalPath.

Definition absPath (relativePath : string) (f : FileDescriptor) : string :=
  if decide (relativePath = "") then path f
  else boost_append (if decide (path f = ".") then "" else path f) relativePath.

(** ** The standard streams; [uninit] is what the type of preopen holds. *)

Definition stdFdFactory (uninit stdFd : Z) (devPath : string) : FileDescriptor :=
  let rights := lors [RIGHT_FD_READ; RIGHT_FD_FDSTAT_SET_FLAGS; RIGHT_FD_WRITE;
                      RIGHT_FD_FILESTAT_GET; RIGHT_POLL_FD_READWRITE] in
  set_linuxFd stdFd (setActualRights rights rights (setPath devPath (set_preopen uninit FD_zero))).
Definition stdinFactory (uninit : Z) : FileDescriptor := stdFdFactory uninit 0 "/dev/stdin".
Definition stdoutFactory (uninit : Z) : FileDescriptor := stdFdFactory uninit 1 "/dev/stdout".
Definition stderrFactory (uninit : Z) : FileDescriptor := stdFdFactory uninit 2 "/dev/stderr".

(** ** The directory iterator *)

Definition iterReset : FdM unit := fd_mod (set_dir false [] 0).

(** The entries of a native listing, numbered from one. *)
Fixpoint number_dirents (n : Z) (ds : list NativeDirent) : list DirEnt :=
  match ds with
  | [] => []
  | d :: ds' => mkDirEnt (n + 1) (nd_type d) (nd_ino d) (nd_name d) :: number_dirents (n + 1) ds'
  end.

Definition loadDirContents : FdM unit :=
  f ← fd_get;
  realPath ←
    (if isPathShared (path f) then
       pullErr ← in_world (syncSharedFile conf (path f) "");
       if negb (pullErr =? 0) then throw (RuntimeError "Failed to open shared dir")
       else mret (realPathForSharedFile conf (path f))
     else mret (prependRuntimeRoot (path f)));
  w ← gets snd;
  match sys_readdir realPath (w_host w) with
  | None => throw (RuntimeError "Failed to open dir")
  | Some ds => fd_mod (λ f, set_dir true (dirContents f ++ number_dirents 0 ds) (dirContentsIdx f) f)
  end.

Definition iterStarted (f : FileDescriptor) : bool := dirContentsLoaded f.
Definition iterFinished (f : FileDescriptor) : bool :=
  dirContentsLoaded f && (dirContentsIdx f >=? Z.of_nat (length (dirContents f))).

Definition iterBack : FdM unit :=
  f ← fd_get;
  if negb (dirContentsLoaded f) then throw (RuntimeError "Iterator not started, cannot go back")
  else if dirContentsIdx f =? 0 then throw (RuntimeError "Iterator already at zero, cannot go back")
  else fd_mod (λ f, set_dir (dirContentsLoaded f) (dirContents f) (dirContentsIdx f - 1) f).

Definition iterNext : FdM DirEnt :=
  f ← fd_get;
  when (negb (dirContentsLoaded f)) loadDirContents ;;
  f ← fd_get;
  if iterFinished f then throw (RuntimeError "Accessing index in directory")
  else match dirContents f !! Z.to_nat (dirContentsIdx f) with
       | None => throw (OutOfRange "vector::at")
       | Some nextEntry =>
           fd_mod (λ f, set_dir (dirContentsLoaded f) (dirContents f) (dirContentsIdx f + 1) f) ;;
           mret nextEntry
       end.

Definition encode_dirent (d : DirEnt) : list Z :=
  wasi_dirent (d_next d) (d_ino d) (u32 (str_size (d_path d))) (d_type d).

(** The loop of [copyDirentsToWasiBuffer], with [fuel] for the number of its
    turns: what it copies to the buffer, and whether it ran out of room. *)
Fixpoint copy_loop (fuel : nat) (bytesLeft : Z) : FdM (list Z * Z * bool) :=
  match fuel with
  | O => throw (Undefined "out of fuel")
  | S fuel' =>
      f ← fd_get;
      if iterFinished f then mret ([], bytesLeft, false)
      else
        d ← iterNext;
        let pathSize := str_size (d_path d) in
        if bytesLeft <? dirent_size then mret ([], bytesLeft, true)
        else
          let bytesLeft := bytesLeft - dirent_size in
          if bytesLeft <? pathSize then mret (encode_dirent d, bytesLeft, true)
          else
            '(rest, room, full) ← copy_loop fuel' (bytesLeft - pathSize);
            mret (encode_dirent d ++ bytes_of_string (d_path d) ++ rest, room, full)
  end.

(** [copyDirentsToWasiBuffer]: the bytes put in the buffer, and the size
    returned. *)
Definition copyDirentsToWasiBuffer (fuel : nat) (bufferLen : Z) : FdM (list Z * Z) :=
  '(bytes, bytesLeft, isBufferFull) ← copy_loop fuel bufferLen;
  if isBufferFull : bool then iterBack ;; mret (bytes, bufferLen)
  else mret (bytes, bufferLen - bytesLeft).

(** ** Opening *)

(** [errnoToWasi] of an error, recorded in the descriptor. *)
Definition fail_wasi (errno : Z) : FdM bool :=
  e ← lift (errnoToWasi errno); fd_mod (set_wasiErrno e) ;; mret false.

Definition pathOpen (openFlags fdFlags : Z) : FdM bool :=
  f ← fd_get;
  if negb (rightsSet f) then throw (RuntimeError "Opening path with no rights set")
  else
    openMode ← lift (getOpenMode (u16 openFlags));
    '(readWrite, isWrite) ← lift (open_access openMode (getRwType (actualRightsBase f)));
    fd_mod (set_linuxOpen (open_flags openMode readWrite).1 (open_flags openMode readWrite).2) ;;
    more ← lift (wasiFdFlagsToLinux fdFlags);
    fd_mod (λ f, set_linuxOpen (Z.lor (linuxFlags f) more) (linuxMode f) f) ;;
    let p := path f in
    synced ←
      (if isPathShared p then
         err ← in_world (syncSharedFile conf p "");
         fd_mod (set_linuxErrno err) ;;
         if negb (err =? 0) then
           if negb isWrite then
             fd_mod (set_linuxFd (-1)) ;; fail_wasi err ;; mret false
           else in_world (clearCacheForSharedFile p) ;; mret true
         else mret true
       else mret true);
    if negb synced then mret false
    else
      let realPath := if isPathShared p then realPathForSharedFile conf p else prependRuntimeRoot p in
      f ← fd_get;
      let call :=
        if decide (realPath = "/dev/urandom" ∨ realPath = "/dev/null") then c_open realPath 0 0
        else c_open realPath (linuxFlags f) (linuxMode f) in
      '(res, errno) ← in_world (do_sys call);
      fd_mod (set_linuxFd res) ;;
      if res <? 0 then fd_mod (set_linuxErrno errno) ;; fail_wasi errno
      else mret true.

(** ** The other operations *)

Definition mkdir (dirPath : string) : FdM bool :=
  '(res, errno) ← in_world (do_sys (c_mkdir (prependRuntimeRoot dirPath) 493));
  if res <? 0 then fail_wasi errno else mret true.

Definition updateFlags (fdFlags : Z) : FdM bool :=
  newFlags ← lift (wasiFdFlagsToLinux fdFlags);
  f ← fd_get;
  '(res, errno) ← in_world (do_sys (c_fcntl_setfl (linuxFd f) newFlags));
  if res <? 0 then fail_wasi errno
  else fd_mod (λ f, set_linuxOpen (Z.lor (linuxFlags f) newFlags) (linuxMode f) f) ;; mret true.

(** [write] returns [false], which is 0, when the write fails. *)
Definition write (data : list Z) (len : Z) : FdM Z :=
  f ← fd_get;
  '(bytesWritten, errno) ← in_world (do_sys (c_writev (linuxFd f) data len));
  if bytesWritten <? 0 then fail_wasi errno ;; mret 0
  else
    when (isPathShared (path f)) (in_world (updateSharedFile conf (path f))) ;;
    mret bytesWritten.

Definition close : FdM unit :=
  f ← fd_get; when (linuxFd f >? 0) (in_world (do_sys (c_close (linuxFd f))) ;; mret ()).

Definition unlink (relativePath : string) : FdM bool :=
  if isPathShared relativePath then
    in_world (deleteSharedFile conf relativePath) ;; mret true
  else
    f ← fd_get;
    '(res, errno) ← in_world (do_sys (c_unlink (prependRuntimeRoot (absPath relativePath f))));
    if negb (res =? 0) then fail_wasi errno else mret true.

Definition rmdir (relativePath : string) : FdM bool :=
  f ← fd_get;
  '(res, errno) ← in_world (do_sys (c_rmdir (prependRuntimeRoot (absPath relativePath f))));
  if negb (res =? 0) then fail_wasi errno else mret true.

(** [rename]: the error recorded is made from the call's result, not from
    [errno]. *)
Definition rename (newPath relativePath : string) : FdM bool :=
  f ← fd_get;
  '(res, errno) ← in_world (do_sys (c_rename (prependRuntimeRoot (absPath relativePath f))
                                             (prependRuntimeRoot newPath)));
  if negb (res =? 0) then fail_wasi (-1 * res) else mret true.

(** S_IFMT and the file types. *)
Definition file_type (mode : Z) : Z := Z.land mode 61440.

Definition is_std (fd : Z) : bool := (fd =? 1) || (fd =? 0) || (fd =? 2).

Definition wasi_filetype (std : bool) (mode : Z) : outcome Z :=
  if std then Ret FILETYPE_CHARACTER_DEVICE
  else if file_type mode =? 32768 then Ret FILETYPE_REGULAR_FILE
  else if file_type mode =? 24576 then Ret FILETYPE_BLOCK_DEVICE
  else if file_type mode =? 16384 then Ret FILETYPE_DIRECTORY
  else if file_type mode =? 40960 then Ret FILETYPE_SYMBOLIC_LINK
  else if file_type mode =? 8192 then Ret FILETYPE_CHARACTER_DEVICE
  else Throw (RuntimeError "Unrecognised file type").

(** The native structure after the call, and the error number, 0 for none. *)
Definition native_stat (relativePath : string) : FdM (NativeStat * Z) :=
  f ← fd_get;
  let zero := mkNativeStat 0 0 0 0 0 0 0 0 in
  let call c :=
    w ← gets snd;
    '(res, errno) ← in_world (do_sys c);
    mret (if res <? 0 then (zero, errno) else (sys_stat c (w_host w), 0)) in
  if is_std (linuxFd f) then call (c_fstat (linuxFd f))
  else
    let statPath := absPath relativePath f in
    if isPathShared statPath then
      err ← in_world (syncSharedFile conf statPath "");
      if err =? 0 then call (c_stat (realPathForSharedFile conf statPath)) else mret (zero, err)
    else call (c_stat (prependRuntimeRoot statPath)).

Definition stat (relativePath : string) : FdM Stat :=
  '(n, statErrno) ← native_stat relativePath;
  if negb (statErrno =? 0) then
    e ← lift (errnoToWasi statErrno);
    mret (mkStat true e 0 0 0 0 0 0 0 0 0)
  else
    f ← fd_get;
    t ← lift (wasi_filetype (is_std (linuxFd f)) (n_mode n));
    mret (mkStat false 0 t (n_dev n) (n_ino n) (n_nlink n) (n_size n) (n_mode n)
            (n_atim n) (n_mtim n) (n_ctim n)).

(** [readLink]: the size, and the bytes put in the buffer. *)
Definition readLink (relativePath : string) (bufferLen : Z) : FdM (Z * list Z) :=
  f ← fd_get;
  let linkPath := prependRuntimeRoot (absPath relativePath f) in
  if isPathShared linkPath then throw (RuntimeError "Readlink on shared file not supported")
  else
    w ← gets snd;
    let c := c_readlink linkPath bufferLen in
    '(res, _) ← in_world (do_sys c);
    mret (res, take (Z.to_nat res) (sys_data c (w_host w))).

(** [seek]: the error, and the new offset when there is none. *)
Definition seek (offset wasiWhence : Z) : FdM (Z * option Z) :=
  linuxWhence ← lift
    (if wasiWhence =? WHENCE_SET then Ret 0
     else if wasiWhence =? WHENCE_CUR then Ret 1
     else if wasiWhence =? WHENCE_END then Ret 2
     else Throw (RuntimeError "Unsupported whence"));
  f ← fd_get;
  '(result, errno) ← in_world (do_sys (c_lseek (linuxFd f) offset linuxWhence));
  if result <? 0 then e ← lift (errnoToWasi errno); mret (e, None)
  else mret (WASI_ESUCCESS, Some (u64 result)).

Definition tell : FdM Z :=
  f ← fd_get;
  '(result, _) ← in_world (do_sys (c_lseek (linuxFd f) 0 1));
  mret (u64 result).

(** [duplicate(other)] *)
Definition duplicate (other : FileDescriptor) : FdM Z :=
  '(res, _) ← in_world (do_sys (c_dup (linuxFd other)));
  fd_mod (λ f, mkFD (path other) (rightsSet other) (actualRightsBase other)
    (actualRightsInheriting other) res (linuxMode other) (linuxFlags other) (linuxErrno other)
    (wasiErrno f) (dirContentsLoaded other) (dirContents other) (dirContentsIdx other)
    (wasiPreopenType f)) ;;
  mret res.
End fd.

(** * Reading a directory page by page *)

Section dirents.
Context `{Rados} `{Host} `{WasiABI} `{DirentABI} `{!DirentLaws} (conf : FaasmConfig).

(** The bytes of whole entries. *)
Definition encode_entry (d : DirEnt) : list Z := encode_dirent d ++ bytes_of_string (d_path d).
Definition encode_page (ds : list DirEnt) : list Z := flat_map encode_entry ds.
Definition page_size (ds : list DirEnt) : Z := Z.of_nat (length (encode_page ds)).

Lemma entry_size d : Z.of_nat (length (encode_entry d)) = dirent_size + str_size (d_path d).
Proof.
  unfold encode_entry, encode_dirent. rewrite length_app, Nat2Z.inj_add.
  by rewrite dirent_length, bytes_of_string_size.
Qed.

Lemma page_size_cons d ds :
  page_size (d :: ds) = dirent_size + str_size (d_path d) + page_size ds.
Proof. unfold page_size, encode_page. cbn [flat_map]. by rewrite length_app, Nat2Z.inj_add, entry_size. Qed.

(** A descriptor whose iterator is at [i]. *)
Definition at_entry (i : Z) (f : FileDescriptor) : FileDescriptor := set_dir true (dirContents f) i f.

Lemma iterNext_run f w i d :
  0 ≤ i → dirContents f !! Z.to_nat i = Some d →
  iterNext conf (at_entry i f, w) = (Ret d, (at_entry (i + 1) f, w)).
Proof.
  intros Hi Hd. pose proof (lookup_lt_Some _ _ _ Hd) as Hlt.
  assert (iterFinished (at_entry i f) = false) as Hfin
    by (unfold iterFinished; cbn; destruct (Z.geb_spec i (Z.of_nat (length (dirContents f)))); [lia|done]).
  unfold iterNext, fd_get, gets, fd_mod, modify, when, mret, M_ret, mbind, M_bind. cbn [fst].
  change (negb (dirContentsLoaded (at_entry i f))) with false. cbn iota. cbn [fst]. rewrite Hfin.
  change (dirContents (at_entry i f)) with (dirContents f).
  change (dirContentsIdx (at_entry i f)) with i. by rewrite Hd.
Qed.

(** What the loop copies, from entry [i] on with [room] bytes: whole entries,
    and when the next does not fit, its header at most. *)
Definition page_from (ents : list DirEnt) (i room : Z) (n : nat) (bytes : list Z) (left_ : Z) (full : bool) : Prop :=
  let page := take n (drop (Z.to_nat i) ents) in
  if full : bool then
    ∃ d, ents !! (Z.to_nat i + n)%nat = Some d ∧ page_size page ≤ room ∧
      room < page_size page + dirent_size + str_size (d_path d) ∧
      (bytes = encode_page page ∨
       (bytes = encode_page page ++ encode_dirent d ∧ page_size page + dirent_size ≤ room))
  else
    (Z.to_nat i + n = length ents)%nat ∧ bytes = encode_page page ∧ left_ = room - page_size page ∧ 0 ≤ left_.

Lemma copy_loop_spec fuel f w i room :
  0 ≤ i → (Z.to_nat i ≤ length (dirContents f))%nat →
  (length (dirContents f) - Z.to_nat i < fuel)%nat → 0 ≤ room →
  ∃ (n : nat) bytes left_ (full : bool),
    copy_loop conf fuel room (at_entry i f, w) =
      (Ret (bytes, left_, full), (at_entry (i + Z.of_nat n + (if full then 1 else 0)) f, w)) ∧
    page_from (dirContents f) i room n bytes left_ full.
Proof.
  revert i room. induction fuel as [|fuel IH]; intros i room Hi Hlen Hfuel Hroom; [lia|].
  cbn [copy_loop]. unfold fd_get, gets. setoid_rewrite run_bind. cbn [fst].
  unfold iterFinished at 1. cbn [at_entry set_dir dirContentsLoaded dirContentsIdx dirContents andb].
  destruct (Z.geb_spec i (Z.of_nat (length (dirContents f)))) as [Hge|Hlt].
  { exists 0%nat, [], room, false. split; [by rewrite !Z.add_0_r|].
    unfold page_from. rewrite take_0. change (page_size []) with 0. repeat split; try done; lia. }
  destruct (lookup_lt_is_Some_2 (dirContents f) (Z.to_nat i)) as [d Hd]; [lia|].
  setoid_rewrite run_bind. setoid_rewrite (iterNext_run f w i d); [|done..].
  destruct (Z.ltb_spec room dirent_size) as [Hr|Hr].
  { exists 0%nat, [], room, true. split; [by rewrite Z.add_0_r|].
    exists d. rewrite Nat.add_0_r, take_0. change (page_size []) with 0.
    pose proof (str_size_nonneg (d_path d)). repeat split; try done; try lia. by left. }
  destruct (Z.ltb_spec (room - dirent_size) (str_size (d_path d))) as [Hp|Hp].
  { exists 0%nat, (encode_dirent d), (room - dirent_size), true. split; [by rewrite Z.add_0_r|].
    exists d. rewrite Nat.add_0_r, take_0. change (page_size []) with 0.
    repeat split; try done; try lia. right. split; [done|lia]. }
  setoid_rewrite run_bind.
  destruct (IH (i + 1) (room - dirent_size - str_size (d_path d))) as (n & bytes & l & full & Hrun & Hpage);
    [lia..|].
  setoid_rewrite Hrun. exists (S n), (encode_entry d ++ bytes), l, full. split.
  { unfold encode_entry. rewrite <- app_assoc. do 3 f_equal. lia. }
  revert Hpage. unfold page_from. rewrite (drop_S (dirContents f) d (Z.to_nat i)) by done.
  replace (Z.to_nat (i + 1)) with (S (Z.to_nat i)) by lia. cbn [take]. rewrite page_size_cons.
  change (encode_page (d :: ?x)) with (encode_entry d ++ encode_page x).
  replace (Z.to_nat i + S n)%nat with (S (Z.to_nat i) + n)%nat by lia.
  destruct full.
  - intros (d' & Hd' & Hfit & Hno & Hb). exists d'. split; [done|]. split; [lia|]. split; [lia|].
    destruct Hb as [->|[-> Hh]]; [by left|right]. split; [by rewrite <- app_assoc|lia].
  - intros (Hn & -> & -> & Hl). repeat split; try done; lia.
Qed.

(** The listing that a descriptor reads from, and where it is: the one it has, or the one that
    its first page loads, which has an entry. *)
Definition reads_from (f : FileDescriptor) (w : World) (ents : list DirEnt) (i : Z) (w' : World) : Prop :=
  dirContentsLoaded f = true ∧ dirContents f = ents ∧ dirContentsIdx f = i ∧ w' = w ∨
  dirContentsLoaded f = false ∧ ents ≠ [] ∧ i = 0 ∧
    loadDirContents conf (f, w) = (Ret (), (set_dir true ents 0 f, w')).

(** The first turn loads the listing. *)
Lemma copy_loop_first fuel room f w ents i w' :
  reads_from f w ents i w' →
  copy_loop conf (S fuel) room (f, w) = copy_loop conf (S fuel) room (set_dir true ents i f, w').
Proof.
  intros [(Hl & <- & <- & ->)|(Hl & Hne & -> & Hload)]; [f_equal; destruct f; cbn in *; by subst|].
  cbn [copy_loop]. unfold fd_get, gets. rewrite !run_bind. cbn [fst].
  assert (iterFinished f = false) as -> by (unfold iterFinished; by rewrite Hl).
  assert (iterFinished (set_dir true ents 0 f) = false) as Hfin
    by (unfold iterFinished; cbn; destruct ents; [done|]; by destruct (Z.geb_spec 0 (Z.of_nat (length (d :: ents)))); [cbn in *; lia|]).
  rewrite Hfin, !run_bind. 
  assert (iterNext conf (f, w) = iterNext conf (set_dir true ents 0 f, w')) as ->; [|done].
  unfold iterNext, fd_get, gets. rewrite !run_bind. cbn [fst]. rewrite Hl. cbn [negb when]. rewrite Hload.
  change (dirContentsLoaded (set_dir true ents 0 f)) with true. cbn [negb when mret M_ret].
  rewrite !run_bind. cbn [fst]. by rewrite Hfin.
Qed.

(** C34: A page of a directory is whole entries and after them at most the header of the
    next, never more bytes than the buffer has.  A call either reaches the end and returns
    what it wrote, or fills the buffer: it then returns the buffer's length and the next
    call starts at the entry that did not fit, whether or not its header was copied.  That
    is so for the first page, which loads the listing (of at least an entry), and for the
    later ones. *)
Theorem copyDirentsToWasiBuffer_spec fuel bufferLen f w ents i w' :
  reads_from f w ents i w' → 0 ≤ i → (Z.to_nat i ≤ length ents)%nat →
  (length ents - Z.to_nat i < fuel)%nat → 0 ≤ bufferLen →
  ∃ (n : nat) bytes r, copyDirentsToWasiBuffer conf fuel bufferLen (f, w) =
      (Ret (bytes, r), (set_dir true ents (i + Z.of_nat n) f, w')) ∧
    let page := take n (drop (Z.to_nat i) ents) in
    Z.of_nat (length bytes) ≤ bufferLen ∧
    ((Z.to_nat i + n = length ents)%nat ∧ bytes = encode_page page ∧
       r = Z.of_nat (length bytes)
     ∨ r = bufferLen ∧ ∃ d, ents !! (Z.to_nat i + n)%nat = Some d ∧
         (bytes = encode_page page ∨ bytes = encode_page page ++ encode_dirent d) ∧
         bufferLen < page_size page + Z.of_nat (length (encode_entry d))).
Proof.
  intros Hreads Hi Hlen Hfuel Hb. set (g := set_dir true ents 0 f).
  assert (copy_loop conf fuel bufferLen (f, w) = copy_loop conf fuel bufferLen (at_entry i g, w')) as Hfirst
    by (destruct fuel; [lia|exact (copy_loop_first _ _ _ _ _ _ _ Hreads)]).
  destruct (copy_loop_spec fuel g w' i bufferLen) as (n & bytes & l & full & Hrun & Hpage); try done.
  exists n, bytes. unfold copyDirentsToWasiBuffer. setoid_rewrite run_bind. setoid_rewrite Hfirst. setoid_rewrite Hrun.
  change (dirContents g) with ents in Hpage.
  destruct full; unfold page_from in Hpage.
  - destruct Hpage as (d & Hd & Hfit & Hno & Hbytes). exists bufferLen. split.
    { unfold iterBack, fd_get, gets, fd_mod, modify, mret, M_ret, mbind, M_bind. cbn [fst snd].
      cbn [at_entry g set_dir dirContentsLoaded dirContentsIdx negb].
      destruct (Z.eqb_spec (i + Z.of_nat n + 1) 0); [lia|]. cbn [fst snd].
      trans (Ret (bytes, bufferLen), (at_entry (i + Z.of_nat n + 1 - 1) g, w')); [reflexivity|].
      by rewrite Z.add_simpl_r. }
    split; [|right; split; [done|]; exists d; rewrite entry_size; split; [done|]; split; [destruct Hbytes as [?|[? _]]; [by left|by right]|lia]].
    destruct Hbytes as [->|[-> Hh]]; [done|]. rewrite length_app. unfold page_size in *.
    unfold encode_dirent. rewrite Nat2Z.inj_add, dirent_length. lia.
  - destruct Hpage as (Hn & -> & -> & Hl). exists (page_size (take n (drop (Z.to_nat i) ents))).
    split; [unfold mret, M_ret; rewrite Z.add_0_r; do 3 f_equal; lia|].
    unfold page_size in *. split; [lia|]. by left.
Qed.
End dirents.

(** * Opening, writing and renaming *)

Section calls.
Context `{Rados} `{Host} `{WasiABI} `{DirentABI} (conf : FaasmConfig).

(** The world after a system call. *)
Definition after_sys (c : syscall) (k : K) (w : World) : World :=
  mkWorld (w_s3 w) k (w_shared w) (w_calls w ++ [c]).

Lemma do_sys_run c w r e k :
  sys c (w_host w) = (r, e, k) → do_sys c w = (Ret (r, e), after_sys c k w).
Proof. intros Hs. unfold do_sys. by rewrite Hs. Qed.

Lemma in_world_run {A} (m : M World A) f w o w' :
  m w = (o, w') → in_world m (f, w) = (o, (f, w')).
Proof. intros Hm. unfold in_world, zoom. cbn. by rewrite Hm. Qed.

(** The end of an operation that failed with [errno]. *)
Definition failed_with {A} (a : A) (errno : Z) (f : FileDescriptor) (w : World) :
    outcome A * (FileDescriptor * World) :=
  match errnoToWasi errno with
  | Ret e => (Ret a, (set_wasiErrno e f, w))
  | Throw x => (Throw x, (f, w))
  end.

Lemma fail_wasi_run errno f w : fail_wasi errno (f, w) = failed_with false errno f w.
Proof.
  unfold fail_wasi, failed_with, lift, fd_mod, modify, mret, M_ret, mbind, M_bind.
  by destruct (errnoToWasi errno).
Qed.

(** The call that opens a path that is not shared. *)
Definition open_call (p : string) (flags mode : Z) : syscall :=
  let realPath := prependRuntimeRoot conf p in
  if decide (realPath = "/dev/urandom" ∨ realPath = "/dev/null") then c_open realPath 0 0
  else c_open realPath flags mode.

Lemma pathOpen_local openFlags fdFlags f w flags mode isWrite res errno k :
  rightsSet f = true → isPathShared (path f) = false →
  linux_open_args openFlags fdFlags (actualRightsBase f) = Ret (flags, mode, isWrite) →
  sys (open_call (path f) flags mode) (w_host w) = (res, errno, k) →
  let f1 := set_linuxFd res (set_linuxOpen flags mode f) in
  let w1 := after_sys (open_call (path f) flags mode) k w in
  pathOpen conf openFlags fdFlags (f, w) =
    if res <? 0 then failed_with false errno (set_linuxErrno errno f1) w1 else (Ret true, (f1, w1)).
Proof.
  intros Hr Hsh Hargs Hsys f1 w1. unfold linux_open_args in Hargs.
  destruct (getOpenMode (u16 openFlags)) as [om|] eqn:Hom; [|done]. cbn [mbind outcome_bind] in Hargs.
  destruct (open_access om (getRwType (actualRightsBase f))) as [[rw isw]|] eqn:Ha; [|done].
  cbn [mbind outcome_bind] in Hargs. destruct (open_flags om rw) as [lf lm] eqn:Hf.
  destruct (wasiFdFlagsToLinux fdFlags) as [more|] eqn:Hm; [|done]. cbn [mbind outcome_bind] in Hargs.
  injection Hargs as <- <- <-.
  assert (∀ f', in_world (do_sys (open_call (path f) (Z.lor lf more) lm)) (f', w) =
    (Ret (res, errno), (f', w1))) as Hdo
    by (intros f'; by apply in_world_run, do_sys_run).
  unfold pathOpen, fd_get, gets, fd_mod, modify, lift, mret, M_ret, mbind, M_bind. cbn [fst snd].
  rewrite Hr. cbn [negb fst snd]. rewrite Hom, Ha, Hf, Hm. cbn [fst snd]. rewrite Hsh. cbn [negb fst snd].
  cbn [set_linuxOpen linuxFlags linuxMode]. unfold open_call in Hdo. rewrite Hdo. cbn [fst snd].
  destruct (res <? 0); [|reflexivity]. cbn [fst snd]. rewrite fail_wasi_run. reflexivity.
Qed.

(** ** What an operation on a descriptor leaves alone *)

Record same_identity (f f' : FileDescriptor) : Prop := {
  same_path : path f' = path f;
  same_set : rightsSet f' = rightsSet f;
  same_base : actualRightsBase f' = actualRightsBase f;
  same_inheriting : actualRightsInheriting f' = actualRightsInheriting f;
  same_preopen : wasiPreopenType f' = wasiPreopenType f }.

#[local] Instance same_identity_preorder : PreOrder same_identity.
Proof. split; [by intros f|]. intros f g h [] []; split; congruence. Qed.

Definition fd_frame {A} (m : FdM A) : Prop := ∀ s, same_identity s.1 (m s).2.1.

Lemma frame_bind {A B} (m : FdM A) (k : A → FdM B) :
  fd_frame m → (∀ a, fd_frame (k a)) → fd_frame (m ≫= k).
Proof.
  intros Hm Hk s. rewrite run_bind. specialize (Hm s). destruct (m s) as [[a|e] s1]; [|done].
  etrans; [exact Hm|apply Hk].
Qed.
Lemma frame_ret {A} (a : A) : fd_frame (mret a).
Proof. by intros s. Qed.
Lemma frame_throw {A} e : fd_frame (@throw (FileDescriptor * World) A e).
Proof. by intros s. Qed.
Lemma frame_lift {A} (o : outcome A) : fd_frame (lift o).
Proof. by intros s. Qed.
Lemma frame_get : fd_frame fd_get.
Proof. by intros s. Qed.
Lemma frame_mod g : (∀ f, same_identity f (g f)) → fd_frame (fd_mod g).
Proof. intros Hg s. apply Hg. Qed.
Lemma frame_world {A} (m : M World A) : fd_frame (in_world m).
Proof. intros [f w]. unfold in_world, zoom. cbn. by destruct (m w). Qed.

Create HintDb frame discriminated.
#[local] Hint Resolve frame_ret frame_throw frame_lift frame_get frame_world : frame.
#[local] Hint Extern 2 (fd_frame (fd_mod _)) => apply frame_mod; intros; split; reflexivity : frame.

(** [frames] walks down the binds and branches of an operation. *)
Ltac frames := repeat first
  [ solve [auto with frame]
  | apply frame_bind; [|intros]
  | match goal with |- fd_frame (match ?x with _ => _ end) => destruct x end ].

Lemma fail_wasi_frame errno : fd_frame (fail_wasi errno).
Proof. unfold fail_wasi. frames. Qed.
#[local] Hint Resolve fail_wasi_frame : frame.

Lemma pathOpen_frame openFlags fdFlags : fd_frame (pathOpen conf openFlags fdFlags).
Proof. unfold pathOpen. frames. Qed.

Lemma duplicate_preopen other s :
  wasiPreopenType (duplicate other s).2.1 = wasiPreopenType s.1.
Proof.
  destruct s as [f w]. unfold duplicate, in_world, zoom, do_sys, fd_mod, modify, mbind, M_bind, mret, M_ret.
  cbn. by destruct (sys _ _) as [[r e] k].
Qed.

(** ** Whether a path was opened *)

Lemma fail_wasi_ret errno s b s' :
  fail_wasi errno s = (Ret b, s') → b = false ∧ errnoToWasi errno = Ret (wasiErrno s'.1).
Proof.
  destruct s as [f w]. rewrite fail_wasi_run. unfold failed_with.
  destruct (errnoToWasi errno); [|done]. by intros [= <- <-].
Qed.

Lemma errnoToWasi_positive `{!WasiLaws} errno e : errnoToWasi errno = Ret e → 0 < e < 2 ^ 16.
Proof.
  unfold errnoToWasi. destruct (assocZ errno errno_table) as [v|] eqn:Hv; [|done]. intros [= <-].
  apply assocZ_in in Hv. pose proof errno_positive as Hall. rewrite Forall_forall in Hall.
  apply Hall. change (v ∈ errno_table.*2). apply list_elem_of_fmap. by exists (errno, v).
Qed.

Lemma pathOpen_result `{!WasiLaws} openFlags fdFlags s b s' :
  pathOpen conf openFlags fdFlags s = (Ret b, s') →
  if b : bool then 0 ≤ linuxFd s'.1 else 0 < wasiErrno s'.1 < 2 ^ 16.
Proof.
  unfold pathOpen. intros (f & s0 & _ & Hrun)%run_bind_inv.
  destruct (negb (rightsSet f)); [done|].
  apply run_bind_inv in Hrun as (om & s1 & _ & Hrun).
  apply run_bind_inv in Hrun as ([rw isw] & s2 & _ & Hrun).
  apply run_bind_inv in Hrun as ([] & s3 & _ & Hrun).
  apply run_bind_inv in Hrun as (more & s4 & _ & Hrun).
  apply run_bind_inv in Hrun as ([] & s5 & _ & Hrun).
  apply run_bind_inv in Hrun as (synced & s6 & Hsync & Hrun). destruct synced; cbn [negb] in Hrun.
  - apply run_bind_inv in Hrun as (f2 & s7 & _ & Hrun).
    apply run_bind_inv in Hrun as ([res errno] & s8 & _ & Hrun).
    apply run_bind_inv in Hrun as ([] & s9 & Hset & Hrun). injection Hset as <-.
    destruct (Z.ltb_spec res 0).
    + apply run_bind_inv in Hrun as ([] & s10 & _ & Hrun).
      apply fail_wasi_ret in Hrun as [-> He]. by eapply errnoToWasi_positive.
    + by injection Hrun as <- <-.
  - injection Hrun as <- <-. destruct (isPathShared (path f)); [|done].
    apply run_bind_inv in Hsync as (err & s7 & _ & Hsync).
    apply run_bind_inv in Hsync as ([] & s8 & _ & Hsync).
    destruct (negb (err =? 0)); [|done]. destruct (negb isw).
    + apply run_bind_inv in Hsync as ([] & s9 & _ & Hsync).
      apply run_bind_inv in Hsync as (b & s10 & Hf & [= <-]).
      apply fail_wasi_ret in Hf as [_ He]. by eapply errnoToWasi_positive.
    + by apply run_bind_inv in Hsync as ([] & s9 & _ & [= _]).
Qed.

(** ** Flaws of the translation to Linux *)

(** A file opened with create is opened without truncation and without
    exclusion, whatever the truncate and exclusive flags say: only [O_CREAT] is
    passed on, and existing content stays. *)
Theorem pathOpen_create_never_truncates openFlags fdFlags f w flags mode isWrite :
  rightsSet f = true → isPathShared (path f) = false →
  linux_open_args openFlags fdFlags (actualRightsBase f) = Ret (flags, mode, isWrite) →
  prependRuntimeRoot conf (path f) ≠ "/dev/urandom" → prependRuntimeRoot conf (path f) ≠ "/dev/null" →
  has_bits (u16 openFlags) WASI_O_CREAT = true →
  w_calls (pathOpen conf openFlags fdFlags (f, w)).2.2 =
    w_calls w ++ [c_open (prependRuntimeRoot conf (path f)) flags mode] ∧
  Z.land flags O_CREAT = O_CREAT ∧ Z.land flags O_TRUNC = 0 ∧ Z.land flags O_EXCL = 0.
Proof.
  intros Hr Hsh Hargs Hu Hn Hc. split; [|by eapply open_create_drops_flags].
  destruct (sys (open_call (path f) flags mode) (w_host w)) as [[res errno] k] eqn:Hsys.
  rewrite (pathOpen_local _ _ _ _ _ _ _ _ _ _ Hr Hsh Hargs Hsys).
  unfold open_call. rewrite decide_False by tauto.
  destruct (res <? 0); [|done]. unfold failed_with. by destruct (errnoToWasi errno).
Qed.

(** A rename that fails reports a permission error, whatever went wrong: the
    error is made from the call's result, which is -1. *)
Theorem rename_error_is_EPERM newPath relativePath f w errno k :
  let c := c_rename (prependRuntimeRoot conf (absPath relativePath f)) (prependRuntimeRoot conf newPath) in
  sys c (w_host w) = (-1, errno, k) →
  rename conf newPath relativePath (f, w) = (Ret false, (set_wasiErrno WASI_EPERM f, after_sys c k w)).
Proof.
  intros c Hc. unfold rename, fd_get, gets, mbind, M_bind. cbn [fst].
  erewrite in_world_run by (apply do_sys_run; exact Hc). cbn [Z.eqb negb]. by rewrite fail_wasi_run.
Qed.

(** A write that fails returns 0 bytes written, which is no error to a caller
    that looks for a negative result. *)
Lemma write_error data len f w errno k e :
  sys (c_writev (linuxFd f) data len) (w_host w) = (-1, errno, k) → errnoToWasi errno = Ret e →
  write conf data len (f, w) = (Ret 0, (set_wasiErrno e f, after_sys (c_writev (linuxFd f) data len) k w)).
Proof.
  intros Hc He. unfold write, fd_get, gets, mret, M_ret, mbind, M_bind. cbn [fst].
  erewrite in_world_run by (apply do_sys_run; exact Hc). cbn [Z.ltb Z.compare].
  rewrite fail_wasi_run. unfold failed_with. by rewrite He.
Qed.
End calls.

(** * Concrete runs *)

#[export] Instance demo_dirent : DirentABI := {
  dirent_size := 24;
  wasi_dirent next ino namlen type :=
    Z_to_little_endian 8 8 next ++ Z_to_little_endian 8 8 ino ++ Z_to_little_endian 4 8 namlen ++
    [type mod 256; 0; 0; 0] }.

#[export] Instance demo_dirent_laws : DirentLaws.
Proof.
  split; [done|]. intros n i l t. cbn. rewrite !length_app, !Nat2Z.inj_add.
  by rewrite !length_Z_to_little_endian by lia.
Qed.

(** A host whose system calls all fail with [e]. *)
Definition failing_host (e : Z) : Host := {|
  K := @K demo_host;
  fs_exists := @fs_exists demo_host; fs_is_directory := @fs_is_directory demo_host;
  readFileToBytes := @readFileToBytes demo_host; writeBytesToFile := @writeBytesToFile demo_host;
  create_directories := @create_directories demo_host; fs_remove := @fs_remove demo_host;
  boost_append := @boost_append demo_host; startsWith := @startsWith demo_host;
  removeSubstr := @removeSubstr demo_host;
  sys c k := (-1, e, k); sys_data := @sys_data demo_host; sys_stat := @sys_stat demo_host;
  sys_readdir := @sys_readdir demo_host |}.

Definition demo_fd : FileDescriptor :=
  setActualRights (RIGHT_FD_READ + RIGHT_FD_WRITE) 0 (setPath "out/log.txt" FD_zero).

Lemma copyDirentsToWasiBuffer_spec_witness :
  let dir := set_dir true (number_dirents 0 [mkNativeDirent 4 1 "."; mkNativeDirent 4 1 ".."; mkNativeDirent 8 5 "a.txt"]) 0 FD_zero in
  ∃ (n : nat) bytes r, copyDirentsToWasiBuffer demo_conf 4 60 (dir, demo_world) =
      (Ret (bytes, r), (set_dir true (dirContents dir) (0 + Z.of_nat n) dir, demo_world)) ∧
    Z.of_nat (length bytes) ≤ 60.
Proof.
  intros dir.
  destruct (copyDirentsToWasiBuffer_spec demo_conf 4 60 dir demo_world (dirContents dir) 0 demo_world)
    as (n & bytes & r & Hrun & Hlen & _); [left; by split_and!|lia|cbn; lia|cbn; lia|lia|].
  by exists n, bytes, r.
Defined.

Lemma pathOpen_create_never_truncates_witness :
  w_calls (pathOpen demo_conf (WASI_O_CREAT + WASI_O_TRUNC) 0 (demo_fd, demo_world)).2.2 =
    [c_open "/usr/local/faasm/runtime_root/out/log.txt" 66 CREATE_MODE] ∧
  Z.land 66 O_CREAT = O_CREAT ∧ Z.land 66 O_TRUNC = 0 ∧ Z.land 66 O_EXCL = 0.
Proof.
  apply (pathOpen_create_never_truncates demo_conf (WASI_O_CREAT + WASI_O_TRUNC) 0 demo_fd demo_world
    66 CREATE_MODE true); try reflexivity; discriminate.
Defined.

Lemma rename_error_is_EPERM_witness :
  let w := @mkWorld demo_rados (failing_host ENOENT) demo_s3 ∅ ∅ [] in
  (@rename demo_rados (failing_host ENOENT) demo_wasi demo_conf "b" "a" (demo_fd, w)).1 = Ret false.
Proof.
  intros w. erewrite (@rename_error_is_EPERM demo_rados (failing_host ENOENT) demo_wasi demo_conf
    "b" "a" demo_fd w ENOENT); reflexivity.
Defined.
