(* ===== verification/FileSystem.v ===== *)
(** The table of a module's open files (src/storage/FileSystem.cpp): the
    predefined descriptors, opening below a descriptor with the rights it lets
    its children have, duplication and teardown. *)

From S2P Require Import Prelude WasmBytes S3 Host FileLoader SharedFiles Wasi FileDescriptor.

Definition DEFAULT_ROOT_FD : Z := 4.

(** The file system of a module and the world around it. *)
Record FileSystem `{Rados} `{Host} := mkFS {
  nextFd : Z; fileDescriptors : gmap Z FileDescriptor; fs_world : World }.
Arguments mkFS {_ _} _ _ _.

Section fs.
Context `{Rados} `{Host} `{WasiABI} (conf : FaasmConfig).

Definition fs_put_fd (fd : Z) (f : FileDescriptor) (s : FileSystem) : FileSystem :=
  mkFS (nextFd s) (<[fd := f]> (fileDescriptors s)) (fs_world s).
Definition fs_set_next (n : Z) (s : FileSystem) : FileSystem :=
  mkFS n (fileDescriptors s) (fs_world s).

(** [unordered_map::emplace] keeps an entry that is there. *)
Definition fs_emplace (fd : Z) (f : FileDescriptor) (s : FileSystem) : FileSystem :=
  match fileDescriptors s !! fd with Some _ => s | None => fs_put_fd fd f s end.

(** Running an operation on the descriptor of the table under [fd], which
    [operator[]] makes when it is missing. *)
Definition on_fd {A} (fd : Z) (m : FdM A) : M FileSystem A :=
  zoom (λ s, (default FD_zero (fileDescriptors s !! fd), fs_world s))
    (λ fw s, mkFS (nextFd s) (<[fd := fw.1]> (fileDescriptors s)) fw.2) m.

Definition fileDescriptorExists (fd : Z) (s : FileSystem) : bool :=
  bool_decide (is_Some (fileDescriptors s !! fd)).

Definition getFileDescriptor (fd : Z) : M FileSystem FileDescriptor :=
  s ← get;
  match fileDescriptors s !! fd with
  | Some f => mret f
  | None => throw (RuntimeError "File descriptor does not exist")
  end.

Definition getPathForFd (fd : Z) (s : FileSystem) : string :=
  match fileDescriptors s !! fd with Some f => path f | None => "" end.

Definition getNewFd : M FileSystem Z :=
  s ← get; put (fs_set_next (i32 (nextFd s + 1)) s) ;; mret (nextFd s).

Definition createPreopenedFileDescriptor (fd : Z) (p : string) : M FileSystem unit :=
  s ← get;
  let fileDesc := setActualRights DIRECTORY_RIGHTS INHERITING_DIRECTORY_RIGHTS (setPath p FD_zero) in
  match pathOpen conf WASI_O_DIRECTORY 0 (fileDesc, fs_world s) with
  | (Ret true, (f, w)) =>
      put (fs_emplace fd (set_preopen PREOPENTYPE_DIR f) (mkFS (nextFd s) (fileDescriptors s) w))
  | (Ret false, (f, w)) =>
      put (mkFS (nextFd s) (fileDescriptors s) w) ;;
      throw (RuntimeError "Problem opening preopened fd")
  | (Throw e, (f, w)) =>
      put (mkFS (nextFd s) (fileDescriptors s) w) ;; throw e
  end.

Definition prepareFilesystem (uninit : Z) : M FileSystem unit :=
  modify (fs_emplace 0 (stdinFactory uninit)) ;;
  modify (fs_emplace 1 (stdoutFactory uninit)) ;;
  modify (fs_emplace 2 (stderrFactory uninit)) ;;
  createPreopenedFileDescriptor 3 "/" ;;
  createPreopenedFileDescriptor 4 "." ;;
  modify (fs_set_next 5).

(** The path opened below a descriptor. *)
Definition openPath (rootPath relativePath : string) : string :=
  if isPathShared relativePath then relativePath
  else if decide (rootPath = ".") then relativePath
  else boost_append rootPath relativePath.

Definition openFileDescriptor (rootFd : Z) (relativePath : string)
    (rightsBase rightsInheriting openFlags fdFlags : Z) : M FileSystem Z :=
  rootFileDesc ← getFileDescriptor rootFd;
  let fullPath := openPath (path rootFileDesc) relativePath in
  thisFd ← getNewFd;
  on_fd thisFd (fd_mod (setPath fullPath)) ;;
  let effectiveRightsInheriting := Z.land rightsInheriting (actualRightsInheriting rootFileDesc) in
  let effectiveRights := Z.land rightsBase (actualRightsInheriting rootFileDesc) in
  on_fd thisFd (fd_mod (setActualRights effectiveRights effectiveRightsInheriting)) ;;
  success ← on_fd thisFd (pathOpen conf openFlags fdFlags);
  if negb success then
    s ← get;
    mret (-1 * wasiErrno (default FD_zero (fileDescriptors s !! thisFd)))
  else mret thisFd.

Definition dup (fd : Z) : M FileSystem Z :=
  newFd ← getNewFd;
  originalDesc ← getFileDescriptor fd;
  on_fd newFd (duplicate originalDesc) ;;
  mret newFd.

(** [tearDown], over the table in some order. *)
Definition tearDown : M FileSystem unit :=
  s ← get;
  for_each (map_to_list (fileDescriptors s)) (λ '(fd, f),
    when (negb (wasiPreopenType f =? PREOPENTYPE_DIR)) (on_fd fd close)).

(** * Invariants of the table *)

(** What the system calls of a module do to the table, as long as there are
    numbers left. *)
Inductive fs_step : FileSystem → FileSystem → Prop :=
  | step_open rootFd p rb ri oF fF s :
      nextFd s < INT32_MAX → fs_step s (openFileDescriptor rootFd p rb ri oF fF s).2
  | step_dup fd s : nextFd s < INT32_MAX → fs_step s (dup fd s).2.

(** All the rights a module starts with. *)
Definition all_rights : Z :=
  Z.lor (Z.lor DIRECTORY_RIGHTS INHERITING_DIRECTORY_RIGHTS)
    (actualRightsBase (stdinFactory 0)).

(** Fresh descriptors have numbers above all in use, every descriptor's rights
    are among those the module started with, and all but the standard streams
    count as preopened. *)
Record fs_inv (s : FileSystem) : Prop := {
  inv_fresh : ∀ fd, is_Some (fileDescriptors s !! fd) → fd < nextFd s;
  inv_rights : ∀ fd f, fileDescriptors s !! fd = Some f →
    bits_sub (actualRightsBase f) all_rights ∧ bits_sub (actualRightsInheriting f) all_rights;
  inv_preopen : ∀ fd f, fileDescriptors s !! fd = Some f → fd ∉ [0; 1; 2] →
    wasiPreopenType f = PREOPENTYPE_DIR;
  inv_next : 5 ≤ nextFd s }.

Lemma on_fd_run {A} fd (m : FdM A) s o f w :
  m (default FD_zero (fileDescriptors s !! fd), fs_world s) = (o, (f, w)) →
  on_fd fd m s = (o, mkFS (nextFd s) (<[fd := f]> (fileDescriptors s)) w).
Proof. intros Hm. unfold on_fd, zoom. by rewrite Hm. Qed.

(** Opening adds one entry, for the next number, whether or not it succeeds. *)
Lemma open_table rootFd p rb ri oF fF s root :
  fileDescriptors s !! rootFd = Some root →
  let f0 := setActualRights (Z.land rb (actualRightsInheriting root)) (Z.land ri (actualRightsInheriting root))
              (setPath (openPath (path root) p) (default FD_zero (fileDescriptors s !! nextFd s))) in
  let r := pathOpen conf oF fF (f0, fs_world s) in
  openFileDescriptor rootFd p rb ri oF fF s =
    (match r.1 with
     | Ret true => Ret (nextFd s)
     | Ret false => Ret (-1 * wasiErrno r.2.1)
     | Throw e => Throw e
     end, mkFS (i32 (nextFd s + 1)) (<[nextFd s := r.2.1]> (fileDescriptors s)) r.2.2).
Proof.
  intros Hroot f0 r.
  unfold openFileDescriptor, getFileDescriptor, getNewFd, get, put, mret, M_ret, mbind, M_bind.
  rewrite Hroot. unfold on_fd, zoom, fd_mod, modify. cbn [fileDescriptors fs_set_next fs_world nextFd fst snd].
  rewrite !lookup_insert_eq.
  match goal with |- context [pathOpen conf oF fF ?x] => change (pathOpen conf oF fF x) with r end.
  destruct r as [[[|]|e] [f1 w1]]; cbn [fst snd negb fileDescriptors];
    rewrite ?insert_insert_eq, ?lookup_insert_eq; done.
Qed.

Lemma open_missing_root rootFd p rb ri oF fF s :
  fileDescriptors s !! rootFd = None →
  openFileDescriptor rootFd p rb ri oF fF s = (Throw (RuntimeError "File descriptor does not exist"), s).
Proof.
  intros Hr. unfold openFileDescriptor, getFileDescriptor, get, throw, mbind, M_bind. by rewrite Hr.
Qed.

Lemma dup_table fd s f :
  fileDescriptors s !! fd = Some f →
  ∃ g w, (dup fd s).2 = mkFS (i32 (nextFd s + 1)) (<[nextFd s := g]> (fileDescriptors s)) w ∧
    actualRightsBase g = actualRightsBase f ∧ actualRightsInheriting g = actualRightsInheriting f ∧
    wasiPreopenType g = wasiPreopenType (default FD_zero (fileDescriptors s !! nextFd s)).
Proof.
  intros Hf. destruct (sys (c_dup (linuxFd f)) (w_host (fs_world s))) as [[r e] k] eqn:Hsys.
  unfold dup, getNewFd, getFileDescriptor, get, put, mret, M_ret, mbind, M_bind.
  cbn [fileDescriptors fs_set_next]. rewrite Hf.
  unfold on_fd, zoom, duplicate, in_world, zoom, do_sys, fd_mod, modify, mbind, M_bind, mret, M_ret.
  cbn [fst snd fs_world fs_set_next fileDescriptors]. rewrite Hsys. cbn [fst snd].
  eexists _, _. split; [reflexivity|]. done.
Qed.

Lemma bits_sub_land a b c : bits_sub b c → bits_sub (Z.land a b) c.
Proof. intros. etrans; [apply bits_sub_land_r|done]. Qed.

Context `{!WasiLaws}.

(** Adding an entry under the next number keeps the invariant. *)
Lemma fs_inv_add s g w :
  fs_inv s → nextFd s < INT32_MAX →
  bits_sub (actualRightsBase g) all_rights → bits_sub (actualRightsInheriting g) all_rights →
  wasiPreopenType g = wasiPreopenType (default FD_zero (fileDescriptors s !! nextFd s)) →
  fs_inv (mkFS (i32 (nextFd s + 1)) (<[nextFd s := g]> (fileDescriptors s)) w).
Proof.
  intros [Hfresh Hrights Hpre Hnext] Hmax Hb Hi Hp. unfold INT32_MAX in Hmax.
  assert (fileDescriptors s !! nextFd s = None) as Hnone.
  { apply eq_None_not_Some. intros Hs%Hfresh. lia. }
  rewrite Hnone in Hp. rewrite wrapS_id by (unfold in_s; lia).
  split; cbn [fileDescriptors nextFd].
  - intros fd [f Hf]. apply lookup_insert_Some in Hf as [[<- _]|[_ Hf]]; [lia|].
    specialize (Hfresh fd ltac:(by exists f)). lia.
  - intros fd f [[<- <-]|[_ Hf]]%lookup_insert_Some; [done|by eapply Hrights].
  - intros fd f [[<- <-]|[_ Hf]]%lookup_insert_Some; [|by eapply Hpre].
    intros _. rewrite Hp, preopentype_dir_zero. done.
  - lia.
Qed.

Lemma fs_step_inv s s' : fs_step s s' → fs_inv s → fs_inv s'.
Proof.
  intros Hstep Hinv. destruct Hstep as [rootFd p rb ri oF fF s Hmax|fd s Hmax].
  - destruct (fileDescriptors s !! rootFd) as [root|] eqn:Hroot;
      [|by rewrite open_missing_root].
    rewrite (open_table _ _ _ _ _ _ _ _ Hroot). cbn [snd].
    set (f0 := setActualRights _ _ _).
    destruct (pathOpen_frame conf oF fF (f0, fs_world s)) as [_ _ Hb Hi Hp].
    destruct (inv_rights _ Hinv _ _ Hroot) as [_ Hri]. cbn [fst] in *.
    apply fs_inv_add; try done; rewrite ?Hb, ?Hi; by apply bits_sub_land.
  - destruct (fileDescriptors s !! fd) as [f|] eqn:Hf.
    + destruct (dup_table fd s f Hf) as (g & w & -> & Hb & Hi & Hp).
      destruct (inv_rights _ Hinv _ _ Hf) as [Hrb Hri].
      apply fs_inv_add; try done; by rewrite ?Hb, ?Hi.
    + unfold dup, getNewFd, getFileDescriptor, get, put, mret, M_ret, mbind, M_bind, throw.
      cbn [fileDescriptors fs_set_next]. rewrite Hf. cbn [snd]. unfold INT32_MAX in Hmax.
      destruct Hinv as [Hfresh Hrights Hpre Hnext].
      split; cbn [fs_set_next fileDescriptors nextFd]; rewrite ?wrapS_id by (unfold in_s; lia); try done; [|lia].
      intros fd' Hfd'. specialize (Hfresh fd' Hfd'). lia.
Qed.

(** ** The prepared file system *)

Lemma bits_sub_lor_l a b : bits_sub a (Z.lor a b).
Proof.
  unfold bits_sub. apply Z.bits_inj'. intros n Hn. rewrite Z.land_spec, Z.lor_spec.
  by destruct (Z.testbit a n), (Z.testbit b n).
Qed.
Lemma bits_sub_lor_r a b : bits_sub b (Z.lor a b).
Proof. rewrite Z.lor_comm. apply bits_sub_lor_l. Qed.

Lemma std_rights u n p : actualRightsBase (stdFdFactory u n p) = actualRightsBase (stdinFactory 0) ∧
  actualRightsInheriting (stdFdFactory u n p) = actualRightsBase (stdinFactory 0).
Proof. done. Qed.

(** What holds of each entry of the prepared table. *)
Definition entry_ok (fd : Z) (f : FileDescriptor) : Prop :=
  fd ∈ [0; 1; 2; 3; 4] ∧ bits_sub (actualRightsBase f) all_rights ∧
  bits_sub (actualRightsInheriting f) all_rights ∧
  (fd ∉ [0; 1; 2] → wasiPreopenType f = PREOPENTYPE_DIR).
Definition table_ok (s : FileSystem) : Prop := map_Forall entry_ok (fileDescriptors s).

Lemma emplace_ok fd f s : entry_ok fd f → table_ok s → table_ok (fs_emplace fd f s).
Proof.
  intros Hf Hs. unfold fs_emplace. destruct (fileDescriptors s !! fd); [done|].
  by apply map_Forall_insert_2.
Qed.

Lemma std_ok u n p fd : fd ∈ [0; 1; 2] → entry_ok fd (stdFdFactory u n p).
Proof.
  intros Hfd. destruct (std_rights u n p) as [Hb Hi]. unfold entry_ok. rewrite Hb, Hi.
  assert (bits_sub (actualRightsBase (stdinFactory 0)) all_rights) by apply bits_sub_lor_r.
  split; [|done]. rewrite !elem_of_cons in *. tauto.
Qed.

Lemma preopened_ok fd p s s' :
  fd ∈ [3; 4] → table_ok s → createPreopenedFileDescriptor fd p s = (Ret (), s') → table_ok s'.
Proof.
  intros Hfd Hs. unfold createPreopenedFileDescriptor, get, mbind, M_bind.
  set (f0 := setActualRights _ _ _).
  pose proof (pathOpen_frame conf WASI_O_DIRECTORY 0 (f0, fs_world s)) as [_ _ Hb Hi _].
  destruct (pathOpen conf WASI_O_DIRECTORY 0 (f0, fs_world s)) as [[[|]|e] [f w]]; try done.
  intros [= <-]. cbn in Hb, Hi. apply emplace_ok; [|done]. unfold entry_ok.
  cbn [set_preopen actualRightsBase actualRightsInheriting wasiPreopenType]. rewrite Hb, Hi.
  split; [rewrite !elem_of_cons in *; tauto|]. split; [|split; [|done]];
    (etrans; [|apply bits_sub_lor_l]); [apply bits_sub_lor_l|apply bits_sub_lor_r].
Qed.

Lemma prepare_inv u n w s :
  prepareFilesystem u (mkFS n ∅ w) = (Ret (), s) → fs_inv s.
Proof.
  unfold prepareFilesystem. intros ([] & s1 & [= <-] & H1')%run_bind_inv.
  apply run_bind_inv in H1' as ([] & s2 & [= <-] & H2').
  apply run_bind_inv in H2' as ([] & s3 & [= <-] & H3').
  apply run_bind_inv in H3' as ([] & s4 & H4' & H5').
  apply run_bind_inv in H5' as ([] & s5 & H6' & [= <-]).
  assert (table_ok s5) as Hok.
  { eapply preopened_ok; [|eapply preopened_ok; [| |exact H4']|exact H6']; [set_solver by lia..|].
    repeat (apply emplace_ok; [apply std_ok; rewrite !elem_of_cons; tauto|]). apply map_Forall_empty. }
  split; cbn [fs_set_next fileDescriptors nextFd]; [|intros fd f Hf; split; by apply (Hok fd f Hf)
    |intros fd f Hf Hn; by apply (Hok fd f Hf)|done].
  intros fd [f Hf]. destruct (Hok fd f Hf) as [Hfd _]. rewrite !elem_of_cons, elem_of_nil in Hfd. lia.
Qed.

(** ** Reachable tables *)

Definition fs_reachable (s : FileSystem) : Prop :=
  ∃ u n w s0, prepareFilesystem u (mkFS n ∅ w) = (Ret (), s0) ∧ rtc fs_step s0 s.

Lemma reachable_inv s : fs_reachable s → fs_inv s.
Proof.
  intros (u & n & w & s0 & Hp%prepare_inv & Hsteps).
  induction Hsteps as [|s0 s1 s2 Hstep _ IH]; [done|]. apply IH. by eapply fs_step_inv.
Qed.

(** An open that returns adds one entry, under a number no descriptor has had,
    with no right that was not both requested and inheritable from the
    descriptor it was opened under; it returns that number or an error. *)
Lemma open_cases rootFd p rb ri oF fF s r s' :
  fs_reachable s → openFileDescriptor rootFd p rb ri oF fF s = (Ret r, s') →
  ∃ root f, fileDescriptors s !! rootFd = Some root ∧ fileDescriptors s !! nextFd s = None ∧
    fileDescriptors s' = <[nextFd s := f]> (fileDescriptors s) ∧
    bits_sub (actualRightsBase f) rb ∧ bits_sub (actualRightsBase f) (actualRightsInheriting root) ∧
    bits_sub (actualRightsInheriting f) ri ∧
    bits_sub (actualRightsInheriting f) (actualRightsInheriting root) ∧
    (r = nextFd s ∨ 0 < - r < 2 ^ 16).
Proof.
  intros Hinv%reachable_inv Hopen.
  destruct (fileDescriptors s !! rootFd) as [root|] eqn:Hroot; [|by rewrite open_missing_root in Hopen].
  rewrite (open_table _ _ _ _ _ _ _ _ Hroot) in Hopen. set (f0 := setActualRights _ _ _) in Hopen.
  destruct (pathOpen_frame conf oF fF (f0, fs_world s)) as [_ _ Hb Hi _].
  destruct (pathOpen conf oF fF (f0, fs_world s)) as [o [f w]] eqn:Hrun. cbn [fst snd] in *.
  assert (fileDescriptors s !! nextFd s = None) as Hfresh
    by (apply eq_None_not_Some; intros Hs%(inv_fresh _ Hinv); lia).
  exists root, f. rewrite Hb, Hi. cbn [actualRightsBase actualRightsInheriting f0 setActualRights].
  destruct o as [b|]; [|done].
  pose proof (pathOpen_result conf oF fF _ _ _ Hrun) as Hres. cbn [fst] in Hres.
  split; [done|]. split; [done|]. destruct b; injection Hopen as <- <-;
    (split; [done|]); do 4 (split; [first [apply bits_sub_land_l|apply bits_sub_land_r]|]); lia.
Qed.

(** C39: No sequence of opens and duplications gives a module a descriptor with a
    right it did not start with. *)
Theorem rights_never_grow s fd f :
  fs_reachable s → fileDescriptors s !! fd = Some f →
  bits_sub (actualRightsBase f) all_rights ∧ bits_sub (actualRightsInheriting f) all_rights.
Proof. intros Hinv%reachable_inv. by apply inv_rights. Qed.

(** An open that fails still takes a number and leaves an entry in the table:
    its number is not given to the module, but exists for it. *)
Theorem openFileDescriptor_failure_leaks rootFd p rb ri oF fF s r s' :
  fs_reachable s → openFileDescriptor rootFd p rb ri oF fF s = (Ret r, s') → r < 0 →
  0 < - r < 2 ^ 16 ∧ fileDescriptorExists (nextFd s) s = false ∧ fileDescriptorExists (nextFd s) s' = true.
Proof.
  intros Hreach Hopen Hr. pose proof (inv_next _ (reachable_inv _ Hreach)).
  destruct (open_cases _ _ _ _ _ _ _ _ _ Hreach Hopen) as (root & f & _ & Hnone & Htab & _ & _ & _ & _ & Hres).
  split; [lia|]. unfold fileDescriptorExists. rewrite Hnone, Htab, lookup_insert_eq. done.
Qed.

Lemma close_calls f w :
  ∃ w', close (f, w) = (Ret (), (f, w')) ∧
    w_calls w' = w_calls w ++ (if linuxFd f >? 0 then [c_close (linuxFd f)] else []).
Proof.
  unfold close, fd_get, gets, when, in_world, zoom, do_sys, mret, M_ret, mbind, M_bind. cbn [fst snd].
  destruct (linuxFd f >? 0); [|exists w; by rewrite app_nil_r].
  destruct (sys _ _) as [[r e] k]. eexists. split; [reflexivity|]. done.
Qed.

(** Tearing a module's file system down closes no file it opened: a descriptor
    made by an open counts as preopened, and only the standard streams do
    not. *)
Theorem tearDown_closes_no_opened_file s c :
  fs_reachable s → c ∈ w_calls (fs_world (tearDown s).2) → c ∉ w_calls (fs_world s) →
  ∃ fd f, fd ∈ [0; 1; 2] ∧ fileDescriptors s !! fd = Some f ∧ c = c_close (linuxFd f).
Proof.
  intros Hinv%reachable_inv Hc Hnew.
  set (I := λ s' : FileSystem, fileDescriptors s' = fileDescriptors s ∧
    ∀ c, c ∈ w_calls (fs_world s') → c ∈ w_calls (fs_world s) ∨
      ∃ fd f, fd ∈ [0; 1; 2] ∧ fileDescriptors s !! fd = Some f ∧ c = c_close (linuxFd f)).
  assert (I (tearDown s).2) as [_ HI]; [|destruct (HI c Hc); [done|done]].
  unfold tearDown, get, mbind, M_bind. apply for_each_invariant; [|split; [done|by left]].
  intros [fd f] s1 Hin [Hfds Hcalls]. apply elem_of_map_to_list in Hin.
  unfold when. destruct (Z.eqb_spec (wasiPreopenType f) PREOPENTYPE_DIR) as [|Hne]; cbn [negb]; [by split|].
  destruct (decide (fd ∈ [0; 1; 2])) as [Hstd|Hn]; [|by destruct Hne; eapply inv_preopen].
  destruct (close_calls f (fs_world s1)) as (w' & Hclose & Hw').
  rewrite (on_fd_run fd close s1 (Ret ()) f w') by (rewrite Hfds, Hin; exact Hclose).
  split; cbn [snd fileDescriptors fs_world].
  - rewrite Hfds. by apply insert_id.
  - intros c'. rewrite Hw', elem_of_app. intros [Hc'|Hc']; [by apply Hcalls|].
    right. exists fd, f. destruct (linuxFd f >? 0); [|by apply elem_of_nil in Hc'].
    apply list_elem_of_singleton in Hc'. done.
Qed.
End fs.


(** * Witnesses *)

(** A host on which only directories can be opened. *)
Definition missing_host : Host := {|
  K := @K demo_host;
  fs_exists := @fs_exists demo_host; fs_is_directory := @fs_is_directory demo_host;
  readFileToBytes := @readFileToBytes demo_host; writeBytesToFile := @writeBytesToFile demo_host;
  create_directories := @create_directories demo_host; fs_remove := @fs_remove demo_host;
  boost_append := @boost_append demo_host; startsWith := @startsWith demo_host;
  removeSubstr := @removeSubstr demo_host;
  sys c k := match c with
             | c_open _ flags _ => if Z.land flags O_DIRECTORY =? 0 then (-1, ENOENT, k) else (7, 0, k)
             | _ => (7, 0, k)
             end;
  sys_data := @sys_data demo_host; sys_stat := @sys_stat demo_host;
  sys_readdir := @sys_readdir demo_host |}.

Definition demo_fs : FileSystem := (prepareFilesystem demo_conf 1 (mkFS 0 ∅ demo_world)).2.
Definition missing_world : @World demo_rados missing_host :=
  @mkWorld demo_rados missing_host demo_s3 ∅ ∅ [].
Definition missing_fs : @FileSystem demo_rados missing_host :=
  (@prepareFilesystem demo_rados missing_host demo_wasi demo_conf 1
     (@mkFS demo_rados missing_host 0 ∅ missing_world)).2.

Lemma demo_fs_reachable : fs_reachable demo_conf demo_fs.
Proof.
  exists 1, 0, demo_world, demo_fs. split; [|apply rtc_refl].
  assert ((prepareFilesystem demo_conf 1 (mkFS 0 ∅ demo_world)).1 = Ret ()) as Hr
    by (vm_compute; reflexivity).
  exact (run_fst _ _ _ Hr).
Qed.

Lemma missing_fs_reachable : @fs_reachable demo_rados missing_host demo_wasi demo_conf missing_fs.
Proof.
  exists 1, 0, missing_world, missing_fs. split; [|apply rtc_refl].
  assert ((@prepareFilesystem demo_rados missing_host demo_wasi demo_conf 1
     (@mkFS demo_rados missing_host 0 ∅ missing_world)).1 = Ret ()) as Hr by (vm_compute; reflexivity).
  exact (run_fst _ _ _ Hr).
Qed.

Lemma rights_never_grow_witness :
  ∃ f, fileDescriptors demo_fs !! 4 = Some f ∧ bits_sub (actualRightsBase f) all_rights.
Proof.
  destruct (fileDescriptors demo_fs !! 4) as [f|] eqn:Hf; [|vm_compute in Hf; discriminate Hf].
  exists f. split; [reflexivity|].
  exact (proj1 (rights_never_grow demo_conf demo_fs 4 f demo_fs_reachable Hf)).
Defined.

Lemma openFileDescriptor_failure_leaks_witness :
  let r := @openFileDescriptor demo_rados missing_host demo_wasi demo_conf DEFAULT_ROOT_FD "gone.txt"
             RIGHT_FD_READ 0 0 0 missing_fs in
  r.1 = Ret (- WASI_ENOENT) ∧ @fileDescriptorExists demo_rados missing_host 5 r.2 = true.
Proof.
  intros r. assert (r.1 = Ret (- WASI_ENOENT)) as Hr by (vm_compute; reflexivity).
  split; [exact Hr|].
  exact (proj2 (proj2 (@openFileDescriptor_failure_leaks demo_rados missing_host demo_wasi demo_conf _
    DEFAULT_ROOT_FD "gone.txt" RIGHT_FD_READ 0 0 0 missing_fs (- WASI_ENOENT) r.2
    missing_fs_reachable (run_fst _ _ _ Hr) eq_refl))).
Defined.

(** The table of a module with a file open is torn down without closing it. *)
Lemma tearDown_closes_no_opened_file_witness :
  c_close 1 ∈ w_calls (fs_world (tearDown demo_fs).2) ∧
  ∃ fd f, fd ∈ [0; 1; 2] ∧ fileDescriptors demo_fs !! fd = Some f ∧ c_close 1 = c_close (linuxFd f).
Proof.
  assert (c_close 1 ∈ w_calls (fs_world (tearDown demo_fs).2)) as Hin
    by (apply (bool_decide_unpack _); vm_compute; exact I).
  split; [exact Hin|].
  apply (tearDown_closes_no_opened_file demo_conf demo_fs (c_close 1) demo_fs_reachable Hin).
  apply (bool_decide_unpack _). vm_compute. exact I.
Defined.
