(* ===== verification/WasiIo.v ===== *)
(** The WASI calls on files (src/wavm/io.cpp) with the conversion of strings
    and I/O vectors (src/wavm/util.cpp) and the captured standard output
    (src/wasm/WasmModule.cpp): a module's memory next to its table of open
    files. *)

From S2P Require Import Prelude WasmBytes S3 Host FileLoader SharedFiles Wasi FileDescriptor FileSystem.

(** The structures of the WASI headers: how setting their fields changes their
    bytes, and the fields of an I/O vector. *)
Class WasiLayout := {
  prestat_size : Z; prestat_set : Z → Z → list Z → list Z;
  fdstat_size : Z; fdstat_set : Z → Z → Z → Z → list Z → list Z;
  filestat_size : Z; filestat_set : Stat → list Z → list Z;
  ciovec_size : Z; ciovec_of : list Z → Z * Z }.
Class WasiLayoutLaws `{WasiLayout} : Prop := {
  prestat_length : ∀ t n bs, length (prestat_set t n bs) = length bs;
  fdstat_length : ∀ t r i f bs, length (fdstat_set t r i f bs) = length bs;
  filestat_length : ∀ st bs, length (filestat_set st bs) = length bs;
  ciovec_range : ∀ bs, 0 ≤ (ciovec_of bs).1 ∧ 0 ≤ (ciovec_of bs).2 < 2 ^ 32 }.

(** A module, as far as its input and output see it. *)
Record Io `{Rados} `{Host} := mkIo {
  io_mem : Mem; io_fs : FileSystem; stdoutMemFd : Z; stdoutSize : Z }.
Arguments mkIo {_ _} _ _ _ _.

(** The leading bytes of the buffers of [writev] that are in the memory: the kernel may take
    some of them, or fail, when a buffer goes on past the end. *)
Fixpoint gather (m : Mem) (iovs : list (Z * Z)) : list Z :=
  match iovs with
  | [] => []
  | (a, n) :: iovs' =>
      let bs := take (Z.to_nat n) (drop (Z.to_nat a) m) in
      if in_mem m a n then bs ++ gather m iovs' else bs
  end.

(** What [readv] read is put in the buffers in order, as far as it goes; the kernel puts
    nothing past the end of the memory. *)
Fixpoint scatter (m : Mem) (iovs : list (Z * Z)) (data : list Z) : outcome Mem :=
  match data, iovs with
  | [], _ | _, [] => Ret m
  | _, (a, n) :: iovs' =>
      let bs := take (Z.to_nat n) data in
      if in_mem m a (Z.of_nat (length bs)) then
        m' ← mem_write m a bs; scatter m' iovs' (drop (Z.to_nat n) data)
      else Throw (Undefined "read past the end of the memory")
  end.

Definition iov_total (iovs : list (Z * Z)) : Z := sumZ snd iovs.

Section io.
Context `{Rados} `{Host} `{WasiABI} `{DirentABI} `{WasiLayout} (conf : FaasmConfig).

Abbreviation IoM := (M Io).

Definition io_set_mem (m : Mem) (s : Io) : Io := mkIo m (io_fs s) (stdoutMemFd s) (stdoutSize s).
Definition io_set_fs (f : FileSystem) (s : Io) : Io := mkIo (io_mem s) f (stdoutMemFd s) (stdoutSize s).
Definition io_set_out (fd size : Z) (s : Io) : Io := mkIo (io_mem s) (io_fs s) fd size.

Definition in_fs {A} : M FileSystem A → IoM A := zoom io_fs io_set_fs.
Definition io_sys (c : syscall) : IoM (Z * Z) :=
  in_fs (zoom fs_world (λ w s, mkFS (nextFd s) (fileDescriptors s) w) (do_sys c)).
Definition with_fd {A} (fd : Z) (m : FdM A) : IoM A := in_fs (on_fd fd m).
Definition find_fd (fd : Z) : IoM FileDescriptor := in_fs (getFileDescriptor fd).

(** ** The memory *)

Definition read_mem (a n : Z) : IoM (list Z) := s ← get; lift (mem_read (io_mem s) a n).
Definition write_mem (a : Z) (bs : list Z) : IoM unit :=
  s ← get; m ← lift (mem_write (io_mem s) a bs); put (io_set_mem m s).
(** [memoryArrayPtr]: [n] elements of a size at [a] are in the memory. *)
Definition check_array (a n size : Z) : IoM unit :=
  s ← get; if (0 <=? n) && in_mem (io_mem s) a (n * size) then mret () else throw oob.
(** Setting fields of a structure in the memory. *)
Definition update_mem (a size : Z) (f : list Z → list Z) : IoM unit :=
  bs ← read_mem a size; write_mem a (f bs).
Definition store32 (a v : Z) : IoM unit := write_mem a (le32 v).

Definition getStringFromWasm (strPtr : Z) : IoM string :=
  check_array strPtr 1 1 ;;
  s ← get;
  match until_nul (drop (Z.to_nat strPtr) (io_mem s)) with
  | Some bs => mret (string_of_bytes bs)
  | None => throw (Undefined "string past the end of the memory")
  end.

Definition getMaskedPathFromWasm (strPtr : Z) : IoM string :=
  originalPath ← getStringFromWasm strPtr; mret (prependRuntimeRoot conf originalPath).

Definition wasiIovecsToNativeIovecs (wasiIovecPtr wasiIovecCount : Z) : IoM (list (Z * Z)) :=
  check_array wasiIovecPtr wasiIovecCount ciovec_size ;;
  mapM (λ i,
    bs ← read_mem (wasiIovecPtr + i * ciovec_size) ciovec_size;
    check_array (ciovec_of bs).1 1 1 ;;
    mret (ciovec_of bs)) (seqZ 0 wasiIovecCount).

(** ** Captured output *)

Definition getStdoutFd : IoM Z :=
  s ← get;
  if stdoutMemFd s =? 0 then
    '(fd, _) ← io_sys (c_memfd_create "stdoutfd");
    modify (λ s, io_set_out fd (stdoutSize s) s) ;; mret fd
  else mret (stdoutMemFd s).

(** Both overloads, on the bytes they write. *)
Definition captureStdout_bytes (data : list Z) (len : Z) : IoM Z :=
  memFd ← getStdoutFd;
  '(writtenSize, _) ← io_sys (c_writev memFd data len);
  if writtenSize <? 0 then throw (RuntimeError "Failed capturing stdout")
  else
    modify (λ s, io_set_out (stdoutMemFd s) (stdoutSize s + writtenSize) s) ;; mret writtenSize.

Definition getCapturedStdout : IoM string :=
  s ← get;
  if stdoutSize s =? 0 then mret ""
  else
    memFd ← getStdoutFd;
    io_sys (c_lseek memFd 0 0) ;;
    s ← get;
    let c := c_read memFd (stdoutSize s) in
    '(r, _) ← io_sys c;
    let data := sys_data c (w_host (fs_world (io_fs s))) in
    mret (string_of_bytes (take (Z.to_nat (stdoutSize s))
      (take (Z.to_nat r) data ++ repeat 0 (Z.to_nat (stdoutSize s))))).

Definition clearCapturedStdout : IoM unit :=
  s ← get; io_sys (c_close (stdoutMemFd s)) ;; modify (io_set_out 0 0).

(** ** The calls *)

Definition wasi_fd_prestat_get (fd prestatPtr : Z) : IoM Z :=
  s ← get;
  if negb (fileDescriptorExists fd (io_fs s)) then mret WASI_EBADF
  else
    fileDesc ← find_fd fd;
    update_mem prestatPtr prestat_size
      (prestat_set (wasiPreopenType fileDesc) (u32 (str_size (path fileDesc)))) ;;
    mret WASI_ESUCCESS.

Definition wasi_fd_prestat_dir_name (fd resPathPtr resPathLen : Z) : IoM Z :=
  s ← get;
  if negb (fileDescriptorExists fd (io_fs s)) then mret WASI_EBADF
  else
    fileDesc ← find_fd fd;
    check_array resPathPtr resPathLen 1 ;;
    write_mem resPathPtr (bytes_of_string (path fileDesc)) ;;
    mret WASI_ESUCCESS.

Definition wasi_path_open (rootFd lookupFlags path_ pathLen openFlags rightsBase rightsInheriting
    fdFlags resFdPtr : Z) : IoM Z :=
  pathStr ← getStringFromWasm path_;
  fdRes ← in_fs (openFileDescriptor conf rootFd pathStr rightsBase rightsInheriting openFlags fdFlags);
  if fdRes <? 0 then mret (-1 * fdRes)
  else store32 resFdPtr fdRes ;; mret WASI_ESUCCESS.

Definition doWasiDup (fd : Z) : IoM Z := in_fs (dup fd).
(** [dup] *)
Definition io_dup (fd : Z) : IoM Z := doWasiDup fd.

Definition wasi_fd_dup (fd resFdPtr : Z) : IoM Z :=
  newFd ← doWasiDup fd; store32 resFdPtr newFd ;; mret WASI_ESUCCESS.

Definition wasi_fd_readdir (fuel : nat) (fd buf bufLen startCookie resSizePtr : Z) : IoM Z :=
  fileDesc ← find_fd fd;
  let isStartCookie := startCookie =? DIRCOOKIE_START in
  if iterStarted fileDesc && isStartCookie then mret WASI_EINVAL
  else if negb (iterStarted fileDesc) && negb isStartCookie then
    throw (RuntimeError "No directory iterator exists, and this is not the start cookie")
  else
    check_array buf bufLen 1 ;;
    '(bytes, bytesCopied) ← with_fd fd (copyDirentsToWasiBuffer conf fuel bufLen);
    write_mem buf bytes ;;
    store32 resSizePtr (u32 bytesCopied) ;;
    mret WASI_ESUCCESS.

Definition wasi_fd_close (fd : Z) : IoM Z := mret 0.

Definition wasi_fd_write (fd iovecsPtr iovecCount resBytesWrittenPtr : Z) : IoM Z :=
  find_fd fd ;;
  nativeIovecs ← wasiIovecsToNativeIovecs iovecsPtr iovecCount;
  s ← get;
  let data := gather (io_mem s) nativeIovecs in
  bytesWritten ← with_fd fd (write conf data (iov_total nativeIovecs));
  if bytesWritten <? 0 then fileDesc ← find_fd fd; mret (wasiErrno fileDesc)
  else
    when ((fd <=? 2) && bool_decide (captureStdout conf = "on")) (captureStdout_bytes data (iov_total nativeIovecs) ;; mret ()) ;;
    store32 resBytesWrittenPtr bytesWritten ;;
    mret WASI_ESUCCESS.

Definition wasi_fd_read (fd iovecsPtr iovecCount resBytesRead : Z) : IoM Z :=
  fileDesc ← find_fd fd;
  nativeIovecs ← wasiIovecsToNativeIovecs iovecsPtr iovecCount;
  s ← get;
  let c := c_readv (linuxFd fileDesc) (Z.of_nat (length (gather (io_mem s) nativeIovecs))) (iov_total nativeIovecs) in
  '(bytesRead, _) ← io_sys c;
  m ← lift (scatter (io_mem s) nativeIovecs
              (take (Z.to_nat bytesRead) (sys_data c (w_host (fs_world (io_fs s))))));
  modify (io_set_mem m) ;;
  store32 resBytesRead (i32 bytesRead) ;;
  mret WASI_ESUCCESS.

Definition wasi_path_create_directory (fd path_ pathLen : Z) : IoM Z :=
  pathStr ← getStringFromWasm path_;
  find_fd fd ;;
  success ← with_fd fd (mkdir conf pathStr);
  if negb success then fileDesc ← find_fd fd; mret (wasiErrno fileDesc) else mret WASI_ESUCCESS.

Definition wasi_path_rename (fd oldPath oldPathLen newFd newPath newPathLen : Z) : IoM Z :=
  oldPathStr ← getStringFromWasm oldPath;
  newPathStr ← getStringFromWasm newPath;
  find_fd fd ;;
  newFileDesc ← find_fd newFd;
  success ← with_fd fd (rename conf (absPath newPathStr newFileDesc) oldPathStr);
  if negb success then fileDesc ← find_fd fd; mret (wasiErrno fileDesc) else mret WASI_ESUCCESS.

Definition wasi_path_unlink_file (rootFd pathPtr pathLen : Z) : IoM Z :=
  pathStr ← getStringFromWasm pathPtr;
  find_fd rootFd ;;
  success ← with_fd rootFd (unlink conf pathStr);
  if negb success then fileDesc ← find_fd rootFd; mret (wasiErrno fileDesc) else mret 0.

Definition wasi_fd_fdstat_get (fd statPtr : Z) : IoM Z :=
  find_fd fd ;;
  statResult ← with_fd fd (stat conf "");
  if failed statResult then mret (st_wasiErrno statResult)
  else
    fileDesc ← find_fd fd;
    update_mem statPtr fdstat_size
      (fdstat_set (wasiFiletype statResult) (actualRightsBase fileDesc)
         (actualRightsInheriting fileDesc) 0) ;;
    mret 0.

Definition doFileStat (fd : Z) (relativePath : string) (statPtr : Z) : IoM Z :=
  find_fd fd ;;
  check_array statPtr 1 filestat_size ;;
  fileStat ← with_fd fd (stat conf relativePath);
  if failed fileStat then mret (st_wasiErrno fileStat)
  else update_mem statPtr filestat_size (filestat_set fileStat) ;; mret WASI_ESUCCESS.

Definition wasi_fd_filestat_get (fd statPtr : Z) : IoM Z := doFileStat fd "" statPtr.

Definition wasi_path_filestat_get (fd lookupFlags path_ pathLen statPtr : Z) : IoM Z :=
  pathStr ← getStringFromWasm path_; doFileStat fd pathStr statPtr.

Definition wasi_fd_tell (fd resOffsetPtr : Z) : IoM Z :=
  find_fd fd ;;
  offset ← with_fd fd tell;
  write_mem resOffsetPtr (Z_to_little_endian 8 8 offset) ;; mret 0.

Definition wasi_fd_seek (fd offset whence newOffsetPtr : Z) : IoM Z :=
  check_array newOffsetPtr 1 8 ;;
  find_fd fd ;;
  '(wasiErrno, newOffset) ← with_fd fd (seek offset whence);
  match newOffset with
  | Some o => write_mem newOffsetPtr (Z_to_little_endian 8 8 o)
  | None => mret ()
  end ;;
  mret wasiErrno.

Definition wasi_fd_advise (fd offset len advice : Z) : IoM Z := mret WASI_ESUCCESS.

Definition wasi_path_readlink (rootFd pathPtr pathLen buffPtr buffLen resBytesUsed : Z) : IoM Z :=
  pathStr ← getStringFromWasm pathPtr;
  find_fd rootFd ;;
  check_array buffPtr buffLen 1 ;;
  '(readBytes, bytes) ← with_fd rootFd (readLink conf pathStr buffLen);
  write_mem buffPtr bytes ;;
  store32 resBytesUsed (u32 readBytes) ;;
  mret WASI_ESUCCESS.

Definition wasi_fd_fdstat_set_flags (fd fdFlags : Z) : IoM Z :=
  find_fd fd ;;
  success ← with_fd fd (updateFlags fdFlags);
  if negb success then fileDesc ← find_fd fd; mret (wasiErrno fileDesc) else mret WASI_ESUCCESS.

(** [puts]: the string is captured with a newline. *)
Definition wasi_puts (strPtr : Z) : IoM Z :=
  hostStr ← getStringFromWasm strPtr;
  when (bool_decide (captureStdout conf = "on"))
    (captureStdout_bytes (bytes_of_string hostStr ++ [10]) (str_size hostStr + 1) ;; mret ()) ;;
  mret 0.

Definition wasi_bzero (wasmPtr len : Z) : IoM unit :=
  check_array wasmPtr len 1 ;; write_mem wasmPtr (repeat 0 (Z.to_nat len)).

(** ** The calls of the C library *)

Definition s__mkdir (pathPtr mode : Z) : IoM Z :=
  fakePath ← getMaskedPathFromWasm pathPtr;
  '(res, _) ← io_sys (c_mkdir fakePath mode);
  if res <? 0 then throw (RuntimeError "Failed on mkdir") else mret res.

Definition s__rename (srcPtr destPtr : Z) : IoM Z :=
  srcPath ← getMaskedPathFromWasm srcPtr;
  destPath ← getMaskedPathFromWasm destPtr;
  '(res, _) ← io_sys (c_rename srcPath destPath);
  if negb (res =? 0) then throw (RuntimeError "Failed renaming file") else mret res.

Definition s__unlink (pathPtr : Z) : IoM Z :=
  fakePath ← getMaskedPathFromWasm pathPtr;
  '(res, _) ← io_sys (c_unlink fakePath);
  if res <? 0 then throw (RuntimeError "Failed on mkdir") else mret res.

Definition s__access (pathPtr mode : Z) : IoM Z :=
  path_ ← getMaskedPathFromWasm pathPtr;
  '(res, _) ← io_sys (c_access path_ mode); mret res.

(** The path is not masked. *)
Definition s__readlink (pathPtr bufPtr bufLen : Z) : IoM Z :=
  path_ ← getStringFromWasm pathPtr;
  check_array bufPtr bufLen 1 ;;
  s ← get;
  let c := c_readlink path_ bufLen in
  '(bytesRead, _) ← io_sys c;
  write_mem bufPtr (take (Z.to_nat bytesRead) (sys_data c (w_host (fs_world (io_fs s))))) ;;
  mret (i32 bytesRead).
End io.

(** * Buffers of a scattered read *)

Lemma scatter_nil m iovs : scatter m iovs [] = Ret m.
Proof. by destruct iovs as [|[]]. Qed.

(** One buffer of a scattered read. *)
Lemma scatter_cons m a n iovs data :
  data ≠ [] → scatter m ((a, n) :: iovs) data =
    if in_mem m a (Z.of_nat (length (take (Z.to_nat n) data))) then
      m' ← mem_write m a (take (Z.to_nat n) data); scatter m' iovs (drop (Z.to_nat n) data)
    else Throw (Undefined "read past the end of the memory").
Proof. by destruct data. Qed.

Lemma scatter_cons_inv m a n iovs data m' :
  scatter m ((a, n) :: iovs) data = Ret m' → data ≠ [] →
  in_mem m a (Z.of_nat (length (take (Z.to_nat n) data))) = true ∧
  ∃ m1, mem_write m a (take (Z.to_nat n) data) = Ret m1 ∧ scatter m1 iovs (drop (Z.to_nat n) data) = Ret m'.
Proof.
  intros Hs Hne. rewrite (scatter_cons _ _ _ _ _ Hne) in Hs. destruct (in_mem _ _ _); [|done].
  destruct (mem_write _ _ _) as [m1|]; [|done]. split; [done|]. by exists m1.
Qed.

(** Scattering succeeds on buffers in the memory. *)
Lemma scatter_ret m iovs data :
  Forall (λ x, 0 ≤ x.2 ∧ in_mem m x.1 x.2 = true) iovs → ∃ m', scatter m iovs data = Ret m'.
Proof.
  revert m data. induction iovs as [|[a n] iovs IH]; intros m data Hall; [exists m; by destruct data|].
  apply Forall_cons in Hall as [[Hn Hin] Hall]. cbn [fst snd] in *.
  destruct (decide (data = [])) as [->|Hne]; [exists m; apply scatter_nil|]. rewrite scatter_cons by done.
  rewrite (in_mem_prefix m a n) by (rewrite ?length_take; lia || done).
  apply in_mem_true in Hin as [Ha Hb].
  rewrite mem_write_ret by (rewrite ?length_take; lia). cbn [mbind outcome_bind].
  apply IH. eapply Forall_impl; [exact Hall|]. intros [b k] [Hk Hin]. split; [done|]. cbn [fst snd] in *.
  rewrite <- Hin. eapply in_mem_write, mem_write_ret; [done|]. rewrite length_take. lia.
Qed.

Lemma scatter_size m iovs data m' : scatter m iovs data = Ret m' → mem_size m' = mem_size m.
Proof.
  revert m data. induction iovs as [|[a n] iovs IH]; intros m data Hs.
  { destruct data; by injection Hs as ->. }
  destruct (decide (data = [])) as [->|Hne]; [rewrite scatter_nil in Hs; by injection Hs as ->|].
  apply scatter_cons_inv in Hs as (_ & m1 & Hw & Hs%IH); [|done]. rewrite Hs. by eapply mem_write_size.
Qed.

(** A scattered write leaves ranges apart from its buffers alone. *)
Lemma scatter_read_out m iovs data m' b n :
  scatter m iovs data = Ret m' → 0 ≤ n → Forall (λ x, 0 ≤ x.2 ∧ iov_disjoint (b, n) x) iovs →
  mem_read m' b n = mem_read m b n.
Proof.
  revert m data. induction iovs as [|[a k] iovs IH]; intros m data Hs Hn Hall.
  { destruct data; by injection Hs as ->. }
  destruct (decide (data = [])) as [->|Hne]; [rewrite scatter_nil in Hs; by injection Hs as ->|].
  apply Forall_cons in Hall as [[Hk Hd] Hall].
  apply scatter_cons_inv in Hs as (_ & m1 & Hw & Hs); [|done].
  rewrite (IH m1 _ Hs Hn Hall). eapply mem_read_write_disjoint; [exact Hw|done|].
  unfold iov_disjoint in Hd. cbn [fst snd] in *. rewrite length_take. lia.
Qed.

Lemma iov_total_nonneg iovs : Forall (λ x, 0 ≤ x.2) iovs → 0 ≤ iov_total iovs.
Proof.
  induction 1 as [|[a n] iovs Hn Hall IH]; [done|].
  change (iov_total ((a, n) :: iovs)) with (n + iov_total iovs). cbn [snd] in Hn. lia.
Qed.

(** Buffers that do not overlap give back what was scattered over them. *)
Lemma gather_scatter m iovs data m' :
  scatter m iovs data = Ret m' → Forall (λ x, 0 ≤ x.2) iovs → ForallOrdPairs iov_disjoint iovs →
  Z.of_nat (length data) ≤ iov_total iovs → take (length data) (gather m' iovs) = data.
Proof.
  revert m data. induction iovs as [|[a n] iovs IH]; intros m data Hs Hpos Hdis Hlen.
  { destruct data; [done|]. unfold iov_total in Hlen. cbn in Hlen. lia. }
  destruct (decide (data = [])) as [->|Hne]; [apply take_0|].
  apply Forall_cons in Hpos as [Hn Hpos]. cbn [snd] in Hn.
  inversion Hdis as [|? ? Hd Hdis']; subst.
  apply scatter_cons_inv in Hs as (Hin & m1 & Hw & Hs); [|done].
  set (part := take (Z.to_nat n) data) in *.
  assert (length part = Nat.min (Z.to_nat n) (length data)) as Hpl by (unfold part; by rewrite length_take).
  change (iov_total ((a, n) :: iovs)) with (n + iov_total iovs) in Hlen.
  assert (0 ≤ iov_total iovs) as Htot by by apply iov_total_nonneg.
  specialize (IH m1 (drop (Z.to_nat n) data) Hs Hpos Hdis').
  rewrite length_drop in IH. specialize (IH ltac:(lia)).
  assert (mem_size m' = mem_size m) as Hsz
    by (by rewrite (scatter_size _ _ _ _ Hs), (mem_write_size _ _ _ _ Hw)).
  assert (mem_read m' a (Z.of_nat (length part)) = Ret part) as Hpart.
  { rewrite (scatter_read_out _ _ _ _ a (Z.of_nat (length part)) Hs); [by eapply mem_read_write|lia|].
    apply Forall_and. split; [done|]. eapply Forall_impl; [exact Hd|].
    intros [b k]. unfold iov_disjoint. cbn [fst snd]. lia. }
  assert (take (length part) (drop (Z.to_nat a) m') = part) as Htake.
  { unfold mem_read in Hpart. destruct (in_mem m' a _); [|done]. rewrite Nat2Z.id in Hpart. by injection Hpart. }
  cbn [gather]. set (bs := take (Z.to_nat n) (drop (Z.to_nat a) m')).
  assert (take (length part) bs = part) as Hbs by (unfold bs; rewrite take_take, Nat.min_l by lia; exact Htake).
  destruct (decide (length data ≤ Z.to_nat n)%nat) as [Hle|Hgt].
  - assert (part = data) as Hall by (unfold part; by rewrite take_ge by lia).
    rewrite Hall in Hbs, Hpl. destruct (in_mem m' a n); [|exact Hbs]. rewrite take_app_le; [exact Hbs|].
    rewrite <- Hbs, length_take at 1. lia.
  - assert (in_mem m' a n = true) as ->.
    { revert Hin. rewrite !in_mem_true. rewrite Hsz. lia. }
    assert (length bs = Z.to_nat n) as Hlb.
    { pose proof (f_equal length Hbs) as Hl. rewrite length_take in Hl. unfold bs in *. rewrite length_take in *. lia. }
    rewrite take_app_ge, Hlb, IH by lia. rewrite (take_ge bs) in Hbs by lia. rewrite Hbs. apply take_drop.
Qed.

Lemma gather_store m iovs a v m' :
  store_i32 m a v = Ret m' → Forall (λ x, iov_disjoint x (a, 4)) iovs →
  Forall (λ x, 0 ≤ x.1 ∧ 0 ≤ x.2) iovs → gather m' iovs = gather m iovs.
Proof.
  intros Hs. induction iovs as [|[b n] iovs IH]; [done|].
  intros [Hd Hdis]%Forall_cons [Hn Hpos]%Forall_cons. cbn [gather].
  rewrite (in_mem_write _ _ _ _ _ _ Hs), (IH Hdis Hpos).
  assert (take (Z.to_nat n) (drop (Z.to_nat b) m') = take (Z.to_nat n) (drop (Z.to_nat b) m)) as ->; [|done].
  unfold iov_disjoint in Hd. cbn [fst snd] in *.
  apply list_eq. intros i. destruct (decide (i < Z.to_nat n)%nat); [|by rewrite !lookup_take_ge by lia].
  rewrite !lookup_take_lt, !lookup_drop by lia. eapply mem_write_lookup_out; [exact Hs|]. rewrite length_le32. lia.
Qed.

(** * The calls *)

Section calls.
Context `{Rados} `{Host} `{WasiABI} `{DirentABI} `{WasiLayout} (conf : FaasmConfig).

Lemma in_fs_run {A} (m : M FileSystem A) s o f :
  m (io_fs s) = (o, f) → in_fs m s = (o, io_set_fs f s).
Proof. intros Hm. unfold in_fs, zoom. by rewrite Hm. Qed.

Lemma in_fs_inv {A} (m : M FileSystem A) s o s' :
  in_fs m s = (o, s') → ∃ f, m (io_fs s) = (o, f) ∧ s' = io_set_fs f s.
Proof. unfold in_fs, zoom. destruct (m (io_fs s)) as [o1 f]. intros [= <- <-]. by exists f. Qed.

Lemma find_fd_run fd s f : fileDescriptors (io_fs s) !! fd = Some f → find_fd fd s = (Ret f, s).
Proof.
  intros Hf. unfold find_fd. rewrite (in_fs_run _ s (Ret f) (io_fs s)); [by destruct s|].
  unfold getFileDescriptor, get, mbind, M_bind. by rewrite Hf.
Qed.

Lemma find_fd_inv fd s f s' :
  find_fd fd s = (Ret f, s') → s' = s ∧ fileDescriptors (io_fs s) !! fd = Some f.
Proof.
  destruct (fileDescriptors (io_fs s) !! fd) as [g|] eqn:Hg.
  - rewrite (find_fd_run _ _ _ Hg). by intros [= -> ->].
  - unfold find_fd, in_fs, zoom, getFileDescriptor, get, throw, mbind, M_bind. by rewrite Hg.
Qed.

Lemma with_fd_run {A} fd (m : FdM A) s o f w :
  m (default FD_zero (fileDescriptors (io_fs s) !! fd), fs_world (io_fs s)) = (o, (f, w)) →
  with_fd fd m s =
    (o, io_set_fs (mkFS (nextFd (io_fs s)) (<[fd := f]> (fileDescriptors (io_fs s))) w) s).
Proof. intros Hm. unfold with_fd. by apply in_fs_run, on_fd_run. Qed.

Lemma write_mem_run a bs s :
  0 ≤ a → a + Z.of_nat (length bs) ≤ mem_size (io_mem s) →
  ∃ m', mem_write (io_mem s) a bs = Ret m' ∧ write_mem a bs s = (Ret (), io_set_mem m' s).
Proof.
  intros Ha Hb. eexists. split; [by apply mem_write_ret|].
  unfold write_mem, get, put, lift, mbind, M_bind. by rewrite mem_write_ret.
Qed.

Lemma write_mem_inv a bs s o s' :
  write_mem a bs s = (Ret o, s') → ∃ m', mem_write (io_mem s) a bs = Ret m' ∧ s' = io_set_mem m' s.
Proof.
  unfold write_mem, get, put, lift, mbind, M_bind.
  destruct (mem_write (io_mem s) a bs) as [m'|]; [|done]. intros [= <- <-]. by exists m'.
Qed.

(** Reading the vectors changes nothing. *)
Lemma read_mem_pure a n s : (read_mem a n s).2 = s.
Proof. unfold read_mem, get, lift, mbind, M_bind. done. Qed.
Lemma check_array_pure a n k s : (check_array a n k s).2 = s.
Proof.
  unfold check_array, get, mret, M_ret, throw, mbind, M_bind.
  by destruct ((0 <=? n) && in_mem (io_mem s) a (n * k)).
Qed.

Lemma getString_state p s x s' : getStringFromWasm p s = (Ret x, s') → s' = s.
Proof.
  unfold getStringFromWasm. intros (u & s1 & Hc & Hrun)%run_bind_inv.
  pose proof (check_array_pure p 1 1 s) as Hs1. rewrite Hc in Hs1. cbn in Hs1. subst s1.
  apply run_bind_inv in Hrun as (s2 & s3 & [= <- <-] & Hrun).
  destruct (until_nul _); [by injection Hrun|done].
Qed.

Definition pure_io {A} (m : M Io A) : Prop := ∀ s, (m s).2 = s.
Lemma pure_bind {A B} (m : M Io A) (f : A → M Io B) :
  pure_io m → (∀ x, pure_io (f x)) → pure_io (m ≫= f).
Proof.
  intros Hm Hf s. specialize (Hm s). unfold mbind, M_bind.
  destruct (m s) as [[x|e] s1]; cbn in *; subst; [apply Hf|done].
Qed.
Lemma pure_ret {A} (x : A) : pure_io (mret x).
Proof. done. Qed.
Lemma pure_mapM {A B} (f : A → M Io B) l : (∀ x, pure_io (f x)) → pure_io (mapM f l).
Proof.
  intros Hf. induction l as [|x l IH]; [by apply pure_ret|]. cbn [mapM].
  apply pure_bind; [done|]. intros y. apply pure_bind; [done|]. intros ys. apply pure_ret.
Qed.
Lemma iovecs_pure p n : pure_io (wasiIovecsToNativeIovecs p n).
Proof.
  apply pure_bind; [exact (check_array_pure _ _ _)|]. intros _. apply pure_mapM. intros i.
  apply pure_bind; [exact (read_mem_pure _ _)|]. intros bs.
  apply pure_bind; [exact (check_array_pure _ _ _)|]. intros _. apply pure_ret.
Qed.

Lemma iovecs_run p n s iovs :
  (wasiIovecsToNativeIovecs p n s).1 = Ret iovs → wasiIovecsToNativeIovecs p n s = (Ret iovs, s).
Proof.
  intros Hr. rewrite (run_fst _ _ _ Hr). f_equal. apply iovecs_pure.
Qed.

Definition after_io (c : syscall) (k : K) (s : Io) : Io :=
  io_set_fs (mkFS (nextFd (io_fs s)) (fileDescriptors (io_fs s)) (after_sys c k (fs_world (io_fs s)))) s.

Lemma io_sys_run c s r e k :
  sys c (w_host (fs_world (io_fs s))) = (r, e, k) → io_sys c s = (Ret (r, e), after_io c k s).
Proof.
  intros Hs. unfold io_sys. erewrite in_fs_run; [reflexivity|].
  unfold zoom. by rewrite (do_sys_run _ _ _ _ _ Hs).
Qed.

Lemma store32_run a v s :
  0 ≤ a → a + 4 ≤ mem_size (io_mem s) →
  ∃ m', store_i32 (io_mem s) a v = Ret m' ∧ store32 a v s = (Ret (), io_set_mem m' s).
Proof. intros Ha Hb. apply write_mem_run; [done|]. rewrite length_le32. lia. Qed.

(** A read fills the module's buffers, in order, with the bytes the host read,
    and reports their number; the buffers must not overlap each other or the
    place of the count. *)
Theorem wasi_fd_read_fills fd ptr cnt res s f iovs r e k :
  fileDescriptors (io_fs s) !! fd = Some f →
  (wasiIovecsToNativeIovecs ptr cnt s).1 = Ret iovs →
  let c := c_readv (linuxFd f) (Z.of_nat (length (gather (io_mem s) iovs))) (iov_total iovs) in
  let host := w_host (fs_world (io_fs s)) in
  sys c host = (r, e, k) → 0 ≤ r ≤ INT32_MAX → r ≤ iov_total iovs →
  r ≤ Z.of_nat (length (sys_data c host)) →
  Forall (λ x, 0 ≤ x.2 ∧ in_mem (io_mem s) x.1 x.2 = true) iovs →
  ForallOrdPairs iov_disjoint iovs → Forall (λ x, iov_disjoint x (res, 4)) iovs →
  in_mem (io_mem s) res 4 = true →
  ∃ s', wasi_fd_read fd ptr cnt res s = (Ret WASI_ESUCCESS, s') ∧
    load_i32 (io_mem s') res = Ret r ∧
    take (Z.to_nat r) (gather (io_mem s') iovs) = take (Z.to_nat r) (sys_data c host).
Proof.
  intros Hf Hiov c host Hsys Hr Htot Hdata Hin Hdis Hres Hrin. unfold wasi_fd_read.
  erewrite run_bind_ret by (apply find_fd_run; exact Hf).
  erewrite run_bind_ret by (apply iovecs_run; exact Hiov).
  erewrite run_bind_ret by reflexivity. fold c.
  erewrite run_bind_ret by (apply io_sys_run; exact Hsys). cbn [io_fs io_mem].
  set (data := take (Z.to_nat r) (sys_data c (w_host (fs_world (io_fs s))))).
  destruct (scatter_ret (io_mem s) iovs data Hin) as [m1 Hm1].
  erewrite run_bind_ret by (unfold lift; rewrite Hm1; reflexivity).
  erewrite run_bind_ret by reflexivity.
  set (s1 := io_set_mem m1 (after_io c k s)).
  apply in_mem_true in Hrin as [Hr0 Hr4].
  destruct (store32_run res (i32 r) s1) as (m2 & Hm2 & Hrun); [done| |].
  { change (io_mem s1) with m1. by rewrite (scatter_size _ _ _ _ Hm1). }
  erewrite run_bind_ret by exact Hrun.
  assert (take (length data) (gather m1 iovs) = data) as Hg.
  { apply (gather_scatter (io_mem s) iovs data m1); [done| |done|].
    - eapply Forall_impl; [exact Hin|]. by intros x [Hx _].
    - unfold data. rewrite length_take. lia. }
  assert (length data = Z.to_nat r) as Hlen.
  { unfold data. rewrite length_take. fold host. lia. }
  exists (io_set_mem m2 s1). split; [done|]. change (io_mem (io_set_mem m2 s1)) with m2. split.
  - rewrite (load_store_i32 _ _ _ _ Hm2). unfold INT32_MAX in Hr.
    by rewrite !wrapS_id by (rewrite ?wrapS_id; unfold in_s; lia).
  - rewrite (gather_store m1 iovs res (i32 r) m2 Hm2 Hres).
    + by rewrite <- Hlen at 1.
    + eapply Forall_impl; [exact Hin|]. by intros x [Hx [? _]%in_mem_true].
Qed.

(** A write the host refuses is reported to the module as a success of zero
    bytes, although the error was translated. *)
Theorem wasi_fd_write_hides_errors fd ptr cnt res s f iovs data errno k we :
  fileDescriptors (io_fs s) !! fd = Some f →
  (wasiIovecsToNativeIovecs ptr cnt s).1 = Ret iovs → gather (io_mem s) iovs = data →
  sys (c_writev (linuxFd f) data (iov_total iovs)) (w_host (fs_world (io_fs s))) = (-1, errno, k) →
  errnoToWasi errno = Ret we → 2 < fd → in_mem (io_mem s) res 4 = true →
  ∃ s', wasi_fd_write conf fd ptr cnt res s = (Ret WASI_ESUCCESS, s') ∧
    load_i32 (io_mem s') res = Ret 0 ∧
    wasiErrno <$> fileDescriptors (io_fs s') !! fd = Some we.
Proof.
  intros Hf Hiov Hg Hsys He Hfd Hrin. apply in_mem_true in Hrin as [Hr0 Hr4]. unfold wasi_fd_write.
  erewrite run_bind_ret by (apply find_fd_run; exact Hf).
  erewrite run_bind_ret by (apply iovecs_run; exact Hiov).
  erewrite run_bind_ret by reflexivity.
  cbv zeta. rewrite Hg.
  erewrite run_bind_ret by (apply with_fd_run; rewrite Hf; exact (write_error conf data (iov_total iovs) f _ errno k we Hsys He)).
  change (0 <? 0) with false. cbn iota.
  replace (fd <=? 2) with false by (symmetry; apply Z.leb_gt; lia).
  erewrite run_bind_ret by reflexivity.
  set (s1 := io_set_fs _ s).
  destruct (store32_run res 0 s1) as (m2 & Hm2 & Hrun); [done|done|].
  erewrite run_bind_ret by exact Hrun.
  exists (io_set_mem m2 s1). split; [done|]. split; [exact (load_store_i32 _ _ _ _ Hm2)|].
  cbn [io_set_mem io_fs io_set_fs s1 fileDescriptors]. by rewrite lookup_insert_eq.
Qed.

(** The name of a preopened directory is copied whole, past the end of the
    buffer the module gave when it is shorter. *)
Theorem fd_prestat_dir_name_overruns fd ptr len s f :
  fileDescriptors (io_fs s) !! fd = Some f → 0 ≤ ptr → 0 ≤ len < str_size (path f) →
  ptr + str_size (path f) ≤ mem_size (io_mem s) →
  ∃ s', wasi_fd_prestat_dir_name fd ptr len s = (Ret WASI_ESUCCESS, s') ∧
    mem_read (io_mem s') ptr (str_size (path f)) = Ret (bytes_of_string (path f)).
Proof.
  intros Hf Hptr Hlen Hfit. unfold wasi_fd_prestat_dir_name.
  erewrite run_bind_ret by reflexivity. unfold fileDescriptorExists. rewrite Hf.
  rewrite bool_decide_eq_true_2 by (by eexists). cbn [negb].
  erewrite run_bind_ret by (apply find_fd_run; exact Hf).
  assert (check_array ptr len 1 s = (Ret (), s)) as Hck.
  { unfold check_array, get, mret, M_ret, mbind, M_bind.
    rewrite (proj2 (in_mem_true (io_mem s) ptr (len * 1))) by lia.
    by destruct (Z.leb_spec 0 len); [|lia]. }
  erewrite run_bind_ret by exact Hck.
  destruct (write_mem_run ptr (bytes_of_string (path f)) s) as (m1 & Hm1 & Hrun); [done| |].
  { by rewrite bytes_of_string_size. }
  erewrite run_bind_ret by exact Hrun.
  exists (io_set_mem m1 s). split; [done|]. apply mem_read_write in Hm1.
  by rewrite bytes_of_string_size in Hm1.
Qed.

(** A directory is listed once: while its iterator is started, starting again
    is invalid, and every call that returns entries leaves it started. *)
Lemma fd_readdir_started fuel fd buf len res s f :
  fileDescriptors (io_fs s) !! fd = Some f → iterStarted f = true →
  wasi_fd_readdir conf fuel fd buf len DIRCOOKIE_START res s = (Ret WASI_EINVAL, s).
Proof.
  intros Hf Hst. unfold wasi_fd_readdir. erewrite run_bind_ret by (apply find_fd_run; exact Hf).
  by rewrite Z.eqb_refl, Hst.
Qed.

(** [path_create_directory] looks its descriptor up, but not at its path: the
    directory is made below the root of the runtime. *)
Lemma path_create_directory_call fd ptr len s p r e k f :
  fileDescriptors (io_fs s) !! fd = Some f → getStringFromWasm ptr s = (Ret p, s) →
  sys (c_mkdir (prependRuntimeRoot conf p) 493) (w_host (fs_world (io_fs s))) = (r, e, k) → 0 ≤ r →
  ∃ s', wasi_path_create_directory conf fd ptr len s = (Ret WASI_ESUCCESS, s') ∧
    w_calls (fs_world (io_fs s')) = w_calls (fs_world (io_fs s)) ++ [c_mkdir (prependRuntimeRoot conf p) 493].
Proof.
  intros Hf Hp Hsys Hr. unfold wasi_path_create_directory.
  erewrite run_bind_ret by exact Hp. erewrite run_bind_ret by (apply find_fd_run; exact Hf).
  assert (mkdir conf p (f, fs_world (io_fs s)) =
    (Ret true, (f, after_sys (c_mkdir (prependRuntimeRoot conf p) 493) k (fs_world (io_fs s))))) as Hmk.
  { unfold mkdir. erewrite run_bind_ret by (apply in_world_run, do_sys_run; exact Hsys).
    cbn beta iota. by destruct (Z.ltb_spec r 0); [lia|]. }
  erewrite run_bind_ret by (apply with_fd_run; rewrite Hf; exact Hmk).
  by eexists.
Qed.

Context `{!WasiLaws}.

(** C19: Opening a path gives the module a number no descriptor had, for a
    descriptor with no right that was not both asked for and inheritable from
    the one it was opened under, or a positive error with the memory as it
    was. *)
Theorem wasi_path_open_confined rootFd lf ptr len oF rb ri fF res s r s' :
  fs_reachable conf (io_fs s) → nextFd (io_fs s) < INT32_MAX →
  wasi_path_open conf rootFd lf ptr len oF rb ri fF res s = (Ret r, s') →
  (r = WASI_ESUCCESS ∧ ∃ root f, let fd := nextFd (io_fs s) in
     load_i32 (io_mem s') res = Ret fd ∧ fileDescriptors (io_fs s) !! fd = None ∧
     fileDescriptors (io_fs s) !! rootFd = Some root ∧
     fileDescriptors (io_fs s') = <[fd := f]> (fileDescriptors (io_fs s)) ∧
     bits_sub (actualRightsBase f) rb ∧ bits_sub (actualRightsBase f) (actualRightsInheriting root) ∧
     bits_sub (actualRightsInheriting f) ri ∧
     bits_sub (actualRightsInheriting f) (actualRightsInheriting root)) ∨
  (0 < r < 2 ^ 16 ∧ io_mem s' = io_mem s).
Proof.
  intros Hreach Hmax. unfold wasi_path_open. intros (p & s1 & Hp & Hrun)%run_bind_inv.
  assert (s1 = s) as -> by (by eapply getString_state).
  apply run_bind_inv in Hrun as (fdRes & s2 & Hopen & Hrun).
  destruct (in_fs_inv _ _ _ _ Hopen) as (fs2 & Hofs & ->).
  pose proof (inv_next _ (reachable_inv conf _ Hreach)) as Hnext. unfold INT32_MAX in Hmax.
  destruct (open_cases conf rootFd p rb ri oF fF _ _ _ Hreach Hofs)
    as (root & f & Hroot & Hnone & Htab & Hb1 & Hb2 & Hi1 & Hi2 & Hres).
  destruct (Z.ltb_spec fdRes 0) as [Hneg|Hpos].
  - injection Hrun as <- <-. right. split; [|done]. lia.
  - destruct Hres as [->|Hres]; [|lia]. left.
    apply run_bind_inv in Hrun as ([] & s3 & Hst & [= <- <-]). split; [done|].
    apply write_mem_inv in Hst as (m' & Hm' & ->). exists root, f. cbn zeta.
    split; [|done]. change (io_mem (io_set_mem m' (io_set_fs fs2 s))) with m'.
    rewrite (load_store_i32 (io_mem s) res (nextFd (io_fs s)) m' Hm').
    by rewrite wrapS_id by (unfold in_s; lia).
Qed.
End calls.

(** * Concrete runs *)

(** The structures as the WASI snapshot lays them out. *)
#[export] Instance demo_layout : WasiLayout := {
  prestat_size := 8;
  prestat_set t n bs := list_inserts 4 (le32 n) (list_inserts 0 [t mod 256] bs);
  fdstat_size := 24;
  fdstat_set t r i f bs :=
    list_inserts 16 (Z_to_little_endian 8 8 i) (list_inserts 8 (Z_to_little_endian 8 8 r)
      (list_inserts 2 (Z_to_little_endian 2 8 f) (list_inserts 0 [t mod 256] bs)));
  filestat_size := 64;
  filestat_set st bs :=
    list_inserts 0 (Z_to_little_endian 8 8 (st_dev st)) (list_inserts 8 (Z_to_little_endian 8 8 (st_ino st))
    (list_inserts 16 [wasiFiletype st mod 256] (list_inserts 24 (Z_to_little_endian 8 8 (st_nlink st))
    (list_inserts 32 (Z_to_little_endian 8 8 (st_size st)) bs))));
  ciovec_size := 8;
  ciovec_of bs := (u32 (little_endian_to_Z 8 (take 4 bs)), u32 (little_endian_to_Z 8 (drop 4 bs))) }.

#[export] Instance demo_layout_laws : WasiLayoutLaws.
Proof.
  split; intros; cbn -[wrapU]; rewrite ?length_inserts, ?length_insert, ?length_inserts; try done.
  pose proof (wrapU_range 32 (little_endian_to_Z 8 (take 4 bs)) ltac:(lia)) as Ha.
  pose proof (wrapU_range 32 (little_endian_to_Z 8 (drop 4 bs)) ltac:(lia)) as Hb.
  unfold in_u in *. tauto.
Qed.

(** Two buffers of 4 and 8 bytes behind the vectors at 0, the count at 40 and a
    path at 48. *)
Definition demo_mem : Mem :=
  le32 16 ++ le32 4 ++ le32 24 ++ le32 8 ++ repeat 1 32 ++ bytes_of_string "a.txt" ++ [0] ++ repeat 1 10.

(** A host that reads seven bytes. *)
Definition reading_host : Host := {|
  K := @K demo_host;
  fs_exists := @fs_exists demo_host; fs_is_directory := @fs_is_directory demo_host;
  readFileToBytes := @readFileToBytes demo_host; writeBytesToFile := @writeBytesToFile demo_host;
  create_directories := @create_directories demo_host; fs_remove := @fs_remove demo_host;
  boost_append := @boost_append demo_host; startsWith := @startsWith demo_host;
  removeSubstr := @removeSubstr demo_host;
  sys c k := (7, 0, k); sys_data c k := [10; 20; 30; 40; 50; 60; 70];
  sys_stat := @sys_stat demo_host; sys_readdir := @sys_readdir demo_host |}.

Definition demo_io (h : Host) (k : @K h) : @Io demo_rados h :=
  @mkIo demo_rados h demo_mem
    (@mkFS demo_rados h 6 {[5 := set_linuxFd 9 demo_fd]} (@mkWorld demo_rados h demo_s3 k ∅ [])) 0 0.

Lemma wasi_fd_read_fills_witness :
  let s := demo_io reading_host ∅ in
  ∃ s', @wasi_fd_read demo_rados reading_host demo_wasi demo_layout 5 0 2 40 s = (Ret WASI_ESUCCESS, s') ∧
    load_i32 (io_mem s') 40 = Ret 7 ∧
    take 7 (gather (io_mem s') [(16, 4); (24, 8)]) = [10; 20; 30; 40; 50; 60; 70].
Proof.
  intros s.
  apply (@wasi_fd_read_fills demo_rados reading_host demo_wasi demo_layout 5 0 2 40 s
    (set_linuxFd 9 demo_fd) [(16, 4); (24, 8)] 7 0 ∅); try reflexivity.
  - unfold INT32_MAX. lia.
  - apply (bool_decide_unpack _). vm_compute. exact I.
  - apply (bool_decide_unpack _). vm_compute. exact I.
  - unfold iov_disjoint. repeat constructor; cbn; lia.
  - unfold iov_disjoint. repeat constructor; cbn; lia.
Defined.

Lemma wasi_fd_write_hides_errors_witness :
  let s := demo_io (failing_host EIO) ∅ in
  ∃ s', @wasi_fd_write demo_rados (failing_host EIO) demo_wasi demo_layout demo_conf 5 0 2 40 s =
      (Ret WASI_ESUCCESS, s') ∧
    load_i32 (io_mem s') 40 = Ret 0 ∧
    wasiErrno <$> fileDescriptors (io_fs s') !! 5 = Some WASI_EIO.
Proof.
  intros s.
  eapply (@wasi_fd_write_hides_errors demo_rados (failing_host EIO) demo_wasi demo_layout demo_conf 5 0 2 40 s
    (set_linuxFd 9 demo_fd) [(16, 4); (24, 8)] (repeat 1 12) EIO ∅ WASI_EIO); try reflexivity.
Defined.

(** The descriptor's path, [out/log.txt], is copied to a buffer of 4 bytes. *)
Lemma fd_prestat_dir_name_overruns_witness :
  let s := demo_io demo_host ∅ in
  ∃ s', wasi_fd_prestat_dir_name 5 16 4 s = (Ret WASI_ESUCCESS, s') ∧
    mem_read (io_mem s') 16 11 = Ret (bytes_of_string "out/log.txt").
Proof.
  intros s.
  apply (fd_prestat_dir_name_overruns 5 16 4 s (set_linuxFd 9 demo_fd)); try reflexivity; vm_compute;
    intuition discriminate.
Defined.

Definition demo_fs_io : Io := mkIo demo_mem demo_fs 0 0.

Lemma wasi_path_open_confined_witness :
  (wasi_path_open demo_conf DEFAULT_ROOT_FD 0 48 5 0 RIGHT_FD_READ 0 0 40 demo_fs_io).1 = Ret WASI_ESUCCESS ∧
  ((WASI_ESUCCESS = 0 ∧ ∃ root f : FileDescriptor, bits_sub (actualRightsBase f) RIGHT_FD_READ ∧
      bits_sub (actualRightsBase f) (actualRightsInheriting root)) ∨ 0 < WASI_ESUCCESS).
Proof.
  assert ((wasi_path_open demo_conf DEFAULT_ROOT_FD 0 48 5 0 RIGHT_FD_READ 0 0 40 demo_fs_io).1 =
    Ret WASI_ESUCCESS) as Hr by (vm_compute; reflexivity).
  split; [exact Hr|].
  destruct (wasi_path_open_confined demo_conf DEFAULT_ROOT_FD 0 48 5 0 RIGHT_FD_READ 0 0 40 demo_fs_io
    WASI_ESUCCESS _ demo_fs_reachable eq_refl (run_fst _ _ _ Hr))
    as [(_ & root & f & _ & _ & _ & _ & Hb & Hi & _)|[[He _] _]].
  - left. split; [reflexivity|]. exact (ex_intro _ root (ex_intro _ f (conj Hb Hi))).
  - right. exact He.
Defined.
