(* ===== verification/Env.v ===== *)
(** The environment a module sees (src/wasm/WasmEnvironment.cpp,
    src/wavm/env.cpp): its variables and arguments, how they are laid out in
    the memory (WAVMWasmModule.cpp), and the fixed answers about the host. *)

From S2P Require Import Prelude WasmBytes.

(** * State *)

Record Env := mkEnv {
  env_mem : Mem; argv : list string; argc : Z; argvBufferSize : Z;
  vars : gmap string string }.

Definition env_set_mem (m : Mem) (s : Env) : Env := mkEnv m (argv s) (argc s) (argvBufferSize s) (vars s).
Definition env_set_vars (v : gmap string string) (s : Env) : Env :=
  mkEnv (env_mem s) (argv s) (argc s) (argvBufferSize s) v.

(** [WasmEnvironment::WasmEnvironment] *)
Definition WasmEnvironment_vars : gmap string string :=
  <["PYTHONWASM" := "1"]> (<["PYTHONNOUSERSITE" := "on"]> (<["PYTHONHASHSEED" := "0"]>
  (<["PYTHONHOME" := "/"]> (<["PYTHON_PATH" := "/"]>
  (<["OPENBLAS_NUM_THREADS" := "1"]> (<["MKL_NUM_THREADS" := "1"]> ∅)))))).

(** The constants of src/wavm/syscalls.h. *)
Definition FAKE_WORKING_DIR : string := "/bin".
Definition FAKE_UID : Z := 1000.
Definition FAKE_GID : Z := 1000.
Definition FAKE_PID : Z := 23.
Definition FAKE_TID : Z := 66.
Definition FAKE_N_PROCESSORS : Z := 4.

Section env.

(** What the host's [getrandom] gives for a length. *)
Context (random : Z → list Z).

Abbreviation EnvM := (M Env).

Definition env_write (a : Z) (bs : list Z) : EnvM unit :=
  s ← get; m ← lift (mem_write (env_mem s) a bs); put (env_set_mem m s).

(** ** Variables *)

(** [getVars], in the order of the table. *)
Definition getVars (v : gmap string string) : list string :=
  (λ '(k, x), k +:+ "=" +:+ x) <$> map_to_list v.

(** [getEnv] makes the variable when it is missing. *)
Definition getEnv (key : string) : EnvM string :=
  s ← get;
  let value := default "" (vars s !! key) in
  put (env_set_vars (<[key := value]> (vars s)) s) ;; mret value.

Definition addEnv (key value : string) : EnvM unit :=
  modify (λ s, env_set_vars (<[key := value]> (vars s)) s).

Definition getEnvCount (v : gmap string string) : Z := u32 (Z.of_nat (size v)).

Definition getEnvBufferSize (v : gmap string string) : Z :=
  foldl (λ n '(k, x), u32 (n + (str_size k + str_size x + 2))) 0 (map_to_list v).

(** ** Arguments *)

(** [prepareArgcArgv], given the arguments of the message: [argc] is an
    [unsigned int], [argvBufferSize] a [size_t]. *)
Definition prepareArgcArgv (args : list string) : EnvM unit :=
  modify (λ s, mkEnv (env_mem s) args (u32 (Z.of_nat (length args)))
    (foldl (λ n a, u64 (n + (str_size a + 1))) 0 args) (vars s)).

Definition getArgc (s : Env) : Z := argc s.
Definition getArgvBufferSize (s : Env) : Z := u32 (argvBufferSize s).

(** ** Layout in the memory *)

(** The loop of [writeStringArrayToMemory]. *)
Fixpoint write_strings (strings : list string) (strNextPointer strNextBuffer : Z) (m : Mem)
    : outcome Mem :=
  match strings with
  | [] => Ret m
  | thisStr :: rest =>
      if in_mem m strNextBuffer 1 then
        m1 ← mem_write m strNextBuffer (bytes_of_string thisStr);
        m2 ← store_i32 m1 strNextPointer strNextBuffer;
        write_strings rest (u32 (strNextPointer + 4)) (u32 (strNextBuffer + (str_size thisStr + 1))) m2
      else Throw oob
  end.

Definition writeStringArrayToMemory (strings : list string) (strPointers strBuffer : Z) : EnvM unit :=
  s ← get; m ← lift (write_strings strings strPointers strBuffer (env_mem s)); put (env_set_mem m s).

Definition writeArgvToMemory (wasmArgvPointers wasmArgvBuffer : Z) : EnvM unit :=
  s ← get; writeStringArrayToMemory (argv s) wasmArgvPointers wasmArgvBuffer.

Definition writeWasmEnvToMemory (envPointers envBuffer : Z) : EnvM unit :=
  s ← get; writeStringArrayToMemory (getVars (vars s)) envPointers envBuffer.

(** ** The calls; 0 is the success of WASI. *)

Definition wasi_args_sizes_get (argcPtr argvBufSize : Z) : EnvM Z :=
  s ← get;
  env_write argcPtr (le32 (getArgc s)) ;; env_write argvBufSize (le32 (getArgvBufferSize s)) ;; mret 0.

(** The pointers are [I32] arguments handed on as [U32]. *)
Definition wasi_args_get (argvPtr argvBufPtr : Z) : EnvM Z :=
  writeArgvToMemory (u32 argvPtr) (u32 argvBufPtr) ;; mret 0.

Definition wasi_environ_sizes_get (environCountPtr environBuffSizePtr : Z) : EnvM Z :=
  s ← get;
  env_write environCountPtr (le32 (getEnvCount (vars s))) ;;
  env_write environBuffSizePtr (le32 (getEnvBufferSize (vars s))) ;; mret 0.

Definition wasi_environ_get (environPtrs environBuf : Z) : EnvM Z :=
  writeWasmEnvToMemory (u32 environPtrs) (u32 environBuf) ;; mret 0.

Definition s__sched_getaffinity (pid cpuSetSize maskPtr : Z) : EnvM Z :=
  env_write maskPtr (repeat 1 (Z.to_nat FAKE_N_PROCESSORS)) ;; mret 0.

Definition wasi_random_get (bufPtr bufLen : Z) : EnvM Z :=
  env_write bufPtr (random bufLen) ;; mret 0.

(** [strcpy] of the working directory, whatever the length of the buffer. *)
Definition getcwd (bufPtr bufLen : Z) : EnvM Z :=
  s ← get;
  if (0 <=? bufLen) && in_mem (env_mem s) bufPtr bufLen then
    env_write bufPtr (bytes_of_string FAKE_WORKING_DIR ++ [0]) ;; mret bufPtr
  else throw oob.

Definition getpid : EnvM Z := mret FAKE_PID.
Definition s__gettid : EnvM Z := mret FAKE_TID.
Definition getuid : EnvM Z := mret FAKE_UID.
Definition getgid : EnvM Z := mret FAKE_GID.
End env.

(** * The layout of a string array *)

(** The size of the buffer, and where each string goes. *)
Definition array_size (strings : list string) : Z := sumZ (λ s, str_size s + 1) strings.
Definition string_at (strings : list string) (buf : Z) (i : nat) : Z := buf + array_size (take i strings).

Lemma array_size_cons s l : array_size (s :: l) = str_size s + 1 + array_size l.
Proof. done. Qed.
Lemma array_size_nonneg l : 0 ≤ array_size l.
Proof. apply sumZ_nonneg. intros s. pose proof (str_size_nonneg s). lia. Qed.

(** The parts of the memory the loop writes. *)
Fixpoint pieces (strings : list string) (ptr buf : Z) : list (Z * Z) :=
  match strings with
  | [] => []
  | s :: rest => (buf, str_size s) :: (ptr, 4) :: pieces rest (ptr + 4) (buf + (str_size s + 1))
  end.

Lemma pieces_disjoint x strings ptr buf :
  iov_disjoint x (ptr, 4 * Z.of_nat (length strings)) → iov_disjoint x (buf, array_size strings) →
  Forall (iov_disjoint x) (pieces strings ptr buf).
Proof.
  unfold iov_disjoint. cbn [fst snd].
  revert ptr buf. induction strings as [|s strings IH]; intros ptr buf Hp Hb; [constructor|].
  rewrite array_size_cons in Hb. cbn [length] in Hp.
  pose proof (str_size_nonneg s). pose proof (array_size_nonneg strings).
  cbn [pieces]. apply Forall_cons. split; [cbn [fst snd]; lia|].
  apply Forall_cons. split; [cbn [fst snd]; lia|]. apply IH; lia.
Qed.

Lemma write_strings_spec strings ptr buf m :
  0 ≤ ptr → ptr + 4 * Z.of_nat (length strings) ≤ mem_size m →
  0 ≤ buf → buf + array_size strings ≤ mem_size m → mem_size m < 2 ^ 32 →
  iov_disjoint (ptr, 4 * Z.of_nat (length strings)) (buf, array_size strings) →
  ∃ m', write_strings strings ptr buf m = Ret m' ∧ mem_size m' = mem_size m ∧
    (∀ b n, 0 ≤ n → Forall (iov_disjoint (b, n)) (pieces strings ptr buf) →
       mem_read m' b n = mem_read m b n) ∧
    (∀ i s, strings !! i = Some s →
       load_u32 m' (ptr + 4 * Z.of_nat i) = Ret (string_at strings buf i) ∧
       mem_read m' (string_at strings buf i) (str_size s) = Ret (bytes_of_string s)).
Proof.
  revert ptr buf m. induction strings as [|s rest IH]; intros ptr buf m Hp Hpn Hb Hbn Hm Hdis.
  { exists m. split; [done|]. split; [done|]. split; [done|]. intros i s Hi. done. }
  pose proof (str_size_nonneg s) as Hs. pose proof (array_size_nonneg rest) as Hr.
  unfold iov_disjoint in Hdis. rewrite array_size_cons in *. cbn [fst snd length] in *.
  cbn [write_strings]. rewrite (proj2 (in_mem_true m buf 1)) by lia.
  destruct (mem_write m buf (bytes_of_string s)) as [m1|] eqn:Hw1;
    [|rewrite mem_write_ret in Hw1 by (rewrite ?bytes_of_string_size; lia); done].
  pose proof (mem_write_size _ _ _ _ Hw1) as Hsz1. cbn [mbind outcome_bind].
  destruct (store_i32 m1 ptr buf) as [m2|] eqn:Hw2;
    [|unfold store_i32 in Hw2; rewrite mem_write_ret in Hw2 by (rewrite ?length_le32; lia); done].
  pose proof (mem_write_size _ _ _ _ Hw2) as Hsz2. cbn [mbind outcome_bind].
  rewrite (wrapU_id 32 (ptr + 4)) by (unfold in_u; lia).
  rewrite (wrapU_id 32 (buf + (str_size s + 1))) by (unfold in_u; lia).
  destruct (IH (ptr + 4) (buf + (str_size s + 1)) m2) as (m' & Hrun & Hsz & Hframe & Helem);
    [lia..|unfold iov_disjoint; cbn [fst snd]; lia|].
  exists m'. split; [done|]. split; [lia|]. split.
  - intros b n Hn [Hd1 [Hd2 Hd]%Forall_cons]%Forall_cons. unfold iov_disjoint in Hd1, Hd2.
    cbn [fst snd] in *. rewrite (Hframe b n Hn Hd).
    rewrite (mem_read_write_disjoint _ _ _ _ b n Hw2) by (rewrite ?length_le32; lia).
    by rewrite (mem_read_write_disjoint _ _ _ _ b n Hw1) by (rewrite ?bytes_of_string_size; lia).
  - intros [|i] t Hi; cbn [lookup list_lookup] in Hi.
    + injection Hi as <-. unfold string_at. rewrite take_0. change (array_size []) with 0.
      rewrite !Z.add_0_r. split.
      * unfold load_u32. rewrite (Hframe ptr 4) by (first [lia|apply pieces_disjoint;
          unfold iov_disjoint; cbn [fst snd]; lia]).
        change (load_u32 m2 ptr = Ret buf). rewrite (load_store_u32 _ _ _ _ Hw2).
        by rewrite (wrapU_id 32 buf) by (unfold in_u; lia).
      * rewrite (Hframe buf (str_size s)) by (first [lia|apply pieces_disjoint;
          unfold iov_disjoint; cbn [fst snd]; lia]).
        rewrite (mem_read_write_disjoint _ _ _ _ buf (str_size s) Hw2) by (rewrite ?length_le32; lia).
        rewrite <- (bytes_of_string_size s). by apply mem_read_write in Hw1.
    + destruct (Helem i t Hi) as [Hptr Hstr]. unfold string_at in *. cbn [take].
      rewrite array_size_cons.
      replace (ptr + 4 * Z.of_nat (S i)) with (ptr + 4 + 4 * Z.of_nat i) by lia.
      replace (buf + (str_size s + 1 + array_size (take i rest)))
        with (buf + (str_size s + 1) + array_size (take i rest)) by lia. done.
Qed.

(** The byte after each string is not written. *)
Lemma terminator_apart strings ptr buf i s :
  iov_disjoint (ptr, 4 * Z.of_nat (length strings)) (buf, array_size strings) →
  strings !! i = Some s →
  Forall (iov_disjoint (string_at strings buf i + str_size s, 1)) (pieces strings ptr buf) ∧
  string_at strings buf i + str_size s + 1 ≤ buf + array_size strings ∧ buf ≤ string_at strings buf i.
Proof.
  revert ptr buf i. induction strings as [|t rest IH]; intros ptr buf i Hdis Hi; [done|].
  pose proof (str_size_nonneg t) as Ht. pose proof (array_size_nonneg rest) as Hr.
  unfold iov_disjoint in Hdis. rewrite array_size_cons in *. cbn [fst snd length] in *.
  destruct i as [|i]; cbn [lookup list_lookup] in Hi.
  - injection Hi as <-. unfold string_at. rewrite take_0. change (array_size []) with 0.
    rewrite Z.add_0_r. split; [|lia]. cbn [pieces].
    apply Forall_cons. split; [unfold iov_disjoint; cbn [fst snd]; lia|].
    apply Forall_cons. split; [unfold iov_disjoint; cbn [fst snd]; lia|].
    apply pieces_disjoint; unfold iov_disjoint; cbn [fst snd]; lia.
  - destruct (IH (ptr + 4) (buf + (str_size t + 1)) i) as (Hall & Hle & Hge);
      [unfold iov_disjoint; cbn [fst snd]; lia|done|].
    assert (string_at (t :: rest) buf (S i) = string_at rest (buf + (str_size t + 1)) i) as ->.
    { unfold string_at. cbn [take]. rewrite array_size_cons. lia. }
    pose proof (str_size_nonneg s). split; [|lia]. cbn [pieces].
    apply Forall_cons. split; [unfold iov_disjoint; cbn [fst snd]; lia|].
    apply Forall_cons. split; [unfold iov_disjoint; cbn [fst snd]; lia|exact Hall].
Qed.

Lemma c_string_read m a s :
  0 ≤ a → 0 ∉ bytes_of_string s → mem_read m a (str_size s) = Ret (bytes_of_string s) →
  mem_read m (a + str_size s) 1 = Ret [0] → c_string m a = Some s.
Proof.
  intros Ha Hn Hs Ht. pose proof (str_size_nonneg s) as Hsz. unfold mem_read in *.
  destruct (in_mem m a (str_size s)); [|done]. injection Hs as Hs.
  destruct (in_mem m (a + str_size s) 1); [|done]. injection Ht as Ht.
  unfold c_string. assert (drop (Z.to_nat a) m = bytes_of_string s ++ 0 :: drop (Z.to_nat (a + str_size s) + 1) m) as ->.
  { rewrite <- (take_drop (Z.to_nat (str_size s)) (drop (Z.to_nat a) m)), Hs. f_equal.
    rewrite drop_drop. replace (Z.to_nat a + Z.to_nat (str_size s))%nat with (Z.to_nat (a + str_size s)) by lia.
    rewrite <- (take_drop 1 (drop (Z.to_nat (a + str_size s)) m)). change (Z.to_nat 1) with 1%nat in Ht.
    by rewrite Ht, drop_drop. }
  rewrite until_nul_app by done. cbn. by rewrite string_of_bytes_of_string.
Qed.

(** Strings written to a zeroed buffer of their size are read back as C strings
    through the pointers; each lies in the buffer. *)
Definition zeroed (m : Mem) (a n : Z) : Prop :=
  ∀ b, a ≤ b → b + 1 ≤ a + n → mem_read m b 1 = Ret [0].

Lemma write_strings_roundtrip strings ptr buf m :
  0 ≤ ptr → ptr + 4 * Z.of_nat (length strings) ≤ mem_size m →
  0 ≤ buf → buf + array_size strings ≤ mem_size m → mem_size m < 2 ^ 32 →
  iov_disjoint (ptr, 4 * Z.of_nat (length strings)) (buf, array_size strings) →
  zeroed m buf (array_size strings) → Forall (λ s, 0 ∉ bytes_of_string s) strings →
  ∃ m', write_strings strings ptr buf m = Ret m' ∧
    ∀ i s, strings !! i = Some s → ∃ p,
      load_u32 m' (ptr + 4 * Z.of_nat i) = Ret p ∧ c_string m' p = Some s ∧
      buf ≤ p ∧ p + str_size s + 1 ≤ buf + array_size strings.
Proof.
  intros Hp Hpn Hb Hbn Hm Hdis Hz Hnul.
  destruct (write_strings_spec strings ptr buf m) as (m' & Hrun & _ & Hframe & Helem); [done..|].
  exists m'. split; [done|]. intros i s Hi. destruct (Helem i s Hi) as [Hptr Hstr].
  destruct (terminator_apart strings ptr buf i s Hdis Hi) as (Hap & Hle & Hge).
  pose proof (str_size_nonneg s). exists (string_at strings buf i). split; [done|]. split; [|done].
  apply c_string_read; [lia|by eapply Forall_lookup_1 in Hnul|done|].
  rewrite (Hframe _ 1 ltac:(lia) Hap). apply Hz; lia.
Qed.

(** A byte that was not zero stays after its string: no terminator is
    written. *)
Lemma write_strings_no_terminator strings ptr buf m i s :
  0 ≤ ptr → ptr + 4 * Z.of_nat (length strings) ≤ mem_size m →
  0 ≤ buf → buf + array_size strings ≤ mem_size m → mem_size m < 2 ^ 32 →
  iov_disjoint (ptr, 4 * Z.of_nat (length strings)) (buf, array_size strings) →
  strings !! i = Some s →
  ∃ m', write_strings strings ptr buf m = Ret m' ∧
    mem_read m' (string_at strings buf i + str_size s) 1 = mem_read m (string_at strings buf i + str_size s) 1.
Proof.
  intros Hp Hpn Hb Hbn Hm Hdis Hi.
  destruct (write_strings_spec strings ptr buf m) as (m' & Hrun & _ & Hframe & _); [done..|].
  exists m'. split; [done|].
  destruct (terminator_apart strings ptr buf i s Hdis Hi) as (Hap & _ & _). apply Hframe; [lia|done].
Qed.

(** ** Counting in a machine integer *)

Lemma foldl_wrapU {A} w (g : Z → A → Z) (f : A → Z) a l :
  0 ≤ w → (∀ n x, g n x = wrapU w (n + f x)) → in_u w a → foldl g a l = wrapU w (a + sumZ f l).
Proof.
  intros Hw Hg. revert a. induction l as [|x l IH]; intros a Ha.
  - cbn. rewrite Z.add_0_r. symmetry. by apply wrapU_id.
  - cbn [foldl]. rewrite Hg, IH by (apply wrapU_range; lia).
    change (sumZ f (x :: l)) with (f x + sumZ f l). unfold wrapU.
    rewrite Zplus_mod_idemp_l. f_equal. lia.
Qed.

Lemma getEnvBufferSize_array v :
  array_size (getVars v) < 2 ^ 32 → getEnvBufferSize v = array_size (getVars v).
Proof.
  intros Hlt. assert (sumZ (λ '(k, x), str_size k + str_size x + 2) (map_to_list v) = array_size (getVars v)) as Hs.
  { unfold getVars, array_size. induction (map_to_list v) as [|[k x] l IH]; [done|].
    change (str_size k + str_size x + 2 + sumZ (λ '(k, x), str_size k + str_size x + 2) l =
      str_size (k +:+ "=" +:+ x) + 1 + sumZ (λ s, str_size s + 1) ((λ '(k, x), k +:+ "=" +:+ x) <$> l)).
    rewrite IH, !str_size_app. change (str_size "=") with 1. lia. }
  unfold getEnvBufferSize.
  assert (∀ n x, (λ n '(k, x), u32 (n + (str_size k + str_size x + 2))) n x =
    u32 (n + (λ '(k, x), str_size k + str_size x + 2) x)) as Hg by (by intros n [k x]).
  rewrite (foldl_wrapU 32 _ _ _ _ ltac:(lia) Hg) by (unfold in_u; lia).
  rewrite Z.add_0_l, Hs. apply wrapU_id. pose proof (array_size_nonneg (getVars v)). unfold in_u. lia.
Qed.

Lemma getVars_length v : Z.of_nat (length (getVars v)) = Z.of_nat (size v).
Proof. unfold getVars. by rewrite length_fmap, length_map_to_list. Qed.

(** ** The calls *)

Definition well_formed_var (k x : string) : Prop := 0 ∉ bytes_of_string (k +:+ "=" +:+ x).

(** A module that asks for the sizes and gives zeroed buffers of those sizes
    finds every variable, as a C string [key=value], through one of the
    pointers, and nothing is placed outside its buffer. *)
Theorem wasi_environ_get_roundtrip envPtrs envBuf s :
  let n := getEnvCount (vars s) in let len := getEnvBufferSize (vars s) in
  Z.of_nat (size (vars s)) < 2 ^ 32 → array_size (getVars (vars s)) < 2 ^ 32 →
  0 ≤ envPtrs → envPtrs + 4 * n ≤ mem_size (env_mem s) →
  0 ≤ envBuf → envBuf + len ≤ mem_size (env_mem s) → mem_size (env_mem s) < 2 ^ 32 →
  envPtrs < 2 ^ 32 → envBuf < 2 ^ 32 →
  iov_disjoint (envPtrs, 4 * n) (envBuf, len) → zeroed (env_mem s) envBuf len →
  map_Forall well_formed_var (vars s) →
  ∃ s', wasi_environ_get envPtrs envBuf s = (Ret 0, s') ∧ vars s' = vars s ∧
    ∀ k x, vars s !! k = Some x → ∃ i p, 0 ≤ i < n ∧
      load_u32 (env_mem s') (envPtrs + 4 * i) = Ret p ∧
      c_string (env_mem s') p = Some (k +:+ "=" +:+ x) ∧
      envBuf ≤ p ∧ p + str_size (k +:+ "=" +:+ x) + 1 ≤ envBuf + len.
Proof.
  intros n len Hn Hlen Hp Hpn Hb Hbn Hm Hp32 Hb32 Hdis Hz Hnul.
  assert (n = Z.of_nat (length (getVars (vars s)))) as Hn'.
  { rewrite getVars_length. apply wrapU_id. unfold in_u. lia. }
  assert (len = array_size (getVars (vars s))) as Hlen' by (by apply getEnvBufferSize_array).
  rewrite Hn', Hlen' in *.
  destruct (write_strings_roundtrip (getVars (vars s)) envPtrs envBuf (env_mem s)) as (m' & Hrun & Helem);
    [done..| |].
  { unfold getVars. apply Forall_fmap, Forall_forall. intros [k x] Hin%elem_of_map_to_list.
    exact (Hnul k x Hin). }
  exists (env_set_mem m' s). split; [|split; [done|]].
  - unfold wasi_environ_get, writeWasmEnvToMemory, writeStringArrayToMemory, get, put, lift, mret, M_ret, mbind, M_bind.
    rewrite (wrapU_id 32 envPtrs), (wrapU_id 32 envBuf) by (unfold in_u; lia). by rewrite Hrun.
  - intros k x Hkx. apply elem_of_map_to_list in Hkx.
    assert (k +:+ "=" +:+ x ∈ getVars (vars s)) as Hin
      by (apply list_elem_of_fmap; by exists (k, x)).
    apply list_elem_of_lookup in Hin as [i Hi].
    destruct (Helem i _ Hi) as (p & Hload & Hc & Hge & Hle). exists (Z.of_nat i), p.
    pose proof (lookup_lt_Some _ _ _ Hi). split; [lia|done].
Qed.

(** The arguments are found in order, through as many pointers as the count
    says and within a buffer of the size announced. *)
Lemma wasi_args_get_roundtrip args argvPtr bufPtr s0 :
  let s := (prepareArgcArgv args s0).2 in
  let n := getArgc s in let len := getArgvBufferSize s in
  Z.of_nat (length args) < 2 ^ 32 → array_size args < 2 ^ 32 →
  0 ≤ argvPtr → argvPtr + 4 * n ≤ mem_size (env_mem s) →
  0 ≤ bufPtr → bufPtr + len ≤ mem_size (env_mem s) → mem_size (env_mem s) < 2 ^ 32 →
  argvPtr < 2 ^ 32 → bufPtr < 2 ^ 32 →
  iov_disjoint (argvPtr, 4 * n) (bufPtr, len) →
  zeroed (env_mem s) bufPtr len → Forall (λ a, 0 ∉ bytes_of_string a) args →
  ∃ s', wasi_args_get argvPtr bufPtr s = (Ret 0, s') ∧
    ∀ i a, args !! i = Some a → ∃ p,
      load_u32 (env_mem s') (argvPtr + 4 * Z.of_nat i) = Ret p ∧ c_string (env_mem s') p = Some a.
Proof.
  intros s n len Hcount Hlen Hp Hpn Hb Hbn Hm Hp32 Hb32 Hdis Hz Hnul.
  pose proof (array_size_nonneg args) as Hnn.
  assert (argvBufferSize s = array_size args) as Hbuf.
  { change (foldl (λ n a, u64 (n + (str_size a + 1))) 0 args = array_size args).
    rewrite (foldl_wrapU 64 _ (λ a, str_size a + 1)) by (done || unfold in_u; lia).
    rewrite Z.add_0_l. apply wrapU_id. unfold in_u. change (0 ≤ array_size args < 2 ^ 64). lia. }
  assert (len = array_size args) as Hsz.
  { unfold len, getArgvBufferSize. rewrite Hbuf. apply wrapU_id. unfold in_u. lia. }
  assert (n = Z.of_nat (length args)) as Hn by (apply wrapU_id; unfold in_u; lia).
  rewrite Hsz, Hn in *.
  destruct (write_strings_roundtrip args argvPtr bufPtr (env_mem s)) as (m' & Hrun & Helem); [done..|].
  exists (env_set_mem m' s). split.
  - unfold wasi_args_get, writeArgvToMemory, writeStringArrayToMemory, get, put, lift, mret, M_ret, mbind, M_bind.
    rewrite (wrapU_id 32 argvPtr), (wrapU_id 32 bufPtr) by (unfold in_u; lia).
    change (argv s) with args. by rewrite Hrun.
  - intros i a Hi. destruct (Helem i a Hi) as (p & Hload & Hc & _). by exists p.
Qed.

(** Looking up a variable that does not exist makes it, which the module then
    sees with an empty value. *)
Lemma getEnv_missing key s :
  vars s !! key = None →
  getEnv key s = (Ret "", env_set_vars (<[key := ""]> (vars s)) s) ∧
  size (vars (getEnv key s).2) = S (size (vars s)).
Proof.
  intros Hk. unfold getEnv, get, put, mret, M_ret, mbind, M_bind. rewrite Hk. cbn [default snd].
  split; [done|]. cbn [vars env_set_vars]. by apply map_size_insert_None.
Qed.

(** * A concrete environment *)

Lemma zeroed_repeat k a n : 0 ≤ a → a + n ≤ Z.of_nat k → zeroed (repeat 0 k) a n.
Proof.
  intros Ha Hn b Hb Hbn. unfold mem_read.
  assert (length (repeat 0 k) = k) as Hk by apply repeat_length.
  rewrite (proj2 (in_mem_true (repeat 0 k) b 1)) by (unfold mem_size; rewrite Hk; lia).
  f_equal. assert (Z.to_nat b < k)%nat as Hlt by lia. clear -Hlt. revert Hlt.
  generalize (Z.to_nat b). change (Z.to_nat 1) with 1%nat.
  induction k as [|k IH]; intros [|j] Hlt; cbn; [lia|lia|done|apply IH; lia].
Qed.

Definition demo_vars : Env := mkEnv (repeat 0 64) [] 0 0 {["A" := "1"; "HOME" := "/x"]}.

Lemma wasi_environ_get_roundtrip_witness :
  ∃ s', wasi_environ_get 0 16 demo_vars = (Ret 0, s') ∧ vars s' = vars demo_vars ∧
    ∃ i p, 0 ≤ i < 2 ∧ load_u32 (env_mem s') (0 + 4 * i) = Ret p ∧ c_string (env_mem s') p = Some "HOME=/x".
Proof.
  destruct (wasi_environ_get_roundtrip 0 16 demo_vars) as (s' & Hrun & Hv & Hall);
    try (vm_compute; intuition congruence).
  - apply zeroed_repeat; vm_compute; congruence.
  - apply (bool_decide_unpack _). vm_compute. exact I.
  - exists s'. split; [exact Hrun|]. split; [exact Hv|].
    destruct (Hall "HOME" "/x") as (i & p & Hi & Hl & Hc & _); [reflexivity|].
    exists i, p. split; [exact Hi|]. split; [exact Hl|exact Hc].
Defined.
