(* ===== verification/Isolation.v ===== *)
(** The isolation of a faaslet's threads (src/faaslet/Faaslet.cpp,
    src/system/CGroup.cpp, src/system/NetworkNamespace.cpp): the control group,
    and the pool of network namespaces that threads claim when they first
    execute and faaslets return when they shut down. *)

From S2P Require Import Prelude Host.

(** * State *)

Record IsoConfig := mkIsoConfig { cgroupMode : string; netNsMode : string; maxNetNs : Z }.

Definition BASE_CGROUP_NAME : string := "faasm".
Definition BASE_NETNS_NAME : string := "faasmns".

(** What the threads ask of the host. *)
Inductive iso_call : Type :=
  | i_append_task (path : string) (tid : Z)
  | i_open_ns (path : string)
  | i_setns (path : string)
  | i_close_ns (path : string).

(** The pool ([namespaces], its last element first), whether it was filled, the
    thread-local flag [threadIsIsolated] by thread, and the member [ns] by
    faaslet. *)
Record Isolation := mkIso {
  namespaces : list string; namespacesInitialised : bool;
  isolated : gset Z; members : gmap Z string; iso_calls : list iso_call }.

(** A value of a map without duplicate values has one key. *)
Lemma values_distinct (m : gmap Z string) f g n :
  NoDup (map_to_list m).*2 → m !! f = Some n → m !! g = Some n → f = g.
Proof.
  intros Hd Hf Hg. apply elem_of_map_to_list in Hf, Hg.
  apply list_elem_of_lookup in Hf as [i Hi]. apply list_elem_of_lookup in Hg as [j Hj].
  assert ((map_to_list m).*2 !! i = Some n) as Hi2 by (by rewrite list_lookup_fmap, Hi).
  assert ((map_to_list m).*2 !! j = Some n) as Hj2 by (by rewrite list_lookup_fmap, Hj).
  pose proof (NoDup_lookup _ _ _ _ Hd Hi2 Hj2) as ->. rewrite Hi in Hj. by injection Hj.
Qed.

Section isolation.

(** Whether a namespace file can be opened, and the [errno] of joining it, 0 for
    success. *)
Context (conf : IsoConfig) (can_open : string → bool) (setns : string → Z).

Abbreviation IsoM := (M Isolation).

Definition net_off : bool := bool_decide (netNsMode conf = "off").

Definition set_pool (l : list string) (b : bool) (s : Isolation) : Isolation :=
  mkIso l b (isolated s) (members s) (iso_calls s).
Definition set_member (f : Z) (ns : string) (s : Isolation) : Isolation :=
  mkIso (namespaces s) (namespacesInitialised s) (isolated s) (<[f := ns]> (members s)) (iso_calls s).
Definition set_isolated (t : Z) (s : Isolation) : Isolation :=
  mkIso (namespaces s) (namespacesInitialised s) ({[t]} ∪ isolated s) (members s) (iso_calls s).
Definition iso_do (c : iso_call) : IsoM unit :=
  modify (λ s, mkIso (namespaces s) (namespacesInitialised s) (isolated s) (members s) (iso_calls s ++ [c])).

(** ** Control groups *)

Definition controllers : list string := ["cpu"].

(** [CGroup::CGroup]: whether the mode is [cg_on]. *)
Definition cg_on : bool := bool_decide (cgroupMode conf = "on").

(** A stream that appends the thread to the file; whether it could is not looked at. *)
Definition addCurrentThreadToTasks (tasksPath : string) (tid : Z) : IsoM unit := iso_do (i_append_task tasksPath tid).

Definition addCurrentThread (tid : Z) : IsoM unit :=
  if negb cg_on then mret ()
  else
    for_each controllers (λ controller,
      addCurrentThreadToTasks (path_append (path_append (path_append "/sys/fs/cgroup/" controller)
                                            BASE_CGROUP_NAME) "tasks") tid).

(** ** Network namespaces *)

Definition returnNetworkNamespace (ns : string) : IsoM unit :=
  if net_off then mret () else modify (λ s, set_pool (ns :: namespaces s) (namespacesInitialised s) s).

(** The namespaces made at the first claim, the last one first. *)
Definition netns_name (i : Z) : string := BASE_NETNS_NAME +:+ to_string i.
Definition all_namespaces : list string := reverse (netns_name <$> seqZ 0 (maxNetNs conf)).

Definition claimNetworkNamespace : IsoM string :=
  s ← get;
  (if bool_decide (namespaces s = []) && negb (namespacesInitialised s) then
     if maxNetNs conf =? 0 then throw (RuntimeError "Invalid env. var MAX_NET_NAMESPACES")
     else put (set_pool all_namespaces true s)
   else mret ()) ;;
  s ← get;
  match namespaces s with
  | [] => throw (RuntimeError "Namespaces have run out")
  | res :: rest =>
      if net_off then mret res
      else put (set_pool rest (namespacesInitialised s) s) ;; mret res
  end.

Definition joinNamespace (nsPath : string) : IsoM unit :=
  if net_off then mret ()
  else
    iso_do (i_open_ns nsPath) ;;
    if negb (can_open nsPath) then throw (RuntimeError ("Failed to open fd at " +:+ nsPath))
    else
      iso_do (i_setns nsPath) ;; iso_do (i_close_ns nsPath) ;;
      if negb (setns nsPath =? 0) then throw (RuntimeError ("setns failed " +:+ to_string (setns nsPath)))
      else mret ().

Definition ns_addCurrentThread (name : string) : IsoM unit :=
  joinNamespace (path_append "/var/run/netns" name).

Definition ns_removeCurrentThread (parentPid : Z) : IsoM unit :=
  joinNamespace (path_append (path_append "/proc" (to_string parentPid)) "ns/net").

(** ** A faaslet *)

(** The first half of [Faaslet::executeTask] on thread [t] of faaslet [f]. *)
Definition isolateThread (f t : Z) : IsoM unit :=
  s ← get;
  if decide (t ∈ isolated s) then mret ()
  else
    addCurrentThread t ;;
    ns ← claimNetworkNamespace;
    modify (set_member f ns) ;;
    ns_addCurrentThread ns ;;
    modify (set_isolated t).

(** [Faaslet::shutdown]; the member is kept. *)
Definition shutdown (f parentPid : Z) : IsoM unit :=
  s ← get;
  match members s !! f with
  | Some ns => ns_removeCurrentThread parentPid ;; returnNetworkNamespace ns
  | None => mret ()
  end.

(** The object is destroyed. *)
Definition destroy (f : Z) (s : Isolation) : Isolation :=
  mkIso (namespaces s) (namespacesInitialised s) (isolated s) (delete f (members s)) (iso_calls s).

(** * Reachable states *)

(** Threads of faaslets execute, and faaslets are shut down and destroyed. *)
Inductive iso_step : Isolation → Isolation → Prop :=
  | iso_exec f t s : iso_step s (isolateThread f t s).2
  | iso_shutdown f pid s : iso_step s (destroy f (shutdown f pid s).2).

Definition iso_start : Isolation := mkIso [] false ∅ ∅ [].
Definition iso_reachable (s : Isolation) : Prop := rtc iso_step iso_start s.

(** The namespaces of the pool and of the faaslets are distinct, and are those
    the pool was filled with. *)
Definition held (s : Isolation) : list string := namespaces s ++ (map_to_list (members s)).*2.
Record iso_inv (s : Isolation) : Prop := {
  inv_distinct : NoDup (held s);
  inv_known : ∀ n, n ∈ held s → n ∈ all_namespaces;
  inv_start : namespacesInitialised s = false → namespaces s = [] ∧ members s = ∅ }.

Lemma all_namespaces_distinct : NoDup all_namespaces.
Proof.
  unfold all_namespaces. rewrite reverse_Permutation. apply NoDup_fmap_2; [|apply NoDup_seqZ].
  intros i j Hij. unfold netns_name in Hij. apply (inj (String.app BASE_NETNS_NAME)) in Hij.
  unfold to_string in Hij. by apply (inj pretty) in Hij.
Qed.

Lemma all_namespaces_length : 0 ≤ maxNetNs conf → Z.of_nat (length all_namespaces) = maxNetNs conf.
Proof. intros Hn. unfold all_namespaces. rewrite length_reverse, length_fmap, length_seqZ. lia. Qed.

(** ** Frames *)

(** Only the calls change. *)
Definition calls_only {A} (m : IsoM A) : Prop := ∀ s,
  namespaces (m s).2 = namespaces s ∧ namespacesInitialised (m s).2 = namespacesInitialised s ∧
  isolated (m s).2 = isolated s ∧ members (m s).2 = members s.

Lemma calls_only_ret {A} (x : A) : calls_only (mret x).
Proof. done. Qed.
Lemma calls_only_throw {A} e : calls_only (throw e : IsoM A).
Proof. done. Qed.
Lemma calls_only_do c : calls_only (iso_do c).
Proof. done. Qed.
Lemma calls_only_bind {A B} (m : IsoM A) (f : A → IsoM B) :
  calls_only m → (∀ x, calls_only (f x)) → calls_only (m ≫= f).
Proof.
  intros Hm Hf s. destruct (Hm s) as (Hn & Hi & Ht & Hb). unfold mbind, M_bind.
  destruct (m s) as [[x|e] s1]; cbn [snd] in *; [|done].
  destruct (Hf x s1) as (Hn' & Hi' & Ht' & Hb'). by rewrite Hn', Hi', Ht', Hb'.
Qed.
Lemma calls_only_for_each {B} (xs : list B) (body : B → IsoM unit) :
  (∀ x, calls_only (body x)) → calls_only (for_each xs body).
Proof.
  intros Hb. induction xs as [|x xs IH]; [by apply calls_only_ret|]. cbn [for_each].
  by apply calls_only_bind.
Qed.

Lemma join_frame p : calls_only (joinNamespace p).
Proof.
  unfold joinNamespace. destruct net_off; [by apply calls_only_ret|].
  apply calls_only_bind; [apply calls_only_do|]. intros _.
  destruct (negb (can_open p)); [by apply calls_only_throw|].
  apply calls_only_bind; [apply calls_only_do|]. intros _.
  apply calls_only_bind; [apply calls_only_do|]. intros _.
  by destruct (negb (setns p =? 0)).
Qed.
Lemma cgroup_frame t : calls_only (addCurrentThread t).
Proof.
  unfold addCurrentThread, addCurrentThreadToTasks. destruct (negb cg_on); [by apply calls_only_ret|].
  apply calls_only_for_each. intros c. apply calls_only_do.
Qed.

Lemma iso_inv_ext s s' :
  namespaces s' = namespaces s → namespacesInitialised s' = namespacesInitialised s →
  members s' = members s → iso_inv s → iso_inv s'.
Proof.
  intros Hn Hi Hm [Hd Hk Hs]. unfold held in *. split; unfold held; rewrite ?Hn, ?Hi, ?Hm; done.
Qed.

Hypothesis net_on : netNsMode conf ≠ "off".

Lemma net_off_false : net_off = false.
Proof. unfold net_off. by apply bool_decide_eq_false_2. Qed.

(** ** Claiming and returning *)

(** A claim takes the top of the pool, after filling it the first time. *)
Definition filled (s : Isolation) : list string :=
  if bool_decide (namespaces s = []) && negb (namespacesInitialised s) then all_namespaces else namespaces s.

Lemma claim_run s :
  ∃ o s', claimNetworkNamespace s = (o, s') ∧ isolated s' = isolated s ∧ members s' = members s ∧
    match o with
    | Ret n => filled s = n :: namespaces s' ∧ namespacesInitialised s' = true ∨
               (namespaces s = n :: namespaces s' ∧ namespacesInitialised s' = namespacesInitialised s)
    | Throw _ => namespaces s = [] ∧ namespaces s' = [] ∧ (s' = s ∨ namespacesInitialised s' = true)
    end.
Proof.
  unfold claimNetworkNamespace, filled, get, put, mret, M_ret, mbind, M_bind, throw. rewrite net_off_false.
  destruct (bool_decide (namespaces s = []) && negb (namespacesInitialised s)) eqn:Hfill.
  - apply andb_true_iff in Hfill as [Hempty _]. apply bool_decide_eq_true in Hempty.
    destruct (maxNetNs conf =? 0).
    + exists (Throw (RuntimeError "Invalid env. var MAX_NET_NAMESPACES")), s. repeat split; auto.
    + cbn [namespaces set_pool]. destruct all_namespaces as [|n rest].
      * eexists _, _. split; [reflexivity|]. repeat split; auto.
      * eexists _, _. split; [reflexivity|]. cbn. repeat split; auto.
  - destruct (namespaces s) as [|n rest] eqn:Hns.
    + eexists _, _. split; [reflexivity|]. repeat split; auto.
    + eexists _, _. split; [reflexivity|]. cbn. repeat split; auto.
Qed.

Lemma filled_inv s : iso_inv s → NoDup (filled s ++ (map_to_list (members s)).*2) ∧
  (∀ n, n ∈ filled s ++ (map_to_list (members s)).*2 → n ∈ all_namespaces).
Proof.
  intros [Hd Hk Hs]. unfold filled.
  destruct (bool_decide (namespaces s = []) && negb (namespacesInitialised s)) eqn:Hfill; [|by split].
  apply andb_true_iff in Hfill as [_ Hinit]. apply negb_true_iff in Hinit.
  destruct (Hs Hinit) as [_ ->]. rewrite map_to_list_empty. cbn. rewrite app_nil_r.
  split; [apply all_namespaces_distinct|done].
Qed.

(** Taking the member of a faaslet out of those held. *)
Lemma held_delete m f : ∃ old,
  (map_to_list m).*2 ≡ₚ old ++ (map_to_list (delete f m : gmap Z string)).*2.
Proof.
  destruct (m !! f) as [ns|] eqn:Hf.
  - exists [ns]. by rewrite <- (map_to_list_delete m f ns Hf).
  - exists []. by rewrite delete_id.
Qed.

Lemma claim_inv s n s' f :
  iso_inv s → claimNetworkNamespace s = (Ret n, s') → iso_inv (set_member f n s').
Proof.
  intros Hinv Hclaim. destruct (claim_run s) as (o & s1 & Hrun & Hiso & Hmem & Ho).
  rewrite Hclaim in Hrun. injection Hrun as <- <-.
  assert (∃ base, base = n :: namespaces s' ∧ NoDup (base ++ (map_to_list (members s)).*2) ∧
    ∀ x, x ∈ base ++ (map_to_list (members s)).*2 → x ∈ all_namespaces) as (base & -> & Hd & Hk).
  { destruct Ho as [[Ho _]|[Ho _]]; eexists; (split; [reflexivity|]); rewrite <- Ho;
      [by apply filled_inv|]. by destruct Hinv. }
  destruct (held_delete (members s) f) as [old Hold].
  assert (held (set_member f n s') ≡ₚ n :: namespaces s' ++ (map_to_list (delete f (members s))).*2) as Hheld.
  { unfold held. cbn [set_member namespaces members]. rewrite Hmem, <- insert_delete_eq.
    rewrite map_to_list_insert by apply lookup_delete_eq. cbn [fmap list_fmap]. symmetry.
    apply Permutation_middle. }
  assert ((n :: namespaces s') ++ (map_to_list (members s)).*2 ≡ₚ old ++ held (set_member f n s')) as Hperm.
  { rewrite Hold, Hheld. by rewrite (Permutation_app_swap_app (n :: namespaces s') old). }
  split.
  - rewrite Hperm in Hd. by apply NoDup_app in Hd as (_ & _ & Hd).
  - intros x Hx. apply Hk. rewrite Hperm, elem_of_app. by right.
  - cbn [set_member namespacesInitialised]. intros Hinit.
    destruct Ho as [[_ Hi]|[Hns Hi]]; [congruence|].
    destruct Hinv as [_ _ Hs]. rewrite Hi in Hinit. destruct (Hs Hinit) as [Hempty _]. by rewrite Hempty in Hns.
Qed.

Lemma claim_throw_inv s e s' :
  iso_inv s → claimNetworkNamespace s = (Throw e, s') → iso_inv s'.
Proof.
  intros Hinv Hclaim. destruct (claim_run s) as (o & s1 & Hrun & Hiso & Hmem & Ho).
  rewrite Hclaim in Hrun. injection Hrun as <- <-. destruct Ho as (Hn & Hn' & [->|Hinit]); [done|].
  destruct Hinv as [Hd Hk Hs]. unfold held in *. rewrite Hn in Hd, Hk.
  split; unfold held; rewrite ?Hn', ?Hmem; [done..|congruence].
Qed.

Lemma isolate_inv f t s : iso_inv s → iso_inv (isolateThread f t s).2.
Proof.
  intros Hinv. unfold isolateThread. rewrite run_bind. cbn [get].
  unfold get. destruct (decide (t ∈ isolated s)) as [|Hnew]; [done|].
  rewrite run_bind. destruct (cgroup_frame t s) as (Hn & Hi & Ht & Hm).
  destruct (addCurrentThread t s) as [[[]|e] s1]; cbn [snd] in *; [|by eapply iso_inv_ext].
  assert (iso_inv s1) as Hinv1 by (by eapply iso_inv_ext).
  rewrite run_bind. destruct (claimNetworkNamespace s1) as [[n|e] s2] eqn:Hclaim;
    [|by eapply claim_throw_inv].
  pose proof (claim_inv _ _ _ f Hinv1 Hclaim) as Hinv2.
  rewrite run_bind. cbn [modify]. unfold modify at 1. rewrite run_bind.
  destruct (join_frame (path_append "/var/run/netns" n) (set_member f n s2)) as (Hn3 & Hi3 & Ht3 & Hm3).
  unfold ns_addCurrentThread. destruct (joinNamespace _ (set_member f n s2)) as [[[]|e] s3]; cbn [snd] in *.
  - unfold modify. cbn [snd]. by eapply (iso_inv_ext (set_member f n s2)).
  - by eapply (iso_inv_ext (set_member f n s2)).
Qed.

Lemma iso_destroy_inv f s : iso_inv s → iso_inv (destroy f s).
Proof.
  intros [Hd Hk Hs]. destruct (held_delete (members s) f) as [old Hold].
  assert (held s ≡ₚ old ++ held (destroy f s)) as Hperm.
  { unfold held. cbn [destroy namespaces members]. by rewrite Hold, Permutation_app_swap_app. }
  split.
  - rewrite Hperm in Hd. by apply NoDup_app in Hd as (_ & _ & Hd).
  - intros x Hx. apply Hk. rewrite Hperm, elem_of_app. by right.
  - intros Hi. destruct (Hs Hi) as [Hn Hm]. split; [done|]. cbn. by rewrite Hm, delete_empty.
Qed.

Lemma shutdown_inv f pid s : iso_inv s → iso_inv (destroy f (shutdown f pid s).2).
Proof.
  intros Hinv. unfold shutdown. rewrite run_bind. unfold get at 1.
  destruct (members s !! f) as [ns|] eqn:Hf; [|by apply iso_destroy_inv].
  rewrite run_bind. unfold ns_removeCurrentThread.
  destruct (join_frame (path_append (path_append "/proc" (to_string pid)) "ns/net") s) as (Hn & Hi & Ht & Hm).
  destruct (joinNamespace _ s) as [[[]|e] s1]; cbn [snd] in *;
    [|apply iso_destroy_inv; by eapply iso_inv_ext].
  unfold returnNetworkNamespace. rewrite net_off_false. unfold modify. cbn [snd].
  destruct Hinv as [Hd Hk Hs].
  assert (held s ≡ₚ held (destroy f (set_pool (ns :: namespaces s1) (namespacesInitialised s1) s1))) as Hperm.
  { unfold held. cbn [destroy set_pool namespaces members]. rewrite Hn, Hm.
    rewrite <- (map_to_list_delete _ _ _ Hf). cbn [fmap list_fmap]. by rewrite <- Permutation_middle. }
  split.
  - by rewrite <- Hperm.
  - intros x Hx. apply Hk. by rewrite Hperm.
  - cbn. rewrite Hi. intros Hinit. destruct (Hs Hinit) as [_ Hempty]. by rewrite Hempty, lookup_empty in Hf.
Qed.

Lemma start_inv : iso_inv iso_start.
Proof. split; [constructor|intros n Hn; by apply elem_of_nil in Hn|done]. Qed.

Lemma iso_reachable_inv s : iso_reachable s → iso_inv s.
Proof.
  unfold iso_reachable. intros Hsteps. pose proof start_inv as Hinv. revert Hinv.
  induction Hsteps as [|s0 s1 s2 Hstep _ IH]; [done|]. intros Hinv. apply IH.
  destruct Hstep; [by apply isolate_inv|by apply shutdown_inv].
Qed.

(** No namespace is held by two faaslets, or by a faaslet while it is in the
    pool to be claimed: along any sequence of executions and shutdowns, with
    failures anywhere, two faaslets are never isolated in the same
    namespace. *)
Theorem namespaces_exclusive s f g n :
  iso_reachable s → members s !! f = Some n →
  (n ∉ namespaces s) ∧ (members s !! g = Some n → g = f) ∧ (n ∈ all_namespaces).
Proof.
  intros [Hd Hk _]%iso_reachable_inv Hf. unfold held in *.
  apply NoDup_app in Hd as (_ & Hdis & Hd).
  assert (n ∈ (map_to_list (members s)).*2) as Hn.
  { apply list_elem_of_fmap. exists (f, n). by rewrite elem_of_map_to_list. }
  split; [intros Hpool; by apply (Hdis n)|]. split; [|apply Hk; rewrite elem_of_app; by right].
  intros Hg. exact (values_distinct (members s) g f n Hd Hg Hf).
Qed.

(** ** What a shutdown gives back *)

Lemma claim_ok s n rest :
  iso_inv s → filled s = n :: rest →
  claimNetworkNamespace s = (Ret n, set_pool rest true s).
Proof.
  intros Hinv Hf. unfold claimNetworkNamespace, get, put, mret, M_ret, mbind, M_bind, throw.
  unfold filled in Hf. rewrite net_off_false.
  destruct (bool_decide (namespaces s = []) && negb (namespacesInitialised s)) eqn:Hfill.
  - destruct (Z.eqb_spec (maxNetNs conf) 0) as [Hz|]; [|cbn [namespaces set_pool]; by rewrite Hf].
    exfalso. revert Hf. unfold all_namespaces. by rewrite Hz.
  - rewrite Hf. destruct (namespacesInitialised s) eqn:Hi; [done|].
    destruct (inv_start _ Hinv Hi) as [Hempty _]. by rewrite Hempty in Hf.
Qed.

Hypothesis joins : ∀ p, can_open p = true ∧ setns p = 0.

Lemma join_ok p s : ∃ s', joinNamespace p s = (Ret (), s') ∧ namespaces s' = namespaces s ∧
  namespacesInitialised s' = namespacesInitialised s ∧ isolated s' = isolated s ∧ members s' = members s.
Proof.
  pose proof (join_frame p s) as Hframe. exists (joinNamespace p s).2. split; [|done].
  apply run_fst. unfold joinNamespace. rewrite net_off_false. destruct (joins p) as [-> ->]. done.
Qed.

Lemma cgroup_ok t s : ∃ s', addCurrentThread t s = (Ret (), s') ∧ namespaces s' = namespaces s ∧
  namespacesInitialised s' = namespacesInitialised s ∧ isolated s' = isolated s ∧ members s' = members s.
Proof.
  pose proof (cgroup_frame t s) as Hframe. exists (addCurrentThread t s).2. split; [|done].
  apply run_fst. unfold addCurrentThread. by destruct (negb cg_on).
Qed.

Lemma isolate_ok f t s n rest :
  iso_inv s → t ∉ isolated s → filled s = n :: rest →
  ∃ s', isolateThread f t s = (Ret (), s') ∧ namespaces s' = rest ∧ namespacesInitialised s' = true ∧
    isolated s' = {[t]} ∪ isolated s ∧ members s' = <[f := n]> (members s).
Proof.
  intros Hinv Ht Hf. unfold isolateThread. erewrite run_bind_ret by reflexivity.
  rewrite decide_False by done. destruct (cgroup_ok t s) as (s1 & Hc & Hn1 & Hi1 & Ht1 & Hm1).
  erewrite run_bind_ret by exact Hc.
  erewrite run_bind_ret by (apply claim_ok; [by eapply iso_inv_ext|unfold filled; rewrite Hn1, Hi1; exact Hf]).
  erewrite run_bind_ret by reflexivity.
  destruct (join_ok (path_append "/var/run/netns" n) (set_member f n (set_pool rest true s1)))
    as (s2 & Hj & Hn2 & Hi2 & Ht2 & Hm2).
  erewrite run_bind_ret by exact Hj.
  exists (set_isolated t s2). split; [done|].
  cbn [set_isolated namespaces namespacesInitialised isolated members].
  rewrite Hn2, Hi2, Ht2, Hm2. cbn [set_member set_pool namespaces namespacesInitialised isolated members].
  by rewrite Ht1, Hm1.
Qed.

Lemma isolate_all f ts s :
  iso_inv s → NoDup ts → (∀ t, t ∈ ts → t ∉ isolated s) → (length ts ≤ length (filled s))%nat → ts ≠ [] →
  ∃ s', for_each ts (isolateThread f) s = (Ret (), s') ∧ iso_inv s' ∧
    namespaces s' = drop (length ts) (filled s) ∧ namespacesInitialised s' = true ∧
    is_Some (members s' !! f).
Proof.
  revert s. induction ts as [|t ts IH]; intros s Hinv Hnd Hts Hlen Hne; [done|].
  apply NoDup_cons in Hnd as [Ht Hnd]. cbn [length] in Hlen.
  destruct (filled s) as [|n rest] eqn:Hf; [cbn in Hlen; lia|].
  destruct (isolate_ok f t s n rest Hinv) as (s1 & Hrun & Hn1 & Hi1 & Ht1 & Hm1); [apply Hts; left|done|].
  assert (iso_inv s1) as Hinv1.
  { pose proof (isolate_inv f t s Hinv) as Hi. by rewrite Hrun in Hi. }
  cbn [for_each length drop]. erewrite run_bind_ret by exact Hrun.
  assert (filled s1 = rest) as Hf1.
  { unfold filled. by rewrite Hi1, andb_false_r, Hn1. }
  destruct ts as [|t2 ts].
  - exists s1. split; [done|]. split; [done|]. split; [done|]. split; [done|].
    rewrite Hm1, lookup_insert_eq. by eexists.
  - destruct (IH s1) as (s' & Hrun' & Hinv' & Hn' & Hi' & Hm'); [done|done| |rewrite Hf1; cbn in *; lia|done|].
    { intros u Hu. rewrite Ht1, elem_of_union, elem_of_singleton. intros [->|Hin]; [done|].
      by apply (Hts u); [right|]. }
    exists s'. rewrite Hf1 in Hn'. done.
Qed.

(** A faaslet gives back one namespace, however many its threads claimed: each
    thread claims one when it first executes, the last overwrites the member,
    and the others are neither in the pool nor held by a faaslet again. *)
Theorem shutdown_returns_one f ts pid s :
  iso_reachable s → NoDup ts → (∀ t, t ∈ ts → t ∉ isolated s) →
  (length ts ≤ length (filled s))%nat → ts ≠ [] →
  ∃ s' s'', for_each ts (isolateThread f) s = (Ret (), s') ∧ shutdown f pid s' = (Ret (), s'') ∧
    length (namespaces s') = (length (filled s) - length ts)%nat ∧
    length (namespaces s'') = (length (filled s) - length ts + 1)%nat.
Proof.
  intros Hinv%iso_reachable_inv Hnd Hts Hlen Hne.
  destruct (isolate_all f ts s Hinv Hnd Hts Hlen Hne) as (s' & Hrun & _ & Hn & _ & [n Hf]).
  destruct (join_ok (path_append (path_append "/proc" (to_string pid)) "ns/net") s')
    as (s1 & Hj & Hn1 & Hi1 & Ht1 & Hm1).
  exists s', (set_pool (n :: namespaces s1) (namespacesInitialised s1) s1). split; [done|].
  split; [|split].
  - unfold shutdown. erewrite run_bind_ret by reflexivity. rewrite Hf.
    unfold ns_removeCurrentThread. erewrite run_bind_ret by exact Hj.
    unfold returnNetworkNamespace. by rewrite net_off_false.
  - by rewrite Hn, length_drop.
  - cbn [set_pool namespaces length]. rewrite Hn1, Hn, length_drop. lia.
Qed.

(** Shutting down twice gives the namespace back twice: it can then be claimed
    by two faaslets. *)
Lemma shutdown_twice f pid s n :
  members s !! f = Some n →
  ∃ s', (shutdown f pid ;; shutdown f pid) s = (Ret (), s') ∧ namespaces s' = n :: n :: namespaces s.
Proof.
  intros Hf.
  assert (∀ s, members s !! f = Some n → ∃ s', shutdown f pid s = (Ret (), s') ∧
    namespaces s' = n :: namespaces s ∧ members s' = members s) as Hone.
  { intros u Hu. destruct (join_ok (path_append (path_append "/proc" (to_string pid)) "ns/net") u)
      as (u1 & Hj & Hn1 & Hi1 & Ht1 & Hm1).
    exists (set_pool (n :: namespaces u1) (namespacesInitialised u1) u1). split.
    - unfold shutdown. erewrite run_bind_ret by reflexivity. rewrite Hu.
      unfold ns_removeCurrentThread. erewrite run_bind_ret by exact Hj.
      unfold returnNetworkNamespace. by rewrite net_off_false.
    - cbn [set_pool namespaces members]. by rewrite Hn1. }
  destruct (Hone s Hf) as (s1 & H1' & Hn1 & Hm1).
  destruct (Hone s1) as (s2 & H2' & Hn2 & _); [by rewrite Hm1|].
  exists s2. split; [by erewrite run_bind_ret by exact H1'|]. by rewrite Hn2, Hn1.
Qed.
End isolation.

(** * Concrete runs *)

Definition demo_iso : IsoConfig := mkIsoConfig "on" "on" 4.

Lemma namespaces_exclusive_witness :
  let s := (isolateThread demo_iso (λ _, true) (λ _, 0) 1 10 iso_start).2 in
  members s !! 1 = Some "faasmns3" ∧ "faasmns3" ∉ namespaces s.
Proof.
  intros s. assert (members s !! 1 = Some "faasmns3") as Hm by (vm_compute; reflexivity).
  split; [exact Hm|].
  apply (namespaces_exclusive demo_iso (λ _, true) (λ _, 0) ltac:(discriminate) s 1 1 "faasmns3").
  - eapply rtc_l; [apply (iso_exec demo_iso (λ _, true) (λ _, 0) 1 10)|apply rtc_refl].
  - exact Hm.
Defined.

(** Three threads of one faaslet: one of three namespaces comes back. *)
Lemma shutdown_returns_one_witness :
  ∃ s' s'', for_each [10; 11; 12] (isolateThread demo_iso (λ _, true) (λ _, 0) 1) iso_start = (Ret (), s') ∧
    shutdown demo_iso (λ _, true) (λ _, 0) 1 7 s' = (Ret (), s'') ∧
    length (namespaces s') = 1%nat ∧ length (namespaces s'') = 2%nat.
Proof.
  apply (shutdown_returns_one demo_iso (λ _, true) (λ _, 0)) with (f := 1) (ts := [10; 11; 12]) (pid := 7)
    (s := iso_start).
  - discriminate.
  - done.
  - apply rtc_refl.
  - apply (bool_decide_unpack _). vm_compute. exact I.
  - intros t _. apply not_elem_of_empty.
  - apply (bool_decide_unpack _). vm_compute. exact I.
  - discriminate.
Defined.
