(* ===== verification/BaseModules.v ===== *)
(** What the modules of a process share: the instances of the intrinsic modules, made
    once under double-checked locking (src/wavm/WAVMWasmModule.cpp), and the modules
    that a thread executes (src/wasm/WasmExecutionContext.cpp). *)

From S2P Require Import Prelude.

(** * The base modules

    [baseEnvModule] and [baseWasiModule], the lock [baseModuleMx], the number of
    instances made, and the threads in [getEnvModule] or [getWasiModule].  The pointers
    are read and written whole, although the code does not declare them atomic. *)

Inductive base_kind : Type := EnvModule | WasiModule.

(** Where a thread is in [instantiateBaseModules]: before the first test, at the lock,
    at the second test, with the first module made, about to leave, after the call, and
    with what the getter has returned. *)
Inductive base_pc : Type :=
  | AtTest | AtLock | AtSecondTest | MadeEnv | AtUnlock | AfterCall | Returned (m : option nat).

Record Base := mkBase {
  baseEnvModule : option nat; baseWasiModule : option nat; baseModuleMx : option nat; made : nat;
  base_threads : list (base_kind * base_pc) }.

Definition set_base_pc (i : nat) (k : base_kind) (pc : base_pc) (s : Base) : Base :=
  mkBase (baseEnvModule s) (baseWasiModule s) (baseModuleMx s) (made s) (<[i := (k, pc)]> (base_threads s)).
Definition set_base_lock (l : option nat) (s : Base) : Base :=
  mkBase (baseEnvModule s) (baseWasiModule s) l (made s) (base_threads s).

(** One step of thread [i]: each reads or writes one of the shared variables. *)
Definition instantiateBaseModules (i : nat) (s : Base) : option Base :=
  match base_threads s !! i with
  | Some (k, AtTest) =>
      Some (set_base_pc i k (if baseEnvModule s is Some _ then AfterCall else AtLock) s)
  | Some (k, AtLock) =>
      match baseModuleMx s with
      | None => Some (set_base_pc i k AtSecondTest (set_base_lock (Some i) s))
      | Some _ => None
      end
  | Some (k, AtSecondTest) =>
      match baseEnvModule s with
      | Some _ => Some (set_base_pc i k AtUnlock s)
      | None => Some (set_base_pc i k MadeEnv
                  (mkBase (Some (made s)) (baseWasiModule s) (baseModuleMx s) (S (made s)) (base_threads s)))
      end
  | Some (k, MadeEnv) =>
      Some (set_base_pc i k AtUnlock
        (mkBase (baseEnvModule s) (Some (made s)) (baseModuleMx s) (S (made s)) (base_threads s)))
  | Some (k, AtUnlock) => Some (set_base_pc i k AfterCall (set_base_lock None s))
  | Some (k, AfterCall) =>
      Some (set_base_pc i k (Returned (match k with EnvModule => baseEnvModule s | WasiModule => baseWasiModule s end)) s)
  | Some (_, Returned _) | None => None
  end.

(** [warmUp] runs the same with no other thread about. *)
Fixpoint run_alone (fuel : nat) (s : Base) : Base :=
  match fuel, instantiateBaseModules 0 s with S fuel, Some s => run_alone fuel s | _, _ => s end.
Definition warmUp (s : Base) : Base :=
  let s' := run_alone 6 (mkBase (baseEnvModule s) (baseWasiModule s) (baseModuleMx s) (made s) [(EnvModule, AtTest)]) in
  mkBase (baseEnvModule s') (baseWasiModule s') (baseModuleMx s') (made s') (base_threads s).

Definition base_step (s s' : Base) : Prop := ∃ i, instantiateBaseModules i s = Some s'.

(** Threads that begin with the variables as [warmUp] leaves them, or as they are
    before. *)
Definition base_start (warm : bool) (kinds : list base_kind) : Base :=
  mkBase (if warm then Some 0%nat else None) (if warm then Some 1%nat else None) None
    (if warm then 2 else 0)%nat ((λ k, (k, AtTest)) <$> kinds).

(** * Execution contexts

    [contexts] is one stack for each thread; an entry is the module of the context. *)

Abbreviation Contexts := (list nat).

Definition WasmExecutionContext (module : nat) (contexts : Contexts) : Contexts := module :: contexts.
Definition leaveContext (contexts : Contexts) : Contexts := drop 1 contexts.
Definition getCurrentWasmExecutionContext (contexts : Contexts) : option nat :=
  match contexts with [] => None | top :: _ => Some top end.
Definition getExecutingModule (contexts : Contexts) : option nat :=
  match contexts with [] => None | top :: _ => Some top end.

(** What a thread does with contexts: it asks for the module it executes, enters a block
    that declares one (as [executeTask] and [executeFunction] do), or throws.  The
    destructor runs when the block is left, also by an exception. *)
Inductive ctx_code : Type :=
  | CDone | CThrow | CAsk (rest : ctx_code) | CBlock (module : nat) (body rest : ctx_code).

Fixpoint run_contexts (c : ctx_code) (contexts : Contexts) : list (option nat) * bool * Contexts :=
  match c with
  | CDone => ([], true, contexts)
  | CThrow => ([], false, contexts)
  | CAsk rest =>
      let '(asked, ok, contexts') := run_contexts rest contexts in
      (getExecutingModule contexts :: asked, ok, contexts')
  | CBlock module body rest =>
      let '(asked, ok, inner) := run_contexts body (WasmExecutionContext module contexts) in
      let contexts' := leaveContext inner in
      if ok then
        let '(asked', ok', contexts'') := run_contexts rest contexts' in (asked ++ asked', ok', contexts'')
      else (asked, false, contexts')
  end.

(** The answers by the innermost block around each question. *)
Fixpoint block_modules (outer : option nat) (c : ctx_code) : list (option nat) * bool :=
  match c with
  | CDone => ([], true)
  | CThrow => ([], false)
  | CAsk rest => let '(asked, ok) := block_modules outer rest in (outer :: asked, ok)
  | CBlock module body rest =>
      let '(asked, ok) := block_modules (Some module) body in
      if ok then let '(asked', ok') := block_modules outer rest in (asked ++ asked', ok') else (asked, false)
  end.

(** ** The invariant *)

Definition inside (pc : base_pc) : bool :=
  match pc with AtSecondTest | MadeEnv | AtUnlock => true | _ => false end.
Definition pc_ok (s : Base) (k : base_kind) (pc : base_pc) : Prop :=
  match pc with
  | AtTest | AtLock | AtSecondTest => True
  | MadeEnv => baseEnvModule s = Some 0%nat ∧ baseWasiModule s = None
  | AtUnlock => baseEnvModule s = Some 0%nat ∧ baseWasiModule s = Some 1%nat
  | AfterCall => baseEnvModule s = Some 0%nat
  | Returned m => baseEnvModule s = Some 0%nat ∧
      match k with
      | EnvModule => m = Some 0%nat
      | WasiModule => m = None ∨ m = Some 1%nat ∧ baseWasiModule s = Some 1%nat
      end
  end.

Record base_inv (s : Base) : Prop := {
  bi_vars : baseEnvModule s = None ∧ baseWasiModule s = None ∧ made s = 0%nat ∨
            baseEnvModule s = Some 0%nat ∧ baseWasiModule s = None ∧ made s = 1%nat ∧
              (∃ i k, base_threads s !! i = Some (k, MadeEnv)) ∨
            baseEnvModule s = Some 0%nat ∧ baseWasiModule s = Some 1%nat ∧ made s = 2%nat;
  bi_lock : ∀ i k pc, base_threads s !! i = Some (k, pc) → (inside pc = true ↔ baseModuleMx s = Some i);
  bi_held : ∀ i, baseModuleMx s = Some i → is_Some (base_threads s !! i);
  bi_pcs : ∀ i k pc, base_threads s !! i = Some (k, pc) → pc_ok s k pc }.

Definition base_weight (pc : base_pc) : nat :=
  match pc with AtTest => 6 | AtLock => 5 | AtSecondTest => 4 | MadeEnv => 3 | AtUnlock => 2 | AfterCall => 1 | Returned _ => 0 end.
Definition total_base_weight (s : Base) : nat := sum_list_with (λ t, base_weight t.2) (base_threads s).

(** A step changes one thread and the shared variables. *)
Lemma base_inv_update i k pc pc' s s1 :
  base_inv s → base_threads s !! i = Some (k, pc) → base_threads s1 = base_threads s →
  (∀ j, j ≠ i → (baseModuleMx s1 = Some j ↔ baseModuleMx s = Some j)) →
  (inside pc' = true ↔ baseModuleMx s1 = Some i) →
  (∀ j k' q, j ≠ i → base_threads s !! j = Some (k', q) → pc_ok s k' q → pc_ok s1 k' q) → pc_ok s1 k pc' →
  (baseEnvModule s1 = None ∧ baseWasiModule s1 = None ∧ made s1 = 0%nat ∨
   baseEnvModule s1 = Some 0%nat ∧ baseWasiModule s1 = None ∧ made s1 = 1%nat ∧
     (pc' = MadeEnv ∨ ∃ j k', j ≠ i ∧ base_threads s !! j = Some (k', MadeEnv)) ∨
   baseEnvModule s1 = Some 0%nat ∧ baseWasiModule s1 = Some 1%nat ∧ made s1 = 2%nat) →
  base_inv (set_base_pc i k pc' s1).
Proof.
  intros [Hvars Hlock Hheld Hpcs] Hi Hthreads Hother Hself Hpcs' Hpc' Hvars'.
  assert (i < length (base_threads s))%nat as Hlen by (by eapply lookup_lt_Some).
  split; cbn [set_base_pc baseEnvModule baseWasiModule baseModuleMx made base_threads].
  - rewrite Hthreads. destruct Hvars' as [Hv|[(He & Hw & Hm & Hex)|Hv]]; [by left| |by right; right].
    right; left. split_and!; [done..|]. destruct Hex as [->|(j & k' & Hne & Hj)].
    + exists i, k. by apply list_lookup_insert_eq.
    + exists j, k'. by rewrite list_lookup_insert_ne by done.
  - intros j k' q. rewrite Hthreads. destruct (decide (j = i)) as [->|Hne].
    + rewrite list_lookup_insert_eq by done. by intros [= <- <-].
    + rewrite list_lookup_insert_ne by done. intros Hj. rewrite Hother by done. by eapply Hlock.
  - intros j Hj. rewrite Hthreads, lookup_lt_is_Some, length_insert. destruct (decide (j = i)) as [->|Hne]; [done|].
    apply lookup_lt_is_Some, Hheld. by apply Hother.
  - intros j k' q. rewrite Hthreads. destruct (decide (j = i)) as [->|Hne].
    + rewrite list_lookup_insert_eq by done. intros [= <- <-]. exact Hpc'.
    + rewrite list_lookup_insert_ne by done. intros Hj. refine (_ (Hpcs' j k' q Hne Hj _)); [|by eapply Hpcs].
      by destruct q.
Qed.

(** Two threads are not inside at once. *)
Lemma inside_alone s i j k k' pc pc' :
  base_inv s → base_threads s !! i = Some (k, pc) → base_threads s !! j = Some (k', pc') →
  inside pc = true → inside pc' = true → i = j.
Proof.
  intros Hinv Hi Hj Hin Hin'. apply (bi_lock s Hinv i k pc Hi) in Hin. apply (bi_lock s Hinv j k' pc' Hj) in Hin'. congruence.
Qed.

Lemma base_inv_step s s' : base_inv s → base_step s s' → base_inv s'.
Proof.
  intros Hinv [i Hstep]. unfold instantiateBaseModules in Hstep.
  destruct (base_threads s !! i) as [[k pc]|] eqn:Hi; [|done].
  pose proof (bi_lock s Hinv i k pc Hi) as Hlock. pose proof (bi_pcs s Hinv i k pc Hi) as Hpc.
  pose proof (bi_vars s Hinv) as Hvars.
  destruct pc; cbn [inside] in Hlock.
  - injection Hstep as <-. apply (base_inv_update i k AtTest _ s); try done.
    + destruct (baseEnvModule s); cbn; exact Hlock.
    + destruct (baseEnvModule s) eqn:He; [|done]. cbn. destruct Hvars as [(Hv & _)|[(Hv & _)|(Hv & _)]]; congruence.
    + destruct Hvars as [Hv|[(He & Hw & Hm & j & k' & Hj)|Hv]]; [by left| |by right; right].
      right; left. split_and!; [done..|]. right. exists j, k'. split; [|done]. intros ->. congruence.
  - destruct (baseModuleMx s) as [h|] eqn:Hmx; [done|]. injection Hstep as <-.
    apply (base_inv_update i k AtLock _ s); try done.
    + intros j Hne. cbn. rewrite Hmx. split; congruence.
    + cbn. destruct Hvars as [Hv|[(He & Hw & Hm & j & k' & Hj)|Hv]]; [by left| |by right; right].
      right; left. split_and!; [done..|]. right. exists j, k'. split; [|done]. intros ->. congruence.
  - destruct (baseEnvModule s) as [m|] eqn:He.
    + injection Hstep as <-.
      assert (m = 0%nat ∧ baseWasiModule s = Some 1%nat ∧ made s = 2%nat) as (-> & Hw & Hm).
      { destruct Hvars as [(Hv & _)|[(Hv & _ & _ & j & k' & Hj)|(Hv & Hw & Hm)]]; [done| |split_and!; congruence].
        pose proof (inside_alone s i j k k' _ _ Hinv Hi Hj eq_refl eq_refl) as ->. congruence. }
      apply (base_inv_update i k AtSecondTest _ s); try done. right; right. by split_and!.
    + injection Hstep as <-. destruct Hvars as [(_ & Hw & Hm)|[(Hv & _)|(Hv & _)]]; [|congruence..]. rewrite Hm.
      apply (base_inv_update i k AtSecondTest _ s); try done.
      * intros j k' q Hne Hj Hq. destruct q; cbn in *; try done; destruct Hq; congruence.
      * right; left. cbn. split_and!; [done..|]. by left.
  - injection Hstep as <-. destruct Hpc as [He Hw].
    assert (made s = 1%nat) as Hm by (destruct Hvars as [(Hv & _)|[(_ & _ & Hm & _)|(_ & Hv & _)]]; congruence). rewrite Hm.
    apply (base_inv_update i k MadeEnv _ s); try done.
    + intros j k' q Hne Hj Hq. destruct q; cbn in *; try done.
      * destruct (Hne (inside_alone s j i k' k _ _ Hinv Hj Hi eq_refl eq_refl)).
      * destruct Hq as [Hq Hm']. split; [done|]. destruct k'; [done|]. destruct Hm' as [Hm'|[_ Hm']]; [by left|congruence].
    + right; right. by cbn.
  - injection Hstep as <-. destruct Hpc as [He Hw]. apply (base_inv_update i k AtUnlock _ s); try done.
    + intros j Hne. cbn. split; [done|]. intros Hj. assert (baseModuleMx s = Some i) as Hself by tauto. congruence.
    + cbn. right; right. destruct Hvars as [(Hv & _)|[(_ & Hv & _)|Hv]]; [congruence..|done].
  - injection Hstep as <-. cbn in Hpc. apply (base_inv_update i k AfterCall _ s); try done.
    + cbn. split; [done|]. destruct k; [done|].
      destruct Hvars as [(Hv & _)|[(_ & Hv & _)|(_ & Hv & _)]]; [congruence|by left|right; by rewrite Hv].
    + destruct Hvars as [(Hv & _)|[(_ & Hw & Hm & j & k' & Hj)|Hv]]; [congruence| |by right; right].
      right; left. split_and!; [done..|]. right. exists j, k'. split; [|done]. intros ->. congruence.
  - done.
Qed.

Lemma base_inv_start warm kinds : base_inv (base_start warm kinds).
Proof.
  assert (∀ i k pc, base_threads (base_start warm kinds) !! i = Some (k, pc) → pc = AtTest) as Hpc.
  { intros i k pc Hi. cbn in Hi. rewrite list_lookup_fmap in Hi. destruct (kinds !! i); [|done]. by injection Hi. }
  split.
  - destruct warm; [by right; right|by left].
  - intros i k pc Hi. by rewrite (Hpc i k pc Hi).
  - done.
  - intros i k pc Hi. by rewrite (Hpc i k pc Hi).
Qed.

Lemma base_step_weight s s' : base_step s s' → (total_base_weight s' < total_base_weight s)%nat.
Proof.
  intros [i Hstep]. unfold instantiateBaseModules in Hstep.
  destruct (base_threads s !! i) as [[k pc]|] eqn:Hi; [|done].
  assert (∀ q s1, base_threads s1 = base_threads s → (base_weight q < base_weight pc)%nat →
    (total_base_weight (set_base_pc i k q s1) < total_base_weight s)%nat) as Hlt.
  { intros q s1 Heq Hq. unfold total_base_weight. cbn [set_base_pc base_threads]. rewrite Heq.
    pose proof (sum_list_insert (λ t : base_kind * base_pc, base_weight t.2) i (k, pc) (k, q) _ Hi). cbn in *. lia. }
  destruct pc; [destruct (baseEnvModule s)|destruct (baseModuleMx s)|destruct (baseEnvModule s)| | | |]; try done;
    injection Hstep as <-; apply Hlt; cbn; try done; lia.
Qed.

(** A state without a step: every thread has returned. *)
Lemma base_stuck s i k pc :
  base_inv s → (∀ s', ¬ base_step s s') → base_threads s !! i = Some (k, pc) → ∃ m, pc = Returned m.
Proof.
  intros Hinv Hstuck Hi.
  assert (∀ j, instantiateBaseModules j s = None) as Hnone.
  { intros j. destruct (instantiateBaseModules j s) as [s'|] eqn:Hj; [|done]. destruct (Hstuck s'). by exists j. }
  destruct (baseModuleMx s) as [h|] eqn:Hmx.
  - destruct (bi_held s Hinv h Hmx) as [[k' q] Hh]. pose proof (proj2 (bi_lock s Hinv h k' q Hh) Hmx) as Hq.
    specialize (Hnone h). unfold instantiateBaseModules in Hnone. rewrite Hh in Hnone.
    destruct q; try done. by destruct (baseEnvModule s).
  - specialize (Hnone i). unfold instantiateBaseModules in Hnone. rewrite Hi, Hmx in Hnone.
    destruct pc; try done; [by destruct (baseEnvModule s)|by eexists].
Qed.

(** Where the modules were made before, the wasi module is there for all. *)
Definition warm_ok (s : Base) : Prop :=
  baseWasiModule s = Some 1%nat ∧ ∀ i, base_threads s !! i ≠ Some (WasiModule, Returned None).

Lemma warm_step s s' : base_inv s → warm_ok s → base_step s s' → warm_ok s'.
Proof.
  intros Hinv [Hw Hnone] [i Hstep]. unfold instantiateBaseModules in Hstep.
  destruct (base_threads s !! i) as [[k pc]|] eqn:Hi; [|done]. pose proof (bi_pcs s Hinv i k pc Hi) as Hpc.
  assert (∀ q s1, baseWasiModule s1 = Some 1%nat → base_threads s1 = base_threads s → (k, q) ≠ (WasiModule, Returned None) →
    warm_ok (set_base_pc i k q s1)) as Hset.
  { intros q s1 Hw1 Heq Hne. split; [done|]. intros j. cbn. rewrite Heq. destruct (decide (j = i)) as [->|Hji].
    - rewrite list_lookup_insert_eq by (by eapply lookup_lt_Some). congruence.
    - rewrite list_lookup_insert_ne by done. apply Hnone. }
  destruct pc; [destruct (baseEnvModule s) eqn:He|destruct (baseModuleMx s)|destruct (baseEnvModule s) eqn:He| | | |];
    try done; injection Hstep as <-; try (apply Hset; [done|done|congruence]).
  - destruct Hpc as [_ Hpc]. congruence.
  - apply Hset; [done|done|]. intros [= -> Hv]. congruence.
Qed.

Lemma base_start_weight warm kinds : total_base_weight (base_start warm kinds) = (6 * length kinds)%nat.
Proof.
  unfold total_base_weight. cbn [base_start base_threads]. induction kinds as [|k kinds IH]; [done|].
  rewrite fmap_cons. cbn [sum_list_with snd base_weight length]. lia.
Qed.

Lemma base_reach warm kinds n s :
  nsteps base_step n (base_start warm kinds) s →
  base_inv s ∧ (n + total_base_weight s ≤ 6 * length kinds)%nat ∧ length (base_threads s) = length kinds ∧
  (warm = true → warm_ok s).
Proof.
  intros Hn. revert Hn. induction n as [|n IH] in s |- *; intros Hn.
  - inversion Hn; subst. split; [apply base_inv_start|]. cbn [base_start base_threads]. split; [|split].
    + rewrite base_start_weight. lia.
    + apply length_fmap.
    + intros ->. split; [done|]. intros i. cbn. rewrite list_lookup_fmap. by destruct (kinds !! i).
  - apply nsteps_inv_r in Hn as (s1 & Hn & Hstep). destruct (IH s1 Hn) as (Hinv & Hw & Hlen & Hwarm).
    pose proof (base_step_weight s1 s Hstep). split; [by eapply base_inv_step|]. split; [lia|].
    split; [|intros Hwm; by apply (warm_step s1); [|apply Hwarm|]].
    destruct Hstep as [i Hstep]. unfold instantiateBaseModules in Hstep.
    destruct (base_threads s1 !! i) as [[k pc]|]; [|done].
    destruct pc; [|destruct (baseModuleMx s1)|destruct (baseEnvModule s1)| | | |]; try done;
      injection Hstep as <-; cbn; by rewrite ?length_insert.
Qed.

(** C33: The base modules are made once.  However threads that ask for the env or the
    wasi module interleave, at most one of each is made; after at most six steps for
    each thread all have returned, none is left waiting at the lock; who asked for the
    env module has got it, and who asked for the wasi module has got it or, only if the
    modules were not made before the threads began, null. *)
Theorem base_modules_once warm kinds s n :
  nsteps base_step n (base_start warm kinds) s →
  (n ≤ 6 * length kinds)%nat ∧ (made s ≤ 2)%nat ∧
  (∀ i m, base_threads s !! i = Some (EnvModule, Returned m) → m = Some 0%nat ∧ baseEnvModule s = Some 0%nat) ∧
  (∀ i m, base_threads s !! i = Some (WasiModule, Returned m) →
     m = Some 1%nat ∧ baseWasiModule s = Some 1%nat ∨ m = None ∧ warm = false) ∧
  ((∀ s', ¬ base_step s s') → ∀ i, (i < length kinds)%nat → ∃ k m, base_threads s !! i = Some (k, Returned m)).
Proof.
  intros Hn. destruct (base_reach warm kinds n s Hn) as (Hinv & Hw & Hlen & Hwarm). split; [lia|]. split.
  { destruct (bi_vars s Hinv) as [(_ & _ & Hm)|[(_ & _ & Hm & _)|(_ & _ & Hm)]]; lia. }
  split; [intros i m Hi; by apply (bi_pcs s Hinv) in Hi as [? ?]|]. split.
  - intros i m Hi. destruct (bi_pcs s Hinv i _ _ Hi) as [_ [->|[-> Hs]]]; [|by left].
    destruct warm; [|by right]. by destruct (proj2 (Hwarm eq_refl) i).
  - intros Hstuck i Hi. rewrite <- Hlen in Hi. apply lookup_lt_is_Some in Hi as [[k pc] Hi].
    destruct (base_stuck s i k pc Hinv Hstuck Hi) as [m ->]. by exists k, m.
Qed.

Fixpoint run_order (order : list nat) (s : Base) : option Base :=
  match order with [] => Some s | i :: order => instantiateBaseModules i s ≫= run_order order end.

Lemma run_order_nsteps order s s' : run_order order s = Some s' → nsteps base_step (length order) s s'.
Proof.
  induction order as [|i order IH] in s |- *; cbn; [intros [= ->]; apply nsteps_O|].
  intros (s1 & H1 & H2)%bind_Some. eapply nsteps_l; [by exists i|by apply IH].
Qed.

(** The double check is not enough for the second module: while one thread has made the
    env module only, another is given a null wasi module. *)
Theorem wasi_module_null_race :
  ∃ s, rtc base_step (base_start false [EnvModule; WasiModule]) s ∧
    base_threads s !! 1%nat = Some (WasiModule, Returned None).
Proof.
  destruct (run_order [0; 0; 0; 1; 1]%nat (base_start false [EnvModule; WasiModule])) as [s|] eqn:Hrun; [|discriminate Hrun].
  exists s. split; [apply rtc_nsteps; eexists; by apply run_order_nsteps|by injection Hrun as <-].
Qed.

(** The stack of contexts is left as it was, however the blocks end, and every question
    is answered with the module of the innermost block. *)
Theorem contexts_restored c contexts :
  run_contexts c contexts = (block_modules (head contexts) c, contexts).
Proof.
  induction c as [| |rest IH|module body IHb rest IHr] in contexts |- *; [done..| |]; cbn [run_contexts block_modules].
  - rewrite IH. destruct (block_modules (head contexts) rest). by destruct contexts.
  - rewrite IHb. cbn [WasmExecutionContext head]. destruct (block_modules (Some module) body) as [asked [|]]; [|done].
    change (leaveContext (WasmExecutionContext module contexts)) with contexts. rewrite IHr. by destruct (block_modules (head contexts) rest).
Qed.

(** After [warmUp] both modules are there. *)
Theorem warmUp_makes kinds :
  warmUp (base_start false kinds) = base_start true kinds ∧ warmUp (base_start true kinds) = base_start true kinds.
Proof. by split. Qed.

Lemma base_modules_once_witness :
  ∃ s, nsteps base_step 8 (base_start false [EnvModule; WasiModule]) s ∧ (made s ≤ 2)%nat ∧
    (∀ i m, base_threads s !! i = Some (EnvModule, Returned m) → m = Some 0%nat ∧ baseEnvModule s = Some 0%nat).
Proof.
  destruct (run_order [0; 1; 0; 0; 0; 0; 1; 0]%nat (base_start false [EnvModule; WasiModule])) as [s|] eqn:Hrun;
    [|discriminate Hrun].
  pose proof (run_order_nsteps _ _ _ Hrun) as Hn. exists s.
  destruct (base_modules_once false _ s 8 Hn) as (_ & Hmade & Henv & _). exact (conj Hn (conj Hmade Henv)).
Defined.
