(* ===== verification/NdpMessages.v ===== *)
(** The messages of near-data calls (cephclass/cephcomm.fbs), between the worker
    that makes a call, the storage daemon, and the worker on its node.  The
    encoding belongs to flatbuffers: a message here is a record of its fields,
    and a buffer that does not verify is no message. *)

From S2P Require Import Prelude.

(** A request, with its [WasmInfo] and [ObjectInfo]. *)
Record NdpRequest := mkNdpRequest {
  rq_call_id : Z; rq_user : string; rq_function : string; rq_fptr : Z; rq_pyptr : string;
  rq_globals : list Z; rq_args : list Z; rq_bucket : string; rq_key : string; rq_origin_host : string }.

(** The result of a response; the last constructor stands for any other value of the field. *)
Inductive NdpResult : Type := NdpResult_Ok | NdpResult_ProcessLocally | NdpResult_Error | NdpResult_Invalid (code : Z).

#[export] Instance NdpResult_eq_dec : EqDecision NdpResult.
Proof. solve_decision. Defined.

(** Both senders put an error message, empty or not. *)
Record NdpResponse := mkNdpResponse { nr_call_id : Z; nr_result : NdpResult; nr_error_msg : string }.

(** A request of the function to the daemon; the last constructor stands for any
    other value of the type field. *)
Inductive TypedStorageMessage : Type :=
  | NdpRead (offset upto_length : Z)
  | NdpWrite (offset : Z) (data : list Z)
  | NdpEnd
  | NoMessage.

Record StorageMessage := mkStorageMessage { sm_call_id : Z; sm_message : TypedStorageMessage }.

(** What [verifyFlatbuf] throws. *)
Definition invalid_flatbuffer : exn := RuntimeError "Invalid Flatbuffer encountered!".

(** The size that announces an error instead of a message, and the answer to a
    write. *)
Definition UINT64_MAX : Z := 2 ^ 64 - 1.
Definition OK_MSG : list Z := [111; 107].
