(* ===== verification/NdpSocket.v ===== *)
(** Messages between the storage daemon and the worker on its node
    (include/cephclass/cephcomm.h): bytes sent and received on a stream socket
    in pieces of the kernel's choosing, and messages preceded by their size. *)

From S2P Require Import Prelude WasmBytes NdpMessages.

(** What a [send] or [recv] call returns: a number of bytes, or an error. *)
Inductive sock_res : Type := Got (n : nat) | Eintr | Eagain | SockErr.

(** The outcome of a loop of such calls on a given sequence of results: it
    ends with a value, the state of the stream and the results left; throws; or
    still waits for the next call when the sequence ends. *)
Inductive sock_run (A : Type) : Type :=
  | Ended (a : A) (stream : list Z) (rest : list sock_res)
  | Threw (e : exn) (stream : list Z) (rest : list sock_res)
  | Waiting (stream : list Z).
Arguments Ended {A} _ _ _.
Arguments Threw {A} _ _ _.
Arguments Waiting {A} _.

(** The loop of [rawSendBytes]; [stream] is what the peer has still to read.  A
    [continue] goes to the loop's condition. *)
Fixpoint rawSendBytes (rs : list sock_res) (data stream : list Z) : sock_run unit :=
  match rs with
  | [] => Waiting stream
  | Got n :: rs' =>
      let data' := drop n data in
      let stream' := stream ++ take n data in
      if bool_decide (data' = []) then Ended () stream' rs' else rawSendBytes rs' data' stream'
  | Eintr :: rs' =>
      if bool_decide (data = []) then Ended () stream rs' else rawSendBytes rs' data stream
  | _ :: rs' => Threw (RuntimeError "Couldn't send cephcomm data") stream rs'
  end.

(** The loop of [rawRecvBytes], for the bytes missing; a call that gets [n]
    bytes takes the first ones of the stream, no more than are missing. *)
Fixpoint rawRecvBytes (rs : list sock_res) (dataSize : nat) (stream : list Z) : sock_run (list Z) :=
  match rs with
  | [] => Waiting stream
  | Got n :: rs' =>
      let k := min n dataSize in
      let got := take k stream in
      if bool_decide (dataSize - length got = 0)%nat then Ended got (drop k stream) rs'
      else match rawRecvBytes rs' (dataSize - length got) (drop k stream) with
           | Ended more s rest => Ended (got ++ more) s rest
           | other => other
           end
  | SockErr :: rs' => Threw (RuntimeError "Couldn't recv cephcomm data") stream rs'
  | _ :: rs' =>
      if bool_decide (dataSize = 0)%nat then Ended [] stream rs' else rawRecvBytes rs' dataSize stream
  end.

Definition sock_bind {A B} (r : sock_run A) (f : A → list Z → list sock_res → sock_run B) : sock_run B :=
  match r with
  | Ended a s rest => f a s rest
  | Threw e s rest => Threw e s rest
  | Waiting s => Waiting s
  end.

Definition le64 (v : Z) : list Z := Z_to_little_endian 8 8 v.

Definition sendError (rs : list sock_res) (stream : list Z) : sock_run unit :=
  rawSendBytes rs (le64 UINT64_MAX) stream.

Definition sendMessage (rs : list sock_res) (msg stream : list Z) : sock_run unit :=
  sock_bind (rawSendBytes rs (le64 (u64 (Z.of_nat (length msg)))) stream) (λ _ s rest,
    rawSendBytes rest msg s).

Definition recvMessageSize (rs : list sock_res) (stream : list Z) : sock_run Z :=
  sock_bind (rawRecvBytes rs 8 stream) (λ bs s rest, Ended (little_endian_to_Z 8 bs) s rest).

Definition recvMessageVector (rs : list sock_res) (stream : list Z) : sock_run (list Z) :=
  sock_bind (recvMessageSize rs stream) (λ sz s rest,
    if sz =? UINT64_MAX then Threw (RuntimeError "Error received") s rest
    else rawRecvBytes rest (Z.to_nat sz) s).

(** * The kernel's results *)

(** A sequence without errors in which every call that gets bytes gets one at
    least, with [k] such calls. *)
Definition progress (r : sock_res) : Prop :=
  match r with Got n => (0 < n)%nat | Eintr => True | Eagain => True | SockErr => False end.
Definition progress_send (r : sock_res) : Prop :=
  match r with Got n => (0 < n)%nat | Eintr => True | _ => False end.
Definition is_got (r : sock_res) : bool := match r with Got _ => true | _ => false end.
Definition gots (rs : list sock_res) : nat := foldr (λ r n, (if is_got r then 1 else 0) + n)%nat 0%nat rs.

Lemma gots_cons r rs : gots (r :: rs) = ((if is_got r then 1 else 0) + gots rs)%nat.
Proof. done. Qed.

(** A send ends once enough calls got through, with all the bytes on the
    stream in order; it used no more results than bytes. *)
Lemma rawSendBytes_ends rs data stream :
  Forall progress_send rs → (max 1 (length data) ≤ gots rs)%nat →
  ∃ rest, rawSendBytes rs data stream = Ended () (stream ++ data) rest ∧ Forall progress_send rest ∧
    (gots rs - max 1 (length data) ≤ gots rest)%nat.
Proof.
  revert data stream. induction rs as [|r rs IH]; intros data stream Hall Hn; [cbn in Hn; lia|].
  apply Forall_cons in Hall as [Hr Hall]. rewrite gots_cons in *.
  destruct r as [n| | |]; cbn [progress_send is_got rawSendBytes] in *; try done.
  - case_bool_decide as Hd.
    + assert (length data ≤ n)%nat as Hle by (apply (f_equal length) in Hd; rewrite length_drop in Hd; cbn in Hd; lia).
      rewrite take_ge by done. eexists. split; [reflexivity|]. split; [done|lia].
    + assert (n < length data)%nat as Hlt.
      { destruct (decide (length data ≤ n)%nat) as [Hle|]; [|lia]. by rewrite drop_ge in Hd. }
      destruct (IH (drop n data) (stream ++ take n data) Hall) as (rest & Hrun & Hr' & Hg);
        [rewrite length_drop; lia|].
      exists rest. rewrite Hrun, <- app_assoc, take_drop. split; [done|]. split; [done|].
      rewrite length_drop in Hg. lia.
  - case_bool_decide as Hd.
    + subst data. rewrite app_nil_r. eexists. split; [reflexivity|]. split; [done|cbn in *; lia].
    + destruct (IH data stream Hall Hn) as (rest & Hrun & Hr' & Hg). exists rest.
      split; [done|]. split; [done|lia].
Qed.

(** A receive of as many bytes as the stream starts with ends with them, and
    leaves the rest of the stream. *)
Lemma rawRecvBytes_ends rs data after :
  Forall progress rs → (max 1 (length data) ≤ gots rs)%nat →
  ∃ rest, rawRecvBytes rs (length data) (data ++ after) = Ended data after rest ∧ Forall progress rest ∧
    (gots rs - max 1 (length data) ≤ gots rest)%nat.
Proof.
  revert data. induction rs as [|r rs IH]; intros data Hall Hn; [cbn in Hn; lia|].
  apply Forall_cons in Hall as [Hr Hall]. rewrite gots_cons in *.
  destruct r as [n| | |]; cbn [progress is_got rawRecvBytes] in *; try done.
  - set (k := min n (length data)).
    assert (take k (data ++ after) = take k data) as -> by (apply take_app_le; lia).
    assert (drop k (data ++ after) = drop k data ++ after) as -> by (apply drop_app_le; lia).
    rewrite length_take. replace (min k (length data)) with k by lia.
    case_bool_decide as Hd.
    + rewrite take_ge, drop_ge by lia. eexists. split; [reflexivity|]. split; [done|lia].
    + replace (length data - k)%nat with (length (drop k data)) by (rewrite length_drop; lia).
      destruct (IH (drop k data) Hall) as (rest & Hrun & Hr' & Hg); [rewrite length_drop; lia|].
      exists rest. rewrite Hrun, take_drop. split; [done|]. split; [done|].
      rewrite length_drop in Hg. lia.
  - case_bool_decide as Hd.
    + destruct data; [|done]. eexists. split; [reflexivity|]. split; [done|cbn in *; lia].
    + destruct (IH data Hall Hn) as (rest & Hrun & Hr' & Hg). exists rest. split; [done|]. split; [done|lia].
  - case_bool_decide as Hd.
    + destruct data; [|done]. eexists. split; [reflexivity|]. split; [done|cbn in *; lia].
    + destruct (IH data Hall Hn) as (rest & Hrun & Hr' & Hg). exists rest. split; [done|]. split; [done|lia].
Qed.

(** * Messages *)

Definition frame (msg : list Z) : list Z := le64 (Z.of_nat (length msg)) ++ msg.
Definition frame_calls (msg : list Z) : nat := (8 + max 1 (length msg))%nat.

Lemma le64_length v : length (le64 v) = 8%nat.
Proof. apply Nat2Z.inj. unfold le64. by rewrite length_Z_to_little_endian by lia. Qed.

Lemma sendMessage_ends rs msg stream :
  Z.of_nat (length msg) < UINT64_MAX → Forall progress_send rs → (frame_calls msg ≤ gots rs)%nat →
  ∃ rest, sendMessage rs msg stream = Ended () (stream ++ frame msg) rest ∧ Forall progress_send rest ∧
    (gots rs - frame_calls msg ≤ gots rest)%nat.
Proof.
  intros Hlen Hall Hn. unfold frame_calls, UINT64_MAX in *. unfold sendMessage.
  rewrite (wrapU_id 64) by (unfold in_u; lia).
  destruct (rawSendBytes_ends rs (le64 (Z.of_nat (length msg))) stream Hall) as (r1 & Hrun1 & Hall1 & Hg1);
    [rewrite le64_length; lia|]. rewrite le64_length in Hg1.
  rewrite Hrun1. cbn [sock_bind].
  destruct (rawSendBytes_ends r1 msg (stream ++ le64 (Z.of_nat (length msg))) Hall1) as (r2 & Hrun2 & Hall2 & Hg2);
    [lia|]. exists r2. rewrite Hrun2, <- app_assoc. split; [done|]. split; [done|lia].
Qed.

Lemma recvMessage_ends rs msg after :
  Z.of_nat (length msg) < UINT64_MAX → Forall progress rs → (frame_calls msg ≤ gots rs)%nat →
  ∃ rest, recvMessageVector rs (frame msg ++ after) = Ended msg after rest ∧ Forall progress rest ∧
    (gots rs - frame_calls msg ≤ gots rest)%nat.
Proof.
  intros Hlen Hall Hn. unfold frame_calls, UINT64_MAX in *. unfold recvMessageVector, recvMessageSize.
  unfold frame. rewrite <- app_assoc.
  destruct (rawRecvBytes_ends rs (le64 (Z.of_nat (length msg))) (msg ++ after) Hall) as (r1 & Hrun1 & Hall1 & Hg1);
    [rewrite le64_length; lia|]. rewrite le64_length in Hrun1, Hg1. rewrite Hrun1. cbn [sock_bind].
  assert (little_endian_to_Z 8 (le64 (Z.of_nat (length msg))) = Z.of_nat (length msg)) as ->.
  { unfold le64. rewrite little_endian_to_Z_to_little_endian by lia. apply Z.mod_small. lia. }
  destruct (Z.eqb_spec (Z.of_nat (length msg)) UINT64_MAX) as [He|_]; [unfold UINT64_MAX in He; lia|].
  rewrite Nat2Z.id.
  destruct (rawRecvBytes_ends r1 msg after Hall1) as (r2 & Hrun2 & Hall2 & Hg2); [lia|].
  exists r2. split; [done|]. split; [done|lia].
Qed.

Fixpoint sendAll (rs : list sock_res) (msgs : list (list Z)) (stream : list Z) : sock_run unit :=
  match msgs with
  | [] => Ended () stream rs
  | m :: msgs' => sock_bind (sendMessage rs m stream) (λ _ s rest, sendAll rest msgs' s)
  end.
Fixpoint recvAll (rs : list sock_res) (n : nat) (stream : list Z) : sock_run (list (list Z)) :=
  match n with
  | O => Ended [] stream rs
  | S n' => sock_bind (recvMessageVector rs stream) (λ m s rest,
      sock_bind (recvAll rest n' s) (λ ms s' rest', Ended (m :: ms) s' rest'))
  end.
Definition all_calls (msgs : list (list Z)) : nat := foldr (λ m n, frame_calls m + n)%nat 0%nat msgs.

Lemma sendAll_ends rs msgs stream :
  Forall (λ m, Z.of_nat (length m) < UINT64_MAX) msgs → Forall progress_send rs →
  (all_calls msgs ≤ gots rs)%nat →
  ∃ rest, sendAll rs msgs stream = Ended () (stream ++ flat_map frame msgs) rest.
Proof.
  revert rs stream. induction msgs as [|m msgs IH]; intros rs stream Hm Hall Hn; cbn [sendAll flat_map].
  { rewrite app_nil_r. by eexists. }
  apply Forall_cons in Hm as [Hm Hms]. change (all_calls (m :: msgs)) with (frame_calls m + all_calls msgs)%nat in Hn.
  destruct (sendMessage_ends rs m stream Hm Hall) as (r1 & -> & Hall1 & Hg1); [lia|].
  cbn [sock_bind]. destruct (IH r1 (stream ++ frame m) Hms Hall1) as (r2 & ->); [lia|].
  exists r2. by rewrite app_assoc.
Qed.

Lemma recvAll_ends rs msgs after :
  Forall (λ m, Z.of_nat (length m) < UINT64_MAX) msgs → Forall progress rs →
  (all_calls msgs ≤ gots rs)%nat →
  ∃ rest, recvAll rs (length msgs) (flat_map frame msgs ++ after) = Ended msgs after rest.
Proof.
  revert rs. induction msgs as [|m msgs IH]; intros rs Hm Hall Hn; cbn [recvAll flat_map length].
  { by eexists. }
  apply Forall_cons in Hm as [Hm Hms]. change (all_calls (m :: msgs)) with (frame_calls m + all_calls msgs)%nat in Hn.
  rewrite <- app_assoc.
  destruct (recvMessage_ends rs m (flat_map frame msgs ++ after) Hm Hall) as (r1 & -> & Hall1 & Hg1); [lia|].
  cbn [sock_bind]. destruct (IH r1 Hms Hall1) as (r2 & ->); [lia|]. by exists r2.
Qed.

(** C24: However the kernel cuts up the bytes on both sides, with interruptions
    anywhere, the messages sent are the messages received, one by one, and what
    follows on the stream is left for the next receive.  Calls that get a byte
    each are enough. *)
Theorem messages_roundtrip msgs rs rr after :
  Forall (λ m, Z.of_nat (length m) < UINT64_MAX) msgs →
  Forall progress_send rs → (all_calls msgs ≤ gots rs)%nat →
  Forall progress rr → (all_calls msgs ≤ gots rr)%nat →
  ∃ wire rest rest', sendAll rs msgs [] = Ended () wire rest ∧
    recvAll rr (length msgs) (wire ++ after) = Ended msgs after rest'.
Proof.
  intros Hm Hs Hns Hr Hnr. destruct (sendAll_ends rs msgs [] Hm Hs Hns) as (rest & Hsend).
  destruct (recvAll_ends rr msgs after Hm Hr Hnr) as (rest' & Hrecv).
  exists (flat_map frame msgs), rest, rest'. done.
Qed.

(** An error message is told apart from every message. *)
Lemma recv_error rs after :
  Forall progress rs → (8 ≤ gots rs)%nat →
  ∃ s rest, recvMessageVector rs (le64 UINT64_MAX ++ after) = Threw (RuntimeError "Error received") s rest.
Proof.
  intros Hall Hn. destruct (rawRecvBytes_ends rs (le64 UINT64_MAX) after Hall) as (r1 & Hrun & _ & _);
    [rewrite le64_length; lia|].
  rewrite le64_length in Hrun. unfold recvMessageVector, recvMessageSize. rewrite Hrun. cbn [sock_bind].
  assert (little_endian_to_Z 8 (le64 UINT64_MAX) = UINT64_MAX) as -> by (vm_compute; reflexivity).
  rewrite Z.eqb_refl. by eexists _, _.
Qed.

(** When the peer has closed the connection, [recv] returns 0 for ever, and so
    does the loop: it never throws or returns. *)
Lemma recv_eof_spins n k : (0 < k)%nat → rawRecvBytes (repeat (Got 0) n) k [] = Waiting [].
Proof.
  intros Hk. induction n as [|n IH]; [done|]. cbn [repeat rawRecvBytes]. cbn [Nat.min take drop length].
  rewrite bool_decide_eq_false_2 by lia. rewrite Nat.sub_0_r. by rewrite IH.
Qed.

Lemma messages_roundtrip_witness :
  ∃ wire rest rest', sendAll (repeat (Got 3) 40) [[1; 2; 3]; []; [4]] [] = Ended () wire rest ∧
    recvAll (concat (repeat [Eintr; Got 1; Eagain; Got 5] 40)) 3 (wire ++ [9]) = Ended [[1; 2; 3]; []; [4]] [9] rest'.
Proof.
  apply (messages_roundtrip [[1; 2; 3]; []; [4]] (repeat (Got 3) 40) (concat (repeat [Eintr; Got 1; Eagain; Got 5] 40)) [9]).
  - repeat constructor.
  - apply Forall_forall. intros r Hr. cbn in Hr. rewrite !elem_of_cons, elem_of_nil in Hr.
    repeat (destruct Hr as [->|Hr]; [cbn; lia|]). done.
  - vm_compute. repeat constructor.
  - cbn. repeat constructor.
  - vm_compute. repeat constructor.
Defined.
