(* ===== verification/NdpEndpoint.v ===== *)
(** The endpoint through which the storage daemon hands near-data calls to the
    worker on its node (src/wasm/ndp_endpoint.cpp): the decision to take a
    call, the table of connections by call, and the life of a connection. *)

From S2P Require Import Prelude WasmBytes NdpMessages.

(** * Data *)

(** The message scheduled for it. *)
Record NdpMessage := mkNdpMessage {
  nm_id : Z; nm_appid : Z; nm_user : string; nm_function : string; nm_funcptr : Z;
  nm_ispython : bool; nm_pythonfunction : string; nm_pythonuser : string;
  nm_isstorage : bool; nm_isoutputmemorydelta : bool; nm_directresulthost : string;
  nm_wasmglobals : list Z; nm_extraarguments : list Z; nm_ndpcallobjectname : string }.

(** The handler a connection has registered: [onFirstReceivable],
    [recvMsgContent] or [onReceivable].  It holds a reference to the
    connection. *)
Inductive Handler : Type := first_handler | size_handler | content_handler.

(** A connection: its request once received, the handler registered, and the
    last message with its flag. *)
Record NdpConnection := mkNdpConnection {
  ndpRequest : option NdpRequest; pendingHandler : option Handler;
  lastMessage : list Z; lastMessageFlag : bool }.

(** The free execution slots, the live connections, the table of connections by
    call id, the calls scheduled, and the responses sent, by connection. *)
Record Endpoint := mkEndpoint {
  executionSlots : Z; connections : gmap Z NdpConnection; ndpSocketMap : gmap Z Z;
  scheduled : list NdpMessage; responses : list (Z * NdpResponse) }.

(** The utilisation of the host and the thresholds of the configuration, in
    some type of numbers. *)
Record Utilisation (F : Type) := mkUtil { cpu_utilisation : F; ram_utilisation : F; load_average : F }.
Arguments mkUtil {F} _ _ _.
Arguments cpu_utilisation {F} _.
Arguments ram_utilisation {F} _.
Arguments load_average {F} _.

Section endpoint.

(** Comparison of numbers, the thresholds, and the scheduler: what [callFunction]
    throws for a message, if anything. *)
Context {F : Type} (flt : F → F → bool) (thresholds : Utilisation F)
  (callFunction : NdpMessage → option string).

Abbreviation EpM := (M Endpoint).

Definition ep_slots (n : Z) (s : Endpoint) : Endpoint :=
  mkEndpoint n (connections s) (ndpSocketMap s) (scheduled s) (responses s).
Definition ep_conn (c : Z) (f : NdpConnection → NdpConnection) (s : Endpoint) : Endpoint :=
  mkEndpoint (executionSlots s) (alter f c (connections s)) (ndpSocketMap s) (scheduled s) (responses s).
Definition ep_map (m : gmap Z Z) (s : Endpoint) : Endpoint :=
  mkEndpoint (executionSlots s) (connections s) m (scheduled s) (responses s).
Definition ep_schedule (m : NdpMessage) (s : Endpoint) : Endpoint :=
  mkEndpoint (executionSlots s) (connections s) (ndpSocketMap s) (scheduled s ++ [m]) (responses s).
Definition ep_respond (r : Z * NdpResponse) (s : Endpoint) : Endpoint :=
  mkEndpoint (executionSlots s) (connections s) (ndpSocketMap s) (scheduled s) (responses s ++ [r]).

Definition set_request (r : NdpRequest) (k : NdpConnection) : NdpConnection :=
  mkNdpConnection (Some r) (pendingHandler k) (lastMessage k) (lastMessageFlag k).
Definition set_pending (b : option Handler) (k : NdpConnection) : NdpConnection :=
  mkNdpConnection (ndpRequest k) b (lastMessage k) (lastMessageFlag k).
Definition set_message (bs : list Z) (b : bool) (k : NdpConnection) : NdpConnection :=
  mkNdpConnection (ndpRequest k) (pendingHandler k) bs b.

(** [doRecv] registers a handler. *)
Definition doRecv (c : Z) : EpM unit := modify (ep_conn c (set_pending (Some size_handler))).

(** [executionSlotsSemaphore.try_acquire] *)
Definition try_acquire : EpM bool :=
  s ← get;
  if 0 <? executionSlots s then put (ep_slots (executionSlots s - 1) s) ;; mret true else mret false.
Definition release : EpM unit := modify (λ s, ep_slots (executionSlots s + 1) s).

Definition below (stats : Utilisation F) : bool :=
  flt (cpu_utilisation stats) (cpu_utilisation thresholds) &&
  flt (ram_utilisation stats) (ram_utilisation thresholds) &&
  flt (load_average stats) (load_average thresholds).

Definition ndp_message (r : NdpRequest) : NdpMessage :=
  mkNdpMessage (i32 (rq_call_id r)) (i32 (rq_call_id r)) (rq_user r) (rq_function r) (rq_fptr r)
    (0 <? str_size (rq_pyptr r)) (rq_pyptr r) (rq_user r) true true (rq_origin_host r)
    (rq_globals r) (rq_args r) (rq_key r).

(** The block under [try]. *)
Definition offload (c : Z) (r : NdpRequest) : EpM unit :=
  s ← get;
  match ndpSocketMap s !! rq_call_id r with
  | Some _ => throw (RuntimeError "Duplicate NDP call id")
  | None =>
      put (ep_map (<[rq_call_id r := c]> (ndpSocketMap s)) s) ;;
      match callFunction (ndp_message r) with
      | Some what => throw (RuntimeError what)
      | None => modify (ep_schedule (ndp_message r))
      end
  end.

(** [onFirstReceivable]; the handler's reference goes when it returns, unless
    it registers another.  [input] is the request received, when it is one. *)
Definition onFirstReceivable (c : Z) (ec : bool) (input : option NdpRequest) (stats : Utilisation F)
    : EpM unit :=
  modify (ep_conn c (set_pending None)) ;;
  if negb ec then mret ()
  else match input with
  | None => throw invalid_flatbuffer
  | Some r =>
      modify (ep_conn c (set_request r)) ;;
      hasCapacity ← try_acquire;
      let should_offload := hasCapacity && below stats in
      '(ndpResult, ndpError) ←
        (if should_offload then
           release ;;
           try_catch (offload c r ;; mret (NdpResult_Ok, ""))
             (λ e, mret (NdpResult_Error, exn_what e))
         else mret (NdpResult_ProcessLocally, ""));
      modify (ep_respond (c, mkNdpResponse (rq_call_id r) ndpResult ndpError)) ;;
      when hasCapacity (doRecv c)
  end.

(** [recvMsgContent] of the size received; a size that no vector can have makes
    it throw. *)
Definition recvMsgContent (c : Z) (ec : bool) (nextMsgSize : Z) : EpM unit :=
  modify (ep_conn c (set_pending None)) ;;
  if negb ec then mret ()
  else if 2 ^ 63 <=? nextMsgSize then throw (LogicError "vector::_M_default_append")
  else modify (ep_conn c (set_pending (Some content_handler))).

(** [onReceivable] of the content received. *)
Definition onReceivable (c : Z) (ec : bool) (nextMsg : list Z) : EpM unit :=
  modify (ep_conn c (set_pending None)) ;;
  s ← get;
  match connections s !! c with
  | None => throw (Undefined "dangling connection")
  | Some k =>
      match ndpRequest k with
      | None => throw (LogicError "ndpRequest is null in onReceivable")
      | Some _ => if ec then modify (ep_conn c (set_message nextMsg true)) ;; doRecv c else mret ()
      end
  end.

(** [getNdpSocketFromCall] *)
Definition getNdpSocketFromCall (id : Z) : EpM Z :=
  s ← get;
  match ndpSocketMap s !! id with
  | None => throw (RuntimeError ("No NDP socket found for call id " +:+ to_string id))
  | Some c => mret c
  end.

(** [awaitNdpResponse]: a message, or nothing while there is none. *)
Definition awaitNdpResponse (id : Z) : EpM (option (list Z)) :=
  c ← getNdpSocketFromCall id;
  s ← get;
  match connections s !! c with
  | None => throw (Undefined "dangling connection")
  | Some k =>
      if lastMessageFlag k then
        put (ep_conn c (set_message [] false) s) ;; mret (Some (lastMessage k))
      else mret None
  end.

(** [~NdpConnection] *)
Definition destroy_connection (c : Z) (s : Endpoint) : Endpoint :=
  mkEndpoint (executionSlots s) (delete c (connections s))
    (match connections s !! c with
     | Some k => match ndpRequest k with
                 | Some r => delete (rq_call_id r) (ndpSocketMap s)
                 | None => ndpSocketMap s
                 end
     | None => ndpSocketMap s
     end) (scheduled s) (responses s).

(** * Steps

    A connection is destroyed when no handler and no entry of the table refers
    to it. *)
Inductive ep_step : Endpoint → Endpoint → Prop :=
  | ep_accept c s : connections s !! c = None →
      ep_step s (mkEndpoint (executionSlots s) (<[c := mkNdpConnection None (Some first_handler) [] false]> (connections s))
                   (ndpSocketMap s) (scheduled s) (responses s))
  | ep_first c k ec input stats s : connections s !! c = Some k → pendingHandler k = Some first_handler →
      ep_step s (onFirstReceivable c ec input stats s).2
  | ep_size c k ec size s : connections s !! c = Some k → pendingHandler k = Some size_handler →
      ep_step s (recvMsgContent c ec size s).2
  | ep_content c k ec content s : connections s !! c = Some k → pendingHandler k = Some content_handler →
      ep_step s (onReceivable c ec content s).2
  | ep_await id s : ep_step s (awaitNdpResponse id s).2
  | ep_destroy c k s : connections s !! c = Some k → pendingHandler k = None →
      (∀ id, ndpSocketMap s !! id ≠ Some c) → ep_step s (destroy_connection c s).

Definition ep_start (n : Z) : Endpoint := mkEndpoint n ∅ ∅ [] [].

(** * The decision *)

(** What a first request does to the endpoint.  It is offloaded when a slot is
    free and the host is below its thresholds: the call is registered and
    scheduled once, with the request's fields, and the slots are as before; a
    call id in use, or a scheduler that throws, is an error.  Otherwise it is
    refused and nothing is registered or scheduled; but a slot that was free
    has been taken. *)
Theorem first_request_decision c r stats s :
  let s' := (onFirstReceivable c true (Some r) stats s).2 in
  let id := rq_call_id r in
  (onFirstReceivable c true (Some r) stats s).1 = Ret () ∧
  if (0 <? executionSlots s) && below stats then
    executionSlots s' = executionSlots s ∧
    match ndpSocketMap s !! id, callFunction (ndp_message r) with
    | Some _, _ => ndpSocketMap s' = ndpSocketMap s ∧ scheduled s' = scheduled s ∧
        responses s' = responses s ++ [(c, mkNdpResponse id NdpResult_Error "Duplicate NDP call id")]
    | None, Some what => ndpSocketMap s' = <[id := c]> (ndpSocketMap s) ∧ scheduled s' = scheduled s ∧
        responses s' = responses s ++ [(c, mkNdpResponse id NdpResult_Error what)]
    | None, None => ndpSocketMap s' = <[id := c]> (ndpSocketMap s) ∧
        scheduled s' = scheduled s ++ [ndp_message r] ∧
        responses s' = responses s ++ [(c, mkNdpResponse id NdpResult_Ok "")]
    end
  else
    executionSlots s' = executionSlots s - (if 0 <? executionSlots s then 1 else 0) ∧
    ndpSocketMap s' = ndpSocketMap s ∧ scheduled s' = scheduled s ∧
    responses s' = responses s ++ [(c, mkNdpResponse id NdpResult_ProcessLocally "")].
Proof.
  intros s' id. unfold s', onFirstReceivable, try_acquire, release, offload, try_catch, doRecv, when,
    modify, get, put, throw, mret, M_ret, mbind, M_bind. cbn [negb].
  cbn [executionSlots ep_conn]. destruct (0 <? executionSlots s); cbn [andb];
    [|cbn [fst snd]; split; [done|]; cbn; split; [lia|done]].
  destruct (below stats); [|cbn [fst snd]; split; [done|]; cbn; done].
  cbn [ep_conn ep_slots ndpSocketMap]. fold id.
  destruct (ndpSocketMap s !! id); [|destruct (callFunction (ndp_message r))];
    cbn [fst snd]; (split; [done|]); cbn; (split; [lia|done]).
Qed.

(** ** Refusals use the slots up *)

Lemma refused c r stats s :
  below stats = false → 0 ≤ executionSlots s →
  executionSlots (onFirstReceivable c true (Some r) stats s).2 = Z.max 0 (executionSlots s - 1) ∧
  (onFirstReceivable c true (Some r) stats s).1 = Ret ().
Proof.
  intros Hb Hs. unfold onFirstReceivable, try_acquire, doRecv, when,
    modify, get, put, mret, M_ret, mbind, M_bind. cbn [negb executionSlots ep_conn].
  destruct (Z.ltb_spec 0 (executionSlots s)); cbn [andb]; rewrite ?Hb; cbn; (split; [lia|done]).
Qed.

Definition request : Type := Z * NdpRequest * Utilisation F.
Definition receive (q : request) : EpM unit := onFirstReceivable q.1.1 true (Some q.1.2) q.2.

Lemma refused_all qs s :
  Forall (λ q : request, below q.2 = false) qs → 0 ≤ executionSlots s →
  executionSlots (for_each qs receive s).2 = Z.max 0 (executionSlots s - Z.of_nat (length qs)).
Proof.
  intros Hall. revert s. induction Hall as [|q qs Hq _ IH]; intros s Hs; [cbn; lia|].
  cbn [for_each]. unfold receive at 1. destruct (refused q.1.1 q.1.2 q.2 s Hq Hs) as [Hslots Hret].
  rewrite (run_bind_ret _ _ _ _ _ (run_fst _ _ _ Hret)).
  rewrite IH by (rewrite Hslots; lia). rewrite Hslots. cbn [length]. lia.
Qed.

(** As many requests as there are slots, received while the host is loaded,
    leave the endpoint without slots: from then on every request is refused,
    however idle the host is. *)
Theorem overload_exhausts_slots qs s q :
  Forall (λ q : request, below q.2 = false) qs → 0 ≤ executionSlots s ≤ Z.of_nat (length qs) →
  let s' := (for_each qs receive s).2 in
  executionSlots s' = 0 ∧ executionSlots (receive q s').2 = 0 ∧ scheduled (receive q s').2 = scheduled s' ∧
  responses (receive q s').2 = responses s' ++ [(q.1.1, mkNdpResponse (rq_call_id q.1.2) NdpResult_ProcessLocally "")].
Proof.
  intros Hall Hs s'. assert (executionSlots s' = 0) as Hz by (unfold s'; rewrite refused_all by (done || lia); lia).
  split; [done|]. unfold receive, onFirstReceivable, try_acquire, when,
    modify, get, put, mret, M_ret, mbind, M_bind. cbn [negb executionSlots ep_conn]. by rewrite Hz.
Qed.

(** * Reachable endpoints *)

(** Every entry of the table is a live connection with a request for that call,
    and a connection that waits for its request has none. *)
Record ep_inv (s : Endpoint) : Prop := {
  inv_entry id c : ndpSocketMap s !! id = Some c →
    ∃ k r, connections s !! c = Some k ∧ ndpRequest k = Some r ∧ rq_call_id r = id;
  inv_first c k : connections s !! c = Some k → pendingHandler k = Some first_handler → ndpRequest k = None }.

(** Changes of a connection that keep its request, and do not make it wait for
    one, keep the invariant. *)
Lemma ep_inv_conn c f s :
  (∀ k, ndpRequest (f k) = ndpRequest k) →
  (∀ k, pendingHandler (f k) = Some first_handler → pendingHandler k = Some first_handler) →
  ep_inv s → ep_inv (ep_conn c f s).
Proof.
  intros Hf Hp [Hentry Hfirst]. split.
  - intros id c' Hid. destruct (Hentry id c' Hid) as (k & r & Hk & Hr & Hrid). cbn [ep_conn connections].
    destruct (decide (c' = c)) as [->|Hne].
    + exists (f k), r. rewrite lookup_alter_eq, Hk. cbn. by rewrite Hf.
    + exists k, r. by rewrite lookup_alter_ne by done.
  - intros c' k Hk Hpk. cbn [ep_conn connections] in Hk. destruct (decide (c' = c)) as [->|Hne].
    + rewrite lookup_alter_eq in Hk. destruct (connections s !! c) as [k0|] eqn:Hk0; [|done].
      cbn in Hk. injection Hk as <-. rewrite Hf. by eapply Hfirst, Hp.
    + rewrite lookup_alter_ne in Hk by done. by eapply Hfirst.
Qed.

Lemma first_map c ec input stats s :
  ndpSocketMap (onFirstReceivable c ec input stats s).2 = ndpSocketMap s ∨
  ∃ r, input = Some r ∧ ec = true ∧
    ndpSocketMap (onFirstReceivable c ec input stats s).2 = <[rq_call_id r := c]> (ndpSocketMap s).
Proof.
  unfold onFirstReceivable, try_acquire, release, offload, try_catch, doRecv, when,
    modify, get, put, throw, mret, M_ret, mbind, M_bind.
  destruct ec; cbn [negb]; [|by left]. destruct input as [r|]; [|by left].
  cbn [executionSlots ep_conn]. destruct (0 <? executionSlots s); cbn [andb]; [|by left].
  destruct (below stats); [|by left]. cbn [ep_conn ep_slots ndpSocketMap].
  destruct (ndpSocketMap s !! rq_call_id r); [by left|].
  right. exists r. by destruct (callFunction (ndp_message r)).
Qed.

Lemma alter_alter (f g : NdpConnection → NdpConnection) (c : Z) (m : gmap Z NdpConnection) :
  alter f c (alter g c m) = alter (f ∘ g) c m.
Proof.
  apply map_eq. intros i. destruct (decide (i = c)) as [->|Hne].
  - rewrite !lookup_alter_eq. by destruct (m !! c).
  - by rewrite !lookup_alter_ne by done.
Qed.

Lemma first_connections c ec input stats s :
  ∃ g : NdpConnection → NdpConnection,
    connections (onFirstReceivable c ec input stats s).2 = alter g c (connections s) ∧
    (∀ k, ndpRequest (g k) = match ec, input with true, Some r => Some r | _, _ => ndpRequest k end) ∧
    ∀ k, pendingHandler (g k) ≠ Some first_handler.
Proof.
  unfold onFirstReceivable, try_acquire, release, offload, try_catch, doRecv, when,
    modify, get, put, throw, mret, M_ret, mbind, M_bind.
  destruct ec; cbn [negb]; [|by exists (set_pending None)].
  destruct input as [r|]; [|by exists (set_pending None)].
  cbn [executionSlots ep_conn]. destruct (0 <? executionSlots s); cbn [andb].
  - exists (set_pending (Some size_handler) ∘ set_request r ∘ set_pending None). split; [|done].
    destruct (below stats); [destruct (ndpSocketMap _ !! _); [|destruct (callFunction _)]|];
      cbn [fst snd ep_conn ep_slots ep_map ep_respond ep_schedule connections];
      by rewrite !alter_alter.
  - exists (set_request r ∘ set_pending None). split; [|done].
    cbn [fst snd ep_conn ep_respond connections]. by rewrite alter_alter.
Qed.

Lemma first_inv c k ec input stats s :
  connections s !! c = Some k → ndpRequest k = None → ep_inv s →
  ep_inv (onFirstReceivable c ec input stats s).2.
Proof.
  intros Hk Hnone [Hentry Hfirst].
  destruct (first_connections c ec input stats s) as (g & Hconn & Hg & Hgp).
  assert (∀ id c', ndpSocketMap s !! id = Some c' → ∃ k' r', alter g c (connections s) !! c' = Some k' ∧
    ndpRequest k' = Some r' ∧ rq_call_id r' = id) as Hold.
  { intros id c' Hid. destruct (Hentry id c' Hid) as (k' & r' & Hk' & Hr' & Hrid).
    assert (c' ≠ c) as Hne by (intros ->; congruence).
    exists k', r'. by rewrite lookup_alter_ne by done. }
  split; rewrite Hconn.
  - intros id c' Hid.
    destruct (first_map c ec input stats s) as [Hmap|(r & -> & -> & Hmap)]; rewrite Hmap in Hid; [by apply Hold|].
    apply lookup_insert_Some in Hid as [[<- <-]|[Hne Hid]]; [|by apply Hold].
    exists (g k), r. rewrite lookup_alter_eq, Hk. cbn. split; [done|]. split; [apply Hg|done].
  - intros c' k' Hk' Hp'. destruct (decide (c' = c)) as [->|Hne].
    + rewrite lookup_alter_eq, Hk in Hk'. cbn in Hk'. injection Hk' as <-. by destruct (Hgp k).
    + rewrite lookup_alter_ne in Hk' by done. by eapply Hfirst.
Qed.

Lemma size_inv c ec size s : ep_inv s → ep_inv (recvMsgContent c ec size s).2.
Proof.
  intros Hinv. unfold recvMsgContent, modify, throw, mret, M_ret, mbind, M_bind.
  assert (ep_inv (ep_conn c (set_pending None) s)) as Hinv1 by (by apply ep_inv_conn).
  destruct (negb ec); [done|]. destruct (2 ^ 63 <=? size); [done|]. by apply ep_inv_conn.
Qed.

Lemma content_inv c ec content s : ep_inv s → ep_inv (onReceivable c ec content s).2.
Proof.
  intros Hinv. unfold onReceivable, doRecv, modify, get, throw, mret, M_ret, mbind, M_bind.
  assert (ep_inv (ep_conn c (set_pending None) s)) as Hinv1 by (by apply ep_inv_conn).
  destruct (connections (ep_conn c (set_pending None) s) !! c) as [k|]; [|done].
  destruct (ndpRequest k); [|done]. destruct ec; [|done]. cbn [snd].
  apply ep_inv_conn; [done..|]. by apply ep_inv_conn.
Qed.

Lemma await_inv id s : ep_inv s → ep_inv (awaitNdpResponse id s).2.
Proof.
  intros Hinv. unfold awaitNdpResponse, getNdpSocketFromCall, get, put, throw, mret, M_ret, mbind, M_bind.
  destruct (ndpSocketMap s !! id) as [c|]; [|done].
  destruct (connections s !! c) as [k|]; [|done]. destruct (lastMessageFlag k); [|done].
  cbn [snd]. by apply ep_inv_conn.
Qed.

Lemma destroy_inv c k s :
  connections s !! c = Some k → (∀ id, ndpSocketMap s !! id ≠ Some c) → ep_inv s →
  ep_inv (destroy_connection c s).
Proof.
  intros Hk Hno [Hentry Hfirst]. split.
  - intros id c' Hid. cbn [destroy_connection ndpSocketMap connections] in *. rewrite Hk in Hid.
    assert (ndpSocketMap s !! id = Some c') as Hold.
    { destruct (ndpRequest k); [by apply lookup_delete_Some in Hid as [_ Hid]|done]. }
    assert (c' ≠ c) as Hne by (intros ->; by apply (Hno id)).
    destruct (Hentry id c' Hold) as (k' & r' & Hk' & Hr'). exists k', r'. by rewrite lookup_delete_ne by done.
  - intros c' k' Hk' Hp'. cbn [destroy_connection connections] in Hk'.
    apply lookup_delete_Some in Hk' as [_ Hk']. by eapply Hfirst.
Qed.

Lemma accept_inv c s :
  connections s !! c = None → ep_inv s →
  ep_inv (mkEndpoint (executionSlots s) (<[c := mkNdpConnection None (Some first_handler) [] false]> (connections s))
            (ndpSocketMap s) (scheduled s) (responses s)).
Proof.
  intros Hc [Hentry Hfirst]. split; cbn [ndpSocketMap connections].
  - intros id c' Hid. destruct (Hentry id c' Hid) as (k' & r' & Hk' & Hr').
    exists k', r'. rewrite lookup_insert_ne; [done|]. intros ->. congruence.
  - intros c' k Hk Hp. apply lookup_insert_Some in Hk as [[_ <-]|[_ Hk]]; [done|]. by eapply Hfirst.
Qed.

Lemma ep_step_inv s s' : ep_step s s' → ep_inv s → ep_inv s'.
Proof.
  intros Hstep Hinv. destruct Hstep as [c s Hc|c k ec input stats s Hk Hp|c k ec size s Hk Hp
    |c k ec content s Hk Hp|id s|c k s Hk Hp Hno].
  - by apply accept_inv.
  - eapply first_inv; [done| |done]. by eapply inv_first.
  - by apply size_inv.
  - by apply content_inv.
  - by apply await_inv.
  - by eapply destroy_inv.
Qed.

Definition ep_reachable (n : Z) (s : Endpoint) : Prop := rtc ep_step (ep_start n) s.

Lemma ep_reachable_inv n s : ep_reachable n s → ep_inv s.
Proof.
  unfold ep_reachable. intros Hsteps.
  assert (ep_inv (ep_start n)) as Hinv by (by split; intros ? ? H; cbn in H; rewrite lookup_empty in H).
  revert Hinv. induction Hsteps as [|s0 s1 s2 Hstep _ IH]; [done|].
  intros Hinv. apply IH. by eapply ep_step_inv.
Qed.

(** C38: Whatever connections come, fail and go, a call that waits for its storage
    node either is told that it has no socket or finds a live connection whose
    request is its own: never a dangling one, and never that of another
    call. *)
Theorem await_own_connection n s id :
  ep_reachable n s →
  (ndpSocketMap s !! id = None ∧
   (awaitNdpResponse id s).1 = Throw (RuntimeError ("No NDP socket found for call id " +:+ to_string id))) ∨
  (∃ c k r, ndpSocketMap s !! id = Some c ∧ connections s !! c = Some k ∧ ndpRequest k = Some r ∧
     rq_call_id r = id ∧
     (awaitNdpResponse id s).1 = Ret (if lastMessageFlag k then Some (lastMessage k) else None)).
Proof.
  intros Hinv%ep_reachable_inv.
  unfold awaitNdpResponse, getNdpSocketFromCall, get, put, throw, mret, M_ret, mbind, M_bind.
  destruct (ndpSocketMap s !! id) as [c|] eqn:Hid; [|by left]. right.
  destruct (inv_entry _ Hinv id c Hid) as (k & r & Hk & Hr & Hrid). exists c, k, r. rewrite Hk.
  by destruct (lastMessageFlag k).
Qed.

(** The entry of a call stays in the table, and its connection alive, for good:
    the table's own reference keeps the connection from being destroyed, and
    only the destruction of another connection, with the same call id, removes
    the entry. *)
Lemma entry_kept s s' id c :
  ep_step s s' → ndpSocketMap s !! id = Some c →
  ndpSocketMap s' !! id = Some c ∨
  ∃ c' k r, c' ≠ c ∧ connections s !! c' = Some k ∧ ndpRequest k = Some r ∧ rq_call_id r = id ∧
    s' = destroy_connection c' s.
Proof.
  intros Hstep Hid. destruct Hstep as [c' s Hc|c' k ec input stats s Hk Hp|c' k ec size s Hk Hp
    |c' k ec content s Hk Hp|id' s|c' k s Hk Hp Hno].
  - by left.
  - left. unfold onFirstReceivable, try_acquire, release, offload, try_catch, doRecv, when,
      modify, get, put, throw, mret, M_ret, mbind, M_bind.
    destruct ec; cbn [negb]; [|done]. destruct input as [r|]; [|done].
    cbn [executionSlots ep_conn]. destruct (0 <? executionSlots s); cbn [andb]; [|done].
    destruct (below stats); [|done]. cbn [ep_conn ep_slots ndpSocketMap].
    destruct (ndpSocketMap s !! rq_call_id r) eqn:Hother; [done|].
    assert (rq_call_id r ≠ id) as Hne by (intros <-; congruence).
    destruct (callFunction (ndp_message r)); cbn [snd ep_conn ep_respond ep_map ep_schedule ndpSocketMap];
      by rewrite lookup_insert_ne by done.
  - left. unfold recvMsgContent, modify, throw, mret, M_ret, mbind, M_bind.
    destruct (negb ec); [done|]. by destruct (2 ^ 63 <=? size).
  - left. unfold onReceivable, doRecv, modify, get, throw, mret, M_ret, mbind, M_bind.
    destruct (connections (ep_conn c' (set_pending None) s) !! c') as [k'|]; [|done].
    destruct (ndpRequest k'); [|done]. by destruct ec.
  - left. unfold awaitNdpResponse, getNdpSocketFromCall, get, put, throw, mret, M_ret, mbind, M_bind.
    destruct (ndpSocketMap s !! id') as [c'|]; [|done].
    destruct (connections s !! c') as [k'|]; [|done]. by destruct (lastMessageFlag k').
  - assert (c' ≠ c) as Hne by (intros ->; by apply (Hno id)).
    destruct (ndpRequest k) as [r|] eqn:Hr.
    + destruct (decide (rq_call_id r = id)) as [Hsame|Hdiff].
      * right. exists c', k, r. done.
      * left. cbn [destroy_connection ndpSocketMap]. rewrite Hk, Hr. by rewrite lookup_delete_ne by done.
    + left. cbn [destroy_connection ndpSocketMap]. by rewrite Hk, Hr.
Qed.
End endpoint.

(** * Concrete runs *)

Definition demo_request (id : Z) : NdpRequest := mkNdpRequest id "u" "f" 3 "" [1; 2] [] "u" "obj" "host1".
Definition demo_thresholds : Utilisation Z := mkUtil 80 80 4.

Lemma overload_exhausts_slots_witness :
  let busy := mkUtil 95 10 1 in let idle := mkUtil 1 1 0 in
  let ok := λ _ : NdpMessage, @None string in
  let s' := (for_each [(1, demo_request 11, busy); (2, demo_request 12, busy)]
               (receive Z.ltb demo_thresholds ok) (ep_start 2)).2 in
  executionSlots s' = 0 ∧
  responses (receive Z.ltb demo_thresholds ok (3, demo_request 13, idle) s').2 =
    responses s' ++ [(3, mkNdpResponse 13 NdpResult_ProcessLocally "")].
Proof.
  intros busy idle ok s'.
  destruct (overload_exhausts_slots Z.ltb demo_thresholds ok
    [(1, demo_request 11, busy); (2, demo_request 12, busy)] (ep_start 2) (3, demo_request 13, idle))
    as (Hz & _ & _ & Hr).
  - repeat constructor.
  - cbn. lia.
  - split; [exact Hz|exact Hr].
Defined.

Lemma await_own_connection_witness :
  let ok := λ _ : NdpMessage, @None string in
  let s1 := mkEndpoint 2 {[1 := mkNdpConnection None (Some first_handler) [] false]} ∅ [] [] in
  let s2 := (onFirstReceivable Z.ltb demo_thresholds ok 1 true (Some (demo_request 11)) (mkUtil 1 1 0) s1).2 in
  ndpSocketMap s2 !! 11 = Some 1 ∧ ∃ c k r, ndpSocketMap s2 !! 11 = Some c ∧ connections s2 !! c = Some k ∧
    ndpRequest k = Some r ∧ rq_call_id r = 11.
Proof.
  intros ok s1 s2. assert (ndpSocketMap s2 !! 11 = Some 1) as Hm by (vm_compute; reflexivity).
  split; [exact Hm|].
  assert (ep_reachable Z.ltb demo_thresholds ok 2 s2) as Hreach.
  { eapply rtc_l; [apply (ep_accept Z.ltb demo_thresholds ok 1); apply lookup_empty|].
    eapply rtc_l; [|apply rtc_refl].
    apply (ep_first Z.ltb demo_thresholds ok 1 (mkNdpConnection None (Some first_handler) [] false) true
      (Some (demo_request 11)) (mkUtil 1 1 0)); reflexivity. }
  destruct (await_own_connection Z.ltb demo_thresholds ok 2 s2 11 Hreach)
    as [[Hnone _]|(c & k & r & Hid & Hk & Hr & Hrid & _)].
  - rewrite Hnone in Hm. discriminate Hm.
  - exists c, k, r. exact (conj Hid (conj Hk (conj Hr Hrid))).
Defined.
