(* ===== verification/NdpWait.v ===== *)
(** Waiting for the storage node, step by step: the thread that executes a
    near-data function and the event loop of the endpoint share the last message
    of a connection and its flag (src/wasm/ndp_endpoint.cpp).  The steps are
    those between which the two threads interleave; calls run side by side, each
    on a connection of its own. *)

From S2P Require Import Prelude NdpMessages NdpEndpoint.

(** * One connection *)

(** Where the function's thread is: about to send its next request, in
    [lastMessageFlag.wait], or past it and about to take the lock. *)
Inductive waiter : Type := Sending | Waiting | Woken.

(** The requests still to send, those that the storage node has not answered,
    the messages that the event loop has not received, whether it has stored one
    without having set the flag, the two shared fields, the function's thread
    and what it has received. *)
Record Conn := mkConn {
  toSend : list (list Z); sentRequests : list (list Z); arriving : list (list Z);
  stored : bool; lastMsg : list Z; flag : bool;
  pc : waiter; received : list (list Z) }.

#[export] Instance waiter_eq_dec : EqDecision waiter.
Proof. solve_decision. Defined.

Definition conn_start (requests : list (list Z)) : Conn := mkConn requests [] [] false [] false Sending [].

Section connection.

(** The messages with which the storage node answers a request. *)
Context (peer : list Z → list (list Z)).

(** [getNdpSocketFromCall(id)->sendMessage], after which the function calls
    [awaitNdpResponse]. *)
Definition send_request (c : Conn) : option Conn :=
  match pc c, toSend c with
  | Sending, r :: rs => Some (mkConn rs (sentRequests c ++ [r]) (arriving c) (stored c) (lastMsg c) (flag c) Waiting (received c))
  | _, _ => None
  end.

Definition node_answers (c : Conn) : option Conn :=
  match sentRequests c with
  | r :: rs => Some (mkConn (toSend c) rs (arriving c ++ peer r) (stored c) (lastMsg c) (flag c) (pc c) (received c))
  | [] => None
  end.

(** [onReceivable] in two halves: [lastMessage.swap(msgToStore)] under the lock,
    then [lastMessageFlag.test_and_set()]; only then is the next message
    awaited. *)
Definition swap_message (c : Conn) : option Conn :=
  match stored c, arriving c with
  | false, m :: ms => Some (mkConn (toSend c) (sentRequests c) ms true m (flag c) (pc c) (received c))
  | _, _ => None
  end.
Definition set_flag (c : Conn) : option Conn :=
  if stored c then Some (mkConn (toSend c) (sentRequests c) (arriving c) false (lastMsg c) true (pc c) (received c))
  else None.

(** [awaitNdpResponse] in two halves: [lastMessageFlag.wait(false)] returns when
    the flag is set; under the lock the flag is tested again, and cleared, and
    the message moved out, or the wait begins anew. *)
Definition pass_wait (c : Conn) : option Conn :=
  match pc c, flag c with
  | Waiting, true => Some (mkConn (toSend c) (sentRequests c) (arriving c) (stored c) (lastMsg c) (flag c) Woken (received c))
  | _, _ => None
  end.
Definition take_message (c : Conn) : option Conn :=
  match pc c with
  | Woken =>
      if flag c
      then Some (mkConn (toSend c) (sentRequests c) (arriving c) (stored c) [] false Sending (received c ++ [lastMsg c]))
      else Some (mkConn (toSend c) (sentRequests c) (arriving c) (stored c) (lastMsg c) (flag c) Waiting (received c))
  | _ => None
  end.

Definition conn_moves : list (Conn → option Conn) :=
  [send_request; node_answers; swap_message; set_flag; pass_wait; take_message].

Definition conn_step (c c' : Conn) : Prop := ∃ f, f ∈ conn_moves ∧ f c = Some c'.

(** What a function receives of the answers to its requests: it waits for good
    after one that is not answered. *)
Fixpoint answers (requests : list (list Z)) : list (list Z) :=
  match requests with
  | [] => []
  | r :: rs => match peer r with a :: _ => a :: answers rs | [] => [] end
  end.

(** ** The invariant: one message is on its way at a time *)

Definition answered (requests : list (list Z)) : Prop := length (answers requests) = length requests.

Inductive phase (all : list (list Z)) : Conn → Prop :=
  | ph_sending before rest : all = before ++ rest → answered before →
      phase all (mkConn rest [] [] false [] false Sending (answers before))
  | ph_sent before r rest : all = before ++ r :: rest → answered before →
      phase all (mkConn rest [r] [] false [] false Waiting (answers before))
  | ph_unanswered before r rest : all = before ++ r :: rest → answered before → peer r = [] →
      phase all (mkConn rest [] [] false [] false Waiting (answers before))
  | ph_arriving before r rest a : all = before ++ r :: rest → answered before → peer r = [a] →
      phase all (mkConn rest [] [a] false [] false Waiting (answers before))
  | ph_stored before r rest a : all = before ++ r :: rest → answered before → peer r = [a] →
      phase all (mkConn rest [] [] true a false Waiting (answers before))
  | ph_flagged before r rest a w : all = before ++ r :: rest → answered before → peer r = [a] → w ≠ Sending →
      phase all (mkConn rest [] [] false a true w (answers before)).

Lemma answers_app before rest :
  answered before → answers (before ++ rest) = answers before ++ answers rest.
Proof.
  unfold answered. induction before as [|r rs IH]; [done|]. cbn. destruct (peer r) as [|a l]; [done|].
  cbn. intros H. by rewrite IH by lia.
Qed.

Lemma answered_snoc before r a :
  answered before → peer r = [a] →
  answers (before ++ [r]) = answers before ++ [a] ∧ answered (before ++ [r]).
Proof.
  intros Hb Hr. unfold answered. rewrite (answers_app before [r] Hb). cbn.
  rewrite Hr, !length_app, Hb. done.
Qed.

(** The steps a connection still has before it. *)
Definition weight (c : Conn) : nat :=
  7 * length (toSend c) + 5 * length (sentRequests c) + 4 * length (arriving c) +
  (if stored c then 3 else 0) + (if flag c then 2 else 0) +
  match pc c with Waiting => 1 | _ => 0 end.

Ltac conn_moves_cases H :=
  unfold conn_moves in H; rewrite !elem_of_cons, elem_of_nil in H;
  destruct H as [->|[->|[->|[->|[->|[->|[]]]]]]].

(** Every step leads to the next phase and makes progress. *)
Lemma phase_step all c c' :
  (∀ r, (length (peer r) ≤ 1)%nat) → phase all c → conn_step c c' → phase all c' ∧ (weight c' < weight c)%nat.
Proof.
  intros Hpeer Hphase (f & Hf & Hstep). conn_moves_cases Hf;
    destruct Hphase as [before rest Hall Hb|before r rest Hall Hb|before r rest Hall Hb Hr
      |before r rest a Hall Hb Hr|before r rest a Hall Hb Hr|before r rest a w Hall Hb Hr Hw];
    cbn in Hstep; try discriminate Hstep; try (by destruct w; try discriminate Hstep).
  - destruct rest as [|r rest]; [discriminate|]. injection Hstep as <-. split; [by econstructor|cbn; lia].
  - injection Hstep as <-. pose proof (Hpeer r) as Hle. destruct (peer r) as [|a [|]] eqn:Hr.
    + split; [by eapply ph_unanswered|cbn; lia].
    + split; [by eapply ph_arriving|cbn; lia].
    + cbn in Hle. lia.
  - injection Hstep as <-. split; [by eapply ph_stored|cbn; lia].
  - injection Hstep as <-. split; [by eapply ph_flagged|cbn; lia].
  - destruct w; try discriminate Hstep. injection Hstep as <-. split; [by eapply ph_flagged|cbn; lia].
  - destruct w; try discriminate Hstep. injection Hstep as <-.
    destruct (answered_snoc before r a Hb Hr) as [<- Hb']. split; [|cbn; lia].
    apply ph_sending; [|done]. by rewrite <- app_assoc.
Qed.

(** A connection without a step has received all it will. *)
Lemma phase_end all c :
  phase all c → (∀ c', ¬ conn_step c c') → received c = answers all.
Proof.
  intros Hphase Hend.
  assert (∀ f c', f ∈ conn_moves → f c ≠ Some c') as Hno by (intros f c' Hf Hc; eapply Hend; by exists f).
  destruct Hphase as [before rest Hall Hb|before r rest Hall Hb|before r rest Hall Hb Hr
      |before r rest a Hall Hb Hr|before r rest a Hall Hb Hr|before r rest a w Hall Hb Hr Hw].
  - destruct rest as [|r rest]; [by rewrite app_nil_r in Hall; subst|].
    exfalso. eapply (Hno send_request); [set_solver|reflexivity].
  - exfalso. eapply (Hno node_answers); [set_solver|reflexivity].
  - cbn. rewrite Hall, answers_app by done. cbn. by rewrite Hr, app_nil_r.
  - exfalso. eapply (Hno swap_message); [set_solver|reflexivity].
  - exfalso. eapply (Hno set_flag); [set_solver|reflexivity].
  - exfalso. destruct w; [done| |].
    + eapply (Hno pass_wait); [set_solver|reflexivity].
    + eapply (Hno take_message); [set_solver|reflexivity].
Qed.
End connection.

(** * Calls side by side *)

Section calls.

(** What the storage node of each call answers. *)
Context (peer : nat → list Z → list (list Z)).

(** A step of any one of the calls. *)
Definition calls_step (s s' : list Conn) : Prop :=
  ∃ i c c', s !! i = Some c ∧ conn_step (peer i) c c' ∧ s' = <[i := c']> s.

Definition calls_start (requests : list (list (list Z))) : list Conn := conn_start <$> requests.

Definition calls_inv (requests : list (list (list Z))) (s : list Conn) : Prop :=
  length s = length requests ∧
  ∀ i all c, requests !! i = Some all → s !! i = Some c → phase (peer i) all c.

Definition total_weight (s : list Conn) : nat := sum_list_with weight s.

Lemma total_weight_insert i c c' s :
  s !! i = Some c → (weight c' < weight c)%nat → (total_weight (<[i := c']> s) < total_weight s)%nat.
Proof.
  intros Hi Hlt. unfold total_weight. pose proof (sum_list_insert weight i c c' s Hi). lia.
Qed.

Lemma calls_inv_step requests s s' :
  (∀ i r, (length (peer i r) ≤ 1)%nat) → calls_inv requests s → calls_step s s' →
  calls_inv requests s' ∧ (total_weight s' < total_weight s)%nat.
Proof.
  intros Hpeer [Hlen Hinv] (i & c & c' & Hi & Hstep & ->).
  destruct (lookup_lt_is_Some_2 requests i) as [all Hall]; [rewrite <- Hlen; by eapply lookup_lt_Some|].
  destruct (phase_step _ all c c' (Hpeer i) (Hinv i all c Hall Hi) Hstep) as [Hphase Hlt].
  split; [|by eapply total_weight_insert]. split; [by rewrite length_insert|].
  intros j all' d Hj Hd. destruct (decide (i = j)) as [<-|Hne].
  - rewrite list_lookup_insert_eq in Hd by (by eapply lookup_lt_Some). by simplify_eq.
  - rewrite list_lookup_insert_ne in Hd by done. by eapply Hinv.
Qed.

Lemma calls_inv_start requests : calls_inv requests (calls_start requests).
Proof.
  split; [apply length_fmap|]. intros i all c Hi Hc. unfold calls_start in Hc.
  rewrite list_lookup_fmap, Hi in Hc. injection Hc as <-. by apply (ph_sending _ all [] all).
Qed.

Lemma calls_weight_start requests :
  total_weight (calls_start requests) = (7 * sum_list_with length requests)%nat.
Proof.
  unfold total_weight, calls_start. induction requests as [|all l IH]; [done|].
  cbn [fmap list_fmap sum_list_with]. rewrite IH. cbn. lia.
Qed.

(** C37: Waiting calls are served.  Whatever the interleaving of the functions'
    threads, the event loop and the storage nodes, calls whose nodes answer a
    request at most once are through after at most seven steps for each request,
    and then each function has received the answer to each of its requests, in
    order and once, up to the first that its node leaves unanswered: no message
    is lost or given twice, and no thread waits while there is one for it. *)
Theorem calls_served requests :
  (∀ i r, (length (peer i r) ≤ 1)%nat) →
  (∀ n s, nsteps calls_step n (calls_start requests) s → (n ≤ 7 * sum_list_with length requests)%nat) ∧
  (∀ s, rtc calls_step (calls_start requests) s → (∀ s', ¬ calls_step s s') →
     received <$> s = imap (λ i all, answers (peer i) all) requests).
Proof.
  intros Hpeer. split.
  - intros n s Hsteps. rewrite <- calls_weight_start.
    assert (calls_inv requests s ∧ (n + total_weight s ≤ total_weight (calls_start requests))%nat) as [_ ?]; [|lia].
    pose proof (calls_inv_start requests) as Hinv. revert Hinv.
    induction Hsteps as [s|n s0 s1 s2 Hstep _ IH]; intros Hinv; [split; [done|lia]|].
    destruct (calls_inv_step _ _ _ Hpeer Hinv Hstep) as [Hinv1 Hlt]. destruct (IH Hinv1). split; [done|lia].
  - intros s Hsteps Hend.
    assert (calls_inv requests s) as [Hlen Hinv].
    { pose proof (calls_inv_start requests) as Hinv. revert Hinv.
      induction Hsteps as [|s0 s1 s2 Hstep _ IH]; intros Hinv; [done|].
      by apply IH, (calls_inv_step _ _ _ Hpeer Hinv Hstep). }
    apply list_eq. intros i. rewrite list_lookup_fmap, list_lookup_imap.
    destruct (s !! i) as [c|] eqn:Hi.
    + destruct (lookup_lt_is_Some_2 requests i) as [all Hall]; [rewrite <- Hlen; by eapply lookup_lt_Some|].
      rewrite Hall. cbn. f_equal. apply (phase_end (peer i) all c); [by eapply Hinv|].
      intros c' Hstep. apply (Hend (<[i := c']> s)). by exists i, c, c'.
    + apply lookup_ge_None in Hi. rewrite (proj2 (lookup_ge_None requests i)); [done|lia].
Qed.
End calls.

(** * The halves make up the operations of the endpoint *)

(** The part of a connection of the endpoint that the two threads share. *)
Definition shares (k : NdpConnection) (c : Conn) : Prop :=
  lastMessage k = lastMsg c ∧ lastMessageFlag k = flag c.

(** Without a step between its halves, storing a message is what [onReceivable]
    does to the connection; *)
Lemma store_refines id k r m c c1 c2 (s : Endpoint) :
  connections s !! id = Some k → ndpRequest k = Some r → shares k c →
  (∃ ms, arriving c = m :: ms) → swap_message c = Some c1 → set_flag c1 = Some c2 →
  ∃ k', connections (onReceivable id true m s).2 !! id = Some k' ∧ shares k' c2.
Proof.
  intros Hk Hr [Hm Hf] [ms Harr] H1 H2. unfold swap_message in H1. rewrite Harr in H1.
  destruct (stored c); [done|]. injection H1 as <-. injection H2 as <-.
  unfold onReceivable, doRecv, modify, get, mret, M_ret, mbind, M_bind. cbn [ep_conn connections].
  rewrite lookup_alter_eq, Hk. cbn [fmap option_fmap option_map ndpRequest set_pending]. rewrite Hr.
  cbn [snd ep_conn connections]. rewrite !lookup_alter_eq, Hk. eexists. split; [reflexivity|]. split; reflexivity.
Qed.

(** and passing the wait and taking the message is [awaitNdpResponse]. *)
Lemma take_refines call id k c c1 c2 (s : Endpoint) :
  ndpSocketMap s !! call = Some id → connections s !! id = Some k → shares k c →
  pass_wait c = Some c1 → take_message c1 = Some c2 →
  ∃ m k', awaitNdpResponse call s = (Ret (Some m), ep_conn id (set_message [] false) s) ∧
    received c2 = received c ++ [m] ∧
    connections (awaitNdpResponse call s).2 !! id = Some k' ∧ shares k' c2.
Proof.
  intros Hid Hk [Hm Hf] H1 H2. unfold pass_wait in H1. destruct (pc c); try done. destruct (flag c) eqn:Hflag; [|done].
  injection H1 as <-. unfold take_message in H2. cbn in H2. injection H2 as <-.
  unfold awaitNdpResponse, getNdpSocketFromCall, get, put, mret, M_ret, mbind, M_bind. rewrite Hid, Hk, Hf.
  cbn [snd ep_conn connections]. rewrite lookup_alter_eq, Hk. eexists _, _.
  split; [reflexivity|]. cbn. split; [by rewrite Hm|]. split; [reflexivity|]. split; reflexivity.
Qed.

(** * Concrete runs *)

(** The run that makes the given moves of the given calls in turn. *)
Fixpoint run_moves (peer : nat → list Z → list (list Z)) (moves : list (nat * nat)) (s : list Conn)
    : option (list Conn) :=
  match moves with
  | [] => Some s
  | (i, m) :: rest =>
      c ← s !! i;
      f ← conn_moves (peer i) !! m;
      c' ← f c;
      run_moves peer rest (<[i := c']> s)
  end.

Lemma run_moves_rtc peer moves s s' :
  run_moves peer moves s = Some s' → rtc (calls_step peer) s s'.
Proof.
  revert s. induction moves as [|[i m] moves IH]; intros s H; [injection H as ->; apply rtc_refl|].
  cbn [run_moves] in H.
  apply bind_Some in H as (c & Hi & H). apply bind_Some in H as (f & Hf & H). apply bind_Some in H as (c' & Hc & H).
  eapply rtc_l; [|by apply IH]. exists i, c, c'. split; [done|]. split; [|done].
  exists f. split; [by eapply list_elem_of_lookup_2|done].
Qed.

(** Storage nodes that answer a request with its bytes and the number of the
    call, except that the second never answers an empty request. *)
Definition demo_peer (i : nat) (r : list Z) : list (list Z) :=
  match i, r with 1%nat, [] => [] | _, _ => [r ++ [Z.of_nat i]] end.

Definition demo_calls : list (list (list Z)) := [[[5]; [6]]; [[7]; []; [8]]].

Definition demo_moves : list (nat * nat) :=
  [(0, 0); (1, 0); (1, 1); (0, 1); (0, 2); (1, 2); (1, 3); (0, 3); (1, 4); (0, 4); (0, 5); (1, 5);
   (0, 0); (1, 0); (1, 1); (0, 1); (0, 2); (0, 3); (0, 4); (0, 5)]%nat.

Definition demo_end : list Conn :=
  [mkConn [] [] [] false [] false Sending [[5; 0]; [6; 0]]; mkConn [[8]] [] [] false [] false Waiting [[7; 1]]].

Lemma calls_served_witness :
  ∃ s, rtc (calls_step demo_peer) (calls_start demo_calls) s ∧
    (received <$> s) = [[[5; 0]; [6; 0]]; [[7; 1]]] ∧ (20 ≤ 7 * sum_list_with length demo_calls)%nat.
Proof.
  assert (∀ i r, (length (demo_peer i r) ≤ 1)%nat) as Hpeer.
  { intros [|[|i]] [|x r]; cbn; lia. }
  assert (run_moves demo_peer demo_moves (calls_start demo_calls) = Some demo_end) as Hrun by (vm_compute; reflexivity).
  pose proof (run_moves_rtc _ _ _ _ Hrun) as Hsteps. exists demo_end. split; [exact Hsteps|].
  destruct (calls_served demo_peer demo_calls Hpeer) as [_ Hend].
  rewrite (Hend demo_end Hsteps); [split; [reflexivity|cbn; lia]|].
  intros s' (i & c & c' & Hi & (f & Hf & Hc) & _).
  unfold conn_moves in Hf. rewrite !elem_of_cons, elem_of_nil in Hf.
  destruct i as [|[|i]]; [injection Hi as <-|injection Hi as <-|discriminate Hi];
    destruct Hf as [->|[->|[->|[->|[->|[->|[]]]]]]]; discriminate Hc.
Defined.

(** A node that answers one request twice can make a function lose the first
    message and receive an empty one in its place: the second message is swapped
    in before the first is taken, and its flag is set after. *)
Example second_message_races :
  let peer := λ (_ : nat) (r : list Z), match r with [1] => [[10]; [20]] | _ => [] end in
  ∃ s, rtc (calls_step peer) (calls_start [[[1]; [2]]]) s ∧ (received <$> s) = [[[20]; []]].
Proof.
  intros peer. exists [mkConn [] [] [] false [] false Sending [[20]; []]]. split; [|done].
  apply (run_moves_rtc _
    [(0, 0); (0, 1); (0, 2); (0, 3); (0, 4); (0, 2); (0, 5); (0, 3); (0, 0); (0, 1); (0, 4); (0, 5)]%nat).
  vm_compute. reflexivity.
Qed.
