(* ===== verification/CephSocket.v ===== *)
(** The sockets between the storage daemon and the worker on its node: making,
    accepting, moving and closing them (include/cephclass/cephcomm.h), and the
    loop in which the endpoint accepts connections (src/wasm/ndp_endpoint.cpp). *)

From S2P Require Import Prelude Wasi NdpMessages NdpSocket NdpEndpoint.

(** * The kernel *)

Inductive sock_call : Type :=
  | sc_mkdir (path : string) (mode : Z) | sc_stat (path : string) | sc_usleep (us : Z)
  | sc_unlink (path : string) | sc_chmod (path : string) (mode : Z)
  | sc_socket | sc_linger (fd onoff secs : Z) | sc_bind (fd : Z) (path : string) | sc_listen (fd backlog : Z)
  | sc_connect (fd : Z) (path : string) | sc_getfl (fd : Z) | sc_setfl (fd flags : Z)
  | sc_poll (fd events timeoutMs : Z) | sc_accept (fd : Z) | sc_shutdown (fd : Z) | sc_close (fd : Z).

(** What a call returns; its [errno] when that is negative; the events of a poll. *)
Record sock_ret := mkSockRet { sr_value : Z; sr_errno : Z; sr_revents : Z }.

Class SockKernel := { SK : Type; sock_sys : sock_call → SK → sock_ret * SK }.

(** Its open descriptors: sockets and accepted connections are new, closing is for
    good, and nothing else opens or closes. *)
Definition opened (fd : Z) (before after : gset Z) : Prop :=
  if 0 <=? fd then (fd ∉ before) ∧ after = {[fd]} ∪ before else after = before.
Class SockKernelLaws `{SockKernel} := {
  sk_open : SK → gset Z;
  socket_opens : ∀ k, opened (sr_value (sock_sys sc_socket k).1) (sk_open k) (sk_open (sock_sys sc_socket k).2);
  accept_opens : ∀ fd k,
    opened (sr_value (sock_sys (sc_accept fd) k).1) (sk_open k) (sk_open (sock_sys (sc_accept fd) k).2);
  close_closes : ∀ fd k, sk_open (sock_sys (sc_close fd) k).2 = sk_open k ∖ {[fd]};
  others_keep : ∀ c k,
    match c with sc_socket | sc_accept _ | sc_close _ => True | _ => sk_open (sock_sys c k).2 = sk_open k end }.

(** * Sockets *)

Inductive SocketType : Type := listen | connect.
Record CephFaasmSocket := mkCephSocket { so_type : SocketType; so_bindAddr : string; so_fd : Z }.

Definition DEFAULT_FAASM_CEPH_SOCKET_PATH : string := "/run/faasm/faasm-ndp.sock".
Definition SUN_PATH_SIZE : Z := 108.
Definition POLLOUT : Z := 4.
Definition SHUT_RDWR : Z := 2.

(** The kernel and the [errno] of the thread. *)
Record Socks `{SockKernel} := mkSocks { ss_kernel : SK; ss_errno : Z }.
Arguments mkSocks {_} _ _.

Section sockets.
Context `{SockKernel}.
Abbreviation SockM := (M Socks).

Definition sys (c : sock_call) : SockM sock_ret := λ s,
  let '(r, k) := sock_sys c (ss_kernel s) in
  (Ret r, mkSocks k (if sr_value r <? 0 then sr_errno r else ss_errno s)).
Definition sys_ (c : sock_call) : SockM unit := sys c ;; mret ().

(** [setBlocking]; the flag is a bit of those of the descriptor. *)
Definition setBlocking (fd : Z) (blocking : bool) : SockM unit :=
  r ← sys (sc_getfl fd);
  if sr_value r <? 0 then throw (RuntimeError "Couldn't get ndp connection flags")
  else
    let flags := if blocking then Z.land (sr_value r) (Z.lnot O_NONBLOCK) else Z.lor (sr_value r) O_NONBLOCK in
    ec ← sys (sc_setfl fd flags);
    if sr_value ec <? 0 then throw (RuntimeError "Couldn't modify O_NONBLOCK on the ndp connection flags")
    else mret ().

(** [pollFor], with [fuel] for the interrupted calls.  An error returns [-errno],
    which is true. *)
Fixpoint pollFor (fuel : nat) (fd event timeoutMs : Z) : SockM bool :=
  r ← sys (sc_poll fd event timeoutMs);
  if 0 <=? sr_value r then mret (negb (sr_revents r =? 0))
  else if bool_decide (sr_errno r = EAGAIN ∨ sr_errno r = EINTR) then
    match fuel with O => throw (Blocked "poll") | S fuel => pollFor fuel fd event timeoutMs end
  else mret (negb (- sr_errno r =? 0)).

(** Waiting for the path of the socket, [tries] times at most. *)
Fixpoint awaitPath (tries : nat) (path : string) (sleepUs : Z) : SockM unit :=
  match tries with
  | O => mret ()
  | S tries =>
      let sleepUs := if 2000000 <? sleepUs then 2000000 else sleepUs in
      r ← sys (sc_stat path);
      if 0 <=? sr_value r then mret ()
      else if sr_errno r =? ENOENT then sys_ (sc_usleep sleepUs) ;; awaitPath tries path (i32 (sleepUs * 10))
      else throw (RuntimeError "Can't connect to the ceph-faasm socket")
  end.

Definition close_and_throw {A} (fd : Z) (what : string) : SockM A :=
  sys_ (sc_close fd) ;; throw (RuntimeError what).

Definition bindAndListen (fd : Z) (path : string) : SockM unit :=
  sys_ (sc_unlink path) ;;
  b ← sys (sc_bind fd path);
  if sr_value b <? 0 then close_and_throw fd "Couldn't bind the ceph-faasm socket"
  else
    sys_ (sc_chmod path 511) ;;
    l ← sys (sc_listen fd 1024);
    if sr_value l <? 0 then close_and_throw fd "Couldn't listen on the ceph-faasm socket" else mret ().

Definition connectTo (fuel : nat) (fd : Z) (path : string) : SockM unit :=
  setBlocking fd false ;;
  c ← sys (sc_connect fd path);
  (if sr_value c <? 0 then
     if sr_errno c =? EINPROGRESS then
       ready ← pollFor fuel fd POLLOUT 5000;
       if ready : bool then mret () else close_and_throw fd "Timeout trying to connect to the ceph-faasm socket"
     else close_and_throw fd "Couldn't connect the ceph-faasm socket"
   else mret ()) ;;
  setBlocking fd true.

(** The constructor. *)
Definition newSocket (fuel : nat) (type : SocketType) (path : string) : SockM CephFaasmSocket :=
  match type with
  | listen => sys_ (sc_mkdir "/run/faasm" 511)
  | connect => awaitPath 10 path 1000
  end ;;
  if SUN_PATH_SIZE <=? Z.of_nat (String.length path) then throw (RuntimeError "Path too long for socket")
  else
    r ← sys sc_socket;
    let fd := sr_value r in
    if fd <? 0 then throw (RuntimeError "Couldn't create an fd for a ceph-faasm socket")
    else
      sys_ (sc_linger fd 1 1) ;;
      match type with
      | listen => bindAndListen fd path
      | connect => connectTo fuel fd path
      end ;;
      mret (mkCephSocket type path fd).

(** The accepted connection, with [fuel] for the interrupted calls. *)
Fixpoint acceptSocket (fuel : nat) (s : CephFaasmSocket) : SockM CephFaasmSocket :=
  r ← sys (sc_accept (so_fd s));
  if 0 <=? sr_value r then mret (mkCephSocket connect (so_bindAddr s) (sr_value r))
  else if sr_errno r =? EINTR then
    match fuel with O => throw (Blocked "accept") | S fuel => acceptSocket fuel s end
  else throw (RuntimeError "Couldn't accept a cephcomm connection").

(** The move assignment: the target and what is left of the other socket.  The address is not
    moved, and the descriptor that the target had is not closed.  The move constructor
    assigns to a new object. *)
Definition assignSocket (this other : CephFaasmSocket) : CephFaasmSocket * CephFaasmSocket :=
  (mkCephSocket (so_type other) (so_bindAddr this) (so_fd other), mkCephSocket (so_type other) (so_bindAddr other) (-1)).
Definition moveSocket (other : CephFaasmSocket) : CephFaasmSocket * CephFaasmSocket :=
  assignSocket (mkCephSocket (so_type other) "" (-1)) other.

Definition destroySocket (s : CephFaasmSocket) : SockM unit :=
  if 0 <=? so_fd s then sys_ (sc_shutdown (so_fd s)) ;; sys_ (sc_close (so_fd s)) else mret ().
End sockets.

(** * The endpoint that listens *)

(** What the endpoint keeps: the kernel and [errno], the connections and calls of
    [NdpEndpoint], its socket, the sockets of its connections, by descriptor, and
    whether it waits for the next connection. *)
Record Listener `{SockKernel} := mkListener {
  ln_socks : Socks; ln_endpoint : Endpoint; ln_socket : CephFaasmSocket;
  ln_conns : gmap Z CephFaasmSocket; ln_waiting : bool }.
Arguments mkListener {_} _ _ _ _ _.

Section listener.
Context `{SockKernel}.
Abbreviation SockM := (M Socks).
Abbreviation LnM := (M Listener).

Definition on_socks {A} : SockM A → LnM A :=
  zoom ln_socks (λ k s, mkListener k (ln_endpoint s) (ln_socket s) (ln_conns s) (ln_waiting s)).
Definition set_waiting (b : bool) (s : Listener) : Listener :=
  mkListener (ln_socks s) (ln_endpoint s) (ln_socket s) (ln_conns s) b.

(** [NdpEndpoint]: its socket does not block. *)
Definition newEndpoint (fuel : nat) : SockM CephFaasmSocket :=
  s ← newSocket fuel listen DEFAULT_FAASM_CEPH_SOCKET_PATH;
  try_catch (setBlocking (so_fd s) false) (λ e, destroySocket s ;; throw e) ;;
  mret s.

Definition doAccept : LnM unit := modify (set_waiting true).

(** The constructor of [NdpConnection] and its [run], which registers the first
    handler; the socket goes with a constructor that throws. *)
Definition new_connection : NdpConnection := mkNdpConnection None (Some first_handler) [] false.
Definition runConnection (conn : CephFaasmSocket) : LnM unit :=
  try_catch (on_socks (setBlocking (so_fd conn) true)) (λ e, on_socks (destroySocket conn) ;; throw e) ;;
  modify (λ s, mkListener (ln_socks s)
    (mkEndpoint (executionSlots (ln_endpoint s)) (<[so_fd conn := new_connection]> (connections (ln_endpoint s)))
       (ndpSocketMap (ln_endpoint s)) (scheduled (ln_endpoint s)) (responses (ln_endpoint s)))
    (ln_socket s) (<[so_fd conn := conn]> (ln_conns s)) (ln_waiting s)).

(** [onAcceptable]; [ec] is whether the wait succeeded. *)
Definition onAcceptable (fuel : nat) (ec : bool) : LnM unit :=
  modify (set_waiting false) ;;
  if negb ec then mret ()
  else
    try_catch_runtime
      (s ← get;
       accepted ← on_socks (acceptSocket fuel (ln_socket s));
       runConnection (moveSocket accepted).1)
      (λ e, s ← get; if ss_errno (ln_socks s) =? EAGAIN then mret () else throw e) ;;
    doAccept.
End listener.

(** [~CephSocketCloser] sends the end of the call; what that throws is caught. *)
Definition destroyCloser (encode : StorageMessage → list Z) (id : Z) (rs : list sock_res) (stream : list Z)
    : sock_run unit :=
  match sendMessage rs (encode (mkStorageMessage id NdpEnd)) stream with
  | Threw _ stream rest => Ended () stream rest
  | run => run
  end.

(** * Who owns a descriptor *)

Section owners.
Context `{SL : SockKernelLaws}.
Abbreviation SockM := (M Socks).
Abbreviation open_of s := (sk_open (ss_kernel s)).

Definition same_open (s s' : Socks) : Prop := open_of s' = open_of s.
#[local] Instance same_open_preorder : PreOrder same_open.
Proof. split; [done|]. intros a b c Hab Hbc. by etransitivity. Qed.

Lemma sys_kernel c s : ss_kernel (sys c s).2 = (sock_sys c (ss_kernel s)).2.
Proof. unfold sys. by destruct (sock_sys c (ss_kernel s)). Qed.
Lemma sys_value c s : (sys c s).1 = Ret (sock_sys c (ss_kernel s)).1.
Proof. unfold sys. by destruct (sock_sys c (ss_kernel s)). Qed.

Lemma keeps_sys c :
  match c with sc_socket | sc_accept _ | sc_close _ => True | _ => keeps same_open (sys c) end.
Proof.
  destruct c; try done; intros s; unfold same_open; rewrite sys_kernel;
    match goal with |- sk_open (sock_sys ?c ?k).2 = _ => exact (others_keep c k) end.
Qed.
Lemma keeps_sys_ c :
  match c with sc_socket | sc_accept _ | sc_close _ => True | _ => keeps same_open (sys_ c) end.
Proof.
  pose proof (keeps_sys c) as Hc. destruct c; try done; apply (keeps_bind same_open);
    try exact Hc; intros r; apply (keeps_ret same_open).
Qed.

Lemma keeps_setBlocking fd b : keeps same_open (setBlocking fd b).
Proof.
  apply (keeps_bind same_open); [exact (keeps_sys (sc_getfl fd))|]. intros r.
  destruct (sr_value r <? 0); [apply (keeps_throw same_open)|].
  apply (keeps_bind same_open); [exact (keeps_sys (sc_setfl fd _))|]. intros ec.
  destruct (sr_value ec <? 0); [apply (keeps_throw same_open)|apply (keeps_ret same_open)].
Qed.

Lemma keeps_pollFor fuel fd ev ms : keeps same_open (pollFor fuel fd ev ms).
Proof.
  induction fuel as [|fuel IH]; (apply (keeps_bind same_open); [exact (keeps_sys (sc_poll fd ev ms))|]; intros r;
    destruct (0 <=? sr_value r); [apply (keeps_ret same_open)|];
    case_bool_decide; [|apply (keeps_ret same_open)]); [apply (keeps_throw same_open)|exact IH].
Qed.

Lemma keeps_awaitPath tries path us : keeps same_open (awaitPath tries path us).
Proof.
  revert us. induction tries as [|tries IH]; intros us; [apply (keeps_ret same_open)|].
  apply (keeps_bind same_open); [exact (keeps_sys (sc_stat path))|]. intros r.
  destruct (0 <=? sr_value r); [apply (keeps_ret same_open)|].
  destruct (sr_errno r =? ENOENT); [|apply (keeps_throw same_open)].
  apply (keeps_bind same_open); [exact (keeps_sys_ (sc_usleep _))|]. intros _. apply IH.
Qed.

(** An operation on a new descriptor that fails has closed it, unless it has not
    ended. *)
Definition is_blocked (e : exn) : bool := match e with Blocked _ => true | _ => false end.
Definition guards {A} (fd : Z) (x : SockM A) : Prop := ∀ s,
  match x s with
  | (Ret _, s') => open_of s' = open_of s
  | (Throw e, s') => is_blocked e = false → open_of s' = open_of s ∖ {[fd]}
  end.

Lemma guards_bind {A B} fd (x : SockM A) (f : A → SockM B) :
  guards fd x → (∀ a, guards fd (f a)) → guards fd (x ≫= f).
Proof.
  intros Hx Hf s. rewrite run_bind. specialize (Hx s). destruct (x s) as [[a|e] s1]; [|done].
  specialize (Hf a s1). destruct (f a s1) as [[b|e] s2]; [congruence|]. intros He. rewrite Hf by done. by rewrite Hx.
Qed.
Lemma guards_ret {A} fd (a : A) : guards fd (mret a).
Proof. done. Qed.
Lemma guards_keeps {A} fd (x : SockM A) :
  keeps same_open x → (∀ s e, (x s).1 = Throw e → is_blocked e = true) → guards fd x.
Proof.
  intros Hk Ht s. specialize (Hk s). specialize (Ht s). destruct (x s) as [[a|e] s1]; [exact Hk|].
  cbn in Ht. by rewrite (Ht e eq_refl).
Qed.
Lemma guards_sys fd c : keeps same_open (sys c) → guards fd (sys c).
Proof. intros Hk. apply guards_keeps; [done|]. intros s e. by rewrite sys_value. Qed.
Lemma guards_sys_ fd c : keeps same_open (sys c) → guards fd (sys_ c).
Proof. intros Hk. apply guards_bind; [by apply guards_sys|]. intros r. apply guards_ret. Qed.
Lemma guards_close {A} fd what : guards fd (close_and_throw (A := A) fd what).
Proof.
  intros s. unfold close_and_throw, sys_. rewrite !run_bind. unfold sys.
  pose proof (close_closes fd (ss_kernel s)) as Hc. destruct (sock_sys (sc_close fd) (ss_kernel s)) as [r k]. by intros _.
Qed.

(** The flags of an open descriptor can be read and set. *)
Definition fcntl_works : Prop := ∀ fd flags k,
  0 ≤ sr_value (sock_sys (sc_getfl fd) k).1 ∧ 0 ≤ sr_value (sock_sys (sc_setfl fd flags) k).1.

Lemma setBlocking_returns fd b s : fcntl_works → (setBlocking fd b s).1 = Ret ().
Proof.
  intros Hf. unfold setBlocking. rewrite run_bind.
  destruct (sys (sc_getfl fd) s) as [o s1] eqn:H1.
  pose proof (sys_value (sc_getfl fd) s) as Hv. rewrite H1 in Hv. cbn in Hv. subst o.
  destruct (Z.ltb_spec (sr_value (sock_sys (sc_getfl fd) (ss_kernel s)).1) 0) as [Hlt|_];
    [pose proof (Hf fd 0 (ss_kernel s)); lia|].
  rewrite run_bind. match goal with |- context [sys (sc_setfl fd ?fl) s1] => set (flags := fl) end.
  destruct (sys (sc_setfl fd flags) s1) as [o s2] eqn:H2.
  pose proof (sys_value (sc_setfl fd flags) s1) as Hv. rewrite H2 in Hv. cbn in Hv. subst o.
  destruct (Z.ltb_spec (sr_value (sock_sys (sc_setfl fd flags) (ss_kernel s1)).1) 0) as [Hlt|_]; [|done].
  pose proof (Hf fd flags (ss_kernel s1)). lia.
Qed.
Lemma guards_setBlocking fd fd' b : fcntl_works → guards fd (setBlocking fd' b).
Proof. intros Hf. apply guards_keeps; [apply keeps_setBlocking|]. intros s e. by rewrite (setBlocking_returns fd' b s Hf). Qed.

Lemma pollFor_throws fuel fd ev ms s e : (pollFor fuel fd ev ms s).1 = Throw e → is_blocked e = true.
Proof.
  revert s. induction fuel as [|fuel IH]; intros s; cbn [pollFor]; rewrite run_bind;
    (destruct (sys (sc_poll fd ev ms) s) as [o s1] eqn:Hs; pose proof (sys_value (sc_poll fd ev ms) s) as Hv;
     rewrite Hs in Hv; cbn in Hv; subst o; destruct (0 <=? _); [done|]; case_bool_decide; [|done]).
  - by intros [= <-].
  - apply IH.
Qed.

Lemma guards_bindAndListen fd path : guards fd (bindAndListen fd path).
Proof.
  apply guards_bind; [exact (guards_sys_ fd _ (keeps_sys (sc_unlink path)))|]. intros _.
  apply guards_bind; [exact (guards_sys fd _ (keeps_sys (sc_bind fd path)))|]. intros b.
  destruct (sr_value b <? 0); [apply guards_close|].
  apply guards_bind; [exact (guards_sys_ fd _ (keeps_sys (sc_chmod path 511)))|]. intros _.
  apply guards_bind; [exact (guards_sys fd _ (keeps_sys (sc_listen fd 1024)))|]. intros l.
  destruct (sr_value l <? 0); [apply guards_close|apply guards_ret].
Qed.

Lemma guards_connectTo fuel fd path : fcntl_works → guards fd (connectTo fuel fd path).
Proof.
  intros Hf. apply guards_bind; [by apply guards_setBlocking|]. intros _.
  apply guards_bind; [exact (guards_sys fd _ (keeps_sys (sc_connect fd path)))|]. intros c.
  apply guards_bind; [|intros _; by apply guards_setBlocking].
  destruct (sr_value c <? 0); [|apply guards_ret]. destruct (sr_errno c =? EINPROGRESS); [|apply guards_close].
  apply guards_bind; [apply guards_keeps; [apply keeps_pollFor|intros s e; apply pollFor_throws]|].
  intros []; [apply guards_ret|apply guards_close].
Qed.

(** What making a socket opens: its descriptor, or nothing. *)
Definition makes {A} (fd_of : A → Z) (x : SockM A) : Prop := ∀ s,
  match x s with
  | (Ret a, s') => 0 ≤ fd_of a ∧ (fd_of a ∉ open_of s) ∧ open_of s' = {[fd_of a]} ∪ open_of s
  | (Throw e, s') => is_blocked e = false → open_of s' = open_of s
  end.

Lemma makes_after {A B} fd_of (x : SockM A) (f : A → SockM B) :
  keeps same_open x → (∀ a, makes fd_of (f a)) → makes fd_of (x ≫= f).
Proof.
  intros Hx Hf s. rewrite run_bind. specialize (Hx s). destruct (x s) as [[a|e] s1]; [|intros _; exact Hx].
  specialize (Hf a s1). unfold same_open in Hx. cbn [snd] in Hx. destruct (f a s1) as [[b|e] s2]; rewrite Hx in Hf; exact Hf.
Qed.
Lemma makes_throw {A} (fd_of : A → Z) e : makes fd_of (throw e).
Proof. done. Qed.

Lemma makes_guarded {A} fd_of fd (x : SockM unit) (a : A) s s1 :
  guards fd x → fd_of a = fd → 0 ≤ fd → fd ∉ open_of s → open_of s1 = {[fd]} ∪ open_of s →
  match (x ;; mret a) s1 with
  | (Ret a, s') => 0 ≤ fd_of a ∧ (fd_of a ∉ open_of s) ∧ open_of s' = {[fd_of a]} ∪ open_of s
  | (Throw e, s') => is_blocked e = false → open_of s' = open_of s
  end.
Proof.
  intros Hx Hfd Hpos Hnew Hopen. rewrite run_bind. specialize (Hx s1).
  destruct (x s1) as [[[]|e] s2].
  - cbn. rewrite Hfd. split_and!; [done|done|congruence].
  - intros He. rewrite (Hx He), Hopen. apply set_eq. intros y.
    rewrite elem_of_difference, elem_of_union, elem_of_singleton. destruct (decide (y = fd)) as [->|]; tauto.
Qed.

Lemma newSocket_makes fuel type path : fcntl_works → makes so_fd (newSocket fuel type path).
Proof.
  intros Hf. unfold newSocket.
  apply makes_after; [destruct type; [exact (keeps_sys_ (sc_mkdir _ _))|apply keeps_awaitPath]|]. intros _.
  destruct (SUN_PATH_SIZE <=? _); [apply makes_throw|]. intros s. rewrite run_bind. unfold sys at 1.
  pose proof (socket_opens (ss_kernel s)) as Hopen. unfold opened in Hopen.
  destruct (sock_sys sc_socket (ss_kernel s)) as [r k]. cbn [fst snd] in Hopen.
  destruct (Z.ltb_spec (sr_value r) 0) as [Hneg|Hpos].
  { rewrite (proj2 (Z.leb_gt 0 _)) in Hopen by lia. by intros _. }
  rewrite (proj2 (Z.leb_le 0 _)) in Hopen by lia. destruct Hopen as [Hnew Hopen].
  set (s1 := mkSocks k (ss_errno s)).
  assert (∀ x : SockM unit, guards (sr_value r) x → guards (sr_value r) (sys_ (sc_linger (sr_value r) 1 1) ;; x)) as Hlinger.
  { intros x Hx. apply guards_bind; [exact (guards_sys_ _ _ (keeps_sys (sc_linger (sr_value r) 1 1)))|by intros _]. }
  rewrite <- run_bind_assoc.
  apply (makes_guarded so_fd (sr_value r)); try done. apply Hlinger.
  destruct type; [apply guards_bindAndListen|by apply guards_connectTo].
Qed.

Lemma acceptSocket_makes fuel l : makes so_fd (acceptSocket fuel l).
Proof.
  induction fuel as [|fuel IH]; intros s; cbn [acceptSocket]; rewrite run_bind; unfold sys;
    pose proof (accept_opens (so_fd l) (ss_kernel s)) as Hopen; unfold opened in Hopen;
    (destruct (sock_sys (sc_accept (so_fd l)) (ss_kernel s)) as [r k]); cbn [fst snd] in Hopen;
    (destruct (0 <=? sr_value r) eqn:Hpos; [apply Z.leb_le in Hpos; by destruct Hopen|]);
    (destruct (sr_errno r =? EINTR); [|by intros _]).
  - by intros [=].
  - set (s1 := mkSocks k _). specialize (IH s1). assert (open_of s1 = open_of s) as Heq by done.
    destruct (acceptSocket fuel l s1) as [[x|e] s2]; rewrite Heq in IH; exact IH.
Qed.

(** ** The sockets of a process

    Sockets are made, accepted, moved, assigned and destroyed, in any order; one that is not
    made in the end leaves no object.  The descriptors of sockets that were assigned to are
    kept apart: no object has them any more. *)
Record Process := mkProcess { pr_socks : Socks; pr_live : gmap nat CephFaasmSocket; pr_lost : gset Z }.
Definition descriptor (x : CephFaasmSocket) : gset Z := if 0 <=? so_fd x then {[so_fd x]} else ∅.

Definition keep_made (i : nat) (run : outcome CephFaasmSocket * Socks) (p : Process) : option Process :=
  match run with
  | (Ret x, k) => Some (mkProcess k (<[i := x]> (pr_live p)) (pr_lost p))
  | (Throw e, k) => if is_blocked e then None else Some (mkProcess k (pr_live p) (pr_lost p))
  end.

Inductive sock_step : Process → Process → Prop :=
  | st_new i fuel type path p p' : pr_live p !! i = None →
      keep_made i (newSocket fuel type path (pr_socks p)) p = Some p' → sock_step p p'
  | st_accept i j fuel x p p' : pr_live p !! i = Some x → pr_live p !! j = None →
      keep_made j (acceptSocket fuel x (pr_socks p)) p = Some p' → sock_step p p'
  | st_move i j x p : pr_live p !! i = Some x → pr_live p !! j = None →
      sock_step p (mkProcess (pr_socks p) (<[j := (moveSocket x).1]> (<[i := (moveSocket x).2]> (pr_live p))) (pr_lost p))
  | st_assign i j x y p : pr_live p !! i = Some x → pr_live p !! j = Some y →
      sock_step p (mkProcess (pr_socks p)
        (<[i := (assignSocket y x).2]> (<[j := (assignSocket y x).1]> (pr_live p))) (descriptor y ∪ pr_lost p))
  | st_destroy i x p : pr_live p !! i = Some x →
      sock_step p (mkProcess (destroySocket x (pr_socks p)).2 (delete i (pr_live p)) (pr_lost p)).

(** Descriptor [fd] is that of the live socket [i]. *)
Definition owns (live : gmap nat CephFaasmSocket) (i : nat) (fd : Z) : Prop :=
  0 ≤ fd ∧ ∃ x, live !! i = Some x ∧ so_fd x = fd.

Record owned (base : gset Z) (p : Process) : Prop := {
  ow_open : ∀ fd, fd ∈ open_of (pr_socks p) ↔ fd ∈ base ∪ pr_lost p ∨ ∃ i, owns (pr_live p) i fd;
  ow_base : ∀ i fd, owns (pr_live p) i fd → fd ∉ base ∪ pr_lost p;
  ow_one : ∀ i j fd, owns (pr_live p) i fd → owns (pr_live p) j fd → i = j }.

Lemma owns_insert live i x j fd :
  owns (<[i := x]> live) j fd ↔ (j = i ∧ 0 ≤ fd ∧ so_fd x = fd) ∨ (j ≠ i ∧ owns live j fd).
Proof.
  unfold owns. destruct (decide (j = i)) as [->|Hne].
  - rewrite lookup_insert_eq. split; [|naive_solver]. intros (Hp & y & [= <-] & Hy). by left.
  - rewrite lookup_insert_ne by done. naive_solver.
Qed.
Lemma owns_delete live i j fd : owns (delete i live) j fd ↔ j ≠ i ∧ owns live j fd.
Proof.
  unfold owns. destruct (decide (j = i)) as [->|Hne].
  - rewrite lookup_delete_eq. naive_solver.
  - rewrite lookup_delete_ne by done. naive_solver.
Qed.

(** The live sockets after a step own what those before it owned. *)
Lemma owned_transfer base p p' :
  open_of (pr_socks p') = open_of (pr_socks p) → pr_lost p' = pr_lost p →
  (∀ fd, ∃ f : nat → nat, (∀ j, owns (pr_live p') j fd → owns (pr_live p) (f j) fd) ∧
     (∀ j j', owns (pr_live p') j fd → owns (pr_live p') j' fd → f j = f j' → j = j') ∧
     ∀ i, owns (pr_live p) i fd → ∃ j, owns (pr_live p') j fd) →
  owned base p → owned base p'.
Proof.
  intros Heq Hlost Hmap [Ho Hb H1]. split; rewrite ?Hlost.
  - intros fd. rewrite Heq, Ho. destruct (Hmap fd) as (f & Hf & _ & Hback). naive_solver.
  - intros i fd Hi. destruct (Hmap fd) as (f & Hf & _). by eapply Hb, Hf.
  - intros i j fd Hi Hj. destruct (Hmap fd) as (f & Hf & Hinj & _). apply Hinj; [done|done|]. by eapply H1; apply Hf.
Qed.

Lemma owned_made base i run p p' :
  match run with
  | (Ret x, k) => 0 ≤ so_fd x ∧ (so_fd x ∉ open_of (pr_socks p)) ∧ open_of k = {[so_fd x]} ∪ open_of (pr_socks p)
  | (Throw e, k) => is_blocked e = false → open_of k = open_of (pr_socks p)
  end →
  pr_live p !! i = None → keep_made i run p = Some p' → owned base p → owned base p'.
Proof.
  destruct run as [[x|e] k]; cbn [keep_made]; intros Hmade Hi Hrun.
  - injection Hrun as <-. destruct Hmade as (Hpos & Hnew & Hk). intros [Ho Hb H1].
    assert (∀ fd, ¬ owns (pr_live p) i fd) as Hfree by (intros fd (_ & y & Hy & _); congruence).
    split; cbn [pr_socks pr_live pr_lost].
    + intros fd. rewrite Hk, elem_of_union, elem_of_singleton, Ho. split.
      * intros [->|[Hin|[j Hj]]]; [right; exists i; apply owns_insert; by left|by left|].
        right. exists j. apply owns_insert. right. split; [|done]. intros ->. by apply (Hfree fd).
      * intros [Hin|[j [(-> & _ & <-)|[_ Hj]]%owns_insert]]; [tauto|by left|]. right; right. by exists j.
    + intros j fd [(-> & _ & <-)|[_ Hj]]%owns_insert; [|by eapply Hb]. intros Hin. apply Hnew, Ho. by left.
    + assert (∀ j, ¬ owns (pr_live p) j (so_fd x)) as Hn by (intros j Hj; apply Hnew, Ho; right; by exists j).
      intros j j' fd [(-> & _ & <-)|[Hj Hoj]]%owns_insert [(-> & _ & Hfd')|[Hj' Hoj']]%owns_insert; try done.
      * by destruct (Hn j').
      * subst fd. by destruct (Hn j).
      * by eapply H1.
  - destruct (is_blocked e) eqn:He; [done|]. injection Hrun as <-. intros Howned.
    apply (owned_transfer base p); [exact (Hmade eq_refl)|done| |done]. intros fd. exists id. naive_solver.
Qed.

Lemma destroy_open x s :
  open_of (destroySocket x s).2 = if 0 <=? so_fd x then open_of s ∖ {[so_fd x]} else open_of s.
Proof.
  unfold destroySocket. destruct (0 <=? so_fd x); [|done].
  assert (∀ c t, sys_ c t = (Ret (), (sys c t).2)) as Hsys.
  { intros c t. unfold sys_. rewrite run_bind. pose proof (sys_value c t) as Hv. destruct (sys c t) as [o t'].
    cbn in Hv. by subst o. }
  rewrite run_bind, !Hsys. cbn [snd]. rewrite !sys_kernel, close_closes.
  f_equal. exact (others_keep (sc_shutdown (so_fd x)) (ss_kernel s)).
Qed.

Lemma owned_destroy base i x p :
  pr_live p !! i = Some x → owned base p →
  owned base (mkProcess (destroySocket x (pr_socks p)).2 (delete i (pr_live p)) (pr_lost p)).
Proof.
  intros Hi [Ho Hb H1]. split; cbn [pr_socks pr_live pr_lost].
  - intros fd. rewrite destroy_open. destruct (Z.leb_spec 0 (so_fd x)) as [Hpos|Hneg].
    + assert (owns (pr_live p) i (so_fd x)) as Hx by (split; [done|by exists x]).
      rewrite elem_of_difference, elem_of_singleton, Ho. split.
      * intros [[Hin|[j Hj]] Hne]; [by left|right; exists j]. apply owns_delete. split; [|done]. intros ->.
        destruct Hj as (_ & y & Hy & <-). rewrite Hi in Hy. by injection Hy as <-.
      * intros [Hin|[j [Hji Hj]%owns_delete]].
        -- split; [by left|]. intros ->. by eapply Hb.
        -- split; [right; by exists j|]. intros ->. apply Hji. by eapply H1.
    + rewrite Ho. split; (intros [Hin|[j Hj]]; [by left|right; exists j]).
      * apply owns_delete. split; [|done]. intros ->. destruct Hj as (? & y & Hy & <-). rewrite Hi in Hy.
        injection Hy as <-. lia.
      * by apply owns_delete in Hj as [_ Hj].
  - intros j fd [_ Hj]%owns_delete. by eapply Hb.
  - intros j j' fd [_ Hj]%owns_delete [_ Hj']%owns_delete. by eapply H1.
Qed.

Lemma owned_move base i j x x1 x2 p :
  pr_live p !! i = Some x → pr_live p !! j = None → so_fd x1 = so_fd x → so_fd x2 = -1 → owned base p →
  owned base (mkProcess (pr_socks p) (<[j := x1]> (<[i := x2]> (pr_live p))) (pr_lost p)).
Proof.
  intros Hi Hj Hx1 Hx2. assert (i ≠ j) as Hij by congruence.
  assert (∀ n fd, owns (<[j := x1]> (<[i := x2]> (pr_live p))) n fd ↔
    owns (pr_live p) (if decide (n = j) then i else n) fd ∧ n ≠ i) as Hown.
  { intros n fd. rewrite !owns_insert, Hx1, Hx2. destruct (decide (n = j)) as [->|Hne].
    - split.
      + intros [(_ & Hp & Hfd)|[[] _]]; [|done]. split; [|done]. split; [done|]. by exists x.
      + intros ((Hp & y & Hy & Hfd) & _). left. rewrite Hi in Hy. by injection Hy as <-.
    - split.
      + intros [(-> & _)|(_ & [(_ & Hp & <-)|[Hn Ho]])]; [done|lia|done].
      + intros [Ho Hn]. right. split; [done|]. by right. }
  apply (owned_transfer base p); [done|done|]. intros fd. exists (λ n, if decide (n = j) then i else n).
  split_and!.
  - intros n Hn. by apply Hown in Hn as [? _].
  - intros n n' [_ Hn]%Hown [_ Hn']%Hown. by repeat case_decide; subst.
  - intros n Hn. destruct (decide (n = i)) as [->|Hne].
    + exists j. apply Hown. by rewrite decide_True by done.
    + exists n. apply Hown. rewrite decide_False; [done|]. intros ->. destruct Hn as (_ & y & Hy & _). congruence.
Qed.

(** A socket that is overwritten. *)
Lemma owned_drop base i y p :
  pr_live p !! i = Some y → owned base p →
  owned base (mkProcess (pr_socks p) (delete i (pr_live p)) (descriptor y ∪ pr_lost p)).
Proof.
  intros Hi [Ho Hb H1].
  assert (∀ fd, fd ∈ descriptor y ↔ owns (pr_live p) i fd) as Hy.
  { intros fd. unfold descriptor, owns. rewrite Hi. destruct (Z.leb_spec 0 (so_fd y)).
    - rewrite elem_of_singleton. split; [intros ->; split; [done|by exists y]|by intros (_ & x & [= <-] & <-)].
    - split; [by intros ?%elem_of_empty|]. intros (? & x & [= <-] & <-). lia. }
  split; cbn [pr_socks pr_live pr_lost].
  - intros fd. rewrite Ho, !elem_of_union, Hy. split.
    + intros [[?|?]|[j Hj]]; [tauto|tauto|]. destruct (decide (j = i)) as [->|]; [tauto|].
      right. exists j. by apply owns_delete.
    + intros [[?|[?|?]]|[j [_ Hj]%owns_delete]]; [tauto|right; by exists i|tauto|right; by exists j].
  - intros j fd [Hj Hown]%owns_delete. specialize (Hb j fd Hown). rewrite !elem_of_union, Hy in *.
    intros [?|[Hi'|?]]; [tauto| |tauto]. by apply Hj, (H1 j i fd).
  - intros j j' fd [_ Hj]%owns_delete [_ Hj']%owns_delete. by eapply H1.
Qed.

Lemma owned_null base i x p :
  pr_live p !! i = None → so_fd x = -1 → owned base p →
  owned base (mkProcess (pr_socks p) (<[i := x]> (pr_live p)) (pr_lost p)).
Proof.
  intros Hi Hx. assert (∀ n fd, owns (<[i := x]> (pr_live p)) n fd ↔ owns (pr_live p) n fd) as Hown.
  { intros n fd. rewrite owns_insert, Hx. split; [intros [(_ & ? & ?)|[_ ?]]; [lia|done]|].
    intros Hn. right. split; [|done]. intros ->. destruct Hn as (_ & y & Hy & _). congruence. }
  apply (owned_transfer base p); [done|done|]. intros fd. exists (λ n, n). cbn [pr_live]. setoid_rewrite Hown. eauto.
Qed.

Lemma owned_assign base i j x y p :
  pr_live p !! i = Some x → pr_live p !! j = Some y → owned base p →
  owned base (mkProcess (pr_socks p)
    (<[i := (assignSocket y x).2]> (<[j := (assignSocket y x).1]> (pr_live p))) (descriptor y ∪ pr_lost p)).
Proof.
  intros Hi Hj Hp. pose proof (owned_drop base j y p Hj Hp) as Hd. destruct (decide (i = j)) as [->|Hij].
  - rewrite insert_insert_eq, <- (insert_delete_eq (pr_live p)).
    apply (owned_null _ j _ (mkProcess _ _ _)); [exact (lookup_delete_eq (pr_live p) j)|done|exact Hd].
  - rewrite insert_insert_ne by done. rewrite <- (insert_delete_eq (<[i := _]> (pr_live p)) j), delete_insert_ne by done.
    apply (owned_move _ i j x _ _ (mkProcess _ _ _)); [exact (eq_trans (lookup_delete_ne (pr_live p) j i (not_eq_sym Hij)) Hi)|exact (lookup_delete_eq (pr_live p) j)|done|done|exact Hd].
Qed.

Lemma owned_step base p p' : fcntl_works → sock_step p p' → owned base p → owned base p'.
Proof.
  intros Hf Hstep. destruct Hstep as [i fuel type path p p' Hi Hrun|i j fuel x p p' Hi Hj Hrun|i j x p Hi Hj|i j x y p Hi Hj|i x p Hi].
  - exact (owned_made _ _ _ _ _ (newSocket_makes fuel type path Hf (pr_socks p)) Hi Hrun).
  - exact (owned_made _ _ _ _ _ (acceptSocket_makes fuel x (pr_socks p)) Hj Hrun).
  - by apply (owned_move _ i j x).
  - by apply owned_assign.
  - by apply owned_destroy.
Qed.

(** C30: Descriptors are lost in one way only, as long as [fcntl] works for every descriptor.
    In every state that a process reaches by making sockets, accepting, moving, assigning and
    destroying them in any order and with whatever results of the other calls, the open
    descriptors are those from before, those of its live sockets, each of one socket only, and those
    that a socket had when another was assigned to it, which no socket has and nothing closes;
    so when its sockets are gone, what was open at the start is open, and those are. *)
Theorem descriptors_owned s0 p :
  fcntl_works → rtc sock_step (mkProcess s0 ∅ ∅) p →
  (∀ fd, fd ∈ open_of (pr_socks p) ↔ fd ∈ open_of s0 ∪ pr_lost p ∨ ∃ i, owns (pr_live p) i fd) ∧
  (∀ i fd, owns (pr_live p) i fd → fd ∉ open_of s0 ∪ pr_lost p) ∧
  (∀ i j fd, owns (pr_live p) i fd → owns (pr_live p) j fd → i = j) ∧
  (pr_live p = ∅ → open_of (pr_socks p) = open_of s0 ∪ pr_lost p).
Proof.
  intros Hf Hsteps. assert (owned (open_of s0) p) as [Ho Hb H1].
  { refine (rtc_ind_l (λ q, owned (open_of s0) q → owned (open_of s0) p) p id _ _ Hsteps _).
    - intros q q' Hstep _ IH Hq. by apply IH, (owned_step _ q).
    - split; cbn [pr_socks pr_live pr_lost]; [intros fd|intros i fd|intros i j fd];
        [rewrite (right_id_L ∅ (∪)); split; [by left|]; intros [|[i (_ & y & Hy & _)]]; [done|]|intros (_ & y & Hy & _)|intros (_ & y & Hy & _)];
        by rewrite lookup_empty in Hy. }
  split_and!; [done..|]. intros Hempty. apply set_eq. intros fd. rewrite Ho, Hempty. split; [|by left].
  intros [|[i (_ & y & Hy & _)]]; [done|]. by rewrite lookup_empty in Hy.
Qed.

(** ** Accepting *)

(** The descriptors of the connections are open. *)
Definition conns_open (s : Listener) : Prop :=
  ∀ c, is_Some (connections (ln_endpoint s) !! c) → c ∈ open_of (ln_socks s).

Lemma runConnection_run conn s :
  match runConnection conn s with
  | (Ret _, s') => ln_socket s' = ln_socket s ∧ ln_waiting s' = ln_waiting s ∧
      open_of (ln_socks s') = open_of (ln_socks s) ∧ ln_conns s' = <[so_fd conn := conn]> (ln_conns s) ∧
      ln_endpoint s' = mkEndpoint (executionSlots (ln_endpoint s))
        (<[so_fd conn := new_connection]> (connections (ln_endpoint s))) (ndpSocketMap (ln_endpoint s))
        (scheduled (ln_endpoint s)) (responses (ln_endpoint s))
  | (Throw e, s') => ln_socket s' = ln_socket s ∧ ln_waiting s' = ln_waiting s ∧ ln_conns s' = ln_conns s ∧
      ln_endpoint s' = ln_endpoint s ∧
      open_of (ln_socks s') = if 0 <=? so_fd conn then open_of (ln_socks s) ∖ {[so_fd conn]} else open_of (ln_socks s)
  end.
Proof.
  unfold runConnection. rewrite run_bind. unfold try_catch, on_socks, zoom.
  pose proof (keeps_setBlocking (so_fd conn) true (ln_socks s)) as Hk. unfold same_open in Hk.
  destruct (setBlocking (so_fd conn) true (ln_socks s)) as [[[]|e] k]; cbn [snd] in Hk.
  - cbn. by split_and!.
  - rewrite run_bind. cbn [ln_socks].
    pose proof (destroy_open conn k) as Hd. destruct (destroySocket conn k) as [[[]|e'] k'] eqn:Hrun; cbn [snd] in Hd.
    + cbn. rewrite Hd, Hk. by split_and!.
    + cbn. rewrite Hd, Hk. by split_and!.
Qed.

(** The endpoint has gained one connection, on a new descriptor. *)
Definition gained_one (s s' : Listener) : Prop := ∃ conn,
  (so_fd conn ∉ open_of (ln_socks s)) ∧ ln_conns s' = <[so_fd conn := conn]> (ln_conns s) ∧
  connections (ln_endpoint s') = <[so_fd conn := new_connection]> (connections (ln_endpoint s)) ∧
  ep_step (F := Z) Z.ltb (mkUtil 0 0 0) (λ _, None) (ln_endpoint s) (ln_endpoint s') ∧ conns_open s'.

Definition accept_outcome (s : Listener) (r : outcome unit * Listener) : Prop :=
  ln_socket r.2 = ln_socket s ∧
  match r.1 with
  | Ret _ => ln_waiting r.2 = true ∧
      (ln_endpoint r.2 = ln_endpoint s ∧ ln_conns r.2 = ln_conns s ∧ ss_errno (ln_socks r.2) = EAGAIN ∨ gained_one s r.2)
  | Throw _ => ln_waiting r.2 = false ∧ ln_endpoint r.2 = ln_endpoint s ∧ ln_conns r.2 = ln_conns s
  end.

Definition accept_failed (e : exn) : M Listener unit :=
  if is_runtime_error e then s ← get; if ss_errno (ln_socks s) =? EAGAIN then mret () else throw e else throw e.

Lemma accept_failed_outcome e s (t : Listener) :
  ln_waiting t = false → ln_endpoint t = ln_endpoint s → ln_conns t = ln_conns s → ln_socket t = ln_socket s →
  accept_outcome s ((accept_failed e ;; doAccept) t).
Proof.
  intros Hw He Hc Hs. unfold accept_failed. rewrite run_bind. destruct (is_runtime_error e); [|by split].
  rewrite run_bind. cbn [get]. destruct (Z.eqb_spec (ss_errno (ln_socks t)) EAGAIN) as [Ha|]; [|by split].
  split; [done|]. split; [done|]. by left.
Qed.

(** After an attempt to accept, the endpoint waits for the next connection, and
    either has gained one, whose descriptor is new, as a step of the endpoint, or the
    kernel had none to give; or an exception has left it, and it accepts nothing any
    more. *)
Theorem onAcceptable_steps fuel s : conns_open s → accept_outcome s (onAcceptable fuel true s).
Proof.
  intros Hopen. unfold onAcceptable. rewrite run_bind. cbn [modify negb]. rewrite run_bind.
  unfold try_catch_runtime, try_catch. fold accept_failed. rewrite run_bind. cbn [get]. rewrite run_bind.
  unfold on_socks at 1, zoom. cbn [set_waiting ln_socks ln_socket].
  pose proof (acceptSocket_makes fuel (ln_socket s) (ln_socks s)) as Hmake.
  destruct (acceptSocket fuel (ln_socket s) (ln_socks s)) as [[x|e] k]; [|by apply (accept_failed_outcome e s)].
  destruct Hmake as (Hpos & Hnew & Hk).
  set (t := mkListener k _ _ _ _). pose proof (runConnection_run (moveSocket x).1 t) as Hrun.
  destruct (runConnection (moveSocket x).1 t) as [[[]|e] t'].
  - destruct Hrun as (Hs & Hw & Ho & Hc & He). cbn [moveSocket fst so_fd] in Hc, He.
    split; [exact Hs|]. split; [done|]. right. exists (moveSocket x).1. cbn [moveSocket fst so_fd snd].
    split; [done|]. split; [exact Hc|]. cbn. rewrite He. cbn [connections]. split; [done|]. split.
    + apply ep_accept. apply eq_None_not_Some. intros Hsome. by apply Hnew, Hopen.
    + intros c. cbn. rewrite He, Ho. cbn [connections ln_socks t]. rewrite Hk.
      intros [y Hy]. apply elem_of_union. destruct (decide (c = so_fd x)) as [->|Hne]; [left; by apply elem_of_singleton|].
      right. rewrite lookup_insert_ne in Hy by done. apply Hopen. by exists y.
  - destruct Hrun as (Hs & Hw & Hc & He & _). by apply (accept_failed_outcome e s).
Qed.

(** ** What can go wrong *)

(** An error of [poll] counts as a socket that is ready. *)
Theorem poll_error_is_ready fuel fd ev ms s :
  let r := (sock_sys (sc_poll fd ev ms) (ss_kernel s)).1 in
  sr_value r < 0 → sr_errno r ≠ 0 → sr_errno r ≠ EAGAIN → sr_errno r ≠ EINTR →
  (pollFor fuel fd ev ms s).1 = Ret true.
Proof.
  intros r Hneg Hne Ha Hi. destruct fuel; cbn [pollFor]; rewrite run_bind; unfold sys;
    (destruct (sock_sys (sc_poll fd ev ms) (ss_kernel s)) as [r' k]; cbn [fst] in r; subst r;
     rewrite (proj2 (Z.leb_gt 0 _)) by done; rewrite bool_decide_eq_false_2 by tauto; cbn;
     destruct (Z.eqb_spec (- sr_errno r') 0); [lia|done]).
Qed.

(** A connection whose flags cannot be set leaves its descriptor open. *)
Theorem fcntl_failure_leaks fuel path s :
  (∀ fd k, sr_value (sock_sys (sc_getfl fd) k).1 < 0) → 0 ≤ sr_value (sock_sys (sc_stat path) (ss_kernel s)).1 →
  (∀ k, 0 ≤ sr_value (sock_sys sc_socket k).1) → Z.of_nat (String.length path) < SUN_PATH_SIZE →
  let '(o, s') := newSocket fuel connect path s in
  o = Throw (RuntimeError "Couldn't get ndp connection flags") ∧
  ∃ fd, (fd ∉ open_of s) ∧ open_of s' = {[fd]} ∪ open_of s.
Proof.
  intros Hget Hstat Hsock Hlen. unfold newSocket. rewrite run_bind.
  assert (awaitPath 10 path 1000 s = (Ret (), (sys (sc_stat path) s).2)) as ->.
  { cbn [awaitPath]. rewrite run_bind. pose proof (sys_value (sc_stat path) s) as Hv.
    destruct (sys (sc_stat path) s) as [o s1]. cbn in Hv. subst o. by rewrite (proj2 (Z.leb_le 0 _)). }
  pose proof (keeps_sys (sc_stat path) s) as Ho. unfold same_open in Ho. set (s1 := (sys (sc_stat path) s).2) in *.
  rewrite (proj2 (Z.leb_gt _ _)) by done. rewrite run_bind. unfold sys at 1.
  pose proof (socket_opens (ss_kernel s1)) as Hopen. unfold opened in Hopen. pose proof (Hsock (ss_kernel s1)) as Hpos.
  destruct (sock_sys sc_socket (ss_kernel s1)) as [r k]. cbn [fst snd] in *.
  rewrite (proj2 (Z.leb_le 0 _)) in Hopen by done. destruct Hopen as [Hnew Hk].
  rewrite (proj2 (Z.ltb_ge _ _)) by done. rewrite run_bind.
  set (s2 := mkSocks k _). pose proof (keeps_sys_ (sc_linger (sr_value r) 1 1) s2) as Hl. unfold same_open in Hl.
  assert (∃ s3, sys_ (sc_linger (sr_value r) 1 1) s2 = (Ret (), s3)) as [s3 Hs3].
  { unfold sys_. rewrite run_bind. pose proof (sys_value (sc_linger (sr_value r) 1 1) s2) as Hv.
    destruct (sys (sc_linger (sr_value r) 1 1) s2) as [o t]. cbn in Hv. subst o. by eexists. }
  rewrite Hs3 in Hl |- *. cbn [snd] in Hl. rewrite run_bind. unfold connectTo. rewrite run_bind. unfold setBlocking.
  rewrite run_bind. pose proof (sys_value (sc_getfl (sr_value r)) s3) as Hv.
  pose proof (keeps_sys (sc_getfl (sr_value r)) s3) as Hg. unfold same_open in Hg.
  destruct (sys (sc_getfl (sr_value r)) s3) as [o s4]. cbn in Hv, Hg. subst o.
  rewrite (proj2 (Z.ltb_lt _ _)) by apply Hget. cbn. split; [done|]. exists (sr_value r).
  rewrite Hg, Hl. cbn [ss_kernel s2]. by rewrite Hk, Ho, <- Ho.
Qed.
End owners.

(** * A concrete kernel

    It gives the lowest free descriptor, and everything succeeds. *)
Definition demo_sock_sys (c : sock_call) (k : gset nat) : sock_ret * gset nat :=
  match c with
  | sc_socket | sc_accept _ => let fd := fresh k in (mkSockRet (Z.of_nat fd) 0 0, {[fd]} ∪ k)
  | sc_close fd => (mkSockRet 0 0 0, if 0 <=? fd then k ∖ {[Z.to_nat fd]} else k)
  | sc_getfl _ => (mkSockRet 2 0 0, k)
  | _ => (mkSockRet 0 0 0, k)
  end.
#[export] Instance demo_sock_kernel : SockKernel := {| SK := gset nat; sock_sys := demo_sock_sys |}.
#[export] Instance demo_sock_laws : SockKernelLaws (H := demo_sock_kernel).
Proof.
  refine (Build_SockKernelLaws demo_sock_kernel (λ k, set_map Z.of_nat (k : gset nat)) _ _ _ _).
  - intros k. unfold opened. cbn. rewrite (proj2 (Z.leb_le 0 _)) by lia. split; [|set_solver].
    intros (n & Hn & Hin)%elem_of_map. apply Nat2Z.inj in Hn as <-. by apply (is_fresh k).
  - intros fd k. unfold opened. cbn. rewrite (proj2 (Z.leb_le 0 _)) by lia. split; [|set_solver].
    intros (n & Hn & Hin)%elem_of_map. apply Nat2Z.inj in Hn as <-. by apply (is_fresh k).
  - intros fd k. cbn. apply set_eq. intros x. rewrite elem_of_difference, elem_of_singleton.
    destruct (Z.leb_spec 0 fd) as [Hpos|Hneg]; rewrite !elem_of_map.
    + setoid_rewrite elem_of_difference. setoid_rewrite elem_of_singleton. split.
      * intros (n & -> & Hin & Hne). split; [by exists n|]. lia.
      * intros [(n & -> & Hin) Hne]. exists n. split; [done|]. split; [done|]. lia.
    + split; [|tauto]. intros (n & -> & Hin). split; [by exists n|]. lia.
  - intros [] k; try exact I; reflexivity.
Defined.

Lemma demo_fcntl : fcntl_works (H := demo_sock_kernel).
Proof. intros fd flags k. cbn. lia. Qed.

(** A socket that listens, a connection that it accepts, and both destroyed. *)
Definition demo_open0 : gset nat := {[0; 1; 2]}%nat.
Definition demo_socks0 : Socks (H := demo_sock_kernel) := mkSocks (H := demo_sock_kernel) demo_open0 0.
Definition demo_listen : Socks := (newSocket 0 listen DEFAULT_FAASM_CEPH_SOCKET_PATH demo_socks0).2.
Definition demo_listening : CephFaasmSocket := mkCephSocket listen DEFAULT_FAASM_CEPH_SOCKET_PATH 3.
Definition demo_accepted : CephFaasmSocket := mkCephSocket connect DEFAULT_FAASM_CEPH_SOCKET_PATH 4.
Definition demo_accept : Socks := (acceptSocket 0 demo_listening demo_listen).2.
Definition demo_process : Process := mkProcess demo_accept {[0%nat := demo_listening; 1%nat := demo_accepted]} ∅.

Lemma demo_made : newSocket 0 listen DEFAULT_FAASM_CEPH_SOCKET_PATH demo_socks0 = (Ret demo_listening, demo_listen).
Proof. vm_compute. reflexivity. Qed.
Lemma demo_took : acceptSocket 0 demo_listening demo_listen = (Ret demo_accepted, demo_accept).
Proof. vm_compute. reflexivity. Qed.

Lemma demo_process_reached : rtc sock_step (mkProcess demo_socks0 ∅ ∅) demo_process.
Proof.
  eapply (rtc_l _ _ (mkProcess demo_listen {[0%nat := demo_listening]} ∅)).
  { by apply (st_new 0 0 listen DEFAULT_FAASM_CEPH_SOCKET_PATH). }
  eapply (rtc_l _ _ demo_process); [by apply (st_accept 0 1 0 demo_listening)|apply rtc_refl].
Qed.

(** The connection is then assigned to the socket that listened, whose descriptor is lost. *)
Definition demo_assigned : Process := mkProcess demo_accept
  (<[1%nat := (assignSocket demo_listening demo_accepted).2]> (<[0%nat := (assignSocket demo_listening demo_accepted).1]>
     (pr_live demo_process))) (descriptor demo_listening ∪ ∅).

Lemma descriptors_owned_witness :
  owns (pr_live demo_assigned) 0 4 ∧ pr_lost demo_assigned = {[3]} ∧
  3 ∈ sk_open (ss_kernel (pr_socks demo_assigned)) ∧ 4 ∈ sk_open (ss_kernel (pr_socks demo_assigned)) ∧
  ¬ ∃ i, owns (pr_live demo_assigned) i 3.
Proof.
  assert (rtc sock_step (mkProcess demo_socks0 ∅ ∅) demo_assigned) as Hsteps.
  { eapply rtc_r; [exact demo_process_reached|]. exact (st_assign 1 0 demo_accepted demo_listening demo_process eq_refl eq_refl). }
  destruct (descriptors_owned demo_socks0 demo_assigned demo_fcntl Hsteps) as (Ho & Hb & _).
  assert (owns (pr_live demo_assigned) 0 4) as H4 by (split; [lia|]; eexists; split; reflexivity).
  assert (pr_lost demo_assigned = {[3]}) as Hl by (vm_compute; reflexivity).
  split; [exact H4|]. split; [exact Hl|]. split.
  { apply Ho. left. rewrite Hl. apply elem_of_union. right. by apply elem_of_singleton. }
  split; [apply Ho; right; by exists 0%nat|]. intros [i Hi]. apply (Hb i 3 Hi). rewrite Hl. apply elem_of_union. right. by apply elem_of_singleton.
Defined.
