(* ===== verification/CephClass.v ===== *)
(** The object class of the storage daemon (src/cephclass/cephclass.cpp): a
    near-data call is forwarded to the worker on the node, and while the function
    runs there its reads and writes of the object are served. *)

From S2P Require Import Prelude WasmBytes NdpMessages.

(** * Parameters *)

(** The object the call is for, as the daemon lets a class use it: a result,
    negative for an error number.  Offsets and lengths are [int]. *)
Class CephObject := {
  O : Type;
  cls_cxx_read : Z → Z → O → Z * list Z;
  cls_cxx_write : Z → Z → list Z → O → Z * O }.

(** What the class finds when it waits for the worker: nothing within the time,
    a failure, or a buffer, which is a message or does not verify. *)
Inductive sock_event (A : Type) : Type :=
  | ev_timeout
  | ev_throw (what : string)
  | ev_data (msg : option A).
Arguments ev_timeout {A}.
Arguments ev_throw {A} _.
Arguments ev_data {A} _.

(** What it sends to the worker: the request with the name of the host, the
    answer to a message, or an error. *)
Inductive reply : Type :=
  | Forwarded (request : list Z) (osd_name : string)
  | Data (bytes : list Z)
  | ErrorReply.

(** The object, what was sent, and the responses put in the output. *)
Record ClassState `{CephObject} := mkClass { obj : O; sent : list reply; out : list NdpResponse }.
Arguments mkClass {_} _ _ _.

(** The input of a call: its bytes, and the call id when it verifies. *)
Record NdpInput := mkNdpInput { in_bytes : list Z; in_call_id : option Z }.

(** How the block under [try] ends: with an early return, with a result to
    respond with, or it waits for more. *)
Inductive session_end : Type :=
  | Early (code : Z)
  | Done (result : NdpResult) (errorMsg : string)
  | Serving.

Section cephclass.
Context `{CephObject}.

(** The name of the host, what a send throws after what was sent, and the text
    of [errno] when an exception is caught. *)
Context (myHostname : string) (send_throws : list reply → option string) (strerror : string).

Abbreviation ClassM := (M ClassState).

(** * The operations *)

Definition sendReply (r : reply) : ClassM unit :=
  s ← get;
  match send_throws (sent s) with
  | Some w => throw (RuntimeError w)
  | None => put (mkClass (obj s) (sent s ++ [r]) (out s))
  end.

Definition respond (r : NdpResponse) : ClassM unit :=
  modify (λ s, mkClass (obj s) (sent s) (out s ++ [r])).

(** One message of the function: whether the loop goes on. *)
Definition handleMessage (callId : Z) (topMsg : StorageMessage) : ClassM bool :=
  if bool_decide (sm_call_id topMsg ≠ callId)
  then throw (RuntimeError "Mismatched call ids in storage message!")
  else match sm_message topMsg with
  | NdpEnd => mret false
  | NdpRead offset upto_length =>
      s ← get;
      let '(ec, readBuffer) := cls_cxx_read (i32 offset) (i32 upto_length) (obj s) in
      if ec <? 0 then sendReply ErrorReply ;; throw (RuntimeError "Error in a read operation")
      else sendReply (Data readBuffer) ;; mret true
  | NdpWrite offset data =>
      s ← get;
      let '(ec, o) := cls_cxx_write (i32 offset) (i32 (Z.of_nat (length data))) data (obj s) in
      put (mkClass o (sent s) (out s)) ;;
      if ec <? 0 then sendReply ErrorReply ;; throw (RuntimeError "Error in a write operation")
      else sendReply (Data OK_MSG) ;; mret true
  | NoMessage => sendReply ErrorReply ;; throw (RuntimeError "Invalid storage message type")
  end.

(** The loop, over what each turn finds. *)
Fixpoint serve (callId : Z) (evs : list (sock_event StorageMessage)) : ClassM session_end :=
  match evs with
  | [] => mret Serving
  | ev_timeout :: _ =>
      mret (Done NdpResult_Error "[Running Polling] Timed out waiting for Faasm-storage messages")
  | ev_throw w :: _ => throw (RuntimeError w)
  | ev_data None :: _ => throw invalid_flatbuffer
  | ev_data (Some topMsg) :: rest =>
      running ← handleMessage callId topMsg;
      if running : bool then serve callId rest else mret (Done NdpResult_Ok "")
  end.

(** The block under [try]; [connect] is what making the socket throws. *)
Definition session (input : NdpInput) (connect : option string) (initial : sock_event NdpResponse)
    (evs : list (sock_event StorageMessage)) : ClassM session_end :=
  match in_call_id input, connect with
  | None, _ => throw invalid_flatbuffer
  | _, Some w => throw (RuntimeError w)
  | Some callId, None =>
      sendReply (Forwarded (in_bytes input) myHostname) ;;
      match initial with
      | ev_timeout => mret (Early (- ETIMEDOUT))
      | ev_throw w => throw (RuntimeError w)
      | ev_data None => throw invalid_flatbuffer
      | ev_data (Some response) =>
          if bool_decide (nr_call_id response ≠ callId) then throw (RuntimeError "Mismatched call ids!")
          else if bool_decide (nr_result response ≠ NdpResult_Ok) then respond response ;; mret (Early 0)
          else serve callId evs
      end
  end.

(** [callId] is 0 until the request is read. *)
Definition call_id_of (input : NdpInput) : Z := default 0 (in_call_id input).

Definition caught (input : NdpInput) (e : exn) : string :=
  "Exception caught in maybe_exec_wasm call " +:+ to_string (call_id_of input) +:+ ": " +:+ exn_what e
    +:+ "; errno=" +:+ strerror.

(** [maybe_exec_wasm]: no result while it still serves. *)
Definition maybe_exec_wasm (inBuffers : option NdpInput) (outBuffers readAllowed writeAllowed : bool)
    (connect : option string) (initial : sock_event NdpResponse) (evs : list (sock_event StorageMessage))
    : ClassM (option Z) :=
  match inBuffers with
  | None => mret (Some (- EINVAL))
  | Some input =>
      if negb outBuffers || negb (readAllowed || writeAllowed) then mret (Some (- EINVAL))
      else
        e ← try_catch (session input connect initial evs)
              (λ e, mret (Done NdpResult_Error (caught input e)));
        match e with
        | Early code => mret (Some code)
        | Serving => mret None
        | Done result errorMsg =>
            respond (mkNdpResponse (call_id_of input) result errorMsg) ;; mret (Some 0)
        end
  end.

(** The methods of the class. *)
Definition maybe_exec_wasm_ro inBuffers outBuffers := maybe_exec_wasm inBuffers outBuffers true false.
Definition maybe_exec_wasm_rw inBuffers outBuffers := maybe_exec_wasm inBuffers outBuffers true true.
Definition maybe_exec_wasm_wo inBuffers outBuffers := maybe_exec_wasm inBuffers outBuffers false true.

(** What [CLS_INIT] registers: the name of a method, the flags that tell Ceph what it may
    do, and the method. *)
Inductive cls_flag : Type := CLS_METHOD_RD | CLS_METHOD_WR.
#[export] Instance cls_flag_eq_dec : EqDecision cls_flag.
Proof. solve_decision. Defined.
Definition CLS_INIT := [
  ("maybe_exec_wasm_ro", [CLS_METHOD_RD], maybe_exec_wasm_ro);
  ("maybe_exec_wasm_rw", [CLS_METHOD_RD; CLS_METHOD_WR], maybe_exec_wasm_rw);
  ("maybe_exec_wasm_wo", [CLS_METHOD_WR], maybe_exec_wasm_wo)].

(** Each method is told what it was registered for. *)
Lemma CLS_INIT_flags : Forall (λ m, m.2 = λ inBuffers outBuffers,
  maybe_exec_wasm inBuffers outBuffers (bool_decide (CLS_METHOD_RD ∈ m.1.2)) (bool_decide (CLS_METHOD_WR ∈ m.1.2))) CLS_INIT.
Proof. unfold CLS_INIT. rewrite !Forall_cons. split_and!; [reflexivity..|apply Forall_nil_2]. Qed.

(** * How a call ends *)

Definition is_request (m : StorageMessage) : bool :=
  match sm_message m with NdpRead _ _ | NdpWrite _ _ => true | _ => false end.

(** The function's messages up to its end, each a request of this call, and as
    many replies. *)
Definition answered (callId : Z) (evs : list (sock_event StorageMessage)) (replies : list (list Z)) : Prop :=
  ∃ msgs rest, evs = ((λ m, ev_data (Some m)) <$> msgs) ++ ev_data (Some (mkStorageMessage callId NdpEnd)) :: rest ∧
    Forall (λ m, sm_call_id m = callId ∧ is_request m = true) msgs ∧ length replies = length msgs.

Lemma handleMessage_cases callId m s :
  out (handleMessage callId m s).2 = out s ∧
  match (handleMessage callId m s).1 with
  | Ret true => sm_call_id m = callId ∧ is_request m = true ∧
      ∃ bs, sent (handleMessage callId m s).2 = sent s ++ [Data bs]
  | Ret false => m = mkStorageMessage callId NdpEnd ∧ (handleMessage callId m s).2 = s
  | Throw e => True
  end.
Proof.
  unfold handleMessage, is_request, sendReply, get, put, throw, mret, M_ret, mbind, M_bind.
  destruct m as [id msg]. cbn [sm_call_id sm_message]. case_bool_decide as Hid; [done|].
  assert (id = callId) as -> by (by destruct (decide (id = callId))).
  destruct msg as [off n|off data| |].
  - destruct (cls_cxx_read _ _ _) as [ec bs]. destruct (ec <? 0), (send_throws (sent s)); cbn; eauto 6.
  - destruct (cls_cxx_write _ _ _ _) as [ec o]. destruct (ec <? 0); cbn [sent];
      destruct (send_throws (sent s)); cbn; eauto 6.
  - done.
  - by destruct (send_throws (sent s)).
Qed.

Lemma serve_cases callId evs s :
  out (serve callId evs s).2 = out s ∧
  match (serve callId evs s).1 with
  | Ret (Early _) => False
  | Ret (Done NdpResult_Ok _) => ∃ replies, answered callId evs replies ∧
      sent (serve callId evs s).2 = sent s ++ (Data <$> replies)
  | _ => True
  end.
Proof.
  revert s. induction evs as [|ev evs IH]; intros s; [done|]. cbn [serve].
  destruct ev as [|w|[m|]]; [done..| |done].
  pose proof (handleMessage_cases callId m s) as [Hout Hm]. rewrite run_bind.
  destruct (handleMessage callId m s) as [[running|e] s1]; cbn [fst snd] in *; [|done].
  destruct running.
  - destruct Hm as (Hid & Hreq & bs & Hsent). destruct (IH s1) as [Hout1 H1]. rewrite Hout1. split; [done|].
    destruct (serve callId evs s1) as [[[code|[]|]|e] s2]; cbn [fst snd] in *; try done.
    destruct H1 as (replies & (msgs & rest & -> & Hall & Hlen) & Hs2).
    exists (bs :: replies). split; [|by rewrite Hs2, Hsent, <- app_assoc].
    exists (m :: msgs), rest. split; [done|]. split; [by constructor|]. by cbn; f_equal.
  - destruct Hm as [-> ->]. cbn. split; [done|]. exists []. split; [|by rewrite app_nil_r].
    exists [], evs. done.
Qed.

(** C36: A call never throws to the daemon.  It is refused for its arguments or
    because the worker does not answer in time, without a response; or it
    returns 0 with one response that names the call; or it still serves.  A
    response Ok means that the function came to its end, after each of its
    requests was answered with data, in order and once. *)
Theorem maybe_exec_wasm_outcome input outBuffers readAllowed writeAllowed connect initial evs s :
  let run := maybe_exec_wasm (Some input) outBuffers readAllowed writeAllowed connect initial evs s in
  match run.1 with
  | Throw _ => False
  | Ret None => out run.2 = out s
  | Ret (Some code) =>
      ((code = - EINVAL ∨ code = - ETIMEDOUT) ∧ out run.2 = out s) ∨
      (code = 0 ∧ ∃ r, out run.2 = out s ++ [r] ∧ nr_call_id r = call_id_of input ∧
        (nr_result r = NdpResult_Ok → ∃ replies, answered (call_id_of input) evs replies ∧
           sent run.2 = sent s ++ Forwarded (in_bytes input) myHostname :: (Data <$> replies)))
  end.
Proof.
  intros run. unfold run, maybe_exec_wasm. destruct (negb _ || _); [by left; auto|].
  unfold session, sendReply, respond, try_catch, modify, get, put, throw, mret, M_ret, mbind, M_bind, call_id_of.
  assert (∀ s1, out s1 = out s → ∀ msg, ∃ r, out s1 ++ [mkNdpResponse (default 0 (in_call_id input)) NdpResult_Error msg] =
    out s ++ [r] ∧ nr_call_id r = default 0 (in_call_id input) ∧ nr_result r = NdpResult_Error) as Herr.
  { intros s1 -> msg. by eexists. }
  destruct (in_call_id input) as [callId|]; [|right; split; [done|]; by eexists].
  destruct connect as [w|]; [right; split; [done|]; by eexists|].
  destruct (send_throws (sent s)); [right; split; [done|]; by eexists|]. cbn [sent out].
  destruct initial as [|w|[r|]]; [by left; auto|right; split; [done|]; by eexists| |right; split; [done|]; by eexists].
  case_bool_decide as Hid; [right; split; [done|]; by eexists|]. assert (nr_call_id r = callId) as Hid' by (by destruct (decide (nr_call_id r = callId))).
  case_bool_decide as Hok; [right; split; [done|]; by exists r|].
  destruct (serve_cases callId evs (mkClass (obj s) (sent s ++ [Forwarded (in_bytes input) myHostname]) (out s)))
    as [Hout Hend].
  destruct (serve callId evs _) as [[[code|result msg|]|e] s1]; cbn [fst snd out sent] in *; [done| |done|].
  - right. split; [done|]. eexists. rewrite Hout. split; [done|]. split; [done|]. cbn. intros ->.
    destruct Hend as (replies & Hans & Hsent). exists replies. split; [done|]. by rewrite Hsent, <- app_assoc.
  - right. split; [done|]. eexists. rewrite Hout. by split.
Qed.

(** * What is served

    A request handed to the object: the result, the answer if that is no error, and the
    object afterwards. *)
Definition ask (m : TypedStorageMessage) (o : O) : Z * list Z * O :=
  match m with
  | NdpRead off n => (cls_cxx_read (i32 off) (i32 n) o, o)
  | NdpWrite off data =>
      let '(ec, o') := cls_cxx_write (i32 off) (i32 (Z.of_nat (length data))) data o in (ec, OK_MSG, o')
  | NdpEnd | NoMessage => (0, [], o)
  end.

(** The requests of a function, one after the other until the object refuses one: the
    replies, why it was refused, and the object afterwards. *)
Definition refusal (m : TypedStorageMessage) : string :=
  match m with NdpRead _ _ => "Error in a read operation" | _ => "Error in a write operation" end.
Fixpoint object_run (msgs : list TypedStorageMessage) (o : O) : list reply * option string * O :=
  match msgs with
  | [] => ([], None, o)
  | m :: rest =>
      let '(ec, answer, o1) := ask m o in
      if ec <? 0 then ([ErrorReply], Some (refusal m), o1)
      else let '(replies, why, o2) := object_run rest o1 in (Data answer :: replies, why, o2)
  end.

Definition asks (m : TypedStorageMessage) : Prop :=
  match m with NdpRead _ _ | NdpWrite _ _ => True | _ => False end.

(** The messages of a function that comes to its end, and whatever else is on the socket. *)
Definition session_of (callId : Z) (msgs : list TypedStorageMessage) (rest : list (sock_event StorageMessage)) :=
  ((λ m, ev_data (Some (mkStorageMessage callId m))) <$> msgs) ++
    ev_data (Some (mkStorageMessage callId NdpEnd)) :: rest.

Section served.
Context (sends : ∀ l, send_throws l = None).

Lemma handle_asks callId m s :
  asks m →
  let '(ec, answer, o) := ask m (obj s) in
  handleMessage callId (mkStorageMessage callId m) s =
    if ec <? 0 then (Throw (RuntimeError (refusal m)), mkClass o (sent s ++ [ErrorReply]) (out s))
    else (Ret true, mkClass o (sent s ++ [Data answer]) (out s)).
Proof.
  intros Hm. unfold handleMessage, ask, sendReply, get, put, throw, mret, M_ret, mbind, M_bind. cbn [sm_call_id sm_message].
  rewrite bool_decide_eq_false_2 by (intros Hne; by apply Hne).
  destruct m as [off n|off data| |]; [..|done|done].
  - destruct (cls_cxx_read _ _ _) as [ec bs]. destruct (ec <? 0); by rewrite sends.
  - destruct (cls_cxx_write _ _ _ _) as [ec o]. destruct (ec <? 0); cbn [sent obj out]; by rewrite sends.
Qed.

Lemma serve_asks callId msgs rest s :
  Forall asks msgs →
  let '(replies, why, o) := object_run msgs (obj s) in
  serve callId (session_of callId msgs rest) s =
    (match why with None => Ret (Done NdpResult_Ok "") | Some w => Throw (RuntimeError w) end,
     mkClass o (sent s ++ replies) (out s)).
Proof.
  intros Hall. revert s. induction Hall as [|m msgs Hm _ IH]; intros s.
  - cbn. unfold handleMessage. cbn [sm_call_id sm_message].
    rewrite bool_decide_eq_false_2 by (intros Hne; by apply Hne). rewrite app_nil_r. by destruct s.
  - cbn [object_run]. pose proof (handle_asks callId m s Hm) as Hrun.
    destruct (ask m (obj s)) as [[ec answer] o1]. unfold session_of. cbn [fmap list_fmap app serve].
    rewrite run_bind, Hrun. destruct (ec <? 0); [done|].
    specialize (IH (mkClass o1 (sent s ++ [Data answer]) (out s))). cbn [obj sent out] in IH.
    destruct (object_run msgs o1) as [[replies why] o2]. fold (session_of callId msgs rest). rewrite IH.
    by rewrite <- app_assoc.
Qed.

(** C21: The requests of a function that the worker takes are handed to the object in order,
    until it refuses one or the function ends, and nothing that comes later is looked at:
    each is answered with the object's own result, the refused one with an error; the
    object ends as those calls leave it; and the one response is Ok when none was refused
    and names the refusal otherwise.  That is so under each of the three methods alike: what
    a method allows is not looked at while serving.  Sending to the worker is taken to
    succeed. *)
Theorem maybe_exec_wasm_serves bytes callId readAllowed writeAllowed msgs rest err s :
  readAllowed || writeAllowed = true → Forall asks msgs →
  let '(replies, why, o) := object_run msgs (obj s) in
  let input := mkNdpInput bytes (Some callId) in
  maybe_exec_wasm (Some input) true readAllowed writeAllowed None
      (ev_data (Some (mkNdpResponse callId NdpResult_Ok err))) (session_of callId msgs rest) s =
    (Ret (Some 0), mkClass o (sent s ++ Forwarded bytes myHostname :: replies)
      (out s ++ [match why with
                 | None => mkNdpResponse callId NdpResult_Ok ""
                 | Some w => mkNdpResponse callId NdpResult_Error (caught input (RuntimeError w))
                 end])).
Proof.
  intros Hflags Hall. unfold maybe_exec_wasm. rewrite Hflags. cbn [negb orb].
  pose proof (serve_asks callId msgs rest (mkClass (obj s) (sent s ++ [Forwarded bytes myHostname]) (out s)) Hall) as Hrun.
  cbn [obj sent out] in Hrun. destruct (object_run msgs (obj s)) as [[replies why] o]. cbv zeta.
  unfold session, sendReply, respond, try_catch, modify, get, put, throw, mret, M_ret, mbind, M_bind, call_id_of.
  cbn [in_call_id in_bytes default nr_call_id nr_result]. rewrite sends.
  rewrite bool_decide_eq_false_2 by (intros Hne; by apply Hne).
  rewrite bool_decide_eq_false_2 by (intros Hne; by apply Hne).
  rewrite Hrun, <- app_assoc. by destruct why.
Qed.
End served.
End cephclass.

(** * A concrete object *)

(** [data] written at [off] over the bytes; a gap before it reads as zeros.  Writes are
    refused past the first sixteen bytes. *)
Definition overlay (off : Z) (data b : list Z) : list Z :=
  resize (Z.to_nat off) 0 b ++ data ++ drop (Z.to_nat off + length data) b.
#[export] Instance demo_object : CephObject := {
  O := list Z;
  cls_cxx_read off len o :=
    let slice := take (Z.to_nat len) (drop (Z.to_nat off) o) in (Z.of_nat (length slice), slice);
  cls_cxx_write off len data o := if 16 <? off + len then (- ERANGE, o) else (0, overlay off data o) }.

Lemma maybe_exec_wasm_serves_witness :
  let msgs := [NdpRead 1 2; NdpWrite 0 [9; 9]; NdpRead 0 3; NdpWrite 16 [1]; NdpRead 0 1] in
  let s := mkClass ([1; 2; 3; 4] : @O demo_object) [] [] in
  let s' := (maybe_exec_wasm_ro "osd" (λ _, None) "" (Some (mkNdpInput [7] (Some 5))) true None
    (ev_data (Some (mkNdpResponse 5 NdpResult_Ok ""))) (session_of 5 msgs []) s).2 in
  sent s' = [Forwarded [7] "osd"; Data [2; 3]; Data OK_MSG; Data [9; 9; 3]; ErrorReply] ∧ obj s' = [9; 9; 3; 4].
Proof.
  intros msgs s s'.
  assert (Forall asks msgs) as Hall by (repeat (constructor; [exact I|]); constructor).
  pose proof (maybe_exec_wasm_serves "osd" (λ _, None) "" (λ _, eq_refl) [7] 5 true false msgs [] "" s eq_refl Hall)
    as Hserve. unfold s', maybe_exec_wasm_ro. cbv zeta in Hserve.
  change (object_run msgs (obj s)) with
    ([Data [2; 3]; Data OK_MSG; Data [9; 9; 3]; ErrorReply], Some "Error in a write operation", [9; 9; 3; 4] : @O demo_object) in Hserve.
  cbv iota beta in Hserve. rewrite Hserve. split; reflexivity.
Defined.
