(* ===== verification/NdpChannel.v ===== *)
(** What a function that runs on a storage node relies on when it sends a
    request for its object and waits for the answer, as an interface; and its
    implementation by the endpoint (src/wasm/ndp_endpoint.cpp) with the object
    class (src/cephclass/cephclass.cpp) at the other end. *)

From S2P Require Import Prelude WasmBytes NdpMessages CephClass.

(** * The interface *)

(** Sending a message for a call and waiting for its answer, on some state. *)
Class NdpChannel := {
  Ch : Type;
  ndp_send : Z → TypedStorageMessage → Ch → outcome unit * Ch;
  awaitNdpResponse : Z → Ch → outcome (list Z) * Ch }.

(** * The implementation *)

(** A session of the object class for one call: its state, whether it still
    serves, and the last message that came back to the endpoint. *)
Record Session `{CephObject} := mkSession {
  se_call : Z; se_class : ClassState; se_running : bool; se_last : option (list Z) }.
Arguments mkSession {_} _ _ _ _.

Section session.
Context `{CephObject} (send_throws : list reply → option string).

Definition no_socket (id : Z) : exn := RuntimeError ("No NDP socket found for call id " +:+ to_string id).

(** The message that a reply leaves with the endpoint: an error leaves none,
    since its size is no size of a message. *)
Definition last_of (replies : list reply) (old : option (list Z)) : option (list Z) :=
  match last replies with Some (Data bs) => Some bs | _ => old end.

(** [getNdpSocketFromCall] and [sendMessage]; the class handles the message. *)
Definition session_send (id : Z) (m : TypedStorageMessage) (c : Session) : outcome unit * Session :=
  if bool_decide (id ≠ se_call c) then (Throw (no_socket id), c)
  else if negb (se_running c) then (Ret (), c)
  else
    let '(o, s) := handleMessage send_throws (se_call c) (mkStorageMessage id m) (se_class c) in
    (Ret (), mkSession (se_call c) s (bool_decide (o = Ret true))
               (last_of (drop (length (sent (se_class c))) (sent s)) (se_last c))).

Definition session_await (id : Z) (c : Session) : outcome (list Z) * Session :=
  if bool_decide (id ≠ se_call c) then (Throw (no_socket id), c)
  else match se_last c with
  | None => (Throw (Blocked "awaitNdpResponse"), c)
  | Some bs => (Ret bs, mkSession (se_call c) (se_class c) (se_running c) None)
  end.

#[export] Instance session_channel : NdpChannel := {
  Ch := Session;
  ndp_send := session_send;
  awaitNdpResponse := session_await }.

(** A request that the class answers with an error leaves the caller waiting. *)
Lemma error_reply_blocks id m c :
  id = se_call c → se_running c = true → se_last c = None → m ≠ NdpEnd →
  (∀ l, send_throws l = None) →
  match m with
  | NdpRead off n => (cls_cxx_read (i32 off) (i32 n) (obj (se_class c))).1 < 0
  | NdpWrite off data => (cls_cxx_write (i32 off) (i32 (Z.of_nat (length data))) data (obj (se_class c))).1 < 0
  | _ => True
  end →
  ∃ c1, session_send id m c = (Ret (), c1) ∧ (session_await id c1).1 = Throw (Blocked "awaitNdpResponse").
Proof.
  intros -> Hrun Hlast Hend Hsends Hec. unfold session_send, session_await.
  rewrite bool_decide_eq_false_2 by (intros Hne; by apply Hne). rewrite Hrun. cbn [negb].
  unfold handleMessage, sendReply, get, put, throw, mret, M_ret, mbind, M_bind. cbn [sm_call_id sm_message].
  rewrite bool_decide_eq_false_2 by (intros Hne; by apply Hne). destruct m as [off n|off data| |]; [..|done|].
  - destruct (cls_cxx_read _ _ _) as [ec bs]. cbn [fst] in Hec. rewrite (proj2 (Z.ltb_lt _ _)) by lia.
    rewrite Hsends. cbn [sent]. rewrite drop_app_length. eexists. split; [reflexivity|].
    cbn [se_call se_last last_of last]. rewrite bool_decide_eq_false_2 by (intros Hne; by apply Hne). by rewrite Hlast.
  - destruct (cls_cxx_write _ _ _ _) as [ec o]. cbn [fst] in Hec. rewrite (proj2 (Z.ltb_lt _ _)) by lia.
    cbn [sent]. rewrite Hsends. cbn [sent]. rewrite drop_app_length. eexists. split; [reflexivity|].
    cbn [se_call se_last last_of last]. rewrite bool_decide_eq_false_2 by (intros Hne; by apply Hne). by rewrite Hlast.
  - rewrite Hsends. cbn [sent]. rewrite drop_app_length. eexists. split; [reflexivity|].
    cbn [se_call se_last last_of last]. rewrite bool_decide_eq_false_2 by (intros Hne; by apply Hne). by rewrite Hlast.
Qed.
End session.
