(* ===== verification/NdpCalls.v ===== *)
(** The calls of near-data functions (src/wavm/ndp_objects.cpp): writing and
    mapping objects, on the storage node through the channel of the call and
    elsewhere through the object store; and calling a function next to an
    object. *)

From S2P Require Import Prelude WasmBytes S3 WasmMemory Globals NdpMessages CephClass NdpChannel.

(** * State *)

(** The message that executes, and the host. *)
Record NdpCall := mkNdpCall {
  call_id : Z; call_user : string; call_function : string; ndpcallobjectname : string; forbidndp : bool }.
Record NdpHost := mkNdpHost { isStorageNode : bool; endpointHost : string }.

(** A function's type, as far as it is checked: the number of results, and for
    each parameter whether it is an [i32]. *)
Record FunctionType := mkFunctionType { ft_results : Z; ft_params : list bool }.

(** The result of a call on a storage node. *)
Record NdpCallResult := mkCallResult { res_returnvalue : Z; res_outputdata : list Z; res_wasmglobals : list Z }.

Section ndp.
Context `{E : MemoryEnv} `{Rados} `{NdpChannel} `{!GlobalApi}.

(** The module with the bytes of its memory, its globals (those that exist)
    and the regions excluded from snapshots; the object store; the channel; the
    handlers and result slots registered for near-data calls, and the output of
    the call. *)
Record NdpState := mkNdpState {
  nd_module : WasmModule; nd_mem : Mem; nd_globals : list (option Global);
  snapshotExcludedPtrLens : list (Z * Z);
  nd_s3 : S3State; nd_ch : Ch;
  ndpDeltaHandlers : gset Z; localResults : gset Z; nd_outputdata : list Z }.

Definition set_mem (m : Mem) (s : NdpState) : NdpState :=
  mkNdpState (nd_module s) m (nd_globals s) (snapshotExcludedPtrLens s) (nd_s3 s) (nd_ch s)
    (ndpDeltaHandlers s) (localResults s) (nd_outputdata s).
Definition set_module (mo : WasmModule) (s : NdpState) : NdpState :=
  mkNdpState mo (nd_mem s) (nd_globals s) (snapshotExcludedPtrLens s) (nd_s3 s) (nd_ch s)
    (ndpDeltaHandlers s) (localResults s) (nd_outputdata s).
Definition set_globals (g : list (option Global)) (s : NdpState) : NdpState :=
  mkNdpState (nd_module s) (nd_mem s) g (snapshotExcludedPtrLens s) (nd_s3 s) (nd_ch s)
    (ndpDeltaHandlers s) (localResults s) (nd_outputdata s).
Definition set_s3 (t : S3State) (s : NdpState) : NdpState :=
  mkNdpState (nd_module s) (nd_mem s) (nd_globals s) (snapshotExcludedPtrLens s) t (nd_ch s)
    (ndpDeltaHandlers s) (localResults s) (nd_outputdata s).
Definition set_handlers (h : gset Z) (s : NdpState) : NdpState :=
  mkNdpState (nd_module s) (nd_mem s) (nd_globals s) (snapshotExcludedPtrLens s) (nd_s3 s) (nd_ch s)
    h (localResults s) (nd_outputdata s).
Definition set_slots (r : gset Z) (s : NdpState) : NdpState :=
  mkNdpState (nd_module s) (nd_mem s) (nd_globals s) (snapshotExcludedPtrLens s) (nd_s3 s) (nd_ch s)
    (ndpDeltaHandlers s) r (nd_outputdata s).
Definition set_outputdata (bs : list Z) (s : NdpState) : NdpState :=
  mkNdpState (nd_module s) (nd_mem s) (nd_globals s) (snapshotExcludedPtrLens s) (nd_s3 s) (nd_ch s)
    (ndpDeltaHandlers s) (localResults s) bs.

Abbreviation NdpM := (M NdpState).

(** * Parameters

    The executing call and the host; the types of functions; what submitting a
    call to librados gives with the response in its output, if it verifies; the
    result the scheduler gets; faabric's application of a delta, given the
    callback for sizes; WAVM's invocation; a fresh identifier; and whether the build
    has the debug messages, whose arguments are evaluated then. *)
Context (call : NdpCall) (host : NdpHost) (boundUser : string)
  (getFunctionFromPtr : Z → outcome FunctionType)
  (rados_aio_exec : string → string → string → string → NdpRequest → Z * option NdpResponse)
  (getFunctionResult : Z → outcome NdpCallResult)
  (applyDelta : list Z → (Z → NdpM unit) → NdpM unit)
  (invokeFunction : Z → list Z → NdpM Z)
  (generateGid : Z) (debug_logging : bool).

(** * Memory and store *)

(** A call on the module: new pages are zero, pages given up are gone. *)
Definition on_module {A} (m : M WasmModule A) : NdpM A := λ s,
  let '(o, mo) := m (nd_module s) in
  (o, set_mem (resize (Z.to_nat (getMemorySizeBytes mo)) 0 (nd_mem s)) (set_module mo s)).

Definition on_s3 {A} (m : M S3State A) : NdpM A := zoom nd_s3 set_s3 m.

(** [memoryArrayPtr], and a copy into it. *)
Definition read_array (a n : Z) : NdpM (list Z) := s ← get; lift (mem_read (nd_mem s) a n).
Definition check_range (a n : Z) : NdpM unit :=
  s ← get; if in_mem (nd_mem s) a n then mret () else throw oob.



(** * Objects *)


Definition faasmndp_unmap (offset length : Z) : NdpM Z :=
  on_module (unmapMemory (u32 offset) (u32 length)) ;; mret 0.







(** * Calling a function next to an object *)

(** [WAVMWasmModule::getGlobals] and [updateGlobal] *)
Definition getGlobals (s : NdpState) : list Z := globalValues (nd_globals s).
Definition updateGlobal (idx : nat) (value : Z) : NdpM unit := update_global nd_globals set_globals idx value.

(** [WasmModule::deltaRestore] *)
Definition deltaRestore (delta : list Z) : NdpM unit :=
  applyDelta delta (λ newSize, on_module (deltaRestoreSize newSize)).

(** [S3Wrapper::asyncNdpCall], with the response left in its output, and what it throws
    for an error code. *)
Definition asyncNdpError (ec : Z) : exn :=
  if ec =? - ERANGE then RuntimeError "Output buffer too small for NDP call."
  else if ec =? - ENOENT then FileNotFoundError "Specified object does not exist."
  else if ec =? - EPERM then
    RuntimeError "rados_exec failed with EPERM. The operation is not permitted, possibly due to insufficient permissions."
  else if ec =? - EIO then RuntimeError "rados_exec failed with EIO. An I/O error occurred."
  else if ec =? - EINVAL then RuntimeError "rados_exec failed with EINVAL. Invalid argument."
  else RuntimeError "Key cannot run an NDP call.".
Definition asyncNdpCall (bucketName keyName funcClass funcName : string) (input : NdpRequest)
    : M S3State (Z * option NdpResponse) :=
  ioctx bucketName ;;
  let '(ec, output) := rados_aio_exec bucketName keyName funcClass funcName input in
  if ec <? 0 then throw (asyncNdpError ec) else mret (ec, output).

(** [awaitChainedCallMessage] *)
Definition awaitChainedCallMessage (messageId : Z) : NdpM NdpCallResult := lift (getFunctionResult messageId).

Definition getStringFromWasm (strPtr : Z) : NdpM string :=
  check_range strPtr 1 ;;
  s ← get;
  match c_string (nd_mem s) strPtr with
  | Some str => mret str
  | None => throw (Undefined "string past the end of the memory")
  end.

(** The signature a function must have for the arguments. *)
Definition checkSignature (wasmFuncPtr : Z) (extraArgs : list Z) : NdpM unit :=
  funcType ← lift (getFunctionFromPtr wasmFuncPtr);
  if negb (ft_results funcType =? 1) || negb (bool_decide (length (ft_params funcType) = length extraArgs))
  then throw (InvalidArgument "Wrong function signature for storageCallAndAwait")
  else if existsb negb (ft_params funcType) then throw (InvalidArgument "Function argument not i32")
  else mret ().

(** The number returned when a function is to be called locally but cannot. *)
Definition LOCAL_CALL_FAILED : Z := -305419896.

Definition callHere (isPython : bool) (wasmFuncPtr : Z) (extraArgs : list Z) : NdpM Z :=
  if isPython then mret LOCAL_CALL_FAILED
  else
    lift (getFunctionFromPtr wasmFuncPtr) ;;
    try_catch_std (invokeFunction wasmFuncPtr (extraArgs ++ [0])) (λ _, mret LOCAL_CALL_FAILED).

Definition ndpCallId : Z := i32 (Z.land generateGid 4294967295).

Definition ndp_request (keyStr pyFuncName : string) (wasmFuncPtr : Z) (globals extraArgs : list Z) : NdpRequest :=
  mkNdpRequest (u64 ndpCallId) (call_user call) (call_function call) wasmFuncPtr pyFuncName globals extraArgs
    (call_user call) keyStr (endpointHost host).

(** Submitting the call: whether it is to run locally after all. *)
Definition submitNdpCall (keyStr pyFuncName : string) (wasmFuncPtr : Z) (wasmGlobals extraArgs : list Z) : NdpM bool :=
  modify (λ s, set_slots ({[ndpCallId]} ∪ localResults s) (set_handlers ({[ndpCallId]} ∪ ndpDeltaHandlers s) s)) ;;
  '(cephEc, cephOutput) ← on_s3 (asyncNdpCall (call_user call) keyStr "faasm" "maybe_exec_wasm_ro"
                                   (ndp_request keyStr pyFuncName wasmFuncPtr wasmGlobals extraArgs));
  if cephEc <? 0 then throw (RuntimeError "Ceph NDP call failed with an error.")
  else match cephOutput with
  | None => throw invalid_flatbuffer
  | Some ndpResponse =>
      if negb (nr_call_id ndpResponse =? u64 ndpCallId)
      then throw (RuntimeError "Mismatched call ids in storage message!")
      else match nr_result ndpResponse with
      | NdpResult_Ok => mret false
      | NdpResult_Error => throw (RuntimeError "Ceph NDP call returned an error.")
      | NdpResult_ProcessLocally => mret true
      | NdpResult_Invalid _ => throw (RuntimeError "Invalid NDP result code")
      end
  end.

(** A global of the result; a debug message names the one it had when the call was made. *)
Definition restoreGlobal (wasmGlobals : list Z) (i : nat) (value : Z) : NdpM unit :=
  (if debug_logging && (length wasmGlobals <=? i)%nat then throw (OutOfRange "vector::at") else mret ()) ;;
  updateGlobal i value.

(** Waiting for the call and taking its effects over: the number to return. *)
Definition takeResult (wasmGlobals : list Z) : NdpM Z :=
  ndpResult ← awaitChainedCallMessage ndpCallId;
  modify (λ s, set_handlers (ndpDeltaHandlers s ∖ {[ndpCallId]}) s) ;;
  if negb (res_returnvalue ndpResult =? 0) then
    modify (set_outputdata (res_outputdata ndpResult)) ;; mret (res_returnvalue ndpResult)
  else
    for_each (imap pair (res_wasmglobals ndpResult)) (λ iv, restoreGlobal wasmGlobals iv.1 iv.2) ;;
    deltaRestore (res_outputdata ndpResult) ;;
    mret 0.

Definition storageCallAndAwaitImpl (keyPtr keyLen wasmFuncPtr pyFuncNamePtr : Z) (extraArgs : list Z) : NdpM Z :=
  if (keyPtr <=? 0) || (keyLen <=? 0) then mret 0
  else
    let isPython := negb (pyFuncNamePtr =? 0) in
    pyFuncName ← (if isPython then getStringFromWasm pyFuncNamePtr else mret "");
    key ← read_array keyPtr keyLen;
    let keyStr := string_of_bytes key in
    (if isPython then mret () else checkSignature wasmFuncPtr extraArgs) ;;
    s ← get;
    let wasmGlobals := getGlobals s in
    callLocally ← (if negb (forbidndp call) && negb (isStorageNode host)
                   then submitNdpCall keyStr pyFuncName wasmFuncPtr wasmGlobals extraArgs else mret true);
    if callLocally : bool then callHere isPython wasmFuncPtr extraArgs else takeResult wasmGlobals.

Definition storageCallAndAwait (keyPtr keyLen wasmFuncPtr : Z) : NdpM Z :=
  storageCallAndAwaitImpl keyPtr keyLen wasmFuncPtr 0 [].
Definition storageCallAndAwait1 (keyPtr keyLen wasmFuncPtr arg1 : Z) : NdpM Z :=
  storageCallAndAwaitImpl keyPtr keyLen wasmFuncPtr 0 [arg1].
Definition storageCallAndAwait2 (keyPtr keyLen wasmFuncPtr arg1 arg2 : Z) : NdpM Z :=
  storageCallAndAwaitImpl keyPtr keyLen wasmFuncPtr 0 [arg1; arg2].
Definition storageCallAndAwait_py (keyPtr keyLen namePtr : Z) : NdpM Z :=
  storageCallAndAwaitImpl keyPtr keyLen 0 namePtr [].

(** * Objects: what the calls do *)

Lemma run_lift {S A} (o : outcome A) (s : S) : lift o s = (o, s).
Proof. reflexivity. Qed.

Lemma read_array_run a n bs s : mem_read (nd_mem s) a n = Ret bs → read_array a n s = (Ret bs, s).
Proof. intros Hr. unfold read_array, get, lift, mbind, M_bind. by rewrite Hr. Qed.


(** ** Mapping *)



Context {L : MemoryEnvLaws E}.








Context `{!RadosLaws}.




(** ** The result of a map *)






(** * Calls: where they run and what they leave *)

Context `{!GlobalLaws}.

(** Globals past those the call was made with end it when debug messages are built in. *)
Lemma override_take vs gs : override (take (length gs) vs) gs = override vs gs.
Proof. revert gs. induction vs as [|v vs IH]; intros [|g gs]; cbn; [done..|by rewrite IH]. Qed.
Lemma set_globals_run values s :
  all_restorable values (nd_globals s) →
  for_each (imap pair values) (λ iv, updateGlobal iv.1 iv.2) s =
    (Ret (), set_globals (override values (nd_globals s)) s).
Proof. intros Hall. apply (update_globals_run nd_globals set_globals) with (pre := []); by try intros ? [] || intros []. Qed.

(** Those that the loop gets to while debug messages can name the old ones. *)
Lemma restore_some wasmGlobals values s :
  debug_logging = false ∨ (length values ≤ length wasmGlobals)%nat → all_restorable values (nd_globals s) →
  for_each (imap pair values) (λ iv, restoreGlobal wasmGlobals iv.1 iv.2) s =
    (Ret (), set_globals (override values (nd_globals s)) s).
Proof.
  intros Hok Hall. rewrite <- (set_globals_run values s Hall). apply for_each_ext.
  intros [i v] Hi s1. unfold restoreGlobal. rewrite run_bind. cbn [fst snd].
  assert (debug_logging && (length wasmGlobals <=? i)%nat = false) as ->; [|done].
  apply elem_of_lookup_imap in Hi as (j & w & [= <- <-] & Hi%lookup_lt_Some).
  destruct Hok as [->|Hok]; [done|]. destruct debug_logging; [|done]. apply Nat.leb_gt. lia.
Qed.
Lemma restore_run wasmGlobals values s :
  length wasmGlobals = length (nd_globals s) → all_restorable values (nd_globals s) →
  for_each (imap pair values) (λ iv, restoreGlobal wasmGlobals iv.1 iv.2) s =
    (if debug_logging && (length (nd_globals s) <? length values)%nat then Throw (OutOfRange "vector::at") else Ret (),
     set_globals (override values (nd_globals s)) s).
Proof.
  intros Hlen Hall. destruct (debug_logging && _) eqn:Hd.
  2:{ apply restore_some; [|done]. rewrite Hlen. destruct debug_logging; [right; by apply Nat.ltb_ge in Hd|by left]. }
  apply andb_true_iff in Hd as [Hd Hlt%Nat.ltb_lt]. set (n := length (nd_globals s)) in *.
  destruct (lookup_lt_is_Some_2 values n Hlt) as [v Hv].
  rewrite <- (take_drop_middle values n v Hv) at 1. rewrite imap_app, for_each_app.
  assert (length (take n values) = n) as Ht by (rewrite length_take; lia).
  rewrite (run_bind_ret _ _ _ _ _ (restore_some wasmGlobals (take n values) s ltac:(right; lia)
    ltac:(unfold all_restorable in *; rewrite Ht; fold n in Hall |- *;
      rewrite take_take, Nat.min_id; rewrite (take_ge (nd_globals s)) in Hall |- * by lia; exact Hall))).
  rewrite (override_take values (nd_globals s) : override (take n values) _ = _), imap_cons. cbn [for_each]. rewrite run_bind. unfold restoreGlobal at 1. cbn [fst snd]. rewrite run_bind, Ht, Hd.
  cbn [compose]. rewrite (proj2 (Nat.leb_le _ _)) by lia. done.
Qed.

(** The registrations of a call, and their removal. *)
Definition registered (s : NdpState) : NdpState :=
  set_slots ({[ndpCallId]} ∪ localResults s) (set_handlers ({[ndpCallId]} ∪ ndpDeltaHandlers s) s).
Definition unregistered (s : NdpState) : NdpState := set_handlers (ndpDeltaHandlers s ∖ {[ndpCallId]}) s.

(** C23: Where a call of a C++ function runs and what it leaves, for a key in the memory and
    a function of the right type.  On a storage node, or for a call that must not be
    offloaded, it runs here.  Otherwise it is submitted, with the globals and arguments,
    and the response decides; whenever it throws from there on, the handler is still
    registered.  An error number is thrown as such; a response that does not verify, is to
    another call, is an error or has a result that is none of the enumeration throws.  Local
    processing: the call runs here, with the handler still registered.  Ok: its result is
    awaited and the delta handler removed; an error code comes back with the output
    and changes nothing else; a success takes over the globals (those that are mutable
    [i32]s or have the values already) and the memory delta and returns 0, except that in a
    build with debug messages more globals than there are end the call with out_of_range
    after they are set, before the delta. *)
Theorem storageCall_decision keyPtr keyLen wasmFuncPtr extraArgs key s :
  0 < keyPtr → 0 < keyLen → mem_read (nd_mem s) keyPtr keyLen = Ret key →
  checkSignature wasmFuncPtr extraArgs s = (Ret (), s) →
  let run := storageCallAndAwaitImpl keyPtr keyLen wasmFuncPtr 0 extraArgs s in
  if forbidndp call || isStorageNode host then run = callHere false wasmFuncPtr extraArgs s
  else
    let req := ndp_request (string_of_bytes key) "" wasmFuncPtr (getGlobals s) extraArgs in
    let s1 := registered s in
    connected (call_user call) (nd_s3 s) →
    let '(ec, response) :=
      rados_aio_exec (call_user call) (string_of_bytes key) "faasm" "maybe_exec_wasm_ro" req in
    if ec <? 0 then run = (Throw (asyncNdpError ec), s1)
    else match response with
    | None => run = (Throw invalid_flatbuffer, s1)
    | Some r =>
        if negb (nr_call_id r =? u64 ndpCallId)
        then run = (Throw (RuntimeError "Mismatched call ids in storage message!"), s1)
        else match nr_result r with
        | NdpResult_ProcessLocally => run = callHere false wasmFuncPtr extraArgs s1
        | NdpResult_Error => run = (Throw (RuntimeError "Ceph NDP call returned an error."), s1)
        | NdpResult_Invalid _ => run = (Throw (RuntimeError "Invalid NDP result code"), s1)
        | NdpResult_Ok =>
            match getFunctionResult ndpCallId with
            | Throw e => run = (Throw e, s1)
            | Ret res =>
                if res_returnvalue res =? 0 then
                  let s2 := set_globals (override (res_wasmglobals res) (nd_globals s)) (unregistered s1) in
                  all_restorable (res_wasmglobals res) (nd_globals s) →
                  run = if debug_logging && (length (nd_globals s) <? length (res_wasmglobals res))%nat
                        then (Throw (OutOfRange "vector::at"), s2)
                        else (deltaRestore (res_outputdata res) ;; mret 0) s2
                else run = (Ret (res_returnvalue res), set_outputdata (res_outputdata res) (unregistered s1))
            end
        end
    end.
Proof.
  intros Hk Hkl Hkey Hsig run. unfold run, storageCallAndAwaitImpl.
  rewrite !(proj2 (Z.leb_gt _ _)) by done. cbn [orb Z.eqb negb].
  erewrite run_bind_ret by reflexivity. rewrite (run_bind_ret _ _ _ _ _ (read_array_run _ _ _ _ Hkey)).
  rewrite (run_bind_ret _ _ _ _ _ Hsig), run_bind. cbn [get]. cbv zeta.
  destruct (forbidndp call), (isStorageNode host); cbn [orb andb negb]; try done.
  intros Hc. set (req := ndp_request _ _ _ _ _) in *. set (s1 := registered s) in *.
  destruct (rados_aio_exec _ _ _ _ _) as [ec response] eqn:Hexec.
  assert (on_s3 (asyncNdpCall (call_user call) (string_of_bytes key) "faasm" "maybe_exec_wasm_ro" req) s1 =
    (if ec <? 0 then Throw (asyncNdpError ec) else Ret (ec, response), s1)) as Hcall.
  { unfold on_s3, zoom, asyncNdpCall. rewrite (run_bind_ret _ _ _ _ _ (ioctx_connected _ _ Hc)), Hexec.
    by destruct (ec <? 0). }
  rewrite run_bind. unfold submitNdpCall. rewrite run_bind. cbn [modify]. fold (registered s) s1. fold req.
  rewrite run_bind, Hcall. destruct (ec <? 0) eqn:Hec; [done|]. rewrite Hec. destruct response as [r|]; [|done].
  destruct (negb _); [done|]. destruct (nr_result r); [|done..]. cbn [mret M_ret].
  unfold takeResult, awaitChainedCallMessage. destruct (getFunctionResult ndpCallId) as [res|e]; [|reflexivity].
  erewrite run_bind_ret by reflexivity. erewrite run_bind_ret by reflexivity.
  destruct (res_returnvalue res =? 0); cbn [negb]; [|reflexivity]. intros Hall.
  rewrite run_bind, restore_run; [|by unfold getGlobals, globalValues; rewrite length_fmap|done].
  cbn [nd_globals set_handlers]. by destruct (debug_logging && _).
Qed.
End ndp.

(** * Concrete calls *)

(** A function on the storage node of the object "obj", which holds four bytes,
    with the key and two bytes of its own in a memory of one page. *)
Definition demo_channel : NdpChannel := @session_channel demo_object (λ _, None).
Definition demo_session : @Ch demo_channel := mkSession 5 (mkClass ([9; 9; 9; 9] : @O demo_object) [] []) true None.
Definition demo_call : NdpCall := mkNdpCall 5 "u" "f" "obj" false.
Definition demo_memory : Mem := [0; 111; 98; 106; 7; 8] ++ replicate (Z.to_nat 65530) 0.
#[local] Instance demo_globals : GlobalApi := {| setGlobalValue := demo_setGlobal |}.
Definition demo_ndp : @NdpState demo_rados demo_channel :=
  @mkNdpState demo_rados demo_channel (mkWasmModule 1 [] 0 [] ∅ []) demo_memory
    [demo_i32 3; None] [] demo_s3 demo_session ∅ ∅ [].



(** The result has a global more than the module. *)
Lemma storageCall_decision_witness :
  let host := mkNdpHost false "h" in
  let ft := λ _ : Z, Ret (mkFunctionType 1 [true]) in
  let exec := λ (_ _ _ _ : string) (q : NdpRequest), (0, Some (mkNdpResponse (rq_call_id q) NdpResult_Ok "")) in
  let result := λ _ : Z, Ret (mkCallResult 0 [] [4; 5; 6]) in
  let apply := λ (_ : list Z) (_ : Z → M (@NdpState demo_rados demo_channel) unit),
    (mret () : M (@NdpState demo_rados demo_channel) unit) in
  let invoke := λ (_ : Z) (_ : list Z), (mret 1 : M (@NdpState demo_rados demo_channel) Z) in
  let s := set_s3 (mkS3 {["u" := true]} (cluster demo_s3)) demo_ndp in
  let run d := @storageCallAndAwaitImpl demo_env demo_rados demo_channel demo_globals demo_call host ft exec result apply
    invoke 77 d 1 3 2 0 [1] s in
  ∃ s', run false = (Ret 0, s') ∧ run true = (Throw (OutOfRange "vector::at"), s') ∧ nd_globals s' = [demo_i32 4; None].
Proof.
  intros host ft exec result apply invoke s run.
  assert (all_restorable [4; 5; 6] [demo_i32 3; None]) as Hall by (repeat constructor).
  pose proof (λ d, @storageCall_decision demo_env demo_rados demo_channel demo_globals demo_call host ft exec result apply
    invoke 77 d demo_global_laws 1 3 2 [1] [111; 98; 106] s eq_refl eq_refl ltac:(vm_compute; reflexivity) eq_refl) as H.
  cbv zeta in H. cbn [forbidndp demo_call isStorageNode host orb] in H.
  pose proof (H false eq_refl Hall) as Hf. pose proof (H true eq_refl Hall) as Ht.
  eexists. exact (conj Hf (conj Ht eq_refl)).
Defined.
