(* ===== verification/ModuleCache.v ===== *)
(** The caches of a worker (src/wavm/IRModuleCache.cpp,
    src/wavm/WAVMModuleCache.cpp): the modules parsed and compiled so far, by
    user, function and path, and the instantiated functions that new ones are
    cloned from. *)

From S2P Require Import Prelude WasmBytes S3 Host FileLoader.

(** * Modules *)

Inductive ExternKind : Type := kind_function | kind_global | kind_other.
Record SizeConstraints := mkSize { size_min : Z; size_max : Z }.
Record Export := mkExport { ex_name : string; ex_kind : ExternKind; ex_index : nat }.
(** A global's initial value when it is a constant, and whether it can change. *)
Record GlobalDef := mkGlobalDef { gl_i32_const : option Z; gl_isMutable : bool }.
Record ElemSegment := mkElemSegment { es_baseOffset : Z; es_elemIndices : list nat }.
Record Import {ExternType : Type} := mkImport { im_module : string; im_name : string; im_type : ExternType }.
Arguments Import : clear implicits.
Arguments mkImport {_} _ _ _.

(** The parts of WAVM's [IR::Module] that the worker reads or writes: the memories
    and tables it defines, the tables it imports, exports, element segments,
    the names of functions, globals, the sizes of data segments and imports. *)
Record IRModule {ExternType : Type} := mkIRModule {
  simd : bool;
  ir_memories : list SizeConstraints; ir_tables : list SizeConstraints;
  ir_tableImports : list SizeConstraints;
  ir_exports : list Export; ir_elemSegments : list ElemSegment; ir_functionNames : list string;
  ir_globals : list GlobalDef; ir_dataSegments : list Z; ir_imports : list (Import ExternType) }.
Arguments IRModule : clear implicits.
Arguments mkIRModule {_} _ _ _ _ _ _ _ _ _ _.

(** WAVM's parsers and compiler, which fill the module they are given (and report
    errors in a result that is not read), and faabric's [isWasm]. *)
Class Wavm := {
  ExternType : Type;
  ModuleRef : Type;
  MAX_WASM_MEMORY_PAGES : Z;  (** set by the build *)
  isWasm : list Z → bool;
  loadBinaryModule : list Z → IRModule ExternType → IRModule ExternType;
  parseModule : list Z → IRModule ExternType → IRModule ExternType;
  compileModule : IRModule ExternType → outcome ModuleRef;
  loadPrecompiledModule : IRModule ExternType → list Z → outcome ModuleRef }.

Definition MAX_TABLE_SIZE : Z := 500000.

Section ir.
Context `{Wavm}.
Abbreviation IR := (IRModule ExternType).

(** A module as [moduleMap[key]] makes it. *)
Definition emptyModule : IR := mkIRModule false [] [] [] [] [] [] [] [] [].
Definition set_simd (m : IR) : IR :=
  mkIRModule true (ir_memories m) (ir_tables m) (ir_tableImports m) (ir_exports m)
    (ir_elemSegments m) (ir_functionNames m) (ir_globals m) (ir_dataSegments m) (ir_imports m).
Definition set_memories (l : list SizeConstraints) (m : IR) : IR :=
  mkIRModule (simd m) l (ir_tables m) (ir_tableImports m) (ir_exports m)
    (ir_elemSegments m) (ir_functionNames m) (ir_globals m) (ir_dataSegments m) (ir_imports m).
Definition set_tables (l : list SizeConstraints) (m : IR) : IR :=
  mkIRModule (simd m) (ir_memories m) l (ir_tableImports m) (ir_exports m)
    (ir_elemSegments m) (ir_functionNames m) (ir_globals m) (ir_dataSegments m) (ir_imports m).
Definition set_tableImports (l : list SizeConstraints) (m : IR) : IR :=
  mkIRModule (simd m) (ir_memories m) (ir_tables m) l (ir_exports m)
    (ir_elemSegments m) (ir_functionNames m) (ir_globals m) (ir_dataSegments m) (ir_imports m).
End ir.

(** * The cache of IR modules *)

Record IRModuleCache `{Wavm} := mkIRModuleCache {
  moduleMap : gmap string (IRModule ExternType);
  compiledModuleMap : gmap string ModuleRef;
  originalTableSizes : gmap string Z }.
Arguments mkIRModuleCache {_} _ _ _.

(** The cache, with the files and the store its loader reads. *)
Record CacheState `{Wavm} `{Rados} `{Host} := mkCacheState {
  cs_world : World; cs_ir : IRModuleCache }.
Arguments mkCacheState {_ _ _} _ _.

Definition getModuleKey (user func path : string) : string :=
  user +:+ "_" +:+ func +:+ "_" +:+ path.

(** [faabric::util::messageFactory] *)
Definition messageFactory (user func : string) : FuncMsg := mkFuncMsg user func "" false "" "".

Section cache.
Context `{Wavm} `{Rados} `{Host} (conf : FaasmConfig) (useLocalFsCache : bool)
  (nativeCodegenTarget : CodegenTargetSpec).
Abbreviation CM := (M CacheState).
Abbreviation IR := (IRModule ExternType).

Definition on_world {A} : M World A → CM A := zoom cs_world (λ w s, mkCacheState w (cs_ir s)).
Definition set_modules (m : gmap string IR) (s : CacheState) : CacheState :=
  mkCacheState (cs_world s) (mkIRModuleCache m (compiledModuleMap (cs_ir s)) (originalTableSizes (cs_ir s))).
Definition set_compiled (m : gmap string ModuleRef) (s : CacheState) : CacheState :=
  mkCacheState (cs_world s) (mkIRModuleCache (moduleMap (cs_ir s)) m (originalTableSizes (cs_ir s))).
Definition set_sizes (m : gmap string Z) (s : CacheState) : CacheState :=
  mkCacheState (cs_world s) (mkIRModuleCache (moduleMap (cs_ir s)) (compiledModuleMap (cs_ir s)) m).

(** The reference [getModuleFromMap] returns is [moduleMap] at the key: writing
    through it is [putModule]. *)
Definition putModule (key : string) (m : IR) : CM unit :=
  modify (λ s, set_modules (<[key := m]> (moduleMap (cs_ir s))) s).
Definition getModuleFromMap (key : string) : CM IR :=
  s ← get;
  let module := set_simd (default emptyModule (moduleMap (cs_ir s) !! key)) in
  putModule key module ;; mret module.

Definition getModuleCount (key : string) (s : CacheState) : Z :=
  match moduleMap (cs_ir s) !! key with Some _ => 1 | None => 0 end.
Definition getCompiledModuleCount (key : string) (s : CacheState) : Z :=
  match compiledModuleMap (cs_ir s) !! key with Some _ => 1 | None => 0 end.

(** The body of [getMainModule] under the lock. *)
Definition loadMainModule (user func key : string) : CM unit :=
  wasmBytes ← on_world (loadFunctionWasm conf useLocalFsCache (messageFactory user func));
  module ← getModuleFromMap key;
  let module := if isWasm wasmBytes then loadBinaryModule wasmBytes module
                else parseModule wasmBytes module in
  putModule key module ;;
  match ir_memories module with
  | [] => throw (RuntimeError "WASM module does not define any memories")
  | m0 :: ms =>
      let module := set_memories (mkSize (size_min m0) MAX_WASM_MEMORY_PAGES :: ms) module in
      putModule key module ;;
      match ir_tables module with
      | [] => mret ()
      | t0 :: ts => putModule key (set_tables (mkSize (size_min t0) MAX_TABLE_SIZE :: ts) module)
      end
  end.

Definition getMainModule (user func : string) : CM IR :=
  let key := getModuleKey user func "" in
  s ← get;
  (if getModuleCount key s =? 0 then loadMainModule user func key else mret ()) ;;
  getModuleFromMap key.

(** The body of [getSharedModule] under the lock. A list that is indexed past its
    end is undefined. *)
Definition loadSharedModule (user func path key : string) : CM unit :=
  wasmBytes ← on_world (loadSharedObjectWasm conf useLocalFsCache path);
  module ← getModuleFromMap key;
  let module := loadBinaryModule wasmBytes module in
  putModule key module ;;
  if negb (bool_decide (length (ir_tables module) = 0%nat))
  then throw (RuntimeError "Dynamic module trying to define tables")
  else if negb (bool_decide (length (ir_memories module) = 0%nat))
  then throw (RuntimeError "Dynamic module trying to define memories")
  else match ir_tableImports module with
  | [] => throw (Undefined "tables.imports[0]")
  | t0 :: ts =>
      modify (λ s, set_sizes (<[key := i32 (size_min t0)]> (originalTableSizes (cs_ir s))) s) ;;
      mainModule ← getModuleFromMap (getModuleKey user func "");
      match ir_tables mainModule with
      | [] => throw (Undefined "tables.defs[0]")
      | d0 :: _ => putModule key (set_tableImports (mkSize (size_min d0) (size_max d0) :: ts) module)
      end
  end.

Definition getSharedModule (user func path : string) : CM IR :=
  let key := getModuleKey user func path in
  s ← get;
  (if getModuleCount key s =? 0 then loadSharedModule user func path key else mret ()) ;;
  getModuleFromMap key.

Definition getModule (user func path : string) : CM IR :=
  if bool_decide (path = "") then getMainModule user func else getSharedModule user func path.

(** [compiledModuleMap[key]] *)
Definition compiledAt (key : string) : CM (option ModuleRef) :=
  gets (λ s, compiledModuleMap (cs_ir s) !! key).
Definition putCompiled (key : string) (r : ModuleRef) : CM unit :=
  modify (λ s, set_compiled (<[key := r]> (compiledModuleMap (cs_ir s))) s).

Definition getCompiledMainModule (user func : string) : CM (option ModuleRef) :=
  let key := getModuleKey user func "" in
  s ← get;
  (if getCompiledModuleCount key s =? 0 then
     module ← getModuleFromMap key;
     objectFileBytes ← on_world (loadFunctionObjectFile conf useLocalFsCache
       (messageFactory user func) nativeCodegenTarget);
     r ← lift (if negb (bool_decide (objectFileBytes = []))
               then loadPrecompiledModule module objectFileBytes
               else compileModule module);
     putCompiled key r
   else mret ()) ;;
  compiledAt key.

Definition getCompiledSharedModule (user func path : string) : CM (option ModuleRef) :=
  let key := getModuleKey user func path in
  s ← get;
  (if getCompiledModuleCount key s =? 0 then
     module ← getModuleFromMap key;
     objectBytes ← on_world (loadSharedObjectObjectFile conf useLocalFsCache path nativeCodegenTarget);
     r ← lift (loadPrecompiledModule module objectBytes);
     putCompiled key r
   else mret ()) ;;
  compiledAt key.

Definition getCompiledModule (user func path : string) : CM (option ModuleRef) :=
  if bool_decide (path = "") then getCompiledMainModule user func
  else getCompiledSharedModule user func path.

(** [originalTableSizes[key]] makes a missing entry; the [int] is widened. *)
Definition getSharedModuleTableSize (user func path : string) : CM Z :=
  let key := getModuleKey user func path in
  s ← get;
  let n := default 0 (originalTableSizes (cs_ir s) !! key) in
  put (set_sizes (<[key := n]> (originalTableSizes (cs_ir s))) s) ;; mret (u64 n).

Definition getSharedModuleDataSize (user func path : string) : CM Z :=
  irModule ← getModule user func path;
  mret (foldl (λ n size, u64 (n + size)) 0 (ir_dataSegments irModule)).

Definition isModuleCached (user func path : string) (s : CacheState) : bool :=
  0 <? getModuleCount (getModuleKey user func path) s.
Definition isCompiledModuleCached (user func path : string) (s : CacheState) : bool :=
  0 <? getCompiledModuleCount (getModuleKey user func path) s.

Definition clear : CM unit :=
  modify (λ s, mkCacheState (cs_world s) (mkIRModuleCache ∅ ∅ ∅)).

(** ** Lemmas *)

Lemma getModuleFromMap_run key s :
  let m := set_simd (default emptyModule (moduleMap (cs_ir s) !! key)) in
  getModuleFromMap key s = (Ret m, set_modules (<[key := m]> (moduleMap (cs_ir s))) s).
Proof. reflexivity. Qed.

Lemma getModuleFromMap_hit key m s :
  moduleMap (cs_ir s) !! key = Some m → simd m = true →
  getModuleFromMap key s = (Ret m, s).
Proof.
  intros Hm Hs. unfold getModuleFromMap, putModule, set_modules. rewrite run_bind. cbn [get].
  rewrite Hm. cbn [from_option id]. assert (set_simd m = m) as -> by (destruct m; cbn in *; by subst).
  run_unfold. rewrite insert_id by done. by destruct s as [w [? ? ?]].
Qed.

Lemma getMainModule_hit user func m s :
  moduleMap (cs_ir s) !! getModuleKey user func "" = Some m → simd m = true →
  getMainModule user func s = (Ret m, s).
Proof.
  intros Hm Hs. unfold getMainModule. rewrite run_bind. cbn [get]. unfold getModuleCount.
  rewrite Hm. cbn [Z.eqb]. rewrite bind_ret_l. by apply getModuleFromMap_hit.
Qed.

Lemma getSharedModule_hit user func path m s :
  moduleMap (cs_ir s) !! getModuleKey user func path = Some m → simd m = true →
  getSharedModule user func path s = (Ret m, s).
Proof.
  intros Hm Hs. unfold getSharedModule. rewrite run_bind. cbn [get]. unfold getModuleCount.
  rewrite Hm. cbn [Z.eqb]. rewrite bind_ret_l. by apply getModuleFromMap_hit.
Qed.

(** What is loaded from some bytes without a cache. *)
Definition parsed (bytes : list Z) : IR :=
  let module := set_simd emptyModule in
  if isWasm bytes then loadBinaryModule bytes module else parseModule bytes module.
Definition capped (m : IR) : IR :=
  match ir_memories m with
  | [] => m
  | m0 :: ms =>
      let m := set_memories (mkSize (size_min m0) MAX_WASM_MEMORY_PAGES :: ms) m in
      match ir_tables m with
      | [] => m
      | t0 :: ts => set_tables (mkSize (size_min t0) MAX_TABLE_SIZE :: ts) m
      end
  end.
Definition referenceMain (bytes : list Z) : outcome IR :=
  match ir_memories (parsed bytes) with
  | [] => Throw (RuntimeError "WASM module does not define any memories")
  | _ => Ret (set_simd (capped (parsed bytes)))
  end.

(** The state after the load of a main module: the entry is made also when the
    load fails. *)
Lemma getMainModule_miss user func bytes s w1 :
  moduleMap (cs_ir s) !! getModuleKey user func "" = None →
  loadFunctionWasm conf useLocalFsCache (messageFactory user func) (cs_world s) = (Ret bytes, w1) →
  ∃ s1, getMainModule user func s = (referenceMain bytes, s1) ∧ cs_world s1 = w1 ∧
    moduleMap (cs_ir s1) = <[getModuleKey user func "" :=
      match referenceMain bytes with Ret m => m | Throw _ => parsed bytes end]> (moduleMap (cs_ir s)) ∧
    compiledModuleMap (cs_ir s1) = compiledModuleMap (cs_ir s) ∧
    originalTableSizes (cs_ir s1) = originalTableSizes (cs_ir s).
Proof.
  intros Hnone Hload. unfold getMainModule. rewrite run_bind. cbn [get]. unfold getModuleCount.
  rewrite Hnone. cbn [Z.eqb]. set (key := getModuleKey user func "") in *.
  unfold loadMainModule. rewrite run_bind_assoc.
  erewrite run_bind_ret by (unfold on_world, zoom; by rewrite Hload).
  rewrite run_bind_assoc. erewrite run_bind_ret by apply getModuleFromMap_run. cbn [cs_ir moduleMap].
  rewrite Hnone. cbn [from_option id]. fold (parsed bytes). unfold referenceMain, capped.
  destruct s as [w [mm cm os]]. cbn [cs_ir moduleMap compiledModuleMap originalTableSizes] in *.
  destruct (ir_memories (parsed bytes)) as [|m0 ms] eqn:Hmem;
    [|destruct (ir_tables (parsed bytes)) as [|t0 ts] eqn:Htab];
    run_unfold; rewrite ?Htab; cbn; rewrite ?getModuleFromMap_run; cbn;
    rewrite ?lookup_insert_eq, ?insert_insert_eq; by eexists.
Qed.

(** What is loaded of a shared module: its own bytes, checked and made to import
    the table [d0] of the main module; and the table size it asked for. *)
Definition parsedShared (bytes : list Z) : IR := loadBinaryModule bytes (set_simd emptyModule).
Definition referenceShared (bytes : list Z) (d0 : SizeConstraints) : outcome (IR * Z) :=
  let m := parsedShared bytes in
  match ir_tables m, ir_memories m, ir_tableImports m with
  | _ :: _, _, _ => Throw (RuntimeError "Dynamic module trying to define tables")
  | [], _ :: _, _ => Throw (RuntimeError "Dynamic module trying to define memories")
  | [], [], [] => Throw (Undefined "tables.imports[0]")
  | [], [], t0 :: ts => Ret (set_simd (set_tableImports (d0 :: ts) m), i32 (size_min t0))
  end.

Lemma getModuleKey_path user func path : path ≠ "" → getModuleKey user func path ≠ getModuleKey user func "".
Proof.
  intros Hp Heq. unfold getModuleKey in Heq. apply (f_equal str_size) in Heq.
  rewrite !str_size_app in Heq. destruct path as [|a p]; [done|].
  pose proof (str_size_nonneg p). unfold str_size in *. cbn in *. lia.
Qed.

Lemma getSharedModule_miss user func path bytes s w1 main d0 ds :
  path ≠ "" → moduleMap (cs_ir s) !! getModuleKey user func path = None →
  moduleMap (cs_ir s) !! getModuleKey user func "" = Some main → simd main = true →
  ir_tables main = d0 :: ds →
  loadSharedObjectWasm conf useLocalFsCache path (cs_world s) = (Ret bytes, w1) →
  let key := getModuleKey user func path in
  ∃ s1, getSharedModule user func path s = ('(m, _) ← referenceShared bytes d0; mret m, s1) ∧ cs_world s1 = w1 ∧
    moduleMap (cs_ir s1) = <[key := match referenceShared bytes d0 with
      Ret (m, _) => m | Throw _ => parsedShared bytes end]> (moduleMap (cs_ir s)) ∧
    compiledModuleMap (cs_ir s1) = compiledModuleMap (cs_ir s) ∧
    originalTableSizes (cs_ir s1) = match referenceShared bytes d0 with
      Ret (_, n) => <[key := n]> (originalTableSizes (cs_ir s)) | Throw _ => originalTableSizes (cs_ir s) end.
Proof.
  intros Hp Hnone Hmain Hsimd Htab Hload key. pose proof (getModuleKey_path user func path Hp) as Hne.
  fold key in Hne, Hnone. set (mkey := getModuleKey user func "") in *.
  unfold getSharedModule. rewrite run_bind. cbn [get]. unfold getModuleCount. fold key.
  rewrite Hnone. cbn [Z.eqb]. unfold loadSharedModule. rewrite run_bind_assoc.
  erewrite run_bind_ret by (unfold on_world, zoom; by rewrite Hload).
  rewrite run_bind_assoc. erewrite run_bind_ret by apply getModuleFromMap_run. cbn [cs_ir moduleMap].
  rewrite Hnone. cbn [from_option id]. fold (parsedShared bytes). unfold referenceShared.
  destruct s as [w [mm cm os]]. cbn [cs_ir moduleMap compiledModuleMap originalTableSizes] in *.
  fold mkey. set (p := parsedShared bytes) in *.
  destruct (ir_tables p) as [|t ts] eqn:Hpt; cbn [length];
    [|run_unfold; rewrite ?insert_insert_eq; by eexists].
  destruct (ir_memories p) as [|m ms] eqn:Hpm; cbn [length];
    [|run_unfold; rewrite ?insert_insert_eq; by eexists].
  destruct (ir_tableImports p) as [|t0 ts] eqn:Hpi;
    [run_unfold; rewrite ?insert_insert_eq; by eexists|].
  rewrite !bool_decide_eq_true_2 by done. cbn [negb].
  run_unfold. rewrite (getModuleFromMap_run mkey). cbn.
  rewrite !lookup_insert_ne, Hmain by done. cbn. rewrite Htab. cbn.
  rewrite getModuleFromMap_run. cbn. rewrite lookup_insert_eq. cbn.
  assert (set_simd main = main) as -> by (destruct main; cbn in *; by subst).
  destruct d0 as [lo hi]. cbn. eexists. split; [done|]. cbn. split; [done|]. split; [|done].
  rewrite (insert_id (<[key := p]> _) mkey) by (rewrite !lookup_insert_ne by done; done).
  by rewrite !insert_insert_eq.
Qed.
End cache.

(** * The cache of instantiated functions (src/wavm/WAVMModuleCache.cpp) *)

Record WAVMModuleCache {Mod W : Type} := mkWAVMModuleCache {
  wc_world : W; cachedModuleMap : gmap string Mod }.
Arguments WAVMModuleCache : clear implicits.
Arguments mkWAVMModuleCache {_ _} _ _.

Section wavm_cache.
Context {Mod Msg W Snapshot : Type} (unbound : Mod) (funcToString : Msg → bool → string)
  (bindToFunction : Msg → Mod → M W Mod) (getSnapshotData : Mod → M W Snapshot)
  (snapshotExists : string → W → bool) (registerSnapshot : string → Snapshot → W → W).
Abbreviation WM := (M (WAVMModuleCache Mod W)).

Definition on_cache_world {A} : M W A → WM A :=
  zoom wc_world (λ w s, mkWAVMModuleCache w (cachedModuleMap s)).
Definition set_cached (m : gmap string Mod) (s : WAVMModuleCache Mod W) : WAVMModuleCache Mod W :=
  mkWAVMModuleCache (wc_world s) m.

Definition getTotalCachedModuleCount (s : WAVMModuleCache Mod W) : nat := size (cachedModuleMap s).
Definition getCachedModuleCount (key : string) (s : WAVMModuleCache Mod W) : Z :=
  match cachedModuleMap s !! key with Some _ => 1 | None => 0 end.

(** [getCachedModule] takes the lock twice: to make a missing module, and to
    fetch it.  [catch (...)] also gets WAVM's exceptions. *)
Definition ensureCachedModule (msg : Msg) : WM unit :=
  let key := funcToString msg false in
  s ← get;
  match cachedModuleMap s !! key with
  | Some _ => mret ()
  | None =>
      put (set_cached (<[key := unbound]> (cachedModuleMap s)) s) ;;
      try_catch
        (m ← on_cache_world (bindToFunction msg unbound);
         modify (λ s, set_cached (<[key := m]> (cachedModuleMap s)) s))
        (λ e, modify (λ s, set_cached (delete key (cachedModuleMap s)) s) ;; throw e)
  end.
Definition fetchCachedModule (msg : Msg) : WM Mod :=
  let key := funcToString msg false in
  s ← get;
  let m := default unbound (cachedModuleMap s !! key) in
  put (set_cached (<[key := m]> (cachedModuleMap s)) s) ;; mret m.
Definition getCachedModule (msg : Msg) : WM Mod := ensureCachedModule msg ;; fetchCachedModule msg.

Definition registerResetSnapshot (module : Mod) (msg : Msg) : WM string :=
  let snapKey := funcToString msg false +:+ "_reset" in
  s ← get;
  (if negb (snapshotExists snapKey (wc_world s)) then
     snap ← on_cache_world (getSnapshotData module);
     on_cache_world (modify (registerSnapshot snapKey snap))
   else mret ()) ;;
  mret snapKey.

Definition wavm_cache_clear : WM unit := modify (set_cached ∅).

Lemma getCachedModule_hit msg m s :
  cachedModuleMap s !! funcToString msg false = Some m → getCachedModule msg s = (Ret m, s).
Proof.
  intros Hm. unfold getCachedModule, ensureCachedModule, fetchCachedModule. run_unfold.
  rewrite Hm. cbn. rewrite Hm. cbn. unfold set_cached. rewrite insert_id by done. by destruct s.
Qed.

(** A missing module is bound once: what binding makes is returned, now and
    later; a binding that throws leaves no module behind, and its exception is
    the call's. *)
Theorem getCachedModule_binds_once msg s o w1 :
  cachedModuleMap s !! funcToString msg false = None →
  bindToFunction msg unbound (wc_world s) = (o, w1) →
  match o with
  | Ret m =>
      let s1 := mkWAVMModuleCache w1 (<[funcToString msg false := m]> (cachedModuleMap s)) in
      getCachedModule msg s = (Ret m, s1) ∧ getCachedModule msg s1 = (Ret m, s1)
  | Throw e => getCachedModule msg s = (Throw e, mkWAVMModuleCache w1 (cachedModuleMap s))
  end.
Proof.
  intros Hnone Hbind. destruct o as [m|e].
  - split; [|by apply getCachedModule_hit; cbn; rewrite lookup_insert_eq].
    unfold getCachedModule, ensureCachedModule, fetchCachedModule, on_cache_world, zoom. run_unfold.
    rewrite Hnone. cbn. rewrite Hbind. cbn. rewrite insert_insert_eq, lookup_insert_eq. cbn.
    unfold set_cached. cbn. by rewrite insert_insert_eq.
  - unfold getCachedModule, ensureCachedModule, on_cache_world, zoom. run_unfold.
    rewrite Hnone. cbn. rewrite Hbind. cbn. unfold set_cached. cbn. by rewrite delete_insert_id.
Qed.

(** A clear between the two locked halves makes the second put a module in
    the cache that is bound to nothing, and every later call gets that one. *)
Theorem getCachedModule_clear_race msg s :
  let s1 := (ensureCachedModule msg s).2 in
  let s2 := (wavm_cache_clear s1).2 in
  let s3 := (fetchCachedModule msg s2).2 in
  (fetchCachedModule msg s2).1 = Ret unbound ∧ getCachedModule msg s3 = (Ret unbound, s3).
Proof.
  intros s1 s2 s3.
  assert (cachedModuleMap s3 = {[funcToString msg false := unbound]}) as Hs3 by done.
  split; [done|]. apply getCachedModule_hit. by rewrite Hs3, lookup_singleton_eq.
Qed.
End wavm_cache.

(** * Properties of the cache of IR modules *)

Section cache_properties.
Context `{Wavm} `{Rados} `{Host} (conf : FaasmConfig) (useLocalFsCache : bool).

(** A module that was refused, at a later call. *)
Lemma getMainModule_refused user func m s :
  moduleMap (cs_ir s) !! getModuleKey user func "" = Some m →
  (getMainModule conf useLocalFsCache user func s).1 = Ret (set_simd m).
Proof.
  intros Hm. unfold getMainModule. rewrite run_bind. cbn [get]. unfold getModuleCount.
  rewrite Hm. cbn [Z.eqb]. rewrite bind_ret_l, getModuleFromMap_run. by rewrite Hm.
Qed.

(** C25: The first [getMainModule] for a key that is not cached, when the stored bytes load,
    gives what parsing them gives, with the limits forced, or its error (no memory).  As
    long as the entry of the key stays: once it returned a module, every later call gives the
    same one and changes nothing; after an error every later call gives the module as parsed,
    without the limits.  (Two functions of different users can have the same key.) *)
Theorem getMainModule_reference user func bytes s w1 :
  moduleMap (cs_ir s) !! getModuleKey user func "" = None →
  loadFunctionWasm conf useLocalFsCache (messageFactory user func) (cs_world s) = (Ret bytes, w1) →
  let '(o, s1) := getMainModule conf useLocalFsCache user func s in
  o = referenceMain bytes ∧ cs_world s1 = w1 ∧
  (∀ m s2, o = Ret m →
    moduleMap (cs_ir s2) !! getModuleKey user func "" = moduleMap (cs_ir s1) !! getModuleKey user func "" →
    getMainModule conf useLocalFsCache user func s2 = (Ret m, s2)) ∧
  (∀ e s2, o = Throw e →
    moduleMap (cs_ir s2) !! getModuleKey user func "" = moduleMap (cs_ir s1) !! getModuleKey user func "" →
    (getMainModule conf useLocalFsCache user func s2).1 = Ret (set_simd (parsed bytes))).
Proof.
  intros Hnone Hload.
  destruct (getMainModule_miss conf useLocalFsCache user func bytes s w1 Hnone Hload)
    as (s1 & -> & Hw & Hmap & _). split_and!; [done|done| |].
  - intros m s2 Hm Hs2. rewrite Hmap, lookup_insert_eq, Hm in Hs2.
    apply getMainModule_hit; [done|]. unfold referenceMain in Hm.
    destruct (ir_memories (parsed bytes)); [done|]. by injection Hm as <-.
  - intros e s2 He Hs2. rewrite Hmap, lookup_insert_eq, He in Hs2. by apply getMainModule_refused.
Qed.

(** A main module without a memory is refused once: the entry stays, and the
    next call returns the refused module, without limits. *)
Theorem getMainModule_failure_sticks user func bytes s w1 :
  moduleMap (cs_ir s) !! getModuleKey user func "" = None →
  loadFunctionWasm conf useLocalFsCache (messageFactory user func) (cs_world s) = (Ret bytes, w1) →
  ir_memories (parsed bytes) = [] →
  let '(o, s1) := getMainModule conf useLocalFsCache user func s in
  o = Throw (RuntimeError "WASM module does not define any memories") ∧
  (getMainModule conf useLocalFsCache user func s1).1 = Ret (set_simd (parsed bytes)).
Proof.
  intros Hnone Hload Hmem.
  destruct (getMainModule_miss conf useLocalFsCache user func bytes s w1 Hnone Hload)
    as (s1 & -> & Hw & Hmap & _).
  unfold referenceMain in *. rewrite Hmem in *. split; [done|].
  apply getMainModule_refused. by rewrite Hmap, lookup_insert_eq.
Qed.

(** The key of a function's module does not tell where the user's name ends:
    after user [a_b] loaded its function [c], user [a] that asks for function [b_c] gets
    the same module, whatever that function's own code is. *)
Theorem module_key_collision a b c m s s1 :
  getMainModule conf useLocalFsCache (a +:+ "_" +:+ b) c s = (Ret m, s1) →
  getMainModule conf useLocalFsCache a (b +:+ "_" +:+ c) s1 = (Ret m, s1).
Proof.
  intros Hget.
  assert (getModuleKey a (b +:+ "_" +:+ c) "" = getModuleKey (a +:+ "_" +:+ b) c "") as Hkey.
  { unfold getModuleKey. by rewrite !str_app_assoc. }
  unfold getMainModule in Hget. apply run_bind_inv in Hget as (s' & s0 & _ & Hget).
  apply run_bind_inv in Hget as ([] & s2 & _ & Hget). rewrite getModuleFromMap_run in Hget.
  injection Hget as <- <-. apply getMainModule_hit; [|done].
  rewrite Hkey. cbn. by rewrite lookup_insert_eq.
Qed.

(** A shared module that defines no table and no memory is given the limits of
    the main module's table, its own number of elements is kept for the linker, and
    later calls give the same module. *)
Theorem getModule_shared_fits user func path bytes s w1 main d0 ds t0 ts :
  path ≠ "" → moduleMap (cs_ir s) !! getModuleKey user func path = None →
  moduleMap (cs_ir s) !! getModuleKey user func "" = Some main → simd main = true →
  ir_tables main = d0 :: ds →
  loadSharedObjectWasm conf useLocalFsCache path (cs_world s) = (Ret bytes, w1) →
  let p := parsedShared bytes in
  ir_tables p = [] → ir_memories p = [] → ir_tableImports p = t0 :: ts → in_s 32 (size_min t0) →
  let m := set_simd (set_tableImports (d0 :: ts) p) in
  let '(o, s1) := getModule conf useLocalFsCache user func path s in
  o = Ret m ∧ getModule conf useLocalFsCache user func path s1 = (Ret m, s1) ∧
  (getSharedModuleTableSize user func path s1).1 = Ret (u64 (size_min t0)) ∧
  moduleMap (cs_ir s1) !! getModuleKey user func "" = Some main.
Proof.
  intros Hp Hnone Hmain Hsimd Htab Hload p Hpt Hpm Hpi Hsz m.
  destruct (getSharedModule_miss conf useLocalFsCache user func path bytes s w1 main d0 ds
    Hp Hnone Hmain Hsimd Htab Hload) as (s1 & Hrun & _ & Hmap & _ & Hos).
  unfold referenceShared in *. fold p in Hrun, Hmap, Hos. rewrite Hpt, Hpm, Hpi in *.
  unfold getModule. rewrite bool_decide_eq_false_2 by done. rewrite Hrun.
  split_and!; [done|apply getSharedModule_hit; [|done]; by rewrite Hmap, lookup_insert_eq| |].
  - unfold getSharedModuleTableSize. run_unfold. rewrite Hos, lookup_insert_eq. cbn.
    by rewrite wrapS_id by (done || lia).
  - rewrite Hmap, lookup_insert_ne by (by apply getModuleKey_path). done.
Qed.
End cache_properties.

(** * Concrete modules *)

(** Binary modules list how many memories and tables they define and how many
    tables they import. *)
Definition demo_load (bs : list Z) (m : IRModule unit) : IRModule unit :=
  match bs with
  | _ :: a :: t :: i :: _ =>
      mkIRModule (simd m) (replicate (Z.to_nat a) (mkSize 1 10)) (replicate (Z.to_nat t) (mkSize 4 8))
        (replicate (Z.to_nat i) (mkSize 3 3)) [] [] [] [] [] []
  | _ => m
  end.
#[export] Instance demo_wavm : Wavm :=
  {| ExternType := unit; ModuleRef := list Z; MAX_WASM_MEMORY_PAGES := 65536;
     isWasm := λ bs, bool_decide (head bs = Some 0); loadBinaryModule := demo_load;
     parseModule := λ _ m, m; compileModule := λ _, Ret [];
     loadPrecompiledModule := λ _ bs, Ret bs |}.

Definition demo_cache_world : World :=
  (uploadFileBytes demo_conf false "/lib/libx.so" "" [0; 0; 0; 1]
    (uploadFileBytes demo_conf false "u/g/function.wasm" "" [0; 0; 0; 0]
      (uploadFileBytes demo_conf false "u/f/function.wasm" "" [0; 1; 1; 0] demo_world).2).2).2.
Definition demo_cache : CacheState := mkCacheState demo_cache_world (mkIRModuleCache ∅ ∅ ∅).
Definition demo_cache_main : CacheState := (getMainModule demo_conf false "u" "f" demo_cache).2.

Lemma getMainModule_reference_witness :
  let w1 := (loadFunctionWasm demo_conf false (messageFactory "u" "f") demo_cache_world).2 in
  let '(o, s1) := getMainModule demo_conf false "u" "f" demo_cache in
  o = referenceMain [0; 1; 1; 0] ∧ cs_world s1 = w1 ∧
  ∀ m s2, o = Ret m →
    moduleMap (cs_ir s2) !! getModuleKey "u" "f" "" = moduleMap (cs_ir s1) !! getModuleKey "u" "f" "" →
    getMainModule demo_conf false "u" "f" s2 = (Ret m, s2).
Proof.
  intros w1.
  pose proof (getMainModule_reference demo_conf false "u" "f" [0; 1; 1; 0] demo_cache w1 eq_refl
    (run_fst _ _ _ ltac:(vm_compute; reflexivity))) as H.
  destruct (getMainModule _ _ _ _ _) as [o s1]. exact (conj (proj1 H) (conj (proj1 (proj2 H)) (proj1 (proj2 (proj2 H))))).
Defined.

Lemma getMainModule_failure_sticks_witness :
  let '(o, s1) := getMainModule demo_conf false "u" "g" demo_cache in
  o = Throw (RuntimeError "WASM module does not define any memories") ∧
  (getMainModule demo_conf false "u" "g" s1).1 = Ret (set_simd (parsed [0; 0; 0; 0])).
Proof.
  apply (getMainModule_failure_sticks demo_conf false "u" "g" [0; 0; 0; 0] demo_cache
    (loadFunctionWasm demo_conf false (messageFactory "u" "g") demo_cache_world).2).
  - reflexivity.
  - apply run_fst. vm_compute. reflexivity.
  - reflexivity.
Defined.

Lemma module_key_collision_witness :
  let s := mkCacheState demo_cache_world (mkIRModuleCache
    {[getModuleKey ("a" +:+ "_" +:+ "b") "c" "" := emptyModule]} ∅ ∅) in
  let s1 := (getMainModule demo_conf false ("a" +:+ "_" +:+ "b") "c" s).2 in
  getMainModule demo_conf false "a" ("b" +:+ "_" +:+ "c") s1 = (Ret (set_simd emptyModule), s1).
Proof.
  intros s s1. apply (module_key_collision demo_conf false "a" "b" "c" (set_simd emptyModule) s s1).
  apply run_fst. vm_compute. reflexivity.
Defined.

Lemma getModule_shared_fits_witness :
  let p := parsedShared [0; 0; 0; 1] in
  let m := set_simd (set_tableImports [mkSize 4 MAX_TABLE_SIZE] p) in
  let '(o, s1) := getModule demo_conf false "u" "f" "/lib/libx.so" demo_cache_main in
  o = Ret m ∧ getModule demo_conf false "u" "f" "/lib/libx.so" s1 = (Ret m, s1) ∧
  (getSharedModuleTableSize "u" "f" "/lib/libx.so" s1).1 = Ret (u64 3) ∧
  moduleMap (cs_ir s1) !! getModuleKey "u" "f" "" = Some (set_simd (capped (parsed [0; 1; 1; 0]))).
Proof.
  intros p m.
  apply (getModule_shared_fits demo_conf false "u" "f" "/lib/libx.so" [0; 0; 0; 1] demo_cache_main
    (loadSharedObjectWasm demo_conf false "/lib/libx.so" (cs_world demo_cache_main)).2
    (set_simd (capped (parsed [0; 1; 1; 0]))) (mkSize 4 MAX_TABLE_SIZE) [] (mkSize 3 3) []).
  - discriminate.
  - vm_compute. reflexivity.
  - vm_compute. reflexivity.
  - reflexivity.
  - reflexivity.
  - apply run_fst. vm_compute. reflexivity.
  - reflexivity.
  - reflexivity.
  - reflexivity.
  - unfold in_s. cbn. lia.
Defined.

(** A function whose binding adds to a counter, and one that cannot be bound. *)
Definition demo_bind (msg : string) (m : list Z) : M Z (list Z) :=
  if decide (msg = "bad") then throw (RuntimeError "bind") else (modify (Z.add 1) ;; mret (1 :: m)).

Lemma getCachedModule_binds_once_witness :
  getCachedModule [] (λ f _, f) demo_bind "f" (mkWAVMModuleCache 0 ∅) =
    (Ret [1], mkWAVMModuleCache 1 {["f" := [1]]}) ∧
  getCachedModule [] (λ f _, f) demo_bind "f" (mkWAVMModuleCache 1 {["f" := [1]]}) =
    (Ret [1], mkWAVMModuleCache 1 {["f" := [1]]}).
Proof.
  apply (getCachedModule_binds_once [] (λ f _, f) demo_bind "f" (mkWAVMModuleCache 0 ∅) (Ret [1]) 1).
  - reflexivity.
  - reflexivity.
Defined.
