(* ===== verification/DynLink.v ===== *)
(** Dynamic linking (src/wavm/WAVMWasmModule.cpp, LoadedDynamicModule.cpp,
    dynlink.cpp): loading shared modules into the memory and the table of the
    main module, the global offset table, resolution of imports, and look-up of
    functions by handle.  Modules come from a registry, which [ModuleCache]
    implements. *)

From S2P Require Import Prelude WasmBytes WasmMemory S3 Host FileLoader ModuleCache.

(** * The interface to the module registry *)

Class Registry `{Wavm} (Reg : Type) := {
  rg_getModule : string → string → string → M Reg (IRModule ExternType);
  rg_getCompiledModule : string → string → string → M Reg (option ModuleRef);
  rg_getSharedModuleTableSize : string → string → string → M Reg Z;
  rg_getSharedModuleDataSize : string → string → string → M Reg Z }.

Section implementation.
Context `{Wavm} `{Rados} `{Host} (conf : FaasmConfig) (useLocalFsCache : bool)
  (target : CodegenTargetSpec).

Definition cache_registry : Registry CacheState :=
  {| rg_getModule := getModule conf useLocalFsCache;
     rg_getCompiledModule := getCompiledModule conf useLocalFsCache target;
     rg_getSharedModuleTableSize := getSharedModuleTableSize;
     rg_getSharedModuleDataSize := getSharedModuleDataSize conf useLocalFsCache |}.

End implementation.

(** * Data *)

Definition DYNAMIC_MODULE_STACK_SIZE : Z := 2 * 1024 * 1024.
Definition DYNAMIC_MODULE_MEMORY_SIZE : Z := 66 * WASM_BYTES_PER_PAGE.
Definition MAIN_MODULE_DYNLINK_HANDLE : Z := 999.

(** What the linker calls of WAVM and boost: instances and their exports, the
    clones of the two built-in modules, whether a table of some size grows by some
    number and whether a global can be made when there are some already, the
    type of a global made mutable, the host's files, the name of the constructors
    function that the build sets, and the order in which an unordered map is
    visited. *)
Class LinkEnv `{Wavm} := {
  Inst : Type; Obj : Type;
  getInstanceExport : Inst → string → option Obj;
  getEnvModule : Inst; getWasiModule : Inst;
  table_grows : Z → Z → bool;
  createGlobal : nat → bool;
  set_mutable : ExternType → ExternType;
  is_directory : string → bool; exists_file : string → bool;
  WASM_CTORS_FUNC_NAME : string;
  visit_order : ∀ A, gmap Z A → list A }.

(** An object an import is resolved to: an export of a module, a new global with
    its type and value, or the table. *)
Inductive Object `{LinkEnv} : Type :=
  | Exported (o : Obj)
  | NewGlobal (type : ExternType) (value : Z)
  | DefaultTable.

(** [LoadedDynamicModule] *)
Record LoadedDynamicModule `{LinkEnv} := mkLoaded {
  ld_path : string; memoryBottom : Z; memoryTop : Z; stackTop : Z; stackPointer : Z; stackSize : Z;
  dataBottom : Z; dataTop : Z; heapBottom : Z; tableBottom : Z; tableTop : Z; ld_ptr : option Inst }.
Arguments mkLoaded {_ _} _ _ _ _ _ _ _ _ _ _ _ _.

Record GlobalOffsets := mkGOT {
  globalOffsetTableMap : gmap string Z; globalOffsetMemoryMap : gmap string (Z * bool);
  missingGlobalOffsetEntries : gmap string Z }.

Record DynamicModules `{LinkEnv} := mkDyn {
  dynamicPathToHandleMap : gmap string Z; dynamicModuleMap : gmap Z LoadedDynamicModule;
  lastLoadedDynamicModuleHandle : Z }.
Arguments mkDyn {_ _} _ _ _.

(** The parts of a [WAVMWasmModule] that linking reads and writes. *)
Record Linker `{LinkEnv} {Reg : Type} := mkLinker {
  lk_registry : Reg; lk_memory : WasmModule; lk_table : list (option Obj); lk_globals : nat;
  boundUser : string; boundFunction : string;
  envModule : option Inst; wasiModule : option Inst; moduleInstance : option Inst;
  lk_dyn : DynamicModules; lk_got : GlobalOffsets }.
Arguments Linker {_ _} Reg.
Arguments mkLinker {_ _ _} _ _ _ _ _ _ _ _ _ _ _.

Section linker.
Context `{E : MemoryEnv} `{Wavm} `{!LinkEnv} {Reg : Type} `{!Registry Reg}.
Abbreviation LkM := (M (Linker Reg)).
Abbreviation IR := (IRModule ExternType).

Definition set_memory (m : WasmModule) (s : Linker Reg) : Linker Reg :=
  mkLinker (lk_registry s) m (lk_table s) (lk_globals s) (boundUser s) (boundFunction s)
    (envModule s) (wasiModule s) (moduleInstance s) (lk_dyn s) (lk_got s).
Definition set_table (t : list (option Obj)) (s : Linker Reg) : Linker Reg :=
  mkLinker (lk_registry s) (lk_memory s) t (lk_globals s) (boundUser s) (boundFunction s)
    (envModule s) (wasiModule s) (moduleInstance s) (lk_dyn s) (lk_got s).
Definition set_globals (n : nat) (s : Linker Reg) : Linker Reg :=
  mkLinker (lk_registry s) (lk_memory s) (lk_table s) n (boundUser s) (boundFunction s)
    (envModule s) (wasiModule s) (moduleInstance s) (lk_dyn s) (lk_got s).
Definition set_builtins (env wasi : option Inst) (s : Linker Reg) : Linker Reg :=
  mkLinker (lk_registry s) (lk_memory s) (lk_table s) (lk_globals s) (boundUser s) (boundFunction s)
    env wasi (moduleInstance s) (lk_dyn s) (lk_got s).
Definition set_dyn (d : DynamicModules) (s : Linker Reg) : Linker Reg :=
  mkLinker (lk_registry s) (lk_memory s) (lk_table s) (lk_globals s) (boundUser s) (boundFunction s)
    (envModule s) (wasiModule s) (moduleInstance s) d (lk_got s).
Definition set_got (g : GlobalOffsets) (s : Linker Reg) : Linker Reg :=
  mkLinker (lk_registry s) (lk_memory s) (lk_table s) (lk_globals s) (boundUser s) (boundFunction s)
    (envModule s) (wasiModule s) (moduleInstance s) (lk_dyn s) g.
Definition set_registry (r : Reg) (s : Linker Reg) : Linker Reg :=
  mkLinker r (lk_memory s) (lk_table s) (lk_globals s) (boundUser s) (boundFunction s)
    (envModule s) (wasiModule s) (moduleInstance s) (lk_dyn s) (lk_got s).

Definition on_memory {A} (m : M WasmModule A) : LkM A := zoom lk_memory set_memory m.
Definition on_registry {A} (m : M Reg A) : LkM A := zoom lk_registry set_registry m.

(** [std::unordered_map::insert] keeps an entry that is there. *)
Definition insert_new {A} (k : string) (a : A) (m : gmap string A) : gmap string A :=
  match m !! k with Some _ => m | None => <[k := a]> m end.
Definition add_table_offset (name : string) (idx : Z) : LkM unit :=
  modify (λ s, let g := lk_got s in
    set_got (mkGOT (insert_new name idx (globalOffsetTableMap g)) (globalOffsetMemoryMap g)
               (missingGlobalOffsetEntries g)) s).
Definition add_memory_offset (name : string) (entry : Z * bool) : LkM unit :=
  modify (λ s, let g := lk_got s in
    set_got (mkGOT (globalOffsetTableMap g) (insert_new name entry (globalOffsetMemoryMap g))
               (missingGlobalOffsetEntries g)) s).
Definition set_missing (m : gmap string Z) : LkM unit :=
  modify (λ s, let g := lk_got s in
    set_got (mkGOT (globalOffsetTableMap g) (globalOffsetMemoryMap g) m) s).

(** A member of an object that a pointer refers to; a null pointer is undefined. *)
Definition instanceExport (module : option Inst) (name : string) : LkM (option Obj) :=
  match module with
  | None => throw (Undefined "null instance")
  | Some i => mret (getInstanceExport i name)
  end.

(** ** The table *)

Definition growTable (n : Z) (what : string) : LkM Z :=
  s ← get;
  let old := Z.of_nat (length (lk_table s)) in
  if table_grows old n
  then put (set_table (lk_table s ++ replicate (Z.to_nat n) None) s) ;; mret old
  else throw (RuntimeError what).

(** An index outside the table is WAVM's exception, for reads too. *)
Definition setTableElement (idx : Z) (o : Obj) : LkM unit :=
  s ← get;
  if Z.of_nat (length (lk_table s)) <=? u64 idx then throw (WasmException "outOfBoundsTableAccess")
  else put (set_table (<[Z.to_nat (u64 idx) := Some o]> (lk_table s)) s).

Definition addFunctionToTable (exportedFunc : Obj) : LkM Z :=
  prevIdx ← growTable 1 "Failed to grow table";
  setTableElement prevIdx exportedFunc ;; mret (u32 prevIdx).

Definition getFunctionFromPtr (funcPtr : Z) : LkM Obj :=
  s ← get;
  match lk_table s !! Z.to_nat (u64 funcPtr) with
  | None => throw (WasmException "outOfBoundsTableAccess")
  | Some None => throw (RuntimeError "Function pointer not found")
  | Some (Some o) => mret o
  end.

(** ** Loaded modules *)

Definition noModule : LoadedDynamicModule := mkLoaded "" 0 0 0 0 0 0 0 0 0 0 None.

(** [dynamicPathToHandleMap[path]] and [dynamicModuleMap[handle]] make what is
    missing. *)
Definition set_paths (p : gmap string Z) (s : Linker Reg) : Linker Reg :=
  let d := lk_dyn s in
  set_dyn (mkDyn p (dynamicModuleMap d) (lastLoadedDynamicModuleHandle d)) s.
Definition set_loaded (m : gmap Z LoadedDynamicModule) (s : Linker Reg) : Linker Reg :=
  let d := lk_dyn s in
  set_dyn (mkDyn (dynamicPathToHandleMap d) m (lastLoadedDynamicModuleHandle d)) s.
Definition set_last (h : Z) (s : Linker Reg) : Linker Reg :=
  let d := lk_dyn s in set_dyn (mkDyn (dynamicPathToHandleMap d) (dynamicModuleMap d) h) s.
Definition pathHandle (path : string) : LkM Z :=
  s ← get;
  match dynamicPathToHandleMap (lk_dyn s) !! path with
  | Some h => mret h
  | None => put (set_paths (<[path := 0]> (dynamicPathToHandleMap (lk_dyn s))) s) ;; mret 0
  end.
Definition moduleAt (handle : Z) (s : Linker Reg) : LoadedDynamicModule :=
  default noModule (dynamicModuleMap (lk_dyn s) !! handle).
Definition putModule (handle : Z) (d : LoadedDynamicModule) : LkM unit :=
  modify (λ s, set_loaded (<[handle := d]> (dynamicModuleMap (lk_dyn s))) s).

Definition getLastLoadedDynamicModule : LkM LoadedDynamicModule :=
  s ← get;
  let h := lastLoadedDynamicModuleHandle (lk_dyn s) in
  if h =? 0 then throw (RuntimeError "No dynamic modules loaded")
  else match dynamicModuleMap (lk_dyn s) !! h with
  | None => throw (RuntimeError "Cannot find entry for last loaded dynamic module")
  | Some d => mret d
  end.

Definition getDynamicModuleCount (s : Linker Reg) : Z := Z.of_nat (size (dynamicModuleMap (lk_dyn s))).
Definition getNextMemoryBase : LkM Z := d ← getLastLoadedDynamicModule; mret (i32 (dataBottom d)).
Definition getNextStackPointer : LkM Z := d ← getLastLoadedDynamicModule; mret (stackPointer d).
Definition getNextTableBase : LkM Z := d ← getLastLoadedDynamicModule; mret (i32 (tableBottom d)).
Definition getFunctionOffsetFromGOT (funcName : string) : LkM Z :=
  s ← get;
  match globalOffsetTableMap (lk_got s) !! funcName with
  | None => throw (RuntimeError "Function not found in GOT")
  | Some i => mret (i32 i)
  end.
Definition getDataOffsetFromGOT (name : string) : LkM Z :=
  s ← get;
  match globalOffsetMemoryMap (lk_got s) !! name with
  | None => throw (RuntimeError "Memory not found in GOT")
  | Some (v, _) => mret v
  end.

(** [LoadedDynamicModule::validate]: the comparisons with unsigned members are
    unsigned. *)
Definition validate (d : LoadedDynamicModule) : bool :=
  negb (memoryTop d <=? memoryBottom d) &&
  (stackTop d =? u32 (memoryBottom d + stackSize d)) &&
  (dataTop d =? heapBottom d) &&
  (let dataSize := i32 (u32 (dataTop d - dataBottom d)) in
   u32 (stackTop d + dataSize) =? heapBottom d) &&
  (u32 (stackPointer d) =? u32 (stackTop d - 1)) &&
  negb (stackSize d <=? 0) && negb (tableTop d <? tableBottom d) &&
  match ld_ptr d with None => false | Some _ => true end &&
  (let memSize := i32 (u32 (memoryTop d - memoryBottom d)) in
   let heapSize := i32 (u32 (memoryTop d - heapBottom d)) in
   negb (memSize <=? heapSize)).

(** ** The global offset table *)

Definition addElem (base : Z) (functionNames : list string) (moduleExports : list string)
    (i : Z) (elemIdx : nat) : LkM unit :=
  match functionNames !! elemIdx with
  | None => throw (Undefined "disassemblyNames.functions[elemIdx]")
  | Some elemName =>
      if bool_decide (elemName ∈ moduleExports) then add_table_offset elemName (u64 (base + i))
      else mret ()
  end.

Definition addElemSegment (ir : IR) (isMainModule : bool) (es : ElemSegment) : LkM unit :=
  offset ← (if isMainModule then mret (i32 (es_baseOffset es))
            else d ← getLastLoadedDynamicModule; mret (i32 (tableBottom d)));
  for_each (imap (λ i e, (Z.of_nat i, e)) (es_elemIndices es))
    (λ ie, addElem offset (ir_functionNames ir) (map ex_name (ir_exports ir)) ie.1 ie.2).

Definition addDataExport (ir : IR) (isMainModule : bool) (ex : Export) : LkM unit :=
  match ex_kind ex with
  | kind_global =>
      match ir_globals ir !! ex_index ex with
      | None => throw (Undefined "globals.getDef")
      | Some g =>
          match gl_i32_const g with
          | None => mret ()
          | Some v =>
              offset ← (if isMainModule then mret 0
                        else d ← getLastLoadedDynamicModule; mret (i32 (dataBottom d)));
              add_memory_offset (ex_name ex) (i32 (offset + v), gl_isMutable g)
          end
      end
  | _ => mret ()
  end.

Definition addModuleToGOT (ir : IR) (isMainModule : bool) : LkM unit :=
  for_each (ir_elemSegments ir) (addElemSegment ir isMainModule) ;;
  for_each (ir_exports ir) (addDataExport ir isMainModule).

(** ** Resolving imports *)

(** [Runtime::createGlobal]: null when there is no room for another. *)
Definition newGlobal (failure : exn) (type : ExternType) (value : Z) : LkM (option Object) :=
  s ← get;
  if createGlobal (lk_globals s)
  then put (set_globals (S (lk_globals s)) s) ;; mret (Some (NewGlobal type value))
  else throw failure.
Definition nullGlobal : exn := Undefined "null global".

(** The first of the loaded modules that exports the name. *)
Definition dynamicExport (name : string) (s : Linker Reg) : option Obj :=
  foldr (λ d next,
    match ld_ptr d with
    | None => next
    | Some i => match getInstanceExport i name with Some o => Some o | None => next end
    end) None (visit_order _ (dynamicModuleMap (lk_dyn s))).
(** The main module's export, else the loaded modules'. *)
Definition loadedExport (name : string) : LkM (option Obj) :=
  r ← (s ← get; instanceExport (moduleInstance s) name);
  match r with
  | Some o => mret (Some o)
  | None => gets (dynamicExport name)
  end.

Definition resolveGOTmem (name : string) (type : ExternType) : LkM (option Object) :=
  s ← get;
  match globalOffsetMemoryMap (lk_got s) !! name with
  | None => mret None
  | Some (value, _) => newGlobal (RuntimeError "Failed to create global") (set_mutable type) value
  end.

Definition foundOffset (name : string) : LkM Z :=
  s ← get;
  match globalOffsetTableMap (lk_got s) !! name with Some i => mret (i32 i) | None => mret (-1) end.

(** The function's index in the table: the one known, or that of a loaded
    module's export, or of a placeholder that is filled later. *)
Definition gotFunctionIndex (name : string) : LkM Z :=
  tableIdx ← foundOffset name;
  tableIdx ← (if tableIdx =? -1 then
      resolvedFunc ← loadedExport name;
      match resolvedFunc with
      | None => mret (-1)
      | Some f =>
          idx ← addFunctionToTable f;
          add_table_offset name (u64 (i32 idx)) ;; mret (i32 idx)
      end
    else mret tableIdx);
  if tableIdx =? -1 then
    newIdx ← growTable 1 "Failed to grow table";
    s ← get;
    set_missing (insert_new name (i32 newIdx) (missingGlobalOffsetEntries (lk_got s))) ;;
    mret (i32 newIdx)
  else mret tableIdx.

Definition resolveGOTfunc (name : string) (type : ExternType) : LkM (option Object) :=
  tableIdx ← gotFunctionIndex name;
  newGlobal (RuntimeError "Failed to create global function offset") type tableIdx.

Definition resolveFallback (modulePtr : option Inst) (name : string) : LkM (option Object) :=
  r ← instanceExport modulePtr name;
  r ← match r with Some o => mret (Some o) | None => loadedExport name end;
  mret (Exported <$> r).

(** WAVM's type check of an object; the name of a resolved import's error. *)
Context (isA : Object → ExternType → bool).

Definition resolve (moduleName name : string) (type : ExternType) : LkM (option Object) :=
  s ← get;
  let modulePtr := if bool_decide (moduleName = "wasi_snapshot_preview1") then wasiModule s
                   else envModule s in
  resolved ← match moduleInstance s with
    | None => r ← instanceExport modulePtr name; mret (Exported <$> r)
    | Some _ =>
        lastLoaded ← getLastLoadedDynamicModule;
        if bool_decide (moduleName = "GOT.mem") then resolveGOTmem name type
        else if bool_decide (moduleName = "GOT.func") then resolveGOTfunc name type
        else if bool_decide (name = "__memory_base") then newGlobal nullGlobal type (dataBottom lastLoaded)
        else if bool_decide (name = "__table_base") then newGlobal nullGlobal type (tableBottom lastLoaded)
        else if bool_decide (name = "__stack_pointer") then newGlobal nullGlobal type (stackPointer lastLoaded)
        else if bool_decide (name = "__indirect_function_table") then mret (Some DefaultTable)
        else resolveFallback modulePtr name
    end;
  match resolved with
  | None => mret None
  | Some o =>
      if isA o type then mret (Some o)
      else if bool_decide (name = "__indirect_function_table") then mret (Some o)
      else throw (RuntimeError "Error resolving import")
  end.

(** ** Instantiation *)

(** WAVM's linking of imports with a resolver, its instantiation of a compiled
    module, and its execution of a function. *)
Context (linkModule : IR → (Import ExternType → LkM (option Object)) → LkM (bool * list Object))
  (instantiateModule : option ModuleRef → list Object → string → LkM Inst)
  (executeWasmFunction : Obj → list Z → LkM Z).

Definition resolver (im : Import ExternType) : LkM (option Object) :=
  resolve (im_module im) (im_name im) (im_type im).

(** The room for a shared module, as it is recorded. *)
Definition layout (path : string) (memStart dataSize oldTableElems newTableElems : Z)
    (ptr : option Inst) : LoadedDynamicModule :=
  let stackTop := u32 (memStart + DYNAMIC_MODULE_STACK_SIZE) in
  let dataTop := u32 (stackTop + dataSize) in
  mkLoaded path memStart (u32 (memStart + DYNAMIC_MODULE_MEMORY_SIZE)) stackTop (i32 (stackTop - 1))
    DYNAMIC_MODULE_STACK_SIZE stackTop dataTop dataTop (u32 oldTableElems) (u32 newTableElems) ptr.

Definition provisionDynamicModule (sharedModulePath : string) : LkM unit :=
  s ← get;
  nTableElems ← on_registry
    (rg_getSharedModuleTableSize (boundUser s) (boundFunction s) sharedModulePath);
  oldTableElems ← growTable nTableElems "Failed to grow main module table";
  newTableElems ← gets (λ s, Z.of_nat (length (lk_table s)));
  dataSize ← on_registry
    (rg_getSharedModuleDataSize (boundUser s) (boundFunction s) sharedModulePath);
  let memSize := u32 (DYNAMIC_MODULE_MEMORY_SIZE + 2 * GUARD_REGION_SIZE) in
  memOffset ← on_memory (growMemory memSize);
  memStart ← on_memory (createMemoryGuardRegion (u32 memOffset));
  on_memory (createMemoryGuardRegion (u32 (memStart + DYNAMIC_MODULE_MEMORY_SIZE))) ;;
  handle ← pathHandle sharedModulePath;
  s ← get;
  putModule handle (layout sharedModulePath memStart dataSize oldTableElems newTableElems
    (ld_ptr (moduleAt handle s))).

(** The checks and clones of a main module. *)
Definition prepareMainModule (ir : IR) : LkM unit :=
  modify (set_builtins (Some getEnvModule) (Some getWasiModule)) ;;
  match ir_globals ir with
  | [] => throw (Undefined "globals.getDef(0)")
  | g :: _ => if gl_isMutable g then mret () else throw (RuntimeError "Found immutable stack top")
  end.

Definition fillMissing (instance : Inst) (e : string * Z) : LkM unit :=
  match getInstanceExport instance e.1 with
  | None => throw (RuntimeError "Failed linking module on missing GOT entry")
  | Some f => setTableElement e.2 f ;; add_table_offset e.1 (u64 e.2)
  end.

Definition finishDynamicModule (sharedModulePath : string) (instance : Inst) : LkM unit :=
  handle ← pathHandle sharedModulePath;
  s ← get;
  let d := moduleAt handle s in
  let d := mkLoaded (ld_path d) (memoryBottom d) (memoryTop d) (stackTop d) (stackPointer d)
    (stackSize d) (dataBottom d) (dataTop d) (heapBottom d) (tableBottom d) (tableTop d) (Some instance) in
  putModule handle d ;;
  if validate d then mret () else throw (RuntimeError "Invalid dynamic module. See logs").

Definition createModuleInstance (name sharedModulePath : string) : LkM Inst :=
  let isMainModule := bool_decide (sharedModulePath = "") in
  s ← get;
  irModule ← on_registry (rg_getModule (boundUser s) (boundFunction s) sharedModulePath);
  (if isMainModule then prepareMainModule irModule else provisionDynamicModule sharedModulePath) ;;
  addModuleToGOT irModule isMainModule ;;
  linkResult ← linkModule irModule resolver;
  if negb linkResult.1 then throw (RuntimeError "Failed linking module")
  else
    compiledModule ← on_registry (rg_getCompiledModule (boundUser s) (boundFunction s) sharedModulePath);
    instance ← instantiateModule compiledModule linkResult.2 name;
    s' ← get;
    for_each (map_to_list (missingGlobalOffsetEntries (lk_got s'))) (fillMissing instance) ;;
    set_missing ∅ ;;
    (if isMainModule then mret () else finishDynamicModule sharedModulePath instance) ;;
    mret instance.

Definition getFunction (module : option Inst) (funcName : string) (strict : bool) : LkM (option Obj) :=
  func ← instanceExport module funcName;
  match func with
  | None => if strict then throw (RuntimeError "Missing exported function") else mret None
  | Some f => mret (Some f)
  end.

Definition executeWasmConstructorsFunction (module : option Inst) : LkM unit :=
  f ← getFunction module WASM_CTORS_FUNC_NAME false;
  match f with
  | None => throw (RuntimeError ("Did not find " +:+ WASM_CTORS_FUNC_NAME))
  | Some f =>
      result ← executeWasmFunction f [];
      if negb (i32 result =? 0) then throw (RuntimeError (WASM_CTORS_FUNC_NAME +:+ " failed"))
      else mret ()
  end.

(** [dlopen] *)
Definition dynamicLoadModule (path : string) : LkM Z :=
  s ← get;
  match dynamicPathToHandleMap (lk_dyn s) !! path with
  | Some cachedHandle => mret cachedHandle
  | None =>
      if bool_decide (path = "") then mret MAIN_MODULE_DYNLINK_HANDLE
      else if is_directory path then mret 0
      else if negb (exists_file path) then mret 0
      else
        let thisHandle := i32 (2 + Z.of_nat (size (dynamicModuleMap (lk_dyn s)))) in
        modify (λ s, set_paths (<[path := thisHandle]> (dynamicPathToHandleMap (lk_dyn s))) s) ;;
        modify (set_last thisHandle) ;;
        mod_ ← createModuleInstance ("handle_" +:+ to_string thisHandle) path;
        executeWasmConstructorsFunction (Some mod_) ;;
        mret thisHandle
  end.

(** [dlsym] *)
Definition mainExport (funcName : string) : LkM (option Obj) :=
  s ← get;
  r ← instanceExport (envModule s) funcName;
  match r with
  | Some o => mret (Some o)
  | None =>
      r ← instanceExport (moduleInstance s) funcName;
      match r with
      | Some o => mret (Some o)
      | None => instanceExport (wasiModule s) funcName
      end
  end.
Definition getDynamicModuleFunction (handle : Z) (funcName : string) : LkM Z :=
  exportedFunc ← (if handle =? MAIN_MODULE_DYNLINK_HANDLE then mainExport funcName
    else
      s ← get;
      match dynamicModuleMap (lk_dyn s) !! handle with
      | None => throw (RuntimeError "Missing dynamic module")
      | Some d => instanceExport (ld_ptr d) funcName
      end);
  match exportedFunc with
  | None => throw (RuntimeError "Missing dynamic module function")
  | Some f => addFunctionToTable f
  end.

(** [dlclose] *)
Definition dlclose (handle : Z) : LkM Z := mret 0.
End linker.

(** * Properties *)

Section link_properties.
Context `{E : MemoryEnv} `{Wavm} `{!LinkEnv} {Reg : Type} `{!Registry Reg}.

Lemma length_snoc_lookup {A} (l : list A) x : (l ++ [x]) !! length l = Some x.
Proof. by rewrite lookup_app_r, Nat.sub_diag by lia. Qed.

(** Adding a function takes the next index and keeps the ones before. *)
Lemma addFunctionToTable_run (f : Obj) (s : Linker Reg) :
  table_grows (Z.of_nat (length (lk_table s))) 1 = true → Z.of_nat (length (lk_table s)) < 2 ^ 31 →
  addFunctionToTable f s =
    (Ret (Z.of_nat (length (lk_table s))), set_table (lk_table s ++ [Some f]) s).
Proof.
  intros Hg Hlen. unfold addFunctionToTable, growTable, setTableElement. run_unfold. rewrite Hg. cbn.
  rewrite !wrapU_id by (unfold in_u; lia). change (replicate (Z.to_nat 1) (@None Obj)) with [@None Obj].
  rewrite length_app. cbn [length].
  destruct (Z.leb_spec (Z.of_nat (length (lk_table s) + 1)) (Z.of_nat (length (lk_table s)))); [lia|].
  cbn. rewrite Nat2Z.id, insert_app_r_alt, Nat.sub_diag by lia. cbn. done.
Qed.

Lemma addFunctionToTable_fails (f : Obj) (s : Linker Reg) :
  table_grows (Z.of_nat (length (lk_table s))) 1 = false →
  addFunctionToTable f s = (Throw (RuntimeError "Failed to grow table"), s).
Proof. intros Hg. unfold addFunctionToTable, growTable. run_unfold. by rewrite Hg. Qed.

(** [dlsym] on a loaded module's handle: the function gets the next index of
    the table, at which calls find it, and calls through older indices find what
    they found; without the export, or room in the table, it fails and changes
    nothing. *)
Theorem getDynamicModuleFunction_fresh handle funcName d i (s : Linker Reg) :
  handle ≠ MAIN_MODULE_DYNLINK_HANDLE → dynamicModuleMap (lk_dyn s) !! handle = Some d →
  ld_ptr d = Some i → Z.of_nat (length (lk_table s)) < 2 ^ 31 →
  let n := Z.of_nat (length (lk_table s)) in
  match getInstanceExport i funcName, table_grows n 1 with
  | Some f, true => ∃ s1, getDynamicModuleFunction handle funcName s = (Ret n, s1) ∧
      getFunctionFromPtr n s1 = (Ret f, s1) ∧
      ∀ k g, (getFunctionFromPtr k s).1 = Ret g → getFunctionFromPtr k s1 = (Ret g, s1)
  | Some _, false => getDynamicModuleFunction handle funcName s =
      (Throw (RuntimeError "Failed to grow table"), s)
  | None, _ => getDynamicModuleFunction handle funcName s =
      (Throw (RuntimeError "Missing dynamic module function"), s)
  end.
Proof.
  intros Hne Hd Hi Hlen n.
  assert (getDynamicModuleFunction handle funcName s =
    match getInstanceExport i funcName with
    | None => (Throw (RuntimeError "Missing dynamic module function"), s)
    | Some f => addFunctionToTable f s
    end) as Hrun.
  { unfold getDynamicModuleFunction. apply Z.eqb_neq in Hne. rewrite Hne. run_unfold. rewrite Hd.
    unfold instanceExport. rewrite Hi. run_unfold. by destruct (getInstanceExport i funcName). }
  rewrite Hrun. destruct (getInstanceExport i funcName) as [f|]; [|done].
  destruct (table_grows n 1) eqn:Hg; [|by apply addFunctionToTable_fails].
  rewrite addFunctionToTable_run by done. eexists. split; [done|]. unfold getFunctionFromPtr. split.
  - unfold n. run_unfold. rewrite wrapU_id by (unfold in_u; lia). by rewrite Nat2Z.id, length_snoc_lookup.
  - intros k g. run_unfold. destruct (lk_table s !! Z.to_nat (u64 k)) as [[g'|]|] eqn:Hk; cbn; try done.
    intros [= ->]. by rewrite (lookup_app_l_Some _ _ _ _ Hk).
Qed.

(** The check of a new module's layout accepts any size of data, also data that
    ends past the module's memory: it holds for every size, and the module's heap
    starts inside its memory only up to 34 pages of data. *)
Theorem validate_layout path memStart dataSize t0 t1 i :
  0 ≤ memStart → memStart + DYNAMIC_MODULE_MEMORY_SIZE < 2 ^ 32 →
  0 ≤ dataSize < 2 ^ 31 → memStart + DYNAMIC_MODULE_STACK_SIZE + dataSize < 2 ^ 32 →
  0 ≤ t0 ≤ t1 → t1 < 2 ^ 32 →
  let d := layout path memStart dataSize t0 t1 (Some i) in
  validate d = true ∧ (heapBottom d ≤ memoryTop d ↔ dataSize ≤ 34 * WASM_BYTES_PER_PAGE).
Proof.
  intros Hm Htop HD Hend Ht Ht1 d.
  unfold DYNAMIC_MODULE_MEMORY_SIZE, DYNAMIC_MODULE_STACK_SIZE, WASM_BYTES_PER_PAGE in *.
  assert (stackTop d = memStart + 2097152) as Hst
    by (change (stackTop d) with (u32 (memStart + 2097152)); apply wrapU_id; unfold in_u; lia).
  assert (memoryTop d = memStart + 4325376) as Hmt
    by (change (memoryTop d) with (u32 (memStart + 4325376)); apply wrapU_id; unfold in_u; lia).
  assert (dataTop d = stackTop d + dataSize) as Hdt.
  { change (dataTop d) with (u32 (stackTop d + dataSize)). rewrite Hst. apply wrapU_id. unfold in_u. lia. }
  assert (tableBottom d = t0) as Htb
    by (change (tableBottom d) with (u32 t0); apply wrapU_id; unfold in_u; lia).
  assert (tableTop d = t1) as Htt
    by (change (tableTop d) with (u32 t1); apply wrapU_id; unfold in_u; lia).
  assert (memoryBottom d = memStart ∧ stackSize d = 2097152 ∧ dataBottom d = stackTop d ∧
    ld_ptr d = Some i ∧ heapBottom d = dataTop d ∧ stackPointer d = i32 (stackTop d - 1))
    as (Hmb & Hss & Hdb & Hp & Hhb & Hsp) by done.
  clearbody d. unfold validate. rewrite Hdb, Hhb, Hmb, Hss, Hdt, Hst, Hmt, Htb, Htt, Hp, Hsp, Hst.
  assert (∀ x, - 2 ^ 31 ≤ x < 2 ^ 31 → i32 (u32 x) = x) as Hi32.
  { intros x Hx. rewrite wrapS_wrapU by lia. apply wrapS_id; [lia|]. unfold in_s.
    change (2 ^ (32 - 1)) with (2 ^ 31). lia. }
  rewrite !Hi32 by lia. rewrite (wrapU_id 32 (memStart + 2097152)) by (unfold in_u; lia).
  rewrite (wrapU_id 32 (memStart + 2097152 + _)) by (unfold in_u; lia).
  assert (u32 (i32 (memStart + 2097152 - 1)) = u32 (memStart + 2097152 - 1)) as ->.
  { unfold wrapU, wrapS. rewrite Zminus_mod, Z.mod_mod, <- Zminus_mod by lia. f_equal. lia. }
  split; [|lia]. rewrite !andb_true_iff, !negb_true_iff, !Z.eqb_eq, !Z.leb_gt, Z.ltb_ge.
  split_and!; done || lia.
Qed.
End link_properties.

(** * Concrete modules *)

Definition demo_exports : list string := ["__wasm_call_ctors"; "f"].
#[export] Instance demo_link : LinkEnv :=
  {| Inst := string; Obj := string * string;
     getInstanceExport := λ i n, if bool_decide (n ∈ demo_exports) then Some (i, n) else None;
     getEnvModule := "env"; getWasiModule := "wasi"; table_grows := λ n d, n + d <? 1000;
     createGlobal := λ n, bool_decide (n < 10)%nat; set_mutable := λ t, t;
     is_directory := λ _, false; exists_file := λ p, negb (bool_decide (p = "/none"));
     WASM_CTORS_FUNC_NAME := "__wasm_call_ctors"; visit_order := λ A m, snd <$> map_to_list m |}.
#[export] Instance demo_registry : Registry CacheState := cache_registry demo_conf false demo_targetA.

Definition demo_inst : @Inst demo_wavm demo_link := "lib".
Definition demo_f : @Obj demo_wavm demo_link := ("lib", "f").
Definition demo_loaded (i : option (@Inst demo_wavm demo_link)) : LoadedDynamicModule :=
  layout "/lib/libx.so" 655360 100 0 3 i.
Definition demo_linker (m : gmap Z LoadedDynamicModule) : Linker CacheState :=
  mkLinker demo_cache_main demo_module [] 0 "u" "f" (Some (getEnvModule : Inst)) (Some (getWasiModule : Inst)) (Some ("main" : @Inst demo_wavm demo_link))
    (mkDyn ∅ m 2) (mkGOT ∅ ∅ ∅).

Lemma getDynamicModuleFunction_fresh_witness :
  let s := demo_linker {[2 := demo_loaded (Some demo_inst)]} in
  ∃ s1, getDynamicModuleFunction 2 "f" s = (Ret 0, s1) ∧
    getFunctionFromPtr 0 s1 = (Ret demo_f, s1) ∧
    ∀ k g, (getFunctionFromPtr k s).1 = Ret g → getFunctionFromPtr k s1 = (Ret g, s1).
Proof.
  intros s.
  refine (getDynamicModuleFunction_fresh 2 "f" (demo_loaded (Some demo_inst)) demo_inst s _ _ _ _);
    [discriminate|reflexivity|reflexivity|reflexivity].
Defined.

Lemma validate_layout_witness :
  let d := layout "/lib/libx.so" 655360 3000000 0 3 (Some demo_inst) in
  validate d = true ∧ (heapBottom d ≤ memoryTop d ↔ 3000000 ≤ 34 * WASM_BYTES_PER_PAGE).
Proof.
  apply (validate_layout "/lib/libx.so" 655360 3000000 0 3 demo_inst);
    unfold DYNAMIC_MODULE_MEMORY_SIZE, DYNAMIC_MODULE_STACK_SIZE, WASM_BYTES_PER_PAGE; lia.
Defined.
