(* ===== verification/LinkInvariant.v ===== *)
(** What holds of the modules that [DynLink] loads, whatever is loaded and
    looked up, and whether or not it fails: their handles, and where their memory
    and table entries are. *)

From S2P Require Import Prelude WasmBytes WasmMemory S3 Host FileLoader ModuleCache DynLink.

(** A table that could grow has fewer than 2^31 elements. *)
Class LinkEnvLaws `{Wavm} (L : LinkEnv) : Prop := {
  table_max n d : table_grows n d = true → n + d < 2 ^ 31 }.

Definition MODULE_SIZE : Z := DYNAMIC_MODULE_MEMORY_SIZE.
(** What loading a module adds to the memory. *)
Definition module_block : Z := MODULE_SIZE + 2 * GUARD_REGION_SIZE.

Section invariant.
Context `{E : MemoryEnv} {EL : MemoryEnvLaws E} `{W : Wavm} {L : LinkEnv} {LL : LinkEnvLaws L}
  {Reg : Type} {G : Registry Reg}.
Abbreviation St := (Linker Reg).

Definition modules (s : St) : gmap Z LoadedDynamicModule := dynamicModuleMap (lk_dyn s).
Definition memSize (s : St) : Z := size_of (lk_memory s).
Definition tableSize (s : St) : Z := Z.of_nat (length (lk_table s)).
Definition good (s : St) : Prop := wf_module (lk_memory s) ∧ tableSize s < 2 ^ 31.

(** The frame of what does not load modules: memory and table may grow. *)
Definition grows (s s' : St) : Prop :=
  good s → good s' ∧ memSize s ≤ memSize s' ∧ tableSize s ≤ tableSize s' ∧ lk_dyn s' = lk_dyn s.

#[export] Instance grows_preorder : PreOrder grows.
Proof.
  split; [intros s Hs; split_and!; done || lia|].
  intros s1 s2 s3 H12 H23 H1. destruct (H12 H1) as (H2 & ? & ? & Hd).
  destruct (H23 H2) as (? & ? & ? & ->). split_and!; try done; lia.
Qed.

(** ** The parts that only grow *)

Lemma keeps_on_memory {A} (m : M WasmModule A) :
  (∀ x, wf_module x → wf_module (m x).2 ∧ size_of x ≤ size_of (m x).2) → keeps grows (on_memory m).
Proof.
  intros Hm s [Hwf Ht]. unfold on_memory, zoom.
  specialize (Hm _ Hwf). destruct (m (lk_memory s)) as [o x]. cbn in *.
  destruct Hm. split_and!; done || (unfold tableSize; cbn; lia).
Qed.

Lemma keeps_growMemory n : 0 ≤ n < 2 ^ 63 → keeps grows (on_memory (growMemory n)).
Proof.
  intros Hn. apply keeps_on_memory. intros x Hx. destruct (growMemory n x) as [o x'] eqn:Hg. cbn.
  apply growMemory_cases in Hg as [(_ & _ & _ & Hsz & Hwf & _)|(e & _ & -> & _)];
    try done; split; done || lia.
Qed.

Lemma keeps_guard off : keeps grows (on_memory (createMemoryGuardRegion off)).
Proof.
  apply keeps_on_memory. intros x Hx. destruct (createMemoryGuardRegion_stacks off x) as [_ Hp].
  unfold wf_module, size_of in *. rewrite Hp. split; [done|lia].
Qed.

Lemma keeps_on_registry {A} (m : M Reg A) : keeps grows (on_registry m).
Proof.
  intros s Hs. unfold on_registry, zoom. destruct (m _) as [o r]. cbn.
  split_and!; done || (unfold memSize, tableSize; cbn; lia).
Qed.

Lemma keeps_frame (f : St → St) :
  (∀ s, lk_memory (f s) = lk_memory s ∧ lk_table (f s) = lk_table s ∧ lk_dyn (f s) = lk_dyn s) →
  ∀ s, grows s (f s).
Proof.
  intros Hf s [Hwf Ht]. destruct (Hf s) as (Hm & Htab & Hd).
  unfold good, memSize, tableSize in *. rewrite Hm, Htab, Hd. split_and!; done || lia.
Qed.

Lemma keeps_growTable n what : keeps grows (growTable n what).
Proof.
  apply keeps_get_bind. intros s. cbv beta zeta. destruct (table_grows _ _) eqn:Hg; [|reflexivity].
  change (((put _ ≫= _) s).2) with (set_table (lk_table s ++ replicate (Z.to_nat n) None) s).
  intros [Hwf Ht]. apply table_max in Hg.
  unfold good, memSize, tableSize in *. cbn. rewrite length_app, length_replicate.
  split_and!; done || lia.
Qed.

Lemma keeps_setTableElement i o : keeps grows (setTableElement i o).
Proof.
  apply keeps_get_bind. intros s. cbv beta zeta. destruct (_ <=? _); cbn; [reflexivity|].
  intros [Hwf Ht]. unfold good, memSize, tableSize in *. cbn. rewrite length_insert.
  split_and!; done || lia.
Qed.

Lemma keeps_add_table_offset n i : keeps grows (add_table_offset n i).
Proof. apply keeps_modify, keeps_frame. done. Qed.
Lemma keeps_add_memory_offset n i : keeps grows (add_memory_offset n i).
Proof. apply keeps_modify, keeps_frame. done. Qed.
Lemma keeps_set_missing m : keeps grows (set_missing m).
Proof. apply keeps_modify, keeps_frame. done. Qed.
Lemma keeps_instanceExport i n : keeps grows (instanceExport i n).
Proof. destruct i; cbn; auto with keeps typeclass_instances. Qed.
Lemma keeps_getLast : keeps grows getLastLoadedDynamicModule.
Proof.
  apply keeps_get_bind. intros s. cbv beta zeta. destruct (_ =? _); [reflexivity|].
  destruct (_ !! _); reflexivity.
Qed.
Lemma keeps_newGlobal e t v : keeps grows (newGlobal e t v).
Proof.
  apply keeps_get_bind. intros s. cbv beta zeta. destruct (createGlobal _); [|reflexivity].
  cbn. by apply keeps_frame.
Qed.
#[local] Hint Resolve keeps_on_registry keeps_growTable keeps_setTableElement keeps_add_table_offset
  keeps_add_memory_offset keeps_set_missing keeps_instanceExport keeps_getLast keeps_newGlobal
  keeps_guard grows_preorder : keeps.

(** Splits a composed call into its parts. *)
Ltac keep_step :=
  match goal with
  | |- keeps _ (get ≫= _) => apply keeps_get_bind; intros ?; cbv beta zeta
  | |- keeps _ (_ ≫= _) => apply keeps_bind; [apply _| |intros ?]
  | |- keeps _ (match ?x with _ => _ end) => destruct x
  | |- keeps _ (if ?x then _ else _) => destruct x
  | |- keeps _ (for_each _ _) => apply keeps_for_each; [apply _|intros ?]
  | |- keeps _ (map_each _ _) => apply keeps_map_each; [apply _|intros ?]
  | |- grows ?s (match ?x with _ => _ end ?s).2 => destruct x
  | |- keeps _ _ => solve [auto with keeps typeclass_instances]
  | |- grows ?s (?m ?s).2 => let H := fresh in assert (keeps grows m) as H; [|apply H]
  | |- grows ?s ?s => reflexivity
  end.
Ltac keep := repeat keep_step.

Lemma keeps_addFunctionToTable f : keeps grows (addFunctionToTable f).
Proof. unfold addFunctionToTable. keep. Qed.
#[local] Hint Resolve keeps_addFunctionToTable : keeps.

Lemma keeps_addModuleToGOT ir b : keeps grows (addModuleToGOT ir b).
Proof. unfold addModuleToGOT, addElemSegment, addDataExport, addElem. keep. Qed.

Lemma keeps_loadedExport n : keeps grows (loadedExport n).
Proof. unfold loadedExport. keep. Qed.
#[local] Hint Resolve keeps_loadedExport : keeps.

Lemma keeps_gotFunctionIndex n : keeps grows (gotFunctionIndex n).
Proof. unfold gotFunctionIndex, foundOffset. keep. Qed.
#[local] Hint Resolve keeps_gotFunctionIndex : keeps.

Lemma keeps_resolve isA m n t : keeps grows (resolve isA m n t).
Proof. unfold resolve, resolveGOTmem, resolveGOTfunc, resolveFallback. keep. Qed.

Lemma keeps_getDynamicModuleFunction h f : keeps grows (getDynamicModuleFunction h f).
Proof. unfold getDynamicModuleFunction, mainExport. keep. Qed.

(** ** The invariant *)

Record lk_inv (s : St) : Prop := {
  inv_good : good s;
  (** handles are given out in order *)
  inv_keys h : is_Some (modules s !! h) ↔ 2 ≤ h < 2 + Z.of_nat (size (modules s));
  (** a module's memory has its guard regions inside the main memory *)
  inv_memory h d : modules s !! h = Some d →
    (h - 2) * module_block ≤ memoryBottom d - GUARD_REGION_SIZE ∧
    memoryTop d = memoryBottom d + MODULE_SIZE ∧ memoryTop d + GUARD_REGION_SIZE ≤ memSize s;
  inv_table h d : modules s !! h = Some d → 0 ≤ tableBottom d ≤ tableTop d ∧ tableTop d ≤ tableSize s;
  (** later modules are above earlier ones *)
  inv_apart h1 h2 d1 d2 : h1 < h2 → modules s !! h1 = Some d1 → modules s !! h2 = Some d2 →
    memoryTop d1 + GUARD_REGION_SIZE ≤ memoryBottom d2 - GUARD_REGION_SIZE ∧
    tableTop d1 ≤ tableBottom d2 }.

Lemma inv_grows s s' : grows s s' → lk_inv s → lk_inv s'.
Proof.
  intros Hg Hi. destruct (Hg (inv_good _ Hi)) as (Hgood & Hm & Ht & Hd).
  assert (modules s' = modules s) as Hmod by (unfold modules; by rewrite Hd).
  split; [done|rewrite Hmod; apply Hi| | |rewrite Hmod; apply Hi].
  - intros h d. rewrite Hmod. intros Hh. destruct (inv_memory _ Hi h d Hh) as (? & ? & ?).
    split_and!; done || lia.
  - intros h d. rewrite Hmod. intros Hh. destruct (inv_table _ Hi h d Hh). split; done || lia.
Qed.

Lemma block_constants :
  MODULE_SIZE = 4325376 ∧ GUARD_REGION_SIZE = 655360 ∧ module_block = 5636096.
Proof. done. Qed.

(** No more modules fit in the memory than some hundreds, so that handles are
    never the main module's. *)
Lemma inv_count s : lk_inv s → Z.of_nat (size (modules s)) ≤ 762.
Proof.
  intros Hi. destruct (decide (size (modules s) = 0%nat)) as [->|Hne]; [lia|].
  set (n := Z.of_nat (size (modules s))).
  destruct (proj2 (inv_keys _ Hi (1 + n))) as [d Hd]; [lia|].
  destruct (inv_memory _ Hi _ _ Hd) as (Hb & Ht & Hs). destruct (inv_good _ Hi) as [Hwf _].
  unfold memSize in Hs. destruct block_constants as (HM & HG & HB). rewrite HM, HG, HB in *.
  page_lia.
Qed.

(** Recording a new module above everything there is. *)
Lemma inv_putModule s h d :
  lk_inv s → h = 2 + Z.of_nat (size (modules s)) →
  memoryTop d = memoryBottom d + MODULE_SIZE → memoryTop d + GUARD_REGION_SIZE ≤ memSize s →
  0 ≤ tableBottom d ≤ tableTop d → tableTop d ≤ tableSize s →
  0 ≤ memoryBottom d - GUARD_REGION_SIZE →
  (∀ h1 d1, modules s !! h1 = Some d1 →
     memoryTop d1 + GUARD_REGION_SIZE ≤ memoryBottom d - GUARD_REGION_SIZE ∧ tableTop d1 ≤ tableBottom d) →
  lk_inv (set_loaded (<[h := d]> (modules s)) s).
Proof.
  intros Hi Hh Htop Hin Htab Htab2 Hpos Habove. set (s' := set_loaded _ s).
  assert (modules s !! h = None) as Hnone.
  { apply eq_None_not_Some. intros Hk%(inv_keys _ Hi). lia. }
  assert (modules s' = <[h := d]> (modules s)) as Hmod by done.
  assert (memSize s' = memSize s ∧ tableSize s' = tableSize s) as [Hms Hts] by done.
  split; [apply Hi| | | |]; rewrite ?Hms, ?Hts, ?Hmod.
  - intros k. rewrite lookup_insert_is_Some', map_size_insert_None, (inv_keys _ Hi) by done. lia.
  - intros k d' [[<- <-]|[_ Hk]]%lookup_insert_Some; [|by apply (inv_memory _ Hi)].
    split_and!; try done. destruct (decide (size (modules s) = 0%nat)) as [H0|Hne]; [lia|].
    destruct (proj2 (inv_keys _ Hi (h - 1))) as [d1 Hd1]; [lia|].
    destruct (Habove _ _ Hd1) as [Hab _]. destruct (inv_memory _ Hi _ _ Hd1) as (Hb1 & Ht1 & _).
    unfold module_block in *. lia.
  - intros k d' [[<- <-]|[_ Hk]]%lookup_insert_Some; [done|by apply (inv_table _ Hi) in Hk].
  - intros h1 h2 d1 d2 Hlt [[<- <-]|[Hn1 H1]]%lookup_insert_Some [[<- <-]|[Hn2 H2]]%lookup_insert_Some.
    + lia.
    + assert (2 ≤ h2 < h) by (rewrite Hh; apply (inv_keys _ Hi); by exists d2). lia.
    + by apply (Habove h1).
    + by apply (inv_apart _ Hi h1 h2).
Qed.

(** A call that only grows, then the rest: by the outcome of the call. *)
Lemma bind_grows {A B} (m : M St A) (f : A → M St B) s (Q : outcome B → St → Prop) :
  keeps grows m → lk_inv s →
  (∀ e s1, lk_dyn s1 = lk_dyn s → lk_inv s1 → Q (Throw e) s1) →
  (∀ a s1, m s = (Ret a, s1) → memSize s ≤ memSize s1 → tableSize s ≤ tableSize s1 →
     lk_dyn s1 = lk_dyn s → lk_inv s1 → Q (f a s1).1 (f a s1).2) →
  Q ((m ≫= f) s).1 ((m ≫= f) s).2.
Proof.
  intros Hm Hi Ht Hr. rewrite run_bind. specialize (Hm s). pose proof (inv_grows _ _ Hm Hi) as Hi1.
  destruct (Hm (inv_good _ Hi)) as (_ & ? & ? & ?).
  destruct (m s) as [[a|e] s1]; cbn in *; auto.
Qed.

Definition paths (s : St) : gmap string Z := dynamicPathToHandleMap (lk_dyn s).

(** After the room for a module is made: the record is in place when that
    succeeded, and the handles are as they were. *)
Definition provisioned (p : gmap string Z) (h : Z) (o : outcome unit) (s : St) : Prop :=
  lk_inv s ∧ paths s = p ∧ (o = Ret () → is_Some (modules s !! h)).

Lemma growTable_ret n what s old s1 :
  growTable n what s = (Ret old, s1) →
  old = tableSize s ∧ tableSize s1 = tableSize s + Z.of_nat (Z.to_nat n).
Proof.
  unfold growTable. rewrite run_bind. cbn [get]. destruct (table_grows _ _); [|done].
  intros [= <- <-]. split; [done|]. unfold tableSize. cbn. rewrite length_app, length_replicate. lia.
Qed.

Lemma on_memory_ret {A} (m : M WasmModule A) (s s1 : St) a :
  on_memory m s = (Ret a, s1) → m (lk_memory s) = (Ret a, lk_memory s1) ∧
  lk_table s1 = lk_table s ∧ lk_dyn s1 = lk_dyn s.
Proof. unfold on_memory, zoom. destruct (m _) as [o x]. by intros [= -> <-]. Qed.

Lemma pathHandle_hit path h (s : St) :
  dynamicPathToHandleMap (lk_dyn s) !! path = Some h → pathHandle path s = (Ret h, s).
Proof. intros Hp. unfold pathHandle. rewrite run_bind. cbn [get]. by rewrite Hp. Qed.

Lemma provision_inv path s h :
  lk_inv s → paths s !! path = Some h → h = 2 + Z.of_nat (size (modules s)) →
  provisioned (paths s) h (provisionDynamicModule path s).1 (provisionDynamicModule path s).2.
Proof.
  intros Hi Hpath Hh. destruct block_constants as (HM & HG & HB).
  assert (∀ e s', lk_dyn s' = lk_dyn s → lk_inv s' → provisioned (paths s) h (Throw e) s') as Hthrow
    by (intros e s' Hd Hs'; split_and!; [done|unfold paths; by rewrite Hd|done]).
  unfold provisionDynamicModule. rewrite run_bind. cbn [get].
  apply bind_grows; [auto with keeps|done|intros; apply Hthrow; [congruence|done]|]. intros nElems s1 _ M1 T1 D1 I1.
  apply bind_grows; [auto with keeps|done|intros; apply Hthrow; [congruence|done]|]. intros old s2 Hold M2 T2 D2 I2.
  apply growTable_ret in Hold as [-> _].
  apply bind_grows; [auto with keeps typeclass_instances|done|intros; apply Hthrow; [congruence|done]|].
  intros new s3 [= <- <-] _ _ _ _. fold (tableSize s2).
  apply bind_grows; [auto with keeps|done|intros; apply Hthrow; [congruence|done]|]. intros dataSize s4 _ M4 T4 D4 I4.
  change (u32 (DYNAMIC_MODULE_MEMORY_SIZE + 2 * GUARD_REGION_SIZE)) with module_block.
  apply bind_grows; [apply keeps_growMemory; rewrite HB; lia|done|intros; apply Hthrow; [congruence|done]|]. intros off s5 Hoff _ T5 D5 I5.
  apply on_memory_ret in Hoff as [Hoff _].
  apply growMemory_cases in Hoff as [(Hb & _ & _ & Hsz & Hwf5 & _)|(e & He & _)];
    [|done|apply I4|rewrite HB; lia]. injection Hb as ->.
  apply bind_grows; [auto with keeps|done|intros; apply Hthrow; [congruence|done]|]. intros memStart s6 Hms M6 T6 D6 I6.
  apply on_memory_ret in Hms as [Hms _]. apply createMemoryGuardRegion_run in Hms as [_ Hms].
  fold (memSize s4) in *. fold (memSize s5) in Hsz.
  assert (0 ≤ memSize s4 ∧ memSize s5 < 2 ^ 32) as Hbnd.
  { pose proof (inv_good _ I4) as [Hw4 _]. unfold memSize in *. page_lia. }
  rewrite HB in Hsz. rewrite HG, (wrapU_id 32 (memSize s4)), wrapU_id in Hms by (unfold in_u; lia).
  subst memStart.
  apply bind_grows; [auto with keeps|done|intros; apply Hthrow; [congruence|done]|]. intros top s7 _ M7 T7 D7 I7.
  assert (lk_dyn s7 = lk_dyn s) as Hd by congruence.
  rewrite (run_bind_ret _ _ _ _ _ (pathHandle_hit path h s7 ltac:(by rewrite Hd))), run_bind.
  cbn [get]. set (ptr := ld_ptr (moduleAt h s7)).
  assert (modules s7 = modules s) as Hmod by (unfold modules; by rewrite Hd).
  assert (0 ≤ tableSize s1) by (unfold tableSize; lia).
  pose proof (inv_good _ I2) as [_ Ht2].
  cut (lk_inv (set_loaded (<[h := layout path (memSize s4 + 655360) dataSize (tableSize s1)
                                     (tableSize s2) ptr]> (modules s7)) s7)).
  { intros Hinv. split; [exact Hinv|]. unfold paths, modules. cbn. rewrite Hd, lookup_insert_eq. by split. }
  apply inv_putModule; rewrite ?Hmod; try done; cbn;
    change DYNAMIC_MODULE_MEMORY_SIZE with MODULE_SIZE; rewrite ?HM, ?HG;
    rewrite ?(wrapU_id 32) by (unfold in_u; lia); try lia.
  intros h1 d1 Hd1. rewrite <- Hmod in Hd1.
  assert (modules s1 = modules s7) as Hm1 by (unfold modules; congruence).
  assert (modules s4 = modules s7) as Hm4 by (unfold modules; congruence).
  destruct (inv_memory _ I4 h1 d1) as (_ & _ & Htop); [by rewrite Hm4|].
  destruct (inv_table _ I1 h1 d1) as (_ & Htab); [by rewrite Hm1|].
  rewrite HG in Htop. split; lia.
Qed.

(** ** Loading a module *)

(** WAVM resolves imports in order, and does nothing else to the module;
    instantiation and the functions that run let memory and table grow. *)
Context (isA : Object → ExternType → bool)
  (linkModule : IRModule ExternType → (Import ExternType → M St (option Object)) → M St (bool * list Object))
  (instantiateModule : option ModuleRef → list Object → string → M St Inst)
  (executeWasmFunction : Obj → list Z → M St Z).
Context (linkModule_resolves : ∀ ir r, linkModule ir r =
    (os ← map_each (ir_imports ir) r; mret (forallb (λ o, bool_decide (is_Some o)) os, omap id os)))
  (instantiate_grows : ∀ c os n, keeps grows (instantiateModule c os n))
  (execute_grows : ∀ f args, keeps grows (executeWasmFunction f args)).
Abbreviation dlopen := (dynamicLoadModule isA linkModule instantiateModule executeWasmFunction).

Lemma keeps_linkModule ir : keeps grows (linkModule ir (resolver isA)).
Proof.
  rewrite linkModule_resolves. apply keeps_bind; [apply _| |intros; auto with keeps typeclass_instances].
  apply keeps_map_each; [apply _|]. intros im. apply keeps_resolve.
Qed.

Lemma keeps_fillMissing i e : keeps grows (fillMissing i e).
Proof. unfold fillMissing. keep. Qed.

Lemma keeps_constructors i : keeps grows (executeWasmConstructorsFunction executeWasmFunction i).
Proof. unfold executeWasmConstructorsFunction, getFunction. keep. Qed.

(** Setting the instance of a module that has its place. *)
Lemma inv_setInstance s h d d' :
  lk_inv s → modules s !! h = Some d →
  memoryBottom d' = memoryBottom d → memoryTop d' = memoryTop d →
  tableBottom d' = tableBottom d → tableTop d' = tableTop d →
  lk_inv (set_loaded (<[h := d']> (modules s)) s).
Proof.
  intros Hi Hd Hb Ht Htb Htt. set (s' := set_loaded _ s).
  assert (modules s' = <[h := d']> (modules s)) as Hmod by done.
  assert (memSize s' = memSize s ∧ tableSize s' = tableSize s) as [Hms Hts] by done.
  assert (∀ k e, modules s' !! k = Some e → ∃ e0, modules s !! k = Some e0 ∧
    memoryBottom e = memoryBottom e0 ∧ memoryTop e = memoryTop e0 ∧
    tableBottom e = tableBottom e0 ∧ tableTop e = tableTop e0) as Hold.
  { intros k e. rewrite Hmod. intros [[<- <-]|[_ Hk]]%lookup_insert_Some; [by exists d|by exists e]. }
  split; [apply Hi| | | |]; rewrite ?Hms, ?Hts.
  - intros k. rewrite Hmod, map_size_insert_Some by (by exists d).
    rewrite lookup_insert_is_Some', <- (inv_keys _ Hi). split; [intros [<-|?]; [by exists d|done]|by right].
  - intros k e (e0 & Hk & -> & -> & _)%Hold. by apply (inv_memory _ Hi).
  - intros k e (e0 & Hk & _ & _ & -> & ->)%Hold. by apply (inv_table _ Hi) in Hk.
  - intros h1 h2 e1 e2 Hlt (f1 & H1 & _ & -> & _ & ->)%Hold (f2 & H2 & -> & _ & -> & _)%Hold.
    by apply (inv_apart _ Hi h1 h2).
Qed.

Lemma finish_inv path h i s :
  lk_inv s → paths s !! path = Some h → is_Some (modules s !! h) →
  lk_inv (finishDynamicModule path i s).2 ∧ paths (finishDynamicModule path i s).2 = paths s.
Proof.
  intros Hi Hp [d Hd]. unfold finishDynamicModule.
  rewrite (run_bind_ret _ _ _ _ _ (pathHandle_hit path h s Hp)), run_bind. cbn [get].
  assert (moduleAt h s = d) as -> by (unfold moduleAt; unfold modules in Hd; by rewrite Hd).
  set (d' := mkLoaded _ _ _ _ _ _ _ _ _ _ _ _).
  assert (lk_inv (set_loaded (<[h := d']> (modules s)) s)) as Hinv by (by eapply inv_setInstance).
  unfold putModule. run_unfold. split; by destruct (validate d').
Qed.

Abbreviation create := (createModuleInstance isA linkModule instantiateModule).

Lemma createModuleInstance_inv name path s h :
  path ≠ "" → lk_inv s → paths s !! path = Some h → h = 2 + Z.of_nat (size (modules s)) →
  lk_inv (create name path s).2 ∧ paths (create name path s).2 = paths s.
Proof.
  intros Hne Hi Hp Hh. unfold createModuleInstance. rewrite run_bind. cbn [get].
  rewrite (bool_decide_eq_false_2 (path = "")) by done.
  set (Q := λ (_ : outcome Inst) (s' : St), lk_inv s' ∧ paths s' = paths s).
  assert (∀ o s', paths s' = paths s → lk_inv s' → Q o s') as HQ by done.
  apply (bind_grows _ _ _ Q); [auto with keeps|done|intros e s' D; apply HQ; unfold paths; congruence|].
  intros ir s1 _ _ _ D1 I1.
  assert (paths s1 = paths s ∧ modules s1 = modules s) as [P1 M1]
    by (unfold paths, modules; by rewrite D1).
  unfold Q. rewrite run_bind.
  destruct (provision_inv path s1 h) as (I2 & P2 & M2); [done|by rewrite P1|by rewrite M1|].
  destruct (provisionDynamicModule path s1) as [[[]|e] s2]; cbn [fst snd] in *; [|by rewrite P2].
  specialize (M2 eq_refl). rewrite P1 in P2.
  assert (∀ (o : outcome Inst) s', lk_dyn s' = lk_dyn s2 → lk_inv s' → Q o s') as HQ2
    by (intros o s' D Hs'; split; [done|]; unfold paths; by rewrite D).
  apply (bind_grows _ _ _ Q); [apply keeps_addModuleToGOT|done|auto|].
  intros [] s3 _ _ _ D3 I3.
  apply (bind_grows _ _ _ Q); [apply keeps_linkModule|done|intros; apply HQ2; congruence|].
  intros [ok os] s4 _ _ _ D4 I4. destruct ok; cbn [negb fst snd]; [|apply (HQ2 (Throw nullGlobal) s4); [congruence|done]].
  apply (bind_grows _ _ _ Q); [auto with keeps|done|intros; apply HQ2; congruence|].
  intros c s5 _ _ _ D5 I5.
  apply (bind_grows _ _ _ Q); [apply instantiate_grows|done|intros; apply HQ2; congruence|].
  intros i s6 _ _ _ D6 I6. unfold Q. rewrite run_bind. cbn [get].
  apply (bind_grows _ _ _ Q);
    [apply keeps_for_each; [apply _|apply keeps_fillMissing]|done|intros; apply HQ2; congruence|].
  intros [] s7 _ _ _ D7 I7.
  apply (bind_grows _ _ _ Q); [auto with keeps|done|intros; apply HQ2; congruence|].
  intros [] s8 _ _ _ D8 I8. assert (lk_dyn s8 = lk_dyn s2) as D by congruence.
  assert (paths s8 = paths s) as P8 by (unfold paths; rewrite D; done).
  destruct (finish_inv path h i s8) as [I9 P9]; [done|by rewrite P8|unfold modules; by rewrite D|].
  rewrite P8 in P9. unfold Q. rewrite run_bind. by destruct (finishDynamicModule path i s8) as [[[]|e] s9].
Qed.

Lemma run_modify {A} (f : St → St) (g : unit → M St A) s : (modify f ≫= g) s = g () (f s).
Proof. done. Qed.

(** A load that finds no handle for the path gives it the next one, and keeps it
    whether or not the rest fails. *)
Lemma dynamicLoadModule_new path s o s' :
  lk_inv s → paths s !! path = None → dlopen path s = (o, s') →
  (s' = s ∧ (o = Ret 0 ∨ path = "" ∧ o = Ret MAIN_MODULE_DYNLINK_HANDLE)) ∨
  (lk_inv s' ∧ paths s' !! path = Some (2 + Z.of_nat (size (modules s))) ∧
   ∀ h, o = Ret h → h = 2 + Z.of_nat (size (modules s))).
Proof.
  intros Hi Hnone. unfold dynamicLoadModule. rewrite run_bind. cbn [get]. unfold paths in Hnone. rewrite Hnone.
  destruct (bool_decide_reflect (path = "")) as [|Hne]; [intros [= <- <-]; auto|].
  destruct (is_directory path); [intros [= <- <-]; auto|].
  destruct (negb (exists_file path)); [intros [= <- <-]; auto|].
  set (h := i32 _). rewrite !run_modify.
  set (s1 := set_last h (set_paths (<[path := h]> (dynamicPathToHandleMap (lk_dyn s))) s)).
  assert (lk_inv s1) as I1 by (destruct Hi; split; done).
  assert (h = 2 + Z.of_nat (size (modules s1))) as Hh.
  { unfold h. apply wrapS_id; [lia|]. pose proof (inv_count _ I1). unfold in_s.
    change (2 ^ (32 - 1)) with 2147483648. lia. }
  assert (paths s1 !! path = Some h) as Hp by (unfold paths; cbn; by rewrite lookup_insert_eq).
  destruct (createModuleInstance_inv ("handle_" +:+ to_string h) path s1 h Hne I1 Hp Hh) as [I2 P2].
  intros Hrun. right. rewrite run_bind in Hrun.
  change (modules s1) with (modules s) in Hh. rewrite <- Hh.
  destruct (create _ path s1) as [[i|e] s2]; cbn [snd] in *; [|injection Hrun as <- <-; by rewrite P2].
  assert (keeps grows (executeWasmConstructorsFunction executeWasmFunction (Some i) ;; mret h)) as Hk
    by (apply keeps_bind; auto using keeps_constructors with keeps typeclass_instances).
  pose proof (inv_grows _ _ (Hk s2) I2) as I3. destruct (Hk s2 (inv_good _ I2)) as (_ & _ & _ & D).
  rewrite Hrun in I3, D. cbn [snd] in *. split; [done|]. split; [unfold paths in *; by rewrite D, P2|].
  intros h' ->. rewrite run_bind in Hrun.
  destruct (executeWasmConstructorsFunction _ _ s2) as [[[]|e] s3]; [by injection Hrun|done].
Qed.

Lemma dlopen_hit path h s : paths s !! path = Some h → dlopen path s = (Ret h, s).
Proof. intros Hp. unfold dynamicLoadModule. rewrite run_bind. cbn [get]. by unfold paths in Hp; rewrite Hp. Qed.

Lemma dynamicLoadModule_inv path s : lk_inv s → lk_inv (dlopen path s).2.
Proof.
  intros Hi. destruct (paths s !! path) as [h|] eqn:Hp; [by rewrite (dlopen_hit _ _ _ Hp)|].
  destruct (dlopen path s) as [o s'] eqn:Hrun.
  by destruct (dynamicLoadModule_new path s o s' Hi Hp Hrun) as [[-> _]|[? _]].
Qed.

(** Opening a module again gives the handle it was given, and changes
    nothing. *)
Theorem dlopen_idempotent path s h s' :
  lk_inv s → dlopen path s = (Ret h, s') → dlopen path s' = (Ret h, s').
Proof.
  intros Hi Hrun. destruct (paths s !! path) as [h0|] eqn:Hp.
  { rewrite (dlopen_hit _ _ _ Hp) in Hrun. injection Hrun as <- <-. by apply dlopen_hit. }
  destruct (dynamicLoadModule_new path s _ s' Hi Hp Hrun) as [[-> _]|(_ & Hp' & Hh)]; [done|].
  rewrite <- (Hh h eq_refl) in Hp'. by apply dlopen_hit.
Qed.

(** A load that fails leaves its path with a handle: the next attempt to open
    it reports success with that handle, and does not try again. *)
Theorem dlopen_failure_sticks path s e s' :
  lk_inv s → dlopen path s = (Throw e, s') →
  ∃ h, 2 ≤ h ∧ dlopen path s' = (Ret h, s').
Proof.
  intros Hi Hrun. destruct (paths s !! path) as [h0|] eqn:Hp; [by rewrite (dlopen_hit _ _ _ Hp) in Hrun|].
  destruct (dynamicLoadModule_new path s _ s' Hi Hp Hrun) as [[-> [?|[_ ?]]]|(_ & Hp' & _)]; [done|done|].
  eexists. split; [|by apply dlopen_hit]. lia.
Qed.

(** ** Sequences of calls *)

(** Loads, look-ups, and anything that lets memory and table grow. *)
Inductive step : St → St → Prop :=
  | step_dlopen path s : step s (dlopen path s).2
  | step_dlsym handle name s : step s (getDynamicModuleFunction handle name s).2
  | step_grow s s' : grows s s' → step s s'.

Lemma step_inv s s' : step s s' → lk_inv s → lk_inv s'.
Proof.
  intros [path s0|h n s0|s0 s1 Hg] Hi; [by apply dynamicLoadModule_inv| |by eapply inv_grows].
  refine (inv_grows _ _ _ Hi). apply keeps_getDynamicModuleFunction.
Qed.

Lemma inv_init s : good s → modules s = ∅ → lk_inv s.
Proof.
  intros Hg He. split; [done| | | |]; rewrite He.
  - intros h. rewrite lookup_empty, map_size_empty. split; [by intros []|lia].
  - by intros h d.
  - by intros h d.
  - by intros h1 h2 d1 d2.
Qed.

Lemma steps_inv s s' : rtc step s s' → lk_inv s → lk_inv s'.
Proof.
  induction 1 as [s|s1 s2 s3 H12 _ IH]; [done|]. intros Hi. apply IH. by eapply step_inv.
Qed.

(** C2: As long as WAVM resolves imports in order and the code that loads run
    (instantiation, relocation and constructors) only lets the module's memory and table
    grow, giving none up and loading nothing itself: whatever modules are loaded and
    symbols looked up, in any order and whether or not a load fails, no two loaded modules
    share memory, guard regions or table entries; each lies inside the main module's memory
    and table; and handles are between 2 and 763, so that none is the handle 999 of the
    main module.  Other calls between the loads, such as shrinking the memory, are not
    considered. *)
Theorem loaded_modules_disjoint s s' :
  good s → modules s = ∅ → rtc step s s' →
  (∀ h d, modules s' !! h = Some d →
     2 ≤ h ≤ 763 ∧ h ≠ MAIN_MODULE_DYNLINK_HANDLE ∧
     0 ≤ memoryBottom d - GUARD_REGION_SIZE ∧ memoryTop d + GUARD_REGION_SIZE ≤ memSize s' ∧
     0 ≤ tableBottom d ≤ tableTop d ∧ tableTop d ≤ tableSize s') ∧
  (∀ h1 h2 d1 d2, h1 ≠ h2 → modules s' !! h1 = Some d1 → modules s' !! h2 = Some d2 →
     (memoryTop d1 + GUARD_REGION_SIZE ≤ memoryBottom d2 - GUARD_REGION_SIZE ∧ tableTop d1 ≤ tableBottom d2) ∨
     (memoryTop d2 + GUARD_REGION_SIZE ≤ memoryBottom d1 - GUARD_REGION_SIZE ∧ tableTop d2 ≤ tableBottom d1)).
Proof.
  intros Hg He Hsteps. pose proof (steps_inv _ _ Hsteps (inv_init s Hg He)) as Hi.
  destruct block_constants as (HM & HG & HB).
  assert (∀ h d, modules s' !! h = Some d → 2 ≤ h ≤ 763) as Hrange.
  { intros h d Hd. pose proof (proj1 (inv_keys _ Hi h) (mk_is_Some _ _ Hd)).
    pose proof (inv_count _ Hi). lia. }
  split.
  - intros h d Hd. pose proof (Hrange _ _ Hd). destruct (inv_memory _ Hi _ _ Hd) as (Hlo & _ & Htop).
    destruct (inv_table _ Hi _ _ Hd). unfold MAIN_MODULE_DYNLINK_HANDLE. rewrite HB in Hlo.
    split_and!; try done; lia.
  - intros h1 h2 d1 d2 Hne H1 H2. destruct (Z.lt_total h1 h2) as [Hlt|[?|Hlt]]; [left|done|right];
      by eapply inv_apart.
Qed.
End invariant.

(** * Concrete loads *)

#[export] Instance demo_link_laws : LinkEnvLaws demo_link.
Proof. split. intros n d. cbn. intros ?%Z.ltb_lt. lia. Qed.
Definition demo_linkModule (ir : IRModule unit)
    (r : Import unit → M (Linker CacheState) (option Object)) : M (Linker CacheState) (bool * list Object) :=
  os ← map_each (ir_imports ir) r; mret (forallb (λ o, bool_decide (is_Some o)) os, omap id os).
Definition demo_instantiate (c : option (list Z)) (os : list Object) (n : string)
  : M (Linker CacheState) (@Inst demo_wavm demo_link) := mret n.
(** The constructors of one module fail. *)
Definition demo_execute (f : @Obj demo_wavm demo_link) (args : list Z) : M (Linker CacheState) Z :=
  mret (if decide (fst f = "handle_3") then 1 else 0).
Definition demo_dlopen : string → M (Linker CacheState) Z :=
  dynamicLoadModule (E := demo_env) (λ _ _, true) demo_linkModule demo_instantiate demo_execute.
Definition demo_start : Linker CacheState := demo_linker ∅.
Definition demo_one : Linker CacheState := (demo_dlopen "/lib/libx.so" demo_start).2.

Lemma demo_good : good demo_start.
Proof. split; [apply demo_wf|reflexivity]. Qed.
Lemma demo_instantiate_grows c os n : keeps grows (demo_instantiate c os n).
Proof. apply keeps_ret, _. Qed.
Lemma demo_execute_grows f args : keeps grows (demo_execute f args).
Proof. apply keeps_ret, _. Qed.

Example demo_dlopen_handle : (demo_dlopen "/lib/libx.so" demo_start).1 = Ret 2.
Proof. vm_compute. reflexivity. Qed.

Example demo_dlopen_missing :
  (demo_dlopen "/lib/libz.so" demo_start).1 = Throw (RuntimeError "Key cannot be statted.").
Proof. vm_compute. reflexivity. Qed.

(** One load, as a step. *)
Abbreviation demo_step := (step_dlopen (E := demo_env) (W := demo_wavm) (L := demo_link)
  (G := demo_registry) (λ _ _, true) demo_linkModule demo_instantiate demo_execute).

Lemma loaded_modules_disjoint_witness :
  let s' := (demo_dlopen "/lib/liby.so" demo_one).2 in
  (∀ h d, modules s' !! h = Some d →
     2 ≤ h ≤ 763 ∧ h ≠ MAIN_MODULE_DYNLINK_HANDLE ∧
     0 ≤ memoryBottom d - GUARD_REGION_SIZE ∧ memoryTop d + GUARD_REGION_SIZE ≤ memSize s' ∧
     0 ≤ tableBottom d ≤ tableTop d ∧ tableTop d ≤ tableSize s') ∧
  (∀ h1 h2 d1 d2, h1 ≠ h2 → modules s' !! h1 = Some d1 → modules s' !! h2 = Some d2 →
     (memoryTop d1 + GUARD_REGION_SIZE ≤ memoryBottom d2 - GUARD_REGION_SIZE ∧ tableTop d1 ≤ tableBottom d2) ∨
     (memoryTop d2 + GUARD_REGION_SIZE ≤ memoryBottom d1 - GUARD_REGION_SIZE ∧ tableTop d2 ≤ tableBottom d1)).
Proof.
  intros s'.
  apply (@loaded_modules_disjoint demo_env demo_laws demo_wavm demo_link demo_link_laws CacheState
    demo_registry (λ _ _, true) demo_linkModule demo_instantiate demo_execute
    (λ _ _, eq_refl) demo_instantiate_grows demo_execute_grows demo_start s').
  - exact demo_good.
  - reflexivity.
  - apply (rtc_l _ _ demo_one); [exact (demo_step "/lib/libx.so" demo_start)|].
    exact (rtc_once _ _ (demo_step "/lib/liby.so" demo_one)).
Defined.

Lemma dlopen_idempotent_witness :
  demo_dlopen "/lib/libx.so" demo_one = (Ret 2, demo_one).
Proof.
  apply (@dlopen_idempotent demo_env demo_laws demo_wavm demo_link demo_link_laws CacheState
    demo_registry (λ _ _, true) demo_linkModule demo_instantiate demo_execute
    (λ _ _, eq_refl) demo_instantiate_grows demo_execute_grows "/lib/libx.so" demo_start 2 demo_one).
  - apply inv_init; [exact demo_good|reflexivity].
  - exact (run_fst (demo_dlopen "/lib/libx.so") demo_start (Ret 2) demo_dlopen_handle).
Defined.

(** The host has the file and the store does not: the load fails. *)
Lemma dlopen_failure_sticks_witness :
  let s' := (demo_dlopen "/lib/libz.so" demo_start).2 in
  ∃ h, 2 ≤ h ∧ demo_dlopen "/lib/libz.so" s' = (Ret h, s').
Proof.
  intros s'.
  eapply (@dlopen_failure_sticks demo_env demo_laws demo_wavm demo_link demo_link_laws CacheState
    demo_registry (λ _ _, true) demo_linkModule demo_instantiate demo_execute
    (λ _ _, eq_refl) demo_instantiate_grows demo_execute_grows "/lib/libz.so" demo_start).
  - apply inv_init; [exact demo_good|reflexivity].
  - exact (run_fst (demo_dlopen "/lib/libz.so") demo_start _ demo_dlopen_missing).
Defined.
