(* ===== verification/Chaining.v ===== *)
(** Chained calls and the input and output of a call (src/wasm/chaining_util.cpp,
    src/wavm/chaining.cpp, the functions, shared-memory and migration parts of
    src/wavm/faasm.cpp): the messages a function's calls hand to the scheduler, what
    awaiting them gives, and what is copied into and out of the module's memory. *)

From S2P Require Import Prelude WasmBytes.

(** * Data *)

(** The MPI fields of a message. *)
Record MpiFields := mkMpiFields { ismpi : bool; mpiworldid : Z; mpiworldsize : Z; mpirank : Z }.

(** The fields of [faabric::Message] that the worker reads or sets. *)
Record Message := mkMessage {
  id : Z; appid : Z; groupid : Z; groupidx : Z;
  user : string; function : string; funcptr : Z;
  inputdata : list Z; outputdata : list Z; returnvalue : Z;
  cmdline : string; pythonuser : string; pythonfunction : string; pythonentry : string; ispython : bool;
  isasync : bool; isstorage : bool; forbidndp : bool; executeslocally : bool; recordexecgraph : bool;
  directresulthost : string; snapshotkey : string;
  zygotedelta : list Z; isoutputmemorydelta : bool; wasmglobals : list Z; extraarguments : list Z;
  mpi : MpiFields }.

Inductive RequestType : Type := FUNCTIONS | MIGRATION.

Inductive SnapshotDataType : Type :=
  | SRaw | SBool | SInt | SLong | SFloat | SDouble.
(** faabric's scheduler and what belongs to it: new messages, calling, results,
    the graph of calls, pending migrations (message and host of each), the MPI
    world's part of one, snapshots, the locks of groups, the numbers of its two
    enumerations; and its copying of bytes
    to a buffer of some length: the bytes that are written and the number that is
    returned. *)
Class Scheduler := {
  Sched : Type;
  batchExecFactory : string → string → Sched → Message * Sched;
  callFunctions : RequestType → Message → option string → Sched → outcome unit * Sched;
  getFunctionResult : Z → Z → Sched → outcome Message * Sched;
  logChainedFunction : Z → Z → Sched → Sched;
  getPendingAppMigrations : Z → Sched → option (list (Z * string));
  prepareMigration : Z → Z → Sched → outcome unit * Sched;
  pushSnapshot : string → string → Mem → Sched → outcome unit * Sched;
  localLock : Z → Sched → outcome unit * Sched;
  localUnlock : Z → Sched → outcome unit * Sched;
  SnapshotMergeOperation : Type;
  dataTypeOf : Z → option SnapshotDataType;
  mergeOpOf : Z → option SnapshotMergeOperation;
  safeCopyToBuffer : list Z → Z → list Z * Z }.

Record MergeRegion `{Scheduler} := mkMergeRegion {
  mr_offset : Z; mr_length : Z; mr_type : SnapshotDataType; mr_op : SnapshotMergeOperation }.
Arguments mkMergeRegion {_} _ _ _ _.

Section chaining.
Context `{Scheduler}.

(** The module's memory, the message that executes, the scheduler, and the merge
    regions of the next threads and of the snapshot of the current ones. *)
Record GuestState := mkGuest {
  g_mem : Mem; g_call : Message; g_sched : Sched;
  mergeRegions : list MergeRegion; snapshotRegions : list MergeRegion }.
Abbreviation GM := (M GuestState).

Definition set_mem (m : Mem) (s : GuestState) : GuestState :=
  mkGuest m (g_call s) (g_sched s) (mergeRegions s) (snapshotRegions s).
Definition set_call (c : Message) (s : GuestState) : GuestState :=
  mkGuest (g_mem s) c (g_sched s) (mergeRegions s) (snapshotRegions s).
Definition set_sched (x : Sched) (s : GuestState) : GuestState :=
  mkGuest (g_mem s) (g_call s) x (mergeRegions s) (snapshotRegions s).
Definition set_regions (a b : list MergeRegion) (s : GuestState) : GuestState :=
  mkGuest (g_mem s) (g_call s) (g_sched s) a b.

Definition on_sched {A} (f : Sched → outcome A * Sched) : GM A := zoom g_sched set_sched f.

Context (endpointHost : string) (chainedCallTimeout : Z) (pythonPreload : string)
  (singlehost : bool) (readFile : string → outcome (list Z)).

(** * Memory (src/wavm/util.cpp)

    [memoryArrayPtr] checks a range; a write through the pointer it gives is not
    checked again: past the end of the memory it is undefined. *)
Definition memoryArrayPtr (a n : Z) : GM unit :=
  s ← get; if in_mem (g_mem s) a (u64 n) then mret () else throw oob.
Definition write_native (a : Z) (bs : list Z) : GM unit :=
  s ← get;
  match mem_write (g_mem s) a bs with
  | Ret m => put (set_mem m s)
  | Throw _ => throw (Undefined "write past the end of the memory")
  end.

Definition getBytesFromWasm (dataPtr dataLen : Z) : GM (list Z) :=
  if dataLen <? 0 then throw (LogicError "cannot create std::vector larger than max_size()")
  else s ← get; lift (mem_read (g_mem s) dataPtr dataLen).
Definition getStringFromWasm (strPtr : Z) : GM string :=
  memoryArrayPtr strPtr 1 ;;
  s ← get;
  match c_string (g_mem s) strPtr with
  | Some str => mret str
  | None => throw (Undefined "string past the end of the memory")
  end.

(** * Chained calls (src/wasm/chaining_util.cpp) *)

(** The fields of a new message that a chained call sets. *)
Definition chainedMessage (msg call : Message) (wasmFuncPtr : Z) (pyFuncName : option string)
    (inputData : list Z) (isStorage : bool) : Message :=
  {| id := id msg; appid := appid call; groupid := groupid msg; groupidx := groupidx msg;
     user := user msg; function := function msg; funcptr := wasmFuncPtr;
     inputdata := inputData; outputdata := outputdata msg; returnvalue := returnvalue msg;
     cmdline := cmdline call; pythonuser := pythonuser call; pythonfunction := pythonfunction call;
     pythonentry := default (pythonentry msg) pyFuncName; ispython := ispython call;
     isasync := isasync msg; isstorage := isStorage; forbidndp := forbidndp call;
     executeslocally := true;
     recordexecgraph := if recordexecgraph call then true else recordexecgraph msg;
     directresulthost := endpointHost; snapshotkey := snapshotkey msg;
     zygotedelta := zygotedelta msg; isoutputmemorydelta := isoutputmemorydelta msg;
     wasmglobals := wasmglobals msg; extraarguments := extraarguments msg; mpi := mpi msg |}.

Definition newMessage (user function : string) : GM Message := λ s,
  let '(m, x) := batchExecFactory user function (g_sched s) in (Ret m, set_sched x s).

Definition makeChainedCall (functionName : string) (wasmFuncPtr : Z) (pyFuncName : option string)
    (inputData : list Z) (isStorage : bool) : GM Z :=
  call ← gets g_call;
  if bool_decide (user call = "") then throw (AssertFailed "!user.empty()")
  else if bool_decide (functionName = "") then throw (AssertFailed "!functionName.empty()")
  else
    msg ← newMessage (user call) functionName;
    let msg := chainedMessage msg call wasmFuncPtr pyFuncName inputData isStorage in
    on_sched (callFunctions FUNCTIONS msg None) ;;
    (if recordexecgraph call then on_sched (λ x, (Ret (), logChainedFunction (id call) (id msg) x))
     else mret ()) ;;
    mret (id msg).

Definition awaitChainedCall (messageId : Z) : GM Z :=
  try_catch_std
    (result ← on_sched (getFunctionResult messageId chainedCallTimeout); mret (returnvalue result))
    (λ _, mret 1).

(** The message of a thread: the argument is passed as the input. *)
Definition threadMessage (msg call : Message) (snapshotKey : string) (funcPtr argsPtr : Z) : Message :=
  {| id := id msg; appid := appid call; groupid := groupid msg; groupidx := groupidx msg;
     user := user msg; function := function msg; funcptr := funcPtr;
     inputdata := bytes_of_string (to_string argsPtr); outputdata := outputdata msg;
     returnvalue := returnvalue msg;
     cmdline := cmdline msg; pythonuser := pythonuser msg; pythonfunction := pythonfunction msg;
     pythonentry := pythonentry msg; ispython := ispython msg;
     isasync := true; isstorage := isstorage msg; forbidndp := forbidndp call;
     executeslocally := executeslocally msg; recordexecgraph := recordexecgraph msg;
     directresulthost := directresulthost msg; snapshotkey := snapshotKey;
     zygotedelta := zygotedelta msg; isoutputmemorydelta := isoutputmemorydelta msg;
     wasmglobals := wasmglobals msg; extraarguments := extraarguments msg; mpi := mpi msg |}.

Definition spawnChainedThread (snapshotKey : string) (funcPtr argsPtr : Z) : GM Z :=
  call ← gets g_call;
  msg ← newMessage (user call) (function call);
  let msg := threadMessage msg call snapshotKey funcPtr argsPtr in
  on_sched (callFunctions FUNCTIONS msg None) ;;
  mret (id msg).

Definition awaitChainedCallMessage (messageId : Z) : GM Message :=
  on_sched (getFunctionResult messageId chainedCallTimeout).

(** The output is copied to a native buffer of the length the caller names. *)
Definition awaitChainedCallOutput (messageId bufferPtr bufferLen : Z) : GM Z :=
  result ← on_sched (getFunctionResult messageId chainedCallTimeout);
  let '(written, outputLen) := safeCopyToBuffer (outputdata result) bufferLen in
  write_native bufferPtr written ;;
  mret (returnvalue result).

(** The message of a near-data call. *)
Definition ndpMessage (msg call : Message) (zygoteDelta inputData : list Z) (funcPtr : Z)
    (pyFuncName : option string) (extraArgs globals : list Z) : Message :=
  {| id := id msg; appid := appid msg; groupid := groupid msg; groupidx := groupidx msg;
     user := user msg; function := function msg; funcptr := funcPtr;
     inputdata := inputData; outputdata := outputdata msg; returnvalue := returnvalue msg;
     cmdline := cmdline call; pythonuser := pythonuser call; pythonfunction := pythonfunction call;
     pythonentry := match pyFuncName with
                    | Some n => if bool_decide (n = "") then pythonentry msg else n
                    | None => pythonentry msg end;
     ispython := ispython call;
     isasync := true; isstorage := true; forbidndp := forbidndp call;
     executeslocally := executeslocally msg; recordexecgraph := recordexecgraph msg;
     directresulthost := endpointHost; snapshotkey := "";
     zygotedelta := zygoteDelta; isoutputmemorydelta := true;
     wasmglobals := globals; extraarguments := extraArgs; mpi := mpi msg |}.

Definition chainNdpCall (zygoteDelta inputData : list Z) (funcPtr : Z) (pyFuncName : option string)
    (extraArgs globals : list Z) : GM Z :=
  call ← gets g_call;
  msg ← newMessage (user call) (function call);
  let msg := ndpMessage msg call zygoteDelta inputData funcPtr pyFuncName extraArgs globals in
  on_sched (callFunctions FUNCTIONS msg None) ;;
  mret (id msg).

(** * The calls of a module (src/wavm/chaining.cpp) *)

Definition faasm_await_call (messageId : Z) : GM Z := awaitChainedCall messageId.

(** [memoryRef] checks one byte of the buffer. *)
Definition faasm_await_call_output (messageId bufferPtr bufferLen : Z) : GM Z :=
  memoryArrayPtr bufferPtr 1 ;;
  awaitChainedCallOutput messageId bufferPtr bufferLen.

Definition faasm_chain_name (namePtr inputDataPtr inputDataLen : Z) : GM Z :=
  funcName ← getStringFromWasm namePtr;
  inputData ← getBytesFromWasm inputDataPtr inputDataLen;
  ret ← makeChainedCall funcName 0 None inputData false;
  mret (u32 ret).

Definition faasm_chain_ptr (wasmFuncPtr inputDataPtr inputDataLen : Z) : GM Z :=
  call ← gets g_call;
  inputData ← getBytesFromWasm inputDataPtr inputDataLen;
  ret ← makeChainedCall (function call) wasmFuncPtr None inputData false;
  mret (u32 ret).

Definition faasm_chain_py (namePtr inputDataPtr inputDataLen : Z) : GM Z :=
  pyFuncName ← getStringFromWasm namePtr;
  call ← gets g_call;
  inputData ← getBytesFromWasm inputDataPtr inputDataLen;
  ret ← makeChainedCall (function call) 0 (Some pyFuncName) inputData false;
  mret (u32 ret).

(** * Input and output (src/wavm/faasm.cpp) *)

Definition faasm_read_input (bufferPtr bufferLen : Z) : GM Z :=
  call ← gets g_call;
  let inputBytes := inputdata call in
  if bufferLen =? 0 then mret (i32 (Z.of_nat (length inputBytes)))
  else if bool_decide (inputBytes = []) then mret 0
  else
    memoryArrayPtr bufferPtr bufferLen ;;
    let '(written, inputSize) := safeCopyToBuffer inputBytes bufferLen in
    write_native bufferPtr written ;;
    mret inputSize.

Definition set_outputdata (bs : list Z) (m : Message) : Message :=
  {| id := id m; appid := appid m; groupid := groupid m; groupidx := groupidx m;
     user := user m; function := function m; funcptr := funcptr m;
     inputdata := inputdata m; outputdata := bs; returnvalue := returnvalue m;
     cmdline := cmdline m; pythonuser := pythonuser m; pythonfunction := pythonfunction m;
     pythonentry := pythonentry m; ispython := ispython m;
     isasync := isasync m; isstorage := isstorage m; forbidndp := forbidndp m;
     executeslocally := executeslocally m; recordexecgraph := recordexecgraph m;
     directresulthost := directresulthost m; snapshotkey := snapshotkey m;
     zygotedelta := zygotedelta m; isoutputmemorydelta := isoutputmemorydelta m;
     wasmglobals := wasmglobals m; extraarguments := extraarguments m; mpi := mpi m |}.

Definition faasm_write_output (outputPtr outputLen : Z) : GM unit :=
  outputData ← getBytesFromWasm outputPtr outputLen;
  modify (λ s, set_call (set_outputdata outputData (g_call s)) s).

(** The whole value and a terminator are copied whatever the length. *)
Definition readPythonInput (buffPtr buffLen : Z) (value : string) : GM unit :=
  memoryArrayPtr buffPtr buffLen ;;
  write_native buffPtr (if bool_decide (value = "") then [0] else bytes_of_string value ++ [0]).

Definition faasm_get_py_user (bufferPtr bufferLen : Z) : GM unit :=
  call ← gets g_call;
  if bool_decide (pythonuser call = "") then throw (RuntimeError "Python user empty, cannot return")
  else readPythonInput bufferPtr bufferLen (pythonuser call).
Definition faasm_get_py_func (bufferPtr bufferLen : Z) : GM unit :=
  call ← gets g_call; readPythonInput bufferPtr bufferLen (pythonfunction call).
Definition faasm_get_py_entry (bufferPtr bufferLen : Z) : GM unit :=
  call ← gets g_call; readPythonInput bufferPtr bufferLen (pythonentry call).

Definition faasm_conf_flag (keyPtr : Z) : GM Z :=
  key ← getStringFromWasm keyPtr;
  if bool_decide (key = "PYTHON_PRELOAD") then mret (if bool_decide (pythonPreload = "on") then 1 else 0)
  else if bool_decide (key = "ALWAYS_ON") then mret 1
  else if bool_decide (key = "ALWAYS_OFF") then mret 0
  else mret 0.

(** * Shared memory *)

(** The untyped case logs an error and falls through to the next. *)
Definition extractSnapshotDataType (varType : Z) : outcome (Z * SnapshotDataType) :=
  match dataTypeOf varType with
  | Some SRaw | Some SBool => Ret (1, SBool)
  | Some SInt => Ret (4, SInt)
  | Some SLong => Ret (8, SLong)
  | Some SFloat => Ret (4, SFloat)
  | Some SDouble => Ret (8, SDouble)
  | None => Throw (RuntimeError "Unrecognised shared memory data type")
  end.
Definition extractSnapshotMergeOp (mergeOp : Z) : outcome SnapshotMergeOperation :=
  match mergeOpOf mergeOp with
  | Some op => Ret op
  | None => Throw (RuntimeError "Unrecognised merge operation")
  end.

Definition addMergeRegionForNextThreads (r : MergeRegion) : GM unit :=
  modify (λ s, set_regions (mergeRegions s ++ [r]) (snapshotRegions s) s).
Definition clearMergeRegions : GM unit := modify (λ s, set_regions [] (snapshotRegions s) s).

Definition faasm_sm_reduce (varPtr varType reduceOp currentBatch : Z) : GM unit :=
  let isCurrentBatch := currentBatch =? 1 in
  if isCurrentBatch && singlehost then mret ()
  else
    '(size, dataType) ← lift (extractSnapshotDataType varType);
    mergeOp ← lift (extractSnapshotMergeOp reduceOp);
    let region := mkMergeRegion (u32 varPtr) size dataType mergeOp in
    if isCurrentBatch : bool
    then modify (λ s, set_regions (mergeRegions s) (snapshotRegions s ++ [region]) s)
    else addMergeRegionForNextThreads region.

Definition faasm_sm_critical_local : GM unit :=
  call ← gets g_call; on_sched (localLock (groupid call)).
Definition faasm_sm_critical_local_end : GM unit :=
  call ← gets g_call; on_sched (localUnlock (groupid call)).

(** * Migration *)

Definition migrationMessage (msg call : Message) (entrypointFuncPtr entrypointFuncArg : Z) : Message :=
  {| id := id msg; appid := appid call; groupid := groupid call; groupidx := groupidx call;
     user := user msg; function := function msg; funcptr := entrypointFuncPtr;
     inputdata := bytes_of_string (to_string entrypointFuncArg); outputdata := outputdata msg;
     returnvalue := returnvalue msg;
     cmdline := cmdline msg; pythonuser := pythonuser msg; pythonfunction := pythonfunction msg;
     pythonentry := pythonentry msg; ispython := ispython msg;
     isasync := isasync msg; isstorage := isstorage msg; forbidndp := forbidndp msg;
     executeslocally := executeslocally msg;
     recordexecgraph := if recordexecgraph call then true else recordexecgraph msg;
     directresulthost := directresulthost msg; snapshotkey := "migration_" +:+ to_string (id msg);
     zygotedelta := zygotedelta msg; isoutputmemorydelta := isoutputmemorydelta msg;
     wasmglobals := wasmglobals msg; extraarguments := extraarguments msg;
     mpi := if ismpi (mpi call) then mpi call else mpi msg |}.

Definition faasm_migrate_point (entrypointFuncPtr entrypointFuncArg : Z) : GM unit :=
  s ← get;
  let call := g_call s in
  match getPendingAppMigrations (appid call) (g_sched s) with
  | None => mret ()
  | Some migrations =>
      (if ismpi (mpi call)
       then on_sched (prepareMigration (mpiworldid (mpi call)) (mpirank (mpi call)))
       else mret ()) ;;
      match list_find (λ m, fst m = id call) migrations with
      | None => mret ()
      | Some (_, (_, hostToMigrateTo)) =>
          msg ← newMessage (user call) (function call);
          let msg := migrationMessage msg call entrypointFuncPtr entrypointFuncArg in
          s ← get;
          on_sched (pushSnapshot (snapshotkey msg) hostToMigrateTo (g_mem s)) ;;
          on_sched (callFunctions MIGRATION msg (Some hostToMigrateTo)) ;;
          (if recordexecgraph call then on_sched (λ x, (Ret (), logChainedFunction (id call) (id msg) x))
           else mret ()) ;;
          throw (FunctionMigratedException "Migrating MPI rank")
      end
  end.
End chaining.

(** * Properties *)

(** What faabric's helpers do: new messages are of the user and function they are made
    for, and copying to a buffer writes what fits. *)
Class FaabricLaws `{Scheduler} : Prop := {
  factory_law u f x : let m := (batchExecFactory u f x).1 in user m = u ∧ function m = f;
  copy_law bs n : 0 < n → bs ≠ [] →
    safeCopyToBuffer bs n = (take (Z.to_nat n) bs, Z.of_nat (length (take (Z.to_nat n) bs))) }.

Section properties.
Context `{Scheduler} (endpointHost : string) (chainedCallTimeout : Z).
Abbreviation makeCall := (makeChainedCall endpointHost).

Lemma run_on_sched {A} (f : Sched → outcome A * Sched) s :
  on_sched f s = ((f (g_sched s)).1, set_sched (f (g_sched s)).2 s).
Proof. unfold on_sched, zoom. by destruct (f (g_sched s)). Qed.

Lemma run_newMessage u f s :
  newMessage u f s = (Ret (batchExecFactory u f (g_sched s)).1,
    set_sched (batchExecFactory u f (g_sched s)).2 s).
Proof. unfold newMessage. by destruct (batchExecFactory u f (g_sched s)). Qed.

Lemma write_native_run a bs m s :
  mem_write (g_mem s) a bs = Ret m → write_native a bs s = (Ret (), set_mem m s).
Proof. intros Hw. unfold write_native. run_unfold. by rewrite Hw. Qed.

Lemma memoryArrayPtr_run a n s :
  in_mem (g_mem s) a (u64 n) = true → memoryArrayPtr a n s = (Ret (), s).
Proof. intros Hin. unfold memoryArrayPtr. run_unfold. by rewrite Hin. Qed.

Section with_laws.
Context `{!FaabricLaws}.

(** The message of a chained call, and the scheduler once it was handed over. *)
Definition chained (call : Message) (name : string) (input : list Z) (m : Message) : Prop :=
  user m = user call ∧ function m = name ∧ funcptr m = 0 ∧ inputdata m = input ∧
  appid m = appid call ∧ forbidndp m = forbidndp call ∧ isstorage m = false ∧
  cmdline m = cmdline call ∧ directresulthost m = endpointHost.
Definition handed_over (call : Message) (name : string) (m : Message) (x : Sched) : Sched :=
  let x1 := (callFunctions FUNCTIONS m None (batchExecFactory (user call) name x).2).2 in
  if recordexecgraph call then logChainedFunction (id call) (id m) x1 else x1.

Lemma makeChainedCall_ret name input s i s1 :
  makeCall name 0 None input false s = (Ret i, s1) →
  ∃ m, id m = i ∧ chained (g_call s) name input m ∧
    (callFunctions FUNCTIONS m None (batchExecFactory (user (g_call s)) name (g_sched s)).2).1 = Ret () ∧
    s1 = set_sched (handed_over (g_call s) name m (g_sched s)) s.
Proof.
  unfold makeChainedCall. rewrite run_bind. cbn [gets].
  destruct (bool_decide (user (g_call s) = "")); [done|].
  destruct (bool_decide (name = "")); [done|].
  rewrite (run_bind_ret _ _ _ _ _ (run_newMessage _ _ _)).
  destruct (factory_law (user (g_call s)) name (g_sched s)) as (Hu & Hf).
  set (m0 := (batchExecFactory _ _ _).1) in *. set (m := chainedMessage _ _ _ _ _ _ _).
  rewrite run_bind, run_on_sched. cbn [g_sched set_sched].
  destruct (callFunctions FUNCTIONS m None _) as [[[]|e] x] eqn:Hcall; cbn [fst snd]; [|done].
  intros Hrun. exists m. rewrite run_bind in Hrun. unfold handed_over. rewrite Hcall.
  destruct (recordexecgraph (g_call s)); cbn in Hrun; injection Hrun as <- <-; by split_and!.
Qed.

(** C17: A function that chains another by name hands exactly one call to the scheduler, for
    the bytes it passed, as its own user and in its own application, with the answer to come
    to this host; awaiting the number it was given asks for that call's result, within the
    time for chained calls, and returns its return value, or 1 when the scheduler throws
    (as it does when the time is over); awaiting the output copies as much of it as fits in
    the buffer, and nothing else, into the memory, and passes what the scheduler throws on. *)
Theorem chain_await_output namePtr name inPtr inLen input s i s1 :
  in_mem (g_mem s) namePtr 1 = true → c_string (g_mem s) namePtr = Some name →
  0 ≤ inLen → mem_read (g_mem s) inPtr inLen = Ret input →
  faasm_chain_name endpointHost namePtr inPtr inLen s = (Ret i, s1) →
  ∃ m, i = u32 (id m) ∧ chained (g_call s) name input m ∧
    (callFunctions FUNCTIONS m None (batchExecFactory (user (g_call s)) name (g_sched s)).2).1 = Ret () ∧
    s1 = set_sched (handed_over (g_call s) name m (g_sched s)) s ∧
    let '(result, x) := getFunctionResult i chainedCallTimeout (g_sched s1) in
    faasm_await_call chainedCallTimeout i s1 =
      (match result with
       | Ret r => Ret (returnvalue r)
       | Throw e => if is_std_exception e then Ret 1 else Throw e
       end, set_sched x s1) ∧
    ∀ bufPtr bufLen, 0 < bufLen → in_mem (g_mem s) bufPtr bufLen = true →
      match result with
      | Throw e => faasm_await_call_output chainedCallTimeout i bufPtr bufLen s1 = (Throw e, set_sched x s1)
      | Ret r => outputdata r ≠ [] → ∃ mem,
          mem_write (g_mem s) bufPtr (take (Z.to_nat bufLen) (outputdata r)) = Ret mem ∧
          faasm_await_call_output chainedCallTimeout i bufPtr bufLen s1 =
            (Ret (returnvalue r), set_mem mem (set_sched x s1))
      end.
Proof.
  intros Hname Hstr Hlen Hin Hrun. unfold faasm_chain_name, getStringFromWasm in Hrun.
  rewrite run_bind_assoc, (run_bind_ret _ _ _ _ _ (memoryArrayPtr_run namePtr 1 s Hname)),
    run_bind, run_bind in Hrun. cbn [get] in Hrun. rewrite Hstr in Hrun.
  apply run_bind_inv in Hrun as (input' & s0 & Hin' & Hrun). unfold getBytesFromWasm in Hin'.
  destruct (Z.ltb_spec inLen 0); [lia|]. rewrite run_bind in Hin'. cbn [get] in Hin'.
  rewrite Hin in Hin'. injection Hin' as <- <-.
  apply run_bind_inv in Hrun as (j & s1' & Hcall & Hrun). injection Hrun as <- <-.
  apply makeChainedCall_ret in Hcall as (m & <- & Hm & Hret & Hs1). exists m. split_and!; try done.
  destruct (getFunctionResult _ _ _) as [result x] eqn:Hres. split.
  { unfold faasm_await_call, awaitChainedCall, try_catch_std, try_catch.
    rewrite run_bind, run_on_sched, Hres. cbn [fst snd]. destruct result as [r|e]; [done|]. by destruct (is_std_exception e). }
  intros bufPtr bufLen Hbl [Hb0 Hb1]%in_mem_true.
  assert (∀ n, faasm_await_call_output chainedCallTimeout n bufPtr bufLen s1' =
    awaitChainedCallOutput chainedCallTimeout n bufPtr bufLen s1') as Hbuf.
  { intros n. unfold faasm_await_call_output. erewrite run_bind_ret; [done|]. apply memoryArrayPtr_run.
    rewrite Hs1. apply in_mem_true. cbn [g_mem set_sched]. change (u64 1) with 1. lia. }
  rewrite Hbuf. unfold awaitChainedCallOutput. rewrite run_bind, run_on_sched, Hres. cbn [fst snd].
  destruct result as [r|e]; [|done]. intros Hout. rewrite copy_law by done.
  eexists. split; [apply mem_write_ret; [lia|]; rewrite length_take; lia|].
  erewrite run_bind_ret; [done|]. apply write_native_run. rewrite Hs1. cbn [g_mem set_sched].
  apply mem_write_ret; [lia|]; rewrite length_take; lia.
Qed.

(** The input of a call is what a module reads that asks for its size and then
    gives a buffer of that size: the buffer holds the input, and nothing else in the
    memory changes. *)
Theorem read_input_roundtrip bufPtr s :
  let input := inputdata (g_call s) in
  let n := Z.of_nat (length input) in
  0 < n < 2 ^ 31 → in_mem (g_mem s) bufPtr n = true →
  faasm_read_input 0 0 s = (Ret n, s) ∧
  ∃ m, faasm_read_input bufPtr n s = (Ret n, set_mem m s) ∧
    mem_write (g_mem s) bufPtr input = Ret m ∧ mem_read m bufPtr n = Ret input.
Proof.
  intros input n Hn Hbuf. unfold faasm_read_input. fold input. split.
  { rewrite run_bind. cbn [gets]. fold input. cbn [Z.eqb]. fold n.
    by rewrite wrapS_id by (unfold in_s; lia || lia). }
  apply in_mem_true in Hbuf as Hb. pose proof (mem_write_ret (g_mem s) bufPtr input) as Hw.
  fold n in Hw. destruct Hb as [Hb0 Hb1]. specialize (Hw Hb0 Hb1).
  set (m := take (Z.to_nat bufPtr) (g_mem s) ++ _) in Hw. exists m.
  split; [|split; [done|by apply (mem_read_write _ _ _ _ Hw)]].
  rewrite run_bind. cbn [gets]. fold input. destruct (Z.eqb_spec n 0); [lia|].
  assert (input ≠ []) as Hne by (intros E; unfold n in *; rewrite E in *; cbn in *; lia).
  rewrite bool_decide_eq_false_2 by done.
  rewrite (run_bind_ret _ _ _ () s) by (apply memoryArrayPtr_run; by rewrite wrapU_id by (unfold in_u; lia)).
  rewrite copy_law by (done || lia). unfold n. rewrite Nat2Z.id, firstn_all.
  by rewrite (run_bind_ret _ _ _ _ _ (write_native_run _ _ _ _ Hw)).
Qed.
End with_laws.

(** An exception of the scheduler, other than WAVM's, reads as the return value 1. *)
Lemma awaitChainedCall_error i s e x :
  getFunctionResult i chainedCallTimeout (g_sched s) = (Throw e, x) → is_std_exception e = true →
  awaitChainedCall chainedCallTimeout i s = (Ret 1, set_sched x s).
Proof.
  intros Hres He. unfold awaitChainedCall, try_catch_std, try_catch.
  rewrite run_bind, run_on_sched, Hres. cbn. by rewrite He.
Qed.

(** An output that fits the length named but not the memory is written past its
    end. *)
Lemma await_call_output_overruns i bufPtr bufLen r x s :
  getFunctionResult i chainedCallTimeout (g_sched s) = (Ret r, x) →
  in_mem (g_mem s) bufPtr 1 = true →
  in_mem (g_mem s) bufPtr (Z.of_nat (length (safeCopyToBuffer (outputdata r) bufLen).1)) = false →
  (faasm_await_call_output chainedCallTimeout i bufPtr bufLen s).1 =
    Throw (Undefined "write past the end of the memory").
Proof.
  intros Hres H1 H2. unfold faasm_await_call_output.
  rewrite (run_bind_ret _ _ _ () s) by (by apply memoryArrayPtr_run).
  unfold awaitChainedCallOutput. rewrite run_bind, run_on_sched, Hres. cbn [fst snd].
  destruct (safeCopyToBuffer (outputdata r) bufLen) as [written n]. cbn [fst] in *.
  unfold write_native. run_unfold. cbn. unfold mem_write. by rewrite H2.
Qed.
End properties.

(** * What a function can make the scheduler do *)

Inductive guest_op : Type :=
  | op_chain_name (namePtr inPtr inLen : Z) | op_chain_ptr (fptr inPtr inLen : Z)
  | op_chain_py (namePtr inPtr inLen : Z) | op_spawn (key : string) (fptr arg : Z)
  | op_await (i : Z) | op_await_output (i bufPtr bufLen : Z)
  | op_read_input (bufPtr bufLen : Z) | op_write_output (ptr len : Z)
  | op_reduce (ptr type op batch : Z) | op_lock | op_unlock
  | op_migrate (fptr arg : Z)
  | op_chain_ndp (delta input : list Z) (fptr : Z) (py : option string) (args globals : list Z).

Section confinement.
Context `{Scheduler} (endpointHost : string) (chainedCallTimeout : Z) (singlehost : bool).

Definition run_op (o : guest_op) : M GuestState unit :=
  match o with
  | op_chain_name a b c => faasm_chain_name endpointHost a b c ;; mret ()
  | op_chain_ptr a b c => faasm_chain_ptr endpointHost a b c ;; mret ()
  | op_chain_py a b c => faasm_chain_py endpointHost a b c ;; mret ()
  | op_spawn k f a => spawnChainedThread k f a ;; mret ()
  | op_await i => faasm_await_call chainedCallTimeout i ;; mret ()
  | op_await_output i b l => faasm_await_call_output chainedCallTimeout i b l ;; mret ()
  | op_read_input b l => faasm_read_input b l ;; mret ()
  | op_write_output p l => faasm_write_output p l
  | op_reduce p t o b => faasm_sm_reduce singlehost p t o b
  | op_lock => faasm_sm_critical_local
  | op_unlock => faasm_sm_critical_local_end
  | op_migrate f a => faasm_migrate_point f a
  | op_chain_ndp d i f p a g => chainNdpCall endpointHost d i f p a g ;; mret ()
  end.

(** The messages that are handed over: of the user, and of the application or, for near-data
    calls, of the application the factory gave the new message. *)
Context (U : string) (A : Z) (P : Sched → Prop).
Definition allowed (m : Message) : Prop :=
  user m = U ∧ (appid m = A ∨ isstorage m = true ∧ ∃ f x, appid m = appid (batchExecFactory U f x).1).

(** A property of the scheduler's state that every operation keeps, calls with such messages
    being the only calls. *)
Record keeps_scheduler : Prop := {
  ks_factory f x : P x → P (batchExecFactory U f x).2 ∧ user (batchExecFactory U f x).1 = U;
  ks_call t m d x : allowed m → P x → P (callFunctions t m d x).2;
  ks_result i n x : P x → P (getFunctionResult i n x).2;
  ks_log a b x : P x → P (logChainedFunction a b x);
  ks_prepare w r x : P x → P (prepareMigration w r x).2;
  ks_push k h m x : P x → P (pushSnapshot k h m x).2;
  ks_lock g x : P x → P (localLock g x).2 ∧ P (localUnlock g x).2 }.
Context (K : keeps_scheduler).

Definition confined (s : GuestState) : Prop :=
  user (g_call s) = U ∧ appid (g_call s) = A ∧ P (g_sched s).
Definition stays (s s' : GuestState) : Prop := confined s → confined s'.
#[local] Instance stays_preorder : PreOrder stays.
Proof. split; [by intros s Hs|]. intros s1 s2 s3 H12 H23 H1. by apply H23, H12. Qed.

Lemma keeps_gets_bind {B C} (g : GuestState → B) (f : B → M GuestState C) :
  (∀ s, stays s (f (g s) s).2) → keeps stays (gets g ≫= f).
Proof. intros Hf s. apply Hf. Qed.

Lemma keeps_sched {B} (f : Sched → outcome B * Sched) :
  (∀ x, P x → P (f x).2) → keeps stays (on_sched f).
Proof. intros Hf s (Hu & Ha & Hp). rewrite run_on_sched. by split_and!; [| |apply Hf]. Qed.

Lemma keeps_memoryArrayPtr a n : keeps stays (memoryArrayPtr a n).
Proof. apply keeps_get_bind. intros s. destruct (in_mem _ _ _); by intros ?. Qed.
Lemma keeps_write_native a bs : keeps stays (write_native a bs).
Proof. apply keeps_get_bind. intros s. destruct (mem_write _ _ _); by intros ?. Qed.
Lemma keeps_getBytes a n : keeps stays (getBytesFromWasm a n).
Proof. unfold getBytesFromWasm. destruct (_ <? _); [by intros s|]. apply keeps_get_bind. by intros s. Qed.
Lemma keeps_getString a : keeps stays (getStringFromWasm a).
Proof.
  apply (keeps_bind stays); [apply keeps_memoryArrayPtr|]. intros _. apply keeps_get_bind. intros s.
  destruct (c_string _ _); by intros ?.
Qed.

(** New messages and the calls made with them. *)
Lemma newMessage_stays {B} f (k : Message → M GuestState B) s :
  (∀ m s', (∃ x, m = (batchExecFactory U f x).1) → user m = U → confined s' → confined (k m s').2) →
  confined s → confined ((newMessage U f ≫= k) s).2.
Proof.
  intros Hk (Hu & Ha & Hp). rewrite (run_bind_ret _ _ _ _ _ (run_newMessage U f s)).
  destruct (ks_factory K f _ Hp) as [Hp' Hu']. apply Hk; [by eexists|done|done].
Qed.

Lemma call_then {B} t m d (k : M GuestState B) s :
  allowed m → keeps stays k → confined s →
  confined ((on_sched (callFunctions t m d) ;; k) s).2.
Proof.
  intros Hm Hk Hs. assert (keeps stays (on_sched (callFunctions t m d))) as Hc
    by (apply keeps_sched; intros x; by apply (ks_call K)).
  by apply (keeps_bind stays _ (λ _, k) Hc (λ _, Hk) s).
Qed.

Lemma keeps_log b i j : keeps stays
  (if b : bool then on_sched (λ x, (Ret (), logChainedFunction i j x)) else mret ()).
Proof. destruct b; [apply keeps_sched; apply (ks_log K)|by intros s]. Qed.

Lemma keeps_makeChainedCall n f p i t : keeps stays (makeChainedCall endpointHost n f p i t).
Proof.
  apply keeps_gets_bind. intros s Hs. destruct (bool_decide (user _ = "")); [done|].
  destruct (bool_decide (n = "")); [done|]. pose proof Hs as (Hu & Ha & _). rewrite Hu.
  apply newMessage_stays; [|done]. intros m s' Hc Hm Hs'. cbv beta zeta.
  apply call_then; [by split; [|left]| |done].
  apply (keeps_bind stays); [apply keeps_log|]. by intros _ ?.
Qed.

Lemma keeps_spawn k f a : keeps stays (spawnChainedThread k f a).
Proof.
  apply keeps_gets_bind. intros s Hs. pose proof Hs as (Hu & Ha & _). rewrite Hu.
  apply newMessage_stays; [|done]. intros m s' Hc Hm Hs'. cbv beta zeta.
  apply call_then; [by split; [|left]| |done]. by intros ?.
Qed.

Lemma keeps_chainNdp d i f p a g : keeps stays (chainNdpCall endpointHost d i f p a g).
Proof.
  apply keeps_gets_bind. intros s Hs. pose proof Hs as (Hu & Ha & _). rewrite Hu.
  apply newMessage_stays; [|done]. intros m s' [x ->] Hm Hs'. cbv beta zeta.
  apply call_then; [|by intros ?|done]. split; [done|]. right. split; [done|]. by do 2 eexists.
Qed.

Lemma keeps_migrate f a : keeps stays (faasm_migrate_point f a).
Proof.
  apply keeps_get_bind. intros s. cbv beta zeta.
  destruct (getPendingAppMigrations _ _) as [ms|]; [|by intros ?]. intros Hs.
  assert (keeps stays (if ismpi (mpi (g_call s)) then on_sched (prepareMigration
    (mpiworldid (mpi (g_call s))) (mpirank (mpi (g_call s)))) else mret ())) as Hprep.
  { destruct (ismpi _); [apply keeps_sched; apply (ks_prepare K)|by intros ?]. }
  specialize (Hprep s Hs). rewrite run_bind.
  assert (user (g_call s) = U ∧ appid (g_call s) = A) as [Hu Ha] by by destruct Hs as (? & ? & _).
  destruct (_ s) as [[[]|e] s1]; cbn [snd] in *; [|done].
  destruct (list_find _ _) as [[? [? host]]|]; [|done]. rewrite Hu.
  apply newMessage_stays; [|done]. intros m s' _ Hm Hs'. cbv beta zeta. rewrite run_bind. cbn [get].
  assert (keeps stays (on_sched (pushSnapshot (snapshotkey (migrationMessage m (g_call s) f a)) host (g_mem s'))))
    as Hpush by (apply keeps_sched; apply (ks_push K)).
  specialize (Hpush s' Hs'). rewrite run_bind. destruct (on_sched _ s') as [[[]|e] s2]; cbn [snd] in *; [|done].
  apply call_then; [by split; [|left]| |done].
  apply (keeps_bind stays); [apply keeps_log|]. by intros _ ?.
Qed.

Lemma keeps_result i : keeps stays (on_sched (getFunctionResult i chainedCallTimeout)).
Proof. apply keeps_sched. apply (ks_result K). Qed.

Lemma keeps_await i : keeps stays (awaitChainedCall chainedCallTimeout i).
Proof.
  intros s. unfold awaitChainedCall, try_catch_std, try_catch.
  set (m := on_sched _ ≫= _).
  assert (keeps stays m) as Hm
    by (apply (keeps_bind stays); [apply keeps_result|by intros ? ?]).
  specialize (Hm s). destruct (m s) as [[r|e] s1]; cbn [snd] in *; [done|]. by destruct (is_std_exception e).
Qed.

Lemma keeps_safe_copy a bs n (k : Z → Z) :
  keeps stays (let '(written, len) := safeCopyToBuffer bs n in write_native a written ;; mret (k len)).
Proof.
  destruct (safeCopyToBuffer bs n). apply (keeps_bind stays); [apply keeps_write_native|]. by intros _ ?.
Qed.

Lemma keeps_await_output i b l : keeps stays (faasm_await_call_output chainedCallTimeout i b l).
Proof.
  apply (keeps_bind stays); [apply keeps_memoryArrayPtr|]. intros _.
  apply (keeps_bind stays); [apply keeps_result|]. intros r.
  apply (keeps_safe_copy b (outputdata r) l (λ _, returnvalue r)).
Qed.

Lemma keeps_read_input b l : keeps stays (faasm_read_input b l).
Proof.
  apply keeps_gets_bind. intros s. cbv beta zeta.
  destruct (l =? 0); [by intros ?|]. destruct (bool_decide _); [by intros ?|].
  apply (keeps_bind stays); [apply keeps_memoryArrayPtr|]. intros _.
  apply (keeps_safe_copy b (inputdata (g_call s)) l (λ n, n)).
Qed.

Lemma keeps_reduce p t o b : keeps stays (faasm_sm_reduce singlehost p t o b).
Proof.
  unfold faasm_sm_reduce. destruct (_ && _); [by intros ?|].
  apply (keeps_bind stays); [by intros ?|]. intros [size ty].
  apply (keeps_bind stays); [by intros ?|]. intros op.
  destruct (b =? 1); intros s Hs; exact Hs.
Qed.

Lemma keeps_chain {B} (m : M GuestState B) a n (name : B → string) f (py : B → option string) :
  keeps stays m →
  keeps stays (x ← m; input ← getBytesFromWasm a n;
               ret ← makeChainedCall endpointHost (name x) f (py x) input false; mret (u32 ret)).
Proof.
  intros Hm. apply (keeps_bind stays); [done|]. intros x.
  apply (keeps_bind stays); [apply keeps_getBytes|]. intros input.
  apply (keeps_bind stays); [apply keeps_makeChainedCall|]. by intros ? ?.
Qed.

Lemma keeps_run_op o : keeps stays (run_op o).
Proof.
  destruct o; cbn [run_op];
    try (apply (keeps_bind stays); [|by intros ? ?]).
  - apply (keeps_chain _ _ _ (λ n, n) 0 (λ _, None)), keeps_getString.
  - by apply (keeps_chain (gets g_call) _ _ function fptr (λ _, None)); intros ?.
  - apply (keeps_bind stays); [apply keeps_getString|]. intros py.
    by apply (keeps_chain (gets g_call) _ _ function 0 (λ _, Some py)); intros ?.
  - apply keeps_spawn.
  - apply keeps_await.
  - apply keeps_await_output.
  - apply keeps_read_input.
  - apply (keeps_bind stays); [apply keeps_getBytes|]. intros bs s Hs. exact Hs.
  - apply keeps_reduce.
  - apply keeps_gets_bind. intros s. apply (keeps_sched _ (λ x Hp, proj1 (ks_lock K _ x Hp)) s).
  - apply keeps_gets_bind. intros s. apply (keeps_sched _ (λ x Hp, proj2 (ks_lock K _ x Hp)) s).
  - apply keeps_migrate.
  - apply keeps_chainNdp.
Qed.

(** C26: Whatever a function of some user and application does with the calls that hand
    messages to the scheduler (chaining by name, pointer and Python function, spawning, a
    near-data call, migration), with awaiting, its input and output, reductions and the
    group's lock, in any order and with any arguments, the scheduler is only called with
    messages of that user and, near-data calls apart, of that application; those are of the
    application of their new message.  What such calls keep of the scheduler's state is kept,
    also when an operation fails, and the function's own message stays theirs.  Threads
    (pthreads and OpenMP) are not handed to the scheduler but to the executor of the message, and
    the ranks of MPI are made by faabric's worlds. *)
Theorem guest_calls_confined ops s :
  user (g_call s) = U → appid (g_call s) = A → P (g_sched s) →
  let s' := (for_each ops run_op s).2 in
  P (g_sched s') ∧ user (g_call s') = U ∧ appid (g_call s') = A.
Proof.
  intros Hu Ha Hp s'.
  assert (confined s') as (? & ? & ?); [|done].
  apply (keeps_for_each stays ops run_op keeps_run_op s). by split_and!.
Qed.
End confinement.

(** * A concrete scheduler *)

(** Every call is executed: its output is its input and an exclamation mark. *)
Definition demo_run (m : Message) : Message := set_outputdata (inputdata m ++ [33]) m.
Definition no_mpi : MpiFields := mkMpiFields false 0 0 0.
Definition demo_message (u f : string) (i a : Z) (input : list Z) : Message :=
  {| id := i; appid := a; groupid := 0; groupidx := 0; user := u; function := f; funcptr := 0;
     inputdata := input; outputdata := []; returnvalue := 0;
     cmdline := ""; pythonuser := ""; pythonfunction := ""; pythonentry := ""; ispython := false;
     isasync := false; isstorage := false; forbidndp := false; executeslocally := false;
     recordexecgraph := false; directresulthost := ""; snapshotkey := ""; zygotedelta := [];
     isoutputmemorydelta := false; wasmglobals := []; extraarguments := []; mpi := no_mpi |}.
#[export] Instance demo_scheduler : Scheduler :=
  {| Sched := Z * gmap Z Message;
     batchExecFactory := λ u f x, (demo_message u f (1 + x.1 mod 1000) 0 [], (x.1 + 1, x.2));
     callFunctions := λ _ m _ x, (Ret (), (x.1, <[id m := demo_run m]> x.2));
     getFunctionResult := λ i _ x,
       (match x.2 !! i with Some r => Ret r | None => Throw (RuntimeError "no result") end, x);
     logChainedFunction := λ _ _ x, x;
     getPendingAppMigrations := λ a _, if a =? 7 then Some [(1, "h2")] else None;
     prepareMigration := λ _ _ x, (Ret (), x); pushSnapshot := λ _ _ _ x, (Ret (), x);
     localLock := λ _ x, (Ret (), x); localUnlock := λ _ x, (Ret (), x);
     SnapshotMergeOperation := Z;
     dataTypeOf := λ t, if t =? 2 then Some SInt else None; mergeOpOf := λ o, Some o;
     safeCopyToBuffer := λ bs n, (take (Z.to_nat n) bs, Z.of_nat (length (take (Z.to_nat n) bs))) |}.

#[export] Instance demo_scheduler_laws : FaabricLaws.
Proof. by split. Qed.

(** The name of a function, an input and room for an output. *)
Definition demo_guest : GuestState :=
  mkGuest ([103; 0; 0; 0; 1; 2; 3; 0] ++ replicate 8 0) (demo_message "u" "f" 1 7 [9; 8]) (0, ∅) [] [].

Lemma chain_await_output_witness :
  let s1 := (faasm_chain_name "h" 0 4 3 demo_guest).2 in
  (faasm_await_call 1000 1 s1).1 = Ret 0 ∧
  ∃ mem, mem_write (g_mem demo_guest) 8 [1; 2; 3; 33] = Ret mem ∧
    (faasm_await_call_output 1000 1 8 4 s1).1 = Ret 0 ∧ g_mem (faasm_await_call_output 1000 1 8 4 s1).2 = mem.
Proof.
  intros s1.
  assert (faasm_chain_name "h" 0 4 3 demo_guest = (Ret 1, s1)) as Hrun by (vm_compute; reflexivity).
  destruct (chain_await_output "h" 1000 0 "g" 4 3 [1; 2; 3] demo_guest 1 s1 eq_refl eq_refl ltac:(lia) eq_refl Hrun)
    as (m & _ & _ & _ & _ & H).
  destruct (getFunctionResult 1 1000 (g_sched s1)) as [r x] eqn:Hr. vm_compute in Hr. injection Hr as <- _.
  destruct H as [Hawait Hout]. rewrite Hawait. split; [reflexivity|].
  destruct (Hout 8 4 ltac:(lia) eq_refl ltac:(discriminate)) as (mem & Hw & Ho).
  rewrite Ho. exists mem. split; [exact Hw|]. split; reflexivity.
Defined.

Lemma read_input_roundtrip_witness :
  faasm_read_input 0 0 demo_guest = (Ret 2, demo_guest) ∧
  ∃ m, faasm_read_input 8 2 demo_guest = (Ret 2, set_mem m demo_guest) ∧
    mem_write (g_mem demo_guest) 8 [9; 8] = Ret m ∧ mem_read m 8 2 = Ret [9; 8].
Proof.
  apply (read_input_roundtrip 8 demo_guest);
    [cbn; lia|reflexivity].
Defined.

Definition demo_owned (x : @Sched demo_scheduler) : Prop :=
  map_Forall (λ _ m, user m = "u" ∧ (appid m = 7 ∨ isstorage m = true)) (x : Z * gmap Z Message).2.

Lemma demo_owned_kept : keeps_scheduler "u" 7 demo_owned.
Proof.
  split; try done.
  intros t m d x [Hu Ha] Hx. cbn. apply map_Forall_insert_2; [|done]. split; [done|]. destruct Ha as [Ha|[Ha _]]; [by left|by right].
Qed.

Lemma guest_calls_confined_witness :
  let ops := [op_chain_name 0 4 3; op_await 1; op_reduce 8 2 1 0; op_chain_ndp [1] [2] 3 None [] []; op_migrate 5 6] in
  let s' := (for_each ops (run_op "h" 1000 false) demo_guest).2 in
  demo_owned (g_sched s') ∧ user (g_call s') = "u" ∧ appid (g_call s') = 7.
Proof.
  intros ops s'.
  apply (guest_calls_confined "h" 1000 false "u" 7 demo_owned demo_owned_kept ops demo_guest);
    [reflexivity|reflexivity|apply map_Forall_empty].
Defined.
