(* ===== verification/Lifecycle.v ===== *)
(** The life of a module (src/wavm/WAVMWasmModule.cpp, src/wasm/WasmModule.cpp,
    src/faaslet/Faaslet.cpp): binding to a function, cloning from the cached
    module, resetting between calls, and executing a call.  A module is the
    linker's state, whose rest holds what linking does not touch. *)

From S2P Require Import Prelude Text WasmBytes WasmMemory Globals S3 Host FileLoader ModuleCache DynLink Chaining.

(** * State *)

(** The rest of a module: whether it is bound, the bytes of its memory, its globals
    in its execution context (those that exist), its open files, its environment,
    the memory before the call, the regions left out of deltas, the contexts of its
    OpenMP threads (their stack tops) and its captured output; and the output of the
    message that is being executed, which host calls of the module set. *)
Record Rest {Reg FS Vars : Type} := mkRest {
  r_registry : Reg; isBound : bool; bytes : Mem; r_globals : list (option Global);
  filesystem : FS; wasmEnvironment : Vars; preExecuteMemoryData : Mem;
  excludedPtrLens : list (Z * Z); openMPContexts : list (option Z); stdoutCapture : Z * Z;
  messageOutput : list Z }.
Arguments Rest : clear implicits.
Arguments mkRest {_ _ _} _ _ _ _ _ _ _ _ _ _ _.

(** The files of a module as binding uses them, and the store of states: its sizes,
    values and uploads, which binding and resetting use for zygote snapshots. *)
Class ModuleFiles (FS : Type) := { prepareFilesystem : M FS unit }.
Class StateStore := {
  States : Type;
  getStateSize : string → string → States → outcome Z * States;
  getState : string → string → Z → States → outcome (list Z) * States;
  putState : string → string → list Z → States → outcome unit * States;
  Snapshots : Type;
  snapshotExists : string → Snapshots → bool;
  registerSnapshot : string → Mem → Snapshots → Snapshots;
  getSnapshot : string → Snapshots → outcome Mem }.

(** * A module *)

Section rest.
Context {Reg FS Vars : Type}.
Abbreviation rest := (Rest Reg FS Vars).

Definition set_r_registry (r : Reg) (x : rest) : rest :=
  mkRest r (isBound x) (bytes x) (r_globals x) (filesystem x) (wasmEnvironment x)
    (preExecuteMemoryData x) (excludedPtrLens x) (openMPContexts x) (stdoutCapture x) (messageOutput x).
Definition set_bound (b : bool) (x : rest) : rest :=
  mkRest (r_registry x) b (bytes x) (r_globals x) (filesystem x) (wasmEnvironment x)
    (preExecuteMemoryData x) (excludedPtrLens x) (openMPContexts x) (stdoutCapture x) (messageOutput x).
Definition set_bytes (m : Mem) (x : rest) : rest :=
  mkRest (r_registry x) (isBound x) m (r_globals x) (filesystem x) (wasmEnvironment x)
    (preExecuteMemoryData x) (excludedPtrLens x) (openMPContexts x) (stdoutCapture x) (messageOutput x).
Definition set_r_globals (g : list (option Global)) (x : rest) : rest :=
  mkRest (r_registry x) (isBound x) (bytes x) g (filesystem x) (wasmEnvironment x)
    (preExecuteMemoryData x) (excludedPtrLens x) (openMPContexts x) (stdoutCapture x) (messageOutput x).
Definition set_files (f : FS) (x : rest) : rest :=
  mkRest (r_registry x) (isBound x) (bytes x) (r_globals x) f (wasmEnvironment x)
    (preExecuteMemoryData x) (excludedPtrLens x) (openMPContexts x) (stdoutCapture x) (messageOutput x).
Definition set_preExecute (m : Mem) (x : rest) : rest :=
  mkRest (r_registry x) (isBound x) (bytes x) (r_globals x) (filesystem x) (wasmEnvironment x)
    m (excludedPtrLens x) (openMPContexts x) (stdoutCapture x) (messageOutput x).
Definition set_excluded (l : list (Z * Z)) (x : rest) : rest :=
  mkRest (r_registry x) (isBound x) (bytes x) (r_globals x) (filesystem x) (wasmEnvironment x)
    (preExecuteMemoryData x) l (openMPContexts x) (stdoutCapture x) (messageOutput x).
Definition set_contexts (c : list (option Z)) (x : rest) : rest :=
  mkRest (r_registry x) (isBound x) (bytes x) (r_globals x) (filesystem x) (wasmEnvironment x)
    (preExecuteMemoryData x) (excludedPtrLens x) c (stdoutCapture x) (messageOutput x).
Definition set_messageOutput (o : list Z) (x : rest) : rest :=
  mkRest (r_registry x) (isBound x) (bytes x) (r_globals x) (filesystem x) (wasmEnvironment x)
    (preExecuteMemoryData x) (excludedPtrLens x) (openMPContexts x) (stdoutCapture x) o.
End rest.

(** What WAVM and the wasm code do to a module: instances in a cloned compartment and
    the size of a memory that is not cloned; linking, instantiation and execution (also
    in the context of a thread); the memory, table and globals of a new instance, the
    value of an exported global, the parameters of a function; and setting a global. *)
Class WasmEngine `{Wavm} `{!LinkEnv} (Reg FS Vars : Type) := {
  remapToClonedCompartment : Inst → Inst;
  pagesWithoutMemory : Linker (Rest Reg FS Vars) → Linker (Rest Reg FS Vars) → Z;
  isA : Object → ExternType → bool;
  linkModule : IRModule ExternType →
    (Import ExternType → M (Linker (Rest Reg FS Vars)) (option Object)) →
    M (Linker (Rest Reg FS Vars)) (bool * list Object);
  instantiateModule : option ModuleRef → list Object → string → M (Linker (Rest Reg FS Vars)) Inst;
  executeWasmFunction : Obj → list Z → M (Linker (Rest Reg FS Vars)) Z;
  executeInContext : Z → Obj → list Z → M (Linker (Rest Reg FS Vars)) Z;
  defaultMemoryOf : Inst → Mem;
  defaultTableOf : Inst → list (option Obj);
  globalsOf : Inst → list (option Global);
  globalI32 : Obj → Linker (Rest Reg FS Vars) → Z;
  firstMutableGlobal : Linker (Rest Reg FS Vars) → Z;
  paramsOf : Obj → nat;
  engine_setGlobal : Global → Z → outcome Global }.
#[export] Instance engine_globals `{W : Wavm} `{L : !LinkEnv} {Reg FS Vars : Type} `{WE : !WasmEngine Reg FS Vars} : GlobalApi := {| setGlobalValue := engine_setGlobal |}.

Section module.
Context `{E : MemoryEnv} `{Wavm} `{!LinkEnv} {Reg FS Vars : Type} `{!Registry Reg} `{!ModuleFiles FS}
  `{!StateStore} `{!WasmEngine Reg FS Vars}.
Abbreviation Module_ := (Linker (Rest Reg FS Vars)).
Abbreviation ModM := (M Module_).

(** The registry is reached through the rest. *)
#[export] Instance rest_registry : Registry (Rest Reg FS Vars) :=
  {| rg_getModule u f p := zoom r_registry set_r_registry (rg_getModule u f p);
     rg_getCompiledModule u f p := zoom r_registry set_r_registry (rg_getCompiledModule u f p);
     rg_getSharedModuleTableSize u f p := zoom r_registry set_r_registry (rg_getSharedModuleTableSize u f p);
     rg_getSharedModuleDataSize u f p := zoom r_registry set_r_registry (rg_getSharedModuleDataSize u f p) |}.

Definition upd_rest (f : Rest Reg FS Vars → Rest Reg FS Vars) (m : Module_) : Module_ :=
  set_registry (f (lk_registry m)) m.

(** Calls on the linear memory: new pages are zero, pages given up are gone. *)
Definition on_linear {A} (x : M WasmModule A) : ModM A := λ m,
  let '(o, mo) := x (lk_memory m) in
  (o, upd_rest (λ r, set_bytes (resize (Z.to_nat (getMemorySizeBytes mo)) 0 (bytes r)) r) (set_memory mo m)).

(** [getGlobals] and [updateGlobal] *)
Definition getGlobals (m : Module_) : list Z := globalValues (r_globals (lk_registry m)).
Definition updateGlobal (idx : nat) (value : Z) : ModM unit :=
  update_global (λ m, r_globals (lk_registry m)) (λ gs, upd_rest (set_r_globals gs)) idx value.

(** [memcpy] to the base of the memory. *)
Definition writeMemory (bs : Mem) : ModM unit :=
  m ← get;
  match mem_write (bytes (lk_registry m)) 0 bs with
  | Ret b => put (upd_rest (set_bytes b) m)
  | Throw _ => throw (Undefined "write past the end of the memory")
  end.

(** [WasmModule::reset] *)
Definition clearExcluded : ModM unit := modify (upd_rest (set_excluded [])).

(** [doWAVMGarbageCollection], without the compartment, which WAVM collects or
    not. *)
Definition clearPointers : ModM unit :=
  modify (λ m, mkLinker (set_bytes [] (lk_registry m)) (set_memPages 0 (lk_memory m)) [] 0
    (boundUser m) (boundFunction m) None None None
    (mkDyn (dynamicPathToHandleMap (lk_dyn m)) ∅ (lastLoadedDynamicModuleHandle (lk_dyn m))) (lk_got m)).
Definition doWAVMGarbageCollection (compartmentCleared : bool) : ModM unit :=
  clearPointers ;;
  if compartmentCleared then mret () else throw (RuntimeError "WAVM garbage collection failed").

Definition remapModule (d : LoadedDynamicModule) : LoadedDynamicModule :=
  mkLoaded (ld_path d) (memoryBottom d) (memoryTop d) (stackTop d) (stackPointer d) (stackSize d)
    (dataBottom d) (dataTop d) (heapBottom d) (tableBottom d) (tableTop d)
    (remapToClonedCompartment <$> ld_ptr d).

(** The members a clone takes over: of the linear memory the thread stacks and the
    addresses of shared state, which is not mapped in the clone's memory; its own
    registry stays. *)
Definition cloned (other : Module_) (pages : Z) (bs : Mem) (m : Module_) : Module_ :=
  let o := lk_registry other in
  let mem := lk_memory other in
  mkLinker
    (mkRest (r_registry (lk_registry m)) (isBound o) bs (r_globals o) (filesystem o) (wasmEnvironment o)
      (preExecuteMemoryData o) (excludedPtrLens (lk_registry m))
      (replicate (Z.to_nat (threadPoolSize mem)) None) (0, 0) (messageOutput (lk_registry m)))
    (mkWasmModule pages (threadStacks mem) (threadPoolSize mem) (guardRegions (lk_memory m))
      (sharedMemWasmPtrs mem) [])
    (lk_table other) (lk_globals other) (boundUser other) (boundFunction other)
    (remapToClonedCompartment <$> envModule other) (remapToClonedCompartment <$> wasiModule other)
    (remapToClonedCompartment <$> moduleInstance other)
    (mkDyn (dynamicPathToHandleMap (lk_dyn other)) (remapModule <$> dynamicModuleMap (lk_dyn other))
      (lastLoadedDynamicModuleHandle (lk_dyn other)))
    (lk_got other).

Definition clone (other : Module_) (snapshotKey : string) (snapshots : Snapshots) : ModM unit :=
  m0 ← get;
  (if isBound (lk_registry m0) then clearPointers else mret ()) ;;
  if negb (isBound (lk_registry other)) then throw (RuntimeError "Binding from unbound module")
  else if bool_decide (snapshotKey = "") then
    modify (cloned other (memPages (lk_memory other)) (bytes (lk_registry other)))
  else
    m ← get;
    let pages := pagesWithoutMemory other m0 in
    put (cloned other pages (replicate (Z.to_nat (pages * WASM_BYTES_PER_PAGE)) 0) m) ;;
    data ← lift (getSnapshot snapshotKey snapshots);
    on_linear (setMemorySize (Z.of_nat (length data))) ;;
    writeMemory data.

(** * Binding *)

(** What the modules of a worker share: the registry, the store of states and the
    snapshots; and an operation on a module with the shared registry. *)
Record Shared := mkShared { sh_registry : Reg; sh_states : States; sh_snapshots : Snapshots }.
Abbreviation BindM := (M (Shared * Module_)).

Definition on_module {A} (x : ModM A) : BindM A := λ '(sh, m),
  let '(o, m') := x (upd_rest (set_r_registry (sh_registry sh)) m) in
  (o, (mkShared (r_registry (lk_registry m')) (sh_states sh) (sh_snapshots sh), m')).
Definition on_states {A} (x : M States A) : BindM A := λ '(sh, m),
  let '(o, t) := x (sh_states sh) in (o, (mkShared (sh_registry sh) t (sh_snapshots sh), m)).

(** The key of a function's zygote snapshot. *)
Definition zygoteKey (m : Module_) : string := "$" +:+ boundFunction m.

Definition getZygoteSnapshot : BindM (option (list Z)) :=
  t ← get;
  let m := t.2 in
  zygSnapSize ← on_states (getStateSize (boundUser m) (zygoteKey m));
  if zygSnapSize =? 0 then mret None
  else v ← on_states (getState (boundUser m) (zygoteKey m) zygSnapSize); mret (Some v).

Definition storeZygoteSnapshot : BindM unit :=
  t ← get;
  let m := t.2 in
  zygSnapSize ← on_states (getStateSize (boundUser m) (zygoteKey m));
  if negb (zygSnapSize =? 0) then mret ()
  else on_states (putState (boundUser m) (zygoteKey m) (bytes (lk_registry m))).

(** The names of the exported functions that are called, and [funcToString]. *)
Context (ZYGOTE_FUNC_NAME ENTRY_FUNC_NAME : string) (funcToString : Message → bool → string).

Definition getGlobalI32 (name : string) : ModM Z :=
  m ← get;
  g ← instanceExport (moduleInstance m) name;
  mret match g with None => -1 | Some g => globalI32 g m end.

Definition executeZygoteFunction : ModM unit :=
  m ← get;
  zygoteFunc ← getFunction (moduleInstance m) ZYGOTE_FUNC_NAME false;
  match zygoteFunc with
  | None => mret ()
  | Some f =>
      result ← executeWasmFunction f [];
      if negb (i32 result =? 0) then throw (RuntimeError "Zygote failed") else mret ()
  end.

(** The instance with its memory, table and globals. *)
Definition adoptInstance (i : Inst) : ModM unit :=
  modify (λ m, mkLinker
    (set_r_globals (globalsOf i) (set_bytes (defaultMemoryOf i) (lk_registry m)))
    (set_memPages (Z.of_nat (length (defaultMemoryOf i)) / WASM_BYTES_PER_PAGE) (lk_memory m))
    (defaultTableOf i) (lk_globals m) (boundUser m) (boundFunction m)
    (envModule m) (wasiModule m) (Some i) (lk_dyn m) (lk_got m)).

Definition on_files {A} (x : M FS A) : ModM A := λ m,
  let '(o, f) := x (filesystem (lk_registry m)) in (o, upd_rest (set_files f) m).

Definition checkStack : ModM unit :=
  heapBase ← getGlobalI32 "__heap_base";
  dataEnd ← getGlobalI32 "__data_end";
  if (0 <? heapBase) && (0 <? dataEnd) && negb (heapBase =? dataEnd)
  then throw (RuntimeError "Wasm memory layout not as expected") else mret ().

(** [doBindToFunctionInternal] without the cache. *)
Definition bindFresh (msg : Message) (executeZygote : bool) : BindM unit :=
  instance ← on_module (createModuleInstance isA linkModule instantiateModule (funcToString msg false) "");
  on_module (adoptInstance instance) ;;
  on_module (on_files prepareFilesystem) ;;
  on_module (modify (λ m, upd_rest (set_contexts (replicate (Z.to_nat (threadPoolSize (lk_memory m))) None)) m)) ;;
  on_module (executeWasmConstructorsFunction executeWasmFunction (Some instance)) ;;
  (if executeZygote then on_module executeZygoteFunction else mret ()) ;;
  on_module checkStack ;;
  (if executeZygote then storeZygoteSnapshot else mret ()).

(** [bindToFunction]: the members are set before the work is done. *)
Definition beginBind (msg : Message) : ModM unit :=
  m ← get;
  if isBound (lk_registry m) then throw (RuntimeError "Cannot bind a module twice")
  else put (mkLinker (set_bound true (lk_registry m)) (lk_memory m) (lk_table m) (lk_globals m)
              (user msg) (function msg) (envModule m) (wasiModule m) (moduleInstance m) (lk_dyn m) (lk_got m)).

(** Without the cache: what the cache calls to make its module. *)
Definition bindNoCache (msg : Message) (m : Module_) : M Shared Module_ := λ sh,
  let '(o, (sh', m')) := (on_module (beginBind msg) ;; bindFresh msg true) (sh, m) in
  (_ ← o; Ret m', sh').

(** ** A worker: the cache of bound modules with what they share, and a module *)

Record Worker := mkWorker {
  wk_cache : WAVMModuleCache Module_ Shared; wk_module : Module_; localResetSnapshotKey : string }.
Abbreviation WkM := (M Worker).
Context (unboundModule : Module_).

Definition with_cache {A} (x : M (WAVMModuleCache Module_ Shared) A) : WkM A :=
  zoom wk_cache (λ c w, mkWorker c (wk_module w) (localResetSnapshotKey w)) x.
Definition with_module {A} (x : BindM A) : WkM A := λ w,
  let '(o, (sh, m)) := x (wc_world (wk_cache w), wk_module w) in
  (o, mkWorker (mkWAVMModuleCache sh (cachedModuleMap (wk_cache w))) m (localResetSnapshotKey w)).
Definition cachedModule (msg : Message) : WkM Module_ :=
  with_cache (getCachedModule unboundModule funcToString bindNoCache msg).

Definition cloneFrom (other : Module_) (snapshotKey : string) : BindM unit :=
  t ← get; on_module (clone other snapshotKey (sh_snapshots t.1)).

(** [doBindToFunctionInternal]; what [bindToFunction] calls, and binding without the
    zygote, which sets no member before. *)
Definition doBindToFunctionInternal (msg : Message) (executeZygote useCache : bool) : WkM unit :=
  if useCache then
    cached ← cachedModule msg;
    with_module (cloneFrom cached "")
  else with_module (bindFresh msg executeZygote).
Definition doBindToFunction (msg : Message) (cache : bool) : WkM unit := doBindToFunctionInternal msg true cache.
Definition bindToFunctionNoZygote (msg : Message) : WkM unit := doBindToFunctionInternal msg false true.

(** The copy constructor and the copy assignment. *)
Definition copyModule (other : Module_) : BindM unit := cloneFrom other "".

Definition bindToFunction (msg : Message) : WkM unit :=
  with_module (on_module (beginBind msg)) ;;
  doBindToFunction msg true.

(** * Resetting between calls *)

(** The memory takes the size and the bytes of the zygote snapshot. *)
Definition restoreZygote (zygSnap : list Z) : ModM unit :=
  m ← get;
  let memSize := getCurrentBrk (lk_memory m) in
  let size := Z.of_nat (length zygSnap) in
  (if memSize <? size then on_linear (growMemory (size - memSize)) ;; mret ()
   else if size <? memSize then on_linear (shrinkMemory (memSize - size)) ;; mret ()
   else mret ()) ;;
  writeMemory zygSnap.

Definition zygoteOrClone (cached : Module_) (snapshotKey : string) : BindM (list Z) :=
  zygSnap ← getZygoteSnapshot;
  match zygSnap with
  | Some z => mret z
  | None =>
      cloneFrom cached snapshotKey ;;
      storeZygoteSnapshot ;;
      zygSnap ← getZygoteSnapshot;
      match zygSnap with
      | Some z => mret z
      | None => throw (RuntimeError "Zygote snapshot cannot be created")
      end
  end.

(** [WAVMWasmModule::reset] *)
Definition reset (msg : Message) (snapshotKey : string) : WkM unit :=
  with_module (on_module clearExcluded) ;;
  w ← get;
  let m := wk_module w in
  if negb (isBound (lk_registry m)) then mret ()
  else if negb (bool_decide (user msg = boundUser m)) then throw (AssertFailed "msg.user() == boundUser")
  else if negb (bool_decide (function msg = boundFunction m)) then throw (AssertFailed "msg.function() == boundFunction")
  else
    cached ← cachedModule msg;
    for_each (imap pair (getGlobals cached)) (λ iv, with_module (on_module (updateGlobal iv.1 iv.2))) ;;
    zygSnap ← with_module (zygoteOrClone cached snapshotKey);
    with_module (on_module (restoreZygote zygSnap)).

(** [registerResetSnapshot], with the registry of snapshots among what is shared. *)
Definition registerReset (msg : Message) : WkM string :=
  w ← get;
  with_cache (registerResetSnapshot funcToString
    (λ m sh, (Ret (bytes (lk_registry m)), sh))
    (λ k sh, snapshotExists k (sh_snapshots sh))
    (λ k snap sh, mkShared (sh_registry sh) (sh_states sh) (registerSnapshot k snap (sh_snapshots sh)))
    (wk_module w) msg).

(** [Faaslet::reset], with WAVM *)
Definition faaslet_reset (msg : Message) : WkM unit :=
  w ← get;
  if isBound (lk_registry (wk_module w)) then reset msg (localResetSnapshotKey w)
  else
    bindToFunction msg ;;
    key ← registerReset msg;
    modify (λ w, mkWorker (wk_cache w) (wk_module w) key).

(** * Executing a call *)

(** The module's arguments and its Python file, prepared from the message; faabric's
    difference of two memories. *)
Context (prepareArgcArgv syncPythonFunctionFile : Message → ModM unit)
  (serializeDelta : Mem → Mem → list (Z * Z) → list Z).

(** The arguments of a function that is called by pointer. *)
Definition invokeArgs (f : Obj) (msg : Message) : outcome (list Z) :=
  let nParams := paramsOf f in
  match extraarguments msg with
  | _ :: _ =>
      if negb (bool_decide (nParams = length (extraarguments msg)))
      then Throw (RuntimeError "Unexpected function pointer arg count")
      else Ret (extraarguments msg)
  | [] =>
      match nParams with
      | 0%nat => Ret []
      | 1%nat =>
          if bool_decide (inputdata msg = []) then Ret [0]
          else intArg ← stoi (string_of_bytes (inputdata msg)); Ret [intArg]
      | _ => Throw (RuntimeError "Unexpected function pointer args")
      end
  end.

Definition chooseFunction (msg : Message) : ModM (Obj * list Z) :=
  if 0 <? funcptr msg then
    f ← getFunctionFromPtr (funcptr msg);
    args ← lift (invokeArgs f msg);
    mret (f, args)
  else
    prepareArgcArgv msg ;;
    m ← get;
    f ← getFunction (moduleInstance m) ENTRY_FUNC_NAME true;
    match f with None => throw (Undefined "null function") | Some f => mret (f, []) end.

Definition restoreGlobals (msg : Message) : ModM unit :=
  m ← get;
  for_each (imap pair (take (length (r_globals (lk_registry m))) (wasmglobals msg)))
    (λ iv, updateGlobal iv.1 iv.2).

(** An exception of WAVM is the return value 1, an exit the code it carries. *)
Definition callFunction (f : Obj) (args : list Z) : ModM Z := λ m,
  match executeWasmFunction f args m with
  | (Ret r, m') => (Ret (i32 r), m')
  | (Throw (WasmException _), m') => (Ret 1, m')
  | (Throw (WasmExitException code), m') => (Ret code, m')
  | (Throw e, m') => (Throw e, m')
  end.

(** The delta from a former memory to the one of the module, without what is
    excluded. *)
Definition deltaSnapshot (oldMemory : Mem) (r : Rest Reg FS Vars) : list Z :=
  serializeDelta oldMemory (bytes r) (excludedPtrLens r).

(** The fields of the message that are set: the return value, and the delta with the
    globals. *)
Record CallResult := mkResult { cr_returnvalue : Z; cr_delta : option (list Z * list Z) }.

Definition executeFunction (msg : Message) : ModM CallResult :=
  m ← get;
  if negb (isBound (lk_registry m)) then throw (RuntimeError "Module must be bound before executing")
  else
    syncPythonFunctionFile msg ;;
    m ← get;
    (if isoutputmemorydelta msg
     then modify (upd_rest (set_preExecute (bytes (lk_registry m)))) else mret ()) ;;
    '(f, args) ← chooseFunction msg;
    (if bool_decide (wasmglobals msg = []) then mret () else restoreGlobals msg) ;;
    returnValue ← callFunction f args;
    if (returnValue =? 0) && isoutputmemorydelta msg then
      m ← get;
      let r := lk_registry m in
      let delta := deltaSnapshot (preExecuteMemoryData r) r in
      put (upd_rest (set_preExecute []) m) ;;
      if forallb (λ g, bool_decide (is_Some g)) (r_globals r)
      then mret (mkResult returnValue (Some (delta, getGlobals m)))
      else throw (Undefined "null global")
    else mret (mkResult returnValue None).

(** ** Threads *)

(** [createThreadContext]: the stack pointer of a new context is the module's, the
    first mutable global. *)
Context (STACK_SIZE : Z).

Definition createThreadContext (stackTop : Z) : ModM Z :=
  m ← get;
  if negb (firstMutableGlobal m =? STACK_SIZE)
  then throw (RuntimeError "Unexpected mutable global format")
  else if negb (Z.land stackTop 15 =? 0)
  then throw (RuntimeError "Thread stack top not 16 byte aligned")
  else mret stackTop.

Definition executePthread (stackTop : Z) (msg : Message) : ModM Z :=
  f ← getFunctionFromPtr (funcptr msg);
  argsPtr ← lift (stoi (string_of_bytes (inputdata msg)));
  ctx ← createThreadContext stackTop;
  r ← executeInContext ctx f [argsPtr];
  mret (i32 r).

(** The context of a thread of the pool is made once, and kept. *)
Definition executeOMPThread (threadPoolIdx : nat) (stackTop appidx nSharedVarOffsets : Z)
    (sharedVarOffsets : list Z) (msg : Message) : ModM Z :=
  f ← getFunctionFromPtr (funcptr msg);
  let args := [appidx; nSharedVarOffsets] ++ take (Z.to_nat nSharedVarOffsets) sharedVarOffsets in
  m ← get;
  match openMPContexts (lk_registry m) !! threadPoolIdx with
  | None => throw (OutOfRange "vector::at")
  | Some slot =>
      ctx ← match slot with
        | Some ctx => mret ctx
        | None =>
            ctx ← createThreadContext stackTop;
            modify (upd_rest (λ r, set_contexts (<[threadPoolIdx := Some ctx]> (openMPContexts r)) r)) ;;
            mret ctx
        end;
      r ← executeInContext ctx f args;
      mret (i32 r)
  end.
End module.

(** * Properties *)

Section life_properties.
Context `{E : MemoryEnv} {EL : MemoryEnvLaws E} `{W : Wavm} {L : LinkEnv} {Reg FS Vars : Type}
  {G : Registry Reg} {MF : ModuleFiles FS} {SS : StateStore} {WE : WasmEngine Reg FS Vars}.
Abbreviation Mod_ := (Linker (Rest Reg FS Vars)).
Abbreviation rest_of := (lk_registry (Reg := Rest Reg FS Vars)).

(** The memory of a module: as many bytes as it has pages. *)
Definition mod_ok (m : Mod_) : Prop :=
  wf_module (lk_memory m) ∧ Z.of_nat (length (bytes (rest_of m))) = size_of (lk_memory m).

(** A module with other memory. *)
Definition with_memory (z : Mem) (m : Mod_) : Mod_ :=
  upd_rest (set_bytes z)
    (set_memory (set_memPages (Z.of_nat (length z) / WASM_BYTES_PER_PAGE) (lk_memory m)) m).

Lemma writeMemory_whole z (m : Mod_) :
  length (bytes (rest_of m)) = length z → writeMemory z m = (Ret (), upd_rest (set_bytes z) m).
Proof.
  intros Hlen. unfold writeMemory. rewrite run_bind. cbn [get].
  rewrite mem_write_ret by (unfold mem_size; lia). change (Z.to_nat 0) with 0%nat.
  rewrite take_0, Nat.add_0_l, drop_ge, app_nil_r by lia. done.
Qed.

(** Pages set by a call on the linear memory, and then every byte written. *)
Lemma sized_then_written {A} (x : M WasmModule A) a p z (m : Mod_) :
  x (lk_memory m) = (Ret a, set_memPages p (lk_memory m)) →
  wf_module (set_memPages p (lk_memory m)) → p * WASM_BYTES_PER_PAGE = Z.of_nat (length z) →
  ((on_linear x ;; mret ()) ;; writeMemory z) m = (Ret (), with_memory z m).
Proof.
  intros Hx Hwf Hp. unfold on_linear. rewrite !run_bind, Hx. cbv beta iota zeta.
  cbn [mret M_ret]. rewrite size_bytes by done. unfold size_of. cbn [memPages set_memPages]. rewrite Hp.
  rewrite writeMemory_whole by (cbn; rewrite length_resize; lia).
  unfold with_memory. rewrite <- Hp, Z_div_mult_full by done. done.
Qed.

(** The runtime has the memory that is asked for, and a snapshot is whole pages that
    fit. *)
Definition runtime_grants : Prop :=
  (∀ p d, ∃ n' base, runtime_growMemory p d = (grow_success, n', base)) ∧
  (∀ p d, ∃ n' rep, runtime_shrinkMemory p d = (grow_success, n', rep)).
Definition snapshot_fits (z : Mem) : Prop :=
  Z.of_nat (length z) mod WASM_BYTES_PER_PAGE = 0 ∧ Z.of_nat (length z) ≤ UINT32_MAX ∧
  Z.of_nat (length z) / WASM_BYTES_PER_PAGE ≤ max_memory_pages.

Lemma restoreZygote_run z (m : Mod_) :
  runtime_grants → snapshot_fits z → mod_ok m → restoreZygote z m = (Ret (), with_memory z m).
Proof.
  intros [Hgrow Hshrink] (Haln & Hmax & Hpages) [Hwf Hlen]. unfold restoreZygote.
  rewrite run_bind. cbn [get]. cbv zeta. rewrite brk_size by done.
  set (n := Z.of_nat (length z)) in *. set (lm := lk_memory m) in *.
  assert (n / WASM_BYTES_PER_PAGE * WASM_BYTES_PER_PAGE = n) as Hdiv by page_lia.
  assert (wf_module (set_memPages (n / WASM_BYTES_PER_PAGE) lm)) as Hwf' by (split; cbn; page_lia).
  destruct (Z.ltb_spec (size_of lm) n); [|destruct (Z.ltb_spec n (size_of lm))].
  - eapply sized_then_written; [|exact Hwf'|done]; fold lm.
    rewrite growMemory_granted by (done || page_lia). do 2 f_equal. page_lia.
  - eapply sized_then_written; [|exact Hwf'|done]; fold lm.
    rewrite shrinkMemory_granted by (done || page_lia). do 2 f_equal. page_lia.
  - assert (size_of lm = n) as Hsz by lia. rewrite run_bind. cbn [mret M_ret].
    rewrite writeMemory_whole by lia. f_equal. unfold with_memory. fold n lm. rewrite <- Hsz.
    unfold size_of. rewrite Z_div_mult_full by done. by destruct m, lk_memory.
Qed.

(** ** A worker *)

Abbreviation Work := (Worker (Reg := Reg) (FS := FS) (Vars := Vars)).

(** The registry a module sees is that of the worker. *)
Definition synced (w : Work) : Prop :=
  r_registry (rest_of (wk_module w)) = sh_registry (wc_world (wk_cache w)).
Definition set_module (m : Mod_) (w : Work) : Work := mkWorker (wk_cache w) m (localResetSnapshotKey w).
Definition set_states (t : States) (w : Work) : Work :=
  let c := wk_cache w in
  let sh := wc_world c in
  mkWorker (mkWAVMModuleCache (mkShared (sh_registry sh) t (sh_snapshots sh)) (cachedModuleMap c))
    (wk_module w) (localResetSnapshotKey w).

Lemma run_with_module {A} (x : M Mod_ A) (w : Work) o m' :
  synced w → x (wk_module w) = (o, m') → r_registry (rest_of m') = r_registry (rest_of (wk_module w)) →
  with_module (on_module x) w = (o, set_module m' w) ∧ synced (set_module m' w).
Proof.
  intros Hsync Hx Hreg. unfold synced in *. split; [|unfold set_module; cbn; congruence].
  unfold with_module, on_module. destruct w as [[sh cm] m key]. cbn in *.
  assert (upd_rest (set_r_registry (sh_registry sh)) m = m) as ->
    by (rewrite <- Hsync; by destruct m as [[] ? ? ? ? ? ? ? ? ? ?]).
  rewrite Hx. unfold set_module. cbn. rewrite Hreg, Hsync. by destruct sh.
Qed.

(** What the store has for the zygote of a function, and what reading it leaves. *)
Definition stored_zygote (u key : string) (t : States) (z : Mem) (t' : States) : Prop :=
  ∃ n t1, n ≠ 0 ∧ getStateSize u key t = (Ret n, t1) ∧ getState u key n t1 = (Ret z, t').

Lemma zygoteOrClone_stored cached key (w : Work) z t' :
  let m := wk_module w in
  stored_zygote (boundUser m) (zygoteKey m) (sh_states (wc_world (wk_cache w))) z t' →
  with_module (zygoteOrClone cached key) w = (Ret z, set_states t' w).
Proof.
  intros m (n & t1 & Hn & Hsize & Hget). unfold with_module, zygoteOrClone, getZygoteSnapshot.
  destruct w as [[sh cm] m0 k]. cbn in *. unfold m in *. rewrite run_bind, run_bind. cbn [get]. cbv zeta. cbn [snd].
  rewrite (run_bind_ret _ _ _ n (mkShared (sh_registry sh) t1 (sh_snapshots sh), m0))
    by (unfold on_states; by rewrite Hsize).
  destruct (Z.eqb_spec n 0); [done|].
  rewrite (run_bind_ret _ _ _ z (mkShared (sh_registry sh) t' (sh_snapshots sh), m0))
    by (unfold on_states; cbn; by rewrite Hget).
  done.
Qed.
(** ** Globals *)

Definition with_globals (f : list (option Global) → list (option Global)) (m : Mod_) : Mod_ :=
  upd_rest (λ r, set_r_globals (f (r_globals r)) r) m.

Lemma updateGlobals_run `{!GlobalLaws} vs (m : Mod_) :
  all_restorable vs (r_globals (rest_of m)) →
  for_each (imap pair vs) (λ iv, updateGlobal iv.1 iv.2) m = (Ret (), with_globals (override vs) m).
Proof.
  intros Hall. apply (update_globals_run (λ m, r_globals (rest_of m)) (λ gs, upd_rest (set_r_globals gs))
    ltac:(done) ltac:(by intros [[] ? ? ? ? ? ? ? ? ? ?]) ltac:(done) vs [] (r_globals (rest_of m)) m eq_refl Hall).
Qed.

Lemma run_for_with_module {A} (f : A → M Mod_ unit) xs (w : Work) m' :
  (∀ x m, r_registry (rest_of (f x m).2) = r_registry (rest_of m)) →
  synced w → for_each xs f (wk_module w) = (Ret (), m') →
  for_each xs (λ x, with_module (on_module (f x))) w = (Ret (), set_module m' w) ∧ synced (set_module m' w).
Proof.
  intros Hf. revert w. induction xs as [|x xs IH]; intros w Hsync Hrun; cbn [for_each] in *.
  { injection Hrun as <-. by destruct w. }
  apply run_bind_inv in Hrun as ([] & m1 & Hx & Hrun). rewrite run_bind.
  pose proof (Hf x (wk_module w)) as Hreg. rewrite Hx in Hreg.
  destruct (run_with_module _ _ _ _ Hsync Hx Hreg) as [-> Hsync1].
  exact (IH (set_module m1 w) Hsync1 Hrun).
Qed.
(** ** Resetting *)

Section reset.
Context (ZYGOTE_FUNC_NAME : string) (funcToString : Message → bool → string) (unbound : Mod_).
Context `{GL : !GlobalLaws}.
Abbreviation reset_ := (reset ZYGOTE_FUNC_NAME funcToString unbound).

Definition zygote_state (cached : Mod_) (z : Mem) (m : Mod_) : Mod_ :=
  with_memory z (with_globals (override (getGlobals cached)) (upd_rest (set_excluded []) m)).
(** A worker whose module can be reset: the module is bound to the function of the
    message, its globals are mutable [i32]s or have the values of the cached ones, the
    function's module is cached and its zygote stored. *)
Record resettable (msg : Message) (cached : Mod_) (z : Mem) (t' : States) (w : Work) : Prop := {
  rs_synced : synced w;
  rs_ok : mod_ok (wk_module w);
  rs_bound : isBound (rest_of (wk_module w)) = true;
  rs_user : user msg = boundUser (wk_module w);
  rs_function : function msg = boundFunction (wk_module w);
  rs_length : (length (r_globals (rest_of (wk_module w))) ≤ length (r_globals (rest_of cached)))%nat;
  rs_globals : all_restorable (getGlobals cached) (r_globals (rest_of (wk_module w)));
  rs_cached : cachedModuleMap (wk_cache w) !! funcToString msg false = Some cached;
  rs_zygote : stored_zygote (boundUser (wk_module w)) (zygoteKey (wk_module w))
    (sh_states (wc_world (wk_cache w))) z t' }.

Lemma reset_run msg key cached z t' (w : Work) :
  runtime_grants → snapshot_fits z → resettable msg cached z t' w →
  reset_ msg key w = (Ret (), set_states t' (set_module (zygote_state cached z (wk_module w)) w)).
Proof.
  intros Hgrant Hfits [Hsync Hok Hbound Huser Hfun _ Hglob Hcached Hzyg]. unfold reset.
  destruct (run_with_module clearExcluded w (Ret ()) _ Hsync eq_refl eq_refl) as [Hr Hs1].
  rewrite (run_bind_ret _ _ _ _ _ Hr). clear Hr. rewrite run_bind. cbn [get]. cbv zeta.
  set (m1 := upd_rest (set_excluded []) (wk_module w)) in *.
  change (wk_module (set_module m1 w)) with m1.
  rewrite (bool_decide_eq_true_2 (user msg = _)), (bool_decide_eq_true_2 (function msg = _)) by done.
  change (isBound (lk_registry m1)) with (isBound (rest_of (wk_module w))). rewrite Hbound. cbn [negb].
  rewrite (run_bind_ret _ _ _ cached (set_module m1 w)).
  2: { unfold cachedModule, with_cache, zoom. cbn [wk_cache set_module].
       rewrite (getCachedModule_hit _ _ _ _ cached) by done. by destruct w. }
  set (vs := getGlobals cached).
  destruct (run_for_with_module (λ iv, updateGlobal iv.1 iv.2) (imap pair vs) (set_module m1 w)
    (with_globals (override vs) m1)) as [Hr Hs2]; [|done| |].
  { intros [i v] m. unfold updateGlobal, update_global. run_unfold. by destruct (setGlobal _ _ _). }
  { by apply updateGlobals_run. }
  rewrite (run_bind_ret _ _ _ _ _ Hr). clear Hr.
  set (m2 := with_globals (override vs) m1) in *. change (set_module m2 (set_module m1 w)) with (set_module m2 w) in *.
  rewrite (run_bind_ret _ _ _ z (set_states t' (set_module m2 w)))
    by (by apply zygoteOrClone_stored).
  apply (run_with_module (restoreZygote z) (set_states t' (set_module m2 w)) (Ret ()) (with_memory z m2)).
  - done.
  - by apply restoreZygote_run.
  - done.
Qed.

(** A module without its memory, the values of its globals that can be restored and its
    excluded regions. *)
Definition forget (m : Mod_) : Mod_ :=
  with_memory [] (with_globals blanks (upd_rest (set_excluded []) m)).

Lemma zygote_state_forget cached z (m : Mod_) :
  (length (r_globals (rest_of m)) ≤ length (getGlobals cached))%nat →
  zygote_state cached z m = zygote_state cached z (forget m).
Proof.
  intros Hl. unfold zygote_state, forget, with_globals, with_memory, upd_rest. cbn.
  by rewrite override_blank.
Qed.
Lemma forget_zygote_state cached z (m : Mod_) : forget (zygote_state cached z m) = forget m.
Proof.
  unfold zygote_state, forget, with_globals, with_memory, upd_rest. cbn. by rewrite blank_override.
Qed.

(** C12: A reset leaves nothing of a call in the memory and the globals of a module whose
    function is cached with its zygote stored, when its globals are mutable [i32]s (or have the
    values of the cached ones) and the runtime grants the memory: two modules that differ in
    memory, the values of such globals and excluded regions only are the same afterwards,
    whatever the snapshot key; their memory is the function's zygote and their globals have
    the values of the cached module; and all else of the module and of the cache of modules
    is as the call left it. *)
Theorem reset_erases msg key1 key2 cached z t' (w1 w2 : Work) :
  runtime_grants → snapshot_fits z → resettable msg cached z t' w1 → resettable msg cached z t' w2 →
  forget (wk_module w1) = forget (wk_module w2) → wk_cache w1 = wk_cache w2 →
  let '(o1, w1') := reset_ msg key1 w1 in
  let '(o2, w2') := reset_ msg key2 w2 in
  o1 = Ret () ∧ o2 = Ret () ∧ wk_module w1' = wk_module w2' ∧ wk_cache w1' = wk_cache w2' ∧
  bytes (rest_of (wk_module w1')) = z ∧ mod_ok (wk_module w1') ∧
  excludedPtrLens (rest_of (wk_module w1')) = [] ∧
  (∀ i g, r_globals (rest_of (wk_module w1')) !! i = Some (Some g) → getGlobals cached !! i = Some (gl_i32 g)) ∧
  forget (wk_module w1') = forget (wk_module w1) ∧
  cachedModuleMap (wk_cache w1') = cachedModuleMap (wk_cache w1) ∧
  localResetSnapshotKey w1' = localResetSnapshotKey w1.
Proof.
  intros Hgrant Hfits H1 H2 Hforget Hcache.
  rewrite (reset_run _ _ _ _ _ _ Hgrant Hfits H1), (reset_run _ _ _ _ _ _ Hgrant Hfits H2).
  assert (∀ w, resettable msg cached z t' w →
    (length (r_globals (rest_of (wk_module w))) ≤ length (getGlobals cached))%nat) as Hlen
    by (intros w Hw; unfold getGlobals, globalValues; rewrite length_fmap; apply (rs_length _ _ _ _ _ Hw)).
  split_and!; try done.
  - cbn. by rewrite (zygote_state_forget _ _ (wk_module w1)), (zygote_state_forget _ _ (wk_module w2)), Hforget by auto.
  - cbn. by rewrite Hcache.
  - destruct Hfits as (Haln & Hmax & Hpages). unfold mod_ok, size_of. cbn. split; [split; cbn|]; page_lia.
  - intros i g Hi. eapply override_values; [exact (rs_globals _ _ _ _ _ H1)|apply globalValues_i32|by apply Hlen|exact Hi].
  - exact (forget_zygote_state cached z (wk_module w1)).
Qed.
(** ** Binding *)

Abbreviation bind_ := (bindToFunction ZYGOTE_FUNC_NAME funcToString unbound).
Abbreviation cached_ := (getCachedModule unbound funcToString (bindNoCache ZYGOTE_FUNC_NAME funcToString)).

(** What [bindToFunction] has set when the work begins. *)
Definition begun (msg : Message) (m : Mod_) : Mod_ := (beginBind msg m).2.

Lemma bind_begins msg (w : Work) :
  synced w → isBound (rest_of (wk_module w)) = false →
  with_module (on_module (beginBind msg)) w = (Ret (), set_module (begun msg (wk_module w)) w) ∧
  synced (set_module (begun msg (wk_module w)) w) ∧ isBound (rest_of (begun msg (wk_module w))) = true.
Proof.
  intros Hsync Hunbound.
  assert (beginBind msg (wk_module w) = (Ret (), begun msg (wk_module w))) as Hb
    by (unfold begun, beginBind; rewrite run_bind; cbn; by rewrite Hunbound).
  assert (∀ m, isBound (rest_of m) = false → isBound (rest_of (begun msg m)) = true ∧
    r_registry (rest_of (begun msg m)) = r_registry (rest_of m)) as Hm
    by (intros m Hf; unfold begun, beginBind; rewrite run_bind; cbn; by rewrite Hf).
  destruct (Hm _ Hunbound) as [Htrue Hreg].
  destruct (run_with_module _ _ _ _ Hsync Hb Hreg) as [Hr Hs]. done.
Qed.

Lemma bind_twice msg (w : Work) :
  isBound (rest_of (wk_module w)) = true →
  (bind_ msg w).1 = Throw (RuntimeError "Cannot bind a module twice") ∧ wk_cache (bind_ msg w).2 = wk_cache w.
Proof.
  intros Hbound. unfold bindToFunction. rewrite run_bind. unfold with_module at 1 2, on_module, beginBind.
  rewrite run_bind. cbn. rewrite Hbound. cbn. by destruct w as [[[] ?] ? ?].
Qed.

(** Cloning a bound module with its memory, whatever the module was. *)
Lemma clone_run cached snaps (m : Mod_) :
  isBound (rest_of cached) = true →
  ∃ m1, r_registry (rest_of m1) = r_registry (rest_of m) ∧
    clone cached "" snaps m = (Ret (), cloned cached (memPages (lk_memory cached)) (bytes (rest_of cached)) m1).
Proof.
  intros Hcached. unfold clone. rewrite run_bind. cbn [get]. rewrite Hcached. cbn [negb].
  rewrite bool_decide_eq_true_2 by done. destruct (isBound (rest_of m)); by eexists.
Qed.

(** Binding makes the module a copy of the function's cached module, which is made
    first if there is none: the same memory, globals, files and loaded modules; a
    second binding is refused, whatever the function, and changes nothing. *)
Theorem bindToFunction_clones msg (w : Work) cached c' :
  synced w → isBound (rest_of (wk_module w)) = false → isBound (rest_of cached) = true →
  cached_ msg (wk_cache w) = (Ret cached, c') →
  let '(o, w') := bind_ msg w in
  let m := wk_module w' in
  o = Ret () ∧ cachedModuleMap (wk_cache w') = cachedModuleMap c' ∧
  bytes (rest_of m) = bytes (rest_of cached) ∧ memPages (lk_memory m) = memPages (lk_memory cached) ∧
  threadStacks (lk_memory m) = threadStacks (lk_memory cached) ∧
  r_globals (rest_of m) = r_globals (rest_of cached) ∧ filesystem (rest_of m) = filesystem (rest_of cached) ∧
  wasmEnvironment (rest_of m) = wasmEnvironment (rest_of cached) ∧
  boundUser m = boundUser cached ∧ boundFunction m = boundFunction cached ∧ lk_table m = lk_table cached ∧
  dom (dynamicModuleMap (lk_dyn m)) = dom (dynamicModuleMap (lk_dyn cached)) ∧
  ∀ msg2, (bind_ msg2 w').1 = Throw (RuntimeError "Cannot bind a module twice") ∧
          wk_cache (bind_ msg2 w').2 = wk_cache w'.
Proof.
  intros Hsync Hunbound Hcached Hget. unfold bindToFunction, doBindToFunction, doBindToFunctionInternal at 1.
  destruct (bind_begins msg w Hsync Hunbound) as (Hr & _ & Hbound).
  rewrite (run_bind_ret _ _ _ _ _ Hr). clear Hr. set (m1 := begun msg (wk_module w)) in *.
  rewrite (run_bind_ret _ _ _ cached (mkWorker c' m1 (localResetSnapshotKey w)))
    by (unfold cachedModule, with_cache, zoom; cbn [wk_cache set_module]; by rewrite Hget).
  unfold with_module, cloneFrom. cbn [wk_cache wk_module]. rewrite run_bind. cbn [get fst].
  unfold on_module. set (m2 := upd_rest _ m1).
  destruct (clone_run cached (sh_snapshots (wc_world c')) m2 Hcached) as (m3 & _ & ->).
  cbv zeta. split_and!; try done.
  - cbn. by rewrite dom_fmap_L.
  - intros msg2. by apply bind_twice.
Qed.

(** A module whose binding failed stays marked as bound, without an instance: the
    next binding is refused, and a faaslet resets the module instead of binding it. *)
Theorem failed_bind_sticks msg (w : Work) e c' :
  synced w → isBound (rest_of (wk_module w)) = false → cached_ msg (wk_cache w) = (Throw e, c') →
  let '(o, w') := bind_ msg w in
  o = Throw e ∧ isBound (rest_of (wk_module w')) = true ∧
  moduleInstance (wk_module w') = moduleInstance (wk_module w) ∧
  (∀ msg2, (bind_ msg2 w').1 = Throw (RuntimeError "Cannot bind a module twice")) ∧
  ∀ msg2, faaslet_reset ZYGOTE_FUNC_NAME funcToString unbound msg2 w' =
          reset_ msg2 (localResetSnapshotKey w) w'.
Proof.
  intros Hsync Hunbound Hget. unfold bindToFunction, doBindToFunction, doBindToFunctionInternal at 1.
  destruct (bind_begins msg w Hsync Hunbound) as (Hr & _ & Hbound).
  rewrite (run_bind_ret _ _ _ _ _ Hr). clear Hr.
  rewrite (run_bind_throw _ _ _ e (mkWorker c' (begun msg (wk_module w)) (localResetSnapshotKey w)))
    by (unfold cachedModule, with_cache, zoom; cbn [wk_cache set_module]; by rewrite Hget).
  split_and!; [done|done| | |].
  - cbn. unfold begun, beginBind. rewrite run_bind. cbn. by rewrite Hunbound.
  - intros msg2. by apply bind_twice.
  - intros msg2. unfold faaslet_reset. rewrite run_bind. cbn. by rewrite Hbound.
Qed.
End reset.

(** ** Executing *)

Section execute.
Context (ENTRY_FUNC_NAME : string) (prepareArgcArgv syncPythonFunctionFile : Message → M Mod_ unit)
  (serializeDelta : Mem → Mem → list (Z * Z) → list Z) (applyDelta : list Z → Mem → Mem).
Abbreviation execute := (executeFunction ENTRY_FUNC_NAME prepareArgcArgv syncPythonFunctionFile serializeDelta).

(** Equal outside of some regions. *)
Definition agree_outside (excluded : list (Z * Z)) (a b : Mem) : Prop :=
  ∀ i : nat, (∀ p l, (p, l) ∈ excluded → ¬ p ≤ Z.of_nat i < p + l) → a !! i = b !! i.

(** The memory kept for the delta. *)
Definition same_pre (a b : Mod_) : Prop := preExecuteMemoryData (rest_of a) = preExecuteMemoryData (rest_of b).
#[local] Instance same_pre_preorder : PreOrder same_pre.
Proof. split; [done|intros a b c; unfold same_pre; congruence]. Qed.

Lemma keeps_updateGlobal i v : keeps same_pre (updateGlobal i v).
Proof. intros m. unfold updateGlobal, update_global. run_unfold. by destruct (setGlobal _ _ _). Qed.
Lemma keeps_restoreGlobals msg : keeps same_pre (restoreGlobals msg).
Proof.
  intros m. unfold restoreGlobals. rewrite run_bind. cbn [get].
  apply keeps_for_each; [apply _|]. intros x. apply keeps_updateGlobal.
Qed.
Lemma keeps_callFunction f args :
  keeps same_pre (executeWasmFunction f args) → keeps same_pre (callFunction f args).
Proof.
  intros Hf m. specialize (Hf m). unfold callFunction.
  by destruct (executeWasmFunction f args m) as [[r|[]] m'].
Qed.
Lemma keeps_instanceExport_pre i n : keeps same_pre (instanceExport i n : M Mod_ _).
Proof. intros m. by destruct i. Qed.
Lemma keeps_chooseFunction msg :
  (∀ msg, keeps same_pre (prepareArgcArgv msg)) →
  keeps same_pre (chooseFunction ENTRY_FUNC_NAME prepareArgcArgv msg).
Proof.
  intros Hprep. unfold chooseFunction. destruct (0 <? funcptr msg).
  - apply (keeps_bind same_pre).
    + intros m. unfold getFunctionFromPtr. rewrite run_bind. cbn [get]. by destruct (_ !! _) as [[]|].
    + intros f. apply (keeps_bind same_pre); [apply (keeps_lift same_pre)|]. intros args. done.
  - apply (keeps_bind same_pre); [done|]. intros []. apply (keeps_get_bind same_pre). intros m.
    rewrite run_bind. unfold getFunction. rewrite run_bind.
    pose proof (keeps_instanceExport_pre (moduleInstance m) ENTRY_FUNC_NAME m) as Hk.
    by destruct (instanceExport _ _ m) as [[[]|] m1].
Qed.

(** A call that returns gives a memory delta exactly if it returned zero and the
    message asked for one; applied to the memory in which the call began it gives the
    memory the call left, outside of the excluded regions, and the globals with it are
    those the call left. *)
Theorem executeFunction_delta msg (m m' : Mod_) r :
  (∀ pre post excl, agree_outside excl (applyDelta (serializeDelta pre post excl) pre) post) →
  (∀ msg, keeps same_pre (prepareArgcArgv msg)) →
  (∀ f args, keeps same_pre (executeWasmFunction f args)) →
  execute msg m = (Ret r, m') →
  isBound (rest_of m) = true ∧
  match cr_delta r with
  | None => cr_returnvalue r ≠ 0 ∨ isoutputmemorydelta msg = false
  | Some (delta, globals) =>
      cr_returnvalue r = 0 ∧ isoutputmemorydelta msg = true ∧ globals = getGlobals m' ∧
      ∃ m1, syncPythonFunctionFile msg m = (Ret (), m1) ∧
        agree_outside (excludedPtrLens (rest_of m')) (applyDelta delta (bytes (rest_of m1))) (bytes (rest_of m'))
  end.
Proof.
  intros Hdelta Hprep Hexec. unfold executeFunction. rewrite run_bind. cbn [get].
  destruct (isBound (rest_of m)); [|done]. cbn [negb].
  intros ([] & m1 & Hsync & (mm & m1' & Hg & Hrun)%run_bind_inv)%run_bind_inv. injection Hg as <- <-.
  apply run_bind_inv in Hrun as ([] & m2 & Hpre & ([f args] & m3 & Hchoose & ([] & m4 & Hglob
    & (rv & m5 & Hcall & Hrun)%run_bind_inv)%run_bind_inv)%run_bind_inv).
  split; [done|].
  destruct (Z.eqb_spec rv 0) as [->|Hne]; cbn [andb] in Hrun; [|injection Hrun as <- <-; by left].
  destruct (isoutputmemorydelta msg) eqn:Hout; [|injection Hrun as <- <-; by right].
  unfold put in Hrun. rewrite run_bind in Hrun. cbn -[forallb] in Hrun.
  destruct (forallb _ _); [|done].
  injection Hrun as <- <-. injection Hpre as <-. cbn. split_and!; [done..|].
  exists m1. split; [done|].
  assert (preExecuteMemoryData (rest_of m5) = bytes (rest_of m1)) as <-; [|apply Hdelta].
  pose proof (keeps_chooseFunction msg Hprep (upd_rest (set_preExecute (bytes (rest_of m1))) m1)) as H3.
  rewrite Hchoose in H3.
  assert (same_pre m3 m4) as H4.
  { destruct (bool_decide _); [by injection Hglob as <-|].
    pose proof (keeps_restoreGlobals msg m3) as H4. by rewrite Hglob in H4. }
  pose proof (keeps_callFunction f args (Hexec f args) m4) as H5. rewrite Hcall in H5.
  unfold same_pre in *. cbn in H3, H5. congruence.
Qed.
End execute.
End life_properties.

(** * Concrete modules *)

(** A store that keeps values and snapshots by key, and files that are made once. *)
#[export] Instance demo_store : StateStore :=
  {| States := gmap string (list Z);
     getStateSize := λ _ k t, (Ret (Z.of_nat (length (default [] (t !! k)))), t);
     getState := λ _ k _ t, (Ret (default [] (t !! k)), t);
     putState := λ _ k v t, (Ret (), <[k := v]> t);
     Snapshots := gmap string Mem; snapshotExists := λ k t, bool_decide (is_Some (t !! k));
     registerSnapshot := λ k d t, <[k := d]> t;
     getSnapshot := λ k t, match t !! k with Some d => Ret d | None => Throw (RuntimeError "no snapshot") end |}.
#[export] Instance demo_files : ModuleFiles (list string) := {| prepareFilesystem := put ["stdin"] |}.

Abbreviation DemoRest := (Rest CacheState (list string) unit).
Definition demo_link_imports (ir : IRModule unit)
    (r : Import unit → M (Linker DemoRest) (option Object)) : M (Linker DemoRest) (bool * list Object) :=
  os ← map_each (ir_imports ir) r; mret (forallb (λ o, bool_decide (is_Some o)) os, omap (λ o, o) os).
(** The function called "f" writes a byte of the memory. *)
#[export] Instance demo_engine : @WasmEngine demo_wavm demo_link CacheState (list string) unit :=
  {| remapToClonedCompartment := λ i, i; pagesWithoutMemory := λ _ _, 0; isA := λ _ _, true;
     linkModule := demo_link_imports;
     instantiateModule := λ _ _ n, mret n;
     executeWasmFunction := λ f args, modify (upd_rest (λ r, set_bytes (<[0%nat := 7]> (bytes r)) r)) ;; mret 0;
     executeInContext := λ _ _ _, mret 0;
     defaultMemoryOf := λ _, []; defaultTableOf := λ _, []; globalsOf := λ _, [demo_i32 4];
     globalI32 := λ _ _, 0; firstMutableGlobal := λ _, 0; paramsOf := λ _, 0%nat;
     engine_setGlobal := demo_setGlobal |}.

Definition demo_rest (bound : bool) (b : Mem) (g : list (option Global)) : DemoRest :=
  mkRest demo_cache_main bound b g ["stdin"; "stdout"] () [] [(0, 2)] [None] (0, 0) [].
Definition demo_mod (bound : bool) (pages : Z) (b : Mem) (g : list (option Global)) : Linker DemoRest :=
  mkLinker (demo_rest bound b g) (set_memPages pages demo_module) [] 0 "u" "f" None None
    (Some ("main" : @Inst demo_wavm demo_link)) (mkDyn ∅ ∅ 0) (mkGOT ∅ ∅ ∅).
Definition demo_zygote : Mem := replicate (Z.to_nat 65536) 3.
Definition demo_name (m : Message) (b : bool) : string := user m +:+ "/" +:+ function m.
Definition demo_unbound : Linker DemoRest := demo_mod false 0 [] [].
Definition demo_cached : Linker DemoRest := demo_mod true 1 demo_zygote [demo_i32 4; None].
Definition demo_worker (m : Linker DemoRest) : Worker :=
  mkWorker (mkWAVMModuleCache (mkShared demo_cache_main {["$f" := demo_zygote]} ∅) {["u/f" := demo_cached]}) m "".
Definition demo_call_f : Message := demo_message "u" "f" 1 7 [].

Lemma demo_grants : @runtime_grants demo_env.
Proof. split; intros p d; by do 2 eexists. Qed.
Lemma demo_zygote_length : Z.of_nat (length demo_zygote) = 65536.
Proof. unfold demo_zygote. by rewrite length_replicate. Qed.
Lemma demo_fits : @snapshot_fits demo_env demo_zygote.
Proof. unfold snapshot_fits. rewrite demo_zygote_length. done. Qed.

Lemma demo_resettable pages b g :
  0 ≤ pages < 65536 → length g = 2%nat → all_restorable [4; 0] g → length b = Z.to_nat (pages * 65536) →
  resettable demo_name demo_call_f demo_cached demo_zygote {["$f" := demo_zygote]}
    (demo_worker (demo_mod true pages b g)).
Proof.
  intros Hp Hg Hr Hb. split; try done.
  - unfold mod_ok, wf_module, size_of, WASM_BYTES_PER_PAGE, UINT32_MAX. cbn. rewrite Hb. lia.
  - cbn. by rewrite Hg.
  - exists 65536, {["$f" := demo_zygote]}. split; [done|]. cbn -[demo_zygote].
    change (zygoteKey _) with "$f". rewrite lookup_singleton_eq. cbn -[demo_zygote].
    by rewrite demo_zygote_length.
Qed.

(** Two modules after different calls: one grew its memory, both changed a global. *)
Lemma reset_erases_witness :
  let w1 := demo_worker (demo_mod true 2 (replicate (Z.to_nat (2 * 65536)) 7) [demo_i32 5; None]) in
  let w2 := demo_worker (demo_mod true 1 (replicate (Z.to_nat (1 * 65536)) 9) [demo_i32 6; None]) in
  forget (wk_module w1) = forget (wk_module w2) ∧
  (reset (E := demo_env) "zygote" demo_name demo_unbound demo_call_f "a" w1).1 = Ret () ∧
  wk_module (reset (E := demo_env) "zygote" demo_name demo_unbound demo_call_f "a" w1).2 =
  wk_module (reset (E := demo_env) "zygote" demo_name demo_unbound demo_call_f "b" w2).2.
Proof.
  intros w1 w2. split; [reflexivity|].
  assert (resettable demo_name demo_call_f demo_cached demo_zygote {["$f" := demo_zygote]} w1) as H1
    by (apply demo_resettable; [lia|reflexivity|by repeat constructor|by rewrite length_replicate]).
  assert (resettable demo_name demo_call_f demo_cached demo_zygote {["$f" := demo_zygote]} w2) as H2
    by (apply demo_resettable; [lia|reflexivity|by repeat constructor|by rewrite length_replicate]).
  pose proof (reset_erases (EL := demo_laws) "zygote" demo_name demo_unbound demo_call_f "a" "b" demo_cached demo_zygote
    {["$f" := demo_zygote]} w1 w2 demo_grants demo_fits H1 H2 eq_refl eq_refl) as H.
  destruct (reset _ _ _ _ "a" w1) as [o1 w1'], (reset _ _ _ _ "b" w2) as [o2 w2'].
  destruct H as (Ho1 & _ & Hm & _). split; [exact Ho1|exact Hm].
Defined.

Lemma bindToFunction_clones_witness :
  let w := demo_worker demo_unbound in
  let w' := (bindToFunction (E := demo_env) "zygote" demo_name demo_unbound demo_call_f w).2 in
  bytes (lk_registry (wk_module w')) = demo_zygote ∧
  (bindToFunction (E := demo_env) "zygote" demo_name demo_unbound demo_call_f w').1 =
    Throw (RuntimeError "Cannot bind a module twice").
Proof.
  intros w w'.
  pose proof (bindToFunction_clones (E := demo_env) "zygote" demo_name demo_unbound demo_call_f w demo_cached (wk_cache w)
    eq_refl eq_refl eq_refl (getCachedModule_hit _ demo_name _ demo_call_f demo_cached (wk_cache w) eq_refl)) as H.
  subst w'. destruct (bindToFunction _ _ _ _ w) as [o w'].
  destruct H as (_ & _ & Hb & _ & _ & _ & _ & _ & _ & _ & _ & _ & Htwice). split; [exact Hb|].
  exact (proj1 (Htwice demo_call_f)).
Defined.

(** A function that was not uploaded. *)
Definition demo_missing : Message := demo_message "u" "none" 1 7 [].
Definition thrown {A} (o : outcome A) : option exn := match o with Throw e => Some e | Ret _ => None end.
Lemma thrown_inv {A} (o : outcome A) e : thrown o = Some e → o = Throw e.
Proof. by destruct o as [a|e']; cbn; [|intros [= ->]]. Qed.
Example demo_missing_fails :
  thrown (getCachedModule demo_unbound demo_name (bindNoCache (E := demo_env) "zygote" demo_name) demo_missing
    (wk_cache (demo_worker demo_unbound))).1 = Some (RuntimeError "Key cannot be statted.").
Proof. vm_compute. reflexivity. Qed.

Lemma failed_bind_sticks_witness :
  let w := demo_worker demo_unbound in
  let w' := (bindToFunction (E := demo_env) "zygote" demo_name demo_unbound demo_missing w).2 in
  isBound (lk_registry (wk_module w')) = true ∧
  (bindToFunction (E := demo_env) "zygote" demo_name demo_unbound demo_call_f w').1 =
    Throw (RuntimeError "Cannot bind a module twice").
Proof.
  intros w w'.
  pose proof (failed_bind_sticks (E := demo_env) "zygote" demo_name demo_unbound demo_missing w _ _
    eq_refl eq_refl (run_fst _ _ _ (thrown_inv _ _ demo_missing_fails))) as H.
  subst w'. destruct (bindToFunction _ _ _ demo_missing w) as [o w'].
  destruct H as (_ & Hb & _ & Htwice & _). split; [exact Hb|exact (Htwice demo_call_f)].
Defined.

(** A call that changes one byte, and a difference that is the whole memory. *)
Definition demo_delta_call : Message :=
  {| id := 1; appid := 7; groupid := 0; groupidx := 0; user := "u"; function := "f"; funcptr := 0;
     inputdata := []; outputdata := []; returnvalue := 0;
     cmdline := ""; pythonuser := ""; pythonfunction := ""; pythonentry := ""; ispython := false;
     isasync := false; isstorage := true; forbidndp := false; executeslocally := false;
     recordexecgraph := false; directresulthost := ""; snapshotkey := ""; zygotedelta := [];
     isoutputmemorydelta := true; wasmglobals := [8]; extraarguments := []; mpi := no_mpi |}.
Abbreviation demo_execute_delta :=
  (executeFunction "f" (λ _, mret ()) (λ _, mret ()) (λ _ post _, post) demo_delta_call).
Definition demo_delta_mod : Linker DemoRest := demo_mod true 1 [1; 2; 3] [demo_i32 5; demo_i32 0].
Example demo_delta_result :
  (demo_execute_delta demo_delta_mod).1 = Ret (mkResult 0 (Some ([7; 2; 3], [8; 0]))).
Proof. vm_compute. reflexivity. Qed.

Lemma executeFunction_delta_witness :
  (demo_execute_delta demo_delta_mod).1 = Ret (mkResult 0 (Some ([7; 2; 3], [8; 0]))) ∧
  isBound (lk_registry demo_delta_mod) = true ∧
  [8; 0] = getGlobals (demo_execute_delta demo_delta_mod).2.
Proof.
  destruct (executeFunction_delta "f" (λ _, mret ()) (λ _, mret ()) (λ _ post _, post) (λ d _, d) demo_delta_call
    demo_delta_mod (demo_execute_delta demo_delta_mod).2 (mkResult 0 (Some ([7; 2; 3], [8; 0]))))
    as (Hb & _ & _ & Hg & _).
  - intros pre post excl i _. reflexivity.
  - intros msg m0. reflexivity.
  - intros f args m0. reflexivity.
  - exact (run_fst _ _ _ demo_delta_result).
  - split; [exact demo_delta_result|]. split; [exact Hb|exact Hg].
Defined.
