(* ===== verification/Tasks.v ===== *)
(** Tasks and snapshots of a module (src/wasm/WasmModule.cpp): the task of a message,
    as a function or on the stack of a thread, with the delta it starts from and the
    output it is answered with; taking a snapshot of the memory and restoring it, in
    both modes of the memory arena. *)

From S2P Require Import Prelude Text WasmBytes Uffd WasmMemory Globals Level S3 Host FileLoader ModuleCache DynLink Chaining Lifecycle.

(** * State *)

(** The parts of a [BatchExecuteRequest] that executing one of its messages reads. *)
Record TaskRequest := mkTaskRequest { rq_threads : bool; rq_subtype : Z; rq_contextdata : list Z }.
Definition PTHREAD : Z := 1.
Definition OPENMP : Z := 2.

(** The captured output of a module. *)
Class CapturedOutput (Cap : Type) := {
  getCapturedStdout : M Cap string;
  clearCapturedStdout : M Cap unit }.

Record TaskState `{Wavm} `{!LinkEnv} `{StateStore} {Reg FS Vars Cap : Type} := mkTask {
  tk_module : Linker (Rest Reg FS Vars); tk_arena : Arena; tk_capture : Cap;
  tk_level : option Level;                  (** the thread's current level *)
  tk_snapshots : Snapshots;
  tk_ignored : gmap string (gmap Z Z)       (** regions left out of each snapshot's diffs *) }.
Arguments TaskState {_ _ _} Reg FS Vars Cap.
Arguments mkTask {_ _ _ _ _ _ _} _ _ _ _ _ _.


Section tasks.
Context `{E : MemoryEnv} `{W : Wavm} `{L : !LinkEnv} {Reg FS Vars Cap : Type} `{!Registry Reg} `{!ModuleFiles FS}
  `{SS : StateStore} `{!WasmEngine Reg FS Vars} `{!CapturedOutput Cap} (kernel : list kcall → kcall → Z).
Abbreviation Module_ := (Linker (Rest Reg FS Vars)).
Abbreviation Task := (TaskState Reg FS Vars Cap).
Abbreviation TM := (M Task).

Definition set_task_module (m : Module_) (t : Task) : Task :=
  mkTask m (tk_arena t) (tk_capture t) (tk_level t) (tk_snapshots t) (tk_ignored t).
Definition on_module {A} (x : M Module_ A) : TM A := zoom tk_module set_task_module x.
Definition on_arena {A} (x : M Arena A) : TM A := zoom tk_arena
  (λ a t, mkTask (tk_module t) a (tk_capture t) (tk_level t) (tk_snapshots t) (tk_ignored t)) x.
Definition on_capture {A} (x : M Cap A) : TM A := zoom tk_capture
  (λ c t, mkTask (tk_module t) (tk_arena t) c (tk_level t) (tk_snapshots t) (tk_ignored t)) x.
Definition on_level {A} (x : M (option Level) A) : TM A := zoom tk_level
  (λ l t, mkTask (tk_module t) (tk_arena t) (tk_capture t) l (tk_snapshots t) (tk_ignored t)) x.
Definition set_snapshots (s : Snapshots) (t : Task) : Task :=
  mkTask (tk_module t) (tk_arena t) (tk_capture t) (tk_level t) s (tk_ignored t).
Definition set_ignored (i : gmap string (gmap Z Z)) (t : Task) : Task :=
  mkTask (tk_module t) (tk_arena t) (tk_capture t) (tk_level t) (tk_snapshots t) i.

(** * Snapshots *)

(** [snapshot]: the whole memory, under a new key. *)
Definition snapshot (gid : Z) : TM string :=
  t ← get;
  let m := tk_module t in
  let snapKey := boundUser m +:+ "_" +:+ boundFunction m +:+ "_" +:+ to_string gid in
  put (set_snapshots (registerSnapshot snapKey (bytes (lk_registry m)) (tk_snapshots t)) t) ;;
  mret snapKey.

(** Reading the file of the snapshot into the memory: what the kernel's read number [k]
    gives at a position for a number of bytes, a negative number being an error.  A read
    of no bytes is tried again; [fuel] bounds the number of reads. *)
Context (read : nat → nat → nat → Z).

Definition writeMemoryAt (pos : nat) (bs : list Z) : M Module_ unit :=
  m ← get;
  match mem_write (bytes (lk_registry m)) (Z.of_nat pos) bs with
  | Ret b => put (upd_rest (set_bytes b) m)
  | Throw _ => throw (Undefined "write past the end of the memory")
  end.

Fixpoint readSnapshot (fuel k curPos : nat) (data : list Z) : M Module_ unit :=
  let left := (length data - curPos)%nat in
  match left with
  | O => mret ()
  | _ =>
      match fuel with
      | O => throw (Blocked "read")
      | S fuel' =>
          let bytes := read k curPos left in
          if bytes <? 0 then
            if bytes =? - EINTR then readSnapshot fuel' (S k) curPos data
            else throw (SystemError "snapshot fd read")
          else
            writeMemoryAt curPos (take (Z.to_nat bytes) (drop curPos data)) ;;
            readSnapshot fuel' (S k) (curPos + Z.to_nat bytes) data
      end
  end.

(** [restore]; the pages of a range that are discarded read as zeros. *)
Definition restore (memoryBase : Z) (fuel : nat) (snapshotKey : string) : TM unit :=
  t ← get;
  if negb (isBound (lk_registry (tk_module t)))
  then throw (RuntimeError "Cannot restore unbound wasm module")
  else
    data ← lift (getSnapshot snapshotKey (tk_snapshots t));
    let size := Z.of_nat (length data) in
    on_module (on_linear (setMemorySize size)) ;;
    match vmArenaMode with
    | ArenaDefault => on_module (writeMemory data)
    | ArenaUffd =>
        on_arena (modifyRange memoryBase (restoreRange kernel size)) ;;
        on_module (modify (upd_rest (λ r, set_bytes (replicate (length (bytes r)) 0) r))) ;;
        on_module (readSnapshot fuel 0 0 data)
    end.

(** [ignoreThreadStacksInSnapshot]; regions are kept by offset. *)
Definition ignoreThreadStacksInSnapshot (snapKey : string) : TM unit :=
  t ← get;
  _ ← lift (getSnapshot snapKey (tk_snapshots t));
  '(start, size) ← lift (threadStackRegion (lk_memory (tk_module t)));
  put (set_ignored (<[snapKey := <[start := size]> (default ∅ (tk_ignored t !! snapKey))]> (tk_ignored t)) t).

(** * Tasks *)

(** faabric's application of a delta, given the callback that makes room, and its
    request of the delta of a near-data call from the host that waits for it. *)
Context (applyDelta : list Z → (Z → M Module_ unit) → M Module_ unit)
  (requestNdpDelta : string → Z → outcome (list Z)) (captureStdout : bool).
(** What executing a function depends on. *)
Context (ENTRY_FUNC_NAME : string) (prepareArgcArgv syncPythonFunctionFile : Message → M Module_ unit)
  (serializeDelta : Mem → Mem → list (Z * Z) → list Z) (STACK_SIZE : Z) (slots : Z).
(** Whether the build leaves assertions out. *)
Context (ndebug : bool).

Definition deltaRestore (delta : list Z) : M Module_ unit :=
  applyDelta delta (λ newSize, on_linear (deltaRestoreSize newSize)).
Definition zygoteDeltaRestore (zygoteDelta : list Z) : M Module_ unit := deltaRestore zygoteDelta.

(** The message with the result of its function, given the output that the call set in it. *)
Definition with_result (r : CallResult) (output : list Z) (m : Message) : Message :=
  let out := match cr_delta r with Some (d, _) => d | None => output end in
  let globals := match cr_delta r with Some (_, g) => g | None => wasmglobals m end in
  {| id := id m; appid := appid m; groupid := groupid m; groupidx := groupidx m;
     user := user m; function := function m; funcptr := funcptr m;
     inputdata := inputdata m; outputdata := out; returnvalue := cr_returnvalue r;
     cmdline := cmdline m; pythonuser := pythonuser m; pythonfunction := pythonfunction m;
     pythonentry := pythonentry m; ispython := ispython m;
     isasync := isasync m; isstorage := isstorage m; forbidndp := forbidndp m;
     executeslocally := executeslocally m; recordexecgraph := recordexecgraph m;
     directresulthost := directresulthost m; snapshotkey := snapshotkey m;
     zygotedelta := zygotedelta m; isoutputmemorydelta := isoutputmemorydelta m;
     wasmglobals := globals; extraarguments := extraarguments m; mpi := mpi m |}.

(** The memory a near-data call starts from. *)
Definition restoreForCall (msg : Message) : TM unit :=
  match zygotedelta msg with
  | _ :: _ => on_module (zygoteDeltaRestore (zygotedelta msg))
  | [] =>
      if isstorage msg then
        delta ← lift (requestNdpDelta (directresulthost msg) (id msg));
        on_module (zygoteDeltaRestore delta)
      else mret ()
  end.

Definition executeThread (threadPoolIdx : Z) (msg : Message) (req : TaskRequest) (appidx : Z) : TM Z :=
  stackTop ← on_module (on_linear (threadStackTop ndebug threadPoolIdx));
  if rq_subtype req =? PTHREAD then on_module (executePthread STACK_SIZE stackTop msg)
  else if rq_subtype req =? OPENMP then
    on_level (setCurrentOpenMPLevel (rq_contextdata req)) ;;
    ompLevel ← on_level (getCurrentOpenMPLevel slots);
    on_module (executeOMPThread STACK_SIZE (Z.to_nat threadPoolIdx) stackTop appidx
      (nSharedVarOffsets ompLevel) (default [] (sharedVarOffsets ompLevel)) msg)
  else throw (RuntimeError "Unrecognised thread subtype").

(** The output of a call that failed, and the captured output in front. *)
Definition failureOutput (returnValue : Z) (msg : Message) : Message :=
  if negb (returnValue =? 0) && negb (isstorage msg)
  then set_outputdata (bytes_of_string ("Call failed (return value=" +:+ to_string returnValue +:+ ")")) msg
  else msg.
Definition addCapturedStdout (msg : Message) : TM Message :=
  if captureStdout && negb (isstorage msg) then
    moduleStdout ← on_capture getCapturedStdout;
    if bool_decide (moduleStdout = "") then mret msg
    else
      on_capture clearCapturedStdout ;;
      mret (set_outputdata (bytes_of_string moduleStdout ++ [10] ++ outputdata msg) msg)
  else mret msg.

(** The executing message is the one whose output the module's host calls set. *)
Definition started (msg : Message) : Module_ → Module_ :=
  upd_rest (set_messageOutput (outputdata msg)).

(** [executeTask]: the return value and the message with what was set in it. *)
Definition executeTask (threadPoolIdx : Z) (msg : Message) (req : TaskRequest) (appidx : Z)
    : TM (Z * Message) :=
  t ← get;
  let m := tk_module t in
  if negb (isBound (lk_registry m))
  then throw (RuntimeError "WasmModule must be bound before executing anything")
  else
    assertion ndebug "boundUser == msg.user()" (bool_decide (boundUser m = user msg)) ;;
    assertion ndebug "boundFunction == msg.function()" (bool_decide (boundFunction m = function msg)) ;;
    restoreForCall msg ;;
    (if bool_decide (snapshotkey msg = "") then mret () else ignoreThreadStacksInSnapshot (snapshotkey msg)) ;;
    on_module (modify (started msg)) ;;
    r ← (if rq_threads req : bool
         then v ← executeThread threadPoolIdx msg req appidx; mret (mkResult v None)
         else on_module (executeFunction ENTRY_FUNC_NAME prepareArgcArgv syncPythonFunctionFile serializeDelta msg));
    t' ← get;
    let output := messageOutput (lk_registry (tk_module t')) in
    msg' ← addCapturedStdout (failureOutput (cr_returnvalue r) (with_result r output msg));
    mret (cr_returnvalue r, msg').
End tasks.

(** * Properties *)

(** ** The stacks of threads *)

Section stacks.
Context `{E : MemoryEnv} {EL : MemoryEnvLaws E}.

(** The kernel protects guard regions, and the memory has addresses. *)
Definition guards_granted : Prop :=
  (∀ a, ∃ n, memory_ref a = Ret n) ∧ ∀ a n p, sys_mprotect a n p = 0.
Definition memory_limit : Z := Z.min UINT32_MAX (max_memory_pages * WASM_BYTES_PER_PAGE).

Lemma createMemoryGuardRegion_granted off m :
  guards_granted → createMemoryGuardRegion off m = (Ret (u32 (off + GUARD_REGION_SIZE)), guarded off m).
Proof.
  intros [Href Hprot]. unfold createMemoryGuardRegion, guarded. destruct (Href off) as [n Hn].
  rewrite run_bind. unfold lift. rewrite Hn. destruct vmArenaMode; [|done].
  by rewrite Hprot.
Qed.

Lemma addThreadStack_granted m :
  wf_module m → runtime_grants → guards_granted → size_of m + stack_block ≤ memory_limit →
  ∃ m', addThreadStack m = (Ret (), m').
Proof.
  intros Hwf [Hgrow _] Hguards Hroom. pose proof stack_constants as (HT & HTm & HG).
  unfold addThreadStack, stack_block, memory_limit in *.
  rewrite (wrapU_id 32 (THREAD_STACK_SIZE + _)) by page_lia.
  rewrite run_bind, growMemory_granted by (done || page_lia). cbn [modify].
  rewrite run_bind. cbn [modify]. rewrite run_bind, createMemoryGuardRegion_granted by done.
  rewrite run_bind, createMemoryGuardRegion_granted by done. by eexists.
Qed.

Lemma provisionStacks_run fuel idx m :
  let missing := Z.max 0 (idx + 1 - Z.of_nat (length (threadStacks m))) in
  wf_module m → runtime_grants → guards_granted →
  missing ≤ Z.of_nat fuel → size_of m + missing * stack_block ≤ memory_limit →
  ∃ m' ss, provisionStacks fuel idx m = (Ret (), m') ∧ threadStacks m' = threadStacks m ++ ss ∧
    Z.of_nat (length ss) = missing ∧ size_of m' = size_of m + missing * stack_block.
Proof.
  assert (0 < stack_block) as Hpos
    by (pose proof stack_constants as (HT & _ & HG); unfold stack_block; lia).
  revert m. induction fuel as [|fuel IH]; intros m missing Hwf Hgrant Hguards Hfuel Hroom;
    cbn [provisionStacks]; rewrite run_bind; cbn [get];
    (destruct (Z.leb_spec (Z.of_nat (length (threadStacks m))) idx);
      [|exists m, []; rewrite app_nil_r; cbn; split_and!; (done || lia)]).
  { lia. }
  destruct (addThreadStack_granted m) as [m1 Hrun]; [done..|nia|].
  rewrite (run_bind_ret _ _ _ _ _ Hrun).
  apply addThreadStack_run in Hrun as (Hss & _ & Hsz & Hwf1 & _); [|done].
  destruct (IH m1) as (m' & ss & Hp & Hs & Hl & Hsize); [done..| | |]; rewrite ?Hss, ?length_app in *; cbn in *.
  - lia.
  - rewrite Hsz. nia.
  - exists m', ([size_of m + GUARD_REGION_SIZE + THREAD_STACK_SIZE - 16] ++ ss).
    rewrite Hs, <- app_assoc. split_and!; [done|done|cbn; lia|nia].
Qed.

(** The loop that makes stacks for the threads of a pool ends, after as many rounds
    as stacks are missing: the thread is given the stack of its number, the stacks that
    were there stay, and the memory grows by exactly the new ones. *)
Theorem threadStackTop_terminates ndebug idx m :
  let missing := Z.max 0 (idx + 1 - Z.of_nat (length (threadStacks m))) in
  wf_module m → runtime_grants → guards_granted → threadStacks m ≠ [] → 0 ≤ idx →
  size_of m + missing * stack_block ≤ memory_limit →
  ∃ s m' ss, threadStackTop ndebug idx m = (Ret s, m') ∧ threadStacks m' !! Z.to_nat idx = Some s ∧
    threadStacks m' = threadStacks m ++ ss ∧ Z.of_nat (length ss) = missing ∧
    size_of m' = size_of m + missing * stack_block.
Proof.
  intros missing Hwf Hgrant Hguards Hne Hidx Hroom.
  destruct (provisionStacks_run (S (Z.to_nat idx)) idx m) as (m' & ss & Hp & Hs & Hl & Hsize); [done..|lia|done|].
  destruct (lookup_lt_is_Some_2 (threadStacks m') (Z.to_nat idx)) as [s Hlk];
    [rewrite Hs, length_app; lia|].
  exists s, m', ss. split_and!; try done.
  unfold threadStackTop. rewrite run_bind. cbn [get]. rewrite bool_decide_eq_false_2 by done.
  rewrite run_bind. unfold assertion at 1. rewrite orb_true_r. rewrite (run_bind_ret _ _ _ _ _ Hp), run_bind. cbn [get]. by rewrite Hlk.
Qed.
End stacks.

(** ** Snapshots *)

(** What is kept under a key is found under it. *)
Class SnapshotLaws (SS : StateStore) : Prop := {
  snapshot_law k d s : getSnapshot k (registerSnapshot k d s) = Ret d }.

Section snapshots.
Context `{E : MemoryEnv} {EL : MemoryEnvLaws E} `{W : Wavm} {L : LinkEnv} {Reg FS Vars Cap : Type}
  {SS : StateStore} {SL : SnapshotLaws SS} (kernel : list kcall → kcall → Z) (read : nat → nat → nat → Z).
Abbreviation Mod_ := (Linker (Rest Reg FS Vars)).
Abbreviation Tsk := (TaskState Reg FS Vars Cap).
Abbreviation rest_of := (lk_registry (Reg := Rest Reg FS Vars)).

(** Reads give at least a byte; only the first [e] of them can be interrupted. *)
Definition progressing (e : nat) : Prop := ∀ k pos n, (0 < n)%nat →
  (read k pos n = - EINTR ∧ (k < e)%nat) ∨ 1 ≤ read k pos n ≤ Z.of_nat n.

Lemma set_bytes_id (m : Mod_) : upd_rest (set_bytes (bytes (rest_of m))) m = m.
Proof. by destruct m as [[] ? ? ? ? ? ? ? ? ? ?]. Qed.

Lemma writeMemoryAt_run pos bs (m : Mod_) :
  (pos + length bs ≤ length (bytes (rest_of m)))%nat →
  let b := bytes (rest_of m) in
  writeMemoryAt pos bs m = (Ret (), upd_rest (set_bytes (take pos b ++ bs ++ drop (pos + length bs) b)) m).
Proof.
  intros Hl b. unfold writeMemoryAt. rewrite run_bind. cbn [get].
  rewrite mem_write_ret by (unfold mem_size; lia). by rewrite Nat2Z.id.
Qed.

Lemma readSnapshot_run e fuel k pos data (m : Mod_) :
  progressing e → (pos ≤ length data)%nat → length (bytes (rest_of m)) = length data →
  take pos (bytes (rest_of m)) = take pos data → (length data - pos + (e - k) ≤ fuel)%nat →
  readSnapshot read fuel k pos data m = (Ret (), upd_rest (set_bytes data) m).
Proof.
  intros Hprog. revert k pos m. induction fuel as [|fuel IH]; intros k pos m Hpos Hlen Htake Hfuel.
  all: cbn [readSnapshot]; destruct (length data - pos)%nat as [|left] eqn:Hleft;
    [assert (bytes (rest_of m) = data) as Hb
       by (rewrite !take_ge in Htake by lia; done);
     rewrite <- Hb, set_bytes_id; done|].
  { lia. }
  rewrite <- Hleft in *. destruct (Hprog k pos (length data - pos)%nat ltac:(lia)) as [[-> Hk]|Hread].
  { cbn. apply IH; [done..|lia]. }
  set (r := read k pos (length data - pos)) in *. destruct (Z.ltb_spec r 0); [lia|].
  set (piece := take (Z.to_nat r) (drop pos data)).
  assert (length piece = Z.to_nat r) as Hp by (unfold piece; rewrite length_take, length_drop; lia).
  rewrite (run_bind_ret _ _ _ _ _ (writeMemoryAt_run pos piece m ltac:(lia))).
  rewrite IH; [done|lia| | |lia]; cbn.
  - rewrite !length_app, length_take, length_drop. lia.
  - rewrite Htake, app_assoc, take_app_le by (rewrite length_app, length_take; lia).
    unfold piece. rewrite take_take_drop. rewrite take_take. f_equal. lia.
Qed.

(** A file that ended early, whose reads give no bytes, is read for ever. *)
Lemma readSnapshot_spins fuel k pos data (m : Mod_) :
  (∀ k pos n, read k pos n = 0) → (pos < length data)%nat →
  (pos ≤ length (bytes (rest_of m)))%nat →
  (readSnapshot read fuel k pos data m).1 = Throw (Blocked "read").
Proof.
  intros Hread Hpos. revert k m. induction fuel as [|fuel IH]; intros k m Hlen; cbn [readSnapshot];
    destruct (length data - pos)%nat as [|left] eqn:Hleft; (lia || cbn [readSnapshot]); [done|].
  rewrite Hread. cbn [Z.ltb Z.compare Z.to_nat]. rewrite take_0, Nat.add_0_r.
  rewrite (run_bind_ret _ _ _ _ _ (writeMemoryAt_run pos [] m ltac:(cbn; lia))).
  apply IH. cbn. rewrite length_app, length_take, length_drop. lia.
Qed.

(** The module with the size of a memory. *)
Definition sized (n : Z) (m : Mod_) : Mod_ :=
  upd_rest (λ r, set_bytes (resize (Z.to_nat n) 0 (bytes r)) r)
    (set_memory (set_memPages (n / WASM_BYTES_PER_PAGE) (lk_memory m)) m).

Lemma setMemorySize_granted z lm :
  runtime_grants → snapshot_fits z → wf_module lm →
  setMemorySize (Z.of_nat (length z)) lm =
    (Ret (), set_memPages (Z.of_nat (length z) / WASM_BYTES_PER_PAGE) lm).
Proof.
  intros [Hgrow Hshrink] (Haln & Hmax & Hpages) Hwf. unfold setMemorySize. rewrite run_bind. cbn [get].
  rewrite brk_size by done. set (n := Z.of_nat (length z)) in *.
  assert (n / WASM_BYTES_PER_PAGE * WASM_BYTES_PER_PAGE = n) as Hdiv by page_lia.
  destruct (Z.ltb_spec (size_of lm) n); [|destruct (Z.ltb_spec n (size_of lm))].
  - rewrite run_bind, growMemory_granted by (done || page_lia). cbn. do 2 f_equal. page_lia.
  - rewrite run_bind, shrinkMemory_granted by (done || page_lia). cbn. do 2 f_equal. page_lia.
  - assert (size_of lm = n) as <- by lia. unfold size_of. rewrite Z_div_mult_full by done.
    by rewrite set_memPages_id.
Qed.

Lemma sized_run z (m : Mod_) :
  runtime_grants → snapshot_fits z → wf_module (lk_memory m) →
  on_linear (setMemorySize (Z.of_nat (length z))) m = (Ret (), sized (Z.of_nat (length z)) m).
Proof.
  intros Hgrant Hfits Hwf. unfold on_linear. rewrite setMemorySize_granted by done.
  destruct Hfits as (Haln & Hmax & Hpages). rewrite size_bytes by (split; cbn; page_lia).
  assert (size_of (set_memPages (Z.of_nat (length z) / WASM_BYTES_PER_PAGE) (lk_memory m)) =
    Z.of_nat (length z)) as -> by (unfold size_of; cbn; page_lia).
  done.
Qed.

Lemma restore_granted e base fuel key data (t : Tsk) :
  runtime_grants → snapshot_fits data → wf_module (lk_memory (tk_module t)) → progressing e →
  isBound (rest_of (tk_module t)) = true → getSnapshot key (tk_snapshots t) = Ret data →
  (length data + e ≤ fuel)%nat →
  (vmArenaMode = ArenaUffd →
    (modifyRange base (restoreRange kernel (Z.of_nat (length data))) (tk_arena t)).1 = Ret ()) →
  ∃ t', restore kernel read base fuel key t = (Ret (), t') ∧
    tk_module t' = with_memory data (tk_module t) ∧ tk_snapshots t' = tk_snapshots t.
Proof.
  intros Hgrant Hfits Hwf Hprog Hbound Hdata Hfuel Harena. unfold restore.
  rewrite run_bind. cbn [get]. rewrite Hbound. cbn [negb].
  rewrite (run_bind_ret _ _ _ data t) by (unfold lift; by rewrite Hdata). cbv zeta.
  set (m1 := sized (Z.of_nat (length data)) (tk_module t)).
  rewrite (run_bind_ret _ _ _ () (set_task_module m1 t))
    by (unfold on_module, zoom; by rewrite sized_run).
  assert (length (bytes (rest_of m1)) = length data) as Hl
    by (cbn; rewrite length_resize; apply Nat2Z.id).
  destruct vmArenaMode.
  - eexists. split; [unfold on_module, zoom; cbn [tk_module set_task_module]; by rewrite writeMemory_whole|done].
  - specialize (Harena eq_refl). destruct (modifyRange _ _ (tk_arena t)) as [o a'] eqn:Hmod.
    cbn in Harena. subst o.
    rewrite (run_bind_ret _ _ _ () (mkTask m1 a' (tk_capture t) (tk_level t) (tk_snapshots t) (tk_ignored t)))
      by (unfold on_arena, zoom; cbn [tk_arena set_task_module]; by rewrite Hmod).
    rewrite run_bind. unfold on_module at 1, zoom at 1. cbn [modify tk_module].
    unfold on_module, zoom. cbn [tk_module set_task_module].
    erewrite readSnapshot_run; [eexists; split; [reflexivity|done]|exact Hprog|lia| |done|lia].
    cbn -[sized m1]. by rewrite length_replicate.
Qed.

(** C28: a snapshot restores what it was taken of: whatever the module does afterwards,
    with either mode of the arena and whatever pieces the kernel reads, restoring the
    key gives the memory and its size back; the loop of reads ends after at most as many
    reads as there are bytes and interruptions. *)
Theorem snapshot_restore_roundtrip gid base fuel e (t t2 : Tsk) :
  runtime_grants → progressing e →
  mod_ok (tk_module t) → memPages (lk_memory (tk_module t)) ≤ max_memory_pages →
  let '(o, t1) := snapshot gid t in
  tk_snapshots t2 = tk_snapshots t1 → isBound (rest_of (tk_module t2)) = true →
  wf_module (lk_memory (tk_module t2)) →
  (length (bytes (rest_of (tk_module t))) + e ≤ fuel)%nat →
  (vmArenaMode = ArenaUffd → (modifyRange base
     (restoreRange kernel (Z.of_nat (length (bytes (rest_of (tk_module t)))))) (tk_arena t2)).1 = Ret ()) →
  ∃ key t3, o = Ret key ∧ restore kernel read base fuel key t2 = (Ret (), t3) ∧
    bytes (rest_of (tk_module t3)) = bytes (rest_of (tk_module t)) ∧
    memPages (lk_memory (tk_module t3)) = memPages (lk_memory (tk_module t)) ∧
    r_globals (rest_of (tk_module t3)) = r_globals (rest_of (tk_module t2)) ∧
    filesystem (rest_of (tk_module t3)) = filesystem (rest_of (tk_module t2)).
Proof.
  intros Hgrant Hprog [Hwf Hlen] Hpages. unfold snapshot. rewrite run_bind. cbn [get]. cbv zeta.
  set (m := tk_module t) in *. set (key := _ +:+ _). set (data := bytes (rest_of m)) in *.
  rewrite run_bind. cbn [put]. cbn [mret M_ret]. intros Hsnaps Hbound Hwf2 Hfuel Harena.
  assert (snapshot_fits data) as Hfits by (unfold snapshot_fits; rewrite Hlen; page_lia).
  destruct (restore_granted e base fuel key data t2) as (t3 & Hr & Hm & _); [done..| |done|done|].
  { rewrite Hsnaps. cbn. apply snapshot_law. }
  exists key, t3. rewrite Hm. split_and!; try done.
  cbn. rewrite Hlen. unfold size_of. by rewrite Z_div_mult_full.
Qed.
End snapshots.

(** ** Near-data calls *)

Section storage.
Context `{E : MemoryEnv} {EL : MemoryEnvLaws E} `{W : Wavm} {L : LinkEnv} {Reg FS Vars Cap : Type}
  {G : Registry Reg} {MF : ModuleFiles FS} {SS : StateStore} {WE : WasmEngine Reg FS Vars} {CO : CapturedOutput Cap}.
Abbreviation Mod_ := (Linker (Rest Reg FS Vars)).
Abbreviation Tsk := (TaskState Reg FS Vars Cap).
Abbreviation rest_of := (lk_registry (Reg := Rest Reg FS Vars)).
Context (applyDelta : list Z → (Z → M Mod_ unit) → M Mod_ unit) (requestNdpDelta : string → Z → outcome (list Z))
  (captureStdout : bool) (ENTRY_FUNC_NAME : string) (prepareArgcArgv syncPythonFunctionFile : Message → M Mod_ unit)
  (serializeDelta : Mem → Mem → list (Z * Z) → list Z) (STACK_SIZE slots : Z) (ndebug : bool) (patch : list Z → Mem → Mem).
Lemma assertion_inv {St} nd what c (s s' : St) u :
  assertion nd what c s = (Ret u, s') → nd || c = true ∧ s' = s.
Proof. unfold assertion. destruct (nd || c); intros [=]; by subst. Qed.
Lemma ignore_module key (t t' : Tsk) u :
  ignoreThreadStacksInSnapshot key t = (Ret u, t') →
  tk_module t' = tk_module t ∧ tk_capture t' = tk_capture t.
Proof.
  unfold ignoreThreadStacksInSnapshot. rewrite run_bind. cbn [get]. intros Hrun.
  apply run_bind_inv in Hrun as (d & t1 & Hd & Hrun). injection Hd as _ <-.
  apply run_bind_inv in Hrun as ([a b] & t1 & Hr & Hrun). injection Hr as _ <-.
  by injection Hrun as _ <-.
Qed.

(** C27: What a near-data task is answered with is never mixed with captured output or an
    error text: its function runs on the memory that the task's delta gave, with the message
    as it came; if it returned zero and a delta was asked for, the output is a delta which,
    applied to the memory the call began with, gives the memory it left, and the globals
    are those it left; otherwise the output is what the function's host calls set, or what
    came when they set none, and the globals are as they came.  In builds with assertions
    the module is bound to the user and the function of the message. *)
Theorem storage_task_answers idx msg req appidx (t t' : Tsk) rv msg' :
  (∀ pre post excl, agree_outside excl (patch (serializeDelta pre post excl) pre) post) →
  (∀ msg, keeps same_pre (prepareArgcArgv msg)) → (∀ f args, keeps same_pre (executeWasmFunction f args)) →
  isstorage msg = true → rq_threads req = false →
  executeTask (Cap := Cap) applyDelta requestNdpDelta captureStdout ENTRY_FUNC_NAME prepareArgcArgv
    syncPythonFunctionFile serializeDelta STACK_SIZE slots ndebug idx msg req appidx t = (Ret (rv, msg'), t') →
  (ndebug = false → boundUser (tk_module t) = user msg ∧ boundFunction (tk_module t) = function msg) ∧
  returnvalue msg' = rv ∧ id msg' = id msg ∧
  ∃ t0 r, restoreForCall applyDelta requestNdpDelta msg t = (Ret (), t0) ∧
    executeFunction ENTRY_FUNC_NAME prepareArgcArgv syncPythonFunctionFile serializeDelta msg
      (started msg (tk_module t0)) = (Ret r, tk_module t') ∧ cr_returnvalue r = rv ∧
    if (rv =? 0) && isoutputmemorydelta msg then
      ∃ m1, syncPythonFunctionFile msg (started msg (tk_module t0)) = (Ret (), m1) ∧
        agree_outside (excludedPtrLens (rest_of (tk_module t')))
          (patch (outputdata msg') (bytes (rest_of m1))) (bytes (rest_of (tk_module t'))) ∧
        wasmglobals msg' = getGlobals (tk_module t')
    else outputdata msg' = messageOutput (rest_of (tk_module t')) ∧ wasmglobals msg' = wasmglobals msg.
Proof.
  intros Hdelta Hprep Hexec Hstorage Hreq. unfold executeTask. rewrite run_bind. cbn [get]. cbv zeta.
  destruct (isBound _); [|done]. cbn [negb]. intros Hrun.
  apply run_bind_inv in Hrun as (u1 & ta & [Hu ->]%assertion_inv & Hrun).
  apply run_bind_inv in Hrun as (u2 & tb & [Hf ->]%assertion_inv & Hrun).
  apply run_bind_inv in Hrun as ([] & t0 & Hrestore & Hrun).
  apply run_bind_inv in Hrun as (u & t1 & Hign & Hrun).
  assert (tk_module t1 = tk_module t0) as Hm1.
  { destruct (bool_decide (snapshotkey msg = "")); [by injection Hign as _ <-|]. by apply ignore_module in Hign as [? _]. }
  rewrite run_bind in Hrun. cbn [on_module zoom modify] in Hrun.
  rewrite Hreq in Hrun. apply run_bind_inv in Hrun as (r & t2 & Hex & Hrun).
  unfold on_module, zoom in Hex. cbn [tk_module set_task_module] in Hex.
  destruct (executeFunction _ _ _ _ msg _) as [o m2] eqn:Hcall.
  injection Hex as -> <-. rewrite Hm1 in Hcall.
  destruct (executeFunction_delta _ _ _ _ patch _ _ _ _ Hdelta Hprep Hexec Hcall) as [_ Hr].
  rewrite run_bind in Hrun. cbn [get] in Hrun. cbv zeta in Hrun. cbn [tk_module set_task_module] in Hrun.
  assert (isstorage (with_result r (messageOutput (rest_of m2)) msg) = true) as Hs by done.
  unfold failureOutput, addCapturedStdout in Hrun. rewrite Hs, andb_false_r, Hs, andb_false_r in Hrun.
  injection Hrun as <- <- <-.
  cbn [outputdata wasmglobals with_result tk_module set_task_module returnvalue id].
  split; [intros ->; split; [exact (bool_decide_eq_true_1 _ Hu)|exact (bool_decide_eq_true_1 _ Hf)]|].
  split_and!; try done. exists t0, r. split_and!; try done.
  destruct (cr_delta r) as [[d gs]|].
  - destruct Hr as (-> & -> & -> & m1 & Hsync & Hag). cbn. by exists m1.
  - destruct (Z.eqb_spec (cr_returnvalue r) 0), (isoutputmemorydelta msg); cbn; try done. by destruct Hr.
Qed.
End storage.

(** * Concrete tasks *)

#[export] Instance demo_snapshot_laws : SnapshotLaws demo_store.
Proof. split. intros k d s. cbn. by rewrite lookup_insert_eq. Qed.
#[export] Instance demo_output : CapturedOutput string :=
  {| getCapturedStdout := get; clearCapturedStdout := put "" |}.

(** Memory that is mapped by userfaultfd, in one range. *)
Definition demo_uffd_env : MemoryEnv := {|
  THREAD_STACK_SIZE := 2 ^ 20; max_memory_pages := 65536; vmArenaMode := ArenaUffd;
  runtime_growMemory := λ n d, (grow_success, n + d, n);
  runtime_shrinkMemory := λ n d, (grow_success, n - d, n - d);
  memory_ref := λ a, Ret a; sys_mprotect := λ _ _ _, 0; sys_mmap_file := λ a _ _, a;
  getPageAlignedChunk := λ off len, mkChunk len 0 1 0 |}.
Lemma demo_uffd_laws : MemoryEnvLaws demo_uffd_env.
Proof.
  constructor; cbn.
  - intros n d n' base H. injection H as <- <-. split; reflexivity.
  - intros n d r n' base H Hr. injection H as <- <- <-. contradiction.
  - intros n d n' rep H. injection H as <- <-. split; reflexivity.
  - intros n d r n' rep H Hr. injection H as <- <- <-. contradiction.
  - lia.
  - split; [lia|reflexivity].
Qed.

Lemma threadStackTop_terminates_witness :
  ∃ s m' ss, @threadStackTop demo_uffd_env false 2 (push_threadStack 1000 demo_module) = (Ret s, m') ∧
    threadStacks m' = [1000] ++ ss ∧ Z.of_nat (length ss) = 2.
Proof.
  destruct (@threadStackTop_terminates demo_uffd_env demo_uffd_laws false 2 (push_threadStack 1000 demo_module))
    as (s & m' & ss & Hr & _ & Hs & Hl & _).
  - exact demo_wf.
  - split; intros p d; do 2 eexists; reflexivity.
  - split; [intros a; eexists; reflexivity|reflexivity].
  - discriminate.
  - lia.
  - vm_compute. discriminate.
  - exists s, m', ss. split; [exact Hr|]. split; [exact Hs|exact Hl].
Defined.

(** The first read is interrupted, the others give up to a page. *)
Definition demo_read (k pos n : nat) : Z := if (k =? 0)%nat then - EINTR else Z.of_nat (n `min` 4096).
Definition demo_task (m : Linker DemoRest) (snaps : gmap string Mem) : TaskState CacheState (list string) unit string :=
  mkTask m (mkArena [mkRange 0 1048576 0 [] (0, 0)] []) "" None snaps ∅.

Lemma snapshot_restore_roundtrip_witness :
  let t := demo_task (demo_mod true 1 demo_zygote [demo_i32 1]) ∅ in
  let t1 := (snapshot 5 t).2 in
  let t2 := demo_task (demo_mod true 2 (replicate (Z.to_nat 131072) 9) [demo_i32 2]) (tk_snapshots t1) in
  ∃ t3, restore (E := demo_uffd_env) (λ _ _, 0) demo_read 0 (Z.to_nat 65540) "u_f_5" t2 = (Ret (), t3) ∧
    bytes (lk_registry (tk_module t3)) = demo_zygote.
Proof.
  intros t t1 t2.
  assert (length demo_zygote = Z.to_nat 65536) as Hl
    by (rewrite <- (Nat2Z.id (length demo_zygote)), demo_zygote_length; reflexivity).
  destruct (snapshot_restore_roundtrip (E := demo_uffd_env) (EL := demo_uffd_laws) (λ _ _, 0) demo_read 5 0
    (Z.to_nat 65540) 1 t t2) as (key & t3 & Hk & Hr & Hb & _).
  - split; intros p d; do 2 eexists; reflexivity.
  - intros k pos n Hn. unfold demo_read. destruct (Nat.eqb_spec k 0); [left|right]; lia.
  - split; [split; [cbn; lia|cbn; unfold WASM_BYTES_PER_PAGE, UINT32_MAX; lia]|]. cbn -[demo_zygote]. rewrite demo_zygote_length. reflexivity.
  - cbn. lia.
  - reflexivity.
  - reflexivity.
  - split; [cbn; lia|]. cbn. unfold WASM_BYTES_PER_PAGE, UINT32_MAX. lia.
  - cbn -[demo_zygote]. rewrite Hl. lia.
  - intros _. cbn -[demo_zygote modifyRange]. rewrite demo_zygote_length. vm_compute. reflexivity.
  - injection Hk as <-. exists t3. split; [exact Hr|exact Hb].
Defined.

(** The delta of a call is its bytes; the memory has three of them. *)
Definition demo_apply (d : list Z) (grow : Z → M (Linker DemoRest) unit) : M (Linker DemoRest) unit :=
  modify (upd_rest (set_bytes d)).
Abbreviation demo_executeTask := (executeTask (E := demo_env) (Cap := string) demo_apply (λ _ _, Ret [1; 2; 3]) true "f"
  (λ _, mret ()) (λ _, mret ()) (λ _ post _, post) 0 4 false 0 demo_delta_call (mkTaskRequest false 0 []) 0).
Definition demo_task_state : TaskState CacheState (list string) unit string :=
  demo_task (demo_mod true 1 [0; 0; 0] [demo_i32 5; demo_i32 0]) ∅.
Definition demo_answer : Message :=
  with_result (mkResult 0 (Some ([7; 2; 3], [8; 0]))) [] demo_delta_call.
Example demo_task_result : (demo_executeTask demo_task_state).1 = Ret (0, demo_answer).
Proof. vm_compute. reflexivity. Qed.

Lemma storage_task_answers_witness :
  (demo_executeTask demo_task_state).1 = Ret (0, demo_answer) ∧
  wasmglobals demo_answer = getGlobals (tk_module (demo_executeTask demo_task_state).2).
Proof.
  split; [exact demo_task_result|].
  destruct (storage_task_answers (E := demo_env) (Cap := string) demo_apply (λ _ _, Ret [1; 2; 3]) true "f"
    (λ _, mret ()) (λ _, mret ()) (λ _ post _, post) 0 4 false (λ d _, d) 0 demo_delta_call (mkTaskRequest false 0 []) 0
    demo_task_state (demo_executeTask demo_task_state).2 0 demo_answer) as (_ & _ & _ & t0 & r & _ & _ & _ & m1 & _ & _ & Hg).
  - intros pre post excl i _. reflexivity.
  - intros msg m0. reflexivity.
  - intros f args m0. reflexivity.
  - reflexivity.
  - reflexivity.
  - exact (run_fst _ _ _ demo_task_result).
  - exact Hg.
Defined.
