(* ===== verification/Guest.v ===== *)
(** The state that calls of a module work on besides its scheduler: its memory and the
    message it executes, its linear memory with what that records, and the state of a
    service it calls.  The calls read and write the memory natively: a pointer is
    checked once, for the length that the call names. *)

From S2P Require Import Prelude WasmBytes WasmMemory Chaining.

Record GuestWith `{Scheduler} {X : Type} := mkGuestWith {
  gw_guest : GuestState; gw_module : WasmModule; gw_ext : X }.
Arguments GuestWith {_} X.
Arguments mkGuestWith {_ _} _ _ _.

Section guest.
Context `{Scheduler} {X : Type}.
Abbreviation GW := (GuestWith X).

Definition on_guest {A} (x : M GuestState A) : M GW A :=
  zoom gw_guest (λ g s, mkGuestWith g (gw_module s) (gw_ext s)) x.
Definition on_ext {A} (x : M X A) : M GW A :=
  zoom gw_ext (λ k s, mkGuestWith (gw_guest s) (gw_module s) k) x.
(** The memory has the size of the linear memory after the call. *)
Definition on_memory `{MemoryEnv} {A} (x : M WasmModule A) : M GW A := λ s,
  let '(o, m) := x (gw_module s) in
  (o, mkGuestWith (set_mem (resize (Z.to_nat (getMemorySizeBytes m)) 0 (g_mem (gw_guest s))) (gw_guest s)) m (gw_ext s)).

(** Native reads, unchecked like [write_native]. *)
Definition read_native (a n : Z) : M GuestState (list Z) :=
  s ← get;
  match mem_read (g_mem s) a n with
  | Ret bs => mret bs
  | Throw _ => throw (Undefined "read past the end of the memory")
  end.

(** [memoryRef<T>] of a struct, with its bytes, and a write through one. *)
Definition read_ref (a n : Z) : M GuestState (list Z) :=
  s ← get; lift (mem_read (g_mem s) a n).
Definition write_ref (a : Z) (bs : list Z) : M GuestState unit :=
  s ← get; m ← lift (mem_write (g_mem s) a bs); put (set_mem m s).

Definition with_ext (t : X) (s : GW) : GW := mkGuestWith (gw_guest s) (gw_module s) t.

Lemma run_on_guest {A} (x : M GuestState A) (s : GW) o g :
  x (gw_guest s) = (o, g) → on_guest x s = (o, mkGuestWith g (gw_module s) (gw_ext s)).
Proof. intros Hx. unfold on_guest, zoom. by rewrite Hx. Qed.
Lemma run_on_guest_id {A} (x : M GuestState A) (s : GW) o :
  x (gw_guest s) = (o, gw_guest s) → on_guest x s = (o, s).
Proof. intros Hx. rewrite (run_on_guest _ _ _ _ Hx). by destruct s. Qed.
Lemma run_on_ext {A} (x : M X A) (s : GW) o t :
  x (gw_ext s) = (o, t) → on_ext x s = (o, with_ext t s).
Proof. intros Hx. unfold on_ext, zoom. by rewrite Hx. Qed.
Lemma run_read_native a n bs g :
  mem_read (g_mem g) a n = Ret bs → read_native a n g = (Ret bs, g).
Proof. intros Hr. unfold read_native. run_unfold. by rewrite Hr. Qed.
Lemma run_read_ref a n bs g : mem_read (g_mem g) a n = Ret bs → read_ref a n g = (Ret bs, g).
Proof. intros Hr. unfold read_ref. run_unfold. by rewrite Hr. Qed.
Lemma run_write_ref a bs m g : mem_write (g_mem g) a bs = Ret m → write_ref a bs g = (Ret (), set_mem m g).
Proof. intros Hr. unfold write_ref. run_unfold. by rewrite Hr. Qed.

(** * Typed memories

    The memory has the size of the linear memory, and holds bytes. *)

Definition bytes : list Z → Prop := Forall (in_u 8).
Definition typed (s : GW) : Prop :=
  mem_size (g_mem (gw_guest s)) = getMemorySizeBytes (gw_module s) ∧ bytes (g_mem (gw_guest s)).
Definition stays_typed (s s' : GW) : Prop := typed s → typed s'.
Definition guest_typed (g g' : GuestState) : Prop :=
  mem_size (g_mem g') = mem_size (g_mem g) ∧ (bytes (g_mem g) → bytes (g_mem g')).

#[export] Instance stays_typed_preorder : PreOrder stays_typed.
Proof. split; [intros s Hs; exact Hs|]. intros a b c Hab Hbc Ha. by apply Hbc, Hab. Qed.
#[export] Instance guest_typed_preorder : PreOrder guest_typed.
Proof.
  split; [intros s; split; done|]. intros a b c [H1 H2] [H3 H4]. split; [by rewrite H3|]. intros Ha. by apply H4, H2.
Qed.

Lemma bytes_write m a bs m' : bytes m → bytes bs → mem_write m a bs = Ret m' → bytes m'.
Proof.
  intros Hm Hbs (_ & _ & ->)%mem_write_inv. unfold bytes.
  rewrite !Forall_app. split_and!; [by apply Forall_take|done|by apply Forall_drop].
Qed.
Lemma bytes_read m a n bs : bytes m → mem_read m a n = Ret bs → bytes bs.
Proof.
  intros Hm. unfold mem_read. destruct (in_mem _ _ _); [|done]. intros [= <-].
  by apply Forall_take, Forall_drop.
Qed.

(** Encoded integers and strings are bytes. *)
Lemma bytes_le n x : 0 ≤ n → bytes (Z_to_little_endian n 8 x).
Proof.
  intros Hn. unfold bytes. eapply Forall_impl; [apply (Z_to_little_endian_bound n 8 x); lia|]. intros b Hb. exact Hb.
Qed.
Lemma bytes_le32 x : bytes (le32 x).
Proof. by apply bytes_le. Qed.
Lemma bytes_of_string_bytes s : bytes (bytes_of_string s).
Proof.
  unfold bytes, bytes_of_string. apply Forall_fmap, Forall_true. intros c. unfold in_u. cbn.
  pose proof (Ascii.nat_ascii_bounded c). lia.
Qed.

Lemma typed_check a n : keeps guest_typed (memoryArrayPtr a n).
Proof. intros g. unfold memoryArrayPtr. run_unfold. by destruct (in_mem _ _ _). Qed.
Lemma typed_write_native a bs : bytes bs → keeps guest_typed (write_native a bs).
Proof.
  intros Hbs g. unfold write_native. run_unfold. destruct (mem_write _ _ _) as [m|] eqn:Hw; [|done].
  split; [apply (mem_write_size _ _ _ _ Hw)|]. intros Hg. by apply (bytes_write _ _ _ _ Hg Hbs Hw).
Qed.

Lemma typed_read_ref a n : keeps guest_typed (read_ref a n).
Proof. apply (keeps_get guest_typed). intros g. apply (keeps_lift guest_typed). Qed.
Lemma typed_write_ref a bs : bytes bs → keeps guest_typed (write_ref a bs).
Proof.
  intros Hbs g. unfold write_ref. run_unfold. destruct (mem_write _ _ _) as [m|] eqn:Hw; [|done].
  split; [apply (mem_write_size _ _ _ _ Hw)|]. intros Hg. by apply (bytes_write _ _ _ _ Hg Hbs Hw).
Qed.

Lemma typed_guest {A} (x : M GuestState A) : keeps guest_typed x → keeps stays_typed (on_guest x).
Proof.
  intros Hx s [Hsz Hb]. unfold on_guest, zoom. destruct (Hx (gw_guest s)) as [H1 H2].
  destruct (x (gw_guest s)) as [o g]. split; cbn in *; [by rewrite H1|by apply H2].
Qed.
Lemma typed_ext {A} (x : M X A) : keeps stays_typed (on_ext x).
Proof. intros s Hs. unfold on_ext, zoom. by destruct (x (gw_ext s)). Qed.
Lemma typed_memory `{MemoryEnv} {A} (x : M WasmModule A) : keeps stays_typed (on_memory x).
Proof.
  intros s [Hsz Hb]. unfold on_memory. destruct (x (gw_module s)) as [o m]. split; cbn.
  - unfold mem_size. rewrite length_resize. apply Z2Nat.id. apply (wrapU_range 64). lia.
  - by apply Forall_resize.
Qed.
End guest.
