(* ===== verification/StateCalls.v ===== *)
(** The calls of a module on distributed state (the state part of src/wavm/faasm.cpp, with
    [getStateKV] of src/wavm/memory.cpp): values of the caller's user are read into its
    memory, written from it, appended to, mapped, locked, pushed and pulled.  faabric's
    state is an interface; what it promises is an abstract store of byte strings by user
    and key, which the calls implement for the module. *)

From S2P Require Import Prelude WasmBytes WasmMemory Chaining Guest.

(** * The interface to faabric's state *)

(** The operations on a value.  Offsets and lengths are those of the call. *)
Inductive kv_op : Type :=
  | KGet | KGetChunk (offset len : Z) | KSet (bs : list Z) | KSetChunk (offset : Z) (bs : list Z)
  | KAppend (bs : list Z) | KGetAppended (len nElems : Z) | KClearAppended
  | KPull | KPushFull | KPushPartial | KPushPartialMask (mask : StateKV)
  | KLockRead | KUnlockRead | KLockWrite | KUnlockWrite
  | KFlagDirty | KFlagChunkDirty (offset len : Z).

(** The values of all users; [getKV] finds a value or makes it with a size, if one is
    given; an operation gives the bytes it reads. *)
Class StateApi := {
  KVS : Type;
  getKV : string → string → option Z → KVS → outcome StateKV * KVS;
  kv_size : StateKV → KVS → Z;
  kv_stateSize : string → string → KVS → outcome Z * KVS;
  kv_do : StateKV → kv_op → KVS → outcome (list Z) * KVS }.

Section state_calls.
Context `{Scheduler} `{E : MemoryEnv} `{StateApi} (readFile : string → outcome (list Z))
  (prependRuntimeRoot : string → string).

(** A module with its linear memory and the store. *)
Abbreviation SState := (GuestWith KVS).
Abbreviation SM := (M SState).

(** * Values *)

Definition getUserKeyPairFromWasm (keyPtr : Z) : M GuestState (string * string) :=
  key ← getStringFromWasm keyPtr; call ← gets g_call; mret (user call, key).

Definition getStateKV (keyPtr : Z) (size : option Z) : SM StateKV :=
  '(user, key) ← on_guest (getUserKeyPairFromWasm keyPtr);
  on_ext (getKV user key size).

Definition kv_call (kv : StateKV) (op : kv_op) : SM unit := on_ext (kv_do kv op) ;; mret ().

Definition faasm_push_state (keyPtr : Z) : SM unit :=
  kv ← getStateKV keyPtr (Some 0); kv_call kv KPushFull.
Definition faasm_push_state_partial (keyPtr : Z) : SM unit :=
  kv ← getStateKV keyPtr (Some 0); kv_call kv KPushPartial.
Definition faasm_push_state_partial_mask (keyPtr maskKeyPtr : Z) : SM unit :=
  kv ← getStateKV keyPtr (Some 0);
  maskKv ← getStateKV maskKeyPtr (Some 0);
  kv_call kv (KPushPartialMask maskKv).
Definition faasm_pull_state (keyPtr stateLen : Z) : SM unit :=
  kv ← getStateKV keyPtr (Some (u64 stateLen)); kv_call kv KPull.
Definition faasm_lock_state_read (keyPtr : Z) : SM unit :=
  kv ← getStateKV keyPtr (Some 0); kv_call kv KLockRead.
Definition faasm_unlock_state_read (keyPtr : Z) : SM unit :=
  kv ← getStateKV keyPtr (Some 0); kv_call kv KUnlockRead.
Definition faasm_lock_state_write (keyPtr : Z) : SM unit :=
  kv ← getStateKV keyPtr (Some 0); kv_call kv KLockWrite.
Definition faasm_unlock_state_write (keyPtr : Z) : SM unit :=
  kv ← getStateKV keyPtr (Some 0); kv_call kv KUnlockWrite.

(** [kv->set] copies as many bytes as the value has, whatever was checked. *)
Definition faasm_write_state (keyPtr dataPtr dataLen : Z) : SM unit :=
  kv ← getStateKV keyPtr (Some (u64 dataLen));
  on_guest (memoryArrayPtr dataPtr dataLen) ;;
  s ← get;
  data ← on_guest (read_native dataPtr (kv_size kv (gw_ext s)));
  kv_call kv (KSet data).
Definition faasm_append_state (keyPtr dataPtr dataLen : Z) : SM unit :=
  on_guest (memoryArrayPtr dataPtr dataLen) ;;
  kv ← getStateKV keyPtr None;
  data ← on_guest (read_native dataPtr (u64 dataLen));
  kv_call kv (KAppend data).
Definition faasm_read_appended_state (keyPtr bufferPtr bufferLen nElems : Z) : SM unit :=
  on_guest (memoryArrayPtr bufferPtr bufferLen) ;;
  kv ← getStateKV keyPtr (Some (u64 bufferLen));
  bs ← on_ext (kv_do kv (KGetAppended bufferLen nElems));
  on_guest (write_native bufferPtr bs).
Definition faasm_clear_appended_state (keyPtr : Z) : SM unit :=
  on_guest (getUserKeyPairFromWasm keyPtr) ;;
  kv ← getStateKV keyPtr None; kv_call kv KClearAppended.
Definition faasm_write_state_offset (keyPtr totalLen offset dataPtr dataLen : Z) : SM unit :=
  kv ← getStateKV keyPtr (Some (u64 totalLen));
  on_guest (memoryArrayPtr dataPtr dataLen) ;;
  data ← on_guest (read_native dataPtr (u64 dataLen));
  kv_call kv (KSetChunk offset data).
Definition faasm_write_state_from_file (keyPtr pathPtr : Z) : SM Z :=
  on_guest (getStringFromWasm keyPtr) ;;
  path ← on_guest (getStringFromWasm pathPtr);
  bytes ← lift (readFile (prependRuntimeRoot path));
  kv ← getStateKV keyPtr (Some (Z.of_nat (length bytes)));
  s ← get;
  if Z.of_nat (length bytes) <? kv_size kv (gw_ext s)
  then throw (Undefined "read past the end of the file's bytes")
  else
    kv_call kv (KSet (take (Z.to_nat (kv_size kv (gw_ext s))) bytes)) ;;
    mret (i32 (Z.of_nat (length bytes))).

(** [kv->get] copies the whole value, whatever the length of the buffer. *)
Definition faasm_read_state (keyPtr bufferPtr bufferLen : Z) : SM Z :=
  if bufferLen =? 0 then
    '(user, key) ← on_guest (getUserKeyPairFromWasm keyPtr);
    n ← on_ext (kv_stateSize user key); mret (i32 n)
  else
    kv ← getStateKV keyPtr (Some (u64 bufferLen));
    on_guest (memoryArrayPtr bufferPtr bufferLen) ;;
    bs ← on_ext (kv_do kv KGet);
    on_guest (write_native bufferPtr bs) ;;
    s ← get; mret (i32 (kv_size kv (gw_ext s))).
(** What is mapped is read through the mapping: the linear memory records it. *)
Definition faasm_read_state_ptr (keyPtr totalLen : Z) : SM Z :=
  kv ← getStateKV keyPtr (Some (u64 totalLen));
  wasmPtr ← on_memory (mapSharedStateMemory kv 0 (u32 totalLen));
  kv_call kv KGet ;; mret (i32 wasmPtr).
Definition faasm_read_state_offset (keyPtr totalLen offset bufferPtr bufferLen : Z) : SM unit :=
  kv ← getStateKV keyPtr (Some (u64 totalLen));
  on_guest (memoryArrayPtr bufferPtr bufferLen) ;;
  bs ← on_ext (kv_do kv (KGetChunk offset bufferLen));
  on_guest (write_native bufferPtr bs).
Definition faasm_read_state_offset_ptr (keyPtr totalLen offset len : Z) : SM Z :=
  kv ← getStateKV keyPtr (Some (u64 totalLen));
  wasmPtr ← on_memory (mapSharedStateMemory kv offset (u32 len));
  kv_call kv (KGetChunk offset len) ;; mret (i32 wasmPtr).
Definition faasm_flag_state_dirty (keyPtr totalLen : Z) : SM unit :=
  kv ← getStateKV keyPtr (Some (u64 totalLen)); kv_call kv KFlagDirty.
Definition faasm_flag_state_offset_dirty (keyPtr totalLen offset len : Z) : SM unit :=
  kv ← getStateKV keyPtr (Some (u64 totalLen)); kv_call kv (KFlagChunkDirty offset len).

(** ** Any call *)

Inductive state_op : Type :=
  | OPush (k : Z) | OPushPartial (k : Z) | OPushMask (k mk : Z) | OPull (k n : Z)
  | OLockRead (k : Z) | OUnlockRead (k : Z) | OLockWrite (k : Z) | OUnlockWrite (k : Z)
  | OWrite (k p n : Z) | OAppend (k p n : Z) | OReadAppended (k p n e : Z) | OClearAppended (k : Z)
  | OWriteOffset (k t o p n : Z) | OWriteFile (k p : Z) | ORead (k p n : Z) | OReadPtr (k n : Z)
  | OReadOffset (k t o p n : Z) | OReadOffsetPtr (k t o n : Z) | OFlag (k n : Z) | OFlagOffset (k t o n : Z).

Definition run_state_op (o : state_op) : SM unit :=
  match o with
  | OPush k => faasm_push_state k
  | OPushPartial k => faasm_push_state_partial k
  | OPushMask k mk => faasm_push_state_partial_mask k mk
  | OPull k n => faasm_pull_state k n
  | OLockRead k => faasm_lock_state_read k
  | OUnlockRead k => faasm_unlock_state_read k
  | OLockWrite k => faasm_lock_state_write k
  | OUnlockWrite k => faasm_unlock_state_write k
  | OWrite k p n => faasm_write_state k p n
  | OAppend k p n => faasm_append_state k p n
  | OReadAppended k p n e => faasm_read_appended_state k p n e
  | OClearAppended k => faasm_clear_appended_state k
  | OWriteOffset k t o p n => faasm_write_state_offset k t o p n
  | OWriteFile k p => faasm_write_state_from_file k p ;; mret ()
  | ORead k p n => faasm_read_state k p n ;; mret ()
  | OReadPtr k n => faasm_read_state_ptr k n ;; mret ()
  | OReadOffset k t o p n => faasm_read_state_offset k t o p n
  | OReadOffsetPtr k t o n => faasm_read_state_offset_ptr k t o n ;; mret ()
  | OFlag k n => faasm_flag_state_dirty k n
  | OFlagOffset k t o n => faasm_flag_state_offset_dirty k t o n
  end.
End state_calls.

(** * Properties *)

(** What faabric's state promises of the values, [vals]: a value is found, or made with
    the size asked for; operations change no other value; reads give the value, or a
    piece of it, and writes replace it. *)
Class StateLaws `{StateApi} (vals : KVS → gmap (string * string) (list Z)) : Prop := {
  getKV_found u k n t v : vals t !! (u, k) = Some v →
    ∃ t', getKV u k n t = (Ret (mkStateKV u k), t') ∧ vals t' = vals t;
  getKV_new u k n t : vals t !! (u, k) = None → 0 < n →
    ∃ t' v, getKV u k (Some n) t = (Ret (mkStateKV u k), t') ∧ Z.of_nat (length v) = n ∧
      vals t' = <[(u, k) := v]> (vals t);
  getKV_frame u k n t o t' : getKV u k n t = (o, t') →
    (∀ kv, o = Ret kv → kv = mkStateKV u k) ∧ ∀ x, x ≠ (u, k) → vals t' !! x = vals t !! x;
  do_frame kv op t x : x ≠ (kv_user kv, kv_key kv) → vals (kv_do kv op t).2 !! x = vals t !! x;
  size_law kv t v : vals t !! (kv_user kv, kv_key kv) = Some v → kv_size kv t = Z.of_nat (length v);
  stateSize_law u k t v : vals t !! (u, k) = Some v →
    ∃ t', kv_stateSize u k t = (Ret (Z.of_nat (length v)), t') ∧ vals t' = vals t;
  stateSize_frame u k t : vals (kv_stateSize u k t).2 = vals t;
  get_law kv t v : vals t !! (kv_user kv, kv_key kv) = Some v →
    ∃ t', kv_do kv KGet t = (Ret v, t') ∧ vals t' = vals t;
  set_law kv bs t v : vals t !! (kv_user kv, kv_key kv) = Some v → length bs = length v →
    ∃ t' r, kv_do kv (KSet bs) t = (Ret r, t') ∧ vals t' = <[(kv_user kv, kv_key kv) := bs]> (vals t);
  getChunk_law kv off len t v : vals t !! (kv_user kv, kv_key kv) = Some v →
    0 ≤ off → 0 ≤ len → off + len ≤ Z.of_nat (length v) →
    ∃ t', kv_do kv (KGetChunk off len) t = (Ret (take (Z.to_nat len) (drop (Z.to_nat off) v)), t') ∧ vals t' = vals t;
  setChunk_law kv off bs t v : vals t !! (kv_user kv, kv_key kv) = Some v →
    0 ≤ off → off + Z.of_nat (length bs) ≤ Z.of_nat (length v) →
    ∃ t' r, kv_do kv (KSetChunk off bs) t = (Ret r, t') ∧
      vals t' = <[(kv_user kv, kv_key kv) :=
        take (Z.to_nat off) v ++ bs ++ drop (Z.to_nat off + length bs) v]> (vals t) }.

Section state_properties.
Context `{Sc : Scheduler} `{E : MemoryEnv} `{SA : StateApi} (vals : KVS → gmap (string * string) (list Z))
  `{SL : !StateLaws vals}.

Abbreviation SState := (GuestWith KVS).
Definition key_at (s : SState) (keyPtr : Z) (key : string) : Prop :=
  in_mem (g_mem (gw_guest s)) keyPtr 1 = true ∧ c_string (g_mem (gw_guest s)) keyPtr = Some key.

Lemma run_kv_call kv op (s : SState) r t :
  kv_do kv op (gw_ext s) = (Ret r, t) → kv_call kv op s = (Ret (), with_ext t s).
Proof. intros Hx. unfold kv_call. by rewrite (run_bind_ret _ _ _ _ _ (run_on_ext _ _ _ _ Hx)). Qed.

Lemma run_user_key (s : SState) keyPtr key :
  key_at s keyPtr key →
  on_guest (getUserKeyPairFromWasm keyPtr) s = (Ret (user (g_call (gw_guest s)), key), s).
Proof.
  intros [Hin Hkey]. apply run_on_guest_id. unfold getUserKeyPairFromWasm, getStringFromWasm.
  rewrite run_bind_assoc, (run_bind_ret _ _ _ _ _ (memoryArrayPtr_run keyPtr 1 _ Hin)).
  run_unfold. by rewrite Hkey.
Qed.

(** The value of a call: it is found, or made with the size. *)
Lemma getStateKV_run (s : SState) keyPtr key n :
  key_at s keyPtr key → 0 < n →
  let u := user (g_call (gw_guest s)) in
  (∀ v, vals (gw_ext s) !! (u, key) = Some v → Z.of_nat (length v) = n) →
  ∃ t v, getStateKV keyPtr (Some n) s = (Ret (mkStateKV u key), with_ext t s) ∧
    vals t = <[(u, key) := v]> (vals (gw_ext s)) ∧ Z.of_nat (length v) = n ∧
    (∀ v0, vals (gw_ext s) !! (u, key) = Some v0 → v = v0).
Proof.
  intros Hkey Hn u Hsize. unfold getStateKV.
  rewrite (run_bind_ret _ _ _ _ _ (run_user_key s keyPtr key Hkey)). fold u.
  destruct (vals (gw_ext s) !! (u, key)) as [v|] eqn:Hv.
  - destruct (getKV_found u key (Some n) _ v Hv) as (t & Hg & Ht).
    exists t, v. rewrite (run_on_ext _ _ _ _ Hg), Ht. split; [done|].
    split; [by rewrite insert_id|]. split; [by apply Hsize|]. intros v0 [= ->]. done.
  - destruct (getKV_new u key n _ Hv Hn) as (t & v & Hg & Hl & Ht).
    exists t, v. rewrite (run_on_ext _ _ _ _ Hg). by split_and!.
Qed.

(** Writing a value of the size the store has, or makes. *)
Lemma write_state_run keyPtr key dataPtr data (s : SState) :
  let g := gw_guest s in
  let n := Z.of_nat (length data) in
  let x := (user (g_call g), key) in
  key_at s keyPtr key → 0 < n < 2 ^ 31 → in_mem (g_mem g) dataPtr n = true →
  mem_read (g_mem g) dataPtr n = Ret data →
  (∀ v, vals (gw_ext s) !! x = Some v → Z.of_nat (length v) = n) →
  ∃ t, faasm_write_state keyPtr dataPtr n s = (Ret (), with_ext t s) ∧
    vals t = <[x := data]> (vals (gw_ext s)).
Proof.
  intros g n x Hkey Hn Hin Hdata Hsize.
  assert (u64 n = n) as Hu by (apply wrapU_id; unfold in_u; lia).
  destruct (getStateKV_run s keyPtr key n Hkey ltac:(lia) Hsize) as (t & v & Hkv & Ht & Hlv & _).
  fold g in Hkv, Ht. set (kv := mkStateKV (user (g_call g)) key) in *. fold x in Ht.
  assert (vals t !! (kv_user kv, kv_key kv) = Some v) as Hv by (rewrite Ht; apply lookup_insert_eq).
  destruct (set_law kv data t v Hv ltac:(lia)) as (t1 & r & Hset & Ht1).
  assert (kv_size kv t = n) as Hks by (by rewrite (size_law _ _ _ Hv)).
  exists t1. split.
  - unfold faasm_write_state. rewrite Hu, (run_bind_ret _ _ _ _ _ Hkv).
    rewrite (run_bind_ret _ _ _ () (with_ext t s))
      by (apply run_on_guest_id, memoryArrayPtr_run; by rewrite Hu).
    rewrite run_bind. cbn [get gw_ext with_ext]. rewrite Hks.
    rewrite (run_bind_ret _ _ _ data (with_ext t s)) by (by apply run_on_guest_id, run_read_native).
    by rewrite (run_kv_call kv (KSet data) (with_ext t s) r t1 Hset).
  - rewrite Ht1, Ht. change (kv_user kv, kv_key kv) with x. apply insert_insert_eq.
Qed.

(** Reading a value: all of it is written to the buffer, of which the length named was
    checked, and the size of the value is reported. *)
Lemma read_state_run keyPtr key bufPtr n v m (s : SState) :
  let g := gw_guest s in
  let x := (user (g_call g), key) in
  key_at s keyPtr key → 0 < n < 2 ^ 31 → in_mem (g_mem g) bufPtr n = true →
  vals (gw_ext s) !! x = Some v → mem_write (g_mem g) bufPtr v = Ret m →
  ∃ t, faasm_read_state keyPtr bufPtr n s =
         (Ret (i32 (Z.of_nat (length v))), mkGuestWith (set_mem m g) (gw_module s) t) ∧
    vals t = vals (gw_ext s).
Proof.
  intros g x Hkey Hn Hbuf Hv Hw.
  assert (u64 n = n) as Hu by (apply wrapU_id; unfold in_u; lia).
  destruct (getKV_found (user (g_call g)) key (Some n) _ v Hv) as (t1 & Hkv & Ht1).
  set (kv := mkStateKV (user (g_call g)) key) in *.
  assert (vals t1 !! (kv_user kv, kv_key kv) = Some v) as Hx by (by rewrite Ht1).
  destruct (get_law kv t1 v Hx) as (t2 & Hget & Ht2).
  exists t2. split; [|congruence].
  unfold faasm_read_state, getStateKV. destruct (Z.eqb_spec n 0); [lia|].
  rewrite run_bind_assoc, Hu, (run_bind_ret _ _ _ _ _ (run_user_key s keyPtr key Hkey)).
  rewrite (run_bind_ret _ _ _ _ _ (run_on_ext _ s _ _ Hkv)).
  rewrite (run_bind_ret _ _ _ () (with_ext t1 s)) by (apply run_on_guest_id, memoryArrayPtr_run; by rewrite Hu).
  rewrite (run_bind_ret _ _ _ _ _ (run_on_ext _ (with_ext t1 s) _ _ Hget)).
  rewrite (run_bind_ret _ _ _ _ _ (run_on_guest _ (with_ext t2 (with_ext t1 s)) _ _ (write_native_run bufPtr v m g Hw))).
  rewrite run_bind. cbn [get gw_ext with_ext].
  by rewrite (size_law kv t2 v) by (by rewrite Ht2).
Qed.

(** A value that a module writes is what it reads back: the store holds the bytes
    under its user and key, and no other value changed; the size is reported, and
    reading into a buffer of that size puts exactly the bytes there. *)
Theorem state_roundtrip keyPtr key dataPtr data (s : SState) :
  let g := gw_guest s in
  let n := Z.of_nat (length data) in
  let x := (user (g_call g), key) in
  key_at s keyPtr key → 0 < n < 2 ^ 31 → in_mem (g_mem g) dataPtr n = true →
  mem_read (g_mem g) dataPtr n = Ret data →
  (∀ v, vals (gw_ext s) !! x = Some v → Z.of_nat (length v) = n) →
  ∃ s1, faasm_write_state keyPtr dataPtr n s = (Ret (), s1) ∧ gw_guest s1 = g ∧
    vals (gw_ext s1) = <[x := data]> (vals (gw_ext s)) ∧
    (faasm_read_state keyPtr 0 0 s1).1 = Ret n ∧
    ∀ bufPtr m, mem_write (g_mem g) bufPtr data = Ret m →
      ∃ s2, faasm_read_state keyPtr bufPtr n s1 = (Ret n, s2) ∧ g_mem (gw_guest s2) = m ∧
        vals (gw_ext s2) = vals (gw_ext s1).
Proof.
  intros g n x Hkey Hn Hin Hdata Hsize.
  assert (i32 n = n) as Hi by (apply wrapS_id; [lia|unfold in_s; lia]).
  destruct (write_state_run keyPtr key dataPtr data s Hkey Hn Hin Hdata Hsize) as (t & Hrun & Ht).
  fold g x in Ht. assert (vals t !! x = Some data) as Hx by (rewrite Ht; apply lookup_insert_eq).
  exists (with_ext t s). split_and!; [done..| |].
  - unfold faasm_read_state. cbn [Z.eqb].
    rewrite (run_bind_ret _ _ _ _ _ (run_user_key (with_ext t s) keyPtr key Hkey)).
    destruct (stateSize_law (user (g_call g)) key t data Hx) as (t2 & Hs & _).
    rewrite (run_bind_ret _ _ _ _ _ (run_on_ext _ (with_ext t s) _ _ Hs)). cbn. fold n. by rewrite Hi.
  - intros bufPtr m Hw. pose proof Hw as (Hb0 & Hb1 & _)%mem_write_inv.
    destruct (read_state_run keyPtr key bufPtr n data m (with_ext t s)) as (t2 & Hr & Ht2);
      [done|done|by apply in_mem_true|done|done|].
    eexists. rewrite Hr. fold n. rewrite Hi. by split_and!.
Qed.

(** A read overruns its buffer when the value is longer. *)
Lemma read_state_overruns keyPtr key bufPtr n v m (s : SState) :
  let g := gw_guest s in
  key_at s keyPtr key → 0 < n < Z.of_nat (length v) → n < 2 ^ 31 → in_mem (g_mem g) bufPtr n = true →
  vals (gw_ext s) !! (user (g_call g), key) = Some v → mem_write (g_mem g) bufPtr v = Ret m →
  g_mem (gw_guest (faasm_read_state keyPtr bufPtr n s).2) = m.
Proof.
  intros g Hkey Hn Hn2 Hbuf Hv Hw.
  destruct (read_state_run keyPtr key bufPtr n v m s Hkey ltac:(lia) Hbuf Hv Hw) as (t & -> & _). done.
Qed.
(** A piece of a value that a module writes is what it reads back at that offset,
    whatever total length it names; the rest of the value stays as it was. *)
Theorem state_chunk_roundtrip keyPtr key total off dataPtr data v (s : SState) :
  let g := gw_guest s in
  let n := Z.of_nat (length data) in
  let x := (user (g_call g), key) in
  key_at s keyPtr key → n < 2 ^ 31 → in_mem (g_mem g) dataPtr n = true →
  mem_read (g_mem g) dataPtr n = Ret data →
  vals (gw_ext s) !! x = Some v → 0 ≤ off → off + n ≤ Z.of_nat (length v) →
  ∃ s1, faasm_write_state_offset keyPtr total off dataPtr n s = (Ret (), s1) ∧ gw_guest s1 = g ∧
    vals (gw_ext s1) =
      <[x := take (Z.to_nat off) v ++ data ++ drop (Z.to_nat off + length data) v]> (vals (gw_ext s)) ∧
    ∀ bufPtr m, mem_write (g_mem g) bufPtr data = Ret m →
      ∃ s2, faasm_read_state_offset keyPtr total off bufPtr n s1 = (Ret (), s2) ∧ g_mem (gw_guest s2) = m ∧
        vals (gw_ext s2) = vals (gw_ext s1).
Proof.
  intros g n x Hkey Hn Hin Hdata Hv Hoff Hfit.
  assert (u64 n = n) as Hu by (apply wrapU_id; unfold in_u; lia).
  set (kv := mkStateKV (user (g_call g)) key). set (w := take _ v ++ _).
  destruct (getKV_found (user (g_call g)) key (Some (u64 total)) _ v Hv) as (t1 & Hkv & Ht1).
  fold kv in Hkv. assert (vals t1 !! (kv_user kv, kv_key kv) = Some v) as Hx by (by rewrite Ht1).
  destruct (setChunk_law kv off data t1 v Hx Hoff Hfit) as (t2 & r & Hset & Ht2). fold w in Ht2.
  exists (with_ext t2 s). split_and!; [|done|by rewrite <- Ht1|].
  - unfold faasm_write_state_offset, getStateKV.
    rewrite run_bind_assoc, (run_bind_ret _ _ _ _ _ (run_user_key s keyPtr key Hkey)).
    rewrite (run_bind_ret _ _ _ _ _ (run_on_ext _ s _ _ Hkv)).
    rewrite (run_bind_ret _ _ _ () (with_ext t1 s)) by (apply run_on_guest_id, memoryArrayPtr_run; by rewrite Hu).
    rewrite (run_bind_ret _ _ _ data (with_ext t1 s)) by (apply run_on_guest_id, run_read_native; by rewrite Hu).
    by rewrite (run_kv_call kv _ (with_ext t1 s) r t2 Hset).
  - intros bufPtr m Hw. pose proof Hw as (Hb0 & Hb1 & _)%mem_write_inv.
    assert (vals t2 !! (user (g_call g), key) = Some w) as Hw2 by (rewrite Ht2; apply lookup_insert_eq).
    destruct (getKV_found (user (g_call g)) key (Some (u64 total)) _ w Hw2) as (t3 & Hkv3 & Ht3).
    fold kv in Hkv3.
    assert (vals t3 !! (kv_user kv, kv_key kv) = Some w) as Hw3 by (by rewrite Ht3).
    assert (length w = length v) as Hlw by (unfold w; rewrite !length_app, length_take, length_drop; lia).
    destruct (getChunk_law kv off n t3 w Hw3) as (t4 & Hget & Ht4); [lia..|].
    replace (take (Z.to_nat n) (drop (Z.to_nat off) w)) with data in Hget.
    2: { unfold w, n. rewrite drop_app_length', Nat2Z.id, take_app_length by (rewrite length_take; lia). done. }
    eexists (mkGuestWith (set_mem m g) (gw_module s) t4). split_and!; [|done|cbn; congruence].
    unfold faasm_read_state_offset, getStateKV.
    rewrite run_bind_assoc, (run_bind_ret _ _ _ _ _ (run_user_key (with_ext t2 s) keyPtr key Hkey)).
    rewrite (run_bind_ret _ _ _ _ _ (run_on_ext _ (with_ext t2 s) _ _ Hkv3)).
    rewrite (run_bind_ret _ _ _ () (with_ext t3 s))
      by (apply run_on_guest_id, memoryArrayPtr_run; rewrite Hu; by apply in_mem_true).
    rewrite (run_bind_ret _ _ _ _ _ (run_on_ext _ (with_ext t3 s) _ _ Hget)).
    by rewrite (run_on_guest _ (with_ext t4 (with_ext t3 s)) _ _ (write_native_run bufPtr data m g Hw)).
Qed.

(** ** Confinement to a user *)

Section confinement.
Context (U : string).

(** The calls of a user's module leave the other users' values. *)
Definition own (s s' : SState) : Prop :=
  user (g_call (gw_guest s)) = U → user (g_call (gw_guest s')) = U ∧
  ∀ u k, u ≠ U → vals (gw_ext s') !! (u, k) = vals (gw_ext s) !! (u, k).
#[local] Instance own_preorder : PreOrder own.
Proof.
  split; [done|]. intros a b c Hab Hbc Ha. destruct (Hab Ha) as [Hb H1]. destruct (Hbc Hb) as [Hc H2].
  split; [done|]. intros u k Hu. by rewrite H2, H1.
Qed.

Lemma own_guest {A} (x : M GuestState A) :
  (∀ g, g_call (x g).2 = g_call g) → keeps own (on_guest x).
Proof.
  intros Hx s Hu. unfold on_guest, zoom. specialize (Hx (gw_guest s)).
  destruct (x (gw_guest s)) as [o g]. cbn in *. split; [by rewrite Hx|done].
Qed.
Lemma own_check a n : keeps own (on_guest (memoryArrayPtr a n)).
Proof. apply own_guest. intros g. unfold memoryArrayPtr. run_unfold. by destruct (in_mem _ _ _). Qed.
Lemma own_read a n : keeps own (on_guest (read_native a n)).
Proof. apply own_guest. intros g. unfold read_native. run_unfold. by destruct (mem_read _ _ _). Qed.
Lemma own_write a bs : keeps own (on_guest (write_native a bs)).
Proof. apply own_guest. intros g. unfold write_native. run_unfold. by destruct (mem_write _ _ _). Qed.
Lemma own_string a : keeps own (on_guest (getStringFromWasm a)).
Proof.
  apply own_guest. intros g. unfold getStringFromWasm, memoryArrayPtr. run_unfold.
  destruct (in_mem _ _ _); [|done]. by destruct (c_string _ _).
Qed.
Lemma own_memory {A} (x : M WasmModule A) : keeps own (on_memory x).
Proof. intros s Hu. unfold on_memory. by destruct (x (gw_module s)). Qed.

Lemma user_key_user a : ∀ g p g', getUserKeyPairFromWasm a g = (Ret p, g') → p.1 = user (g_call g) ∧ g' = g.
Proof.
  intros g p g'. unfold getUserKeyPairFromWasm, getStringFromWasm, memoryArrayPtr. run_unfold.
  destruct (in_mem _ _ _); [|done]. destruct (c_string _ _); [|done]. by intros [= <- <-].
Qed.
Lemma own_user_key a : keeps own (on_guest (getUserKeyPairFromWasm a)).
Proof.
  apply own_guest. intros g. unfold getUserKeyPairFromWasm, getStringFromWasm, memoryArrayPtr. run_unfold.
  destruct (in_mem _ _ _); [|done]. by destruct (c_string _ _).
Qed.

(** The value of a call is one of the user's. *)
Lemma getStateKV_own k n (s : SState) :
  user (g_call (gw_guest s)) = U →
  own s (getStateKV k n s).2 ∧ ∀ kv, (getStateKV k n s).1 = Ret kv → kv_user kv = U.
Proof.
  intros Hu. unfold getStateKV. rewrite run_bind. unfold on_guest, zoom.
  pose proof (own_user_key k s Hu) as Hk. unfold on_guest, zoom in Hk.
  destruct (getUserKeyPairFromWasm k (gw_guest s)) as [[[u key]|e] g] eqn:Hpair; [|by split; [intros _|]].
  apply user_key_user in Hpair as [Hu1 ->]. cbn in Hu1.
  unfold on_ext, zoom. cbn [gw_ext gw_guest gw_module].
  destruct (getKV u key n (gw_ext s)) as [o t] eqn:Hg. apply getKV_frame in Hg as [Hret Hframe]. cbn.
  split.
  - intros _. split; [done|]. intros u' k' Hne. apply Hframe. congruence.
  - intros kv Ho. rewrite (Hret kv Ho). cbn. congruence.
Qed.
Lemma own_kv {B} k n (f : StateKV → M SState B) :
  (∀ kv, kv_user kv = U → keeps own (f kv)) → keeps own (getStateKV k n ≫= f).
Proof.
  intros Hf s Hu. destruct (getStateKV_own k n s Hu) as [Hown Hkv]. specialize (Hown Hu) as [Hu1 H1].
  rewrite run_bind. destruct (getStateKV k n s) as [[kv|e] s1]; [|done]. cbn in *.
  destruct (Hf kv (Hkv kv eq_refl) s1 Hu1) as [Hu2 H2]. split; [done|].
  intros u' k' Hne. by rewrite H2, H1.
Qed.

Lemma own_do kv op : kv_user kv = U → keeps own (on_ext (kv_do kv op)).
Proof.
  intros Hkv s Hu. unfold on_ext, zoom. pose proof (λ u k, do_frame kv op (gw_ext s) (u, k)) as Hf.
  destruct (kv_do kv op (gw_ext s)) as [o t]. cbn in *. split; [done|].
  intros u k Hne. apply Hf. congruence.
Qed.
Lemma own_call kv op : kv_user kv = U → keeps own (kv_call kv op).
Proof.
  intros Hkv. apply (keeps_bind own); [by apply own_do|]. intros r. apply (keeps_ret own).
Qed.
Lemma own_stateSize u k : keeps own (on_ext (kv_stateSize u k)).
Proof.
  intros s Hu. unfold on_ext, zoom. pose proof (stateSize_frame u k (gw_ext s)) as Hf.
  destruct (kv_stateSize u k (gw_ext s)) as [o t]. cbn in *. by rewrite Hf.
Qed.
(** One rule per part of a call. *)
Ltac own_step :=
  lazymatch goal with
  | |- keeps _ (getStateKV _ _ ≫= _) => apply own_kv; intros ? ?
  | |- keeps _ (get ≫= _) => apply (keeps_get own); intros ?
  | |- keeps _ (_ ≫= _) => apply (keeps_bind own); [|intros ?]
  | |- keeps _ (mret _) => apply (keeps_ret own)
  | |- keeps _ (throw _) => apply (keeps_throw own)
  | |- keeps _ (lift _) => apply (keeps_lift own)
  | |- keeps _ (kv_call _ _) => by apply own_call
  | |- keeps _ (on_memory _) => apply own_memory
  | |- keeps _ (on_ext (kv_do _ _)) => by apply own_do
  | |- keeps _ (on_ext (kv_stateSize _ _)) => apply own_stateSize
  | |- keeps _ (on_guest _) =>
      first [apply own_check | apply own_read | apply own_write | apply own_string | apply own_user_key]
  | |- keeps _ (match _ with _ => _ end) => case_match
  end.

Context (readFile : string → outcome (list Z)) (prependRuntimeRoot : string → string).

Lemma own_run_op o : keeps own (run_state_op readFile prependRuntimeRoot o).
Proof.
  destruct o; cbn [run_state_op];
    unfold faasm_push_state, faasm_push_state_partial, faasm_push_state_partial_mask, faasm_pull_state,
      faasm_lock_state_read, faasm_unlock_state_read, faasm_lock_state_write, faasm_unlock_state_write,
      faasm_write_state, faasm_append_state, faasm_read_appended_state, faasm_clear_appended_state,
      faasm_write_state_offset, faasm_write_state_from_file, faasm_read_state, faasm_read_state_ptr,
      faasm_read_state_offset, faasm_read_state_offset_ptr, faasm_flag_state_dirty,
      faasm_flag_state_offset_dirty;
    repeat own_step.
Qed.

(** C32: whatever a module does with these calls, in any order, with any arguments and
    also when they fail, it changes no value of another user. *)
Theorem state_calls_confined ops (s : SState) u k :
  user (g_call (gw_guest s)) = U → u ≠ U →
  let s' := (for_each ops (run_state_op readFile prependRuntimeRoot) s).2 in
  vals (gw_ext s') !! (u, k) = vals (gw_ext s) !! (u, k).
Proof.
  intros Hu Hne s'. apply (keeps_for_each own ops _ own_run_op s Hu). done.
Qed.
End confinement.
End state_properties.

(** * A concrete store *)

(** Values are kept by user and key; appended bytes in a value of their own. *)
Definition demo_kv_do (kv : StateKV) (op : kv_op) (t : gmap (string * string) (list Z))
    : outcome (list Z) * gmap (string * string) (list Z) :=
  let x := (kv_user kv, kv_key kv) in
  let v := default [] (t !! x) in
  match op with
  | KGet => (Ret v, t)
  | KGetChunk off len => (Ret (take (Z.to_nat len) (drop (Z.to_nat off) v)), t)
  | KSet bs => (Ret [], <[x := bs]> t)
  | KSetChunk off bs => (Ret [], <[x := take (Z.to_nat off) v ++ bs ++ drop (Z.to_nat off + length bs) v]> t)
  | _ => (Ret [], t)
  end.
#[export] Instance demo_state_api : StateApi :=
  {| KVS := gmap (string * string) (list Z);
     getKV := λ u k n t, match t !! (u, k) with
       | Some _ => (Ret (mkStateKV u k), t)
       | None => match n with
           | Some n => if 0 <? n then (Ret (mkStateKV u k), <[(u, k) := replicate (Z.to_nat n) 0]> t)
                       else (Throw (RuntimeError "empty value"), t)
           | None => (Throw (RuntimeError "no value"), t)
           end
       end;
     kv_size := λ kv t, Z.of_nat (length (default [] (t !! (kv_user kv, kv_key kv))));
     kv_stateSize := λ u k t, (Ret (Z.of_nat (length (default [] (t !! (u, k))))), t);
     kv_do := demo_kv_do |}.

#[export] Instance demo_state_laws : StateLaws (λ t : @KVS demo_state_api, t).
Proof.
  split; cbn.
  - intros u k n t v ->. by eexists.
  - intros u k n t -> Hn. destruct (Z.ltb_spec 0 n); [|lia]. do 2 eexists. split; [done|].
    split; [|done]. rewrite length_replicate. lia.
  - intros u k n t o t'. destruct (t !! (u, k)) as [v|]; [intros [= <- <-]; split; [by intros kv [= <-]|done]|].
    destruct n as [n|]; [destruct (0 <? n)|]; intros [= <- <-]; split; try done; [by intros kv [= <-]|].
    intros x Hx. by rewrite lookup_insert_ne.
  - intros kv op t x Hx. destruct op; cbn; try done; by rewrite lookup_insert_ne.
  - by intros kv t v ->.
  - intros u k t v ->. by eexists.
  - done.
  - intros kv t v ->. by eexists.
  - intros kv bs t v Hv Hl. by do 2 eexists.
  - intros kv off len t v ->. by eexists.
  - intros kv off bs t v ->. by do 2 eexists.
Qed.

Definition demo_guest_state (t : gmap (string * string) (list Z)) : @GuestWith demo_scheduler (@KVS demo_state_api) :=
  mkGuestWith (mkGuest ([107; 0; 1; 2; 3] ++ replicate 11 0) (demo_message "u" "f" 1 7 []) (0, ∅) [] []) demo_module t.

Lemma state_roundtrip_witness :
  let s := demo_guest_state ∅ in
  ∃ s1, faasm_write_state 0 2 3 s = (Ret (), s1) ∧
    gw_ext s1 = {[("u", "k") := [1; 2; 3]]} ∧ (faasm_read_state 0 0 0 s1).1 = Ret 3 ∧
    ∃ s2, faasm_read_state 0 8 3 s1 = (Ret 3, s2) ∧
      g_mem (gw_guest s2) = [107; 0; 1; 2; 3; 0; 0; 0; 1; 2; 3; 0; 0; 0; 0; 0].
Proof.
  intros s.
  destruct (state_roundtrip (λ t : @KVS demo_state_api, t) 0 "k" 2 [1; 2; 3] s)
    as (s1 & Hw & _ & Hv & Hsz & Hrd).
  - split; reflexivity.
  - cbn. lia.
  - reflexivity.
  - reflexivity.
  - intros v Hv. discriminate.
  - exists s1. split; [exact Hw|]. split; [exact Hv|]. split; [exact Hsz|].
    destruct (Hrd 8 [107; 0; 1; 2; 3; 0; 0; 0; 1; 2; 3; 0; 0; 0; 0; 0] eq_refl) as (s2 & Hr & Hm & _).
    exists s2. split; [exact Hr|exact Hm].
Defined.

Lemma state_chunk_roundtrip_witness :
  let s := demo_guest_state {[("u", "k") := [9; 8; 7; 6; 5]]} in
  ∃ s1, faasm_write_state_offset 0 5 1 2 3 s = (Ret (), s1) ∧
    gw_ext s1 = {[("u", "k") := [9; 1; 2; 3; 5]]} ∧
    ∃ s2, faasm_read_state_offset 0 5 1 8 3 s1 = (Ret (), s2) ∧
      g_mem (gw_guest s2) = [107; 0; 1; 2; 3; 0; 0; 0; 1; 2; 3; 0; 0; 0; 0; 0].
Proof.
  intros s.
  destruct (state_chunk_roundtrip (λ t : @KVS demo_state_api, t) 0 "k" 5 1 2 [1; 2; 3] [9; 8; 7; 6; 5] s)
    as (s1 & Hw & _ & Hv & Hrd).
  - split; reflexivity.
  - cbn. lia.
  - reflexivity.
  - reflexivity.
  - reflexivity.
  - lia.
  - cbn. lia.
  - exists s1. split; [exact Hw|]. split; [exact Hv|].
    destruct (Hrd 8 [107; 0; 1; 2; 3; 0; 0; 0; 1; 2; 3; 0; 0; 0; 0; 0] eq_refl) as (s2 & Hr & Hm & _).
    exists s2. split; [exact Hr|exact Hm].
Defined.

Lemma state_calls_confined_witness :
  let ops := [OWrite 0 2 3; OReadPtr 0 3; OPush 0; OWriteOffset 0 3 1 0 1; ORead 0 4 (-5)] in
  let s := demo_guest_state {[("v", "k") := [1]]} in
  gw_ext (for_each ops (run_state_op (E := demo_env) (λ _, Ret []) (λ p, p)) s).2 !! ("v", "k") = Some [1].
Proof.
  intros ops s.
  exact (state_calls_confined (E := demo_env) (λ t : @KVS demo_state_api, t) "u" (λ _, Ret []) (λ p, p) ops s "v" "k"
    eq_refl ltac:(discriminate)).
Defined.
