(* ===== verification/Mpi.v ===== *)
(** The MPI calls of a module (src/wavm/mpi.cpp): communicators and datatypes are read
    from the module's memory, buffers are checked and handed to the rank's world, results
    are written back.  The worlds of faabric and the layout of its MPI structs are
    interfaces. *)

From S2P Require Import Prelude WasmBytes WasmMemory Chaining Guest.

(** * The interfaces to faabric *)

(** The structs and constants of faabric's [mpi.h]: sizes, and fields of a struct's bytes. *)
Class MpiTypes := {
  sizeof_communicator : Z; sizeof_datatype : Z; sizeof_info : Z; sizeof_op : Z; sizeof_status : Z;
  communicator_id : list Z → Z; datatype_size : list Z → Z;
  info_id : list Z → Z; status_bytesSize : list Z → Z;
  FAABRIC_COMM_WORLD : Z; FAABRIC_INFO_NULL : Z; FAABRIC_IN_PLACE : Z;
  MPI_SUCCESS : Z; MPI_CART_MAX_DIMENSIONS : Z }.

(** The operations of a world, by what they return.  A buffer is an address of the
    caller's memory, a datatype or an operator the bytes of its struct. *)
Inductive world_op : Type → Type :=
  | WSize : world_op Z
  | WSend (sendRank recvRank buf : Z) (dt : list Z) (count : Z) : world_op unit
  | WIsend (sendRank recvRank buf : Z) (dt : list Z) (count : Z) : world_op Z
  | WRecv (sendRank recvRank buf : Z) (dt : list Z) (count status : Z) : world_op unit
  | WIrecv (sendRank recvRank buf : Z) (dt : list Z) (count : Z) : world_op Z
  | WAwaitAsync (requestId : Z) : world_op unit
  | WSendRecv (sendBuf sendCount : Z) (sendType : list Z) (destination recvBuf recvCount : Z)
      (recvType : list Z) (source rank status : Z) : world_op unit
  | WProbe (source rank status : Z) : world_op unit
  | WBroadcast (root rank buf : Z) (dt : list Z) (count : Z) : world_op unit
  | WBarrier (rank : Z) : world_op unit
  | WScatter (root rank sendBuf : Z) (sendType : list Z) (sendCount recvBuf : Z)
      (recvType : list Z) (recvCount : Z) : world_op unit
  | WGather (rank root sendBuf : Z) (sendType : list Z) (sendCount recvBuf : Z)
      (recvType : list Z) (recvCount : Z) : world_op unit
  | WAllGather (rank sendBuf : Z) (sendType : list Z) (sendCount recvBuf : Z)
      (recvType : list Z) (recvCount : Z) : world_op unit
  | WReduce (rank root sendBuf recvBuf : Z) (dt : list Z) (count : Z) (op : list Z) : world_op unit
  | WAllReduce (rank sendBuf recvBuf : Z) (dt : list Z) (count : Z) (op : list Z) : world_op unit
  | WScan (rank sendBuf recvBuf : Z) (dt : list Z) (count : Z) (op : list Z) : world_op unit
  | WAllToAll (rank sendBuf : Z) (sendType : list Z) (sendCount recvBuf : Z)
      (recvType : list Z) (recvCount : Z) : world_op unit
  | WRankFromCoords (coords : Z) : world_op Z
  | WCartesianRank (rank maxDims dims periods coords : Z) : world_op unit
  | WShift (rank direction disp : Z) : world_op (Z * Z)
  | WDestroy : world_op unit.

(** The registry of worlds with the MPI context of the thread.  An operation reads the
    caller's memory and gives the writes it makes there. *)
Class MpiWorlds := {
  MW : Type;
  createWorld : M (Message * MW) Z;
  joinWorld : M (Message * MW) unit;
  context_worldId : MW → Z;
  context_rank : MW → Z;
  getWorld : Z → M MW unit;
  world_do : ∀ {A}, Z → world_op A → Mem → M MW (list (Z * list Z) * A);
  WTime : Type;
  getWTime : Z → M MW WTime }.

(** * The context of the calls *)

(** [ContextWrapper]: the world and the rank that the thread executes. *)
Record ContextWrapper := mkContextWrapper { cw_world : Z; cw_rank : Z }.

(** The worlds, and the thread's [ctx], null outside [MPI_Init] and [MPI_Finalize]. *)
Record MpiState `{MpiWorlds} := mkMpiState { mworlds : MW; mctx : option ContextWrapper }.
Arguments mkMpiState {_} _ _.

Definition isInPlace `{MpiTypes} (wasmPtr : Z) : bool := u8 wasmPtr =? FAABRIC_IN_PLACE.

(** A product of two [int]s. *)
Definition int_mul (a b : Z) : outcome Z :=
  if (- 2 ^ 31 <=? a * b) && (a * b <=? INT32_MAX) then Ret (a * b)
  else Throw (Undefined "signed integer overflow").

Section mpi.
Context `{Scheduler} `{E : MemoryEnv} `{MpiTypes} `{MpiWorlds} (endpointHost : string).

Abbreviation MS := (GuestWith MpiState).
Abbreviation MM := (M MS).

Definition on_worlds {A} (x : M MW A) : MM A :=
  on_ext (zoom mworlds (λ w e, mkMpiState w (mctx e)) x).
Definition set_ctx (c : option ContextWrapper) : MM unit :=
  on_ext (modify (λ e, mkMpiState (mworlds e) c)).

(** What [ctx->] finds. *)
Definition the_ctx : MM ContextWrapper :=
  s ← get;
  match mctx (gw_ext s) with
  | Some c => mret c
  | None => throw (Undefined "null MPI context")
  end.

Definition checkMpiComm (wasmPtr : Z) : M GuestState unit :=
  hostComm ← read_ref wasmPtr sizeof_communicator;
  if negb (communicator_id hostComm =? FAABRIC_COMM_WORLD)
  then throw (RuntimeError "Unexpected comm type") else mret ().
Definition getFaasmDataType (wasmPtr : Z) : M GuestState (list Z) := read_ref wasmPtr sizeof_datatype.
Definition getFaasmInfoType (wasmPtr : Z) : M GuestState (list Z) := read_ref wasmPtr sizeof_info.
Definition getFaasmOp (wasmOp : Z) : M GuestState (list Z) := read_ref wasmOp sizeof_op.
Definition writeMpiResult (resPtr result : Z) : M GuestState unit := write_ref resPtr (le32 result).
Definition writeFaasmRequestId (requestPtrPtr requestId : Z) : M GuestState unit :=
  writeMpiResult requestPtrPtr requestId.
Definition getFaasmRequestId (requestPtrPtr : Z) : M GuestState Z :=
  s ← get; lift (load_i32 (g_mem s) requestPtrPtr).
Definition statusRef (statusPtr : Z) : M GuestState (list Z) := read_ref statusPtr sizeof_status.

(** The buffer of [count] elements: the product is one of [int]s. *)
Definition typedBuffer (buf count : Z) (dt : list Z) : M GuestState unit :=
  n ← lift (int_mul count (datatype_size dt)); memoryArrayPtr buf n.

(** A call of the world: its writes are not checked. *)
Definition world_call {A} (world : Z) (op : world_op A) : MM A :=
  s ← get;
  '(writes, result) ← on_worlds (world_do world op (g_mem (gw_guest s)));
  for_each writes (λ '(a, bs), on_guest (write_native a bs)) ;;
  mret result.

(** ** Setting up and ending *)

(** A call on the message that executes and on the worlds. *)
Definition on_call_worlds {A} (x : M (Message * MW) A) : MM A := λ s,
  let '(o, (c, w)) := x (g_call (gw_guest s), mworlds (gw_ext s)) in
  (o, mkGuestWith (set_call c (gw_guest s)) (gw_module s) (mkMpiState w (mctx (gw_ext s)))).
Definition set_mpiworldid (worldId : Z) (c : Message) : Message :=
  {| id := id c; appid := appid c; groupid := groupid c; groupidx := groupidx c;
     user := user c; function := function c; funcptr := funcptr c;
     inputdata := inputdata c; outputdata := outputdata c; returnvalue := returnvalue c;
     cmdline := cmdline c; pythonuser := pythonuser c; pythonfunction := pythonfunction c;
     pythonentry := pythonentry c; ispython := ispython c;
     isasync := isasync c; isstorage := isstorage c; forbidndp := forbidndp c;
     executeslocally := executeslocally c; recordexecgraph := recordexecgraph c;
     directresulthost := directresulthost c; snapshotkey := snapshotkey c;
     zygotedelta := zygotedelta c; isoutputmemorydelta := isoutputmemorydelta c;
     wasmglobals := wasmglobals c; extraarguments := extraarguments c;
     mpi := mkMpiFields (ismpi (mpi c)) worldId (mpiworldsize (mpi c)) (mpirank (mpi c)) |}.

Definition getExecutingWorld : MM Z :=
  s ← get;
  let worldId := context_worldId (mworlds (gw_ext s)) in
  on_worlds (getWorld worldId) ;; mret worldId.
Definition newContextWrapper : MM ContextWrapper :=
  world ← getExecutingWorld;
  s ← get; mret (mkContextWrapper world (context_rank (mworlds (gw_ext s)))).

Definition MPI_Init (a b : Z) : MM Z :=
  s ← get;
  (if mpirank (mpi (g_call (gw_guest s))) <=? 0 then
     worldId ← on_call_worlds createWorld;
     on_guest (modify (λ g, set_call (set_mpiworldid worldId (g_call g)) g))
   else on_call_worlds joinWorld) ;;
  c ← newContextWrapper;
  set_ctx (Some c) ;; mret 0.

Definition terminateMpi : MM Z :=
  c ← the_ctx; world_call (cw_world c) WDestroy ;; set_ctx None ;; mret MPI_SUCCESS.
Definition MPI_Abort (a b : Z) : MM Z := terminateMpi.
Definition MPI_Finalize : MM Z := terminateMpi.

(** ** Communicators *)

Definition MPI_Comm_size (comm resPtr : Z) : MM Z :=
  c ← the_ctx;
  on_guest (checkMpiComm comm) ;;
  size ← world_call (cw_world c) WSize;
  on_guest (writeMpiResult resPtr size) ;; mret MPI_SUCCESS.
Definition MPI_Comm_rank (comm resPtr : Z) : MM Z :=
  c ← the_ctx;
  on_guest (checkMpiComm comm) ;;
  on_guest (writeMpiResult resPtr (cw_rank c)) ;; mret MPI_SUCCESS.
Definition MPI_Comm_free (comm : Z) : MM Z := mret MPI_SUCCESS.

(** ** Messages *)

(** The buffers of these four are checked for [count] bytes, whatever the datatype. *)
Definition MPI_Send (buffer count datatype destRank tag comm : Z) : MM Z :=
  c ← the_ctx;
  on_guest (checkMpiComm comm) ;;
  dt ← on_guest (getFaasmDataType datatype);
  on_guest (memoryArrayPtr buffer count) ;;
  world_call (cw_world c) (WSend (cw_rank c) destRank buffer dt count) ;; mret 0.
Definition MPI_Isend (buffer count datatype destRank tag comm requestPtrPtr : Z) : MM Z :=
  c ← the_ctx;
  on_guest (checkMpiComm comm) ;;
  dt ← on_guest (getFaasmDataType datatype);
  on_guest (memoryArrayPtr buffer count) ;;
  requestId ← world_call (cw_world c) (WIsend (cw_rank c) destRank buffer dt count);
  on_guest (writeFaasmRequestId requestPtrPtr requestId) ;; mret MPI_SUCCESS.
Definition MPI_Recv (buffer count datatype sourceRank tag comm statusPtr : Z) : MM Z :=
  c ← the_ctx;
  on_guest (checkMpiComm comm) ;;
  on_guest (statusRef statusPtr) ;;
  dt ← on_guest (getFaasmDataType datatype);
  on_guest (memoryArrayPtr buffer count) ;;
  world_call (cw_world c) (WRecv sourceRank (cw_rank c) buffer dt count statusPtr) ;; mret 0.
Definition MPI_Irecv (buffer count datatype sourceRank tag comm requestPtrPtr : Z) : MM Z :=
  c ← the_ctx;
  on_guest (checkMpiComm comm) ;;
  dt ← on_guest (getFaasmDataType datatype);
  on_guest (memoryArrayPtr buffer count) ;;
  requestId ← world_call (cw_world c) (WIrecv sourceRank (cw_rank c) buffer dt count);
  on_guest (writeFaasmRequestId requestPtrPtr requestId) ;; mret MPI_SUCCESS.

Definition MPI_Wait (requestPtrPtr status : Z) : MM Z :=
  c ← the_ctx;
  requestId ← on_guest (getFaasmRequestId requestPtrPtr);
  world_call (cw_world c) (WAwaitAsync requestId) ;; mret MPI_SUCCESS.

Definition MPI_Sendrecv (sendBuf sendCount sendType destination sendTag recvBuf recvCount recvType
    source recvTag comm statusPtr : Z) : MM Z :=
  c ← the_ctx;
  on_guest (checkMpiComm comm) ;;
  sendDt ← on_guest (getFaasmDataType sendType);
  recvDt ← on_guest (getFaasmDataType recvType);
  on_guest (statusRef statusPtr) ;;
  on_guest (typedBuffer sendBuf sendCount sendDt) ;;
  on_guest (typedBuffer recvBuf recvCount recvDt) ;;
  world_call (cw_world c) (WSendRecv sendBuf sendCount sendDt destination
    recvBuf recvCount recvDt source (cw_rank c) statusPtr) ;; mret MPI_SUCCESS.

Definition MPI_Get_count (statusPtr datatype countPtr : Z) : MM Z :=
  the_ctx ;;
  status ← on_guest (statusRef statusPtr);
  dt ← on_guest (getFaasmDataType datatype);
  if datatype_size dt =? 0 then throw (Undefined "division by zero")
  else if negb (Z.rem (status_bytesSize status) (datatype_size dt) =? 0) then mret 1
  else
    let nVals := Z.quot (status_bytesSize status) (datatype_size dt) in
    on_guest (writeMpiResult countPtr nVals) ;; mret MPI_SUCCESS.
Definition MPI_Probe (source tag comm statusPtr : Z) : MM Z :=
  c ← the_ctx;
  on_guest (checkMpiComm comm) ;;
  on_guest (statusRef statusPtr) ;;
  world_call (cw_world c) (WProbe source (cw_rank c) statusPtr) ;; mret MPI_SUCCESS.

(** ** Collectives *)

Definition MPI_Bcast (buffer count datatype root comm : Z) : MM Z :=
  c ← the_ctx;
  on_guest (checkMpiComm comm) ;;
  dt ← on_guest (getFaasmDataType datatype);
  on_guest (typedBuffer buffer count dt) ;;
  world_call (cw_world c) (WBroadcast root (cw_rank c) buffer dt count) ;; mret MPI_SUCCESS.
Definition MPI_Barrier (comm : Z) : MM Z :=
  c ← the_ctx;
  on_guest (checkMpiComm comm) ;;
  world_call (cw_world c) (WBarrier (cw_rank c)) ;; mret MPI_SUCCESS.

(** The buffers of one rank are checked, also where the root's holds the parts of all. *)
Definition MPI_Scatter (sendBuf sendCount sendType recvBuf recvCount recvType root comm : Z) : MM Z :=
  c ← the_ctx;
  on_guest (checkMpiComm comm) ;;
  sendDt ← on_guest (getFaasmDataType sendType);
  recvDt ← on_guest (getFaasmDataType recvType);
  on_guest (typedBuffer sendBuf sendCount sendDt) ;;
  on_guest (typedBuffer recvBuf recvCount recvDt) ;;
  world_call (cw_world c) (WScatter root (cw_rank c) sendBuf sendDt sendCount recvBuf recvDt recvCount) ;;
  mret MPI_SUCCESS.
Definition MPI_Gather (sendBuf sendCount sendType recvBuf recvCount recvType root comm : Z) : MM Z :=
  c ← the_ctx;
  on_guest (checkMpiComm comm) ;;
  sendDt ← on_guest (getFaasmDataType sendType);
  recvDt ← on_guest (getFaasmDataType recvType);
  on_guest (typedBuffer recvBuf recvCount recvDt) ;;
  hostSendBuffer ← (if isInPlace sendBuf then mret recvBuf
    else on_guest (typedBuffer sendBuf sendCount sendDt) ;; mret sendBuf);
  world_call (cw_world c) (WGather (cw_rank c) root hostSendBuffer sendDt sendCount recvBuf recvDt recvCount) ;;
  mret MPI_SUCCESS.
Definition MPI_Allgather (sendBuf sendCount sendType recvBuf recvCount recvType comm : Z) : MM Z :=
  c ← the_ctx;
  on_guest (checkMpiComm comm) ;;
  sendDt ← on_guest (getFaasmDataType sendType);
  recvDt ← on_guest (getFaasmDataType recvType);
  on_guest (typedBuffer recvBuf recvCount recvDt) ;;
  hostSendBuffer ← (if isInPlace sendBuf then mret recvBuf
    else on_guest (typedBuffer sendBuf sendCount sendDt) ;; mret sendBuf);
  world_call (cw_world c) (WAllGather (cw_rank c) hostSendBuffer sendDt sendCount recvBuf recvDt recvCount) ;;
  mret MPI_SUCCESS.
Definition MPI_Reduce (sendBuf recvBuf count datatype op root comm : Z) : MM Z :=
  c ← the_ctx;
  on_guest (checkMpiComm comm) ;;
  dt ← on_guest (getFaasmDataType datatype);
  on_guest (typedBuffer recvBuf count dt) ;;
  hostSendBuffer ← (if isInPlace sendBuf then mret recvBuf
    else on_guest (typedBuffer sendBuf count dt) ;; mret sendBuf);
  hostOp ← on_guest (getFaasmOp op);
  world_call (cw_world c) (WReduce (cw_rank c) root hostSendBuffer recvBuf dt count hostOp) ;;
  mret MPI_SUCCESS.
(** Here too [count] bytes are checked. *)
Definition MPI_Allreduce (sendBuf recvBuf count datatype op comm : Z) : MM Z :=
  c ← the_ctx;
  on_guest (checkMpiComm comm) ;;
  dt ← on_guest (getFaasmDataType datatype);
  hostOp ← on_guest (getFaasmOp op);
  on_guest (memoryArrayPtr recvBuf count) ;;
  hostSendBuffer ← (if isInPlace sendBuf then mret recvBuf
    else on_guest (memoryArrayPtr sendBuf count) ;; mret sendBuf);
  world_call (cw_world c) (WAllReduce (cw_rank c) hostSendBuffer recvBuf dt count hostOp) ;;
  mret MPI_SUCCESS.
Definition MPI_Scan (sendBuf recvBuf count datatype op comm : Z) : MM Z :=
  c ← the_ctx;
  on_guest (checkMpiComm comm) ;;
  dt ← on_guest (getFaasmDataType datatype);
  on_guest (typedBuffer recvBuf count dt) ;;
  hostSendBuffer ← (if isInPlace sendBuf then mret recvBuf
    else on_guest (typedBuffer sendBuf count dt) ;; mret sendBuf);
  hostOp ← on_guest (getFaasmOp op);
  world_call (cw_world c) (WScan (cw_rank c) hostSendBuffer recvBuf dt count hostOp) ;;
  mret MPI_SUCCESS.
Definition MPI_Alltoall (sendBuf sendCount sendType recvBuf recvCount recvType comm : Z) : MM Z :=
  c ← the_ctx;
  on_guest (checkMpiComm comm) ;;
  sendDt ← on_guest (getFaasmDataType sendType);
  recvDt ← on_guest (getFaasmDataType recvType);
  on_guest (typedBuffer sendBuf sendCount sendDt) ;;
  on_guest (typedBuffer recvBuf recvCount recvDt) ;;
  world_call (cw_world c) (WAllToAll (cw_rank c) sendBuf sendDt sendCount recvBuf recvDt recvCount) ;;
  mret MPI_SUCCESS.

(** ** The host, datatypes and memory *)

(** [strcpy] to a buffer of which one byte is checked. *)
Definition MPI_Get_processor_name (buf bufLen : Z) : MM Z :=
  on_guest (memoryArrayPtr buf 1) ;;
  on_guest (write_native buf (bytes_of_string endpointHost ++ [0])) ;; mret MPI_SUCCESS.
Definition MPI_Type_size (typePtr res : Z) : MM Z :=
  the_ctx ;;
  dt ← on_guest (getFaasmDataType typePtr);
  on_guest (writeMpiResult res (datatype_size dt)) ;; mret MPI_SUCCESS.
Definition MPI_Type_contiguous (count oldDatatypePtr newDatatypePtrPtr : Z) : MM Z := mret MPI_SUCCESS.
Definition MPI_Type_commit (datatypePtrPtr : Z) : MM Z := mret MPI_SUCCESS.

Definition MPI_Alloc_mem (memSize info resPtrPtr : Z) : MM Z :=
  the_ctx ;;
  hostInfo ← on_guest (getFaasmInfoType info);
  if negb (info_id hostInfo =? FAABRIC_INFO_NULL) then throw (RuntimeError "Non-null info not supported")
  else
    mappedWasmPtr ← on_memory (growMemory (roundUpToWasmPageAligned (u32 memSize)));
    on_guest (write_ref resPtrPtr (le32 mappedWasmPtr)) ;; mret MPI_SUCCESS.
Definition MPI_Free_mem (basePtr : Z) : MM Z := mret MPI_SUCCESS.

(** ** Topologies *)

(** The new communicator is at the pointer that was written, read as an [I32]. *)
Definition MPI_Cart_create (commOld ndims dims periods reorder newCommPtrPtr : Z) : MM Z :=
  the_ctx ;;
  mappedWasmPtr ← on_memory (growMemory (roundUpToWasmPageAligned (u32 sizeof_communicator)));
  on_guest (write_ref newCommPtrPtr (le32 mappedWasmPtr)) ;;
  origComm ← on_guest (read_ref commOld sizeof_communicator);
  on_guest (write_ref (i32 mappedWasmPtr) origComm) ;; mret MPI_SUCCESS.
Definition MPI_Cart_rank (comm coords rankPtr : Z) : MM Z :=
  c ← the_ctx;
  on_guest (memoryArrayPtr coords (4 * MPI_CART_MAX_DIMENSIONS)) ;;
  rank ← world_call (cw_world c) (WRankFromCoords coords);
  on_guest (writeMpiResult rankPtr rank) ;; mret MPI_SUCCESS.
Definition MPI_Cart_get (comm maxdims dims periods coords : Z) : MM Z :=
  if maxdims <? MPI_CART_MAX_DIMENSIONS then throw (RuntimeError "Bad dimensions in MPI_Cart_get")
  else
    c ← the_ctx;
    on_guest (memoryArrayPtr dims (4 * maxdims)) ;;
    on_guest (memoryArrayPtr periods (4 * maxdims)) ;;
    on_guest (memoryArrayPtr coords (4 * maxdims)) ;;
    world_call (cw_world c) (WCartesianRank (cw_rank c) maxdims dims periods coords) ;;
    mret MPI_SUCCESS.
Definition MPI_Cart_shift (comm direction disp sourceRank destRank : Z) : MM Z :=
  c ← the_ctx;
  '(hostSourceRank, hostDestRank) ← world_call (cw_world c) (WShift (cw_rank c) direction disp);
  on_guest (writeMpiResult sourceRank hostSourceRank) ;;
  on_guest (writeMpiResult destRank hostDestRank) ;; mret MPI_SUCCESS.

Definition MPI_Wtime : MM WTime := c ← the_ctx; on_worlds (getWTime (cw_world c)).

(** ** What is not implemented *)

Definition MPI_Get_version (version subversion : Z) : MM Z :=
  throw (RuntimeError "MPI_Get_version not implemented!").
Definition MPI_Comm_dup (comm newComm : Z) : MM Z := throw (RuntimeError "MPI_Comm_dup not implemented!").
Definition MPI_Comm_split (comm color key newComm : Z) : MM Z :=
  throw (RuntimeError "MPI_Comm_split not implemented!").
Definition MPI_Comm_c2f (comm : Z) : MM Z := throw (RuntimeError "S - MPI_Comm_c2f not implemented!").
Definition MPI_Comm_f2c (fComm : Z) : MM Z := throw (RuntimeError "S - MPI_Comm_f2c not implemented!").
Definition MPI_Rsend (buffer count datatype destRank tag comm : Z) : MM Z :=
  throw (RuntimeError "MPI_Rsend is not implemented").
Definition MPI_Waitall (count requestArray statusArray : Z) : MM Z :=
  throw (RuntimeError "MPI_Waitall is not implemented!").
Definition MPI_Waitany (count requestArray idx status : Z) : MM Z :=
  throw (RuntimeError "MPI_Waitany is not implemented!").
Definition MPI_Allgatherv (sendBuf sendCount sendType recvBuf recvCount dspls recvType comm : Z) : MM Z :=
  throw (RuntimeError "MPI_Allgatherv not implemented!").
Definition MPI_Reduce_scatter (sendBuf recvBuf recvCount datatype op comm : Z) : MM Z :=
  throw (RuntimeError "MPI_Reduce_scatter is not implemented!").
Definition MPI_Alltoallv (sendBuf sendCount sdispls sendType recvBuf recvCount rdispls recvType comm : Z)
    : MM Z := throw (RuntimeError "MPI_Alltoallv not implemented!").
Definition MPI_Op_create (userFn commute op : Z) : MM Z :=
  throw (RuntimeError "MPI_Op_create not implemented!").
Definition MPI_Op_free (op : Z) : MM Z := throw (RuntimeError "MPI_Op_free not implemented!").
Definition MPI_Win_create (basePtr size dispUnit info comm winPtrPtr : Z) : MM Z :=
  throw (RuntimeError "MPI_Win_create is not implemented!").
Definition MPI_Win_fence (assert winPtr : Z) : MM Z :=
  throw (RuntimeError "MPI_Win_fence is not implemented!").
Definition MPI_Get (recvBuf recvCount recvType sendRank sendOffset sendCount sendType winPtr : Z) : MM Z :=
  throw (RuntimeError "MPI_Get is not implemented!").
Definition MPI_Put (sendBuf sendCount sendType recvRank recvOffset recvCount recvType winPtr : Z) : MM Z :=
  throw (RuntimeError "MPI_Put is not implemented!").
Definition MPI_Win_free (winPtr : Z) : MM Z := throw (RuntimeError "MPI_Win_free is not implemented!").
Definition MPI_Win_get_attr (winPtr attrKey attrResPtrPtr flagResPtr : Z) : MM Z :=
  throw (RuntimeError "MPI_Win_get_attr is not implemented!").
Definition MPI_Request_free (requestPtr : Z) : MM Z :=
  throw (RuntimeError "MPI_Request_free is not implemented!").
Definition MPI_Type_free (datatype : Z) : MM Z :=
  throw (RuntimeError "MPI_Type_free is not implemented!").

(** ** Any call *)

Inductive mpi_call : Type :=
  | CInit (a b : Z)
  | CAbort (a b : Z)
  | CFinalize
  | CComm_size (comm resPtr : Z)
  | CComm_rank (comm resPtr : Z)
  | CComm_free (comm : Z)
  | CSend (buffer count datatype destRank tag comm : Z)
  | CIsend (buffer count datatype destRank tag comm requestPtrPtr : Z)
  | CRecv (buffer count datatype sourceRank tag comm statusPtr : Z)
  | CIrecv (buffer count datatype sourceRank tag comm requestPtrPtr : Z)
  | CWait (requestPtrPtr status : Z)
  | CSendrecv (sendBuf sendCount sendType destination sendTag recvBuf recvCount recvType source recvTag comm statusPtr : Z)
  | CGet_count (statusPtr datatype countPtr : Z)
  | CProbe (source tag comm statusPtr : Z)
  | CBcast (buffer count datatype root comm : Z)
  | CBarrier (comm : Z)
  | CScatter (sendBuf sendCount sendType recvBuf recvCount recvType root comm : Z)
  | CGather (sendBuf sendCount sendType recvBuf recvCount recvType root comm : Z)
  | CAllgather (sendBuf sendCount sendType recvBuf recvCount recvType comm : Z)
  | CReduce (sendBuf recvBuf count datatype op root comm : Z)
  | CAllreduce (sendBuf recvBuf count datatype op comm : Z)
  | CScan (sendBuf recvBuf count datatype op comm : Z)
  | CAlltoall (sendBuf sendCount sendType recvBuf recvCount recvType comm : Z)
  | CGet_processor_name (buf bufLen : Z)
  | CType_size (typePtr res : Z)
  | CType_contiguous (count oldDatatypePtr newDatatypePtrPtr : Z)
  | CType_commit (datatypePtrPtr : Z)
  | CAlloc_mem (memSize info resPtrPtr : Z)
  | CFree_mem (basePtr : Z)
  | CCart_create (commOld ndims dims periods reorder newCommPtrPtr : Z)
  | CCart_rank (comm coords rankPtr : Z)
  | CCart_get (comm maxdims dims periods coords : Z)
  | CCart_shift (comm direction disp sourceRank destRank : Z)
  | CWtime
  | CGet_version (version subversion : Z)
  | CComm_dup (comm newComm : Z)
  | CComm_split (comm color key newComm : Z)
  | CComm_c2f (comm : Z)
  | CComm_f2c (fComm : Z)
  | CRsend (buffer count datatype destRank tag comm : Z)
  | CWaitall (count requestArray statusArray : Z)
  | CWaitany (count requestArray idx status : Z)
  | CAllgatherv (sendBuf sendCount sendType recvBuf recvCount dspls recvType comm : Z)
  | CReduce_scatter (sendBuf recvBuf recvCount datatype op comm : Z)
  | CAlltoallv (sendBuf sendCount sdispls sendType recvBuf recvCount rdispls recvType comm : Z)
  | COp_create (userFn commute op : Z)
  | COp_free (op : Z)
  | CWin_create (basePtr size dispUnit info comm winPtrPtr : Z)
  | CWin_fence (assert winPtr : Z)
  | CGet (recvBuf recvCount recvType sendRank sendOffset sendCount sendType winPtr : Z)
  | CPut (sendBuf sendCount sendType recvRank recvOffset recvCount recvType winPtr : Z)
  | CWin_free (winPtr : Z)
  | CWin_get_attr (winPtr attrKey attrResPtrPtr flagResPtr : Z)
  | CRequest_free (requestPtr : Z)
  | CType_free (datatype : Z).

Definition run_mpi_call (c : mpi_call) : MM unit :=
  match c with
  | CInit a b => MPI_Init a b ;; mret ()
  | CAbort a b => MPI_Abort a b ;; mret ()
  | CFinalize => MPI_Finalize ;; mret ()
  | CComm_size comm resPtr => MPI_Comm_size comm resPtr ;; mret ()
  | CComm_rank comm resPtr => MPI_Comm_rank comm resPtr ;; mret ()
  | CComm_free comm => MPI_Comm_free comm ;; mret ()
  | CSend buffer count datatype destRank tag comm => MPI_Send buffer count datatype destRank tag comm ;; mret ()
  | CIsend buffer count datatype destRank tag comm requestPtrPtr => MPI_Isend buffer count datatype destRank tag comm requestPtrPtr ;; mret ()
  | CRecv buffer count datatype sourceRank tag comm statusPtr => MPI_Recv buffer count datatype sourceRank tag comm statusPtr ;; mret ()
  | CIrecv buffer count datatype sourceRank tag comm requestPtrPtr => MPI_Irecv buffer count datatype sourceRank tag comm requestPtrPtr ;; mret ()
  | CWait requestPtrPtr status => MPI_Wait requestPtrPtr status ;; mret ()
  | CSendrecv sendBuf sendCount sendType destination sendTag recvBuf recvCount recvType source recvTag comm statusPtr => MPI_Sendrecv sendBuf sendCount sendType destination sendTag recvBuf recvCount recvType source recvTag comm statusPtr ;; mret ()
  | CGet_count statusPtr datatype countPtr => MPI_Get_count statusPtr datatype countPtr ;; mret ()
  | CProbe source tag comm statusPtr => MPI_Probe source tag comm statusPtr ;; mret ()
  | CBcast buffer count datatype root comm => MPI_Bcast buffer count datatype root comm ;; mret ()
  | CBarrier comm => MPI_Barrier comm ;; mret ()
  | CScatter sendBuf sendCount sendType recvBuf recvCount recvType root comm => MPI_Scatter sendBuf sendCount sendType recvBuf recvCount recvType root comm ;; mret ()
  | CGather sendBuf sendCount sendType recvBuf recvCount recvType root comm => MPI_Gather sendBuf sendCount sendType recvBuf recvCount recvType root comm ;; mret ()
  | CAllgather sendBuf sendCount sendType recvBuf recvCount recvType comm => MPI_Allgather sendBuf sendCount sendType recvBuf recvCount recvType comm ;; mret ()
  | CReduce sendBuf recvBuf count datatype op root comm => MPI_Reduce sendBuf recvBuf count datatype op root comm ;; mret ()
  | CAllreduce sendBuf recvBuf count datatype op comm => MPI_Allreduce sendBuf recvBuf count datatype op comm ;; mret ()
  | CScan sendBuf recvBuf count datatype op comm => MPI_Scan sendBuf recvBuf count datatype op comm ;; mret ()
  | CAlltoall sendBuf sendCount sendType recvBuf recvCount recvType comm => MPI_Alltoall sendBuf sendCount sendType recvBuf recvCount recvType comm ;; mret ()
  | CGet_processor_name buf bufLen => MPI_Get_processor_name buf bufLen ;; mret ()
  | CType_size typePtr res => MPI_Type_size typePtr res ;; mret ()
  | CType_contiguous count oldDatatypePtr newDatatypePtrPtr => MPI_Type_contiguous count oldDatatypePtr newDatatypePtrPtr ;; mret ()
  | CType_commit datatypePtrPtr => MPI_Type_commit datatypePtrPtr ;; mret ()
  | CAlloc_mem memSize info resPtrPtr => MPI_Alloc_mem memSize info resPtrPtr ;; mret ()
  | CFree_mem basePtr => MPI_Free_mem basePtr ;; mret ()
  | CCart_create commOld ndims dims periods reorder newCommPtrPtr => MPI_Cart_create commOld ndims dims periods reorder newCommPtrPtr ;; mret ()
  | CCart_rank comm coords rankPtr => MPI_Cart_rank comm coords rankPtr ;; mret ()
  | CCart_get comm maxdims dims periods coords => MPI_Cart_get comm maxdims dims periods coords ;; mret ()
  | CCart_shift comm direction disp sourceRank destRank => MPI_Cart_shift comm direction disp sourceRank destRank ;; mret ()
  | CWtime => MPI_Wtime ;; mret ()
  | CGet_version version subversion => MPI_Get_version version subversion ;; mret ()
  | CComm_dup comm newComm => MPI_Comm_dup comm newComm ;; mret ()
  | CComm_split comm color key newComm => MPI_Comm_split comm color key newComm ;; mret ()
  | CComm_c2f comm => MPI_Comm_c2f comm ;; mret ()
  | CComm_f2c fComm => MPI_Comm_f2c fComm ;; mret ()
  | CRsend buffer count datatype destRank tag comm => MPI_Rsend buffer count datatype destRank tag comm ;; mret ()
  | CWaitall count requestArray statusArray => MPI_Waitall count requestArray statusArray ;; mret ()
  | CWaitany count requestArray idx status => MPI_Waitany count requestArray idx status ;; mret ()
  | CAllgatherv sendBuf sendCount sendType recvBuf recvCount dspls recvType comm => MPI_Allgatherv sendBuf sendCount sendType recvBuf recvCount dspls recvType comm ;; mret ()
  | CReduce_scatter sendBuf recvBuf recvCount datatype op comm => MPI_Reduce_scatter sendBuf recvBuf recvCount datatype op comm ;; mret ()
  | CAlltoallv sendBuf sendCount sdispls sendType recvBuf recvCount rdispls recvType comm => MPI_Alltoallv sendBuf sendCount sdispls sendType recvBuf recvCount rdispls recvType comm ;; mret ()
  | COp_create userFn commute op => MPI_Op_create userFn commute op ;; mret ()
  | COp_free op => MPI_Op_free op ;; mret ()
  | CWin_create basePtr size dispUnit info comm winPtrPtr => MPI_Win_create basePtr size dispUnit info comm winPtrPtr ;; mret ()
  | CWin_fence assert winPtr => MPI_Win_fence assert winPtr ;; mret ()
  | CGet recvBuf recvCount recvType sendRank sendOffset sendCount sendType winPtr => MPI_Get recvBuf recvCount recvType sendRank sendOffset sendCount sendType winPtr ;; mret ()
  | CPut sendBuf sendCount sendType recvRank recvOffset recvCount recvType winPtr => MPI_Put sendBuf sendCount sendType recvRank recvOffset recvCount recvType winPtr ;; mret ()
  | CWin_free winPtr => MPI_Win_free winPtr ;; mret ()
  | CWin_get_attr winPtr attrKey attrResPtrPtr flagResPtr => MPI_Win_get_attr winPtr attrKey attrResPtrPtr flagResPtr ;; mret ()
  | CRequest_free requestPtr => MPI_Request_free requestPtr ;; mret ()
  | CType_free datatype => MPI_Type_free datatype ;; mret ()
  end.
End mpi.

(** * Delivery *)

(** What faabric promises of messages, with [queue t w src dst] the messages of world [w]
    from [src] to [dst] that are sent and not received: a send copies [count] elements
    and queues them; a receive takes the first message, copies it to the buffer and fills
    the status, and waits when there is none. *)
Class MpiLaws `{MpiTypes} `{MpiWorlds} (queue : MW → Z → Z → Z → list (list Z)) : Prop := {
  struct_sizes : 0 ≤ sizeof_communicator ∧ 0 ≤ sizeof_datatype;
  send_law w src dst buf dt count mem t bs :
    0 ≤ count → mem_read mem buf (count * datatype_size dt) = Ret bs →
    ∃ t', world_do w (WSend src dst buf dt count) mem t = (Ret ([], ()), t') ∧
      queue t' w src dst = queue t w src dst ++ [bs];
  send_reads w src dst buf dt count mem t :
    0 ≤ count → in_mem mem buf (count * datatype_size dt) = false →
    ∃ e, world_do w (WSend src dst buf dt count) mem t = (Throw (Undefined e), t);
  recv_law w src dst buf dt count status mem t bs q :
    queue t w src dst = bs :: q → Z.of_nat (length bs) ≤ count * datatype_size dt < 2 ^ 31 →
    ∃ t' st, world_do w (WRecv src dst buf dt count status) mem t = (Ret ([(buf, bs); (status, st)], ()), t') ∧
      Z.of_nat (length st) = sizeof_status ∧ status_bytesSize st = Z.of_nat (length bs) ∧
      queue t' w src dst = q;
  recv_waits w src dst buf dt count status mem t :
    queue t w src dst = [] →
    ∃ e, world_do w (WRecv src dst buf dt count status) mem t = (Throw (Blocked e), t) }.

(** Where a program keeps its communicator, datatype, status and count. *)
Record MpiArgs := mkMpiArgs { ar_comm : Z; ar_dt : Z; ar_status : Z; ar_count : Z }.

(** The rank of a module that is in a world, as the program sees it. *)
Record MpiRank `{Scheduler} := mkMpiRank { rk_guest : GuestState; rk_module : WasmModule }.
Arguments mkMpiRank {_} _ _.

Section delivery.
Context `{Sc : Scheduler} `{E : MemoryEnv} `{MT : MpiTypes} `{MWs : MpiWorlds}
  (queue : MW → Z → Z → Z → list (list Z)) `{ML : !MpiLaws queue}.

Abbreviation MS := (GuestWith MpiState).
Abbreviation MM := (M MS).

(** The communicator is the world's, elements have [size] bytes, and there is room for
    the status and the count, apart from the communicator and the datatype. *)
Record ready (mem : Mem) (l : MpiArgs) (size : Z) : Prop := mkReady {
  rd_comm : ∃ bs, mem_read mem (ar_comm l) sizeof_communicator = Ret bs ∧ communicator_id bs = FAABRIC_COMM_WORLD;
  rd_dt : ∃ bs, mem_read mem (ar_dt l) sizeof_datatype = Ret bs ∧ datatype_size bs = size;
  rd_status : in_mem mem (ar_status l) sizeof_status = true;
  rd_count : in_mem mem (ar_count l) 4 = true }.

(** A range that is apart from the communicator and the datatype. *)
Definition spares (l : MpiArgs) (x : Z * Z) : Prop :=
  iov_disjoint (ar_comm l, sizeof_communicator) x ∧ iov_disjoint (ar_dt l, sizeof_datatype) x.
Definition well_placed (l : MpiArgs) : Prop :=
  spares l (ar_status l, sizeof_status) ∧ spares l (ar_count l, 4).

Lemma ready_write mem l size a bs m' :
  ready mem l size → mem_write mem a bs = Ret m' → spares l (a, Z.of_nat (length bs)) → ready m' l size.
Proof.
  intros [(cb & Hc & Hid) (db & Hd & Hs) Hst Hct] Hw [H1 H2].
  unfold iov_disjoint in H1, H2. cbn in H1, H2. destruct struct_sizes as [Hn1 Hn2].
  split; [exists cb|exists db|by rewrite (in_mem_write _ _ _ _ _ _ Hw)..].
  - by rewrite (mem_read_write_disjoint _ _ _ _ _ _ Hw Hn1 H1).
  - by rewrite (mem_read_write_disjoint _ _ _ _ _ _ Hw Hn2 H2).
Qed.

Lemma run_checkMpiComm l size (g : GuestState) :
  ready (g_mem g) l size → checkMpiComm (ar_comm l) g = (Ret (), g).
Proof.
  intros [(cb & Hc & Hid) _ _ _]. unfold checkMpiComm.
  rewrite (run_bind_ret _ _ _ _ _ (run_read_ref _ _ _ _ Hc)), Hid, Z.eqb_refl. done.
Qed.
Lemma run_statusRef l size (g : GuestState) :
  ready (g_mem g) l size → ∃ st, statusRef (ar_status l) g = (Ret st, g).
Proof.
  intros [_ _ Hst _]. eexists. apply run_read_ref. unfold mem_read. by rewrite Hst.
Qed.

(** The state of a rank in a call: its context names the world and the rank. *)
Definition in_world (w r : Z) (x : MpiRank) (t : MW) : MS :=
  mkGuestWith (rk_guest x) (rk_module x) (mkMpiState t (Some (mkContextWrapper w r))).

Lemma run_the_ctx w r x t : the_ctx (in_world w r x t) = (Ret (mkContextWrapper w r), in_world w r x t).
Proof. done. Qed.

Definition rank_mem (x : MpiRank) : Mem := g_mem (rk_guest x).
Definition set_rank_mem (m : Mem) (x : MpiRank) : MpiRank := mkMpiRank (set_mem m (rk_guest x)) (rk_module x).

Lemma run_guest_id {A} (f : M GuestState A) w r x t o :
  f (rk_guest x) = (o, rk_guest x) → on_guest f (in_world w r x t) = (o, in_world w r x t).
Proof. intros Hf. by apply run_on_guest_id. Qed.
Lemma run_guest_mem {A} (f : M GuestState A) w r x t o m :
  f (rk_guest x) = (o, set_mem m (rk_guest x)) →
  on_guest f (in_world w r x t) = (o, in_world w r (set_rank_mem m x) t).
Proof. intros Hf. unfold on_guest, zoom. cbn. by rewrite Hf. Qed.

(** The writes of a world's operation, one after another. *)
Fixpoint mem_writes (mem : Mem) (ws : list (Z * list Z)) : outcome Mem :=
  match ws with
  | [] => Ret mem
  | (a, bs) :: ws => m ← mem_write mem a bs; mem_writes m ws
  end.
Lemma run_writes ws w r x t m :
  mem_writes (rank_mem x) ws = Ret m →
  for_each ws (λ '(a, bs), on_guest (write_native a bs)) (in_world w r x t) =
    (Ret (), in_world w r (set_rank_mem m x) t).
Proof.
  revert x. induction ws as [|[a bs] ws IH]; intros x Hm; cbn [for_each mem_writes] in *.
  - injection Hm as <-. by destruct x as [[] ?].
  - destruct (mem_write (rank_mem x) a bs) as [m1|] eqn:Hw; [|done].
    rewrite (run_bind_ret _ _ _ _ _ (run_guest_mem _ _ _ _ _ _ _ (write_native_run _ _ _ _ Hw))).
    by rewrite (IH (set_rank_mem m1 x) Hm).
Qed.
Lemma run_world_call {A} (op : world_op A) w r x t ws res t' m :
  world_do w op (rank_mem x) t = (Ret (ws, res), t') → mem_writes (rank_mem x) ws = Ret m →
  world_call w op (in_world w r x t) = (Ret res, in_world w r (set_rank_mem m x) t').
Proof.
  intros Hop Hm. unfold world_call. rewrite run_bind. cbn [get].
  rewrite (run_bind_ret _ _ _ (ws, res) (in_world w r x t'))
    by (unfold on_worlds, on_ext, zoom; cbn; fold (rank_mem x); by rewrite Hop).
  cbn beta iota. by rewrite (run_bind_ret _ _ _ _ _ (run_writes ws w r x t' m Hm)).
Qed.

(** ** One message *)

(** Sending leaves the sender as it is and queues the elements. *)
Lemma send_run l size w a b x t buf count tag bs :
  ready (rank_mem x) l size → 0 < size → 0 ≤ count < 2 ^ 31 →
  mem_read (rank_mem x) buf (count * size) = Ret bs →
  ∃ t', MPI_Send buf count (ar_dt l) b tag (ar_comm l) (in_world w a x t) = (Ret 0, in_world w a x t') ∧
    queue t' w a b = queue t w a b ++ [bs].
Proof.
  intros Hr Hsize Hcount Hbs. pose proof (rd_dt _ _ _ Hr) as (dt & Hdt & Hds). subst size.
  destruct (send_law w a b buf dt count (rank_mem x) t bs ltac:(lia) Hbs) as (t' & Hsend & Hq).
  assert (in_mem (rank_mem x) buf count = true) as Hin.
  { unfold mem_read in Hbs. destruct (in_mem _ _ _) eqn:Hb; [|done]. apply in_mem_true in Hb. apply in_mem_true. nia. }
  exists t'. split; [|done]. unfold MPI_Send.
  rewrite (run_bind_ret _ _ _ _ _ (run_the_ctx w a x t)).
  rewrite (run_bind_ret _ _ _ _ _ (run_guest_id _ w a x t _ (run_checkMpiComm _ _ _ Hr))).
  rewrite (run_bind_ret _ _ _ _ _ (run_guest_id (getFaasmDataType _) w a x t _ (run_read_ref _ _ _ _ Hdt))).
  rewrite (run_bind_ret _ _ _ () (in_world w a x t))
    by (apply run_guest_id, memoryArrayPtr_run; rewrite wrapU_id by (unfold in_u; lia); exact Hin).
  rewrite (run_bind_ret _ _ _ () (in_world w a x t')); [done|].
  cbn [cw_world cw_rank]. rewrite (run_world_call _ w a x t [] () t' (rank_mem x) Hsend eq_refl).
  by destruct x as [[] ?].
Qed.

(** The program of a receiver: it receives, asks for the count, and reads the elements. *)
Definition receive_message (l : MpiArgs) (size src tag buf count : Z) : MM (list Z) :=
  MPI_Recv buf count (ar_dt l) src tag (ar_comm l) (ar_status l) ;;
  MPI_Get_count (ar_status l) (ar_dt l) (ar_count l) ;;
  on_guest (s ← get; n ← lift (load_i32 (g_mem s) (ar_count l)); lift (mem_read (g_mem s) buf (n * size))).

(** What a buffer for a message has to be: in the memory, and apart from the rest. *)
Definition buffer_for (l : MpiArgs) (mem : Mem) (buf n : Z) : Prop :=
  in_mem mem buf n = true ∧ spares l (buf, n) ∧
  iov_disjoint (buf, n) (ar_status l, sizeof_status) ∧ iov_disjoint (buf, n) (ar_count l, 4).

Lemma disjoint_prefix x a n k : 0 ≤ k ≤ n → iov_disjoint x (a, n) → iov_disjoint x (a, k).
Proof. unfold iov_disjoint. cbn. lia. Qed.
Lemma spares_prefix l a n k : 0 ≤ k ≤ n → spares l (a, n) → spares l (a, k).
Proof. intros Hk [H1 H2]. split; by eapply disjoint_prefix. Qed.

Lemma recv_run l size w a b x t buf count tag bs dt m1 m2 st t' :
  ready (rank_mem x) l size → 0 ≤ count < 2 ^ 31 → in_mem (rank_mem x) buf count = true →
  mem_read (rank_mem x) (ar_dt l) sizeof_datatype = Ret dt →
  world_do w (WRecv a b buf dt count (ar_status l)) (rank_mem x) t =
    (Ret ([(buf, bs); (ar_status l, st)], ()), t') →
  mem_write (rank_mem x) buf bs = Ret m1 → mem_write m1 (ar_status l) st = Ret m2 →
  MPI_Recv buf count (ar_dt l) a tag (ar_comm l) (ar_status l) (in_world w b x t) =
    (Ret 0, in_world w b (set_rank_mem m2 x) t').
Proof.
  intros Hr Hcount Hin Hdt Hrecv Hw1 Hw2. destruct (run_statusRef _ _ _ Hr) as [st0 Hst0]. unfold MPI_Recv.
  rewrite (run_bind_ret _ _ _ _ _ (run_the_ctx w b x t)).
  rewrite (run_bind_ret _ _ _ _ _ (run_guest_id _ w b x t _ (run_checkMpiComm _ _ _ Hr))).
  rewrite (run_bind_ret _ _ _ _ _ (run_guest_id _ w b x t _ Hst0)).
  rewrite (run_bind_ret _ _ _ _ _ (run_guest_id (getFaasmDataType _) w b x t _ (run_read_ref _ _ _ _ Hdt))).
  rewrite (run_bind_ret _ _ _ () (in_world w b x t))
    by (apply run_guest_id, memoryArrayPtr_run; rewrite wrapU_id by (unfold in_u; lia); exact Hin).
  rewrite (run_bind_ret _ _ _ () (in_world w b (set_rank_mem m2 x) t')); [done|].
  apply (run_world_call _ w b x t _ () t' m2 Hrecv).
  cbn [mem_writes]. rewrite Hw1. cbn [mbind outcome_bind mem_writes]. by rewrite Hw2.
Qed.

(** The count of a status is the number of its elements. *)
Lemma get_count_run l size w b x t st k m :
  ready (rank_mem x) l size → 0 < size → 0 ≤ k →
  mem_read (rank_mem x) (ar_status l) sizeof_status = Ret st → status_bytesSize st = k * size →
  mem_write (rank_mem x) (ar_count l) (le32 k) = Ret m →
  MPI_Get_count (ar_status l) (ar_dt l) (ar_count l) (in_world w b x t) =
    (Ret MPI_SUCCESS, in_world w b (set_rank_mem m x) t).
Proof.
  intros Hr Hsize Hk Hst Hb Hw. pose proof (rd_dt _ _ _ Hr) as (dt & Hdt & Hds). unfold MPI_Get_count.
  rewrite (run_bind_ret _ _ _ _ _ (run_the_ctx w b x t)).
  rewrite (run_bind_ret _ _ _ _ _ (run_guest_id (statusRef _) w b x t _ (run_read_ref _ _ _ _ Hst))).
  rewrite (run_bind_ret _ _ _ _ _ (run_guest_id (getFaasmDataType _) w b x t _ (run_read_ref _ _ _ _ Hdt))).
  rewrite Hds, Hb. destruct (Z.eqb_spec size 0); [lia|].
  rewrite Z.rem_mul by lia. cbn [Z.eqb negb]. rewrite Z.quot_mul by lia.
  by rewrite (run_bind_ret _ _ _ _ _ (run_guest_mem (writeMpiResult _ _) w b x t (Ret ()) m (run_write_ref _ _ _ _ Hw))).
Qed.

(** Receiving takes the first message, of [k] elements, to the program. *)
Lemma receive_message_run l size w a b x t buf count tag bs q k :
  ready (rank_mem x) l size → well_placed l → 0 < size → 0 ≤ k ≤ count →
  count * size < 2 ^ 31 → buffer_for l (rank_mem x) buf (count * size) → 0 ≤ sizeof_status →
  Z.of_nat (length bs) = k * size → queue t w a b = bs :: q →
  ∃ x' t', receive_message l size a tag buf count (in_world w b x t) = (Ret bs, in_world w b x' t') ∧
    queue t' w a b = q ∧ ready (rank_mem x') l size ∧ mem_size (rank_mem x') = mem_size (rank_mem x).
Proof.
  intros Hr [Hsp1 Hsp2] Hsize Hk Hcs (Hin & Hsp & Hd1 & Hd2) Hss Hlen Hq.
  assert (count < 2 ^ 31) as Hcount by nia.
  pose proof (rd_dt _ _ _ Hr) as (dt & Hdt & Hds).
  destruct (recv_law w a b buf dt count (ar_status l) (rank_mem x) t bs q Hq ltac:(rewrite Hds; nia))
    as (t' & st & Hrecv & Hstl & Hstb & Hq').
  destruct (mem_write_exists (rank_mem x) buf bs) as [m1 Hw1].
  { eapply in_mem_prefix; [|exact Hin]. rewrite Hlen. nia. }
  assert (spares l (buf, Z.of_nat (length bs))) as Hspb by (eapply spares_prefix; [|exact Hsp]; rewrite Hlen; nia).
  pose proof (ready_write _ _ _ _ _ _ Hr Hw1 Hspb) as Hr1.
  destruct (mem_write_exists m1 (ar_status l) st) as [m2 Hw2].
  { rewrite Hstl. apply (rd_status _ _ _ Hr1). }
  rewrite <- Hstl in Hsp1. pose proof (ready_write _ _ _ _ _ _ Hr1 Hw2 Hsp1) as Hr2.
  destruct (mem_write_exists m2 (ar_count l) (le32 k)) as [m3 Hw3].
  { rewrite length_le32. apply (rd_count _ _ _ Hr2). }
  assert (spares l (ar_count l, Z.of_nat (length (le32 k)))) as Hspk by (by rewrite length_le32).
  pose proof (ready_write _ _ _ _ _ _ Hr2 Hw3 Hspk) as Hr3.
  exists (set_rank_mem m3 x), t'. split_and!; [|done|exact Hr3|].
  2: { cbn. by rewrite (mem_write_size _ _ _ _ Hw3), (mem_write_size _ _ _ _ Hw2), (mem_write_size _ _ _ _ Hw1). }
  unfold receive_message.
  rewrite (run_bind_ret _ _ _ 0 (in_world w b (set_rank_mem m2 x) t')).
  2: { eapply recv_run; [done|lia| |done..]. eapply in_mem_prefix; [|exact Hin]. nia. }
  rewrite (run_bind_ret _ _ _ MPI_SUCCESS (in_world w b (set_rank_mem m3 x) t')).
  2: { apply (get_count_run l size w b (set_rank_mem m2 x) t' st k m3); try done; [lia| |lia].
       cbn. rewrite <- Hstl. apply (mem_read_write _ _ _ _ Hw2). }
  apply (run_guest_id _ w b (set_rank_mem m3 x) t'). rewrite run_bind. cbn [get rk_guest set_rank_mem g_mem set_mem].
  rewrite run_bind. unfold lift at 1.
  rewrite (load_store_i32 m2 (ar_count l) k m3 Hw3), wrapS_id by (unfold in_s; lia).
  unfold lift. f_equal.
  assert (∀ m m' c cs, mem_write m c cs = Ret m' → iov_disjoint (buf, count * size) (c, Z.of_nat (length cs)) →
    mem_read m' buf (k * size) = mem_read m buf (k * size)) as Hkeep.
  { intros m m' c cs Hw Hd. apply (mem_read_write_disjoint _ _ _ _ _ _ Hw); [nia|].
    unfold iov_disjoint in Hd. cbn in Hd. nia. }
  rewrite (Hkeep _ _ _ _ Hw3) by by rewrite length_le32.
  rewrite (Hkeep _ _ _ _ Hw2) by by rewrite Hstl.
  rewrite <- Hlen. apply (mem_read_write _ _ _ _ Hw1).
Qed.

(** ** Any order of sends and receives *)

(** A step of two programs: the one sends from a buffer, the other receives to one. *)
Inductive exchange_step : Type := Sends (buf count : Z) | Receives (buf : Z).

Definition rank_of (s : MS) : MpiRank := mkMpiRank (gw_guest s) (gw_module s).

Lemma rank_of_in_world w r x t : rank_of (in_world w r x t) = x.
Proof. by destruct x. Qed.

(** What the receiver gets when rank [a] of world [w] sends to rank [b] in this order;
    [x] and [y] are the two. *)
Fixpoint exchange (la lb : MpiArgs) (size max w a b tag : Z) (es : list exchange_step) (x y : MpiRank)
    (t : MW) : outcome (list (list Z)) :=
  match es with
  | [] => Ret []
  | Sends buf count :: es =>
      match MPI_Send buf count (ar_dt la) b tag (ar_comm la) (in_world w a x t) with
      | (Ret _, s) => exchange la lb size max w a b tag es (rank_of s) y (mworlds (gw_ext s))
      | (Throw e, _) => Throw e
      end
  | Receives buf :: es =>
      match receive_message lb size a tag buf max (in_world w b y t) with
      | (Ret bs, s) =>
          rest ← exchange la lb size max w a b tag es x (rank_of s) (mworlds (gw_ext s)); Ret (bs :: rest)
      | (Throw e, _) => Throw e
      end
  end.

(** The messages in the sender's memory, and how many are received. *)
Definition sent (size : Z) (mem : Mem) (es : list exchange_step) : list (list Z) :=
  omap (λ e, match e with
    | Sends buf count => match mem_read mem buf (count * size) with Ret bs => Some bs | Throw _ => None end
    | Receives _ => None end) es.
Fixpoint received (es : list exchange_step) : nat :=
  match es with [] => 0 | Sends _ _ :: es => received es | Receives _ :: es => S (received es) end.
(** With [n] messages waiting, each receive has one. *)
Fixpoint balanced (n : nat) (es : list exchange_step) : Prop :=
  match es with
  | [] => True
  | Sends _ _ :: es => balanced (S n) es
  | Receives _ :: es => match n with O => False | S n => balanced n es end
  end.
Definition step_fits (lb : MpiArgs) (size max : Z) (x y : Mem) (e : exchange_step) : Prop :=
  match e with
  | Sends buf count => 0 ≤ count ≤ max ∧ in_mem x buf (count * size) = true
  | Receives buf => buffer_for lb y buf (max * size)
  end.

Lemma step_fits_size lb size max x y y' e :
  mem_size y' = mem_size y → step_fits lb size max x y e → step_fits lb size max x y' e.
Proof. intros Hy. destruct e; [done|]. unfold step_fits, buffer_for, in_mem. by rewrite Hy. Qed.

Lemma length_mem_read m a n bs : 0 ≤ n → mem_read m a n = Ret bs → Z.of_nat (length bs) = n.
Proof.
  intros Hn. unfold mem_read. destruct (in_mem m a n) eqn:Hin; [|done]. intros [= <-].
  apply in_mem_true in Hin. unfold mem_size in Hin. rewrite length_take, length_drop. lia.
Qed.

Lemma exchange_queued la lb size max w a b tag es x y t q :
  ready (rank_mem x) la size → ready (rank_mem y) lb size → well_placed lb →
  0 < size → max * size < 2 ^ 31 → 0 ≤ sizeof_status →
  Forall (step_fits lb size max (rank_mem x) (rank_mem y)) es →
  queue t w a b = q → Forall (λ bs, ∃ k, Z.of_nat (length bs) = k * size ∧ 0 ≤ k ≤ max) q →
  balanced (length q) es →
  exchange la lb size max w a b tag es x y t = Ret (take (received es) (q ++ sent size (rank_mem x) es)).
Proof.
  intros Hx Hy Hp Hsize Hmax Hss. revert y t q Hy.
  induction es as [|e es IH]; intros y t q Hy Hes Hq Hlen Hb; [done|].
  inversion_clear Hes as [|? ? Hfit Hes']. destruct e as [buf count|buf]; cbn [exchange received balanced] in *.
  - destruct Hfit as [Hcount Hin].
    assert (∃ bs, mem_read (rank_mem x) buf (count * size) = Ret bs) as [bs Hbs]
      by (unfold mem_read; rewrite Hin; by eexists).
    destruct (send_run la size w a b x t buf count tag bs Hx Hsize ltac:(nia) Hbs) as (t' & Hsend & Hq').
    rewrite Hsend, rank_of_in_world. cbn [mworlds gw_ext in_world].
    rewrite (IH y t' (q ++ [bs])); [|done|done|by rewrite Hq', Hq| |by rewrite length_app, Nat.add_comm].
    { unfold sent. cbn. rewrite Hbs. by rewrite <- app_assoc. }
    apply Forall_app. split; [done|]. constructor; [|done]. exists count.
    split; [|lia]. apply (length_mem_read (rank_mem x) buf); [nia|done].
  - destruct q as [|bs q]; [done|]. cbn [length] in Hb. inversion_clear Hlen as [|? ? (k & Hk & Hkm) Hlen'].
    destruct (receive_message_run lb size w a b y t buf max tag bs q k) as (y' & t' & Hrecv & Hq' & Hy' & Hsz);
      try done.
    rewrite Hrecv, rank_of_in_world. cbn [mworlds gw_ext in_world].
    rewrite (IH y' t' q); [done..| |done|done|done].
    eapply Forall_impl; [exact Hes'|]. intros e. by apply step_fits_size.
Qed.

(** C29: two ranks of a world exchange messages of up to [max] elements in any order in
    which each receive has a message: with [MPI_Recv], [MPI_Get_count] and a read of its
    buffer the receiver gets exactly the bytes that the sender's buffers held, in the
    order in which they were sent. *)
Theorem messages_in_order la lb size max w a b tag es x y t :
  ready (rank_mem x) la size → ready (rank_mem y) lb size → well_placed lb →
  0 < size → max * size < 2 ^ 31 → 0 ≤ sizeof_status →
  Forall (step_fits lb size max (rank_mem x) (rank_mem y)) es →
  queue t w a b = [] → balanced 0 es →
  exchange la lb size max w a b tag es x y t = Ret (take (received es) (sent size (rank_mem x) es)).
Proof. intros. by apply (exchange_queued la lb size max w a b tag es x y t []). Qed.

(** ** Buffers that are too short *)

(** A send of more bytes than elements passes the check and is read past the end. *)
Lemma send_overreads l size w a b x t buf count tag :
  ready (rank_mem x) l size → 0 ≤ count < 2 ^ 31 → in_mem (rank_mem x) buf count = true →
  in_mem (rank_mem x) buf (count * size) = false →
  ∃ e, (MPI_Send buf count (ar_dt l) b tag (ar_comm l) (in_world w a x t)).1 = Throw (Undefined e).
Proof.
  intros Hr Hcount Hin Hout. pose proof (rd_dt _ _ _ Hr) as (dt & Hdt & Hds). subst size.
  destruct (send_reads w a b buf dt count (rank_mem x) t ltac:(lia) Hout) as [e He].
  exists e. unfold MPI_Send.
  rewrite (run_bind_ret _ _ _ _ _ (run_the_ctx w a x t)).
  rewrite (run_bind_ret _ _ _ _ _ (run_guest_id _ w a x t _ (run_checkMpiComm _ _ _ Hr))).
  rewrite (run_bind_ret _ _ _ _ _ (run_guest_id (getFaasmDataType _) w a x t _ (run_read_ref _ _ _ _ Hdt))).
  rewrite (run_bind_ret _ _ _ () (in_world w a x t))
    by (apply run_guest_id, memoryArrayPtr_run; rewrite wrapU_id by (unfold in_u; lia); exact Hin).
  cbn [cw_world cw_rank]. unfold world_call, on_worlds, on_ext. fold (rank_mem x). run_unfold.
  fold (rank_mem x). by rewrite He.
Qed.
End delivery.

(** * Memories stay typed *)

(** A world writes bytes. *)
Class MpiBytes `{MpiWorlds} : Prop := {
  world_bytes {A} w (op : world_op A) mem t ws r t' :
    bytes mem → world_do w op mem t = (Ret (ws, r), t') → Forall (λ x, bytes x.2) ws }.

Section typed.
Context `{Sc : Scheduler} `{E : MemoryEnv} `{MT : MpiTypes} `{MWs : MpiWorlds} `{MB : !MpiBytes}
  (endpointHost : string).

Abbreviation MS := (GuestWith MpiState).
Abbreviation MM := (M MS).

Lemma typed_checkMpiComm comm : keeps guest_typed (checkMpiComm comm).
Proof.
  apply (keeps_bind guest_typed); [apply typed_read_ref|]. intros bs.
  destruct (negb _); [apply (keeps_throw guest_typed)|apply (keeps_ret guest_typed)].
Qed.
Lemma typed_typedBuffer buf count dt : keeps guest_typed (typedBuffer buf count dt).
Proof. apply (keeps_bind guest_typed); [apply (keeps_lift guest_typed)|]. intros n. apply typed_check. Qed.
Lemma typed_request p : keeps guest_typed (getFaasmRequestId p).
Proof. apply (keeps_get guest_typed). intros g. apply (keeps_lift guest_typed). Qed.

Lemma typed_the_ctx : keeps stays_typed the_ctx.
Proof.
  apply (keeps_get stays_typed). intros s. destruct (mctx _); [apply (keeps_ret stays_typed)|apply (keeps_throw stays_typed)].
Qed.

(** The writes of a world are bytes: it reads a memory of bytes. *)
Lemma typed_world_call {A} w (op : world_op A) : keeps stays_typed (world_call w op).
Proof.
  intros s Hs. unfold world_call. rewrite run_bind. cbn [get]. rewrite run_bind.
  unfold on_worlds, on_ext, zoom. destruct (world_do _ _ _ _) as [[[ws r]|e] t] eqn:Hop; [|exact Hs].
  pose proof (world_bytes _ _ _ _ _ _ _ (proj2 Hs) Hop) as Hws.
  assert (keeps (stays_typed (X := MpiState)) (for_each ws (λ '(a, bs), on_guest (write_native a bs)) ;; mret r)) as Hk.
  { apply (keeps_bind stays_typed); [|intros _; apply (keeps_ret stays_typed)].
    clear Hop. induction Hws as [|[a bs] ws Hbs Hws IH]; cbn [for_each]; [apply (keeps_ret stays_typed)|].
    apply (keeps_bind stays_typed); [by apply typed_guest, typed_write_native|done]. }
  apply Hk. exact Hs.
Qed.

(** A copy within the memory. *)
Lemma typed_copy {B} a n b (k : MM B) :
  keeps stays_typed k →
  keeps stays_typed (bs ← on_guest (read_ref a n); on_guest (write_ref b bs) ;; k).
Proof.
  intros Hk s Hs. rewrite run_bind. unfold on_guest at 1, zoom, read_ref. run_unfold.
  destruct (mem_read _ _ _) as [bs|e] eqn:Hr; [|destruct s; exact Hs].
  pose proof (bytes_read _ _ _ _ (proj2 Hs) Hr) as Hbs.
  refine (keeps_bind stays_typed _ _ (typed_guest _ (typed_write_ref b bs Hbs)) (λ _, Hk) _ _).
  destruct s. exact Hs.
Qed.
Lemma typed_call_worlds {A} (x : M (Message * MW) A) : keeps stays_typed (on_call_worlds x).
Proof. intros s Hs. unfold on_call_worlds. destruct (x _) as [o [c w]]. exact Hs. Qed.
Lemma typed_set_call f : keeps guest_typed (modify (λ g : GuestState, set_call (f g) g)).
Proof. intros g. done. Qed.

(** One rule per part of a call. *)
Ltac typed_step :=
  lazymatch goal with
  | |- keeps stays_typed (on_guest (read_ref _ _) ≫= λ bs, on_guest (write_ref _ bs) ≫= _) =>
      apply typed_copy
  | |- keeps stays_typed (get ≫= _) => apply (keeps_get stays_typed); intros ?
  | |- keeps stays_typed (_ ≫= _) => apply (keeps_bind stays_typed); [|intros ?]
  | |- keeps _ (mret _) => apply (keeps_ret stays_typed)
  | |- keeps _ (throw _) => apply (keeps_throw stays_typed)
  | |- keeps _ the_ctx => apply typed_the_ctx
  | |- keeps _ (world_call _ _) => apply typed_world_call
  | |- keeps _ (on_memory _) => apply typed_memory
  | |- keeps _ (on_worlds _) => apply typed_ext
  | |- keeps _ (set_ctx _) => apply typed_ext
  | |- keeps _ (on_call_worlds _) => apply typed_call_worlds
  | |- keeps stays_typed (on_guest _) => apply typed_guest
  | |- keeps _ (checkMpiComm _) => apply typed_checkMpiComm
  | |- keeps _ (memoryArrayPtr _ _) => apply typed_check
  | |- keeps _ (typedBuffer _ _ _) => apply typed_typedBuffer
  | |- keeps _ (read_ref _ _) => apply typed_read_ref
  | |- keeps _ (getFaasmRequestId _) => apply typed_request
  | |- keeps _ (write_ref _ (le32 _)) => apply typed_write_ref, bytes_le32
  | |- keeps _ (modify _) => apply typed_set_call
  | |- keeps _ (match _ with _ => _ end) => case_match
  end.

Lemma typed_mpi_call c : keeps stays_typed (run_mpi_call endpointHost c).
Proof.
  destruct c; cbn [run_mpi_call]; apply (keeps_bind stays_typed);
    try (intros ?; apply (keeps_ret stays_typed));
    unfold MPI_Init, newContextWrapper, getExecutingWorld, MPI_Abort, MPI_Finalize, terminateMpi,
      MPI_Comm_size, MPI_Comm_rank, MPI_Send, MPI_Isend, MPI_Recv, MPI_Irecv, MPI_Wait, MPI_Sendrecv,
      MPI_Get_count, MPI_Probe, MPI_Bcast, MPI_Barrier, MPI_Scatter, MPI_Gather, MPI_Allgather,
      MPI_Reduce, MPI_Allreduce, MPI_Scan, MPI_Alltoall, MPI_Type_size, MPI_Alloc_mem, MPI_Cart_create,
      MPI_Cart_rank, MPI_Cart_get, MPI_Cart_shift, MPI_Wtime, writeFaasmRequestId, writeMpiResult,
      getFaasmDataType, getFaasmInfoType, getFaasmOp, statusRef.
  all: try (repeat typed_step; done); try apply (keeps_throw stays_typed).
  apply (keeps_bind stays_typed); [apply typed_guest, typed_check|intros _].
  apply (keeps_bind stays_typed); [|intros _; apply (keeps_ret stays_typed)].
  apply typed_guest, typed_write_native, Forall_app. split; [apply bytes_of_string_bytes|]. by repeat constructor.
Qed.

(** Whatever MPI calls a module makes, in any order, with any arguments and also when
    they fail, its memory keeps the size of its linear memory, which two of the calls
    grow, and every cell of it holds a byte. *)
Theorem mpi_calls_typed cs (s : MS) :
  typed s → typed (for_each cs (run_mpi_call endpointHost) s).2.
Proof. apply (keeps_for_each stays_typed cs _ typed_mpi_call). Qed.

(** ** Without a world *)

(** Calls that use the context before [MPI_Init], or after [MPI_Finalize], dereference a
    null pointer. *)
Definition needs_ctx (c : mpi_call) : bool :=
  match c with
  | CInit _ _ | CComm_free _ | CGet_processor_name _ _ | CType_contiguous _ _ _ | CType_commit _
  | CFree_mem _ | CCart_get _ _ _ _ _ | CGet_version _ _ | CComm_dup _ _ | CComm_split _ _ _ _
  | CComm_c2f _ | CComm_f2c _ | CRsend _ _ _ _ _ _ | CWaitall _ _ _ | CWaitany _ _ _ _
  | CAllgatherv _ _ _ _ _ _ _ _ | CReduce_scatter _ _ _ _ _ _ | CAlltoallv _ _ _ _ _ _ _ _ _
  | COp_create _ _ _ | COp_free _ | CWin_create _ _ _ _ _ _ | CWin_fence _ _ | CGet _ _ _ _ _ _ _ _
  | CPut _ _ _ _ _ _ _ _ | CWin_free _ | CWin_get_attr _ _ _ _ | CRequest_free _ | CType_free _ => false
  | _ => true
  end.
Lemma no_world c (s : MS) :
  mctx (gw_ext s) = None → needs_ctx c = true →
  run_mpi_call endpointHost c s = (Throw (Undefined "null MPI context"), s).
Proof.
  intros Hc Hn.
  assert (the_ctx s = (Throw (Undefined "null MPI context"), s)) as Hctx
    by (unfold the_ctx; run_unfold; by rewrite Hc).
  assert (∀ A B (f : ContextWrapper → MM A) (k : A → MM B),
    ((the_ctx ≫= f) ≫= k) s = (Throw (Undefined "null MPI context"), s)) as Hfirst
    by (intros; by rewrite run_bind, (run_bind_throw _ _ _ _ _ Hctx)).
  destruct c; try discriminate; apply Hfirst.
Qed.

(** ** In place *)

(** The pointer of a send buffer is cut to 8 bits before it is compared: a buffer at such
    an address is not sent, as if the call were in place. *)
Lemma reduce_in_place sendBuf recvBuf count datatype op root comm :
  u8 sendBuf = FAABRIC_IN_PLACE → u8 FAABRIC_IN_PLACE = FAABRIC_IN_PLACE →
  MPI_Reduce sendBuf recvBuf count datatype op root comm =
    MPI_Reduce FAABRIC_IN_PLACE recvBuf count datatype op root comm.
Proof. intros Hs Hp. unfold MPI_Reduce, isInPlace. by rewrite Hs, Hp, Z.eqb_refl. Qed.
End typed.

(** * A concrete world *)

#[export] Instance demo_mpi_types : MpiTypes :=
  {| sizeof_communicator := 4; sizeof_datatype := 8; sizeof_info := 4; sizeof_op := 4; sizeof_status := 4;
     communicator_id := λ bs, wrapS 32 (little_endian_to_Z 8 bs);
     datatype_size := λ bs, wrapS 32 (little_endian_to_Z 8 (drop 4 bs));
     info_id := λ bs, wrapS 32 (little_endian_to_Z 8 bs);
     status_bytesSize := λ bs, wrapS 32 (little_endian_to_Z 8 bs);
     FAABRIC_COMM_WORLD := 1; FAABRIC_INFO_NULL := 1; FAABRIC_IN_PLACE := 3; MPI_SUCCESS := 0;
     MPI_CART_MAX_DIMENSIONS := 2 |}.

(** One message queue for each pair of ranks; what is delivered goes through [f]. *)
Abbreviation Queues := (gmap (Z * Z * Z) (list (list Z))).
Definition demo_queue (t : Queues) (w src dst : Z) : list (list Z) := default [] (t !! (w, src, dst)).
Definition demo_world_do (f : Z → Z) {A} (w : Z) (op : world_op A) (mem : Mem) (t : Queues)
    : outcome (list (Z * list Z) * A) * Queues :=
  match op with
  | WSend src dst buf dt count =>
      match mem_read mem buf (count * datatype_size dt) with
      | Ret bs => (Ret ([], ()), <[(w, src, dst) := demo_queue t w src dst ++ [bs]]> t)
      | Throw _ => (Throw (Undefined "read past the end"), t)
      end
  | WRecv src dst buf dt count status =>
      match demo_queue t w src dst with
      | bs :: q => (Ret ([(buf, map f bs); (status, le32 (Z.of_nat (length bs)))], ()), <[(w, src, dst) := q]> t)
      | [] => (Throw (Blocked "recv"), t)
      end
  | WSize => (Ret ([], 2), t)
  | WIsend _ _ _ _ _ | WIrecv _ _ _ _ _ | WRankFromCoords _ => (Ret ([], 0), t)
  | WShift rank _ _ => (Ret ([], (rank, rank)), t)
  | _ => (Ret ([], ()), t)
  end.
Definition demo_worlds (f : Z → Z) : MpiWorlds :=
  {| MW := Queues; createWorld := mret 1; joinWorld := mret (); context_worldId := λ _, 1;
     context_rank := λ _, 0; getWorld := λ _, mret (); world_do := @demo_world_do f;
     WTime := unit; getWTime := λ _, mret () |}.

Lemma demo_mpi_laws : @MpiLaws demo_mpi_types (demo_worlds (λ b, b)) demo_queue.
Proof.
  split; cbn [demo_worlds MW world_do demo_world_do].
  - split; cbn; lia.
  - intros w src dst buf dt count mem t bs Hc ->. eexists. split; [done|].
    unfold demo_queue at 1. by rewrite lookup_insert_eq.
  - intros w src dst buf dt count mem t Hc Hin. exists "read past the end". unfold mem_read. by rewrite Hin.
  - intros w src dst buf dt count status mem t bs q -> Hlen. rewrite map_id. do 2 eexists. split; [done|].
    cbn [sizeof_status status_bytesSize demo_mpi_types]. split; [by rewrite length_le32|]. split.
    + unfold le32. rewrite little_endian_to_Z_to_little_endian by lia. change (2 ^ (4 * 8)) with (2 ^ 32).
      fold (wrapU 32 (Z.of_nat (length bs))). rewrite wrapS_wrapU by lia. apply wrapS_id; unfold in_s; lia.
    + unfold demo_queue. by rewrite lookup_insert_eq.
  - intros w src dst buf dt count status mem t ->. by eexists.
Qed.

Lemma demo_mpi_bytes : @MpiBytes (demo_worlds (wrapU 8)).
Proof.
  split. intros A w op mem t ws r t' Hmem.
  assert (∀ (ws : list (Z * list Z)), ws = [] → Forall (λ x, bytes x.2) ws) as Hnil by (by intros ? ->).
  destruct op; cbn [demo_worlds MW world_do demo_world_do]; try (intros [= <- <- <-]; by apply Hnil).
  - destruct (mem_read _ _ _); [|done]. intros [= <- <- <-]. by apply Hnil.
  - destruct (demo_queue _ _ _ _) as [|bs q]; [done|]. intros [= <- <- <-].
    apply Forall_cons. split; [|apply Forall_cons; split; [apply bytes_le32|done]].
    apply Forall_fmap, Forall_true. intros b. apply (wrapU_range 8). lia.
Qed.

(** A module with a communicator, a datatype of two bytes, a status, a count, and [data]. *)
Definition demo_mpi_mem (data : list Z) : Mem := [1; 0; 0; 0; 2; 0; 0; 0; 2; 0; 0; 0] ++ replicate 8 0 ++ data.
Definition demo_mpi_rank (data : list Z) : @MpiRank demo_scheduler :=
  mkMpiRank (mkGuest (demo_mpi_mem data) (demo_message "u" "f" 1 7 []) (0, ∅) [] []) demo_module.
Definition demo_mpi_args : MpiArgs := mkMpiArgs 0 4 12 16.

Lemma demo_in_mem data a n : 0 ≤ a → a + n ≤ 20 → in_mem (demo_mpi_mem data) a n = true.
Proof. intros. apply in_mem_true. unfold mem_size, demo_mpi_mem. rewrite !length_app. cbn. lia. Qed.
Lemma demo_ready data : @ready demo_mpi_types (demo_mpi_mem data) demo_mpi_args 2.
Proof.
  split; [eexists; unfold mem_read..| |]; rewrite ?demo_in_mem by done; try done; split; reflexivity.
Qed.

Lemma messages_in_order_witness :
  exchange (Sc := demo_scheduler) (MT := demo_mpi_types) (MWs := demo_worlds (λ b, b))
    demo_mpi_args demo_mpi_args 2 2 1 0 1 9
    [Sends 20 2; Sends 24 1; Receives 20; Sends 20 1; Receives 20; Receives 24]
    (demo_mpi_rank [1; 2; 3; 4; 5; 6]) (demo_mpi_rank (replicate 8 0)) ∅ =
  Ret [[1; 2; 3; 4]; [5; 6]; [1; 2]].
Proof.
  refine (messages_in_order (MWs := demo_worlds (λ b, b)) (ML := demo_mpi_laws) demo_queue demo_mpi_args demo_mpi_args 2 2 1 0 1 9
    [Sends 20 2; Sends 24 1; Receives 20; Sends 20 1; Receives 20; Receives 24]
    (demo_mpi_rank [1; 2; 3; 4; 5; 6]) (demo_mpi_rank (replicate 8 0)) ∅
    (demo_ready _) (demo_ready _) _ _ _ _ _ _ _).
  - repeat split; unfold iov_disjoint; cbn; lia.
  - lia.
  - lia.
  - cbn. lia.
  - repeat constructor; unfold iov_disjoint; cbn; lia.
  - reflexivity.
  - exact I.
Defined.

Definition demo_mpi_page : @MpiRank demo_scheduler :=
  mkMpiRank (set_mem (replicate (Z.to_nat 65536) 0) (rk_guest (demo_mpi_rank [])))
    (mkWasmModule 1 [] 0 [] ∅ []).
Lemma demo_page_typed (t : @MpiState (demo_worlds (wrapU 8))) :
  typed (mkGuestWith (rk_guest demo_mpi_page) (rk_module demo_mpi_page) t).
Proof.
  split; cbn -[Z.to_nat replicate].
  - unfold mem_size. rewrite length_replicate, Z2Nat.id by lia. reflexivity.
  - apply Forall_replicate. unfold in_u. lia.
Qed.

Lemma mpi_calls_typed_witness :
  let s : @GuestWith demo_scheduler (@MpiState (demo_worlds (wrapU 8))) :=
    mkGuestWith (rk_guest demo_mpi_page) (rk_module demo_mpi_page) (mkMpiState (H := demo_worlds (wrapU 8)) ∅ None) in
  typed (for_each [CInit 0 0; CAlloc_mem 10 0 4; CRecv 20 1 4 0 0 0 12; CFinalize]
    (run_mpi_call (E := demo_env) "host") s).2.
Proof.
  intros s.
  exact (mpi_calls_typed (E := demo_env) (MB := demo_mpi_bytes) "host"
    [CInit 0 0; CAlloc_mem 10 0 4; CRecv 20 1 4 0 0 0 12; CFinalize] s (demo_page_typed _)).
Defined.
