(* ===== verification/Unsupported.v ===== *)
(** The calls that the worker refuses or ignores (src/wavm): a refused call throws WAVM's
    exception for a missing intrinsic, an ignored one answers at once; none of them reads
    or changes anything.  They keep the names they have in the code. *)

From S2P Require Import Prelude WasmBytes Env.

Section calls.
Context {S : Type}.

(** * Sockets (src/wavm/network.cpp) *)

Definition socket (a b c : Z) : M S Z := unimplemented.
Definition wasi_sock_send (a b c d e : Z) : M S Z := unimplemented.
Definition wasi_sock_recv (a b c d e f : Z) : M S Z := unimplemented.
Definition wasi_sock_shutdown (a b : Z) : M S Z := unimplemented.
Definition bind (a b c : Z) : M S Z := unimplemented.
Definition listen (a b : Z) : M S Z := unimplemented.
Definition setsockopt (a b c d e : Z) : M S Z := unimplemented.
Definition accept (a b c : Z) : M S Z := unimplemented.
Definition inet_addr (a : Z) : M S Z := unimplemented.
Definition connect (a b c : Z) : M S Z := unimplemented.
Definition recvfrom (a b c d e f : Z) : M S Z := unimplemented.
Definition sendto (a b c d e f : Z) : M S Z := unimplemented.
Definition inet_ntoa (a : Z) : M S Z := unimplemented.
Definition getprotobyname (a : Z) : M S Z := unimplemented.
Definition s__getservbyname (a b : Z) : M S Z := unimplemented.
Definition s__gethostbyaddr (a b c : Z) : M S Z := unimplemented.
Definition s__getservbyport (a b : Z) : M S Z := unimplemented.
Definition s__getsockname (a b c : Z) : M S Z := unimplemented.
Definition atoi (a : Z) : M S Z := unimplemented.
Definition _htons (a : Z) : M S Z := unimplemented.
Definition _ntohl (a : Z) : M S Z := unimplemented.
Definition _ntohs (a : Z) : M S Z := unimplemented.
Definition _htonl (a : Z) : M S Z := unimplemented.
Definition _inet_aton (a b : Z) : M S Z := unimplemented.
Definition _shutdown (a b : Z) : M S Z := unimplemented.
Definition _inet_pton (a b c : Z) : M S Z := unimplemented.
Definition _inet_ntop (a b c d : Z) : M S Z := unimplemented.
Definition _recv (a b c d : Z) : M S Z := unimplemented.
Definition _send (a b c d : Z) : M S Z := unimplemented.
Definition getsockopt (a b c d e : Z) : M S Z := unimplemented.

(** * Files (src/wavm/io.cpp) *)

Definition ioctl (a b c : Z) : M S Z := mret 0.
Definition __small_sprintf (a b c : Z) : M S Z := unimplemented.
Definition wasi_fd_renumber (fdOld fdNew : Z) : M S Z := unimplemented.
Definition tmpfile : M S Z := unimplemented.
Definition umask (a : Z) : M S Z := unimplemented.
Definition msync (a b c : Z) : M S Z := unimplemented.
Definition tempnam (a b : Z) : M S Z := unimplemented.
Definition memfd_create (a b : Z) : M S Z := unimplemented.
Definition setgroups (a b : Z) : M S Z := unimplemented.
Definition s__fchdir (a : Z) : M S Z := unimplemented.
Definition s__chmod (a b : Z) : M S Z := unimplemented.
Definition wasi_fd_datasync (a : Z) : M S Z := unimplemented.
Definition wasi_fd_pwrite (a b c d e : Z) : M S Z := unimplemented.
Definition wasi_fd_pread (a b c d e : Z) : M S Z := unimplemented.
Definition wasi_fd_filestat_set_size (a b : Z) : M S Z := unimplemented.
Definition wasi_fd_sync (a : Z) : M S Z := unimplemented.
Definition wasi_fd_allocate (a b c : Z) : M S Z := unimplemented.
Definition fd_filestat_set_times (a b c d : Z) : M S Z := unimplemented.
Definition wasi_path_link (a b c d e f g : Z) : M S Z := unimplemented.
Definition wasi_path_symlink (a b c d e : Z) : M S Z := unimplemented.
Definition wasi_path_remove_directory (a b c : Z) : M S Z := unimplemented.
Definition lockf (a b c : Z) : M S Z := unimplemented.
Definition strncat (a b c : Z) : M S Z := unimplemented.
Definition realpath (a b : Z) : M S Z := unimplemented.
Definition dirfd (a : Z) : M S Z := unimplemented.
Definition poll (a b c : Z) : M S Z := unimplemented.
Definition wasi_fiprintf (a b c : Z) : M S Z := unimplemented.

(** * The environment (src/wavm/env.cpp) *)

Definition geteuid : M S Z := mret FAKE_UID.
Definition getegid : M S Z := mret FAKE_GID.
Definition getgrgid (a : Z) : M S Z := mret FAKE_GID.
Definition getgrnam (a : Z) : M S Z := mret 0.
Definition setgrent : M S unit := mret ().
Definition getgrent : M S Z := mret 0.
Definition endgrent : M S unit := mret ().
Definition getppid : M S Z := unimplemented.
Definition confstr (a b c : Z) : M S Z := mret 0.
Definition uname (bufPtr : Z) : M S Z := mret 0.
Definition __h_errno_location : M S Z := unimplemented.
Definition ttyname (a : Z) : M S Z := unimplemented.
Definition getpwnam (a : Z) : M S Z := unimplemented.
Definition getresuid (a b c : Z) : M S Z := unimplemented.
Definition getresgid (a b c : Z) : M S Z := unimplemented.
Definition getrusage (a b : Z) : M S Z := unimplemented.
Definition getrlimit (a b : Z) : M S Z := unimplemented.
Definition setrlimit (a b : Z) : M S Z := unimplemented.
Definition longjmp (a b : Z) : M S unit := unimplemented.
Definition setjmp (a : Z) : M S Z := unimplemented.
Definition wasi__errno_location : M S Z := unimplemented.

(** * Processes (src/wavm/process.cpp) *)

Definition fork : M S Z := unimplemented.
Definition s__chdir (a : Z) : M S Z := unimplemented.
Definition s__execve (a b c : Z) : M S Z := unimplemented.
Definition s__execv (a b : Z) : M S Z := unimplemented.
Definition s__kill (a b : Z) : M S Z := unimplemented.
Definition s__wait (a : Z) : M S Z := unimplemented.
Definition s__pclose (a : Z) : M S Z := unimplemented.
Definition s__pipe (a : Z) : M S Z := unimplemented.
Definition s__popen (a b : Z) : M S Z := unimplemented.
Definition s__raise (a : Z) : M S Z := unimplemented.
Definition s__system (a : Z) : M S Z := unimplemented.
Definition openpty (a b c d e : Z) : M S Z := unimplemented.
Definition forkpty (a b c d : Z) : M S Z := unimplemented.

(** * Scheduling (src/wavm/scheduling.cpp) *)

Definition getpriority (a b : Z) : M S Z := unimplemented.
Definition setpriority (a b c : Z) : M S Z := unimplemented.
Definition wasi_sched_yield : M S Z := unimplemented.

(** * Signals (src/wavm/signals.cpp) *)

Definition signal (a b : Z) : M S Z := mret 0.

(** * Threads (src/wavm/threads.cpp) *)

Definition pthread_exit (code : Z) : M S unit := mret ().
Definition pthread_mutex_init (mx attr : Z) : M S Z := mret 0.
Definition pthread_mutex_destroy (mx : Z) : M S Z := mret 0.
Definition pthread_mutexattr_init (a : Z) : M S Z := mret 0.
Definition pthread_mutexattr_destroy (a : Z) : M S Z := mret 0.
Definition pthread_cond_init (a b : Z) : M S Z := mret 0.
Definition pthread_cond_signal (a : Z) : M S Z := mret 0.
Definition pthread_self : M S Z := mret 0.
Definition s__pthread_key_create (a b : Z) : M S Z := mret 0.
Definition s__pthread_key_delete (a : Z) : M S Z := mret 0.
Definition s__pthread_getspecific (a : Z) : M S Z := mret 0.
Definition s__pthread_setspecific (a b : Z) : M S Z := mret 0.
Definition pthread_cond_destroy (a : Z) : M S Z := mret 0.
Definition pthread_cond_broadcast (a : Z) : M S Z := mret 0.
Definition pthread_equal (a b : Z) : M S Z := unimplemented.
Definition pthread_cond_timedwait (a b c : Z) : M S Z := unimplemented.
Definition pthread_cond_wait (a b : Z) : M S Z := unimplemented.
Definition s__pthread_attr_init (a : Z) : M S Z := unimplemented.
Definition s__pthread_attr_setstacksize (a b : Z) : M S Z := unimplemented.
Definition s__pthread_attr_destroy (a : Z) : M S Z := unimplemented.
Definition s__pthread_detach (a : Z) : M S Z := unimplemented.
Definition s__pthread_once (a b : Z) : M S Z := unimplemented.

(** * Memory (src/wavm/memory.cpp) *)

Definition shm_open (a b c : Z) : M S Z := unimplemented.

(** * Clocks (src/wavm/timing.cpp) *)

Definition s__utime (a b : Z) : M S Z := unimplemented.
Definition wasi_clock_res_get (a b : Z) : M S Z := unimplemented.

(** * Exceptions of C++ (src/wavm/libcxx.cpp) *)

Definition _Unwind_RaiseException (a : Z) : M S Z := mret 0.
Definition _Unwind_DeleteException (a : Z) : M S unit := mret ().
Definition __cxa_begin_catch (a : Z) : M S Z := unimplemented.
Definition __cxa_allocate_exception (a : Z) : M S Z := unimplemented.
Definition __cxa_throw (a b c : Z) : M S unit := unimplemented.

(** * Messages (src/wavm/messages.cpp) *)

Definition s__gettext (a : Z) : M S Z := unimplemented.
Definition s__dgettext (a b : Z) : M S Z := unimplemented.
Definition s__dcgettext (a b c : Z) : M S Z := unimplemented.
Definition s__textdomain (a : Z) : M S Z := unimplemented.
Definition s__bindtextdomain (a b : Z) : M S Z := unimplemented.

(** * libffi (src/wavm/dynlink.cpp) *)

Definition ffi_prep_closure_loc (a b c d e : Z) : M S Z := mret 0.

(** * System calls (src/wavm/syscalls.cpp) *)

Definition __syscall (syscallNo argsPtr : Z) : M S Z := unimplemented.
End calls.
