(* ===== verification/Network.v ===== *)
(** The socket calls of a module (src/wavm/network.cpp, with [getSockAddr] of
    src/wavm/util.cpp): arguments and addresses are read from the module's memory, the
    call is handed to the host, and what comes back is written to the memory.  The
    sockets of the host are an interface. *)

From S2P Require Import Prelude WasmBytes WasmMemory Chaining Guest.

(** * The interface to the host *)

(** [sockaddr], which the host and wasm lay out the same. *)
Record SockAddr := mkSockAddr { sa_family : Z; sa_data : list Z }.

(** The calls of the host: the result, and the bytes or the address it gives. *)
Class SocketHost := {
  Net : Type;
  sys_socket : Z → Z → Z → M Net Z;
  host_connect : Z → SockAddr → M Net Z;
  host_send : Z → list Z → Z → M Net Z;
  host_recv : Z → Z → Z → M Net (Z * list Z);
  host_sendto : Z → list Z → Z → SockAddr → M Net Z;
  host_recvfrom : Z → Z → Z → SockAddr → M Net (Z * list Z * SockAddr * Z);
  host_bind : Z → SockAddr → M Net Z;
  host_getsockname : Z → SockAddr → M Net (Z * SockAddr * Z) }.

(** The host stores no more than the buffer takes, and addresses have 14 bytes of data. *)
Class SocketLaws `{SocketHost} : Prop := {
  recv_length fd n fl t r bs t' : 0 ≤ n →
    host_recv fd n fl t = (Ret (r, bs), t') → Z.of_nat (length bs) ≤ n;
  recvfrom_length fd n fl a t r bs a' l t' : 0 ≤ n →
    host_recvfrom fd n fl a t = (Ret (r, bs, a', l), t') →
    Z.of_nat (length bs) ≤ n ∧ length (sa_data a') = 14%nat;
  getsockname_data fd a t r a' l t' :
    host_getsockname fd a t = (Ret (r, a', l), t') → length (sa_data a') = 14%nat }.

(** The constants of Linux. *)
Definition AF_INET : Z := 2.
Definition AF_INET6 : Z := 10.
Definition SOCK_STREAM : Z := 1.
Definition SOCK_DGRAM : Z := 2.
Definition IPPROTO_IP : Z := 0.
Definition IPPROTO_TCP : Z := 6.

Definition FAKE_HOSTNAME : string := "faasm".

Inductive SocketCalls : Type :=
  | sc_socket | sc_bind | sc_connect | sc_listen | sc_accept | sc_getsockname | sc_getpeername
  | sc_socketpair | sc_send | sc_recv | sc_sendto | sc_recvfrom | sc_shutdown | sc_setsockopt
  | sc_getsockopt | sc_sendmsg | sc_recvmsg | sc_accept4 | sc_recvmmsg | sc_sendmmsg.

(** The numbers of the calls, from 1. *)
Definition socket_calls : list SocketCalls :=
  [sc_socket; sc_bind; sc_connect; sc_listen; sc_accept; sc_getsockname; sc_getpeername;
   sc_socketpair; sc_send; sc_recv; sc_sendto; sc_recvfrom; sc_shutdown; sc_setsockopt;
   sc_getsockopt; sc_sendmsg; sc_recvmsg; sc_accept4; sc_recvmmsg; sc_sendmmsg].
Definition SocketCalls_of (call : Z) : option SocketCalls :=
  if 1 <=? call then socket_calls !! Z.to_nat (call - 1) else None.

Section network.
Context `{Scheduler} `{SocketHost}.

Abbreviation NS := (GuestWith Net).
Abbreviation NM := (M NS).

(** * Addresses in the memory *)

Definition sockaddr_of (bs : list Z) : SockAddr :=
  mkSockAddr (little_endian_to_Z 8 (take 2 bs)) (drop 2 bs).
Definition sockaddr_bytes (a : SockAddr) : list Z :=
  Z_to_little_endian 2 8 (sa_family a) ++ take 14 (sa_data a).

Definition getSockAddr (addrPtr : Z) : M GuestState SockAddr :=
  bs ← read_ref addrPtr 16; mret (sockaddr_of bs).
Definition setSockAddr (nativeSockAddr : SockAddr) (addrPtr : Z) : M GuestState unit :=
  write_ref addrPtr (sockaddr_bytes nativeSockAddr).
Definition setSockLen (nativeValue wasmPtr : Z) : M GuestState unit :=
  write_ref wasmPtr (le32 nativeValue).

(** * The calls *)

(** The 32-bit words of the arguments. *)
Definition subCallArgs (argsPtr argCount : Z) : M GuestState (list Z) :=
  bs ← read_ref argsPtr (4 * argCount); mret (words32 bs).
Definition arg (args : list Z) (i : nat) : Z := u32 (default 0 (args !! i)).

(** Numbers that are not known are passed on as they are. *)
Definition socket_domain (domain : Z) : Z :=
  if domain =? 2 then AF_INET else if domain =? 10 then AF_INET6 else domain.
Definition socket_type (type : Z) : Z :=
  if type =? 1 then SOCK_STREAM else if type =? 2 then SOCK_DGRAM else type.
Definition socket_protocol (protocol : Z) : Z :=
  if protocol =? 0 then IPPROTO_IP else if protocol =? 6 then IPPROTO_TCP else protocol.

Definition call_socket (argsPtr : Z) : NM Z :=
  args ← on_guest (subCallArgs argsPtr 3);
  sock ← on_ext (sys_socket (socket_domain (arg args 0)) (socket_type (arg args 1)) (socket_protocol (arg args 2)));
  mret (i32 sock).

Definition call_connect (argsPtr : Z) : NM Z :=
  args ← on_guest (subCallArgs argsPtr 3);
  addr ← on_guest (getSockAddr (i32 (arg args 1)));
  on_ext (host_connect (i32 (arg args 0)) addr).

Definition call_bind (argsPtr : Z) : NM Z :=
  args ← on_guest (subCallArgs argsPtr 3);
  addr ← on_guest (getSockAddr (i32 (arg args 1)));
  on_ext (host_bind (i32 (arg args 0)) addr).

Definition call_getsockname (argsPtr : Z) : NM Z :=
  args ← on_guest (subCallArgs argsPtr 3);
  let addrPtr := i32 (arg args 1) in
  addr ← on_guest (getSockAddr addrPtr);
  '(result, nativeAddr, nativeAddrLen) ← on_ext (host_getsockname (i32 (arg args 0)) addr);
  on_guest (setSockAddr nativeAddr addrPtr) ;;
  on_guest (setSockLen nativeAddrLen (i32 (arg args 2))) ;;
  mret result.

(** Sending and receiving: the four calls share the arguments and the buffer.  What is
    received is written to the buffer natively; the address and its length are written
    also when the call fails. *)
Definition call_transfer (call : SocketCalls) (argsPtr : Z) : NM Z :=
  let argCount := match call with sc_sendto | sc_recvfrom => 6 | _ => 4 end in
  args ← on_guest (subCallArgs argsPtr argCount);
  let sockfd := i32 (arg args 0) in
  let bufPtr := arg args 1 in
  let bufLen := arg args 2 in
  let flags := i32 (arg args 3) in
  on_guest (memoryArrayPtr bufPtr bufLen) ;;
  result ← match call with
    | sc_send =>
        buf ← on_guest (read_native bufPtr bufLen); on_ext (host_send sockfd buf flags)
    | sc_recv =>
        '(result, data) ← on_ext (host_recv sockfd bufLen flags);
        on_guest (write_native bufPtr data) ;; mret result
    | _ =>
        let sockAddrPtr := i32 (arg args 4) in
        sockAddr ← on_guest (getSockAddr sockAddrPtr);
        match call with
        | sc_sendto =>
            buf ← on_guest (read_native bufPtr bufLen); on_ext (host_sendto sockfd buf flags sockAddr)
        | _ =>
            '(result, data, sockAddr, nativeAddrLen) ← on_ext (host_recvfrom sockfd bufLen flags sockAddr);
            on_guest (write_native bufPtr data) ;;
            on_guest (setSockAddr sockAddr sockAddrPtr) ;;
            on_guest (setSockLen nativeAddrLen (i32 (arg args 5))) ;;
            mret result
        end
    end;
  mret (i32 result).

Definition s__socketcall (call argsPtr : Z) : NM Z :=
  match SocketCalls_of call with
  | Some sc_socket => call_socket argsPtr
  | Some sc_connect => call_connect argsPtr
  | Some sc_recv => call_transfer sc_recv argsPtr
  | Some sc_recvfrom => call_transfer sc_recvfrom argsPtr
  | Some sc_sendto => call_transfer sc_sendto argsPtr
  | Some sc_send => call_transfer sc_send argsPtr
  | Some sc_bind => call_bind argsPtr
  | Some sc_getsockname => call_getsockname argsPtr
  | Some (sc_getpeername | sc_socketpair | sc_shutdown | sc_setsockopt | sc_getsockopt
      | sc_sendmsg | sc_recvmsg | sc_accept4 | sc_recvmmsg | sc_sendmmsg) => mret 0
  | Some (sc_accept | sc_listen) => unimplemented
  | None => mret 0
  end.

Definition gethostbyname (hostnamePtr : Z) : M GuestState Z :=
  getStringFromWasm hostnamePtr ;; mret 0.
(** [strcpy] to a buffer of which one byte is checked. *)
Definition gethostname (buffer bufferLen : Z) : M GuestState Z :=
  memoryArrayPtr buffer 1 ;;
  write_native buffer (bytes_of_string FAKE_HOSTNAME ++ [0]) ;; mret 0.
End network.

(** * Addresses survive the translation *)

Lemma length_sockaddr_bytes a : length (sa_data a) = 14%nat → length (sockaddr_bytes a) = 16%nat.
Proof.
  intros Hl. unfold sockaddr_bytes. pose proof (length_Z_to_little_endian 2 8 (sa_family a)).
  rewrite length_app, length_take. lia.
Qed.
Lemma sockaddr_of_bytes a :
  in_u 16 (sa_family a) → length (sa_data a) = 14%nat → sockaddr_of (sockaddr_bytes a) = a.
Proof.
  intros Hf Hl. pose proof (length_Z_to_little_endian 2 8 (sa_family a)) as Hl2. destruct a as [f d].
  unfold sockaddr_of, sockaddr_bytes. cbn [sa_family sa_data] in *.
  rewrite take_app_length', drop_app_length' by lia. rewrite take_ge by lia. f_equal.
  rewrite little_endian_to_Z_to_little_endian by lia. apply Z.mod_small. unfold in_u in Hf. lia.
Qed.

(** * What a call may change *)

(** The ranges that a call names: its buffer, the address and the length it fills. *)
Definition named_ranges (m : Mem) (call argsPtr : Z) : list (Z * Z) :=
  let words n := match mem_read m argsPtr n with Ret bs => words32 bs | Throw _ => [] end in
  match SocketCalls_of call with
  | Some sc_recv => let w := words 16 in [(arg w 1, arg w 2)]
  | Some sc_recvfrom =>
      let w := words 24 in [(arg w 1, arg w 2); (i32 (arg w 4), 16); (i32 (arg w 5), 4)]
  | Some sc_getsockname => let w := words 12 in [(i32 (arg w 1), 16); (i32 (arg w 2), 4)]
  | _ => []
  end.

Section confinement.
Context `{Sc : Scheduler} `{SH : SocketHost} `{SL : !SocketLaws} (rs : list (Z * Z)).

Abbreviation NS := (GuestWith Net).
Abbreviation NM := (M NS).
Definition confined (s s' : NS) : Prop := untouched rs (g_mem (gw_guest s)) (g_mem (gw_guest s')).

#[export] Instance confined_preorder : PreOrder confined.
Proof.
  split; [by intros s i|]. intros a b c Hab Hbc i Hi. by rewrite (Hbc i Hi), (Hab i Hi).
Qed.

Lemma confined_same {A} (x : M GuestState A) :
  (∀ g, g_mem (x g).2 = g_mem g) → keeps confined (on_guest x).
Proof.
  intros Hx s i _. unfold on_guest, zoom. specialize (Hx (gw_guest s)).
  destruct (x (gw_guest s)) as [o g]. cbn in *. by rewrite Hx.
Qed.
Lemma confined_ext {A} (x : M Net A) : keeps confined (on_ext x).
Proof. intros s i _. unfold on_ext, zoom. by destruct (x (gw_ext s)). Qed.
Lemma confined_read_ref a n : keeps confined (on_guest (read_ref a n)).
Proof. apply confined_same. intros g. unfold read_ref. by run_unfold. Qed.
Lemma confined_sockaddr a : keeps confined (on_guest (getSockAddr a)).
Proof. apply confined_same. intros g. unfold getSockAddr, read_ref. run_unfold. by destruct (mem_read _ _ _). Qed.
Lemma confined_check a n : keeps confined (on_guest (memoryArrayPtr a n)).
Proof. apply confined_same. intros g. unfold memoryArrayPtr. run_unfold. by destruct (in_mem _ _ _). Qed.
Lemma confined_read_native a n : keeps confined (on_guest (read_native a n)).
Proof. apply confined_same. intros g. unfold read_native. run_unfold. by destruct (mem_read _ _ _). Qed.

(** A write within one of the ranges. *)
Lemma confined_write_native a bs n :
  (a, n) ∈ rs → Z.of_nat (length bs) ≤ n → keeps confined (on_guest (write_native a bs)).
Proof.
  intros Hin Hn s i Hi. unfold on_guest, zoom, write_native. run_unfold.
  destruct (mem_write _ _ _) as [m|] eqn:Hw; [|done]. by apply (untouched_write _ _ _ _ _ _ Hin Hn Hw).
Qed.
Lemma confined_write_ref a bs n :
  (a, n) ∈ rs → Z.of_nat (length bs) ≤ n → keeps confined (on_guest (write_ref a bs)).
Proof.
  intros Hin Hn s i Hi. unfold on_guest, zoom, write_ref. run_unfold.
  destruct (mem_write _ _ _) as [m|] eqn:Hw; [|done]. by apply (untouched_write _ _ _ _ _ _ Hin Hn Hw).
Qed.
Lemma confined_set_len v a : (a, 4) ∈ rs → keeps confined (on_guest (setSockLen v a)).
Proof. intros Hin. apply (confined_write_ref a _ 4 Hin). by rewrite length_le32. Qed.
Lemma confined_set_addr x a :
  length (sa_data x) = 14%nat → (a, 16) ∈ rs → keeps confined (on_guest (setSockAddr x a)).
Proof. intros Hx Hin. apply (confined_write_ref a _ 16 Hin). by rewrite length_sockaddr_bytes. Qed.

(** A host call whose result is lawful, and what follows it. *)
Lemma confined_host {A B} (x : M Net A) (P : A → Prop) (f : A → NM B) :
  (∀ t a t', x t = (Ret a, t') → P a) → (∀ a, P a → keeps confined (f a)) → keeps confined (on_ext x ≫= f).
Proof.
  intros Hx Hf s. rewrite run_bind. unfold on_ext, zoom. destruct (x (gw_ext s)) as [[a|e] t] eqn:Ht.
  - intros i Hi. exact (Hf a (Hx _ _ _ Ht) _ i Hi).
  - by intros i _.
Qed.

End confinement.

Ltac confined_step :=
  cbv zeta;
  lazymatch goal with
  | |- keeps (confined ?rs) (_ ≫= _) => apply (keeps_bind (confined rs)); [|intros ?]
  | |- keeps (confined ?rs) (mret _) => apply (keeps_ret (confined rs))
  | |- keeps _ (on_ext _) => apply confined_ext
  | |- keeps _ (on_guest (getSockAddr _)) => apply confined_sockaddr
  | |- keeps _ (on_guest (memoryArrayPtr _ _)) => apply confined_check
  | |- keeps _ (on_guest (read_native _ _)) => apply confined_read_native
  | |- keeps _ (on_guest (setSockLen _ _)) => apply confined_set_len
  end.

(** ** The calls after their arguments are read *)

Section bodies.
Context `{Sc : Scheduler} `{SH : SocketHost} `{SL : !SocketLaws} (rs : list (Z * Z)).

Abbreviation NS := (GuestWith Net).
Abbreviation NM := (M NS).

Lemma confined_getsockname fd addrPtr lenPtr :
  (addrPtr, 16) ∈ rs → (lenPtr, 4) ∈ rs →
  keeps (confined rs) (addr ← on_guest (getSockAddr addrPtr);
    '(result, nativeAddr, nativeAddrLen) ← on_ext (host_getsockname fd addr);
    on_guest (setSockAddr nativeAddr addrPtr) ;; on_guest (setSockLen nativeAddrLen lenPtr) ;; mret result : NM Z).
Proof.
  intros H1 H2. confined_step; [confined_step|].
  apply (confined_host rs _ (λ x, length (sa_data x.1.2) = 14%nat)).
  - intros t [[r a'] l] t' Ht. exact (getsockname_data _ _ _ _ _ _ _ Ht).
  - intros [[r a'] l] Hl. cbn in Hl. confined_step; [by apply confined_set_addr|]. by repeat confined_step.
Qed.
Lemma confined_recv fd bufPtr bufLen flags :
  (bufPtr, bufLen) ∈ rs → 0 ≤ bufLen →
  keeps (confined rs) ('(result, data) ← on_ext (host_recv fd bufLen flags);
    on_guest (write_native bufPtr data) ;; mret result : NM Z).
Proof.
  intros H1 Hn. apply (confined_host rs _ (λ x, Z.of_nat (length x.2) ≤ bufLen)).
  - intros t [r bs] t' Ht. exact (recv_length _ _ _ _ _ _ _ Hn Ht).
  - intros [r bs] Hl. cbn in Hl. confined_step; [by apply (confined_write_native rs _ _ bufLen)|]. by repeat confined_step.
Qed.
Lemma confined_recvfrom fd bufPtr bufLen flags addrPtr lenPtr :
  (bufPtr, bufLen) ∈ rs → (addrPtr, 16) ∈ rs → (lenPtr, 4) ∈ rs → 0 ≤ bufLen →
  keeps (confined rs) (sockAddr ← on_guest (getSockAddr addrPtr);
    '(result, data, sockAddr, nativeAddrLen) ← on_ext (host_recvfrom fd bufLen flags sockAddr);
    on_guest (write_native bufPtr data) ;; on_guest (setSockAddr sockAddr addrPtr) ;;
    on_guest (setSockLen nativeAddrLen lenPtr) ;; mret result : NM Z).
Proof.
  intros H1 H2 H3 Hn. confined_step; [confined_step|].
  apply (confined_host rs _ (λ x, Z.of_nat (length x.1.1.2) ≤ bufLen ∧ length (sa_data x.1.2) = 14%nat)).
  - intros t [[[r bs] a'] l] t' Ht. exact (recvfrom_length _ _ _ _ _ _ _ _ _ _ Hn Ht).
  - intros [[[r bs] a'] l] [Hl Ha]. cbn in Hl, Ha. confined_step; [by apply (confined_write_native rs _ _ bufLen)|].
    confined_step; [by apply confined_set_addr|]. by repeat confined_step.
Qed.
End bodies.

Section socketcall.
Context `{Sc : Scheduler} `{SH : SocketHost} `{SL : !SocketLaws}.

Abbreviation NS := (GuestWith Net).
Abbreviation NM := (M NS).

(** The arguments are read, or the call throws and changes nothing. *)
Lemma after_args {B} rs argsPtr n (f : list Z → NM B) (s : NS) :
  (∀ bs, mem_read (g_mem (gw_guest s)) argsPtr (4 * n) = Ret bs → keeps (confined rs) (f (words32 bs))) →
  confined rs s ((args ← on_guest (subCallArgs argsPtr n); f args) s).2.
Proof.
  intros Hf. rewrite run_bind. unfold on_guest at 1, zoom, subCallArgs, read_ref. run_unfold.
  destruct (mem_read _ _ _) as [bs|e] eqn:Hr.
  - destruct s as [g m x]. exact (Hf bs eq_refl _).
  - by intros i _.
Qed.

Lemma arg_nonneg args i : 0 ≤ arg args i.
Proof. apply (wrapU_range 32). lia. Qed.

Lemma socketcall_within call argsPtr (s : NS) :
  confined (named_ranges (g_mem (gw_guest s)) call argsPtr) s (s__socketcall call argsPtr s).2.
Proof.
  set (m := g_mem (gw_guest s)).
  unfold named_ranges, s__socketcall. destruct (SocketCalls_of call) as [[]|]; try (intros i _; done).
  - apply after_args. intros bs _. repeat confined_step.
  - apply after_args. intros bs _. repeat confined_step.
  - apply after_args. intros bs _. repeat confined_step.
  - apply after_args. intros bs Hr. change (4 * 3) with 12 in Hr. fold m in Hr. rewrite Hr.
    apply confined_getsockname; set_solver.
  - apply after_args. intros bs _. repeat confined_step.
  - apply after_args. intros bs Hr. change (4 * 4) with 16 in Hr. fold m in Hr. rewrite Hr.
    confined_step; [confined_step|]. confined_step; [|confined_step].
    apply confined_recv; [set_solver|apply arg_nonneg].
  - apply after_args. intros bs _. repeat confined_step.
  - apply after_args. intros bs Hr. change (4 * 6) with 24 in Hr. fold m in Hr. rewrite Hr.
    confined_step; [confined_step|]. confined_step; [|confined_step].
    apply confined_recvfrom; [set_solver..|apply arg_nonneg].
Qed.

(** C3: whatever socket call a module makes and however it ends, its memory changes at
    most in the buffer that the call names and in the address and the length that it
    fills. *)
Theorem socketcall_confined call argsPtr (s : NS) (i : nat) :
  let m := g_mem (gw_guest s) in
  Forall (outside i) (named_ranges m call argsPtr) →
  g_mem (gw_guest (s__socketcall call argsPtr s).2) !! i = m !! i.
Proof.
  intros m Hi. by apply (socketcall_within call argsPtr s).
Qed.
End socketcall.

(** * A concrete host *)

(** Every call is recorded; three bytes arrive, from an address of [AF_INET]. *)
Definition demo_peer : SockAddr := mkSockAddr AF_INET (replicate 14 9).
#[export] Instance demo_sockets : SocketHost :=
  {| Net := list Z;
     sys_socket := λ _ _ _ t, (Ret 3, t ++ [1]);
     host_connect := λ _ _ t, (Ret 0, t ++ [3]);
     host_send := λ _ bs _ t, (Ret (Z.of_nat (length bs)), t ++ bs);
     host_recv := λ _ n _ t, (Ret (3 `min` n, take (Z.to_nat n) [1; 2; 3]), t);
     host_sendto := λ _ bs _ _ t, (Ret (Z.of_nat (length bs)), t ++ bs);
     host_recvfrom := λ _ n _ _ t, (Ret (3 `min` n, take (Z.to_nat n) [1; 2; 3], demo_peer, 16), t);
     host_bind := λ _ _ t, (Ret 0, t ++ [2]);
     host_getsockname := λ _ _ t, (Ret (0, demo_peer, 16), t) |}.

#[export] Instance demo_socket_laws : SocketLaws.
Proof.
  split.
  - intros fd n fl t r bs t' Hn [= <- <- <-]. rewrite length_take. lia.
  - intros fd n fl a t r bs a' l t' Hn [= <- <- <- <- <-]. rewrite length_take. split; [lia|done].
  - intros fd a t r a' l t' [= <- <- <- <-]. done.
Qed.

(** Arguments at 24, a buffer at 48. *)
Definition demo_socket_mem (args : list Z) : Mem := replicate 24 7 ++ flat_map le32 args ++ replicate 40 7.
Definition demo_socket_state (args : list Z) : @GuestWith demo_scheduler (@Net demo_sockets) :=
  mkGuestWith (mkGuest (demo_socket_mem args) (demo_message "u" "f" 1 7 []) (0, ∅) [] []) demo_module [].

(** A receive without an address, the way the C library writes [recv], puts an address and
    a length at the start of the module's memory. *)
Lemma recvfrom_null_overwrites :
  let s := demo_socket_state [3; 48; 4; 0; 0; 0] in
  take 18 (g_mem (gw_guest (s__socketcall 12 24 s).2)) =
    [16; 0; 0; 0; 9; 9; 9; 9; 9; 9; 9; 9; 9; 9; 9; 9; 7; 7].
Proof. vm_compute. reflexivity. Qed.

Lemma socketcall_confined_witness :
  let s := demo_socket_state [3; 48; 4; 0; 64; 80] in
  g_mem (gw_guest (s__socketcall 12 24 s).2) !! 52%nat = Some 7.
Proof.
  intros s.
  refine (socketcall_confined 12 24 s 52 _).
  replace (named_ranges _ _ _) with [(48, 4); (64, 16); (80, 4)] by reflexivity.
  repeat apply Forall_cons_2; try apply Forall_nil_2; unfold outside; cbn; lia.
Defined.
