(* ===== verification/Clocks.v ===== *)
(** The calls of a module on clocks (src/wavm/timing.cpp): reading them and sleeping.  The
    clocks of the host, and the layout of the WASI structs, are interfaces. *)

From S2P Require Import Prelude WasmBytes WasmMemory Wasi Chaining Guest.

(** * The interfaces *)

(** The numbers of the clocks on Linux. *)
Definition CLOCK_REALTIME : Z := 0.
Definition CLOCK_MONOTONIC : Z := 1.
Definition CLOCK_PROCESS_CPUTIME_ID : Z := 2.
Definition CLOCK_THREAD_CPUTIME_ID : Z := 3.

(** The clocks of the host: reading one gives seconds and nanoseconds, or [errno]; the
    conversions are those of faabric. *)
Class HostClock := {
  Clk : Type;
  host_clock_gettime : Z → Clk → (Z + Z * Z) * Clk;
  host_gettimeofday : Clk → (Z * Z) * Clk;
  host_sleep : Z → Clk → Clk;
  host_clock_nanosleep : Z → Z * Z → Clk → Clk;
  nanosToTimespec : Z → Z * Z;
  timespecToNanos : Z * Z → Z }.

(** [__wasi_subscription_t] and [__wasi_event_t]: their sizes, the fields of the first by
    its bytes, and setting the type and the error of the second. *)
Class PollLayout := {
  subscription_size : Z; sub_type : list Z → Z; sub_clock_id : list Z → Z; sub_timeout : list Z → Z;
  event_size : Z; event_set : Z → Z → list Z → list Z;
  EVENTTYPE_CLOCK : Z;
  WASI_CLOCK_REALTIME : Z; WASI_CLOCK_MONOTONIC : Z;
  WASI_CLOCK_PROCESS_CPUTIME_ID : Z; WASI_CLOCK_THREAD_CPUTIME_ID : Z }.
Class PollLayoutLaws `{PollLayout} : Prop := {
  subscription_size_pos : 0 < subscription_size;
  event_size_pos : 0 < event_size;
  event_length t e bs : length (event_set t e bs) = length bs;
  event_set_set t e t' e' bs : event_set t e (event_set t' e' bs) = event_set t e bs;
  poll_clocks_distinct : WASI_CLOCK_REALTIME ≠ WASI_CLOCK_MONOTONIC }.

Definition le64 (x : Z) : list Z := Z_to_little_endian 8 8 x.

Section clocks.
Context `{Scheduler} `{HostClock} `{WasiABI} `{PollLayout}.

Abbreviation CS := (GuestWith Clk).
Abbreviation CM := (M CS).

Definition on_clock {A} (f : Clk → A * Clk) : CM A := on_ext (λ t, let '(a, t) := f t in (Ret a, t)).
Definition on_sleep (f : Clk → Clk) : CM unit := on_ext (modify f).

(** [wasm_timespec] and [wasm_timeval] have 16 bytes, of which the last four are padding:
    a write sets twelve. *)
Definition write_time (ptr sec sub : Z) : M GuestState unit :=
  memoryArrayPtr ptr 16 ;; write_native ptr (le64 sec ++ le32 sub).

Definition s__clock_gettime (clockId timespecPtr : Z) : CM Z :=
  ts ← on_clock (host_clock_gettime clockId);
  match ts with
  | inl systemErrno => mret (i32 (- systemErrno))
  | inr (sec, nsec) => on_guest (write_time timespecPtr sec (i32 nsec)) ;; mret 0
  end.

(** The seconds pass through 32 bits. *)
Definition s__gettimeofday (tvPtr tzPtr : Z) : CM Z :=
  '(sec, usec) ← on_clock host_gettimeofday;
  on_guest (write_time tvPtr (i32 sec) (i32 usec)) ;; mret 0.

Definition s__nanosleep (reqPtr remPtr : Z) : CM Z :=
  request ← on_guest (read_ref reqPtr 16);
  let tv_sec := i64 (little_endian_to_Z 8 (take 8 request)) in
  if tv_sec =? 2 ^ 63 - 1 then throw (Undefined "signed integer overflow")
  else on_sleep (host_sleep (u32 (tv_sec + 1))) ;; mret 0.

(** ** Polling *)

(** [memoryArrayPtr] of [n] structs. *)
Definition structArray (a n size : Z) : M GuestState unit :=
  if n <? 0 then throw oob else memoryArrayPtr a (n * size).

Definition poll_clock (clockId : Z) : outcome Z :=
  if clockId =? WASI_CLOCK_MONOTONIC then Ret CLOCK_MONOTONIC
  else if clockId =? WASI_CLOCK_REALTIME then Ret CLOCK_REALTIME
  else Throw (RuntimeError "Unimplemented clock type").

(** One subscription: the sleep, then the event. *)
Definition poll_one (subscriptionsPtr eventsPtr i : Z) : CM unit :=
  thisSub ← on_guest (read_native (subscriptionsPtr + i * subscription_size) subscription_size);
  if sub_type thisSub =? EVENTTYPE_CLOCK then
    clockType ← lift (poll_clock (sub_clock_id thisSub));
    on_sleep (host_clock_nanosleep clockType (nanosToTimespec (sub_timeout thisSub))) ;;
    thisEvent ← on_guest (read_native (eventsPtr + i * event_size) event_size);
    on_guest (write_native (eventsPtr + i * event_size) (event_set (sub_type thisSub) WASI_ESUCCESS thisEvent))
  else throw (RuntimeError "Unimplemented event type").

Definition wasi_poll_oneoff (subscriptionsPtr eventsPtr nSubs resNEvents : Z) : CM Z :=
  on_guest (structArray subscriptionsPtr nSubs subscription_size) ;;
  on_guest (structArray eventsPtr nSubs event_size) ;;
  for_each (seqZ 0 nSubs) (poll_one subscriptionsPtr eventsPtr) ;;
  on_guest (write_ref resNEvents (le32 nSubs)) ;;
  mret WASI_ESUCCESS.

(** ** WASI clocks *)

Definition linuxClock (clockId : Z) : outcome Z :=
  if clockId =? WASI_CLOCK_REALTIME then Ret CLOCK_REALTIME
  else if clockId =? WASI_CLOCK_MONOTONIC then Ret CLOCK_MONOTONIC
  else if clockId =? WASI_CLOCK_PROCESS_CPUTIME_ID then Ret CLOCK_PROCESS_CPUTIME_ID
  else if clockId =? WASI_CLOCK_THREAD_CPUTIME_ID then Ret CLOCK_THREAD_CPUTIME_ID
  else Throw (RuntimeError "Unknown clock ID").

(** The test [if (EINVAL)] always holds. *)
Definition wasi_clock_time_get (clockId precision resultPtr : Z) : CM Z :=
  linuxClockId ← lift (linuxClock clockId);
  ts ← on_clock (host_clock_gettime linuxClockId);
  match ts with
  | inl _ => if negb (EINVAL =? 0) then mret WASI_EINVAL else throw (RuntimeError "Unexpected clock error")
  | inr ts => on_guest (write_ref resultPtr (le64 (timespecToNanos ts))) ;; mret WASI_ESUCCESS
  end.
End clocks.

(** * Properties *)

Section poll.
Context `{Sc : Scheduler} `{HC : HostClock} `{WA : WasiABI} `{PL : PollLayout} `{PLL : !PollLayoutLaws}.

Abbreviation CS := (GuestWith Clk).
Abbreviation CM := (M CS).

(** The subscription at [a] asks to sleep on a clock of the host. *)
Definition subscribes (m : Mem) (a : Z) (x : Z * Z) : Prop :=
  ∃ bs, mem_read m a subscription_size = Ret bs ∧ sub_type bs = EVENTTYPE_CLOCK ∧
    poll_clock (sub_clock_id bs) = Ret x.1 ∧ sub_timeout bs = x.2.
(** The host after it slept as asked. *)
Definition slept (xs : list (Z * Z)) (t : Clk) : Clk :=
  foldl (λ t x, host_clock_nanosleep x.1 (nanosToTimespec x.2) t) t xs.

Definition with_mem (m : Mem) (t : Clk) (s : CS) : CS := mkGuestWith (set_mem m (gw_guest s)) (gw_module s) t.
Definition mem_of (s : CS) : Mem := g_mem (gw_guest s).

Lemma poll_one_run sp ep i (s : CS) x old :
  subscribes (mem_of s) (sp + i * subscription_size) x →
  mem_read (mem_of s) (ep + i * event_size) event_size = Ret old →
  ∃ m, mem_write (mem_of s) (ep + i * event_size) (event_set EVENTTYPE_CLOCK WASI_ESUCCESS old) = Ret m ∧
    Z.of_nat (length (event_set EVENTTYPE_CLOCK WASI_ESUCCESS old)) = event_size ∧
    poll_one sp ep i s = (Ret (), with_mem m (slept [x] (gw_ext s)) s).
Proof.
  intros (bs & Hbs & Hty & Hclk & Htm) Hold. pose proof event_size_pos as Hpos.
  assert (Z.of_nat (length (event_set EVENTTYPE_CLOCK WASI_ESUCCESS old)) = event_size) as Hlen.
  { rewrite event_length. unfold mem_read in Hold. destruct (in_mem _ _ _) eqn:Hin; [|done].
    injection Hold as <-. apply in_mem_true in Hin. unfold mem_size in Hin. rewrite length_take, length_drop. lia. }
  unfold mem_write. rewrite Hlen.
  assert (in_mem (mem_of s) (ep + i * event_size) event_size = true) as Hin
    by (unfold mem_read in Hold; by destruct (in_mem _ _ _)).
  rewrite Hin. eexists. split; [done|]. split; [done|]. unfold poll_one.
  rewrite (run_bind_ret _ _ _ bs s) by by apply run_on_guest_id, run_read_native.
  rewrite Hty, Z.eqb_refl. rewrite (run_bind_ret _ _ _ x.1 s) by (unfold lift; by rewrite Hclk).
  rewrite (run_bind_ret _ _ _ () (with_ext (slept [x] (gw_ext s)) s))
    by (unfold on_sleep, modify; rewrite Htm; by apply run_on_ext).
  rewrite (run_bind_ret _ _ _ old (with_ext (slept [x] (gw_ext s)) s)) by by apply run_on_guest_id, run_read_native.
  erewrite run_on_guest; [reflexivity|].
  apply write_native_run. unfold mem_write. cbn [gw_guest with_ext]. fold (mem_of s). by rewrite Hlen, Hin.
Qed.

Lemma poll_loop_run sp ep xs i (s : CS) :
  0 ≤ i → 0 ≤ ep →
  in_mem (mem_of s) (ep + i * event_size) (Z.of_nat (length xs) * event_size) = true →
  (∀ j x, xs !! j = Some x → subscribes (mem_of s) (sp + (i + Z.of_nat j) * subscription_size) x ∧
    iov_disjoint (sp + (i + Z.of_nat j) * subscription_size, subscription_size)
      (ep + i * event_size, Z.of_nat (length xs) * event_size)) →
  ∃ m, for_each (seqZ i (Z.of_nat (length xs))) (poll_one sp ep) s = (Ret (), with_mem m (slept xs (gw_ext s)) s) ∧
    mem_size m = mem_size (mem_of s) ∧
    untouched [(ep + i * event_size, Z.of_nat (length xs) * event_size)] (mem_of s) m ∧
    ∀ j old, (j < length xs)%nat → mem_read (mem_of s) (ep + (i + Z.of_nat j) * event_size) event_size = Ret old →
      mem_read m (ep + (i + Z.of_nat j) * event_size) event_size =
        Ret (event_set EVENTTYPE_CLOCK WASI_ESUCCESS old).
Proof.
  pose proof event_size_pos as Hpos. pose proof subscription_size_pos as Hspos.
  revert i s. induction xs as [|x xs IH]; intros i s Hi Hep Hin Hsubs.
  { exists (mem_of s). cbn [length for_each]. rewrite seqZ_nil by lia. split_and!; [by destruct s as [[] ? ?]|done|done|].
    intros j old Hj. cbn in Hj. lia. }
  cbn [length] in *. rewrite Nat2Z.inj_succ in *. rewrite seqZ_cons by lia.
  replace (Z.pred (Z.succ (Z.of_nat (length xs)))) with (Z.of_nat (length xs)) by lia.
  cbn [for_each]. apply in_mem_true in Hin as [Hin0 Hin1].
  destruct (Hsubs 0%nat x eq_refl) as [Hsub Hd]. rewrite Z.add_0_r in Hsub, Hd.
  assert (∃ old, mem_read (mem_of s) (ep + i * event_size) event_size = Ret old) as [old Hold].
  { unfold mem_read. rewrite (proj2 (in_mem_true _ _ _)) by nia. by eexists. }
  destruct (poll_one_run sp ep i s x old Hsub Hold) as (m1 & Hw & Hlen & Hrun).
  rewrite (run_bind_ret _ _ _ _ _ Hrun). set (s1 := with_mem m1 _ s).
  pose proof (mem_write_size _ _ _ _ Hw) as Hsz.
  assert (∀ b n, 0 ≤ n → iov_disjoint (b, n) (ep + i * event_size, event_size) →
    mem_read m1 b n = mem_read (mem_of s) b n) as Hkeep.
  { intros b n Hn Hbn. apply (mem_read_write_disjoint _ _ _ _ _ _ Hw Hn). unfold iov_disjoint in Hbn.
    cbn in Hbn. lia. }
  destruct (IH (i + 1) s1) as (m & Hloop & Hmsz & Hun & Hev).
  - lia.
  - done.
  - unfold s1. cbn. apply in_mem_true. rewrite Hsz. nia.
  - intros j y Hy. destruct (Hsubs (S j) y Hy) as [(bs & Hbs & Hrest) Hdj].
    rewrite Nat2Z.inj_succ, <- Z.add_succ_comm in Hbs, Hdj. unfold Z.succ in Hbs, Hdj.
    unfold iov_disjoint in Hdj |- *. cbn in Hdj |- *. split; [|nia].
    exists bs. split; [|done]. cbn. rewrite Hkeep; [done|lia|]. unfold iov_disjoint. cbn. nia.
  - exists m. unfold Z.succ at 1. rewrite Hloop. split_and!.
    + unfold s1. by destruct s as [[] ? ?].
    + by rewrite Hmsz.
    + transitivity m1.
      * eapply untouched_write; [by apply list_elem_of_singleton| |exact Hw]. rewrite Hlen. nia.
      * intros k Hk. apply Hun. rewrite Forall_singleton in Hk |- *.
        unfold outside in *. cbn in *. nia.
    + intros j old' Hj Hold'. destruct j as [|j].
      * rewrite Z.add_0_r in *. rewrite Hold in Hold'. injection Hold' as <-.
        rewrite <- (mem_read_untouched m1 m [(ep + (i + 1) * event_size, Z.of_nat (length xs) * event_size)]); [|done..|].
        -- pose proof (mem_read_write _ _ _ _ Hw) as Hrw. by rewrite Hlen in Hrw.
        -- apply Forall_singleton. unfold iov_disjoint. cbn. nia.
      * rewrite Nat2Z.inj_succ, <- Z.add_succ_comm in *. unfold Z.succ in *. apply Hev; [lia|].
        cbn. rewrite Hkeep; [done|lia|]. unfold iov_disjoint. cbn. nia.
Qed.

(** Polling subscriptions that are all clocks sleeps for each in order and then
    answers: every event names its subscription's type without an error, the number of
    events is that of the subscriptions, and nothing else in the memory changes. *)
Theorem poll_oneoff_sleeps sp ep res xs (s : CS) :
  let m := mem_of s in
  let n := Z.of_nat (length xs) in
  let events := (ep, n * event_size) in
  n < 2 ^ 31 → n * subscription_size < 2 ^ 64 → n * event_size < 2 ^ 64 →
  in_mem m sp (n * subscription_size) = true → in_mem m ep (n * event_size) = true → in_mem m res 4 = true →
  iov_disjoint (sp, n * subscription_size) events → iov_disjoint (res, 4) events →
  (∀ j x, xs !! j = Some x → subscribes m (sp + Z.of_nat j * subscription_size) x) →
  ∃ m', wasi_poll_oneoff sp ep n res s = (Ret WASI_ESUCCESS, with_mem m' (slept xs (gw_ext s)) s) ∧
    load_u32 m' res = Ret n ∧ untouched [events; (res, 4)] m m' ∧
    ∀ j old, (j < length xs)%nat → mem_read m (ep + Z.of_nat j * event_size) event_size = Ret old →
      mem_read m' (ep + Z.of_nat j * event_size) event_size = Ret (event_set EVENTTYPE_CLOCK WASI_ESUCCESS old).
Proof.
  intros m n events Hn Hns Hne Hsin Hein Hrin Hd1 Hd2 Hsubs.
  pose proof event_size_pos as Hpos. pose proof subscription_size_pos as Hspos.
  assert (0 ≤ n) as Hn0 by lia. pose proof (proj1 (in_mem_true _ _ _) Hein) as [Hep Hep'].
  destruct (poll_loop_run sp ep xs 0 s) as (m1 & Hloop & Hsz & Hun & Hev); [lia|done| | |].
  { by rewrite Z.mul_0_l, Z.add_0_r. }
  { intros j x Hx. rewrite !Z.add_0_l, Z.mul_0_l, Z.add_0_r. split; [by apply Hsubs|].
    apply lookup_lt_Some in Hx. unfold iov_disjoint, events in *. cbn in *. unfold n in *. nia. }
  rewrite Z.mul_0_l, Z.add_0_r in Hun. fold n in Hun, Hloop. fold events in Hun. fold m in Hun, Hsz, Hev.
  destruct (mem_write_exists m1 res (le32 n)) as [m2 Hw].
  { rewrite length_le32. unfold in_mem. by rewrite Hsz. }
  exists m2. split_and!.
  - assert (∀ a size, 0 < size → n * size < 2 ^ 64 → in_mem m a (n * size) = true →
      on_guest (structArray a n size) s = (Ret (), s)) as Harr.
    { intros a size Hsz0 Hlt Hin. apply run_on_guest_id. unfold structArray.
      destruct (Z.ltb_spec n 0); [lia|]. apply memoryArrayPtr_run. rewrite wrapU_id by (unfold in_u; nia). exact Hin. }
    unfold wasi_poll_oneoff.
    rewrite (run_bind_ret _ _ _ _ _ (Harr sp _ Hspos Hns Hsin)), (run_bind_ret _ _ _ _ _ (Harr ep _ Hpos Hne Hein)).
    rewrite (run_bind_ret _ _ _ _ _ Hloop).
    rewrite (run_bind_ret _ _ _ () (with_mem m2 (slept xs (gw_ext s)) s)); [done|].
    erewrite run_on_guest; [|by apply run_write_ref]. by destruct s as [[] ? ?].
  - rewrite (load_store_u32 _ _ _ _ Hw). f_equal. apply wrapU_id. unfold in_u. lia.
  - transitivity m1.
    + intros k Hk. apply Hun. inversion_clear Hk. by rewrite Forall_singleton.
    + apply (untouched_write _ m1 res (le32 n) m2 4); [set_solver|by rewrite length_le32|done].
  - intros j old Hj Hold. rewrite (mem_read_write_disjoint _ _ _ _ _ _ Hw); [|lia|].
    + apply (Hev j old Hj). exact Hold.
    + rewrite length_le32. unfold iov_disjoint, events in Hd2. cbn in Hd2. unfold n in *. nia.
Qed.

(** Any failure of a clock is reported as an invalid argument. *)
Lemma clock_error_is_einval clockId precision resultPtr c e t (s : CS) :
  linuxClock clockId = Ret c → host_clock_gettime c (gw_ext s) = (inl e, t) →
  (wasi_clock_time_get clockId precision resultPtr s).1 = Ret WASI_EINVAL.
Proof.
  intros Hc Ht. unfold wasi_clock_time_get.
  rewrite (run_bind_ret _ _ _ c s) by (unfold lift; by rewrite Hc).
  rewrite (run_bind_ret _ _ _ (inl e) (with_ext t s)); [done|].
  apply run_on_ext. by rewrite Ht.
Qed.
(** The time of day passes through 32 bits: from 2038 on it is in the past. *)
Lemma gettimeofday_wraps tvPtr tzPtr t usec (s : CS) :
  host_gettimeofday (gw_ext s) = (2 ^ 31, usec, t) → 
  s__gettimeofday tvPtr tzPtr s =
    (on_guest (write_time tvPtr (- 2 ^ 31) (i32 usec)) ;; mret 0) (with_ext t s).
Proof.
  intros Ht. unfold s__gettimeofday.
  by rewrite (run_bind_ret _ _ _ (2 ^ 31, usec) (with_ext t s)) by (apply run_on_ext; by rewrite Ht).
Qed.
End poll.

(** * Concrete clocks *)

(** The sleeps are recorded; a subscription is its type, its clock and its timeout. *)
#[export] Instance demo_clock : HostClock :=
  {| Clk := list (Z * (Z * Z));
     host_clock_gettime := λ c t, (if c <? 4 then inr (5, 6) else inl EINVAL, t);
     host_gettimeofday := λ t, (7, 8, t);
     host_sleep := λ n t, t ++ [(-1, (n, 0))];
     host_clock_nanosleep := λ c x t, t ++ [(c, x)];
     nanosToTimespec := λ n, (n / 10 ^ 9, n mod 10 ^ 9);
     timespecToNanos := λ x, x.1 * 10 ^ 9 + x.2 |}.
#[export] Instance demo_poll_layout : PollLayout :=
  {| subscription_size := 3; sub_type := λ bs, nth 0 bs 0; sub_clock_id := λ bs, nth 1 bs 0;
     sub_timeout := λ bs, nth 2 bs 0;
     event_size := 2; event_set := λ t e bs, match bs with _ :: _ :: bs => t :: e :: bs | _ => bs end;
     EVENTTYPE_CLOCK := 9;
     WASI_CLOCK_REALTIME := 0; WASI_CLOCK_MONOTONIC := 1;
     WASI_CLOCK_PROCESS_CPUTIME_ID := 2; WASI_CLOCK_THREAD_CPUTIME_ID := 3 |}.
#[export] Instance demo_poll_laws : PollLayoutLaws.
Proof.
  split; cbn; try lia.
  - intros t e bs. by destruct bs as [|? [|? bs]].
  - intros t e t' e' bs. by destruct bs as [|? [|? bs]].
Qed.

Definition demo_clock_state (m : Mem) : @GuestWith demo_scheduler (@Clk demo_clock) :=
  mkGuestWith (mkGuest m (demo_message "u" "f" 1 7 []) (0, ∅) [] []) demo_module [].

Lemma poll_oneoff_sleeps_witness :
  let s := demo_clock_state [9; 1; 50; 9; 0; 60; 4; 4; 4; 4; 8; 8; 8; 8; 3] in
  ∃ m', wasi_poll_oneoff 0 6 2 10 s =
      (Ret 0, with_mem m' [(CLOCK_MONOTONIC, (0, 50)); (CLOCK_REALTIME, (0, 60))] s) ∧
    load_u32 m' 10 = Ret 2 ∧ mem_read m' 6 2 = Ret [9; 0].
Proof.
  intros s.
  destruct (poll_oneoff_sleeps 0 6 10 [(CLOCK_MONOTONIC, 50); (CLOCK_REALTIME, 60)] s) as (m' & Hr & Hl & _ & Hev).
  - cbn; lia.
  - cbn; lia.
  - cbn; lia.
  - reflexivity.
  - reflexivity.
  - reflexivity.
  - unfold iov_disjoint; cbn; lia.
  - unfold iov_disjoint; cbn; lia.
  - intros [|[|j]] x [= <-]; eexists; (split; [reflexivity|]); done.
  - exists m'. split; [exact Hr|]. split; [exact Hl|].
    exact (Hev 0%nat [4; 4] ltac:(cbn; lia) eq_refl).
Defined.
