(* ===== verification/Ffi.v ===== *)
(** The dynamic-linking calls of a module and its calls through libffi
    (src/wavm/dynlink.cpp): names and argument descriptions are read from the module's
    memory, the linker and WAVM do the rest. *)

From S2P Require Import Prelude Globals WasmBytes WasmMemory ModuleCache DynLink Chaining Lifecycle.

(** * libffi's types *)

(** [libffi_type_value] *)
Inductive libffi_type_value : Type :=
  | FVOID | FINT | FFLOAT | FDOUBLE | FLONGDOUBLE | FUINT8 | FSINT8 | FUINT16 | FSINT16 | FUINT32
  | FSINT32 | FUINT64 | FSINT64 | FSTRUCT | FPOINTER | FCOMPLEX.
Definition libffi_type_values : list libffi_type_value :=
  [FVOID; FINT; FFLOAT; FDOUBLE; FLONGDOUBLE; FUINT8; FSINT8; FUINT16; FSINT16; FUINT32; FSINT32;
   FUINT64; FSINT64; FSTRUCT; FPOINTER; FCOMPLEX].

(** [libffi_type] and [libffi_cif], as they lie in the memory. *)
Record libffi_type := mkFfiType { ft_size : Z; ft_alignment : Z; ft_type : Z; ft_elementsPtrPtr : Z }.
Record libffi_cif := mkCif {
  abi : Z; nargs : Z; argTypesPtrPtr : Z; retTypePtr : Z; cif_bytes : Z; cif_flags : Z }.

(** The number at an offset of a struct. *)
Definition field (bs : list Z) (off width : nat) : Z := little_endian_to_Z 8 (take width (drop off bs)).
Definition libffi_type_of (bs : list Z) : libffi_type :=
  mkFfiType (field bs 0 4) (field bs 4 2) (field bs 6 2) (field bs 8 4).
Definition libffi_cif_of (bs : list Z) : libffi_cif :=
  mkCif (field bs 0 4) (field bs 4 4) (field bs 8 4) (field bs 12 4) (field bs 16 4) (field bs 20 4).

(** The native type that a value is read as: its bytes and whether it is signed. *)
Definition nativeType (t : libffi_type_value) : option (Z * bool) :=
  match t with
  | FUINT8 => Some (1, false) | FSINT8 => Some (1, true)
  | FUINT16 => Some (2, false) | FSINT16 => Some (2, true)
  | FUINT32 | FPOINTER => Some (4, false) | FSINT32 | FINT => Some (4, true)
  | FUINT64 => Some (8, false) | FSINT64 => Some (8, true)
  | _ => None
  end.
Definition native_of (width : Z) (signed : bool) (bs : list Z) : Z :=
  let v := little_endian_to_Z 8 bs in
  if signed then wrapS (8 * width) v else wrapU (8 * width) v.

Section ffi.
Context `{E : MemoryEnv} `{Wavm} `{!LinkEnv} {Reg FS Vars : Type} `{!Registry Reg} `{!ModuleFiles FS}
  `{!StateStore} `{!WasmEngine Reg FS Vars} (prependRuntimeRoot : string → string).
Abbreviation Module_ := (Linker (Rest Reg FS Vars)).
Abbreviation ModM := (M Module_).

Definition guest_bytes (m : Module_) : Mem := bytes (lk_registry m).

(** [unalignedWavmRead] and [unalignedWavmWrite] *)
Definition unalignedWavmRead (offset n : Z) : ModM (list Z) :=
  m ← get; lift (mem_read (guest_bytes m) offset n).
Definition unalignedWavmWrite (bs : list Z) (offset : Z) : ModM unit :=
  m ← get; b ← lift (mem_write (guest_bytes m) offset bs); put (upd_rest (set_bytes b) m).
Definition read_u32 (offset : Z) : ModM Z := bs ← unalignedWavmRead offset 4; mret (field bs 0 4).
Definition read_type (offset : Z) : ModM libffi_type :=
  bs ← unalignedWavmRead offset 12; mret (libffi_type_of bs).

Definition module_string (strPtr : Z) : ModM string :=
  m ← get;
  if in_mem (guest_bytes m) strPtr 1 then
    match c_string (guest_bytes m) strPtr with
    | Some str => mret str
    | None => throw (Undefined "string past the end of the memory")
    end
  else throw oob.

(** * The dynamic linker *)

Definition dlopen (fileNamePtr flags : Z) : ModM Z :=
  filePath ← module_string fileNamePtr;
  let realPath := if fileNamePtr =? 0 then "" else prependRuntimeRoot filePath in
  dynamicLoadModule isA linkModule instantiateModule executeWasmFunction realPath.

Definition dlsym (handle symbolPtr : Z) : ModM Z :=
  symbol ← module_string symbolPtr;
  tableIdx ← getDynamicModuleFunction handle symbol; mret (i32 tableIdx).

(** Each call takes new memory for the message. *)
Definition dlerror : ModM Z :=
  let errorMessage := "Wasm dynamic linking error. See logs" in
  let pageAlignedSize := roundUpToWasmPageAligned (u32 (str_size errorMessage)) in
  wasmStrPtr ← on_linear (growMemory pageAlignedSize);
  unalignedWavmRead wasmStrPtr 1 ;;
  unalignedWavmWrite (bytes_of_string errorMessage ++ [0]) wasmStrPtr ;;
  mret (i32 wasmStrPtr).

(** * libffi *)

(** One argument: its description, its address, and the value there. *)
Definition ffi_arg (cif : libffi_cif) (argsPtrPtr i : Z) : ModM Z :=
  argTypePtr ← read_u32 (u64 (argTypesPtrPtr cif + 4 * i));
  argPtr ← read_u32 (u64 (argsPtrPtr + 4 * i));
  argType ← read_type argTypePtr;
  match libffi_type_values !! Z.to_nat (ft_type argType) ≫= nativeType with
  | Some (width, signed) => bs ← unalignedWavmRead argPtr width; mret (native_of width signed bs)
  | None => throw (RuntimeError "FFI type not yet implemented")
  end.

(** The result is written as 32 bits, whatever its type. *)
Definition ffi_call (cifPtr fnPtr retPtr argsPtrPtr : Z) : ModM unit :=
  func ← getFunctionFromPtr fnPtr;
  bs ← unalignedWavmRead cifPtr 24;
  let cif := libffi_cif_of bs in
  let expectedNArgs := u32 (Z.of_nat (paramsOf func)) in
  if negb (expectedNArgs =? nargs cif) then throw (RuntimeError "Mismatched function param lengths")
  else
    wavmArguments ← map_each (seqZ 0 (nargs cif)) (ffi_arg cif argsPtrPtr);
    read_type (retTypePtr cif) ;;
    result ← executeWasmFunction func wavmArguments;
    unalignedWavmWrite (le32 result) retPtr.

(** * Properties *)

(** An integer of a native type, as a module stores it. *)
Definition native_range (width : Z) (signed : bool) (v : Z) : Prop :=
  if signed then in_s (8 * width) v else in_u (8 * width) v.
Definition native_bytes (width v : Z) : list Z := Z_to_little_endian width 8 v.

Lemma native_of_bytes width signed v :
  0 < width → native_range width signed v → native_of width signed (native_bytes width v) = v.
Proof.
  intros Hw Hv. unfold native_of, native_bytes.
  rewrite little_endian_to_Z_to_little_endian by lia. rewrite (Z.mul_comm width 8).
  fold (wrapU (8 * width) v). unfold native_range in Hv. destruct signed.
  - rewrite wrapS_wrapU by lia. apply wrapS_id; [lia|done].
  - rewrite (wrapU_id (8 * width) v) by done. by apply wrapU_id.
Qed.

(** Argument [i] of the call in the memory: its description and its value. *)
Definition ffi_stored (m : Mem) (cif : libffi_cif) (argsPtrPtr i : Z) (t : libffi_type_value) (v : Z) : Prop :=
  ∃ tp p bp bt b width signed,
    mem_read m (u64 (argTypesPtrPtr cif + 4 * i)) 4 = Ret bt ∧ field bt 0 4 = tp ∧
    mem_read m (u64 (argsPtrPtr + 4 * i)) 4 = Ret bp ∧ field bp 0 4 = p ∧
    mem_read m tp 12 = Ret b ∧ libffi_type_values !! Z.to_nat (ft_type (libffi_type_of b)) = Some t ∧
    nativeType t = Some (width, signed) ∧ native_range width signed v ∧
    mem_read m p width = Ret (native_bytes width v).

Lemma run_unaligned a n (m : Module_) bs :
  mem_read (guest_bytes m) a n = Ret bs → unalignedWavmRead a n m = (Ret bs, m).
Proof. intros Hr. unfold unalignedWavmRead. run_unfold. by rewrite Hr. Qed.

Lemma nativeType_width t width signed : nativeType t = Some (width, signed) → 0 < width.
Proof. destruct t; by intros [= <- <-]. Qed.

Lemma ffi_arg_run cif args i t v (m : Module_) :
  ffi_stored (guest_bytes m) cif args i t v → ffi_arg cif args i m = (Ret v, m).
Proof.
  intros (tp & p & bp & bt & b & width & signed & Ht & Htp & Hp & Hpp & Hb & Hty & Hn & Hv & Hval).
  unfold ffi_arg, read_u32, read_type.
  rewrite run_bind_assoc, (run_bind_ret _ _ _ _ _ (run_unaligned _ _ _ _ Ht)). cbn [mret M_ret].
  rewrite (run_bind_ret _ _ _ tp m) by (by rewrite Htp).
  rewrite run_bind_assoc, (run_bind_ret _ _ _ _ _ (run_unaligned _ _ _ _ Hp)).
  rewrite (run_bind_ret _ _ _ p m) by (by rewrite Hpp).
  rewrite run_bind_assoc, (run_bind_ret _ _ _ _ _ (run_unaligned _ _ _ _ Hb)).
  rewrite (run_bind_ret _ _ _ (libffi_type_of b) m) by done.
  rewrite Hty. cbn [mbind option_bind]. rewrite Hn.
  rewrite (run_bind_ret _ _ _ _ _ (run_unaligned _ _ _ _ Hval)).
  by rewrite native_of_bytes by (eauto using nativeType_width).
Qed.

Lemma ffi_args_run cif args tvs i (m : Module_) :
  (∀ j t v, tvs !! j = Some (t, v) → ffi_stored (guest_bytes m) cif args (i + Z.of_nat j) t v) →
  map_each (seqZ i (Z.of_nat (length tvs))) (ffi_arg cif args) m = (Ret (snd <$> tvs), m).
Proof.
  revert i. induction tvs as [|[t v] tvs IH]; intros i Hs; cbn [length].
  - by rewrite seqZ_nil by lia.
  - rewrite Nat2Z.inj_succ, seqZ_cons by lia. rewrite Z.pred_succ. cbn [map_each].
    pose proof (Hs 0%nat t v eq_refl) as Hz. rewrite Z.add_0_r in Hz.
    rewrite (run_bind_ret _ _ _ _ _ (ffi_arg_run _ _ _ _ _ _ Hz)).
    rewrite (run_bind_ret _ _ _ (snd <$> tvs) m); [done|]. apply IH.
    intros j t' v' Hj. replace (Z.succ i + Z.of_nat j) with (i + Z.of_nat (S j)) by lia. by apply Hs.
Qed.

(** C5: a call through libffi executes the function of the pointer with exactly the
    integers that the caller stored, each at the width and sign of its declared type, and
    writes the low 32 bits of the result where the caller asked. *)
Theorem ffi_call_passes cifPtr fnPtr retPtr argsPtrPtr f bs rt tvs (m : Module_) :
  let cif := libffi_cif_of bs in
  (getFunctionFromPtr fnPtr m).1 = Ret f →
  mem_read (guest_bytes m) cifPtr 24 = Ret bs → mem_read (guest_bytes m) (retTypePtr cif) 12 = Ret rt →
  nargs cif = Z.of_nat (length tvs) → paramsOf f = length tvs → Z.of_nat (length tvs) < 2 ^ 32 →
  (∀ i t v, tvs !! i = Some (t, v) → ffi_stored (guest_bytes m) cif argsPtrPtr (Z.of_nat i) t v) →
  ffi_call cifPtr fnPtr retPtr argsPtrPtr m =
    (result ← executeWasmFunction f (snd <$> tvs); unalignedWavmWrite (le32 result) retPtr) m.
Proof.
  intros cif Hf Hbs Hrt Hn Hp Hlt Hargs. unfold ffi_call.
  assert (getFunctionFromPtr fnPtr m = (Ret f, m)) as Hf'.
  { unfold getFunctionFromPtr in *. revert Hf. run_unfold. destruct (lk_table m !! _) as [[o|]|]; cbn; try done.
    by intros [= ->]. }
  rewrite (run_bind_ret _ _ _ _ _ Hf'), (run_bind_ret _ _ _ _ _ (run_unaligned _ _ _ _ Hbs)).
  cbv zeta. fold cif. rewrite Hp, Hn, wrapU_id by (unfold in_u; lia). rewrite Z.eqb_refl. cbn [negb].
  rewrite (run_bind_ret _ _ _ (snd <$> tvs) m) by (apply ffi_args_run; intros j t v Hj; by apply Hargs).
  unfold read_type. by rewrite (run_bind_assoc (S := Module_)), (run_bind_ret _ _ _ _ _ (run_unaligned _ _ _ _ Hrt)).
Qed.

(** Two results that agree in their low half are the same to the caller. *)
Lemma ffi_result_truncated r r' retPtr :
  u32 r = u32 r' → unalignedWavmWrite (le32 r) retPtr = unalignedWavmWrite (le32 r') retPtr.
Proof.
  intros Hr. by rewrite <- (le32_u32 r), Hr, le32_u32.
Qed.
End ffi.

(** * A concrete call *)

(** An engine on which every function takes two parameters and adds them. *)
Definition demo_adder : @WasmEngine demo_wavm demo_link CacheState (list string) unit :=
  {| remapToClonedCompartment := λ i, i; pagesWithoutMemory := λ _ _, 0; isA := λ _ _, true;
     linkModule := demo_link_imports; instantiateModule := λ _ _ n, mret n;
     executeWasmFunction := λ f args, mret (foldr Z.add 0 args);
     executeInContext := λ _ _ _, mret 0;
     defaultMemoryOf := λ _, []; defaultTableOf := λ _, []; globalsOf := λ _, [];
     globalI32 := λ _ _, 0; firstMutableGlobal := λ _, 0; paramsOf := λ _, 2%nat;
     engine_setGlobal := demo_setGlobal |}.

(** A signed byte -3 at 64 and an unsigned short 300 at 66. *)
Definition demo_ffi_mem : Mem :=
  flat_map le32 [0; 2; 24; 40; 0; 0; 40; 52; 64; 66] ++ [1; 0; 0; 0; 1; 0; 6; 0; 0; 0; 0; 0] ++
  [2; 0; 0; 0; 2; 0; 7; 0; 0; 0; 0; 0] ++ [253; 0; 44; 1; 0; 0; 0; 0].
Definition demo_ffi_mod : Linker DemoRest := set_table [Some demo_f] (demo_mod true 1 demo_ffi_mem []).

Lemma ffi_call_passes_witness :
  guest_bytes (ffi_call (WasmEngine0 := demo_adder) 0 0 68 32 demo_ffi_mod).2 =
    take 68 demo_ffi_mem ++ le32 297.
Proof.
  rewrite (ffi_call_passes (WasmEngine0 := demo_adder) 0 0 68 32 demo_f (take 24 demo_ffi_mem)
    (take 12 (drop 40 demo_ffi_mem)) [(FSINT8, -3); (FUINT16, 300)] demo_ffi_mod).
  - vm_compute. reflexivity.
  - reflexivity.
  - reflexivity.
  - reflexivity.
  - reflexivity.
  - reflexivity.
  - cbn. lia.
  - intros [|[|i]] t v [= <- <-]; repeat eexists; try (vm_compute; reflexivity); vm_compute; intuition discriminate.
Defined.
