(* ===== verification/WamrIo.v ===== *)
(** The file calls of a module that runs on WAMR (src/wamr/filesystem.cpp) with the
    translation of addresses (src/include/wamr/WAMRModuleMixin.h,
    src/wamr/WAMRWasmModule.cpp).  They work on the same memory and the same table of open
    files as those of WAVM.  WAMR translates the pointers of a call before it; the call
    reads and writes through them natively, so that nothing checks their end. *)

From Stdlib Require Import Ascii.
From S2P Require Import Prelude WasmBytes S3 Host FileLoader SharedFiles Natives Wasi FileDescriptor FileSystem WasiIo.

(** * The interface to WAMR *)

(** [wasm_runtime_validate_app_addr], [wasm_runtime_validate_native_addr] and whether
    [wasm_runtime_addr_app_to_native] gives a pointer, on the memory of an instance;
    native pointers are named by their offset in it. *)
Class WamrAddr := {
  validate_app_addr : Mem → Z → Z → bool;
  validate_native_addr : Mem → Z → Z → bool;
  addr_app_to_native : Mem → Z → bool }.
Class WamrAddrLaws `{WamrAddr} : Prop := {
  validate_app_addr_in m a n : 0 ≤ n → validate_app_addr m a n = in_mem m a n;
  addr_app_to_native_in m a : addr_app_to_native m a = in_mem m a 1 }.

(** [iovec_app_t] and [wasi_prestat_app_t], as they lie in the memory. *)
Definition iovec_app_size : Z := 8.
Definition iovec_app_of (bs : list Z) : Z * Z :=
  (u32 (little_endian_to_Z 8 (take 4 bs)), u32 (little_endian_to_Z 8 (drop 4 bs))).
Definition wasi_prestat_app_size : Z := 8.
Definition wasi_prestat_app_set (t n : Z) (bs : list Z) : list Z :=
  list_inserts 4 (le32 n) (list_inserts 0 [t mod 256] bs).

Section wamr.
Context `{Rados} `{Host} `{WasiABI} `{WasiLayout} `{WamrAddr} (conf : FaasmConfig).
Abbreviation IoM := (M Io).

(** * Addresses *)

(** Its result is not read by any of the calls. *)
Definition validateNativePointer (nativePtr size : Z) : IoM bool :=
  s ← get; mret (validate_native_addr (io_mem s) nativePtr size).
Definition validateWasmOffset (wasmOffset size : Z) : IoM unit :=
  s ← get;
  if validate_app_addr (io_mem s) wasmOffset size then mret ()
  else throw (RuntimeError "Offset outside WAMR's memory").
Definition wasmPointerToNative (wasmPtr : Z) : IoM Z :=
  s ← get;
  if addr_app_to_native (io_mem s) wasmPtr then mret wasmPtr
  else throw (RuntimeError "Offset out of WAMR memory").

(** Reads and writes through a native pointer. *)
Definition native_read (a n : Z) : IoM (list Z) :=
  s ← get;
  match mem_read (io_mem s) a n with
  | Ret bs => mret bs
  | Throw _ => throw (Undefined "read past the end of the memory")
  end.
Definition native_write (a : Z) (bs : list Z) : IoM unit :=
  s ← get;
  match mem_write (io_mem s) a bs with
  | Ret m => put (io_set_mem m s)
  | Throw _ => throw (Undefined "write past the end of the memory")
  end.
Definition native_update (a size : Z) (f : list Z → list Z) : IoM unit :=
  bs ← native_read a size; native_write a (f bs).

(** [std::string(path, pathLen)] *)
Definition native_string (a n : Z) : IoM string :=
  if n <? 0 then throw (LogicError "basic_string::_M_create")
  else bs ← native_read a n; mret (string_of_bytes bs).

Definition writeStringToWasmMemory (strHost : string) (strWasm : Z) : IoM unit :=
  validateNativePointer strWasm (str_size strHost) ;;
  native_write strWasm (bytes_of_string strHost).

(** The loop that translates the buffers of a read or a write. *)
Definition native_iovec (ioVecBuffWasm i : Z) : IoM (Z * Z) :=
  bs ← native_read (ioVecBuffWasm + i * iovec_app_size) iovec_app_size;
  validateWasmOffset (iovec_app_of bs).1 (iovec_app_of bs).2 ;;
  base ← wasmPointerToNative (iovec_app_of bs).1;
  mret (base, (iovec_app_of bs).2).
Definition native_iovecs (ioVecBuffWasm ioVecCountWasm : Z) : IoM (list (Z * Z)) :=
  if ioVecCountWasm <? 0 then throw (LogicError "cannot create std::vector larger than max_size()")
  else mapM (native_iovec ioVecBuffWasm) (seqZ 0 ioVecCountWasm).

(** * The calls *)

Definition doWasiDup (fd : Z) : IoM Z := in_fs (dup fd).
Definition __wasi_fd_dup_wrapper (fd resFd : Z) : IoM Z :=
  newFd ← doWasiDup fd; native_write resFd (le32 newFd) ;; mret WASI_ESUCCESS.
Definition dup_wrapper (fd : Z) : IoM Z := doWasiDup fd.
Definition tempnam_wrapper (a b : Z) : IoM Z := throw (RuntimeError "tempnam not implemented").

Definition wasi_fd_close (fd : Z) : IoM Z := mret 0.

Definition wasi_fd_fdstat_get (fd statWasm : Z) : IoM Z :=
  s ← get;
  if negb (fileDescriptorExists fd (io_fs s)) then mret WASI_EBADF
  else
    validateNativePointer statWasm fdstat_size ;;
    find_fd fd ;;
    statNative ← with_fd fd (stat conf "");
    if failed statNative then mret (st_wasiErrno statNative)
    else
      fileDesc ← find_fd fd;
      native_update statWasm fdstat_size
        (fdstat_set (wasiFiletype statNative) (actualRightsBase fileDesc)
           (actualRightsInheriting fileDesc) 0) ;;
      mret WASI_ESUCCESS.

Definition wasi_fd_fdstat_set_flags (a b : Z) : IoM Z :=
  throw (RuntimeError "fd_fdstat_set_flags not implemented").

Definition doFileStat (fd : Z) (relativePath : string) (statWasm : Z) : IoM Z :=
  find_fd fd ;;
  statNative ← with_fd fd (stat conf relativePath);
  if failed statNative then mret (st_wasiErrno statNative)
  else
    validateNativePointer statWasm filestat_size ;;
    native_update statWasm filestat_size (filestat_set statNative) ;;
    mret WASI_ESUCCESS.
Definition wasi_fd_filestat_get (fd statWasm : Z) : IoM Z := doFileStat fd "" statWasm.

(** The length of the buffer is not read. *)
Definition wasi_fd_prestat_dir_name (fd path_ pathLen : Z) : IoM Z :=
  s ← get;
  if negb (fileDescriptorExists fd (io_fs s)) then mret WASI_EBADF
  else
    fileDesc ← find_fd fd;
    writeStringToWasmMemory (path fileDesc) path_ ;;
    mret WASI_ESUCCESS.

Definition wasi_fd_prestat_get (fd prestatWasm : Z) : IoM Z :=
  s ← get;
  if negb (fileDescriptorExists fd (io_fs s)) then mret WASI_EBADF
  else
    validateNativePointer prestatWasm wasi_prestat_app_size ;;
    fileDesc ← find_fd fd;
    native_update prestatWasm wasi_prestat_app_size
      (wasi_prestat_app_set (wasiPreopenType fileDesc) (u32 (str_size (path fileDesc)))) ;;
    mret WASI_ESUCCESS.

(** What [readv] gives is stored, also when it fails. *)
Definition wasi_fd_read (fd ioVecBuffWasm ioVecCountWasm bytesRead : Z) : IoM Z :=
  fileDesc ← find_fd fd;
  ioVecBuffNative ← native_iovecs ioVecBuffWasm ioVecCountWasm;
  validateNativePointer bytesRead 4 ;;
  s ← get;
  let c := c_readv (linuxFd fileDesc) (Z.of_nat (length (gather (io_mem s) ioVecBuffNative))) (iov_total ioVecBuffNative) in
  '(n, _) ← io_sys c;
  m ← lift (scatter (io_mem s) ioVecBuffNative
              (take (Z.to_nat n) (sys_data c (w_host (fs_world (io_fs s))))));
  modify (io_set_mem m) ;;
  native_write bytesRead (le32 (i32 n)) ;;
  mret WASI_ESUCCESS.

Definition wasi_fd_readdir (a b c d e : Z) : IoM Z := throw (RuntimeError "fd_readdir not implemented").

Definition wasi_fd_seek (fd offset whence newOffset : Z) : IoM Z :=
  validateNativePointer newOffset 8 ;;
  find_fd fd ;;
  '(wasiErrno, result) ← with_fd fd (seek offset whence);
  match result with
  | Some o => native_write newOffset (Z_to_little_endian 8 8 o)
  | None => mret ()
  end ;;
  mret wasiErrno.

Definition wasi_fd_write (fd ioVecBuffWasm ioVecCountWasm bytesWritten : Z) : IoM Z :=
  validateNativePointer ioVecBuffWasm (iovec_app_size * ioVecCountWasm) ;;
  validateNativePointer bytesWritten 4 ;;
  ioVecBuffNative ← native_iovecs ioVecBuffWasm ioVecCountWasm;
  find_fd fd ;;
  s ← get;
  n ← with_fd fd (write conf (gather (io_mem s) ioVecBuffNative) (iov_total ioVecBuffNative));
  native_write bytesWritten (le32 n) ;;
  when ((fd <=? 2) && bool_decide (captureStdout conf = "on"))
    (s ← get; captureStdout_bytes (gather (io_mem s) ioVecBuffNative) (iov_total ioVecBuffNative) ;; mret ()) ;;
  mret WASI_ESUCCESS.

Definition wasi_path_create_directory (a b c : Z) : IoM Z :=
  throw (RuntimeError "path_create_directory not implemented").

Definition wasi_path_filestat_get (fd lookupFlags path_ pathLen statWasm : Z) : IoM Z :=
  validateNativePointer path_ pathLen ;;
  pathStr ← native_string path_ pathLen;
  doFileStat fd pathStr statWasm.

Definition wasi_path_link (a b c d e f g : Z) : IoM Z := throw (RuntimeError "path_link not implemented").

(** The number is stored also when it is a negated error. *)
Definition wasi_path_open (fdNative lookupFlags path_ pathLen openFlags rightsBase rightsInheriting
    fdFlags fdWasm : Z) : IoM Z :=
  validateNativePointer path_ pathLen ;;
  pathStr ← native_string path_ pathLen;
  validateNativePointer fdWasm 4 ;;
  fdRes ← in_fs (openFileDescriptor conf fdNative pathStr rightsBase rightsInheriting openFlags fdFlags);
  native_write fdWasm (le32 fdRes) ;;
  if fdRes <? 0 then mret (-1 * fdRes) else mret WASI_ESUCCESS.

Definition wasi_path_readlink (fd path_ pathLen buf bufLen bufApp : Z) : IoM Z :=
  throw (RuntimeError "path_readlink not implemented!").
Definition wasi_path_remove_directory (a b c : Z) : IoM Z :=
  throw (RuntimeError "path_remove_directory not implemented").

Definition wasi_path_rename (oldFd oldPath oldPathLen newFd newPath newPathLen : Z) : IoM Z :=
  oldPathStr ← native_string oldPath oldPathLen;
  newPathStr ← native_string newPath newPathLen;
  find_fd oldFd ;;
  newFileDesc ← find_fd newFd;
  success ← with_fd oldFd (rename conf (absPath newPathStr newFileDesc) oldPathStr);
  if negb success then oldFileDesc ← find_fd oldFd; mret (wasiErrno oldFileDesc) else mret WASI_ESUCCESS.

Definition wasi_path_symlink (oldPath oldPathLen fd newPath newPathLen : Z) : IoM Z :=
  throw (RuntimeError "path_symlink not implemented").

Definition wasi_path_unlink_file (fd path_ pathLen : Z) : IoM Z :=
  pathStr ← native_string path_ pathLen;
  find_fd fd ;;
  success ← with_fd fd (unlink conf pathStr);
  if negb success then fileDesc ← find_fd fd; mret (wasiErrno fileDesc) else mret WASI_ESUCCESS.
End wamr.

(** * The calls that both runtimes have *)

Lemma untouched_nil m m' : untouched [] m m' → m' = m.
Proof. intros Hm. apply list_eq. intros i. by apply Hm. Qed.

Inductive FileCall : Type :=
  | FdDup (fd res : Z)
  | FdClose (fd : Z)
  | FdFdstatGet (fd ptr : Z)
  | FdFilestatGet (fd ptr : Z)
  | FdPrestatDirName (fd ptr len : Z)
  | FdPrestatGet (fd ptr : Z)
  | FdRead (fd iovs cnt res : Z)
  | FdSeek (fd off whence res : Z)
  | FdWrite (fd iovs cnt res : Z)
  | PathFilestatGet (fd flags path_ len ptr : Z)
  | PathOpen (fd flags path_ len oflags rb ri fdflags res : Z)
  | PathRename (fd path1 len1 newfd path2 len2 : Z)
  | PathUnlink (fd path_ len : Z).

Section calls.
Context `{Rados} `{Host} `{WasiABI} `{WasiLayout} `{WamrAddr} (conf : FaasmConfig).

Definition wavm_call (c : FileCall) : M Io Z :=
  match c with
  | FdDup fd res => WasiIo.wasi_fd_dup fd res
  | FdClose fd => WasiIo.wasi_fd_close fd
  | FdFdstatGet fd p => WasiIo.wasi_fd_fdstat_get conf fd p
  | FdFilestatGet fd p => WasiIo.wasi_fd_filestat_get conf fd p
  | FdPrestatDirName fd p n => WasiIo.wasi_fd_prestat_dir_name fd p n
  | FdPrestatGet fd p => WasiIo.wasi_fd_prestat_get fd p
  | FdRead fd p n res => WasiIo.wasi_fd_read fd p n res
  | FdSeek fd off w res => WasiIo.wasi_fd_seek fd off w res
  | FdWrite fd p n res => WasiIo.wasi_fd_write conf fd p n res
  | PathFilestatGet fd fl p n st => WasiIo.wasi_path_filestat_get conf fd fl p n st
  | PathOpen fd fl p n oF rb ri fF res => WasiIo.wasi_path_open conf fd fl p n oF rb ri fF res
  | PathRename fd p n fd2 p2 n2 => WasiIo.wasi_path_rename conf fd p n fd2 p2 n2
  | PathUnlink fd p n => WasiIo.wasi_path_unlink_file conf fd p n
  end.
Definition native_call (c : FileCall) : M Io Z :=
  match c with
  | FdDup fd res => __wasi_fd_dup_wrapper fd res
  | FdClose fd => wasi_fd_close fd
  | FdFdstatGet fd p => wasi_fd_fdstat_get conf fd p
  | FdFilestatGet fd p => wasi_fd_filestat_get conf fd p
  | FdPrestatDirName fd p n => wasi_fd_prestat_dir_name fd p n
  | FdPrestatGet fd p => wasi_fd_prestat_get fd p
  | FdRead fd p n res => wasi_fd_read fd p n res
  | FdSeek fd off w res => wasi_fd_seek fd off w res
  | FdWrite fd p n res => wasi_fd_write conf fd p n res
  | PathFilestatGet fd fl p n st => wasi_path_filestat_get conf fd fl p n st
  | PathOpen fd fl p n oF rb ri fF res => wasi_path_open conf fd fl p n oF rb ri fF res
  | PathRename fd p n fd2 p2 n2 => wasi_path_rename conf fd p n fd2 p2 n2
  | PathUnlink fd p n => wasi_path_unlink_file conf fd p n
  end.

(** *** What WAMR checks before a native function is called *)

(** The import behind a call, and its arguments as the module passes them. *)
Definition import_of (c : FileCall) : string * list Z :=
  match c with
  | FdDup fd res => ("__wasi_fd_dup", [fd; res])
  | FdClose fd => ("fd_close", [fd])
  | FdFdstatGet fd p => ("fd_fdstat_get", [fd; p])
  | FdFilestatGet fd p => ("fd_filestat_get", [fd; p])
  | FdPrestatDirName fd p n => ("fd_prestat_dir_name", [fd; p; n])
  | FdPrestatGet fd p => ("fd_prestat_get", [fd; p])
  | FdRead fd p n res => ("fd_read", [fd; p; n; res])
  | FdSeek fd off w res => ("fd_seek", [fd; off; w; res])
  | FdWrite fd p n res => ("fd_write", [fd; p; n; res])
  | PathFilestatGet fd fl p n st => ("path_filestat_get", [fd; fl; p; n; st])
  | PathOpen fd fl p n oF rb ri fF res => ("path_open", [fd; fl; p; n; oF; rb; ri; fF; res])
  | PathRename fd p n fd2 p2 n2 => ("path_rename", [fd; p; n; fd2; p2; n2])
  | PathUnlink fd p n => ("path_unlink_file", [fd; p; n])
  end.
(** The letters of its signature, from the tables that are registered. *)
Definition signature_of (name : string) : list ascii :=
  match list_find (λ n, ns_symbol n = name) (getFaasmFilesystemApi ++ getFaasmWasiFilesystemApi) with
  | Some (_, n) => tail (String.list_ascii_of_string (ns_signature n))
  | None => []
  end.

(** A pointer ([*]) must lie in the memory for the length that follows it ([~]), or its
    first byte must. *)
Fixpoint pointers_valid (m : Mem) (letters : list ascii) (args : list Z) : bool :=
  match letters, args with
  | l :: letters, a :: args =>
      (if bool_decide (l = "*"%char) then
         validate_app_addr m a
           match letters, args with
           | l' :: _, n :: _ => if bool_decide (l' = "~"%char) then u32 n else 1
           | _, _ => 1
           end
       else true) && pointers_valid m letters args
  | _, _ => true
  end.
Definition call_valid (m : Mem) (c : FileCall) : bool :=
  pointers_valid m (signature_of (import_of c).1) (import_of c).2.

(** With a pointer outside, the module is stopped and the function is not called. *)
Definition wamr_call (c : FileCall) : M Io Z :=
  s ← get;
  if call_valid (io_mem s) c then native_call c else throw oob.

(** A path of [n] bytes without a zero, ended by one. *)
Definition path_at (m : Mem) (p n : Z) : Prop :=
  ∃ bs, mem_read m p n = Ret bs ∧ 0 ≤ n ∧ (0 ∉ bs) ∧ mem_read m (p + n) 1 = Ret [0].

(** The pointers of a call pass the check; paths are as the C library passes them; buffers
    are in the memory, and the number that is written does not overlap those that are
    written out. *)
Definition placed (m : Mem) (iovs : list (Z * Z)) : Prop := Forall (λ x, in_mem m x.1 x.2 = true) iovs.
Definition well_placed (m : Mem) (c : FileCall) (s : Io) : Prop :=
  call_valid m c = true ∧
  match c with
  | FdRead _ p n res => ∀ iovs, wasiIovecsToNativeIovecs p n s = (Ret iovs, s) → placed m iovs
  | PathFilestatGet _ _ p n _ | PathUnlink _ p n => path_at m p n
  | PathOpen _ _ p n _ _ _ _ res => path_at m p n ∧ in_mem m res 4 = true
  | PathRename _ p n _ p2 n2 => path_at m p n ∧ path_at m p2 n2
  | FdWrite _ p n res =>
      ∀ iovs, wasiIovecsToNativeIovecs p n s = (Ret iovs, s) →
        placed m iovs ∧ Forall (λ x, iov_disjoint x (res, 4)) iovs
  | _ => True
  end.

(** What WAMR may write besides: the place of the number of a file that is not opened. *)
Definition scratch (c : FileCall) (r : Z) : list (Z * Z) :=
  match c with PathOpen _ _ _ _ _ _ _ _ res => if r =? WASI_ESUCCESS then [] else [(res, 4)] | _ => [] end.
Definition same_io (rs : list (Z * Z)) (s s' : Io) : Prop :=
  untouched rs (io_mem s) (io_mem s') ∧ io_fs s' = io_fs s ∧ stdoutMemFd s' = stdoutMemFd s ∧ stdoutSize s' = stdoutSize s.

(** ** What was checked is what is done natively *)

Lemma native_read_run a n s bs s' : read_mem a n s = (Ret bs, s') → native_read a n s = (Ret bs, s').
Proof. unfold read_mem, native_read. run_unfold. by destruct (mem_read _ _ _). Qed.
Lemma native_write_run a bs s x s' : write_mem a bs s = (Ret x, s') → native_write a bs s = (Ret x, s').
Proof. unfold write_mem, native_write. run_unfold. by destruct (mem_write _ _ _). Qed.
Lemma native_update_run a n f s x s' : update_mem a n f s = (Ret x, s') → native_update a n f s = (Ret x, s').
Proof.
  unfold update_mem, native_update. intros (bs & s1 & Hr & Hw)%run_bind_inv.
  rewrite (run_bind_ret _ _ _ _ _ (native_read_run _ _ _ _ _ Hr)). by apply native_write_run.
Qed.
Lemma run_validate {B} a n (k : bool → M Io B) s :
  (validateNativePointer a n ≫= k) s = k (validate_native_addr (io_mem s) a n) s.
Proof. done. Qed.
Lemma check_array_inv a n k s x s' : check_array a n k s = (Ret x, s') → s' = s.
Proof. intros Hc. pose proof (check_array_pure a n k s) as Hp. by rewrite Hc in Hp. Qed.

Lemma mem_read_ret m a n bs : mem_read m a n = Ret bs →
  0 ≤ a ∧ a + n ≤ mem_size m ∧ bs = take (Z.to_nat n) (drop (Z.to_nat a) m).
Proof. unfold mem_read. destruct (in_mem _ _ _) eqn:Hin; [|done]. apply in_mem_true in Hin. intros [= <-]. by destruct Hin. Qed.
Lemma path_string m p n : path_at m p n →
  ∃ str, ∀ s, io_mem s = m → getStringFromWasm p s = (Ret str, s) ∧ native_string p n s = (Ret str, s).
Proof.
  intros (bs & Hbs & Hn & Hz & Hnul). exists (string_of_bytes bs). intros s Hm.
  pose proof (mem_read_ret _ _ _ _ Hbs) as (Hp & Hpn & Heq).
  pose proof (mem_read_ret _ _ _ _ Hnul) as (_ & Hp1 & Heq1). unfold mem_size in *.
  assert (drop (Z.to_nat p) m = bs ++ 0 :: drop (Z.to_nat (p + n) + 1) m) as Hd.
  { rewrite <- (take_drop (Z.to_nat n) (drop (Z.to_nat p) m)), <- Heq. f_equal.
    rewrite drop_drop, <- Z2Nat.inj_add by lia.
    rewrite <- (take_drop 1 (drop (Z.to_nat (p + n)) m)), drop_drop. change (Z.to_nat 1) with 1%nat in Heq1.
    by rewrite <- Heq1. }
  split.
  - unfold getStringFromWasm, check_array. run_unfold. rewrite Hm. rewrite (proj2 (in_mem_true m p (1 * 1))) by (unfold mem_size; lia).
    by rewrite Hm, Hd, until_nul_app.
  - unfold native_string. destruct (Z.ltb_spec n 0); [lia|].
    unfold native_read. run_unfold. by rewrite Hm, Hbs.
Qed.

(** ** Buffers *)

Context `{!WamrAddrLaws} `{!WasiLaws}.
(** WASI's I/O vector is [iovec_app_t], and its description of a directory
    [wasi_prestat_app_t]. *)
Hypothesis ciovec_app : ciovec_size = iovec_app_size ∧
  ∀ bs, length bs = Z.to_nat iovec_app_size → ciovec_of bs = iovec_app_of bs.
Hypothesis prestat_app : prestat_size = wasi_prestat_app_size ∧
  ∀ t n bs, prestat_set t n bs = wasi_prestat_app_set t n bs.

Lemma check_array_ret a n k s x s' : check_array a n k s = (Ret x, s') → 0 ≤ n ∧ in_mem (io_mem s) a (n * k) = true.
Proof.
  unfold check_array, get, mret, M_ret, throw, mbind, M_bind.
  destruct (Z.leb_spec 0 n), (in_mem (io_mem s) a (n * k)); done.
Qed.
Lemma native_iovec_run p i s bs x :
  read_mem (p + i * ciovec_size) ciovec_size s = (Ret bs, s) → check_array (ciovec_of bs).1 1 1 s = (Ret x, s) →
  in_mem (io_mem s) (ciovec_of bs).1 (ciovec_of bs).2 = true → native_iovec p i s = (Ret (ciovec_of bs), s).
Proof.
  destruct ciovec_app as [Hsz Hof]. rewrite Hsz. intros Hbs [_ Hck]%check_array_ret Hin.
  assert (length bs = Z.to_nat iovec_app_size) as Hlen.
  { revert Hbs. unfold read_mem, get, lift, mbind, M_bind. destruct (mem_read _ _ _) as [y|] eqn:Hx; [|done].
    intros [= ->]. apply mem_read_ret in Hx as (? & ? & ->). unfold mem_size, iovec_app_size in *.
    rewrite length_take, length_drop. lia. }
  rewrite (Hof bs Hlen) in *. unfold native_iovec.
  rewrite (run_bind_ret _ _ _ _ _ (native_read_run _ _ _ _ _ Hbs)).
  assert (0 ≤ (iovec_app_of bs).2) as Hk by (apply (wrapU_range 32); lia).
  destruct (iovec_app_of bs) as [b k]. cbn [fst snd] in *. change (1 * 1) with 1 in Hck.
  rewrite (run_bind_ret _ _ _ () s) by (unfold validateWasmOffset; run_unfold; by rewrite validate_app_addr_in, Hin).
  rewrite (run_bind_ret _ _ _ b s); [done|].
  unfold wasmPointerToNative. run_unfold. by rewrite addr_app_to_native_in, Hck.
Qed.
Lemma native_iovecs_run p n s iovs :
  wasiIovecsToNativeIovecs p n s = (Ret iovs, s) → placed (io_mem s) iovs → native_iovecs p n s = (Ret iovs, s).
Proof.
  unfold wasiIovecsToNativeIovecs, native_iovecs.
  intros (u & s1 & Hc & Hrun)%run_bind_inv Hpl. pose proof (check_array_inv _ _ _ _ _ _ Hc) as ->.
  apply check_array_ret in Hc as [Hn _]. destruct (Z.ltb_spec n 0); [lia|].
  revert iovs Hrun Hpl. generalize (seqZ 0 n). intros l.
  induction l as [|i l IH]; intros iovs; [done|]. cbn [mapM].
  intros (v & s2 & Hv & Hrun)%run_bind_inv Hpl.
  apply run_bind_inv in Hv as (bs & s3 & Hbs & Hv). pose proof (read_mem_pure (p + i * ciovec_size) ciovec_size s) as Hp.
  rewrite Hbs in Hp. cbn in Hp. subst s3.
  apply run_bind_inv in Hv as (u' & s4 & Hck & Hret). pose proof (check_array_inv _ _ _ _ _ _ Hck) as ->.
  injection Hret as <- <-. apply run_bind_inv in Hrun as (vs & s5 & Hvs & Hret). injection Hret as <- ->.
  apply Forall_cons in Hpl as [Hin Hpl].
  rewrite (run_bind_ret _ _ _ _ _ (native_iovec_run _ _ _ _ _ Hbs Hck Hin)).
  by rewrite (run_bind_ret _ _ _ _ _ (IH _ Hvs Hpl)).
Qed.

(** ** Each call *)

(** One step of WAVM's call that answers is the same step of WAMR's. *)
Local Ltac follow Hrun :=
  let a := fresh "a" in let s1 := fresh "s1" in let Hm := fresh "Hm" in
  apply run_bind_inv in Hrun as (a & s1 & Hm & Hrun);
  first
    [ erewrite run_bind_ret by exact Hm
    | erewrite run_bind_ret by (apply native_update_run; exact Hm)
    | erewrite run_bind_ret by (apply native_write_run; exact Hm) ]; cbv beta.

Lemma fdstat_agrees fd p s r s' :
  WasiIo.wasi_fd_fdstat_get conf fd p s = (Ret r, s') → wasi_fd_fdstat_get conf fd p s = (Ret r, s').
Proof.
  unfold WasiIo.wasi_fd_fdstat_get, wasi_fd_fdstat_get. intros Hrun.
  erewrite run_bind_ret by reflexivity.
  pose proof Hrun as (f & s1 & Hf & _)%run_bind_inv. apply find_fd_inv in Hf as [-> Hf].
  unfold fileDescriptorExists. rewrite Hf, bool_decide_eq_true_2 by by eexists. cbn [negb].
  rewrite run_validate. follow Hrun. follow Hrun. destruct (failed a0); [exact Hrun|].
  follow Hrun. follow Hrun. rewrite esuccess_zero. exact Hrun.
Qed.
Lemma filestat_agrees fd str p s r s' :
  WasiIo.doFileStat conf fd str p s = (Ret r, s') → doFileStat conf fd str p s = (Ret r, s').
Proof.
  unfold WasiIo.doFileStat, doFileStat. intros Hrun. follow Hrun.
  apply run_bind_inv in Hrun as (u & s2 & Hck & Hrun). pose proof (check_array_inv _ _ _ _ _ _ Hck) as ->.
  follow Hrun. destruct (failed a0); [exact Hrun|]. rewrite run_validate. follow Hrun. exact Hrun.
Qed.
Lemma prestat_name_agrees fd p n s r s' :
  WasiIo.wasi_fd_prestat_dir_name fd p n s = (Ret r, s') → wasi_fd_prestat_dir_name fd p n s = (Ret r, s').
Proof.
  unfold WasiIo.wasi_fd_prestat_dir_name, wasi_fd_prestat_dir_name. intros Hrun. follow Hrun.
  destruct (negb _); [exact Hrun|]. follow Hrun.
  apply run_bind_inv in Hrun as (u & s3 & Hck & Hrun). pose proof (check_array_inv _ _ _ _ _ _ Hck) as ->.
  unfold writeStringToWasmMemory. rewrite run_bind_assoc, run_validate. follow Hrun. exact Hrun.
Qed.
Lemma prestat_agrees fd p s r s' :
  WasiIo.wasi_fd_prestat_get fd p s = (Ret r, s') → wasi_fd_prestat_get fd p s = (Ret r, s').
Proof.
  destruct prestat_app as [Hsz Hset]. unfold WasiIo.wasi_fd_prestat_get, wasi_fd_prestat_get. intros Hrun.
  follow Hrun. destruct (negb _); [exact Hrun|]. rewrite run_validate. follow Hrun.
  apply run_bind_inv in Hrun as (u & s3 & Hu & Hrun).
  erewrite run_bind_ret; [exact Hrun|]. apply native_update_run.
  rewrite <- Hu. unfold update_mem. rewrite Hsz. rewrite !run_bind. destruct (read_mem _ _ _) as [[bs|] s4]; [|done].
  by rewrite Hset.
Qed.
Lemma seek_agrees fd off w res s r s' :
  WasiIo.wasi_fd_seek fd off w res s = (Ret r, s') → wasi_fd_seek fd off w res s = (Ret r, s').
Proof.
  unfold WasiIo.wasi_fd_seek, wasi_fd_seek. intros (u & s1 & Hck & Hrun)%run_bind_inv.
  pose proof (check_array_inv _ _ _ _ _ _ Hck) as ->. rewrite run_validate. follow Hrun. follow Hrun.
  destruct a0 as [e [o|]]; follow Hrun; exact Hrun.
Qed.
Lemma read_agrees fd p n res s r s' :
  (∀ iovs, wasiIovecsToNativeIovecs p n s = (Ret iovs, s) → placed (io_mem s) iovs) →
  WasiIo.wasi_fd_read fd p n res s = (Ret r, s') → wasi_fd_read fd p n res s = (Ret r, s').
Proof.
  unfold WasiIo.wasi_fd_read, wasi_fd_read. intros Hpl Hrun. follow Hrun.
  apply run_bind_inv in Hrun as (iovs & s2 & Hiov & Hrun).
  pose proof (iovecs_pure p n s1) as Hp. rewrite Hiov in Hp. cbn in Hp. subst s2.
  pose proof (find_fd_inv _ _ _ _ Hm) as [-> _]. specialize (Hpl iovs Hiov).
  rewrite (run_bind_ret _ _ _ _ _ (native_iovecs_run _ _ _ _ Hiov Hpl)), run_validate.
  follow Hrun. follow Hrun. destruct a1 as [k e]. follow Hrun. follow Hrun. follow Hrun. exact Hrun.
Qed.

(** Calls that do not look at the memory. *)
Definition blind {A} (x : M Io A) : Prop :=
  ∀ m s, x (io_set_mem m s) = ((x s).1, io_set_mem m (x s).2).
Lemma blind_bind {A B} (x : M Io A) (f : A → M Io B) : blind x → (∀ a, blind (f a)) → blind (x ≫= f).
Proof. intros Hx Hf m s. rewrite !run_bind, Hx. destruct (x s) as [[a|e] s1]; [|done]. apply Hf. Qed.
Lemma blind_mem {A} (x : M Io A) : blind x → ∀ s o s', x s = (o, s') → io_mem s' = io_mem s.
Proof.
  intros Hx s o s' Hs. specialize (Hx (io_mem s) s). rewrite Hs in Hx. destruct s as [m f a b]. cbn in Hx.
  change (io_set_mem m (mkIo m f a b)) with (mkIo m f a b) in Hx. rewrite Hs in Hx. by injection Hx as ->.
Qed.
Lemma io_sys_blind c : blind (io_sys c).
Proof. intros m s. unfold io_sys, in_fs, zoom. cbn. by destruct (do_sys c _). Qed.
Lemma capture_blind data len : blind (captureStdout_bytes data len).
Proof.
  unfold captureStdout_bytes, getStdoutFd. apply blind_bind.
  - intros m s. rewrite !run_bind. cbn [get stdoutMemFd io_set_mem].
    destruct (stdoutMemFd s =? 0); [|done]. revert m s.
    apply blind_bind; [apply io_sys_blind|]. by intros [].
  - intros fd. apply blind_bind; [apply io_sys_blind|]. intros [n e]. by destruct (n <? 0).
Qed.
Context `{!WasiLayoutLaws}.
Lemma iovecs_nonneg p n s iovs s' : wasiIovecsToNativeIovecs p n s = (Ret iovs, s') → Forall (λ x, 0 ≤ x.1 ∧ 0 ≤ x.2) iovs.
Proof.
  unfold wasiIovecsToNativeIovecs. intros (u & s1 & _ & Hrun)%run_bind_inv. revert s1 iovs s' Hrun.
  generalize (seqZ 0 n). intros l. induction l as [|i l IH]; intros s1 iovs s'; [intros [= <- _]; constructor|].
  cbn [mapM]. intros (v & s2 & Hv & Hrun)%run_bind_inv.
  apply run_bind_inv in Hv as (bs & s3 & _ & Hv). apply run_bind_inv in Hv as (u' & s4 & _ & [= <- _]).
  apply run_bind_inv in Hrun as (vs & s5 & Hvs & [= <- _]). constructor; [by destruct (ciovec_range bs) as [? [? _]]|by eapply IH].
Qed.

(** A write reports no less than nothing. *)
Lemma write_nonneg fd data len s n s' : with_fd fd (write conf data len) s = (Ret n, s') → 0 ≤ n ∧ io_mem s' = io_mem s.
Proof.
  intros (fs & Hw & ->)%in_fs_inv. split; [|done]. revert Hw. unfold on_fd, zoom.
  destruct (write conf data len _) as [o fw] eqn:Hw. intros [= -> _].
  unfold write in Hw. apply run_bind_inv in Hw as (f & s1 & _ & Hw).
  apply run_bind_inv in Hw as ([b e] & s2 & _ & Hw). destruct (Z.ltb_spec b 0).
  - by apply run_bind_inv in Hw as (? & ? & _ & [= <- _]).
  - by apply run_bind_inv in Hw as (? & ? & _ & [= <- _]).
Qed.
Lemma write_agrees fd p n res s r s' :
  (∀ iovs, wasiIovecsToNativeIovecs p n s = (Ret iovs, s) →
     placed (io_mem s) iovs ∧ Forall (λ x, iov_disjoint x (res, 4)) iovs) →
  WasiIo.wasi_fd_write conf fd p n res s = (Ret r, s') → wasi_fd_write conf fd p n res s = (Ret r, s').
Proof.
  unfold WasiIo.wasi_fd_write, wasi_fd_write. intros Hd (f & s1 & Hf & Hrun)%run_bind_inv.
  pose proof (find_fd_inv _ _ _ _ Hf) as [-> _].
  apply run_bind_inv in Hrun as (iovs & s2 & Hiov & Hrun).
  pose proof (iovecs_pure p n s) as Hp. rewrite Hiov in Hp. cbn in Hp. subst s2. destruct (Hd iovs Hiov) as [Hpl Hdis].
  apply run_bind_inv in Hrun as (x & s2 & [= <- <-] & Hrun). cbv zeta in Hrun.
  rewrite !run_validate, (run_bind_ret _ _ _ _ _ (native_iovecs_run _ _ _ _ Hiov Hpl)).
  rewrite (run_bind_ret _ _ _ _ _ Hf), (run_bind_ret _ _ _ s s) by done.
  apply run_bind_inv in Hrun as (k & s3 & Hw & Hrun). rewrite (run_bind_ret _ _ _ _ _ Hw).
  apply write_nonneg in Hw as [Hk Hm3]. destruct (Z.ltb_spec k 0); [lia|].
  destruct ((fd <=? 2) && _); cbn [when] in *.
  - apply run_bind_inv in Hrun as ([] & s4 & Hc & Hrun). apply run_bind_inv in Hrun as ([] & s5 & Hst & Hrun).
    apply run_bind_inv in Hc as (n4 & s4' & Hc & [= ->]).
    assert (io_mem s4 = io_mem s) as Hm4 by (rewrite <- Hm3; exact (blind_mem _ (capture_blind _ _) _ _ _ Hc)).
    apply write_mem_inv in Hst as (m' & Hm' & ->). rewrite Hm4 in Hm'.
    rewrite (run_bind_ret _ _ _ () (io_set_mem m' s3)) by (unfold native_write; run_unfold; by rewrite Hm3, Hm').
    rewrite (run_bind_ret _ _ _ () (io_set_mem m' s4)); [exact Hrun|].
    rewrite (run_bind_ret _ _ _ (io_set_mem m' s3) (io_set_mem m' s3)) by done.
    cbn [io_mem io_set_mem].
    rewrite (gather_store (io_mem s) iovs res k m' Hm' Hdis) by by eapply iovecs_nonneg.
    by rewrite (run_bind_ret _ _ _ n4 (io_set_mem m' s4)) by (rewrite capture_blind, Hc; done).
  - apply run_bind_inv in Hrun as ([] & s4 & [= <-] & Hrun). follow Hrun. exact Hrun.
Qed.

(** The string of a path is the same to both. *)
Lemma path_both p n s str s' :
  path_at (io_mem s) p n → getStringFromWasm p s = (Ret str, s') → s' = s ∧ native_string p n s = (Ret str, s).
Proof.
  intros (t & Ht)%path_string Hs. destruct (Ht s eq_refl) as [Hg Hn]. rewrite Hg in Hs. by injection Hs as <- <-.
Qed.
Lemma unlink_agrees fd p n s r s' : path_at (io_mem s) p n →
  WasiIo.wasi_path_unlink_file conf fd p n s = (Ret r, s') → wasi_path_unlink_file conf fd p n s = (Ret r, s').
Proof.
  unfold WasiIo.wasi_path_unlink_file, wasi_path_unlink_file. intros Hp (str & s1 & Hs & Hrun)%run_bind_inv.
  destruct (path_both _ _ _ _ _ Hp Hs) as [-> Hn]. rewrite (run_bind_ret _ _ _ _ _ Hn).
  follow Hrun. follow Hrun. destruct (negb _); [follow Hrun; exact Hrun|]. rewrite esuccess_zero. exact Hrun.
Qed.
Lemma rename_agrees fd p n fd2 p2 n2 s r s' :
  path_at (io_mem s) p n → path_at (io_mem s) p2 n2 →
  WasiIo.wasi_path_rename conf fd p n fd2 p2 n2 s = (Ret r, s') →
  wasi_path_rename conf fd p n fd2 p2 n2 s = (Ret r, s').
Proof.
  unfold WasiIo.wasi_path_rename, wasi_path_rename. intros Hp1 Hp2 (str & s1 & Hs & Hrun)%run_bind_inv.
  destruct (path_both _ _ _ _ _ Hp1 Hs) as [-> Hn]. rewrite (run_bind_ret _ _ _ _ _ Hn).
  apply run_bind_inv in Hrun as (str2 & s2 & Hs2 & Hrun).
  destruct (path_both _ _ _ _ _ Hp2 Hs2) as [-> Hn2]. rewrite (run_bind_ret _ _ _ _ _ Hn2).
  follow Hrun. follow Hrun. follow Hrun. destruct (negb _); [follow Hrun; exact Hrun|exact Hrun].
Qed.

(** Opening: a number is stored by both, a negated error by WAMR only. *)
Lemma open_agrees fd fl p n oF rb ri fF res s r s' :
  path_at (io_mem s) p n → in_mem (io_mem s) res 4 = true →
  WasiIo.wasi_path_open conf fd fl p n oF rb ri fF res s = (Ret r, s') →
  ∃ s2, wasi_path_open conf fd fl p n oF rb ri fF res s = (Ret r, s2) ∧
    same_io (scratch (PathOpen fd fl p n oF rb ri fF res) r) s' s2.
Proof.
  unfold WasiIo.wasi_path_open, wasi_path_open. intros Hp Hin (str & s1 & Hs & Hrun)%run_bind_inv.
  destruct (path_both _ _ _ _ _ Hp Hs) as [-> Hn]. rewrite run_validate, (run_bind_ret _ _ _ _ _ Hn), run_validate.
  apply run_bind_inv in Hrun as (x & s1 & Ho & Hrun). rewrite (run_bind_ret _ _ _ _ _ Ho).
  apply in_fs_inv in Ho as (fs & _ & ->). destruct (Z.ltb_spec x 0) as [Hx|Hx].
  - injection Hrun as <- <-. destruct (mem_write_exists (io_mem s) res (le32 x)) as [m Hm]; [by rewrite length_le32|].
    exists (io_set_mem m (io_set_fs fs s)). split.
    + by rewrite (run_bind_ret _ _ _ () (io_set_mem m (io_set_fs fs s)))
        by (unfold native_write; run_unfold; by rewrite Hm).
    + unfold scratch. rewrite esuccess_zero. destruct (Z.eqb_spec (-1 * x) 0); [lia|]. split; [|done].
      apply (untouched_write _ (io_mem s) res (le32 x) m 4); [by apply list_elem_of_singleton|by rewrite length_le32|done].
  - apply run_bind_inv in Hrun as ([] & s3 & Hst & [= <- <-]). exists s3. split; [|done].
    by rewrite (run_bind_ret _ _ _ _ _ (native_write_run _ _ _ _ _ Hst)).
Qed.

(** C6: the two runtimes agree on files: for a file call whose pointers are in the memory, with
    buffers in the memory that the number written does not overlap and paths as the C library
    passes them, if WAVM answers it then WAMR checks its pointers, gives the same answer and
    leaves the same memory, open files and captured output, except that WAMR stores the error
    where a path was to be opened. *)
Theorem wamr_agrees c s r s' :
  well_placed (io_mem s) c s → wavm_call c s = (Ret r, s') →
  ∃ s2, wamr_call c s = (Ret r, s2) ∧ same_io (scratch c r) s' s2.
Proof.
  intros [Hvalid Hw] Hrun. unfold wamr_call. rewrite run_bind. cbn [get]. rewrite Hvalid.
  assert (native_call c s = (Ret r, s') → ∃ s2, native_call c s = (Ret r, s2) ∧ same_io (scratch c r) s' s2) as Hsame
    by (intros Heq; by exists s').
  clear Hvalid. destruct c; cbn [wavm_call] in *;
    lazymatch goal with |- context [PathOpen] => idtac | _ => apply Hsame end; cbn [native_call].
  - revert Hrun. unfold wasi_fd_dup, __wasi_fd_dup_wrapper. intros Hrun. follow Hrun. follow Hrun. exact Hrun.
  - exact Hrun.
  - by apply fdstat_agrees.
  - by apply filestat_agrees.
  - by eapply prestat_name_agrees.
  - by apply prestat_agrees.
  - by apply read_agrees.
  - by apply seek_agrees.
  - by apply write_agrees.
  - revert Hrun. unfold WasiIo.wasi_path_filestat_get, wasi_path_filestat_get. intros (str & s1 & Hs & Hrun)%run_bind_inv.
    destruct (path_both _ _ _ _ _ Hw Hs) as [-> Hn]. rewrite run_validate, (run_bind_ret _ _ _ _ _ Hn).
    by apply filestat_agrees.
  - destruct Hw as [Hp Hin]. by apply open_agrees.
  - destruct Hw as [Hp1 Hp2]. by apply rename_agrees.
  - by apply unlink_agrees.
Qed.

(** ** What is not checked *)

(** A pointer to the last bytes of the memory passes WAMR's check of its first byte, and the
    result of the call's own check is not read: the status is written past the end. *)
Lemma fdstat_overruns fd p s f st s1 :
  fileDescriptors (io_fs s) !! fd = Some f → with_fd fd (stat conf "") s = (Ret st, s1) → failed st = false →
  in_mem (io_mem s) p 1 = true → in_mem (io_mem s) p fdstat_size = false →
  (wasi_fd_fdstat_get conf fd p s).1 = Throw (Undefined "read past the end of the memory").
Proof.
  intros Hf Hst Hok _ Hout. unfold wasi_fd_fdstat_get.
  rewrite (run_bind_ret _ _ _ s s) by done. unfold fileDescriptorExists.
  rewrite Hf, bool_decide_eq_true_2 by by eexists. cbn [negb].
  rewrite run_validate, (run_bind_ret _ _ _ _ _ (find_fd_run _ _ _ Hf)), (run_bind_ret _ _ _ _ _ Hst), Hok.
  apply in_fs_inv in Hst as (fs & Hfs & ->). revert Hfs. unfold on_fd, zoom.
  destruct (stat conf "" _) as [o [f1 w1]]. intros [= -> <-].
  rewrite (run_bind_ret _ _ _ f1 (io_set_fs (mkFS (nextFd (io_fs s)) (<[fd:=f1]> (fileDescriptors (io_fs s))) w1) s))
    by (apply find_fd_run; cbn; by rewrite lookup_insert_eq).
  unfold native_update, native_read, mem_read. rewrite !run_bind. cbn [get io_mem io_set_fs]. by rewrite Hout.
Qed.

(** A read that the host refuses is a success of -1 bytes. *)
Lemma read_hides_errors fd p n res s f iovs e k m' :
  fileDescriptors (io_fs s) !! fd = Some f → wasiIovecsToNativeIovecs p n s = (Ret iovs, s) → placed (io_mem s) iovs →
  sys (c_readv (linuxFd f) (Z.of_nat (length (gather (io_mem s) iovs))) (iov_total iovs)) (w_host (fs_world (io_fs s))) = (-1, e, k) →
  store_i32 (io_mem s) res (-1) = Ret m' →
  ∃ s', wasi_fd_read fd p n res s = (Ret WASI_ESUCCESS, s') ∧ load_i32 (io_mem s') res = Ret (-1).
Proof.
  intros Hf Hiov Hpl Hsys Hm'. unfold wasi_fd_read.
  rewrite (run_bind_ret _ _ _ _ _ (find_fd_run _ _ _ Hf)), (run_bind_ret _ _ _ _ _ (native_iovecs_run _ _ _ _ Hiov Hpl)).
  rewrite run_validate, (run_bind_ret _ _ _ s s) by done.
  rewrite (run_bind_ret _ _ _ _ _ (io_sys_run _ _ _ _ _ Hsys)). change (Z.to_nat (-1)) with 0%nat. rewrite take_0.
  set (s1 := after_io _ k s). rewrite (run_bind_ret _ _ _ (io_mem s) s1) by (unfold lift; by rewrite scatter_nil).
  rewrite (run_bind_ret _ _ _ () (io_set_mem (io_mem s) s1)) by done.
  rewrite (run_bind_ret _ _ _ () (io_set_mem m' s1)).
  - eexists. split; [done|]. cbn [io_mem io_set_mem]. by rewrite (load_store_i32 (io_mem s) res (-1) m').
  - unfold native_write. rewrite run_bind. cbn [get]. change (io_mem (io_set_mem (io_mem s) s1)) with (io_mem s).
    change (mem_write (io_mem s) res (le32 (i32 (-1)))) with (store_i32 (io_mem s) res (-1)). by rewrite Hm'.
Qed.
End calls.

(** * A concrete run *)

#[export] Instance demo_wamr : WamrAddr :=
  {| validate_app_addr := in_mem; validate_native_addr := in_mem; addr_app_to_native := λ m a, in_mem m a 1 |}.
#[export] Instance demo_wamr_laws : WamrAddrLaws.
Proof. done. Qed.

Lemma demo_ciovec : ciovec_size = iovec_app_size ∧
  ∀ bs, length bs = Z.to_nat iovec_app_size → ciovec_of bs = iovec_app_of bs.
Proof. done. Qed.
Lemma demo_prestat : prestat_size = wasi_prestat_app_size ∧
  ∀ t n bs, prestat_set t n bs = wasi_prestat_app_set t n bs.
Proof. done. Qed.

(** A pointer outside the memory stops the module. *)
Example pointer_checked :
  let s := demo_io reading_host ∅ in
  (@wamr_call demo_rados reading_host demo_wasi demo_layout demo_wamr demo_conf (FdFilestatGet 5 4096) s).1 = Throw oob.
Proof. vm_compute. reflexivity. Qed.

(** Seven bytes are read to the buffers of [demo_mem]. *)
Lemma wamr_agrees_witness :
  let s := demo_io reading_host ∅ in
  let c := FdRead 5 0 2 40 in
  ∃ s2, @wamr_call demo_rados reading_host demo_wasi demo_layout demo_wamr demo_conf c s = (Ret 0, s2) ∧
    load_i32 (io_mem s2) 40 = Ret 7.
Proof.
  intros s c.
  assert ((@wavm_call demo_rados reading_host demo_wasi demo_layout demo_conf c s).1 = Ret 0) as Hr
    by (vm_compute; reflexivity).
  assert (∀ iovs, wasiIovecsToNativeIovecs 0 2 s = (Ret iovs, s) → placed (io_mem s) iovs) as Hpl.
  { intros iovs Hi. assert (iovs = [(16, 4); (24, 8)]) as ->; [|by repeat constructor].
    pose proof (f_equal fst Hi) as Hi1. vm_compute in Hi1. by injection Hi1 as <-. }
  destruct (@wamr_agrees demo_rados reading_host demo_wasi demo_layout demo_wamr demo_conf _ _ demo_ciovec demo_prestat _
    c s 0 _ (conj eq_refl Hpl) (run_fst _ _ _ Hr)) as (s2 & Hs2 & Hm & _).
  exists s2. split; [exact Hs2|].
  rewrite (untouched_nil _ _ Hm). vm_compute. reflexivity.
Defined.
