(* ===== verification/WamrModule.v ===== *)
(** A module that runs on WAMR (src/wamr/WAMRWasmModule.cpp): its life from binding to
    execution, its linear memory (with the base class, src/wasm/WasmModule.cpp), and how
    the exit code of a function leaves it as an exception (src/wamr/env.cpp). *)

From Stdlib Require Import Ascii.
From S2P Require Import Prelude Text WasmBytes WasmMemory S3 Host FileLoader SharedFiles Wasi FileDescriptor FileSystem Chaining Natives.

(** * The interface to WAMR *)

(** Loaded code, an instance of it and its functions.  A call gives whether it succeeded and
    the word it left for the result; it throws what a native function throws. *)
Class WamrRuntime := {
  Code : Type; Inst : Type; WFunc : Type;
  wasm_runtime_init : bool;
  wasm_runtime_load : list Z → option Code;
  wasm_runtime_instantiate : Code → Z → Z → option Inst;
  num_bytes_per_page : Inst → Z;
  cur_page_count : Inst → Z;
  max_page_count : Inst → Z;
  aot_enlarge_memory : Z → Inst → bool * Inst;
  wasm_runtime_lookup_function : Inst → string → option WFunc;
  call_function : WFunc → M Inst (bool * Z);
  wasm_exec_env_create : Inst → Z → bool;
  wasm_runtime_call_indirect : Z → M Inst (bool * Z);
  cur_exception : Inst → string;
  wasm_runtime_set_exception : string → Inst → Inst }.

Definition STACK_SIZE_KB : Z := 8192.
Definition HEAP_SIZE_KB : Z := 8192.
Definition WAMR_INTERNAL_EXCEPTION_PREFIX : string := "Exception: ".
Definition WAMR_EXIT_PREFIX : string := "wamr_exit_code_".

(** An exception is kept with its prefix in 128 bytes. *)
Class WamrRuntimeLaws `{WamrRuntime} : Prop := {
  cur_exception_set s i : str_size s < 116 →
    cur_exception (wasm_runtime_set_exception s i) = WAMR_INTERNAL_EXCEPTION_PREFIX +:+ s }.

Section wamr.
Context `{Rados} `{Host} `{WasiABI} `{WamrRuntime} (conf : FaasmConfig) (useLocalFsCache : bool)
  (uninit : Z) (nativeCodegenTarget : CodegenTargetSpec)
  (WASM_CTORS_FUNC_NAME ENTRY_FUNC_NAME : string) (getArgvForMessage : Message → list string).

(** * State *)

Record WAMRWasmModule := mkWAMR {
  isBound : bool; wasmBytes : list Z; wasmModule : option Code; moduleInstance : option Inst;
  wm_filesystem : FileSystem; wm_argv : list string }.
Abbreviation WmM := (M WAMRWasmModule).

Definition set_code (bs : list Z) (c : option Code) (m : WAMRWasmModule) : WAMRWasmModule :=
  mkWAMR (isBound m) bs c (moduleInstance m) (wm_filesystem m) (wm_argv m).
Definition set_inst (i : option Inst) (m : WAMRWasmModule) : WAMRWasmModule :=
  mkWAMR (isBound m) (wasmBytes m) (wasmModule m) i (wm_filesystem m) (wm_argv m).
Definition set_wm_files (f : FileSystem) (m : WAMRWasmModule) : WAMRWasmModule :=
  mkWAMR (isBound m) (wasmBytes m) (wasmModule m) (moduleInstance m) f (wm_argv m).
Definition set_argv (a : list string) (m : WAMRWasmModule) : WAMRWasmModule :=
  mkWAMR (isBound m) (wasmBytes m) (wasmModule m) (moduleInstance m) (wm_filesystem m) a.

(** The flag of the process, and what is registered for its modules. *)
Definition initialiseWAMRGlobally : M (bool * list (string * NativeSymbol)) unit :=
  wamrInitialised ← gets fst;
  if wamrInitialised : bool then mret ()
  else if wasm_runtime_init then zoom snd (λ n (s : bool * list (string * NativeSymbol)), (s.1, n)) initialiseWAMRNatives ;; modify (λ s, (true, s.2))
  else throw (RuntimeError "Failed to initialise WAMR").

(** What dereferences the instance, and what runs in it. *)
Definition with_inst {A} (f : Inst → A) : WmM A :=
  m ← get;
  match moduleInstance m with Some i => mret (f i) | None => throw (Undefined "null instance") end.
Definition on_inst {A} (x : M Inst A) : WmM A := λ m,
  match moduleInstance m with
  | Some i => let '(o, i') := x i in (o, set_inst (Some i') m)
  | None => (Throw (Undefined "null instance"), m)
  end.
Definition getModuleInstance : WmM Inst :=
  m ← get;
  match moduleInstance m with Some i => mret i | None => throw (RuntimeError "Null WAMR module instance") end.

(** * Life *)

(** The instance is dereferenced before it is tested. *)
Definition bindInternal : WmM unit :=
  m ← get;
  match wasmModule m with
  | None => throw (Undefined "null module")
  | Some c =>
      put (set_inst (wasm_runtime_instantiate c STACK_SIZE_KB HEAP_SIZE_KB) m) ;;
      pageBytes ← with_inst num_bytes_per_page;
      if negb (pageBytes =? WASM_BYTES_PER_PAGE) then throw (RuntimeError "WAMR module bytes per page wrong")
      else mret ()
  end.

Definition on_files {A} (x : M FileSystem A) : WmM A := zoom wm_filesystem set_wm_files x.
Definition on_loader {A} (x : M World A) : WmM A :=
  on_files (zoom fs_world (λ w s, mkFS (nextFd s) (fileDescriptors s) w) x).

Definition doBindToFunction (msg : FuncMsg) : WmM unit :=
  on_files (prepareFilesystem conf uninit) ;;
  bs ← on_loader (loadFunctionWamrAotFile conf useLocalFsCache msg nativeCodegenTarget);
  modify (set_code bs (wasm_runtime_load bs)) ;;
  m ← get;
  match wasmModule m with
  | None => throw (RuntimeError "Failed to load WAMR module")
  | Some _ => bindInternal
  end.

Definition reset : WmM unit :=
  m ← get; if negb (isBound m) then mret () else bindInternal.

(** * Execution *)

Definition executeWasmFunction (funcName : string) : WmM Z :=
  func ← with_inst (λ i, wasm_runtime_lookup_function i funcName);
  match func with
  | None => throw (RuntimeError "Did not find named wasm function")
  | Some f =>
      '(success, returnValue) ← on_inst (call_function f);
      if negb success || negb (returnValue =? 0) then
        cur ← with_inst cur_exception;
        let errorMessage := removeSubstr cur WAMR_INTERNAL_EXCEPTION_PREFIX in
        if startsWith errorMessage WAMR_EXIT_PREFIX
        then lift (stoi (removeSubstr errorMessage WAMR_EXIT_PREFIX))
        else mret (i32 (if returnValue =? 0 then 1 else returnValue))
      else mret (i32 returnValue)
  end.

(** The word is returned whether or not the call succeeded. *)
Definition executeWasmFunctionFromPointer (wasmFuncPtr : Z) : WmM Z :=
  ok ← with_inst (λ i, wasm_exec_env_create i STACK_SIZE_KB);
  if negb ok then throw (RuntimeError "Failed to create WAMR exec env")
  else
    '(_, returnValue) ← on_inst (wasm_runtime_call_indirect wasmFuncPtr);
    mret (i32 returnValue).

(** The result of the initialisers is not read. *)
Definition executeFunction (msg : Message) : WmM Z :=
  executeWasmFunction WASM_CTORS_FUNC_NAME ;;
  if 0 <? funcptr msg then executeWasmFunctionFromPointer (funcptr msg)
  else
    modify (set_argv (getArgvForMessage msg)) ;;
    executeWasmFunction ENTRY_FUNC_NAME.

(** [proc_exit], on the instance that calls it. *)
Definition wasi_proc_exit (retCode : Z) (i : Inst) : Inst :=
  wasm_runtime_set_exception (WAMR_EXIT_PREFIX +:+ to_string retCode) i.

(** * The linear memory *)

Definition getMemorySizeBytes (i : Inst) : Z := u64 (cur_page_count i * WASM_BYTES_PER_PAGE).
Definition getMaxMemoryPages (i : Inst) : Z := max_page_count i.
Definition doGrowMemory (pageChange : Z) : WmM bool :=
  on_inst (λ i, let '(b, i') := aot_enlarge_memory pageChange i in (Ret b, i')).

(** [WasmModule::growMemory] with WAMR's memory. *)
Definition growMemory (nBytes : Z) : WmM Z :=
  size ← with_inst getMemorySizeBytes;
  if nBytes =? 0 then mret (u32 size)
  else
    let oldBytes := u32 size in
    let newBrk := u32 (oldBytes + nBytes) in
    if negb (isWasmPageAligned newBrk) then throw (RuntimeError "Non-wasm-page-aligned memory growth")
    else
      let newBytes := u64 (oldBytes + nBytes) in
      let oldPages := u32 (getNumberOfWasmPagesForBytes oldBytes) in
      let newPages := u32 (getNumberOfWasmPagesForBytes newBytes) in
      maxPages ← with_inst getMaxMemoryPages;
      if (UINT32_MAX <? newBytes) || (maxPages <? newPages)
      then throw (RuntimeError "Memory growth exceeding max")
      else
        success ← doGrowMemory (u32 (newPages - oldPages));
        if negb success then throw (RuntimeError "Failed to grow memory")
        else
          newSize ← with_inst getMemorySizeBytes;
          if negb (newSize =? newBytes) then throw (RuntimeError "Memory growth discrepancy")
          else mret oldBytes.

(** [WasmModule::shrinkMemory], which WAMR's module does not override. *)
Definition shrinkMemory (nBytes : Z) : WmM Z := throw (RuntimeError "shrinkMemory not implemented").
Definition mmapFile (fp length : Z) : WmM Z := mret 0.

(** * The calls on memory (src/wamr/memory.cpp) *)

Definition __sbrk_wrapper (increment : Z) : WmM Z :=
  size ← with_inst getMemorySizeBytes;
  let oldBrk := u32 size in
  if increment =? 0 then mret (i32 oldBrk)
  else if increment <? 0 then shrinkMemory (u64 (i32 (-1 * increment))) ;; mret (i32 oldBrk)
  else r ← growMemory increment; mret (i32 r).

Definition mmap_wrapper (addr len prot flags fd offset : Z) : WmM Z :=
  if negb (fd =? -1) then
    fileDesc ← on_files (getFileDescriptor fd);
    r ← mmapFile (u32 (linuxFd fileDesc)) (u64 len); mret (i32 r)
  else r ← growMemory (roundUpToWasmPageAligned (u32 len)); mret (i32 r).

(** [WasmModule::unmapMemory] with WAMR's memory. *)
Definition munmap_wrapper (addr len : Z) : WmM Z :=
  let offset := u32 addr in
  let nBytes := u64 len in
  if nBytes =? 0 then mret 0
  else if negb (isWasmPageAligned offset) then throw (RuntimeError "Non-page aligned munmap address")
  else
    let pageAligned := roundUpToWasmPageAligned (u32 nBytes) in
    maxPages ← with_inst getMaxMemoryPages;
    let unmapTop := u32 (offset + pageAligned) in
    if u64 (maxPages * WASM_BYTES_PER_PAGE) <? unmapTop then throw (RuntimeError "munmapping outside memory max")
    else
      size ← with_inst getMemorySizeBytes;
      (if unmapTop =? size then shrinkMemory pageAligned ;; mret () else mret ()) ;;
      mret 0.
End wamr.

(** * Properties *)

(** A printed 32-bit integer has at most eleven characters. *)
Lemma pretty_go_length k x s :
  (x < 10 ^ N.of_nat k)%N → (String.length (pretty_N_go x s) ≤ k + String.length s)%nat.
Proof.
  revert x s. induction k as [|k IH]; intros x s Hx.
  { assert (x = 0%N) as -> by (cbn in Hx; lia). by rewrite pretty_N_go_0. }
  destruct (decide (x = 0%N)) as [->|Hnz]; [rewrite pretty_N_go_0; lia|].
  rewrite pretty_N_go_step by lia.
  specialize (IH (x / 10)%N (String (pretty_N_char (x mod 10)) s)). cbn [String.length] in IH.
  rewrite Nat2N.inj_succ, N.pow_succ_r' in Hx.
  assert (x / 10 < 10 ^ N.of_nat k)%N by (apply N.Div0.div_lt_upper_bound; lia). lia.
Qed.
Lemma to_string_size z : in_s 32 z → str_size (to_string z) ≤ 11.
Proof.
  intros Hz. unfold in_s in Hz. change (32 - 1) with 31 in Hz.
  assert (∀ p, Z.pos p ≤ 2 ^ 31 → (String.length (pretty (Npos p)) ≤ 10)%nat) as Hp.
  { intros p Hp. unfold pretty, pretty_N. destruct (decide _); [done|].
    pose proof (pretty_go_length 10 (Npos p) "") as Hl. cbn [String.length] in Hl.
    assert (Npos p < 10 ^ N.of_nat 10)%N as Hlt by (change (10 ^ N.of_nat 10)%N with 10000000000%N; lia).
    specialize (Hl Hlt). lia. }
  unfold str_size, to_string, pretty, pretty_Z. destruct z as [|p|p]; [done|..].
  - change (pretty p) with (pretty (Npos p)). specialize (Hp p). lia.
  - change (pretty p) with (pretty (Npos p)).
    change ("-" +:+ pretty (Npos p)) with (String "-"%char (pretty (Npos p))). cbn [String.length].
    specialize (Hp p). lia.
Qed.

Section properties.
Context `{R : Rados} `{HS : Host} `{HL : !HostLaws} `{WA : WasiABI} `{WR : WamrRuntime} `{WL : !WamrRuntimeLaws}
  (ctors entry : string) (getArgvForMessage : Message → list string).
Abbreviation execute := (executeFunction ctors entry getArgvForMessage).

Lemma run_on_inst {A} (x : M Inst A) m i o i' :
  moduleInstance m = Some i → x i = (o, i') → on_inst x m = (o, set_inst (Some i') m).
Proof. intros Hi Hx. unfold on_inst. by rewrite Hi, Hx. Qed.
Lemma run_with_inst {A} (f : Inst → A) m i : moduleInstance m = Some i → with_inst f m = (Ret (f i), m).
Proof. intros Hi. unfold with_inst. run_unfold. by rewrite Hi. Qed.

(** The exit code is read back from the exception that holds it. *)
Lemma exit_code_parsed code i j name f rv m :
  in_s 32 code → moduleInstance m = Some i → wasm_runtime_lookup_function i name = Some f →
  call_function f i = (Ret (false, rv), j) →
  cur_exception j = WAMR_INTERNAL_EXCEPTION_PREFIX +:+ (WAMR_EXIT_PREFIX +:+ to_string code) →
  executeWasmFunction name m = (Ret code, set_inst (Some j) m).
Proof.
  intros Hc Hi Hf Hcall Hexn. unfold executeWasmFunction.
  rewrite (run_bind_ret _ _ _ _ _ (run_with_inst _ _ _ Hi)), Hf.
  rewrite (run_bind_ret _ _ _ _ _ (run_on_inst _ _ _ _ _ Hi Hcall)). cbn [negb orb].
  assert (moduleInstance (set_inst (Some j) m) = Some j) as Hj by done.
  rewrite (run_bind_ret _ _ _ _ _ (run_with_inst _ _ _ Hj)). cbv zeta.
  rewrite Hexn, removeSubstr_app, startsWith_app, removeSubstr_app.
  unfold lift. by rewrite stoi_to_string.
Qed.

Lemma executeWasmFunction_ok i j name f m :
  moduleInstance m = Some i → wasm_runtime_lookup_function i name = Some f →
  call_function f i = (Ret (true, 0), j) → executeWasmFunction name m = (Ret 0, set_inst (Some j) m).
Proof.
  intros Hi Hf Hcall. unfold executeWasmFunction.
  rewrite (run_bind_ret _ _ _ _ _ (run_with_inst _ _ _ Hi)), Hf.
  by rewrite (run_bind_ret _ _ _ _ _ (run_on_inst _ _ _ _ _ Hi Hcall)).
Qed.

(** The code that a function gives to proc_exit is what executing the function returns,
    for every 32-bit code, zero and negative ones too, although it leaves the module as the
    text of an exception. *)
Theorem exit_code_roundtrip code msg m i i1 i2 j g f rv :
  in_s 32 code → moduleInstance m = Some i → funcptr msg ≤ 0 →
  wasm_runtime_lookup_function i ctors = Some g → call_function g i = (Ret (true, 0), i1) →
  wasm_runtime_lookup_function i1 entry = Some f → call_function f i1 = (Ret (false, rv), j) →
  cur_exception j = cur_exception (wasi_proc_exit code i2) →
  execute msg m = (Ret code, set_argv (getArgvForMessage msg) (set_inst (Some j) m)).
Proof.
  intros Hc Hi Hp Hg Hcg Hf Hcf Hexn. unfold executeFunction.
  rewrite (run_bind_ret _ _ _ _ _ (executeWasmFunction_ok _ _ _ _ _ Hi Hg Hcg)).
  destruct (Z.ltb_spec 0 (funcptr msg)); [lia|].
  rewrite (run_bind_ret _ _ _ () (set_argv (getArgvForMessage msg) (set_inst (Some i1) m))) by done.
  rewrite (exit_code_parsed code i1 j entry f rv); [done|done|done|done|done|].
  rewrite Hexn. apply cur_exception_set. rewrite str_size_app. pose proof (to_string_size code Hc).
  change (str_size WAMR_EXIT_PREFIX) with 15. lia.
Qed.

(** The initialisers may exit or trap: the function runs nevertheless. *)
Lemma ctors_failure_ignored msg m r s :
  executeWasmFunction ctors m = (Ret r, s) → funcptr msg ≤ 0 →
  execute msg m = executeWasmFunction entry (set_argv (getArgvForMessage msg) s).
Proof.
  intros Hr Hp. unfold executeFunction. rewrite (run_bind_ret _ _ _ _ _ Hr).
  by destruct (Z.ltb_spec 0 (funcptr msg)); [lia|].
Qed.
(** A function that is called by pointer and traps has succeeded. *)
Lemma pointer_failure_hidden m i j ptr :
  moduleInstance m = Some i → wasm_exec_env_create i STACK_SIZE_KB = true →
  wasm_runtime_call_indirect ptr i = (Ret (false, 0), j) →
  executeWasmFunctionFromPointer ptr m = (Ret 0, set_inst (Some j) m).
Proof.
  intros Hi Hok Hc. unfold executeWasmFunctionFromPointer.
  rewrite (run_bind_ret _ _ _ _ _ (run_with_inst _ _ _ Hi)), Hok. cbn [negb].
  by rewrite (run_bind_ret _ _ _ _ _ (run_on_inst _ _ _ _ _ Hi Hc)).
Qed.

(** A reset makes a new instance of the code: modules that differ in their instance only,
    that is in memory and globals, are the same afterwards. *)
Lemma reset_forgets (m : WAMRWasmModule) j c i :
  isBound m = true → wasmModule m = Some c →
  wasm_runtime_instantiate c STACK_SIZE_KB HEAP_SIZE_KB = Some i → num_bytes_per_page i = WASM_BYTES_PER_PAGE →
  reset (set_inst j m) = (Ret (), set_inst (Some i) m).
Proof.
  intros Hb Hc Hi Hp. unfold reset, bindInternal. run_unfold. rewrite Hb. cbn. rewrite Hc. run_unfold.
  unfold with_inst. run_unfold. rewrite Hi. run_unfold. by rewrite Hp.
Qed.
(** The test of the instance is behind its first use. *)
Lemma instantiate_failure_undefined (m : WAMRWasmModule) c :
  wasmModule m = Some c → wasm_runtime_instantiate c STACK_SIZE_KB HEAP_SIZE_KB = None →
  (bindInternal m).1 = Throw (Undefined "null instance").
Proof. intros Hc Hi. unfold bindInternal, with_inst. run_unfold. rewrite Hc. run_unfold. by rewrite Hi. Qed.
(** Memory cannot be given back. *)
Lemma sbrk_negative_throws (m : WAMRWasmModule) i n :
  moduleInstance m = Some i → n < 0 → __sbrk_wrapper n m = (Throw (RuntimeError "shrinkMemory not implemented"), m).
Proof.
  intros Hi Hn. unfold __sbrk_wrapper. rewrite (run_bind_ret _ _ _ _ _ (run_with_inst _ _ _ Hi)). cbv zeta.
  destruct (Z.eqb_spec n 0); [lia|]. by destruct (Z.ltb_spec n 0); [|lia].
Qed.
End properties.

(** * A concrete run *)

(** An instance is the exception it holds; the function exits with -7. *)
#[export] Instance demo_wamr_runtime : WamrRuntime :=
  {| Code := unit; Inst := string; WFunc := bool;
     wasm_runtime_init := true; wasm_runtime_load bs := Some ();
     wasm_runtime_instantiate c s h := Some "";
     num_bytes_per_page i := 65536; cur_page_count i := 1; max_page_count i := 4;
     aot_enlarge_memory n i := (true, i);
     wasm_runtime_lookup_function i name := Some (bool_decide (name = "main"));
     call_function f := λ i, if f : bool then (Ret (false, 0), "Exception: wamr_exit_code_-7") else (Ret (true, 0), i);
     wasm_exec_env_create i n := true;
     wasm_runtime_call_indirect p := λ i, (Ret (true, 0), i);
     cur_exception i := i;
     wasm_runtime_set_exception s i := "Exception: " +:+ s |}.
#[export] Instance demo_wamr_runtime_laws : WamrRuntimeLaws.
Proof. done. Qed.

Lemma exit_code_roundtrip_witness :
  let m := mkWAMR true [] (Some ()) (Some "") (mkFS 0 ∅ demo_world) [] in
  executeFunction "ctors" "main" (λ _, ["faasm"]) (demo_message "u" "f" 1 7 []) m =
    (Ret (-7), set_argv ["faasm"] (set_inst (Some "Exception: wamr_exit_code_-7") m)).
Proof.
  intros m.
  apply (exit_code_roundtrip "ctors" "main" (λ _, ["faasm"]) (-7) (demo_message "u" "f" 1 7 []) m "" "" ""
    "Exception: wamr_exit_code_-7" false true 0); try reflexivity.
  all: unfold in_s; cbn; lia.
Defined.
