(* ===== verification/WamrCalls.v ===== *)
(** The other calls of a module that runs on WAMR (src/wamr/env.cpp, funcs.cpp,
    chaining.cpp, state.cpp, pthread.cpp, timing.cpp, dynlink.cpp and stubs.cpp): they read
    and write through the pointers that WAMR translated. *)

From S2P Require Import Prelude WasmBytes WasmMemory Wasi Env Chaining Guest StateCalls WamrIo.

(** * The environment (src/wamr/env.cpp, src/include/wamr/WAMRModuleMixin.h) *)

Section env.
Context `{WamrAddr}.
Abbreviation EnvM := (M Env).

Definition native_store (m : Mem) (a : Z) (bs : list Z) : outcome Mem :=
  match mem_write m a bs with Ret m' => Ret m' | Throw _ => Throw (Undefined "write past the end of the memory") end.
Definition env_native_write (a : Z) (bs : list Z) : EnvM unit :=
  s ← get; m ← lift (native_store (env_mem s) a bs); put (env_set_mem m s).

(** The loop of [writeStringArrayToMemory], on native pointers; the results of its checks
    are not read, and the terminators are not written. *)
Fixpoint write_strings (strings : list string) (strOffsets nextBuffer : Z) (m : Mem) : outcome Mem :=
  match strings with
  | [] => Ret m
  | thisStr :: rest =>
      m1 ← native_store m nextBuffer (bytes_of_string thisStr);
      m2 ← native_store m1 strOffsets (le32 (u32 nextBuffer));
      write_strings rest (strOffsets + 4) (nextBuffer + (str_size thisStr + 1)) m2
  end.
Definition writeStringArrayToMemory (strings : list string) (strOffsets strBuffer : Z) : EnvM unit :=
  s ← get; m ← lift (write_strings strings strOffsets strBuffer (env_mem s)); put (env_set_mem m s).
Definition writeArgvToWamrMemory (argvOffsetsWasm argvBuffWasm : Z) : EnvM unit :=
  s ← get; writeStringArrayToMemory (argv s) argvOffsetsWasm argvBuffWasm.
Definition writeWasmEnvToWamrMemory (envOffsetsWasm envBuffWasm : Z) : EnvM unit :=
  s ← get; writeStringArrayToMemory (getVars (vars s)) envOffsetsWasm envBuffWasm.

Definition wasi_args_get (argvOffsetsWasm argvBuffWasm : Z) : EnvM Z :=
  writeArgvToWamrMemory argvOffsetsWasm argvBuffWasm ;; mret 0.
Definition wasi_args_sizes_get (argcWasm argvBuffSizeWasm : Z) : EnvM Z :=
  s ← get;
  env_native_write argcWasm (le32 (getArgc s)) ;;
  env_native_write argvBuffSizeWasm (le32 (getArgvBufferSize s)) ;; mret 0.
Definition wasi_environ_get (envOffsetsWasm envBuffWasm : Z) : EnvM Z :=
  writeWasmEnvToWamrMemory envOffsetsWasm envBuffWasm ;; mret 0.
Definition wasi_environ_sizes_get (envCountWasm envBufferSizeWasm : Z) : EnvM Z :=
  s ← get;
  env_native_write envCountWasm (le32 (getEnvCount (vars s))) ;;
  env_native_write envBufferSizeWasm (le32 (getEnvBufferSize (vars s))) ;; mret 0.
End env.

(** * Input, output and chained calls (src/wamr/funcs.cpp, src/wamr/chaining.cpp) *)

Section guest.
Context `{Scheduler} (endpointHost : string) (chainedCallTimeout : Z).
Abbreviation GM := (M GuestState).

(** A [char*] that is read to its end. *)
Definition native_c_string (a : Z) : GM string :=
  s ← get;
  match c_string (g_mem s) a with
  | Some str => mret str
  | None => throw (Undefined "string past the end of the memory")
  end.
(** A vector or string made from a pointer and a length. *)
Definition native_bytes (a n : Z) : GM (list Z) :=
  if n <? 0 then throw (LogicError "cannot create std::vector larger than max_size()") else read_native a n.

Definition __faasm_read_input_wrapper (inBuff inLen : Z) : GM Z :=
  call ← gets g_call;
  if bool_decide (inputdata call = []) then mret 0
  else
    let '(written, inputSize) := safeCopyToBuffer (inputdata call) inLen in
    write_native inBuff written ;; mret inputSize.
Definition __faasm_write_output_wrapper (outBuff outLen : Z) : GM unit :=
  bs ← native_bytes outBuff outLen;
  modify (λ s, set_call (set_outputdata bs (g_call s)) s).
Definition __faasm_chain_ptr_wrapper (wasmFuncPtr inBuff inLen : Z) : GM Z :=
  call ← gets g_call;
  inputData ← native_bytes inBuff inLen;
  r ← makeChainedCall endpointHost (function call) wasmFuncPtr None inputData false; mret (i32 r).
Definition __faasm_chain_name_wrapper (name input inputSize : Z) : GM Z :=
  bs ← native_bytes input (u32 inputSize);
  str ← native_c_string name;
  r ← makeChainedCall endpointHost str 0 None bs false; mret (i32 r).
Definition __faasm_await_call_wrapper (callId : Z) : GM Z :=
  r ← awaitChainedCall chainedCallTimeout (u32 callId); mret (i32 r).
End guest.

(** * State (src/wamr/state.cpp) *)

Section state.
Context `{Scheduler} `{E : MemoryEnv} `{StateApi}.
Abbreviation SM := (M (GuestWith KVS)).

Definition wamr_getKV (key : Z) (size : Z) : SM StateKV :=
  str ← on_guest (native_c_string key);
  s ← get; on_ext (getKV (user (g_call (gw_guest s))) str (Some size)).

Definition __faasm_read_state_wrapper (key buffer bufferLen : Z) : SM Z :=
  if bufferLen =? 0 then
    str ← on_guest (native_c_string key);
    s ← get; n ← on_ext (kv_stateSize (user (g_call (gw_guest s))) str); mret (i32 n)
  else
    kv ← wamr_getKV key (u64 bufferLen);
    bs ← on_ext (kv_do kv KGet);
    on_guest (write_native buffer bs) ;;
    s ← get; mret (i32 (kv_size kv (gw_ext s))).
Definition __faasm_read_state_ptr_wrapper (key bufferLen : Z) : SM Z :=
  kv ← wamr_getKV key (u64 bufferLen);
  wasmPtr ← on_memory (mapSharedStateMemory kv 0 (u32 bufferLen));
  kv_call kv KGet ;; mret (i32 wasmPtr).
Definition __faasm_write_state_wrapper (key buffer bufferLen : Z) : SM unit :=
  kv ← wamr_getKV key (u64 bufferLen);
  s ← get;
  data ← on_guest (read_native buffer (kv_size kv (gw_ext s)));
  kv_call kv (KSet data).
Definition __faasm_push_state_wrapper (key : Z) : SM unit :=
  kv ← wamr_getKV key 0; kv_call kv KPushFull.
End state.

(** * What is refused or ignored *)

Section stubs.
Context {S : Type}.
Abbreviation SM := (M S).

(** ** Threads (src/wamr/pthread.cpp): every call succeeds and does nothing. *)

Definition pthread_create_wrapper (a b c d : Z) : SM Z := mret 0.
Definition pthread_join_wrapper (a b : Z) : SM Z := mret 0.
Definition pthread_once_wrapper (a b : Z) : SM Z := mret 0.
Definition pthread_mutex_init_wrapper (a b : Z) : SM Z := mret 0.
Definition pthread_mutex_lock_wrapper (a : Z) : SM Z := mret 0.
Definition pthread_mutex_unlock_wrapper (a : Z) : SM Z := mret 0.
Definition pthread_mutex_destroy_wrapper (a : Z) : SM Z := mret 0.
Definition pthread_cond_init_wrapper (a b : Z) : SM Z := mret 0.
Definition pthread_cond_signal_wrapper (a : Z) : SM Z := mret 0.
Definition pthread_cond_wait_wrapper (a b : Z) : SM Z := mret 0.
Definition pthread_cond_broadcast_wrapper (a : Z) : SM Z := mret 0.
Definition pthread_cond_destroy_wrapper (a : Z) : SM Z := mret 0.
Definition pthread_mutexattr_init_wrapper (a : Z) : SM Z := mret 0.
Definition pthread_mutexattr_destroy_wrapper (a : Z) : SM Z := mret 0.
Definition pthread_equal_wrapper (a b : Z) : SM Z := mret 0.

(** ** Clocks (src/wamr/timing.cpp), linking (src/wamr/dynlink.cpp), stubs (src/wamr/stubs.cpp) *)

Definition wamr_clock_time_get (a b c : Z) : SM Z := throw (RuntimeError "clock_time_get not implemented").
Definition wamr_poll_oneoff (a b c d : Z) : SM Z := throw (RuntimeError "poll_oneoff not implemented").
Definition dlopen_wrapper (filename flags : Z) : SM Z := throw (RuntimeError "Native dlopen not implemented").
Definition dlsym_wrapper (handle symbol : Z) : SM Z := throw (RuntimeError "Native dlsym not implemented").
Definition dlclose_wrapper (handle : Z) : SM Z := throw (RuntimeError "Native dlclose not implemented").
Definition syscall_wrapper (syscallNo syscallArgs : Z) : SM Z :=
  if syscallNo =? 224 then mret 0 else throw (RuntimeError "Native syscall not implemented").
Definition __cxa_allocate_exception_wrapper (a : Z) : SM Z :=
  throw (RuntimeError "Native __cxa_allocate_exception not implemented").
Definition __cxa_throw_wrapper (a b c : Z) : SM unit := throw (RuntimeError "Native __cxa_throw not implemented").
Definition shm_open_wrapper (a b c : Z) : SM Z := throw (RuntimeError "Native shm_open not implemented").
End stubs.

(** * The environment of the two runtimes *)

Section env_properties.

(** WAVM's layout that succeeds is WAMR's, in a memory of less than 4 GiB (a memory is whole pages). *)
Lemma write_strings_agree strings p b m m' :
  mem_size m < 2 ^ 32 - 1 → Env.write_strings strings p b m = Ret m' → write_strings strings p b m = Ret m'.
Proof.
  revert p b m. induction strings as [|x l IH]; intros p b m Hm; [done|]. cbn [Env.write_strings write_strings].
  destruct (in_mem m b 1) eqn:Hb; [|done]. unfold native_store.
  destruct (mem_write m b _) as [m1|] eqn:Hw1; [|done]. cbn [mbind outcome_bind]. unfold store_i32.
  pose proof (mem_write_size _ _ _ _ Hw1) as Hs1. apply in_mem_true in Hb as [Hb0 Hb1].
  destruct (mem_write m1 p (le32 b)) as [m2|] eqn:Hw2; [|done]. cbn [mbind outcome_bind].
  pose proof (mem_write_size _ _ _ _ Hw2) as Hs2. pose proof (mem_write_inv _ _ _ _ Hw2) as (Hp & Hpn & _).
  rewrite length_le32 in Hpn. rewrite (wrapU_id 32 b), Hw2 by (unfold in_u; lia). cbn [mbind outcome_bind].
  intros Hrest. rewrite (wrapU_id 32 (p + 4)) in Hrest by (unfold in_u; lia).
  pose proof (mem_write_inv _ _ _ _ Hw1) as (_ & Hbn & _). rewrite bytes_of_string_size in Hbn.
  destruct l as [|y l]; [exact Hrest|].
  rewrite (wrapU_id 32 (b + (str_size x + 1))) in Hrest; [apply IH; [lia|exact Hrest]|].
  pose proof (str_size_nonneg x). unfold in_u. lia.
Qed.

Lemma environ_get_agrees envPtrs envBuf (s s' : Env) r :
  mem_size (env_mem s) < 2 ^ 32 - 1 → in_u 32 envPtrs → in_u 32 envBuf →
  Env.wasi_environ_get envPtrs envBuf s = (Ret r, s') → wasi_environ_get envPtrs envBuf s = (Ret r, s').
Proof.
  intros Hm Hp Hb. unfold Env.wasi_environ_get, wasi_environ_get, writeWasmEnvToMemory, writeWasmEnvToWamrMemory,
    Env.writeStringArrayToMemory, writeStringArrayToMemory. rewrite (wrapU_id 32 envPtrs), (wrapU_id 32 envBuf) by done.
  run_unfold. destruct (Env.write_strings _ _ _ _) as [m|] eqn:Hw; [|done].
  by rewrite (write_strings_agree _ _ _ _ _ Hm Hw).
Qed.
End env_properties.
