(* ===== verification/EnvCalls.v ===== *)
(** The rest of the calls on the environment and the host (src/wavm/env.cpp, io.cpp,
    memory.cpp, process.cpp, signals.cpp, with the conversion of file statuses in
    src/wavm/util.cpp): fixed answers about the user and the system, exits, random bytes,
    file statuses and directory entries of the host. *)

From S2P Require Import Prelude WasmBytes WasmMemory Env Chaining Guest Clocks.

(** * The interface to the kernel *)

Record NativeStat64 := mkStat64 {
  s_dev : Z; s_ino : Z; s_nlink : Z; s_mode : Z; s_rdev : Z; s_size : Z; s_blksize : Z; s_blocks : Z;
  s_atim : Z * Z; s_mtim : Z * Z; s_ctim : Z * Z }.
Definition stat64_zero : NativeStat64 := mkStat64 0 0 0 0 0 0 0 0 (0, 0) (0, 0) (0, 0).

(** [dirent64], with the bytes of its name. *)
Record NativeDirent64 := mkDirent64 { d_ino : Z; d_type : Z; d_name : list Z }.

(** A failed call gives [errno]; [getrandom] its result and the bytes it stored;
    [getdents64] the entries that fit in 80 bytes, none at the end of the directory. *)
Class Kernel := {
  Kn : Type;
  sysconf_nprocs : Kn → Z;
  membarrier_query : Kn → Z;
  host_getrandom : Z → Z → Kn → (Z * list Z) * Kn;
  host_fstat64 : Z → Kn → Z + NativeStat64;
  host_lstat64 : string → Kn → Z + NativeStat64;
  host_getdents64 : Z → Kn → (Z + list NativeDirent64) * Kn }.

Definition FAKE_NAME : string := "faasm".
Definition _SC_NPROCESSORS_ONLN : Z := 84.
Definition MEMBARRIER_CMD_QUERY : Z := 0.
Definition MEMBARRIER_CMD_SHARED : Z := 1.
Definition MEMBARRIER_CMD_PRIVATE_EXPEDITED : Z := 8.
Definition MEMBARRIER_CMD_REGISTER_PRIVATE_EXPEDITED : Z := 16.

(** * Exits *)

Section exits.
Context {S : Type}.
Definition s__exit (a b : Z) : M S Z := throw (WasmExitException a).
Definition env_proc_exit (retCode : Z) : M S unit := throw (WasmExitException retCode).
Definition abort : M S unit := throw (WasmExitException 0).
Definition exit (a : Z) : M S unit := throw (WasmExitException a).
Definition _Exit (a : Z) : M S unit := throw (WasmExitException a).

(** * Processes, signals and memory advice: nothing is done *)

Definition s__fork : M S Z := unimplemented.
Definition s__waitpid (pid statusPtr options : Z) : M S Z := mret pid.
Definition s__sigaction (a b c : Z) : M S Z := mret 0.
Definition s__sigemptyset (a : Z) : M S Z := mret 0.
Definition s__siginterrupt (a b : Z) : M S Z := mret 0.
Definition s__rt_sigprocmask (how sigSetPtr oldSetPtr sigsetsize : Z) : M S Z := mret 0.
Definition s__madvise (address numBytes advice : Z) : M S Z := mret 0.
Definition s__mprotect (addrPtr len prot : Z) : M S Z := mret 0.
End exits.

Section calls.
Context `{Scheduler} `{Kernel} (prependRuntimeRoot : string → string).
Abbreviation KS := (GuestWith Kn).
Abbreviation KM := (M KS).

Definition ask {A} (f : Kn → A) : KM A := on_ext (gets f).

(** The fields of a struct at [base], by their offsets, in the order they are set. *)
Definition write_fields (base : Z) (fs : list (Z * list Z)) : M GuestState unit :=
  for_each fs (λ f, write_native (base + f.1) f.2).

(** * The user and the system *)

(** [wasm_utsname]: six names of 65 bytes each. *)
Definition utsname_field (str : string) : list Z := resize 65 0 (bytes_of_string str).
Definition wasm_utsname : list Z :=
  flat_map utsname_field ["Linux"; "faasm"; "1.0.0"; "Faasm 123"; "x86"; "(none)"].
Definition uname (bufPtr : Z) : M GuestState Z :=
  memoryArrayPtr bufPtr 1 ;; write_native bufPtr wasm_utsname ;; mret 0.

Definition sysconf (a : Z) : KM Z :=
  if a =? _SC_NPROCESSORS_ONLN then n ← ask sysconf_nprocs; mret (i32 n) else unimplemented.

Definition s__membarrier (a : Z) : KM Z :=
  if a =? MEMBARRIER_CMD_QUERY then r ← ask membarrier_query; mret (i32 r)
  else if (a =? MEMBARRIER_CMD_SHARED) || (a =? MEMBARRIER_CMD_PRIVATE_EXPEDITED)
    || (a =? MEMBARRIER_CMD_REGISTER_PRIVATE_EXPEDITED) then mret 0
  else throw (RuntimeError "Invalid membarrier command").

(** One byte of the buffer is checked. *)
Definition s__getrandom (bufPtr bufLen flags : Z) : KM Z :=
  on_guest (memoryArrayPtr bufPtr 1) ;;
  '(r, bs) ← on_ext (λ k, let '(x, k) := host_getrandom (u64 bufLen) flags k in (Ret x, k));
  on_guest (write_native bufPtr bs) ;; mret (i32 r).

(** * The password entry

    [wasm_passwd] has seven words; those that are not set, and the terminators of the
    names, are what the new memory holds. *)

Definition passwd_size : Z := 28.
Definition pw_name_at : Z := passwd_size.
Definition pw_dir_at : Z := passwd_size + str_size FAKE_NAME + 1.
Definition passwd_fields (wasmMemPtr : Z) : list (Z * list Z) :=
  [(8, le32 FAKE_UID); (12, le32 FAKE_GID); (20, le32 (u32 (wasmMemPtr + pw_dir_at)));
   (0, le32 (u32 (wasmMemPtr + pw_name_at)));
   (pw_name_at, bytes_of_string FAKE_NAME); (pw_dir_at, bytes_of_string FAKE_WORKING_DIR)].
Definition getpwuid `{E : MemoryEnv} (uid : Z) : KM Z :=
  if negb (uid =? FAKE_UID) then throw (RuntimeError "Attempting to get pwd for non fake UID")
  else
    let newMemSize := pw_dir_at + str_size FAKE_WORKING_DIR in
    wasmMemPtr ← on_memory (growMemory (roundUpToWasmPageAligned newMemSize));
    on_guest (memoryArrayPtr wasmMemPtr passwd_size) ;;
    on_guest (write_fields wasmMemPtr (passwd_fields wasmMemPtr)) ;;
    mret (i32 wasmMemPtr).

(** * File statuses *)

(** [wasm_stat] has 144 bytes; the padding and the last words are not written. *)
Definition stat_fields (x : NativeStat64) : list (Z * list Z) :=
  [(0, le64 (s_dev x)); (24, le32 (s_mode x)); (16, le64 (s_nlink x)); (28, le32 FAKE_UID); (32, le32 FAKE_GID);
   (40, le64 (s_rdev x)); (48, le64 (s_size x)); (56, le32 (s_blksize x)); (64, le64 (s_blocks x));
   (72, le64 (s_atim x).1); (80, le32 (s_atim x).2); (88, le64 (s_mtim x).1); (96, le32 (s_mtim x).2);
   (104, le64 (s_ctim x).1); (112, le32 (s_ctim x).2); (8, le64 (s_ino x))].
Definition writeNativeStatToWasmStat (x : NativeStat64) (wasmStatPtr : Z) : M GuestState unit :=
  memoryArrayPtr wasmStatPtr 144 ;;
  write_fields wasmStatPtr (stat_fields x).

(** The descriptor is used as one of the host. *)
Definition s__fstat64 (fd statBufPtr : Z) : KM Z :=
  r ← ask (host_fstat64 fd);
  match r with
  | inl newErrno => mret (i32 (- newErrno))
  | inr x => on_guest (writeNativeStatToWasmStat x statBufPtr) ;; mret 0
  end.
(** The result is not read: after a failure the status is all zero. *)
Definition s__lstat64 (pathPtr statBufPtr : Z) : KM Z :=
  str ← on_guest (getStringFromWasm pathPtr);
  r ← ask (host_lstat64 (prependRuntimeRoot str));
  on_guest (writeNativeStatToWasmStat (match r with inl _ => stat64_zero | inr x => x end) statBufPtr) ;;
  mret 0.

(** * Directory entries *)

Definition wasmDirentSize : Z := 16.
(** [wasm_dirent64] has 16 bytes, of which 7 follow the type: a longer name is copied past
    the end of the object. *)
Definition wasm_dirent64 (d : NativeDirent64) : outcome (list Z) :=
  if (7 <? length (d_name d))%nat then Throw (Undefined "name past the end of the entry")
  else Ret (le64 (u32 (d_ino d)) ++ [d_type d] ++ resize 7 0 (d_name d)).

Fixpoint copy_dirents (ds : list NativeDirent64) (buf bufLen wasmBytesRead : Z) : M GuestState Z :=
  match ds with
  | [] => mret wasmBytesRead
  | d :: ds =>
      if u32 bufLen <? wasmBytesRead then throw (RuntimeError "Overshot the end of the dirent buffer")
      else
        bs ← lift (wasm_dirent64 d);
        write_native (buf + wasmBytesRead) bs ;;
        copy_dirents ds buf bufLen (u32 (wasmBytesRead + wasmDirentSize))
  end.

(** The bound is computed as a [size_t]: it wraps for buffers of less than two entries.
    The descriptor is used as one of the host. *)
Fixpoint getdents_loop (fuel : nat) (fd buf bufLen wasmBytesRead : Z) : KM Z :=
  match fuel with
  | O => throw (Blocked "getdents64")
  | S fuel =>
      if wasmBytesRead <? u64 (bufLen - 2 * wasmDirentSize) then
        r ← on_ext (λ k, let '(r, k) := host_getdents64 fd k in (Ret r, k));
        match r with
        | inl newErrno => mret (i32 (- newErrno))
        | inr [] => mret (i32 wasmBytesRead)
        | inr ds => n ← on_guest (copy_dirents ds buf bufLen wasmBytesRead); getdents_loop fuel fd buf bufLen n
        end
      else mret (i32 wasmBytesRead)
  end.
Definition s__getdents64 (fuel : nat) (fd wasmDirentBuf wasmDirentBufLen : Z) : KM Z :=
  on_guest (memoryArrayPtr wasmDirentBuf 1) ;; getdents_loop fuel fd wasmDirentBuf wasmDirentBufLen 0.

(** * Streams and memory *)

(** The [FILE] of the host is taken from the memory of the module. *)
Definition putc (c streamPtr : Z) : M GuestState Z := throw (Undefined "stream of the host in the memory of the module").
(** What is printed is not part of the state. *)
Definition vfprintf (fd formatPtr argList : Z) : M GuestState Z := getStringFromWasm formatPtr ;; mret 0.
Definition explicit_bzero (wasmPtr len : Z) : M GuestState unit :=
  if len <? 0 then throw oob
  else memoryArrayPtr wasmPtr len ;; write_native wasmPtr (repeat 0 (Z.to_nat len)).
End calls.

(** * Properties *)

Section fields.
Context `{Scheduler}.

Definition field_range (base : Z) (f : Z * list Z) : Z * Z := (base + f.1, Z.of_nat (length f.2)).

(** Fields that do not overlap are all found afterwards, and nothing else changes. *)
Lemma write_fields_run base fs (g : GuestState) :
  Forall (λ r, in_mem (g_mem g) r.1 r.2 = true) (field_range base <$> fs) →
  ForallOrdPairs iov_disjoint (field_range base <$> fs) →
  ∃ m', write_fields base fs g = (Ret (), set_mem m' g) ∧ mem_size m' = mem_size (g_mem g) ∧
    untouched (field_range base <$> fs) (g_mem g) m' ∧
    Forall (λ f, mem_read m' (base + f.1) (Z.of_nat (length f.2)) = Ret f.2) fs.
Proof.
  unfold write_fields. revert g. induction fs as [|f fs IH]; intros g Hin Hdis.
  { exists (g_mem g). split_and!; [by destruct g|done|done|constructor]. }
  cbn [fmap list_fmap] in *. apply Forall_cons in Hin as [Hf Hin]. inversion Hdis as [|? ? Hd Hdis']; subst.
  destruct (mem_write_exists (g_mem g) (base + f.1) f.2 Hf) as [m1 Hm1].
  destruct (IH (set_mem m1 g)) as (m' & Hrun & Hsz & Hun & Hall).
  { eapply Forall_impl; [exact Hin|]. intros r Hr. cbn [g_mem set_mem]. by rewrite (in_mem_write _ _ _ _ _ _ Hm1). }
  { done. }
  exists m'. cbn [for_each]. rewrite (run_bind_ret _ _ _ _ _ (write_native_run _ _ _ _ Hm1)), Hrun.
  cbn [g_mem set_mem] in *. split_and!; [done|by rewrite Hsz, (mem_write_size _ _ _ _ Hm1)| |].
  - transitivity m1.
    + eapply untouched_write; [by left|by cbn|exact Hm1].
    + intros i Hi. apply Hun. by apply Forall_cons in Hi as [_ Hi].
  - constructor; [|done]. rewrite <- (mem_read_untouched m1 m' _ _ _ Hun); [by apply (mem_read_write _ _ _ _ Hm1)|by rewrite Hsz|].
    exact Hd.
Qed.
End fields.

(** Explicit lists of ranges are apart. *)
Ltac apart :=
  repeat first [apply FOP_nil | apply FOP_cons | apply Forall_nil_2 | apply Forall_cons_2];
  unfold iov_disjoint, outside; cbn [fst snd]; lia.

Section passwd.
Context `{Sc : Scheduler} `{Kr : Kernel} `{E : MemoryEnv} {L : MemoryEnvLaws E}.
Abbreviation KS := (GuestWith Kn).

(** New pages are zero. *)
Lemma read_new_page (m : Mem) n a :
  mem_size m ≤ a → a + 1 ≤ mem_size m + Z.of_nat n → mem_read (m ++ replicate n 0) a 1 = Ret [0].
Proof.
  unfold mem_size. intros Ha Hn. unfold mem_read.
  rewrite (proj2 (in_mem_true _ _ _)) by (unfold mem_size; rewrite length_app, length_replicate; lia).
  f_equal. rewrite drop_app_ge by lia. rewrite drop_replicate.
  by replace (n - (Z.to_nat a - length m))%nat with (S (n - (Z.to_nat a - length m) - 1)) by lia.
Qed.

Lemma load_u32_le32 m a v : in_u 32 v → mem_read m a 4 = Ret (le32 v) → load_u32 m a = Ret v.
Proof.
  intros Hv Hr. unfold load_u32. rewrite Hr. cbn [mbind outcome_bind]. unfold le32.
  rewrite little_endian_to_Z_to_little_endian by lia. f_equal. by apply (wrapU_id 32).
Qed.

Lemma passwd_ranges p :
  field_range p <$> passwd_fields p = [(p + 8, 4); (p + 12, 4); (p + 20, 4); (p + 0, 4); (p + 28, 5); (p + 34, 4)].
Proof. unfold passwd_fields, field_range. cbn [fmap list_fmap fst snd]. by rewrite !length_le32. Qed.

(** The password entry of the only user lies in a new page at the end of the memory:
    its pointers lead to the C strings of the name and of the home, although no terminator
    is written, and what the module had is as it was. *)
Theorem getpwuid_entry (s : KS) :
  let p := size_of (gw_module s) in
  wf_module (gw_module s) → mem_size (g_mem (gw_guest s)) = p →
  p + WASM_BYTES_PER_PAGE ≤ UINT32_MAX → memPages (gw_module s) + 1 ≤ max_memory_pages →
  (∀ q d, ∃ n' base, runtime_growMemory q d = (grow_success, n', base)) →
  ∃ s', getpwuid FAKE_UID s = (Ret (i32 p), s') ∧
    let m' := g_mem (gw_guest s') in
    size_of (gw_module s') = p + WASM_BYTES_PER_PAGE ∧ mem_size m' = p + WASM_BYTES_PER_PAGE ∧
    load_u32 m' (p + 8) = Ret FAKE_UID ∧ load_u32 m' (p + 12) = Ret FAKE_GID ∧
    (∃ a, load_u32 m' p = Ret a ∧ c_string m' a = Some FAKE_NAME) ∧
    (∃ a, load_u32 m' (p + 20) = Ret a ∧ c_string m' a = Some FAKE_WORKING_DIR) ∧
    take (Z.to_nat p) m' = g_mem (gw_guest s).
Proof.
  intros p Hwf Hm Hmax Hpages Hgrant.
  assert (0 ≤ p) as Hp0 by page_lia. pose proof (size_bytes _ Hwf) as Hsz0. fold p in Hsz0.
  set (mo := set_memPages (memPages (gw_module s) + 1) (gw_module s)).
  assert (growMemory WASM_BYTES_PER_PAGE (gw_module s) = (Ret p, mo)) as Hgrow by by apply growMemory_granted.
  assert (wf_module mo) as Hwf' by (unfold mo, p, wf_module, size_of in *; cbn [memPages set_memPages]; page_lia).
  assert (size_of mo = p + WASM_BYTES_PER_PAGE) as Hszo by (unfold mo, p, size_of; cbn [memPages set_memPages]; page_lia).
  set (m0 := g_mem (gw_guest s) ++ replicate (Z.to_nat WASM_BYTES_PER_PAGE) 0).
  assert (mem_size m0 = p + 65536) as Hm0.
  { unfold m0, mem_size. rewrite length_app, length_replicate. unfold mem_size in Hm. unfold WASM_BYTES_PER_PAGE in *. lia. }
  assert (on_memory (growMemory WASM_BYTES_PER_PAGE) s = (Ret p, mkGuestWith (set_mem m0 (gw_guest s)) mo (gw_ext s))) as Hon.
  { unfold on_memory. rewrite Hgrow, (size_bytes _ Hwf'), Hszo. do 3 f_equal. unfold m0.
    rewrite resize_ge by (unfold mem_size in Hm; page_lia). do 2 f_equal. unfold mem_size in Hm. page_lia. }
  destruct (write_fields_run p (passwd_fields p) (set_mem m0 (gw_guest s))) as (m' & Hrun & Hsz & Hun & Hall).
  { rewrite passwd_ranges. cbn [g_mem set_mem].
    repeat apply Forall_cons_2; [..|apply Forall_nil_2]; apply in_mem_true; rewrite Hm0; cbn; lia. }
  { rewrite passwd_ranges. apart. }
  cbn [g_mem set_mem] in *. rewrite passwd_ranges in Hun.
  assert (in_u 32 (p + 28) ∧ in_u 32 (p + 34)) as [Hn Hd] by (unfold WASM_BYTES_PER_PAGE, UINT32_MAX, in_u in *; lia).
  unfold passwd_fields in Hall. rewrite !Forall_cons in Hall. destruct Hall as (Huid & Hgid & Hdir & Hname & Hstr1 & Hstr2 & _).
  cbn [fst snd] in *. rewrite !length_le32 in *. change pw_dir_at with 34 in *. change pw_name_at with 28 in *.
  rewrite (wrapU_id 32 _ Hn), (wrapU_id 32 _ Hd), Z.add_0_r in *.
  exists (mkGuestWith (set_mem m' (gw_guest s)) mo (gw_ext s)). split.
  { unfold getpwuid. change (roundUpToWasmPageAligned (pw_dir_at + str_size FAKE_WORKING_DIR)) with WASM_BYTES_PER_PAGE.
    rewrite Z.eqb_refl. cbn [negb]. cbv zeta. rewrite (run_bind_ret _ _ _ _ _ Hon).
    rewrite (run_bind_ret _ _ _ () (mkGuestWith (set_mem m0 (gw_guest s)) mo (gw_ext s))).
    2:{ apply run_on_guest_id, memoryArrayPtr_run. apply in_mem_true. cbn [g_mem set_mem gw_guest]. rewrite Hm0.
        change (u64 passwd_size) with 28. lia. }
    by rewrite (run_bind_ret _ _ _ _ _ (run_on_guest (write_fields p (passwd_fields p)) (mkGuestWith (set_mem m0 (gw_guest s)) mo (gw_ext s)) _ _ Hrun)). }
  cbn [gw_guest gw_module g_mem set_mem].
  assert (∀ a, Forall (iov_disjoint (p + a, 1)) [(p + 8, 4); (p + 12, 4); (p + 20, 4); (p, 4); (p + 28, 5); (p + 34, 4)] →
    0 ≤ a < 65536 → mem_read m' (p + a) 1 = Ret [0]) as Hzero.
  { intros a Ha Hb. rewrite <- (mem_read_untouched _ _ _ _ _ Hun Hsz Ha). apply read_new_page; [lia|].
    rewrite Hm. unfold WASM_BYTES_PER_PAGE. lia. }
  split_and!; [done|by rewrite Hsz|by apply load_u32_le32|by apply load_u32_le32| | |].
  - exists (p + 28). split; [by apply load_u32_le32|].
    apply c_string_read; [lia|by apply (bool_decide_unpack _)|exact Hstr1|].
    rewrite <- Z.add_assoc. change (28 + str_size FAKE_NAME) with 33. apply Hzero; [|cbn; lia]. apart.
  - exists (p + 34). split; [by apply load_u32_le32|].
    apply c_string_read; [lia|by apply (bool_decide_unpack _)|exact Hstr2|].
    rewrite <- Z.add_assoc. change (34 + str_size FAKE_WORKING_DIR) with 38. apply Hzero; [|cbn; lia]. apart.
  - apply list_eq. intros i. destruct (decide (i < Z.to_nat p)%nat) as [Hi|Hi].
    + rewrite lookup_take_lt, Hun by (done || apart).
      unfold m0. apply lookup_app_l. unfold mem_size in Hm. lia.
    + rewrite lookup_take_ge by lia. symmetry. apply lookup_ge_None. unfold mem_size in Hm. lia.
Qed.
End passwd.

Section listing.
Context `{Sc : Scheduler} `{Kr : Kernel}.
Abbreviation KS := (GuestWith Kn).

(** A status that cannot be read is reported as a file of zeroes. *)
Lemma lstat_failure_hidden root pathPtr statBufPtr str e (s : KS) :
  getStringFromWasm pathPtr (gw_guest s) = (Ret str, gw_guest s) → host_lstat64 (root str) (gw_ext s) = inl e →
  s__lstat64 root pathPtr statBufPtr s = (on_guest (writeNativeStatToWasmStat stat64_zero statBufPtr) ;; mret 0) s.
Proof.
  intros Hstr He. unfold s__lstat64. rewrite (run_bind_ret _ _ _ _ _ (run_on_guest_id _ _ _ Hstr)).
  rewrite (run_bind_ret _ _ _ (inl e) s); [done|]. unfold ask.
  rewrite (run_on_ext (gets (host_lstat64 (root str))) s (Ret (inl e)) (gw_ext s)) by (unfold gets; by rewrite He).
  by destruct s.
Qed.

(** A name of eight bytes or more does not fit in the entry. *)
Lemma long_name_overflows d ds buf bufLen n (g : GuestState) :
  (7 < length (d_name d))%nat → n ≤ u32 bufLen →
  (copy_dirents (d :: ds) buf bufLen n g).1 = Throw (Undefined "name past the end of the entry").
Proof.
  intros Hl Hn. cbn [copy_dirents]. destruct (Z.ltb_spec (u32 bufLen) n); [lia|].
  unfold wasm_dirent64. by destruct (Nat.ltb_spec 7 (length (d_name d))); [|lia].
Qed.

(** The host's directory ends after [k] reads. *)
Inductive ends_after (fd : Z) : nat → Kn → Prop :=
  | ends_now kn kn' : host_getdents64 fd kn = (inr [], kn') → ends_after fd 0 kn
  | ends_error kn kn' e : host_getdents64 fd kn = (inl e, kn') → ends_after fd 0 kn
  | ends_later kn kn' ds k :
      host_getdents64 fd kn = (inr ds, kn') → ends_after fd k kn' → ends_after fd (S k) kn.

Lemma copy_not_blocked ds buf bufLen n (g : GuestState) w : (copy_dirents ds buf bufLen n g).1 ≠ Throw (Blocked w).
Proof.
  revert n g. induction ds as [|d ds IH]; intros n g; [done|]. cbn [copy_dirents].
  destruct (u32 bufLen <? n); [done|]. rewrite run_bind. unfold lift, wasm_dirent64.
  destruct (7 <? _)%nat; [done|]. rewrite run_bind. unfold write_native. rewrite run_bind. cbn [get].
  destruct (mem_write _ _ _); [apply IH|done].
Qed.

(** The loop ends when the host's directory does. *)
Lemma getdents_terminates fd k buf bufLen n fuel (s : KS) :
  ends_after fd k (gw_ext s) → (k < fuel)%nat → (getdents_loop fuel fd buf bufLen n s).1 ≠ Throw (Blocked "getdents64").
Proof.
  intros Hk. revert n fuel s Hk. induction k as [|k IH]; intros n [|fuel] s Hk Hf; try lia; cbn [getdents_loop].
  all: destruct (n <? u64 (bufLen - 2 * wasmDirentSize)); [|done].
  - inversion Hk as [? ? Hh|? ? ? Hh|]; subst.
    + by rewrite (run_bind_ret _ _ _ (inr []) (with_ext kn' s)) by (apply run_on_ext; by rewrite Hh).
    + by rewrite (run_bind_ret _ _ _ (inl e) (with_ext kn' s)) by (apply run_on_ext; by rewrite Hh).
  - inversion Hk as [| |? ? ds ? Hh Hk']; subst.
    rewrite (run_bind_ret _ _ _ (inr ds) (with_ext kn' s)) by (apply run_on_ext; by rewrite Hh).
    destruct ds as [|d ds]; [done|]. rewrite run_bind. unfold on_guest, zoom. cbn [gw_guest with_ext].
    pose proof (copy_not_blocked (d :: ds) buf bufLen n (gw_guest s) "getdents64") as Hnb.
    destruct (copy_dirents _ _ _ _ _) as [[r|e] g]; cbn [fst] in *; [|done].
    apply IH; [exact Hk'|lia].
Qed.
End listing.

(** * A concrete host *)

(** The state counts the reads that give an entry before the directory ends. *)
#[export] Instance demo_kernel : Kernel :=
  {| Kn := nat; sysconf_nprocs k := 4; membarrier_query k := 0;
     host_getrandom n fl := λ k, (n, repeat 7 (Z.to_nat n), k);
     host_fstat64 fd k := inl EBADF; host_lstat64 p k := inl ENOENT;
     host_getdents64 fd := λ k, (inr (match k with O => [] | S _ => [mkDirent64 5 8 [97]] end), pred k) |}.

(** A module without memory: the entry is at 0. *)
Definition demo_kernel_state : GuestWith Kn :=
  mkGuestWith (mkGuest [] (demo_message "u" "f" 1 7 []) (0, ∅) [] []) (mkWasmModule 0 [] 0 [] ∅ []) 3%nat.

Lemma getpwuid_entry_witness :
  ∃ s', getpwuid (E := demo_env) FAKE_UID demo_kernel_state = (Ret 0, s') ∧
    ∃ a, load_u32 (g_mem (gw_guest s')) 0 = Ret a ∧ c_string (g_mem (gw_guest s')) a = Some "faasm".
Proof.
  destruct (getpwuid_entry (E := demo_env) (L := demo_laws) demo_kernel_state) as (s' & Hrun & _ & _ & _ & _ & Hname & _).
  - split; vm_compute; congruence.
  - reflexivity.
  - vm_compute. congruence.
  - vm_compute. congruence.
  - intros q d. do 2 eexists. reflexivity.
  - exists s'. split; [exact Hrun|exact Hname].
Defined.
