(* ===== verification/SysCalls.v ===== *)
(** The system calls of a module by their numbers (src/wavm/syscalls.cpp): the handlers of
    the other files, put together on one state. *)

From S2P Require Import Prelude WasmBytes WasmMemory Pthreads S3 Host FileLoader SharedFiles Wasi FileDescriptor FileSystem WasiIo Env Chaining Guest Network Clocks EnvCalls.

(** * One state *)

(** What the host does for a module: its open files with its captured output, its
    environment, sockets, clocks and kernel. *)
Record Services `{Rados} `{Host} `{SocketHost} `{HostClock} `{Kernel} := mkServices {
  sv_files : FileSystem; sv_out : Z * Z; sv_env : Env; sv_net : Net; sv_clk : Clk; sv_kernel : Kn }.
Arguments mkServices {_ _ _ _ _} _ _ _ _ _ _.

Section syscalls.
Context `{Rados} `{Host} `{SocketHost} `{HostClock} `{Kernel} `{Scheduler} `{WasiABI} `{E : MemoryEnv} (conf : FaasmConfig).

Abbreviation SS := (GuestWith Services).
Abbreviation SM := (M SS).

Definition guest_mem (s : SS) : Mem := g_mem (gw_guest s).
Definition set_guest_mem (m : Mem) (s : SS) : SS := mkGuestWith (set_mem m (gw_guest s)) (gw_module s) (gw_ext s).
Definition set_services (x : Services) (s : SS) : SS := mkGuestWith (gw_guest s) (gw_module s) x.

(** The handlers of each file on its part of the state. *)
Definition on_part {X A} (part : Services → X) (set_part : X → Services → Services) (x : M (GuestWith X) A) : SM A :=
  zoom (λ s, mkGuestWith (gw_guest s) (gw_module s) (part (gw_ext s)))
    (λ t s, mkGuestWith (gw_guest t) (gw_module t) (set_part (gw_ext t) (gw_ext s))) x.
Definition on_network {A} : M (GuestWith Net) A → SM A :=
  on_part sv_net (λ n v, mkServices (sv_files v) (sv_out v) (sv_env v) n (sv_clk v) (sv_kernel v)).
Definition on_clocks {A} : M (GuestWith Clk) A → SM A :=
  on_part sv_clk (λ c v, mkServices (sv_files v) (sv_out v) (sv_env v) (sv_net v) c (sv_kernel v)).
Definition on_kernel {A} : M (GuestWith Kn) A → SM A :=
  on_part sv_kernel (λ k v, mkServices (sv_files v) (sv_out v) (sv_env v) (sv_net v) (sv_clk v) k).
Definition on_io {A} (x : M Io A) : SM A :=
  zoom (λ s, let v := gw_ext s in mkIo (guest_mem s) (sv_files v) (sv_out v).1 (sv_out v).2)
    (λ i s, let v := gw_ext s in set_guest_mem (io_mem i) (set_services
      (mkServices (io_fs i) (stdoutMemFd i, stdoutSize i) (sv_env v) (sv_net v) (sv_clk v) (sv_kernel v)) s)) x.
Definition on_env {A} (x : M Env A) : SM A :=
  zoom (λ s, env_set_mem (guest_mem s) (sv_env (gw_ext s)))
    (λ e s, let v := gw_ext s in set_guest_mem (env_mem e) (set_services
      (mkServices (sv_files v) (sv_out v) e (sv_net v) (sv_clk v) (sv_kernel v)) s)) x.
Definition on_bytes {A} (x : M Mem A) : SM A := zoom guest_mem set_guest_mem x.

(** ** Mapping (src/wavm/memory.cpp) *)

(** The pages that are mapped to a file show it; a length with the sign bit is a length of 64
    bits.  Address hint, protection, flags and offset are ignored. *)
Definition doMmap (addr length prot flags fd offset : Z) : SM Z :=
  if negb (fd =? -1) then
    fileDesc ← on_io (find_fd fd);
    wasmPtr ← on_memory (mmapFile (u32 (linuxFd fileDesc)) (u64 length));
    s ← get;
    let file := sys_data (c_mmap (u32 (linuxFd fileDesc)) (u64 length)) (w_host (fs_world (sv_files (gw_ext s)))) in
    on_guest (write_native wasmPtr file) ;;
    mret (i32 wasmPtr)
  else wasmPtr ← on_memory (mmapMemory (u64 length)); mret (i32 wasmPtr).
Definition s__mmap (addr length prot flags fd offset : Z) : SM Z := doMmap addr length prot flags fd offset.
Definition wasi_mmap (addr length prot flags fd offset : Z) : SM Z := doMmap addr length prot flags fd (i32 offset).

(** * The dispatch *)

(** The twelve bytes of the host's stack that a futex wait copies, and the fuel of a
    listing. *)
Context (host_stack : list Z) (fuel : nat).

Definition executeSyscall (syscallNumber a b c d e f g : Z) : SM Z :=
  let n := syscallNumber in
  if n =? 1 then s__exit a b
  else if n =? 2 then s__fork
  else if n =? 10 then on_io (s__unlink conf a)
  else if n =? 33 then on_io (s__access conf a b)
  else if n =? 38 then on_io (s__rename conf a b)
  else if n =? 39 then on_io (s__mkdir conf a b)
  else if n =? 78 then on_clocks (s__gettimeofday a b)
  else if n =? 85 then on_io (s__readlink a b c)
  else if n =? 90 then s__mmap a b c d e f
  else if n =? 102 then on_network (s__socketcall a b)
  else if n =? 114 then s__waitpid a b c
  else if n =? 125 then s__mprotect a b c
  else if n =? 162 then on_clocks (s__nanosleep a b)
  else if n =? 174 then s__sigaction a b c
  else if n =? 175 then s__rt_sigprocmask a b c d
  else if n =? 192 then s__mmap a b c d e f
  else if n =? 196 then on_kernel (s__lstat64 (prependRuntimeRoot conf) a b)
  else if n =? 197 then on_kernel (s__fstat64 a b)
  else if n =? 219 then s__madvise a b c
  else if n =? 220 then on_kernel (s__getdents64 fuel a b c)
  else if n =? 224 then on_env s__gettid
  else if n =? 240 then on_bytes (s__futex host_stack a b c)
  else if n =? 242 then on_env (s__sched_getaffinity a b c)
  else if n =? 265 then on_clocks (s__clock_gettime a b)
  else if n =? 355 then on_kernel (s__getrandom a b c)
  else if n =? 375 then on_kernel (s__membarrier a)
  else throw (RuntimeError ("Unsupported system call: " +:+ to_string n)).

Definition syscall (syscallNo argsPtr : Z) : SM Z :=
  if syscallNo =? 224 then executeSyscall 224 0 0 0 0 0 0 0 else unimplemented.
Definition __syscall0 (n : Z) : SM Z := executeSyscall n 0 0 0 0 0 0 0.
Definition __syscall1 (n a : Z) : SM Z := executeSyscall n a 0 0 0 0 0 0.
Definition __syscall2 (n a b : Z) : SM Z := executeSyscall n a b 0 0 0 0 0.
Definition __syscall3 (n a b c : Z) : SM Z := executeSyscall n a b c 0 0 0 0.
Definition __syscall4 (n a b c d : Z) : SM Z := executeSyscall n a b c d 0 0 0.
Definition __syscall5 (n a b c d e : Z) : SM Z := executeSyscall n a b c d e 0 0.
Definition __syscall6 (n a b c d e f : Z) : SM Z := executeSyscall n a b c d e f 0.
Definition __syscall7 (n a b c d e f g : Z) : SM Z := executeSyscall n a b c d e f g.
Definition __syscall_cp (n a b c d e f : Z) : SM Z := executeSyscall n a b c d e f 0.
End syscalls.

(** * What a system call may change *)

(** What the host gives are bytes, and no more than it was asked for. *)
Class SyscallLaws `{Host} `{SocketHost} `{Kernel} : Prop := {
  sys_data_bytes c k : bytes (sys_data c k);
  readlink_length p n k : 0 ≤ n → Z.of_nat (length (sys_data (c_readlink p n) k)) ≤ n;
  recv_bytes fd n fl t r bs t' : host_recv fd n fl t = (Ret (r, bs), t') → bytes bs;
  recvfrom_bytes fd n fl a t r bs a' l t' :
    host_recvfrom fd n fl a t = (Ret (r, bs, a', l), t') → bytes bs ∧ bytes (sa_data a');
  getsockname_bytes fd a t r a' l t' : host_getsockname fd a t = (Ret (r, a', l), t') → bytes (sa_data a');
  getrandom_bytes n fl t : bytes (host_getrandom n fl t).1.2;
  getrandom_length n fl t : 0 ≤ n → Z.of_nat (length (host_getrandom n fl t).1.2) ≤ n;
  dirent_bytes fd t ds t' : host_getdents64 fd t = (inr ds, t') → Forall (λ d, in_u 8 (d_type d) ∧ bytes (d_name d)) ds }.

(** The range lies in one of the ranges. *)
Definition named (rs : list (Z * Z)) (a n : Z) : Prop := Exists (λ r, r.1 ≤ a ∧ a + n ≤ r.1 + r.2) rs.

Definition mem_typed (m m' : Mem) : Prop := mem_size m' = mem_size m ∧ (bytes m → bytes m').
(** Bytes are changed in the ranges [rs] only. *)
Definition mem_within (rs : list (Z * Z)) (m m' : Mem) : Prop := mem_typed m m' ∧ untouched rs m m'.
Definition within {S} (mem : S → Mem) (rs : list (Z * Z)) (s s' : S) : Prop := mem_within rs (mem s) (mem s').

#[export] Instance within_preorder {S} (mem : S → Mem) rs : PreOrder (within mem rs).
Proof.
  split; [by intros s|]. intros a b c [[H1 H2] H3] [[H4 H5] H6]. split; [split; [by rewrite H4|auto]|by transitivity (mem b)].
Qed.

Lemma mem_within_write rs m a bs m' :
  named rs a (Z.of_nat (length bs)) → bytes bs → mem_write m a bs = Ret m' → mem_within rs m m'.
Proof.
  intros Hn Hbs Hw. split; [split; [apply (mem_write_size _ _ _ _ Hw)|intros Hm; apply (bytes_write _ _ _ _ Hm Hbs Hw)]|].
  intros i Hi. apply Exists_exists in Hn as ([b k] & Hin & Hb). rewrite Forall_forall in Hi. specialize (Hi _ Hin).
  unfold outside in Hi. cbn [fst snd] in *. apply (mem_write_lookup_out _ _ _ _ _ Hw). lia.
Qed.
Lemma named_here a n rs k : k ≤ n → named ((a, n) :: rs) a k.
Proof. intros Hk. apply Exists_cons_hd. cbn. lia. Qed.

Section within_guest.
Context `{Sc : Scheduler} {X : Type} (rs : list (Z * Z)).
Abbreviation GW := (GuestWith X).
Abbreviation guest_within := (within g_mem rs).
(** The linear memory keeps its size. *)
Definition gw_within (s s' : GW) : Prop := mem_within rs (g_mem (gw_guest s)) (g_mem (gw_guest s')) ∧ gw_module s' = gw_module s.
#[export] Instance gw_within_preorder : PreOrder gw_within.
Proof.
  split; [by intros s|]. intros a b c [Hab Hm1] [Hbc Hm2].
  split; [|by rewrite Hm2]. exact (PreOrder_Transitive (R := within (g_mem ∘ gw_guest) rs) a b c Hab Hbc).
Qed.

Lemma within_check a n : keeps guest_within (memoryArrayPtr a n).
Proof. intros g. unfold memoryArrayPtr. run_unfold. by destruct (in_mem _ _ _). Qed.
Lemma within_getString a : keeps guest_within (getStringFromWasm a).
Proof.
  apply (keeps_bind guest_within); [apply within_check|]. intros _.
  apply (keeps_get guest_within). intros s. destruct (c_string _ _); [apply (keeps_ret guest_within)|apply (keeps_throw guest_within)].
Qed.
Lemma within_read_ref a n : keeps guest_within (read_ref a n).
Proof. apply (keeps_get guest_within). intros g. apply (keeps_lift guest_within). Qed.
Lemma within_write_native a bs :
  named rs a (Z.of_nat (length bs)) → bytes bs → keeps guest_within (write_native a bs).
Proof.
  intros Hn Hbs g. unfold write_native. run_unfold. destruct (mem_write _ _ _) as [m|] eqn:Hw; [|done].
  by apply (mem_within_write _ _ _ _ _ Hn Hbs Hw).
Qed.
Lemma within_fields base fs :
  Forall (λ f, bytes f.2 ∧ named rs (base + f.1) (Z.of_nat (length f.2))) fs → keeps guest_within (write_fields base fs).
Proof.
  unfold write_fields. induction 1 as [|f fs [Hf Hn] _ IH]; cbn [for_each]; [apply (keeps_ret guest_within)|].
  apply (keeps_bind guest_within); [by apply within_write_native|done].
Qed.

Lemma within_guest {A} (x : M GuestState A) : keeps guest_within x → keeps gw_within (on_guest x).
Proof. intros Hx s. unfold on_guest, zoom. specialize (Hx (gw_guest s)). by destruct (x (gw_guest s)). Qed.
Lemma within_ext {A} (x : M X A) : keeps gw_within (on_ext x).
Proof. intros s. unfold on_ext, zoom. by destruct (x (gw_ext s)). Qed.
(** A call of the host whose result is lawful, and what follows it. *)
Lemma within_host {A B} (x : M X A) (P : A → Prop) (f : A → M GW B) :
  (∀ t a t', x t = (Ret a, t') → P a) → (∀ a, P a → keeps gw_within (f a)) → keeps gw_within (on_ext x ≫= f).
Proof.
  intros Hx Hf s. rewrite run_bind. unfold on_ext, zoom. destruct (x (gw_ext s)) as [[a|e] t] eqn:Ht; [|done].
  exact (Hf a (Hx _ _ _ Ht) _).
Qed.
End within_guest.

Ltac within_step :=
  cbv zeta;
  lazymatch goal with
  | |- keeps ?rel (get ≫= _) => apply (keeps_get rel); intros ?
  | |- keeps ?rel (_ ≫= _) => apply (keeps_bind rel); [|intros ?]
  | |- keeps ?rel (mret _) => apply (keeps_ret rel)
  | |- keeps ?rel (throw _) => apply (keeps_throw rel)
  | |- keeps ?rel (unimplemented) => apply (keeps_throw rel)
  | |- keeps ?rel (lift _) => apply (keeps_lift rel)
  | |- keeps _ (on_ext _) => apply within_ext
  | |- keeps _ (on_guest _) => apply within_guest
  | |- keeps _ (memoryArrayPtr _ _) => apply within_check
  | |- keeps _ (getStringFromWasm _) => apply within_getString
  | |- keeps _ (read_ref _ _) => apply within_read_ref
  | |- keeps _ (if ?b then _ else _) => destruct b
  | |- keeps _ (match ?x with _ => _ end) => destruct x
  end.

(** ** Sockets *)

Section typed.
Context `{Sc : Scheduler} {X : Type}.
Abbreviation GW := (GuestWith X).

Lemma typed_getString a : keeps guest_typed (getStringFromWasm a).
Proof.
  apply (keeps_bind guest_typed); [apply typed_check|]. intros _.
  apply (keeps_get guest_typed). intros s. destruct (c_string _ _); [apply (keeps_ret guest_typed)|apply (keeps_throw guest_typed)].
Qed.
Lemma typed_read_native a n : keeps guest_typed (read_native a n).
Proof.
  apply (keeps_get guest_typed). intros s. destruct (mem_read _ _ _); [apply (keeps_ret guest_typed)|apply (keeps_throw guest_typed)].
Qed.
(** A call of the host whose result is lawful, and what follows it. *)
Lemma typed_host {A B} (x : M X A) (P : A → Prop) (f : A → M GW B) :
  (∀ t a t', x t = (Ret a, t') → P a) → (∀ a, P a → keeps stays_typed (f a)) → keeps stays_typed (on_ext x ≫= f).
Proof.
  intros Hx Hf s Hs. rewrite run_bind. unfold on_ext, zoom. destruct (x (gw_ext s)) as [[a|e] t] eqn:Ht; [|exact Hs].
  apply (Hf a (Hx _ _ _ Ht)). exact Hs.
Qed.
End typed.

Ltac typed_step :=
  cbv zeta;
  lazymatch goal with
  | |- keeps ?rel (get ≫= _) => apply (keeps_get rel); intros ?
  | |- keeps ?rel (_ ≫= _) => apply (keeps_bind rel); [|intros ?]
  | |- keeps ?rel (mret _) => apply (keeps_ret rel)
  | |- keeps ?rel (throw _) => apply (keeps_throw rel)
  | |- keeps ?rel (unimplemented) => apply (keeps_throw rel)
  | |- keeps ?rel (lift _) => apply (keeps_lift rel)
  | |- keeps _ (on_ext _) => apply typed_ext
  | |- keeps _ (on_memory _) => apply typed_memory
  | |- keeps _ (on_guest _) => apply typed_guest
  | |- keeps _ (memoryArrayPtr _ _) => apply typed_check
  | |- keeps _ (getStringFromWasm _) => apply typed_getString
  | |- keeps _ (read_native _ _) => apply typed_read_native
  | |- keeps _ (read_ref _ _) => apply typed_read_ref
  | |- keeps _ (if ?b then _ else _) => destruct b
  | |- keeps _ (match ?x with _ => _ end) => destruct x
  end.

Section sockets.
Context `{Ho : Host} `{SH : SocketHost} `{Kr : Kernel} `{SL : !SyscallLaws} `{Sc : Scheduler}.

Lemma typed_setSockAddr a p : bytes (sa_data a) → keeps guest_typed (setSockAddr a p).
Proof.
  intros Ha. apply typed_write_ref. unfold sockaddr_bytes, bytes. apply Forall_app. split; [by apply bytes_le|].
  by apply Forall_take.
Qed.
Lemma typed_setSockLen l p : keeps guest_typed (setSockLen l p).
Proof. by apply typed_write_ref, bytes_le. Qed.
Lemma typed_getSockAddr p : keeps guest_typed (getSockAddr p).
Proof. unfold getSockAddr. by repeat typed_step. Qed.
Lemma typed_subCallArgs p n : keeps guest_typed (subCallArgs p n).
Proof. unfold subCallArgs. by repeat typed_step. Qed.

Lemma typed_getsockname_call argsPtr : keeps stays_typed (call_getsockname argsPtr).
Proof.
  unfold call_getsockname. typed_step; [apply typed_guest, typed_subCallArgs|].
  cbv zeta. typed_step; [apply typed_guest, typed_getSockAddr|].
  eapply (typed_host _ (λ x, bytes (sa_data x.1.2))); [intros t [[r a'] l] t'; apply getsockname_bytes|].
  intros [[r a'] l] Ha. typed_step; [by apply typed_guest, typed_setSockAddr|].
  typed_step; [apply typed_guest, typed_setSockLen|typed_step].
Qed.
Lemma typed_transfer call argsPtr : keeps stays_typed (call_transfer call argsPtr).
Proof.
  assert (∀ fd bufPtr n fl, keeps stays_typed ('(result, data) ← on_ext (host_recv fd n fl);
    on_guest (write_native bufPtr data) ;; mret result : M (GuestWith Net) Z)) as Hrecv.
  { intros fd bufPtr n fl. eapply (typed_host _ (λ x, bytes x.2)); [intros t [r bs] t'; apply recv_bytes|].
    intros [r bs] Hbs. typed_step; [by apply typed_guest, typed_write_native|typed_step]. }
  assert (∀ fd bufPtr n fl p l, keeps stays_typed (sockAddr ← on_guest (getSockAddr p);
    '(result, data, sockAddr, nativeAddrLen) ← on_ext (host_recvfrom fd n fl sockAddr);
    on_guest (write_native bufPtr data) ;; on_guest (setSockAddr sockAddr p) ;;
    on_guest (setSockLen nativeAddrLen l) ;; mret result : M (GuestWith Net) Z)) as Hfrom.
  { intros fd bufPtr n fl p l. typed_step; [apply typed_guest, typed_getSockAddr|].
    eapply (typed_host _ (λ x, bytes x.1.1.2 ∧ bytes (sa_data x.1.2)));
      [intros t [[[r bs] a'] l'] t'; apply recvfrom_bytes|].
    intros [[[r bs] a'] l'] [Hbs Ha]. typed_step; [by apply typed_guest, typed_write_native|].
    typed_step; [by apply typed_guest, typed_setSockAddr|]. typed_step; [apply typed_guest, typed_setSockLen|typed_step]. }
  unfold call_transfer. typed_step; [apply typed_guest, typed_subCallArgs|]. cbv zeta.
  typed_step; [repeat typed_step|]. typed_step; [|typed_step].
  assert (∀ fd bufPtr n fl p, keeps stays_typed (sockAddr ← on_guest (getSockAddr p);
    buf ← on_guest (read_native bufPtr n); on_ext (host_sendto fd buf fl sockAddr) : M (GuestWith Net) Z)) as Hto.
  { intros. typed_step; [apply typed_guest, typed_getSockAddr|]. by repeat typed_step. }
  destruct call; first [apply Hrecv|apply Hfrom|apply Hto|by repeat typed_step].
Qed.
Lemma typed_socketcall call argsPtr : keeps stays_typed (s__socketcall call argsPtr).
Proof.
  assert (∀ f : list Z → SockAddr → M (GuestWith Net) Z,
    (∀ args addr, keeps stays_typed (f args addr)) →
    keeps stays_typed (args ← on_guest (subCallArgs argsPtr 3);
      addr ← on_guest (getSockAddr (i32 (arg args 1))); f args addr)) as Haddr.
  { intros f Hf. typed_step; [apply typed_guest, typed_subCallArgs|].
    typed_step; [apply typed_guest, typed_getSockAddr|done]. }
  unfold s__socketcall. destruct (SocketCalls_of call) as [[]|]; try typed_step;
    try apply typed_transfer; try apply typed_getsockname_call.
  - unfold call_socket. typed_step; [apply typed_guest, typed_subCallArgs|]. by repeat typed_step.
  - apply (Haddr (λ args addr, on_ext (host_bind (i32 (arg args 0)) addr))). intros. apply typed_ext.
  - apply (Haddr (λ args addr, on_ext (host_connect (i32 (arg args 0)) addr))). intros. apply typed_ext.
Qed.
End sockets.

(** ** The handlers *)

Section handlers.
Context `{Ra : Rados} `{Ho : Host} `{SH : SocketHost} `{HC : HostClock} `{Kr : Kernel} `{SL : !SyscallLaws}
  `{Sc : Scheduler}.

Lemma within_write_time p sec sub : keeps (within g_mem [(p, 12)]) (write_time p sec sub).
Proof.
  unfold write_time. within_step; [within_step|].
  apply within_write_native; [by apply named_here|]. apply Forall_app. split; [by apply bytes_le|apply bytes_le32].
Qed.
Lemma within_gettime c p : keeps (gw_within [(p, 12)]) (s__clock_gettime c p).
Proof. unfold s__clock_gettime, on_clock. repeat within_step. apply within_write_time. Qed.
Lemma within_gettimeofday p q : keeps (gw_within [(p, 12)]) (s__gettimeofday p q).
Proof. unfold s__gettimeofday, on_clock. repeat within_step. apply within_write_time. Qed.
Lemma within_nanosleep p q : keeps (gw_within []) (s__nanosleep p q).
Proof. unfold s__nanosleep, on_sleep. by repeat within_step. Qed.

Lemma within_stat x p : keeps (within g_mem [(p, 144)]) (writeNativeStatToWasmStat x p).
Proof.
  unfold writeNativeStatToWasmStat. within_step; [within_step|]. apply within_fields. unfold stat_fields.
  rewrite !Forall_cons. cbn [fst snd]. split_and!; [..|apply Forall_nil_2];
    first [apply bytes_le32|by apply bytes_le|apply Exists_cons_hd; cbn [fst snd];
           rewrite ?length_le32; unfold le64; rewrite ?length_Z_to_little_endian; lia].
Qed.
Lemma within_lstat root p q : keeps (gw_within [(q, 144)]) (s__lstat64 root p q).
Proof. unfold s__lstat64, ask. repeat within_step. apply within_stat. Qed.
Lemma within_fstat fd p : keeps (gw_within [(p, 144)]) (s__fstat64 fd p).
Proof. unfold s__fstat64, ask. repeat within_step. apply within_stat. Qed.
Lemma within_membarrier a : keeps (gw_within []) (s__membarrier a).
Proof. unfold s__membarrier, ask. by repeat within_step. Qed.
Lemma within_getrandom p n fl : keeps (gw_within [(p, u64 n)]) (s__getrandom p n fl).
Proof.
  unfold s__getrandom. within_step; [repeat within_step|].
  eapply (within_host _ _ (λ x, bytes x.2 ∧ Z.of_nat (length x.2) ≤ u64 n)).
  { intros t [r bs] t'. pose proof (getrandom_bytes (u64 n) fl t) as Hb.
    pose proof (getrandom_length (u64 n) fl t ltac:(apply (wrapU_range 64); lia)) as Hl.
    destruct (host_getrandom _ _ _) as [[r' bs'] t'']. cbn in Hb, Hl. by intros [= <- <- <-]. }
  intros [r bs] [Hbs Hl]. within_step; [|within_step].
  apply within_guest, within_write_native; [by apply named_here|done].
Qed.

(** The last entry may begin at the end of the buffer. *)
Lemma within_dirents ds buf bufLen n :
  0 ≤ n → Forall (λ d, in_u 8 (d_type d) ∧ bytes (d_name d)) ds →
  keeps (within g_mem [(buf, u32 bufLen + wasmDirentSize)]) (copy_dirents ds buf bufLen n).
Proof.
  intros Hn Hds. revert n Hn. induction Hds as [|d ds [Ht Hd] _ IH]; intros n Hn; cbn [copy_dirents]; [within_step|].
  destruct (Z.ltb_spec (u32 bufLen) n); [within_step|]. apply (keeps_lift_bind (within g_mem _)). intros bs. unfold wasm_dirent64.
  destruct (7 <? _)%nat; [done|]. intros Hbs.
  assert (bs = le64 (u32 (d_ino d)) ++ [d_type d] ++ resize 7 0 (d_name d)) as -> by congruence.
  apply (keeps_bind (within g_mem _)); [|intros _; apply IH, (wrapU_range 32); lia].
  apply within_write_native.
  - apply Exists_cons_hd. cbn [fst snd]. rewrite !length_app, length_resize. unfold le64, wasmDirentSize.
    rewrite !Nat2Z.inj_add, length_Z_to_little_endian by lia. cbn. lia.
  - unfold bytes. rewrite !Forall_app. split_and!; [by apply bytes_le|by apply Forall_singleton|by apply Forall_resize].
Qed.
Lemma copy_dirents_nonneg ds buf bufLen n g k g' :
  0 ≤ n → copy_dirents ds buf bufLen n g = (Ret k, g') → 0 ≤ k.
Proof.
  revert n g. induction ds as [|d ds IH]; intros n g Hn; cbn [copy_dirents]; [by intros [= <- _]|].
  destruct (_ <? _); [done|]. intros (bs & g1 & _ & Hrun)%run_bind_inv.
  apply run_bind_inv in Hrun as ([] & g2 & _ & Hrun). apply (IH _ _ (proj1 (wrapU_range 32 _ ltac:(lia))) Hrun).
Qed.
Lemma within_getdents fuel fd p n : keeps (gw_within [(p, u32 n + wasmDirentSize)]) (s__getdents64 fuel fd p n).
Proof.
  unfold s__getdents64. within_step; [repeat within_step|].
  assert (0 ≤ 0) as Hk by done. revert Hk. generalize 0 at 2 3 as k. induction fuel as [|fuel IH]; intros k Hk;
    cbn [getdents_loop]; [within_step|]. within_step; [|within_step].
  eapply (within_host _ _ (λ r, match r with inl _ => True | inr ds =>
    Forall (λ d, in_u 8 (d_type d) ∧ bytes (d_name d)) ds end)).
  { intros t r t'. destruct (host_getdents64 fd t) as [[e|ds] t''] eqn:Hh; intros [= <- <-]; [done|].
    by apply (dirent_bytes _ _ _ _ Hh). }
  intros [e|ds] Hds; [within_step|]. destruct ds as [|d ds]; [within_step|].
  intros s. pose proof (within_guest _ _ (within_dirents (d :: ds) p n k Hk Hds) s) as Hw.
  rewrite run_bind. unfold on_guest, zoom in *. destruct (copy_dirents _ _ _ _ _) as [[j|e] g] eqn:Hc; [|exact Hw].
  etrans; [exact Hw|]. apply IH. by eapply copy_dirents_nonneg.
Qed.

(** ** Files and the environment *)

Section io.
Context `{WA : WasiABI} (conf : FaasmConfig) (rs : list (Z * Z)).
Abbreviation io_within := (within io_mem rs).

Lemma io_within_sys c : keeps io_within (io_sys c).
Proof. intros i. unfold io_sys, in_fs, zoom. by destruct (do_sys c _). Qed.
Lemma io_within_check a n size : keeps io_within (check_array a n size).
Proof. apply (keeps_get io_within). intros i. destruct (_ && _); [apply (keeps_ret io_within)|apply (keeps_throw io_within)]. Qed.
Lemma io_within_string a : keeps io_within (WasiIo.getStringFromWasm a).
Proof.
  apply (keeps_bind io_within); [apply io_within_check|]. intros _. apply (keeps_get io_within). intros i.
  destruct (until_nul _); [apply (keeps_ret io_within)|apply (keeps_throw io_within)].
Qed.
(** A path of a module, and a call of the host on it. *)
Lemma io_within_path {B} a (f : string → M Io B) :
  (∀ p, keeps io_within (f p)) → keeps io_within (getMaskedPathFromWasm conf a ≫= f).
Proof.
  intros Hf. apply (keeps_bind io_within); [|done].
  apply (keeps_bind io_within); [apply io_within_string|]. intros s. apply (keeps_ret io_within).
Qed.
Lemma io_within_call {B} c (f : Z * Z → M Io B) :
  (∀ r, keeps io_within (f r)) → keeps io_within (io_sys c ≫= f).
Proof. apply (keeps_bind io_within), io_within_sys. Qed.

Lemma io_within_unlink a : keeps io_within (s__unlink conf a).
Proof.
  apply io_within_path. intros p. apply io_within_call. intros [r e].
  destruct (r <? 0); [apply (keeps_throw io_within)|apply (keeps_ret io_within)].
Qed.
Lemma io_within_mkdir a b : keeps io_within (s__mkdir conf a b).
Proof.
  apply io_within_path. intros p. apply io_within_call. intros [r e].
  destruct (r <? 0); [apply (keeps_throw io_within)|apply (keeps_ret io_within)].
Qed.
Lemma io_within_access a b : keeps io_within (s__access conf a b).
Proof. apply io_within_path. intros p. apply io_within_call. intros [r e]. apply (keeps_ret io_within). Qed.
Lemma io_within_rename a b : keeps io_within (s__rename conf a b).
Proof.
  apply io_within_path. intros p. apply io_within_path. intros q. apply io_within_call. intros [r e].
  destruct (negb _); [apply (keeps_throw io_within)|apply (keeps_ret io_within)].
Qed.
End io.

Lemma io_within_readlink a b n : keeps (within io_mem [(b, n)]) (s__readlink a b n).
Proof.
  set (rel := within io_mem [(b, n)]).
  apply (keeps_bind rel); [apply io_within_string|]. intros p.
  intros i. rewrite run_bind. destruct (check_array b n 1 i) as [[[]|e] i1] eqn:Hck.
  2:{ pose proof (io_within_check [(b, n)] b n 1 i) as Hw. by rewrite Hck in Hw. }
  assert (0 ≤ n ∧ i1 = i) as [Hn ->].
  { revert Hck. unfold check_array. run_unfold. destruct (Z.leb_spec 0 n), (in_mem (io_mem i) b (n * 1)); try done.
    by intros [= <-]. }
  revert i Hck. intros i _. revert i. apply (keeps_get rel). intros i. cbv zeta.
  apply (keeps_bind rel); [apply io_within_sys|]. intros [r e].
  apply (keeps_bind rel); [|intros _; apply (keeps_ret rel)].
  intros j. unfold write_mem. run_unfold. destruct (mem_write _ _ _) as [m|] eqn:Hw; [|done].
  eapply mem_within_write; [| |exact Hw].
  - apply named_here. rewrite length_take. pose proof (readlink_length p n (w_host (fs_world (io_fs i))) Hn). lia.
  - unfold bytes. apply Forall_take, sys_data_bytes.
Qed.
Lemma env_within_affinity a b c : keeps (within env_mem [(c, FAKE_N_PROCESSORS)]) (s__sched_getaffinity a b c).
Proof.
  set (rel := within env_mem _). apply (keeps_bind rel); [|intros _; apply (keeps_ret rel)].
  intros i. unfold env_write. run_unfold. destruct (mem_write _ _ _) as [m|] eqn:Hw; [|done].
  refine (mem_within_write _ _ _ _ _ _ _ Hw); [by apply named_here|by repeat constructor].
Qed.
Lemma mem_within_futex host_stack a op v :
  length host_stack = 12%nat → bytes host_stack → keeps (within (λ m : Mem, m) [(u32 a, 16)]) (s__futex host_stack a op v).
Proof.
  intros Hlen Hst m. unfold s__futex. rewrite run_bind. cbn [get]. rewrite run_bind. unfold lift at 1.
  destruct (load_i32 m (u32 a)) as [x|e]; [|done]. destruct (_ || _); [|by destruct (_ || _)].
  rewrite run_bind. unfold lift. destruct (mem_write _ _ _) as [m'|e] eqn:Hw; [|done].
  apply (mem_within_write _ m (u32 a) (le32 (i32 (x + 1)) ++ host_stack)); [|apply Forall_app; split; [apply bytes_le32|done]|exact Hw].
  apply named_here. rewrite length_app, Hlen, Nat2Z.inj_add, length_le32. lia.
Qed.
End handlers.

(** ** The dispatch *)

Section dispatch.
Context `{Ra : Rados} `{Ho : Host} `{SH : SocketHost} `{HC : HostClock} `{Kr : Kernel} `{SL : !SyscallLaws} `{SoL : !SocketLaws}
  `{Sc : Scheduler} `{WA : WasiABI} `{E : MemoryEnv} {EL : MemoryEnvLaws E}
  (conf : FaasmConfig) (host_stack : list Z) (fuel : nat).

Abbreviation SS := (GuestWith Services).
Abbreviation SM := (M SS).
Abbreviation syscall_of := (executeSyscall conf host_stack fuel).

(** The ranges that a call may write, by its number and its arguments; the file status has
    144 bytes and a time twelve.  A listing may write one entry past its buffer, and a futex
    the twelve bytes that follow it. *)
Definition syscall_writes (m : Mem) (n a b c : Z) : list (Z * Z) :=
  if n =? 78 then [(a, 12)]
  else if n =? 85 then [(b, c)]
  else if n =? 102 then named_ranges m a b
  else if (n =? 196) || (n =? 197) then [(b, 144)]
  else if n =? 220 then [(b, u32 c + wasmDirentSize)]
  else if n =? 240 then [(u32 a, 16)]
  else if n =? 242 then [(c, FAKE_N_PROCESSORS)]
  else if n =? 265 then [(b, 12)]
  else if n =? 355 then [(a, u64 b)]
  else [].

Lemma within_part {X A} part set_part rs (x : M (GuestWith X) A) :
  keeps (gw_within rs) x → keeps (gw_within rs) (on_part part set_part x).
Proof.
  intros Hx s. unfold on_part, zoom. specialize (Hx (mkGuestWith (gw_guest s) (gw_module s) (part (gw_ext s)))).
  by destruct (x _).
Qed.
Lemma within_on_io {A} rs (x : M Io A) : keeps (within io_mem rs) x → keeps (gw_within rs) (on_io x).
Proof.
  intros Hx s. unfold on_io, zoom. match goal with |- context [x ?i] => specialize (Hx i); destruct (x i) end. by split.
Qed.
Lemma within_on_env {A} rs (x : M Env A) : keeps (within env_mem rs) x → keeps (gw_within rs) (on_env x).
Proof.
  intros Hx s. unfold on_env, zoom. match goal with |- context [x ?i] => specialize (Hx i); destruct (x i) end. by split.
Qed.
Lemma within_on_bytes {A} rs (x : M Mem A) : keeps (within (λ m : Mem, m) rs) x → keeps (gw_within rs) (on_bytes x).
Proof. intros Hx s. unfold on_bytes, zoom. specialize (Hx (guest_mem s)). destruct (x _). by split. Qed.
Lemma mmapMemory_end n m o m' :
  wf_module m → mmapMemory n m = (o, m') →
  size_of m ≤ size_of m' ∧ wf_module m' ∧ ∀ p, o = Ret p → p = size_of m.
Proof.
  intros Hwf Hrun. unfold mmapMemory in Hrun.
  assert (0 ≤ roundUpToWasmPageAligned (u32 n) < 2 ^ 63) as Hn.
  { unfold roundUpToWasmPageAligned, getNumberOfWasmPagesForBytes.
    match goal with |- 0 ≤ u32 ?x < _ => pose proof (wrapU_range 32 x ltac:(lia)) as Hr end. unfold in_u in Hr. lia. }
  apply growMemory_cases in Hrun as [(-> & _ & _ & Hsz & Hwf' & _)|(e & -> & -> & _)]; [|split_and!; done|done|done].
  split_and!; [lia|done|]. by intros p [= ->].
Qed.

(** Mapping adds to the end of the memory. *)
Lemma on_memory_extends {A} (x : M WasmModule A) (s : SS) :
  typed s → wf_module (gw_module s) →
  (∀ o m', x (gw_module s) = (o, m') → size_of (gw_module s) ≤ size_of m' ∧ wf_module m') →
  guest_mem s `prefix_of` guest_mem (on_memory x s).2.
Proof.
  intros [Hsz _] Hwf Hx. unfold on_memory. destruct (x (gw_module s)) as [o m'] eqn:Hm.
  destruct (Hx _ _ eq_refl) as [Hle Hwf']. cbn [snd guest_mem gw_guest g_mem set_mem].
  rewrite size_bytes in Hsz by done. rewrite size_bytes by done. unfold guest_mem, mem_size in *.
  rewrite resize_ge by lia. by eexists.
Qed.
Lemma mapped_extends length fd (s : SS) :
  typed s → wf_module (gw_module s) →
  guest_mem s `prefix_of` guest_mem (on_memory (mmapFile fd length) s).2 ∧
  ∀ p, (on_memory (mmapFile fd length) s).1 = Ret p → p = mem_size (guest_mem s).
Proof.
  intros Hs Hwf. pose proof Hs as [Hsz _]. rewrite size_bytes in Hsz by done.
  assert (∀ o m', mmapFile fd length (gw_module s) = (o, m') →
    size_of (gw_module s) ≤ size_of m' ∧ wf_module m' ∧ ∀ p, o = Ret p → p = size_of (gw_module s)) as Hfile.
  { intros o m'. unfold mmapFile. rewrite run_bind.
    destruct (mmapMemory length (gw_module s)) as [r m1] eqn:Hm. pose proof (mmapMemory_end _ _ _ _ Hwf Hm) as (Hle & Hwf1 & Hr).
    destruct r as [p|e]; [|by intros [= <- <-]]. rewrite run_bind. unfold lift.
    destruct (memory_ref p); [|by intros [= <- <-]].
    destruct (_ =? -1); [by intros [= <- <-]|]. destruct (negb _); [by intros [= <- <-]|].
    intros [= <- <-]. split_and!; [done|done|]. intros q [= <-]. by apply Hr. }
  split.
  - apply on_memory_extends; [done|done|]. intros o m' Hm. by destruct (Hfile _ _ Hm) as (? & ? & _).
  - intros p. unfold on_memory. destruct (mmapFile fd length (gw_module s)) as [o m'] eqn:Hm. cbn.
    intros ->. unfold guest_mem. rewrite Hsz. by apply (Hfile _ _ eq_refl).
Qed.
Lemma write_end_extends a bs (s : SS) m0 :
  m0 `prefix_of` guest_mem s → mem_size m0 ≤ a → m0 `prefix_of` guest_mem (on_guest (write_native a bs) s).2.
Proof.
  intros [k Hk] Ha. unfold on_guest, zoom, write_native. run_unfold.
  unfold guest_mem in Hk. destruct (mem_write _ _ _) as [m|] eqn:Hw; [|by exists k].
  cbn [guest_mem snd gw_guest g_mem set_mem]. exists (drop (length m0) m). symmetry.
  rewrite <- (take_drop (length m0) m) at 2. f_equal. apply list_eq. intros i.
  destruct (decide (i < length m0)%nat) as [Hi|Hi].
  - rewrite lookup_take_lt by done. unfold mem_size in Ha.
    rewrite (mem_write_lookup_out _ _ _ _ _ Hw), Hk, lookup_app_l by lia. done.
  - rewrite lookup_take_ge, lookup_ge_None_2 by lia. done.
Qed.

Lemma find_fd_pure fd i : (find_fd fd i).2 = i.
Proof.
  unfold find_fd, in_fs, zoom, getFileDescriptor. run_unfold.
  destruct (fileDescriptors (io_fs i) !! fd); by destruct i.
Qed.
Lemma mmap_extends a b c d e f (s : SS) :
  typed s → wf_module (gw_module s) → guest_mem s `prefix_of` guest_mem (s__mmap a b c d e f s).2.
Proof.
  intros Hs Hwf. unfold s__mmap, doMmap. destruct (negb _).
  - rewrite run_bind. unfold on_io at 1, zoom.
    match goal with |- context [find_fd e ?i] => set (i0 := i); pose proof (find_fd_pure e i0) as Hp;
      destruct (find_fd e i0) as [[fd|x] j] end; cbn [snd] in Hp; subst j; [|done].
    set (s1 := set_guest_mem _ _). assert (s1 = s) as ->.
    { unfold s1. destruct s as [[] ? [? [] ? ? ? ?]]. reflexivity. }
    rewrite run_bind. destruct (mapped_extends (u64 b) (u32 (linuxFd fd)) s Hs Hwf) as [Hpre Hp].
    destruct (on_memory _ s) as [[p|x] s2]; cbn [fst snd] in *; [|done].
    rewrite !run_bind. cbn [get]. rewrite run_bind.
    pose proof (write_end_extends p (sys_data (c_mmap (u32 (linuxFd fd)) (u64 b)) (w_host (fs_world (sv_files (gw_ext s2))))) s2 _ Hpre) as Hw.
    rewrite (Hp p eq_refl) in Hw at 1. specialize (Hw (Z.le_refl _)).
    by destruct (on_guest _ s2) as [[[]|x] s3].
  - rewrite run_bind. pose proof (on_memory_extends (mmapMemory (u64 b)) s Hs Hwf) as Hpre.
    destruct (on_memory _ s) as [[p|x] s2]; apply Hpre; intros o m' Hm; by destruct (mmapMemory_end _ _ _ _ Hwf Hm) as (? & ? & _).
Qed.
Lemma typed_within rs (s s' : SS) : gw_within rs s s' → typed s → typed s'.
Proof. intros [[[Hsz Hb] _] Hm] [H1 H2]. split; [by rewrite Hsz, Hm|by apply Hb]. Qed.
Lemma typed_mmap a b c d e f : keeps (stays_typed (X := Services)) (s__mmap a b c d e f).
Proof.
  set (rel := stays_typed). unfold s__mmap, doMmap. destruct (negb _).
  - apply (keeps_bind rel).
    + intros s. refine (typed_within [] _ _ (within_on_io [] (find_fd e) _ s)). intros i. by rewrite find_fd_pure.
    + intros fd. apply (keeps_bind rel); [apply typed_memory|]. intros p. apply (keeps_get rel). intros s.
      apply (keeps_bind rel); [|intros _; apply (keeps_ret rel)]. apply typed_guest, typed_write_native, sys_data_bytes.
  - apply (keeps_bind rel); [apply typed_memory|]. intros p. apply (keeps_ret rel).
Qed.
Lemma typed_socketcall_part call argsPtr : keeps (stays_typed (X := Services)) (on_network (s__socketcall call argsPtr)).
Proof.
  intros s Hs. unfold on_network, on_part, zoom.
  pose proof (typed_socketcall call argsPtr (mkGuestWith (gw_guest s) (gw_module s) (sv_net (gw_ext s))) Hs) as Ht.
  destruct (s__socketcall _ _ _) as [o t]. exact Ht.
Qed.

(** The handlers that write in the ranges of their calls. *)
Ltac handler := first
  [ lazymatch goal with |- keeps ?rel _ => first [apply (keeps_throw rel) | apply (keeps_ret rel)] end
  | apply within_on_bytes, mem_within_futex; done
  | apply within_on_env; first [apply env_within_affinity | apply (keeps_ret (within env_mem _))]
  | apply within_on_io; first [apply io_within_unlink | apply io_within_mkdir | apply io_within_access
      | apply io_within_rename | apply io_within_readlink]
  | apply within_part; first [apply within_gettime | apply within_gettimeofday | apply within_nanosleep
      | apply within_lstat | apply within_fstat | apply within_membarrier | apply within_getrandom
      | apply within_getdents ] ].

(** The calls other than mapping and sockets. *)
Lemma syscall_within m n a b c d e f g :
  length host_stack = 12%nat → bytes host_stack → n ∉ [90; 192; 102] →
  keeps (gw_within (syscall_writes m n a b c)) (syscall_of n a b c d e f g).
Proof.
  intros Hlen Hst Hn. assert (n ≠ 90 ∧ n ≠ 192 ∧ n ≠ 102) as (H90 & H192 & H102) by (split_and!; set_solver).
  unfold executeSyscall, syscall_writes. rewrite (proj2 (Z.eqb_neq n 90)), (proj2 (Z.eqb_neq n 192)), (proj2 (Z.eqb_neq n 102)) by done.
  repeat lazymatch goal with
  | |- keeps _ (if n =? ?k then _ else _) =>
      destruct (Z.eqb_spec n k) as [->|?]; [cbn [Z.eqb Pos.eqb orb]; handler|]
  | |- keeps ?rel (throw _) => apply (keeps_throw rel)
  end.
Qed.

Definition known_syscalls : list Z :=
  [1; 2; 10; 33; 38; 39; 78; 85; 90; 102; 114; 125; 162; 174; 175; 192; 196; 197; 219; 220; 224; 240; 242; 265; 355; 375].

(** A number without a handler changes nothing. *)
Lemma unknown_syscall n a b c d e f g (s : SS) :
  n ∉ known_syscalls → executeSyscall conf host_stack fuel n a b c d e f g s =
    (Throw (RuntimeError ("Unsupported system call: " +:+ to_string n)), s).
Proof.
  intros Hn. unfold executeSyscall.
  repeat lazymatch goal with |- (if n =? ?k then _ else _) _ = _ =>
    rewrite (proj2 (Z.eqb_neq n k)) by (intros ->; apply Hn; apply (bool_decide_unpack _); reflexivity) end.
  done.
Qed.

(** C4: whatever system call a module makes and however it ends, its memory keeps the size of
    its linear memory and holds bytes; it changes at most in the ranges that the call's number
    and arguments name (a listing may go one entry past its buffer, and a futex twelve bytes past
    its word), and mapping leaves all of it and adds to its end; and a number that no call has
    throws and changes nothing at all.  The host gives bytes, and no more than it was asked for. *)
Theorem syscall_confined n a b c d e f g (s s' : SS) o :
  length host_stack = 12%nat → bytes host_stack → typed s → wf_module (gw_module s) →
  executeSyscall conf host_stack fuel n a b c d e f g s = (o, s') →
  typed s' ∧
  (n ∉ [90; 192] → untouched (syscall_writes (guest_mem s) n a b c) (guest_mem s) (guest_mem s')) ∧
  (n ∈ [90; 192] → guest_mem s `prefix_of` guest_mem s') ∧
  (n ∉ known_syscalls → o = Throw (RuntimeError ("Unsupported system call: " +:+ to_string n)) ∧ s' = s).
Proof.
  intros Hlen Hst Hs Hwf Hrun.
  assert (n ∉ known_syscalls → o = Throw (RuntimeError ("Unsupported system call: " +:+ to_string n)) ∧ s' = s) as Hunknown
    by (intros Hn; rewrite unknown_syscall in Hrun by done; by injection Hrun as <- <-).
  destruct (decide (n ∈ [90; 192])) as [Hin|Hout].
  - assert (syscall_of n a b c d e f g = s__mmap a b c d e f) as Heq by (unfold executeSyscall; set_unfold; by destruct Hin as [->|[->|[]]]).
    rewrite Heq in Hrun. pose proof (typed_mmap a b c d e f s Hs) as Ht. pose proof (mmap_extends a b c d e f s Hs Hwf) as Hp.
    rewrite Hrun in Ht, Hp. by split_and!.
  - destruct (decide (n = 102)) as [->|H102].
    + change (on_network (s__socketcall a b) s = (o, s')) in Hrun.
      pose proof (typed_socketcall_part a b s Hs) as Ht. rewrite Hrun in Ht. split; [done|]. split; [|by split]. intros _.
      revert Hrun. unfold on_network, on_part, zoom.
      pose proof (socketcall_within a b (mkGuestWith (gw_guest s) (gw_module s) (sv_net (gw_ext s)))) as Hc.
      destruct (s__socketcall a b _) as [o1 t]. intros [= <- <-]. exact Hc.
    + assert (n ∉ [90; 192; 102]) as Hn by (rewrite !not_elem_of_cons in *; tauto).
      pose proof (syscall_within (guest_mem s) n a b c d e f g Hlen Hst Hn s) as Hw. rewrite Hrun in Hw.
      split; [by apply (typed_within _ _ _ Hw)|]. split; [|by split]. intros _. exact (proj2 (proj1 Hw)).
Qed.

(** The generic entry point serves one call only. *)
Lemma syscall_gettid n argsPtr (s : SS) :
  (∃ r, (syscall conf host_stack fuel n argsPtr s).1 = Ret r) ↔ n = 224.
Proof.
  unfold syscall. destruct (Z.eqb_spec n 224) as [->|Hn]; split; try done.
  - intros _. by exists FAKE_TID.
  - by intros [r Hr].
Qed.
End dispatch.

(** * A concrete host *)

Lemma bytes_byte x n : in_u 8 x → bytes (replicate n x).
Proof. intros Hx. by apply Forall_replicate. Qed.
#[export] Instance demo_syscall_laws : @SyscallLaws demo_host demo_sockets demo_kernel.
Proof.
  assert (bytes [1; 2; 3]) as Hdata by by repeat constructor.
  split; cbn.
  - intros c k. apply Forall_nil_2.
  - done.
  - intros fd n fl t r bs t' [= _ <- _]. by apply Forall_take.
  - intros fd n fl a t r bs a' l t' [= _ <- <- _ _]. split; [by apply Forall_take|by apply bytes_byte].
  - intros fd a t r a' l t' [= _ <- _ _]. by apply bytes_byte.
  - intros n fl t. induction (Z.to_nat n); by constructor.
  - intros n fl t Hn. rewrite repeat_length. lia.
  - intros fd [|k] ds t' [= <- _]; repeat constructor; by cbn.
Qed.

(** A module without memory, on a host with an empty directory tree. *)
Definition demo_services : @Services demo_rados demo_host demo_sockets demo_clock demo_kernel :=
  mkServices (@mkFS demo_rados demo_host 6 ∅ (@mkWorld demo_rados demo_host demo_s3 ∅ ∅ [])) (0, 0)
    (mkEnv [] [] 0 0 ∅) [] [] 3%nat.
Definition demo_sys_state := mkGuestWith (gw_guest demo_kernel_state) (gw_module demo_kernel_state) demo_services.

(** Four random bytes, into a memory of a page. *)
Definition demo_page_state : @GuestWith demo_scheduler (@Services demo_rados demo_host demo_sockets demo_clock demo_kernel) :=
  mkGuestWith (set_mem (replicate 65536 0) (gw_guest demo_sys_state)) (set_memPages 1 (gw_module demo_sys_state)) demo_services.

Lemma syscall_confined_witness :
  let s' := (executeSyscall (E := demo_env) demo_conf (replicate 12 170) 1 355 0 4 0 0 0 0 0 demo_page_state).2 in
  typed s' ∧ untouched [(0, 4)] (replicate 65536 0) (guest_mem s').
Proof.
  intros s'.
  destruct (syscall_confined (E := demo_env) (EL := demo_laws) demo_conf (replicate 12 170) 1 355 0 4 0 0 0 0 0 demo_page_state s'
    (executeSyscall (E := demo_env) demo_conf (replicate 12 170) 1 355 0 4 0 0 0 0 0 demo_page_state).1) as (Ht & Hu & _).
  - reflexivity.
  - by apply bytes_byte.
  - split; [|by apply bytes_byte]. unfold mem_size. cbn [gw_guest demo_page_state g_mem set_mem].
    rewrite length_replicate. reflexivity.
  - split; vm_compute; discriminate.
  - apply surjective_pairing.
  - split; [exact Ht|]. apply Hu. by apply (bool_decide_unpack _).
Defined.
