(* ===== verification/Config.v ===== *)
(** The configuration of a worker, read from the variables of its environment
    (src/conf/FaasmConfig.cpp), the code generation target of the host, and what
    both mean for the code that is generated and loaded. *)

From Stdlib Require Import Ascii.
From S2P Require Import Prelude Text S3 Host FileLoader Codegen.

(** * Data *)

Inductive VirtualMemoryArenaMode : Type := Arena_Default | Arena_Uffd.

(** faabric's [getEnvVar(name, default)], absl's [StrSplit(s, ';', SkipEmpty())],
    and the doubles that [std::stod] reads. *)
Class Environment := {
  getEnvVar : string → string → string;
  StrSplit : string → list string;
  Float : Type;
  stod : string → outcome Float }.

(** The whole of [conf::FaasmConfig]. *)
Record Conf `{Environment} := mkConfig {
  cf_hostType : string; cf_vmArenaMode : VirtualMemoryArenaMode; cf_cgroupMode : string;
  cf_netNsMode : string; cf_maxNetNs : Z; cf_pythonPreload : string; cf_captureStdout :
  string; cf_chainedCallTimeout : Z; cf_wasmVm : string; cf_codegenTargets : list
  CodegenTargetSpec; cf_functionDir : string; cf_objectFileDir : string; cf_runtimeFilesDir
  : string; cf_sharedFilesDir : string; cf_s3Bucket : string; cf_s3Host : string; cf_s3Port
  : string; cf_s3User : string; cf_s3Password : string; cf_offload_cpu_threshold : Float;
  cf_offload_ram_threshold : Float; cf_offload_load_avg_threshold : Float;
  cf_attestationProviderUrl : string }.
Arguments mkConfig {_}.

Section config.
Context `{Environment}.

(** Assignments, in the groups in which they are made. *)
Definition set_hostType (x_hostType : string) (c : Conf) : Conf :=
  mkConfig x_hostType (cf_vmArenaMode c) (cf_cgroupMode c) (cf_netNsMode c) (cf_maxNetNs c)
    (cf_pythonPreload c) (cf_captureStdout c) (cf_chainedCallTimeout c) (cf_wasmVm c)
    (cf_codegenTargets c) (cf_functionDir c) (cf_objectFileDir c) (cf_runtimeFilesDir c)
    (cf_sharedFilesDir c) (cf_s3Bucket c) (cf_s3Host c) (cf_s3Port c) (cf_s3User c)
    (cf_s3Password c) (cf_offload_cpu_threshold c) (cf_offload_ram_threshold c)
    (cf_offload_load_avg_threshold c) (cf_attestationProviderUrl c).
Definition set_vmArenaMode (x_vmArenaMode : VirtualMemoryArenaMode) (c : Conf) : Conf :=
  mkConfig (cf_hostType c) x_vmArenaMode (cf_cgroupMode c) (cf_netNsMode c) (cf_maxNetNs c)
    (cf_pythonPreload c) (cf_captureStdout c) (cf_chainedCallTimeout c) (cf_wasmVm c)
    (cf_codegenTargets c) (cf_functionDir c) (cf_objectFileDir c) (cf_runtimeFilesDir c)
    (cf_sharedFilesDir c) (cf_s3Bucket c) (cf_s3Host c) (cf_s3Port c) (cf_s3User c)
    (cf_s3Password c) (cf_offload_cpu_threshold c) (cf_offload_ram_threshold c)
    (cf_offload_load_avg_threshold c) (cf_attestationProviderUrl c).
Definition set_modes (x_cgroupMode : string) (x_netNsMode : string) (c : Conf) : Conf :=
  mkConfig (cf_hostType c) (cf_vmArenaMode c) x_cgroupMode x_netNsMode (cf_maxNetNs c)
    (cf_pythonPreload c) (cf_captureStdout c) (cf_chainedCallTimeout c) (cf_wasmVm c)
    (cf_codegenTargets c) (cf_functionDir c) (cf_objectFileDir c) (cf_runtimeFilesDir c)
    (cf_sharedFilesDir c) (cf_s3Bucket c) (cf_s3Host c) (cf_s3Port c) (cf_s3User c)
    (cf_s3Password c) (cf_offload_cpu_threshold c) (cf_offload_ram_threshold c)
    (cf_offload_load_avg_threshold c) (cf_attestationProviderUrl c).
Definition set_maxNetNs (x_maxNetNs : Z) (c : Conf) : Conf :=
  mkConfig (cf_hostType c) (cf_vmArenaMode c) (cf_cgroupMode c) (cf_netNsMode c) x_maxNetNs
    (cf_pythonPreload c) (cf_captureStdout c) (cf_chainedCallTimeout c) (cf_wasmVm c)
    (cf_codegenTargets c) (cf_functionDir c) (cf_objectFileDir c) (cf_runtimeFilesDir c)
    (cf_sharedFilesDir c) (cf_s3Bucket c) (cf_s3Host c) (cf_s3Port c) (cf_s3User c)
    (cf_s3Password c) (cf_offload_cpu_threshold c) (cf_offload_ram_threshold c)
    (cf_offload_load_avg_threshold c) (cf_attestationProviderUrl c).
Definition set_runtime (x_pythonPreload : string) (x_captureStdout : string) (x_wasmVm : string) (c : Conf) : Conf :=
  mkConfig (cf_hostType c) (cf_vmArenaMode c) (cf_cgroupMode c) (cf_netNsMode c) (cf_maxNetNs c)
    x_pythonPreload x_captureStdout (cf_chainedCallTimeout c) x_wasmVm (cf_codegenTargets c)
    (cf_functionDir c) (cf_objectFileDir c) (cf_runtimeFilesDir c) (cf_sharedFilesDir c)
    (cf_s3Bucket c) (cf_s3Host c) (cf_s3Port c) (cf_s3User c) (cf_s3Password c)
    (cf_offload_cpu_threshold c) (cf_offload_ram_threshold c) (cf_offload_load_avg_threshold c)
    (cf_attestationProviderUrl c).
Definition set_codegenTargets (x_codegenTargets : list CodegenTargetSpec) (c : Conf) : Conf :=
  mkConfig (cf_hostType c) (cf_vmArenaMode c) (cf_cgroupMode c) (cf_netNsMode c) (cf_maxNetNs c)
    (cf_pythonPreload c) (cf_captureStdout c) (cf_chainedCallTimeout c) (cf_wasmVm c)
    x_codegenTargets (cf_functionDir c) (cf_objectFileDir c) (cf_runtimeFilesDir c)
    (cf_sharedFilesDir c) (cf_s3Bucket c) (cf_s3Host c) (cf_s3Port c) (cf_s3User c)
    (cf_s3Password c) (cf_offload_cpu_threshold c) (cf_offload_ram_threshold c)
    (cf_offload_load_avg_threshold c) (cf_attestationProviderUrl c).
Definition set_chainedCallTimeout (x_chainedCallTimeout : Z) (c : Conf) : Conf :=
  mkConfig (cf_hostType c) (cf_vmArenaMode c) (cf_cgroupMode c) (cf_netNsMode c) (cf_maxNetNs c)
    (cf_pythonPreload c) (cf_captureStdout c) x_chainedCallTimeout (cf_wasmVm c)
    (cf_codegenTargets c) (cf_functionDir c) (cf_objectFileDir c) (cf_runtimeFilesDir c)
    (cf_sharedFilesDir c) (cf_s3Bucket c) (cf_s3Host c) (cf_s3Port c) (cf_s3User c)
    (cf_s3Password c) (cf_offload_cpu_threshold c) (cf_offload_ram_threshold c)
    (cf_offload_load_avg_threshold c) (cf_attestationProviderUrl c).
Definition set_dirs (x_functionDir : string) (x_objectFileDir : string) (x_runtimeFilesDir : string) (x_sharedFilesDir : string) (c : Conf) : Conf :=
  mkConfig (cf_hostType c) (cf_vmArenaMode c) (cf_cgroupMode c) (cf_netNsMode c) (cf_maxNetNs c)
    (cf_pythonPreload c) (cf_captureStdout c) (cf_chainedCallTimeout c) (cf_wasmVm c)
    (cf_codegenTargets c) x_functionDir x_objectFileDir x_runtimeFilesDir x_sharedFilesDir
    (cf_s3Bucket c) (cf_s3Host c) (cf_s3Port c) (cf_s3User c) (cf_s3Password c)
    (cf_offload_cpu_threshold c) (cf_offload_ram_threshold c) (cf_offload_load_avg_threshold c)
    (cf_attestationProviderUrl c).
Definition set_s3 (x_s3Bucket : string) (x_s3Host : string) (x_s3Port : string) (x_s3User : string) (x_s3Password : string) (c : Conf) : Conf :=
  mkConfig (cf_hostType c) (cf_vmArenaMode c) (cf_cgroupMode c) (cf_netNsMode c) (cf_maxNetNs c)
    (cf_pythonPreload c) (cf_captureStdout c) (cf_chainedCallTimeout c) (cf_wasmVm c)
    (cf_codegenTargets c) (cf_functionDir c) (cf_objectFileDir c) (cf_runtimeFilesDir c)
    (cf_sharedFilesDir c) x_s3Bucket x_s3Host x_s3Port x_s3User x_s3Password
    (cf_offload_cpu_threshold c) (cf_offload_ram_threshold c) (cf_offload_load_avg_threshold c)
    (cf_attestationProviderUrl c).
Definition set_cpu_threshold (x_offload_cpu_threshold : Float) (c : Conf) : Conf :=
  mkConfig (cf_hostType c) (cf_vmArenaMode c) (cf_cgroupMode c) (cf_netNsMode c) (cf_maxNetNs c)
    (cf_pythonPreload c) (cf_captureStdout c) (cf_chainedCallTimeout c) (cf_wasmVm c)
    (cf_codegenTargets c) (cf_functionDir c) (cf_objectFileDir c) (cf_runtimeFilesDir c)
    (cf_sharedFilesDir c) (cf_s3Bucket c) (cf_s3Host c) (cf_s3Port c) (cf_s3User c)
    (cf_s3Password c) x_offload_cpu_threshold (cf_offload_ram_threshold c)
    (cf_offload_load_avg_threshold c) (cf_attestationProviderUrl c).
Definition set_ram_threshold (x_offload_ram_threshold : Float) (c : Conf) : Conf :=
  mkConfig (cf_hostType c) (cf_vmArenaMode c) (cf_cgroupMode c) (cf_netNsMode c) (cf_maxNetNs c)
    (cf_pythonPreload c) (cf_captureStdout c) (cf_chainedCallTimeout c) (cf_wasmVm c)
    (cf_codegenTargets c) (cf_functionDir c) (cf_objectFileDir c) (cf_runtimeFilesDir c)
    (cf_sharedFilesDir c) (cf_s3Bucket c) (cf_s3Host c) (cf_s3Port c) (cf_s3User c)
    (cf_s3Password c) (cf_offload_cpu_threshold c) x_offload_ram_threshold
    (cf_offload_load_avg_threshold c) (cf_attestationProviderUrl c).
Definition set_load_threshold (x_offload_load_avg_threshold : Float) (c : Conf) : Conf :=
  mkConfig (cf_hostType c) (cf_vmArenaMode c) (cf_cgroupMode c) (cf_netNsMode c) (cf_maxNetNs c)
    (cf_pythonPreload c) (cf_captureStdout c) (cf_chainedCallTimeout c) (cf_wasmVm c)
    (cf_codegenTargets c) (cf_functionDir c) (cf_objectFileDir c) (cf_runtimeFilesDir c)
    (cf_sharedFilesDir c) (cf_s3Bucket c) (cf_s3Host c) (cf_s3Port c) (cf_s3User c)
    (cf_s3Password c) (cf_offload_cpu_threshold c) (cf_offload_ram_threshold c)
    x_offload_load_avg_threshold (cf_attestationProviderUrl c).
Definition set_attestationProviderUrl (x_attestationProviderUrl : string) (c : Conf) : Conf :=
  mkConfig (cf_hostType c) (cf_vmArenaMode c) (cf_cgroupMode c) (cf_netNsMode c) (cf_maxNetNs c)
    (cf_pythonPreload c) (cf_captureStdout c) (cf_chainedCallTimeout c) (cf_wasmVm c)
    (cf_codegenTargets c) (cf_functionDir c) (cf_objectFileDir c) (cf_runtimeFilesDir c)
    (cf_sharedFilesDir c) (cf_s3Bucket c) (cf_s3Host c) (cf_s3Port c) (cf_s3User c)
    (cf_s3Password c) (cf_offload_cpu_threshold c) (cf_offload_ram_threshold c)
    (cf_offload_load_avg_threshold c) x_attestationProviderUrl.

(** ** Reading the variables *)

Definition getIntParam (name defaultValue : string) : outcome Z := stoi (getEnvVar name defaultValue).

(** [pairStr.find_first_of(':')] splits a target at its first colon. *)
Fixpoint split_colon (s : string) : option (string * string) :=
  match s with
  | EmptyString => None
  | String a s' =>
      if Ascii.eqb a ":"%char then Some (EmptyString, s')
      else match split_colon s' with Some (x, y) => Some (String a x, y) | None => None end
  end.

Definition bad_targets : exn := RuntimeError
  ("Invalid format for CODEGEN_TARGETS, expected format: " +:+
   "arch:cpu;x86_64:skylake;aarch64:cortex-a53;aarch64:" +:+ "thunderx2t99").

(** The loop over the targets appends to [codegenTargets]. *)
Fixpoint add_targets (pairs : list string) : M Conf unit :=
  match pairs with
  | [] => mret ()
  | pairStr :: rest =>
      match split_colon pairStr with
      | None => throw bad_targets
      | Some (a, c) =>
          modify (λ s, set_codegenTargets (cf_codegenTargets s ++ [mkTarget a c]) s) ;;
          add_targets rest
      end
  end.

Definition initialise : M Conf unit :=
  modify (set_hostType (getEnvVar "HOST_TYPE" "default")) ;;
  (let vmam := getEnvVar "VM_ARENA_MODE" "default" in
   if bool_decide (vmam = "" ∨ vmam = "default") then modify (set_vmArenaMode Arena_Default)
   else if bool_decide (vmam = "uffd") then modify (set_vmArenaMode Arena_Uffd)
   else throw (RuntimeError "Invalid VM_ARENA_MODE value")) ;;
  modify (set_modes (getEnvVar "CGROUP_MODE" "on") (getEnvVar "NETNS_MODE" "off")) ;;
  maxNetNs ← lift (getIntParam "MAX_NET_NAMESPACES" "100");
  modify (set_maxNetNs maxNetNs) ;;
  modify (set_runtime (getEnvVar "PYTHON_PRELOAD" "off") (getEnvVar "CAPTURE_STDOUT" "off")
            (getEnvVar "WASM_VM" "wavm")) ;;
  let rawCodegenTargets := getEnvVar "CODEGEN_TARGETS" "" in
  modify (set_codegenTargets []) ;;
  when (negb (bool_decide (rawCodegenTargets = ""))) (add_targets (StrSplit rawCodegenTargets)) ;;
  timeout ← lift (getIntParam "CHAINED_CALL_TIMEOUT" "25000");
  modify (set_chainedCallTimeout timeout) ;;
  let faasmLocalDir := getEnvVar "FAASM_LOCAL_DIR" "/usr/local/faasm" in
  modify (set_dirs (faasmLocalDir +:+ "/" +:+ "wasm") (faasmLocalDir +:+ "/" +:+ "object")
            (faasmLocalDir +:+ "/" +:+ "runtime_root") (faasmLocalDir +:+ "/" +:+ "shared")) ;;
  modify (set_s3 (getEnvVar "S3_BUCKET" "faasm") (getEnvVar "S3_HOST" "minio") (getEnvVar "S3_PORT" "9000")
            (getEnvVar "S3_USER" "minio") (getEnvVar "S3_PASSWORD" "minio123")) ;;
  cpuT ← lift (stod (getEnvVar "OFFLOAD_CPU_THRESHOLD" "0.7"));
  modify (set_cpu_threshold cpuT) ;;
  ramT ← lift (stod (getEnvVar "OFFLOAD_RAM_THRESHOLD" "0.9"));
  modify (set_ram_threshold ramT) ;;
  loadT ← lift (stod (getEnvVar "OFFLOAD_LOAD_AVG_FACTOR_THRESHOLD" "0.75"));
  modify (set_load_threshold loadT) ;;
  modify (set_attestationProviderUrl (getEnvVar "AZ_ATTESTATION_PROVIDER_URL" "")).

Definition reset : M Conf unit := initialise.

(** What storage and code generation read of it. *)
Definition storage_conf (c : Conf) : FaasmConfig :=
  mkConf (cf_functionDir c) (cf_objectFileDir c) (cf_runtimeFilesDir c) (cf_sharedFilesDir c) (cf_s3Bucket c)
    (cf_wasmVm c) (cf_codegenTargets c) (cf_captureStdout c).

(** ** The target of the host

    [detected] is what the architecture of the build gives: x86_64 and skylake, or
    aarch64 and cortex-a53. *)
Definition x86_64_target : CodegenTargetSpec := mkTarget "x86_64" "skylake".
Definition aarch64_target : CodegenTargetSpec := mkTarget "aarch64" "cortex-a53".

Definition determineNativeCodegenTarget (detected : CodegenTargetSpec) (targets : list CodegenTargetSpec)
    : CodegenTargetSpec :=
  match list_find (λ t, arch t = arch detected) targets with
  | Some (_, t) => mkTarget (arch detected) (cpu t)
  | None => detected
  end.

(** [nativeCodegenTarget] keeps the first answer. *)
Definition nativeCodegenTarget (detected : CodegenTargetSpec) (c : Conf) : M (option CodegenTargetSpec) CodegenTargetSpec :=
  ts ← get;
  match ts with
  | Some t => mret t
  | None =>
      let t := determineNativeCodegenTarget detected (cf_codegenTargets c) in
      put (Some t) ;; mret t
  end.
End config.

(** * What initialising gives *)

(** Splitting on semicolons, without empty pieces, undoes joining with them. *)
Definition without (a : ascii) (s : string) : Prop := a ∉ String.list_ascii_of_string s.
Class EnvironmentLaws `{Environment} : Prop :=
  split_join : ∀ parts, Forall (λ p, p ≠ "" ∧ without ";"%char p) parts →
    StrSplit (String.concat ";" parts) = parts.

Section properties.
Context `{Environment}.

(** The targets that a list of pairs adds before it ends or throws. *)
Fixpoint parse_targets (pairs : list string) : outcome unit * list CodegenTargetSpec :=
  match pairs with
  | [] => (Ret (), [])
  | p :: rest =>
      match split_colon p with
      | None => (Throw bad_targets, [])
      | Some (a, c) => let '(o, ts) := parse_targets rest in (o, mkTarget a c :: ts)
      end
  end.

Lemma add_targets_run pairs (c : Conf) :
  add_targets pairs c =
    ((parse_targets pairs).1, set_codegenTargets (cf_codegenTargets c ++ (parse_targets pairs).2) c).
Proof.
  revert c. induction pairs as [|p rest IH]; intros c; [cbn; rewrite app_nil_r; by destruct c|].
  cbn [add_targets parse_targets]. destruct (split_colon p) as [[a x]|]; [|cbn; rewrite app_nil_r; by destruct c].
  rewrite run_bind. unfold modify at 1. rewrite IH. destruct (parse_targets rest) as [o ts].
  cbn. by rewrite <- app_assoc.
Qed.

(** The configuration as a function of the environment alone. *)
Definition configured_arena : outcome VirtualMemoryArenaMode :=
  let vmam := getEnvVar "VM_ARENA_MODE" "default" in
  if bool_decide (vmam = "" ∨ vmam = "default") then Ret Arena_Default
  else if bool_decide (vmam = "uffd") then Ret Arena_Uffd
  else Throw (RuntimeError "Invalid VM_ARENA_MODE value").
Definition configured_targets : outcome (list CodegenTargetSpec) :=
  let raw := getEnvVar "CODEGEN_TARGETS" "" in
  if bool_decide (raw = "") then Ret []
  else let '(o, ts) := parse_targets (StrSplit raw) in match o with Ret _ => Ret ts | Throw e => Throw e end.
Definition local_dir (name : string) : string :=
  getEnvVar "FAASM_LOCAL_DIR" "/usr/local/faasm" +:+ "/" +:+ name.

Definition configured : outcome Conf :=
  arena ← configured_arena;
  namespaces ← getIntParam "MAX_NET_NAMESPACES" "100";
  targets ← configured_targets;
  timeout ← getIntParam "CHAINED_CALL_TIMEOUT" "25000";
  cpuT ← stod (getEnvVar "OFFLOAD_CPU_THRESHOLD" "0.7");
  ramT ← stod (getEnvVar "OFFLOAD_RAM_THRESHOLD" "0.9");
  loadT ← stod (getEnvVar "OFFLOAD_LOAD_AVG_FACTOR_THRESHOLD" "0.75");
  Ret (mkConfig (getEnvVar "HOST_TYPE" "default") arena (getEnvVar "CGROUP_MODE" "on")
    (getEnvVar "NETNS_MODE" "off") namespaces (getEnvVar "PYTHON_PRELOAD" "off")
    (getEnvVar "CAPTURE_STDOUT" "off") timeout (getEnvVar "WASM_VM" "wavm") targets
    (local_dir "wasm") (local_dir "object") (local_dir "runtime_root") (local_dir "shared")
    (getEnvVar "S3_BUCKET" "faasm") (getEnvVar "S3_HOST" "minio") (getEnvVar "S3_PORT" "9000")
    (getEnvVar "S3_USER" "minio") (getEnvVar "S3_PASSWORD" "minio123") cpuT ramT loadT
    (getEnvVar "AZ_ATTESTATION_PROVIDER_URL" "")).

(** Initialising and resetting give the configuration of the environment,
    whatever it was before, or throw what is wrong with it first. *)
Theorem initialise_configured (c : Conf) :
  match configured with
  | Ret c' => initialise c = (Ret (), c')
  | Throw e => (initialise c).1 = Throw e
  end.
Proof.
  unfold configured, initialise, configured_arena, configured_targets, modify, lift, when, outcome_bind, mret, M_ret,
    mbind, M_bind, throw.
  destruct (bool_decide (getEnvVar "VM_ARENA_MODE" "default" = "" ∨ _));
    [|destruct (bool_decide (getEnvVar "VM_ARENA_MODE" "default" = "uffd")); [|done]].
  all: destruct (getIntParam "MAX_NET_NAMESPACES" "100") as [ns|]; [|done].
  all: destruct (bool_decide (getEnvVar "CODEGEN_TARGETS" "" = "")); cbn [negb];
    [|rewrite add_targets_run; destruct (parse_targets _) as [[[]|] ts]; cbn [fst snd]; [|done]].
  all: destruct (getIntParam "CHAINED_CALL_TIMEOUT" "25000") as [timeout|]; [|done].
  all: destruct (stod (getEnvVar "OFFLOAD_CPU_THRESHOLD" "0.7")) as [x|]; [|done].
  all: destruct (stod (getEnvVar "OFFLOAD_RAM_THRESHOLD" "0.9")) as [y|]; [|done].
  all: destruct (stod (getEnvVar "OFFLOAD_LOAD_AVG_FACTOR_THRESHOLD" "0.75")) as [z|]; [|done].
  all: reflexivity.
Qed.

(** ** Targets *)

Definition print_target (t : CodegenTargetSpec) : string := arch t +:+ ":" +:+ cpu t.
Definition target_ok (t : CodegenTargetSpec) : Prop :=
  without ":"%char (arch t) ∧ without ";"%char (arch t) ∧ without ";"%char (cpu t).

Lemma split_colon_print a c : without ":"%char a → split_colon (a +:+ ":" +:+ c) = Some (a, c).
Proof.
  unfold without. induction a as [|x a IH]; [done|]. cbn [String.list_ascii_of_string].
  intros Hn. rewrite not_elem_of_cons in Hn. destruct Hn as [Hx Hn].
  change (String x a +:+ ":" +:+ c) with (String x (a +:+ ":" +:+ c)). cbn [split_colon].
  destruct (Ascii.eqb_spec x ":"%char); [congruence|]. by rewrite IH.
Qed.

Lemma parse_print ts : Forall target_ok ts → parse_targets (print_target <$> ts) = (Ret (), ts).
Proof.
  intros Hall. induction Hall as [|t ts (Ha & _ & _) _ IH]; [done|].
  rewrite fmap_cons. cbn [parse_targets]. unfold print_target at 1. rewrite split_colon_print by done.
  rewrite IH. by destruct t.
Qed.

Lemma without_app a s t : without a (s +:+ t) ↔ without a s ∧ without a t.
Proof.
  unfold without. assert (String.list_ascii_of_string (s +:+ t) =
    String.list_ascii_of_string s ++ String.list_ascii_of_string t) as ->.
  { induction s as [|x s IH]; [done|]. change (x :: String.list_ascii_of_string (s +:+ t) =
      (x :: String.list_ascii_of_string s) ++ String.list_ascii_of_string t). by rewrite IH. }
  rewrite elem_of_app. tauto.
Qed.

Lemma print_target_piece t : target_ok t → print_target t ≠ "" ∧ without ";"%char (print_target t).
Proof.
  intros (_ & Ha & Hc). unfold print_target. split.
  - intros Heq. apply (f_equal str_size) in Heq. rewrite !str_size_app in Heq.
    pose proof (str_size_nonneg (arch t)). pose proof (str_size_nonneg (cpu t)).
    change (str_size ":") with 1 in Heq. change (str_size "") with 0 in Heq. lia.
  - rewrite !without_app. split; [done|]. split; [|done]. intros Hin%list_elem_of_singleton. discriminate Hin.
Qed.

(** ** The target of the host *)

Lemma native_arch d ts : arch (determineNativeCodegenTarget d ts) = arch d.
Proof. unfold determineNativeCodegenTarget. by destruct (list_find _ ts) as [[i t]|]. Qed.

Lemma native_listed d ts t :
  t ∈ ts → arch t = arch d → determineNativeCodegenTarget d ts ∈ ts.
Proof.
  intros Hin Harch. unfold determineNativeCodegenTarget.
  destruct (list_find (λ t, arch t = arch d) ts) as [[i t']|] eqn:Hfind.
  - apply list_find_Some in Hfind as (Hi & Ha & _). rewrite <- Ha. destruct t'. by eapply list_elem_of_lookup_2.
  - apply list_find_None in Hfind. rewrite Forall_forall in Hfind. by destruct (Hfind t Hin).
Qed.
End properties.

(** * Code for the hosts of the configuration *)

Section generated.
Context `{Environment} `{!EnvironmentLaws} `{Rados} `{Host} `{Compilers} `{!RadosLaws} `{!HostLaws}.

(** C15: The code that a host looks for is generated.  When CODEGEN_TARGETS lists
    targets as [arch:cpu] separated by semicolons, among them one of the
    architecture of the host, then those are the targets of every configuration
    that is initialised or reset, and a clean code generation that returns has
    stored, under the native target of that host, the code that is generated for
    it from the wasm of the function. *)
Theorem native_code_generated ts detected (c0 c : Conf) msg w w' :
  ts ≠ [] → Forall target_ok ts → getEnvVar "CODEGEN_TARGETS" "" = String.concat ";" (print_target <$> ts) →
  reset c0 = (Ret (), c) → cf_wasmVm c = "wavm" → (∃ t, t ∈ ts ∧ arch t = arch detected) →
  let conf := storage_conf c in
  NoDup (codegen_keys msg ts) → codegenForFunction conf msg true w = (Ret (), w') →
  cf_codegenTargets c = ts ∧
  let native := determineNativeCodegenTarget detected (cf_codegenTargets c) in
  arch native = arch detected ∧
  ∃ wasm code, (loadFunctionWasm conf true msg w).1 = Ret wasm ∧
    doCodegen conf wasm native (user msg +:+ "/" +:+ function msg) = Ret code ∧
    stored conf (code_path msg native) w' = Some code.
Proof.
  intros Hne Hok Henv Hreset Hvm (t & Ht & Harch) conf Hnd Hgen.
  assert (cf_codegenTargets c = ts) as Hts.
  { pose proof (initialise_configured c0) as Hc. unfold reset in Hreset. rewrite Hreset in Hc.
    destruct configured as [c'|e] eqn:Hconf; [|done]. injection Hc as ->. revert Hconf.
    unfold configured, configured_targets. rewrite Henv.
    rewrite bool_decide_eq_false_2.
    - rewrite split_join by (apply Forall_fmap; eapply Forall_impl; [exact Hok|apply print_target_piece]).
      rewrite parse_print by done. unfold mbind, outcome_bind.
      destruct configured_arena; [|done]. destruct (getIntParam _ _); [|done].
      destruct (getIntParam "CHAINED_CALL_TIMEOUT" _); [|done].
      destruct (stod (getEnvVar "OFFLOAD_CPU_THRESHOLD" _)); [|done].
      destruct (stod (getEnvVar "OFFLOAD_RAM_THRESHOLD" _)); [|done].
      destruct (stod (getEnvVar "OFFLOAD_LOAD_AVG_FACTOR_THRESHOLD" _)); [|done].
      by intros [= <-].
    - destruct ts as [|t0 ts0]; [done|]. apply Forall_cons in Hok as [Hok0 _].
      intros Heq. destruct (print_target_piece t0 Hok0) as [Hp _]. apply Hp.
      rewrite fmap_cons in Heq. destruct (print_target t0); [done|]. by destruct (print_target <$> ts0). }
  split; [done|]. rewrite Hts. split; [apply native_arch|].
  destruct (codegenForFunction_clean conf msg w w') as (wasm & Hload & _ & Hall);
    [done|cbn; by rewrite Hts|done|].
  cbn [codegenTargets conf storage_conf] in Hall. rewrite Hts, Forall_forall in Hall.
  destruct (Hall _ (native_listed detected ts t Ht Harch)) as (code & Hcode & Hst & _).
  by exists wasm, code.
Qed.

(** Without targets nothing is generated: the call returns, and the store is as
    it was. *)
Theorem no_targets_no_code (c : Conf) msg clean w w' :
  cf_codegenTargets c = [] → codegenForFunction (storage_conf c) msg clean w = (Ret (), w') →
  ∀ q, stored (storage_conf c) q w' = stored (storage_conf c) q w.
Proof.
  intros Hnone. unfold codegenForFunction. intros (bytes & w1 & Hload & Hrun)%run_bind_inv q.
  destruct (decide (bytes = [])); [done|]. cbn [codegenTargets storage_conf] in Hrun. rewrite Hnone in Hrun.
  injection Hrun as <-. apply (loadFunctionWasm_keeps (storage_conf c)) in Hload.
  unfold stored. by rewrite Hload.
Qed.
End generated.

(** * A concrete environment *)

(** The pieces of a string between its semicolons. *)
Fixpoint pieces (s : string) : list string :=
  match s with
  | EmptyString => [EmptyString]
  | String a s' =>
      if Ascii.eqb a ";"%char then EmptyString :: pieces s'
      else match pieces s' with p :: ps => String a p :: ps | [] => [String a EmptyString] end
  end.

Lemma pieces_prefix p rest :
  without ";"%char p → pieces (p +:+ ";" +:+ rest) = p :: pieces rest ∧ pieces p = [p].
Proof.
  unfold without. induction p as [|a p IH]; [done|]. cbn [String.list_ascii_of_string].
  rewrite not_elem_of_cons. intros [Ha Hp]. destruct (IH Hp) as [IH1 IH2].
  change (String a p +:+ ";" +:+ rest) with (String a (p +:+ ";" +:+ rest)). cbn [pieces].
  destruct (Ascii.eqb_spec a ";"%char); [congruence|]. by rewrite IH1, IH2.
Qed.

Definition demo_vars : gmap string string := {["CODEGEN_TARGETS" := "x86_64:skylake;aarch64:a72"]}.

#[export] Instance demo_environment : Environment := {
  getEnvVar name default := match demo_vars !! name with Some v => v | None => default end;
  StrSplit s := filter (λ p, p ≠ "") (pieces s);
  Float := string;
  stod s := if starts_with_digit s then Ret s else Throw (InvalidArgument "stod") }.

#[export] Instance demo_environment_laws : EnvironmentLaws.
Proof.
  intros parts Hall. cbn [StrSplit demo_environment]. induction Hall as [|p parts [Hne Hp] Hall IH]; [done|].
  destruct parts as [|q parts].
  - cbn [String.concat]. destruct (pieces_prefix p "" Hp) as [_ ->]. by rewrite filter_cons_True.
  - change (String.concat ";" (p :: q :: parts)) with (p +:+ ";" +:+ String.concat ";" (q :: parts)).
    destruct (pieces_prefix p (String.concat ";" (q :: parts)) Hp) as [-> _].
    by rewrite filter_cons_True, IH.
Qed.

Lemma without_check a s :
  forallb (λ x, negb (Ascii.eqb x a)) (String.list_ascii_of_string s) = true → without a s.
Proof.
  intros Hall Hin. rewrite forallb_forall in Hall. apply list_elem_of_In in Hin. specialize (Hall _ Hin).
  by rewrite Ascii.eqb_refl in Hall.
Qed.

(** The configuration before it is initialised: nothing reads it. *)
Definition demo_raw : Conf :=
  mkConfig "" Arena_Uffd "" "" 0 "" "" 0 "" [mkTarget "m68k" "68000"] "" "" "" "" "" "" "" "" "" "" "" "" "".
Definition demo_configured : Conf := (initialise demo_raw).2.

Lemma demo_codegen_run :
  codegenForFunction (storage_conf demo_configured) demo_func true demo_world =
  (Ret (), (codegenForFunction (storage_conf demo_configured) demo_func true demo_world).2).
Proof. apply run_fst. vm_compute. reflexivity. Qed.

Lemma demo_native :
  determineNativeCodegenTarget aarch64_target [mkTarget "x86_64" "skylake"; mkTarget "aarch64" "a72"] =
  mkTarget "aarch64" "a72".
Proof. reflexivity. Qed.

Lemma native_code_generated_witness :
  let conf := storage_conf demo_configured in
  let w' := (codegenForFunction conf demo_func true demo_world).2 in
  determineNativeCodegenTarget aarch64_target (cf_codegenTargets demo_configured) = mkTarget "aarch64" "a72" ∧
  ∃ wasm code, (loadFunctionWasm conf true demo_func demo_world).1 = Ret wasm ∧
    stored conf (code_path demo_func (mkTarget "aarch64" "a72")) w' = Some code.
Proof.
  intros conf w'.
  destruct (native_code_generated [mkTarget "x86_64" "skylake"; mkTarget "aarch64" "a72"] aarch64_target
    demo_raw demo_configured demo_func demo_world w') as (Hts & _ & wasm & code & Hload & _ & Hst).
  - discriminate.
  - constructor; [|constructor; [|constructor]]; (split; [|split]); apply without_check; reflexivity.
  - reflexivity.
  - apply (run_fst reset demo_raw). vm_compute. reflexivity.
  - reflexivity.
  - exists (mkTarget "aarch64" "a72"). split; [right; left|reflexivity].
  - apply (bool_decide_unpack _). vm_compute. exact I.
  - exact demo_codegen_run.
  - rewrite Hts in Hst. rewrite demo_native in Hst. split; [rewrite Hts; exact demo_native|].
    exists wasm, code. exact (conj Hload Hst).
Defined.
