(* ===== verification/Faaslet.v ===== *)
(** Faaslets, the executors of the worker (src/faaslet/Faaslet.cpp): a module of
    the configured runtime, run on isolated threads; and the factory of the
    scheduler.  The module is an interface that the three runtimes implement. *)

From S2P Require Import Prelude Text WasmBytes WasmMemory Host ModuleCache DynLink Chaining Lifecycle Isolation.

(** * The interface of a module

    What [wasm::WasmModule] promises a faaslet; modules share the worker's caches
    and snapshots. *)
Class FaasletModule (Msg Req Shared Mod : Type) := {
  fm_isBound : Mod → bool;
  fm_executeTask : Z → Z → Req → M (Shared * Mod) Z;
  fm_reset : Msg → string → M (Shared * Mod) unit;
  fm_bindToFunction : Msg → M (Shared * Mod) unit;
  fm_registerResetSnapshot : Msg → M (Shared * Mod) string;
  fm_getMemoryView : Mod → list Z;
  fm_setMemorySize : Z → M (Shared * Mod) unit }.

Inductive WasmVm : Type := VmSgx | VmWamr | VmWavm.

(** A faaslet: its module, until it is shut down softly, and the key of its reset
    snapshot.  Its namespace is with the isolation of the host. *)
Record Faaslet {Mod : Type} := mkFaaslet { module : option Mod; localResetSnapshotKey : string }.
Arguments Faaslet : clear implicits.
Arguments mkFaaslet {_} _ _.

Record Faaslets {Shared Mod : Type} := mkFaaslets {
  fs_iso : Isolation; fs_shared : Shared; fs_faaslets : gmap Z (Faaslet Mod) }.
Arguments Faaslets : clear implicits.
Arguments mkFaaslets {_ _} _ _ _.

Section faaslet.
Context {Msg Req Shared Mod : Type} `{!FaasletModule Msg Req Shared Mod}.
(** The new modules of the runtimes; whether the build has SGX; the configured
    runtime; the isolation of the host. *)
Context (newModule : WasmVm → Mod) (sgxDisabled : bool) (wasmVm : string)
  (iso : IsoConfig) (can_open : string → bool) (setns : string → Z).
Abbreviation FM := (M (Faaslets Shared Mod)).

Definition on_iso {A} (x : M Isolation A) : FM A :=
  zoom fs_iso (λ i s, mkFaaslets i (fs_shared s) (fs_faaslets s)) x.
Definition set_faaslet (f : Z) (x : Faaslet Mod) (s : Faaslets Shared Mod) : Faaslets Shared Mod :=
  mkFaaslets (fs_iso s) (fs_shared s) (<[f := x]> (fs_faaslets s)).

(** An operation on the module of a faaslet: the pointer is not checked. *)
Definition on_faaslet_module {A} (f : Z) (x : M (Shared * Mod) A) : FM A := λ s,
  match fs_faaslets s !! f with
  | Some fa =>
      match module fa with
      | Some m =>
          let '(o, (sh, m)) := x (fs_shared s, m) in
          (o, mkFaaslets (fs_iso s) sh (<[f := mkFaaslet (Some m) (localResetSnapshotKey fa)]> (fs_faaslets s)))
      | None => (Throw (Undefined "null module"), s)
      end
  | None => (Throw (Undefined "no such faaslet"), s)
  end.

(** ** Operations *)

(** The constructor. *)
Definition chosenModule : outcome Mod :=
  if bool_decide (wasmVm = "sgx") then
    if sgxDisabled then Throw (RuntimeError "SGX support disabled in config") else Ret (newModule VmSgx)
  else if bool_decide (wasmVm = "wamr") then Ret (newModule VmWamr)
  else if bool_decide (wasmVm = "wavm") then Ret (newModule VmWavm)
  else Throw (RuntimeError "Unrecognised wasm VM").

(** [FaasletFactory::createExecutor] *)
Definition createExecutor (f : Z) : FM unit :=
  m ← lift chosenModule;
  modify (set_faaslet f (mkFaaslet (Some m) "")).

Definition executeTask (f thread threadPoolIdx msgIdx : Z) (req : Req) : FM Z :=
  on_iso (isolateThread iso can_open setns f thread) ;;
  on_faaslet_module f (fm_executeTask threadPoolIdx msgIdx req).

Definition reset (f : Z) (msg : Msg) : FM unit :=
  isBound ← on_faaslet_module f (λ s, (Ret (fm_isBound s.2), s));
  s ← get;
  let key := match fs_faaslets s !! f with Some fa => localResetSnapshotKey fa | None => "" end in
  if isBound : bool then on_faaslet_module f (fm_reset msg key)
  else
    on_faaslet_module f (fm_bindToFunction msg) ;;
    if bool_decide (wasmVm = "wavm") then
      key ← on_faaslet_module f (fm_registerResetSnapshot msg);
      modify (λ s, match fs_faaslets s !! f with
        | Some fa => set_faaslet f (mkFaaslet (module fa) key) s
        | None => s
        end)
    else mret ().

Definition softShutdown (f : Z) : FM unit :=
  modify (λ s, match fs_faaslets s !! f with
    | Some fa => set_faaslet f (mkFaaslet None (localResetSnapshotKey fa)) s
    | None => s
    end).

Definition faaslet_shutdown (f parentPid : Z) : FM unit := on_iso (shutdown iso can_open setns f parentPid).

Definition getMemoryView (f : Z) : FM (list Z) := on_faaslet_module f (λ s, (Ret (fm_getMemoryView s.2), s)).
Definition setMemorySize (f newSize : Z) : FM unit := on_faaslet_module f (fm_setMemorySize newSize).
Definition getLocalResetSnapshotKey (f : Z) : FM string :=
  gets (λ s, match fs_faaslets s !! f with Some fa => localResetSnapshotKey fa | None => "" end).

(** [preloadPythonRuntime] makes one call of a Python function that does nothing:
    the user and function of the message, and its Python user and function. *)
Definition preloadPythonRuntime (pythonPreload : string) (callFunction : string → string → string → string → FM unit)
    : FM unit :=
  if negb (bool_decide (pythonPreload = "on")) then mret ()
  else callFunction "python" "py_func" "python" "noop".

(** * Reachable states *)

(** What the scheduler does with faaslets, however it ends: [f] is made under a
    number of its own, and destroyed after its shutdown. *)
Inductive fa_step : Faaslets Shared Mod → Faaslets Shared Mod → Prop :=
  | fa_create f s : fs_faaslets s !! f = None → fa_step s (createExecutor f s).2
  | fa_execute f t i j req s : fa_step s (executeTask f t i j req s).2
  | fa_reset f msg s : fa_step s (reset f msg s).2
  | fa_soft f s : fa_step s (softShutdown f s).2
  | fa_resize f n s : fa_step s (setMemorySize f n s).2
  | fa_destroy f pid s : fa_step s
      (let s' := (faaslet_shutdown f pid s).2 in
       mkFaaslets (destroy f (fs_iso s')) (fs_shared s') (delete f (fs_faaslets s'))).

Definition fa_start (sh : Shared) : Faaslets Shared Mod := mkFaaslets iso_start sh ∅.
Definition fa_reachable (sh : Shared) (s : Faaslets Shared Mod) : Prop := rtc fa_step (fa_start sh) s.

(** Operations on the module leave the isolation alone. *)
Lemma on_module_iso {A} f (x : M (Shared * Mod) A) s : fs_iso (on_faaslet_module f x s).2 = fs_iso s.
Proof.
  unfold on_faaslet_module. destruct (fs_faaslets s !! f) as [fa|]; [|done].
  destruct (module fa); [|done]. by destruct (x _) as [o [sh m']].
Qed.

Lemma reset_iso f msg s : fs_iso (reset f msg s).2 = fs_iso s.
Proof.
  assert (keeps (λ s s', fs_iso s' = fs_iso s) (reset f msg)) as Hk; [|apply Hk].
  assert (PreOrder (λ s s' : Faaslets Shared Mod, fs_iso s' = fs_iso s)) as Hpre by (split; [done|]; intros ???; congruence).
  unfold reset. set (R := λ s s' : Faaslets Shared Mod, fs_iso s' = fs_iso s) in *.
  apply (keeps_bind R); [intros ?; apply on_module_iso|]. intros b. apply (keeps_get R). intros s0.
  destruct b; [intros ?; apply on_module_iso|].
  apply (keeps_bind R); [intros ?; apply on_module_iso|]. intros _.
  destruct (bool_decide _); [|apply (keeps_ret R)].
  apply (keeps_bind R); [intros ?; apply on_module_iso|]. intros k. apply (keeps_modify R).
  intros s1. by destruct (fs_faaslets s1 !! f).
Qed.

(** The isolation of a reachable state is reachable. *)
Lemma fa_step_iso s s' : fa_step s s' → rtc (iso_step iso can_open setns) (fs_iso s) (fs_iso s').
Proof.
  intros Hstep. destruct Hstep as [f s Hf|f t i j req s|f msg s|f s|f n s|f pid s].
  - unfold createExecutor. rewrite run_bind. unfold lift. destruct chosenModule; apply rtc_refl.
  - unfold executeTask. rewrite run_bind. unfold on_iso, zoom.
    pose proof (iso_exec iso can_open setns f t (fs_iso s)) as Hexec.
    destruct (isolateThread iso can_open setns f t (fs_iso s)) as [[[]|e] i']; cbn [snd] in *;
      rewrite ?on_module_iso; by apply rtc_once.
  - rewrite reset_iso. apply rtc_refl.
  - cbn. destruct (fs_faaslets s !! f); apply rtc_refl.
  - unfold setMemorySize. rewrite on_module_iso. apply rtc_refl.
  - unfold faaslet_shutdown, on_iso, zoom.
    pose proof (iso_shutdown iso can_open setns f pid (fs_iso s)) as Hshut.
    destruct (shutdown iso can_open setns f pid (fs_iso s)) as [o i']. by apply rtc_once.
Qed.

Lemma fa_reachable_iso sh s : fa_reachable sh s → iso_reachable iso can_open setns (fs_iso s).
Proof.
  unfold fa_reachable, iso_reachable. intros Hsteps.
  assert (fs_iso (fa_start sh) = iso_start) as <- by done.
  induction Hsteps as [|s0 s1 s2 Hstep _ IH]; [apply rtc_refl|].
  etransitivity; [by apply fa_step_iso|exact IH].
Qed.

(** ** Tasks *)

(** A thread that joined a namespace. *)
Definition netns_path (n : string) : string := path_append "/var/run/netns" n.
Lemma join_ret n i i' :
  net_off iso = false → ns_addCurrentThread iso can_open setns n i = (Ret (), i') →
  setns (netns_path n) = 0 ∧ iso_calls i' = iso_calls i ++ i_open_ns (netns_path n) :: [i_setns (netns_path n); i_close_ns (netns_path n)].
Proof.
  intros Hnet. unfold ns_addCurrentThread, joinNamespace. rewrite Hnet. fold (netns_path n). rewrite run_bind. cbn [iso_do modify].
  destruct (can_open (netns_path n)); [|done]. cbn [negb]. rewrite run_bind. cbn [iso_do modify]. rewrite run_bind. cbn [iso_do modify].
  destruct (Z.eqb_spec (setns (netns_path n)) 0) as [Hs|]; [|done]. intros [= <-]. split; [done|]. cbn. by rewrite <- !app_assoc.
Qed.

Lemma isolateThread_ret f t i i' :
  isolateThread iso can_open setns f t i = (Ret (), i') →
  t ∈ isolated i' ∧ (t ∉ isolated i → ∃ n, members i' !! f = Some n ∧
    (net_off iso = false → setns (netns_path n) = 0 ∧ i_setns (netns_path n) ∈ iso_calls i')).
Proof.
  unfold isolateThread. intros (i0 & i1 & [= <- <-] & Hrun)%run_bind_inv.
  destruct (decide (t ∈ isolated i)) as [Hin|Hnin]; [by injection Hrun as <-|].
  apply run_bind_inv in Hrun as ([] & i2 & _ & Hrun). apply run_bind_inv in Hrun as (n & i3 & _ & Hrun).
  apply run_bind_inv in Hrun as ([] & i4 & [= <-] & Hrun). apply run_bind_inv in Hrun as ([] & i5 & Hjoin & [= <-]).
  cbn [isolated members set_isolated iso_calls]. split; [set_solver|]. intros _. exists n.
  destruct (join_frame iso can_open setns (path_append "/var/run/netns" n) (set_member f n i3)) as (_ & _ & _ & Hm).
  pose proof Hjoin as Hj. unfold ns_addCurrentThread in Hj. rewrite Hj in Hm. cbn [snd] in Hm. rewrite Hm.
  cbn. rewrite lookup_insert_eq. split; [done|]. intros Hnet.
  destruct (join_ret _ _ _ Hnet Hjoin) as [Hs ->]. split; [done|]. rewrite elem_of_app. right. do 2 constructor.
Qed.

Lemma on_module_others {A} f (x : M (Shared * Mod) A) s g :
  g ≠ f → fs_faaslets (on_faaslet_module f x s).2 !! g = fs_faaslets s !! g.
Proof.
  intros Hne. unfold on_faaslet_module. destruct (fs_faaslets s !! f) as [fa|]; [|done].
  destruct (module fa); [|done]. destruct (x _) as [o [sh m']]. cbn. by apply lookup_insert_ne.
Qed.

(** What a faaslet holds in a reachable state is its own. *)
Lemma member_owned sh s f n :
  netNsMode iso ≠ "off" → fa_reachable sh s → members (fs_iso s) !! f = Some n →
  n ∉ namespaces (fs_iso s) ∧ ∀ g, members (fs_iso s) !! g = Some n → g = f.
Proof.
  intros Hnet Hreach Hn. apply fa_reachable_iso in Hreach.
  destruct (iso_reachable_inv iso can_open setns Hnet _ Hreach) as [Hd _ _].
  unfold held in Hd. apply NoDup_app in Hd as (_ & Hdis & Hd).
  assert (n ∈ (map_to_list (members (fs_iso s))).*2) as Hnm
    by (apply list_elem_of_fmap; exists (f, n); by rewrite elem_of_map_to_list).
  split; [intros Hpool; by apply (Hdis n)|]. intros g Hg. exact (values_distinct _ g f n Hd Hg Hn).
Qed.

(** C13: A task runs isolated or not at all.  In every reachable state of the worker, if
    the thread of a task cannot be isolated the task throws that failure, and no module nor
    what modules share has changed; otherwise the module of the faaslet is what runs, on a
    thread that is isolated, and no other faaslet's module changes.  With network namespaces
    turned on (they are off by default), the namespace that the task's faaslet holds is one that no
    other faaslet holds nor can claim, and a thread's first task has joined the one its faaslet
    holds. *)
Theorem task_runs_isolated sh s f t i j req fa m :
  fa_reachable sh s → fs_faaslets s !! f = Some fa → module fa = Some m →
  let '(o, s') := executeTask f t i j req s in
  match (isolateThread iso can_open setns f t (fs_iso s)).1 with
  | Throw e => o = Throw e ∧ fs_faaslets s' = fs_faaslets s ∧ fs_shared s' = fs_shared s
  | Ret _ =>
      (∃ m', fm_executeTask i j req (fs_shared s, m) = (o, (fs_shared s', m')) ∧
         fs_faaslets s' !! f = Some (mkFaaslet (Some m') (localResetSnapshotKey fa))) ∧
      (∀ g, g ≠ f → fs_faaslets s' !! g = fs_faaslets s !! g) ∧
      t ∈ isolated (fs_iso s') ∧
      (netNsMode iso ≠ "off" →
        (∀ n, members (fs_iso s') !! f = Some n → (n ∉ namespaces (fs_iso s')) ∧
           ∀ g, members (fs_iso s') !! g = Some n → g = f) ∧
        (t ∉ isolated (fs_iso s) → ∃ n, members (fs_iso s') !! f = Some n ∧
           setns (netns_path n) = 0 ∧ i_setns (netns_path n) ∈ iso_calls (fs_iso s')))
  end.
Proof.
  intros Hreach Hf Hm. pose proof (fa_execute f t i j req s) as Hstep.
  assert (fa_reachable sh (executeTask f t i j req s).2) as Hr' by (eapply rtc_r; [exact Hreach|exact Hstep]).
  clear Hstep. unfold executeTask in *. rewrite run_bind in *. unfold on_iso, zoom in *.
  pose proof (isolateThread_ret f t (fs_iso s)) as Hret.
  destruct (isolateThread iso can_open setns f t (fs_iso s)) as [[[]|e] i1]; [|done].
  cbn [snd fst] in *. destruct (Hret _ eq_refl) as [Hin Hmember].
  set (s1 := mkFaaslets i1 (fs_shared s) (fs_faaslets s)) in *.
  pose proof (λ g Hg, on_module_others f (fm_executeTask i j req) s1 g Hg) as Hothers.
  pose proof (on_module_iso f (fm_executeTask i j req) s1) as Hiso.
  destruct (on_faaslet_module f (fm_executeTask i j req) s1) as [o s'] eqn:Hrun. cbn [snd fs_iso s1] in *.
  split.
  { unfold on_faaslet_module in Hrun. cbn [fs_faaslets fs_shared s1] in Hrun. rewrite Hf, Hm in Hrun.
    destruct (fm_executeTask i j req (fs_shared s, m)) as [o' [sh' m']]. injection Hrun as <- <-.
    exists m'. split; [done|]. cbn. by rewrite lookup_insert_eq. }
  split; [done|]. split; [by rewrite Hiso|]. intros Hnet.
  split; [intros n Hn; exact (member_owned sh s' f n Hnet Hr' Hn)|].
  intros Hnew. rewrite Hiso. destruct (Hmember Hnew) as (n & Hn & Hjoin). exists n. split; [done|].
  apply Hjoin. unfold net_off. by apply bool_decide_eq_false_2.
Qed.
End faaslet.

(** * Faaslets with WAVM

    The modules of the life of a module implement the interface, what is shared
    being the cache of modules; [Faaslet::reset] is then the reset modelled there
    for one worker. *)
Section wavm.
Context `{E : MemoryEnv} `{W : Wavm} {L : LinkEnv} {Reg FS Vars : Type} {RI : Registry Reg} {FI : ModuleFiles FS}
  {SS : StateStore} {WE : WasmEngine Reg FS Vars} {Req : Type}.
Context (ZYGOTE_FUNC_NAME : string) (funcToString : Message → bool → string) (unbound : Linker (Rest Reg FS Vars)).
Abbreviation Mod_ := (Linker (Rest Reg FS Vars)).
Abbreviation Work := (@Worker W L Reg FS Vars SS).
Abbreviation Cache := (WAVMModuleCache Mod_ (@Lifecycle.Shared Reg SS)).
Context (exec : Z → Z → Req → M (Cache * Mod_) Z) (resize : Z → M (Cache * Mod_) unit).

(** An operation of a worker on the cache and one module. *)
Definition of_worker {A} (key : string) (x : M Work A) : M (Cache * Mod_) A := λ '(c, m),
  let '(o, w) := x (mkWorker c m key) in (o, (wk_cache w, wk_module w)).

#[local] Instance wavm_faaslet : FaasletModule Message Req Cache Mod_ := {|
  fm_isBound m := isBound (lk_registry m);
  fm_executeTask := exec;
  fm_reset msg key := of_worker key (Lifecycle.reset ZYGOTE_FUNC_NAME funcToString unbound msg key);
  fm_bindToFunction msg := of_worker "" (bindToFunction ZYGOTE_FUNC_NAME funcToString unbound msg);
  fm_registerResetSnapshot msg := of_worker "" (registerReset funcToString msg);
  fm_getMemoryView m := Lifecycle.bytes (lk_registry m);
  fm_setMemorySize := resize |}.

(** Operations that do not know the key of the worker. *)
Definition keyless {A} (x : M Work A) : Prop := ∀ c m k,
  x (mkWorker c m k) = (let '(o, w) := x (mkWorker c m "") in (o, mkWorker (wk_cache w) (wk_module w) k)).

Lemma keyless_ret {A} (a : A) : keyless (mret a).
Proof. done. Qed.
Lemma keyless_throw {A} e : keyless (throw e : M Work A).
Proof. done. Qed.
Lemma keyless_bind {A B} (x : M Work A) (g : A → M Work B) :
  keyless x → (∀ a, keyless (g a)) → keyless (x ≫= g).
Proof.
  intros Hx Hg c m k. rewrite !run_bind, Hx, (Hx c m "").
  destruct (x (mkWorker c m "")) as [[a|e] [c' m' k']]; [|done]. cbn [wk_cache wk_module]. apply Hg.
Qed.
Lemma keyless_get {A} (g : Mod_ → M Work A) : (∀ m, keyless (g m)) → keyless (w ← get; g (wk_module w)).
Proof. intros Hg c m k. exact (Hg m c m k). Qed.
Lemma keyless_with_module {A} (x : M (@Lifecycle.Shared Reg SS * Mod_) A) : keyless (with_module x).
Proof. intros c m k. unfold with_module. cbn. by destruct (x _) as [o [sh m']]. Qed.
Lemma keyless_with_cache {A} (x : M Cache A) : keyless (with_cache x).
Proof. intros c m k. unfold with_cache, zoom. cbn. by destruct (x c). Qed.
Lemma keyless_for {A} (g : A → M Work unit) l : (∀ a, keyless (g a)) → keyless (for_each l g).
Proof. intros Hg. induction l as [|a l IH]; [apply keyless_ret|]. apply keyless_bind; [apply Hg|by intros _]. Qed.

Lemma keyless_bindToFunction msg : keyless (bindToFunction ZYGOTE_FUNC_NAME funcToString unbound msg).
Proof.
  apply keyless_bind; [apply keyless_with_module|intros _].
  apply keyless_bind; [apply keyless_with_cache|intros cached; apply keyless_with_module].
Qed.
Lemma keyless_registerReset msg : keyless (registerReset funcToString msg).
Proof. apply (keyless_get (λ m, with_cache (registerResetSnapshot _ _ _ _ m msg))). intros m. apply keyless_with_cache. Qed.
Lemma keyless_reset msg key : keyless (Lifecycle.reset ZYGOTE_FUNC_NAME funcToString unbound msg key).
Proof.
  apply keyless_bind; [apply keyless_with_module|intros _].
  refine (keyless_get (λ m, if negb (isBound (lk_registry m)) then mret ()
    else if negb (bool_decide (user msg = boundUser m)) then throw (AssertFailed "msg.user() == boundUser")
    else if negb (bool_decide (function msg = boundFunction m)) then throw (AssertFailed "msg.function() == boundFunction")
    else _) _). intros m.
  destruct (isBound _); [|apply keyless_ret]. cbn [negb].
  destruct (bool_decide (user msg = _)); [|apply keyless_throw]. cbn [negb].
  destruct (bool_decide (function msg = _)); [|apply keyless_throw]. cbn [negb].
  apply keyless_bind; [apply keyless_with_cache|intros cached].
  apply keyless_bind; [apply keyless_for; intros iv; apply keyless_with_module|intros _].
  apply keyless_bind; [apply keyless_with_module|intros z; apply keyless_with_module].
Qed.

(** A keyless operation on the module of a faaslet is the operation of a worker. *)
Lemma on_worker_module {A} f key m (x : M Work A) s c k :
  keyless x → fs_shared s = c → fs_faaslets s !! f = Some (mkFaaslet (Some m) key) →
  on_faaslet_module f (of_worker k x) s =
  (let '(o, w) := x (mkWorker c m key) in
   (o, mkFaaslets (fs_iso s) (wk_cache w) (<[f := mkFaaslet (Some (wk_module w)) key]> (fs_faaslets s)))).
Proof.
  intros Hx <- Hf. unfold on_faaslet_module, of_worker. rewrite Hf. cbn [module localResetSnapshotKey].
  rewrite Hx, (Hx _ _ key). by destruct (x _) as [o w].
Qed.

(** [Faaslet::reset] of the faaslets of a worker is the reset of the worker. *)
Lemma faaslet_resets_worker f msg key m s :
  fs_faaslets s !! f = Some (mkFaaslet (Some m) key) →
  reset "wavm" f msg s =
  (let '(o, w) := faaslet_reset ZYGOTE_FUNC_NAME funcToString unbound msg (mkWorker (fs_shared s) m key) in
   (o, mkFaaslets (fs_iso s) (wk_cache w)
        (<[f := mkFaaslet (Some (wk_module w)) (Lifecycle.localResetSnapshotKey w)]> (fs_faaslets s)))).
Proof.
  intros Hf. unfold reset, faaslet_reset. rewrite !run_bind. cbn [get].
  assert (on_faaslet_module f (λ s0 : Cache * Mod_, (Ret (fm_isBound s0.2), s0)) s = (Ret (isBound (lk_registry m)), s)) as ->.
  { unfold on_faaslet_module. rewrite Hf. cbn [module localResetSnapshotKey snd fm_isBound wavm_faaslet].
    rewrite insert_id by exact Hf. by destruct s. }
  cbn [wk_module Lifecycle.localResetSnapshotKey]. rewrite run_bind. cbn [get]. cbv zeta. rewrite Hf. cbn [localResetSnapshotKey].
  destruct (isBound _).
  - cbn [fm_reset wavm_faaslet]. rewrite (on_worker_module f key m _ s _ _ (keyless_reset msg key) eq_refl Hf).
    rewrite (keyless_reset msg key (fs_shared s) m key). by destruct (Lifecycle.reset _ _ _ _ _ _) as [o w].
  - rewrite !run_bind. cbn [fm_bindToFunction wavm_faaslet].
    rewrite (on_worker_module f key m _ s _ _ (keyless_bindToFunction msg) eq_refl Hf).
    rewrite (keyless_bindToFunction msg (fs_shared s) m key).
    destruct (bindToFunction _ _ _ _ _) as [[[]|e] w]; [|done].
    rewrite bool_decide_eq_true_2 by done. rewrite !run_bind. cbn [wk_cache wk_module fm_registerResetSnapshot wavm_faaslet].
    set (s1 := mkFaaslets (fs_iso s) (wk_cache w) (<[f := mkFaaslet (Some (wk_module w)) key]> (fs_faaslets s))).
    rewrite (on_worker_module f key (wk_module w) _ s1 (wk_cache w) "" (keyless_registerReset msg) eq_refl) by apply lookup_insert_eq.
    rewrite (keyless_registerReset msg (wk_cache w) (wk_module w) key). cbn [fs_shared s1].
    destruct (registerReset _ _ _) as [[k|e] w']; cbn [fs_faaslets fs_iso s1 modify wk_cache wk_module Lifecycle.localResetSnapshotKey];
      rewrite !insert_insert_eq; [|done].
    unfold modify. cbn [fs_faaslets]. rewrite lookup_insert_eq. unfold set_faaslet. cbn [fs_faaslets fs_iso fs_shared module].
    by rewrite insert_insert_eq.
Qed.
End wavm.

(** * A concrete worker

    Modules are the functions they are bound to; a task sets the shared number. *)
Definition demo_fm : FaasletModule string Z Z (option string) := {|
  fm_isBound m := bool_decide (is_Some m);
  fm_executeTask i j req := λ '(sh, m), (Ret 0, (sh + req, m));
  fm_reset msg key := mret ();
  fm_bindToFunction msg := modify (λ sm, (sm.1, Some msg));
  fm_registerResetSnapshot msg := mret (msg +:+ "_reset");
  fm_getMemoryView m := [];
  fm_setMemorySize n := mret () |}.

Definition demo_faaslets : Faaslets Z (option string) :=
  (createExecutor (λ _, None) false "wavm" 1 (fa_start 0)).2.

Lemma task_runs_isolated_witness :
  (executeTask (FaasletModule0 := demo_fm) demo_iso (λ _, true) (λ _, 0) 1 10 0 0 5 demo_faaslets).1 = Ret 0 ∧
  fs_shared (executeTask (FaasletModule0 := demo_fm) demo_iso (λ _, true) (λ _, 0) 1 10 0 0 5 demo_faaslets).2 = 5 ∧
  10 ∈ isolated (fs_iso (executeTask (FaasletModule0 := demo_fm) demo_iso (λ _, true) (λ _, 0) 1 10 0 0 5 demo_faaslets).2).
Proof.
  pose proof (task_runs_isolated (FaasletModule0 := demo_fm) (λ _, None) false "wavm" demo_iso (λ _, true) (λ _, 0)
    0 demo_faaslets 1 10 0 0 5 (mkFaaslet (Some None) "") None) as H.
  split; [vm_compute; reflexivity|]. split; [vm_compute; reflexivity|].
  assert (fa_reachable (FaasletModule0 := demo_fm) (λ _, None) false "wavm" demo_iso (λ _, true) (λ _, 0) 0 demo_faaslets)
    as Hreach by (eapply rtc_l; [by apply (fa_create (λ _, None) false "wavm" demo_iso (λ _, true) (λ _, 0) 1)|apply rtc_refl]).
  specialize (H Hreach eq_refl eq_refl).
  destruct (executeTask _ _ _ _ _ _ _ _ demo_faaslets) as [o s'].
  change (isolateThread demo_iso (λ _, true) (λ _, 0) 1 10 (fs_iso demo_faaslets)).1 with
    (isolateThread demo_iso (λ _, true) (λ _, 0) 1 10 iso_start).1 in H.
  assert ((isolateThread demo_iso (λ _, true) (λ _, 0) 1 10 iso_start).1 = Ret ()) as Hiso by (vm_compute; reflexivity).
  rewrite Hiso in H. exact (proj1 (proj2 (proj2 H))).
Defined.
