(* ===== verification/Flush.v ===== *)
(** Flushing a host: the local copies of functions and files
    (src/storage/FileLoader.cpp), the caches of modules
    (src/wavm/WAVMWasmModule.cpp) and the flush that the scheduler asks for
    (src/faaslet/Faaslet.cpp). *)

From Stdlib Require Import Ascii.
From S2P Require Import Prelude WasmBytes S3 Host FileLoader SharedFiles ModuleCache.

(** * Directories of the host

    Listing a directory and removing what is below a path, which gives the number
    of files or [None] for a [filesystem_error]. *)
Class HostTree `{Host} := {
  directory_elements : string → K → list string;
  remove_all : string → K → option Z * K }.

(** [p] lies below the directory [d]. *)
Definition within (d p : string) : Prop := ∃ rest, p = d +:+ "/" +:+ rest.

(** [d] is a directory, or there is nothing below it. *)
Definition tree_at `{HostTree} (d : string) (k : K) : Prop :=
  fs_is_directory d k = true ∨ ∀ p, within d p → fs_exists p k = false.

Class HostTreeLaws `{HostTree} : Prop := {
  elements_cover : ∀ d p k, fs_is_directory d k = true → within d p → fs_exists p k = true →
    ∃ e, e ∈ directory_elements d k ∧ (e = p ∨ within e p);
  remove_all_ret : ∀ p k n k' q, remove_all p k = (Some n, k') → q = p ∨ within p q → fs_exists q k' = false;
  remove_all_adds_nothing : ∀ p k o k' q, remove_all p k = (o, k') →
    fs_exists q k = false → fs_exists q k' = false;
  (** a directory goes after what is in it *)
  remove_all_tree : ∀ p k o k' d, remove_all p k = (o, k') → tree_at d k → tree_at d k';
  (** what [create_directories] makes is on the way to its path *)
  mkdirs_on_the_way : ∀ p k o k' q, create_directories p k = (o, k') → fs_exists q k = false →
    fs_exists q k' = true → q = p ∨ within q p }.

(** * The local copies *)

Section flush.
Context `{Rados} `{HostTree} (conf : FaasmConfig).

(** The loop of [removeAllInside], over the listing of the directory. *)
Fixpoint remove_elements (elements : list string) (removedItemsCount : Z) : M World Z :=
  match elements with
  | [] => mret removedItemsCount
  | e :: es =>
      n ← on_host (λ k, let '(o, k) := remove_all e k in
            (match o with
             | Some n => Ret n
             | None => Throw (RuntimeError "Filesystem error removing directories")
             end, k));
      remove_elements es (i32 (removedItemsCount + n))
  end.

Definition removeAllInside (dir : string) : M World Z :=
  w ← get;
  if negb (fs_is_directory dir (w_host w)) then mret 0
  else remove_elements (directory_elements dir (w_host w)) 0.

Definition clearLocalCache (isTestMode : bool) : M World unit :=
  if isTestMode then mret ()
  else
    removeAllInside (functionDir conf) ;;
    removeAllInside (objectFileDir conf) ;;
    removeAllInside (sharedFilesDir conf) ;;
    SharedFiles.clear.

(** * The caches of modules *)

Section caches.
Context `{Wavm} {Mod : Type}.

(** The instantiated modules of the worker, with the parsed ones and the files. *)
Abbreviation Caches := (WAVMModuleCache Mod CacheState).

Definition clearCaches : M Caches unit :=
  on_cache_world ModuleCache.clear ;; wavm_cache_clear.

Definition flushHost (isTestMode : bool) : M Caches unit :=
  on_cache_world (on_world (clearLocalCache isTestMode)) ;;
  if decide (wasmVm conf = "wavm") then clearCaches else mret ().
End caches.

(** * What is left *)

Context `{!HostTreeLaws}.

(** Nothing appears, directories go last, and the store is as it was. *)
Definition only_removes (w w' : World) : Prop :=
  w_s3 w' = w_s3 w ∧ (∀ p, fs_exists p (w_host w) = false → fs_exists p (w_host w') = false) ∧
  ∀ d, tree_at d (w_host w) → tree_at d (w_host w').
#[export] Instance only_removes_preorder : PreOrder only_removes.
Proof.
  split; [done|]. intros a b c (Hs1 & Ha1 & Ht1) (Hs2 & Ha2 & Ht2). split; [congruence|].
  split; [intros p Hp; by apply Ha2, Ha1|]. intros d Hd. by apply Ht2, Ht1.
Qed.

Lemma remove_elements_only es n : keeps only_removes (remove_elements es n).
Proof.
  revert n. induction es as [|e es IH]; intros n; [apply (keeps_ret only_removes)|].
  cbn [remove_elements]. apply (keeps_bind only_removes); [|intros k; apply IH].
  intros w. unfold on_host, zoom. destruct (remove_all e (w_host w)) as [o k] eqn:Hr. cbn.
  split; [done|]. split; [intros p; by apply (remove_all_adds_nothing _ _ _ _ _ Hr)|].
  intros d. by apply (remove_all_tree _ _ _ _ _ Hr).
Qed.
Lemma removeAllInside_only dir : keeps only_removes (removeAllInside dir).
Proof.
  intros w. unfold removeAllInside. rewrite run_bind. cbn [get].
  destruct (negb _); [done|]. apply remove_elements_only.
Qed.

Lemma remove_elements_ret es n m w w' :
  remove_elements es n w = (Ret m, w') →
  ∀ e p, e ∈ es → p = e ∨ within e p → fs_exists p (w_host w') = false.
Proof.
  revert n w. induction es as [|e0 es IH]; intros n w Hrun e p He Hp; [by apply not_elem_of_nil in He|].
  cbn [remove_elements] in Hrun. apply run_bind_inv in Hrun as (k & w1 & He0 & Hrun).
  apply elem_of_cons in He as [->|He]; [|by eapply IH].
  unfold on_host, zoom in He0. destruct (remove_all e0 (w_host w)) as [[j|] k1] eqn:Hr; [|done].
  injection He0 as _ <-. pose proof (remove_elements_only es (i32 (n + k)) (mkWorld (w_s3 w) k1 (w_shared w) (w_calls w))) as (_ & Hadd & _).
  rewrite Hrun in Hadd. apply Hadd. cbn. by apply (remove_all_ret _ _ _ _ _ Hr).
Qed.

Lemma removeAllInside_ret dir n w w' :
  removeAllInside dir w = (Ret n, w') → tree_at dir (w_host w) → ∀ p, within dir p → fs_exists p (w_host w') = false.
Proof.
  unfold removeAllInside. rewrite run_bind. cbn [get].
  destruct (fs_is_directory dir (w_host w)) eqn:Hdir; cbn [negb].
  - intros Hrun _ p Hp. destruct (fs_exists p (w_host w)) eqn:Hex.
    + destruct (elements_cover _ _ _ Hdir Hp Hex) as (e & He & Hep).
      eapply remove_elements_ret; [done..|]. destruct Hep as [->|]; auto.
    + pose proof (remove_elements_only (directory_elements dir (w_host w)) 0 w) as (_ & Hadd & _).
      rewrite Hrun in Hadd. by apply Hadd.
  - intros [= _ <-] [Ht|Hnone] p Hp; [congruence|by apply Hnone].
Qed.

(** A host without local copies: nothing is below the directories of the caches,
    and no shared file has been looked up. *)
Definition cache_dirs : list string := [functionDir conf; objectFileDir conf; sharedFilesDir conf].
Definition flushed (w : World) : Prop :=
  (∀ d p, d ∈ cache_dirs → within d p →
     fs_exists p (w_host w) = false) ∧ w_shared w = ∅.

Lemma clearLocalCache_ret w w' :
  clearLocalCache false w = (Ret (), w') → Forall (λ d, tree_at d (w_host w)) cache_dirs → flushed w' ∧ w_s3 w' = w_s3 w.
Proof.
  unfold clearLocalCache. intros (n1 & w1 & R1 & (n2 & w2 & R2 & (n3 & w3 & R3 & R4)%run_bind_inv)%run_bind_inv)%run_bind_inv Htree.
  unfold cache_dirs in *. rewrite !Forall_cons in Htree. destruct Htree as (T1 & T2 & T3 & _).
  injection R4 as <-.
  pose proof (removeAllInside_only (functionDir conf) w) as O1. rewrite R1 in O1.
  pose proof (removeAllInside_only (objectFileDir conf) w1) as O2. rewrite R2 in O2.
  pose proof (removeAllInside_only (sharedFilesDir conf) w2) as O3. rewrite R3 in O3. cbn [snd] in *.
  destruct O1 as (S1 & A1 & D1), O2 as (S2 & A2 & D2), O3 as (S3 & A3 & D3). split; [|cbn; congruence].
  split; [|done]. intros d p Hd Hp. cbn [w_host set_shared]. unfold cache_dirs in Hd.
  rewrite !elem_of_cons, elem_of_nil in Hd. destruct Hd as [->|[->|[->|[]]]].
  - apply A3, A2. by eapply removeAllInside_ret.
  - apply A3. eapply removeAllInside_ret; [done| |done]. by apply D1.
  - eapply removeAllInside_ret; [done| |done]. by apply D2, D1.
Qed.

(** ** Paths *)

(** A directory of the configuration, and a name of a user or function, that
    paths are made of by appending. *)
Definition dir_ok (d : string) : Prop := ∃ a, last_char d = Some a ∧ a ≠ "/"%char.
Definition plain (x : string) : Prop := dir_ok x ∧ is_absolute x = false.

Lemma path_append_plain d x :
  dir_ok d → plain x → path_append d x = d +:+ "/" +:+ x ∧ dir_ok (path_append d x).
Proof.
  intros (a & Ha & Hne) [(b & Hb & Hbne) Habs]. unfold path_append. rewrite Habs, Ha.
  destruct (Ascii.eqb_spec a "/"%char); [done|]. split; [done|]. exists b. split; [|done].
  assert (x ≠ "") as Hx by (intros ->; discriminate Hb).
  rewrite last_char_app by done. by rewrite (last_char_app "/").
Qed.

Lemma within_trans a b c : within a b → within b c → within a c.
Proof. intros (r & ->) (r' & ->). exists (r +:+ "/" +:+ r'). by rewrite !str_app_assoc. Qed.
Lemma within_longer a b : within a b → str_size a < str_size b.
Proof.
  intros (r & ->). rewrite !str_size_app. pose proof (str_size_nonneg r). change (str_size "/") with 1. lia.
Qed.

Definition function_dir (base : string) (msg : FuncMsg) : string :=
  path_append (path_append base (user msg)) (function msg).

Lemma function_file base msg file :
  dir_ok base → plain (user msg) → plain (function msg) → plain file →
  within (function_dir base msg) (path_append (function_dir base msg) file) ∧
  within base (path_append (function_dir base msg) file).
Proof.
  intros Hb Hu Hf Hfile. unfold function_dir.
  destruct (path_append_plain base (user msg) Hb Hu) as [E1 D1].
  destruct (path_append_plain _ (function msg) D1 Hf) as [E2 D2].
  destruct (path_append_plain _ file D2 Hfile) as [E3 _].
  assert (within (path_append (path_append base (user msg)) (function msg))
    (path_append (path_append (path_append base (user msg)) (function msg)) file)) as Hw by (exists file; exact E3).
  split; [exact Hw|]. eapply within_trans; [|exact Hw].
  eapply within_trans; [exists (user msg); exact E1|]. exists (function msg). exact E2.
Qed.

(** Making the directory of a function does not make a file in it. *)
Lemma getDir_absent base msg file w p w1 :
  dir_ok base → plain (user msg) → plain (function msg) → plain file →
  (∀ q, within base q → fs_exists q (w_host w) = false) →
  getDir base msg true w = (Ret p, w1) →
  p = function_dir base msg ∧ fs_exists (path_append p file) (w_host w1) = false ∧ w_s3 w1 = w_s3 w.
Proof.
  intros Hb Hu Hf Hfile Hnone Hdir. destruct (function_file base msg file Hb Hu Hf Hfile) as [Hin Hbase].
  unfold getDir in Hdir. apply run_bind_inv in Hdir as ([] & w2 & Hmk & [= <- <-]).
  fold (function_dir base msg) in *. split; [done|].
  unfold when, createDirectories, on_host, zoom in Hmk.
  destruct (create_directories (function_dir base msg) (w_host w)) as [o k] eqn:Hcreate.
  injection Hmk as -> <-. cbn [w_host w_s3]. split; [|done].
  destruct (fs_exists _ k) eqn:Hex; [|done]. exfalso.
  apply within_longer in Hin.
  destruct (mkdirs_on_the_way _ _ _ _ _ Hcreate (Hnone _ Hbase) Hex) as [Heq|Hway%within_longer]; [|lia].
  rewrite Heq in Hin. lia.
Qed.
End flush.

(** * A flushed host runs what is in the store *)

Section reload.
Context `{Rados} `{HostTree} `{Wavm} {Mod : Type}.
Context `{!RadosLaws} `{!HostLaws} `{!HostTreeLaws} (conf : FaasmConfig).
Abbreviation Caches := (WAVMModuleCache Mod CacheState).

(** The host can make the directory of a file and write it. *)
Definition can_write (getFile : M World string) (bs : list Z) (w : World) : Prop :=
  ∃ local w1, getFile w = (Ret local, w1) ∧ ∃ k, writeBytesToFile local bs (w_host w1) = (Ret (), k).

Lemma load_after_flush base msg file bs t w :
  dir_ok base → plain (user msg) → plain (function msg) → plain file →
  (∀ q, within base q → fs_exists q (w_host w) = false) →
  connected (s3Bucket conf) (w_s3 w) → stored conf (getKey msg file) w = Some bs →
  Z.of_nat (length bs) ≤ SIZE_MAX / 2 →
  can_write (p ← getDir base msg true; mret (path_append p file)) bs w →
  ∃ w2, (local ← (p ← getDir base msg true; mret (path_append p file));
         loadFileBytes conf true (getKey msg file) local t) w = (Ret bs, w2).
Proof.
  intros Hb Hu Hf Hfile Hnone Hconn Hst Hlen (local & w1 & Hget & k & Hwrite).
  rewrite (run_bind_ret _ _ _ _ _ Hget).
  apply run_bind_inv in Hget as (p & w2 & Hdir & [= <- <-]).
  destruct (getDir_absent base msg file w p w2 Hb Hu Hf Hfile Hnone Hdir) as (-> & Habsent & Hs3).
  destruct (loadFileBytes_store conf true (getKey msg file) (path_append (function_dir base msg) file) t w2 bs)
    as (w3 & Hload & _); [by right|by rewrite Hs3|unfold stored in *; by rewrite Hs3|done|by exists k|].
  by exists w3.
Qed.

Lemma clearCaches_run (s : Caches) :
  clearCaches s = (Ret (), mkWAVMModuleCache (mkCacheState (cs_world (wc_world s)) (mkIRModuleCache ∅ ∅ ∅)) ∅).
Proof. reflexivity. Qed.

(** C14: After a flush a host runs what is in the store.  Whatever was cached, in
    memory or in local files, once [flushHost] has returned the host has no
    instantiated module and knows no shared file; the next use of a function
    parses the wasm that is stored for it, with its limits, or fails as that
    does, and loads the machine code that is stored for it. *)
Theorem flush_reloads (s s' : Caches) uname fname wasm code t :
  let msg := messageFactory uname fname in
  let w := cs_world (wc_world s) in
  let w' := cs_world (wc_world s') in
  flushHost conf false s = (Ret (), s') → wasmVm conf = "wavm" → Forall (λ d, tree_at d (w_host w)) (cache_dirs conf) →
  dir_ok (functionDir conf) → dir_ok (objectFileDir conf) → plain uname → plain fname → plain (FUNC_OBJECT_FILENAME t) →
  connected (s3Bucket conf) (w_s3 w) →
  stored conf (getKey msg FUNC_FILENAME) w = Some wasm → Z.of_nat (length wasm) ≤ SIZE_MAX / 2 →
  stored conf (getKey msg (FUNC_OBJECT_FILENAME t)) w = Some code → Z.of_nat (length code) ≤ SIZE_MAX / 2 →
  can_write (getFunctionFile conf msg) wasm w' → can_write (getFunctionObjectFile conf msg t) code w' →
  cachedModuleMap s' = ∅ ∧ w_shared w' = ∅ ∧
  (∃ c, getMainModule conf true uname fname (wc_world s') = (referenceMain wasm, c)) ∧
  (∃ w2, loadFunctionObjectFile conf true msg t w' = (Ret code, w2)).
Proof.
  intros msg w w' Hflush Hvm Htree Hfd Hod Hu Hf Ht Hconn Hwasm Hwlen Hcode Hclen Hwrite1 Hwrite2.
  unfold flushHost in Hflush. apply run_bind_inv in Hflush as ([] & s1 & Hfiles & Hmods).
  destruct (decide (wasmVm conf = "wavm")); [|done].
  rewrite clearCaches_run in Hmods. injection Hmods as <-. unfold on_cache_world, on_world, zoom in Hfiles.
  destruct (clearLocalCache conf false (cs_world (wc_world s))) as [o wf] eqn:Hclear. injection Hfiles as -> <-.
  destruct (clearLocalCache_ret conf w wf Hclear Htree) as [[Hnone Hshared] Hs3]. cbn in w'.
  split; [done|]. split; [done|].
  assert (plain FUNC_FILENAME) as Hff by (split; [by eexists|done]).
  destruct (load_after_flush (functionDir conf) msg FUNC_FILENAME wasm false wf) as (w2 & Hload); try done.
  { intros q. apply Hnone. left. }
  { by rewrite Hs3. }
  { unfold stored in *. by rewrite Hs3. }
  destruct (load_after_flush (objectFileDir conf) msg (FUNC_OBJECT_FILENAME t) code false wf) as (w3 & Hload3); try done.
  { intros q. apply Hnone. right. left. }
  { by rewrite Hs3. }
  { unfold stored in *. by rewrite Hs3. }
  split; [|by exists w3].
  destruct (getMainModule_miss conf true uname fname wasm (mkCacheState wf (mkIRModuleCache ∅ ∅ ∅)) w2) as (c & Hmain & _);
    [apply lookup_empty|exact Hload|]. by exists c.
Qed.
End reload.

(** * A concrete host *)

(** Whether [p] lies below [d]. *)
Definition withinb (d p : string) : bool := bool_decide (is_Some (drop_prefix (d +:+ "/") p)).
Lemma withinb_spec d p : withinb d p = true ↔ within d p.
Proof.
  unfold withinb, within. rewrite bool_decide_eq_true. split.
  - intros [rest Hr]. exists rest. rewrite (drop_prefix_some _ _ _ Hr). apply str_app_assoc.
  - intros [rest ->]. exists rest. rewrite <- (str_app_assoc d). apply drop_prefix_app.
Qed.

(** Every removal succeeds. *)
Definition below_or_at (p q : string) : bool := bool_decide (q = p) || withinb p q.
#[export] Instance demo_tree : HostTree (H := demo_host) := {
  directory_elements d k := filter (λ p, withinb d p = true) (map_to_list k).*1;
  remove_all p k := (Some (Z.of_nat (size (filter (λ x, below_or_at p x.1 = true) k))),
                     filter (λ x, below_or_at p x.1 = false) k) }.

Lemma demo_remove_lookup p (k : gmap string demo_file) q :
  filter (λ x, below_or_at p x.1 = false) k !! q = if below_or_at p q then None else k !! q.
Proof.
  destruct (below_or_at p q) eqn:Hb.
  - apply map_lookup_filter_None. right. intros x _. cbn. by rewrite Hb.
  - destruct (k !! q) as [f|] eqn:Hq.
    + by apply map_lookup_filter_Some.
    + apply map_lookup_filter_None. by left.
Qed.

#[export] Instance demo_tree_laws : HostTreeLaws (H := demo_host).
Proof.
  split; unfold tree_at; cbn.
  - intros d p k _ Hp Hex. exists p. split; [|by left]. apply list_elem_of_filter.
    split; [by apply withinb_spec|]. apply bool_decide_eq_true in Hex as [f Hf].
    apply list_elem_of_fmap. exists (p, f). split; [done|]. by apply elem_of_map_to_list.
  - intros p k n k' q [= _ <-] Hq. rewrite demo_remove_lookup.
    assert (below_or_at p q = true) as ->; [|done]. unfold below_or_at. apply orb_true_iff.
    destruct Hq as [->|Hq%withinb_spec]; [left; by apply bool_decide_eq_true|by right].
  - intros p k o k' q [= _ <-] Hq. rewrite demo_remove_lookup. by destruct (below_or_at p q).
  - intros p k o k' d [= _ <-] [Hd|Hnone]; rewrite demo_remove_lookup.
    + destruct (below_or_at p d) eqn:Hb; [|by left]. right. intros q Hq. rewrite demo_remove_lookup.
      assert (below_or_at p q = true) as ->; [|done]. unfold below_or_at in *. apply orb_true_iff in Hb.
      apply orb_true_iff. right. apply withinb_spec.
      destruct Hb as [->%bool_decide_eq_true|Hb%withinb_spec]; [done|by eapply within_trans].
    + right. intros q Hq. rewrite demo_remove_lookup. specialize (Hnone q Hq). by destruct (below_or_at p q).
  - intros p k o k' q Hmk Hq Hq'. left. destruct (k !! p) as [[]|]; injection Hmk as <- <-;
      [by rewrite Hq in Hq'| |];
      (destruct (decide (q = p)) as [->|Hne]; [done|]; by rewrite lookup_insert_ne, Hq in Hq' by done).
Qed.

(** A worker whose copies of the wasm and the code are stale, with a module
    instantiated from them. *)
Definition demo_stale : WAVMModuleCache nat CacheState :=
  let stored := (uploadFileBytes demo_conf false "u/f/function.wasm" "" [0; 1; 1; 0]
    (uploadFileBytes demo_conf false "u/f/function.wasm.x86_64.skylake.o" "" [4; 5] demo_world).2).2 in
  let files : @K demo_host :=
    {["/usr/local/faasm/shared" := DDir; "/usr/local/faasm/wasm" := DDir; "/usr/local/faasm/wasm/u/f" := DDir;
      "/usr/local/faasm/wasm/u/f/function.wasm" := DFile [0; 9; 9; 9];
      "/usr/local/faasm/object" := DDir; "/usr/local/faasm/object/u/f" := DDir;
      "/usr/local/faasm/object/u/f/function.wasm.x86_64.skylake.o" := DFile [9]]} in
  mkWAVMModuleCache
    (mkCacheState (mkWorld (w_s3 stored) files {["faasm://x" := NOT_EXISTS]} [])
      (mkIRModuleCache {[getModuleKey "u" "f" "" := parsed [0; 9; 9; 9]]} {[getModuleKey "u" "f" "" := [9]]} ∅))
    {["u/f" := 1%nat]}.

Lemma flush_reloads_witness :
  let s' := (flushHost demo_conf false demo_stale).2 in
  cachedModuleMap s' = ∅ ∧
  (∃ c, getMainModule demo_conf true "u" "f" (wc_world s') = (referenceMain [0; 1; 1; 0], c)) ∧
  (∃ w2, loadFunctionObjectFile demo_conf true (messageFactory "u" "f") demo_targetA (cs_world (wc_world s')) = (Ret [4; 5], w2)).
Proof.
  intros s'. destruct (flush_reloads demo_conf demo_stale s' "u" "f" [0; 1; 1; 0] [4; 5] demo_targetA)
    as (Hc & _ & Hm & Hl).
  - apply (run_fst (flushHost demo_conf false) demo_stale). vm_compute. reflexivity.
  - reflexivity.
  - unfold cache_dirs. rewrite !Forall_cons. split_and!; [left; vm_compute; reflexivity..|constructor].
  - by eexists.
  - by eexists.
  - split; [by eexists|done].
  - split; [by eexists|done].
  - split; [by eexists|done].
  - vm_compute. reflexivity.
  - vm_compute. reflexivity.
  - done.
  - vm_compute. reflexivity.
  - done.
  - eexists _, _. split; [apply (run_fst (getFunctionFile demo_conf (messageFactory "u" "f"))); vm_compute; reflexivity|].
    eexists. apply (run_fst (writeBytesToFile _ _)). vm_compute. reflexivity.
  - eexists _, _. split; [apply (run_fst (getFunctionObjectFile demo_conf (messageFactory "u" "f") demo_targetA)); vm_compute; reflexivity|].
    eexists. apply (run_fst (writeBytesToFile _ _)). vm_compute. reflexivity.
  - split; [exact Hc|]. split; [exact Hm|exact Hl].
Defined.
