(* ===== verification/Runner.v ===== *)
(** The command line tools (src/runner): generating the code of the functions of
    a user, or of the shared objects below a directory, with a pool of threads
    (codegen_func.cpp, codegen_shared_obj.cpp); running a function
    (func_runner.cpp, local_pool_runner.cpp) and benchmarks
    (MicrobenchRunner.cpp). *)

From Stdlib Require Import Ascii.
From S2P Require Import Prelude Text WasmBytes S3 Host FileLoader Codegen Chaining Flush.

(** * A pool of threads over a directory

    The threads take paths from one iterator under a lock, and do the job of a
    path outside of it.  A job is one step: it writes keys and files of its own
    function.  An exception that a thread does not catch terminates the
    process. *)

Inductive worker : Type := Idle | Busy (path : string) | Finished.

(** What the iterator has still to give, the threads, the world, the paths whose
    job is done, in order, and the exception that ended the process, with its
    path. *)
Record Pool {W : Type} := mkPool {
  po_iter : list string; po_workers : list worker; po_world : W; po_done : list string;
  po_aborted : option (string * exn) }.
Arguments Pool : clear implicits.
Arguments mkPool {_} _ _ _ _ _.

Section pool.
Context {W : Type} (job : string → M W unit).

Definition pool_start (nThreads : nat) (entries : list string) (w : W) : Pool W :=
  mkPool entries (replicate nThreads Idle) w [] None.

(** The step of a thread: it takes the lock, and ends or gets a path; or it does
    the job of its path. *)
Definition worker_step (i : nat) (s : Pool W) : option (Pool W) :=
  match po_aborted s, po_workers s !! i with
  | None, Some Idle =>
      match po_iter s with
      | [] => Some (mkPool [] (<[i := Finished]> (po_workers s)) (po_world s) (po_done s) None)
      | p :: rest => Some (mkPool rest (<[i := Busy p]> (po_workers s)) (po_world s) (po_done s) None)
      end
  | None, Some (Busy p) =>
      let '(o, w) := job p (po_world s) in
      match o with
      | Ret _ => Some (mkPool (po_iter s) (<[i := Idle]> (po_workers s)) w (po_done s ++ [p]) None)
      | Throw e => Some (mkPool (po_iter s) (po_workers s) w (po_done s) (Some (p, e)))
      end
  | _, _ => None
  end.

Definition pool_step (s s' : Pool W) : Prop := ∃ i, worker_step i s = Some s'.

(** ** Lemmas *)

Definition busy_paths (ws : list worker) : list string :=
  omap (λ k, match k with Busy p => Some p | _ => None end) ws.
Definition worker_weight (k : worker) : nat := match k with Idle => 1 | Busy _ => 2 | Finished => 0 end.
Definition pool_weight (s : Pool W) : nat :=
  match po_aborted s with
  | Some _ => 1
  | None => 2 * length (po_iter s) + sum_list_with worker_weight (po_workers s) + 1
  end.

(** Every path is done, in work or to come, once; the world is what the jobs done
    made of it one after the other; a thread ends when no path is left. *)
Record pool_inv (entries : list string) (w0 : W) (s : Pool W) : Prop := {
  pi_paths : po_done s ++ busy_paths (po_workers s) ++ po_iter s ≡ₚ entries;
  pi_world : match po_aborted s with
             | None => for_each (po_done s) job w0 = (Ret (), po_world s)
             | Some (p, e) => for_each (po_done s ++ [p]) job w0 = (Throw e, po_world s) ∧ p ∈ entries
             end;
  pi_ended : Finished ∈ po_workers s → po_iter s = [] }.

Lemma busy_cons k ws : busy_paths (k :: ws) = busy_paths [k] ++ busy_paths ws.
Proof. by destruct k. Qed.
Lemma insert_busy (i : nat) k k' ws :
  ws !! i = Some k → busy_paths [k] ++ busy_paths (<[i := k']> ws) ≡ₚ busy_paths [k'] ++ busy_paths ws.
Proof.
  revert i. induction ws as [|x ws IH]; intros [|i] Hi; [done..| |].
  - injection Hi as ->. change (<[0%nat := k']> (k :: ws)) with (k' :: ws).
    rewrite (busy_cons k'), (busy_cons k ws). by rewrite Permutation_app_swap_app.
  - change (<[S i := k']> (x :: ws)) with (x :: <[i := k']> ws).
    rewrite (busy_cons x ws), (busy_cons x (<[i := k']> ws)).
    rewrite (Permutation_app_swap_app (busy_paths [k])), (IH i Hi). by rewrite Permutation_app_swap_app.
Qed.

Lemma insert_finished (i : nat) k (ws : list worker) :
  k ≠ Finished → Finished ∈ <[i := k]> ws → Finished ∈ ws.
Proof.
  intros Hk (j & Hj)%list_elem_of_lookup. destruct (decide (i = j)) as [->|Hne].
  - apply list_lookup_insert_Some in Hj as [(_ & Heq & _)|(Hne & _)]; [congruence|done].
  - rewrite list_lookup_insert_ne in Hj by done. by eapply list_elem_of_lookup_2.
Qed.

Lemma pool_inv_step entries w0 s s' :
  pool_inv entries w0 s → pool_step s s' → pool_inv entries w0 s' ∧ (pool_weight s' < pool_weight s)%nat.
Proof.
  intros [Hpaths Hworld Hended] [i Hstep]. unfold worker_step in Hstep. unfold pool_weight.
  destruct (po_aborted s) as [|] eqn:Hab; [done|].
  destruct (po_workers s !! i) as [[|p|]|] eqn:Hi; [| |done..].
  - destruct (po_iter s) as [|p rest] eqn:Hit; injection Hstep as <-.
    + pose proof (sum_list_insert worker_weight i Idle Finished _ Hi) as Hw. cbn [worker_weight] in Hw.
      split; [split; cbn|cbn; lia].
      * pose proof (insert_busy i Idle Finished _ Hi) as Hb. cbn in Hb. by rewrite Hb.
      * done.
      * done.
    + pose proof (sum_list_insert worker_weight i Idle (Busy p) _ Hi) as Hw. cbn [worker_weight] in Hw.
      split; [split; cbn|cbn; lia].
      * pose proof (insert_busy i Idle (Busy p) _ Hi) as Hb. cbn in Hb. rewrite Hb, <- Hpaths.
        f_equiv. cbn. apply Permutation_middle.
      * done.
      * intros Hf%insert_finished; [|done]. by specialize (Hended Hf).
  - assert (p ∈ entries) as Hp.
    { rewrite <- Hpaths, !elem_of_app. right. left. unfold busy_paths. apply list_elem_of_omap.
      exists (Busy p). split; [by eapply list_elem_of_lookup_2|done]. }
    destruct (job p (po_world s)) as [[[]|e] w] eqn:Hjob; injection Hstep as <-.
    + pose proof (sum_list_insert worker_weight i (Busy p) Idle _ Hi) as Hw. cbn [worker_weight] in Hw.
      split; [split; cbn|cbn; lia].
      * pose proof (insert_busy i (Busy p) Idle _ Hi) as Hb. cbn in Hb. rewrite <- Hpaths, <- Hb.
        by rewrite <- !app_assoc.
      * rewrite for_each_app, run_bind, Hworld. cbn. by rewrite run_bind, Hjob.
      * intros Hf%insert_finished; [|done]. by apply Hended.
    + pose proof (sum_list_insert worker_weight i (Busy p) Finished _ Hi) as Hw. cbn [worker_weight] in Hw.
      split; [split; cbn|cbn; lia]; [done| |done].
      split; [|done]. rewrite for_each_app, run_bind, Hworld. cbn. by rewrite run_bind, Hjob.
Qed.

Lemma pool_inv_start n entries w0 : pool_inv entries w0 (pool_start n entries w0).
Proof.
  split; cbn; [|done|].
  - induction n as [|n IH]; [done|exact IH].
  - intros Hf. apply elem_of_replicate in Hf as [Hf _]. done.
Qed.

Lemma pool_weight_start n entries w0 :
  pool_weight (pool_start n entries w0) = (2 * length entries + n + 1)%nat.
Proof.
  unfold pool_weight, pool_start. cbn [po_aborted po_iter po_workers].
  assert (sum_list_with worker_weight (replicate n Idle) = n) as ->; [|done].
  induction n as [|n IH]; [done|]. cbn in *. by rewrite IH.
Qed.

Lemma pool_workers_length s s' : pool_step s s' → length (po_workers s') = length (po_workers s).
Proof.
  intros [i Hstep]. unfold worker_step in Hstep. destruct (po_aborted s); [done|].
  destruct (po_workers s !! i) as [[|p|]|]; [| |done..].
  - destruct (po_iter s); injection Hstep as <-; apply length_insert.
  - destruct (job p (po_world s)) as [[|] w]; injection Hstep as <-; [apply length_insert|done].
Qed.

Lemma pool_reach n entries w0 k s :
  nsteps pool_step k (pool_start n entries w0) s →
  pool_inv entries w0 s ∧ (k + pool_weight s ≤ 2 * length entries + n + 1)%nat ∧ length (po_workers s) = n.
Proof.
  intros Hsteps. pose proof (pool_inv_start n entries w0) as Hinv. rewrite <- (pool_weight_start n entries w0).
  assert (length (po_workers (pool_start n entries w0)) = n) as Hlen by apply length_replicate.
  revert Hinv Hlen. revert Hsteps. generalize (pool_start n entries w0). intros s0 Hs.
  induction Hs as [s1|k s1 s2 s3 Hstep _ IH]; intros Hinv Hlen; [split; [done|lia]|].
  destruct (pool_inv_step _ _ _ _ Hinv Hstep) as [Hinv' Hlt].
  destruct (IH Hinv') as (Hi & Hk & Hl); [by rewrite (pool_workers_length _ _ Hstep)|]. split; [done|lia].
Qed.

(** A pool without a step: the process was terminated, or all threads ended. *)
Lemma pool_end n entries w0 s :
  pool_inv entries w0 s → length (po_workers s) = n → (0 < n)%nat → (∀ s', ¬ pool_step s s') →
  po_aborted s = None → po_done s ≡ₚ entries.
Proof.
  intros [Hpaths _ Hended] Hlen Hn Hstop Hab.
  assert (∀ i k, po_workers s !! i = Some k → k = Finished) as Hall.
  { intros i k Hk. destruct k as [|p|]; [| |done]; exfalso.
    - destruct (po_iter s) as [|p rest] eqn:Hit; eapply Hstop; exists i; unfold worker_step; rewrite Hab, Hk, Hit; done.
    - destruct (job p (po_world s)) as [[u|e] w] eqn:Hj; eapply Hstop; exists i; unfold worker_step; rewrite Hab, Hk, Hj; done. }
  assert (busy_paths (po_workers s) = []) as Hbusy.
  { clear - Hall. induction (po_workers s) as [|x ws IH]; [done|].
    assert (x = Finished) as -> by (by apply (Hall 0%nat)). rewrite busy_cons. cbn. apply IH.
    intros i k. apply (Hall (S i)). }
  destruct (lookup_lt_is_Some_2 (po_workers s) 0) as [k Hk]; [lia|].
  pose proof (Hall _ _ Hk) as ->. rewrite Hended in Hpaths by (by eapply list_elem_of_lookup_2).
  by rewrite Hbusy, app_nil_r in Hpaths.
Qed.

(** C16: The threads of the code generators share the work.  Whatever the
    interleaving, they stop after at most two steps for each path and one for
    each thread; unless a job throws, which ends the process, the job of every
    path has then been done exactly once, and what is left is what doing them one
    after the other, in some order, leaves. *)
Theorem pool_does_all n entries w0 :
  (0 < n)%nat →
  (∀ k s, nsteps pool_step k (pool_start n entries w0) s → (k ≤ 2 * length entries + n)%nat) ∧
  (∀ s, rtc pool_step (pool_start n entries w0) s → (∀ s', ¬ pool_step s s') →
     match po_aborted s with
     | None => po_done s ≡ₚ entries ∧ for_each (po_done s) job w0 = (Ret (), po_world s)
     | Some (p, e) => p ∈ entries ∧ for_each (po_done s ++ [p]) job w0 = (Throw e, po_world s)
     end).
Proof.
  intros Hn. split.
  - intros k s Hk. destruct (pool_reach _ _ _ _ _ Hk) as (_ & Hle & _).
    unfold pool_weight in Hle. destruct (po_aborted s) eqn:Hab; lia.
  - intros s [k Hk]%rtc_nsteps Hstop. destruct (pool_reach _ _ _ _ _ Hk) as (Hinv & _ & Hlen).
    pose proof (pi_world _ _ _ Hinv) as Hworld. destruct (po_aborted s) as [[p e]|] eqn:Hab; [tauto|].
    split; [|done]. by eapply pool_end.
Qed.
End pool.

(** * The code generators *)

Section codegen_tools.
Context `{Rados} `{HostTree} `{Compilers} (conf : FaasmConfig).
(** The number of usable cores; the entries of a directory and of those below it;
    faabric's [endsWith]. *)
Context (usableCores : nat) (recursive_elements : string → K → list string) (endsWith : string → string → bool).

Definition codegenForFunc (user func : string) (clean : bool) : M World unit :=
  let msg := mkFuncMsg user func "" false "" "" in
  funcFile ← getFunctionFile conf msg;
  w ← get;
  if negb (fs_exists funcFile (w_host w)) then mret ()
  else codegenForFunction conf msg clean.

(** What [main] goes on to: a [return] of its own, its end, or the threads over a
    directory before it. *)
Inductive plan : Type := Exit (code : Z) | Finish | RunPool (nThreads : nat) (entries : list string).

(** [main] of codegen_func.cpp; [args] are those after the program's name. *)
Definition codegen_func_main (args : list string) : M World plan :=
  match args with
  | [user; func] => codegenForFunc user func false ;; mret Finish
  | [user; func; flag] => codegenForFunc user func (bool_decide (flag = "--clean")) ;; mret Finish
  | [user] =>
      let path := path_append (functionDir conf) user in
      w ← get;
      if negb (fs_is_directory path (w_host w)) then mret (Exit 1)
      else mret (RunPool usableCores (directory_elements path (w_host w)))
  | _ => mret (Exit 0)
  end.

(** The job of one path of a user's directory. *)
Definition codegen_func_job (user thisPath : string) : M World unit := codegenForFunc user (filename thisPath) false.

(** codegen_shared_obj.cpp *)
Definition codegen_shared_obj_job (thisPath : string) : M World unit :=
  if endsWith (filename thisPath) ".so" || endsWith (filename thisPath) ".wasm"
  then codegenForSharedObject conf thisPath else mret ().
Definition codegen_shared_obj_main (args : list string) : M World plan :=
  match args with
  | [] => mret (Exit 1)
  | inputPath :: _ =>
      w ← get;
      if fs_is_directory inputPath (w_host w)
      then mret (RunPool usableCores (recursive_elements inputPath (w_host w)))
      else codegenForSharedObject conf inputPath ;; mret Finish
  end.

(** A function that has no wasm in the local directory is skipped: the tool does
    not ask the store for it. *)
Lemma codegenForFunc_absent user func clean w local w1 :
  getFunctionFile conf (mkFuncMsg user func "" false "" "") w = (Ret local, w1) →
  fs_exists local (w_host w1) = false → codegenForFunc user func clean w = (Ret (), w1).
Proof.
  intros Hget Hex. unfold codegenForFunc. rewrite (run_bind_ret _ _ _ _ _ Hget), run_bind. cbn [get].
  unfold get. by rewrite Hex.
Qed.
End codegen_tools.

(** * Running functions *)

Definition PYTHON_USER : string := "python".
Definition PYTHON_FUNC : string := "py_func".

(** A batch of one message, with its topology hint. *)
Record RunRequest := mkRunRequest { rr_message : Message; rr_topologyhint : string }.

Section requests.
Context `{Scheduler}.

(** The fields that the tools set in the message of a new batch. *)
Definition run_message (msg : Message) (python : bool) (input : option (list Z)) (cmd : option string) : Message :=
  {| id := id msg; appid := appid msg; groupid := groupid msg; groupidx := groupidx msg;
     user := if python then PYTHON_USER else user msg;
     function := if python then PYTHON_FUNC else function msg; funcptr := funcptr msg;
     inputdata := default (inputdata msg) input; outputdata := outputdata msg; returnvalue := returnvalue msg;
     cmdline := default (cmdline msg) cmd;
     pythonuser := if python then user msg else pythonuser msg;
     pythonfunction := if python then function msg else pythonfunction msg;
     pythonentry := pythonentry msg; ispython := python || ispython msg;
     isasync := isasync msg; isstorage := isstorage msg; forbidndp := forbidndp msg;
     executeslocally := executeslocally msg; recordexecgraph := recordexecgraph msg;
     directresulthost := directresulthost msg; snapshotkey := snapshotkey msg;
     zygotedelta := zygotedelta msg; isoutputmemorydelta := isoutputmemorydelta msg;
     wasmglobals := wasmglobals msg; extraarguments := extraarguments msg; mpi := mpi msg |}.

Definition new_batch (user func : string) : M Sched Message := λ x,
  let '(m, x) := batchExecFactory user func x in (Ret m, x).
Definition is_python (user : string) : bool := bool_decide (user = "python").

(** [doRunner] of func_runner.cpp, when its options are parsed: the input and the
    command line if they are given.  The host is given slots for at most ten threads
    and redis is emptied before the runner starts; the result is awaited for
    [globalMessageTimeout], which is set to two minutes.  The runner is stopped only
    if the function succeeds. *)
Definition func_runner (usableCores : Z) (setSlots : Z → Sched → Sched)
    (flushAll startRunner stopRunner : Sched → Sched) (user func : string) (input : option (list Z)) (cmd : option string) : M Sched Z :=
  msg ← new_batch user func;
  modify (setSlots (Z.min usableCores 10)) ;;
  modify flushAll ;;
  let msg := run_message msg (is_python user) input cmd in
  modify startRunner ;;
  callFunctions FUNCTIONS msg None ;;
  result ← getFunctionResult (id msg) 120000;
  if negb (returnvalue result =? 0) then throw (RuntimeError "Executing function failed")
  else modify stopRunner ;; mret 0.

(** [doRunner] of local_pool_runner.cpp; the hint FORCE_LOCAL is for the
    scheduler. *)
Definition local_pool_runner (user func : string) (input : option (list Z)) (cmd : option string) : M Sched Z :=
  msg ← new_batch user func;
  let msg := run_message msg false input cmd in
  callFunctions FUNCTIONS msg None ;;
  result ← getFunctionResult (id msg) 20000;
  if negb (returnvalue result =? 0) then throw (RuntimeError "Message execution failed") else mret 0.

(** [MicrobenchRunner::createBatchRequest] *)
Definition createBatchRequest (user func : string) (inputData : list Z) : M Sched RunRequest :=
  msg ← new_batch user func;
  mret (mkRunRequest (run_message msg (is_python user) (Some inputData) None) "FORCE_LOCAL").
End requests.

(** ** Benchmarks *)

(** A line of the output: user, function, return value, microseconds. *)
Inductive bench_line : Type := Header | Line (user func : string) (returnValue : Z) (micros : string).

Record Bench `{Rados} `{Host} `{Scheduler} := mkBench {
  be_world : World; be_sched : Sched; be_out : list bench_line }.
Arguments mkBench {_ _ _} _ _ _.

Section bench.
Context `{Rados} `{Host} `{Scheduler} (conf : FaasmConfig) (nativeCodegenTarget : CodegenTargetSpec).
(** Whether a file can be opened; redis; the time that a call took, as it is
    printed; boost's [trim] and [split] on commas, and the lines of a file as
    [getline] gives them. *)
Context (can_open : string → K → bool) (flushAll : Sched → Sched) (execMicros : Sched → Sched → string)
  (trim : string → string) (split_commas getlines : string → list string).
Abbreviation BM := (M Bench).

Definition on_be_world {A} : M World A → BM A := zoom be_world (λ w s, mkBench w (be_sched s) (be_out s)).
Definition on_be_sched {A} : M Sched A → BM A := zoom be_sched (λ x s, mkBench (be_world s) x (be_out s)).
Definition write_line (l : bench_line) : BM unit := modify (λ s, mkBench (be_world s) (be_sched s) (be_out s ++ [l])).

(** The main loop, of as many runs as are left. *)
Fixpoint bench_runs (user func : string) (req : RunRequest) (runs : nat) : BM Z :=
  match runs with
  | O => mret 0
  | S runs =>
      s ← get;
      on_be_sched (callFunctions FUNCTIONS (rr_message req) None) ;;
      res ← on_be_sched (getFunctionResult (id (rr_message req)) 10000);
      s' ← get;
      write_line (Line user func (returnvalue res) (execMicros (be_sched s) (be_sched s'))) ;;
      if negb (returnvalue res =? 0) then mret 1 else bench_runs user func req runs
  end.

Definition loader_msg (m : Message) : FuncMsg := mkFuncMsg (user m) (function m) "" false "" "".

Definition doRun (user func : string) (nRuns : Z) (inputData : list Z) : BM Z :=
  on_be_sched (modify flushAll) ;;
  req ← on_be_sched (createBatchRequest user func inputData);
  wasmBytes ← on_be_world (loadFunctionWasm conf true (loader_msg (rr_message req)));
  if bool_decide (wasmBytes = []) then mret 1
  else
    objBytes ← on_be_world (loadFunctionObjectFile conf true (loader_msg (rr_message req)) nativeCodegenTarget);
    if bool_decide (objBytes = []) then mret 1
    else
      preflightReq ← on_be_sched (createBatchRequest user func inputData);
      on_be_sched (callFunctions FUNCTIONS (rr_message preflightReq) None) ;;
      on_be_sched (getFunctionResult (id (rr_message preflightReq)) 10000) ;;
      bench_runs user func req (Z.to_nat nRuns).

(** The loop over the lines of the input. *)
Fixpoint bench_lines (lines : list string) : BM Z :=
  match lines with
  | [] => mret 0
  | nextLine :: rest =>
      let nextLine := trim nextLine in
      if bool_decide (nextLine = "") then bench_lines rest
      else
        match split_commas nextLine with
        | [user; func; runs] =>
            nRuns ← lift (stoi runs);
            returnValue ← doRun user func nRuns [];
            if negb (returnValue =? 0) then mret 0 else bench_lines rest
        | [user; func; runs; input] =>
            nRuns ← lift (stoi runs);
            returnValue ← doRun user func nRuns (bytes_of_string input);
            if negb (returnValue =? 0) then mret 0 else bench_lines rest
        | _ => mret 1
        end
  end.

Definition bench_execute (inFile : string) : BM Z :=
  s ← get;
  if negb (fs_exists inFile (w_host (be_world s))) then mret 1
  else
    write_line Header ;;
    if negb (can_open inFile (w_host (be_world s))) then mret 1
    else bench_lines (getlines (string_of_bytes (readFileToBytes inFile (w_host (be_world s))))).

(** A failed run ends the benchmark with the exit code of success; its return
    value is only in the output. *)
Theorem failed_benchmark_succeeds line rest user func runs n s s' :
  trim line ≠ "" → split_commas (trim line) = [user; func; runs] → stoi runs = Ret n →
  doRun user func n [] s = (Ret 1, s') → bench_lines (line :: rest) s = (Ret 0, s').
Proof.
  intros Hline Hsplit Hn Hrun. cbn [bench_lines]. rewrite bool_decide_eq_false_2 by done. rewrite Hsplit.
  rewrite run_bind. unfold lift. rewrite Hn. by rewrite (run_bind_ret _ _ _ _ _ Hrun).
Qed.

(** Runs stop at the first that fails: a line is written for each run, of which
    only the last can have failed. *)
Lemma bench_runs_lines user func req n s r s' :
  bench_runs user func req n s = (Ret r, s') →
  ∃ ls, be_out s' = be_out s ++ ls ∧
    (r = 0 ∧ length ls = n ∧ Forall (λ l, ∃ t, l = Line user func 0 t) ls ∨
     r = 1 ∧ ∃ before v t, ls = before ++ [Line user func v t] ∧ v ≠ 0 ∧
       Forall (λ l, ∃ t, l = Line user func 0 t) before ∧ (length before < n)%nat).
Proof.
  revert s. induction n as [|n IH]; intros s Hrun.
  { injection Hrun as <- <-. exists []. split; [by rewrite app_nil_r|]. by left. }
  cbn [bench_runs] in Hrun. apply run_bind_inv in Hrun as (s0 & s1 & [= <- <-] & Hrun).
  apply run_bind_inv in Hrun as ([] & s2 & Hcall & Hrun). apply run_bind_inv in Hrun as (res & s3 & Hres & Hrun).
  apply run_bind_inv in Hrun as (s4 & s5 & [= <- <-] & Hrun).
  apply run_bind_inv in Hrun as ([] & s6 & [= <-] & Hrun).
  assert (be_out s3 = be_out s) as Hout.
  { unfold on_be_sched, zoom in Hcall, Hres.
    destruct (callFunctions _ _ _ _) as [[[]|] x1]; [|done]. injection Hcall as <-.
    destruct (getFunctionResult _ _ _) as [[m|] x2]; [|done]. by injection Hres as _ <-. }
  set (t := execMicros (be_sched s) (be_sched s3)) in *.
  destruct (Z.eqb_spec (returnvalue res) 0) as [Hz|Hnz]; cbn [negb] in Hrun.
  - apply IH in Hrun as (ls & Hls & Hcases). cbn [be_out] in Hls.
    exists (Line user func 0 t :: ls). rewrite Hls, Hout, Hz, <- app_assoc. split; [done|].
    destruct Hcases as [(-> & Hlen & Hall)|(-> & before & v & t' & -> & Hv & Hall & Hlen)].
    + left. split; [done|]. cbn. split; [by f_equal|]. constructor; [by exists t|done].
    + right. split; [done|]. exists (Line user func 0 t :: before), v, t'. split; [done|]. split; [done|].
      cbn. split; [constructor; [by exists t|done]|lia].
  - injection Hrun as <- <-. exists [Line user func (returnvalue res) t]. cbn [be_out]. rewrite Hout. split; [done|].
    right. split; [done|]. exists [], (returnvalue res), t. cbn. split_and!; try done. lia.
Qed.
End bench.

(** * A concrete run *)

(** A user with two functions, whose wasm is in the store and on the host. *)
Definition demo_user_world : World :=
  let w := (uploadFunction demo_conf true (mkFuncMsg "u" "g" "wasm-of-g" false "" "")
             (uploadFunction demo_conf true (mkFuncMsg "u" "f" "wasm-of-f" false "" "") demo_world).2).2 in w.
Definition demo_entries : list string := ["/usr/local/faasm/wasm/u/f"; "/usr/local/faasm/wasm/u/g"].
Definition demo_job : string → M World unit := codegen_func_job demo_conf "u".

Fixpoint run_pool {W} (job : string → M W unit) (schedule : list nat) (s : Pool W) : option (Pool W) :=
  match schedule with
  | [] => Some s
  | i :: rest => s' ← worker_step job i s; run_pool job rest s'
  end.
Lemma run_pool_rtc {W} (job : string → M W unit) schedule s s' :
  run_pool job schedule s = Some s' → rtc (pool_step job) s s'.
Proof.
  revert s. induction schedule as [|i rest IH]; intros s Hrun; [injection Hrun as ->; apply rtc_refl|].
  cbn [run_pool] in Hrun. apply bind_Some in Hrun as (s1 & H1 & Hrun). eapply rtc_l; [by exists i|by apply IH].
Qed.

Lemma run_pool_default {W} (job : string → M W unit) schedule s d :
  (if run_pool job schedule s is Some _ then true else false) = true →
  rtc (pool_step job) s (default d (run_pool job schedule s)).
Proof. destruct (run_pool job schedule s) eqn:Hrun; [|done]. intros _. by eapply run_pool_rtc. Qed.

(** Two threads: the second path is done before the first. *)
Definition demo_pool : Pool World :=
  default (pool_start 0 [] demo_user_world)
    (run_pool demo_job [0; 1; 1; 0; 1; 0]%nat (pool_start 2 demo_entries demo_user_world)).

Lemma pool_does_all_witness :
  po_done demo_pool = ["/usr/local/faasm/wasm/u/g"; "/usr/local/faasm/wasm/u/f"] ∧
  po_done demo_pool ≡ₚ demo_entries ∧
  for_each (po_done demo_pool) demo_job demo_user_world = (Ret (), po_world demo_pool).
Proof.
  split; [vm_compute; reflexivity|].
  pose proof (run_pool_default demo_job [0; 1; 1; 0; 1; 0]%nat (pool_start 2 demo_entries demo_user_world)
    (pool_start 0 [] demo_user_world) ltac:(vm_compute; reflexivity)) as Hsteps.
  destruct (pool_does_all demo_job 2 demo_entries demo_user_world) as [_ Hend]; [lia|].
  specialize (Hend demo_pool Hsteps).
  assert (po_aborted demo_pool = None) as Hab by (vm_compute; reflexivity). rewrite Hab in Hend.
  apply Hend. intros s' [i Hstep]. unfold worker_step in Hstep. rewrite Hab in Hstep.
  assert (po_workers demo_pool = [Finished; Finished]) as Hws by (vm_compute; reflexivity).
  rewrite Hws in Hstep. destruct i as [|[|i]]; discriminate Hstep.
Defined.
