(* ===== verification/OmpCalls.v ===== *)
(** The OpenMP calls that work on the module's memory (src/wavm/openmp.cpp): the
    work-sharing of loops through the four pointers of the compiler, with the
    order of its reads and writes, the shared variables of a fork, and the
    remaining calls. *)

From Stdlib Require Import SpecFloat.
From S2P Require Import Prelude WasmBytes Level OpenMP.

(** * Integers behind pointers *)

(** [Runtime::memoryRef<T>] of an integer of [w] bits is checked when it is
    taken; it is read and written through later. *)
Definition memoryRef (w a : Z) : M Mem unit :=
  m ← get; if in_mem m a (w / 8) then mret () else throw oob.

Definition load_s (w : Z) (m : Mem) (a : Z) : outcome Z :=
  bs ← mem_read m a (w / 8); Ret (wrapS w (little_endian_to_Z 8 bs)).
Definition ref_get (w a : Z) : M Mem Z := m ← get; lift (load_s w m a).
Definition ref_set (w a v : Z) : M Mem unit :=
  m ← get; m' ← lift (mem_write m a (Z_to_little_endian (w / 8) 8 v)); put m'.

(** * Static work-sharing, in memory *)

(** [lastIterPtr], [lowerPtr], [upperPtr], [stridePtr]. *)
Record loop_ptrs := mkPtrs { p_last : Z; p_lower : Z; p_upper : Z; p_stride : Z }.

(** [for_static_init<T>] for the signed [T] of [w] bits. *)
Definition for_static_init_mem (w nThreads localThreadNum schedule : Z) (p : loop_ptrs)
    (incr chunk : Z) : M Mem unit :=
  if nThreads =? 1 then
    ref_set 32 (p_last p) 1 ;;
    hi ← ref_get w (p_upper p);
    lo ← ref_get w (p_lower p);
    if incr >? 0 then ref_set w (p_stride p) (hi - lo + 1)
    else ref_set w (p_stride p) (- (lo - hi + 1))
  else
    lo ← ref_get w (p_lower p);
    hi ← ref_get w (p_upper p);
    trip ← lift (tripCount w lo hi incr);
    if schedule =? sch_static_chunked then
      let chunk := if chunk <? 1 then 1 else chunk in
      let span := i32 (wrapS w (chunk * incr)) in
      ref_set w (p_stride p) (i32 (span * nThreads)) ;;
      lo ← ref_get w (p_lower p);
      ref_set w (p_lower p) (lo + i32 (span * localThreadNum)) ;;
      lo ← ref_get w (p_lower p);
      ref_set w (p_upper p) (lo + span - incr) ;;
      let uchunk := u32 chunk in
      if (uchunk =? 0) || (nThreads =? 0) then throw (Undefined "division by zero") else
      ref_set 32 (p_last p)
        (Z.b2z (wrapU w localThreadNum =? (wrapU w (trip - 1) / uchunk) mod wrapU w nThreads))
    else if schedule =? sch_static then
      (if trip <? wrapU w nThreads then
         (if wrapU w localThreadNum <? trip then
            lo ← ref_get w (p_lower p);
            ref_set w (p_lower p) (lo + localThreadNum * incr) ;;
            lo ← ref_get w (p_lower p);
            ref_set w (p_upper p) lo
          else
            hi ← ref_get w (p_upper p);
            ref_set w (p_lower p) (hi + incr)) ;;
         ref_set 32 (p_last p) (Z.b2z (wrapU w localThreadNum =? wrapU w (trip - 1)))
       else if nThreads =? 0 then throw (Undefined "division by zero")
       else
         let small_chunk := u32 (trip / wrapU w nThreads) in
         let extras := u32 (trip mod wrapU w nThreads) in
         let is_extra := u32 localThreadNum <? extras in
         lo ← ref_get w (p_lower p);
         ref_set w (p_lower p) (lo + incr * u32 (localThreadNum * small_chunk +
                                                 (if is_extra then localThreadNum else extras))) ;;
         lo ← ref_get w (p_lower p);
         ref_set w (p_upper p) (lo + small_chunk * incr - (if is_extra then 0 else incr)) ;;
         ref_set 32 (p_last p) (Z.b2z (localThreadNum =? nThreads - 1))) ;;
      ref_set w (p_stride p) trip
    else throw (RuntimeError "Unimplemented OpenMP scheduler").

(** A thread of the module: its OpenMP state, and the memory. *)
Record OmpGuest := mkOmpGuest { og_omp : Omp; og_mem : Mem }.
Definition on_omp {A} (x : M Omp A) : M OmpGuest A := zoom og_omp (λ o s, mkOmpGuest o (og_mem s)) x.
Definition on_mem {A} (x : M Mem A) : M OmpGuest A := zoom og_mem (λ m s, mkOmpGuest (og_omp s) m) x.

Section calls.
Context `{OmpEnv}.

(** [__kmpc_for_static_init_4] and [_8]; a pointer is an [I32] that converts to a
    64-bit offset. *)
Definition kmpc_for_static_init_at (w schedule : Z) (p : loop_ptrs) (incr chunk : Z) : M OmpGuest unit :=
  '(level, _, localThreadNum, _) ← on_omp OMP_FUNC;
  on_mem (memoryRef 32 (p_last p) ;; memoryRef w (p_lower p) ;; memoryRef w (p_upper p) ;;
          memoryRef w (p_stride p) ;;
          for_static_init_mem w (numThreads level) localThreadNum schedule p incr chunk).

Definition unsigned_ptrs (lastIterPtr lowerPtr upperPtr stridePtr : Z) : loop_ptrs :=
  mkPtrs (u64 lastIterPtr) (u64 lowerPtr) (u64 upperPtr) (u64 stridePtr).

Definition kmpc_for_static_init_4 (schedule lastIterPtr lowerPtr upperPtr stridePtr incr chunk : Z)
    : M OmpGuest unit :=
  kmpc_for_static_init_at 32 schedule (unsigned_ptrs lastIterPtr lowerPtr upperPtr stridePtr) incr chunk.
Definition kmpc_for_static_init_8 (schedule lastIterPtr lowerPtr upperPtr stridePtr incr chunk : Z)
    : M OmpGuest unit :=
  kmpc_for_static_init_at 64 schedule (unsigned_ptrs lastIterPtr lowerPtr upperPtr stridePtr) incr chunk.
Definition kmpc_for_static_fini : M Omp unit := OMP_FUNC ;; mret ().

(** A full memory fence: a call is one step. *)
Definition kmpc_flush : M Omp unit := OMP_FUNC ;; mret ().

Definition omp_get_num_devices : M Omp Z := OMP_FUNC ;; mret 1.
Definition omp_set_default_device (defaultDeviceNumber : Z) : M Omp unit := OMP_FUNC ;; mret ().
Definition atomic_load (a b c d : Z) : M Omp unit := OMP_FUNC ;; unimplemented.
Definition atomic_compare_exchange (a b c d e f : Z) : M Omp Z := OMP_FUNC ;; unimplemented.

(** Doubles: [(F64)millis / 1000]. *)
Definition f64_of_Z (z : Z) : spec_float := binary_normalize 53 1024 z 0 false.
Definition wtime (millis : Z) : spec_float := SFdiv 53 1024 (f64_of_Z millis) (f64_of_Z 1000).
(** The clock of faabric gives [epochMillis]. *)
Definition omp_get_wtime (epochMillis : Z) : M Omp spec_float := OMP_FUNC ;; mret (wtime epochMillis).

End calls.

(** [memoryArrayPtr<uint32_t>(memory, p, n)], and the words found: what a fork
    reads of its shared variables. *)
Definition memory_words (m : Mem) (p n : Z) : outcome (list Z) :=
  bs ← mem_read m p (4 * n); Ret (words32 bs).
Definition omp_env_at (env : OmpEnv) (m : Mem) : OmpEnv :=
  {| host_slots := host_slots; usable_cores := usable_cores; memoryArray_u32 := memory_words m;
     batchExecFactory := batchExecFactory; heap_address := heap_address; executeThreads := executeThreads |}.

(** * The loop in memory is the loop of the schedule *)

Definition width (w : Z) : Prop := w = 32 ∨ w = 64.
Definition ptr_ranges (w : Z) (p : loop_ptrs) : list (Z * Z) :=
  [(p_last p, 4); (p_lower p, w / 8); (p_upper p, w / 8); (p_stride p, w / 8)].

(** The four integers lie apart in the memory and hold [l]. *)
Record loop_mem (w : Z) (m : Mem) (p : loop_ptrs) (l : loop_bounds) : Prop := {
  lm_in : Forall (λ r, in_mem m r.1 r.2 = true) (ptr_ranges w p);
  lm_apart : ∀ i j r s, i ≠ j → ptr_ranges w p !! i = Some r → ptr_ranges w p !! j = Some s → iov_disjoint r s;
  lm_last : load_s 32 m (p_last p) = Ret (lastIter l);
  lm_lower : load_s w m (p_lower p) = Ret (lower l);
  lm_upper : load_s w m (p_upper p) = Ret (upper l);
  lm_stride : load_s w m (p_stride p) = Ret (stride l) }.

(** The memory keeps its size, and what lies apart from the four integers. *)
Definition changes (w : Z) (p : loop_ptrs) (m m' : Mem) : Prop :=
  mem_size m' = mem_size m ∧ untouched (ptr_ranges w p) m m'.
#[export] Instance changes_preorder w p : PreOrder (changes w p).
Proof.
  split; [by intros m|]. intros a b c [Hs1 Hu1] [Hs2 Hu2]. split; [congruence|by transitivity b].
Qed.

Lemma ref_set_run w a v m :
  width w → in_mem m a (w / 8) = true →
  ∃ m', ref_set w a v m = (Ret (), m') ∧ load_s w m' a = Ret (wrapS w v) ∧ mem_size m' = mem_size m ∧
    untouched [(a, w / 8)] m m'.
Proof.
  intros Hw Hin. set (bs := Z_to_little_endian (w / 8) 8 v).
  assert (Z.of_nat (length bs) = w / 8) as Hlen.
  { unfold bs. rewrite length_Z_to_little_endian; destruct Hw as [-> | ->]; done. }
  destruct (mem_write_exists m a bs) as [m' Hm']; [by rewrite Hlen|]. exists m'.
  split; [unfold ref_set; run_unfold; fold bs; by rewrite Hm'|].
  split; [|split; [by eapply mem_write_size|]].
  - unfold load_s. rewrite <- Hlen, (mem_read_write _ _ _ _ Hm'). cbn [mbind outcome_bind]. unfold bs.
    rewrite little_endian_to_Z_to_little_endian by (destruct Hw as [-> | ->]; done).
    f_equal. destruct Hw as [-> | ->]; by apply wrapS_wrapU.
  - apply (untouched_write _ m a bs m' (w / 8)); [left|lia|done].
Qed.

Lemma load_s_apart w m m' r a :
  width w → mem_size m' = mem_size m → untouched [r] m m' → iov_disjoint r (a, w / 8) →
  load_s w m' a = load_s w m a.
Proof.
  intros Hw Hsz Hun Hd. unfold load_s.
  rewrite (mem_read_untouched m m' [r] a (w / 8)); [done..|].
  apply Forall_singleton. unfold iov_disjoint in *. tauto.
Qed.

Lemma untouched_sub rs rs' m m' : rs ⊆ rs' → untouched rs m m' → untouched rs' m m'.
Proof.
  intros Hsub Hun i Hi. apply Hun. apply Forall_forall. intros r Hr.
  rewrite Forall_forall in Hi. by apply Hi, Hsub.
Qed.

(** Setting one of the four sets that one. *)
Lemma set_any w p m l (i : nat) a wi v :
  width w → width wi → loop_mem w m p l → ptr_ranges w p !! i = Some (a, wi / 8) →
  ∃ m', ref_set wi a v m = (Ret (), m') ∧ load_s wi m' a = Ret (wrapS wi v) ∧ changes w p m m' ∧
    Forall (λ r, in_mem m' r.1 r.2 = true) (ptr_ranges w p) ∧
    ∀ j b wj, j ≠ i → width wj → ptr_ranges w p !! j = Some (b, wj / 8) → load_s wj m' b = load_s wj m b.
Proof.
  intros Hw Hwi Hl Hi.
  assert (in_mem m a (wi / 8) = true) as Hin.
  { pose proof (lm_in _ _ _ _ Hl) as Hall. rewrite Forall_lookup in Hall. exact (Hall i _ Hi). }
  destruct (ref_set_run wi a v m Hwi Hin) as (m' & Hrun & Hload & Hsz & Hun). exists m'.
  split; [done|]. split; [done|]. split; [|split].
  - split; [done|]. eapply untouched_sub; [|done]. intros r Hr. apply list_elem_of_singleton in Hr as ->.
    by eapply list_elem_of_lookup_2.
  - eapply Forall_impl; [apply (lm_in _ _ _ _ Hl)|]. intros r. unfold in_mem. by rewrite Hsz.
  - intros j b wj Hj Hwj Hb. eapply load_s_apart; [done..|]. by eapply (lm_apart _ _ _ _ Hl i j).
Qed.

Ltac set_field Hl i :=
  match goal with
  | Hw : width ?w |- ∃ m', ref_set ?wi ?a ?v ?m = _ ∧ _ =>
      let m' := fresh "m'" in
      destruct (set_any _ _ m _ i a wi v Hw ltac:(first [exact Hw | by left]) Hl eq_refl)
        as (m' & Hrun & Hload & Hch & Hin & Hrest);
      exists m'; split; [exact Hrun|]; split; [|exact Hch];
      split; [exact Hin|exact (lm_apart _ _ _ _ Hl)|..]; cbn [lastIter lower upper stride];
      try exact Hload
  end.

Section fields.
Context (w : Z) (p : loop_ptrs) (Hw : width w).

Lemma set_last v m l : loop_mem w m p l →
  ∃ m', ref_set 32 (p_last p) v m = (Ret (), m') ∧
    loop_mem w m' p (mkLoop (wrapS 32 v) (lower l) (upper l) (stride l)) ∧ changes w p m m'.
Proof.
  intros Hl. set_field Hl 0%nat.
  - rewrite (Hrest 1%nat _ w) by done. apply (lm_lower _ _ _ _ Hl).
  - rewrite (Hrest 2%nat _ w) by done. apply (lm_upper _ _ _ _ Hl).
  - rewrite (Hrest 3%nat _ w) by done. apply (lm_stride _ _ _ _ Hl).
Qed.
Lemma set_lower v m l : loop_mem w m p l →
  ∃ m', ref_set w (p_lower p) v m = (Ret (), m') ∧
    loop_mem w m' p (mkLoop (lastIter l) (wrapS w v) (upper l) (stride l)) ∧ changes w p m m'.
Proof.
  intros Hl. set_field Hl 1%nat.
  - rewrite (Hrest 0%nat _ 32) by (done || by left). apply (lm_last _ _ _ _ Hl).
  - rewrite (Hrest 2%nat _ w) by done. apply (lm_upper _ _ _ _ Hl).
  - rewrite (Hrest 3%nat _ w) by done. apply (lm_stride _ _ _ _ Hl).
Qed.
Lemma set_upper v m l : loop_mem w m p l →
  ∃ m', ref_set w (p_upper p) v m = (Ret (), m') ∧
    loop_mem w m' p (mkLoop (lastIter l) (lower l) (wrapS w v) (stride l)) ∧ changes w p m m'.
Proof.
  intros Hl. set_field Hl 2%nat.
  - rewrite (Hrest 0%nat _ 32) by (done || by left). apply (lm_last _ _ _ _ Hl).
  - rewrite (Hrest 1%nat _ w) by done. apply (lm_lower _ _ _ _ Hl).
  - rewrite (Hrest 3%nat _ w) by done. apply (lm_stride _ _ _ _ Hl).
Qed.
Lemma set_stride v m l : loop_mem w m p l →
  ∃ m', ref_set w (p_stride p) v m = (Ret (), m') ∧
    loop_mem w m' p (mkLoop (lastIter l) (lower l) (upper l) (wrapS w v)) ∧ changes w p m m'.
Proof.
  intros Hl. set_field Hl 3%nat.
  - rewrite (Hrest 0%nat _ 32) by (done || by left). apply (lm_last _ _ _ _ Hl).
  - rewrite (Hrest 1%nat _ w) by done. apply (lm_lower _ _ _ _ Hl).
  - rewrite (Hrest 2%nat _ w) by done. apply (lm_upper _ _ _ _ Hl).
Qed.
Lemma get_lower m l : loop_mem w m p l → ref_get w (p_lower p) m = (Ret (lower l), m).
Proof. intros Hl. unfold ref_get. run_unfold. by rewrite (lm_lower _ _ _ _ Hl). Qed.
Lemma get_upper m l : loop_mem w m p l → ref_get w (p_upper p) m = (Ret (upper l), m).
Proof. intros Hl. unfold ref_get. run_unfold. by rewrite (lm_upper _ _ _ _ Hl). Qed.
End fields.

Lemma wrapS_wrapS w v x : width w → width v → v ≤ w → wrapS w (wrapS v x) = wrapS v x.
Proof.
  intros Hw Hv Hle. apply wrapS_id; [destruct Hw; lia|].
  assert (in_s v (wrapS v x)) as Hin by (apply wrapS_range; destruct Hv; lia). unfold in_s in *.
  assert (2 ^ (v - 1) ≤ 2 ^ (w - 1)) by (apply Z.pow_le_mono_r; [done|lia]). lia.
Qed.
Lemma wrapS_bool w (b : bool) : width w → wrapS w (Z.b2z b) = Z.b2z b.
Proof. by destruct b; intros [-> | ->]. Qed.

(** One read or write of the loop's integers, in front of the rest. *)
Ltac loop_step :=
  match goal with
  | Hw : width ?w, Hl : loop_mem ?w ?m ?p ?l |- context [(ref_get ?w (p_lower ?p) ≫= _) ?m] =>
      rewrite (run_bind_ret _ _ _ _ _ (get_lower w p m l Hl)); cbn [lastIter lower upper stride]
  | Hw : width ?w, Hl : loop_mem ?w ?m ?p ?l |- context [(ref_get ?w (p_upper ?p) ≫= _) ?m] =>
      rewrite (run_bind_ret _ _ _ _ _ (get_upper w p m l Hl)); cbn [lastIter lower upper stride]
  end.
Ltac loop_set L v :=
  match goal with
  | Hw : width ?w, Hl : loop_mem ?w ?m ?p ?l, Hc : changes ?w ?p ?m0 ?m |- _ =>
      let m' := fresh "m" in let Hr := fresh "Hr" in let Hl' := fresh "Hl" in let Hc' := fresh "Hc" in
      destruct (L w p Hw v m l Hl) as (m' & Hr & Hl' & Hc');
      cbn [lastIter lower upper stride] in Hl';
      pose proof (transitivity Hc Hc') as Hc''; clear Hl Hc Hc'; rename Hc'' into Hc;
      first [rewrite (run_bind_ret _ _ _ _ _ Hr) | rewrite Hr]
  end.

#[local] Opaque wrapS wrapU changes ref_set ref_get.

Lemma for_static_init_mem_spec w n t schedule p incr chunk m l l' :
  width w → loop_mem w m p l → for_static_init w n t schedule l incr chunk = Ret l' →
  ∃ m', for_static_init_mem w n t schedule p incr chunk m = (Ret (), m') ∧
    loop_mem w m' p l' ∧ changes w p m m'.
Proof.
  intros Hw Hl Hpure. assert (changes w p m m) as Hc by reflexivity.
  unfold for_static_init in Hpure. unfold for_static_init_mem.
  destruct (n =? 1).
  { injection Hpure as <-. loop_set set_last 1. loop_step. loop_step.
    destruct (incr >? 0); [loop_set set_stride (upper l - lower l + 1)|loop_set set_stride (- (lower l - upper l + 1))];
      eexists; (split; [reflexivity|]); by split. }
  loop_step. loop_step. destruct (tripCount w (lower l) (upper l) incr) as [trip|]; [|done].
  cbn [mbind outcome_bind] in Hpure. rewrite run_bind. unfold lift at 1. cbv iota beta.
  destruct (schedule =? sch_static_chunked).
  - set (c := if chunk <? 1 then 1 else chunk) in *. set (span := i32 (wrapS w (c * incr))) in *. cbv zeta in *.
    destruct ((u32 c =? 0) || (n =? 0)); [done|]. injection Hpure as <-.
    loop_set set_stride (i32 (span * n)). loop_step. loop_set set_lower (lower l + i32 (span * t)).
    loop_step. loop_set set_upper (wrapS w (lower l + i32 (span * t)) + span - incr).
    loop_set set_last (Z.b2z (wrapU w t =? (wrapU w (trip - 1) / u32 c) mod wrapU w n)).
    eexists. split; [reflexivity|]. split; [|done].
    rewrite wrapS_bool, (wrapS_wrapS w 32) in * by (done || (destruct Hw; lia) || by left). done.
  - destruct (schedule =? sch_static); [|done].
    destruct (trip <? wrapU w n).
    + destruct (wrapU w t <? trip); injection Hpure as <-.
      * rewrite !run_bind_assoc. loop_step. rewrite !run_bind_assoc. loop_set set_lower (lower l + t * incr).
        rewrite !run_bind_assoc. loop_step. loop_set set_upper (wrapS w (lower l + t * incr)).
        loop_set set_last (Z.b2z (wrapU w t =? wrapU w (trip - 1))).
        loop_set set_stride trip. eexists. split; [reflexivity|]. split; [|done].
        rewrite wrapS_bool, (wrapS_wrapS w w) in * by (done || lia || by left). done.
      * rewrite !run_bind_assoc. loop_step. loop_set set_lower (upper l + incr).
        loop_set set_last (Z.b2z (wrapU w t =? wrapU w (trip - 1))).
        loop_set set_stride trip. eexists. split; [reflexivity|]. split; [|done].
        rewrite wrapS_bool in * by (done || by left). done.
    + destruct (n =? 0); [done|]. cbv zeta in *. injection Hpure as <-.
      set (sm := u32 (trip / wrapU w n)) in *. set (ex := u32 (trip mod wrapU w n)) in *.
      rewrite !run_bind_assoc. loop_step.
      set (lo := lower l + incr * u32 (t * sm + (if u32 t <? ex then t else ex))) in *.
      rewrite !run_bind_assoc. loop_set set_lower lo. rewrite !run_bind_assoc. loop_step.
      rewrite !run_bind_assoc. loop_set set_upper (wrapS w lo + sm * incr - (if u32 t <? ex then 0 else incr)).
      loop_set set_last (Z.b2z (t =? n - 1)). loop_set set_stride trip.
      eexists. split; [reflexivity|]. split; [|done].
      rewrite wrapS_bool in * by (done || by left). done.
Qed.

#[local] Transparent wrapS wrapU changes ref_set ref_get.

(** * A team shares a loop in memory *)

Section team.
Context `{OmpEnv}.

(** A call of a thread of the team: it changes the memory that the team shares. *)
Definition as_thread (o : Omp) (x : M OmpGuest unit) : M Mem unit := λ m,
  let '(r, s) := x (mkOmpGuest o m) in (r, og_mem s).

Lemma memoryRef_run w a m : in_mem m a (w / 8) = true → memoryRef w a m = (Ret (), m).
Proof. intros Hin. unfold memoryRef. run_unfold. by rewrite Hin. Qed.

Lemma static_init_run w n level o t schedule p incr chunk m l l' :
  width w → numThreads level = n → team_member level t o → loop_mem w m p l →
  for_static_init w n t schedule l incr chunk = Ret l' →
  ∃ m', as_thread o (kmpc_for_static_init_at w schedule p incr chunk) m = (Ret (), m') ∧
    loop_mem w m' p l' ∧ changes w p m m'.
Proof.
  intros Hw Hn [Hlevel Ht] Hl Hpure.
  destruct (for_static_init_mem_spec w n t schedule p incr chunk m l l' Hw Hl Hpure) as (m' & Hrun & Hl' & Hc).
  exists m'. split; [|done]. unfold as_thread, kmpc_for_static_init_at.
  assert (on_omp OMP_FUNC (mkOmpGuest o m) = (Ret (level, msg o, t, m_appidx (msg o)), mkOmpGuest o m)) as Homp.
  { unfold on_omp, zoom. cbn [og_omp]. by rewrite (OMP_FUNC_run o level t Hlevel Ht). }
  rewrite (run_bind_ret _ _ _ _ _ Homp). cbv beta iota. rewrite Hn.
  pose proof (lm_in _ _ _ _ Hl) as Hin. unfold ptr_ranges in Hin. rewrite !Forall_cons in Hin. cbn [fst snd] in Hin.
  destruct Hin as (H1 & H2 & H3 & H4 & _).
  unfold on_mem, zoom. cbn [og_mem].
  rewrite (run_bind_ret _ _ _ _ _ (memoryRef_run 32 _ _ H1)), (run_bind_ret _ _ _ _ _ (memoryRef_run w _ _ H2)),
    (run_bind_ret _ _ _ _ _ (memoryRef_run w _ _ H3)), (run_bind_ret _ _ _ _ _ (memoryRef_run w _ _ H4)).
  by rewrite Hrun.
Qed.

(** What a thread runs: from the lower to the upper bound that it finds. *)
Definition iterations_at (w : Z) (m : Mem) (p : loop_ptrs) (incr : Z) : list Z :=
  match load_s w m (p_lower p), load_s w m (p_upper p) with
  | Ret lo, Ret hi => iterations lo hi incr
  | _, _ => []
  end.

Lemma loop_mem_frame w p q l m m' :
  width w → changes w q m m' → loop_mem w m p l →
  (∀ r s, r ∈ ptr_ranges w p → s ∈ ptr_ranges w q → iov_disjoint r s) → loop_mem w m' p l.
Proof.
  intros Hw [Hsz Hun] Hl Hd.
  assert (∀ a n, (a, n) ∈ ptr_ranges w p → mem_read m' a n = mem_read m a n) as Hread.
  { intros a n Hin. symmetry. apply (mem_read_untouched _ _ (ptr_ranges w q)); [done..|].
    apply Forall_forall. intros s Hs. by apply Hd. }
  split.
  - eapply Forall_impl; [apply (lm_in _ _ _ _ Hl)|]. intros r. unfold in_mem. by rewrite Hsz.
  - apply (lm_apart _ _ _ _ Hl).
  - unfold load_s. rewrite Hread by (unfold ptr_ranges; set_solver). apply (lm_last _ _ _ _ Hl).
  - unfold load_s. rewrite Hread by (unfold ptr_ranges; set_solver). apply (lm_lower _ _ _ _ Hl).
  - unfold load_s. rewrite Hread by (unfold ptr_ranges; set_solver). apply (lm_upper _ _ _ _ Hl).
  - unfold load_s. rewrite Hread by (unfold ptr_ranges; set_solver). apply (lm_stride _ _ _ _ Hl).
Qed.

(** What the threads of a team find and where: thread [t] has the OpenMP state
    [omps t] and the pointers [ptrs t], which lie apart from those of others. *)
Context (w n lo hi incr chunk : Z) (level : Level) (omps : Z → Omp) (ptrs : Z → loop_ptrs).
Context (Hw : width w) (Hloop : static_loop w n lo hi incr) (Hn : numThreads level = n).
Context (Hteam : ∀ t, 0 ≤ t < n → team_member level t (omps t)).
Context (Hapart : ∀ t u r s, 0 ≤ t < n → 0 ≤ u < n → t ≠ u →
  r ∈ ptr_ranges w (ptrs t) → s ∈ ptr_ranges w (ptrs u) → iov_disjoint r s).

Definition team_call (t : Z) : M Mem unit :=
  as_thread (omps t) (kmpc_for_static_init_at w sch_static (ptrs t) incr chunk).

Definition given (m : Mem) (t : Z) : Prop := ∃ a st, loop_mem w m (ptrs t) (mkLoop a lo hi st).
Definition taken (m : Mem) (t : Z) : Prop :=
  iterations_at w m (ptrs t) incr = thread_iterations w n sch_static lo hi incr chunk t.

Definition team_ranges : list (Z * Z) := flat_map (λ t, ptr_ranges w (ptrs t)) (seqZ 0 n).

Lemma team_range t r : 0 ≤ t < n → r ∈ ptr_ranges w (ptrs t) → r ∈ team_ranges.
Proof.
  intros Ht Hr. unfold team_ranges. apply list_elem_of_In, in_flat_map. exists t.
  split; [apply list_elem_of_In, elem_of_seqZ; lia|by apply list_elem_of_In].
Qed.

(** One thread's call takes its share and leaves those of the others. *)
Lemma team_call_run t m :
  0 ≤ t < n → given m t →
  ∃ m', team_call t m = (Ret (), m') ∧ taken m' t ∧ mem_size m' = mem_size m ∧ untouched team_ranges m m' ∧
    ∀ u, 0 ≤ u < n → u ≠ t → (given m u → given m' u) ∧ (taken m u → taken m' u).
Proof.
  intros Ht (a & st & Hl). destruct (for_static_init_static w n t lo hi incr chunk Hloop Ht) as (l' & Hl' & _).
  destruct (static_init_run w n level (omps t) t sch_static (ptrs t) incr chunk m _ l' Hw Hn (Hteam t Ht) Hl Hl')
    as (m' & Hrun & Hend & Hc). exists m'. split; [done|]. split.
  { unfold taken, iterations_at, thread_iterations. by rewrite (lm_lower _ _ _ _ Hend), (lm_upper _ _ _ _ Hend), Hl'. }
  split; [apply Hc|]. split; [eapply untouched_sub; [|apply Hc]; intros r; by apply team_range|].
  intros u Hu Hut. split.
  - intros (a' & st' & Hlu). exists a', st'. eapply loop_mem_frame; [done..|]. intros r s. by apply Hapart.
  - unfold taken. intros <-. destruct Hc as [Hsz Hun]. unfold iterations_at, load_s.
    assert (∀ r, r ∈ ptr_ranges w (ptrs u) → Forall (iov_disjoint r) (ptr_ranges w (ptrs t))) as Hd.
    { intros r Hr. apply Forall_forall. intros s. by apply (Hapart u t). }
    rewrite <- !(mem_read_untouched m m' (ptr_ranges w (ptrs t))); [done..| |done|done|]; apply Hd; [|].
    { by right; right; left. }
    { by right; left. }
Qed.

Lemma team_calls_run ts m :
  NoDup ts → (∀ t, t ∈ ts → 0 ≤ t < n) → (∀ t, t ∈ ts → given m t) →
  ∃ m', for_each ts team_call m = (Ret (), m') ∧ (∀ t, t ∈ ts → taken m' t) ∧
    mem_size m' = mem_size m ∧ untouched team_ranges m m' ∧
    ∀ u, 0 ≤ u < n → u ∉ ts → taken m u → taken m' u.
Proof.
  intros Hnd. revert m. induction Hnd as [|t ts Ht _ IH]; intros m Hrange Hgiven.
  { exists m. split; [done|]. split; [intros t Ht; by apply not_elem_of_nil in Ht|]. done. }
  destruct (team_call_run t m) as (m1 & Hrun & Htaken & Hsz & Hun & Hothers); [apply Hrange; left|apply Hgiven; left|].
  destruct (IH m1) as (m' & Hrest & Hall & Hsz' & Hun' & Hkeep).
  { intros u Hu. apply Hrange. by right. }
  { intros u Hu. apply Hothers; [apply Hrange; by right|congruence|apply Hgiven; by right]. }
  exists m'. cbn [for_each]. rewrite (run_bind_ret _ _ _ _ _ Hrun). split; [done|]. split.
  { intros u [->|Hu]%elem_of_cons; [|by apply Hall]. apply Hkeep; [apply Hrange; left|done|done]. }
  split; [congruence|]. split; [by transitivity m1|].
  intros u Hu Hnin Hut. rewrite not_elem_of_cons in Hnin. destruct Hnin as [Hne Hnin].
  apply Hkeep; [done|done|]. by apply Hothers.
Qed.

(** C11: A team shares a loop.  The threads of a team call
    [__kmpc_for_static_init_4] or [_8] under the static schedule, in any order,
    each with four pointers of its own into the memory that holds the bounds of
    the loop.  No call throws; the iterations from the lower to the upper bound
    that each thread then finds, one thread after the other, are exactly those
    of the loop in order, none lost and none run twice; and nothing but the
    integers pointed to has changed. *)
Theorem team_shares_loop (ts : list Z) m :
  ts ≡ₚ seqZ 0 n → (∀ t, 0 ≤ t < n → given m t) →
  ∃ m', for_each ts team_call m = (Ret (), m') ∧
    mjoin ((λ t, iterations_at w m' (ptrs t) incr) <$> seqZ 0 n) = iterations lo hi incr ∧
    mem_size m' = mem_size m ∧ untouched team_ranges m m'.
Proof.
  intros Hts Hgiven. assert (∀ t, t ∈ ts ↔ 0 ≤ t < n) as Hin by (intros t; rewrite Hts, elem_of_seqZ; lia).
  destruct (team_calls_run ts m) as (m' & Hrun & Htaken & Hsz & Hun & _).
  { rewrite Hts. apply NoDup_seqZ. }
  { intros t. apply Hin. }
  { intros t Ht. by apply Hgiven, Hin. }
  exists m'. split; [done|]. split; [|done].
  rewrite <- (for_static_init_partition w n lo hi incr chunk Hloop). f_equal.
  apply list_fmap_ext. intros i t Ht. apply lookup_seqZ in Ht as [-> Hi]. apply Htaken, Hin. lia.
Qed.
End team.

(** * The shared variables of a fork *)

Lemma words32_size bs : Z.of_nat (length (words32 bs)) = Z.of_nat (length bs) / 4.
Proof.
  revert bs. fix IH 1. intros [|b0 [|b1 [|b2 [|b3 bs]]]]; [reflexivity..|].
  cbn [words32 length]. rewrite Nat2Z.inj_succ, IH.
  replace (Z.of_nat (S (S (S (S (length bs)))))) with (Z.of_nat (length bs) + 1 * 4) by lia.
  rewrite Z.div_add by done. lia.
Qed.

Lemma words32_in_range bs : Forall (in_u 8) bs → Forall (in_u 32) (words32 bs).
Proof.
  revert bs. fix IH 1. intros [|b0 [|b1 [|b2 [|b3 bs]]]] Hbs; [constructor..|].
  rewrite !Forall_cons in Hbs. destruct Hbs as (H0 & H1 & H2 & H3 & Hbs). cbn [words32].
  constructor; [|by apply IH].
  pose proof (little_endian_to_Z_bound 8 [b0; b1; b2; b3]) as Hb. unfold in_u in *. apply Hb; [lia|].
  rewrite !Forall_cons. split_and!; try lia; constructor.
Qed.

(** What a fork assumes of the array of shared variables holds of the module's
    memory. *)
Lemma omp_env_at_laws (env : OmpEnv) (m : Mem) :
  OmpEnvLaws → Forall (in_u 8) m → OmpEnvLaws (H := omp_env_at env m).
Proof.
  intros Hlaws Hm. split; [apply Hlaws|]. cbn [memoryArray_u32 omp_env_at]. intros p n ws Hws Hn.
  unfold memory_words, mem_read in Hws. destruct (in_mem m p (4 * n)) eqn:Hin; [|done]. injection Hws as <-.
  apply in_mem_true in Hin as [Hp Hb]. unfold mem_size in Hb. split.
  - rewrite words32_size, length_take, length_drop, Nat.min_l by lia.
    rewrite Z2Nat.id by lia. rewrite Z.mul_comm, Z.div_mul by done. done.
  - by apply words32_in_range, Forall_take, Forall_drop.
Qed.

(** * A concrete team *)

Definition demo_team_level : Level := fromParentLevel (Level_new 1) (Level_new 2).
Definition demo_ptrs (t : Z) : loop_ptrs := mkPtrs (16 * t) (16 * t + 4) (16 * t + 8) (16 * t + 12).
(** For each of two threads: a flag, the bounds 3 and 11, a stride. *)
Definition demo_loop_mem : Mem :=
  flat_map le32 [0; 3; 11; 1; 0; 3; 11; 1] ++ replicate 8 7.

Lemma demo_given t : 0 ≤ t < 2 → given 32 3 11 demo_ptrs demo_loop_mem t.
Proof.
  intros Ht. exists 0, 1. assert (t = 0 ∨ t = 1) as [-> | ->] by lia.
  - split; [by repeat constructor| |reflexivity..].
    intros [|[|[|[|i]]]] [|[|[|[|j]]]] r s Hne Hr Hs; try done; cbn in Hr, Hs; simplify_eq; unfold iov_disjoint; change (32 / 8) with 4; cbn; lia.
  - split; [by repeat constructor| |reflexivity..].
    intros [|[|[|[|i]]]] [|[|[|[|j]]]] r s Hne Hr Hs; try done; cbn in Hr, Hs; simplify_eq; unfold iov_disjoint; change (32 / 8) with 4; cbn; lia.
Qed.

Lemma demo_apart t u r s :
  0 ≤ t < 2 → 0 ≤ u < 2 → t ≠ u → r ∈ ptr_ranges 32 (demo_ptrs t) → s ∈ ptr_ranges 32 (demo_ptrs u) → iov_disjoint r s.
Proof.
  intros Ht Hu Hne Hr Hs. unfold ptr_ranges in *. change (32 / 8) with 4 in *. rewrite !elem_of_cons in Hr, Hs.
  unfold iov_disjoint. assert (t = 0 ∧ u = 1 ∨ t = 1 ∧ u = 0) as [[-> ->]|[-> ->]] by lia;
    destruct Hr as [->|[->|[->|[->|Hr]]]]; destruct Hs as [->|[->|[->|[->|Hs]]]]; cbn;
    first [lia | by apply not_elem_of_nil in Hr | by apply not_elem_of_nil in Hs].
Qed.

Lemma team_shares_loop_witness :
  ∃ m', for_each [1; 0] (team_call 32 2 0 (demo_omp demo_team_level) demo_ptrs) demo_loop_mem = (Ret (), m') ∧
    mjoin ((λ t, iterations_at 32 m' (demo_ptrs t) 2) <$> seqZ 0 2) = [3; 5; 7; 9; 11].
Proof.
  assert (static_loop 32 2 3 11 2) as Hloop by (split; unfold in_s; lia).
  destruct (team_shares_loop 32 2 3 11 2 0 demo_team_level (demo_omp demo_team_level) demo_ptrs
    ltac:(by left) Hloop eq_refl) with (ts := [1; 0]) (m := demo_loop_mem) as (m' & Hrun & Hit & _).
  - intros t Ht. split; [done|]. assert (t = 0 ∨ t = 1) as [-> | ->] by lia; reflexivity.
  - intros t u r s. apply demo_apart.
  - apply Permutation_swap.
  - apply demo_given.
  - exists m'. split; [exact Hrun|exact Hit].
Defined.
