(* ===== verification/Upload.v ===== *)
(** The upload server (src/upload/UploadServer.cpp): functions, Python functions, shared
    files and state that clients put and get over HTTP.  The library of HTTP is an
    interface; the loop that listens is in [Startup]. *)

From S2P Require Import Prelude WasmBytes StateCalls S3 Host FileLoader Codegen.

(** * Requests and responses *)

(** What the handlers read of a request: the path of its URI, the header with the path of
    a shared file, and the body. *)
Record http_request := mkRequest { relative_uri : string; file_path : option string; body : list Z }.

Inductive status_code : Type := OK | BadRequest | InternalError.
(** A response, with its body and whether it has the permissive headers. *)
Record http_response := mkResponse { status : status_code; text : list Z; permissive : bool }.
Definition response (s : status_code) (str : string) : http_response := mkResponse s (bytes_of_string str) false.
Definition setPermissiveHeaders (r : http_response) : http_response := mkResponse (status r) (text r) true.

(** The URIs of cpprest, and the messages of faabric for a function. *)
Class UploadHost := {
  uri_decode : string → string;
  split_path : string → list string;
  messageFactory : string → string → FuncMsg }.
Class UploadHostLaws `{UploadHost} : Prop := {
  messageFactory_user u f : user (messageFactory u f) = u;
  messageFactory_function u f : function (messageFactory u f) = f }.

Definition FUNCTION_URL_PART : string := "f".
Definition PYTHON_URL_PART : string := "p".
Definition STATE_URL_PART : string := "s".
Definition SHARED_FILE_URL_PART : string := "file".
Definition EMPTY_FILE_RESPONSE : string := "Empty response".

Section upload.
Context `{Rados} `{Host} `{Compilers} `{StateApi} `{UploadHost} (conf : FaasmConfig).

(** The server: the store and the host, the state of faabric, and the responses of a
    request. *)
Record Upload := mkUpload { up_world : World; up_state : KVS; replies : list http_response }.
Abbreviation UM := (M Upload).

Definition on_world {A} (x : M World A) : UM A :=
  zoom up_world (λ w s, mkUpload w (up_state s) (replies s)) x.
Definition on_state {A} (x : M KVS A) : UM A :=
  zoom up_state (λ t s, mkUpload (up_world s) t (replies s)) x.
Definition reply (r : http_response) : UM unit :=
  modify (λ s, mkUpload (up_world s) (up_state s) (replies s ++ [r])).

(** ** Parts of a request *)

Record PathParts := mkParts { relativeUri : string; pathParts : list string }.
Definition PathParts_of (request : http_request) : PathParts :=
  let uri := uri_decode (relative_uri request) in mkParts uri (split_path uri).

(** A missing part is answered before the exception is thrown. *)
Definition getPart (parts : PathParts) (idx : nat) : UM string :=
  match pathParts parts !! idx with
  | Some p => mret p
  | None =>
      let errorMsg := "Bad URL, expected single path part " +:+ relativeUri parts in
      reply (response BadRequest errorMsg) ;; throw (InvalidArgument errorMsg)
  end.

(** [PATH_PART] returns from the handler when the part is missing. *)
Definition PATH_PART (parts : PathParts) (idx : nat) (rest : string → UM unit) : UM unit := λ s,
  match getPart parts idx s with
  | (Ret p, s') => rest p s'
  | (Throw _, s') => (Ret (), s')
  end.
Definition PATH_HEADER (request : http_request) (rest : string → UM unit) : UM unit :=
  match file_path request with
  | Some p => rest p
  | None => reply (response BadRequest "Bad request, expected file path header FilePath")
  end.

(** ** Getting *)

Definition getState (user key : string) : UM (list Z) :=
  stateSize ← on_state (kv_stateSize user key);
  kv ← on_state (getKV user key (Some stateSize));
  stateValue ← on_state (kv_do kv KGet);
  if Z.of_nat (length stateValue) <? stateSize then throw (Undefined "read past the end of the value")
  else mret (take (Z.to_nat stateSize) stateValue).

Definition handleGet (request : http_request) : UM unit :=
  if decide (uri_decode (relative_uri request) = "/ping")
  then reply (setPermissiveHeaders (response OK "PONG"))
  else
    let parts := PathParts_of request in
    let answer (returnBytes : list Z) : UM unit :=
      reply (setPermissiveHeaders (match returnBytes with
        | [] => response InternalError EMPTY_FILE_RESPONSE
        | _ => mkResponse OK returnBytes false
        end)) in
    PATH_PART parts 0 (λ pathType,
      if decide (pathType = STATE_URL_PART) then
        PATH_PART parts 1 (λ user, PATH_PART parts 2 (λ key, getState user key ≫= answer))
      else if decide (pathType = SHARED_FILE_URL_PART) then
        PATH_HEADER request (λ filePath, on_world (loadSharedFile conf false filePath) ≫= answer)
      else reply (response BadRequest ("Unrecognised GET request to " +:+ relativeUri parts))).

Definition handleOptions (request : http_request) : UM unit := reply (setPermissiveHeaders (response OK "")).

(** ** Putting *)

Definition when_body (request : http_request) (x : UM unit) : UM unit :=
  if decide (0 < length (body request))%nat then x else mret ().

(** [kv->set] copies as many bytes as the value has. *)
Definition handleStateUpload (request : http_request) (user key : string) : UM unit :=
  when_body request
    (let data := body request in
     kv ← on_state (getKV user key (Some (Z.of_nat (length data))));
     s ← get;
     let n := kv_size kv (up_state s) in
     if Z.of_nat (length data) <? n then throw (Undefined "read past the end of the body")
     else
       on_state (kv_do kv (KSet (take (Z.to_nat n) data))) ;;
       on_state (kv_do kv KPushFull) ;; mret ()) ;;
  reply (setPermissiveHeaders (response OK "State upload complete
")).

Definition extractRequestBody (request : http_request) (msg : FuncMsg) : FuncMsg :=
  if decide (0 < length (body request))%nat
  then mkFuncMsg (user msg) (function msg) (string_of_bytes (body request)) (ispython msg) (pythonuser msg)
         (pythonfunction msg)
  else msg.

Definition handlePythonFunctionUpload (request : http_request) (user function : string) : UM unit :=
  let msg := extractRequestBody request (mkFuncMsg "" "" "" true user function) in
  on_world (uploadPythonFunction conf false msg) ;;
  reply (response OK "Python function upload complete
").

Definition handleSharedFileUpload (request : http_request) (path : string) : UM unit :=
  when_body request (on_world (uploadSharedFile conf false path (body request))) ;;
  reply (response OK "Shared file uploaded
").

(** The function is stored without the cache of the host; its code is generated from what
    the loader with the cache gives. *)
Definition handleFunctionUpload (request : http_request) (user function : string) : UM unit :=
  let msg := extractRequestBody request (messageFactory user function) in
  on_world (uploadFunction conf false msg) ;;
  on_world (codegenForFunction conf msg false) ;;
  reply (response OK "Function upload complete
").

Definition handlePut (request : http_request) : UM unit :=
  let parts := PathParts_of request in
  PATH_PART parts 0 (λ pathType,
    if decide (pathType = STATE_URL_PART) then
      PATH_PART parts 1 (λ user, PATH_PART parts 2 (λ key, handleStateUpload request user key))
    else if decide (pathType = PYTHON_URL_PART) then
      PATH_PART parts 1 (λ user, PATH_PART parts 2 (λ function, handlePythonFunctionUpload request user function))
    else if decide (pathType = SHARED_FILE_URL_PART) then
      PATH_HEADER request (λ filePath, handleSharedFileUpload request filePath)
    else if decide (pathType = FUNCTION_URL_PART) then
      PATH_PART parts 1 (λ user, PATH_PART parts 2 (λ function, handleFunctionUpload request user function))
    else reply (response BadRequest ("Unrecognised PUT request to " +:+ relativeUri parts))).
End upload.

(** * Every request is answered once *)

Inductive method : Type := GET | PUT | OPTIONS.

Section answers.
Context `{Rados} `{Host} `{Compilers} `{StateApi} `{UploadHost} (conf : FaasmConfig).
Abbreviation UM := (M Upload).

(** The handlers that [listen] registers. *)
Definition listen_handler (m : method) (request : http_request) : UM unit :=
  match m with GET => handleGet conf request | PUT => handlePut conf request | OPTIONS => handleOptions request end.

Definition quiet (s s' : Upload) : Prop := replies s' = replies s.
#[export] Instance quiet_preorder : PreOrder quiet.
Proof. split; [by intros s|]. intros a b c Hab Hbc. unfold quiet in *. congruence. Qed.

(** One response when the handler returns, none when it throws; [P] relates it to the
    states before and after. *)
Definition answers (P : Upload → Upload → http_response → Prop) (x : UM unit) : Prop := ∀ s,
  match x s with
  | (Ret _, s') => ∃ r, replies s' = replies s ++ [r] ∧ P s s' r
  | (Throw _, s') => replies s' = replies s
  end.
Definition accepted (s s' : Upload) (r : http_response) : Prop := status r ≠ BadRequest.
Definition refused_unchanged (s s' : Upload) (r : http_response) : Prop :=
  status r = BadRequest → up_world s' = up_world s ∧ up_state s' = up_state s.

Lemma answers_accepted x : answers accepted x → answers refused_unchanged x.
Proof.
  intros Hx s. specialize (Hx s). destruct (x s) as [[[]|e] s']; [|done].
  destruct Hx as (r & Hr & Hs). exists r. split; [done|]. by intros Hb.
Qed.
Lemma answers_reply r : answers refused_unchanged (reply r).
Proof. intros s. by exists r. Qed.
Lemma accepted_reply r : status r ≠ BadRequest → answers accepted (reply r).
Proof. intros Hr s. by exists r. Qed.
Lemma accepted_bind {A} (x : UM A) f : keeps quiet x → (∀ a, answers accepted (f a)) → answers accepted (x ≫= f).
Proof.
  intros Hx Hf s. rewrite run_bind. specialize (Hx s). destruct (x s) as [[a|e] s1]; [|done]. cbn [snd] in Hx.
  specialize (Hf a s1). unfold quiet in Hx. destruct (f a s1) as [[[]|e] s2]; [|congruence].
  destruct Hf as (r & Hr & Hs). exists r. split; [congruence|done].
Qed.
Lemma answers_part parts idx rest :
  (∀ p, answers refused_unchanged (rest p)) → answers refused_unchanged (PATH_PART parts idx rest).
Proof.
  intros Hr s. unfold PATH_PART, getPart. destruct (pathParts parts !! idx); [apply Hr|].
  eexists. split; [reflexivity|]. by intros _.
Qed.
Lemma answers_header request rest :
  (∀ p, answers refused_unchanged (rest p)) → answers refused_unchanged (PATH_HEADER request rest).
Proof. intros Hr. unfold PATH_HEADER. destruct (file_path request); [apply Hr|apply answers_reply]. Qed.

Lemma quiet_world {A} (x : M World A) : keeps quiet (on_world x).
Proof. intros s. unfold on_world, zoom. by destruct (x _). Qed.
Lemma quiet_state {A} (x : M KVS A) : keeps quiet (on_state x).
Proof. intros s. unfold on_state, zoom. by destruct (x _). Qed.
Lemma quiet_body request x : keeps quiet x → keeps quiet (when_body request x).
Proof. intros Hx. unfold when_body. destruct (decide _); [done|apply (keeps_ret quiet)]. Qed.

Ltac quiet_step :=
  lazymatch goal with
  | |- keeps _ (get ≫= _) => apply (keeps_get quiet); intros ?
  | |- keeps _ (_ ≫= _) => apply (keeps_bind quiet); [|intros ?]
  | |- keeps _ (on_world _) => apply quiet_world
  | |- keeps _ (on_state _) => apply quiet_state
  | |- keeps _ (mret _) => apply (keeps_ret quiet)
  | |- keeps _ (throw _) => apply (keeps_throw quiet)
  | |- keeps _ (when_body _ _) => apply quiet_body; cbv zeta
  | |- keeps _ (if _ then _ else _) => case_match
  end.

Lemma answers_put request : answers refused_unchanged (handlePut conf request).
Proof.
  apply answers_part. intros pathType. repeat case_decide.
  - do 2 (apply answers_part; intros ?). apply answers_accepted, accepted_bind; [|intros []; by apply accepted_reply].
    by repeat quiet_step.
  - do 2 (apply answers_part; intros ?). apply answers_accepted, accepted_bind; [|intros []; by apply accepted_reply].
    by repeat quiet_step.
  - apply answers_header. intros p. apply answers_accepted, accepted_bind; [|intros []; by apply accepted_reply].
    by repeat quiet_step.
  - do 2 (apply answers_part; intros ?). apply answers_accepted.
    do 2 (apply accepted_bind; [by repeat quiet_step|intros []]). by apply accepted_reply.
  - apply answers_reply.
Qed.
Lemma answers_get request : answers refused_unchanged (handleGet conf request).
Proof.
  unfold handleGet. destruct (decide (uri_decode _ = _)); [apply answers_reply|].
  assert (∀ bs, answers accepted (reply (setPermissiveHeaders (match bs with
    [] => response InternalError EMPTY_FILE_RESPONSE | _ => mkResponse OK bs false end)))) as Hans
    by (intros [|b bs]; by apply accepted_reply).
  apply answers_part. intros pathType. repeat case_decide.
  - do 2 (apply answers_part; intros ?). apply answers_accepted, accepted_bind; [|done].
    unfold getState. by repeat quiet_step.
  - apply answers_header. intros p. apply answers_accepted, accepted_bind; [apply quiet_world|done].
  - apply answers_reply.
Qed.

(** C8: a request is answered exactly once when its handler returns and not at all when it
    throws; one that is refused as bad changes neither the store, nor the host, nor the
    state. *)
Theorem request_answered_once m request (s : Upload) :
  match listen_handler m request s with
  | (Ret _, s') => ∃ r, replies s' = replies s ++ [r] ∧
      (status r = BadRequest → up_world s' = up_world s ∧ up_state s' = up_state s)
  | (Throw _, s') => replies s' = replies s
  end.
Proof.
  destruct m; [apply answers_get|apply answers_put|apply answers_reply].
Qed.
End answers.

(** * What is put *)

Section put.
Context `{Ra : Rados} `{RL : !RadosLaws} `{Ho : Host} `{HL : !HostLaws} `{Co : Compilers} `{SA : StateApi}
  `{UH : UploadHost} `{UL : !UploadHostLaws} (conf : FaasmConfig).
Abbreviation UM := (M Upload).

Lemma bytes_of_string_of_bytes bs : Forall (λ b, 0 ≤ b < 256) bs → bytes_of_string (string_of_bytes bs) = bs.
Proof.
  unfold bytes_of_string, string_of_bytes. induction 1 as [|b bs Hb _ IH]; [done|].
  cbn. f_equal; [|exact IH]. rewrite Ascii.nat_ascii_embedding by lia. lia.
Qed.

(** Without the cache an upload changes one key, and nothing of the host but directories. *)
Definition puts (path : string) (bytes : list Z) (w w' : World) : Prop :=
  connected (s3Bucket conf) (w_s3 w') ∧ stores conf path bytes w w' ∧
  ∀ q b, cached q w = Some b → cached q w' = Some b.

Lemma puts_from path bs w w0 w' :
  w_s3 w0 = w_s3 w → (∀ q b, cached q w = Some b → cached q w0 = Some b) → puts path bs w0 w' → puts path bs w w'.
Proof.
  intros Hs Hc (Hcon & Hst & Hk). split; [done|]. split; [by eapply stores_from|]. intros q b Hq. by apply Hk, Hc.
Qed.
Lemma uploadFileBytes_puts path local bs w w' :
  uploadFileBytes conf false path local bs w = (Ret (), w') → puts path bs w w'.
Proof.
  intros Hup. pose proof (uploadFileBytes_ret _ _ _ _ _ _ _ Hup) as (Hcon & _ & _).
  pose proof (uploadFileBytes_stores _ _ _ _ _ _ _ Hup) as Hst. split; [done|]. split; [done|].
  unfold uploadFileBytes in Hup. apply run_bind_inv in Hup as ([] & w1 & Hs & [= <-]).
  unfold on_s3, zoom in Hs. destruct (addKeyBytes _ _ _ _) as [[[]|e] s1]; [|done]. injection Hs as <-. done.
Qed.
Lemma uploadFileString_puts path local str w w' :
  uploadFileString conf false path local str w = (Ret (), w') → puts path (bytes_of_string str) w w'.
Proof.
  unfold uploadFileString. intros ([] & w1 & Hs & [= <-])%run_bind_inv.
  unfold on_s3, zoom in Hs. destruct (addKeyStr _ _ _ _) as [[[]|e] s1] eqn:Hadd; [|done]. injection Hs as <-.
  apply addKeyStr_ret in Hadd as (Hcon & Hobj & Hother). split; [done|]. split; [|done]. split; [done|].
  intros q Hq. apply Hother. congruence.
Qed.
Lemma getSharedFileFile_ret path w local w' :
  getSharedFileFile conf path w = (Ret local, w') →
  w_s3 w' = w_s3 w ∧ ∀ q b, cached q w = Some b → cached q w' = Some b.
Proof.
  unfold getSharedFileFile. intros ([] & w1 & Hc & [= _ <-])%run_bind_inv. by apply createDirectories_ret in Hc.
Qed.
Lemma getFunctionFile_ret msg w local w' :
  getFunctionFile conf msg w = (Ret local, w') →
  (w_s3 w' = w_s3 w ∧ ∀ q b, cached q w = Some b → cached q w' = Some b) ∧
  local = path_append (path_append (path_append (functionDir conf) (user msg)) (function msg)) FUNC_FILENAME.
Proof.
  unfold getFunctionFile, getDir. intros (p & w1 & Hd & Hr)%run_bind_inv.
  injection Hr as <- <-. apply run_bind_inv in Hd as ([] & w2 & Hc & [= <- <-]).
  split; [|done]. unfold when in Hc. by apply createDirectories_ret in Hc.
Qed.
Lemma uploadSharedFile_puts path bs w w' :
  uploadSharedFile conf false path bs w = (Ret (), w') → puts path bs w w'.
Proof.
  unfold uploadSharedFile. intros (l & w1 & [Hs Hc]%getSharedFileFile_ret & Hup)%run_bind_inv.
  eapply puts_from; [exact Hs|exact Hc|]. by eapply uploadFileBytes_puts.
Qed.
Lemma uploadFunction_puts msg w w' :
  uploadFunction conf false msg w = (Ret (), w') →
  puts (getKey msg FUNC_FILENAME) (bytes_of_string (inputdata msg)) w w'.
Proof.
  unfold uploadFunction. intros (l & w1 & [[Hs Hc] _]%getFunctionFile_ret & Hup)%run_bind_inv.
  eapply puts_from; [exact Hs|exact Hc|]. by eapply uploadFileString_puts.
Qed.

Lemma with_body request (x : UM unit) : body request ≠ [] → when_body request x = x.
Proof. intros Hb. unfold when_body. destruct (body request); [done|]. rewrite decide_True; [done|cbn; lia]. Qed.

(** The handler reaches its last part. *)
Lemma run_part parts idx p rest (s : Upload) :
  pathParts parts !! idx = Some p → PATH_PART parts idx rest s = rest p s.
Proof. intros Hp. unfold PATH_PART, getPart. by rewrite Hp. Qed.
Lemma run_on_world {A} (x : M World A) (s : Upload) o w :
  x (up_world s) = (o, w) → on_world x s = (o, mkUpload w (up_state s) (replies s)).
Proof. intros Hx. unfold on_world, zoom. by rewrite Hx. Qed.
Lemma on_world_inv {A} (x : M World A) (s : Upload) a s' :
  on_world x s = (Ret a, s') → x (up_world s) = (Ret a, up_world s') ∧ up_state s' = up_state s ∧ replies s' = replies s.
Proof. unfold on_world, zoom. destruct (x (up_world s)) as [o w]. by intros [= -> <-]. Qed.

(** ** Shared files *)

Definition parts_are (request : http_request) (ps : list string) : Prop :=
  ∃ rest, split_path (uri_decode (relative_uri request)) = ps ++ rest.

(** A shared file that is put is what is got under the same path, by any server on the
    same store, whatever the caches of the hosts hold. *)
Theorem shared_file_roundtrip request request' path (s s' t : Upload) :
  parts_are request [SHARED_FILE_URL_PART] → parts_are request' [SHARED_FILE_URL_PART] →
  uri_decode (relative_uri request') ≠ "/ping" →
  file_path request = Some path → file_path request' = Some path →
  body request ≠ [] → Z.of_nat (length (body request)) ≤ SIZE_MAX / 2 →
  handlePut conf request s = (Ret (), s') →
  w_s3 (up_world t) = w_s3 (up_world s') →
  (create_directories (parent_path (path_append (sharedFilesDir conf) path)) (w_host (up_world t))).1 = Ret () →
  ∃ t', handleGet conf request' t = (Ret (), t') ∧ replies t' = replies t ++ [mkResponse OK (body request) true].
Proof.
  intros [ps Hps] [ps' Hps'] Hping Hfp Hfp' Hbody Hlen Hput Hs3 Hdir.
  unfold handlePut in Hput. rewrite (run_part _ 0 SHARED_FILE_URL_PART) in Hput by (unfold PathParts_of; cbn; by rewrite Hps).
  rewrite 2!decide_False, decide_True in Hput by done. unfold PATH_HEADER in Hput. rewrite Hfp in Hput.
  unfold handleSharedFileUpload in Hput. rewrite with_body in Hput by done.
  apply run_bind_inv in Hput as ([] & s1 & [Hup _]%on_world_inv & [= <-]). cbn [up_world] in *.
  apply uploadSharedFile_puts in Hup as (Hcon & [Hst _] & _).
  set (dir := parent_path _) in *. destruct (create_directories dir (w_host (up_world t))) as [o k] eqn:Hk. cbn in Hdir. subst o.
  set (w1 := mkWorld (w_s3 (up_world t)) k (w_shared (up_world t)) (w_calls (up_world t))).
  destruct (loadFileBytes_store conf false path (path_append (sharedFilesDir conf) path) true w1 (body request))
    as (w2 & Hload & _); [by left|unfold w1; cbn; by rewrite Hs3|unfold stored in *; unfold w1; cbn; by rewrite Hs3|done|done|].
  assert (loadSharedFile conf false path (up_world t) = (Ret (body request), w2)) as Hgot.
  { unfold loadSharedFile, getSharedFileFile. fold dir.
    rewrite (run_bind_ret _ _ _ (path_append (sharedFilesDir conf) path) w1).
    2:{ rewrite (run_bind_ret _ _ _ () w1); [done|]. unfold createDirectories. by rewrite (run_on_host _ _ _ _ Hk). }
    rewrite (run_bind_ret _ _ _ _ _ Hload). by rewrite decide_False. }
  eexists. split.
  { unfold handleGet. rewrite decide_False by done. cbv zeta.
    rewrite (run_part _ 0 SHARED_FILE_URL_PART) by (unfold PathParts_of; cbn; by rewrite Hps').
    cbn [decide]. rewrite decide_False, decide_True by done. unfold PATH_HEADER. rewrite Hfp'.
    by rewrite (run_bind_ret _ _ _ _ _ (run_on_world _ _ _ _ Hgot)). }
  cbn. by destruct (body request).
Qed.
(** ** Functions *)

(** Where the host keeps the wasm of a function and the hash of its code. *)
Definition wasm_file (msg : FuncMsg) : string :=
  path_append (path_append (path_append (functionDir conf) (user msg)) (function msg)) FUNC_FILENAME.
Definition hash_file (msg : FuncMsg) (t : CodegenTargetSpec) : string :=
  getHashFilePath (path_append (path_append (path_append (objectFileDir conf) (user msg)) (function msg))
    (FUNC_OBJECT_FILENAME t)).

Lemma put_function_inv request u f (s s' : Upload) :
  parts_are request [FUNCTION_URL_PART; u; f] → body request ≠ [] → Forall (λ b, 0 ≤ b < 256) (body request) →
  handlePut conf request s = (Ret (), s') →
  ∃ msg w1 w2, user msg = u ∧ function msg = f ∧ puts (getKey msg FUNC_FILENAME) (body request) (up_world s) w1 ∧
    codegenForFunction conf msg false w1 = (Ret (), w2) ∧
    s' = mkUpload w2 (up_state s) (replies s ++ [response OK "Function upload complete
"]).
Proof.
  intros [ps Hps] Hb Hbytes Hput. unfold handlePut in Hput.
  rewrite (run_part _ 0 FUNCTION_URL_PART) in Hput by (unfold PathParts_of; cbn; by rewrite Hps).
  rewrite 3!decide_False, decide_True in Hput by done.
  rewrite (run_part _ 1 u), (run_part _ 2 f) in Hput by (unfold PathParts_of; cbn; by rewrite Hps).
  unfold handleFunctionUpload in Hput. cbv zeta in Hput. set (msg := extractRequestBody _ _) in Hput.
  apply run_bind_inv in Hput as ([] & s1 & [Hup [Hst1 Hr1]]%on_world_inv & Hput).
  apply run_bind_inv in Hput as ([] & s2 & [Hgen [Hst2 Hr2]]%on_world_inv & [= <-]).
  assert (user msg = u ∧ function msg = f ∧ bytes_of_string (inputdata msg) = body request) as (Hu & Hf & Hi).
  { unfold msg, extractRequestBody. destruct (body request) as [|b bs] eqn:Hbody; [done|].
    rewrite decide_True by (cbn; lia). cbn [user function inputdata].
    rewrite bytes_of_string_of_bytes by done. by rewrite messageFactory_user, messageFactory_function. }
  apply uploadFunction_puts in Hup. rewrite Hi in Hup.
  exists msg, (up_world s1), (up_world s2). split_and!; [done..|]. by rewrite Hst2, Hst1, Hr2, Hr1.
Qed.

Lemma loadFunctionWasm_cached msg w bs w' b :
  loadFunctionWasm conf true msg w = (Ret b, w') → cached (wasm_file msg) w = Some bs →
  b = bs ∧ w_s3 w' = w_s3 w ∧ ∀ q x, cached q w = Some x → cached q w' = Some x.
Proof.
  unfold loadFunctionWasm. intros (l & w1 & [[Hs Hc] ->]%getFunctionFile_ret & Hl)%run_bind_inv Hcached.
  rewrite (loadFileBytes_cached conf _ _ _ _ bs) in Hl by by apply Hc. by injection Hl as <- <-.
Qed.
Lemma loadOldHash_cached msg t w h w' b :
  wasmVm conf = "wavm" → loadOldHash conf msg t w = (Ret b, w') → cached (hash_file msg t) w = Some h →
  b = h ∧ w_s3 w' = w_s3 w.
Proof.
  intros Hvm Hl Hcached. unfold loadOldHash, is_wamr in Hl.
  rewrite bool_decide_eq_false_2 in Hl by (rewrite Hvm; by intros [|]). rewrite decide_True in Hl by done.
  unfold loadFunctionObjectHash in Hl. apply run_bind_inv in Hl as (l & w1 & [[Hs Hc] ->]%getFunctionObjectFile_ret & Hl).
  unfold loadHashFileBytes in Hl. rewrite (loadFileBytes_cached conf _ _ _ _ h) in Hl by by apply Hc.
  by injection Hl as <- <-.
Qed.

(** C7: a function that is put again on a server whose host holds its former wasm and the
    hash of that wasm is answered as complete, and its new wasm is stored, but nothing
    else: the code that workers load stays that of the former wasm. *)
Theorem reupload_keeps_code request u f old t rest (s s' : Upload) :
  let msg := mkFuncMsg u f "" false "" "" in
  wasmVm conf = "wavm" → codegenTargets conf = t :: rest →
  parts_are request [FUNCTION_URL_PART; u; f] → body request ≠ [] → Forall (λ b, 0 ≤ b < 256) (body request) →
  cached (wasm_file msg) (up_world s) = Some old → old ≠ [] → hashBytes old ≠ [] →
  cached (hash_file msg t) (up_world s) = Some (hashBytes old) →
  handlePut conf request s = (Ret (), s') →
  (∃ r, replies s' = replies s ++ [r] ∧ status r = OK) ∧
  stored conf (getKey msg FUNC_FILENAME) (up_world s') = Some (body request) ∧
  ∀ q, trimLeadingSlashes q ≠ trimLeadingSlashes (getKey msg FUNC_FILENAME) →
    stored conf q (up_world s') = stored conf q (up_world s).
Proof.
  intros msg Hvm Ht Hparts Hb Hbytes Hold Hne Hhne Hhash Hput.
  destruct (put_function_inv _ _ _ _ _ Hparts Hb Hbytes Hput) as (m & w1 & w2 & Hu & Hf & (_ & [Hst Hother] & Hc) & Hgen & ->).
  assert (getKey m FUNC_FILENAME = getKey msg FUNC_FILENAME) as Hkey by (unfold getKey; by rewrite Hu, Hf).
  assert (wasm_file m = wasm_file msg) as Hwf by (unfold wasm_file; by rewrite Hu, Hf).
  assert (hash_file m t = hash_file msg t) as Hhf by (unfold hash_file; by rewrite Hu, Hf).
  rewrite Hkey in *. split; [by eexists|]. cbn [up_world].
  unfold codegenForFunction in Hgen. apply run_bind_inv in Hgen as (b & w3 & Hl & Hgen).
  destruct (loadFunctionWasm_cached _ _ old _ _ Hl) as (-> & Hs3 & Hc3); [rewrite Hwf; by apply Hc|].
  rewrite decide_False, Ht in Hgen by done. cbn [codegen_targets] in Hgen. cbv zeta in Hgen.
  apply run_bind_inv in Hgen as (h & w4 & Hlh & Hgen).
  destruct (loadOldHash_cached _ _ _ (hashBytes old) _ _ Hvm Hlh) as [-> Hs4]; [rewrite Hhf; by apply Hc3, Hc|].
  rewrite bool_decide_eq_false_2, bool_decide_eq_true_2 in Hgen by done.
  cbn [negb andb] in Hgen. apply (syncLatest_keeps conf) in Hgen.
  assert (∀ q, stored conf q w2 = stored conf q w1) as Hsame by (intros q; unfold stored; by rewrite Hgen, Hs4, Hs3).
  split; [by rewrite Hsame|]. intros q Hq. rewrite Hsame. by apply Hother.
Qed.
End put.

(** * A concrete server *)

Definition demo_split (str : string) : list string :=
  if decide (str = "/f/u/f") then ["f"; "u"; "f"] else ["file"].
#[export] Instance demo_upload_host : UploadHost :=
  {| uri_decode str := str; split_path := demo_split; messageFactory u f := mkFuncMsg u f "" false "" "" |}.
#[export] Instance demo_upload_laws : UploadHostLaws.
Proof. by split. Qed.

Definition demo_server (w : World) : Upload := mkUpload w ∅ [].
Definition demo_put_file : http_request := mkRequest "/file/" (Some "a.txt") [1; 2; 3].

Lemma shared_file_roundtrip_witness :
  let s' := (handlePut demo_conf demo_put_file (demo_server demo_world)).2 in
  let t := demo_server (mkWorld (w_s3 (up_world s')) ∅ ∅ []) in
  ∃ t', handleGet demo_conf demo_put_file t = (Ret (), t') ∧ replies t' = [mkResponse OK [1; 2; 3] true].
Proof.
  intros s' t. apply (shared_file_roundtrip demo_conf demo_put_file demo_put_file "a.txt" (demo_server demo_world) s' t).
  - by exists [].
  - by exists [].
  - discriminate.
  - reflexivity.
  - reflexivity.
  - discriminate.
  - vm_compute. discriminate.
  - apply run_fst. vm_compute. reflexivity.
  - reflexivity.
  - vm_compute. reflexivity.
Defined.

(** A server that holds a function whose code was generated here. *)
Definition demo_uploaded : Upload := demo_server (codegenForFunction demo_conf demo_func true demo_world).2.
Definition demo_put_again : http_request := mkRequest "/f/u/f" None [9; 9].

Lemma reupload_keeps_code_witness :
  let s' := (handlePut demo_conf demo_put_again demo_uploaded).2 in
  stored demo_conf "u/f/function.wasm" (up_world s') = Some [9; 9] ∧
  stored demo_conf "u/f/function.wasm.x86_64.skylake.o" (up_world s') =
    stored demo_conf "u/f/function.wasm.x86_64.skylake.o" (up_world demo_uploaded).
Proof.
  intros s'.
  destruct (reupload_keeps_code demo_conf demo_put_again "u" "f" [0; 97; 115; 109] demo_targetA [demo_targetB] demo_uploaded s')
    as (_ & Hst & Hother).
  - reflexivity.
  - reflexivity.
  - by exists [].
  - discriminate.
  - apply (bool_decide_unpack _). reflexivity.
  - vm_compute. reflexivity.
  - discriminate.
  - discriminate.
  - vm_compute. reflexivity.
  - apply (run_fst (handlePut demo_conf demo_put_again) demo_uploaded). vm_compute. reflexivity.
  - assert (getKey (mkFuncMsg "u" "f" "" false "" "") FUNC_FILENAME = "u/f/function.wasm") as Hkey by reflexivity.
    rewrite Hkey in Hst, Hother. split; [exact Hst|]. apply Hother. discriminate.
Defined.
