(* ===== verification/Enclave.v ===== *)
(** Functions inside an SGX enclave (src/enclave): the modules that the enclave keeps for the
    faaslets outside, the calls into it (inside/ecalls.cpp, inside/EnclaveWasmModule.cpp)
    and out of it (outside/ocalls.cpp, inside/funcs.cpp), the interface that stands for a
    module outside (outside/EnclaveInterface.cpp), and encryption (inside/crypto). *)

From S2P Require Import Prelude WasmBytes WasmMemory S3 Host FileLoader Wasi FileDescriptor FileSystem Chaining WamrModule.

(** * Errors (enclave/error.h) *)

Definition FAASM_SGX_SUCCESS : Z := 0.
Definition FAASM_SGX_INVALID_PTR : Z := 1.
Definition FAASM_SGX_WAMR_RTE_INIT_FAILED : Z := 2.
Definition FAASM_SGX_WAMR_MODULE_LOAD_FAILED : Z := 3.
Definition FAASM_SGX_WAMR_FUNCTION_UNABLE_TO_CALL : Z := 7.
Definition FAASM_SGX_WAMR_MODULE_NOT_BOUND : Z := 15.
Definition FAASM_SGX_INVALID_OPCODE_SIZE : Z := 19.
Definition FAASM_SGX_OCALL_FAILED : Z := 20.
Definition FAASM_SGX_WAMR_FUNCTION_NOT_IMPLEMENTED : Z := 29.
Definition FAASM_SGX_ENCRYPTION_FAILED : Z := 31.
Definition FAASM_SGX_DECRYPTION_FAILED : Z := 32.
Definition FAASM_SGX_HASH_FAILED : Z := 33.
Definition FAASM_SGX_GENERATE_REPORT_FAILED : Z := 34.

(** The error of SGX is kept above the code of Faasm. *)
Definition FAASM_SGX_OCALL_ERROR (x : Z) : Z := u32 (Z.lor (Z.shiftl x 16) FAASM_SGX_OCALL_FAILED).
Definition FAASM_SGX_OCALL_GET_SGX_ERROR (x : Z) : Z := Z.shiftr (Z.land 0xFFFF0000 x) 16.

Definition SGX_SUCCESS : Z := 0.

(** [processECallErrors] of outside/system.cpp. *)
Definition processECallErrors {S} (errorMessage : string) (sgxReturnValue faasmReturnValue : Z) : M S unit :=
  if negb (sgxReturnValue =? SGX_SUCCESS) then throw (RuntimeError ("(SGX Error) " +:+ errorMessage))
  else if negb (faasmReturnValue =? FAASM_SGX_SUCCESS) then throw (RuntimeError ("(Faasm Error) " +:+ errorMessage))
  else mret ().

(** * Modules in the enclave *)

Section enclave.
Context `{WamrRuntime}.

Definition FAASM_SGX_WAMR_INSTANCE_DEFAULT_HEAP_SIZE : Z := 8 * 1024.
Definition FAASM_SGX_WAMR_INSTANCE_DEFAULT_STACK_SIZE : Z := 8 * 1024.
Definition WASM_ENTRY_FUNC : string := "_start".

(** The constructor initialises no pointer: the outer option tells whether a member was
    written, the inner one whether it is null. *)
Record EnclaveWasmModule := mkEnclaveModule {
  em_wasmModule : option (option Code); em_moduleInstance : option (option Inst);
  em_argc : Z; em_argv : list string; em_argvBufferSize : Z }.
Definition new_module : EnclaveWasmModule := mkEnclaveModule None None 0 [] 0.
Definition em_set_inst (i : option (option Inst)) (m : EnclaveWasmModule) : EnclaveWasmModule :=
  mkEnclaveModule (em_wasmModule m) i (em_argc m) (em_argv m) (em_argvBufferSize m).

Definition uninitialised : exn := Undefined "uninitialised instance".

Definition loadWasm (wasmBytes : list Z) : M EnclaveWasmModule bool :=
  let c := wasm_runtime_load wasmBytes in
  modify (λ m, mkEnclaveModule (Some c) (em_moduleInstance m) (em_argc m) (em_argv m) (em_argvBufferSize m)) ;;
  match c with
  | None => mret false
  | Some c =>
      let i := wasm_runtime_instantiate c FAASM_SGX_WAMR_INSTANCE_DEFAULT_STACK_SIZE
                 FAASM_SGX_WAMR_INSTANCE_DEFAULT_HEAP_SIZE in
      modify (em_set_inst (Some i)) ;; mret (bool_decide (is_Some i))
  end.

(** [argvBufferSize] counts a terminator for each argument. *)
Definition em_prepareArgcArgv (argvIn : list string) (m : EnclaveWasmModule) : EnclaveWasmModule :=
  mkEnclaveModule (em_wasmModule m) (em_moduleInstance m) (u32 (Z.of_nat (length argvIn))) argvIn
    (sumZ (λ a, str_size a + 1) argvIn).

(** What runs in the instance; a null or unset pointer is dereferenced. *)
Definition on_instance {A} (x : M Inst A) : M EnclaveWasmModule A := λ m,
  match em_moduleInstance m with
  | Some (Some i) => let '(o, i') := x i in (o, em_set_inst (Some (Some i')) m)
  | Some None => (Throw (Undefined "null instance"), m)
  | None => (Throw uninitialised, m)
  end.

(** The function is not tested for null; the word that it leaves is not read. *)
Definition em_callFunction (argvIn : list string) : M EnclaveWasmModule bool :=
  func ← on_instance (gets (λ i, wasm_runtime_lookup_function i WASM_ENTRY_FUNC));
  modify (em_prepareArgcArgv argvIn) ;;
  match func with
  | None => throw (Undefined "null function")
  | Some f => '(success, _) ← on_instance (call_function f); mret success
  end.

(** The destructor gives the instance and the module back. *)
Definition em_destroy (m : EnclaveWasmModule) : outcome unit :=
  match em_moduleInstance m with Some _ => Ret () | None => Throw uninitialised end.

(** ** The calls into the enclave *)

Record EnclaveState := mkEnclave { moduleMap : gmap Z EnclaveWasmModule; wamrReady : bool }.
Abbreviation EM := (M EnclaveState).
Definition set_modules (mm : gmap Z EnclaveWasmModule) (s : EnclaveState) : EnclaveState := mkEnclave mm (wamrReady s).

Definition ecallInitWamr : EM Z :=
  if negb wasm_runtime_init then mret FAASM_SGX_WAMR_RTE_INIT_FAILED
  else modify (λ s, mkEnclave (moduleMap s) true) ;; mret FAASM_SGX_SUCCESS.

(** The entry is made before the load and kept when it fails. *)
Definition ecallLoadModule (wasmOpCode : option (list Z)) (wasmOpCodeSize faasletId : Z) : EM Z :=
  if wasmOpCodeSize =? 0 then mret FAASM_SGX_INVALID_OPCODE_SIZE
  else
    match wasmOpCode with
    | None => mret FAASM_SGX_INVALID_PTR
    | Some bs =>
        s ← get;
        if decide (is_Some (moduleMap s !! faasletId)) then mret FAASM_SGX_WAMR_MODULE_LOAD_FAILED
        else
          let '(ok, m) := loadWasm (take (Z.to_nat wasmOpCodeSize) bs) new_module in
          put (set_modules (<[faasletId := m]> (moduleMap s)) s) ;;
          ok ← lift ok;
          mret (if ok : bool then FAASM_SGX_SUCCESS else FAASM_SGX_WAMR_MODULE_LOAD_FAILED)
    end.

Definition ecallUnloadModule (faasletId : Z) : EM Z :=
  s ← get;
  match moduleMap s !! faasletId with
  | None => mret FAASM_SGX_WAMR_MODULE_NOT_BOUND
  | Some m => lift (em_destroy m) ;; put (set_modules (delete faasletId (moduleMap s)) s) ;; mret FAASM_SGX_SUCCESS
  end.

(** The module is shared with the map, which is not locked during the call. *)
Definition ecallCallFunction (faasletId : Z) (argv : list string) : EM Z :=
  s ← get;
  match moduleMap s !! faasletId with
  | None => mret FAASM_SGX_WAMR_MODULE_NOT_BOUND
  | Some m =>
      let '(ok, m') := em_callFunction argv m in
      put (set_modules (<[faasletId := m']> (moduleMap s)) s) ;;
      ok ← lift ok;
      mret (if ok : bool then FAASM_SGX_SUCCESS else FAASM_SGX_WAMR_FUNCTION_UNABLE_TO_CALL)
  end.

(** * The interface outside *)

Context `{Rados} `{Host} `{WasiABI} (conf : FaasmConfig) (useLocalFsCache : bool) (uninit : Z)
  (nativeCodegenTarget : CodegenTargetSpec) (getArgvForMessage : Message → list string).

(** Whether the processor enters the enclave, by its identifier. *)
Context (sgx_enter : Z → Z).

(** An interface next to the enclave that all interfaces of the process share. *)
Record EnclaveInterface := mkInterface {
  ei_interfaceId : Z; ei_isBound : bool; ei_boundUser : string; ei_boundFunction : string;
  ei_threadStacks : list Z;
  ei_world : World; ei_enclaveId : Z; ei_enclave : EnclaveState }.
Abbreviation IM := (M EnclaveInterface).

Definition set_enclave (e : EnclaveState) (s : EnclaveInterface) : EnclaveInterface :=
  mkInterface (ei_interfaceId s) (ei_isBound s) (ei_boundUser s) (ei_boundFunction s) (ei_threadStacks s)
    (ei_world s) (ei_enclaveId s) e.
Definition set_world (w : World) (s : EnclaveInterface) : EnclaveInterface :=
  mkInterface (ei_interfaceId s) (ei_isBound s) (ei_boundUser s) (ei_boundFunction s) (ei_threadStacks s)
    w (ei_enclaveId s) (ei_enclave s).

(** An ecall with the check of its two results; what the enclave was to return is not read
    when it was not entered. *)
Definition ecall (errorMessage : string) (x : M EnclaveState Z) : IM unit :=
  s ← get;
  if negb (sgx_enter (ei_enclaveId s) =? SGX_SUCCESS)
  then processECallErrors errorMessage (sgx_enter (ei_enclaveId s)) FAASM_SGX_SUCCESS
  else
    r ← zoom ei_enclave set_enclave x;
    processECallErrors errorMessage SGX_SUCCESS r.

(** The files are prepared in a file system that is dropped. *)
Definition ei_doBindToFunction (msg : Message) (fmsg : FuncMsg) : IM unit :=
  zoom ei_world set_world (zoom (λ w, mkFS 0 ∅ w) (λ f _, fs_world f) (prepareFilesystem conf uninit)) ;;
  wasmBytes ← zoom ei_world set_world (loadFunctionWamrAotFile conf useLocalFsCache fmsg nativeCodegenTarget);
  s ← get;
  ecall "Unable to enter enclave"
    (ecallLoadModule (Some wasmBytes) (u32 (Z.of_nat (length wasmBytes))) (ei_interfaceId s)) ;;
  modify (λ s, mkInterface (ei_interfaceId s) (ei_isBound s) (ei_boundUser s) (ei_boundFunction s)
    (ei_threadStacks s ++ [u32 (-1)]) (ei_world s) (ei_enclaveId s) (ei_enclave s)).

(** [WasmModule::bindToFunction] *)
Definition ei_bindToFunction (msg : Message) (fmsg : FuncMsg) : IM unit :=
  s ← get;
  if ei_isBound s then throw (RuntimeError "Cannot bind a module twice")
  else
    put (mkInterface (ei_interfaceId s) true (Chaining.user msg) (Chaining.function msg) (ei_threadStacks s)
      (ei_world s) (ei_enclaveId s) (ei_enclave s)) ;;
    ei_doBindToFunction msg fmsg.

(** Called by the destructor. *)
Definition unbindFunction : IM bool :=
  s ← get;
  if negb (ei_isBound s) then mret true
  else ecall "Error trying to unload module from enclave" (ecallUnloadModule (ei_interfaceId s)) ;; mret true.

(** Whatever the function returned, the result is 0. *)
Definition ei_executeFunction (msg : Message) : IM Z :=
  s ← get;
  ecall "Error running function inside enclave" (ecallCallFunction (ei_interfaceId s) (getArgvForMessage msg)) ;;
  mret 0.
End enclave.

(** * Calls out of the enclave *)

Section ocalls.
Context `{Scheduler} (endpointHost : string) (chainedCallTimeout : Z).

(** What the caller of an ocall sees: the message, the scheduler and the error that is set in
    the instance.  [ocall] is the status of leaving the enclave. *)
Record Inside := mkInside { in_guest : GuestState; in_error : option Z }.
Abbreviation OM := (M Inside).
Definition on_host_guest {A} (x : M GuestState A) : OM A :=
  zoom in_guest (λ g s, mkInside g (in_error s)) x.
Definition SET_ERROR (x : Z) : OM unit := modify (λ s, mkInside (in_guest s) (Some x)).

Definition ocallFaasmReadInput (bufferSize : Z) (msg : Message) : Z * list Z :=
  let input := inputdata msg in
  let inputLen := Z.of_nat (length input) in
  if bufferSize =? 0 then (i32 inputLen, [])
  else if 0 <? inputLen then
    if bufferSize <? inputLen then (i32 bufferSize, take (Z.to_nat bufferSize) input)
    else (i32 inputLen, input)
  else (0, []).
Definition ocallFaasmWriteOutput (output : list Z) : M GuestState unit :=
  modify (λ s, set_call (set_outputdata output (g_call s)) s).
Definition ocallFaasmChainName (name : string) (input : list Z) : M GuestState Z :=
  makeChainedCall endpointHost name 0 None input false.
Definition ocallFaasmChainPtr (wasmFuncPtr : Z) (input : list Z) : M GuestState Z :=
  call ← gets g_call; makeChainedCall endpointHost (Chaining.function call) wasmFuncPtr None input false.
Definition ocallFaasmAwaitCall (callId : Z) : M GuestState Z := awaitChainedCall chainedCallTimeout callId.
Definition ocallSbrk (increment : Z) : Z := 0.

(** The natives of inside/funcs.cpp and inside/memory.cpp; after a failed ocall the error is
    set and an unset variable is returned. *)
Definition native {A} (status : Z) (unset : A) (x : M GuestState A) : OM A :=
  if negb (status =? SGX_SUCCESS) then SET_ERROR (FAASM_SGX_OCALL_ERROR status) ;; mret unset
  else on_host_guest x.
Definition sgx_read_input_wrapper (status unset buffer bufferSize : Z) : OM Z :=
  native status unset (call ← gets g_call;
    let '(r, bs) := ocallFaasmReadInput bufferSize call in write_native buffer bs ;; mret r).
Definition sgx_write_output_wrapper (status : Z) (output : list Z) : OM unit :=
  native status () (ocallFaasmWriteOutput output).
Definition sgx_chain_name_wrapper (status unset : Z) (name : string) (input : list Z) : OM Z :=
  native status unset (ocallFaasmChainName name input).
Definition sgx_chain_ptr_wrapper (wasmFuncPtr : Z) (input : list Z) : OM Z :=
  SET_ERROR FAASM_SGX_WAMR_FUNCTION_NOT_IMPLEMENTED ;; mret 1.
Definition sgx_await_call_wrapper (status unset callId : Z) : OM Z :=
  native status unset (ocallFaasmAwaitCall callId).
Definition sgx_sbrk_wrapper (status unset increment : Z) : OM Z :=
  native status unset (mret (ocallSbrk increment)).
End ocalls.

(** * Encryption (inside/crypto, inside/checks.cpp) *)

(** What the SDK offers; a result is [None] when the call does not succeed. *)
Class SgxCrypto := {
  sgx_read_rand : nat → option (list Z);
  sgx_rijndael128GCM_encrypt : list Z → list Z → list Z → option (list Z * list Z);
  sgx_rijndael128GCM_decrypt : list Z → list Z → list Z → list Z → option (list Z);
  sgx_sha256_msg : list Z → option (list Z) }.
Class SgxCryptoLaws `{SgxCrypto} : Prop := {
  (** what was encrypted is decrypted with the key, the vector and the tag *)
  gcm_inverse key plain iv cipher mac : sgx_rijndael128GCM_encrypt key plain iv = Some (cipher, mac) →
    length cipher = length plain ∧ sgx_rijndael128GCM_decrypt key cipher iv mac = Some plain;
  (** the tag authenticates the cipher text *)
  gcm_authentic key cipher iv mac plain : sgx_rijndael128GCM_decrypt key cipher iv mac = Some plain →
    sgx_rijndael128GCM_encrypt key plain iv = Some (cipher, mac) }.

Definition SGX_AESGCM_IV_SIZE : nat := 12.

Section crypto.
Context `{SgxCrypto}.

(** The heap: the blocks that are allocated, by number, and whether an allocation
    succeeds. *)
Record Heap := mkHeap { hp_next : nat; hp_live : gset nat }.
Abbreviation HM := (M Heap).
Context (alloc_ok : nat → bool).

Definition calloc : HM (option nat) :=
  h ← get;
  if alloc_ok (hp_next h) then put (mkHeap (S (hp_next h)) ({[hp_next h]} ∪ hp_live h)) ;; mret (Some (hp_next h))
  else put (mkHeap (S (hp_next h)) (hp_live h)) ;; mret None.
Definition free (p : nat) : HM unit := modify (λ h, mkHeap (hp_next h) (hp_live h ∖ {[p]})).

(** The messages are pointers to a struct with a pointer to a buffer. *)
Record FaasmSgxMsg := mkMsg { msg_block : nat; msg_buffer : nat; msg_bytes : list Z }.
Record FaasmSgxEncryptedMsg := mkEncrypted {
  enc_block : nat; enc_buffer : nat; enc_bytes : list Z; enc_iv : list Z; enc_mac : list Z }.

(** A failure to draw the vector returns without freeing. *)
Definition doAesGcmEncrypt (decryptedMsg : list Z) (symKey : list Z) : HM (option FaasmSgxEncryptedMsg) :=
  encryptedMsg ← calloc;
  match encryptedMsg with
  | None => mret None
  | Some encryptedMsg =>
      match sgx_read_rand SGX_AESGCM_IV_SIZE with
      | None => mret None
      | Some iv =>
          buffer ← calloc;
          match buffer with
          | None => free encryptedMsg ;; mret None
          | Some buffer =>
              match sgx_rijndael128GCM_encrypt symKey decryptedMsg iv with
              | None => free buffer ;; free encryptedMsg ;; mret None
              | Some (cipher, mac) => mret (Some (mkEncrypted encryptedMsg buffer cipher iv mac))
              end
          end
      end
  end.
Definition doAesGcmDecrypt (encryptedMsg : FaasmSgxEncryptedMsg) (symKey : list Z) : HM (option FaasmSgxMsg) :=
  decryptedMsg ← calloc;
  match decryptedMsg with
  | None => mret None
  | Some decryptedMsg =>
      buffer ← calloc;
      match buffer with
      | None => free decryptedMsg ;; mret None
      | Some buffer =>
          match sgx_rijndael128GCM_decrypt symKey (enc_bytes encryptedMsg) (enc_iv encryptedMsg) (enc_mac encryptedMsg) with
          | None => free buffer ;; free decryptedMsg ;; mret None
          | Some plain => mret (Some (mkMsg decryptedMsg buffer plain))
          end
      end
  end.
Definition doSymEncrypt := doAesGcmEncrypt.
Definition doSymDecrypt := doAesGcmDecrypt.

Definition doSha256 (srcMsg : list Z) : HM (option (nat * list Z)) :=
  hashedMsg ← calloc;
  match hashedMsg with
  | None => mret None
  | Some p => match sgx_sha256_msg srcMsg with None => free p ;; mret None | Some hash => mret (Some (p, hash)) end
  end.

(** [strncmp(a, b, n) == 0] *)
Fixpoint strncmp_eq (n : nat) (a b : list Z) : bool :=
  match n, a, b with
  | O, _, _ => true
  | S n, x :: a, y :: b => (x =? y) && ((x =? 0) || strncmp_eq n a b)
  | _, _, _ => false
  end.

Definition check_plainText : list Z := bytes_of_string "Hello world!" ++ [0].
Definition check_key : list Z :=
  [0xdc; 0xbd; 0x32; 0x2e; 0x8d; 0x46; 0xa9; 0xeb; 0xdf; 0xdd; 0x64; 0x4; 0x1b; 0x80; 0xde; 0x22].
Definition check_expectedHash : list Z :=
  [0xc0; 0x53; 0x5e; 0x4b; 0xe2; 0xb7; 0x9f; 0xfd; 0x93; 0x29; 0x13; 0x05; 0x43; 0x6b; 0xf8; 0x89;
   0x31; 0x4e; 0x4a; 0x3f; 0xae; 0xc0; 0x5e; 0xcf; 0xfc; 0xbb; 0x7d; 0xf3; 0x1a; 0xd9; 0xe5; 0x1a].

(** The structs are freed, their buffers are not. *)
Definition ecallCryptoChecks : HM Z :=
  encrypted ← doSymEncrypt check_plainText check_key;
  match encrypted with
  | None => mret FAASM_SGX_ENCRYPTION_FAILED
  | Some encrypted =>
      decrypted ← doSymDecrypt encrypted check_key;
      match decrypted with
      | None => free (enc_block encrypted) ;; mret FAASM_SGX_DECRYPTION_FAILED
      | Some decrypted =>
          if negb (strncmp_eq 13 check_plainText (msg_bytes decrypted))
          then free (enc_block encrypted) ;; free (msg_block decrypted) ;; mret FAASM_SGX_DECRYPTION_FAILED
          else
            free (enc_block encrypted) ;; free (msg_block decrypted) ;;
            hashedMsg ← doSha256 (take 12 check_plainText);
            match hashedMsg with
            | None => mret FAASM_SGX_HASH_FAILED
            | Some (p, hash) =>
                free p ;;
                mret (if strncmp_eq 32 check_expectedHash hash then FAASM_SGX_SUCCESS else FAASM_SGX_HASH_FAILED)
            end
      end
  end.
End crypto.

(** * Properties *)

(** The error of SGX comes back from a combined one. *)
Lemma ocall_error_roundtrip x : in_u 16 x → FAASM_SGX_OCALL_GET_SGX_ERROR (FAASM_SGX_OCALL_ERROR x) = x.
Proof.
  intros Hx. unfold in_u in Hx. unfold FAASM_SGX_OCALL_GET_SGX_ERROR, FAASM_SGX_OCALL_ERROR, FAASM_SGX_OCALL_FAILED.
  unfold wrapU. rewrite <- Z.land_ones by lia.
  apply Z.bits_inj'. intros n Hn.
  rewrite Z.shiftr_spec, !Z.land_spec, Z.lor_spec, Z.shiftl_spec by lia.
  rewrite Z.add_simpl_r.
  destruct (Z.ltb_spec n 16) as [Hlt|Hge].
  - replace (Z.testbit 20 (n + 16)) with false by (symmetry; apply (Z.bits_above_log2 20); cbn; lia).
    rewrite Z.ones_spec_low by lia.
    change 0xFFFF0000 with (Z.shiftl (Z.ones 16) 16). rewrite Z.shiftl_spec, Z.add_simpl_r, Z.ones_spec_low by lia.
    by rewrite orb_false_r, andb_true_r.
  - rewrite Z.ones_spec_high by lia. rewrite andb_false_r, andb_false_r.
    symmetry. destruct (Z.eq_dec x 0) as [->|]; [apply Z.bits_0|].
    apply Z.bits_above_log2; [lia|]. apply Z.log2_lt_pow2; [lia|].
    apply (Z.lt_le_trans _ (2 ^ 16)); [lia|]. apply Z.pow_le_mono_r; lia.
Qed.

Section enclave_properties.
Context `{WR : WamrRuntime}.

(** ** The calls of other faaslets *)

Inductive ecall_op : Type :=
  | OpInit | OpLoad (bs : option (list Z)) (size id : Z) | OpUnload (id : Z) | OpCall (id : Z) (argv : list string).
Definition run_ecall (op : ecall_op) : M EnclaveState Z :=
  match op with
  | OpInit => ecallInitWamr
  | OpLoad bs size id => ecallLoadModule bs size id
  | OpUnload id => ecallUnloadModule id
  | OpCall id argv => ecallCallFunction id argv
  end.
Definition op_faaslet (op : ecall_op) : option Z :=
  match op with OpInit => None | OpLoad _ _ id | OpUnload id | OpCall id _ => Some id end.
(** The enclave after calls, whatever their results. *)
Definition after_ecalls (ops : list ecall_op) (e : EnclaveState) : EnclaveState :=
  foldl (λ e op, (run_ecall op e).2) e ops.

Lemma ecall_frame op id (e : EnclaveState) :
  op_faaslet op ≠ Some id → moduleMap (run_ecall op e).2 !! id = moduleMap e !! id.
Proof.
  intros Hne. destruct op as [|bs size id'|id'|id' argv]; cbn in *.
  - unfold ecallInitWamr. by destruct (negb _).
  - unfold ecallLoadModule. destruct (size =? 0); [done|]. destruct bs as [bs|]; [|done].
    rewrite run_bind. cbn [get]. destruct (decide _); [done|]. destruct (loadWasm _ _) as [ok m].
    run_unfold. destruct ok; cbn; by rewrite lookup_insert_ne by congruence.
  - unfold ecallUnloadModule. rewrite run_bind. cbn [get]. destruct (moduleMap e !! id') as [m|] eqn:Hm; [|done].
    run_unfold. destruct (em_destroy m); cbn; [by rewrite lookup_delete_ne by congruence|done].
  - unfold ecallCallFunction. rewrite run_bind. cbn [get]. destruct (moduleMap e !! id') as [m|] eqn:Hm; [|done].
    destruct (em_callFunction _ _) as [ok m']. run_unfold. destruct ok; cbn; by rewrite lookup_insert_ne by congruence.
Qed.
Lemma after_ecalls_frame ops id (e : EnclaveState) :
  Forall (λ op, op_faaslet op ≠ Some id) ops → moduleMap (after_ecalls ops e) !! id = moduleMap e !! id.
Proof.
  unfold after_ecalls. intros Hops. revert e. induction Hops as [|op ops Hop _ IH]; intros e; [done|].
  cbn [foldl]. by rewrite IH, ecall_frame.
Qed.

Lemma load_ret bs size id (e e' : EnclaveState) :
  ecallLoadModule (Some bs) size id e = (Ret FAASM_SGX_SUCCESS, e') →
  ∃ c i, wasm_runtime_load (take (Z.to_nat size) bs) = Some c ∧
    wasm_runtime_instantiate c FAASM_SGX_WAMR_INSTANCE_DEFAULT_STACK_SIZE FAASM_SGX_WAMR_INSTANCE_DEFAULT_HEAP_SIZE = Some i ∧
    moduleMap e' !! id = Some (mkEnclaveModule (Some (Some c)) (Some (Some i)) 0 [] 0).
Proof.
  unfold ecallLoadModule. destruct (size =? 0); [done|]. rewrite run_bind. cbn [get].
  destruct (decide _); [done|]. unfold loadWasm. destruct (wasm_runtime_load _) as [c|] eqn:Hc; [|by run_unfold].
  run_unfold. destruct (wasm_runtime_instantiate _ _ _) as [i|] eqn:Hi; [|by rewrite bool_decide_eq_false_2 by by intros [? ?]].
  rewrite bool_decide_eq_true_2 by by eexists. cbn. intros [= <-]. exists c, i. split_and!; [done..|].
  cbn. apply lookup_insert_eq.
Qed.

(** A module that failed to load stays: it cannot be loaded again, and destroying it, or
    calling it, follows a pointer that was never set. *)
Lemma load_failure_sticks bs bs' size size' id argv (e : EnclaveState) :
  size ≠ 0 → size' ≠ 0 → moduleMap e !! id = None → wasm_runtime_load (take (Z.to_nat size) bs) = None →
  let e' := (ecallLoadModule (Some bs) size id e).2 in
  (ecallLoadModule (Some bs') size' id e').1 = Ret FAASM_SGX_WAMR_MODULE_LOAD_FAILED ∧
  (ecallUnloadModule id e').1 = Throw uninitialised ∧ (ecallCallFunction id argv e').1 = Throw uninitialised.
Proof.
  intros Hs Hs' Hnone Hload. cbv zeta.
  assert (moduleMap (ecallLoadModule (Some bs) size id e).2 !! id = Some (mkEnclaveModule (Some None) None 0 [] 0)) as Hm.
  { unfold ecallLoadModule. destruct (Z.eqb_spec size 0); [done|]. rewrite run_bind. cbn [get].
    rewrite Hnone. rewrite decide_False by by intros [? ?]. unfold loadWasm. rewrite Hload. run_unfold.
    apply lookup_insert_eq. }
  set (e' := (ecallLoadModule _ _ _ _).2) in *. clearbody e'. split_and!.
  - unfold ecallLoadModule. destruct (Z.eqb_spec size' 0); [done|]. rewrite run_bind. cbn [get].
    by rewrite decide_True by by eexists.
  - unfold ecallUnloadModule. rewrite run_bind. cbn [get]. by rewrite Hm.
  - unfold ecallCallFunction. rewrite run_bind. cbn [get]. by rewrite Hm.
Qed.
End enclave_properties.

Section interface_properties.
Context `{WR : WamrRuntime} `{Ra : Rados} `{Ho : Host} `{WA : WasiABI} (conf : FaasmConfig) (c : bool) (uninit : Z)
  (target : CodegenTargetSpec) (getArgv : Message → list string) (sgx_enter : Z → Z).
Abbreviation bind := (ei_bindToFunction conf c uninit target sgx_enter).
Abbreviation execute := (ei_executeFunction getArgv sgx_enter).

Lemma ecall_entered msg x (s : EnclaveInterface) o e :
  sgx_enter (ei_enclaveId s) = SGX_SUCCESS → x (ei_enclave s) = (o, e) →
  ecall sgx_enter msg x s = match o with
    | Ret r => processECallErrors msg SGX_SUCCESS r (set_enclave e s)
    | Throw ex => (Throw ex, set_enclave e s) end.
Proof.
  intros Hin Hx. unfold ecall. rewrite run_bind. cbn [get]. rewrite Hin. cbn [negb Z.eqb SGX_SUCCESS].
  rewrite run_bind. unfold zoom. rewrite Hx. by destruct o.
Qed.
Lemma ecall_ret msg x (s s' : EnclaveInterface) :
  sgx_enter (ei_enclaveId s) = SGX_SUCCESS → ecall sgx_enter msg x s = (Ret (), s') →
  ∃ e, x (ei_enclave s) = (Ret FAASM_SGX_SUCCESS, e) ∧ s' = set_enclave e s.
Proof.
  intros Hin. destruct (x (ei_enclave s)) as [o e] eqn:Hx. rewrite (ecall_entered _ _ _ _ _ Hin Hx).
  destruct o as [r|]; [|done]. unfold processECallErrors. cbn [negb Z.eqb SGX_SUCCESS].
  destruct (Z.eqb_spec r FAASM_SGX_SUCCESS) as [->|]; [|done]. intros [= <-]. by exists e.
Qed.

(** C10: after a faaslet was bound in the enclave, and whatever other faaslets do there,
    executing it runs the entry function of the code that was loaded for its message, with
    the message's arguments, and gives 0 or an error, never the result of the function. *)
Theorem enclave_runs_bound msg fmsg msg' ops (s s1 : EnclaveInterface) :
  sgx_enter (ei_enclaveId s) = SGX_SUCCESS →
  bind msg fmsg s = (Ret (), s1) →
  Forall (λ op, op_faaslet op ≠ Some (ei_interfaceId s)) ops →
  ∃ w bs w' code i,
    loadFunctionWamrAotFile conf c fmsg target w = (Ret bs, w') ∧
    wasm_runtime_load (take (Z.to_nat (u32 (Z.of_nat (length bs)))) bs) = Some code ∧
    wasm_runtime_instantiate code 8192 8192 = Some i ∧
    ∀ f r i', wasm_runtime_lookup_function i "_start" = Some f → call_function f i = (Ret r, i') →
      let e := after_ecalls ops (ei_enclave s1) in
      ∃ m, execute msg' (set_enclave e s1) =
          ((if r.1 then Ret 0 else Throw (RuntimeError "(Faasm Error) Error running function inside enclave")),
           set_enclave (set_modules (<[ei_interfaceId s := m]> (moduleMap e)) e) s1) ∧
        em_argv m = getArgv msg' ∧ em_moduleInstance m = Some (Some i').
Proof.
  intros Hin Hbind Hops. unfold ei_bindToFunction in Hbind. apply run_bind_inv in Hbind as (s0 & s0' & [= <- <-] & Hbind).
  destruct (ei_isBound s); [done|]. apply run_bind_inv in Hbind as ([] & s2 & [= <-] & Hbind).
  unfold ei_doBindToFunction in Hbind. apply run_bind_inv in Hbind as ([] & s3 & Hprep & Hbind).
  assert (∀ A (x : M World A) t a t', zoom ei_world set_world x t = (Ret a, t') →
    ∃ w, x (ei_world t) = (Ret a, w) ∧ t' = set_world w t) as Hzoom.
  { intros A x t a t'. unfold zoom. destruct (x (ei_world t)) as [o w]. intros [= -> <-]. by exists w. }
  apply Hzoom in Hprep as (w1 & _ & ->). apply run_bind_inv in Hbind as (bs & s4 & Hload & Hbind).
  apply Hzoom in Hload as (w2 & Hload & ->). apply run_bind_inv in Hbind as (s5 & s5' & [= <- <-] & Hbind).
  apply run_bind_inv in Hbind as ([] & s6 & Hec & [= <-]).
  apply ecall_ret in Hec as (e & Hec & ->); [|exact Hin]. cbn in Hec.
  apply load_ret in Hec as (code & i & Hcode & Hi & Hm).
  exists w1, bs, w2, code, i. split; [exact Hload|]. split; [done|]. split; [done|].
  intros f [ok w] i' Hf Hcall e'. cbn in e'. cbn [fst].
  assert (moduleMap e' !! ei_interfaceId s = Some (mkEnclaveModule (Some (Some code)) (Some (Some i)) 0 [] 0)) as Hm'
    by (unfold e'; by rewrite after_ecalls_frame).
  eexists (mkEnclaveModule _ _ _ _ _). split; [|split; reflexivity].
  unfold ei_executeFunction. rewrite run_bind. cbn [get]. rewrite run_bind.
  erewrite ecall_entered; [|exact Hin|].
  2:{ cbn. unfold ecallCallFunction. rewrite run_bind. cbn [get]. rewrite Hm'. unfold em_callFunction.
      unfold on_instance, gets, WASM_ENTRY_FUNC. run_unfold. rewrite Hf. run_unfold. rewrite Hcall. run_unfold. reflexivity. }
  by destruct ok.
Qed.
End interface_properties.

Section crypto_properties.
Context `{SC : SgxCrypto} `{SL : !SgxCryptoLaws} (alloc_ok : nat → bool).

Lemma run_calloc h : alloc_ok (hp_next h) = true →
  calloc alloc_ok h = (Ret (Some (hp_next h)), mkHeap (S (hp_next h)) ({[hp_next h]} ∪ hp_live h)).
Proof. intros Ha. unfold calloc. run_unfold. by rewrite Ha. Qed.

Lemma encrypt_inv plain key e h h1 :
  doSymEncrypt alloc_ok plain key h = (Ret (Some e), h1) →
  sgx_rijndael128GCM_encrypt key plain (enc_iv e) = Some (enc_bytes e, enc_mac e) ∧
  enc_block e = hp_next h ∧ enc_buffer e = S (hp_next h) ∧ hp_next h1 = S (S (hp_next h)) ∧
  hp_live h1 = {[enc_buffer e]} ∪ ({[enc_block e]} ∪ hp_live h).
Proof.
  unfold doSymEncrypt, doAesGcmEncrypt, calloc. run_unfold.
  destruct (alloc_ok (hp_next h)); [|done]. destruct (sgx_read_rand _) as [iv|]; [|done]. cbn.
  destruct (alloc_ok (S (hp_next h))); [|done]. cbn.
  destruct (sgx_rijndael128GCM_encrypt key plain iv) as [[cipher mac]|] eqn:He; [|done].
  intros [= <- <-]. done.
Qed.
Lemma decrypt_run e key plain h :
  alloc_ok (hp_next h) = true → alloc_ok (S (hp_next h)) = true →
  sgx_rijndael128GCM_decrypt key (enc_bytes e) (enc_iv e) (enc_mac e) = Some plain →
  doSymDecrypt alloc_ok e key h = (Ret (Some (mkMsg (hp_next h) (S (hp_next h)) plain)),
    mkHeap (S (S (hp_next h))) ({[S (hp_next h)]} ∪ ({[hp_next h]} ∪ hp_live h))).
Proof.
  intros H1 H2 Hd. unfold doSymDecrypt, doAesGcmDecrypt.
  rewrite (run_bind_ret _ _ _ _ _ (run_calloc h H1)).
  rewrite (run_bind_ret _ _ _ _ _ (run_calloc (mkHeap _ _) H2)). cbn [hp_next hp_live]. by rewrite Hd.
Qed.

(** What is encrypted with a key is decrypted with it, and what was changed on the way is
    refused: a message with the same vector that decrypts is the one that was encrypted, or
    an encryption of what it decrypts to. *)
Theorem encryption_roundtrip plain key e h h1 :
  doSymEncrypt alloc_ok plain key h = (Ret (Some e), h1) →
  alloc_ok (hp_next h1) = true → alloc_ok (S (hp_next h1)) = true →
  (∃ m h2, doSymDecrypt alloc_ok e key h1 = (Ret (Some m), h2) ∧ msg_bytes m = plain) ∧
  ∀ e' m h2, doSymDecrypt alloc_ok e' key h1 = (Ret (Some m), h2) → enc_iv e' = enc_iv e → msg_bytes m = plain →
    enc_bytes e' = enc_bytes e ∧ enc_mac e' = enc_mac e.
Proof.
  intros (Henc & _)%encrypt_inv H1 H2. pose proof (gcm_inverse _ _ _ _ _ Henc) as [_ Hdec]. split.
  - do 2 eexists. split; [by apply decrypt_run|done].
  - intros e' m h2 Hd Hiv Hm. unfold doSymDecrypt, doAesGcmDecrypt in Hd.
    rewrite (run_bind_ret _ _ _ _ _ (run_calloc h1 H1)) in Hd.
    rewrite (run_bind_ret _ _ _ _ _ (run_calloc (mkHeap _ _) H2)) in Hd.
    destruct (sgx_rijndael128GCM_decrypt key (enc_bytes e') _ _) as [p|] eqn:Hp; [|clear -Hd; by run_unfold].
    injection Hd as <- _. cbn in Hm. subst p. apply gcm_authentic in Hp. rewrite Hiv, Henc in Hp.
    by injection Hp as -> ->.
Qed.

Lemma strncmp_eq_refl n bs : (n ≤ length bs)%nat → strncmp_eq n bs bs = true.
Proof.
  revert bs. induction n as [|n IH]; intros [|b bs] Hn; cbn in *; try done; [lia|].
  rewrite Z.eqb_refl. cbn. rewrite IH by lia. by destruct (b =? 0).
Qed.

(** The self-check succeeds and leaves two buffers behind. *)
Lemma crypto_checks_leak iv cipher mac h :
  (∀ p, alloc_ok p = true) → sgx_read_rand SGX_AESGCM_IV_SIZE = Some iv →
  sgx_rijndael128GCM_encrypt check_key check_plainText iv = Some (cipher, mac) →
  sgx_sha256_msg (take 12 check_plainText) = Some check_expectedHash →
  (∀ p, p ∈ hp_live h → (p < hp_next h)%nat) →
  ∃ h', ecallCryptoChecks alloc_ok h = (Ret FAASM_SGX_SUCCESS, h') ∧
    hp_live h' = {[S (hp_next h); S (S (S (hp_next h)))]} ∪ hp_live h.
Proof.
  intros Hall Hrand Henc Hsha Hfresh. pose proof (gcm_inverse _ _ _ _ _ Henc) as [_ Hdec].
  set (e := mkEncrypted (hp_next h) (S (hp_next h)) cipher iv mac).
  set (h1 := mkHeap (S (S (hp_next h))) ({[S (hp_next h)]} ∪ ({[hp_next h]} ∪ hp_live h))).
  assert (doSymEncrypt alloc_ok check_plainText check_key h = (Ret (Some e), h1)) as He.
  { unfold doSymEncrypt, doAesGcmEncrypt. rewrite (run_bind_ret _ _ _ _ _ (run_calloc h (Hall _))). rewrite Hrand.
    rewrite (run_bind_ret _ _ _ _ _ (run_calloc (mkHeap _ _) (Hall _))). by rewrite Henc. }
  unfold ecallCryptoChecks. rewrite (run_bind_ret _ _ _ _ _ He).
  rewrite (run_bind_ret _ _ _ _ _ (decrypt_run e check_key check_plainText h1 (Hall _) (Hall _) Hdec)).
  cbn [msg_bytes]. rewrite (strncmp_eq_refl 13 check_plainText) by (apply Nat.leb_le; reflexivity). cbn [negb msg_bytes].
  unfold doSha256. unfold free, modify. run_unfold. unfold calloc. run_unfold. rewrite Hall. cbn. rewrite Hsha. cbn.
  eexists. split; [reflexivity|]. cbn [hp_live hp_next].
  assert (∀ p, (hp_next h ≤ p)%nat → p ∉ hp_live h) as Hno by (intros p Hp Hin; apply Hfresh in Hin; lia).
  pose proof (Hno (hp_next h)). pose proof (Hno (S (S (hp_next h)))). pose proof (Hno (S (S (S (S (hp_next h)))))).
  apply set_eq. intros p. repeat first [rewrite elem_of_difference | rewrite elem_of_union | rewrite elem_of_singleton].
  destruct (decide (p ∈ hp_live h)) as [Hp|Hp]; [apply Hfresh in Hp as Hlt|]; intuition lia.
Qed.
End crypto_properties.

(** * Concrete runs *)

(** A cipher that adds one, with the plain text, the vector and the key as its tag. *)
#[export] Instance demo_crypto : SgxCrypto :=
  {| sgx_read_rand n := Some (repeat 5 n);
     sgx_rijndael128GCM_encrypt key plain iv := Some (Z.succ <$> plain, plain ++ iv ++ key);
     sgx_rijndael128GCM_decrypt key cipher iv mac :=
       let plain := Z.pred <$> cipher in if decide (mac = plain ++ iv ++ key) then Some plain else None;
     sgx_sha256_msg bs := Some check_expectedHash |}.
Lemma pred_succ_bytes (bs : list Z) : Z.pred <$> (Z.succ <$> bs) = bs.
Proof. induction bs as [|b bs IH]; [done|]. cbn. by rewrite IH, Z.pred_succ. Qed.
Lemma succ_pred_bytes (bs : list Z) : Z.succ <$> (Z.pred <$> bs) = bs.
Proof. induction bs as [|b bs IH]; [done|]. cbn. by rewrite IH, Z.succ_pred. Qed.
#[export] Instance demo_crypto_laws : SgxCryptoLaws.
Proof.
  split; cbn.
  - intros key plain iv cipher mac [= <- <-]. split; [by rewrite length_fmap|].
    by rewrite pred_succ_bytes, decide_True.
  - intros key cipher iv mac plain. destruct (decide _) as [->|]; [|done]. intros [= <-]. by rewrite succ_pred_bytes.
Qed.

Lemma encryption_roundtrip_witness :
  let h := mkHeap 0 ∅ in
  ∃ e h1, doSymEncrypt (λ _, true) [1; 2; 3] [9] h = (Ret (Some e), h1) ∧
    ∃ m h2, doSymDecrypt (λ _, true) e [9] h1 = (Ret (Some m), h2) ∧ msg_bytes m = [1; 2; 3].
Proof.
  intros h. do 2 eexists. split; [reflexivity|].
  eapply (encryption_roundtrip (λ _, true) [1; 2; 3] [9] _ h); reflexivity.
Defined.

(** An enclave that another faaslet uses, and the code of a function in the cache. *)
Definition demo_enclave : EnclaveState := mkEnclave {[8 := mkEnclaveModule (Some (Some ())) (Some (Some "")) 0 [] 0]} true.
Definition demo_aot_world : World :=
  (uploadFunctionWamrAotFile demo_conf true demo_func demo_targetA [1; 2; 3] demo_world).2.
Definition demo_interface : EnclaveInterface :=
  mkInterface 7 false "" "" [] demo_aot_world 1 demo_enclave.

Lemma enclave_runs_bound_witness :
  let msg := demo_message "u" "f" 1 7 [] in
  let s1 := (ei_bindToFunction demo_conf true 0 demo_targetA (λ _, 0) msg demo_func demo_interface).2 in
  let e := after_ecalls [OpCall 8 ["x"]; OpUnload 8] (ei_enclave s1) in
  ∃ m, (ei_executeFunction (λ _, ["faasm"]) (λ _, 0) msg (set_enclave e s1)).1 = Ret 0 ∧ em_argv m = ["faasm"].
Proof.
  intros msg s1 e.
  destruct (enclave_runs_bound demo_conf true 0 demo_targetA (λ _, ["faasm"]) (λ _, 0) msg demo_func msg
    [OpCall 8 ["x"]; OpUnload 8] demo_interface s1) as (w & bs & w' & code & i & _ & _ & Hi & Hrun).
  - reflexivity.
  - apply (run_fst (ei_bindToFunction demo_conf true 0 demo_targetA (λ _, 0) msg demo_func) demo_interface).
    vm_compute. reflexivity.
  - repeat apply Forall_cons_2; [discriminate|discriminate|apply Forall_nil_2].
  - destruct (Hrun false (true, 0) i eq_refl eq_refl) as (m & Hexec & Hargv & _). exists m.
    split; [|exact Hargv]. unfold e. by rewrite Hexec.
Defined.
