(* ===== verification/Attestation.v ===== *)
(** Setting up the enclave and attesting it (src/enclave/outside/system.cpp and
    outside/attestation): the quote of the enclave is sent to the attestation service, whose
    signed answer is validated.  The SGX platform, HTTP, JSON and JWT are interfaces. *)

From Stdlib Require Import Ascii.
From S2P Require Import Prelude WasmBytes WamrModule Enclave.

(** * The interfaces *)

(** The body of a report of an enclave. *)
Record SgxReport := mkReport {
  mr_enclave : list Z; mr_signer : list Z; isv_prod_id : Z; isv_svn : Z; attributes_flags : Z }.

Definition SGX_ERROR_INVALID_PARAMETER : Z := 2.

(** The states of SGX that a machine reports. *)
Inductive sgx_device_status : Type :=
  | SGX_ENABLED | SGX_DISABLED_REBOOT_REQUIRED | SGX_DISABLED_LEGACY_OS | SGX_DISABLED | SGX_DISABLED_SCI_AVAILABLE
  | SGX_DISABLED_MANUAL_ENABLE | SGX_DISABLED_HYPERV_ENABLED | SGX_DISABLED_UNSUPPORTED_CPU.

(** The platform.  A status of 0 is a success. *)
Class SgxPlatform := {
  AH : Type;
  sgx_is_capable : AH → option bool; sgx_cap_get_status : AH → option sgx_device_status;
  enclave_file_exists : AH → bool;
  sgx_create_enclave : AH → (Z * Z) * AH;
  sgx_destroy_enclave : Z → AH → Z * AH;
  ecall_status : Z → AH → Z;
  sgx_qe_get_target_info : AH → Z * list Z;
  sgx_create_report : list Z → list Z → AH → Z * SgxReport;
  sgx_qe_get_quote_size : AH → Z * Z;
  sgx_qe_get_quote : SgxReport → Z → AH → Z * list Z;
  sha256sum : list Z → list Z;
  (** a POST or a GET, with its header and body: the code and the body of the response *)
  http_post : string → string → AH → outcome (Z * string) * AH;
  http_get : string → string → AH → outcome (Z * string) * AH }.

(** Whether SGX can be used: the machine is capable and its SGX is on. *)
Definition isSgxEnabled `{SgxPlatform} (t : AH) : bool :=
  match sgx_is_capable t with
  | Some true =>
      match sgx_cap_get_status t with
      | Some sgxDeviceStatus =>
          match sgxDeviceStatus with
          | SGX_ENABLED => true
          | SGX_DISABLED_REBOOT_REQUIRED | SGX_DISABLED_LEGACY_OS | SGX_DISABLED | SGX_DISABLED_SCI_AVAILABLE
          | SGX_DISABLED_MANUAL_ENABLE | SGX_DISABLED_HYPERV_ENABLED | SGX_DISABLED_UNSUPPORTED_CPU => false
          end
      | None => false
      end
  | _ => false
  end.

(** JSON: an object is its members in order; base 64 and hexadecimal. *)
Inductive json : Type :=
  | JInt (n : Z) | JString (s : string)
  | JEnd | JMember (key : string) (value : json) (rest : json).
Definition JObject (ms : list (string * json)) : json := foldr (λ m rest, JMember m.1 m.2 rest) JEnd ms.
Class JsonLib := {
  json_write : json → string;
  json_parse : string → option json;
  base64_url : list Z → string;
  byteArrayToHexString : list Z → string;
  hexStringToByteArray : string → list Z;
  intToHexString : Z → string }.

(** A decoded token, the keys of a service and the verification of a token with the
    certificate of a key; [None] where the library throws that a claim is missing. *)
Class JwtLib := {
  DecodedJwt : Type; JwksSet : Type; Jwk : Type;
  jwt_decode : string → outcome DecodedJwt;
  get_header : DecodedJwt → string;
  get_key_id : DecodedJwt → option string;
  get_issuer : DecodedJwt → option string;
  payload_iss : DecodedJwt → option string;
  parse_jwks : string → outcome JwksSet;
  get_jwk : JwksSet → string → option Jwk;
  get_x5c_key_value : Jwk → option string;
  jwt_verify : string → string → DecodedJwt → outcome unit }.

(** [d[key].GetString()] and [GetInt]: a missing member, or one of another type, fails an
    assertion. *)
Fixpoint assoc (key : string) (d : json) : option json :=
  match d with JMember k v rest => if decide (k = key) then Some v else assoc key rest | _ => None end.
Definition member (key : string) (d : option json) : option json := d ≫= assoc key.
Definition GetString (v : option json) : outcome string :=
  match v with Some (JString s) => Ret s | _ => Throw (AssertFailed "IsString()") end.
Definition GetInt (v : option json) : outcome Z :=
  match v with
  | Some (JInt n) => if (- 2 ^ 31 <=? n) && (n <? 2 ^ 31) then Ret n else Throw (AssertFailed "kIntFlag")
  | _ => Throw (AssertFailed "kIntFlag")
  end.

(** * What is known of an enclave (attestation/EnclaveInfo.cpp) *)

Record EnclaveInfo := mkEnclaveInfo {
  enclaveType : Z; mrEnclaveHex : string; mrSignerHex : string; productIdHex : string;
  securityVersion : Z; attributes : Z; quote : list Z; enclaveHeldData : list Z }.

(** [stream >> str]: the first word. *)
Definition is_space (a : ascii) : bool :=
  let n := nat_of_ascii a in ((n =? 32) || ((9 <=? n) && (n <=? 13)))%nat.
Fixpoint first_word (started : bool) (str : string) : string :=
  match str with
  | EmptyString => EmptyString
  | String a str => if is_space a then if started then EmptyString else first_word false str else String a (first_word true str)
  end.
Fixpoint no_space (str : string) : bool :=
  match str with EmptyString => true | String a str => negb (is_space a) && no_space str end.

Section info.
Context `{JsonLib}.

Definition EnclaveInfo_of_report (enclaveReport : SgxReport) (quoteBuffer enclaveHeldDataIn : list Z) : EnclaveInfo :=
  mkEnclaveInfo 2 (byteArrayToHexString (mr_enclave enclaveReport)) (byteArrayToHexString (mr_signer enclaveReport))
    (intToHexString (u16 (isv_prod_id enclaveReport))) (u32 (isv_svn enclaveReport))
    (u64 (attributes_flags enclaveReport)) quoteBuffer enclaveHeldDataIn.

(** The object that [toJson] writes to a file. *)
Definition enclave_info_json (e : EnclaveInfo) : json :=
  JObject [("Type", JInt (enclaveType e)); ("MrEnclaveHex", JString (mrEnclaveHex e));
    ("MrSignerHex", JString (mrSignerHex e)); ("ProductIdHex", JString (productIdHex e));
    ("SecurityVersion", JInt (securityVersion e)); ("Attributes", JInt (attributes e));
    ("QuoteHex", JString (byteArrayToHexString (quote e)));
    ("EnclaveHeldDataHex", JString (byteArrayToHexString (enclaveHeldData e)))].
Definition toJson (e : EnclaveInfo) : string := json_write (enclave_info_json e).

(** [EnclaveInfo::EnclaveInfo(jsonPath)], given the content of the file. *)
Definition EnclaveInfo_of_json (file : string) : outcome EnclaveInfo :=
  let d := json_parse (first_word false file) in
  type ← GetInt (member "Type" d);
  mrEnclave ← GetString (member "MrEnclaveHex" d);
  mrSigner ← GetString (member "MrSignerHex" d);
  productId ← GetString (member "ProductIdHex" d);
  security ← GetInt (member "SecurityVersion" d);
  attrs ← GetInt (member "Attributes" d);
  quoteHex ← GetString (member "QuoteHex" d);
  heldHex ← GetString (member "EnclaveHeldDataHex" d);
  Ret (mkEnclaveInfo type mrEnclave mrSigner productId (u32 security) (u64 attrs)
    (hexStringToByteArray quoteHex) (hexStringToByteArray heldHex)).
End info.

(** * The client of the attestation service (attestation/AzureAttestationServiceClient.cpp) *)

Section client.
Context `{SgxPlatform} `{JsonLib} `{JwtLib}.
Abbreviation AM := (M AH).

Record AzureAttestationServiceClient := mkClient {
  attestationServiceUrl : string; certificateEndpoint : string; tenantName : string; cachedJwks : JwksSet }.

Definition ATT_URI_SUFFIX : string := ":443/attest/SgxEnclave?api-version=2020-10-01".
Definition https : string := "https://".

Definition requestBodyFromEnclaveInfo (e : EnclaveInfo) : json :=
  JObject [("draftPolicyForAttestation", JString "");
    ("initTimeData", JObject [("data", JString ""); ("dataType", JString "")]);
    ("quote", JString (base64_url (quote e)));
    ("runtimeData", JObject [("data", JString (base64_url [])); ("dataType", JString "Binary")])].

(** A response with another code than 200, or an exception, is an error. *)
Definition queried (x : AH → outcome (Z * string) * AH) (refused : string) : AM string :=
  λ t, match x t with
  | (Ret (code, body), t) => (if code =? 200 then Ret body else Throw (RuntimeError refused), t)
  | (Throw e, t) =>
      (Throw (if is_std_exception e then RuntimeError "Exception querying Azure Attestation Service" else e), t)
  end.

Definition fetchJwks (endpoint tenant : string) : AM JwksSet :=
  jwksValue ← queried (http_get endpoint tenant) "Exception querying Azure Attestation Service";
  lift (parse_jwks jwksValue).

(** [substr] past the end throws. *)
Definition new_client (url : string) : AM AzureAttestationServiceClient :=
  if (String.length url <? String.length https)%nat then throw (OutOfRange "basic_string::substr")
  else
    let tenant := String.substring (String.length https) (String.length url - String.length https) url in
    jwks ← fetchJwks (url +:+ "/certs") tenant;
    mret (mkClient url (url +:+ "/certs") tenant jwks).

(** [AzureAttestationServiceClient::attestEnclave] *)
Definition query_attestation (c : AzureAttestationServiceClient) (e : EnclaveInfo) : AM string :=
  queried (http_post (attestationServiceUrl c +:+ ATT_URI_SUFFIX) (json_write (requestBodyFromEnclaveInfo e)))
    "Error validaing enclave quote".

Definition getTokenFromJwtResponse (jwtResponse : string) : outcome string :=
  GetString (member "token" (json_parse jwtResponse)).

Definition validateJkuUri (c : AzureAttestationServiceClient) (decodedJwt : DecodedJwt) : outcome unit :=
  jwtJkuUri ← GetString (member "jku" (json_parse (get_header decodedJwt)));
  if decide (jwtJkuUri = certificateEndpoint c) then Ret () else Throw (RuntimeError "Unexpected JKU field in JWT").

(** The certificate of the key that signed a token. *)
Definition certificate (jwks : JwksSet) (decodedJwt : DecodedJwt) : option string :=
  kid ← get_key_id decodedJwt; jwk ← get_jwk jwks kid; get_x5c_key_value jwk.

Definition claim_missing : exn := OutOfRange "claim not found".
Definition claim {A} (x : option A) : outcome A := match x with Some a => Ret a | None => Throw claim_missing end.

(** The keys are fetched again once, when the cached ones do not have the key. *)
Definition validateJwtSignature (c : AzureAttestationServiceClient) (decodedJwt : DecodedJwt) : AM unit :=
  x5c ← match certificate (cachedJwks c) decodedJwt with
        | Some x5c => mret x5c
        | None =>
            jwks ← fetchJwks (certificateEndpoint c) (tenantName c);
            lift (claim (certificate jwks decodedJwt))
        end;
  jwtIssuer ← lift (claim (get_issuer decodedJwt));
  (if negb (bool_decide (x5c = "")) && negb (bool_decide (jwtIssuer = ""))
   then lift (jwt_verify x5c jwtIssuer decodedJwt)
   else throw (RuntimeError "Error verifying JWT signature")) ;;
  jwtIss ← lift (claim (payload_iss decodedJwt));
  if decide (attestationServiceUrl c = jwtIss) then mret () else throw (RuntimeError "Error verifying JWT issuer").

Definition validateJwtToken (c : AzureAttestationServiceClient) (jwtResponse : string) : AM unit :=
  jwtToken ← lift (getTokenFromJwtResponse jwtResponse);
  decodedJwt ← lift (jwt_decode jwtToken);
  lift (validateJkuUri c decodedJwt) ;;
  validateJwtSignature c decodedJwt.

(** * Attestation (attestation/attestation.cpp) *)

(** What the call into the enclave returns, and the report, which is unset after an error. *)
Definition ecallCreateReport (qeTarget heldData : list Z) (t : AH) : Z * option SgxReport :=
  let '(st, r) := sgx_create_report qeTarget heldData t in
  if st =? SGX_ERROR_INVALID_PARAMETER then (FAASM_SGX_INVALID_PTR, None)
  else if st =? SGX_SUCCESS then (FAASM_SGX_SUCCESS, Some r)
  else (FAASM_SGX_GENERATE_REPORT_FAILED, None).

(** The status of entering the enclave is tested, what the call returned is not. *)
Definition generateQuote (enclaveId : Z) (enclaveHeldData : list Z) : AM EnclaveInfo :=
  t ← get;
  let '(qe, targetInfo) := sgx_qe_get_target_info t in
  if negb (qe =? 0) then throw (RuntimeError "Error getting the QE's info")
  else if negb (ecall_status enclaveId t =? SGX_SUCCESS) then throw (RuntimeError "Error creating enclave's report")
  else
    let '(_, enclaveReport) := ecallCreateReport targetInfo (sha256sum enclaveHeldData) t in
    let '(qe, quoteSize) := sgx_qe_get_quote_size t in
    if negb (qe =? 0) then throw (RuntimeError "Error getting enclave's quote size")
    else
      match enclaveReport with
      | None => throw (Undefined "unset report")
      | Some r =>
          let '(qe, quoteBuffer) := sgx_qe_get_quote r quoteSize t in
          if negb (qe =? 0) then throw (RuntimeError "Error getting enclave's quote")
          else mret (EnclaveInfo_of_report r quoteBuffer enclaveHeldData)
      end.

Definition validateQuote (e : EnclaveInfo) (attestationProviderUrl : string) : AM unit :=
  client ← new_client attestationProviderUrl;
  jwtResponse ← query_attestation client e;
  validateJwtToken client jwtResponse.

Definition attestEnclave (attestationProviderUrl : string) (enclaveId : Z) (enclaveHeldData : list Z) : AM unit :=
  e ← generateQuote enclaveId enclaveHeldData; validateQuote e attestationProviderUrl.

(** * The enclave of the process (system.cpp) *)

Context `{WamrRuntime} (hardware : bool) (attestationProviderUrl : string).

Record Sgx := mkSgx { globalEnclaveId : Z; sg_enclave : EnclaveState; sg_host : AH }.
Abbreviation SM := (M Sgx).
Definition on_ah {A} (x : AM A) : SM A := zoom sg_host (λ t s, mkSgx (globalEnclaveId s) (sg_enclave s) t) x.

Definition enclaveHeldData_placeholder : list Z := [1; 2; 3; 4; 5; 6].

(** The number of the enclave is set before its runtime is made ready and before it is
    attested; with a number, nothing is done. *)
Definition checkSgxSetup : SM unit :=
  s ← get;
  if negb (globalEnclaveId s =? 0) then mret ()
  else if hardware && negb (isSgxEnabled (sg_host s)) then throw (RuntimeError "Machine doesn't support SGX")
  else if negb (enclave_file_exists (sg_host s)) then throw (RuntimeError "Could not find enclave file")
  else
    '(status, newId) ← on_ah (λ t, let '(r, t) := sgx_create_enclave t in (Ret r, t));
    modify (λ s, mkSgx newId (mkEnclave ∅ false) (sg_host s)) ;;
    processECallErrors "Unable to create enclave" status FAASM_SGX_SUCCESS ;;
    s ← get;
    (if negb (ecall_status newId (sg_host s) =? SGX_SUCCESS)
     then processECallErrors "Unable to initialise WAMR inside enclave" (ecall_status newId (sg_host s)) FAASM_SGX_SUCCESS
     else
       r ← zoom sg_enclave (λ e s, mkSgx (globalEnclaveId s) e (sg_host s)) ecallInitWamr;
       processECallErrors "Unable to initialise WAMR inside enclave" SGX_SUCCESS r) ;;
    when hardware (on_ah (attestEnclave attestationProviderUrl newId enclaveHeldData_placeholder)).

Definition tearDownEnclave : SM unit :=
  s ← get;
  status ← on_ah (λ t, let '(r, t) := sgx_destroy_enclave (globalEnclaveId s) t in (Ret r, t));
  processECallErrors "Unable to destroy enclave" status FAASM_SGX_SUCCESS ;;
  modify (λ s, mkSgx 0 (sg_enclave s) (sg_host s)).
End client.

(** * Properties *)

Class JsonLaws `{JsonLib} : Prop := {
  json_inverse e : json_parse (json_write (enclave_info_json e)) = Some (enclave_info_json e);
  (** the writer adds no white space *)
  json_compact e : no_space (mrEnclaveHex e) → no_space (mrSignerHex e) → no_space (productIdHex e) →
    no_space (json_write (enclave_info_json e));
  hex_inverse bs : hexStringToByteArray (byteArrayToHexString bs) = bs }.

Section info_properties.
Context `{JL : JsonLib} `{JLL : !JsonLaws}.

Lemma first_word_no_space b str : no_space str → first_word b str = str.
Proof.
  revert b. induction str as [|a str IH]; intros b Hs; [done|]. cbn in *.
  destruct (is_space a); [done|]. by rewrite IH.
Qed.
Lemma GetInt_range n : in_s 32 n → GetInt (Some (JInt n)) = Ret n.
Proof.
  intros Hn. unfold in_s in Hn. cbn. destruct (Z.leb_spec (- 2 ^ 31) n); [|lia]. by destruct (Z.ltb_spec n (2 ^ 31)); [|lia].
Qed.

(** What is known of an enclave is read back from the file it was written to, when its
    version and its attributes fit 31 bits; wider attributes, which the record can hold, fail
    the assertion of the reader. *)
Theorem enclave_info_roundtrip e :
  enclaveType e = 2 → in_u 32 (securityVersion e) → in_u 64 (attributes e) → securityVersion e < 2 ^ 31 →
  no_space (mrEnclaveHex e) → no_space (mrSignerHex e) → no_space (productIdHex e) →
  EnclaveInfo_of_json (toJson e) =
    if attributes e <? 2 ^ 31 then Ret e else Throw (AssertFailed "kIntFlag").
Proof.
  intros Ht Hv Ha Hv' H1 H2 H3. unfold EnclaveInfo_of_json, toJson.
  rewrite first_word_no_space by by apply json_compact. rewrite json_inverse.
  set (d := Some (enclave_info_json e)).
  change (member "Type" d) with (Some (JInt (enclaveType e))).
  change (member "MrEnclaveHex" d) with (Some (JString (mrEnclaveHex e))).
  change (member "MrSignerHex" d) with (Some (JString (mrSignerHex e))).
  change (member "ProductIdHex" d) with (Some (JString (productIdHex e))).
  change (member "SecurityVersion" d) with (Some (JInt (securityVersion e))).
  change (member "Attributes" d) with (Some (JInt (attributes e))).
  change (member "QuoteHex" d) with (Some (JString (byteArrayToHexString (quote e)))).
  change (member "EnclaveHeldDataHex" d) with (Some (JString (byteArrayToHexString (enclaveHeldData e)))).
  clear d. unfold in_u in *. rewrite Ht, (GetInt_range 2), (GetInt_range (securityVersion e)) by (unfold in_s; lia).
  cbn [GetString mbind outcome_bind]. destruct (Z.ltb_spec (attributes e) (2 ^ 31)).
  - rewrite (GetInt_range (attributes e)) by (unfold in_s; lia). cbn [mbind outcome_bind].
    rewrite !hex_inverse, (wrapU_id 32), (wrapU_id 64) by (unfold in_u; lia). f_equal. destruct e. cbn in *. by subst.
  - unfold GetInt. destruct (Z.leb_spec (- 2 ^ 31) (attributes e)); [|lia].
    by destruct (Z.ltb_spec (attributes e) (2 ^ 31)); [lia|].
Qed.
End info_properties.

Section setup_properties.
Context `{SP : SgxPlatform} `{JL : JsonLib} `{JW : JwtLib} `{WR : WamrRuntime} (url : string).
Abbreviation setup := (checkSgxSetup true url).







(** An enclave whose attestation fails stays the enclave of the process: the next set-up
    returns at once. *)
Lemma failed_attestation_forgotten (s s1 : Sgx) e :
  setup s = (Throw e, s1) → globalEnclaveId s1 ≠ 0 → setup s1 = (Ret (), s1).
Proof.
  intros _ Hid. unfold checkSgxSetup. rewrite run_bind. cbn [get]. by destruct (Z.eqb_spec (globalEnclaveId s1) 0).
Qed.
End setup_properties.

(** * A concrete platform *)

(** JSON as a number in base two. *)
Fixpoint json_tree (d : json) : gen_tree (Z + string) :=
  match d with
  | JInt n => GenLeaf (inl n)
  | JString s => GenLeaf (inr s)
  | JEnd => GenNode 0 []
  | JMember k v rest => GenNode 1 [GenLeaf (inr k); json_tree v; json_tree rest]
  end.
Fixpoint tree_json (t : gen_tree (Z + string)) : json :=
  match t with
  | GenLeaf (inl n) => JInt n
  | GenLeaf (inr s) => JString s
  | GenNode 1 [GenLeaf (inr k); v; rest] => JMember k (tree_json v) (tree_json rest)
  | GenNode _ _ => JEnd
  end.
Lemma json_tree_inverse d : tree_json (json_tree d) = d.
Proof. induction d as [n|s| |k v IHv rest IHr]; cbn; congruence. Qed.

Fixpoint positive_string (p : positive) : string :=
  match p with xH => "1" | xO p => String "0"%char (positive_string p) | xI p => String "1"%char (positive_string p) end.
Fixpoint string_positive (s : string) : option positive :=
  match s with
  | EmptyString => None
  | String a EmptyString => Some xH
  | String a s => (if Ascii.eqb a "0"%char then xO else xI) <$> string_positive s
  end.
Lemma string_positive_inverse p : string_positive (positive_string p) = Some p.
Proof.
  induction p as [p IH|p IH|]; [| |done].
  - cbn [positive_string string_positive]. destruct (positive_string p) eqn:Hp; [by destruct p|]. by rewrite IH.
  - cbn [positive_string string_positive]. destruct (positive_string p) eqn:Hp; [by destruct p|]. by rewrite IH.
Qed.
Lemma positive_string_no_space p : no_space (positive_string p).
Proof. by induction p. Qed.

Definition demo_hex (bs : list Z) : string := positive_string (encode bs).
#[export] Instance demo_json : JsonLib :=
  {| json_write d := positive_string (encode (json_tree d));
     json_parse s := string_positive s ≫= λ p, tree_json <$> decode p;
     base64_url := demo_hex; byteArrayToHexString := demo_hex;
     hexStringToByteArray s := default [] (string_positive s ≫= decode);
     intToHexString n := demo_hex [n] |}.
Lemma demo_json_inverse d : json_parse (json_write d) = Some d.
Proof.
  cbn. rewrite string_positive_inverse. cbn. rewrite decode_encode. cbn. by rewrite json_tree_inverse.
Qed.
#[export] Instance demo_json_laws : JsonLaws.
Proof.
  split.
  - intros e. apply demo_json_inverse.
  - intros e _ _ _. apply positive_string_no_space.
  - intros bs. cbn. unfold demo_hex. rewrite string_positive_inverse. cbn. by rewrite decode_encode.
Qed.

(** The state tells whether the service accepts the quote. *)
Definition demo_report : SgxReport := mkReport [1; 2] [3] 4 5 7.
#[export] Instance demo_platform : SgxPlatform :=
  {| AH := bool;
     sgx_is_capable t := Some true; sgx_cap_get_status t := Some SGX_ENABLED; enclave_file_exists t := true;
     sgx_create_enclave := λ t, ((0, 9), t); sgx_destroy_enclave := λ i t, (0, t);
     ecall_status i t := 0; sgx_qe_get_target_info t := (0, []);
     sgx_create_report i h t := (0, demo_report);
     sgx_qe_get_quote_size t := (0, 3); sgx_qe_get_quote r n t := (0, [7; 8; 9]); sha256sum bs := bs;
     http_post uri body := λ t,
       (Ret (if t : bool then 200 else 400, json_write (JObject [("token", JString "t")])), t);
     http_get uri tenant := λ t, (Ret (200, "keys"), t) |}.
#[export] Instance demo_jwt : JwtLib :=
  {| DecodedJwt := unit; JwksSet := string; Jwk := string;
     jwt_decode s := Ret ();
     get_header t := json_write (JObject [("jku", JString "https://att/certs")]);
     get_key_id t := Some "k"; get_issuer t := Some "https://att"; payload_iss t := Some "https://att";
     parse_jwks s := Ret s; get_jwk s k := Some "cert"; get_x5c_key_value k := Some k;
     jwt_verify c i t := Ret () |}.
Definition demo_sgx (accepts : bool) : Sgx := mkSgx 0 (mkEnclave ∅ false) accepts.

Lemma enclave_info_roundtrip_witness :
  let e := EnclaveInfo_of_report demo_report [7; 8; 9] [1] in EnclaveInfo_of_json (toJson e) = Ret e.
Proof.
  intros e. rewrite (enclave_info_roundtrip e); [reflexivity|reflexivity|..];
    first [apply positive_string_no_space | vm_compute; split; congruence | vm_compute; reflexivity].
Defined.


(** The service refuses the quote; the second set-up succeeds without asking. *)
Lemma refused_enclave_used :
  let s1 := (checkSgxSetup true "https://att" (demo_sgx false)).2 in
  (checkSgxSetup true "https://att" (demo_sgx false)).1 = Throw (RuntimeError "Error validaing enclave quote") ∧
  checkSgxSetup true "https://att" s1 = (Ret (), s1).
Proof.
  intros s1. assert ((checkSgxSetup true "https://att" (demo_sgx false)).1 = Throw (RuntimeError "Error validaing enclave quote")) as He
    by (vm_compute; reflexivity).
  split; [exact He|]. eapply (failed_attestation_forgotten "https://att" (demo_sgx false)); [by apply run_fst|].
  vm_compute. discriminate.
Qed.
