(* ===== verification/Dispatch.v ===== *)
(** The operations that the runtimes share and may replace: the virtual methods of
    [WasmModule] (src/include/wasm/WasmModule.h), what they do where a runtime does not
    replace them (src/wasm/WasmModule.cpp), and what the runtimes replace (the headers of
    WAVM, WAMR and the enclave).  Also the calls of a former emulator that throw
    (src/wavm/faasm.cpp). *)

From S2P Require Import Prelude.

(** * What a method does that is not replaced *)

Section base.
Context {S : Type}.
Definition not_implemented {A} (name : string) : M S A := throw (RuntimeError (name +:+ " not implemented")).

Definition base_flush : M S unit := mret ().
Definition base_doBindToFunction : M S unit := not_implemented "doBindToFunction".
Definition base_writeArgvToMemory (wasmArgvPointers wasmArgvBuffer : Z) : M S unit := not_implemented "writeArgvToMemory".
Definition base_writeWasmEnvToMemory (envPointers envBuffer : Z) : M S unit := not_implemented "writeWasmEnvToMemory".
Definition base_doGrowMemory (pageChange : Z) : M S bool := not_implemented "doGrowMemory".
Definition base_shrinkMemory (nBytes : Z) : M S Z := not_implemented "shrinkMemory".
Definition base_mmapFile (fp length : Z) : M S Z := not_implemented "mmapFile".
Definition base_wasmPointerToNative (wasmPtr : Z) : M S Z := not_implemented "wasmPointerToNative".
Definition base_printDebugInfo : M S unit := not_implemented "printDebugInfo".
Definition base_getMemorySizeBytes : M S Z := not_implemented "getMemorySizeBytes".
Definition base_getMaxMemoryPages : M S Z := not_implemented "getMaxMemoryPages".
Definition base_getMemoryBase : M S Z := not_implemented "getMemoryBase".
Definition base_executeFunction : M S Z := not_implemented "executeFunction".
Definition base_executeOMPThread (threadPoolIdx stackTop : Z) : M S Z := throw (RuntimeError "executeOMPThread not implemented ").
Definition base_executePthread (threadPoolIdx stackTop : Z) : M S Z := not_implemented "executePthread".

(** ** The emulator *)

Definition emulator_error {A} : M S A := throw (RuntimeError "Should not be calling emulator functions from wasm").
Definition setEmulatedMessageFromJson (msgPtr : Z) : M S Z := emulator_error.
Definition emulatorGetAsyncResponse : M S Z := emulator_error.
Definition emulatorSetCallStatus (success : Z) : M S unit := emulator_error.
End base.

(** * Which runtime replaces what *)

Inductive virtual_method : Type :=
  | V_reset | V_flush | V_setMemorySize | V_mapSharedStateMemory | V_doBindToFunction | V_executeFunction
  | V_writeArgvToMemory | V_writeWasmEnvToMemory | V_shrinkMemory | V_mmapFile | V_wasmPointerToNative
  | V_getMemorySizeBytes | V_getMaxMemoryPages | V_getMemoryBase | V_executeOMPThread | V_executePthread
  | V_printDebugInfo | V_doGrowMemory.
#[export] Instance virtual_method_eq_dec : EqDecision virtual_method.
Proof. solve_decision. Defined.

(** What a method that is not replaced throws; the others have an implementation that all
    runtimes share. *)
Definition base_throws (m : virtual_method) : option exn :=
  let thrown {A} (x : M unit A) := match (x tt).1 with Ret _ => None | Throw e => Some e end in
  match m with
  | V_reset | V_setMemorySize | V_mapSharedStateMemory => None
  | V_flush => thrown base_flush
  | V_doBindToFunction => thrown base_doBindToFunction
  | V_executeFunction => thrown base_executeFunction
  | V_writeArgvToMemory => thrown (base_writeArgvToMemory 0 0)
  | V_writeWasmEnvToMemory => thrown (base_writeWasmEnvToMemory 0 0)
  | V_shrinkMemory => thrown (base_shrinkMemory 0)
  | V_mmapFile => thrown (base_mmapFile 0 0)
  | V_wasmPointerToNative => thrown (base_wasmPointerToNative 0)
  | V_getMemorySizeBytes => thrown base_getMemorySizeBytes
  | V_getMaxMemoryPages => thrown base_getMaxMemoryPages
  | V_getMemoryBase => thrown base_getMemoryBase
  | V_executeOMPThread => thrown (base_executeOMPThread 0 0)
  | V_executePthread => thrown (base_executePthread 0 0)
  | V_printDebugInfo => thrown base_printDebugInfo
  | V_doGrowMemory => thrown (base_doGrowMemory 0)
  end.
Definition all_methods : list virtual_method := [
  V_reset; V_flush; V_setMemorySize; V_mapSharedStateMemory; V_doBindToFunction; V_executeFunction;
  V_writeArgvToMemory; V_writeWasmEnvToMemory; V_shrinkMemory; V_mmapFile; V_wasmPointerToNative;
  V_getMemorySizeBytes; V_getMaxMemoryPages; V_getMemoryBase; V_executeOMPThread; V_executePthread;
  V_printDebugInfo; V_doGrowMemory].

(** The methods declared [override] in the classes [WAVMWasmModule], [WAMRWasmModule] and
    [EnclaveInterface]. *)
Definition wavm_overrides : list virtual_method := [
  V_doBindToFunction; V_reset; V_mmapFile; V_wasmPointerToNative; V_getMemorySizeBytes; V_getMaxMemoryPages;
  V_getMemoryBase; V_shrinkMemory; V_writeWasmEnvToMemory; V_printDebugInfo; V_writeArgvToMemory;
  V_executeFunction; V_executeOMPThread; V_executePthread; V_doGrowMemory].
Definition wamr_overrides : list virtual_method := [
  V_reset; V_doBindToFunction; V_executeFunction; V_wasmPointerToNative; V_mmapFile; V_getMemorySizeBytes;
  V_getMemoryBase; V_getMaxMemoryPages; V_doGrowMemory].
Definition enclave_overrides : list virtual_method := [
  V_doBindToFunction; V_executeFunction; V_getMemorySizeBytes; V_getMaxMemoryPages; V_getMemoryBase].

(** What a runtime refuses: what it does not replace and the base throws for. *)
Definition refuses (overrides : list virtual_method) : list virtual_method :=
  filter (λ m, (m ∉ overrides) ∧ is_Some (base_throws m)) all_methods.

(** WAVM has everything.  WAMR gives no memory back, so that no snapshot that is smaller
    than the memory can be restored, and runs no threads; the enclave has in addition
    nothing that changes or addresses its memory from outside. *)
Theorem runtimes_refuse :
  refuses wavm_overrides = [] ∧
  refuses wamr_overrides = [V_writeArgvToMemory; V_writeWasmEnvToMemory; V_shrinkMemory;
    V_executeOMPThread; V_executePthread; V_printDebugInfo] ∧
  refuses enclave_overrides = [V_writeArgvToMemory; V_writeWasmEnvToMemory; V_shrinkMemory; V_mmapFile;
    V_wasmPointerToNative; V_executeOMPThread; V_executePthread; V_printDebugInfo; V_doGrowMemory].
Proof. split_and!; vm_compute; reflexivity. Qed.
