(* ===== verification/Startup.v ===== *)
(** Processes from start to end: connecting to the object store and leaving it
    (src/storage/S3Wrapper.cpp), and the [main] of each program (src/runner,
    src/upload/upload_server.cpp). *)

From S2P Require Import Prelude Text WasmBytes S3 Host FileLoader Codegen Chaining Runner.

(** * The connection to the store *)

(** Setting up a handle of librados: what the calls give on the cluster they are
    made for. *)
Class RadosAdmin `{Rados} := {
  rados_create : R → Z;
  rados_conf_read_file : string → R → Z;
  rados_conf_parse_env : string → R → Z;
  rados_connect : R → Z }.

(** What was made and given back, in order: handles of the cluster, and the I/O
    contexts of pools. *)
Inductive rados_event : Type := HandleCreated | IoctxDestroyed (pool : string) | HandleShutdown.

(** [S3Wrapper::cluster], the null pointer or a handle that is connected or not; the
    pools of [RadosState]. *)
Record Client `{Rados} := mkClient { cl_handle : option bool; cl_events : list rados_event; cl_s3 : S3State }.
Arguments mkClient {_} _ _ _.

Definition CEPH_CONF : string := "/etc/ceph/ceph.conf".

Section client.
Context `{RadosAdmin}.
Abbreviation ClientM := (M Client).

Definition on_s3 {A} : M S3State A → ClientM A := zoom cl_s3 (λ x s, mkClient (cl_handle s) (cl_events s) x).
Definition set_handle (h : option bool) : ClientM unit := modify (λ s, mkClient h (cl_events s) (cl_s3 s)).
Definition rados_note (e : rados_event) : ClientM unit :=
  modify (λ s, mkClient (cl_handle s) (cl_events s ++ [e]) (cl_s3 s)).
Definition admin (f : R → Z) : ClientM Z := gets (λ s, f (cluster (cl_s3 s))).

(** [RadosPool::RadosPool] under [RadosState::getPool], with the test for a handle that
    the operations of [S3] leave to the start of the process. *)
Definition client_getPool (name : string) : ClientM bool :=
  s ← get;
  match pools (cl_s3 s) !! name, cl_handle s with
  | None, None =>
      on_s3 (modify (λ x, mkS3 (<[name := false]> (pools x)) (cluster x))) ;;
      throw (RuntimeError "Trying to open a pool without initializing storage first.")
  | _, _ => on_s3 (getPool name)
  end.

(** [RadosState::reset] and [resetPool]: the destructor of a pool gives its context
    back. *)
Definition opened_pools (m : gmap string bool) : list string := (filter (λ p, p.2 = true) (map_to_list m)).*1.
Definition reset_pools : ClientM unit :=
  s ← get;
  for_each (opened_pools (pools (cl_s3 s))) (λ p, rados_note (IoctxDestroyed p)) ;;
  on_s3 (modify (λ x, mkS3 ∅ (cluster x))).
Definition resetPool (name : string) : ClientM unit :=
  s ← get;
  when (bool_decide (pools (cl_s3 s) !! name = Some true)) (rados_note (IoctxDestroyed name)) ;;
  on_s3 (modify (λ x, mkS3 (delete name (pools x)) (cluster x))).

Definition ping (bucket : string) : M S3State unit :=
  createBucket bucket ;;
  addKeyStr bucket "ping" "pong" ;;
  response ← getKeyStr bucket "ping";
  if bool_decide (response = "pong") then mret ()
  else throw (RuntimeError ("Unable to write/ read to/ from S3 (" +:+ response +:+ ")")).

Definition initFaasmS3 (bucket : string) : ClientM unit :=
  err ← admin rados_create;
  if err <? 0 then set_handle None ;; throw (ThrownPointer "Couldn't create the rados cluster handle")
  else
    set_handle (Some false) ;;
    rados_note HandleCreated ;;
    err ← admin (rados_conf_read_file CEPH_CONF);
    if err <? 0 then throw (ThrownPointer "Couldn't read config file at /etc/ceph/ceph.conf")
    else
      err ← admin (rados_conf_parse_env "CEPH_ARGS");
      if err <? 0 then throw (ThrownPointer "Couldn't parse the CEPH_ARGS environment variable")
      else
        err ← admin rados_connect;
        if err <? 0 then throw (ThrownPointer "Couldn't connect to the rados/ceph cluster")
        else set_handle (Some true) ;; on_s3 (ping bucket).

Definition shutdownFaasmS3 : ClientM unit :=
  reset_pools ;;
  s ← get;
  match cl_handle s with
  | Some _ => rados_note HandleShutdown ;; set_handle None
  | None => mret ()
  end.

(** ** What they leave *)

(** With a handle the pools are those of [S3]. *)
Lemma client_getPool_ready name s :
  cl_handle s ≠ None → client_getPool name s = on_s3 (getPool name) s.
Proof.
  intros Hh. unfold client_getPool. rewrite run_bind. cbn [get]. unfold get.
  destruct (pools (cl_s3 s) !! name); [done|]. by destruct (cl_handle s).
Qed.

Lemma rados_notes ps s :
  for_each ps (λ p, rados_note (IoctxDestroyed p)) s =
  (Ret (), mkClient (cl_handle s) (cl_events s ++ (IoctxDestroyed <$> ps)) (cl_s3 s)).
Proof.
  induction ps as [|p ps IH] in s |- *; cbn [for_each].
  - rewrite app_nil_r. by destruct s.
  - rewrite run_bind. unfold rados_note at 1, modify. rewrite IH. cbn [cl_handle cl_events cl_s3]. by rewrite <- app_assoc.
Qed.

(** Leaving the store gives every context of a pool back, before the handle. *)
Lemma shutdown_run s :
  shutdownFaasmS3 s =
  (Ret (), mkClient None
     (cl_events s ++ (IoctxDestroyed <$> opened_pools (pools (cl_s3 s))) ++
      (if cl_handle s is Some _ then [HandleShutdown] else []))
     (mkS3 ∅ (cluster (cl_s3 s)))).
Proof.
  unfold shutdownFaasmS3, reset_pools. rewrite !run_bind. cbn [get]. unfold get at 1. rewrite run_bind, rados_notes.
  cbn [on_s3 zoom modify cl_s3 cl_handle cl_events]. unfold on_s3, zoom. cbn [modify cl_s3 cl_handle cl_events pools cluster].
  rewrite run_bind. unfold get. destruct (cl_handle s); cbv beta iota zeta; cbn [cl_handle].
  - rewrite run_bind. unfold rados_note, set_handle, modify. cbn [cl_events cl_s3]. by rewrite <- app_assoc.
  - by rewrite app_nil_r.
Qed.

Context {RL : RadosLaws}.

Lemma createBucket_cases b s :
  match createBucket b s with
  | (Ret _, s') => pools s' = pools s ∧ ∀ b' k, rados_obj b' k (cluster s') = rados_obj b' k (cluster s)
  | (Throw e, _) => e = RuntimeError "Bucket cannot be created."
  end.
Proof.
  unfold createBucket. rewrite run_bind. unfold rados_do. destruct (rados_pool_create b (cluster s)) as [e r] eqn:Hcr.
  unfold when. destruct (_ && _); [done|]. split; [done|]. intros b' k. by eapply create_other.
Qed.

Lemma addKeyStr_throw b k data s e s' :
  pools s !! b ≠ Some false → addKeyStr b k data s = (Throw e, s') →
  e = ThrownPointer "Couldn't open rados pool" ∨ e = RuntimeError "Key cannot be written.".
Proof.
  intros Hb. unfold addKeyStr. rewrite run_bind. destruct (ioctx b s) as [[[]|e'] s1] eqn:Hio.
  - rewrite run_bind. unfold rados_do. destruct (rados_write_full b k _ (cluster s1)) as [e1 r1].
    unfold when. destruct (e1 <? 0); [|done]. intros [= <- <-]. tauto.
  - intros [= <- <-]. revert Hio. unfold ioctx, getPool. rewrite !run_bind. unfold get.
    destruct (pools s !! b) as [[]|]; [done..|].
    rewrite run_bind. unfold put. destruct (_ <? 0); intros [= <- <-]; tauto.
Qed.

(** Once the connection is made, the ping answers or a call of the store fails: it is
    never answered with something else. *)
Lemma ping_cases bucket s :
  pools s !! bucket ≠ Some false →
  match ping bucket s with
  | (Ret _, s') => connected bucket s' ∧ rados_obj bucket "ping" (cluster s') = Some (bytes_of_string "pong") ∧
      ∀ b k, (bucket, "ping") ≠ (b, k) → rados_obj b k (cluster s') = rados_obj b k (cluster s)
  | (Throw e, _) => e ∈ [RuntimeError "Bucket cannot be created."; ThrownPointer "Couldn't open rados pool";
      RuntimeError "Key cannot be written."]
  end.
Proof.
  intros Hnull. unfold ping. rewrite run_bind. pose proof (createBucket_cases bucket s) as Hb.
  destruct (createBucket bucket s) as [[[]|e] s1]; [|subst e; rewrite !elem_of_cons; tauto]. destruct Hb as [Hp Hb].
  rewrite run_bind. destruct (addKeyStr bucket "ping" "pong" s1) as [[[]|e] s2] eqn:Ha.
  - destruct (addKeyStr_ret _ _ _ _ _ Ha) as (Hc & Hobj & Hother). rewrite run_bind. unfold getKeyStr.
    rewrite run_bind, (getKeyBytes_run bucket "ping" false s2 _ Hc Hobj) by (vm_compute; congruence).
    cbn. split; [done|]. split; [done|]. intros b k Hne. by rewrite Hother, Hb.
  - rewrite !elem_of_cons. destruct (addKeyStr_throw _ _ _ _ _ _ ltac:(by rewrite Hp) Ha) as [->| ->]; tauto.
Qed.

(** Joining the store: when [initFaasmS3] returns, the process holds one handle, it is
    connected, the pool of the bucket is open and holds the ping, and no other object
    has changed.  Else it throws: before the connection a pointer, that no handler for
    exceptions catches, with the store as it was; after it an error of the ping. *)
Theorem store_joined bucket s :
  pools (cl_s3 s) = ∅ →
  match initFaasmS3 bucket s with
  | (Ret _, s') => cl_handle s' = Some true ∧ cl_events s' = cl_events s ++ [HandleCreated] ∧
      connected bucket (cl_s3 s') ∧
      rados_obj bucket "ping" (cluster (cl_s3 s')) = Some (bytes_of_string "pong") ∧
      ∀ b k, (bucket, "ping") ≠ (b, k) → rados_obj b k (cluster (cl_s3 s')) = rados_obj b k (cluster (cl_s3 s))
  | (Throw e, s') =>
      cl_handle s' = Some true ∧ e ∈ [RuntimeError "Bucket cannot be created."; ThrownPointer "Couldn't open rados pool";
        RuntimeError "Key cannot be written."] ∨
      cl_handle s' ≠ Some true ∧ is_std_exception e = false ∧ cl_s3 s' = cl_s3 s
  end.
Proof.
  intros Hp. unfold initFaasmS3, admin, set_handle, rados_note, gets, modify, throw.
  rewrite run_bind. destruct (rados_create _ <? 0); [by right|]. rewrite !run_bind. cbn [cl_handle cl_events cl_s3].
  destruct (rados_conf_read_file _ _ <? 0); [by right|]. rewrite run_bind. cbn [cl_s3].
  destruct (rados_conf_parse_env _ _ <? 0); [by right|]. rewrite run_bind. cbn [cl_s3].
  destruct (rados_connect _ <? 0); [by right|]. rewrite run_bind. cbn [cl_s3 cl_events]. unfold on_s3, zoom. cbn [cl_s3].
  pose proof (ping_cases bucket (cl_s3 s) ltac:(by rewrite Hp)) as Hping.
  destruct (ping bucket (cl_s3 s)) as [[u|e] x]; [|by left]. by destruct Hping as (? & ? & ?).
Qed.

(** Leaving it: whatever was done with the store, every pool that is open is given back
    and, last, the handle; nothing is left, and another use of a pool is refused. *)
Theorem store_left s :
  let '(o, s') := shutdownFaasmS3 s in
  o = Ret () ∧ cl_handle s' = None ∧ pools (cl_s3 s') = ∅ ∧ cluster (cl_s3 s') = cluster (cl_s3 s) ∧
  (∃ ps, (∀ b, b ∈ ps ↔ pools (cl_s3 s) !! b = Some true) ∧ NoDup ps ∧
    cl_events s' = cl_events s ++ (IoctxDestroyed <$> ps) ++ (if cl_handle s is Some _ then [HandleShutdown] else [])) ∧
  ∀ b, (client_getPool b s').1 = Throw (RuntimeError "Trying to open a pool without initializing storage first.").
Proof.
  rewrite shutdown_run. split_and!; try done.
  exists (opened_pools (pools (cl_s3 s))). split_and!; [|apply NoDup_fmap_fst|done].
  - intros b. unfold opened_pools. rewrite list_elem_of_fmap. split.
    + intros ([b' v] & -> & [Hv Hin]%list_elem_of_filter). cbn in *. subst v. by apply elem_of_map_to_list.
    + intros Hb. exists (b, true). split; [done|]. apply list_elem_of_filter. split; [done|]. by apply elem_of_map_to_list.
  - intros b v v' [Hv _]%list_elem_of_filter [Hv' _]%list_elem_of_filter. cbn in *. congruence.
  - apply NoDup_filter, NoDup_map_to_list.
Qed.
End client.

(** * The mains

    A process: its handle of the store, what it started and stopped in order, and the
    state [X] that its work is on, which holds that of the pools. *)

Inductive proc_event : Type :=
  | HooksInstalled | SchedulerShutdown | HostAdded | RunnerStarted | BackgroundStarted | RunnerStopped
  | EndpointServed (ndp : bool) | StateServerStarted | StateServerStopped.

Record Proc `{Rados} {X : Type} := mkProc {
  pr_handle : option bool; pr_rados : list rados_event; pr_events : list proc_event; pr_work : X }.
Arguments Proc : clear implicits.
Arguments Proc {_} _.
Arguments mkProc {_ _} _ _ _ _.

Inductive program : Type :=
  | CodegenFunc | CodegenSharedObj | FuncRunner | LocalPoolRunner | FuncSym | MicrobenchRunner | PoolRunner | UploadServer.

Section mains.
Context `{RadosAdmin} {X : Type} (getS : X → S3State) (setS : S3State → X → X) (bucket : string).
(** The arena mode of the configuration, and whether this is a storage node. *)
Context (vmArenaUffd isStorageNode : bool).
(** boost's program options, with the values of the user and the function; the work of
    the programs. *)
Context (parseRunnerCmdLine : list string → outcome (string * string * option (list Z) * option string))
  (codegen_func codegen_shared_obj : list string → M X plan) (run_pool : nat → list string → M X unit)
  (func_run local_run : string → string → option (list Z) → option string → M X Z)
  (disassemble : string → string → M X unit) (bench : string → string → M X Z)
  (serve : bool → M X unit) (listen : M X unit).
Abbreviation PM := (M (Proc X)).

Definition on_client {A} : M Client A → PM A :=
  zoom (λ p, mkClient (pr_handle p) (pr_rados p) (getS (pr_work p)))
       (λ c p, mkProc (cl_handle c) (cl_events c) (pr_events p) (setS (cl_s3 c) (pr_work p))).
Definition on_work {A} : M X A → PM A := zoom pr_work (λ x p, mkProc (pr_handle p) (pr_rados p) (pr_events p) x).
Definition note (e : proc_event) : PM unit :=
  modify (λ p, mkProc (pr_handle p) (pr_rados p) (pr_events p ++ [e]) (pr_work p)).

(** [runner::commonInit] *)
Definition setupWavmHooks : PM unit := when vmArenaUffd (note HooksInstalled).
Definition init_store : PM unit := on_client (initFaasmS3 bucket).
Definition leave_store : PM unit := on_client shutdownFaasmS3.

(** The end of the code generators. *)
Definition follow (p : plan) : PM Z :=
  match p with
  | Exit code => mret code
  | Finish => leave_store ;; mret 0
  | RunPool nThreads entries => on_work (run_pool nThreads entries) ;; leave_store ;; mret 0
  end.
Definition main_codegen_func (args : list string) : PM Z :=
  setupWavmHooks ;; init_store ;; p ← on_work (codegen_func args); follow p.
Definition main_codegen_shared_obj (args : list string) : PM Z :=
  setupWavmHooks ;; init_store ;; p ← on_work (codegen_shared_obj args); follow p.

Definition main_func_runner (args : list string) : PM Z :=
  setupWavmHooks ;; init_store ;;
  '(user, function, input, cmd) ← lift (parseRunnerCmdLine args);
  result ← on_work (func_run user function input cmd);
  leave_store ;; mret result.

(** The result of [doRunner] is not looked at. *)
Definition main_local_pool_runner (args : list string) : PM Z :=
  init_store ;;
  note SchedulerShutdown ;; note HostAdded ;; note RunnerStarted ;;
  '(user, function, input, cmd) ← lift (parseRunnerCmdLine args);
  on_work (local_run user function input cmd) ;;
  note RunnerStopped ;; leave_store ;; mret 0.

Definition main_func_sym (args : list string) : PM Z :=
  setupWavmHooks ;; init_store ;;
  match args with
  | user :: function :: _ => on_work (disassemble user function) ;; leave_store ;; mret 0
  | _ => mret 1
  end.

Definition main_microbench_runner (args : list string) : PM Z :=
  setupWavmHooks ;; init_store ;;
  match args with
  | inFile :: outFile :: _ => returnValue ← on_work (bench inFile outFile); leave_store ;; mret returnValue
  | _ => mret 1
  end.

Definition main_pool_runner : PM Z :=
  setupWavmHooks ;; init_store ;;
  note BackgroundStarted ;;
  on_work (serve isStorageNode) ;;
  note (EndpointServed isStorageNode) ;; note RunnerStopped ;; leave_store ;; mret 0.

Definition main_upload_server : PM Z :=
  init_store ;; note StateServerStarted ;; on_work listen ;; note StateServerStopped ;; leave_store ;; mret 0.

Definition program_main (prog : program) (args : list string) : PM Z :=
  match prog with
  | CodegenFunc => main_codegen_func args
  | CodegenSharedObj => main_codegen_shared_obj args
  | FuncRunner => main_func_runner args
  | LocalPoolRunner => main_local_pool_runner args
  | FuncSym => main_func_sym args
  | MicrobenchRunner => main_microbench_runner args
  | PoolRunner => main_pool_runner
  | UploadServer => main_upload_server
  end.

(** ** How they end *)

Context (get_set : ∀ s x, getS (setS s x) = s).

Definition has_left (p : Proc X) : Prop :=
  pr_handle p = None ∧ pools (getS (pr_work p)) = ∅.
(** The exits before the store is left: the code generators by their plan, the others
    for want of arguments. *)
Definition early (prog : program) (args : list string) (code : Z) : Prop :=
  match prog with
  | CodegenFunc => ∃ x x', codegen_func args x = (Ret (Exit code), x')
  | CodegenSharedObj => ∃ x x', codegen_shared_obj args x = (Ret (Exit code), x')
  | FuncSym | MicrobenchRunner => (length args < 2)%nat ∧ code = 1
  | _ => False
  end.

Definition ends (P : Z → Prop) (m : PM Z) : Prop := ∀ p,
  match m p with (Ret code, p') => has_left p' ∨ P code | (Throw _, _) => True end.

Lemma ends_bind {A} P (m : PM A) (f : A → PM Z) : (∀ a, ends P (f a)) → ends P (m ≫= f).
Proof. intros Hf p. rewrite run_bind. destruct (m p) as [[a|e] p1]; [apply Hf|done]. Qed.
Lemma ends_work {A} P (m : M X A) (f : A → PM Z) :
  (∀ a x x', m x = (Ret a, x') → ends P (f a)) → ends P (on_work m ≫= f).
Proof.
  intros Hf p. rewrite run_bind. unfold on_work, zoom. destruct (m (pr_work p)) as [[a|e] x'] eqn:Hm; [|done].
  by eapply Hf.
Qed.
Lemma ends_left P code : ends P (leave_store ;; mret code).
Proof.
  intros p. rewrite run_bind. unfold leave_store, on_client, zoom. rewrite shutdown_run. cbn. left.
  split; [done|]. cbn. by rewrite get_set.
Qed.
Lemma ends_ret (P : Z → Prop) code : P code → ends P (mret code).
Proof. intros Hc p. by right. Qed.
Lemma ends_follow (P : Z → Prop) p : (∀ code, p = Exit code → P code) → ends P (follow p).
Proof.
  intros Hp. destruct p as [code| |n es]; cbn [follow]; [by apply ends_ret, Hp|apply ends_left|].
  apply ends_bind. intros _. apply ends_left.
Qed.

(** Whatever its work does, a program that returns has left the store, but for the exits
    before. *)
Theorem programs_leave prog args : ends (early prog args) (program_main prog args).
Proof.
  destruct prog; cbn [program_main]; unfold main_codegen_func, main_codegen_shared_obj, main_func_runner,
    main_local_pool_runner, main_func_sym, main_microbench_runner, main_pool_runner, main_upload_server.
  - do 2 (apply ends_bind; intros _). apply ends_work. intros p x x' Hp. apply ends_follow. intros code ->. by exists x, x'.
  - do 2 (apply ends_bind; intros _). apply ends_work. intros p x x' Hp. apply ends_follow. intros code ->. by exists x, x'.
  - do 2 (apply ends_bind; intros _). apply ends_bind. intros [[[u f] i] c]. apply ends_bind. intros r. apply ends_left.
  - do 4 (apply ends_bind; intros _). apply ends_bind. intros [[[u f] i] c]. do 2 (apply ends_bind; intros _). apply ends_left.
  - do 2 (apply ends_bind; intros _). destruct args as [|u [|f rest]]; [apply ends_ret; cbn; lia..|].
    apply ends_bind. intros _. apply ends_left.
  - do 2 (apply ends_bind; intros _). destruct args as [|u [|f rest]]; [apply ends_ret; cbn; lia..|].
    apply ends_bind. intros r. apply ends_left.
  - do 5 (apply ends_bind; intros _). apply ends_bind. intros _. apply ends_left.
  - do 4 (apply ends_bind; intros _). apply ends_left.
Qed.

(** The calls of the work and of the store are not events of the process. *)
Definition no_event {A} (m : PM A) : Prop := ∀ p, pr_events (m p).2 = pr_events p.
Lemma no_event_work {A} (m : M X A) : no_event (on_work m).
Proof. intros p. unfold on_work, zoom. by destruct (m (pr_work p)). Qed.
Lemma no_event_client {A} (m : M Client A) : no_event (on_client m).
Proof. intros p. unfold on_client, zoom. by destruct (m _). Qed.
Lemma no_event_run {A} (m : PM A) p a p' : no_event m → m p = (Ret a, p') → pr_events p' = pr_events p.
Proof. intros Hm Hp. specialize (Hm p). by rewrite Hp in Hm. Qed.

(** What [local_pool_runner] gives its caller, and what it starts: the exit code is 0
    whatever its function returned, and the hooks of the memory arena are not installed,
    whatever the arena mode. *)
Theorem local_pool_runner_exit args p code p' :
  main_local_pool_runner args p = (Ret code, p') →
  code = 0 ∧ pr_events p' = pr_events p ++ [SchedulerShutdown; HostAdded; RunnerStarted; RunnerStopped].
Proof.
  unfold main_local_pool_runner. intros ([] & p1 & Hinit & Hm)%run_bind_inv.
  do 3 (apply run_bind_inv in Hm as ([] & ? & [= <-] & Hm)).
  apply run_bind_inv in Hm as ([[[u f] i] c] & p2 & [= Hparse <-] & Hm). apply run_bind_inv in Hm as (r & p3 & Hrun & Hm).
  apply run_bind_inv in Hm as ([] & ? & [= <-] & Hm). apply run_bind_inv in Hm as ([] & p4 & Hleave & [= <- <-]).
  split; [done|]. apply no_event_run in Hinit, Hrun, Hleave; [|apply no_event_client|apply no_event_work|apply no_event_client].
  rewrite Hleave. cbn [pr_events]. rewrite Hrun. cbn [pr_events]. rewrite Hinit. by rewrite <- !app_assoc.
Qed.
End mains.

(** * Listening

    The loop of [UploadServer::listen], for so many rounds of two seconds: it ends when
    [stopped] is set, which [UploadServer::stop] does, and no program calls. *)
Section listening.
Context {X : Type} (stopped : X → bool) (sleepMs : Z → X → X).

Fixpoint listen_loop (rounds : nat) : M X unit :=
  x ← get;
  if stopped x then mret ()
  else match rounds with
       | O => throw (Blocked "UploadServer::listen")
       | S rounds => modify (sleepMs 2000) ;; listen_loop rounds
       end.

(** It ends in the first round that finds the server stopped, and only so. *)
Theorem listen_loop_ends rounds x :
  (listen_loop rounds x).1 = Ret () ↔ ∃ n, (n ≤ rounds)%nat ∧ stopped (Nat.iter n (sleepMs 2000) x) = true.
Proof.
  induction rounds as [|rounds IH] in x |- *; cbn [listen_loop]; rewrite run_bind; unfold get; cbv beta iota.
  - destruct (stopped x) eqn:Hx; split; [by exists 0%nat|done|done|]. intros (n & Hn & Hs).
    assert (n = 0%nat) as -> by lia. cbn in Hs. congruence.
  - destruct (stopped x) eqn:Hx; [split; [by exists 0%nat; split; [lia|]|done]|]. rewrite run_bind. unfold modify.
    rewrite IH. split; intros (n & Hn & Hs).
    + exists (S n). split; [lia|]. by rewrite Nat.iter_succ_r.
    + destruct n as [|n]; [cbn in Hs; congruence|]. exists n. split; [lia|]. by rewrite Nat.iter_succ_r in Hs.
Qed.
End listening.
