(* ===== verification/Symbols.v ===== *)
(** The symbols of a function: the names that a disassembly gives its functions, by the
    labels that machine code has for them (src/wavm/WAVMWasmModule.cpp), and the tool
    that writes them next to the code (src/runner/func_sym.cpp). *)

From stdpp Require Import sorting.
From S2P Require Import Prelude Text WasmBytes S3 Host FileLoader Startup.

(** A parsed module, as far as it is read here: how many of its functions are imports,
    which come first, and the names of all of them by WAVM's [getDisassemblyNames]. *)
Record IRNames := mkIRNames { nImports : nat; disassemblyNames : list string }.

(** The label of the function with index [i]. *)
Definition funcName (nImports i : nat) : string :=
  let isImport := (i <? nImports)%nat in
  let nameIdx := (if isImport then i else i - nImports)%nat in
  let baseName := if isImport then "functionImport" else "functionDef" in
  baseName +:+ to_string (Z.of_nat nameIdx).

(** [std::map::insert]: a key that is there keeps its value. *)
Definition map_insert (k v : string) (m : gmap string string) : gmap string string :=
  match m !! k with Some _ => m | None => <[k := v]> m end.

Fixpoint disassembly_from (i : nat) (nImports : nat) (names : list string) (output : gmap string string) : gmap string string :=
  match names with
  | [] => output
  | disasName :: names => disassembly_from (S i) nImports names (map_insert (funcName nImports i) disasName output)
  end.
Definition buildDisassemblyMap (m : IRNames) : gmap string string :=
  disassembly_from 0 (nImports m) (disassemblyNames m) ∅.

(** The lines of the file, in the order of a [std::map]: by label, byte by byte. *)
Definition label_le (p q : string * string) : Prop := Is_true (String.leb p.1 q.1).
#[export] Instance label_le_dec p q : Decision (label_le p q).
Proof. unfold label_le. apply _. Defined.
#[export] Instance label_le_total : Total label_le.
Proof. intros p q. unfold label_le. rewrite !Is_true_true. apply String.leb_total. Qed.

Definition symbol_entries (m : gmap string string) : list (string * string) := merge_sort label_le (map_to_list m).
Definition symbol_line (p : string * string) : string := p.1 +:+ " = " +:+ p.2.
Definition endl : string := String (Ascii.ascii_of_nat 10) EmptyString.
Definition symbols_text (m : gmap string string) : string :=
  foldr (λ p rest, symbol_line p +:+ endl +:+ rest) "" (symbol_entries m).

(** [main] after the arguments: binding a module and asking for its parsed form are
    parameters; an [ofstream] that cannot be opened writes nothing and says nothing. *)
Section func_sym.
Context `{Rados} `{Host} (conf : FaasmConfig) (nativeCodegenTarget : CodegenTargetSpec).
Context (bind_module : FuncMsg → M World IRNames) (ofstream_out : string → list Z → K → K).

Definition disassemble (user function : string) : M World unit :=
  let call := mkFuncMsg user function "" false "" "" in
  m ← bind_module call;
  outPath ← getFunctionSymbolsFile conf call nativeCodegenTarget;
  modify (λ w, mkWorld (w_s3 w) (ofstream_out outPath (bytes_of_string (symbols_text (buildDisassemblyMap m))) (w_host w))
                 (w_shared w) (w_calls w)).
End func_sym.

(** The whole tool. *)
Definition func_sym `{RadosAdmin} `{Host} (conf : FaasmConfig) (nativeCodegenTarget : CodegenTargetSpec)
    (bind_module : FuncMsg → M World IRNames) (ofstream_out : string → list Z → K → K)
    (vmArenaUffd : bool) (args : list string) : M (Proc World) Z :=
  main_func_sym w_s3 (λ s w, mkWorld s (w_host w) (w_shared w) (w_calls w)) (s3Bucket conf) vmArenaUffd
    (disassemble conf nativeCodegenTarget bind_module ofstream_out) args.

(** * What the map and the file hold *)

Lemma funcName_inj n i j : funcName n i = funcName n j → i = j.
Proof.
  unfold funcName, to_string. destruct (Nat.ltb_spec i n), (Nat.ltb_spec j n); intros Heq.
  - apply (inj (String.append "functionImport")), (inj pretty) in Heq. lia.
  - discriminate Heq.
  - discriminate Heq.
  - apply (inj (String.append "functionDef")), (inj pretty) in Heq. lia.
Qed.

Lemma disassembly_lookup n names i m k name :
  (∀ j, (i ≤ j)%nat → m !! funcName n j = None) →
  disassembly_from i n names m !! k = Some name ↔
  m !! k = Some name ∨ ∃ j, names !! j = Some name ∧ k = funcName n (i + j).
Proof.
  induction names as [|x names IH] in i, m |- *; intros Hfree; cbn [disassembly_from].
  - split; [by left|]. by intros [|(j & ? & _)].
  - unfold map_insert. rewrite Hfree by lia. rewrite IH.
    + split.
      * intros [[[<- <-]|[Hne Hm]]%lookup_insert_Some|(j & Hj & ->)];
          [right; exists 0%nat; by rewrite Nat.add_0_r|by left|right; exists (S j)].
        split; [done|]. f_equal. lia.
      * intros [Hm|([|j] & Hj & ->)].
        -- left. rewrite lookup_insert_ne; [done|]. intros <-. rewrite Hfree in Hm by lia. done.
        -- left. injection Hj as <-. by rewrite Nat.add_0_r, lookup_insert_eq.
        -- right. exists j. split; [done|]. f_equal. lia.
    + intros j Hj. rewrite lookup_insert_ne; [apply Hfree; lia|]. intros Heq%funcName_inj. lia.
Qed.

(** Every function is in the map under its label, with its name, and nothing else is. *)
Theorem buildDisassemblyMap_spec m k name :
  buildDisassemblyMap m !! k = Some name ↔
  ∃ i, disassemblyNames m !! i = Some name ∧ k = funcName (nImports m) i.
Proof.
  unfold buildDisassemblyMap. rewrite disassembly_lookup by (intros; apply lookup_empty).
  split; [by intros [Hm|Hj]; [rewrite lookup_empty in Hm|]|by right].
Qed.

(** The file has one line for each function, with its label and its name, in the order of
    the labels. *)
Theorem symbols_listed m :
  let entries := symbol_entries (buildDisassemblyMap m) in
  Sorted label_le entries ∧ NoDup entries ∧ length entries = length (disassemblyNames m) ∧
  ∀ k name, (k, name) ∈ entries ↔ ∃ i, disassemblyNames m !! i = Some name ∧ k = funcName (nImports m) i.
Proof.
  cbv zeta. unfold symbol_entries. set (dm := buildDisassemblyMap m).
  pose proof (merge_sort_Permutation label_le (map_to_list dm)) as Hperm.
  assert (∀ k name, (k, name) ∈ merge_sort label_le (map_to_list dm) ↔
    ∃ i, disassemblyNames m !! i = Some name ∧ k = funcName (nImports m) i) as Hin.
  { intros k name. rewrite Hperm, elem_of_map_to_list. apply buildDisassemblyMap_spec. }
  split; [apply Sorted_merge_sort, _|]. split; [rewrite Hperm; apply NoDup_map_to_list|]. split; [|done].
  set (labels := imap (λ i name, (funcName (nImports m) i, name)) (disassemblyNames m)).
  assert (merge_sort label_le (map_to_list dm) ≡ₚ labels) as ->; [|unfold labels; apply length_imap].
  apply NoDup_Permutation.
  - rewrite Hperm. apply NoDup_map_to_list.
  - apply NoDup_alt. intros i j [k name] Hi Hj. unfold labels in Hi, Hj. rewrite list_lookup_imap in Hi, Hj.
    apply fmap_Some in Hi as (x & _ & [= -> _]). apply fmap_Some in Hj as (y & _ & [= Hk _]). by apply funcName_inj in Hk.
  - intros [k name]. rewrite Hin. unfold labels. rewrite list_elem_of_lookup. setoid_rewrite list_lookup_imap.
    split.
    + intros (i & Hi & ->). exists i. by rewrite Hi.
    + intros (i & (x & Hx & [= -> ->])%fmap_Some). by exists i.
Qed.
